(* ===== verification/_CoqProject ===== *)
-Q . S2P
Prelude.v
BitFields.v
ErrState.v
FragBuf.v
KHeap.v
FragAlloc.v
DbAlloc.v
DrvState.v
Mailbox.v
QpTypes.v
QpState.v
QpContext.v
SqSize.v
WqeSeg.v
SqRing.v
PostSend.v
PostRing.v
PostSendThm.v
Strides.v
RecvQueue.v
Srq.v
Cqe.v
CqRing.v
CqResize.v
CqPoll.v
GsiRing.v
GsiFifo.v
GsiLife.v
QpSystem.v
CqPollThm.v
RecvTarget.v
QpModify.v
QpExample.v
QpModifyThm.v
QpReset.v
QpQuery.v
QpCreate.v
QpLife.v
CqCreate.v
CqLife.v
SrqCreate.v
SrqLife.v
SrqQuery.v
RcBringUp.v
RcCreate.v
RcLife.v
Packer.v
SaRecords.v
UdHeader.v
Smi.v
RecvHelper.v
VirtualQueue.v
VirtualQueueThm.v
CmdMsg.v
CmdExec.v
CmdFw.v
CmdLife.v
CmdCache.v
CmdCall.v
CmdRace.v
CmdInit.v
