(* ===== verification/Prelude.v ===== *)
(** * Verification of KRCore's RDMA path

    KRCore gives user processes kernel-managed RDMA connections.  The repository
    holds three layers that call one another: the system-call module
    (src/KRdmaKit-syscall) with its virtual queues; the Rust kernel library it
    is built on (src/rust-kernel-rdma/KRdmaKit); and the InfiniBand stack of OFED
    4.9 (src/mlnx-ofed-4.9-driver), of which the mlx5 driver and the core of the
    verbs are on KRCore's path.  A process's push becomes work requests on a
    physical queue pair; the driver writes them as WQEs into a ring in fragmented
    DMA memory and rings a doorbell; the device answers with completion entries
    in another ring, which a poll turns back into completions.  Before that,
    queues are created, connected through a sequence of states, and later reset
    or destroyed.

    ** Conventions

    C and Rust integers are [Z] with the conversions ([u8], [u16], [u32], [u64],
    [s32]) written where the source converts; [.& .| .^ <<. >>.] are the bit
    operations, and [test f m] is a C condition [f & m].  Errors are the negative
    numbers of the source (the left of a sum, or the first component of a
    result), undefined behaviour and Rust panics are [None].  Memory is bytes at
    addresses of a buffer.  State is passed explicitly; code that threads state
    and errors through many calls uses the monad of ErrState ([es S A]) or that
    of PostSend.  The total-correctness judgements [runs m s Q] and [wp m Q s]
    include that [m] runs without undefined behaviour.  The arithmetic of Rust is
    checked, as in builds with overflow checks: an overflow is a panic, not a
    wrapped value.  The fields of a command's mailbox are kept by name as numbers;
    that they fit the bits the firmware's layout gives them is part of the
    invariants where it matters, and truncation by MLX5_SET is not modelled.  What
    lies outside the
    sources is a parameter: the allocators (an [oracle] says which requests are
    granted), the device (its answer to each command), the contents of fresh
    memory, memory keys and the security hooks.

    ** Memory

    - KHeap: kernel and DMA allocations; freeing what is not live is undefined.
    - FragBuf, Strides: struct mlx5_frag_buf_ctrl and its index arithmetic
      (include/linux/mlx5/driver.h); entries of a queue as linear addresses.
    - FragAlloc, DbAlloc: buffers, page lists and doorbell records
      (mlx5/core/alloc.c): nothing is lost or freed twice on any path, and a
      doorbell record is handed out once.
    - DrvState: both together as the state the drivers' objects are made of;
      [owned cls m D st] is the ownership invariant, with one rule per operation.
    - BitFields: words composed of disjoint bit fields.

    ** The send path (hw/mlx5/qp.c)

    - QpTypes, SqSize: calc_sq_size and set_rq_size produce rings that hold what
      was promised, within their bounds.
    - WqeSeg, SqRing, PostSend: each segment, the cursor over fragments, and the
      whole of _mlx5_ib_post_send.  PostRing is its program logic.
    - PostSendThm: posting is refinement of a specification that knows nothing
      of fragments: exactly the images of the accepted requests are in the ring,
      and a refused request leaves the ones before it posted.
    - QpSystem: posting and completing as a transition system; no WQE is written
      over one the device still owns, the queue never wedges, and flushing
      reports the outstanding requests.

    ** Receiving and completing (hw/mlx5/qp.c, srq.c, cq.c)

    - RecvQueue, Srq: posting to a receive queue and to a shared one, whose free
      list is kept in the WQEs themselves.  RecvTarget is the contract both meet,
      a pair of type classes with one instance each; clients are proved against
      it.
    - Cqe, CqRing, CqResize, CqPoll, CqPollThm: decoding and ownership of
      entries, cleaning as filtering, resizing (and what it destroys), polling
      with every kind of entry; a poll ends, and what it reports is what the
      entry says.

    ** The command interface (mlx5/core/cmd.c)

    - CmdMsg: messages as chains of mailboxes in the DMA pool, with their tokens
      and signatures; what is copied in is what the device reads, and back.
    - CmdExec, CmdFw: entries, slots, semaphores, cmd_work_handler, wait_func,
      the completion handler, mlx5_cmd_invoke and cmd_exec; the firmware is a
      class with what is assumed of it.
    - CmdLife, CmdCache, CmdCall: the memory of a command, the five caches of
      messages, and calls one after the other: output and status are the
      firmware's, nothing is lost, and what calls that time out or are cancelled
      leave behind.
    - CmdRace: commands of several callers at once.  The handlers are the steps,
      in any order; each slot has one owner as long as a timeout acts on the
      command that timed out, and [timeout_completes_another] is what the code
      does otherwise.
    - CmdInit: mlx5_cmd_init and mlx5_cmd_cleanup with the objects in sysfs and
      debugfs (core/debugfs.c).

    ** The life of queues

    - QpState, QpContext, QpModify, QpModifyThm: the transition table, the
      context of each command, and mlx5_ib_modify_qp; the driver's idea of the
      state follows the device's, along sequences of calls and refusals.
    - QpReset, QpQuery: a reset restores the data-path invariants; a query reads
      what was set.
    - Mailbox, QpCreate, QpLife, CqCreate, CqLife, SrqCreate, SrqLife, SrqQuery:
      creation and destruction from the verbs down to the commands.  A creation
      leaves no trace or gives an object whose invariants hold and which the
      device was told about correctly; destruction gives everything back; making
      and destroying leads back to the same memory and tables.
    - RcBringUp, RcCreate, RcLife: KRCore's RC on top of the above - making it,
      connecting it by ib_cm_init_qp_attr and ib_modify_qp, and dropping it.
      [rc_life] composes the theorems of the parts; [rc_new_hides_failure] is
      what the library does not notice.

    ** Queue pair 1 (hw/mlx5/gsi.c)

    - GsiRing, GsiFifo: sends of management datagrams go out on several queue
      pairs and complete in any order; the ring of outstanding sends implements
      a queue, whose completions reach the completion queue of CqPoll in the
      order of posting.  [gsi_undo_loses_completions] is what a failed send does
      to it later.
    - GsiLife: making, setting up and destroying the wrapper, against the verbs
      as an interface (the class GsiVerbs with its laws).

    ** Management packets (infiniband/core)

    - Packer, SaRecords, UdHeader: ib_pack and ib_unpack are inverse on every
      table that keeps its fields apart, the tables of the SA do, and the headers
      of a datagram come back.
    - Smi: directed-route packets reach their destination and return, and the
      handlers stay within the path arrays.

    ** KRCore's queues

    - RecvHelper: the ring of receive requests (qp/recv_helper.rs).
    - VirtualQueue, VirtualQueueThm: push and pop (virtual_queue.rs, core.rs,
      rc_op.rs, dc_op.rs, ud_op.rs, the receive buffers of ctrl.rs).  The Push
      command is modelled on connected queues and on bound ports; a push on a
      connected queue is the WQEs of its requests in the driver's ring, batching
      does not matter, and a pop collects the completions in order.

    ** Bounds and fuel

    Loops of the source that are not structural take fuel from the data they run
    over: copying into a WQE the length of what is copied; walking a chain of
    requests the size of the ring; the last_poll chain the entries of the send
    queue; cleaning and resizing the entries of the completion queue plus two;
    polling twice that, since every round consumes an entry or ends (a poll says
    whether it ran out of rounds or met undefined behaviour, and the first is
    excluded); a push the number of its requests; a pop its retry limit plus two;
    waiting for a completion takes the number of polls as a parameter, and may
    not end, as in the source; the completions of
    queue pair 1 the entries of its ring plus one; finding the page size
    of a contiguous buffer the bits of its size.  Where fuel could run
    out the result is [None], and the theorems state that it is not, from the
    invariants.  Sizes assumed of the device are hypotheses by name
    ([limits_ok], [0 <= log_max_cq_sz dev <= 23] and the like); each theorem with
    hypotheses is applied to a concrete configuration by its witness.

    ** Not modelled

    Concurrency within a call: locks are taken where the source takes them and
    the bodies between them are the steps here; of the command interface the
    handlers run without interruption by one another; memory barriers and the order in
    which the device sees two stores are not represented.  Queues of user
    processes (mapped memory, udata), raw packet, RSS and DC target queue pairs,
    NVMe-oF queues and peer-direct entries; where modelled code calls
    them they are parameters.  Memory registration, flow steering, the Ethernet
    driver, event and health handling; of the command interface its statistics,
    the files of debugfs and sysfs beyond their making, and the switch to events; the
    messages of the CM, SA and MAD protocols and their timers; the uverbs
    interface; the other providers, the software transports, the upper layer
    protocols and the user-space rdma-core that are copied in the tree; of the
    Rust part the RPC and metadata services, start-up, UD and DC set-up, and
    the generated bindings. *)

From Stdlib Require Export ZArith Lia.
From stdpp Require Export base numbers list option gmap.

#[global] Open Scope Z_scope.

(** * Prelude: machine integers, byte order, control flow *)

(** ** Constants of the target (x86-64 Linux, 4 KiB pages) *)

Definition PAGE_SHIFT : Z := 12.
Definition PAGE_SIZE : Z := 4096.

Definition EPERM : Z := 1.
Definition EIO : Z := 5.
Definition EAGAIN : Z := 11.
Definition ENOMEM : Z := 12.
Definition EFAULT : Z := 14.
Definition EINVAL : Z := 22.
Definition ENOSYS : Z := 38.
Definition EOPNOTSUPP : Z := 95.

(** ** Fixed-width integers

    A C integer is a [Z] in the range of its type; every operation that can
    leave the range is followed by the conversion the C code performs. *)

Definition u8 (x : Z) : Z := x mod 2 ^ 8.
Definition u16 (x : Z) : Z := x mod 2 ^ 16.
Definition u32 (x : Z) : Z := x mod 2 ^ 32.
Definition u64 (x : Z) : Z := x mod 2 ^ 64.
Definition s32 (x : Z) : Z := (x + 2 ^ 31) mod 2 ^ 32 - 2 ^ 31.

Declare Scope c_scope.
Delimit Scope c_scope with c.
Notation "x .& y" := (Z.land x y) (at level 40, left associativity) : c_scope.
Notation "x .| y" := (Z.lor x y) (at level 50, left associativity) : c_scope.
Notation "x .^ y" := (Z.lxor x y) (at level 50, left associativity) : c_scope.
Notation "x <<. y" := (Z.shiftl x y) (at level 45, left associativity) : c_scope.
Notation "x >>. y" := (Z.shiftr x y) (at level 45, left associativity) : c_scope.
#[global] Open Scope c_scope.

(** C truth value of a bit test, [if (f & m)]. *)
Definition test (f m : Z) : bool := negb (Z.land f m =? 0).

(** Decide the bit tests of two constants. *)
Ltac test_consts :=
  repeat match goal with
  | |- context [test ?a ?b] =>
      let v := eval vm_compute in (test a b) in
      match v with
      | true => change (test a b) with true
      | false => change (test a b) with false
      end
  end.

Definition b2z (b : bool) : Z := if b then 1 else 0.

(** Kernel arithmetic helpers; [a] in [ALIGN] is a power of two. *)
Definition ALIGN (x a : Z) : Z := (x + (a - 1)) .& Z.lnot (a - 1).
Definition DIV_ROUND_UP (n d : Z) : Z := (n + d - 1) / d.
Definition ilog2 (n : Z) : Z := Z.log2 n.
Definition roundup_pow_of_two (n : Z) : Z := 2 ^ Z.log2_up n.
Definition is_power_of_2 (n : Z) : bool := negb (n =? 0) && (n .& (n - 1) =? 0).

(** ** Byte order *)

(** The [n] low bytes of [v], most significant first: [cpu_to_be16/32/64]. *)
Fixpoint be_bytes (n : nat) (v : Z) : list Z :=
  match n with
  | O => []
  | S n' => u8 (v >>. (8 * Z.of_nat n')) :: be_bytes n' v
  end.

(** The integer a big-endian byte string denotes: [be16/32/64_to_cpu]. *)
Fixpoint be_val (bs : list Z) : Z :=
  match bs with
  | [] => 0
  | b :: r => b * 2 ^ (8 * Z.of_nat (length r)) + be_val r
  end.

Definition be16 (v : Z) : list Z := be_bytes 2 v.
Definition be32 (v : Z) : list Z := be_bytes 4 v.
Definition be64 (v : Z) : list Z := be_bytes 8 v.
Definition zeros (n : nat) : list Z := replicate n 0.

Definition byte_ok (b : Z) : Prop := 0 <= b < 256.
Definition bytes_ok (bs : list Z) : Prop := Forall byte_ok bs.

(** Equality of memory contents: pointwise, since a byte memory is a function. *)
Definition feq (f g : Z -> Z) : Prop := forall k, f k = g k.
Infix "≐" := feq (at level 70) : stdpp_scope.

#[export] Instance feq_equiv : Equivalence feq.
Proof. split; [done|intros f g H k; by rewrite H|intros f g h H1 H2 k; by rewrite H1, H2]. Qed.

(** ** Automation *)

Create HintDb krc.
Create Rewrite HintDb krc.

(** Case analysis on the integer tests of the goal and of the context. *)
Ltac zcases :=
  repeat match goal with
  | |- context [Z.eqb ?a ?b] => destruct (Z.eqb_spec a b)
  | |- context [Z.ltb ?a ?b] => destruct (Z.ltb_spec a b)
  | |- context [Z.leb ?a ?b] => destruct (Z.leb_spec a b)
  | H : context [Z.eqb ?a ?b] |- _ => destruct (Z.eqb_spec a b)
  | H : context [Z.ltb ?a ?b] |- _ => destruct (Z.ltb_spec a b)
  | H : context [Z.leb ?a ?b] |- _ => destruct (Z.leb_spec a b)
  end.

(** Turn boolean conjunctions and integer tests of the context into propositions. *)
Ltac zbool :=
  repeat match goal with
  | H : andb _ _ = true |- _ => apply andb_true_iff in H; destruct H
  | H : orb _ _ = false |- _ => apply orb_false_iff in H; destruct H
  | H : negb _ = true |- _ => apply negb_true_iff in H
  | H : negb _ = false |- _ => apply negb_false_iff in H
  | H : Z.eqb _ _ = true |- _ => apply Z.eqb_eq in H
  | H : Z.eqb _ _ = false |- _ => apply Z.eqb_neq in H
  | H : Z.ltb _ _ = true |- _ => apply Z.ltb_lt in H
  | H : Z.ltb _ _ = false |- _ => apply Z.ltb_ge in H
  | H : Z.leb _ _ = true |- _ => apply Z.leb_le in H
  | H : Z.leb _ _ = false |- _ => apply Z.leb_gt in H
  end.

(** [lia] with division and modulo by constants expanded. *)
Ltac dlia := Z.div_mod_to_equations; lia.
Ltac dnia := Z.div_mod_to_equations; nia.

(** ** Powers of two and masks *)

Lemma pow2_pos k : 0 <= k -> 0 < 2 ^ k.
Proof. intros; apply Z.pow_pos_nonneg; lia. Qed.

Lemma land_mask x k : 0 <= k -> x .& (2 ^ k - 1) = x mod 2 ^ k.
Proof.
  intros Hk. replace (2 ^ k - 1) with (Z.ones k) by (rewrite Z.ones_equiv; lia).
  by rewrite Z.land_ones.
Qed.

Lemma land_clear x k : 0 <= k -> x .& Z.lnot (2 ^ k - 1) = x - x mod 2 ^ k.
Proof.
  intros Hk. replace (2 ^ k - 1) with (Z.ones k) by (rewrite Z.ones_equiv; lia).
  rewrite <- Z.ldiff_land, Z.ldiff_ones_r by done.
  rewrite Z.shiftl_mul_pow2, Z.shiftr_div_pow2 by done.
  pose proof (Z.div_mod x (2 ^ k)). pose proof (pow2_pos k Hk). lia.
Qed.

Lemma ALIGN_spec x k : 0 <= k -> ALIGN x (2 ^ k) = 2 ^ k * ((x + (2 ^ k - 1)) / 2 ^ k).
Proof.
  intros Hk. unfold ALIGN. rewrite land_clear by done.
  pose proof (Z.div_mod (x + (2 ^ k - 1)) (2 ^ k)). pose proof (pow2_pos k Hk). lia.
Qed.

Lemma ALIGN_16 x : ALIGN x 16 = 16 * ((x + 15) / 16).
Proof. exact (ALIGN_spec x 4 ltac:(lia)). Qed.

Lemma ALIGN_64 x : ALIGN x 64 = 64 * ((x + 63) / 64).
Proof. exact (ALIGN_spec x 6 ltac:(lia)). Qed.

Lemma lor_disjoint a b : a .& b = 0 -> a .| b = a + b.
Proof. intros H. by rewrite <- Z.lxor_lor, Z.add_nocarry_lxor. Qed.

Lemma land_low_high a b k : 0 <= k -> 0 <= a < 2 ^ k -> a .& (b * 2 ^ k) = 0.
Proof.
  intros Hk Ha. apply Z.bits_inj'; intros i Hi.
  rewrite Z.land_spec, Z.bits_0. destruct (Z.lt_ge_cases i k).
  - by rewrite Z.mul_pow2_bits_low, andb_false_r.
  - rewrite <- (Z.mod_small a (2 ^ k)), Z.mod_pow2_bits_high by lia. done.
Qed.

(** Disjoint bit fields: or-ing them is adding them. *)
Lemma lor_low_high a b k : 0 <= k -> 0 <= a < 2 ^ k -> a .| (b * 2 ^ k) = a + b * 2 ^ k.
Proof. intros. by apply lor_disjoint, land_low_high. Qed.

(** Setting the low [k] bits keeps the bits above and fills those below. *)
Lemma lor_mask x k : 0 <= k -> x .| (2 ^ k - 1) = 2 ^ k * (x / 2 ^ k) + (2 ^ k - 1).
Proof.
  intros Hk. pose proof (pow2_pos k Hk).
  transitivity ((2 ^ k - 1) .| (x / 2 ^ k * 2 ^ k)).
  - apply Z.bits_inj'; intros i Hi. rewrite !Z.lor_spec.
    replace (2 ^ k - 1) with (Z.ones k) by (rewrite Z.ones_equiv; lia).
    destruct (Z.lt_ge_cases i k).
    + rewrite Z.ones_spec_low, orb_true_r by lia. done.
    + rewrite Z.ones_spec_high, Z.mul_pow2_bits, Z.div_pow2_bits by lia.
      rewrite orb_false_r, orb_false_l. f_equal; lia.
  - rewrite lor_low_high by lia. lia.
Qed.

(** ** Wrap-around *)

Lemma u16_range x : 0 <= u16 x < 65536.
Proof. apply Z.mod_pos_bound; lia. Qed.
Lemma u32_range x : 0 <= u32 x < 4294967296.
Proof. apply Z.mod_pos_bound; lia. Qed.
Lemma u8_range x : 0 <= u8 x < 256.
Proof. apply Z.mod_pos_bound; lia. Qed.
Lemma u64_range x : 0 <= u64 x < 2 ^ 64.
Proof. apply Z.mod_pos_bound; lia. Qed.

Lemma u8_small x : 0 <= x < 256 -> u8 x = x.
Proof. intros; apply Z.mod_small; lia. Qed.
Lemma u16_small x : 0 <= x < 65536 -> u16 x = x.
Proof. intros; apply Z.mod_small; lia. Qed.
Lemma u32_small x : 0 <= x < 4294967296 -> u32 x = x.
Proof. intros; apply Z.mod_small; lia. Qed.
Lemma u64_small x : 0 <= x < 2 ^ 64 -> u64 x = x.
Proof. intros; apply Z.mod_small; lia. Qed.
Lemma s32_small x : - 2147483648 <= x < 2147483648 -> s32 x = x.
Proof. intros. unfold s32. rewrite Z.mod_small; lia. Qed.

(** Reducing modulo a power of two absorbs a wrap at a larger one. *)
Lemma u32_add a b : u32 (u32 a + b) = u32 (a + b).
Proof. unfold u32. apply Zplus_mod_idemp_l. Qed.
Lemma u32_sub a b : u32 (u32 a - b) = u32 (a - b).
Proof. unfold u32. apply Zminus_mod_idemp_l. Qed.
Lemma u32_sub_cancel a d : 0 <= d < 4294967296 -> u32 (a - u32 (a - d)) = d.
Proof.
  intros Hd. replace (a - u32 (a - d)) with (d + (a - d - u32 (a - d))) by lia.
  unfold u32. rewrite Zplus_mod, Zminus_mod_idemp_r, Z.sub_diag, Z.mod_0_l, Z.add_0_r, Z.mod_mod by lia.
  apply Z.mod_small. lia.
Qed.
Lemma s32_u32_sub a b : s32 (u32 a - b) = s32 (a - b).
Proof.
  unfold s32, u32. change (2 ^ 32) with 4294967296. f_equal.
  replace (a mod 4294967296 - b + 2 ^ 31) with (a mod 4294967296 + (2 ^ 31 - b)) by lia.
  rewrite Zplus_mod_idemp_l. f_equal. lia.
Qed.

Lemma mod_pow2_mod x j k : 0 <= j <= k -> (x mod 2 ^ k) mod 2 ^ j = x mod 2 ^ j.
Proof.
  intros H. apply Z.bits_inj'; intros i Hi.
  destruct (Z.lt_ge_cases i j).
  - by rewrite !Z.mod_pow2_bits_low by lia.
  - by rewrite !Z.mod_pow2_bits_high by lia.
Qed.

Lemma u32_mod x k : 0 <= k <= 32 -> u32 x mod 2 ^ k = x mod 2 ^ k.
Proof. apply mod_pow2_mod. Qed.
Lemma u16_mod x k : 0 <= k <= 16 -> u16 x mod 2 ^ k = x mod 2 ^ k.
Proof. apply mod_pow2_mod. Qed.

(** Wrapped subtraction recovers a small distance. *)
Lemma u32_sub_add a d : 0 <= d < 4294967296 -> u32 (u32 (a + d) - a) = d.
Proof.
  intros. unfold u32. rewrite Zminus_mod_idemp_l.
  replace (a + d - a) with d by lia. by apply Z.mod_small.
Qed.

#[export] Hint Resolve u8_range u16_range u32_range u64_range pow2_pos : krc.

(** ** Byte strings *)

Lemma length_be_bytes n v : length (be_bytes n v) = n.
Proof. induction n; simpl; congruence. Qed.

Lemma be_bytes_ok n v : bytes_ok (be_bytes n v).
Proof. induction n; constructor; auto. apply u8_range. Qed.

Lemma be_val_range bs : bytes_ok bs -> 0 <= be_val bs < 2 ^ (8 * Z.of_nat (length bs)).
Proof.
  induction 1 as [|b r Hb Hr IH]; [simpl; lia|].
  cbn [be_val length]. unfold byte_ok in Hb.
  replace (8 * Z.of_nat (S (length r))) with (8 + 8 * Z.of_nat (length r)) by lia.
  rewrite Z.pow_add_r by lia. change (2 ^ 8) with 256.
  pose proof (pow2_pos (8 * Z.of_nat (length r))). nia.
Qed.

(** Encoding then decoding keeps the low [n] bytes. *)
Lemma be_val_bytes n v : be_val (be_bytes n v) = v mod 2 ^ (8 * Z.of_nat n).
Proof.
  induction n as [|n IH]; [by rewrite Z.mod_1_r|].
  cbn [be_bytes be_val]. rewrite IH, length_be_bytes.
  rewrite Z.shiftr_div_pow2 by lia. unfold u8.
  replace (8 * Z.of_nat (S n)) with (8 * Z.of_nat n + 8) by lia.
  rewrite Z.pow_add_r by lia.
  rewrite (Z.rem_mul_r v) by (pose proof (pow2_pos (8 * Z.of_nat n)); lia). lia.
Qed.

(** Decoding then encoding gives the bytes back. *)
Lemma be_bytes_val bs : bytes_ok bs -> be_bytes (length bs) (be_val bs) = bs.
Proof.
  assert (Hlow : forall n v w, be_bytes n (v * 2 ^ (8 * Z.of_nat n) + w) = be_bytes n w).
  { intros n v w. assert (H : forall m, (m <= n)%nat ->
      be_bytes m (v * 2 ^ (8 * Z.of_nat n) + w) = be_bytes m w); [|by apply H].
    induction m as [|m IH]; intros Hm; [done|]. cbn [be_bytes].
    rewrite IH by lia. f_equal. rewrite !Z.shiftr_div_pow2 by lia. unfold u8.
    replace (8 * Z.of_nat n) with (8 * (Z.of_nat n - Z.of_nat m - 1) + 8 + 8 * Z.of_nat m) by lia.
    rewrite !Z.pow_add_r by lia.
    replace (v * (2 ^ (8 * (Z.of_nat n - Z.of_nat m - 1)) * 2 ^ 8 * 2 ^ (8 * Z.of_nat m)) + w)
      with ((v * 2 ^ (8 * (Z.of_nat n - Z.of_nat m - 1)) * 2 ^ 8) * 2 ^ (8 * Z.of_nat m) + w) by lia.
    rewrite Z.div_add_l by (pose proof (pow2_pos (8 * Z.of_nat m)); lia).
    by rewrite Z.add_comm, Z_mod_plus_full. }
  induction 1 as [|b r Hb Hr IH]; [done|].
  cbn [be_val length be_bytes]. rewrite Hlow, IH. f_equal.
  rewrite Z.shiftr_div_pow2 by lia.
  rewrite Z.div_add_l by (pose proof (pow2_pos (8 * Z.of_nat (length r))); lia).
  rewrite Z.div_small by (by apply be_val_range). rewrite Z.add_0_r. by apply u8_small.
Qed.

#[export] Hint Rewrite length_be_bytes : krc.
#[export] Hint Resolve be_bytes_ok : krc.
