(* ===== verification/BitFields.v ===== *)
(** * BitFields: integers put together from disjoint fields

    The device reads its words as fields of bits; the driver or-s shifted values
    together.  A word is a list of fields, each a position, a width and a value;
    as long as the fields do not overlap, each can be read back by itself. *)

From S2P Require Import Prelude.

(** position, width, value *)
Definition bfield : Type := Z * Z * Z.

Definition word (l : list bfield) : Z := foldr (fun '(p, w, v) acc => (v <<. p) .| acc) 0 l.

(** Reading the field of width [w] at [p]. *)
Definition get_field (p w x : Z) : Z := (x >>. p) .& (2 ^ w - 1).

Definition apart (f g : bfield) : bool :=
  let '(p1, w1, _) := f in let '(p2, w2, _) := g in (p1 + w1 <=? p2) || (p2 + w2 <=? p1).

(** Positions and widths make sense and no field overlaps a later one. *)
Fixpoint layout (l : list bfield) : bool :=
  match l with
  | [] => true
  | f :: r => let '(p, w, _) := f in (0 <=? p) && (0 <=? w) && forallb (apart f) r && layout r
  end.

Definition in_width (f : bfield) : Prop := let '(_, w, v) := f in 0 <= v < 2 ^ w.

Lemma testbit_above v w i : 0 <= v < 2 ^ w -> 0 <= w <= i -> Z.testbit v i = false.
Proof. intros Hv Hi. rewrite <- (Z.mod_small v (2 ^ w)) by done. by apply Z.mod_pow2_bits_high. Qed.

(** A bit outside of all fields is clear. *)
Lemma word_outside l p w i :
  layout l = true -> Forall in_width l -> forallb (apart (p, w, 0)) l = true ->
  0 <= i -> p <= i < p + w -> Z.testbit (word l) i = false.
Proof.
  induction l as [|[[q u] v] r IH]; intros Hl Hw Ha Hi Hin; [apply Z.bits_0|].
  simpl in Hl, Ha. apply Forall_cons in Hw as [Hv Hw]. simpl in Hv. zbool.
  cbn [word foldr]. rewrite Z.lor_spec, Z.shiftl_spec by done. apply orb_false_iff. split; [|by apply IH].
  destruct (Z.lt_ge_cases (i - q) 0); [by apply Z.testbit_neg_r|].
  apply (testbit_above v u); [done|]. apply orb_true_iff in H as [?|?]; zbool; lia.
Qed.

Lemma apart_sym f g : apart f g = apart g f.
Proof. destruct f as [[p w] v], g as [[q u] x]. simpl. apply orb_comm. Qed.

Lemma forallb_apart f v r : forallb (apart f) r = forallb (apart (f.1.1, f.1.2, v)) r.
Proof. destruct f as [[p w] x]. induction r as [|[[q u] y] r IH]; simpl in *; congruence. Qed.

Lemma word_bits l p w v i :
  layout l = true -> Forall in_width l -> (p, w, v) ∈ l -> 0 <= i < w ->
  Z.testbit (word l) (p + i) = Z.testbit v i.
Proof.
  induction l as [|[[q u] x] r IH]; intros Hl Hw Hin Hi; [by apply elem_of_nil in Hin|].
  pose proof Hl as Hl0. simpl in Hl. apply Forall_cons in Hw as [Hx Hw]. simpl in Hx. zbool.
  cbn [word foldr]. apply elem_of_cons in Hin as [[= -> -> ->]|Hin].
  - rewrite Z.lor_spec, Z.shiftl_spec by lia. fold (word r).
    rewrite (word_outside r q u) by (auto; try lia; by rewrite <- forallb_apart with (f := (q, u, x))).
    rewrite orb_false_r. f_equal. lia.
  - assert (Hp : 0 <= p).
    { clear -Hin H0. induction r as [|[[a b] c] r IH]; [by apply elem_of_nil in Hin|].
      simpl in H0. zbool. apply elem_of_cons in Hin as [[= -> -> ->]|Hin]; [done|by apply IH]. }
    rewrite Z.lor_spec, Z.shiftl_spec by lia. fold (word r). rewrite IH by done.
    assert (Ha : apart (q, u, x) (p, w, v) = true).
    { rewrite forallb_forall in H1. apply H1. by apply list_elem_of_In. }
    simpl in Ha. destruct (Z.lt_ge_cases (p + i - q) 0); [by rewrite Z.testbit_neg_r|].
    rewrite (testbit_above x u) by (done || (apply orb_true_iff in Ha as [?|?]; zbool; lia)). done.
Qed.

(** Every field can be read back. *)
Lemma word_get l p w v :
  layout l = true -> Forall in_width l -> (p, w, v) ∈ l -> get_field p w (word l) = v.
Proof.
  intros Hl Hw Hin. assert (Hv : in_width (p, w, v)) by (exact (proj1 (Forall_forall _ _) Hw _ Hin)).
  assert (Hpw : 0 <= p /\ 0 <= w).
  { clear -Hl Hin. induction l as [|[[a b] c] r IH]; [by apply elem_of_nil in Hin|].
    simpl in Hl. zbool. apply elem_of_cons in Hin as [[= -> -> ->]|Hin]; [done|by apply IH]. }
  simpl in Hv. unfold get_field. apply Z.bits_inj'. intros i Hi.
  rewrite land_mask by lia. destruct (Z.lt_ge_cases i w).
  - rewrite Z.mod_pow2_bits_low, Z.shiftr_spec, Z.add_comm by lia. by apply (word_bits l p w v).
  - rewrite Z.mod_pow2_bits_high by lia. symmetry. apply (testbit_above v w); lia.
Qed.

(** The top field needs no mask. *)
Lemma get_field_top p w x : 0 <= p -> 0 <= w -> 0 <= x < 2 ^ (p + w) -> get_field p w x = x >>. p.
Proof.
  intros Hp Hw Hx. unfold get_field. rewrite land_mask, Z.shiftr_div_pow2 by done. apply Z.mod_small.
  pose proof (pow2_pos p Hp). rewrite Z.pow_add_r in Hx by done. split; [apply Z.div_pos; lia|].
  apply Z.div_lt_upper_bound; lia.
Qed.

Lemma word_nonneg l : layout l = true -> Forall in_width l -> 0 <= word l.
Proof.
  induction l as [|[[p w] v] r IH]; intros Hl Hw; [done|]. simpl in Hl. apply Forall_cons in Hw as [Hv Hw].
  simpl in Hv. zbool. cbn [word foldr]. apply Z.lor_nonneg. split; [apply Z.shiftl_nonneg; lia|by apply IH].
Qed.

(** A word fits in as many bits as its fields. *)
Lemma word_lt l n :
  layout l = true -> Forall in_width l -> 0 <= n -> Forall (fun '(p, w, _) => p + w <= n) l -> word l < 2 ^ n.
Proof.
  intros Hl Hw Hn Hb. pose proof (word_nonneg l Hl Hw) as H0.
  assert (Hz : word l = word l mod 2 ^ n); [|rewrite Hz; apply Z.mod_pos_bound, pow2_pos; lia].
  apply Z.bits_inj'. intros i Hi. destruct (Z.lt_ge_cases i n); [by rewrite Z.mod_pow2_bits_low|].
  rewrite Z.mod_pow2_bits_high by lia. clear H0.
  induction l as [|[[p w] v] r IH]; [apply Z.bits_0|]. simpl in Hl. apply Forall_cons in Hw as [Hv Hw].
  apply Forall_cons in Hb as [Hpw Hb]. simpl in Hv. zbool. cbn [word foldr].
  rewrite Z.lor_spec, Z.shiftl_spec by lia. apply orb_false_iff. split; [|by apply IH].
  apply (testbit_above v w); [done|lia].
Qed.
