(* ===== verification/ErrState.v ===== *)
(** * ErrState: code that changes a state and can fail

    A computation over a state [S]: undefined behaviour is [None], an error is
    the negative number the C function returns, and either way out the state is
    the one the code leaves behind. *)

From S2P Require Import Prelude.

Section ErrState.
Context {S : Type}.

Definition es (A : Type) : Type := S -> option ((Z + A) * S).

Definition es_ret {A} (a : A) : es A := fun s => Some (inr a, s).
Definition es_fail {A} (e : Z) : es A := fun s => Some (inl e, s).
Definition es_undef {A} : es A := fun _ => None.
Definition es_get : es S := fun s => Some (inr s, s).
Definition es_mod (f : S -> S) : es unit := fun s => Some (inr tt, f s).
Definition es_lift {A} (o : option A) : es A := fun s => a ← o; Some (inr a, s).
Definition es_sum {A} (r : Z + A) : es A := match r with inr a => es_ret a | inl e => es_fail e end.
Definition es_bind {A B} (m : es A) (k : A -> es B) : es B := fun s =>
  '(r, s') ← m s;
  match r with inr a => k a s' | inl e => Some (inl e, s') end.

(** [if (err) goto out; ... out: cleanup; return err]: the cleanup sees the
    error and the error stays. *)
Definition es_cleanup {A} (m : es A) (h : es unit) : es A := fun s =>
  '(r, s') ← m s;
  match r with
  | inr a => Some (inr a, s')
  | inl e => '(_, s'') ← h s'; Some (inl e, s'')
  end.

(** A computation that returns the error code as a number, 0 for success. *)
Definition es_code (m : es unit) (s : S) : option (Z * S) :=
  '(r, s') ← m s; Some (match r with inr _ => 0 | inl e => e end, s').

(** [h] after [m], whatever becomes of it. *)
Definition es_finally {A} (m : es A) (h : es unit) : es A := es_bind (es_cleanup m h) (fun a => es_bind h (fun _ => es_ret a)).

(** Run one step. *)
Lemma es_bind_ok {A B} (m : es A) (k : A -> es B) s a s' : m s = Some (inr a, s') -> es_bind m k s = k a s'.
Proof. intros H. unfold es_bind. by rewrite H. Qed.
Lemma es_bind_err {A B} (m : es A) (k : A -> es B) s e s' :
  m s = Some (inl e, s') -> es_bind m k s = Some (inl e, s').
Proof. intros H. unfold es_bind. by rewrite H. Qed.
Lemma es_get_ok {B} (k : S -> es B) s : es_bind es_get k s = k s s.
Proof. done. Qed.
Lemma es_ret_ok {A B} (a : A) (k : A -> es B) s : es_bind (es_ret a) k s = k a s.
Proof. done. Qed.
Lemma es_mod_ok {B} f (k : unit -> es B) s : es_bind (es_mod f) k s = k tt (f s).
Proof. done. Qed.
Lemma es_lift_ok {A B} (a : A) (k : A -> es B) s : es_bind (es_lift (Some a)) k s = k a s.
Proof. done. Qed.

(** ** Reasoning: [Q] holds of every result *)

Definition post {A} (m : es A) (s : S) (Q : Z + A -> S -> Prop) : Prop :=
  forall r s', m s = Some (r, s') -> Q r s'.

Lemma post_ret {A} (a : A) s (Q : Z + A -> S -> Prop) : Q (inr a) s -> post (es_ret a) s Q.
Proof. by intros H r s' [= <- <-]. Qed.
Lemma post_fail {A} e s (Q : Z + A -> S -> Prop) : Q (inl e) s -> post (es_fail e) s Q.
Proof. by intros H r s' [= <- <-]. Qed.
Lemma post_undef {A} s (Q : Z + A -> S -> Prop) : post es_undef s Q.
Proof. done. Qed.
Lemma post_get s (Q : Z + S -> S -> Prop) : Q (inr s) s -> post es_get s Q.
Proof. by intros H r s' [= <- <-]. Qed.
Lemma post_mod f s (Q : Z + unit -> S -> Prop) : Q (inr tt) (f s) -> post (es_mod f) s Q.
Proof. by intros H r s' [= <- <-]. Qed.
Lemma post_lift {A} (o : option A) s (Q : Z + A -> S -> Prop) :
  (forall a, o = Some a -> Q (inr a) s) -> post (es_lift o) s Q.
Proof. intros H r s'. unfold es_lift. destruct o as [a|]; [|done]. intros [= <- <-]. by apply H. Qed.
Lemma post_bind {A B} (m : es A) (k : A -> es B) s (Q : Z + B -> S -> Prop) :
  post m s (fun r s' => match r with inr a => post (k a) s' Q | inl e => Q (inl e) s' end) ->
  post (es_bind m k) s Q.
Proof.
  intros H r s'. unfold es_bind. destruct (m s) as [[[e|a] s1]|] eqn:E; [| |done]; simpl.
  - intros [= <- <-]. exact (H _ _ E).
  - intros Hk. exact (H _ _ E _ _ Hk).
Qed.
Lemma post_mono {A} (m : es A) s (P Q : Z + A -> S -> Prop) :
  post m s P -> (forall r s', P r s' -> Q r s') -> post m s Q.
Proof. intros H HPQ r s' E. apply HPQ, H, E. Qed.
Lemma post_cleanup {A} (m : es A) h s (Q : Z + A -> S -> Prop) :
  post m s (fun r s' => match r with
                        | inr a => Q (inr a) s'
                        | inl e => post h s' (fun _ s'' => Q (inl e) s'')
                        end) ->
  post (es_cleanup m h) s Q.
Proof.
  intros H r s'. unfold es_cleanup. destruct (m s) as [[[e|a] s1]|] eqn:E; [| |done]; simpl.
  - destruct (h s1) as [[r2 s2]|] eqn:E2; [|done]. simpl. intros [= <- <-]. exact (H _ _ E _ _ E2).
  - intros [= <- <-]. exact (H _ _ E).
Qed.

(** ** Total correctness: the code runs, and [Q] holds of its result *)

Definition runs {A} (m : es A) (s : S) (Q : Z + A -> S -> Prop) : Prop :=
  exists r s', m s = Some (r, s') /\ Q r s'.

Lemma runs_ret {A} (a : A) s (Q : Z + A -> S -> Prop) : Q (inr a) s -> runs (es_ret a) s Q.
Proof. intros H. by exists (inr a), s. Qed.
Lemma runs_fail {A} e s (Q : Z + A -> S -> Prop) : Q (inl e) s -> runs (es_fail e) s Q.
Proof. intros H. by exists (inl e), s. Qed.
Lemma runs_get s (Q : Z + S -> S -> Prop) : Q (inr s) s -> runs es_get s Q.
Proof. intros H. by exists (inr s), s. Qed.
Lemma runs_mod f s (Q : Z + unit -> S -> Prop) : Q (inr tt) (f s) -> runs (es_mod f) s Q.
Proof. intros H. by exists (inr tt), (f s). Qed.
Lemma runs_lift {A} (a : A) s (Q : Z + A -> S -> Prop) : Q (inr a) s -> runs (es_lift (Some a)) s Q.
Proof. intros H. by exists (inr a), s. Qed.
Lemma runs_bind {A B} (m : es A) (k : A -> es B) s (Q : Z + B -> S -> Prop) :
  runs m s (fun r s' => match r with inr a => runs (k a) s' Q | inl e => Q (inl e) s' end) ->
  runs (es_bind m k) s Q.
Proof.
  intros (r & s1 & E & H). unfold runs, es_bind. rewrite E. simpl. destruct r as [e|a]; [eauto|].
  destruct H as (r & s2 & -> & H). eauto.
Qed.
Lemma runs_mono {A} (m : es A) s (P Q : Z + A -> S -> Prop) :
  runs m s P -> (forall r s', P r s' -> Q r s') -> runs m s Q.
Proof. intros (r & s' & E & H) HPQ. exists r, s'. auto. Qed.
Lemma runs_cleanup {A} (m : es A) h s (Q : Z + A -> S -> Prop) :
  runs m s (fun r s' => match r with
                        | inr a => Q (inr a) s'
                        | inl e => runs h s' (fun _ s'' => Q (inl e) s'')
                        end) ->
  runs (es_cleanup m h) s Q.
Proof.
  intros (r & s1 & E & H). unfold runs, es_cleanup. rewrite E. simpl. destruct r as [e|a]; [|eauto].
  destruct H as (r & s2 & -> & H). eauto.
Qed.
Lemma runs_finally {A} (m : es A) h s (Q : Z + A -> S -> Prop) :
  runs m s (fun r s' => runs h s' (fun r' s'' => match r, r' with
                                                 | inr _, inl e => Q (inl e) s''
                                                 | _, _ => Q r s''
                                                 end)) ->
  runs (es_finally m h) s Q.
Proof.
  intros H. apply runs_bind, runs_cleanup. eapply runs_mono; [exact H|]. intros [e|a] s'; simpl; intros Hh.
  - eapply runs_mono; [exact Hh|]. by intros [e'|[]] s''.
  - apply runs_bind. eapply runs_mono; [exact Hh|]. intros [e'|[]] s''; simpl; [done|]. intros HQ. by apply runs_ret.
Qed.
End ErrState.

Arguments es S A : clear implicits.

Declare Scope es_scope.
Delimit Scope es_scope with es.
Notation "'do!' x := m 'in' k" := (es_bind m (fun x => k))
  (at level 10, x pattern, m at level 100, k at level 200) : es_scope.
Notation "m ;; k" := (es_bind m (fun _ => k))
  (at level 100, k at level 200, right associativity) : es_scope.
Notation "'when' b 'then!' m" := (if b then m else es_ret tt)
  (at level 10, b at level 100, m at level 99) : es_scope.
