(* ===== verification/FragBuf.v ===== *)
(** * FragBuf: fragmented queue buffers

    Work queues live in buffers made of page-sized DMA fragments
    (struct mlx5_frag_buf).  This file models the memory of such a buffer
    and the index arithmetic of struct mlx5_frag_buf_ctrl
    (include/linux/mlx5/driver.h). *)

From S2P Require Import Prelude.

(** ** Memory of a fragmented buffer

    A pointer is a fragment number and an offset in the fragment; [off] may be
    [PAGE_SIZE], the C pointer one past the fragment.  [lin] numbers the bytes
    of the whole buffer.  An access that leaves its fragment or the buffer is
    undefined ([None]). *)

Record ptr := mkptr { pg : Z; off : Z }.

Definition lin (p : ptr) : Z := pg p * PAGE_SIZE + off p.
Definition padd (p : ptr) (n : Z) : ptr := {| pg := pg p; off := off p + n |}.
Definition ptr_eqb (p q : ptr) : bool := (pg p =? pg q) && (off p =? off q).

#[export] Instance ptr_eq_dec : EqDecision ptr.
Proof. solve_decision. Defined.

Record frag_mem := mkfrag_mem { fm_size : Z; fm_byte : Z -> Z }.

Definition in_frag (m : frag_mem) (p : ptr) (n : Z) : bool :=
  (0 <=? pg p) && (0 <=? off p) && (off p + n <=? PAGE_SIZE) && (lin p + n <=? fm_size m).

(** The bytes [bs] at linear address [a] of the byte function [f]. *)
Definition overlay (f : Z -> Z) (a : Z) (bs : list Z) : Z -> Z :=
  fun k => if (a <=? k) && (k <? a + Z.of_nat (length bs))
           then nth (Z.to_nat (k - a)) bs 0 else f k.

Definition store (m : frag_mem) (p : ptr) (bs : list Z) : option frag_mem :=
  if in_frag m p (Z.of_nat (length bs))
  then Some {| fm_size := fm_size m; fm_byte := overlay (fm_byte m) (lin p) bs |}
  else None.

Definition bytes_at (f : Z -> Z) (a : Z) (n : nat) : list Z :=
  (fun i => f (a + Z.of_nat i)) <$> seq 0 n.

Definition load (m : frag_mem) (p : ptr) (n : nat) : option (list Z) :=
  if in_frag m p (Z.of_nat n) then Some (bytes_at (fm_byte m) (lin p) n) else None.

Lemma ptr_eqb_spec p q : ptr_eqb p q = true <-> p = q.
Proof.
  destruct p as [a b], q as [c d]; unfold ptr_eqb; simpl.
  rewrite andb_true_iff, !Z.eqb_eq. split; [intros [-> ->]|intros [=]]; done.
Qed.

Lemma lin_padd p n : lin (padd p n) = lin p + n.
Proof. unfold lin, padd; simpl; lia. Qed.

Lemma padd_padd p a b : padd (padd p a) b = padd p (a + b).
Proof. unfold padd; simpl; f_equal; lia. Qed.

Lemma overlay_out f a bs k :
  k < a \/ a + Z.of_nat (length bs) <= k -> overlay f a bs k = f k.
Proof. intros H. unfold overlay. zcases; simpl; lia || done. Qed.

Lemma overlay_in f a bs k :
  a <= k < a + Z.of_nat (length bs) -> overlay f a bs k = nth (Z.to_nat (k - a)) bs 0.
Proof. intros H. unfold overlay. zcases; simpl; lia || done. Qed.

Lemma length_bytes_at f a n : length (bytes_at f a n) = n.
Proof. unfold bytes_at. by rewrite length_fmap, length_seq. Qed.

Lemma nth_bytes_at f a n i : (i < n)%nat -> nth i (bytes_at f a n) 0 = f (a + Z.of_nat i).
Proof.
  intros Hi. unfold bytes_at.
  rewrite (nth_indep _ 0 (f (a + Z.of_nat 0))) by (rewrite length_fmap, length_seq; lia).
  change (f (a + Z.of_nat 0)) with ((fun i => f (a + Z.of_nat i)) 0%nat).
  rewrite map_nth, seq_nth by done. done.
Qed.

(** What was just stored is what is read back. *)
Lemma bytes_at_overlay f a bs : bytes_at (overlay f a bs) a (length bs) = bs.
Proof.
  apply nth_ext with 0 0; [apply length_bytes_at|].
  intros i Hi. rewrite length_bytes_at in Hi. rewrite nth_bytes_at by done.
  rewrite overlay_in by lia. f_equal; lia.
Qed.

Lemma bytes_at_ext f g a n :
  (forall k, a <= k < a + Z.of_nat n -> f k = g k) -> bytes_at f a n = bytes_at g a n.
Proof.
  intros H. unfold bytes_at. apply list_fmap_ext. intros i x Hx.
  apply lookup_seq in Hx as [-> Hi]. apply H. lia.
Qed.

Lemma store_Some m p bs m' :
  store m p bs = Some m' ->
  in_frag m p (Z.of_nat (length bs)) = true /\ fm_size m' = fm_size m /\
  fm_byte m' = overlay (fm_byte m) (lin p) bs.
Proof. unfold store. case_match; intros ?; simplify_eq. done. Qed.

(** ** struct mlx5_frag_buf_ctrl *)

Record mlx5_frag_buf_ctrl := mkfbc {
  fbc_frags : Z;            (* first fragment of the queue in the buffer *)
  sz_m1 : Z;
  frag_sz_m1 : Z;
  strides_offset : Z;
  log_sz : Z;
  log_stride : Z;
  log_frag_strides : Z;
}.

Definition mlx5_init_fbc_offset (frags log_stride log_sz strides_offset : Z)
    : mlx5_frag_buf_ctrl :=
  let log_frag_strides := u8 (PAGE_SHIFT - log_stride) in
  {| fbc_frags := frags;
     log_stride := log_stride;
     log_sz := log_sz;
     sz_m1 := u32 (s32 (1 <<. log_sz) - 1);
     log_frag_strides := log_frag_strides;
     frag_sz_m1 := u16 (s32 (1 <<. log_frag_strides) - 1);
     strides_offset := strides_offset |}.

Definition mlx5_init_fbc (frags log_stride log_sz : Z) : mlx5_frag_buf_ctrl :=
  mlx5_init_fbc_offset frags log_stride log_sz 0.

Definition mlx5_frag_buf_get_wqe (fbc : mlx5_frag_buf_ctrl) (ix : Z) : ptr :=
  let ix := u32 (ix + strides_offset fbc) in
  let frag := ix >>. log_frag_strides fbc in
  {| pg := fbc_frags fbc + frag;
     off := (frag_sz_m1 fbc .& ix) <<. log_stride fbc |}.

Definition mlx5_frag_buf_get_idx_last_contig_stride (fbc : mlx5_frag_buf_ctrl) (ix : Z) : Z :=
  let last_frag_stride_idx := u32 (ix + strides_offset fbc) .| frag_sz_m1 fbc in
  Z.min (u32 (last_frag_stride_idx - strides_offset fbc)) (sz_m1 fbc).

(** A control block as mlx5_init_fbc_offset builds it, for strides of at most a
    page, at most 2^30 strides and an offset below one page of strides. *)
Definition fbc_wf (fbc : mlx5_frag_buf_ctrl) : Prop :=
  0 <= log_stride fbc <= 12 /\ 0 <= log_sz fbc <= 30 /\
  log_frag_strides fbc = 12 - log_stride fbc /\
  sz_m1 fbc = 2 ^ log_sz fbc - 1 /\
  frag_sz_m1 fbc = 2 ^ (12 - log_stride fbc) - 1 /\
  0 <= strides_offset fbc < 2 ^ (12 - log_stride fbc).

Section Fbc.
Context (fbc : mlx5_frag_buf_ctrl) (Hwf : fbc_wf fbc).

(** Linear address of the first byte of the queue. *)
Definition fbc_base : Z :=
  fbc_frags fbc * PAGE_SIZE + strides_offset fbc * 2 ^ log_stride fbc.

Lemma fbc_strides_per_page :
  2 ^ (12 - log_stride fbc) * 2 ^ log_stride fbc = 4096 /\
  0 < 2 ^ log_stride fbc /\ 0 < 2 ^ (12 - log_stride fbc) <= 4096 /\
  0 < 2 ^ log_sz fbc <= 1073741824.
Proof.
  destruct Hwf as (H1 & H2 & _). rewrite <- Z.pow_add_r by lia.
  replace (12 - log_stride fbc + log_stride fbc) with 12 by lia.
  repeat split; try (apply Z.pow_pos_nonneg; lia); try reflexivity.
  - apply (Z.pow_le_mono_r 2 _ 12); lia.
  - apply (Z.pow_le_mono_r 2 _ 30); lia.
Qed.

(** The fragment walk is linear addressing: stride [ix] starts
    [ix * 2^log_stride] bytes into the queue, inside its fragment. *)
Lemma get_wqe_lin_any ix :
  0 <= ix < 2 ^ 31 ->
  lin (mlx5_frag_buf_get_wqe fbc ix) = fbc_base + ix * 2 ^ log_stride fbc /\
  0 <= off (mlx5_frag_buf_get_wqe fbc ix) /\
  off (mlx5_frag_buf_get_wqe fbc ix) + 2 ^ log_stride fbc <= PAGE_SIZE.
Proof.
  intros Hix. pose proof fbc_strides_per_page as (Hpg & Hs & Hf & Hz).
  destruct Hwf as (H1 & H2 & E1 & E2 & E3 & H3).
  unfold mlx5_frag_buf_get_wqe, fbc_base, lin; simpl.
  rewrite u32_small by lia. rewrite E1, E3.
  rewrite Z.land_comm, land_mask, Z.shiftr_div_pow2, Z.shiftl_mul_pow2 by lia.
  set (F := 2 ^ (12 - log_stride fbc)) in *. set (S := 2 ^ log_stride fbc) in *.
  pose proof (Z.div_mod (ix + strides_offset fbc) F ltac:(lia)).
  pose proof (Z.mod_pos_bound (ix + strides_offset fbc) F ltac:(lia)).
  unfold PAGE_SIZE in *. nia.
Qed.

Lemma get_wqe_lin ix :
  0 <= ix < 2 ^ log_sz fbc ->
  lin (mlx5_frag_buf_get_wqe fbc ix) = fbc_base + ix * 2 ^ log_stride fbc /\
  0 <= off (mlx5_frag_buf_get_wqe fbc ix) /\
  off (mlx5_frag_buf_get_wqe fbc ix) + 2 ^ log_stride fbc <= PAGE_SIZE.
Proof. intros Hix. pose proof fbc_strides_per_page. apply get_wqe_lin_any. lia. Qed.

(** First stride after the contiguous run of stride [ix], in closed form. *)
Lemma last_contig_eq ix :
  0 <= ix < 2 ^ log_sz fbc ->
  let F := 2 ^ (12 - log_stride fbc) in
  mlx5_frag_buf_get_idx_last_contig_stride fbc ix =
  Z.min (F * ((ix + strides_offset fbc) / F) + (F - 1) - strides_offset fbc) (2 ^ log_sz fbc - 1).
Proof.
  intros Hix F. pose proof fbc_strides_per_page as (_ & _ & Hf & Hz).
  destruct Hwf as (H1 & H2 & E1 & E2 & E3 & H3).
  unfold mlx5_frag_buf_get_idx_last_contig_stride.
  rewrite E2, E3, (u32_small (ix + _)) by lia. rewrite lor_mask by lia. fold F in Hf, H3 |- *.
  rewrite u32_small; [done|].
  pose proof (Z.div_mod (ix + strides_offset fbc) F ltac:(lia)).
  pose proof (Z.mod_pos_bound (ix + strides_offset fbc) F ltac:(lia)). lia.
Qed.

Lemma get_wqe_eq ix :
  0 <= ix < 2 ^ log_sz fbc ->
  let F := 2 ^ (12 - log_stride fbc) in
  mlx5_frag_buf_get_wqe fbc ix =
  {| pg := fbc_frags fbc + (ix + strides_offset fbc) / F;
     off := (ix + strides_offset fbc) mod F * 2 ^ log_stride fbc |}.
Proof.
  intros Hix F. pose proof fbc_strides_per_page as (_ & _ & Hf & Hz).
  destruct Hwf as (H1 & H2 & E1 & E2 & E3 & H3). unfold mlx5_frag_buf_get_wqe.
  rewrite u32_small by lia. rewrite E1, E3, Z.land_comm, land_mask by lia.
  by rewrite Z.shiftr_div_pow2, Z.shiftl_mul_pow2 by lia.
Qed.

(** Inside a contiguous run, stride [ix + d] is [d] strides further on in the
    same fragment and its run has the same end. *)
Lemma contig_run ix d :
  0 <= ix -> 0 <= d -> ix + d <= mlx5_frag_buf_get_idx_last_contig_stride fbc ix ->
  ix < 2 ^ log_sz fbc ->
  ix + d < 2 ^ log_sz fbc /\
  mlx5_frag_buf_get_wqe fbc (ix + d) = padd (mlx5_frag_buf_get_wqe fbc ix) (d * 2 ^ log_stride fbc) /\
  mlx5_frag_buf_get_idx_last_contig_stride fbc (ix + d) =
  mlx5_frag_buf_get_idx_last_contig_stride fbc ix.
Proof.
  intros H0 Hd Hle Hix. pose proof fbc_strides_per_page as (_ & _ & Hf & Hz).
  rewrite last_contig_eq in Hle by lia. set (F := 2 ^ (12 - log_stride fbc)) in *.
  pose proof (Z.div_mod (ix + strides_offset fbc) F ltac:(lia)).
  pose proof (Z.mod_pos_bound (ix + strides_offset fbc) F ltac:(lia)).
  assert (Hq : (ix + d + strides_offset fbc) / F = (ix + strides_offset fbc) / F).
  { symmetry. apply Z.div_unique with ((ix + strides_offset fbc) mod F + d); lia. }
  assert (Hm : (ix + d + strides_offset fbc) mod F = (ix + strides_offset fbc) mod F + d).
  { symmetry. apply Z.mod_unique with ((ix + strides_offset fbc) / F); lia. }
  split; [lia|]. rewrite !get_wqe_eq, !last_contig_eq by lia. fold F. rewrite Hq, Hm.
  split; [|done]. unfold padd; simpl. f_equal. lia.
Qed.

(** The contiguous run of stride [ix] ends at the end of its fragment or at the
    end of the queue, whichever comes first. *)
Lemma last_contig_spec ix :
  0 <= ix < 2 ^ log_sz fbc ->
  let j := mlx5_frag_buf_get_idx_last_contig_stride fbc ix in
  ix <= j < 2 ^ log_sz fbc /\
  pg (mlx5_frag_buf_get_wqe fbc j) = pg (mlx5_frag_buf_get_wqe fbc ix) /\
  (j = 2 ^ log_sz fbc - 1 \/
   off (mlx5_frag_buf_get_wqe fbc j) + 2 ^ log_stride fbc = PAGE_SIZE).
Proof.
  intros Hix j. pose proof fbc_strides_per_page as (Hpg & _ & Hf & Hz).
  assert (Hj : ix <= j < 2 ^ log_sz fbc).
  { unfold j. rewrite last_contig_eq by lia. set (F := 2 ^ (12 - log_stride fbc)) in *.
    pose proof (Z.div_mod (ix + strides_offset fbc) F ltac:(lia)).
    pose proof (Z.mod_pos_bound (ix + strides_offset fbc) F ltac:(lia)). lia. }
  destruct (contig_run ix (j - ix)) as (_ & Hp & _); [lia..| |lia|].
  { unfold j. lia. }
  replace (ix + (j - ix)) with j in Hp by lia. split; [done|]. rewrite Hp. split; [done|].
  destruct (decide (j = 2 ^ log_sz fbc - 1)) as [|Hne]; [by left|right].
  rewrite get_wqe_eq by lia. simpl. unfold j in *. rewrite last_contig_eq in * by lia.
  set (F := 2 ^ (12 - log_stride fbc)) in *.
  pose proof (Z.div_mod (ix + strides_offset fbc) F ltac:(lia)).
  rewrite Z.min_l in * by lia. unfold PAGE_SIZE. nia.
Qed.
End Fbc.

Lemma init_fbc_offset_wf frags ls lz so :
  0 <= ls <= 12 -> 0 <= lz <= 30 -> 0 <= so < 2 ^ (12 - ls) ->
  fbc_wf (mlx5_init_fbc_offset frags ls lz so).
Proof.
  intros H1 H2 H3. unfold fbc_wf, mlx5_init_fbc_offset, PAGE_SHIFT; simpl.
  assert (0 < 2 ^ (12 - ls) <= 4096).
  { split; [apply Z.pow_pos_nonneg; lia|apply (Z.pow_le_mono_r 2 _ 12); lia]. }
  assert (0 < 2 ^ lz <= 1073741824).
  { split; [apply Z.pow_pos_nonneg; lia|apply (Z.pow_le_mono_r 2 _ 30); lia]. }
  rewrite u8_small by lia. rewrite !Z.shiftl_mul_pow2, !Z.mul_1_l by lia.
  rewrite !s32_small, u32_small, u16_small by lia. lia.
Qed.
#[export] Hint Resolve init_fbc_offset_wf : krc.
