(* ===== verification/KHeap.v ===== *)
(** * KHeap: the kernel and DMA allocators the driver calls

    kmalloc and dma_alloc_coherent are outside the source: an [oracle] says, for
    the n-th request, whether it succeeds and which DMA handle it returns.  The
    heap records the live allocations with their sizes; freeing something that
    is not live, or a DMA buffer with another size than it was allocated with,
    is undefined ([None]). *)

From S2P Require Import Prelude.

Record heap := mkheap { h_next : nat; h_live : gmap nat Z }.

Definition oracle := nat -> option Z.

Definition dma_alloc (o : oracle) (size : Z) (h : heap) : option (nat * Z) * heap :=
  match o (h_next h) with
  | Some map => (Some (h_next h, map),
                 {| h_next := S (h_next h); h_live := <[h_next h := size]> (h_live h) |})
  | None => (None, {| h_next := S (h_next h); h_live := h_live h |})
  end.

Definition kmalloc (o : oracle) (size : Z) (h : heap) : option nat * heap :=
  match dma_alloc o size h with
  | (Some (b, _), h') => (Some b, h')
  | (None, h') => (None, h')
  end.

Definition dma_free (size : Z) (b : nat) (h : heap) : option heap :=
  match h_live h !! b with
  | Some s => if s =? size
              then Some {| h_next := h_next h; h_live := delete b (h_live h) |} else None
  | None => None
  end.

Definition kfree (b : nat) (h : heap) : option heap :=
  match h_live h !! b with
  | Some _ => Some {| h_next := h_next h; h_live := delete b (h_live h) |}
  | None => None
  end.

(** Allocation numbers not yet handed out are not live. *)
Definition heap_wf (h : heap) : Prop := forall b, is_Some (h_live h !! b) -> (b < h_next h)%nat.

Lemma heap_wf_fresh h b : heap_wf h -> (h_next h <= b)%nat -> h_live h !! b = None.
Proof. intros H Hb. apply eq_None_not_Some. intros Hs%H. lia. Qed.

Lemma dma_alloc_spec o size h r h' :
  heap_wf h -> dma_alloc o size h = (r, h') ->
  heap_wf h' /\ h_next h' = S (h_next h) /\
  match r with
  | Some (b, m) => b = h_next h /\ o b = Some m /\ h_live h !! b = None /\
                   h_live h' = <[b := size]> (h_live h)
  | None => h_live h' = h_live h /\ o (h_next h) = None
  end.
Proof.
  intros Hwf. unfold dma_alloc. destruct (o (h_next h)) eqn:E; intros [= <- <-]; simpl.
  - repeat split; auto using heap_wf_fresh.
    intros b. simpl. destruct (decide (b = h_next h)) as [->|]; [lia|].
    rewrite lookup_insert_ne by done. intros Hb%Hwf. lia.
  - repeat split; auto. intros b Hb%Hwf. simpl in *. lia.
Qed.

Lemma dma_free_Some h b size :
  h_live h !! b = Some size ->
  dma_free size b h = Some {| h_next := h_next h; h_live := delete b (h_live h) |}.
Proof. intros H. unfold dma_free. by rewrite H, Z.eqb_refl. Qed.

Lemma kfree_Some h b size :
  h_live h !! b = Some size ->
  kfree b h = Some {| h_next := h_next h; h_live := delete b (h_live h) |}.
Proof. intros H. unfold kfree. by rewrite H. Qed.

Lemma heap_wf_delete h b :
  heap_wf h -> heap_wf {| h_next := h_next h; h_live := delete b (h_live h) |}.
Proof.
  intros H c. simpl. destruct (decide (b = c)) as [->|].
  - rewrite lookup_delete_eq. by intros [? ?].
  - rewrite lookup_delete_ne by done. apply H.
Qed.

(** ** Footprints

    The allocations an object owns, as a map from their numbers to their sizes;
    the live allocations are the disjoint union of the objects'. *)

Lemma dma_alloc_own o size h b t h' :
  heap_wf h -> dma_alloc o size h = (Some (b, t), h') ->
  heap_wf h' /\ h_live h' = {[b := size]} ∪ h_live h /\ h_live h !! b = None /\ o b = Some t.
Proof.
  intros Hwf E. apply dma_alloc_spec in E as (Hwf' & _ & -> & Ho & Hn & ->); [|done].
  by rewrite insert_union_singleton_l.
Qed.

Lemma dma_alloc_none o size h h' :
  heap_wf h -> dma_alloc o size h = (None, h') -> heap_wf h' /\ h_live h' = h_live h.
Proof. intros Hwf E. apply dma_alloc_spec in E as (? & _ & ? & _); done. Qed.

Lemma kmalloc_own o size h r h' :
  heap_wf h -> kmalloc o size h = (r, h') ->
  heap_wf h' /\ h_live h' = match r with Some b => {[b := size]} ∪ h_live h | None => h_live h end /\
  (forall b, r = Some b -> h_live h !! b = None).
Proof.
  intros Hwf. unfold kmalloc. destruct (dma_alloc o size h) as [[[b t]|] h1] eqn:E; intros [= <- <-].
  - apply dma_alloc_own in E as (? & ? & ? & _); [|done]. split; [done|]. split; [done|]. by intros ? [= <-].
  - by apply dma_alloc_none in E as [? ?].
Qed.

Lemma delete_own (b : nat) (s : Z) (m : gmap nat Z) : m !! b = None -> delete b ({[b := s]} ∪ m) = m.
Proof. intros H. by rewrite <- insert_union_singleton_l, delete_insert_id. Qed.

Lemma kfree_own h b s m :
  heap_wf h -> h_live h = {[b := s]} ∪ m -> m !! b = None ->
  exists h', kfree b h = Some h' /\ heap_wf h' /\ h_live h' = m.
Proof.
  intros Hwf Hl Hm. rewrite (kfree_Some _ _ s) by (rewrite Hl; apply lookup_union_Some_l, lookup_singleton_eq).
  eexists. split; [done|]. split; [by apply heap_wf_delete|]. simpl. by rewrite Hl, delete_own.
Qed.

Lemma dma_free_own h b s m :
  heap_wf h -> h_live h = {[b := s]} ∪ m -> m !! b = None ->
  exists h', dma_free s b h = Some h' /\ heap_wf h' /\ h_live h' = m.
Proof.
  intros Hwf Hl Hm. rewrite (dma_free_Some _ _ s) by (rewrite Hl; apply lookup_union_Some_l, lookup_singleton_eq).
  eexists. split; [done|]. split; [by apply heap_wf_delete|]. simpl. by rewrite Hl, delete_own.
Qed.

(** Several blocks at once: kvmalloc_array of the sizes, NULL for those that
    failed, and kvfree, which ignores NULL. *)
Fixpoint kvmalloc_all (o : oracle) (sizes : list Z) (h : heap) : list (option nat) * heap :=
  match sizes with
  | [] => ([], h)
  | s :: r => let '(b, h) := kmalloc o s h in
              let '(bs, h) := kvmalloc_all o r h in (b :: bs, h)
  end.

Definition kvfree (b : option nat) (h : heap) : option heap :=
  match b with Some b => kfree b h | None => Some h end.

Fixpoint kvfree_all (bs : list (option nat)) (h : heap) : option heap :=
  match bs with
  | [] => Some h
  | b :: r => h ← kvfree b h; kvfree_all r h
  end.

Fixpoint blocks_of_all (bs : list (option nat)) (sizes : list Z) : gmap nat Z :=
  match bs, sizes with
  | Some b :: bs, s :: r => {[b := s]} ∪ blocks_of_all bs r
  | None :: bs, _ :: r => blocks_of_all bs r
  | _, _ => ∅
  end.

Lemma blocks_of_all_dom b : forall bs sizes,
  length bs = length sizes -> b ∈ omap id bs <-> is_Some (blocks_of_all bs sizes !! b).
Proof.
  induction bs as [|c bs IH]; intros [|s r] Hlen; simpl in *; try lia.
  - split; [by intros ?%elem_of_nil|]. by intros [? ?].
  - injection Hlen as Hlen. destruct c as [c|]; [|by apply IH]. rewrite elem_of_cons, (IH r Hlen).
    destruct (decide (b = c)) as [->|Hn].
    + split; [|by left]. intros _. eexists. apply lookup_union_Some_l, lookup_singleton_eq.
    + rewrite lookup_union_r by (by apply lookup_singleton_None). naive_solver.
Qed.

Lemma kvmalloc_all_own o sizes : forall h bs h',
  heap_wf h -> kvmalloc_all o sizes h = (bs, h') ->
  heap_wf h' /\ length bs = length sizes /\ blocks_of_all bs sizes ##ₘ h_live h /\
  h_live h' = blocks_of_all bs sizes ∪ h_live h /\ NoDup (omap id bs).
Proof.
  induction sizes as [|s r IH]; intros h bs h' Hwf; simpl.
  { intros [= <- <-]. simpl. rewrite map_empty_union. split_and!; [done|done|apply map_disjoint_empty_l|done|constructor]. }
  destruct (kmalloc o s h) as [b h1] eqn:E1. destruct (kvmalloc_all o r h1) as [bs1 h2] eqn:E2.
  intros [= <- <-]. apply kmalloc_own in E1 as (Hwf1 & Hl1 & Hb); [|done].
  destruct (IH _ _ _ Hwf1 E2) as (Hwf2 & Hlen & Hd & Hl2 & Hnd). split; [done|]. split; [simpl; lia|].
  destruct b as [b|]; cbn [blocks_of_all omap list_omap id]; rewrite Hl1 in *; [|done].
  specialize (Hb b eq_refl). apply map_disjoint_union_r in Hd as [Hd1 Hd2].
  apply map_disjoint_singleton_r in Hd1.
  split_and!.
  - apply map_disjoint_union_l. split; [|done]. by apply map_disjoint_singleton_l.
  - rewrite Hl2, !map_union_assoc. f_equal. apply map_union_comm, map_disjoint_singleton_r. done.
  - apply NoDup_cons. split; [|done]. intros Hin.
    assert (is_Some (blocks_of_all bs1 r !! b)) as [x Hx]; [by apply blocks_of_all_dom|congruence].
Qed.

(** Freed in any order. *)
Lemma kvfree_all_own bs : forall h bl m,
  heap_wf h -> h_live h = bl ∪ m -> bl ##ₘ m -> NoDup (omap id bs) ->
  (forall b, b ∈ omap id bs <-> is_Some (bl !! b)) ->
  exists h', kvfree_all bs h = Some h' /\ heap_wf h' /\ h_live h' = m.
Proof.
  induction bs as [|[b|] bs IH]; intros h bl m Hwf Hl Hd Hnd Hb; simpl in *.
  - exists h. split; [done|]. split; [done|]. rewrite Hl. replace bl with (∅ : gmap nat Z); [apply map_empty_union|].
    symmetry. apply map_empty. intros i. apply eq_None_not_Some. rewrite <- Hb. apply not_elem_of_nil.
  - apply NoDup_cons in Hnd as [Hn Hnd]. destruct (proj1 (Hb b) (list_elem_of_here _ _)) as [s Hs].
    assert (Hm : m !! b = None) by (eapply map_disjoint_Some_l; eauto).
    destruct (kfree_own h b s (delete b bl ∪ m)) as (h1 & -> & Hwf1 & Hl1); [done| | |].
    + rewrite Hl, map_union_assoc. f_equal. by rewrite <- insert_union_singleton_l, insert_delete_id.
    + by rewrite lookup_union_None, lookup_delete_eq.
    + apply (IH h1 (delete b bl) m); auto; [by apply map_disjoint_delete_l|]. intros c.
      destruct (decide (c = b)) as [->|Hc].
      * rewrite lookup_delete_eq. split; [done|]. by intros [? ?].
      * rewrite lookup_delete_ne, <- Hb, elem_of_cons by done. naive_solver.
  - by apply IH with bl.
Qed.
