(* ===== verification/FragAlloc.v ===== *)
(** * FragAlloc: allocation of queue buffers (mlx5/core/alloc.c)

    mlx5_frag_buf_alloc_node builds a buffer out of page-sized DMA fragments and
    undoes its work when a fragment cannot be had or is misaligned. *)

From S2P Require Import Prelude KHeap.

Record mlx5_buf_list := mkbuf { bl_buf : nat; bl_map : Z }.

Record mlx5_frag_buf := mkfb {
  fb_frags : list mlx5_buf_list;
  fb_array : nat;               (* the kcalloc'ed array holding the fragments *)
  fb_npages : Z;
  fb_size : Z;
  fb_page_shift : Z;
}.

Section Alloc.
Context (o : oracle).

(** The body of the allocation loop; [Some (ok, frags, h)] stops with the
    fragments obtained so far. *)
Fixpoint alloc_frags (n : nat) (size : Z) (frags : list mlx5_buf_list) (h : heap)
    : option (bool * list mlx5_buf_list * heap) :=
  match n with
  | O => Some (true, frags, h)
  | S n' =>
      let frag_sz := Z.min size PAGE_SIZE in
      match dma_alloc o frag_sz h with
      | (None, h) => Some (false, frags, h)
      | (Some (buf, map), h) =>
          if test map ((1 <<. PAGE_SHIFT) - 1)
          then h ← dma_free frag_sz buf h; Some (false, frags, h)
          else alloc_frags n' (size - frag_sz) (frags ++ [{| bl_buf := buf; bl_map := map |}]) h
      end
  end.

(** [while (i--) dma_free_coherent(dev, PAGE_SIZE, frags[i])]. *)
Fixpoint free_frags_page (frags : list mlx5_buf_list) (h : heap) : option heap :=
  match frags with
  | [] => Some h
  | f :: r => h ← free_frags_page r h; dma_free PAGE_SIZE (bl_buf f) h
  end.

Definition mlx5_frag_buf_alloc_node (size : Z) (h : heap)
    : option (Z * option mlx5_frag_buf * heap) :=
  let npages := DIV_ROUND_UP size PAGE_SIZE in
  match kmalloc o (npages * 16) h with
  | (None, h) => Some (- ENOMEM, None, h)
  | (Some arr, h) =>
      '(ok, frags, h) ← alloc_frags (Z.to_nat npages) size [] h;
      if (ok : bool)
      then Some (0, Some {| fb_frags := frags; fb_array := arr; fb_npages := npages;
                            fb_size := size; fb_page_shift := PAGE_SHIFT |}, h)
      else h ← free_frags_page frags h;
           h ← kfree arr h;
           Some (- ENOMEM, None, h)
  end.

(** [for (i = 0; i < npages; i++)] of mlx5_frag_buf_free. *)
Fixpoint free_frags (npages : nat) (frags : list mlx5_buf_list) (size : Z) (h : heap)
    : option heap :=
  match npages, frags with
  | O, _ => Some h
  | S _, [] => None
  | S n, f :: r =>
      let frag_sz := Z.min size PAGE_SIZE in
      h ← dma_free frag_sz (bl_buf f) h;
      free_frags n r (size - frag_sz) h
  end.

Definition mlx5_frag_buf_free (b : mlx5_frag_buf) (h : heap) : option heap :=
  h ← free_frags (Z.to_nat (fb_npages b)) (fb_frags b) (fb_size b) h;
  kfree (fb_array b) h.

Definition mlx5_fill_page_frag_array (b : mlx5_frag_buf) : option (list (list Z)) :=
  mapM (fun i => f ← fb_frags b !! i; Some (be64 (bl_map f))) (seq 0 (Z.to_nat (fb_npages b))).

(** The contiguous variant: one fragment, described to the device as the
    largest naturally aligned pages that cover it. *)
Definition get_order (size : Z) : Z := Z.log2_up (DIV_ROUND_UP size PAGE_SIZE).

Fixpoint shrink_pages (fuel : nat) (t page_shift npages : Z) : option (Z * Z) :=
  if test t ((1 <<. page_shift) - 1)
  then match fuel with
       | O => None
       | S f => shrink_pages f t (page_shift - 1) (npages * 2)
       end
  else Some (page_shift, npages).

Definition mlx5_buf_alloc_node (size : Z) (h : heap)
    : option (Z * option mlx5_frag_buf * heap) :=
  let page_shift := u8 (get_order size) + PAGE_SHIFT in
  match kmalloc o 16 h with
  | (None, h) => Some (- ENOMEM, None, h)
  | (Some arr, h) =>
      match dma_alloc o size h with
      | (None, h) => h ← kfree arr h; Some (- ENOMEM, None, h)
      | (Some (buf, t), h) =>
          '(shift, npages) ← shrink_pages (Z.to_nat page_shift) t page_shift 1;
          Some (0, Some {| fb_frags := [{| bl_buf := buf; bl_map := t |}]; fb_array := arr;
                           fb_npages := npages; fb_size := size; fb_page_shift := shift |}, h)
      end
  end.

Definition mlx5_buf_free (b : mlx5_frag_buf) (h : heap) : option heap :=
  f ← head (fb_frags b);
  h ← dma_free (fb_size b) (bl_buf f) h;
  kfree (fb_array b) h.

Definition mlx5_fill_page_array (b : mlx5_frag_buf) : option (list (list Z)) :=
  f ← head (fb_frags b);
  Some ((fun i => be64 (u64 (bl_map f + (Z.of_nat i <<. fb_page_shift b))))
          <$> seq 0 (Z.to_nat (fb_npages b))).

End Alloc.

(** ** Facts about the fragment loops *)

(** The live map after the fragments [frags] of a [size]-byte buffer were
    added to [m]. *)
Fixpoint live_with (m : gmap nat Z) (frags : list mlx5_buf_list) (size : Z) : gmap nat Z :=
  match frags with
  | [] => m
  | f :: r => let sz := Z.min size PAGE_SIZE in
              live_with (<[bl_buf f := sz]> m) r (size - sz)
  end.

Definition fresh_for (m : gmap nat Z) (frags : list mlx5_buf_list) : Prop :=
  (NoDup (bl_buf <$> frags)) /\ Forall (fun f => m !! bl_buf f = None) frags.

Lemma fresh_for_nil m : fresh_for m [].
Proof. split; constructor. Qed.

Lemma fresh_for_cons m f r sz :
  fresh_for m (f :: r) ->
  m !! bl_buf f = None /\ (bl_buf f ∉ (bl_buf <$> r)) /\ fresh_for (<[bl_buf f := sz]> m) r.
Proof.
  intros [Hd [Hf Hr]%Forall_cons]. cbn in Hd. apply NoDup_cons in Hd as [Hn Hd].
  split_and!; auto. split; [done|].
  rewrite Forall_forall in *. intros g Hg. rewrite lookup_insert_ne; [by apply Hr|].
  intros E. apply Hn. rewrite E. by apply list_elem_of_fmap_2.
Qed.

Lemma live_with_other m frags size b :
  b ∉ (bl_buf <$> frags) -> live_with m frags size !! b = m !! b.
Proof.
  revert m size; induction frags as [|f r IH]; intros m size Hb; [done|].
  cbn in *. apply not_elem_of_cons in Hb as [? ?]. rewrite IH by done.
  by rewrite lookup_insert_ne.
Qed.

Lemma live_with_delete m frags size b :
  b ∉ (bl_buf <$> frags) ->
  delete b (live_with m frags size) = live_with (delete b m) frags size.
Proof.
  revert m size; induction frags as [|f r IH]; intros m size Hb; [done|].
  cbn in *. apply not_elem_of_cons in Hb as [? ?]. rewrite IH by done.
  by rewrite delete_insert_ne.
Qed.

(** Freeing a buffer fragment by fragment gives the heap before it back. *)
Lemma free_frags_live_with m frags size n :
  fresh_for m frags ->
  free_frags (length frags) frags size {| h_next := n; h_live := live_with m frags size |}
  = Some {| h_next := n; h_live := m |}.
Proof.
  revert m size; induction frags as [|f r IH]; intros m size Hf; [done|].
  cbn [length free_frags live_with].
  destruct (fresh_for_cons _ _ _ (Z.min size PAGE_SIZE) Hf) as (Hm & Hn & Hr).
  rewrite (dma_free_Some _ _ (Z.min size PAGE_SIZE)); simpl.
  - rewrite live_with_delete, delete_insert_id by done. apply IH.
    destruct Hf as [[_ Hd]%NoDup_cons [_ Hr']%Forall_cons]. done.
  - rewrite live_with_other by done. apply lookup_insert_eq.
Qed.

(** The error path frees whole pages: right as long as the fragments cover less
    than the buffer, which is when it runs. *)
Lemma free_frags_page_live_with m frags size n :
  fresh_for m frags -> Z.of_nat (length frags) * PAGE_SIZE <= size ->
  free_frags_page frags {| h_next := n; h_live := live_with m frags size |}
  = Some {| h_next := n; h_live := m |}.
Proof.
  revert m size; induction frags as [|f r IH]; intros m size Hf Hs; [done|].
  cbn [length free_frags_page live_with] in *. unfold PAGE_SIZE in *.
  destruct (fresh_for_cons _ _ _ (Z.min size PAGE_SIZE) Hf) as (Hm & Hn & Hr).
  rewrite IH by (done || lia). simpl.
  rewrite (dma_free_Some _ _ 4096); simpl; [by rewrite delete_insert_id|].
  rewrite lookup_insert_eq. f_equal. lia.
Qed.

Lemma test_page_mask m : test m ((1 <<. PAGE_SHIFT) - 1) = negb (m mod PAGE_SIZE =? 0).
Proof.
  unfold test, PAGE_SHIFT, PAGE_SIZE. change ((1 <<. 12) - 1) with (2 ^ 12 - 1).
  by rewrite land_mask by lia.
Qed.

(** What the allocation loop leaves behind: the fragments it reports are new,
    distinct, page aligned and live with the sizes asked for, and nothing else
    changed. *)
Lemma alloc_frags_spec o n size acc h :
  heap_wf h ->
  exists ok new h',
    alloc_frags o n size acc h = Some (ok, acc ++ new, h') /\
    heap_wf h' /\ (h_next h <= h_next h')%nat /\
    fresh_for (h_live h) new /\ Forall (fun f => (h_next h <= bl_buf f)%nat) new /\
    Forall (fun f => bl_map f mod PAGE_SIZE = 0) new /\
    h_live h' = live_with (h_live h) new size /\
    (length new <= n)%nat /\ (ok = true <-> length new = n).
Proof.
  revert size acc h; induction n as [|n IH]; intros size acc h Hwf; cbn [alloc_frags].
  { exists true, [], h. rewrite app_nil_r. split_and!; auto using fresh_for_nil; done. }
  destruct (dma_alloc _ _ _) as [[[buf m]|] h1] eqn:E;
    apply dma_alloc_spec in E as (Hwf1 & Hn1 & E); try done.
  2: { exists false, [], h1. rewrite app_nil_r. destruct E as [E _].
       split_and!; auto using fresh_for_nil; simpl; try lia; done. }
  destruct E as (-> & _ & Hfr & Hl1). rewrite test_page_mask.
  destruct (Z.eqb_spec (m mod PAGE_SIZE) 0) as [Hm|Hm]; simpl.
  - destruct (IH (size - Z.min size PAGE_SIZE) (acc ++ [mkbuf (h_next h) m]) h1 Hwf1)
      as (ok & new & h' & -> & Hwf' & Hn' & [Hd Hf] & Hge & Hal & Hl & Hlen & Hok).
    exists ok, (mkbuf (h_next h) m :: new), h'. rewrite <- app_assoc.
    rewrite Forall_forall in Hge, Hf.
    split_and!; auto; try lia.
    + split; cbn.
      * apply NoDup_cons; split; [|done]. intros (g & E & Hg)%list_elem_of_fmap.
        specialize (Hge g Hg). lia.
      * constructor; [done|]. apply Forall_forall. intros g Hg. specialize (Hf g Hg).
        rewrite Hl1 in Hf. by apply lookup_insert_None in Hf as [? _].
    + constructor; simpl; [lia|]. apply Forall_forall. intros g Hg. specialize (Hge g Hg). lia.
    + rewrite Hl, Hl1. done.
    + simpl. lia.
    + simpl. rewrite Hok. lia.
  - rewrite (dma_free_Some _ _ (Z.min size PAGE_SIZE)) by (rewrite Hl1; apply lookup_insert_eq).
    simpl. eexists false, [], _. rewrite app_nil_r. split; [done|]. simpl.
    split_and!; auto using heap_wf_delete, fresh_for_nil; simpl; try lia; try done.
    rewrite Hl1. by apply delete_insert_id.
Qed.

Lemma npages_bound size :
  0 <= size -> (DIV_ROUND_UP size PAGE_SIZE - 1) * PAGE_SIZE < size <= DIV_ROUND_UP size PAGE_SIZE * PAGE_SIZE
  \/ size = 0 /\ DIV_ROUND_UP size PAGE_SIZE = 0.
Proof. intros. unfold DIV_ROUND_UP, PAGE_SIZE. dlia. Qed.

Lemma shrink_pages_spec fuel t s n :
  0 <= s <= Z.of_nat fuel -> 0 <= t -> 0 < n ->
  exists s' n', shrink_pages fuel t s n = Some (s', n') /\
    0 <= s' <= s /\ n' * 2 ^ s' = n * 2 ^ s /\ t mod 2 ^ s' = 0 /\
    (s' < s -> t mod 2 ^ (s' + 1) <> 0).
Proof.
  revert s n; induction fuel as [|f IH]; intros s n Hs Ht Hn; cbn [shrink_pages];
    unfold test; rewrite Z.shiftl_mul_pow2, Z.mul_1_l, land_mask by lia.
  - replace s with 0 by lia. rewrite Z.mod_1_r. simpl. exists 0, n. split_and!; auto using Z.mod_1_r; lia.
  - destruct (Z.eqb_spec (t mod 2 ^ s) 0) as [E|E]; simpl.
    { exists s, n. split_and!; auto; lia. }
    assert (s <> 0) by (intros ->; rewrite Z.mod_1_r in E; done).
    destruct (IH (s - 1) (n * 2)) as (s' & n' & -> & Hs' & Hp & Hm & Hmax); [lia..|].
    exists s', n'. split_and!; auto; try lia.
    + rewrite Hp. replace s with (Z.succ (s - 1)) at 2 by lia. rewrite Z.pow_succ_r by lia. ring.
    + intros _. destruct (decide (s' = s - 1)) as [->|]; [|apply Hmax; lia].
      by replace (s - 1 + 1) with s by lia.
Qed.

(** ** The allocations a buffer owns *)

Lemma live_with_union frags : forall m size, live_with m frags size = live_with ∅ frags size ∪ m.
Proof.
  induction frags as [|f r IH]; intros m size; simpl; [by rewrite map_empty_union|].
  rewrite IH, (IH (<[bl_buf f := _]> ∅)), <- map_union_assoc. f_equal.
  by rewrite insert_empty, <- insert_union_singleton_l.
Qed.

Definition buf_blocks (b : mlx5_frag_buf) : gmap nat Z :=
  {[fb_array b := fb_npages b * 16]} ∪ live_with ∅ (fb_frags b) (fb_size b).

Record buf_ok (b : mlx5_frag_buf) (size : Z) : Prop := {
  bo_size : fb_size b = size;
  bo_pages : fb_npages b = DIV_ROUND_UP size PAGE_SIZE;
  bo_length : length (fb_frags b) = Z.to_nat (fb_npages b);
  bo_nodup : NoDup (bl_buf <$> fb_frags b);
  bo_array : fb_array b ∉ (bl_buf <$> fb_frags b);
  bo_aligned : Forall (fun f => bl_map f mod PAGE_SIZE = 0) (fb_frags b);
  bo_shift : fb_page_shift b = PAGE_SHIFT;
}.

Lemma live_with_dom frags b : forall size, b ∈ (bl_buf <$> frags) -> is_Some (live_with ∅ frags size !! b).
Proof.
  induction frags as [|f r IH]; intros size; [by intros ?%elem_of_nil|]. cbn [fmap list_fmap live_with].
  intros Hb. rewrite live_with_union. destruct (decide (b ∈ (bl_buf <$> r))) as [Hr|Hr].
  - destruct (IH (size - Z.min size PAGE_SIZE) Hr) as [x Hx]. exists x. by apply lookup_union_Some_l.
  - apply elem_of_cons in Hb as [->|?]; [|done].
    rewrite lookup_union_r, lookup_insert_eq; [by eexists|]. by rewrite live_with_other, lookup_empty.
Qed.

Lemma buf_blocks_fresh b size m : buf_ok b size -> buf_blocks b ##ₘ m ->
  m !! fb_array b = None /\ fresh_for m (fb_frags b).
Proof.
  intros Hok [Ha Hf]%map_disjoint_union_l. apply map_disjoint_singleton_l in Ha. split; [done|].
  split; [apply Hok|]. apply Forall_forall. intros f Hin.
  destruct (live_with_dom (fb_frags b) (bl_buf f) (fb_size b)) as [x Hx]; [by apply list_elem_of_fmap_2|].
  eapply map_disjoint_Some_l; eauto.
Qed.

(** Releasing a buffer gives back exactly its allocations. *)
Lemma frag_buf_free_own h b size m :
  heap_wf h -> buf_ok b size -> h_live h = buf_blocks b ∪ m -> buf_blocks b ##ₘ m ->
  exists h', mlx5_frag_buf_free b h = Some h' /\ heap_wf h' /\ h_live h' = m.
Proof.
  intros Hwf Hok Hl Hd. destruct (buf_blocks_fresh _ _ _ Hok Hd) as [Ha Hf]. unfold mlx5_frag_buf_free.
  destruct h as [n l]. simpl in Hl. subst l.
  assert (E : buf_blocks b ∪ m = live_with ({[fb_array b := fb_npages b * 16]} ∪ m) (fb_frags b) (fb_size b)).
  { unfold buf_blocks. rewrite (live_with_union _ (_ ∪ m)), map_union_assoc. f_equal.
    apply map_union_comm, map_disjoint_singleton_l. by rewrite live_with_other by exact (bo_array _ _ Hok). }
  rewrite E, <- (bo_length _ _ Hok), free_frags_live_with.
  - simpl. destruct (kfree_own (mkheap n ({[fb_array b := fb_npages b * 16]} ∪ m)) (fb_array b)
                       (fb_npages b * 16) m) as (h' & -> & ? & ?); eauto.
    intros c Hc. apply Hwf. simpl in *. rewrite E.
    destruct (decide (c ∈ (bl_buf <$> fb_frags b))).
    + rewrite live_with_union. destruct (live_with_dom (fb_frags b) c (fb_size b)) as [x Hx]; [done|].
      exists x. by apply lookup_union_Some_l.
    + by rewrite live_with_other.
  - destruct Hf as [Hnd Hf]. split; [done|]. rewrite Forall_forall in *. intros f Hin.
    rewrite lookup_union_r; [by apply Hf|]. apply lookup_singleton_None. intros Heq.
    apply (bo_array _ _ Hok). rewrite Heq. by apply list_elem_of_fmap_2.
Qed.

(** The allocation either fails without a trace or returns a buffer that owns
    what was allocated. *)
Lemma frag_buf_alloc_own (o : oracle) (size : Z) (h : heap) :
  0 <= size -> heap_wf h ->
  exists r h', mlx5_frag_buf_alloc_node o size h = Some (r, h') /\ heap_wf h' /\
  match r with
  | (ret, None) => ret = - ENOMEM /\ h_live h' = h_live h
  | (ret, Some b) => ret = 0 /\ buf_ok b size /\ buf_blocks b ##ₘ h_live h /\
                     h_live h' = buf_blocks b ∪ h_live h
  end.
Proof.
  intros Hs Hwf. unfold mlx5_frag_buf_alloc_node, kmalloc.
  destruct (dma_alloc o _ h) as [[[arr m]|] h1] eqn:E;
    apply dma_alloc_spec in E as (Hwf1 & Hn1 & E); try done.
  2: { eexists (_, None), h1. split; [done|]. split; [done|]. split; [done|]. apply E. }
  destruct E as (-> & _ & Hfr & Hl1).
  destruct (alloc_frags_spec o (Z.to_nat (DIV_ROUND_UP size PAGE_SIZE)) size [] h1 Hwf1)
    as (ok & new & h2 & -> & Hwf2 & Hn2 & Hfresh & Hge & Hal & Hl2 & Hlen & Hok).
  rewrite Forall_forall in Hge.
  assert (Harr : h_next h ∉ (bl_buf <$> new)).
  { intros (g & Eg & Hg)%list_elem_of_fmap. specialize (Hge g Hg). lia. }
  destruct ok; simpl.
  - assert (Hln : length new = Z.to_nat (DIV_ROUND_UP size PAGE_SIZE)) by (by apply Hok).
    eexists (0, Some _), h2. split; [done|]. split; [done|]. split; [done|]. split; [by split; try apply Hfresh|].
    rewrite Hl2, Hl1, live_with_union. unfold buf_blocks; simpl. split.
    + apply map_disjoint_union_l. split; [by apply map_disjoint_singleton_l|].
      apply map_disjoint_spec. intros b x y Hx Hy. destruct (decide (b ∈ (bl_buf <$> new))) as [Hb|Hb].
      * apply list_elem_of_fmap in Hb as (g & -> & Hg). destruct Hfresh as [_ Hf]. rewrite Forall_forall in Hf.
        specialize (Hf g Hg). rewrite Hl1 in Hf. apply lookup_insert_None in Hf as [Hf _]. congruence.
      * by rewrite live_with_other, lookup_empty in Hx.
    + rewrite insert_union_singleton_l, !map_union_assoc. f_equal.
      symmetry. apply map_union_comm, map_disjoint_singleton_l. by rewrite live_with_other, lookup_empty.
  - assert (Hln : length new <> Z.to_nat (DIV_ROUND_UP size PAGE_SIZE)) by (intros He; by apply Hok in He).
    destruct h2 as [n2 l2]. simpl in Hl2. subst l2.
    destruct (npages_bound size Hs) as [Hnp|Hnp]; [|unfold PAGE_SIZE in *; lia].
    rewrite free_frags_page_live_with by (done || (unfold PAGE_SIZE in *; lia)). simpl.
    rewrite (kfree_Some _ _ (DIV_ROUND_UP size PAGE_SIZE * 16))
      by (simpl; rewrite Hl1; apply lookup_insert_eq). simpl.
    eexists (_, None), _. split; [done|]. simpl. rewrite Hl1, delete_insert_id by done.
    split_and!; auto. intros b Hb%Hwf. simpl in *. lia.
Qed.

(** mlx5_frag_buf_alloc_node never leaks and never fails half-way: whatever
    the DMA allocator answers, it either returns -ENOMEM with exactly the
    allocations that were live before, or 0 with a buffer of
    ceil(size / PAGE_SIZE) page-aligned fragments which mlx5_frag_buf_free
    releases completely, with the right sizes. *)
Theorem frag_buf_alloc_no_leak (o : oracle) (size : Z) (h : heap) :
  0 <= size -> heap_wf h ->
  exists r h', mlx5_frag_buf_alloc_node o size h = Some (r, h') /\ heap_wf h' /\
  match r with
  | (ret, None) => ret = - ENOMEM /\ h_live h' = h_live h
  | (ret, Some b) =>
      ret = 0 /\ Z.of_nat (length (fb_frags b)) = DIV_ROUND_UP size PAGE_SIZE /\
      Forall (fun f => bl_map f mod PAGE_SIZE = 0) (fb_frags b) /\
      NoDup (bl_buf <$> fb_frags b) /\
      exists h'', mlx5_frag_buf_free b h' = Some h'' /\ h_live h'' = h_live h
  end.
Proof.
  intros Hs Hwf. destruct (frag_buf_alloc_own o size h Hs Hwf) as ([ret [b|]] & h' & E & Hwf' & H).
  - destruct H as (-> & Hok & Hd & Hl). exists (0, Some b), h'. split; [done|]. split; [done|]. split; [done|].
    split; [|split; [apply Hok|split; [apply Hok|]]].
    + rewrite (bo_length _ _ Hok), (bo_pages _ _ Hok). unfold DIV_ROUND_UP, PAGE_SIZE. dlia.
    + destruct (frag_buf_free_own h' b size (h_live h)) as (h'' & ? & _ & ?); eauto.
  - by exists (ret, None), h'.
Qed.

Lemma frag_buf_alloc_no_leak_witness :
  heap_wf (mkheap 0 ∅) /\
  exists b h', mlx5_frag_buf_alloc_node (fun n => Some (Z.of_nat n * 4096)) 9000 (mkheap 0 ∅)
    = Some (0, Some b, h') /\ length (fb_frags b) = 3%nat.
Proof.
  assert (Hwf : heap_wf (mkheap 0 ∅)) by (intros b [? H]; discriminate H).
  split; [exact Hwf|].
  destruct (frag_buf_alloc_no_leak (fun n => Some (Z.of_nat n * 4096)) 9000 (mkheap 0 ∅))
    as ([ret [b|]] & h' & E & _ & H); [lia|exact Hwf| |].
  - destruct H as (-> & Hl & _). exists b, h'. split; [exact E|].
    change (DIV_ROUND_UP 9000 PAGE_SIZE) with 3 in Hl. lia.
  - vm_compute in E. discriminate E.
Defined.

Lemma get_order_spec size :
  0 < size <= 2 ^ 30 -> 0 <= get_order size <= 18 /\ size <= 2 ^ (get_order size + 12).
Proof.
  intros Hs. unfold get_order.
  assert (Hn : 1 <= DIV_ROUND_UP size PAGE_SIZE <= 2 ^ 18 /\ size <= DIV_ROUND_UP size PAGE_SIZE * 4096)
    by (unfold DIV_ROUND_UP, PAGE_SIZE; dlia).
  set (n := DIV_ROUND_UP size PAGE_SIZE) in *.
  pose proof (Z.log2_up_nonneg n). split.
  - split; [done|]. rewrite <- (Z.log2_up_pow2 18) by lia. apply Z.log2_up_le_mono; lia.
  - rewrite Z.pow_add_r by lia. change (2 ^ 12) with 4096.
    destruct (decide (n = 1)) as [->|]; [simpl; lia|].
    pose proof (Z.log2_up_spec n). nia.
Qed.

(** mlx5_buf_alloc_node describes the contiguous buffer it got to the device
    correctly: whatever alignment the DMA address has, the page list covers the
    buffer with naturally aligned pages of the largest possible size, and
    mlx5_buf_free undoes the allocation; on failure nothing stays allocated. *)
Theorem buf_alloc_pages (o : oracle) (size : Z) (h : heap) :
  0 < size <= 2 ^ 30 -> heap_wf h -> (forall n t, o n = Some t -> 0 <= t) ->
  exists r h', mlx5_buf_alloc_node o size h = Some (r, h') /\ heap_wf h' /\
  match r with
  | (ret, None) => ret = - ENOMEM /\ h_live h' = h_live h
  | (ret, Some b) =>
      ret = 0 /\ size <= fb_npages b * 2 ^ fb_page_shift b /\
      (exists f pas, fb_frags b = [f] /\ mlx5_fill_page_array b = Some pas /\
        length pas = Z.to_nat (fb_npages b) /\ bl_map f mod 2 ^ fb_page_shift b = 0 /\
        (1 < fb_npages b -> bl_map f mod 2 ^ (fb_page_shift b + 1) <> 0)) /\
      exists h'', mlx5_buf_free b h' = Some h'' /\ h_live h'' = h_live h
  end.
Proof.
  intros Hs Hwf Ho. unfold mlx5_buf_alloc_node, kmalloc.
  destruct (get_order_spec size Hs) as [Hor Hcov]. unfold PAGE_SHIFT. rewrite u8_small by lia.
  destruct (dma_alloc o 16 h) as [[[arr m]|] h1] eqn:E;
    apply dma_alloc_spec in E as (Hwf1 & Hn1 & E); try done.
  2: { eexists (_, None), h1. split; [done|]. split; [done|]. split; [done|]. apply E. }
  destruct E as (-> & _ & Hfr & Hl1).
  destruct (dma_alloc o size h1) as [[[buf t]|] h2] eqn:E;
    apply dma_alloc_spec in E as (Hwf2 & Hn2 & E); try done.
  2: { destruct E as [E _]. rewrite (kfree_Some _ _ 16); simpl.
       - eexists (_, None), _. split; [done|]. split; [by apply heap_wf_delete|]. split; [done|].
         simpl. by rewrite E, Hl1, delete_insert_id.
       - rewrite E, Hl1. apply lookup_insert_eq. }
  destruct E as (-> & Ht & Hfr2 & Hl2).
  destruct (shrink_pages_spec (Z.to_nat (get_order size + 12)) t (get_order size + 12) 1)
    as (s & n & -> & Hsr & Hsz & Hal & Hmax); [lia|by eapply Ho|lia|].
  eexists (0, Some _), h2. split; [done|]. split; [done|]. simpl. split_and!; auto; [lia| |].
  - eexists _, _. split; [done|]. split; [done|]. rewrite length_fmap, length_seq.
    split_and!; auto. intros Hn. apply Hmax. apply Z.nle_gt. intros Hge.
    replace (get_order size + 12) with s in Hsz by lia. pose proof (pow2_pos s). nia.
  - unfold mlx5_buf_free; simpl. rewrite (dma_free_Some _ _ size); simpl.
    + rewrite Hl2, delete_insert_id by done. rewrite (kfree_Some _ _ 16); simpl.
      * eexists. split; [done|]. simpl. by rewrite Hl1, delete_insert_id.
      * rewrite Hl1. apply lookup_insert_eq.
    + rewrite Hl2. apply lookup_insert_eq.
Qed.

Lemma buf_alloc_pages_witness :
  exists b h', mlx5_buf_alloc_node (fun n => Some (Z.of_nat n * 4096)) 8192 (mkheap 0 ∅)
    = Some (0, Some b, h') /\ 8192 <= fb_npages b * 2 ^ fb_page_shift b.
Proof.
  destruct (buf_alloc_pages (fun n => Some (Z.of_nat n * 4096)) 8192 (mkheap 0 ∅))
    as ([ret [b|]] & h' & E & _ & H).
  - lia.
  - intros b [? H]; discriminate H.
  - intros n t [= <-]. lia.
  - destruct H as (-> & Hl & _). exists b, h'. split; [exact E|exact Hl].
  - vm_compute in E. discriminate E.
Defined.

(** ** The page list *)

Definition page_list (b : mlx5_frag_buf) : list (list Z) := (fun f => be64 (bl_map f)) <$> fb_frags b.

(** The page list names every fragment. *)
Lemma fill_pages b size : buf_ok b size -> mlx5_fill_page_frag_array b = Some (page_list b).
Proof.
  intros Hok. unfold mlx5_fill_page_frag_array. rewrite <- (bo_length _ _ Hok). clear Hok.
  apply mapM_Some_2, Forall2_same_length_lookup_2; [unfold page_list; by rewrite length_fmap, length_seq|].
  intros i j y [-> Hi]%lookup_seq Hy. unfold page_list in Hy. rewrite list_lookup_fmap in Hy. simpl.
  destruct (fb_frags b !! i) as [f|]; simpl in *; [by simplify_eq|done].
Qed.
