(* ===== verification/DbAlloc.v ===== *)
(** * DbAlloc: the doorbell-record allocator (mlx5/core/alloc.c)

    Doorbell records are cache-line sized slots of pages tracked by a bitmap
    (struct mlx5_db_pgdir, a set bit is a free slot).  Pages are added to the
    device's list on demand and returned when their last slot is freed.
    cache_line_size() is a parameter. *)

From S2P Require Import Prelude KHeap.

Record mlx5_db_pgdir := mkpgdir {
  pd_self : nat;                (* the kzalloc'ed structure: its address *)
  pd_bitmap_at : nat;           (* allocation holding the bitmap *)
  pd_bitmap : list bool;
  pd_page : nat;                (* DMA allocation holding the records *)
  pd_words : Z -> Z;            (* its 32-bit words *)
  pd_dma : Z;
}.

Record mlx5_db := mkdb { db_pgdir : nat; db_index : nat; db_db : Z; db_dma : Z }.

Record db_priv := mkpriv { pgdir_list : list mlx5_db_pgdir; pgdir_heap : heap }.

Fixpoint find_first_bit (bm : list bool) : nat :=
  match bm with
  | [] => 0
  | true :: _ => 0
  | false :: r => S (find_first_bit r)
  end.

Definition bitmap_full (bm : list bool) : bool := forallb id bm.

Section Db.
Context (o : oracle) (cache_line_size : Z).

Definition db_per_page : nat := Z.to_nat (PAGE_SIZE / cache_line_size).

(** Size of a bitmap of [db_per_page] bits, in whole longs. *)
Definition bitmap_bytes : Z := 8 * DIV_ROUND_UP (Z.of_nat db_per_page) 64.

Definition mlx5_alloc_db_pgdir (h : heap) : option (option mlx5_db_pgdir * heap) :=
  match kmalloc o 48 h with
  | (None, h) => Some (None, h)
  | (Some self, h) =>
      match kmalloc o bitmap_bytes h with
      | (None, h) => h ← kfree self h; Some (None, h)
      | (Some bm, h) =>
          match dma_alloc o PAGE_SIZE h with
          | (None, h) => h ← kfree bm h; h ← kfree self h; Some (None, h)
          | (Some (page, dma), h) =>
              Some (Some {| pd_self := self; pd_bitmap_at := bm;
                            pd_bitmap := replicate db_per_page true;
                            pd_page := page; pd_words := fun _ => 0; pd_dma := dma |}, h)
          end
      end
  end.

Definition mlx5_alloc_db_from_pgdir (pd : mlx5_db_pgdir) : option (mlx5_db * mlx5_db_pgdir) :=
  let i := find_first_bit (pd_bitmap pd) in
  if (db_per_page <=? i)%nat then None
  else
    let offset := Z.of_nat i * cache_line_size in
    let db := offset / 4 in
    Some ({| db_pgdir := pd_self pd; db_index := i; db_db := db; db_dma := pd_dma pd + offset |},
          {| pd_self := pd_self pd; pd_bitmap_at := pd_bitmap_at pd;
             pd_bitmap := <[i := false]> (pd_bitmap pd);
             pd_page := pd_page pd;
             pd_words := fun w => if (w =? db) || (w =? db + 1) then 0 else pd_words pd w;
             pd_dma := pd_dma pd |}).

Fixpoint alloc_from_list (l : list mlx5_db_pgdir) : option (mlx5_db * list mlx5_db_pgdir) :=
  match l with
  | [] => None
  | pd :: r =>
      match mlx5_alloc_db_from_pgdir pd with
      | Some (db, pd') => Some (db, pd' :: r)
      | None => '(db, r') ← alloc_from_list r; Some (db, pd :: r')
      end
  end.

Definition mlx5_db_alloc_node (st : db_priv) : option (Z * option mlx5_db * db_priv) :=
  match alloc_from_list (pgdir_list st) with
  | Some (db, l) => Some (0, Some db, {| pgdir_list := l; pgdir_heap := pgdir_heap st |})
  | None =>
      '(p, h) ← mlx5_alloc_db_pgdir (pgdir_heap st);
      match p with
      | None => Some (- ENOMEM, None, {| pgdir_list := pgdir_list st; pgdir_heap := h |})
      | Some pd =>
          match mlx5_alloc_db_from_pgdir pd with
          | Some (db, pd') =>
              Some (0, Some db, {| pgdir_list := pd' :: pgdir_list st; pgdir_heap := h |})
          | None => Some (0, None, {| pgdir_list := pd :: pgdir_list st; pgdir_heap := h |})
          end
      end
  end.

Fixpoint free_in_list (db : mlx5_db) (l : list mlx5_db_pgdir) (h : heap)
    : option (list mlx5_db_pgdir * heap) :=
  match l with
  | [] => None
  | pd :: r =>
      if (pd_self pd =? db_pgdir db)%nat
      then
        let bm := <[db_index db := true]> (pd_bitmap pd) in
        if bitmap_full bm
        then h ← dma_free PAGE_SIZE (pd_page pd) h;
             h ← kfree (pd_bitmap_at pd) h;
             h ← kfree (pd_self pd) h;
             Some (r, h)
        else Some ({| pd_self := pd_self pd; pd_bitmap_at := pd_bitmap_at pd; pd_bitmap := bm;
                      pd_page := pd_page pd; pd_words := pd_words pd; pd_dma := pd_dma pd |} :: r, h)
      else '(r', h) ← free_in_list db r h; Some (pd :: r', h)
  end.

Definition mlx5_db_free (db : mlx5_db) (st : db_priv) : option db_priv :=
  '(l, h) ← free_in_list db (pgdir_list st) (pgdir_heap st);
  Some {| pgdir_list := l; pgdir_heap := h |}.
End Db.

(** ** Specification: the set of slots handed out *)

Definition taken (l : list mlx5_db_pgdir) (id i : nat) : Prop :=
  exists pd, pd ∈ l /\ pd_self pd = id /\ pd_bitmap pd !! i = Some false.

Definition pd_ids (pd : mlx5_db_pgdir) : list nat := [pd_self pd; pd_bitmap_at pd; pd_page pd].

Section Inv.
Context (cls : Z).

Definition pd_wf (pd : mlx5_db_pgdir) : Prop :=
  length (pd_bitmap pd) = db_per_page cls /\ exists i, pd_bitmap pd !! i = Some false.

Definition pd_live (pd : mlx5_db_pgdir) (m : gmap nat Z) : gmap nat Z :=
  <[pd_self pd := 48]> (<[pd_bitmap_at pd := bitmap_bytes cls]> (<[pd_page pd := PAGE_SIZE]> m)).

(** The allocator state over a heap whose other live allocations are [m]: every
    page on the list has a slot in use, and the pages own exactly their three
    allocations. *)
Definition db_inv (m : gmap nat Z) (st : db_priv) : Prop :=
  Forall pd_wf (pgdir_list st) /\
  NoDup (pgdir_list st ≫= pd_ids) /\
  Forall (fun b => m !! b = None) (pgdir_list st ≫= pd_ids) /\
  h_live (pgdir_heap st) = foldr pd_live m (pgdir_list st) /\
  heap_wf (pgdir_heap st).

Lemma find_first_bit_spec bm :
  let i := find_first_bit bm in
  (i <= length bm)%nat /\ ((i < length bm)%nat -> bm !! i = Some true) /\
  (i = length bm -> forall j, bm !! j <> Some true).
Proof.
  induction bm as [|[] r (IH1 & IH2 & IH3)]; simpl.
  - split_and!; auto; lia.
  - split_and!; [lia|done|lia].
  - split_and!; [lia|intros; apply IH2; lia|intros E [|j]; simpl; [done|apply IH3; lia]].
Qed.

Lemma bitmap_full_spec bm : bitmap_full bm = true <-> forall i, bm !! i <> Some false.
Proof.
  unfold bitmap_full. rewrite forallb_forall. split.
  - intros H i Hi. apply list_elem_of_lookup_2, list_elem_of_In in Hi. by apply H in Hi.
  - intros H b Hb. apply list_elem_of_In, list_elem_of_lookup_1 in Hb as [i Hi].
    destruct b; [done|]. by destruct (H i).
Qed.

Lemma bitmap_not_full bm : bitmap_full bm = false -> exists i, bm !! i = Some false.
Proof.
  induction bm as [|[] r IH]; simpl; [done| |by exists 0%nat].
  intros [i Hi]%IH. by exists (S i).
Qed.

Lemma taken_mid l1 pd l2 id i :
  taken (l1 ++ pd :: l2) id i <->
  taken (l1 ++ l2) id i \/ (id = pd_self pd /\ pd_bitmap pd !! i = Some false).
Proof.
  unfold taken. split.
  - intros (x & Hx & <- & Hi). rewrite elem_of_app, elem_of_cons in Hx.
    destruct Hx as [Hx|[->|Hx]]; auto; left; exists x; rewrite elem_of_app; auto.
  - intros [(x & Hx & E & Hi)|[-> Hi]].
    + exists x. rewrite elem_of_app in Hx. rewrite elem_of_app, elem_of_cons. naive_solver.
    + exists pd. rewrite elem_of_app, elem_of_cons. auto.
Qed.

Lemma taken_other l1 pd l2 i :
  NoDup ((l1 ++ pd :: l2) ≫= pd_ids) -> ~ taken (l1 ++ l2) (pd_self pd) i.
Proof.
  rewrite bind_app, bind_cons. intros Hd (x & Hx & E & _).
  apply NoDup_app in Hd as (_ & H1 & Hd). apply NoDup_app in Hd as (_ & H2 & _).
  apply elem_of_app in Hx as [Hx|Hx].
  - apply (H1 (pd_self pd)); [|simpl; set_solver].
    apply list_elem_of_bind. exists x. split; [|done]. rewrite <- E. simpl; set_solver.
  - apply (H2 (pd_self pd)); [simpl; set_solver|].
    apply list_elem_of_bind. exists x. split; [|done]. rewrite <- E. simpl; set_solver.
Qed.

Lemma pd_live_comm a b m :
  NoDup (pd_ids a ++ pd_ids b) -> pd_live a (pd_live b m) = pd_live b (pd_live a m).
Proof.
  unfold pd_live, pd_ids; simpl. rewrite !NoDup_cons, !elem_of_cons. intros H.
  apply map_eq. intros i.
  rewrite !lookup_insert. repeat case_decide; naive_solver.
Qed.

Lemma foldr_pd_live_mid m l1 pd l2 :
  NoDup ((l1 ++ pd :: l2) ≫= pd_ids) ->
  foldr pd_live m (l1 ++ pd :: l2) = pd_live pd (foldr pd_live m (l1 ++ l2)).
Proof.
  induction l1 as [|a r IH]; intros Hd; [done|]. cbn [app foldr].
  rewrite <- app_comm_cons, bind_cons in Hd. apply NoDup_app in Hd as (Ha & Hx & Hd).
  rewrite IH by done. apply pd_live_comm. apply NoDup_app. split_and!; auto.
  - intros x Hxa Hxp. apply (Hx x Hxa). rewrite bind_app, bind_cons. set_solver.
  - rewrite bind_app, bind_cons in Hd. apply NoDup_app in Hd as (_ & _ & Hd).
    by apply NoDup_app in Hd as (? & _ & _).
Qed.

Lemma foldr_pd_live_other m l b :
  b ∉ (l ≫= pd_ids) -> foldr pd_live m l !! b = m !! b.
Proof.
  induction l as [|a r IH]; intros Hb; [done|]. rewrite bind_cons in Hb. cbn [foldr].
  unfold pd_live at 1. rewrite !lookup_insert_ne by set_solver. apply IH. set_solver.
Qed.

(** Replacing one page of the list by itself with another bitmap. *)
Lemma bind_ids_mid l1 pd pd' l2 :
  pd_ids pd' = pd_ids pd -> (l1 ++ pd' :: l2) ≫= pd_ids = (l1 ++ pd :: l2) ≫= pd_ids.
Proof. intros E. by rewrite !bind_app, !bind_cons, E. Qed.

Lemma db_inv_update m h l1 pd pd' l2 :
  db_inv m {| pgdir_list := l1 ++ pd :: l2; pgdir_heap := h |} ->
  pd_ids pd' = pd_ids pd -> pd_wf pd' ->
  db_inv m {| pgdir_list := l1 ++ pd' :: l2; pgdir_heap := h |}.
Proof.
  intros (Hw & Hd & Hm & Hl & Hh) E Hw'. unfold db_inv; simpl in *.
  rewrite (bind_ids_mid _ _ _ _ E). split_and!; auto.
  - apply Forall_app in Hw as [? [? ?]%Forall_cons]. by apply Forall_app_2; [|constructor].
  - rewrite Hl, !foldr_app. simpl. unfold pd_live. unfold pd_ids in E. by injection E as -> -> ->.
Qed.

Lemma db_inv_add m h h' pd l :
  db_inv m {| pgdir_list := l; pgdir_heap := h |} -> pd_wf pd ->
  heap_wf h' -> h_live h' = pd_live pd (h_live h) ->
  NoDup (pd_ids pd) -> Forall (fun b => h_live h !! b = None) (pd_ids pd) ->
  db_inv m {| pgdir_list := pd :: l; pgdir_heap := h' |}.
Proof.
  intros (Hw & Hd & Hm & Hl & Hh) Hwf Hh' Hl' Hnd Hfr. unfold db_inv; cbn [pgdir_list pgdir_heap] in *.
  assert (Hout : forall b, b ∈ pd_ids pd -> (b ∉ (l ≫= pd_ids)) /\ m !! b = None).
  { intros b Hb. rewrite Forall_forall in Hfr. specialize (Hfr b Hb). rewrite Hl in Hfr.
    destruct (decide (b ∈ (l ≫= pd_ids))) as [Hin|Hout].
    - exfalso. apply list_elem_of_bind in Hin as (x & Hx & Hxl).
      apply list_elem_of_split in Hxl as (l1 & l2 & ->). rewrite foldr_pd_live_mid in Hfr by done.
      unfold pd_live in Hfr. rewrite !lookup_insert in Hfr.
      unfold pd_ids in Hx. repeat case_decide; simplify_eq. set_solver.
    - split; [done|]. by rewrite foldr_pd_live_other in Hfr. }
  rewrite bind_cons. split_and!; auto.
  - apply NoDup_app. split_and!; auto. intros b Hb. by apply Hout.
  - apply Forall_app; split; auto. apply Forall_forall. intros b Hb. by apply Hout.
  - by rewrite Hl', Hl.
Qed.

Lemma mlx5_alloc_db_pgdir_spec o h :
  heap_wf h ->
  exists p h', mlx5_alloc_db_pgdir o cls h = Some (p, h') /\ heap_wf h' /\
  match p with
  | None => h_live h' = h_live h
  | Some pd => pd_bitmap pd = replicate (db_per_page cls) true /\
               h_live h' = pd_live pd (h_live h) /\ NoDup (pd_ids pd) /\
               Forall (fun b => h_live h !! b = None) (pd_ids pd)
  end.
Proof.
  intros Hwf. unfold mlx5_alloc_db_pgdir, kmalloc.
  destruct (dma_alloc o 48 h) as [[[a ?]|] h1] eqn:E1;
    apply dma_alloc_spec in E1 as (Hw1 & Hn1 & E1); try done; [|by exists None, h1; destruct E1].
  destruct E1 as (-> & _ & F1 & L1).
  destruct (dma_alloc o (bitmap_bytes cls) h1) as [[[b ?]|] h2] eqn:E2;
    apply dma_alloc_spec in E2 as (Hw2 & Hn2 & E2); try done.
  2: { destruct E2 as [E2 _]. rewrite (kfree_Some _ _ 48); simpl.
       - eexists None, _. split; [done|]. split; [by apply heap_wf_delete|].
         simpl. by rewrite E2, L1, delete_insert_id.
       - rewrite E2, L1. apply lookup_insert_eq. }
  destruct E2 as (-> & _ & F2 & L2).
  destruct (dma_alloc o PAGE_SIZE h2) as [[[c ?]|] h3] eqn:E3;
    apply dma_alloc_spec in E3 as (Hw3 & Hn3 & E3); try done.
  2: { destruct E3 as [E3 _]. rewrite (kfree_Some _ _ (bitmap_bytes cls)); simpl.
       - rewrite E3, L2, delete_insert_id by done. rewrite (kfree_Some _ _ 48); simpl.
         + eexists None, _. split; [done|]. split; [|simpl; by rewrite L1, delete_insert_id].
           simpl. rewrite L1, delete_insert_id by done. intros x Hx%Hwf. simpl in *. lia.
         + rewrite L1. apply lookup_insert_eq.
       - rewrite E3, L2. apply lookup_insert_eq. }
  destruct E3 as (-> & _ & F3 & L3). eexists (Some _), _. split; [done|]. split; [done|].
  unfold pd_live, pd_ids; simpl. split_and!; auto.
  - rewrite L3, L2, L1. apply map_eq. intros i. rewrite !lookup_insert.
    repeat case_decide; subst; lia || done.
  - rewrite Hn2, Hn1. repeat (apply NoDup_cons; split; [rewrite ?elem_of_cons, elem_of_nil; lia|]).
    constructor.
  - repeat constructor; apply heap_wf_fresh; auto; lia.
Qed.

Lemma alloc_db_from_pgdir_spec pd db pd' :
  (0 < db_per_page cls)%nat -> length (pd_bitmap pd) = db_per_page cls ->
  mlx5_alloc_db_from_pgdir cls pd = Some (db, pd') ->
  pd_bitmap pd !! db_index db = Some true /\
  pd_bitmap pd' = <[db_index db := false]> (pd_bitmap pd) /\
  db_pgdir db = pd_self pd /\ pd_ids pd' = pd_ids pd /\ pd_wf pd' /\
  db_db db = Z.of_nat (db_index db) * cls / 4 /\
  pd_words pd' (db_db db) = 0 /\ pd_words pd' (db_db db + 1) = 0 /\
  (forall w, w < db_db db \/ db_db db + 1 < w -> pd_words pd' w = pd_words pd w).
Proof.
  intros Hpos Hlen. unfold mlx5_alloc_db_from_pgdir.
  destruct (find_first_bit_spec (pd_bitmap pd)) as (F1 & F2 & F3).
  destruct (Nat.leb_spec (db_per_page cls) (find_first_bit (pd_bitmap pd))); [done|].
  intros [= <- <-]. simpl. split_and!; auto; try (apply F2; lia); try done.
  - split; simpl; [by rewrite length_insert|].
    exists (find_first_bit (pd_bitmap pd)). apply list_lookup_insert_eq. lia.
  - by rewrite Z.eqb_refl.
  - by rewrite Z.eqb_refl, orb_true_r.
  - intros w Hw. zcases; simpl; lia || done.
Qed.

Lemma alloc_from_list_spec l :
  match alloc_from_list cls l with
  | Some (db, l') => exists l1 pd pd' l2, l = l1 ++ pd :: l2 /\ l' = l1 ++ pd' :: l2 /\
                       mlx5_alloc_db_from_pgdir cls pd = Some (db, pd')
  | None => Forall (fun pd => mlx5_alloc_db_from_pgdir cls pd = None) l
  end.
Proof.
  induction l as [|a r IH]; [constructor|]. cbn [alloc_from_list].
  destruct (mlx5_alloc_db_from_pgdir cls a) as [[db pd']|] eqn:E.
  - by exists [], a, pd', r.
  - destruct (alloc_from_list cls r) as [[db r']|]; simpl; [|by constructor].
    destruct IH as (l1 & pd & pd' & l2 & -> & -> & H). by exists (a :: l1), pd, pd', l2.
Qed.

Lemma free_in_list_split db l h l1 pd l2 :
  l = l1 ++ pd :: l2 -> pd_self pd = db_pgdir db ->
  Forall (fun x => pd_self x <> db_pgdir db) l1 ->
  free_in_list db l h = '(r, h) ← free_in_list db (pd :: l2) h; Some (l1 ++ r, h).
Proof.
  intros -> E. induction 1 as [|a r Ha Hr IH]; [by destruct (free_in_list _ _ _) as [[? ?]|]|].
  cbn [app free_in_list]. destruct (Nat.eqb_spec (pd_self a) (db_pgdir db)); [done|].
  rewrite IH. cbn [free_in_list].
  destruct (free_in_list db (pd :: l2) h) as [[? ?]|] eqn:E'; cbn [free_in_list] in E';
    by rewrite E'.
Qed.

Lemma db_inv_mid m h l1 pd l2 :
  db_inv m {| pgdir_list := l1 ++ pd :: l2; pgdir_heap := h |} ->
  NoDup (pd_ids pd) /\ NoDup ((l1 ++ l2) ≫= pd_ids) /\
  Forall (fun x => pd_self x <> pd_self pd) l1 /\
  Forall (fun b => foldr pd_live m (l1 ++ l2) !! b = None) (pd_ids pd) /\
  h_live h = pd_live pd (foldr pd_live m (l1 ++ l2)).
Proof.
  intros (Hw & Hd & Hm & Hl & _); cbn [pgdir_list pgdir_heap] in *.
  rewrite foldr_pd_live_mid in Hl by done.
  rewrite bind_app, bind_cons in Hd, Hm.
  apply NoDup_app in Hd as (N1 & H1 & Hd). apply NoDup_app in Hd as (Hp & H2 & N2).
  apply Forall_app in Hm as [_ Hm]. apply Forall_app in Hm as [Hm _].
  split_and!; auto.
  - rewrite bind_app. apply NoDup_app. split_and!; auto.
    intros b Hb Hb'. apply (H1 b Hb), elem_of_app. by right.
  - apply Forall_forall. intros x Hx E. apply (H1 (pd_self pd)).
    + apply list_elem_of_bind. exists x. split; [|done]. rewrite <- E. unfold pd_ids. set_solver.
    + unfold pd_ids. set_solver.
  - apply Forall_forall. intros b Hb. rewrite foldr_pd_live_other.
    + rewrite Forall_forall in Hm. by apply Hm.
    + rewrite bind_app. intros [Hb1|Hb2]%elem_of_app; [|by apply (H2 b)].
      apply (H1 b Hb1), elem_of_app. by left.
Qed.

(** Dropping a page with its three allocations. *)
Lemma db_inv_remove m h l1 pd l2 :
  db_inv m {| pgdir_list := l1 ++ pd :: l2; pgdir_heap := h |} ->
  exists h',
    (h ← dma_free PAGE_SIZE (pd_page pd) h; h ← kfree (pd_bitmap_at pd) h; kfree (pd_self pd) h)
    = Some h' /\
    db_inv m {| pgdir_list := l1 ++ l2; pgdir_heap := h' |}.
Proof.
  intros Hinv. pose proof (db_inv_mid _ _ _ _ _ Hinv) as (Np & Nl & _ & Hfr & Hl).
  destruct Hinv as (Hw & Hd & Hm & _ & Hh); cbn [pgdir_list pgdir_heap] in *.
  unfold pd_live, pd_ids in *. rewrite !NoDup_cons, !elem_of_cons in Np.
  destruct Np as (Np1 & Np2 & _). rewrite !Forall_cons in Hfr. destruct Hfr as (F1 & F2 & F3 & _).
  fold pd_live pd_ids in *.
  rewrite (dma_free_Some _ _ PAGE_SIZE).
  2: { rewrite Hl, !lookup_insert_ne by naive_solver. apply lookup_insert_eq. }
  simpl. rewrite (kfree_Some _ _ (bitmap_bytes cls)); simpl.
  2: { rewrite lookup_delete_ne, Hl, lookup_insert_ne by naive_solver. apply lookup_insert_eq. }
  rewrite (kfree_Some _ _ 48); simpl.
  2: { rewrite !lookup_delete_ne, Hl by naive_solver. apply lookup_insert_eq. }
  eexists. split; [done|]. unfold db_inv; simpl.
  split_and!.
  - apply Forall_app in Hw as [W1 [_ W2]%Forall_cons]. by apply Forall_app.
  - done.
  - rewrite bind_app, bind_cons, !Forall_app in Hm. rewrite bind_app, Forall_app. naive_solver.
  - rewrite Hl. apply map_eq. intros i. rewrite !lookup_delete, !lookup_insert.
    repeat case_decide; subst; congruence.
  - do 3 (apply (heap_wf_delete {| h_next := _; h_live := _ |})). done.
Qed.
End Inv.

(** Two records of a page occupy different words. *)
Lemma db_words_disjoint cls i j k :
  8 <= cls -> cls mod 4 = 0 -> i <> j -> 0 <= k <= 1 ->
  Z.of_nat j * cls / 4 + k < Z.of_nat i * cls / 4 \/
  Z.of_nat i * cls / 4 + 1 < Z.of_nat j * cls / 4 + k.
Proof.
  intros Hc H4 Hij Hk. apply Z.mod_divide in H4 as [c ->]; [|lia].
  rewrite !Z.mul_assoc, !Z.div_mul by lia.
  destruct (Z.lt_trichotomy (Z.of_nat i) (Z.of_nat j)) as [H|[H|H]]; [|lia|]; nia.
Qed.

Lemma alloc_words cls pd db pd' :
  (0 < db_per_page cls)%nat -> length (pd_bitmap pd) = db_per_page cls ->
  mlx5_alloc_db_from_pgdir cls pd = Some (db, pd') ->
  pd_self pd' = db_pgdir db /\ db_db db = Z.of_nat (db_index db) * cls / 4 /\
  pd_words pd' (db_db db) = 0 /\ pd_words pd' (db_db db + 1) = 0.
Proof.
  intros Hpos Hl E.
  apply alloc_db_from_pgdir_spec in E as (_ & _ & E & Hids & _ & ? & ? & ? & _); auto.
  unfold pd_ids in Hids. split_and!; auto; congruence.
Qed.

(** Taking a slot of one page of the list. *)
Lemma alloc_taken cls l1 pd l2 db pd' :
  (0 < db_per_page cls)%nat -> NoDup ((l1 ++ pd :: l2) ≫= pd_ids) ->
  length (pd_bitmap pd) = db_per_page cls ->
  mlx5_alloc_db_from_pgdir cls pd = Some (db, pd') ->
  ~ taken (l1 ++ pd :: l2) (db_pgdir db) (db_index db) /\
  forall id i, taken (l1 ++ pd' :: l2) id i <->
    taken (l1 ++ pd :: l2) id i \/ (id = db_pgdir db /\ i = db_index db).
Proof.
  intros Hpos Hd Hlen E.
  destruct (alloc_db_from_pgdir_spec _ _ _ _ Hpos Hlen E) as (H1 & H2 & H3 & H4 & _).
  assert (Hself : pd_self pd' = pd_self pd) by (unfold pd_ids in H4; congruence).
  rewrite H3. split.
  - rewrite taken_mid. intros [H|[_ H]]; [|congruence]. by eapply taken_other.
  - intros id i. rewrite !taken_mid, H2, Hself.
    pose proof (lookup_lt_Some _ _ _ H1).
    destruct (decide (i = db_index db)) as [->|Hi].
    + rewrite list_lookup_insert_eq by done. naive_solver.
    + rewrite list_lookup_insert_ne by done. naive_solver.
Qed.

Lemma taken_unused pd l id i :
  Forall (fun b => b = true) (pd_bitmap pd) -> taken (pd :: l) id i <-> taken l id i.
Proof.
  intros Hb. rewrite (taken_mid [] pd l). simpl. split; [|by left].
  intros [?|[_ Hi]]; [done|]. by eapply Forall_lookup in Hb; [|exact Hi].
Qed.

(** A page just allocated is put on the list with one slot taken. *)
Lemma db_alloc_new cls m h h' l pd :
  (0 < db_per_page cls)%nat -> db_inv cls m {| pgdir_list := l; pgdir_heap := h |} ->
  heap_wf h' -> pd_bitmap pd = replicate (db_per_page cls) true ->
  h_live h' = pd_live cls pd (h_live h) -> NoDup (pd_ids pd) ->
  Forall (fun b => h_live h !! b = None) (pd_ids pd) ->
  exists db pd', mlx5_alloc_db_from_pgdir cls pd = Some (db, pd') /\
    db_inv cls m {| pgdir_list := pd' :: l; pgdir_heap := h' |} /\
    ~ taken l (db_pgdir db) (db_index db) /\
    forall id i, taken (pd' :: l) id i <->
      taken l id i \/ (id = db_pgdir db /\ i = db_index db).
Proof.
  intros Hpos Hinv Hh' Hbm Hlv Hnd Hfr.
  destruct (mlx5_alloc_db_from_pgdir cls pd) as [[db pd']|] eqn:E.
  2: { exfalso. unfold mlx5_alloc_db_from_pgdir in E. rewrite Hbm in E.
       destruct (db_per_page cls); [lia|]. done. }
  assert (Hlen : length (pd_bitmap pd) = db_per_page cls) by (rewrite Hbm; apply length_replicate).
  destruct (alloc_db_from_pgdir_spec _ _ _ _ Hpos Hlen E) as (H1 & H2 & H3 & H4 & H5 & _).
  assert (Hinv' : db_inv cls m {| pgdir_list := pd' :: l; pgdir_heap := h' |}).
  { eapply db_inv_add; eauto; unfold pd_live, pd_ids in *; injection H4 as -> -> ->; done. }
  pose proof Hinv' as (_ & Hd & _); cbn [pgdir_list] in Hd.
  change (NoDup (([] ++ pd' :: l) ≫= pd_ids)) in Hd. rewrite (bind_ids_mid [] pd) in Hd by done.
  assert (Hall : Forall (fun b => b = true) (pd_bitmap pd)) by (rewrite Hbm; by apply Forall_replicate).
  destruct (alloc_taken cls [] pd l db pd' Hpos Hd Hlen E) as [Hn Ht]; simpl in Hn, Ht.
  exists db, pd'. rewrite taken_unused in Hn by done. split_and!; auto.
  intros id i. rewrite Ht, taken_unused by done. done.
Qed.

Lemma db_alloc_ok (o : oracle) (cls : Z) (m : gmap nat Z) (st : db_priv) :
  8 <= cls <= PAGE_SIZE -> db_inv cls m st ->
  exists ret d st', mlx5_db_alloc_node o cls st = Some (ret, d, st') /\ db_inv cls m st' /\
  match d with
  | None => ret = - ENOMEM /\ pgdir_list st' = pgdir_list st /\
            h_live (pgdir_heap st') = h_live (pgdir_heap st)
  | Some db =>
      ret = 0 /\ ~ taken (pgdir_list st) (db_pgdir db) (db_index db) /\
      (forall id i, taken (pgdir_list st') id i <->
         taken (pgdir_list st) id i \/ (id = db_pgdir db /\ i = db_index db)) /\
      exists pd, pd ∈ pgdir_list st' /\ pd_self pd = db_pgdir db /\
        db_db db = Z.of_nat (db_index db) * cls / 4 /\
        pd_words pd (db_db db) = 0 /\ pd_words pd (db_db db + 1) = 0
  end.
Proof.
  intros Hcls Hinv. destruct st as [l h]. unfold mlx5_db_alloc_node; simpl.
  assert (Hpos : (0 < db_per_page cls)%nat).
  { unfold db_per_page, PAGE_SIZE in *. pose proof (Z.div_str_pos 4096 cls ltac:(lia)). lia. }
  pose proof (alloc_from_list_spec cls l) as Hl.
  destruct (alloc_from_list cls l) as [[db l']|].
  - destruct Hl as (l1 & pd & pd' & l2 & -> & -> & E).
    pose proof Hinv as (Hw & Hd & _). apply Forall_app in Hw as [_ [[Hlen _] _]%Forall_cons].
    destruct (alloc_taken cls _ _ _ _ _ Hpos Hd Hlen E) as [Hn Ht].
    destruct (alloc_db_from_pgdir_spec _ _ _ _ Hpos Hlen E) as (_ & _ & _ & H4 & H5 & _).
    eexists 0, (Some db), _. split; [done|]. split; [by eapply db_inv_update|].
    split_and!; auto. exists pd'. split; [set_solver|]. by eapply alloc_words.
  - destruct (mlx5_alloc_db_pgdir_spec cls o h) as (p & h' & -> & Hh' & Hp); [apply Hinv|].
    destruct p as [pd|]; simpl.
    2: { eexists _, None, _. split; [done|]. split_and!; auto.
         destruct Hinv as (? & ? & ? & ? & ?). unfold db_inv; simpl in *. by rewrite Hp. }
    destruct Hp as (Hbm & Hlv & Hnd & Hfr).
    destruct (db_alloc_new cls m h h' l pd) as (db & pd' & E & Hi & Hn & Ht); auto. rewrite E.
    eexists 0, (Some db), _. split; [done|]. split_and!; auto.
    exists pd'. split; [set_solver|].
    eapply (alloc_words cls pd); auto. rewrite Hbm. apply length_replicate.
Qed.

(** The doorbell allocator hands out every slot at most once: it keeps its
    invariant, a failed call changes no slot and leaks nothing, and a
    successful one returns a slot that was free, marks exactly it as taken, and
    clears its two words. *)
Theorem db_alloc_fresh (o : oracle) (cls : Z) (m : gmap nat Z) (st : db_priv) :
  8 <= cls <= PAGE_SIZE -> db_inv cls m st ->
  exists ret d st', mlx5_db_alloc_node o cls st = Some (ret, d, st') /\ db_inv cls m st' /\
  match d with
  | None => ret = - ENOMEM /\ pgdir_list st' = pgdir_list st /\
            h_live (pgdir_heap st') = h_live (pgdir_heap st)
  | Some db =>
      ret = 0 /\ ~ taken (pgdir_list st) (db_pgdir db) (db_index db) /\
      (forall id i, taken (pgdir_list st') id i <->
         taken (pgdir_list st) id i \/ (id = db_pgdir db /\ i = db_index db)) /\
      exists pd, pd ∈ pgdir_list st' /\ pd_self pd = db_pgdir db /\
        db_db db = Z.of_nat (db_index db) * cls / 4 /\
        pd_words pd (db_db db) = 0 /\ pd_words pd (db_db db + 1) = 0
  end.
Proof. apply db_alloc_ok. Qed.

Lemma db_inv_idle cls m st :
  db_inv cls m st -> (forall id i, ~ taken (pgdir_list st) id i) -> h_live (pgdir_heap st) = m.
Proof.
  intros (Hw & _ & _ & Hl & _) Hn. rewrite Hl. destruct (pgdir_list st) as [|pd l]; [done|].
  apply Forall_cons in Hw as [[_ [i Hi]] _]. destruct (Hn (pd_self pd) i).
  exists pd. split_and!; auto. set_solver.
Qed.

(** Freeing a slot of one page of the list. *)
Lemma free_in_list_mid cls m h db l1 pd l2 :
  db_inv cls m {| pgdir_list := l1 ++ pd :: l2; pgdir_heap := h |} ->
  pd_self pd = db_pgdir db ->
  exists l' h', free_in_list db (l1 ++ pd :: l2) h = Some (l', h') /\
    db_inv cls m {| pgdir_list := l'; pgdir_heap := h' |} /\
    forall id i, taken l' id i <-> taken (l1 ++ l2) id i \/
      (id = pd_self pd /\ <[db_index db := true]> (pd_bitmap pd) !! i = Some false).
Proof.
  intros Hinv Hself. pose proof (db_inv_mid _ _ _ _ _ _ Hinv) as (_ & _ & Hl1 & _).
  pose proof Hinv as (Hw & _). apply Forall_app in Hw as [_ [[Hlen _] _]%Forall_cons].
  rewrite Hself in Hl1.
  rewrite (free_in_list_split _ _ _ l1 pd l2) by done. cbn [free_in_list].
  rewrite (proj2 (Nat.eqb_eq _ _) Hself).
  destruct (bitmap_full _) eqn:Ef.
  - destruct (db_inv_remove _ _ _ _ _ _ Hinv) as (h' & E & Hi).
    destruct (dma_free _ _ _) as [h1|]; simpl in *; [|done].
    destruct (kfree (pd_bitmap_at pd) h1) as [h2|]; simpl in *; [|done].
    rewrite E; simpl. eexists _, _. split; [done|]. split; [done|].
    rewrite bitmap_full_spec in Ef. intros id i. naive_solver.
  - simpl. eexists _, _. split; [done|]. split; [|intros id i; by rewrite taken_mid].
    eapply db_inv_update; eauto. split; simpl; [by rewrite length_insert|].
    by apply bitmap_not_full.
Qed.

Lemma db_free_ok (cls : Z) (m : gmap nat Z) (st : db_priv) (db : mlx5_db) :
  db_inv cls m st -> taken (pgdir_list st) (db_pgdir db) (db_index db) ->
  exists st', mlx5_db_free db st = Some st' /\ db_inv cls m st' /\
    (forall id i, taken (pgdir_list st') id i <->
       taken (pgdir_list st) id i /\ ~ (id = db_pgdir db /\ i = db_index db)) /\
    ((forall id i, ~ taken (pgdir_list st') id i) -> h_live (pgdir_heap st') = m).
Proof.
  intros Hinv (pd & Hpd & Hself & Hbit). destruct st as [l h]; simpl in *.
  apply list_elem_of_split in Hpd as (l1 & l2 & ->).
  pose proof (lookup_lt_Some _ _ _ Hbit) as Hlt.
  destruct (free_in_list_mid _ _ _ db _ _ _ Hinv Hself) as (l' & h' & E & Hi & Htk).
  eexists. unfold mlx5_db_free; simpl. rewrite E. split; [done|]. split; [done|].
  split; [|by apply (db_inv_idle cls)]. simpl. intros id i. rewrite Htk, taken_mid, <- Hself.
  destruct (decide (i = db_index db)) as [->|Hi'].
  - rewrite list_lookup_insert_eq by done. split; [|naive_solver].
    intros [H|[_ ?]]; [|done]. split; [by left|]. intros [-> _].
    eapply taken_other, H. apply Hinv.
  - rewrite list_lookup_insert_ne by done. naive_solver.
Qed.

(** Freeing a doorbell record gives exactly its slot back: the call is
    defined for every slot in use, keeps the invariant, and once no slot is in
    use every page has been returned to the heap. *)
Theorem db_free_exact (cls : Z) (m : gmap nat Z) (st : db_priv) (db : mlx5_db) :
  db_inv cls m st -> taken (pgdir_list st) (db_pgdir db) (db_index db) ->
  exists st', mlx5_db_free db st = Some st' /\ db_inv cls m st' /\
    (forall id i, taken (pgdir_list st') id i <->
       taken (pgdir_list st) id i /\ ~ (id = db_pgdir db /\ i = db_index db)) /\
    ((forall id i, ~ taken (pgdir_list st') id i) -> h_live (pgdir_heap st') = m).
Proof. apply db_free_ok. Qed.

(** ** Other allocations on the same heap *)

Lemma foldr_pd_live_union cls bl m l :
  Forall (fun b => bl !! b = None) (l ≫= pd_ids) -> foldr (pd_live cls) (bl ∪ m) l = bl ∪ foldr (pd_live cls) m l.
Proof.
  induction l as [|pd l IH]; intros H; [done|]. cbn [foldr]. rewrite bind_cons in H.
  apply Forall_app in H as [Hp Hl]. rewrite IH by done. unfold pd_live, pd_ids in *.
  rewrite !Forall_cons in Hp. destruct Hp as (? & ? & ? & _). by rewrite !insert_union_r by done.
Qed.

Lemma pd_ids_live cls m l b : b ∈ (l ≫= pd_ids) -> is_Some (foldr (pd_live cls) m l !! b).
Proof.
  induction l as [|pd l IH]; [by intros ?%elem_of_nil|]. rewrite bind_cons. intros H. cbn [foldr].
  unfold pd_live. rewrite !lookup_insert. repeat (case_decide; [by eexists|]).
  apply IH. unfold pd_ids in H. set_solver.
Qed.

(** New blocks join the others, and can leave again. *)
Lemma db_inv_grow cls m st bl h' :
  db_inv cls m st -> heap_wf h' -> h_live h' = bl ∪ h_live (pgdir_heap st) ->
  bl ##ₘ h_live (pgdir_heap st) -> db_inv cls (bl ∪ m) (mkpriv (pgdir_list st) h') /\ bl ##ₘ m.
Proof.
  intros (Hw & Hd & Hm & Hl & Hh) Hwf' Hl' Hdis. rewrite Hl in Hdis, Hl'.
  assert (Hbl : Forall (fun b => bl !! b = None) (pgdir_list st ≫= pd_ids)).
  { apply Forall_forall. intros b Hb. destruct (pd_ids_live cls m (pgdir_list st) b Hb) as [x Hx].
    eapply map_disjoint_Some_r; eauto. }
  split.
  - split_and!; auto; simpl; [|by rewrite foldr_pd_live_union].
    rewrite Forall_forall in *. intros b Hb. apply lookup_union_None; auto.
  - apply map_disjoint_spec. intros b x y Hx Hy. destruct (decide (b ∈ (pgdir_list st ≫= pd_ids))) as [Hb|Hb].
    + rewrite Forall_forall in Hbl. by rewrite Hbl in Hx.
    + rewrite map_disjoint_spec in Hdis. eapply (Hdis b); eauto. by rewrite foldr_pd_live_other.
Qed.

Lemma db_inv_split cls bl m st :
  db_inv cls (bl ∪ m) st -> bl ##ₘ m ->
  exists rest, h_live (pgdir_heap st) = bl ∪ rest /\ bl ##ₘ rest /\
    forall h', heap_wf h' -> h_live h' = rest -> db_inv cls m (mkpriv (pgdir_list st) h').
Proof.
  intros (Hw & Hd & Hm & Hl & Hh) Hdis.
  assert (Hbl : Forall (fun b => bl !! b = None /\ m !! b = None) (pgdir_list st ≫= pd_ids))
    by (eapply Forall_impl; [exact Hm|]; by intros b ?%lookup_union_None).
  exists (foldr (pd_live cls) m (pgdir_list st)). split; [|split].
  - rewrite Hl. apply foldr_pd_live_union. eapply Forall_impl; [exact Hbl|]. by intros b [? _].
  - apply map_disjoint_spec. intros b x y Hx Hy. destruct (decide (b ∈ (pgdir_list st ≫= pd_ids))) as [Hb|Hb].
    + rewrite Forall_forall in Hbl. destruct (Hbl b Hb) as [? _]. congruence.
    + rewrite foldr_pd_live_other in Hy by done. rewrite map_disjoint_spec in Hdis. by eapply (Hdis b).
  - intros h' Hwf' Hl'. split_and!; auto. eapply Forall_impl; [exact Hbl|]. by intros b [_ ?].
Qed.

(** A heap with one doorbell page, its first slot in use. *)
Definition db_example : db_priv :=
  {| pgdir_list := [{| pd_self := 0; pd_bitmap_at := 1; pd_bitmap := false :: replicate 63 true;
                       pd_page := 2; pd_words := fun _ => 0; pd_dma := 8192 |}];
     pgdir_heap := {| h_next := 3;
                      h_live := <[0%nat := 48]> (<[1%nat := 8]> (<[2%nat := PAGE_SIZE]> ∅)) |} |}.

Lemma db_example_inv : db_inv 64 ∅ db_example.
Proof.
  split_and!.
  - repeat constructor. by exists 0%nat.
  - by apply (bool_decide_unpack _).
  - by apply (bool_decide_unpack _).
  - reflexivity.
  - intros b. simpl. rewrite !lookup_insert. repeat case_decide; subst; try lia.
    by intros [? ?].
Qed.

Lemma db_alloc_fresh_witness :
  db_inv 64 ∅ db_example /\ exists d st',
    mlx5_db_alloc_node (fun n => Some (Z.of_nat n * 4096)) 64 db_example = Some (0, d, st') /\
    db_inv 64 ∅ st'.
Proof.
  split; [exact db_example_inv|].
  destruct (db_alloc_fresh (fun n => Some (Z.of_nat n * 4096)) 64 ∅ db_example)
    as (ret & d & st' & E & Hi & _).
  - unfold PAGE_SIZE; lia.
  - exact db_example_inv.
  - exists d, st'. split; [|exact Hi]. rewrite E. vm_compute in E. by injection E as <- _ _.
Defined.

Lemma db_free_exact_witness :
  exists st', mlx5_db_free (mkdb 0 0 0 8192) db_example = Some st' /\
    h_live (pgdir_heap st') = ∅.
Proof.
  destruct (db_free_exact 64 ∅ db_example (mkdb 0 0 0 8192)) as (st' & E & _ & _ & Hm).
  - exact db_example_inv.
  - eexists. split; [by apply list_elem_of_here|]. split; reflexivity.
  - exists st'. split; [exact E|]. apply Hm. vm_compute in E. injection E as <-.
    intros id i (pd & Hpd & _). by apply elem_of_nil in Hpd.
Defined.
