(* ===== verification/DrvState.v ===== *)
(** * DrvState: the memory the driver's objects are made of

    The heap, the doorbell pages, and operations on them as the code that
    creates and destroys queues calls them.  [owned m D] says that the live
    allocations are those of the doorbell pages and [m], and that [D] are the
    doorbell records in use; each operation has one rule, and what an operation
    adds to [m] or [D] its counterpart takes away. *)

From S2P Require Import Prelude ErrState KHeap FragAlloc DbAlloc.

Open Scope es_scope.

Definition ENOENT : Z := 2.
Definition EBUSY : Z := 16.
Definition EEXIST : Z := 17.

(** [R] is what the state holds besides memory. *)
Record drv (R : Type) := mkdrv { d_mem : db_priv; d_rest : R }.
Arguments mkdrv {R} _ _.
Arguments d_mem {R} _.
Arguments d_rest {R} _.

Section Ops.
Context {R : Type} (o : oracle) (cls : Z).

Definition on_heap {A} (f : heap -> option (A * heap)) : es (drv R) A := fun s =>
  '(a, h) ← f (pgdir_heap (d_mem s));
  Some (inr a, mkdrv (mkpriv (pgdir_list (d_mem s)) h) (d_rest s)).

Definition on_rest {A} (m : es R A) : es (drv R) A := fun s =>
  '(r, x) ← m (d_rest s); Some (r, mkdrv (d_mem s) x).

(** A part of the state, with the same memory. *)
Definition on_part {S A} (get : R -> S) (put : S -> R -> R) (m : es (drv S) A) : es (drv R) A := fun s =>
  '(r, y) ← m (mkdrv (d_mem s) (get (d_rest s))); Some (r, mkdrv (d_mem y) (put (d_rest y) (d_rest s))).

Definition d_kmalloc (size : Z) : es (drv R) (option nat) := on_heap (fun h => Some (kmalloc o size h)).
Definition d_kvmalloc_all (sizes : list Z) : es (drv R) (list (option nat)) :=
  on_heap (fun h => Some (kvmalloc_all o sizes h)).
Definition d_kvfree_all (bs : list (option nat)) : es (drv R) unit :=
  on_heap (fun h => h ← kvfree_all bs h; Some (tt, h)).
Definition d_kfree (b : nat) : es (drv R) unit := d_kvfree_all [Some b].

(** [p = kzalloc(size); if (!p) return -ENOMEM;] *)
Definition d_kzalloc (size : Z) : es (drv R) nat :=
  do! b := d_kmalloc size in match b with Some b => es_ret b | None => es_fail (- ENOMEM) end.

Definition d_frag_buf_alloc (size : Z) : es (drv R) mlx5_frag_buf :=
  do! r := on_heap (mlx5_frag_buf_alloc_node o size) in
  match r with (_, Some b) => es_ret b | (e, None) => es_fail e end.
Definition d_frag_buf_free (b : mlx5_frag_buf) : es (drv R) unit :=
  on_heap (fun h => h ← mlx5_frag_buf_free b h; Some (tt, h)).

Definition d_db_alloc : es (drv R) mlx5_db := fun s =>
  '(e, d, st) ← mlx5_db_alloc_node o cls (d_mem s);
  match d with
  | Some db => Some (inr db, mkdrv st (d_rest s))
  | None => if e =? 0 then None else Some (inl e, mkdrv st (d_rest s))
  end.
Definition d_db_free (db : mlx5_db) : es (drv R) unit := fun s =>
  st ← mlx5_db_free db (d_mem s); Some (inr tt, mkdrv st (d_rest s)).
End Ops.

(** ** What is owned *)

Lemma union_swap (a b m : gmap nat Z) : a ##ₘ b -> a ∪ (b ∪ m) = b ∪ (a ∪ m).
Proof. intros H. rewrite !map_union_assoc. f_equal. by apply map_union_comm. Qed.

Definition slot_of (db : mlx5_db) : nat * nat := (db_pgdir db, db_index db).

Definition owned (cls : Z) (m : gmap nat Z) (D : gset (nat * nat)) (st : db_priv) : Prop :=
  db_inv cls m st /\ forall id i, taken (pgdir_list st) id i <-> (id, i) ∈ D.

Section Rules.
Context {R : Type} (o : oracle) (cls : Z) (x : R).
Implicit Types (m : gmap nat Z) (D : gset (nat * nat)).

Lemma owned_grow m D st bl h' :
  owned cls m D st -> heap_wf h' -> h_live h' = bl ∪ h_live (pgdir_heap st) ->
  bl ##ₘ h_live (pgdir_heap st) -> owned cls (bl ∪ m) D (mkpriv (pgdir_list st) h') /\ bl ##ₘ m.
Proof. intros [Hi Ht] Hw Hl Hd. destruct (db_inv_grow cls m st bl h') as [? ?]; auto. by split; [split; [|exact Ht]|]. Qed.

Lemma owned_same m D st h' :
  owned cls m D st -> heap_wf h' -> h_live h' = h_live (pgdir_heap st) ->
  owned cls m D (mkpriv (pgdir_list st) h').
Proof.
  intros H Hw Hl. destruct (owned_grow m D st ∅ h') as [? _]; auto.
  - by rewrite map_empty_union.
  - apply map_disjoint_empty_l.
  - by rewrite map_empty_union in *.
Qed.

(** Free something that returns the heap without the blocks [bl]. *)
Lemma owned_shrink m D st bl (f : heap -> option heap) :
  owned cls (bl ∪ m) D st -> bl ##ₘ m ->
  (forall h rest, heap_wf h -> h_live h = bl ∪ rest -> bl ##ₘ rest ->
     exists h', f h = Some h' /\ heap_wf h' /\ h_live h' = rest) ->
  exists h', f (pgdir_heap st) = Some h' /\ owned cls m D (mkpriv (pgdir_list st) h').
Proof.
  intros [Hi Ht] Hd Hf. destruct (db_inv_split cls bl m st Hi Hd) as (rest & Hl & Hdr & Hk).
  destruct (Hf (pgdir_heap st) rest) as (h' & E & Hw & Hl'); [apply Hi|done|done|].
  exists h'. split; [done|]. split; [by apply Hk|done].
Qed.

Lemma runs_kmalloc size st m D (Q : Z + option nat -> drv R -> Prop) :
  owned cls m D st ->
  (forall st', owned cls m D st' -> Q (inr None) (mkdrv st' x)) ->
  (forall b st', m !! b = None -> owned cls ({[b := size]} ∪ m) D st' -> Q (inr (Some b)) (mkdrv st' x)) ->
  runs (d_kmalloc o size) (mkdrv st x) Q.
Proof.
  intros Ho HN HS. unfold runs, d_kmalloc, on_heap. simpl. destruct (kmalloc o size _) as [r h'] eqn:E.
  pose proof Ho as [(_ & _ & _ & _ & Hw) _]. apply kmalloc_own in E as (Hw' & Hl & Hb); [|done].
  eexists _, _. split; [done|]. destruct r as [b|].
  - destruct (owned_grow m D st {[b := size]} h') as [? Hd]; auto.
    + apply map_disjoint_singleton_l. by apply Hb.
    + apply HS; [|done]. by apply map_disjoint_singleton_l in Hd.
  - apply HN. by apply owned_same.
Qed.

Lemma runs_kzalloc size st m D (Q : Z + nat -> drv R -> Prop) :
  owned cls m D st ->
  (forall st', owned cls m D st' -> Q (inl (- ENOMEM)) (mkdrv st' x)) ->
  (forall b st', m !! b = None -> owned cls ({[b := size]} ∪ m) D st' -> Q (inr b) (mkdrv st' x)) ->
  runs (d_kzalloc o size) (mkdrv st x) Q.
Proof.
  intros Ho HN HS. apply runs_bind, (runs_kmalloc size st m D); auto; intros.
  - by apply runs_fail, HN.
  - by apply runs_ret, HS.
Qed.

Lemma runs_kvmalloc_all sizes st m D (Q : Z + list (option nat) -> drv R -> Prop) :
  owned cls m D st ->
  (forall bs st', length bs = length sizes -> NoDup (omap id bs) -> blocks_of_all bs sizes ##ₘ m ->
     owned cls (blocks_of_all bs sizes ∪ m) D st' -> Q (inr bs) (mkdrv st' x)) ->
  runs (d_kvmalloc_all o sizes) (mkdrv st x) Q.
Proof.
  intros Ho HQ. unfold runs, d_kvmalloc_all, on_heap. simpl. destruct (kvmalloc_all o sizes _) as [bs h'] eqn:E.
  pose proof Ho as [(_ & _ & _ & _ & Hw) _]. apply kvmalloc_all_own in E as (Hw' & Hlen & Hd & Hl & Hn); [|done].
  eexists _, _. split; [done|]. destruct (owned_grow m D st (blocks_of_all bs sizes) h') as [? ?]; auto.
Qed.

Lemma runs_kvfree_all bs st bl m D (Q : Z + unit -> drv R -> Prop) :
  owned cls (bl ∪ m) D st -> bl ##ₘ m -> NoDup (omap id bs) -> (forall b, b ∈ omap id bs <-> is_Some (bl !! b)) ->
  (forall st', owned cls m D st' -> Q (inr tt) (mkdrv st' x)) ->
  runs (d_kvfree_all bs) (mkdrv st x) Q.
Proof.
  intros Ho Hd Hn Hb HQ. destruct (owned_shrink m D st bl (kvfree_all bs) Ho Hd) as (h' & E & Ho').
  { intros h rest Hw Hl Hdr. by apply kvfree_all_own with bl. }
  unfold runs, d_kvfree_all, on_heap. simpl. rewrite E. eexists _, _. split; [done|]. by apply HQ.
Qed.

Lemma runs_kfree b size st m D (Q : Z + unit -> drv R -> Prop) :
  owned cls ({[b := size]} ∪ m) D st -> m !! b = None ->
  (forall st', owned cls m D st' -> Q (inr tt) (mkdrv st' x)) ->
  runs (d_kfree b) (mkdrv st x) Q.
Proof.
  intros Ho Hm HQ. apply (runs_kvfree_all [Some b] st {[b := size]} m D); auto.
  - by apply map_disjoint_singleton_l.
  - apply NoDup_singleton.
  - intros c. simpl. rewrite list_elem_of_singleton, lookup_singleton_is_Some. naive_solver.
Qed.

Lemma runs_frag_buf_alloc size st m D (Q : Z + mlx5_frag_buf -> drv R -> Prop) :
  0 <= size -> owned cls m D st ->
  (forall st', owned cls m D st' -> Q (inl (- ENOMEM)) (mkdrv st' x)) ->
  (forall b st', buf_ok b size -> buf_blocks b ##ₘ m -> owned cls (buf_blocks b ∪ m) D st' ->
     Q (inr b) (mkdrv st' x)) ->
  runs (d_frag_buf_alloc o size) (mkdrv st x) Q.
Proof.
  intros Hs Ho HN HS. pose proof Ho as [(_ & _ & _ & _ & Hw) _]. apply runs_bind.
  destruct (frag_buf_alloc_own o size (pgdir_heap st) Hs Hw) as ([e [b|]] & h' & E & Hw' & H);
    eexists (inr _), _; (split; [unfold on_heap; simpl; rewrite E; done|]); simpl.
  - destruct H as (_ & Hok & Hd & Hl). destruct (owned_grow m D st (buf_blocks b) h') as [? ?]; auto.
    by apply runs_ret, HS.
  - destruct H as [-> Hl]. apply runs_fail, HN. by apply owned_same.
Qed.

Lemma runs_frag_buf_free b size st m D (Q : Z + unit -> drv R -> Prop) :
  buf_ok b size -> owned cls (buf_blocks b ∪ m) D st -> buf_blocks b ##ₘ m ->
  (forall st', owned cls m D st' -> Q (inr tt) (mkdrv st' x)) ->
  runs (d_frag_buf_free b) (mkdrv st x) Q.
Proof.
  intros Hok Ho Hd HQ. destruct (owned_shrink m D st (buf_blocks b) (mlx5_frag_buf_free b) Ho Hd) as (h' & E & Ho').
  { intros h rest Hw Hl Hdr. by apply frag_buf_free_own with size. }
  unfold runs, d_frag_buf_free, on_heap. simpl. rewrite E. eexists _, _. split; [done|]. by apply HQ.
Qed.

Lemma runs_db_alloc st m D (Q : Z + mlx5_db -> drv R -> Prop) :
  8 <= cls <= PAGE_SIZE -> owned cls m D st ->
  (forall st', owned cls m D st' -> Q (inl (- ENOMEM)) (mkdrv st' x)) ->
  (forall db st', slot_of db ∉ D -> owned cls m ({[slot_of db]} ∪ D) st' -> Q (inr db) (mkdrv st' x)) ->
  runs (d_db_alloc o cls) (mkdrv st x) Q.
Proof.
  intros Hc [Hi Ht] HN HS. destruct (db_alloc_ok o cls m st Hc Hi) as (e & d & st' & E & Hi' & H).
  unfold runs, d_db_alloc. simpl. rewrite E. simpl. destruct d as [db|].
  - destruct H as (-> & Hn & Ht' & _). eexists _, _. split; [done|]. apply HS.
    + intros Hin. apply Hn, Ht, Hin.
    + split; [done|]. intros id i. rewrite Ht', Ht, elem_of_union, elem_of_singleton. unfold slot_of. naive_solver.
  - destruct H as (-> & Hl & _). eexists _, _. split; [done|]. apply HN. split; [done|]. by rewrite Hl.
Qed.

Lemma runs_db_free db st m D (Q : Z + unit -> drv R -> Prop) :
  owned cls m ({[slot_of db]} ∪ D) st -> slot_of db ∉ D ->
  (forall st', owned cls m D st' -> Q (inr tt) (mkdrv st' x)) ->
  runs (d_db_free db) (mkdrv st x) Q.
Proof.
  intros [Hi Ht] Hn HQ. destruct (db_free_ok cls m st db Hi) as (st' & E & Hi' & Ht' & _).
  { apply Ht. unfold slot_of. set_solver. }
  unfold runs, d_db_free. simpl. rewrite E. eexists _, _. split; [done|]. apply HQ. split; [done|].
  intros id i. rewrite Ht', Ht, elem_of_union, elem_of_singleton. unfold slot_of in *. naive_solver.
Qed.

Lemma runs_on_rest {A} (c : es R A) st (y : R) (Q : Z + A -> drv R -> Prop) :
  runs c y (fun r y' => Q r (mkdrv st y')) -> runs (on_rest c) (mkdrv st y) Q.
Proof. intros (r & y' & E & H). unfold runs, on_rest. simpl. rewrite E. by eexists _, _. Qed.

Lemma runs_on_part {S A} (get : R -> S) (put : S -> R -> R) (c : es (drv S) A) st (y : R) (Q : Z + A -> drv R -> Prop) :
  runs c (mkdrv st (get y)) (fun r s' => Q r (mkdrv (d_mem s') (put (d_rest s') y))) ->
  runs (on_part get put c) (mkdrv st y) Q.
Proof. intros (r & s' & E & H). unfold runs, on_part. simpl. rewrite E. by eexists _, _. Qed.
End Rules.

(** ** Where the examples start *)

Definition idle_mem : db_priv := mkpriv [] (mkheap 0 ∅).
Definition plenty : oracle := fun n => Some (Z.of_nat n * 4096).

Lemma idle_owned : owned 64 ∅ ∅ idle_mem.
Proof.
  split; [split_and!; [by apply Forall_nil|by apply NoDup_nil|by apply Forall_nil|done|by intros b [? ?]]|].
  intros id i. split; [|set_solver]. intros (pd & Hpd & _). by apply elem_of_nil in Hpd.
Qed.
Lemma line_64 : 8 <= 64 <= PAGE_SIZE.
Proof. done. Qed.
