(* ===== verification/Mailbox.v ===== *)
(** * Mailbox: the mailboxes of the commands that create objects

    A mailbox is the fields set in the context of the object, by name, and the
    list of its pages.  MLX5_SET writes a field; the fields are wide enough for
    the values the driver writes. *)

From stdpp Require Import strings.
From S2P Require Import Prelude.

Definition MLX5_IB_DEFAULT_UIDX : Z := 16777215.

Record mailbox := mkmb { mb_fields : gmap string Z; mb_pas : list (list Z) }.

Definition MLX5_SET (f : string) (v : Z) (i : mailbox) : mailbox := mkmb (<[f := v]> (mb_fields i)) (mb_pas i).
Definition set_if (b : bool) (f : string) (v : Z) (i : mailbox) : mailbox :=
  if b then MLX5_SET f v i else i.
Definition set_opt (f : string) (v : option Z) (i : mailbox) : mailbox :=
  if v is Some n then MLX5_SET f n i else i.

Definition field_of (i : mailbox) (f : string) : option Z := mb_fields i !! f.

Lemma field_set_eq f v i : field_of (MLX5_SET f v i) f = Some v.
Proof. apply lookup_insert_eq. Qed.
Lemma field_set_ne f g v i : f <> g -> field_of (MLX5_SET g v i) f = field_of i f.
Proof. intros H. by apply lookup_insert_ne. Qed.
Lemma field_if_ne b f g v i : f <> g -> field_of (set_if b g v i) f = field_of i f.
Proof. intros H. destruct b; [by apply field_set_ne|done]. Qed.
Lemma field_opt_ne v f g i : f <> g -> field_of (set_opt g v i) f = field_of i f.
Proof. intros H. destruct v; [by apply field_set_ne|done]. Qed.
Lemma pas_set f v i : mb_pas (MLX5_SET f v i) = mb_pas i.
Proof. done. Qed.
Lemma pas_opt f v i : mb_pas (set_opt f v i) = mb_pas i.
Proof. by destruct v. Qed.
Lemma pas_if b f v i : mb_pas (set_if b f v i) = mb_pas i.
Proof. by destruct b. Qed.

(** Looks through the fields that were set. *)
Ltac fields := repeat first
  [ rewrite pas_set | rewrite pas_if | rewrite pas_opt | rewrite field_set_eq
  | rewrite field_set_ne by discriminate | rewrite field_if_ne by discriminate
  | rewrite field_opt_ne by discriminate ].
