(* ===== verification/QpTypes.v ===== *)
(** * QpTypes: queue pairs, work queues and their attributes

    The data of include/rdma/ib_verbs.h and hw/mlx5/mlx5_ib.h that the send,
    receive and completion paths share. *)

From S2P Require Import Prelude FragBuf.

Inductive ib_qp_type :=
| IB_QPT_SMI | IB_QPT_GSI | IB_QPT_RC | IB_QPT_UC | IB_QPT_UD
| IB_QPT_RAW_IPV6 | IB_QPT_RAW_ETHERTYPE | IB_QPT_RAW_PACKET
| IB_QPT_XRC_INI | IB_QPT_XRC_TGT | IB_EXP_QPT_DC_INI | IB_QPT_MAX | IB_QPT_DRIVER
| MLX5_IB_QPT_REG_UMR | MLX5_IB_QPT_HW_GSI | MLX5_IB_QPT_DCI | MLX5_IB_QPT_DCT
| MLX5_IB_QPT_SW_CNAK.

#[export] Instance ib_qp_type_eq_dec : EqDecision ib_qp_type.
Proof. solve_decision. Defined.

(** C's [==] on queue-pair types. *)
Definition qpt_eqb (a b : ib_qp_type) : bool := bool_decide (a = b).

Record ib_qp_cap := mkcap {
  max_send_wr : Z;
  max_recv_wr : Z;
  max_send_sge : Z;
  max_recv_sge : Z;
  cap_max_inline_data : Z;
}.

Record ib_qp_init_attr := mkattr {
  attr_qp_type : ib_qp_type;
  create_flags : Z;
  attr_srq : bool;
  cap : ib_qp_cap;
}.

(** struct mlx5_ib_wq; the arrays wrid, wr_data, w_list and wqe_head have
    [wqe_cnt] entries. *)
Record mlx5_ib_wq := mkwq {
  fbc : mlx5_frag_buf_ctrl;
  wrid : Z -> Z;
  wr_data : Z -> Z;
  w_list_opcode : Z -> Z;
  w_list_next : Z -> Z;
  wqe_head : Z -> Z;
  wqe_cnt : Z;
  max_post : Z;
  max_gs : Z;
  wq_offset : Z;
  wqe_shift : Z;
  head : Z;
  tail : Z;
  cur_post : Z;
  last_poll : Z;
  cur_edge : ptr;
}.

(** Array update. *)
Definition upd {A} (f : Z -> A) (i : Z) (v : A) : Z -> A := fun j => if j =? i then v else f j.

Lemma upd_eq {A} (f : Z -> A) i v : upd f i v i = v.
Proof. unfold upd. by rewrite Z.eqb_refl. Qed.

Lemma upd_ne {A} (f : Z -> A) i j v : j <> i -> upd f i v j = f j.
Proof. intros. unfold upd. zcases; lia || done. Qed.

(** ** Constants *)

Definition MLX5_SEND_WQE_BB : Z := 64.
Definition MLX5_SIG_WQE_SIZE : Z := 512.
Definition MLX5_IB_UMR_OCTOWORD : Z := 16.
Definition MLX5_IB_SQ_UMR_INLINE_THRESHOLD : Z := 64.

(** Sizes of the WQE segments (include/linux/mlx5/qp.h). *)
Definition sizeof_ctrl_seg : Z := 16.
Definition sizeof_datagram_seg : Z := 48.
Definition sizeof_raddr_seg : Z := 16.
Definition sizeof_atomic_seg : Z := 16.
Definition sizeof_data_seg : Z := 16.
Definition sizeof_xrc_seg : Z := 16.
Definition sizeof_eth_pad : Z := 16.
Definition sizeof_eth_seg : Z := 16.
Definition sizeof_umr_ctrl_seg : Z := 48.
Definition sizeof_mkey_seg : Z := 64.
Definition sizeof_mlx_seg : Z := 16.
Definition sizeof_inline_seg : Z := 4.
Definition sizeof_signature_seg : Z := 16.

Definition IB_ACCESS_LOCAL_WRITE : Z := 1.
Definition IB_ACCESS_REMOTE_WRITE : Z := 2.
Definition IB_ACCESS_REMOTE_READ : Z := 4.
Definition IB_ACCESS_REMOTE_ATOMIC : Z := 8.
Definition IB_QP_CREATE_IPOIB_UD_LSO : Z := 1.
Definition IB_QP_CREATE_BLOCK_MULTICAST_LOOPBACK : Z := 2.
Definition IB_QP_CREATE_NETIF_QP : Z := 32.
Definition IB_QP_CREATE_INTEGRITY_EN : Z := 64.
Definition IB_QP_CREATE_SIGNATURE_PIPELINE : Z := 4096.
Definition MLX5_IB_QP_CREATE_SQPN_QP1 : Z := 67108864.
Definition MLX5_IB_QP_CREATE_WC_TEST : Z := 134217728.
