(* ===== verification/QpState.v ===== *)
(** * QpState: the states of a queue pair (core/verbs.c, hw/mlx5/qp.c)

    The transition table of the verbs layer with the attributes each transition
    needs and allows, the masks the mlx5 driver checks itself for DC initiators,
    and the tables by which it turns an accepted transition into a device
    command. *)

From S2P Require Import Prelude FragBuf QpTypes.

Inductive ib_qp_state :=
| IB_QPS_RESET | IB_QPS_INIT | IB_QPS_RTR | IB_QPS_RTS | IB_QPS_SQD | IB_QPS_SQE | IB_QPS_ERR.

#[export] Instance ib_qp_state_eq_dec : EqDecision ib_qp_state.
Proof. solve_decision. Defined.

Definition qps_eqb (a b : ib_qp_state) : bool := bool_decide (a = b).

(** ** enum ib_qp_attr_mask *)

Definition IB_QP_STATE : Z := 1.
Definition IB_QP_CUR_STATE : Z := 2.
Definition IB_QP_EN_SQD_ASYNC_NOTIFY : Z := 4.
Definition IB_QP_ACCESS_FLAGS : Z := 8.
Definition IB_QP_PKEY_INDEX : Z := 16.
Definition IB_QP_PORT : Z := 32.
Definition IB_QP_QKEY : Z := 64.
Definition IB_QP_AV : Z := 128.
Definition IB_QP_PATH_MTU : Z := 256.
Definition IB_QP_TIMEOUT : Z := 512.
Definition IB_QP_RETRY_CNT : Z := 1024.
Definition IB_QP_RNR_RETRY : Z := 2048.
Definition IB_QP_RQ_PSN : Z := 4096.
Definition IB_QP_MAX_QP_RD_ATOMIC : Z := 8192.
Definition IB_QP_ALT_PATH : Z := 16384.
Definition IB_QP_MIN_RNR_TIMER : Z := 32768.
Definition IB_QP_SQ_PSN : Z := 65536.
Definition IB_QP_MAX_DEST_RD_ATOMIC : Z := 131072.
Definition IB_QP_PATH_MIG_STATE : Z := 262144.
Definition IB_QP_CAP : Z := 524288.
Definition IB_QP_DEST_QPN : Z := 1048576.
Definition IB_QP_OFFLOAD_TYPE : Z := 16777216.
Definition IB_QP_RATE_LIMIT : Z := 33554432.
Definition IB_QP_RMPN_XRQN : Z := 67108864.
Definition IB_QP_GROUP_RSS : Z := 134217728.
Definition IB_QP_DC_KEY : Z := 268435456.
Definition IB_QP_FLOW_ENTROPY : Z := 536870912.
Definition IB_EXP_QP_OOO_RW_DATA_PLACEMENT : Z := 1073741824.

(** ** The table of the verbs layer *)

(** An entry of qp_state_table; attributes are zero where no initializer is
    given, and so is [valid] for a transition that is not listed. *)
Record transition := mktrans {
  valid : bool;
  req_param : ib_qp_type -> Z;
  opt_param : ib_qp_type -> Z;
}.

Definition none : ib_qp_type -> Z := fun _ => 0.
Definition invalid : transition := mktrans false none none.
Definition bare : transition := mktrans true none none.

Definition from_reset (next : ib_qp_state) : transition :=
  match next with
  | IB_QPS_RESET => bare
  | IB_QPS_INIT =>
      mktrans true
        (fun t => match t with
         | IB_QPT_UD => IB_QP_PKEY_INDEX .| IB_QP_PORT .| IB_QP_QKEY
         | IB_QPT_RAW_PACKET => IB_QP_PORT
         | IB_QPT_UC | IB_QPT_RC | IB_QPT_XRC_INI | IB_QPT_XRC_TGT =>
             IB_QP_PKEY_INDEX .| IB_QP_PORT .| IB_QP_ACCESS_FLAGS
         | IB_EXP_QPT_DC_INI => IB_QP_PKEY_INDEX .| IB_QP_PORT .| IB_QP_DC_KEY
         | IB_QPT_SMI | IB_QPT_GSI => IB_QP_PKEY_INDEX .| IB_QP_QKEY
         | _ => 0
         end)
        (fun t => match t with
         | IB_QPT_UD => IB_QP_GROUP_RSS .| IB_QP_FLOW_ENTROPY
         | IB_QPT_RAW_PACKET => IB_QP_GROUP_RSS
         | IB_QPT_RC | IB_QPT_UC | IB_QPT_XRC_INI | IB_QPT_XRC_TGT => IB_QP_FLOW_ENTROPY
         | _ => 0
         end)
  | _ => invalid
  end.

Definition from_init (next : ib_qp_state) : transition :=
  match next with
  | IB_QPS_RESET | IB_QPS_ERR => bare
  | IB_QPS_INIT =>
      mktrans true none
        (fun t => match t with
         | IB_QPT_UD => IB_QP_PKEY_INDEX .| IB_QP_PORT .| IB_QP_QKEY
         | IB_QPT_UC | IB_QPT_RC | IB_QPT_XRC_INI | IB_QPT_XRC_TGT =>
             IB_QP_PKEY_INDEX .| IB_QP_PORT .| IB_QP_ACCESS_FLAGS
         | IB_EXP_QPT_DC_INI => IB_QP_PKEY_INDEX .| IB_QP_PORT .| IB_QP_DC_KEY
         | IB_QPT_SMI | IB_QPT_GSI => IB_QP_PKEY_INDEX .| IB_QP_QKEY
         | _ => 0
         end)
  | IB_QPS_RTR =>
      mktrans true
        (fun t => match t with
         | IB_QPT_UC | IB_QPT_XRC_INI => IB_QP_AV .| IB_QP_PATH_MTU .| IB_QP_DEST_QPN .| IB_QP_RQ_PSN
         | IB_QPT_RC | IB_QPT_XRC_TGT =>
             IB_QP_AV .| IB_QP_PATH_MTU .| IB_QP_DEST_QPN .| IB_QP_RQ_PSN
             .| IB_QP_MAX_DEST_RD_ATOMIC .| IB_QP_MIN_RNR_TIMER
         | IB_EXP_QPT_DC_INI => IB_QP_AV .| IB_QP_PATH_MTU
         | _ => 0
         end)
        (fun t => match t with
         | IB_QPT_UD | IB_QPT_SMI | IB_QPT_GSI => IB_QP_PKEY_INDEX .| IB_QP_QKEY
         | IB_QPT_UC => IB_QP_ALT_PATH .| IB_QP_ACCESS_FLAGS .| IB_QP_PKEY_INDEX
         | IB_QPT_RC | IB_QPT_XRC_INI | IB_QPT_XRC_TGT =>
             IB_QP_ALT_PATH .| IB_QP_ACCESS_FLAGS .| IB_QP_PKEY_INDEX
             .| IB_EXP_QP_OOO_RW_DATA_PLACEMENT
         | IB_EXP_QPT_DC_INI =>
             IB_QP_PKEY_INDEX .| IB_QP_DC_KEY .| IB_EXP_QP_OOO_RW_DATA_PLACEMENT
         | _ => 0
         end)
  | _ => invalid
  end.

Definition from_rtr (next : ib_qp_state) : transition :=
  match next with
  | IB_QPS_RESET | IB_QPS_ERR => bare
  | IB_QPS_RTS =>
      mktrans true
        (fun t => match t with
         | IB_QPT_UD | IB_QPT_UC | IB_QPT_SMI | IB_QPT_GSI => IB_QP_SQ_PSN
         | IB_QPT_RC | IB_QPT_XRC_INI =>
             IB_QP_TIMEOUT .| IB_QP_RETRY_CNT .| IB_QP_RNR_RETRY .| IB_QP_SQ_PSN
             .| IB_QP_MAX_QP_RD_ATOMIC
         | IB_EXP_QPT_DC_INI =>
             IB_QP_TIMEOUT .| IB_QP_RETRY_CNT .| IB_QP_RNR_RETRY .| IB_QP_MAX_QP_RD_ATOMIC
         | IB_QPT_XRC_TGT => IB_QP_TIMEOUT .| IB_QP_SQ_PSN
         | _ => 0
         end)
        (fun t => match t with
         | IB_QPT_UD | IB_QPT_SMI | IB_QPT_GSI => IB_QP_CUR_STATE .| IB_QP_QKEY
         | IB_QPT_UC | IB_QPT_XRC_INI =>
             IB_QP_CUR_STATE .| IB_QP_ALT_PATH .| IB_QP_ACCESS_FLAGS .| IB_QP_PATH_MIG_STATE
         | IB_QPT_RC =>
             IB_QP_CUR_STATE .| IB_QP_ALT_PATH .| IB_QP_ACCESS_FLAGS .| IB_QP_MIN_RNR_TIMER
             .| IB_QP_PATH_MIG_STATE .| IB_QP_OFFLOAD_TYPE
         | IB_EXP_QPT_DC_INI =>
             IB_QP_CUR_STATE .| IB_QP_ALT_PATH .| IB_QP_MIN_RNR_TIMER .| IB_QP_PATH_MIG_STATE
         | IB_QPT_XRC_TGT =>
             IB_QP_CUR_STATE .| IB_QP_ALT_PATH .| IB_QP_ACCESS_FLAGS .| IB_QP_MIN_RNR_TIMER
             .| IB_QP_PATH_MIG_STATE
         | IB_QPT_RAW_PACKET => IB_QP_RATE_LIMIT
         | _ => 0
         end)
  | _ => invalid
  end.

Definition from_rts (next : ib_qp_state) : transition :=
  match next with
  | IB_QPS_RESET | IB_QPS_ERR => bare
  | IB_QPS_RTS =>
      mktrans true none
        (fun t => match t with
         | IB_QPT_UD | IB_QPT_SMI | IB_QPT_GSI => IB_QP_CUR_STATE .| IB_QP_QKEY
         | IB_QPT_UC | IB_QPT_XRC_INI =>
             IB_QP_CUR_STATE .| IB_QP_ACCESS_FLAGS .| IB_QP_ALT_PATH .| IB_QP_PATH_MIG_STATE
         | IB_QPT_RC =>
             IB_QP_CUR_STATE .| IB_QP_ACCESS_FLAGS .| IB_QP_ALT_PATH .| IB_QP_PATH_MIG_STATE
             .| IB_QP_MIN_RNR_TIMER .| IB_QP_OFFLOAD_TYPE .| IB_QP_RMPN_XRQN
         | IB_EXP_QPT_DC_INI =>
             IB_QP_CUR_STATE .| IB_QP_ALT_PATH .| IB_QP_PATH_MIG_STATE .| IB_QP_MIN_RNR_TIMER
         | IB_QPT_XRC_TGT =>
             IB_QP_CUR_STATE .| IB_QP_ACCESS_FLAGS .| IB_QP_ALT_PATH .| IB_QP_PATH_MIG_STATE
             .| IB_QP_MIN_RNR_TIMER
         | IB_QPT_RAW_PACKET => IB_QP_RATE_LIMIT
         | _ => 0
         end)
  | IB_QPS_SQD =>
      mktrans true none
        (fun t => match t with
         | IB_QPT_UD | IB_QPT_UC | IB_QPT_RC | IB_QPT_XRC_INI | IB_QPT_XRC_TGT
         | IB_QPT_SMI | IB_QPT_GSI => IB_QP_EN_SQD_ASYNC_NOTIFY
         | _ => 0
         end)
  | _ => invalid
  end.

Definition from_sqd (next : ib_qp_state) : transition :=
  match next with
  | IB_QPS_RESET | IB_QPS_ERR => bare
  | IB_QPS_RTS =>
      mktrans true none
        (fun t => match t with
         | IB_QPT_UD | IB_QPT_SMI | IB_QPT_GSI => IB_QP_CUR_STATE .| IB_QP_QKEY
         | IB_QPT_UC | IB_QPT_XRC_INI =>
             IB_QP_CUR_STATE .| IB_QP_ALT_PATH .| IB_QP_ACCESS_FLAGS .| IB_QP_PATH_MIG_STATE
         | IB_QPT_RC | IB_QPT_XRC_TGT =>
             IB_QP_CUR_STATE .| IB_QP_ALT_PATH .| IB_QP_ACCESS_FLAGS .| IB_QP_MIN_RNR_TIMER
             .| IB_QP_PATH_MIG_STATE
         | _ => 0
         end)
  | IB_QPS_SQD =>
      mktrans true none
        (fun t => match t with
         | IB_QPT_UD | IB_QPT_SMI | IB_QPT_GSI => IB_QP_PKEY_INDEX .| IB_QP_QKEY
         | IB_QPT_UC =>
             IB_QP_AV .| IB_QP_ALT_PATH .| IB_QP_ACCESS_FLAGS .| IB_QP_PKEY_INDEX
             .| IB_QP_PATH_MIG_STATE
         | IB_QPT_RC =>
             IB_QP_PORT .| IB_QP_AV .| IB_QP_TIMEOUT .| IB_QP_RETRY_CNT .| IB_QP_RNR_RETRY
             .| IB_QP_MAX_QP_RD_ATOMIC .| IB_QP_MAX_DEST_RD_ATOMIC .| IB_QP_ALT_PATH
             .| IB_QP_ACCESS_FLAGS .| IB_QP_PKEY_INDEX .| IB_QP_MIN_RNR_TIMER
             .| IB_QP_PATH_MIG_STATE
         | IB_QPT_XRC_INI =>
             IB_QP_PORT .| IB_QP_AV .| IB_QP_TIMEOUT .| IB_QP_RETRY_CNT .| IB_QP_RNR_RETRY
             .| IB_QP_MAX_QP_RD_ATOMIC .| IB_QP_ALT_PATH .| IB_QP_ACCESS_FLAGS
             .| IB_QP_PKEY_INDEX .| IB_QP_PATH_MIG_STATE
         | IB_QPT_XRC_TGT =>
             IB_QP_PORT .| IB_QP_AV .| IB_QP_TIMEOUT .| IB_QP_MAX_DEST_RD_ATOMIC
             .| IB_QP_ALT_PATH .| IB_QP_ACCESS_FLAGS .| IB_QP_PKEY_INDEX
             .| IB_QP_MIN_RNR_TIMER .| IB_QP_PATH_MIG_STATE
         | _ => 0
         end)
  | _ => invalid
  end.

Definition from_sqe (next : ib_qp_state) : transition :=
  match next with
  | IB_QPS_RESET | IB_QPS_ERR => bare
  | IB_QPS_RTS =>
      mktrans true none
        (fun t => match t with
         | IB_QPT_UD | IB_QPT_SMI | IB_QPT_GSI => IB_QP_CUR_STATE .| IB_QP_QKEY
         | IB_QPT_UC => IB_QP_CUR_STATE .| IB_QP_ACCESS_FLAGS
         | _ => 0
         end)
  | _ => invalid
  end.

Definition from_err (next : ib_qp_state) : transition :=
  match next with
  | IB_QPS_RESET | IB_QPS_ERR => bare
  | _ => invalid
  end.

Definition qp_state_table (cur next : ib_qp_state) : transition :=
  match cur with
  | IB_QPS_RESET => from_reset next
  | IB_QPS_INIT => from_init next
  | IB_QPS_RTR => from_rtr next
  | IB_QPS_RTS => from_rts next
  | IB_QPS_SQD => from_sqd next
  | IB_QPS_SQE => from_sqe next
  | IB_QPS_ERR => from_err next
  end.

(** The parameter arrays have IB_QPT_MAX entries. *)
Definition in_table (t : ib_qp_type) : bool :=
  match t with
  | IB_QPT_SMI | IB_QPT_GSI | IB_QPT_RC | IB_QPT_UC | IB_QPT_UD | IB_QPT_RAW_IPV6
  | IB_QPT_RAW_ETHERTYPE | IB_QPT_RAW_PACKET | IB_QPT_XRC_INI | IB_QPT_XRC_TGT
  | IB_EXP_QPT_DC_INI => true
  | _ => false
  end.

(** Indexing the arrays with a driver-private type is undefined ([None]). *)
Definition ib_modify_qp_is_ok (cur next : ib_qp_state) (t : ib_qp_type) (mask : Z) : option bool :=
  if test mask IB_QP_CUR_STATE && negb (qps_eqb cur IB_QPS_RTR) && negb (qps_eqb cur IB_QPS_RTS)
     && negb (qps_eqb cur IB_QPS_SQD) && negb (qps_eqb cur IB_QPS_SQE)
  then Some false
  else if negb (valid (qp_state_table cur next)) then Some false
  else if negb (in_table t) then None
  else
    let req := req_param (qp_state_table cur next) t in
    let opt := opt_param (qp_state_table cur next) t in
    if negb (mask .& req =? req) then Some false
    else if test mask (Z.lnot (req .| opt .| IB_QP_STATE)) then Some false
    else Some true.

(** ** The checks of the mlx5 driver *)

Definition is_valid_mask (mask req opt : Z) : bool :=
  if negb (mask .& req =? req) then false
  else if test mask (Z.lnot (req .| opt)) then false
  else true.

Definition modify_dci_qp_is_ok (cur new : ib_qp_state) (attr_mask : Z) : bool :=
  let req := IB_QP_STATE in
  match cur, new with
  | _, IB_QPS_RESET => is_valid_mask attr_mask req 0
  | IB_QPS_RESET, IB_QPS_INIT =>
      is_valid_mask attr_mask (req .| (IB_QP_PKEY_INDEX .| IB_QP_PORT)) 0
  | IB_QPS_INIT, IB_QPS_INIT => is_valid_mask attr_mask req (IB_QP_PKEY_INDEX .| IB_QP_PORT)
  | IB_QPS_INIT, IB_QPS_RTR =>
      is_valid_mask attr_mask (req .| IB_QP_PATH_MTU) (IB_QP_PKEY_INDEX .| IB_QP_AV)
  | IB_QPS_RTR, IB_QPS_RTS =>
      is_valid_mask attr_mask
        (req .| (IB_QP_TIMEOUT .| IB_QP_RETRY_CNT .| IB_QP_RNR_RETRY .| IB_QP_MAX_QP_RD_ATOMIC
                 .| IB_QP_SQ_PSN)) IB_QP_MIN_RNR_TIMER
  | IB_QPS_RTS, IB_QPS_RTS => is_valid_mask attr_mask req IB_QP_MIN_RNR_TIMER
  | IB_QPS_RESET, IB_QPS_ERR => false
  | _, IB_QPS_ERR => is_valid_mask attr_mask req 0
  | _, _ => false
  end.

Definition ignored_ts_check (t : ib_qp_type) : bool :=
  match t with
  | MLX5_IB_QPT_REG_UMR | MLX5_IB_QPT_SW_CNAK | MLX5_IB_QPT_DCI => true
  | _ => false
  end.

(** ** States, services and commands of the device *)

Inductive mlx5_qp_state :=
| MLX5_QP_STATE_RST | MLX5_QP_STATE_INIT | MLX5_QP_STATE_RTR | MLX5_QP_STATE_RTS
| MLX5_QP_STATE_SQER | MLX5_QP_STATE_SQD | MLX5_QP_STATE_ERR | MLX5_QP_STATE_SQ_DRAINING
| MLX5_QP_STATE_SUSPENDED.

#[export] Instance mlx5_qp_state_eq_dec : EqDecision mlx5_qp_state.
Proof. solve_decision. Defined.

(** The number the device uses for a state. *)
Definition state_code (s : mlx5_qp_state) : Z :=
  match s with
  | MLX5_QP_STATE_RST => 0 | MLX5_QP_STATE_INIT => 1 | MLX5_QP_STATE_RTR => 2
  | MLX5_QP_STATE_RTS => 3 | MLX5_QP_STATE_SQER => 4 | MLX5_QP_STATE_SQD => 5
  | MLX5_QP_STATE_ERR => 6 | MLX5_QP_STATE_SQ_DRAINING => 7 | MLX5_QP_STATE_SUSPENDED => 9
  end.

Definition to_mlx5_state (s : ib_qp_state) : mlx5_qp_state :=
  match s with
  | IB_QPS_RESET => MLX5_QP_STATE_RST
  | IB_QPS_INIT => MLX5_QP_STATE_INIT
  | IB_QPS_RTR => MLX5_QP_STATE_RTR
  | IB_QPS_RTS => MLX5_QP_STATE_RTS
  | IB_QPS_SQD => MLX5_QP_STATE_SQD
  | IB_QPS_SQE => MLX5_QP_STATE_SQER
  | IB_QPS_ERR => MLX5_QP_STATE_ERR
  end.

(** [None] stands for the -1 of an unknown state number. *)
Definition to_ib_qp_state (code : Z) : option ib_qp_state :=
  if code =? 0 then Some IB_QPS_RESET
  else if code =? 1 then Some IB_QPS_INIT
  else if code =? 2 then Some IB_QPS_RTR
  else if code =? 3 then Some IB_QPS_RTS
  else if (code =? 7) || (code =? 5) then Some IB_QPS_SQD
  else if code =? 4 then Some IB_QPS_SQE
  else if code =? 6 then Some IB_QPS_ERR
  else None.

Definition MLX5_QP_ST_RC : Z := 0.
Definition MLX5_QP_ST_UC : Z := 1.
Definition MLX5_QP_ST_UD : Z := 2.
Definition MLX5_QP_ST_XRC : Z := 3.
Definition MLX5_QP_ST_MLX : Z := 4.
Definition MLX5_QP_ST_DCI : Z := 5.
Definition MLX5_QP_ST_QP0 : Z := 7.
Definition MLX5_QP_ST_QP1 : Z := 8.
Definition MLX5_QP_ST_RAW_ETHERTYPE : Z := 9.
Definition MLX5_QP_ST_RAW_IPV6 : Z := 10.
Definition MLX5_QP_ST_REG_UMR : Z := 12.
Definition MLX5_QP_ST_MAX : Z := 13.
Definition MLX5_QP_ST_SW_CNAK : Z := 16.

Definition to_mlx5_st (t : ib_qp_type) : Z :=
  match t with
  | IB_QPT_RC => MLX5_QP_ST_RC
  | IB_QPT_UC => MLX5_QP_ST_UC
  | IB_QPT_UD => MLX5_QP_ST_UD
  | MLX5_IB_QPT_REG_UMR => MLX5_QP_ST_REG_UMR
  | MLX5_IB_QPT_SW_CNAK => MLX5_QP_ST_SW_CNAK
  | IB_QPT_XRC_INI | IB_QPT_XRC_TGT => MLX5_QP_ST_XRC
  | IB_QPT_SMI => MLX5_QP_ST_QP0
  | MLX5_IB_QPT_HW_GSI => MLX5_QP_ST_QP1
  | MLX5_IB_QPT_DCI => MLX5_QP_ST_DCI
  | IB_QPT_RAW_IPV6 => MLX5_QP_ST_RAW_IPV6
  | IB_QPT_RAW_PACKET | IB_QPT_RAW_ETHERTYPE => MLX5_QP_ST_RAW_ETHERTYPE
  | IB_EXP_QPT_DC_INI => MLX5_QP_ST_DCI
  | _ => - EINVAL
  end.

Definition MLX5_CMD_OP_RST2INIT_QP : Z := 1282.
Definition MLX5_CMD_OP_INIT2RTR_QP : Z := 1283.
Definition MLX5_CMD_OP_RTR2RTS_QP : Z := 1284.
Definition MLX5_CMD_OP_RTS2RTS_QP : Z := 1285.
Definition MLX5_CMD_OP_SQERR2RTS_QP : Z := 1286.
Definition MLX5_CMD_OP_2ERR_QP : Z := 1287.
Definition MLX5_CMD_OP_2RST_QP : Z := 1290.
Definition MLX5_CMD_OP_SQD_RTS_QP : Z := 1292.
Definition MLX5_CMD_OP_INIT2INIT_QP : Z := 1294.

(** The command for a transition; 0 where the table has none. *)
Definition optab (cur new : mlx5_qp_state) : Z :=
  match cur, new with
  | (MLX5_QP_STATE_RST | MLX5_QP_STATE_INIT | MLX5_QP_STATE_RTR | MLX5_QP_STATE_RTS
     | MLX5_QP_STATE_SQD | MLX5_QP_STATE_SQER | MLX5_QP_STATE_ERR), MLX5_QP_STATE_RST =>
      MLX5_CMD_OP_2RST_QP
  | (MLX5_QP_STATE_RST | MLX5_QP_STATE_INIT | MLX5_QP_STATE_RTR | MLX5_QP_STATE_RTS
     | MLX5_QP_STATE_SQD | MLX5_QP_STATE_SQER | MLX5_QP_STATE_ERR), MLX5_QP_STATE_ERR =>
      MLX5_CMD_OP_2ERR_QP
  | MLX5_QP_STATE_RST, MLX5_QP_STATE_INIT => MLX5_CMD_OP_RST2INIT_QP
  | MLX5_QP_STATE_INIT, MLX5_QP_STATE_INIT => MLX5_CMD_OP_INIT2INIT_QP
  | MLX5_QP_STATE_INIT, MLX5_QP_STATE_RTR => MLX5_CMD_OP_INIT2RTR_QP
  | MLX5_QP_STATE_RTR, MLX5_QP_STATE_RTS => MLX5_CMD_OP_RTR2RTS_QP
  | MLX5_QP_STATE_RTS, MLX5_QP_STATE_RTS => MLX5_CMD_OP_RTS2RTS_QP
  | MLX5_QP_STATE_SQD, MLX5_QP_STATE_RTS => MLX5_CMD_OP_SQD_RTS_QP
  | MLX5_QP_STATE_SQER, MLX5_QP_STATE_RTS => MLX5_CMD_OP_SQERR2RTS_QP
  | _, _ => 0
  end.

(** ** Optional parameters of a command *)

Definition MLX5_QP_OPTPAR_ALT_ADDR_PATH : Z := 1.
Definition MLX5_QP_OPTPAR_RRE : Z := 2.
Definition MLX5_QP_OPTPAR_RAE : Z := 4.
Definition MLX5_QP_OPTPAR_RWE : Z := 8.
Definition MLX5_QP_OPTPAR_PKEY_INDEX : Z := 16.
Definition MLX5_QP_OPTPAR_Q_KEY : Z := 32.
Definition MLX5_QP_OPTPAR_RNR_TIMEOUT : Z := 64.
Definition MLX5_QP_OPTPAR_PRIMARY_ADDR_PATH : Z := 128.
Definition MLX5_QP_OPTPAR_SRA_MAX : Z := 256.
Definition MLX5_QP_OPTPAR_RRA_MAX : Z := 512.
Definition MLX5_QP_OPTPAR_PM_STATE : Z := 1024.
Definition MLX5_QP_OPTPAR_RETRY_COUNT : Z := 4096.
Definition MLX5_QP_OPTPAR_RNR_RETRY : Z := 8192.
Definition MLX5_QP_OPTPAR_ACK_TIMEOUT : Z := 16384.
Definition MLX5_QP_OPTPAR_PRI_PORT : Z := 65536.
Definition MLX5_QP_OPTPAR_RMPN_XRQN : Z := 262144.
Definition MLX5_QP_OPTPAR_CQN_RCV : Z := 524288.
Definition MLX5_QP_OPTPAR_DC_KEY : Z := 2097152.
Definition MLX5_QP_OPTPAR_OFFLOAD_TYPE : Z := 16777216.
Definition MLX5_QP_OPTPAR_COUNTER_SET_ID : Z := 33554432.

(** A row of opt_mask, by service type; services without initializer get 0. *)
Definition opt_row (rc uc ud xrc mlx dci st : Z) : Z :=
  if st =? MLX5_QP_ST_RC then rc
  else if st =? MLX5_QP_ST_UC then uc
  else if st =? MLX5_QP_ST_UD then ud
  else if st =? MLX5_QP_ST_XRC then xrc
  else if st =? MLX5_QP_ST_MLX then mlx
  else if st =? MLX5_QP_ST_DCI then dci
  else 0.

Definition opt_init_init : Z -> Z :=
  let acc := MLX5_QP_OPTPAR_RRE .| MLX5_QP_OPTPAR_RAE .| MLX5_QP_OPTPAR_RWE
             .| MLX5_QP_OPTPAR_PKEY_INDEX .| MLX5_QP_OPTPAR_PRI_PORT in
  opt_row acc
    (MLX5_QP_OPTPAR_RWE .| MLX5_QP_OPTPAR_PKEY_INDEX .| MLX5_QP_OPTPAR_PRI_PORT)
    (MLX5_QP_OPTPAR_PKEY_INDEX .| MLX5_QP_OPTPAR_Q_KEY .| MLX5_QP_OPTPAR_PRI_PORT)
    acc 0
    (MLX5_QP_OPTPAR_PRI_PORT .| MLX5_QP_OPTPAR_DC_KEY .| MLX5_QP_OPTPAR_PKEY_INDEX
     .| MLX5_QP_OPTPAR_RAE).

Definition opt_init_rtr : Z -> Z :=
  let acc := MLX5_QP_OPTPAR_ALT_ADDR_PATH .| MLX5_QP_OPTPAR_RRE .| MLX5_QP_OPTPAR_RAE
             .| MLX5_QP_OPTPAR_RWE .| MLX5_QP_OPTPAR_PKEY_INDEX in
  let key := MLX5_QP_OPTPAR_PKEY_INDEX .| MLX5_QP_OPTPAR_Q_KEY in
  opt_row acc (MLX5_QP_OPTPAR_ALT_ADDR_PATH .| MLX5_QP_OPTPAR_RWE .| MLX5_QP_OPTPAR_PKEY_INDEX)
    key acc key
    (MLX5_QP_OPTPAR_PKEY_INDEX .| MLX5_QP_OPTPAR_RAE .| MLX5_QP_OPTPAR_DC_KEY).

Definition opt_rtr_rts : Z -> Z :=
  opt_row
    (MLX5_QP_OPTPAR_ALT_ADDR_PATH .| MLX5_QP_OPTPAR_RRE .| MLX5_QP_OPTPAR_RAE
     .| MLX5_QP_OPTPAR_RWE .| MLX5_QP_OPTPAR_PM_STATE .| MLX5_QP_OPTPAR_RNR_TIMEOUT
     .| MLX5_QP_OPTPAR_OFFLOAD_TYPE)
    (MLX5_QP_OPTPAR_ALT_ADDR_PATH .| MLX5_QP_OPTPAR_RWE .| MLX5_QP_OPTPAR_PM_STATE)
    MLX5_QP_OPTPAR_Q_KEY
    (MLX5_QP_OPTPAR_ALT_ADDR_PATH .| MLX5_QP_OPTPAR_RRE .| MLX5_QP_OPTPAR_RAE
     .| MLX5_QP_OPTPAR_RWE .| MLX5_QP_OPTPAR_PM_STATE .| MLX5_QP_OPTPAR_RNR_TIMEOUT)
    0
    (MLX5_QP_OPTPAR_DC_KEY .| MLX5_QP_OPTPAR_PM_STATE .| MLX5_QP_OPTPAR_RAE).

Definition opt_rts_rts : Z -> Z :=
  let acc := MLX5_QP_OPTPAR_RRE .| MLX5_QP_OPTPAR_RAE .| MLX5_QP_OPTPAR_RWE
             .| MLX5_QP_OPTPAR_RNR_TIMEOUT .| MLX5_QP_OPTPAR_PM_STATE
             .| MLX5_QP_OPTPAR_ALT_ADDR_PATH in
  opt_row (acc .| MLX5_QP_OPTPAR_OFFLOAD_TYPE .| MLX5_QP_OPTPAR_RMPN_XRQN)
    (MLX5_QP_OPTPAR_RWE .| MLX5_QP_OPTPAR_PM_STATE .| MLX5_QP_OPTPAR_ALT_ADDR_PATH)
    (MLX5_QP_OPTPAR_Q_KEY .| MLX5_QP_OPTPAR_CQN_RCV)
    acc 0
    (MLX5_QP_OPTPAR_DC_KEY .| MLX5_QP_OPTPAR_PM_STATE .| MLX5_QP_OPTPAR_RAE).

Definition opt_sqer_rts : Z -> Z :=
  let acc := MLX5_QP_OPTPAR_RNR_TIMEOUT .| MLX5_QP_OPTPAR_RWE .| MLX5_QP_OPTPAR_RAE
             .| MLX5_QP_OPTPAR_RRE in
  opt_row acc MLX5_QP_OPTPAR_RWE MLX5_QP_OPTPAR_Q_KEY acc MLX5_QP_OPTPAR_Q_KEY
    (MLX5_QP_OPTPAR_DC_KEY .| MLX5_QP_OPTPAR_RAE).

Definition opt_sqd_rts : Z -> Z :=
  opt_row (MLX5_QP_OPTPAR_RNR_TIMEOUT .| MLX5_QP_OPTPAR_RWE .| MLX5_QP_OPTPAR_RAE
           .| MLX5_QP_OPTPAR_RRE)
    MLX5_QP_OPTPAR_RWE MLX5_QP_OPTPAR_Q_KEY 0 MLX5_QP_OPTPAR_Q_KEY 0.

(** opt_mask[cur][new][st]; a service number past the array is undefined. *)
Definition opt_mask (cur new : mlx5_qp_state) (st : Z) : option Z :=
  if (0 <=? st) && (st <? MLX5_QP_ST_MAX) then
    Some match cur, new with
         | MLX5_QP_STATE_INIT, MLX5_QP_STATE_INIT => opt_init_init st
         | MLX5_QP_STATE_INIT, MLX5_QP_STATE_RTR => opt_init_rtr st
         | MLX5_QP_STATE_RTR, MLX5_QP_STATE_RTS => opt_rtr_rts st
         | MLX5_QP_STATE_RTS, MLX5_QP_STATE_RTS => opt_rts_rts st
         | MLX5_QP_STATE_SQER, MLX5_QP_STATE_RTS => opt_sqer_rts st
         | MLX5_QP_STATE_SQD, MLX5_QP_STATE_RTS => opt_sqd_rts st
         | _, _ => 0
         end
  else None.

Definition ib_nr_to_mlx5_nr (ib_mask : Z) : Z :=
  if ib_mask =? IB_QP_ACCESS_FLAGS then MLX5_QP_OPTPAR_RWE .| MLX5_QP_OPTPAR_RRE .| MLX5_QP_OPTPAR_RAE
  else if ib_mask =? IB_QP_PKEY_INDEX then MLX5_QP_OPTPAR_PKEY_INDEX
  else if ib_mask =? IB_QP_PORT then MLX5_QP_OPTPAR_PRI_PORT
  else if ib_mask =? IB_QP_QKEY then MLX5_QP_OPTPAR_Q_KEY
  else if ib_mask =? IB_QP_AV then MLX5_QP_OPTPAR_PRIMARY_ADDR_PATH .| MLX5_QP_OPTPAR_PRI_PORT
  else if ib_mask =? IB_QP_TIMEOUT then MLX5_QP_OPTPAR_ACK_TIMEOUT
  else if ib_mask =? IB_QP_RETRY_CNT then MLX5_QP_OPTPAR_RETRY_COUNT
  else if ib_mask =? IB_QP_RNR_RETRY then MLX5_QP_OPTPAR_RNR_RETRY
  else if ib_mask =? IB_QP_MAX_QP_RD_ATOMIC then MLX5_QP_OPTPAR_SRA_MAX
  else if ib_mask =? IB_QP_ALT_PATH then MLX5_QP_OPTPAR_ALT_ADDR_PATH
  else if ib_mask =? IB_QP_MIN_RNR_TIMER then MLX5_QP_OPTPAR_RNR_TIMEOUT
  else if ib_mask =? IB_QP_MAX_DEST_RD_ATOMIC
       then MLX5_QP_OPTPAR_RRA_MAX .| MLX5_QP_OPTPAR_RWE .| MLX5_QP_OPTPAR_RRE .| MLX5_QP_OPTPAR_RAE
  else if ib_mask =? IB_QP_PATH_MIG_STATE then MLX5_QP_OPTPAR_PM_STATE
  else if ib_mask =? IB_QP_OFFLOAD_TYPE then MLX5_QP_OPTPAR_OFFLOAD_TYPE
  else if ib_mask =? IB_QP_RMPN_XRQN then MLX5_QP_OPTPAR_RMPN_XRQN
  else 0.

(** The loop over the 32 bits of the mask. *)
Definition ib_mask_to_mlx5_opt (ib_mask : Z) : Z :=
  foldl (fun result i => if test (2 ^ i) ib_mask then result .| ib_nr_to_mlx5_nr (2 ^ i) else result)
    0 (seqZ 0 32).
