(* ===== verification/QpContext.v ===== *)
(** * QpContext: the context of a queue pair the device keeps (hw/mlx5/qp.c)

    What modify_qp writes into the context it hands to the device, and what
    query_qp reads back from it.  Big-endian fields are kept as the number they
    hold: converting to big endian commutes with or-ing fields together. *)

From S2P Require Import Prelude FragBuf QpTypes QpState.

Inductive rdma_ah_attr_type :=
| RDMA_AH_ATTR_TYPE_UNDEFINED | RDMA_AH_ATTR_TYPE_IB | RDMA_AH_ATTR_TYPE_ROCE | RDMA_AH_ATTR_TYPE_OPA.

#[export] Instance rdma_ah_attr_type_eq_dec : EqDecision rdma_ah_attr_type.
Proof. solve_decision. Defined.

Definition is_roce (t : rdma_ah_attr_type) : bool := bool_decide (t = RDMA_AH_ATTR_TYPE_ROCE).

(** struct rdma_ah_attr with its global route; the members of the union are
    separate fields. *)
Record rdma_ah_attr := mkah {
  ah_type : rdma_ah_attr_type;
  ah_sl : Z;
  ah_static_rate : Z;
  ah_port_num : Z;
  ah_flags : Z;
  ah_dgid : list Z;
  ah_flow_label : Z;
  ah_sgid_index : Z;
  ah_hop_limit : Z;
  ah_traffic_class : Z;
  ah_gid_type : Z;                 (* grh.sgid_attr->gid_type *)
  ah_dlid : Z;                     (* ib.dlid, opa.dlid *)
  ah_src_path_bits : Z;
  ah_udp_sport : Z;                (* roce *)
  ah_dmac : list Z;
}.

Definition IB_AH_GRH : Z := 1.
Definition IB_GID_TYPE_IB : Z := 0.
Definition IB_GID_TYPE_ROCE_UDP_ENCAP : Z := 1.
Definition IPV6_DEFAULT_HOPLIMIT : Z := 64.
Definition IB_RATE_PORT_CURRENT : Z := 0.
Definition IB_RATE_2_5_GBPS : Z := 2.
Definition IB_RATE_600_GBPS : Z := 22.
Definition MLX5_STAT_RATE_OFFSET : Z := 5.

Definition rdma_ah_get_dlid (ah : rdma_ah_attr) : Z :=
  match ah_type ah with
  | RDMA_AH_ATTR_TYPE_IB | RDMA_AH_ATTR_TYPE_OPA => ah_dlid ah
  | _ => 0
  end.
Definition rdma_ah_get_path_bits (ah : rdma_ah_attr) : Z :=
  match ah_type ah with
  | RDMA_AH_ATTR_TYPE_IB | RDMA_AH_ATTR_TYPE_OPA => ah_src_path_bits ah
  | _ => 0
  end.

Inductive ib_mig_state := IB_MIG_MIGRATED | IB_MIG_REARM | IB_MIG_ARMED.

Record ib_qp_attr := mkqattr {
  qp_state : ib_qp_state;
  cur_qp_state : ib_qp_state;
  path_mtu : Z;
  path_mig_state : ib_mig_state;
  qkey : Z;
  rq_psn : Z;
  sq_psn : Z;
  dest_qp_num : Z;
  qp_access_flags : Z;
  ah_attr : rdma_ah_attr;
  alt_ah_attr : rdma_ah_attr;
  pkey_index : Z;
  alt_pkey_index : Z;
  max_rd_atomic : Z;
  max_dest_rd_atomic : Z;
  min_rnr_timer : Z;
  port_num : Z;
  timeout : Z;
  retry_cnt : Z;
  rnr_retry : Z;
  alt_port_num : Z;
  alt_timeout : Z;
  dct_key : Z;
  offload_type : Z;
  rmpn_xrqn : Z;
}.

Record mlx5_qp_path := mkpath {
  fl_free_ar : Z;
  p_pkey_index : Z;
  grh_mlid : Z;
  rlid : Z;
  ackto_lt : Z;
  mgid_index : Z;
  static_rate : Z;
  hop_limit : Z;
  tclass_flowlabel : Z;
  rgid : list Z;
  ecn_dscp : Z;
  udp_sport : Z;
  dci_cfi_prio_sl : Z;
  p_port : Z;
  rmac : list Z;
}.

Definition zero_path : mlx5_qp_path :=
  mkpath 0 0 0 0 0 0 0 0 0 (zeros 16) 0 0 0 0 (zeros 6).

Record mlx5_qp_context := mkctx {
  flags : Z;
  flags_pd : Z;
  mtu_msgmax : Z;
  sq_crq_size : Z;
  qp_counter_set_usr_page : Z;
  log_pg_sz_remote_qpn : Z;
  pri_path : mlx5_qp_path;
  alt_path : mlx5_qp_path;
  params1 : Z;
  next_send_psn : Z;
  cqn_send : Z;
  deth_sqpn : Z;
  params2 : Z;
  rnr_nextrecvpsn : Z;
  cqn_recv : Z;
  db_rec_addr : Z;
  ctx_qkey : Z;
  rq_type_srqn : Z;
  dc_access_key : Z;
}.

(** The capabilities and settings of the device these functions read. *)
Record mlx5_dev := mkdev {
  num_ports : Z;
  pkey_table_len : Z -> Z;             (* by port, from 0 *)
  gid_table_len : Z -> Z;
  log_max_ra_res_qp : Z;
  log_max_ra_req_qp : Z;
  log_max_msg : Z;
  multipath_rc_qp : bool;
  multipath_xrc_qp : bool;
  multipath_dc_qp : bool;
  ooo_enabled : bool;
  lag : bool;                          (* lag_active || tx_port_affinity_support *)
  enable_atomic_resp : bool;
  cap_atomic : bool;
  atomic_operations : Z;
  atomic_size_dc : Z;
  atomic_size_qp : Z;
  stat_rate_support : Z;
  counters_id : Z -> Z;
  p0_pdn : Z;                          (* the protection domain devr.p0 *)
  ttl : Z -> Z;                        (* dev->ttld[port - 1].val *)
  tclass_get : rdma_ah_attr -> Z -> Z -> Z; (* tclass_get_tclass: address, port, class *)
  start_port : Z;
  port_type : Z -> rdma_ah_attr_type;  (* rdma_ah_find_type *)
  eth_prio : Z -> Z;                   (* result of modify_raw_packet_eth_prio *)
}.

(** ** Access rights *)

Definition MLX5_QP_BIT_RRE : Z := 32768.
Definition MLX5_QP_BIT_RWE : Z := 16384.
Definition MLX5_QP_BIT_RAE : Z := 8192.
Definition MLX5_ATOMIC_MODE_OFF : Z := 16.
Definition MLX5_ATOMIC_MODE_IB_COMP : Z := 1 <<. MLX5_ATOMIC_MODE_OFF.
Definition MLX5_ATOMIC_MODE_8B : Z := 3 <<. MLX5_ATOMIC_MODE_OFF.
Definition MLX5_ATOMIC_OPS_CMP_SWAP : Z := 1.
Definition MLX5_ATOMIC_OPS_FETCH_ADD : Z := 2.
Definition MLX5_ATOMIC_OPS_EXTENDED_CMP_SWAP : Z := 4.
Definition MLX5_ATOMIC_OPS_EXTENDED_FETCH_ADD : Z := 8.

(** Position of the highest set bit, from 1; 0 for 0. *)
Definition fls (x : Z) : Z := if x =? 0 then 0 else Z.log2 x + 1.

Definition atomic_size_to_mode (size_mask : Z) : Z :=
  let supported_size_mask := size_mask .& 511 in
  if supported_size_mask =? 0 then - EOPNOTSUPP
  else let log_max_size := Z.log2 supported_size_mask in
       if 3 <? log_max_size then log_max_size else MLX5_ATOMIC_MODE_8B.

Definition get_atomic_mode (dev : mlx5_dev) (t : ib_qp_type) : Z :=
  if negb (cap_atomic dev) then - EOPNOTSUPP
  else
    let atomic_size_mask :=
      if qpt_eqb t MLX5_IB_QPT_DCT then atomic_size_dc dev else atomic_size_qp dev in
    let ops := atomic_operations dev in
    let atomic_mode :=
      if test ops MLX5_ATOMIC_OPS_EXTENDED_CMP_SWAP || test ops MLX5_ATOMIC_OPS_EXTENDED_FETCH_ADD
      then atomic_size_to_mode atomic_size_mask else - EOPNOTSUPP in
    if (atomic_mode <=? 0) && (test ops MLX5_ATOMIC_OPS_CMP_SWAP && test ops MLX5_ATOMIC_OPS_FETCH_ADD)
    then MLX5_ATOMIC_MODE_IB_COMP else atomic_mode.

(** [resp_depth] and [atomic_rd_en] are what earlier calls left in the queue
    pair.  The shift of the mode is on an int and wraps. *)
Definition to_mlx5_access_flags (dev : mlx5_dev) (t : ib_qp_type) (resp_depth atomic_rd_en : Z)
    (attr : ib_qp_attr) (attr_mask : Z) : Z + Z :=
  let dest_rd_atomic :=
    if test attr_mask IB_QP_MAX_DEST_RD_ATOMIC then max_dest_rd_atomic attr else resp_depth in
  let access_flags :=
    u32 (if test attr_mask IB_QP_ACCESS_FLAGS then qp_access_flags attr else atomic_rd_en) in
  let access_flags :=
    if dest_rd_atomic =? 0 then access_flags .& IB_ACCESS_REMOTE_WRITE else access_flags in
  let hw := if test access_flags IB_ACCESS_REMOTE_READ then MLX5_QP_BIT_RRE else 0 in
  let finish hw :=
    inr (if test access_flags IB_ACCESS_REMOTE_WRITE then hw .| MLX5_QP_BIT_RWE else hw) in
  if test access_flags IB_ACCESS_REMOTE_ATOMIC then
    let atomic_mode := get_atomic_mode dev t in
    if atomic_mode <? 0 then inl (- EOPNOTSUPP)
    else finish (hw .| MLX5_QP_BIT_RAE .| u32 (atomic_mode <<. MLX5_ATOMIC_MODE_OFF))
  else finish hw.

Definition to_ib_qp_access_flags (mlx5_flags : Z) : Z :=
  (if test mlx5_flags MLX5_QP_BIT_RRE then IB_ACCESS_REMOTE_READ else 0)
  .| (if test mlx5_flags MLX5_QP_BIT_RWE then IB_ACCESS_REMOTE_WRITE else 0)
  .| (if test mlx5_flags MLX5_QP_BIT_RAE then IB_ACCESS_REMOTE_ATOMIC else 0).

(** ** The address of the peer *)

(** The highest rate at most [rate] the device supports; [rate] counts down to
    IB_RATE_PORT_CURRENT, so it is its own bound. *)
Fixpoint lower_rate (rate : nat) (support : Z) : Z :=
  match rate with
  | O => 0
  | S r => if test (1 <<. (Z.of_nat rate + MLX5_STAT_RATE_OFFSET)) support then Z.of_nat rate
           else lower_rate r support
  end.

Definition ib_rate_to_mlx5 (dev : mlx5_dev) (rate : Z) : Z :=
  if rate =? IB_RATE_PORT_CURRENT then 0
  else if (rate <? IB_RATE_2_5_GBPS) || (IB_RATE_600_GBPS <? rate) then - EINVAL
  else let rate := lower_rate (Z.to_nat rate) (stat_rate_support dev) in
       if rate =? 0 then rate else rate + MLX5_STAT_RATE_OFFSET.

Definition mlx5_valid_roce_udp_sport (sport : Z) : bool := (49152 <=? sport) && (sport <=? 65535).

(** The bytes of the product, little endian, folded into a port. *)
Definition mlx5_calc_udp_sport (lqpn rqpn : Z) : Z :=
  let tqpn := u64 ((lqpn .& 16777215) * (rqpn .& 16777215)) in
  let p i := u8 (tqpn >>. (8 * i)) in
  let port0 := p 0 .^ p 2 .^ p 4 in
  let port1 := p 1 .^ p 3 .^ p 5 in
  (port0 .| (port1 <<. 8)) .| 49152.

(** What mlx5_set_path needs of the queue pair. *)
Record path_qp := mkpathqp { pa_type : ib_qp_type; pa_qp_num : Z; pa_has_sq : bool }.

Definition connected_type (t : ib_qp_type) : bool :=
  match t with
  | IB_QPT_RC | IB_QPT_UC | IB_QPT_XRC_INI | IB_QPT_XRC_TGT => true
  | _ => false
  end.

(** The members of the path mlx5_set_path fills in, once the address passed its
    checks; [tclass] is the traffic class after the administrator's rules,
    [rate] the result of ib_rate_to_mlx5. *)
Definition fill_path (dev : mlx5_dev) (q : path_qp) (ah : rdma_ah_attr) (path : mlx5_qp_path)
    (port attr_mask path_flags : Z) (attr : ib_qp_attr) (alt : bool) (tclass rate : Z) : mlx5_qp_path :=
  let grh := test (ah_flags ah) IB_AH_GRH in
  let roce := is_roce (ah_type ah) in
  let udp := ah_gid_type ah =? IB_GID_TYPE_ROCE_UDP_ENCAP in
  {| fl_free_ar := if roce then fl_free_ar path
                   else (if test path_flags 1 then 128 else 0) .| (if test path_flags 2 then 64 else 0);
     p_pkey_index := if test attr_mask IB_QP_PKEY_INDEX
                     then u16 (if alt then alt_pkey_index attr else pkey_index attr)
                     else p_pkey_index path;
     grh_mlid := if roce then grh_mlid path
                 else (rdma_ah_get_path_bits ah .& 127) .| (if grh then 128 else 0);
     rlid := if roce then rlid path else u16 (rdma_ah_get_dlid ah);
     ackto_lt := if test attr_mask IB_QP_TIMEOUT
                 then u8 ((if alt then alt_timeout attr else timeout attr) <<. 3) else ackto_lt path;
     mgid_index := if grh then u8 (ah_sgid_index ah) else mgid_index path;
     static_rate := u8 rate;
     hop_limit := if grh then
                    if negb (ttl dev (port - 1) =? 0) then u8 (ttl dev (port - 1))
                    else if roce && negb (ah_gid_type ah =? IB_GID_TYPE_IB) && (ah_hop_limit ah <? 2)
                         then IPV6_DEFAULT_HOPLIMIT else ah_hop_limit ah
                  else hop_limit path;
     tclass_flowlabel := if grh then u32 ((tclass <<. 20) .| ah_flow_label ah) else tclass_flowlabel path;
     rgid := if grh then ah_dgid ah else rgid path;
     ecn_dscp := if grh && udp then (tclass >>. 2) .& 63 else ecn_dscp path;
     udp_sport := if roce && connected_type (pa_type q) && udp && test attr_mask IB_QP_DEST_QPN then
                    if mlx5_valid_roce_udp_sport (ah_udp_sport ah) then ah_udp_sport ah
                    else mlx5_calc_udp_sport (pa_qp_num q) (dest_qp_num attr)
                  else udp_sport path;
     dci_cfi_prio_sl := if roce then (ah_sl ah .& 7) <<. 4 else ah_sl ah .& 15;
     p_port := port;
     rmac := if roce then ah_dmac ah else rmac path |}.

(** The path or an error, and what the call leaves in qp->ah and qp->tclass. *)
Definition mlx5_set_path (dev : mlx5_dev) (q : path_qp) (ah : rdma_ah_attr) (path : mlx5_qp_path)
    (port attr_mask path_flags : Z) (attr : ib_qp_attr) (alt : bool)
    : (Z + mlx5_qp_path) * option (rdma_ah_attr * Z) :=
  let grh := test (ah_flags ah) IB_AH_GRH in
  if grh && (gid_table_len dev (port - 1) <=? ah_sgid_index ah) then (inl (- EINVAL), None)
  else
    let tclass := if grh then tclass_get dev ah port (ah_traffic_class ah) else ah_traffic_class ah in
    let saved := if grh then Some (ah, tclass) else None in
    if is_roce (ah_type ah) && negb grh then (inl (- EINVAL), saved)
    else
      let rate := ib_rate_to_mlx5 dev (ah_static_rate ah) in
      if rate <? 0 then (inl rate, saved)
      else
        let err := if qpt_eqb (pa_type q) IB_QPT_RAW_PACKET && pa_has_sq q
                   then eth_prio dev (ah_sl ah .& 15) else 0 in
        (if err =? 0 then inr (fill_path dev q ah path port attr_mask path_flags attr alt tclass rate)
         else inl err, saved).

(** ** Reading the context back *)

Definition to_ib_mig_state (pm : Z) : option ib_mig_state :=
  if pm =? 0 then Some IB_MIG_ARMED
  else if pm =? 1 then Some IB_MIG_REARM
  else if pm =? 3 then Some IB_MIG_MIGRATED
  else None.

Definition zero_ah : rdma_ah_attr :=
  mkah RDMA_AH_ATTR_TYPE_UNDEFINED 0 0 0 0 (zeros 16) 0 0 0 0 0 0 0 0 (zeros 6).

(** rdma_ah_set_dlid and rdma_ah_set_path_bits store in the union member of the
    type, and nowhere for the other types. *)
Definition to_rdma_ah_attr (dev : mlx5_dev) (path : mlx5_qp_path) : rdma_ah_attr :=
  if (p_port path =? 0) || (num_ports dev <? p_port path) then zero_ah
  else
    let type := port_type dev (p_port path) in
    let lid := match type with RDMA_AH_ATTR_TYPE_IB | RDMA_AH_ATTR_TYPE_OPA => true | _ => false end in
    let grh := test (grh_mlid path) 128 || is_roce type in
    let tc_fl := tclass_flowlabel path in
    {| ah_type := type;
       ah_sl := dci_cfi_prio_sl path .& 15;
       ah_static_rate := if static_rate path =? 0 then 0 else static_rate path - 5;
       ah_port_num := p_port path;
       ah_flags := if grh then IB_AH_GRH else 0;
       ah_dgid := if grh then rgid path else zeros 16;
       ah_flow_label := if grh then tc_fl .& 1048575 else 0;
       ah_sgid_index := if grh then mgid_index path else 0;
       ah_hop_limit := if grh then hop_limit path else 0;
       ah_traffic_class := if grh then (tc_fl >>. 20) .& 255 else 0;
       ah_gid_type := 0;
       ah_dlid := if lid then rlid path else 0;
       ah_src_path_bits := if lid then grh_mlid path .& 127 else 0;
       ah_udp_sport := 0;
       ah_dmac := zeros 6 |}.

(** What query_qp_attr takes from the context.  The state, the migration state
    and the address vectors are [None] where the code stores -1 or leaves the
    zeroed attribute. *)
Record qp_report := mkreport {
  qr_state : option ib_qp_state;
  qr_path_mtu : Z;
  qr_path_mig_state : option ib_mig_state;
  qr_qkey : Z;
  qr_rq_psn : Z;
  qr_sq_psn : Z;
  qr_dest_qp_num : Z;
  qr_access_flags : Z;
  qr_av : option (rdma_ah_attr * rdma_ah_attr * Z * Z);  (* ah, alt_ah, alt_pkey_index, alt_port *)
  qr_pkey_index : Z;
  qr_port_num : Z;
  qr_sq_draining : bool;
  qr_max_rd_atomic : Z;
  qr_max_dest_rd_atomic : Z;
  qr_min_rnr_timer : Z;
  qr_timeout : Z;
  qr_retry_cnt : Z;
  qr_rnr_retry : Z;
  qr_alt_timeout : Z;
}.

Definition query_qp_attr (dev : mlx5_dev) (t : ib_qp_type) (c : mlx5_qp_context) : qp_report :=
  let mlx5_state := flags c >>. 28 in
  {| qr_state := to_ib_qp_state mlx5_state;
     qr_path_mtu := mtu_msgmax c >>. 5;
     qr_path_mig_state := to_ib_mig_state ((flags c >>. 11) .& 3);
     qr_qkey := ctx_qkey c;
     qr_rq_psn := rnr_nextrecvpsn c .& 16777215;
     qr_sq_psn := next_send_psn c .& 16777215;
     qr_dest_qp_num := log_pg_sz_remote_qpn c .& 16777215;
     qr_access_flags := to_ib_qp_access_flags (params2 c);
     qr_av := match t with
              | IB_QPT_RC | IB_QPT_UC =>
                  let alt := to_rdma_ah_attr dev (alt_path c) in
                  Some (to_rdma_ah_attr dev (pri_path c), alt, p_pkey_index (alt_path c), ah_port_num alt)
              | _ => None
              end;
     qr_pkey_index := p_pkey_index (pri_path c);
     qr_port_num := p_port (pri_path c);
     qr_sq_draining := mlx5_state =? 7;
     qr_max_rd_atomic := 1 <<. ((params1 c >>. 21) .& 7);
     qr_max_dest_rd_atomic := 1 <<. ((params2 c >>. 21) .& 7);
     qr_min_rnr_timer := (rnr_nextrecvpsn c >>. 24) .& 31;
     qr_timeout := ackto_lt (pri_path c) >>. 3;
     qr_retry_cnt := (params1 c >>. 16) .& 7;
     qr_rnr_retry := (params1 c >>. 13) .& 7;
     qr_alt_timeout := ackto_lt (alt_path c) >>. 3 |}.
