(* ===== verification/SqSize.v ===== *)
(** * SqSize: sizing of send and receive queues (hw/mlx5/qp.c)

    set_rq_size, sq_overhead, calc_send_wqe, get_send_sge and calc_sq_size with
    the C integer conversions written out.  A result below zero is an errno. *)

From S2P Require Import Prelude FragBuf QpTypes.

(** Device capabilities used when sizing queues. *)
Record qp_caps := mkcaps {
  log_max_qp_sz : Z;
  max_wqe_sz_sq : Z;
  max_wqe_sz_rq : Z;
}.

(** The sizes of one queue as the sizing functions set them. *)
Record wq_sizes := mksizes { sz_wqe_cnt : Z; sz_wqe_shift : Z; sz_max_gs : Z; sz_max_post : Z }.

(** User-supplied receive queue geometry (struct mlx5_ib_create_qp). *)
Record rq_ucmd := mkucmd { rq_wqe_count : Z; rq_wqe_shift : Z }.

Definition set_rq_size (dev : qp_caps) (cap : ib_qp_cap) (has_rq : bool) (wq_sig : Z)
    (ucmd : option rq_ucmd) : Z * ib_qp_cap * wq_sizes :=
  let none := mksizes 0 0 0 0 in
  if 1 <<. log_max_qp_sz dev <? max_recv_wr cap then (- EINVAL, cap, none)
  else if negb has_rq then
    (0, mkcap (max_send_wr cap) 0 (max_send_sge cap) 0 (cap_max_inline_data cap), none)
  else match ucmd with
  | Some u =>
      if 8 * 4 <? rq_wqe_shift u then (- EINVAL, cap, none)
      else
        let segs := u64 (s32 (1 <<. rq_wqe_shift u)) / sizeof_data_seg in
        if segs <? wq_sig then (- EINVAL, cap, none)
        else (0, cap, mksizes (rq_wqe_count u) (rq_wqe_shift u) (segs - wq_sig) (rq_wqe_count u))
  | None =>
      let wqe_size := if wq_sig =? 0 then 0 else sizeof_signature_seg in
      let wqe_size := s32 (wqe_size + max_recv_sge cap * sizeof_data_seg) in
      let wqe_size := s32 (roundup_pow_of_two wqe_size) in
      let wq_size := s32 (roundup_pow_of_two (max_recv_wr cap) * wqe_size) in
      let wq_size := Z.max wq_size MLX5_SEND_WQE_BB in
      if max_wqe_sz_rq dev <? wqe_size then (- EINVAL, cap, none)
      else
        let shift := ilog2 wqe_size in
        (0, cap, mksizes (Z.quot wq_size wqe_size) shift
                         ((1 <<. shift) / sizeof_data_seg - wq_sig) (Z.quot wq_size wqe_size))
  end.

Definition sq_overhead (attr : ib_qp_init_attr) : Z :=
  let rc := sizeof_ctrl_seg +
            Z.max (sizeof_atomic_seg + sizeof_raddr_seg)
                  (sizeof_umr_ctrl_seg + sizeof_mkey_seg +
                   MLX5_IB_SQ_UMR_INLINE_THRESHOLD / MLX5_IB_UMR_OCTOWORD) in
  let gsi := sizeof_ctrl_seg + sizeof_datagram_seg in
  match attr_qp_type attr with
  | IB_EXP_QPT_DC_INI => sizeof_ctrl_seg + sizeof_datagram_seg + sizeof_raddr_seg
  | IB_QPT_XRC_INI => sizeof_xrc_seg + rc
  | IB_QPT_RC => rc
  | IB_QPT_XRC_TGT => 0
  | IB_QPT_UC => sizeof_ctrl_seg +
                 Z.max sizeof_raddr_seg (sizeof_umr_ctrl_seg + sizeof_mkey_seg)
  | IB_QPT_UD => (if test (create_flags attr) IB_QP_CREATE_IPOIB_UD_LSO
                  then sizeof_eth_pad + sizeof_eth_seg else 0) + gsi
  | IB_QPT_SMI | MLX5_IB_QPT_HW_GSI => gsi
  | MLX5_IB_QPT_REG_UMR => sizeof_ctrl_seg + sizeof_umr_ctrl_seg + sizeof_mkey_seg
  | MLX5_IB_QPT_SW_CNAK => sizeof_ctrl_seg + sizeof_mlx_seg
  | _ => - EINVAL
  end.

Definition calc_send_wqe (attr : ib_qp_init_attr) : Z :=
  let size := sq_overhead attr in
  if size <? 0 then size
  else
    let inl_size := if cap_max_inline_data (cap attr) =? 0 then 0
                    else s32 (size + sizeof_inline_seg + cap_max_inline_data (cap attr)) in
    let size := s32 (size + max_send_sge (cap attr) * sizeof_data_seg) in
    let aligned := s32 (ALIGN (Z.max inl_size size) MLX5_SEND_WQE_BB) in
    if test (create_flags attr) IB_QP_CREATE_INTEGRITY_EN && (aligned <? MLX5_SIG_WQE_SIZE)
    then MLX5_SIG_WQE_SIZE else aligned.

(** The divisions are on size_t, so a negative difference wraps. *)
Definition get_send_sge (attr : ib_qp_init_attr) (wqe_size : Z) : Z :=
  let m := Z.min wqe_size 512 in
  let max_sge :=
    match attr_qp_type attr with
    | IB_QPT_RC => s32 (u64 (m - sizeof_ctrl_seg - sizeof_raddr_seg) / sizeof_data_seg)
    | IB_EXP_QPT_DC_INI =>
        s32 (u64 (m - sizeof_ctrl_seg - sizeof_datagram_seg - sizeof_raddr_seg) / sizeof_data_seg)
    | IB_QPT_XRC_INI =>
        s32 (u64 (m - sizeof_ctrl_seg - sizeof_xrc_seg - sizeof_raddr_seg) / sizeof_data_seg)
    | _ => s32 (u64 (s32 (wqe_size - sq_overhead attr)) / sizeof_data_seg)
    end in
  Z.min max_sge (s32 (u64 (wqe_size - u64 (sq_overhead attr) / sizeof_data_seg))).

Record sq_result := mksq {
  sq_ret : Z;
  sq_cap : ib_qp_cap;
  sq_max_inline_data : Z;
  sq_sizes : wq_sizes;
}.

Definition calc_sq_size (dev : qp_caps) (attr : ib_qp_init_attr) : sq_result :=
  let c := cap attr in
  let fail e c inl sz := {| sq_ret := e; sq_cap := c; sq_max_inline_data := inl; sq_sizes := sz |} in
  let none := mksizes 0 0 0 0 in
  if max_send_wr c =? 0 then fail 0 c 0 none
  else
    let wqe_size := calc_send_wqe attr in
    if wqe_size <? 0 then fail wqe_size c 0 none
    else if max_wqe_sz_sq dev <? wqe_size then fail (- EINVAL) c 0 none
    else
      let inl := s32 (wqe_size - sq_overhead attr - sizeof_inline_seg) in
      let c1 := mkcap (max_send_wr c) (max_recv_wr c) (max_send_sge c) (max_recv_sge c) (u32 inl) in
      let wq_size := s32 (roundup_pow_of_two (u32 (max_send_wr c * wqe_size))) in
      let cnt := Z.quot wq_size MLX5_SEND_WQE_BB in
      if 1 <<. log_max_qp_sz dev <? cnt then fail (- ENOMEM) c1 inl (mksizes cnt 0 0 0)
      else
        let shift := ilog2 MLX5_SEND_WQE_BB in
        let gs := get_send_sge attr wqe_size in
        if u32 gs <? max_send_sge c then fail (- ENOMEM) c1 inl (mksizes cnt shift gs 0)
        else
          let post := Z.quot wq_size wqe_size in
          {| sq_ret := wq_size;
             sq_cap := mkcap (u32 post) (max_recv_wr c) (u32 gs) (max_recv_sge c) (u32 inl);
             sq_max_inline_data := inl;
             sq_sizes := mksizes cnt shift gs post |}.

Definition qp_has_rq (attr : ib_qp_init_attr) : bool :=
  negb (qpt_eqb (attr_qp_type attr) IB_QPT_XRC_INI
        || qpt_eqb (attr_qp_type attr) IB_QPT_XRC_TGT
        || attr_srq attr
        || qpt_eqb (attr_qp_type attr) MLX5_IB_QPT_REG_UMR
        || (max_recv_wr (cap attr) =? 0)).

Definition MLX5_NON_ZERO_RQ : Z := 0.
Definition MLX5_SRQ_RQ : Z := 1.
Definition MLX5_ZERO_LEN_RQ : Z := 3.

Definition get_rx_type (has_rq : bool) (attr : ib_qp_init_attr) : Z :=
  let qt := attr_qp_type attr in
  if attr_srq attr || qpt_eqb qt IB_QPT_XRC_TGT || qpt_eqb qt MLX5_IB_QPT_DCI
     || qpt_eqb qt IB_QPT_XRC_INI || qpt_eqb qt IB_EXP_QPT_DC_INI
  then MLX5_SRQ_RQ
  else if negb has_rq then MLX5_ZERO_LEN_RQ else MLX5_NON_ZERO_RQ.

Definition is_connected (qt : ib_qp_type) : bool :=
  qpt_eqb qt IB_QPT_RC || qpt_eqb qt IB_QPT_UC || qpt_eqb qt MLX5_IB_QPT_DCI
  || qpt_eqb qt IB_EXP_QPT_DC_INI.

Definition get_rq_pas_size (log_page_size log_rq_stride log_rq_size page_offset : Z) : Z :=
  let log_page_size := u32 (log_page_size + 12) in
  let po_quanta := u32 (1 <<. (log_page_size - 6)) in
  let rq_sz := u32 (1 <<. (log_rq_size + 4 + log_rq_stride)) in
  let page_size := u32 (1 <<. log_page_size) in
  let rq_sz_po := u32 (rq_sz + page_offset * po_quanta) in
  let rq_num_pas := u32 (rq_sz_po + page_size - 1) / page_size in
  rq_num_pas * 8.

(** ** Correctness of the sizing *)

Lemma roundup_pow_of_two_spec n k :
  0 < n <= 2 ^ k -> 0 <= k ->
  exists j, 0 <= j <= k /\ roundup_pow_of_two n = 2 ^ j /\ n <= 2 ^ j < 2 * n.
Proof.
  intros Hn Hk. unfold roundup_pow_of_two. exists (Z.log2_up n).
  pose proof (Z.log2_up_nonneg n). split; [|split; [done|]].
  - split; [done|]. rewrite <- (Z.log2_up_pow2 k) by lia. apply Z.log2_up_le_mono; lia.
  - destruct (decide (n = 1)) as [->|]; [change (2 ^ Z.log2_up 1) with 1; lia|].
    destruct (Z.log2_up_spec n) as [H1 H2]; [lia|].
    replace (Z.log2_up n) with (Z.succ (Z.pred (Z.log2_up n))) at 2 by lia.
    rewrite Z.pow_succ_r by (assert (0 < Z.log2_up n) by (apply Z.log2_up_pos; lia); lia). lia.
Qed.

(** Bytes a data-carrying WQE of the QP needs before its data segments. *)
Definition wqe_prefix (attr : ib_qp_init_attr) : Z :=
  match attr_qp_type attr with
  | IB_QPT_RC => sizeof_ctrl_seg + sizeof_raddr_seg
  | IB_EXP_QPT_DC_INI => sizeof_ctrl_seg + sizeof_datagram_seg + sizeof_raddr_seg
  | IB_QPT_XRC_INI => sizeof_ctrl_seg + sizeof_xrc_seg + sizeof_raddr_seg
  | _ => sq_overhead attr
  end.

(** Requests small enough that sizes in bytes fit an [int]. *)
Definition attr_small (attr : ib_qp_init_attr) : Prop :=
  0 <= max_send_wr (cap attr) < 2 ^ 32 /\ 0 <= max_send_sge (cap attr) < 2 ^ 26 /\
  0 <= cap_max_inline_data (cap attr) < 2 ^ 30.

Lemma sq_overhead_range attr : - EINVAL <= sq_overhead attr <= 148.
Proof. unfold sq_overhead. destruct (attr_qp_type attr); try case_match; vm_compute; done. Qed.

Lemma calc_send_wqe_spec attr :
  attr_small attr -> 0 < calc_send_wqe attr ->
  let w := calc_send_wqe attr in
  0 <= sq_overhead attr /\ w mod 64 = 0 /\ w < 2 ^ 31 /\
  sq_overhead attr + 16 * max_send_sge (cap attr) <= w /\
  (cap_max_inline_data (cap attr) <> 0 ->
   sq_overhead attr + sizeof_inline_seg + cap_max_inline_data (cap attr) <= w).
Proof.
  intros (Hwr & Hsge & Hinl). unfold calc_send_wqe, sizeof_inline_seg, sizeof_data_seg.
  pose proof (sq_overhead_range attr) as Ho. unfold EINVAL in Ho.
  destruct (Z.ltb_spec (sq_overhead attr) 0); [lia|].
  set (inl := if cap_max_inline_data (cap attr) =? 0 then 0 else _).
  assert (Hi : 0 <= inl <= 2 ^ 30 + 200 /\ (cap_max_inline_data (cap attr) <> 0 ->
     inl = sq_overhead attr + 4 + cap_max_inline_data (cap attr))).
  { unfold inl. destruct (Z.eqb_spec (cap_max_inline_data (cap attr)) 0); [lia|].
    rewrite s32_small by lia. lia. }
  rewrite (s32_small (sq_overhead attr + _)) by lia.
  unfold MLX5_SEND_WQE_BB. rewrite ALIGN_64, s32_small by dlia.
  unfold MLX5_SIG_WQE_SIZE.
  destruct (test _ _); simpl; [zcases|]; simpl; intros Hw; split_and!; try lia; try done; try dlia.
Qed.

Lemma get_send_sge_fits attr :
  attr_small attr -> 0 < calc_send_wqe attr ->
  wqe_prefix attr + 16 * get_send_sge attr (calc_send_wqe attr) <= calc_send_wqe attr /\
  0 <= get_send_sge attr (calc_send_wqe attr).
Proof.
  intros Hs Hw. pose proof (calc_send_wqe_spec attr Hs Hw) as (Ho & Hm & Hlt & Hsz & _).
  pose proof (sq_overhead_range attr) as Hov. destruct Hs as (_ & Hsge & _).
  set (w := calc_send_wqe attr) in *. unfold get_send_sge, wqe_prefix.
  set (b := s32 (u64 (w - u64 _ / _))).
  assert (Hb : 0 <= b).
  { unfold b, sizeof_data_seg. rewrite (u64_small (sq_overhead _)), u64_small, s32_small by dlia. dlia. }
  clearbody b.
  assert (Hd : forall p, 0 <= p <= 80 -> p <= w ->
    p + 16 * s32 (u64 (Z.min w 512 - p) / 16) <= w /\ 0 <= s32 (u64 (Z.min w 512 - p) / 16)).
  { intros p Hp Hpw. rewrite u64_small, s32_small by dlia. dlia. }
  assert (Hge : attr_qp_type attr = IB_QPT_RC \/ attr_qp_type attr = IB_EXP_QPT_DC_INI \/
    attr_qp_type attr = IB_QPT_XRC_INI -> 80 <= sq_overhead attr).
  { unfold sq_overhead. intros [-> | [-> | ->]]; vm_compute; done. }
  assert (Hdef : sq_overhead attr + 16 * s32 (u64 (s32 (w - sq_overhead attr)) / 16) <= w /\
    0 <= s32 (u64 (s32 (w - sq_overhead attr)) / 16)).
  { rewrite (s32_small (w - _)), u64_small, s32_small by dlia. dlia. }
  unfold sizeof_ctrl_seg, sizeof_raddr_seg, sizeof_data_seg, sizeof_datagram_seg, sizeof_xrc_seg.
  destruct (attr_qp_type attr) eqn:E; try lia.
  all: specialize (Hge ltac:(tauto)).
  all: match goal with |- ?p + 16 * Z.min (s32 (u64 ?e / 16)) _ <= _ /\ _ =>
         specialize (Hd p); replace e with (Z.min w 512 - p) in * by lia end; lia.
Qed.

Lemma calc_sq_size_ok (dev : qp_caps) (attr : ib_qp_init_attr) :
  attr_small attr -> 0 < max_send_wr (cap attr) -> 0 < calc_send_wqe attr ->
  max_send_wr (cap attr) * calc_send_wqe attr <= 2 ^ 30 -> 0 <= log_max_qp_sz dev ->
  0 < sq_ret (calc_sq_size dev attr) ->
  let w := calc_send_wqe attr in
  let r := calc_sq_size dev attr in
  exists k, 0 <= k <= log_max_qp_sz dev /\
    sz_wqe_cnt (sq_sizes r) = 2 ^ k /\ sq_ret r = 2 ^ k * MLX5_SEND_WQE_BB /\ w mod 64 = 0 /\
    sz_max_post (sq_sizes r) * (w / 64) <= 2 ^ k /\
    max_send_wr (cap attr) <= sz_max_post (sq_sizes r) /\
    max_send_wr (sq_cap r) = sz_max_post (sq_sizes r) /\
    max_send_sge (cap attr) <= sz_max_gs (sq_sizes r) /\
    wqe_prefix attr + 16 * sz_max_gs (sq_sizes r) <= w /\
    (cap_max_inline_data (cap attr) <> 0 ->
     cap_max_inline_data (cap attr) <= sq_max_inline_data r) /\
    sq_overhead attr + sizeof_inline_seg + sq_max_inline_data r = w.
Proof.
  intros Hs Hwr Hw Hprod Hlog Hret w r.
  pose proof (calc_send_wqe_spec attr Hs Hw) as (Ho & Hm & Hlt & Hsz & Hinl).
  pose proof (get_send_sge_fits attr Hs Hw) as [Hgs Hgs0].
  pose proof (sq_overhead_range attr) as Hov.
  subst r. unfold calc_sq_size in *. fold w in Hm, Hlt, Hsz, Hinl, Hgs, Hgs0, Hprod, Hw, Hret |- *.
  assert (Hw64 : 64 <= w) by dlia.
  destruct (Z.eqb_spec (max_send_wr (cap attr)) 0); [lia|].
  destruct (Z.ltb_spec w 0); [lia|].
  destruct (Z.ltb_spec (max_wqe_sz_sq dev) w); [simpl in Hret; unfold EINVAL in Hret; lia|].
  assert (H64 : 64 <= max_send_wr (cap attr) * w) by nia.
  destruct (roundup_pow_of_two_spec (max_send_wr (cap attr) * w) 30) as (j & Hj & Hrj & Hpj); [lia|lia|].
  assert (Hj30 : 2 ^ j <= 2 ^ 30) by (apply Z.pow_le_mono_r; lia).
  rewrite (u32_small (max_send_wr _ * w)), Hrj, (s32_small (2 ^ j)) in * by lia.
  assert (Hj6 : 6 <= j).
  {  apply Z.nlt_ge. intros Hlt6.
    assert (2 ^ j <= 2 ^ 5) by (apply Z.pow_le_mono_r; lia). lia. }
  assert (Hcnt : Z.quot (2 ^ j) MLX5_SEND_WQE_BB = 2 ^ (j - 6)).
  { replace j with (j - 6 + 6) at 1 by lia. rewrite Z.pow_add_r by lia. by apply Z.quot_mul. }
  rewrite Hcnt in *. rewrite !Z.shiftl_mul_pow2, !Z.mul_1_l in * by lia.
  destruct (Z.ltb_spec (2 ^ log_max_qp_sz dev) (2 ^ (j - 6))); [simpl in Hret; unfold ENOMEM in Hret; lia|].
  destruct (Z.ltb_spec (u32 (get_send_sge attr w)) (max_send_sge (cap attr)));
    [simpl in Hret; unfold ENOMEM in Hret; lia|].
  cbn [sq_ret sq_cap sq_max_inline_data sq_sizes sz_wqe_cnt sz_max_post sz_max_gs max_send_wr].
  rewrite Z.quot_div_nonneg by lia. unfold sizeof_inline_seg in *.
  rewrite (s32_small (w - _ - _)) by lia.
  exists (j - 6). unfold MLX5_SEND_WQE_BB.
  assert (Hpost : 0 <= 2 ^ j / w <= 2 ^ j) by (split; [apply Z.div_pos|apply Z.div_le_upper_bound]; nia).
  assert (E : 2 ^ j = 2 ^ (j - 6) * 64)
    by (change 64 with (2 ^ 6); rewrite <- Z.pow_add_r by lia; f_equal; lia).
  split_and!; try lia.
  - apply (Z.pow_le_mono_r_iff 2); lia.
  - pose proof (Z.mul_div_le (2 ^ j) w ltac:(lia)).
    assert (w = 64 * (w / 64)) by dlia. nia.
  - apply Z.div_le_lower_bound; nia.
  - rewrite u32_small by lia. done.
  - assert (0 <= wqe_prefix attr) by (unfold wqe_prefix; destruct (attr_qp_type attr); done).
    pose proof (u32_small (get_send_sge attr w) ltac:(lia)). lia.
Qed.

(** C28. A send queue that calc_sq_size accepts is big enough for what it
    promises: the ring has a power-of-two number of 64-byte blocks within the
    device limit, [max_post] requests of the largest WQE fit into it, at least as
    many requests, SGEs and inline bytes as asked for are granted, and a WQE with
    [max_gs] data segments, or [max_inline_data] inline bytes, fits into the WQE
    size.  For requests whose bytes can be counted in 32 bits: at least one
    request, fewer than 2^26 SGEs and 2^30 inline bytes, a type with a send queue,
    and max_send_wr times the WQE size at most 2^30; beyond that the product wraps
    around and the queue is too small. *)
Theorem calc_sq_size_sound (dev : qp_caps) (attr : ib_qp_init_attr) :
  attr_small attr -> 0 < max_send_wr (cap attr) -> 0 < calc_send_wqe attr ->
  max_send_wr (cap attr) * calc_send_wqe attr <= 2 ^ 30 -> 0 <= log_max_qp_sz dev ->
  0 < sq_ret (calc_sq_size dev attr) ->
  let w := calc_send_wqe attr in
  let r := calc_sq_size dev attr in
  exists k, 0 <= k <= log_max_qp_sz dev /\
    sz_wqe_cnt (sq_sizes r) = 2 ^ k /\ sq_ret r = 2 ^ k * MLX5_SEND_WQE_BB /\ w mod 64 = 0 /\
    sz_max_post (sq_sizes r) * (w / 64) <= 2 ^ k /\
    max_send_wr (cap attr) <= sz_max_post (sq_sizes r) /\
    max_send_wr (sq_cap r) = sz_max_post (sq_sizes r) /\
    max_send_sge (cap attr) <= sz_max_gs (sq_sizes r) /\
    wqe_prefix attr + 16 * sz_max_gs (sq_sizes r) <= w /\
    (cap_max_inline_data (cap attr) <> 0 ->
     cap_max_inline_data (cap attr) <= sq_max_inline_data r) /\
    sq_overhead attr + sizeof_inline_seg + sq_max_inline_data r = w.
Proof. apply calc_sq_size_ok. Qed.

Lemma calc_sq_size_sound_witness :
  sz_max_post (sq_sizes (calc_sq_size (mkcaps 15 1024 512)
    (mkattr IB_EXP_QPT_DC_INI 0 true (mkcap 128 0 4 0 64)))) * (calc_send_wqe
    (mkattr IB_EXP_QPT_DC_INI 0 true (mkcap 128 0 4 0 64)) / 64) <= 512.
Proof.
  destruct (calc_sq_size_sound (mkcaps 15 1024 512)
    (mkattr IB_EXP_QPT_DC_INI 0 true (mkcap 128 0 4 0 64))) as (k & Hk & Hc & _ & _ & Hp & _).
  - unfold attr_small; simpl; lia.
  - simpl; lia.
  - vm_compute; done.
  - vm_compute; done.
  - simpl; lia.
  - vm_compute; done.
  - rewrite <- Hc in Hp. exact Hp.
Defined.

(** The byte size of the ring is computed in 32 bits: a UD queue of
    2^25 + 1 requests is accepted, with room for one request. *)
Theorem calc_sq_size_wraps :
  let attr := mkattr IB_QPT_UD 0 true (mkcap (2 ^ 25 + 1) 0 1 0 0) in
  let r := calc_sq_size (mkcaps 15 1024 512) attr in
  sq_ret r = 128 /\ sz_max_post (sq_sizes r) = 1 /\
  max_send_wr (sq_cap r) < max_send_wr (cap attr).
Proof. vm_compute. done. Qed.

Lemma quot_pow2 a b : 0 <= b <= a -> Z.quot (2 ^ a) (2 ^ b) = 2 ^ (a - b).
Proof.
  intros H. replace a with (a - b + b) at 1 by lia. rewrite Z.pow_add_r by lia.
  apply Z.quot_mul. pose proof (pow2_pos b). lia.
Qed.

Lemma set_rq_size_ok (dev : qp_caps) (c : ib_qp_cap) (wq_sig : Z) :
  0 <= wq_sig <= 1 -> 0 < max_recv_sge c <= 512 -> 0 < max_recv_wr c <= 2 ^ 16 ->
  0 <= log_max_qp_sz dev <= 16 ->
  fst (fst (set_rq_size dev c true wq_sig None)) = 0 ->
  let s := snd (set_rq_size dev c true wq_sig None) in
  exists k j, sz_wqe_cnt s = 2 ^ k /\ 0 <= k <= 16 /\ sz_wqe_shift s = j /\ 4 <= j <= 14 /\
    max_recv_wr c <= sz_max_post s /\ sz_max_post s = sz_wqe_cnt s /\
    max_recv_sge c <= sz_max_gs s /\ 16 * (sz_max_gs s + wq_sig) = 2 ^ j /\ 6 <= k + j.
Proof.
  intros Hsig Hsge Hwr Hlog.
  unfold set_rq_size, MLX5_SEND_WQE_BB, sizeof_data_seg, sizeof_signature_seg, EINVAL. simpl.
  rewrite Z.shiftl_mul_pow2, Z.mul_1_l by lia.
  destruct (Z.ltb_spec (2 ^ log_max_qp_sz dev) (max_recv_wr c)); [simpl; lia|].
  set (b := if wq_sig =? 0 then 0 else 16).
  assert (Hb : b = 16 * wq_sig) by (unfold b; zcases; lia). clearbody b.
  rewrite (s32_small (b + _)) by lia.
  destruct (roundup_pow_of_two_spec (b + max_recv_sge c * 16) 14) as (j & Hj & Ej & Hj2); [lia|lia|].
  destruct (roundup_pow_of_two_spec (max_recv_wr c) 16) as (i & Hi & Ei & Hi2); [lia|lia|].
  assert (2 ^ j <= 2 ^ 14 /\ 2 ^ (i + j) <= 2 ^ 30) as [Hjb Hib] by (split; apply Z.pow_le_mono_r; lia).
  rewrite Ej, Ei, (s32_small (2 ^ j)) by lia.
  rewrite <- Z.pow_add_r, (s32_small (2 ^ (i + j))) by (pose proof (pow2_pos (i + j)); lia).
  assert (H4 : 4 <= j).
  { apply Z.nlt_ge. intros H4. assert (2 ^ j <= 2 ^ 3) by (apply Z.pow_le_mono_r; lia). lia. }
  set (m := Z.max i (6 - j)).
  assert (Hmax : Z.max (2 ^ (i + j)) 64 = 2 ^ (m + j)).
  { change 64 with (2 ^ 6). destruct (Z.le_ge_cases 6 (i + j)).
    - rewrite Z.max_l by (apply Z.pow_le_mono_r; lia). f_equal; lia.
    - rewrite Z.max_r by (apply Z.pow_le_mono_r; lia). f_equal; lia. }
  rewrite Hmax. destruct (Z.ltb_spec (max_wqe_sz_rq dev) (2 ^ j)); [simpl; lia|].
  intros _. simpl. unfold ilog2. rewrite Z.log2_pow2, quot_pow2 by lia.
  replace (m + j - j) with m by lia. rewrite Z.shiftl_mul_pow2, Z.mul_1_l by lia.
  assert (E16 : 2 ^ j = 16 * 2 ^ (j - 4)).
  { change 16 with (2 ^ 4). rewrite <- Z.pow_add_r by lia. f_equal; lia. }
  assert (2 ^ i <= 2 ^ m) by (apply Z.pow_le_mono_r; lia).
  exists m, j. rewrite E16, (Z.mul_comm 16), Z.div_mul by lia. split_and!; lia.
Qed.

(** A receive queue that set_rq_size accepts for a kernel QP has room for
    every receive request: a power-of-two number of power-of-two sized WQEs
    of at least the requested number, each holding at least the requested
    number of scatter entries (after the signature). *)
Theorem set_rq_size_sound (dev : qp_caps) (c : ib_qp_cap) (wq_sig : Z) :
  0 <= wq_sig <= 1 -> 0 < max_recv_sge c <= 512 -> 0 < max_recv_wr c <= 2 ^ 16 ->
  0 <= log_max_qp_sz dev <= 16 ->
  fst (fst (set_rq_size dev c true wq_sig None)) = 0 ->
  let s := snd (set_rq_size dev c true wq_sig None) in
  exists k j, sz_wqe_cnt s = 2 ^ k /\ 0 <= k <= 16 /\ sz_wqe_shift s = j /\ 4 <= j <= 14 /\
    max_recv_wr c <= sz_max_post s /\ sz_max_post s = sz_wqe_cnt s /\
    max_recv_sge c <= sz_max_gs s /\ 16 * (sz_max_gs s + wq_sig) = 2 ^ j /\ 6 <= k + j.
Proof. apply set_rq_size_ok. Qed.

Lemma set_rq_size_sound_witness :
  exists k, sz_wqe_cnt (snd (set_rq_size (mkcaps 15 1024 512) (mkcap 0 100 0 3 0) true 0 None))
            = 2 ^ k /\ 100 <= 2 ^ k.
Proof.
  destruct (set_rq_size_sound (mkcaps 15 1024 512) (mkcap 0 100 0 3 0) 0)
    as (k & j & Hk & _ & _ & _ & Hp & Hq & _); simpl max_recv_sge; simpl max_recv_wr;
    simpl log_max_qp_sz; try lia; [reflexivity|].
  exists k. split; [exact Hk|]. rewrite <- Hk, <- Hq. exact Hp.
Defined.
