(* ===== verification/WqeSeg.v ===== *)
(** * WqeSeg: work requests and the bytes of WQE segments (hw/mlx5/qp.c)

    Each set_*_seg helper of qp.c fills one structure of
    include/linux/mlx5/qp.h; here it is the list of the bytes it leaves in
    memory. *)

From S2P Require Import Prelude FragBuf QpTypes.

(** ** Work requests (include/rdma/ib_verbs.h, hw/mlx5/mlx5_ib.h) *)

Record ib_sge := mksge { sge_addr : Z; sge_length : Z; sge_lkey : Z }.

(** What the request is embedded in; [container_of] to another structure
    reads memory that is not there.  An address handle is its 48-byte AV. *)
Inductive wr_ext :=
| WrPlain
| WrRdma (remote_addr rkey : Z)
| WrDc (remote_addr rkey : Z) (av : list Z) (dct_access_key dct_number : Z)
| WrUd (av header : list Z) (hlen mss remote_qpn remote_qkey : Z)
| WrReg (mr key access : Z)
| WrUmr (virt_addr offset : Z) (pd : option Z) (page_shift xlt_size length access_flags mkey : Z)
| WrMlx (sl dlid icrc : Z).

Record ib_send_wr := mkwr {
  wr_id : Z;
  sg_list : list ib_sge;
  num_sge : Z;
  opcode : Z;
  send_flags : Z;
  ex : list Z;               (* the four bytes of the union ex, as stored *)
  ext : wr_ext;
}.

Definition IB_WR_RDMA_WRITE : Z := 0.
Definition IB_WR_RDMA_WRITE_WITH_IMM : Z := 1.
Definition IB_WR_SEND : Z := 2.
Definition IB_WR_SEND_WITH_IMM : Z := 3.
Definition IB_WR_RDMA_READ : Z := 4.
Definition IB_WR_ATOMIC_CMP_AND_SWP : Z := 5.
Definition IB_WR_ATOMIC_FETCH_AND_ADD : Z := 6.
Definition IB_WR_LOCAL_INV : Z := 7.
Definition IB_WR_SEND_WITH_INV : Z := 9.
Definition IB_WR_LSO : Z := 10.
Definition IB_WR_MASKED_ATOMIC_CMP_AND_SWP : Z := 12.
Definition IB_WR_MASKED_ATOMIC_FETCH_AND_ADD : Z := 13.
Definition IB_WR_REG_MR : Z := 32.
Definition IB_WR_REG_MR_INTEGRITY : Z := 33.
Definition MLX5_IB_WR_UMR : Z := 240.
Definition MLX5_IB_WR_SIG_PIPED : Z := 241.
Definition MLX5_IB_WR_SIG_CANCELED : Z := 242.
Definition MLX5_IB_WR_NOP : Z := 243.

Definition IB_SEND_FENCE : Z := 1.
Definition IB_SEND_SIGNALED : Z := 2.
Definition IB_SEND_SOLICITED : Z := 4.
Definition IB_SEND_INLINE : Z := 8.
Definition IB_SEND_IP_CSUM : Z := 16.
Definition IB_SEND_SIG_PIPELINED : Z := 32.
Definition MLX5_IB_SEND_UMR_ENABLE_MR : Z := 2 ^ 26.
Definition MLX5_IB_SEND_UMR_DISABLE_MR : Z := 2 ^ 27.
Definition MLX5_IB_SEND_UMR_FAIL_IF_FREE : Z := 2 ^ 28.
Definition MLX5_IB_SEND_UMR_UPDATE_XLT : Z := 2 ^ 29.
Definition MLX5_IB_SEND_UMR_UPDATE_TRANSLATION : Z := 2 ^ 30.
Definition MLX5_IB_SEND_UMR_UPDATE_PD_ACCESS : Z := 2 ^ 31.

Definition MLX5_OPCODE_NOP : Z := 0.
Definition MLX5_OPCODE_SEND_INVAL : Z := 1.
Definition MLX5_OPCODE_RDMA_WRITE : Z := 8.
Definition MLX5_OPCODE_RDMA_WRITE_IMM : Z := 9.
Definition MLX5_OPCODE_SEND : Z := 10.
Definition MLX5_OPCODE_SEND_IMM : Z := 11.
Definition MLX5_OPCODE_LSO : Z := 14.
Definition MLX5_OPCODE_RDMA_READ : Z := 16.
Definition MLX5_OPCODE_ATOMIC_CS : Z := 17.
Definition MLX5_OPCODE_ATOMIC_FA : Z := 18.
Definition MLX5_OPCODE_ATOMIC_MASKED_CS : Z := 20.
Definition MLX5_OPCODE_ATOMIC_MASKED_FA : Z := 21.
Definition MLX5_OPCODE_SET_PSV : Z := 32.
Definition MLX5_OPCODE_UMR : Z := 37.

(** The table mlx5_ib_opcode; entries it does not list are zero. *)
Definition mlx5_ib_opcode (op : Z) : Z :=
  if op =? IB_WR_SEND then MLX5_OPCODE_SEND
  else if op =? IB_WR_LSO then MLX5_OPCODE_LSO
  else if op =? IB_WR_SEND_WITH_IMM then MLX5_OPCODE_SEND_IMM
  else if op =? IB_WR_RDMA_WRITE then MLX5_OPCODE_RDMA_WRITE
  else if op =? IB_WR_RDMA_WRITE_WITH_IMM then MLX5_OPCODE_RDMA_WRITE_IMM
  else if op =? IB_WR_RDMA_READ then MLX5_OPCODE_RDMA_READ
  else if op =? IB_WR_ATOMIC_CMP_AND_SWP then MLX5_OPCODE_ATOMIC_CS
  else if op =? IB_WR_ATOMIC_FETCH_AND_ADD then MLX5_OPCODE_ATOMIC_FA
  else if op =? IB_WR_SEND_WITH_INV then MLX5_OPCODE_SEND_INVAL
  else if op =? IB_WR_LOCAL_INV then MLX5_OPCODE_UMR
  else if op =? IB_WR_REG_MR then MLX5_OPCODE_UMR
  else if op =? IB_WR_MASKED_ATOMIC_CMP_AND_SWP then MLX5_OPCODE_ATOMIC_MASKED_CS
  else if op =? IB_WR_MASKED_ATOMIC_FETCH_AND_ADD then MLX5_OPCODE_ATOMIC_MASKED_FA
  else if op =? MLX5_IB_WR_UMR then MLX5_OPCODE_UMR
  else if op =? MLX5_IB_WR_NOP then MLX5_OPCODE_NOP
  else 0.
Definition mlx5_ib_opcode_size : Z := MLX5_IB_WR_NOP + 1.

(** ** Memory regions (struct mlx5_ib_mr) and signature attributes *)

Definition IB_SIG_TYPE_NONE : Z := 0.
Definition IB_SIG_TYPE_T10_DIF : Z := 1.
Definition IB_T10DIF_CRC : Z := 0.

Record ib_sig_domain := mkdomain {
  sig_type : Z;
  bg_type : Z;
  pi_interval : Z;
  bg : Z;
  app_tag : Z;
  ref_tag : Z;
  ref_remap : bool;
  app_escape : bool;
  ref_escape : bool;
  apptag_check_mask : Z;
}.

Record ib_sig_attrs := mksigattrs { check_mask : Z; sig_mem : ib_sig_domain; sig_wire : ib_sig_domain }.

Record mlx5_core_sig_ctx := mksigctx {
  psv_memory : Z;
  psv_wire : Z;
  sig_status_checked : bool;
  sigerr_count : Z;
}.

Record mlx5_ib_mr := mkmr {
  mr_lkey : Z;
  mr_rkey : Z;
  mr_iova : Z;
  mr_length : Z;
  mr_page_size : Z;
  mr_pd_lkey : Z;            (* pd->local_dma_lkey *)
  mr_descs : Z;              (* host address of the descriptors *)
  mr_desc_map : Z;
  mr_ndescs : Z;
  mr_data_length : Z;
  mr_meta_ndescs : Z;
  mr_meta_length : Z;
  mr_desc_size : Z;
  mr_access_mode : Z;
  mr_data_iova : Z;
  mr_pi_iova : Z;
  mr_pi_mr : option Z;
  mr_sig : option mlx5_core_sig_ctx;
  mr_sig_attrs : option ib_sig_attrs;
}.

(** ** Segments *)

Definition set_raddr_seg (remote_addr rkey : Z) : list Z :=
  be64 remote_addr ++ be32 rkey ++ zeros 4.

Definition set_data_ptr_seg (sg : ib_sge) : list Z :=
  be32 (sge_length sg) ++ be32 (sge_lkey sg) ++ be64 (sge_addr sg).

(** A structure image with the bytes from [i] on replaced. *)
Definition patch (bs : list Z) (i : nat) (v : list Z) : list Z :=
  take i bs ++ v ++ drop (i + length v) bs.

(** [ah->av.dqp_dct & ntohl(MLX5_EXTENDED_UD_AV)]: the top bit of byte 8. *)
Definition xhas_grh (av : list Z) : bool := test (nth 8 av 0) 128.

(** The bytes written and the number the caller advances by. *)
Definition xset_dci_seg (av : list Z) (dct_access_key dct_number : Z) : list Z :=
  let size := if xhas_grh av then 48%nat else 16%nat in
  let d := take size av in
  let d := patch d 8 (be32 dct_number) in
  let d := patch d 0 (be64 dct_access_key) in
  patch d 14 (take 2 (drop 14 av)).

Definition MLX5_EXTENDED_UD_AV : Z := 2147483648.
Definition MLX5_INLINE_SEG : Z := 2147483648.

Definition set_datagram_seg (av : list Z) (remote_qpn remote_qkey : Z) : list Z :=
  let d := patch av 8 (be32 (remote_qpn .| MLX5_EXTENDED_UD_AV)) in
  patch d 0 (be32 remote_qkey).

Definition mlx5_ib_set_mlx_seg (sl dlid icrc : Z) : list Z :=
  zeros 4 ++ [if icrc =? 0 then 0 else 8; sl .& 15] ++ zeros 8 ++ be16 dlid.

Definition get_xlt_octo (bytes : Z) : Z := u64 (ALIGN bytes 64) / MLX5_IB_UMR_OCTOWORD.

Definition MLX5_MKEY_MASK_LEN : Z := 2 ^ 0.
Definition MLX5_MKEY_MASK_PAGE_SIZE : Z := 2 ^ 1.
Definition MLX5_MKEY_MASK_START_ADDR : Z := 2 ^ 6.
Definition MLX5_MKEY_MASK_PD : Z := 2 ^ 7.
Definition MLX5_MKEY_MASK_EN_RINVAL : Z := 2 ^ 8.
Definition MLX5_MKEY_MASK_EN_SIGERR : Z := 2 ^ 9.
Definition MLX5_MKEY_MASK_BSF_EN : Z := 2 ^ 12.
Definition MLX5_MKEY_MASK_KEY : Z := 2 ^ 13.
Definition MLX5_MKEY_MASK_LR : Z := 2 ^ 17.
Definition MLX5_MKEY_MASK_LW : Z := 2 ^ 18.
Definition MLX5_MKEY_MASK_RR : Z := 2 ^ 19.
Definition MLX5_MKEY_MASK_RW : Z := 2 ^ 20.
Definition MLX5_MKEY_MASK_A : Z := 2 ^ 21.
Definition MLX5_MKEY_MASK_UMR_EN : Z := 2 ^ 22.
Definition MLX5_MKEY_MASK_SMALL_FENCE : Z := 2 ^ 23.
Definition MLX5_MKEY_MASK_FREE : Z := 2 ^ 29.
Definition MLX5_MKEY_MASK_TUNNELED_ATOMIC : Z := 2 ^ 41.

(** The masks in host order; the segments store them with [be64], which
    commutes with the bitwise or of the code. *)
Definition frwr_mkey_mask : Z :=
  MLX5_MKEY_MASK_LEN .| MLX5_MKEY_MASK_PAGE_SIZE .| MLX5_MKEY_MASK_START_ADDR
  .| MLX5_MKEY_MASK_EN_RINVAL .| MLX5_MKEY_MASK_KEY .| MLX5_MKEY_MASK_LR .| MLX5_MKEY_MASK_LW
  .| MLX5_MKEY_MASK_RR .| MLX5_MKEY_MASK_RW .| MLX5_MKEY_MASK_A .| MLX5_MKEY_MASK_SMALL_FENCE
  .| MLX5_MKEY_MASK_FREE.

Definition sig_mkey_mask : Z :=
  MLX5_MKEY_MASK_LEN .| MLX5_MKEY_MASK_PAGE_SIZE .| MLX5_MKEY_MASK_START_ADDR
  .| MLX5_MKEY_MASK_EN_SIGERR .| MLX5_MKEY_MASK_EN_RINVAL .| MLX5_MKEY_MASK_KEY
  .| MLX5_MKEY_MASK_LR .| MLX5_MKEY_MASK_LW .| MLX5_MKEY_MASK_RR .| MLX5_MKEY_MASK_RW
  .| MLX5_MKEY_MASK_SMALL_FENCE .| MLX5_MKEY_MASK_FREE .| MLX5_MKEY_MASK_BSF_EN.

Definition get_umr_enable_umr_mask : Z := MLX5_MKEY_MASK_UMR_EN.
Definition get_umr_enable_mr_mask : Z := MLX5_MKEY_MASK_KEY .| MLX5_MKEY_MASK_FREE.
Definition get_umr_disable_mr_mask : Z := MLX5_MKEY_MASK_FREE.
Definition get_umr_update_translation_mask : Z :=
  MLX5_MKEY_MASK_LEN .| MLX5_MKEY_MASK_PAGE_SIZE .| MLX5_MKEY_MASK_START_ADDR.
Definition get_umr_update_access_mask (atomic : bool) : Z :=
  MLX5_MKEY_MASK_LR .| MLX5_MKEY_MASK_LW .| MLX5_MKEY_MASK_RR .| MLX5_MKEY_MASK_RW
  .| (if atomic then MLX5_MKEY_MASK_A else 0).
Definition get_umr_update_pd_mask : Z := MLX5_MKEY_MASK_PD.
Definition get_umr_tunneled_atomic_mask : Z := MLX5_MKEY_MASK_TUNNELED_ATOMIC.

(** struct mlx5_wqe_umr_ctrl_seg. *)
Definition umr_ctrl_seg (flags xlt_octowords off_or_bsf mkey_mask xlt_offset_47_16 : Z) : list Z :=
  [u8 flags] ++ zeros 3 ++ be16 xlt_octowords ++ be16 off_or_bsf ++ be64 mkey_mask
  ++ be32 xlt_offset_47_16 ++ zeros 28.

Definition MLX5_UMR_TRANSLATION_OFFSET_EN : Z := 16.
Definition MLX5_UMR_CHECK_NOT_FREE : Z := 32.
Definition MLX5_UMR_CHECK_FREE : Z := 64.
Definition MLX5_UMR_INLINE : Z := 128.

Definition set_reg_umr_seg (mr : mlx5_ib_mr) (flags : Z) : list Z :=
  let size := (mr_ndescs mr + mr_meta_ndescs mr) * mr_desc_size mr in
  umr_ctrl_seg flags (get_xlt_octo size) 0 frwr_mkey_mask 0.

Definition set_linv_umr_seg : list Z := umr_ctrl_seg MLX5_UMR_INLINE 0 0 MLX5_MKEY_MASK_FREE 0.

(** Device capabilities used on the send path. *)
Record mlx5_ib_dev := mkdev {
  internal_error : bool;       (* mdev->state == MLX5_DEVICE_STATE_INTERNAL_ERROR *)
  umr_fence : Z;
  cap_atomic : bool;
  umr_modify_entity_size_disabled : bool;
  umr_modify_atomic_disabled : bool;
  tunnel_atomic_supported : bool;
  has_smi : Z -> bool;         (* port_caps[].has_smi *)
}.

Definition umr_check_mkey_mask (dev : mlx5_ib_dev) (mask : Z) : Z :=
  if (test mask MLX5_MKEY_MASK_PAGE_SIZE && umr_modify_entity_size_disabled dev)
     || (test mask MLX5_MKEY_MASK_A && umr_modify_atomic_disabled dev)
  then - EPERM else 0.

Definition IB_EXP_ACCESS_TUNNELED_ATOMIC : Z := 2 ^ 30.

(** The segment and the result of the capability check. *)
Definition set_reg_umr_segment (dev : mlx5_ib_dev) (flags num_sge xlt_size offset access_flags : Z)
    (atomic : bool) : list Z * Z :=
  let f := if test flags MLX5_IB_SEND_UMR_FAIL_IF_FREE
           then MLX5_UMR_CHECK_FREE else MLX5_UMR_CHECK_NOT_FREE in
  let off := get_xlt_octo offset in
  let upd := test flags MLX5_IB_SEND_UMR_UPDATE_XLT in
  let f := if upd then f .| MLX5_UMR_TRANSLATION_OFFSET_EN else f in
  let m := if test flags MLX5_IB_SEND_UMR_UPDATE_TRANSLATION
           then get_umr_update_translation_mask else 0 in
  let m := if test flags MLX5_IB_SEND_UMR_UPDATE_PD_ACCESS
           then m .| get_umr_update_access_mask atomic .| get_umr_update_pd_mask else m in
  let m := if test flags MLX5_IB_SEND_UMR_ENABLE_MR then m .| get_umr_enable_mr_mask else m in
  let m := if test flags MLX5_IB_SEND_UMR_DISABLE_MR then m .| get_umr_disable_mr_mask else m in
  let f := if num_sge =? 0 then f .| MLX5_UMR_INLINE else f in
  let m := if tunnel_atomic_supported dev && test access_flags IB_EXP_ACCESS_TUNNELED_ATOMIC
              && test flags (MLX5_IB_SEND_UMR_ENABLE_MR .| MLX5_IB_SEND_UMR_DISABLE_MR)
           then m .| get_umr_tunneled_atomic_mask .| get_umr_enable_umr_mask
                .| get_umr_update_access_mask false
           else m in
  (umr_ctrl_seg f (get_xlt_octo xlt_size) (if upd then off .& 65535 else 0) m
                (if upd then off >>. 16 else 0),
   umr_check_mkey_mask dev m).

Definition MLX5_PERM_LOCAL_READ : Z := 4.
Definition MLX5_PERM_LOCAL_WRITE : Z := 8.
Definition MLX5_PERM_REMOTE_READ : Z := 16.
Definition MLX5_PERM_REMOTE_WRITE : Z := 32.
Definition MLX5_PERM_ATOMIC : Z := 64.
Definition MLX5_PERM_UMR_EN : Z := 128.

Definition convert_access (acc : Z) : Z :=
  (if test acc IB_ACCESS_REMOTE_ATOMIC then MLX5_PERM_ATOMIC else 0)
  .| (if test acc IB_ACCESS_REMOTE_WRITE then MLX5_PERM_REMOTE_WRITE else 0)
  .| (if test acc IB_ACCESS_REMOTE_READ then MLX5_PERM_REMOTE_READ else 0)
  .| (if test acc IB_ACCESS_LOCAL_WRITE then MLX5_PERM_LOCAL_WRITE else 0)
  .| MLX5_PERM_LOCAL_READ.

Definition get_umr_flags (acc : Z) : Z := convert_access acc .| MLX5_PERM_UMR_EN.

(** struct mlx5_mkey_seg. *)
Definition mkey_seg (status flags tunneled qpn_mkey flags_pd start_addr len bsfs xlt_oct_size
    log2_page_size : Z) : list Z :=
  [status; 0; u8 flags; tunneled] ++ be32 qpn_mkey ++ zeros 4 ++ be32 flags_pd ++ be64 start_addr
  ++ be64 len ++ be32 bsfs ++ zeros 16 ++ be32 xlt_oct_size ++ zeros 3 ++ [u8 log2_page_size]
  ++ zeros 4.

Definition MLX5_MKC_ACCESS_MODE_MTT : Z := 1.
Definition MLX5_MKC_ACCESS_MODE_KLMS : Z := 2.
Definition MLX5_MKEY_STATUS_FREE : Z := 64.
Definition MLX5_MKEY_REMOTE_INVAL : Z := 2 ^ 24.
Definition MLX5_MKEY_BSF_EN : Z := 2 ^ 30.
Definition MLX5_MKEY_LEN64 : Z := 2 ^ 31.
Definition MLX5_MKEY_TUNNELED_ATOMIC : Z := 64.

Definition set_reg_mkey_seg (mr : mlx5_ib_mr) (key access : Z) : list Z :=
  let ndescs := ALIGN (mr_ndescs mr + mr_meta_ndescs mr) 8 >>. 1 in
  let mtt := mr_access_mode mr =? MLX5_MKC_ACCESS_MODE_MTT in
  let klm := mr_access_mode mr =? MLX5_MKC_ACCESS_MODE_KLMS in
  mkey_seg 0 (get_umr_flags access .| mr_access_mode mr) 0 ((key .& 255) .| 4294967040)
           MLX5_MKEY_REMOTE_INVAL (mr_iova mr) (mr_length mr) 0
           (if mtt then ndescs else if klm then ndescs * 2 else ndescs)
           (if mtt then ilog2 (mr_page_size mr) else 0).

Definition set_linv_mkey_seg : list Z := mkey_seg MLX5_MKEY_STATUS_FREE 0 0 0 0 0 0 0 0 0.

Definition set_reg_mkey_segment (flags virt_addr : Z) (pd : option Z)
    (page_shift length access_flags mkey : Z) (atomic_supported : bool) : list Z :=
  let status := if test flags MLX5_IB_SEND_UMR_DISABLE_MR then MLX5_MKEY_STATUS_FREE else 0 in
  let pdn := match pd with Some n => n | None => 0 end in
  let flags_pd := if test flags MLX5_IB_SEND_UMR_UPDATE_TRANSLATION && (length =? 0)
                  then pdn .| MLX5_MKEY_LEN64 else pdn in
  let tun := atomic_supported && test access_flags IB_EXP_ACCESS_TUNNELED_ATOMIC in
  let en := test flags MLX5_IB_SEND_UMR_ENABLE_MR in
  let dis := test flags MLX5_IB_SEND_UMR_DISABLE_MR in
  mkey_seg status
    (if tun && (en || dis) then convert_access access_flags .| MLX5_PERM_UMR_EN
     else convert_access access_flags)
    (if tun && en then MLX5_MKEY_TUNNELED_ATOMIC else 0)
    (4294967040 .| (mkey .& 255)) flags_pd virt_addr length 0 0 page_shift.

Definition set_reg_data_seg (mr : mlx5_ib_mr) (local_dma_lkey : Z) : list Z :=
  let bcount := mr_desc_size mr * (mr_ndescs mr + mr_meta_ndescs mr) in
  be32 (ALIGN bcount 64) ++ be32 local_dma_lkey ++ be64 (mr_desc_map mr).

(** The four bytes of the immediate field: a network-order immediate as it is,
    a host-order key swapped. *)
Definition send_ieth (wr : ib_send_wr) : list Z :=
  if (opcode wr =? IB_WR_SEND_WITH_IMM) || (opcode wr =? IB_WR_RDMA_WRITE_WITH_IMM) then ex wr
  else if opcode wr =? IB_WR_SEND_WITH_INV then rev (ex wr)
  else zeros 4.

Definition calc_sig (bs : list Z) : Z := u8 (Z.lnot (fold_left Z.lxor bs 0)).

(** ** Signature (T10-DIF) segments *)

Definition MLX5_DIF_SIZE : Z := 8.
Definition MLX5_STRIDE_BLOCK_OP : Z := 1024.
Definition MLX5_MKEY_BSF_OCTO_SIZE : Z := 4.

Definition prot_field_size (type : Z) : Z :=
  if type =? IB_SIG_TYPE_T10_DIF then MLX5_DIF_SIZE else 0.

Definition bs_selector (block_size : Z) : Z :=
  if block_size =? 512 then 1
  else if block_size =? 520 then 2
  else if block_size =? 4096 then 3
  else if block_size =? 4160 then 4
  else if block_size =? 1073741824 then 5
  else 0.

(** struct mlx5_bsf_inl, on a zeroed structure. *)
Definition mlx5_fill_inl_bsf (d : ib_sig_domain) : list Z :=
  let check := if ref_remap d then 64 else 0 in
  let check := if app_escape d
               then check .| (if ref_escape d then 2 else 1) else check in
  be16 (2 ^ 15 .| 2 ^ 14) ++ be16 (app_tag d) ++ be32 (ref_tag d)
  ++ [if bg_type d =? IB_T10DIF_CRC then 1 else 2; 128] ++ zeros 3 ++ [check]
  ++ be16 (apptag_check_mask d).

(** struct mlx5_bsf; [None] is -EINVAL, with the bytes set so far. *)
Definition mlx5_set_bsf (msig : mlx5_core_sig_ctx) (a : ib_sig_attrs) (data_size : Z)
    : list Z * bool :=
  let mem := sig_mem a in
  let wire := sig_wire a in
  let bsf sbs wsel msel wpsv mpsv winl minl :=
    [sbs; check_mask a; wsel; msel] ++ be32 data_size ++ be32 wpsv ++ be32 mpsv ++ zeros 16
    ++ winl ++ minl in
  let none := zeros 16 in
  let '(msel, mpsv, minl) :=
    if sig_type mem =? IB_SIG_TYPE_T10_DIF
    then (bs_selector (pi_interval mem), psv_memory msig, mlx5_fill_inl_bsf mem)
    else (0, 0, none) in
  if negb ((sig_type mem =? IB_SIG_TYPE_NONE) || (sig_type mem =? IB_SIG_TYPE_T10_DIF))
  then (bsf 128 0 0 0 0 none none, false)
  else if sig_type wire =? IB_SIG_TYPE_NONE then (bsf 128 0 msel 0 mpsv none minl, true)
  else if sig_type wire =? IB_SIG_TYPE_T10_DIF then
    let same := (pi_interval mem =? pi_interval wire) && (sig_type mem =? sig_type wire) in
    let wsel :=
      if same
      then (if bg_type mem =? bg_type wire then 192 else 0)
           .| (if app_tag mem =? app_tag wire then 48 else 0)
           .| (if ref_tag mem =? ref_tag wire then 15 else 0)
      else bs_selector (pi_interval wire) in
    (bsf (if same then 128 .| 16 else 128) wsel msel (psv_wire msig) mpsv
         (mlx5_fill_inl_bsf wire) minl, true)
  else (bsf 128 0 msel 0 mpsv none minl, false).

Definition klm (bcount key va : Z) : list Z := be32 bcount ++ be32 key ++ be64 va.

Definition stride_block_ctrl (bcount_per_cycle repeat_count : Z) : list Z :=
  be32 bcount_per_cycle ++ be32 MLX5_STRIDE_BLOCK_OP ++ be32 repeat_count.

Definition stride_block_entry (stride bcount key va : Z) : list Z :=
  be16 stride ++ be16 bcount ++ be32 key ++ be64 va.

Definition set_sig_mkey_segment (sig_mr : mlx5_ib_mr) (access_flags size length pdn : Z) : list Z :=
  let sigerr := match mr_sig sig_mr with Some s => sigerr_count s .& 1 | None => 0 end in
  mkey_seg 0 (get_umr_flags access_flags .| MLX5_MKC_ACCESS_MODE_KLMS) 0
           ((mr_rkey sig_mr .& 255) .| 4294967040)
           (MLX5_MKEY_REMOTE_INVAL .| (sigerr <<. 26) .| MLX5_MKEY_BSF_EN .| pdn)
           0 length MLX5_MKEY_BSF_OCTO_SIZE (get_xlt_octo size) 0.

Definition set_sig_umr_segment (size : Z) : list Z :=
  umr_ctrl_seg (128 .| 32) (get_xlt_octo size) MLX5_MKEY_BSF_OCTO_SIZE sig_mkey_mask 0.

(** struct mlx5_seg_set_psv; [false] is -EINVAL. *)
Definition set_psv_seg (d : ib_sig_domain) (psv_idx : Z) : list Z * bool :=
  let seg sig tag := be32 psv_idx ++ zeros 4 ++ be32 sig ++ be32 tag in
  if sig_type d =? IB_SIG_TYPE_NONE then (seg 0 0, true)
  else if sig_type d =? IB_SIG_TYPE_T10_DIF
  then (seg ((bg d <<. 16) .| app_tag d) (ref_tag d), true)
  else (seg 0 0, false).

(** ** Sizes *)

Ltac seg_len := repeat (rewrite ?length_app, ?length_cons, ?length_be_bytes, ?length_replicate);
  try reflexivity.

Lemma length_raddr a k : length (set_raddr_seg a k) = 16%nat.
Proof. unfold set_raddr_seg, be64, be32, zeros. seg_len. Qed.

Lemma length_data_ptr sg : length (set_data_ptr_seg sg) = 16%nat.
Proof. unfold set_data_ptr_seg, be64, be32. seg_len. Qed.

Lemma length_umr_ctrl a b c d e : length (umr_ctrl_seg a b c d e) = 48%nat.
Proof. unfold umr_ctrl_seg, be64, be32, be16, zeros. seg_len. Qed.

Lemma length_mkey a b c d e f g h i j : length (mkey_seg a b c d e f g h i j) = 64%nat.
Proof. unfold mkey_seg, be64, be32, zeros. seg_len. Qed.

Lemma length_reg_data mr k : length (set_reg_data_seg mr k) = 16%nat.
Proof. unfold set_reg_data_seg, be64, be32. seg_len. Qed.

Lemma length_mlx_seg a b c : length (mlx5_ib_set_mlx_seg a b c) = 16%nat.
Proof. unfold mlx5_ib_set_mlx_seg, be16, zeros. seg_len. Qed.

Lemma length_patch bs i v n :
  length bs = n -> (i + length v <= n)%nat -> length (patch bs i v) = n.
Proof.
  intros Hn H. unfold patch. rewrite !length_app, length_take, length_drop. lia.
Qed.

Lemma length_xset_dci av k n :
  length av = 48%nat -> length (xset_dci_seg av k n) = if xhas_grh av then 48%nat else 16%nat.
Proof.
  intros Hl. unfold xset_dci_seg, be32, be64.
  assert (Ht : length (take 2 (drop 14 av)) = 2%nat) by (rewrite length_take, length_drop, Hl; done).
  destruct (xhas_grh av);
    repeat (apply length_patch; [|rewrite ?Ht, ?length_be_bytes; lia]);
    rewrite length_take, Hl; done.
Qed.

Lemma length_datagram av q k : length av = 48%nat -> length (set_datagram_seg av q k) = 48%nat.
Proof.
  intros Hl. unfold set_datagram_seg, be32.
  repeat (apply length_patch; [|rewrite length_be_bytes; lia]). done.
Qed.

Lemma length_fill_inl d : length (mlx5_fill_inl_bsf d) = 16%nat.
Proof. unfold mlx5_fill_inl_bsf, be16, be32, zeros. seg_len. Qed.

Lemma length_bsf s a n : length (fst (mlx5_set_bsf s a n)) = 64%nat.
Proof.
  unfold mlx5_set_bsf, be32, zeros.
  repeat case_match; simplify_eq; simpl fst; seg_len; rewrite ?length_fill_inl; reflexivity.
Qed.

Lemma length_psv d i : length (fst (set_psv_seg d i)) = 16%nat.
Proof. unfold set_psv_seg, be32, zeros. repeat case_match; simpl fst; seg_len. Qed.

Lemma length_send_ieth wr : length (ex wr) = 4%nat -> length (send_ieth wr) = 4%nat.
Proof. intros H. unfold send_ieth. repeat case_match; rewrite ?length_rev; done. Qed.

#[export] Hint Rewrite length_raddr length_data_ptr length_umr_ctrl length_mkey length_reg_data
  length_mlx_seg length_bsf length_psv : krc.
