(* ===== verification/SqRing.v ===== *)
(** * SqRing: writing WQEs into the send ring (hw/mlx5/qp.c)

    A WQE is written through a cursor that runs over page fragments: get_sq_edge
    gives the end of the contiguous run, handle_post_send_edge moves the cursor
    to the next fragment, memcpy_send_wqe copies across edges.  The second half
    shows that this is writing into one linear ring buffer. *)

From S2P Require Import Prelude FragBuf QpTypes.

Definition get_sq_edge (sq : mlx5_ib_wq) (idx : Z) : ptr :=
  padd (mlx5_frag_buf_get_wqe (fbc sq) (mlx5_frag_buf_get_idx_last_contig_stride (fbc sq) idx))
       MLX5_SEND_WQE_BB.

(** The local variables seg, size (in 16-byte units) and cur_edge. *)
Record cursor := mkcursor { seg : ptr; wqe_sz : Z; edge : ptr }.

Definition handle_post_send_edge (sq : mlx5_ib_wq) (sz : Z) (c : cursor) : cursor :=
  if negb (ptr_eqb (seg c) (edge c)) then c
  else
    let idx := u32 (cur_post sq + (sz >>. 2)) .& (wqe_cnt sq - 1) in
    {| seg := mlx5_frag_buf_get_wqe (fbc sq) idx; wqe_sz := wqe_sz c; edge := get_sq_edge sq idx |}.

(** Pointer difference, defined inside one fragment. *)
Definition psub (p q : ptr) : option Z :=
  if pg p =? pg q then Some (u64 (off p - off q)) else None.

Definition advance (c : cursor) (n : Z) : cursor :=
  {| seg := padd (seg c) n; wqe_sz := wqe_sz c + (n >>. 4); edge := edge c |}.

Fixpoint memcpy_send_wqe (fuel : nat) (sq : mlx5_ib_wq) (m : frag_mem) (c : cursor) (src : list Z)
    : option (frag_mem * cursor) :=
  match src with
  | [] => Some (m, c)
  | _ =>
      match fuel with
      | O => None
      | S fuel =>
          leftlen ← psub (edge c) (seg c);
          let copysz := Z.to_nat (Z.min leftlen (Z.of_nat (length src))) in
          m ← store m (seg c) (take copysz src);
          let src' := drop copysz src in
          let stride := match src' with
                        | [] => ALIGN (Z.of_nat copysz) 16
                        | _ => Z.of_nat copysz
                        end in
          let c := advance c stride in
          memcpy_send_wqe fuel sq m (handle_post_send_edge sq (wqe_sz c) c) src'
      end
  end.

(** ** The linear ring *)

(** Send queues as calc_sq_size and create_kernel_qp set them up: 64-byte
    blocks, a power of two of them that divides the 16-bit post counter. *)
Definition sq_wf (sq : mlx5_ib_wq) : Prop :=
  fbc_wf (fbc sq) /\ log_stride (fbc sq) = 6 /\ log_sz (fbc sq) <= 15 /\
  wqe_cnt sq = 2 ^ log_sz (fbc sq) /\ 0 <= fbc_frags (fbc sq).

Section Ring.
Context (sq : mlx5_ib_wq) (Hwf : sq_wf sq).

(** Size of the ring in bytes and the address of its first byte. *)
Definition ring_bytes : Z := 64 * wqe_cnt sq.
Definition ring_base : Z := fbc_base (fbc sq).
Definition ring_idx (P : Z) : Z := (P / 64) mod wqe_cnt sq.

(** The bytes [bs] written at ring position [P], modulo the ring size. *)
Definition ring_put (f : Z -> Z) (P : Z) (bs : list Z) : Z -> Z :=
  fun k =>
    let d := (k - ring_base - P) mod ring_bytes in
    if (ring_base <=? k) && (k <? ring_base + ring_bytes) && (d <? Z.of_nat (length bs))
    then nth (Z.to_nat d) bs 0 else f k.

(** A cursor inside a run at position [P], or exactly at the end of one. *)
Definition normal (p e : ptr) (P : Z) : Prop :=
  p = padd (mlx5_frag_buf_get_wqe (fbc sq) (ring_idx P)) (P mod 64) /\
  e = get_sq_edge sq (ring_idx P).
Definition at_pos (p e : ptr) (P : Z) : Prop :=
  normal p e P \/ (P mod 64 = 0 /\ p = e /\ off e mod 64 = 0).

Lemma wqe_cnt_range : 1 <= wqe_cnt sq <= 32768.
Proof.
  destruct Hwf as (Hf & _ & H15 & -> & _). destruct Hf as (_ & Hz & _).
  pose proof (pow2_pos (log_sz (fbc sq))).
  assert (2 ^ log_sz (fbc sq) <= 2 ^ 15) by (apply Z.pow_le_mono_r; lia). lia.
Qed.

Lemma ring_idx_range P : 0 <= ring_idx P < wqe_cnt sq.
Proof. pose proof wqe_cnt_range. apply Z.mod_pos_bound. lia. Qed.

Lemma ring_split P : P mod ring_bytes = ring_idx P * 64 + P mod 64.
Proof.
  pose proof wqe_cnt_range. unfold ring_bytes, ring_idx.
  rewrite (Z.rem_mul_r P) by lia. lia.
Qed.

Lemma mask_idx x : u32 x .& (wqe_cnt sq - 1) = x mod wqe_cnt sq.
Proof.
  destruct Hwf as (Hf & _ & H15 & -> & _). destruct Hf as (_ & Hz & _).
  rewrite land_mask by lia. apply u32_mod. lia.
Qed.

(** Facts about a run: it stays inside one fragment and inside the ring. *)
Lemma normal_facts p e P :
  normal p e P ->
  pg e = pg p /\ 0 <= pg p /\ 0 <= off p /\ off e <= PAGE_SIZE /\
  off p + (64 - P mod 64) <= off e /\
  lin p = ring_base + P mod ring_bytes /\
  P mod ring_bytes + (off e - off p) <= ring_bytes /\
  exists r, 0 <= r /\ off e - off p = 64 * r + (64 - P mod 64) /\
    mlx5_frag_buf_get_idx_last_contig_stride (fbc sq) (ring_idx P) = ring_idx P + r.
Proof.
  intros [-> ->]. destruct Hwf as (Hf & Hs & H15 & Hc & Hfr).
  pose proof (ring_idx_range P) as Hi. rewrite Hc in Hi.
  pose proof (Z.mod_pos_bound P 64 ltac:(lia)) as Hm.
  destruct (get_wqe_lin _ Hf _ Hi) as (Hl & Ho & _).
  destruct (last_contig_spec _ Hf _ Hi) as (Hj & Hpg & _).
  set (j := mlx5_frag_buf_get_idx_last_contig_stride (fbc sq) (ring_idx P)) in *.
  destruct (contig_run _ Hf (ring_idx P) (j - ring_idx P)) as (_ & Hw & _); [lia..|unfold j in *; lia|lia|].
  replace (ring_idx P + (j - ring_idx P)) with j in Hw by lia. rewrite Hs in *.
  destruct (get_wqe_lin _ Hf j ltac:(lia)) as (_ & _ & Hoj). rewrite Hs in Hoj.
  unfold get_sq_edge. fold j. rewrite Hw in *. unfold MLX5_SEND_WQE_BB in *. change (2 ^ 6) with 64 in *.
  cbn [padd pg off] in *. rewrite ring_split. rewrite !lin_padd. unfold ring_base.
  assert (Hpos : 0 <= pg (mlx5_frag_buf_get_wqe (fbc sq) (ring_idx P))).
  { rewrite get_wqe_eq by done. simpl. pose proof (fbc_strides_per_page _ Hf) as (_ & _ & HF & _).
    apply Z.add_nonneg_nonneg; [done|]. apply Z.div_pos; [|lia].
    destruct Hf as (_ & _ & _ & _ & _ & ?). lia. }
  unfold ring_bytes. split_and!; try done; try lia.
  exists (j - ring_idx P). lia.
Qed.

(** WQE blocks are 64-byte aligned. *)
Lemma wqe_aligned i : 0 <= i < wqe_cnt sq -> off (mlx5_frag_buf_get_wqe (fbc sq) i) mod 64 = 0.
Proof.
  intros Hi. destruct Hwf as (Hf & Hs & _ & Hc & _). rewrite get_wqe_eq by (auto; lia).
  rewrite Hs. simpl. change (2 ^ 6) with 64. apply Z_mod_mult.
Qed.

Lemma normal_ne p e P : normal p e P -> ptr_eqb p e = false.
Proof.
  intros H. destruct (normal_facts _ _ _ H) as (_ & _ & _ & _ & Ho & _).
  pose proof (Z.mod_pos_bound P 64 ltac:(lia)).
  destruct (ptr_eqb p e) eqn:E; [|done]. apply ptr_eqb_spec in E as ->. lia.
Qed.

(** Moving on inside a run. *)
Lemma at_pos_add p e P n :
  normal p e P -> 0 <= n <= off e - off p -> at_pos (padd p n) e (P + n).
Proof.
  intros H Hn. destruct (normal_facts _ _ _ H) as (Hpg & _ & _ & _ & _ & _ & _ & r & Hr & Ho & Hl).
  destruct H as [-> ->]. destruct Hwf as (Hf & Hs & H15 & Hc & Hfr).
  pose proof (ring_idx_range P) as Hi. pose proof wqe_cnt_range as Hcr.
  pose proof (Z.mod_pos_bound P 64 ltac:(lia)) as Hm.
  set (q := (P mod 64 + n) / 64).
  assert (Hq : P + n = 64 * (P / 64 + q) + (P mod 64 + n) mod 64).
  { unfold q. pose proof (Z.div_mod P 64). pose proof (Z.div_mod (P mod 64 + n) 64). lia. }
  assert (Hm' : (P + n) mod 64 = (P mod 64 + n) mod 64) by (rewrite Z.add_mod_idemp_l; lia).
  assert (Hd : (P + n) / 64 = P / 64 + q).
  { symmetry. apply Z.div_unique with ((P mod 64 + n) mod 64); [|lia].
    pose proof (Z.mod_pos_bound (P mod 64 + n) 64). lia. }
  assert (Hqr : 0 <= q <= r + 1) by (unfold q; dlia).
  destruct (decide (q <= r)) as [Hle|Hgt].
  - left. assert (Hix : ring_idx (P + n) = ring_idx P + q).
    { unfold ring_idx in *. rewrite Hd, <- Zplus_mod_idemp_l. apply Z.mod_small.
      destruct (last_contig_spec _ Hf ((P / 64) mod wqe_cnt sq) ltac:(lia)) as (Hj & _).
      rewrite Hl in Hj. lia. }
    destruct (contig_run _ Hf (ring_idx P) q) as (_ & Hw & Hlc); [lia..|].
    unfold normal, get_sq_edge. rewrite Hix, Hw, Hlc, Hm', Hs, !padd_padd.
    split; [|done]. f_equal. change (2 ^ 6) with 64. unfold q. dlia.
  - right. assert (q = r + 1) as Eq by lia.
    assert (P mod 64 + n = 64 * q) as En by (unfold q in *; dlia).
    split; [rewrite Hm', En; dlia|]. cut (padd (padd (mlx5_frag_buf_get_wqe (fbc sq) (ring_idx P)) (P mod 64)) n = get_sq_edge sq (ring_idx P)).
    { intros E. split; [done|]. unfold get_sq_edge. cbn [padd off]. rewrite Hl, Zplus_mod, wqe_aligned; [done|].
      destruct (last_contig_spec _ Hf (ring_idx P) ltac:(lia)) as (Hj & _). lia. }
    unfold get_sq_edge in *. rewrite Hl in *. unfold padd in *; simpl in *.
    destruct (mlx5_frag_buf_get_wqe (fbc sq) (ring_idx P)) as [a b]; simpl in *.
    destruct (mlx5_frag_buf_get_wqe (fbc sq) (ring_idx P + r)) as [a' b']; simpl in *.
    f_equal; lia.
Qed.

(** handle_post_send_edge brings the cursor back into a run. *)
Lemma handle_edge_normal c sz P :
  at_pos (seg c) (edge c) P -> P / 64 = cur_post sq + (sz >>. 2) ->
  let c' := handle_post_send_edge sq sz c in
  normal (seg c') (edge c') P /\ wqe_sz c' = wqe_sz c.
Proof.
  intros [Hn|(Hm & He & _)] HP; unfold handle_post_send_edge.
  - rewrite (normal_ne _ _ _ Hn). done.
  - rewrite He. assert (ptr_eqb (edge c) (edge c) = true) as -> by by apply ptr_eqb_spec.
    simpl. split; [|done]. unfold normal. rewrite mask_idx, <- HP, Hm.
    unfold ring_idx. split; [|done]. unfold padd. destruct (mlx5_frag_buf_get_wqe _ _); simpl.
    f_equal. lia.
Qed.

(** *** Contents of the ring *)

#[export] Instance ring_put_proper : Proper (feq ==> eq ==> eq ==> feq) ring_put.
Proof. intros f g H ? P -> ? bs -> k. unfold ring_put. case_match; auto. Qed.

(** The ring lies inside the memory [m]. *)
Definition ring_in (m : frag_mem) : Prop := 0 <= ring_base /\ ring_base + ring_bytes <= fm_size m.

Lemma ring_put_out f P bs k :
  ~ (ring_base <= k < ring_base + ring_bytes) \/
  Z.of_nat (length bs) <= (k - ring_base - P) mod ring_bytes ->
  ring_put f P bs k = f k.
Proof. intros H. unfold ring_put. zcases; simpl; lia || done. Qed.

Lemma ring_put_at f P bs i :
  0 <= i < Z.of_nat (length bs) -> Z.of_nat (length bs) <= ring_bytes ->
  ring_put f P bs (ring_base + (P + i) mod ring_bytes) = nth (Z.to_nat i) bs 0.
Proof.
  intros Hi Hn. pose proof (Z.mod_pos_bound (P + i) ring_bytes ltac:(lia)).
  unfold ring_put.
  assert (E : (ring_base + (P + i) mod ring_bytes - ring_base - P) mod ring_bytes = i).
  { replace (ring_base + (P + i) mod ring_bytes - ring_base - P) with ((P + i) mod ring_bytes - P) by lia.
    rewrite Zminus_mod_idemp_l. replace (P + i - P) with i by lia. apply Z.mod_small. lia. }
  rewrite E. zcases; simpl; lia || done.
Qed.

Lemma ring_put_app f P a b :
  Z.of_nat (length a) + Z.of_nat (length b) <= ring_bytes ->
  ring_put (ring_put f P a) (P + Z.of_nat (length a)) b ≐ ring_put f P (a ++ b).
Proof.
  intros Hn k. unfold ring_put. rewrite length_app.
  destruct (decide (ring_bytes = 0)) as [E|Hne].
  { rewrite E. zcases; simpl; lia || done. }
  pose proof wqe_cnt_range as Hc. assert (Hpos : 0 < ring_bytes) by (unfold ring_bytes; lia).
  set (d := (k - ring_base - P) mod ring_bytes).
  pose proof (Z.mod_pos_bound (k - ring_base - P) ring_bytes Hpos) as Hd. fold d in Hd.
  assert (E : (k - ring_base - (P + Z.of_nat (length a))) mod ring_bytes =
              if d <? Z.of_nat (length a) then d - Z.of_nat (length a) + ring_bytes
              else d - Z.of_nat (length a)).
  { replace (k - ring_base - (P + Z.of_nat (length a)))
      with (k - ring_base - P - Z.of_nat (length a)) by lia.
    rewrite <- Zminus_mod_idemp_l. fold d. zcases.
    - symmetry. apply Z.mod_unique with (-1); lia.
    - apply Z.mod_small. lia. }
  rewrite E. zcases; simpl; try lia; try done.
  - rewrite app_nth2 by lia. f_equal; lia.
  - rewrite app_nth1 by lia. done.
Qed.

(** A store [i] bytes behind a cursor inside a run is a write into the ring. *)
Lemma store_ring_at m p e P i bs :
  ring_in m -> normal p e P -> 0 <= i -> i + Z.of_nat (length bs) <= off e - off p ->
  exists m', store m (padd p i) bs = Some m' /\ fm_size m' = fm_size m /\
             fm_byte m' ≐ ring_put (fm_byte m) (P + i) bs.
Proof.
  intros [Hb Hr] Hn Hi Hl.
  destruct (normal_facts _ _ _ Hn) as (_ & Hp0 & Ho & He & _ & Hlin & Hfit & _).
  unfold store, in_frag. rewrite lin_padd, Hlin. cbn [padd pg off].
  assert (((0 <=? pg p) && (0 <=? off p + i) && (off p + i + Z.of_nat (length bs) <=? PAGE_SIZE) &&
           (ring_base + P mod ring_bytes + i + Z.of_nat (length bs) <=? fm_size m)) = true) as ->.
  { rewrite !andb_true_iff, !Z.leb_le. lia. }
  eexists. split; [done|]. split; [done|]. intros k. simpl. unfold overlay, ring_put.
  pose proof wqe_cnt_range as Hc. assert (Hpos : 0 < ring_bytes) by (unfold ring_bytes; lia).
  pose proof (Z.mod_pos_bound P ring_bytes Hpos) as Ha.
  set (a := P mod ring_bytes) in *.
  assert (E : 0 <= k - ring_base < ring_bytes ->
              (k - ring_base - (P + i)) mod ring_bytes =
              if a + i <=? k - ring_base then k - ring_base - (a + i)
              else k - ring_base - (a + i) + ring_bytes).
  { intros Hk. replace (k - ring_base - (P + i)) with (k - ring_base - i - P) by lia.
    rewrite <- Zminus_mod_idemp_r. fold a. zcases.
    - replace (k - ring_base - i - a) with (k - ring_base - (a + i)) by lia. apply Z.mod_small; lia.
    - symmetry. apply Z.mod_unique with (-1); lia. }
  destruct (Z.leb_spec ring_base k), (Z.ltb_spec k (ring_base + ring_bytes)); simpl.
  1: rewrite E by lia. all: zcases; simpl; try lia; try done.
  f_equal. lia.
Qed.

Lemma padd_0 p : padd p 0 = p.
Proof. destruct p. unfold padd; simpl. f_equal. lia. Qed.

Lemma store_ring m p e P bs :
  ring_in m -> normal p e P -> Z.of_nat (length bs) <= off e - off p ->
  exists m', store m p bs = Some m' /\ fm_size m' = fm_size m /\
             fm_byte m' ≐ ring_put (fm_byte m) P bs.
Proof.
  intros Hin Hn Hl. destruct (store_ring_at m p e P 0 bs Hin Hn) as (m' & E & H); [lia..|].
  rewrite padd_0 in E. rewrite Z.add_0_r in H. by exists m'.
Qed.

Lemma load_ring_at m p e P i n :
  ring_in m -> normal p e P -> 0 <= i -> i + Z.of_nat n <= off e - off p ->
  load m (padd p i) n = Some (bytes_at (fm_byte m) (ring_base + P mod ring_bytes + i) n).
Proof.
  intros [Hb Hr] Hn Hi Hl.
  destruct (normal_facts _ _ _ Hn) as (_ & Hp0 & Ho & He & _ & Hlin & Hfit & _).
  unfold load, in_frag. rewrite lin_padd, Hlin. cbn [padd pg off].
  assert (((0 <=? pg p) && (0 <=? off p + i) && (off p + i + Z.of_nat n <=? PAGE_SIZE) &&
           (ring_base + P mod ring_bytes + i + Z.of_nat n <=? fm_size m)) = true) as ->.
  { rewrite !andb_true_iff, !Z.leb_le. lia. }
  done.
Qed.

Lemma ring_put_nil f P : ring_put f P [] ≐ f.
Proof.
  intros k. pose proof wqe_cnt_range. apply ring_put_out. right. simpl.
  apply Z.mod_pos_bound. unfold ring_bytes. lia.
Qed.

(** Position of a cursor that is at a multiple of 16 bytes into the WQE. *)
Definition cpos (c : cursor) : Z := 64 * cur_post sq + 16 * wqe_sz c.

Lemma cpos_idx c : cpos c / 64 = cur_post sq + (wqe_sz c >>. 2).
Proof. unfold cpos. rewrite Z.shiftr_div_pow2 by lia. change (2 ^ 2) with 4. dlia. Qed.

Lemma cpos_advance c n : n mod 16 = 0 -> cpos (advance c n) = cpos c + n.
Proof.
  intros Hn. unfold cpos, advance; simpl. rewrite Z.shiftr_div_pow2 by lia.
  change (2 ^ 4) with 16. dlia.
Qed.

Lemma psub_normal p e P : normal p e P -> psub e p = Some (off e - off p).
Proof.
  intros Hn. destruct (normal_facts _ _ _ Hn) as (Hpg & _ & Ho & He & Hr & _).
  unfold psub. rewrite Hpg, Z.eqb_refl. unfold PAGE_SIZE in He.
  pose proof (Z.mod_pos_bound P 64 ltac:(lia)). rewrite u64_small by lia. done.
Qed.

Lemma room_16 p e P : normal p e P -> P mod 16 = 0 -> (off e - off p) mod 16 = 0 /\ 16 <= off e - off p.
Proof.
  intros Hn H16. destruct (normal_facts _ _ _ Hn) as (_ & _ & _ & _ & _ & _ & _ & r & Hr & Ho & _).
  assert (P mod 64 mod 16 = 0) by dlia.
  rewrite Ho. dlia.
Qed.

(** memcpy_send_wqe terminates and writes the whole source at the cursor's ring
    position, whatever fragments it crosses; the cursor ends up 16-byte aligned
    behind the data, inside a run. *)
Lemma memcpy_ring fuel m c src :
  ring_in m -> normal (seg c) (edge c) (cpos c) ->
  Z.of_nat (length src) <= ring_bytes -> (length src <= fuel)%nat ->
  exists m' c', memcpy_send_wqe fuel sq m c src = Some (m', c') /\
    fm_size m' = fm_size m /\ fm_byte m' ≐ ring_put (fm_byte m) (cpos c) src /\
    wqe_sz c' = wqe_sz c + (Z.of_nat (length src) + 15) / 16 /\
    normal (seg c') (edge c') (cpos c').
Proof.
  revert m c src; induction fuel as [|fuel IH]; intros m c src Hin Hn Hlen Hf.
  { destruct src; [|simpl in Hf; lia]. simpl. exists m, c. rewrite ring_put_nil.
    split_and!; try done. simpl; dlia. }
  destruct src as [|x src0] eqn:Esrc.
  { simpl. exists m, c. rewrite ring_put_nil. split_and!; try done. simpl; dlia. }
  rewrite <- Esrc in *. assert (Hpos : (0 < length src)%nat) by (rewrite Esrc; simpl; lia).
  assert (Hc16 : cpos c mod 16 = 0) by (unfold cpos; dlia).
  destruct (room_16 _ _ _ Hn Hc16) as [Hr16 Hr].
  replace (memcpy_send_wqe (S fuel) sq m c src) with
    (leftlen ← psub (edge c) (seg c);
     let copysz := Z.to_nat (Z.min leftlen (Z.of_nat (length src))) in
     m ← store m (seg c) (take copysz src);
     let src' := drop copysz src in
     let stride := match src' with [] => ALIGN (Z.of_nat copysz) 16 | _ => Z.of_nat copysz end in
     let c := advance c stride in
     memcpy_send_wqe fuel sq m (handle_post_send_edge sq (wqe_sz c) c) src') by (by rewrite Esrc).
  rewrite (psub_normal _ _ _ Hn). cbn [mbind option_bind].
  set (room := off (edge c) - off (seg c)) in *.
  set (n := Z.to_nat (Z.min room (Z.of_nat (length src)))).
  assert (Hlt : length (take n src) = n) by (rewrite length_take; lia).
  destruct (store_ring m _ _ _ (take n src) Hin Hn) as (m1 & -> & Hs1 & Hb1); [lia|].
  cbn [mbind option_bind]. set (stride := match drop n src with [] => _ | _ => _ end).
  assert (Hst : stride mod 16 = 0 /\ Z.of_nat n <= stride <= room /\
    (drop n src = [] \/ stride = Z.of_nat n /\ n <> length src) /\
    stride = 16 * ((Z.of_nat n + 15) / 16)).
  { unfold stride. destruct (drop n src) eqn:Ed.
    - rewrite ALIGN_16. split_and!; auto; dlia.
    - assert (length (drop n src) <> 0%nat) by (by rewrite Ed). rewrite length_drop in *.
      assert (Z.of_nat n = room) as -> by lia. split_and!; auto; try dlia. }
  destruct Hst as (Hs16 & Hsb & Hsd & Hse).
  pose proof (at_pos_add _ _ _ stride Hn ltac:(fold room; lia)) as Hat.
  rewrite <- (cpos_advance c stride Hs16) in Hat.
  destruct (handle_edge_normal (advance c stride) _ _ Hat (cpos_idx _)) as [Hn' Hw'].
  set (c1 := handle_post_send_edge sq (wqe_sz (advance c stride)) (advance c stride)) in *.
  assert (Hcp : cpos c1 = cpos c + stride) by (rewrite <- cpos_advance by done; unfold cpos; by rewrite Hw').
  rewrite cpos_advance in Hn' by done.
  destruct (IH m1 c1 (drop n src)) as (m2 & c2 & -> & Hs2 & Hb2 & Hw2 & Hn2).
  - unfold ring_in in *. by rewrite Hs1.
  - by rewrite Hcp.
  - rewrite length_drop. lia.
  - rewrite length_drop. lia.
  - exists m2, c2. split_and!; auto; [congruence| |].
    + rewrite Hb2, Hb1, Hcp. destruct Hsd as [Ed|[Ed _]].
      * rewrite Ed, ring_put_nil, take_ge; [done|]. apply length_zero_iff_nil in Ed.
        rewrite length_drop in Ed. lia.
      * rewrite Ed. replace (Z.of_nat n) with (Z.of_nat (length (take n src))) at 1 by lia.
        rewrite ring_put_app by (rewrite Hlt, length_drop; lia). by rewrite take_drop.
    + rewrite Hw2, Hw', length_drop. unfold advance; simpl. rewrite Z.shiftr_div_pow2 by lia.
      change (2 ^ 4) with 16. destruct Hsd as [Ed|[Ed _]].
      * apply length_zero_iff_nil in Ed. rewrite length_drop in Ed. rewrite Hse. dlia.
      * rewrite Ed in Hs16 |- *. dlia.
Qed.
End Ring.
