(* ===== verification/PostSend.v ===== *)
(** * PostSend: posting send work requests (hw/mlx5/qp.c)

    _mlx5_ib_post_send and the functions that build WQEs in the send queue, as
    a state and error monad: the state holds the queue pair, its buffer, the
    memory regions and the local variables of the function; an error leaves the
    loop with the state reached so far (the C code does not undo anything);
    undefined behaviour is [None]. *)

From S2P Require Import Prelude FragBuf QpTypes WqeSeg SqRing.

Record mlx5_ib_qp := mkqp {
  qp_type : ib_qp_type;
  qp_flags : Z;
  qp_sq : mlx5_ib_wq;
  qpn : Z;
  port : Z;
  sq_signal_bits : Z;
  next_fence : Z;
  wq_sig_en : bool;                  (* qp->wq_sig *)
  max_inline_data : Z;
  integrity_en : bool;
  pdn : Z;
  local_dma_lkey : Z;
  bf_buf_size : Z;
  bf_offset : Z;
  db_snd : list Z;                   (* db.db[MLX5_SND_DBR], as stored *)
  mmio : list (Z * list Z);          (* 64-bit writes to the blue-flame register *)
}.

Definition set_sq (q : mlx5_ib_qp) (s : mlx5_ib_wq) : mlx5_ib_qp :=
  {| qp_type := qp_type q; qp_flags := qp_flags q; qp_sq := s; qpn := qpn q; port := port q;
     sq_signal_bits := sq_signal_bits q; next_fence := next_fence q; wq_sig_en := wq_sig_en q;
     max_inline_data := max_inline_data q; integrity_en := integrity_en q; pdn := pdn q;
     local_dma_lkey := local_dma_lkey q; bf_buf_size := bf_buf_size q; bf_offset := bf_offset q;
     db_snd := db_snd q; mmio := mmio q |}.

Definition set_next_fence (q : mlx5_ib_qp) (f : Z) : mlx5_ib_qp :=
  {| qp_type := qp_type q; qp_flags := qp_flags q; qp_sq := qp_sq q; qpn := qpn q; port := port q;
     sq_signal_bits := sq_signal_bits q; next_fence := f; wq_sig_en := wq_sig_en q;
     max_inline_data := max_inline_data q; integrity_en := integrity_en q; pdn := pdn q;
     local_dma_lkey := local_dma_lkey q; bf_buf_size := bf_buf_size q; bf_offset := bf_offset q;
     db_snd := db_snd q; mmio := mmio q |}.

(** State of _mlx5_ib_post_send. *)
Record pst := mkpst {
  p_qp : mlx5_ib_qp;
  p_mem : frag_mem;
  p_mrs : Z -> mlx5_ib_mr;
  p_cur : cursor;                    (* seg, size, cur_edge *)
  p_ctrl : option ptr;
  p_idx : Z;
  p_next_fence : Z;                  (* the local variable *)
  p_mmio_wqe : list Z;
}.

Definition p_sq (s : pst) : mlx5_ib_wq := qp_sq (p_qp s).
Definition with_qp (s : pst) (q : mlx5_ib_qp) : pst :=
  mkpst q (p_mem s) (p_mrs s) (p_cur s) (p_ctrl s) (p_idx s) (p_next_fence s) (p_mmio_wqe s).
Definition with_mem (s : pst) (m : frag_mem) : pst :=
  mkpst (p_qp s) m (p_mrs s) (p_cur s) (p_ctrl s) (p_idx s) (p_next_fence s) (p_mmio_wqe s).
Definition with_mrs (s : pst) (r : Z -> mlx5_ib_mr) : pst :=
  mkpst (p_qp s) (p_mem s) r (p_cur s) (p_ctrl s) (p_idx s) (p_next_fence s) (p_mmio_wqe s).
Definition with_cur (s : pst) (c : cursor) : pst :=
  mkpst (p_qp s) (p_mem s) (p_mrs s) c (p_ctrl s) (p_idx s) (p_next_fence s) (p_mmio_wqe s).
Definition with_ctrl (s : pst) (p : ptr) (i : Z) : pst :=
  mkpst (p_qp s) (p_mem s) (p_mrs s) (p_cur s) (Some p) i (p_next_fence s) (p_mmio_wqe s).
Definition with_nf (s : pst) (f : Z) : pst :=
  mkpst (p_qp s) (p_mem s) (p_mrs s) (p_cur s) (p_ctrl s) (p_idx s) f (p_mmio_wqe s).
Definition with_mmio (s : pst) (w : list Z) : pst :=
  mkpst (p_qp s) (p_mem s) (p_mrs s) (p_cur s) (p_ctrl s) (p_idx s) (p_next_fence s) w.

(** An error carries the code and whether *bad_wr was set. *)
Inductive res (A : Type) := Ok (a : A) | Err (e : Z) (bad : bool).
Arguments Ok {A} a.
Arguments Err {A} e bad.

Definition M (A : Type) : Type := pst -> option (res A * pst).
Definition mret {A} (a : A) : M A := fun s => Some (Ok a, s).
Definition mfail {A} (e : Z) : M A := fun s => Some (Err e true, s).
Definition mfail_nobad {A} (e : Z) : M A := fun s => Some (Err e false, s).
Definition mub {A} : M A := fun _ => None.
Definition mget : M pst := fun s => Some (Ok s, s).
Definition mput (s : pst) : M unit := fun _ => Some (Ok tt, s).
Definition mlet {A B} (m : M A) (k : A -> M B) : M B := fun s =>
  match m s with
  | Some (Ok a, s') => k a s'
  | Some (Err e b, s') => Some (Err e b, s')
  | None => None
  end.
Definition mmod (f : pst -> pst) : M unit := fun s => Some (Ok tt, f s).
Definition mlift {A} (o : option A) : M A := fun s =>
  match o with Some a => Some (Ok a, s) | None => None end.

Declare Scope post_scope.
Delimit Scope post_scope with post.
Notation "'let!' x := m 'in' k" := (mlet m (fun x => k))
  (at level 10, x pattern, m at level 100, k at level 200) : post_scope.
Notation "m ;;; k" := (mlet m (fun _ => k))
  (at level 100, k at level 200, right associativity) : post_scope.
#[global] Open Scope post_scope.

(** ** Memory and cursor *)

(** Write [bs] at [seg + i]. *)
Definition put_at (i : Z) (bs : list Z) : M unit := fun s =>
  match store (p_mem s) (padd (seg (p_cur s)) i) bs with
  | Some m => Some (Ok tt, with_mem s m)
  | None => None
  end.

(** Write [bs] at [ctrl + i]; a null [ctrl] is undefined. *)
Definition put_ctrl (i : Z) (bs : list Z) : M unit := fun s =>
  match p_ctrl s with
  | Some p => match store (p_mem s) (padd p i) bs with
              | Some m => Some (Ok tt, with_mem s m)
              | None => None
              end
  | None => None
  end.

Definition get_ctrl (i : Z) (n : nat) : M (list Z) := fun s =>
  match p_ctrl s with
  | Some p => match load (p_mem s) (padd p i) n with
              | Some bs => Some (Ok bs, s)
              | None => None
              end
  | None => None
  end.

(** [seg += n; size += n / 16]. *)
Definition adv (n : Z) : M unit := mmod (fun s => with_cur s (advance (p_cur s) n)).

(** handle_post_send_edge(&qp->sq, &seg, size, &cur_edge). *)
Definition edge_check : M unit :=
  mmod (fun s => with_cur s (handle_post_send_edge (p_sq s) (wqe_sz (p_cur s)) (p_cur s))).

Definition memcpy_wqe (src : list Z) : M unit := fun s =>
  match memcpy_send_wqe (length src) (p_sq s) (p_mem s) (p_cur s) src with
  | Some (m, c) => Some (Ok tt, with_cur (with_mem s m) c)
  | None => None
  end.

(** Entry [i] of an array of [wqe_cnt] entries exists. *)
Definition arr_ok (sq : mlx5_ib_wq) (i : Z) : bool := (0 <=? i) && (i <? wqe_cnt sq).

Definition set_wr_data (sq : mlx5_ib_wq) (f : Z -> Z) : mlx5_ib_wq :=
  {| fbc := fbc sq; wrid := wrid sq; wr_data := f; w_list_opcode := w_list_opcode sq;
     w_list_next := w_list_next sq; wqe_head := wqe_head sq; wqe_cnt := wqe_cnt sq;
     max_post := max_post sq; max_gs := max_gs sq; wq_offset := wq_offset sq;
     wqe_shift := wqe_shift sq; head := head sq; tail := tail sq; cur_post := cur_post sq;
     last_poll := last_poll sq; cur_edge := cur_edge sq |}.

(** [qp->sq.wr_data[idx] = v]. *)
Definition put_wr_data (v : Z) : M unit := fun s =>
  if arr_ok (p_sq s) (p_idx s)
  then Some (Ok tt, with_qp s (set_sq (p_qp s)
         (set_wr_data (p_sq s) (upd (wr_data (p_sq s)) (p_idx s) v))))
  else None.

(** ** WQE framing *)

Definition mlx5_wq_overflow (wq : mlx5_ib_wq) (nreq : Z) : bool :=
  let cur := u32 (head wq - tail wq) in
  if u32 (cur + nreq) <? u32 (max_post wq) then false
  else u32 (max_post wq) <=? u32 (cur + nreq).

Definition MLX5_WQE_CTRL_CQ_UPDATE : Z := 8.
Definition MLX5_WQE_CTRL_SOLICITED : Z := 2.
Definition MLX5_FENCE_MODE_INITIATOR_SMALL : Z := 32.
Definition MLX5_FENCE_MODE_FENCE : Z := 64.
Definition MLX5_FENCE_MODE_SMALL_AND_FENCE : Z := 128.

Definition begin_wqe_ (wr : ib_send_wr) (nreq : Z) (send_signaled solicited : bool) : M unit :=
  let! s := mget in
  if mlx5_wq_overflow (p_sq s) nreq then mfail (- ENOMEM)
  else
    let sq := p_sq s in
    let idx := cur_post sq .& (wqe_cnt sq - 1) in
    let p := mlx5_frag_buf_get_wqe (fbc sq) idx in
    mput (with_ctrl (with_cur s (mkcursor p 0 (cur_edge sq))) p idx);;;
    put_at 8 (zeros 4);;;
    put_at 12 (send_ieth wr);;;
    put_at 11 [u8 (sq_signal_bits (p_qp s)
                   .| (if send_signaled then MLX5_WQE_CTRL_CQ_UPDATE else 0)
                   .| (if solicited then MLX5_WQE_CTRL_SOLICITED else 0))];;;
    adv sizeof_ctrl_seg.

Definition begin_wqe (wr : ib_send_wr) (nreq : Z) : M unit :=
  begin_wqe_ wr nreq (test (send_flags wr) IB_SEND_SIGNALED) (test (send_flags wr) IB_SEND_SOLICITED).

(** The number of bytes summed is the low six bits of byte 8, times 16. *)
Definition wq_sig : M Z :=
  let! b := get_ctrl 8 1 in
  let! bs := get_ctrl 0 (Z.to_nat ((nth 0 b 0 .& 63) <<. 4)) in
  mret (calc_sig bs).

Definition PTR_ALIGN (p : ptr) (a : Z) : ptr := {| pg := pg p; off := ALIGN (off p) a |}.

(** The queue bookkeeping of finish_wqe. *)
Definition finish_sq (sq : mlx5_ib_wq) (idx id opc nreq size : Z) (seg cedge : ptr) : mlx5_ib_wq :=
  let post := u16 (cur_post sq + DIV_ROUND_UP (size * 16) MLX5_SEND_WQE_BB) in
  let sq' := {| fbc := fbc sq; wrid := upd (wrid sq) idx id; wr_data := wr_data sq;
     w_list_opcode := upd (w_list_opcode sq) idx (u16 opc);
     w_list_next := upd (w_list_next sq) idx post;
     wqe_head := upd (wqe_head sq) idx (u32 (head sq + nreq)); wqe_cnt := wqe_cnt sq;
     max_post := max_post sq; max_gs := max_gs sq; wq_offset := wq_offset sq;
     wqe_shift := wqe_shift sq; head := head sq; tail := tail sq; cur_post := post;
     last_poll := last_poll sq; cur_edge := cedge |} in
  if ptr_eqb (PTR_ALIGN seg MLX5_SEND_WQE_BB) cedge
  then {| fbc := fbc sq'; wrid := wrid sq'; wr_data := wr_data sq';
     w_list_opcode := w_list_opcode sq'; w_list_next := w_list_next sq';
     wqe_head := wqe_head sq'; wqe_cnt := wqe_cnt sq';
     max_post := max_post sq'; max_gs := max_gs sq'; wq_offset := wq_offset sq';
     wqe_shift := wqe_shift sq'; head := head sq'; tail := tail sq'; cur_post := cur_post sq';
     last_poll := last_poll sq';
     cur_edge := get_sq_edge sq (post .& (wqe_cnt sq - 1)) |}
  else sq'.

Definition finish_wqe (id nreq fence opc : Z) : M unit :=
  let! s := mget in
  let size := u8 (wqe_sz (p_cur s)) in
  let sq := p_sq s in
  put_ctrl 0 (be32 ((cur_post sq <<. 8) .| opc));;;
  put_ctrl 4 (be32 (size .| (qpn (p_qp s) <<. 8)));;;
  (let! f := get_ctrl 11 1 in put_ctrl 11 [u8 (nth 0 f 0 .| fence)]);;;
  (if wq_sig_en (p_qp s) then let! g := wq_sig in put_ctrl 8 [g] else mret tt);;;
  if arr_ok sq (p_idx s)
  then mmod (fun s' => with_qp s' (set_sq (p_qp s')
         (finish_sq sq (p_idx s) id opc nreq size (seg (p_cur s)) (edge (p_cur s)))))
  else mub.

Section Post.
Context (dev : mlx5_ib_dev) (host : Z -> Z).

(** ** Segment writers *)

(** [n] bytes of kernel memory at [a]. *)
Definition host_bytes (a n : Z) : list Z := bytes_at host a (Z.to_nat n).

(** Write a segment at [seg], move behind it and check the edge. *)
Definition put_seg (bs : list Z) : M unit :=
  put_at 0 bs;;; adv (Z.of_nat (length bs));;; edge_check.

Definition set_eth_seg (wr : ib_send_wr) : M unit :=
  put_at 0 (zeros 16);;;
  (if test (send_flags wr) IB_SEND_IP_CSUM then put_at 4 [192] else mret tt);;;
  if opcode wr =? IB_WR_LSO
  then match ext wr with
       | WrUd _ header hlen mss _ _ =>
           let left := Z.of_nat (length header) in
           if negb (hlen =? left) then mub
           else
             put_at 6 (be16 mss);;;
             put_at 12 (be16 left);;;
             let! s := mget in
             let! room := mlift (psub (edge (p_cur s)) (padd (seg (p_cur s)) 14)) in
             let copysz := Z.min room left in
             put_at 14 (take (Z.to_nat copysz) header);;;
             adv (ALIGN (16 - 2 + copysz) 16);;;
             if copysz <? left
             then edge_check;;; memcpy_wqe (drop (Z.to_nat copysz) header)
             else mret tt
       | _ => mub
       end
  else adv sizeof_eth_seg.

(** One iteration of the copy loop of set_data_inl_seg; the number of bytes
    copied. *)
Definition inl_step (offset : Z) (src : list Z) : M Z :=
  mmod (fun s => with_cur s
    (handle_post_send_edge (p_sq s) (wqe_sz (p_cur s) + (offset >>. 4)) (p_cur s)));;;
  let! s := mget in
  let! leftlen := mlift (psub (edge (p_cur s)) (seg (p_cur s))) in
  let copysz := Z.min leftlen (Z.of_nat (length src)) in
  put_at 0 (take (Z.to_nat copysz) src);;;
  mmod (fun s => with_cur s (mkcursor (padd (seg (p_cur s)) copysz)
                                      (wqe_sz (p_cur s)) (edge (p_cur s))));;;
  mret copysz.

(** The loop for one SGE; returns the offset into the inline segment. *)
Fixpoint inl_copy (fuel : nat) (offset : Z) (src : list Z) : M Z :=
  match src with
  | [] => mret offset
  | _ =>
      match fuel with
      | O => mub
      | S fuel =>
          let! copysz := inl_step offset src in
          inl_copy fuel (offset + copysz) (drop (Z.to_nat copysz) src)
      end
  end.

Fixpoint inl_sges (max : Z) (sges : list ib_sge) (total offset : Z) : M Z :=
  match sges with
  | [] => mret total
  | sg :: rest =>
      let total := s32 (total + sge_length sg) in
      if max <? total then mfail (- ENOMEM)
      else
        let! offset := inl_copy (Z.to_nat (sge_length sg)) offset
                                (host_bytes (sge_addr sg) (sge_length sg)) in
        inl_sges max rest total offset
  end.

(** The first [num_sge] entries of the scatter list. *)
Definition wr_sges (wr : ib_send_wr) : option (list ib_sge) :=
  let n := Z.to_nat (num_sge wr) in
  if (length (sg_list wr) <? n)%nat then None else Some (take n (sg_list wr)).

Definition set_data_inl_seg (wr : ib_send_wr) : M unit :=
  let! s := mget in
  let! sges := mlift (wr_sges wr) in
  let start := seg (p_cur s) in
  mput (with_cur s (mkcursor (padd start 4) (wqe_sz (p_cur s)) (edge (p_cur s))));;;
  let! total := inl_sges (max_inline_data (p_qp s)) sges 0 sizeof_inline_seg in
  let! s := mget in
  let! m := mlift (store (p_mem s) start (be32 (total .| MLX5_INLINE_SEG))) in
  mput (with_cur (with_mem s m)
          (mkcursor (seg (p_cur s)) (wqe_sz (p_cur s) + ALIGN (total + 4) 16 / 16) (edge (p_cur s)))).

Fixpoint put_data_segs (sges : list ib_sge) : M unit :=
  match sges with
  | [] => mret tt
  | sg :: rest =>
      edge_check;;;
      (if sge_length sg =? 0 then mret tt
       else put_at 0 (set_data_ptr_seg sg);;; adv sizeof_data_seg);;;
      put_data_segs rest
  end.

Definition set_linv_wr : M unit :=
  put_seg set_linv_umr_seg;;; put_seg set_linv_mkey_seg.

Definition set_reg_wr (mr key access flags_wr : Z) (check_not_free : bool) : M unit :=
  let! s := mget in
  let mr := p_mrs s mr in
  let mr_list_size := (mr_ndescs mr + mr_meta_ndescs mr) * mr_desc_size mr in
  let umr_inline := mr_list_size <=? MLX5_IB_SQ_UMR_INLINE_THRESHOLD in
  if test flags_wr IB_SEND_INLINE then mfail (- EINVAL)
  else
    let flags := (if check_not_free then MLX5_UMR_CHECK_NOT_FREE else 0)
                 .| (if umr_inline then MLX5_UMR_INLINE else 0) in
    put_seg (set_reg_umr_seg mr flags);;;
    put_seg (set_reg_mkey_seg mr key access);;;
    if umr_inline
    then
      memcpy_wqe (host_bytes (mr_descs mr) mr_list_size);;;
      mmod (fun s => with_cur s (mkcursor (seg (p_cur s)) (ALIGN (wqe_sz (p_cur s)) 4)
                                          (edge (p_cur s))))
    else
      put_at 0 (set_reg_data_seg mr (local_dma_lkey (p_qp s)));;;
      adv sizeof_data_seg.

(** ** Signature handover *)

Definition set_sig_data_segment (sig_mr : Z) : M unit :=
  let! s := mget in
  let mr := p_mrs s sig_mr in
  let! pi := mlift (mr_pi_mr mr) in
  let! a := mlift (mr_sig_attrs mr) in
  let! msig := mlift (mr_sig mr) in
  let pi_mr := p_mrs s pi in
  let data_len := u32 (mr_data_length pi_mr) in
  let data_key := mr_lkey pi_mr in
  let data_va := mr_data_iova pi_mr in
  let prot := negb (mr_meta_ndescs pi_mr =? 0) in
  let prot_len := if prot then u32 (mr_meta_length pi_mr) else 0 in
  let prot_key := if prot then mr_lkey pi_mr else 0 in
  let prot_va := if prot then mr_pi_iova pi_mr else 0 in
  (if negb prot || ((data_key =? prot_key) && (data_va =? prot_va) && (data_len =? prot_len))
   then put_at 0 (klm data_len data_key data_va)
   else
     let block_size := pi_interval (sig_mem a) in
     let prot_size := prot_field_size (sig_type (sig_mem a)) in
     if prot_size =? 0 then mfail (- EINVAL)
     else if block_size =? 0 then mub
     else
       put_at 0 (stride_block_ctrl (block_size + prot_size) (data_len / block_size));;;
       put_at 14 (be16 2);;;
       put_at 16 (stride_block_entry block_size block_size data_key data_va);;;
       put_at 32 (stride_block_entry prot_size prot_size prot_key prot_va));;;
  adv 64;;; edge_check;;;
  let '(bsf, ok) := mlx5_set_bsf msig a data_len in
  put_at 0 bsf;;;
  if ok then adv 64;;; edge_check else mfail (- EINVAL).

Definition set_sig_checked (mr : mlx5_ib_mr) : mlx5_ib_mr :=
  {| mr_lkey := mr_lkey mr; mr_rkey := mr_rkey mr; mr_iova := mr_iova mr;
     mr_length := mr_length mr; mr_page_size := mr_page_size mr; mr_pd_lkey := mr_pd_lkey mr;
     mr_descs := mr_descs mr; mr_desc_map := mr_desc_map mr; mr_ndescs := mr_ndescs mr;
     mr_data_length := mr_data_length mr; mr_meta_ndescs := mr_meta_ndescs mr;
     mr_meta_length := mr_meta_length mr; mr_desc_size := mr_desc_size mr;
     mr_access_mode := mr_access_mode mr; mr_data_iova := mr_data_iova mr;
     mr_pi_iova := mr_pi_iova mr; mr_pi_mr := mr_pi_mr mr;
     mr_sig := (fun g => mksigctx (psv_memory g) (psv_wire g) false (sigerr_count g)) <$> mr_sig mr;
     mr_sig_attrs := mr_sig_attrs mr |}.

Definition set_pi_umr_wr (wr : ib_send_wr) (sig_id access : Z) : M unit :=
  let! s := mget in
  let sig_mr := p_mrs s sig_id in
  let! pi := mlift (mr_pi_mr sig_mr) in
  let checked := match mr_sig sig_mr with Some g => sig_status_checked g | None => false end in
  if negb (num_sge wr =? 0) || test access IB_ACCESS_REMOTE_ATOMIC
     || negb (integrity_en (p_qp s)) || negb checked
  then mfail (- EINVAL)
  else
    let! a := mlift (mr_sig_attrs sig_mr) in
    let region_len := mr_length (p_mrs s pi) in
    let xlt_size := if sig_type (sig_mem a) =? IB_SIG_TYPE_NONE then 16 else 48 in
    put_seg (set_sig_umr_segment xlt_size);;;
    put_seg (set_sig_mkey_segment sig_mr access xlt_size (u32 region_len) (pdn (p_qp s)));;;
    set_sig_data_segment sig_id;;;
    mmod (fun s => with_mrs s (upd (p_mrs s) sig_id (set_sig_checked (p_mrs s sig_id)))).

Definition set_psv_wr (d : ib_sig_domain) (psv_idx : Z) : M unit :=
  let '(bs, ok) := set_psv_seg d psv_idx in
  put_at 0 bs;;;
  if ok then adv 16 else mfail (- EINVAL).

(** The address of the stack variable pa_pi_mr. *)
Definition PA_PI_MR : Z := -1.

Definition pa_pi_mr (mr : mlx5_ib_mr) : mlx5_ib_mr :=
  let meta := negb (mr_meta_ndescs mr =? 0) in
  {| mr_lkey := mr_pd_lkey mr; mr_rkey := 0; mr_iova := 0; mr_length := mr_length mr;
     mr_page_size := 0; mr_pd_lkey := 0; mr_descs := 0; mr_desc_map := 0;
     mr_ndescs := mr_ndescs mr; mr_data_length := mr_data_length mr;
     mr_meta_ndescs := if meta then mr_meta_ndescs mr else 0;
     mr_meta_length := if meta then mr_meta_length mr else 0;
     mr_desc_size := 0; mr_access_mode := 0; mr_data_iova := mr_data_iova mr;
     mr_pi_iova := if meta then mr_pi_iova mr else 0;
     mr_pi_mr := None; mr_sig := None; mr_sig_attrs := None |}.

Definition set_pi_mr (mr : mlx5_ib_mr) (p : Z) : mlx5_ib_mr :=
  {| mr_lkey := mr_lkey mr; mr_rkey := mr_rkey mr; mr_iova := mr_iova mr;
     mr_length := mr_length mr; mr_page_size := mr_page_size mr; mr_pd_lkey := mr_pd_lkey mr;
     mr_descs := mr_descs mr; mr_desc_map := mr_desc_map mr; mr_ndescs := mr_ndescs mr;
     mr_data_length := mr_data_length mr; mr_meta_ndescs := mr_meta_ndescs mr;
     mr_meta_length := mr_meta_length mr; mr_desc_size := mr_desc_size mr;
     mr_access_mode := mr_access_mode mr; mr_data_iova := mr_data_iova mr;
     mr_pi_iova := mr_pi_iova mr; mr_pi_mr := Some p; mr_sig := mr_sig mr;
     mr_sig_attrs := mr_sig_attrs mr |}.

(** One SET_PSV WQE: not signaled, solicited on error. *)
Definition psv_wqe (wr : ib_send_wr) (nreq : Z) (d : ib_sig_domain) (psv_idx : Z) : M unit :=
  begin_wqe_ wr nreq false true;;;
  set_psv_wr d psv_idx;;;
  let! s := mget in
  finish_wqe (wr_id wr) nreq (p_next_fence s) MLX5_OPCODE_SET_PSV.

(** case IB_WR_REG_MR_INTEGRITY, up to [goto skip_psv]: up to four WQEs. *)
Definition post_reg_mr_integrity (wr : ib_send_wr) (nreq fence mr_id access : Z) : M unit :=
  put_wr_data IB_WR_REG_MR_INTEGRITY;;;
  let! s := mget in
  (match mr_pi_mr (p_mrs s mr_id) with
   | Some pi =>
       let key := mr_rkey (p_mrs s pi) in
       put_ctrl 12 (be32 key);;;
       set_reg_wr pi key access 0 false;;;
       finish_wqe (wr_id wr) nreq fence MLX5_OPCODE_UMR;;;
       begin_wqe wr nreq
   | None =>
       let r := upd (p_mrs s) PA_PI_MR (pa_pi_mr (p_mrs s mr_id)) in
       mput (with_mrs s (upd r mr_id (set_pi_mr (r mr_id) PA_PI_MR)))
   end);;;
  put_ctrl 12 (be32 (mr_rkey (p_mrs s mr_id)));;;
  set_pi_umr_wr wr mr_id access;;;
  finish_wqe (wr_id wr) nreq fence MLX5_OPCODE_UMR;;;
  let! s := mget in
  let! a := mlift (mr_sig_attrs (p_mrs s mr_id)) in
  let! g := mlift (mr_sig (p_mrs s mr_id)) in
  psv_wqe wr nreq (sig_mem a) (psv_memory g);;;
  psv_wqe wr nreq (sig_wire a) (psv_wire g);;;
  mmod (fun s => with_qp s (set_next_fence (p_qp s) MLX5_FENCE_MODE_INITIATOR_SMALL)).

(** ** The opcode switch of _mlx5_ib_post_send

    [Some n] goes on with [n] SGEs, [None] is [goto skip_psv]. *)

Definition is_op (wr : ib_send_wr) (l : list Z) : bool := existsb (Z.eqb (opcode wr)) l.

Definition post_raddr (wr : ib_send_wr) : M (option Z) :=
  match ext wr with
  | WrRdma remote_addr rkey | WrDc remote_addr rkey _ _ _ =>
      put_at 0 (set_raddr_seg remote_addr rkey);;; adv sizeof_raddr_seg;;;
      mret (Some (num_sge wr))
  | _ => mub
  end.

Definition post_rc (wr : ib_send_wr) (nreq fence : Z) : M (option Z) :=
  if is_op wr [IB_WR_RDMA_READ; IB_WR_RDMA_WRITE; IB_WR_RDMA_WRITE_WITH_IMM] then post_raddr wr
  else if is_op wr [IB_WR_ATOMIC_CMP_AND_SWP; IB_WR_ATOMIC_FETCH_AND_ADD;
                    IB_WR_MASKED_ATOMIC_CMP_AND_SWP] then mfail (- ENOSYS)
  else if is_op wr [IB_WR_LOCAL_INV] then
    put_wr_data IB_WR_LOCAL_INV;;; put_ctrl 12 (rev (ex wr));;; set_linv_wr;;; mret (Some 0)
  else if is_op wr [IB_WR_REG_MR] then
    match ext wr with
    | WrReg mr key access =>
        put_wr_data IB_WR_REG_MR;;; put_ctrl 12 (be32 key);;;
        set_reg_wr mr key access (send_flags wr) true;;; mret (Some 0)
    | _ => mub
    end
  else if is_op wr [IB_WR_REG_MR_INTEGRITY] then
    match ext wr with
    | WrReg mr _ access => post_reg_mr_integrity wr nreq fence mr access;;; mret None
    | _ => mub
    end
  else mret (Some (num_sge wr)).

Definition post_datagram (wr : ib_send_wr) : M unit :=
  match ext wr with
  | WrUd av _ _ _ remote_qpn remote_qkey => put_seg (set_datagram_seg av remote_qpn remote_qkey)
  | _ => mub
  end.

Definition post_umr (wr : ib_send_wr) : M (option Z) :=
  if negb (opcode wr =? MLX5_IB_WR_UMR) then mfail_nobad (- EINVAL)
  else match ext wr with
  | WrUmr virt_addr offset pd page_shift xlt_size length access_flags mkey =>
      put_wr_data MLX5_IB_WR_UMR;;;
      put_ctrl 12 (be32 mkey);;;
      let '(bs, err) := set_reg_umr_segment dev (send_flags wr) (num_sge wr) xlt_size offset
                          access_flags (cap_atomic dev) in
      put_at 0 bs;;;
      if negb (err =? 0) then mfail_nobad err
      else
        adv sizeof_umr_ctrl_seg;;; edge_check;;;
        put_seg (set_reg_mkey_segment (send_flags wr) virt_addr pd page_shift length access_flags
                   mkey (tunnel_atomic_supported dev));;;
        mret (Some (num_sge wr))
  | _ => mub
  end.

Definition post_transport (wr : ib_send_wr) (nreq fence : Z) : M (option Z) :=
  let go := mret (Some (num_sge wr)) in
  let nop := opcode wr =? MLX5_IB_WR_NOP in
  let gsi := if nop then go else post_datagram wr;;; go in
  let! s := mget in
  let qp := p_qp s in
  match qp_type qp with
  | IB_QPT_XRC_INI | IB_EXP_QPT_DC_INI =>
      if qpt_eqb (qp_type qp) IB_EXP_QPT_DC_INI && negb (opcode wr =? IB_WR_REG_MR)
      then match ext wr with
           | WrDc _ _ av key num =>
               put_seg (xset_dci_seg av key num);;; post_rc wr nreq fence
           | _ => mub
           end
      else if nop then go
      else adv sizeof_xrc_seg;;; post_rc wr nreq fence
  | IB_QPT_RC => post_rc wr nreq fence
  | IB_QPT_UC =>
      if is_op wr [IB_WR_RDMA_WRITE; IB_WR_RDMA_WRITE_WITH_IMM] then post_raddr wr else go
  | IB_QPT_SMI => if has_smi dev (port qp - 1) then gsi else mfail (- EPERM)
  | MLX5_IB_QPT_HW_GSI => gsi
  | MLX5_IB_QPT_SW_CNAK =>
      match ext wr with
      | WrMlx sl dlid icrc => put_seg (mlx5_ib_set_mlx_seg sl dlid icrc);;; go
      | _ => mub
      end
  | IB_QPT_UD =>
      if nop then go
      else
        post_datagram wr;;;
        (if test (qp_flags qp) IB_QP_CREATE_IPOIB_UD_LSO
         then put_at 0 (zeros 16);;; adv sizeof_eth_pad;;; set_eth_seg wr;;; edge_check
         else mret tt);;;
        go
  | MLX5_IB_QPT_REG_UMR => post_umr wr
  | _ => go
  end.

Definition MLX5_IB_QP_DRAIN_SIGERR : Z := 16384.
Definition MLX5_IB_QP_WC_TEST : Z := 32768.

(** The fence of the request; a registration also sets the local next_fence. *)
Definition pick_fence (wr : ib_send_wr) : M Z :=
  let! s := mget in
  if is_op wr [IB_WR_REG_MR; IB_WR_REG_MR_INTEGRITY] then
    mput (with_nf s MLX5_FENCE_MODE_INITIATOR_SMALL);;; mret (umr_fence dev)
  else if test (send_flags wr) IB_SEND_FENCE then
    mret (if next_fence (p_qp s) =? 0 then MLX5_FENCE_MODE_FENCE
          else MLX5_FENCE_MODE_SMALL_AND_FENCE)
  else mret (next_fence (p_qp s)).

(** The data segments and the end of the WQE. *)
Definition post_data (wr : ib_send_wr) (n : Z) : M unit :=
  edge_check;;;
  if test (send_flags wr) IB_SEND_INLINE && negb (n =? 0) then set_data_inl_seg wr
  else if n =? 0 then mret tt
  else let! sges := mlift (wr_sges wr) in put_data_segs sges.

Definition post_end (wr : ib_send_wr) (nreq fence : Z) : M unit :=
  mmod (fun s => with_qp s (set_next_fence (p_qp s) (p_next_fence s)));;;
  finish_wqe (wr_id wr) nreq fence (mlx5_ib_opcode (opcode wr));;;
  let! s := mget in
  if test (qp_flags (p_qp s)) MLX5_IB_QP_WC_TEST
  then
    let! bs := get_ctrl 0 32 in
    mmod (fun s => with_mmio s
      (patch bs 11 [nth 11 bs 0 .| MLX5_WQE_CTRL_CQ_UPDATE] ++ drop 32 (p_mmio_wqe s)))
  else mret tt.

(** The body of the request loop. *)
Definition post_one (wr : ib_send_wr) (nreq : Z) : M unit :=
  let! s := mget in
  if mlx5_ib_opcode_size <=? u32 (opcode wr) then mfail (- EINVAL)
  else if max_gs (p_sq s) <? num_sge wr then mfail (- EINVAL)
  else
    begin_wqe wr nreq;;;
    let! fence := pick_fence wr in
    put_wr_data 0;;;
    (if is_op wr [IB_WR_SEND; IB_WR_SEND_WITH_IMM; IB_WR_SEND_WITH_INV]
        && test (send_flags wr) IB_SEND_SIG_PIPELINED
     then if test (qp_flags (p_qp s)) MLX5_IB_QP_DRAIN_SIGERR
          then put_wr_data MLX5_IB_WR_SIG_PIPED
          else mfail (- EINVAL)
     else mret tt);;;
    let! n := post_transport wr nreq fence in
    match n with
    | None => mret tt
    | Some n => post_data wr n;;; post_end wr nreq fence
    end.

Fixpoint post_loop (nreq : nat) (wrs : list ib_send_wr) (s : pst)
    : option (Z * option nat * nat * pst) :=
  match wrs with
  | [] => Some (0, None, nreq, s)
  | wr :: rest =>
      match post_one wr (Z.of_nat nreq) s with
      | Some (Ok _, s') => post_loop (S nreq) rest s'
      | Some (Err e bad, s') => Some (e, if bad then Some nreq else None, nreq, s')
      | None => None
      end
  end.

(** Label [out]: publish the new producer counter and ring the doorbell. *)
Definition ring_doorbell (nreq : nat) (s : pst) : option pst :=
  if (nreq =? 0)%nat then Some s
  else
    let q := p_qp s in
    let sq := qp_sq q in
    let sq' := {| fbc := fbc sq; wrid := wrid sq; wr_data := wr_data sq;
       w_list_opcode := w_list_opcode sq; w_list_next := w_list_next sq; wqe_head := wqe_head sq;
       wqe_cnt := wqe_cnt sq; max_post := max_post sq; max_gs := max_gs sq;
       wq_offset := wq_offset sq; wqe_shift := wqe_shift sq;
       head := u32 (head sq + Z.of_nat nreq); tail := tail sq; cur_post := cur_post sq;
       last_poll := last_poll sq; cur_edge := cur_edge sq |} in
    words ← (if test (qp_flags q) MLX5_IB_QP_WC_TEST
             then Some ((fun i => (bf_offset q + Z.of_nat i * 8,
                                   take 8 (drop (8 * i) (p_mmio_wqe s)))) <$> seq 0 8)
             else p ← p_ctrl s; bs ← load (p_mem s) p 8; Some [(bf_offset q, bs)]);
    Some (with_qp s
      {| qp_type := qp_type q; qp_flags := qp_flags q; qp_sq := sq'; qpn := qpn q;
         port := port q; sq_signal_bits := sq_signal_bits q; next_fence := next_fence q;
         wq_sig_en := wq_sig_en q; max_inline_data := max_inline_data q;
         integrity_en := integrity_en q; pdn := pdn q; local_dma_lkey := local_dma_lkey q;
         bf_buf_size := bf_buf_size q; bf_offset := Z.lxor (bf_offset q) (bf_buf_size q);
         db_snd := be32 (cur_post sq); mmio := mmio q ++ words |}).

(** mlx5_ib_gsi_post_send, for the software GSI queue pair. *)
Context (gsi_post_send : mlx5_ib_qp -> list ib_send_wr -> Z * option nat).

(** _mlx5_ib_post_send: the error code, the position of *bad_wr, the queue pair,
    its buffer and the memory regions. *)
Definition post_send_ (q : mlx5_ib_qp) (m : frag_mem) (mrs : Z -> mlx5_ib_mr)
    (wrs : list ib_send_wr) (drain : bool) : option (Z * option nat * pst) :=
  let s := mkpst q m mrs (mkcursor (mkptr 0 0) 0 (mkptr 0 0)) None 0 0 (zeros 64) in
  if internal_error dev && negb drain then Some (- EIO, Some 0%nat, s)
  else if qpt_eqb (qp_type q) IB_QPT_GSI
  then let '(e, bad) := gsi_post_send q wrs in Some (e, bad, s)
  else
    '(e, bad, nreq, s) ← post_loop 0 wrs s;
    s ← ring_doorbell nreq s;
    Some (e, bad, s).

Definition mlx5_ib_post_send (q : mlx5_ib_qp) (m : frag_mem) (mrs : Z -> mlx5_ib_mr)
    (wrs : list ib_send_wr) : option (Z * option nat * pst) :=
  post_send_ q m mrs wrs false.
End Post.
