(* ===== verification/PostRing.v ===== *)
(** * PostRing: program logic for WQE construction

    Total-correctness rules for the monad of PostSend: [wp m Q s] says that [m]
    runs from [s] without undefined behaviour and ends in [Q].  [building]
    relates a state inside the construction of a WQE to the bytes that the ring
    holds for it; each primitive of the send path gets one rule. *)

From S2P Require Import Prelude FragBuf QpTypes WqeSeg SqRing PostSend.

Definition wp {A} (m : M A) (Q : res A -> pst -> Prop) (s : pst) : Prop :=
  match m s with
  | Some (r, s') => Q r s'
  | None => False
  end.

Lemma wp_mono {A} (m : M A) (Q Q' : res A -> pst -> Prop) s :
  wp m Q s -> (forall r s', Q r s' -> Q' r s') -> wp m Q' s.
Proof. unfold wp. destruct (m s) as [[r s']|]; auto. Qed.

Lemma wp_let {A B} (m : M A) (k : A -> M B) Q s :
  wp m (fun r s' => match r with Ok a => wp (k a) Q s' | Err e b => Q (Err e b) s' end) s ->
  wp (mlet m k) Q s.
Proof. unfold wp, mlet. destruct (m s) as [[[a|e b] s']|]; auto. Qed.

Lemma wp_seq {A B} (m : M A) (k : A -> M B) (R : A -> pst -> Prop) Q s :
  wp m (fun r s' => exists a, r = Ok a /\ R a s') s ->
  (forall a s', R a s' -> wp (k a) Q s') -> wp (mlet m k) Q s.
Proof.
  intros Hm Hk. apply wp_let. eapply wp_mono; [exact Hm|].
  intros r s' (a & -> & HR). by apply Hk.
Qed.

Lemma wp_get {B} (k : pst -> M B) Q s : wp (k s) Q s -> wp (mlet mget k) Q s.
Proof. done. Qed.

Lemma wp_mod_seq {B} f (k : unit -> M B) Q s : wp (k tt) Q (f s) -> wp (mlet (mmod f) k) Q s.
Proof. done. Qed.

Lemma wp_lift_seq {A B} (o : option A) a (k : A -> M B) Q s :
  o = Some a -> wp (k a) Q s -> wp (mlet (mlift o) k) Q s.
Proof. intros ->. done. Qed.

(** The postcondition "succeeds, with [R]". *)
Definition okp {A} (R : A -> pst -> Prop) : res A -> pst -> Prop :=
  fun r s' => exists a, r = Ok a /\ R a s'.

Lemma wp_ret {A} (a : A) (R : A -> pst -> Prop) s : R a s -> wp (mret a) (okp R) s.
Proof. intros H. exists a. auto. Qed.

Lemma wp_ok_seq {A B} (m : M A) (k : A -> M B) (R : A -> pst -> Prop) Q s :
  wp m (okp R) s -> (forall a s', R a s' -> wp (k a) Q s') -> wp (mlet m k) Q s.
Proof. apply wp_seq. Qed.

(** Replacing bytes of what was written is writing the replaced bytes. *)
Lemma nth_patch bs i v k :
  (i + length v <= length bs)%nat ->
  nth k (patch bs i v) 0 =
  if ((i <=? k) && (k <? i + length v))%nat then nth (k - i) v 0 else nth k bs 0.
Proof.
  intros Hl. unfold patch.
  assert (Hi : length (take i bs) = i) by (rewrite length_take; lia).
  destruct (Nat.leb_spec i k), (Nat.ltb_spec k (i + length v)); simpl.
  - rewrite app_nth2, Hi by lia. by rewrite app_nth1 by lia.
  - rewrite app_nth2, Hi, app_nth2 by lia. rewrite nth_skipn. f_equal. lia.
  - rewrite app_nth1 by lia. rewrite nth_firstn. destruct (Nat.ltb_spec k i); [done|lia].
  - lia.
Qed.

Lemma ring_put_patch sq (Hwf : sq_wf sq) f P bs i v :
  (i + length v <= length bs)%nat -> Z.of_nat (length bs) <= ring_bytes sq ->
  ring_put sq (ring_put sq f P bs) (P + Z.of_nat i) v ≐ ring_put sq f P (patch bs i v).
Proof.
  intros Hl Hn k. pose proof (wqe_cnt_range sq Hwf) as Hc.
  assert (Hpos : 0 < ring_bytes sq) by (unfold ring_bytes; lia).
  unfold ring_put. rewrite (length_patch _ _ _ (length bs)) by done.
  set (d := (k - ring_base sq - P) mod ring_bytes sq).
  pose proof (Z.mod_pos_bound (k - ring_base sq - P) (ring_bytes sq) Hpos) as Hd. fold d in Hd.
  assert (E : (k - ring_base sq - (P + Z.of_nat i)) mod ring_bytes sq =
              if d <? Z.of_nat i then d - Z.of_nat i + ring_bytes sq else d - Z.of_nat i).
  { replace (k - ring_base sq - (P + Z.of_nat i)) with (k - ring_base sq - P - Z.of_nat i) by lia.
    rewrite <- Zminus_mod_idemp_l. fold d. zcases.
    - symmetry. apply Z.mod_unique with (-1); lia.
    - apply Z.mod_small. lia. }
  rewrite E, nth_patch by done.
  destruct (Nat.leb_spec i (Z.to_nat d)), (Nat.ltb_spec (Z.to_nat d) (i + length v));
    zcases; simpl; try lia; try done.
  f_equal. lia.
Qed.

(** Bytes already there may be taken as written. *)
Definition ring_bytes_at (sq : mlx5_ib_wq) (f : Z -> Z) (P : Z) (n : nat) : list Z :=
  (fun i => f (ring_base sq + (P + Z.of_nat i) mod ring_bytes sq)) <$> seq 0 n.

Lemma length_ring_bytes_at sq f P n : length (ring_bytes_at sq f P n) = n.
Proof. unfold ring_bytes_at. by rewrite length_fmap, length_seq. Qed.

Lemma nth_ring_bytes_at sq f P n i :
  (i < n)%nat -> nth i (ring_bytes_at sq f P n) 0 = f (ring_base sq + (P + Z.of_nat i) mod ring_bytes sq).
Proof.
  intros Hi. unfold ring_bytes_at. erewrite nth_lookup_Some; [done|].
  apply list_lookup_fmap_Some. exists i. split; [done|]. apply lookup_seq. lia.
Qed.

Lemma ring_put_same sq (Hwf : sq_wf sq) f P n :
  ring_put sq f P (ring_bytes_at sq f P n) ≐ f.
Proof.
  intros k. pose proof (wqe_cnt_range sq Hwf) as Hc.
  assert (Hpos : 0 < ring_bytes sq) by (unfold ring_bytes; lia).
  unfold ring_put. rewrite length_ring_bytes_at.
  set (d := (k - ring_base sq - P) mod ring_bytes sq).
  pose proof (Z.mod_pos_bound (k - ring_base sq - P) (ring_bytes sq) Hpos) as Hd. fold d in Hd.
  zcases; simpl; try done. rewrite nth_ring_bytes_at by lia. f_equal.
  rewrite Z2Nat.id by lia. unfold d. rewrite Zplus_mod_idemp_r.
  replace (P + (k - ring_base sq - P)) with (k - ring_base sq) by lia.
  rewrite Z.mod_small by lia. lia.
Qed.

(** ** States inside the construction of a WQE *)

(** What the construction does not change: the queue pair (up to the wr_data
    array), the memory regions, the other local variables, the size of the
    buffer, and the ring contents [e_f0] before the WQE. *)
Record wenv := mkenv {
  e_qp : mlx5_ib_qp;
  e_mrs : Z -> mlx5_ib_mr;
  e_nf : Z;
  e_mmio : list Z;
  e_size : Z;
  e_f0 : Z -> Z;
}.

Definition e_sq (e : wenv) : mlx5_ib_wq := qp_sq (e_qp e).
Definition e_start (e : wenv) : Z := 64 * cur_post (e_sq e).

(** The ring holds [bs] from the start of the WQE on; [seg] is [n] bytes into
    it and [size] is [16 * size = sz]. *)
Definition building (e : wenv) (bs : list Z) (n sz : Z) (s : pst) : Prop :=
  p_qp s = e_qp e /\ p_mrs s = e_mrs e /\ p_next_fence s = e_nf e /\ p_mmio_wqe s = e_mmio e /\
  fm_size (p_mem s) = e_size e /\
  fm_byte (p_mem s) ≐ ring_put (e_sq e) (e_f0 e) (e_start e) bs /\
  16 * wqe_sz (p_cur s) = sz /\
  at_pos (e_sq e) (seg (p_cur s)) (edge (p_cur s)) (e_start e + n) /\
  0 <= n <= Z.of_nat (length bs) /\
  p_ctrl s = Some (mlx5_frag_buf_get_wqe (fbc (e_sq e)) (ring_idx (e_sq e) (e_start e))) /\
  p_idx s = ring_idx (e_sq e) (e_start e).

(** The ring fits the buffer and the WQE fits the ring. *)
Definition env_ok (e : wenv) : Prop :=
  sq_wf (e_sq e) /\ 0 <= ring_base (e_sq e) /\ ring_base (e_sq e) + ring_bytes (e_sq e) <= e_size e.

(** [normal] form of the cursor. *)
Definition in_run (e : wenv) (n : Z) (s : pst) : Prop :=
  normal (e_sq e) (seg (p_cur s)) (edge (p_cur s)) (e_start e + n).

(** Length in [Z]. *)
Definition blen (bs : list Z) : Z := Z.of_nat (length bs).

Lemma blen_app a b : blen (a ++ b) = blen a + blen b.
Proof. unfold blen. rewrite length_app. lia. Qed.

Lemma blen_nonneg bs : 0 <= blen bs.
Proof. unfold blen. lia. Qed.

Section Building.
Context (e : wenv) (He : env_ok e).

Lemma start_mod n : (e_start e + n) mod 64 = n mod 64.
Proof. unfold e_start. rewrite Z.add_comm, Z.mul_comm. apply Z_mod_plus_full. Qed.

Lemma start_mod0 : e_start e mod 64 = 0.
Proof. unfold e_start. rewrite Z.mul_comm. apply Z_mod_mult. Qed.

Lemma building_ring_in bs n sz s : building e bs n sz s -> ring_in (e_sq e) (p_mem s).
Proof.
  intros (_ & _ & _ & _ & Hs & _). destruct He as (_ & ? & ?). unfold ring_in. rewrite Hs. done.
Qed.

Lemma building_in_run bs n sz s : building e bs n sz s -> n mod 64 <> 0 -> in_run e n s.
Proof.
  intros (_ & _ & _ & _ & _ & _ & _ & [Hn|[Hm _]] & _) H; [done|].
  rewrite start_mod in Hm. lia.
Qed.

(** Take [k] more bytes, as they are, into the described region. *)
Lemma building_extend bs n sz s k :
  building e bs n sz s -> Z.of_nat (length bs) + Z.of_nat k <= ring_bytes (e_sq e) ->
  exists old, length old = k /\ building e (bs ++ old) n sz s.
Proof.
  intros H Hk. pose proof He as (Hwf & _).
  exists (ring_bytes_at (e_sq e) (fm_byte (p_mem s)) (e_start e + Z.of_nat (length bs)) k).
  rewrite length_ring_bytes_at. split; [done|].
  destruct H as (? & ? & ? & ? & ? & Hb & ? & ? & ? & ? & ?). unfold building.
  split_and!; auto; rewrite ?length_app, ?length_ring_bytes_at; try lia.
  rewrite <- (ring_put_app _ Hwf) by (rewrite length_ring_bytes_at; lia).
  rewrite <- Hb. by rewrite (ring_put_same _ Hwf).
Qed.

(** A store at [p + i], for any pointer [p] into a run at offset [j] of the WQE. *)
Lemma building_store bs n sz s p ed j i v :
  building e bs n sz s -> normal (e_sq e) p ed (e_start e + j) -> 0 <= j -> 0 <= i ->
  i + blen v <= off ed - off p -> j + i + blen v <= blen bs <= ring_bytes (e_sq e) ->
  exists m', store (p_mem s) (padd p i) v = Some m' /\
    building e (patch bs (Z.to_nat (j + i)) v) n sz (with_mem s m').
Proof.
  intros H Hrun Hj Hi Hroom Hlen. pose proof He as (Hwf & _). unfold blen in *.
  pose proof (building_ring_in _ _ _ _ H) as Hin.
  destruct H as (? & ? & ? & ? & ? & Hb & ? & ? & Hn & ? & ?).
  destruct (store_ring_at _ Hwf (p_mem s) _ _ _ i v Hin Hrun Hi) as (m' & E & Hs & Hm); [lia|].
  exists m'. split; [done|]. unfold building; simpl. split_and!; auto; try congruence.
  - rewrite Hm, Hb. replace (e_start e + j + i) with (e_start e + Z.of_nat (Z.to_nat (j + i))) by lia.
    apply ring_put_patch; [done| |]; lia.
  - lia.
  - rewrite (length_patch _ _ _ (length bs)); lia.
Qed.

Lemma run_room j p ed :
  normal (e_sq e) p ed (e_start e + j) -> 64 - j mod 64 <= off ed - off p.
Proof.
  intros Hrun. pose proof He as (Hwf & _).
  destruct (normal_facts _ Hwf _ _ _ Hrun) as (_ & _ & _ & _ & Hroom & _).
  rewrite start_mod in Hroom. lia.
Qed.

(** Store at [seg + i] into the described region. *)
Lemma wp_put_at bs n sz s i v :
  building e bs n sz s -> in_run e n s -> 0 <= i ->
  i + blen v <= off (edge (p_cur s)) - off (seg (p_cur s)) ->
  n + i + blen v <= blen bs <= ring_bytes (e_sq e) ->
  wp (put_at i v) (okp (fun _ s' =>
    building e (patch bs (Z.to_nat (n + i)) v) n sz s' /\ p_cur s' = p_cur s)) s.
Proof.
  intros H Hrun Hi Hroom Hlen.
  destruct (building_store _ _ _ _ _ _ n i v H Hrun) as (m' & E & H'); auto.
  { destruct H as (_ & _ & _ & _ & _ & _ & _ & _ & Hn & _). lia. }
  unfold wp, put_at. rewrite E. by exists tt.
Qed.

(** Stores and loads through [ctrl], the start of the WQE. *)
Lemma ctrl_run : normal (e_sq e) (mlx5_frag_buf_get_wqe (fbc (e_sq e)) (ring_idx (e_sq e) (e_start e)))
  (get_sq_edge (e_sq e) (ring_idx (e_sq e) (e_start e))) (e_start e + 0).
Proof.
  rewrite Z.add_0_r. split; [|done]. by rewrite start_mod0, padd_0.
Qed.

Lemma wp_put_ctrl bs n sz s i v :
  building e bs n sz s -> 0 <= i -> i + blen v <= 64 ->
  i + blen v <= blen bs <= ring_bytes (e_sq e) ->
  wp (put_ctrl i v) (okp (fun _ s' =>
    building e (patch bs (Z.to_nat i) v) n sz s' /\ p_cur s' = p_cur s)) s.
Proof.
  intros H Hi H64 Hlen. pose proof (run_room _ _ _ ctrl_run). change (0 mod 64) with 0 in *.
  destruct (building_store _ _ _ _ _ _ 0 i v H ctrl_run) as (m' & E & H'); auto; try lia.
  destruct H as (_ & _ & _ & _ & _ & _ & _ & _ & _ & Hc & _).
  unfold wp, put_ctrl. rewrite Hc, E. by exists tt.
Qed.

Lemma wp_get_ctrl bs n sz s i k :
  building e bs n sz s -> 0 <= i -> i + Z.of_nat k <= 64 ->
  i + Z.of_nat k <= blen bs <= ring_bytes (e_sq e) ->
  wp (get_ctrl i k) (okp (fun v s' => v = take k (drop (Z.to_nat i) bs) /\ s' = s)) s.
Proof.
  intros H Hi H64 Hlen. pose proof He as (Hwf & _). unfold blen in *.
  pose proof (building_ring_in _ _ _ _ H) as Hin.
  destruct H as (_ & _ & _ & _ & _ & Hb & _ & _ & _ & Hc & _).
  pose proof ctrl_run as Hrun. rewrite Z.add_0_r in Hrun.
  destruct (normal_facts _ Hwf _ _ _ Hrun) as (_ & _ & _ & _ & Hroom & _ & Hfit & _).
  rewrite start_mod0 in Hroom. pose proof (wqe_cnt_range _ Hwf) as Hcnt.
  assert (Hpos : 0 < ring_bytes (e_sq e)) by (unfold ring_bytes; lia).
  pose proof (Z.mod_pos_bound (e_start e) (ring_bytes (e_sq e)) Hpos).
  unfold wp, get_ctrl. rewrite Hc, (load_ring_at _ Hwf _ _ _ _ _ _ Hin Hrun Hi) by lia.
  eexists. split; [done|]. split; [|done].
  apply nth_ext with 0 0; [rewrite length_bytes_at, length_take, length_drop; lia|].
  intros j Hj. rewrite length_bytes_at in Hj. rewrite nth_bytes_at by done. rewrite Hb.
  rewrite nth_firstn, nth_skipn. destruct (Nat.ltb_spec j k); [|lia].
  replace (ring_base (e_sq e) + e_start e mod ring_bytes (e_sq e) + i + Z.of_nat j)
    with (ring_base (e_sq e) + (e_start e + (i + Z.of_nat j)) mod ring_bytes (e_sq e)).
  - rewrite ring_put_at by lia. f_equal. lia.
  - rewrite <- Zplus_mod_idemp_l, (Z.mod_small (_ + (i + _))) by lia. lia.
Qed.

(** [seg += k; size += k / 16]. *)
Lemma wp_adv bs n sz s k :
  building e bs n sz s -> in_run e n s -> 0 <= k -> k mod 16 = 0 -> n mod 64 + k <= 64 ->
  n + k <= blen bs ->
  wp (adv k) (okp (fun _ s' => building e bs (n + k) (sz + k) s')) s.
Proof.
  intros H Hrun Hk H16 H64 Hl. pose proof He as (Hwf & _). unfold blen in *.
  destruct H as (? & ? & ? & ? & ? & Hb & Hw & ? & Hn & ? & ?).
  destruct (normal_facts _ Hwf _ _ _ Hrun) as (_ & _ & _ & _ & Hroom & _).
  rewrite start_mod in Hroom. unfold wp, adv, mmod. exists tt. split; [done|].
  unfold building, with_cur; simpl. split_and!; auto; try lia.
  - rewrite Z.shiftr_div_pow2 by lia. change (2 ^ 4) with 16. dlia.
  - rewrite Z.add_assoc. apply (at_pos_add _ Hwf _ _ _ _ Hrun). lia.
Qed.

(** The edge check: afterwards the cursor is inside a run. *)
Lemma wp_edge bs n s :
  building e bs n n s -> n mod 16 = 0 ->
  wp edge_check (okp (fun _ s' => building e bs n n s' /\ in_run e n s')) s.
Proof.
  intros H H16. pose proof He as (Hwf & _).
  destruct H as (Hq & ? & ? & ? & ? & Hb & Hw & Hat & Hn & ? & ?).
  unfold wp, edge_check, mmod. exists tt. split; [done|].
  assert (p_sq s = e_sq e) as Es by (unfold p_sq, e_sq; by rewrite Hq). rewrite Es.
  destruct (handle_edge_normal _ Hwf (p_cur s) (wqe_sz (p_cur s)) _ Hat) as [Hn' Hw'].
  { rewrite Z.shiftr_div_pow2 by lia. change (2 ^ 2) with 4. unfold e_start. dlia. }
  split; [|exact Hn'].
  unfold building, with_cur; cbn [p_qp p_mem p_mrs p_cur p_ctrl p_idx p_next_fence p_mmio_wqe].
  split_and!; auto; try lia; try congruence. by left.
Qed.

(** *** Appending segments *)

(** The cursor is behind everything written so far, possibly at an edge;
    or, [ready], inside a run. *)
Definition built (bs : list Z) (s : pst) : Prop := building e bs (blen bs) (blen bs) s.
Definition ready (bs : list Z) (s : pst) : Prop := built bs s /\ in_run e (blen bs) s.

Lemma patch_end bs old v : length old = length v -> patch (bs ++ old) (length bs) v = bs ++ v.
Proof.
  intros H. unfold patch. rewrite take_app_length, drop_ge by (rewrite length_app; lia).
  by rewrite app_nil_r.
Qed.

Lemma built_ready bs s : built bs s -> blen bs mod 64 <> 0 -> ready bs s.
Proof. intros H Hm. split; [done|]. by eapply building_in_run. Qed.

Lemma wp_put_adv {B} bs s v (k : M B) Q :
  ready bs s -> blen v mod 16 = 0 -> blen bs mod 64 + blen v <= 64 ->
  blen bs + blen v <= ring_bytes (e_sq e) ->
  (forall s', built (bs ++ v) s' -> wp k Q s') ->
  wp (put_at 0 v;;; adv (blen v);;; k) Q s.
Proof.
  intros [H Hrun] H16 H64 Hfit Hk. pose proof (run_room _ _ _ Hrun).
  destruct (building_extend _ _ _ _ (length v) H) as (old & Ho & Hx); [unfold blen in Hfit; lia|].
  assert (Hlo : blen (bs ++ old) = blen bs + blen v) by (rewrite blen_app; unfold blen; lia).
  eapply wp_ok_seq.
  { apply (wp_put_at _ _ _ _ 0 v Hx Hrun); lia. }
  intros [] s1 [H1 Hc]. rewrite Z.add_0_r in H1. unfold blen at 1 in H1.
  rewrite Nat2Z.id, patch_end in H1 by done.
  eapply wp_ok_seq.
  { apply (wp_adv _ _ _ _ (blen v) H1); unfold in_run in *; rewrite ?Hc, ?blen_app; auto;
      pose proof (blen_nonneg v); lia. }
  intros [] s2 H2. apply Hk. unfold built. by rewrite blen_app.
Qed.

Lemma wp_put_adv_end bs s v :
  ready bs s -> blen v mod 16 = 0 -> blen bs mod 64 + blen v <= 64 ->
  blen bs + blen v <= ring_bytes (e_sq e) ->
  wp (put_at 0 v;;; adv (blen v)) (okp (fun _ s' => built (bs ++ v) s')) s.
Proof.
  intros H H16 H64 Hfit.
  pose proof (wp_put_adv bs s v (mret tt) (okp (fun _ s' => built (bs ++ v) s')) H H16 H64 Hfit) as Hw.
  unfold wp, mlet in *. destruct (put_at 0 v s) as [[[a|x b] s']|]; auto; apply Hw;
    intros s2 H2; by exists tt.
Qed.

Lemma wp_put_seg bs s v :
  ready bs s -> blen bs mod 16 = 0 -> blen v mod 16 = 0 -> blen bs mod 64 + blen v <= 64 ->
  blen bs + blen v <= ring_bytes (e_sq e) ->
  wp (put_seg v) (okp (fun _ s' => ready (bs ++ v) s')) s.
Proof.
  intros H Hb16 H16 H64 Hfit. unfold put_seg. apply (wp_put_adv bs s v); auto.
  intros s' H'. apply (wp_edge _ _ _ H'). rewrite blen_app. dlia.
Qed.

Lemma wp_edge_built bs s :
  built bs s -> blen bs mod 16 = 0 -> wp edge_check (okp (fun _ s' => ready bs s')) s.
Proof. apply wp_edge. Qed.

(** Copying across edges. *)
Lemma wp_memcpy bs s src :
  ready bs s -> blen bs mod 16 = 0 ->
  blen bs + 16 * ((blen src + 15) / 16) <= ring_bytes (e_sq e) ->
  wp (memcpy_wqe src) (okp (fun _ s' => exists pad,
    blen (src ++ pad) = 16 * ((blen src + 15) / 16) /\ ready (bs ++ src ++ pad) s')) s.
Proof.
  intros [H Hrun] H16 Hfit. pose proof He as (Hwf & _).
  pose proof (building_ring_in _ _ _ _ H) as Hin.
  set (k := Z.to_nat (16 * ((blen src + 15) / 16) - blen src)).
  assert (Hk : Z.of_nat k = 16 * ((blen src + 15) / 16) - blen src) by (unfold k, blen; dlia).
  destruct H as (Hq & ? & ? & ? & Hsz & Hb & Hw & _ & Hn & ? & ?).
  assert (Es : p_sq s = e_sq e) by (unfold p_sq, e_sq; by rewrite Hq).
  assert (Ec : cpos (e_sq e) (p_cur s) = e_start e + blen bs) by (unfold cpos, e_start; lia).
  unfold in_run in Hrun. rewrite <- Ec in Hrun.
  destruct (memcpy_ring _ Hwf (length src) (p_mem s) (p_cur s) src Hin Hrun)
    as (m' & c' & E & Hs' & Hb' & Hw' & Hn'); [unfold blen in *; dlia|lia|].
  unfold wp, memcpy_wqe. rewrite Es, E. exists tt. split; [done|].
  set (pad := ring_bytes_at (e_sq e) (fm_byte m') (e_start e + blen (bs ++ src)) k).
  assert (Hlp : blen (src ++ pad) = 16 * ((blen src + 15) / 16)).
  { rewrite blen_app. unfold blen, pad in *. rewrite length_ring_bytes_at. lia. }
  assert (Ec' : cpos (e_sq e) c' = e_start e + blen (bs ++ src ++ pad)).
  { rewrite blen_app, Hlp. unfold cpos, e_start. rewrite Hw'. unfold blen in *. lia. }
  assert (Hmem : fm_byte m' ≐ ring_put (e_sq e) (e_f0 e) (e_start e) (bs ++ src)).
  { rewrite Hb', Ec, Hb. apply (ring_put_app _ Hwf). unfold blen in *. dlia. }
  exists pad. split; [done|]. unfold ready, built, in_run; simpl. rewrite <- Ec'. split; [|done].
  unfold building; simpl. rewrite <- Ec'. split_and!; auto; try congruence; try (unfold blen; lia).
  - rewrite app_assoc, <- (ring_put_app _ Hwf), <- Hmem.
    + symmetry. apply (ring_put_same _ Hwf).
    + unfold blen in *. rewrite !length_app in *. lia.
  - unfold cpos, e_start in Ec'. lia.
  - left. done.
Qed.

(** *** Data segments *)

Definition data_bytes (sges : list ib_sge) : list Z :=
  sges ≫= fun sg => if sge_length sg =? 0 then [] else set_data_ptr_seg sg.

Lemma blen_data_bytes sges :
  blen (data_bytes sges) mod 16 = 0 /\ 0 <= blen (data_bytes sges) <= 16 * Z.of_nat (length sges).
Proof.
  unfold data_bytes. induction sges as [|sg r IH]; [done|]. rewrite bind_cons, blen_app.
  simpl length. zcases; [change (blen []) with 0|]; [dlia|].
  unfold blen in *. rewrite length_data_ptr. dlia.
Qed.

Lemma wp_data_segs sges bs s :
  built bs s -> blen bs mod 16 = 0 -> blen bs + blen (data_bytes sges) <= ring_bytes (e_sq e) ->
  wp (put_data_segs sges) (okp (fun _ s' => built (bs ++ data_bytes sges) s')) s.
Proof.
  revert bs s; induction sges as [|sg r IH]; intros bs s H H16 Hfit.
  { apply wp_ret. by rewrite app_nil_r. }
  cbn [put_data_segs].
  assert (Ed : data_bytes (sg :: r) = (if sge_length sg =? 0 then [] else set_data_ptr_seg sg) ++ data_bytes r)
    by done.
  rewrite Ed, blen_app in Hfit. rewrite Ed.
  eapply wp_ok_seq; [by apply wp_edge_built|]. intros [] s1 H1.
  pose proof (blen_data_bytes r) as [_ Hr].
  set (v := if sge_length sg =? 0 then [] else set_data_ptr_seg sg) in *.
  assert (Hv : blen v mod 16 = 0 /\ blen v <= 16).
  { unfold v, blen. zcases; [done|]. rewrite length_data_ptr. done. }
  eapply (wp_ok_seq _ _ (fun _ s' => built (bs ++ v) s')).
  - subst v. destruct (Z.eqb_spec (sge_length sg) 0) as [E|E].
    + apply wp_ret. rewrite app_nil_r. apply H1.
    + change sizeof_data_seg with 16. replace 16 with (blen (set_data_ptr_seg sg))
        by (unfold blen; by rewrite length_data_ptr).
      apply wp_put_adv_end; auto; dlia.
  - intros [] s2 H2. rewrite app_assoc. apply IH; rewrite ?blen_app; auto; dlia.
Qed.

(** *** Inline data *)

(** The cursor is behind [bs], at any byte; [size] still counts [sz]. *)
Definition inlining (bs : list Z) (sz : Z) (s : pst) : Prop := building e bs (blen bs) sz s.

(** Edge check inside the inline copy: [size + (offset >> 4)]. *)
Lemma inline_edge bs sz s :
  inlining bs sz s -> sz mod 16 = 0 -> 0 <= sz <= blen bs ->
  let s' := with_cur s (handle_post_send_edge (p_sq s)
              (wqe_sz (p_cur s) + ((blen bs - sz) >>. 4)) (p_cur s)) in
  inlining bs sz s' /\ in_run e (blen bs) s'.
Proof.
  intros H H16 Hsz. pose proof He as (Hwf & _).
  destruct H as (Hq & ? & ? & ? & ? & Hb & Hw & Hat & Hn & ? & ?).
  assert (p_sq s = e_sq e) as Es by (unfold p_sq, e_sq; by rewrite Hq). rewrite Es.
  destruct (handle_edge_normal _ Hwf (p_cur s) (wqe_sz (p_cur s) + ((blen bs - sz) >>. 4)) _ Hat)
    as [Hn' Hw'].
  { rewrite !Z.shiftr_div_pow2 by lia. change (2 ^ 2) with 4. change (2 ^ 4) with 16.
    unfold e_start. dlia. }
  split; [|exact Hn'].
  unfold inlining, building, with_cur; cbn [p_qp p_mem p_mrs p_cur p_ctrl p_idx p_next_fence p_mmio_wqe].
  split_and!; auto; try lia. by left.
Qed.

Lemma wp_inl_step bs sz s src :
  inlining bs sz s -> sz mod 16 = 0 -> 0 <= sz <= blen bs -> src <> [] ->
  blen bs + blen src <= ring_bytes (e_sq e) ->
  wp (inl_step (blen bs - sz) src) (okp (fun n s' => 0 < n <= blen src /\
    inlining (bs ++ take (Z.to_nat n) src) sz s')) s.
Proof.
  intros H H16 Hsz Hne Hfit. pose proof He as (Hwf & _).
  destruct (inline_edge bs sz s H H16 Hsz) as [H1 Hrun].
  unfold inl_step. apply wp_mod_seq. set (s1 := with_cur s _) in *. apply wp_get.
  eapply wp_lift_seq; [exact (psub_normal _ Hwf _ _ _ Hrun)|].
  set (room := off (edge (p_cur s1)) - off (seg (p_cur s1))).
  pose proof (run_room _ _ _ Hrun) as Hroom. fold room in Hroom.
  set (n := Z.min room (Z.of_nat (length src))). set (v := take (Z.to_nat n) src).
  assert (Hpos : 0 < blen src) by (unfold blen; destruct src; [done|simpl; lia]).
  assert (Hn : 0 < n <= blen src) by (unfold n, blen in *; dlia).
  assert (Hv : blen v = n) by (unfold v, blen in *; rewrite length_take; lia).
  destruct (building_extend _ _ _ _ (length v) H1) as (old & Ho & Hx); [unfold blen in *; lia|].
  assert (Hlo : blen (bs ++ old) = blen bs + blen v) by (rewrite blen_app; unfold blen; lia).
  eapply wp_ok_seq; [apply (wp_put_at _ _ _ _ 0 v Hx Hrun); fold room; lia|].
  intros [] s2 [H2 Hc]. rewrite Z.add_0_r in H2. unfold blen at 1 in H2.
  rewrite Nat2Z.id, patch_end in H2 by done.
  apply wp_mod_seq, wp_ret. split; [done|]. unfold inlining. fold v.
  destruct H2 as (? & ? & ? & ? & ? & Hb & Hw & Hat & Hnn & ? & ?).
  unfold building, with_cur; cbn [p_qp p_mem p_mrs p_cur p_ctrl p_idx p_next_fence p_mmio_wqe seg wqe_sz edge].
  rewrite blen_app, Hv. split_and!; auto.
  - rewrite Hc, Z.add_assoc. apply (at_pos_add _ Hwf); [exact Hrun|]. fold room. lia.
  - pose proof (blen_nonneg bs). lia.
  - rewrite length_app. unfold blen in *. lia.
Qed.

Lemma wp_inl_copy fuel bs sz s src :
  inlining bs sz s -> sz mod 16 = 0 -> 0 <= sz <= blen bs -> (length src <= fuel)%nat ->
  blen bs + blen src <= ring_bytes (e_sq e) ->
  wp (inl_copy fuel (blen bs - sz) src)
     (okp (fun o s' => o = blen (bs ++ src) - sz /\ inlining (bs ++ src) sz s')) s.
Proof.
  revert bs s src; induction fuel as [|fuel IH]; intros bs s src H H16 Hsz Hf Hfit.
  { destruct src; [|simpl in Hf; lia]. apply wp_ret. by rewrite app_nil_r. }
  destruct src as [|x src0] eqn:Esrc.
  { apply wp_ret. by rewrite app_nil_r. }
  cbn [inl_copy]. rewrite <- Esrc in *.
  eapply wp_ok_seq; [apply wp_inl_step; auto; by rewrite Esrc|]. intros n s1 [Hn H1].
  assert (Ht : blen (bs ++ take (Z.to_nat n) src) = blen bs + n).
  { rewrite blen_app. unfold blen in *. rewrite length_take. lia. }
  replace (blen bs - sz + n) with (blen (bs ++ take (Z.to_nat n) src) - sz) by lia.
  eapply wp_mono; [apply IH; auto|].
  - lia.
  - rewrite length_drop. unfold blen in *. lia.
  - rewrite Ht. unfold blen in *. rewrite length_drop. lia.
  - rewrite <- app_assoc, take_drop. done.
Qed.

Definition inl_bytes (host : Z -> Z) (sges : list ib_sge) : list Z :=
  sges ≫= fun sg => host_bytes host (sge_addr sg) (sge_length sg).

Lemma blen_host host a n : 0 <= n -> blen (host_bytes host a n) = n.
Proof. intros. unfold blen, host_bytes. rewrite length_bytes_at. lia. Qed.

Lemma wp_inl_sges host max sges bs sz s total :
  inlining bs sz s -> sz mod 16 = 0 -> 0 <= sz <= blen bs ->
  Forall (fun sg => 0 <= sge_length sg) sges -> 0 <= total ->
  total + blen (inl_bytes host sges) <= max < 2 ^ 31 ->
  blen bs + blen (inl_bytes host sges) <= ring_bytes (e_sq e) ->
  wp (inl_sges host max sges total (blen bs - sz))
     (okp (fun t s' => t = total + blen (inl_bytes host sges) /\
                       inlining (bs ++ inl_bytes host sges) sz s')) s.
Proof.
  intros H H16 Hsz Hf. revert bs s total H Hsz.
  induction Hf as [|sg r Hl Hr IH]; intros bs s total H Hsz Ht Hmax Hfit.
  { apply wp_ret. rewrite app_nil_r. split; [unfold blen; simpl; lia|done]. }
  cbn [inl_sges].
  assert (Eb : inl_bytes host (sg :: r) = host_bytes host (sge_addr sg) (sge_length sg) ++ inl_bytes host r)
    by done.
  rewrite Eb, blen_app, blen_host in Hmax, Hfit by done. rewrite Eb.
  pose proof (blen_nonneg (inl_bytes host r)). rewrite s32_small by lia.
  destruct (Z.ltb_spec max (total + sge_length sg)); [lia|].
  eapply wp_ok_seq.
  { apply wp_inl_copy; auto; rewrite ?blen_host by done; [|lia].
    unfold host_bytes. rewrite length_bytes_at. lia. }
  intros o s1 [-> Hi].
  eapply wp_mono; [apply IH; auto; rewrite ?blen_app, ?blen_host by done; lia|].
  intros r' s' (t & -> & -> & H'). exists (total + blen (host_bytes host (sge_addr sg) (sge_length sg) ++ inl_bytes host r)).
  rewrite blen_app, blen_host, <- app_assoc in * by done. split; [f_equal; lia|]. split; [lia|done].
Qed.

Lemma patch_mid a old b v : length old = length v -> patch (a ++ old ++ b) (length a) v = a ++ v ++ b.
Proof.
  intros H. unfold patch. rewrite take_app_length. f_equal. f_equal.
  rewrite <- H, <- (length_app a old), app_assoc. apply drop_app_length.
Qed.

(** set_data_inl_seg: header, then the gathered bytes; [size] is rounded up. *)
Lemma wp_data_inl host bs s wr sges :
  ready bs s -> blen bs mod 16 = 0 -> wr_sges wr = Some sges ->
  Forall (fun sg => 0 <= sge_length sg) sges ->
  blen (inl_bytes host sges) <= max_inline_data (e_qp e) < 2 ^ 31 ->
  blen bs + 4 + blen (inl_bytes host sges) <= ring_bytes (e_sq e) ->
  let data := be32 (blen (inl_bytes host sges) .| MLX5_INLINE_SEG) ++ inl_bytes host sges in
  wp (set_data_inl_seg host wr) (okp (fun _ s' =>
    building e (bs ++ data) (blen (bs ++ data)) (blen bs + 16 * ((blen data + 15) / 16)) s')) s.
Proof.
  intros [H Hrun] H16 Hs Hf Hmax Hfit data. pose proof He as (Hwf & _).
  set (d := inl_bytes host sges) in *. pose proof (blen_nonneg d). pose proof (blen_nonneg bs).
  unfold set_data_inl_seg. apply wp_get. eapply wp_lift_seq; [exact Hs|].
  destruct (building_extend _ _ _ _ 4 H) as (old & Ho & Hx); [unfold blen in *; lia|].
  assert (Hlo : blen (bs ++ old) = blen bs + 4) by (rewrite blen_app; unfold blen; lia).
  pose proof (run_room _ _ _ Hrun) as Hroom. apply wp_let. unfold wp at 1, mput.
  assert (Hi : inlining (bs ++ old) (blen bs) (with_cur s (mkcursor (padd (seg (p_cur s)) 4)
                 (wqe_sz (p_cur s)) (edge (p_cur s))))).
  { destruct Hx as (? & ? & ? & ? & ? & Hb & Hw & _ & Hn & ? & ?).
    unfold inlining, building, with_cur; simpl. rewrite Hlo. split_and!; auto; try lia.
    - rewrite Z.add_assoc. apply (at_pos_add _ Hwf); [exact Hrun|]. dlia.
    - unfold blen in *. lia. }
  destruct H as (Hq & _).
  pose proof (wp_inl_sges host (max_inline_data (e_qp e)) sges _ _ _ 0 Hi H16) as Hw.
  fold d in Hw. replace (blen (bs ++ old) - blen bs) with sizeof_inline_seg in Hw
    by (unfold sizeof_inline_seg; lia).
  eapply wp_ok_seq; [rewrite Hq; apply Hw; auto; lia|]. clear Hw.
  intros t s1 [-> H2]. rewrite Z.add_0_l, <- app_assoc in *. apply wp_get.
  destruct (building_store _ _ _ _ (seg (p_cur s)) (edge (p_cur s)) (blen bs) 0
              (be32 (blen d .| MLX5_INLINE_SEG)) H2 Hrun) as (m' & E & H3); try lia.
  { change (blen (be32 _)) with 4. dlia. }
  { change (blen (be32 _)) with 4. rewrite app_assoc, blen_app. lia. }
  rewrite padd_0 in E. eapply wp_lift_seq; [exact E|]. exists tt. split; [done|].
  rewrite Z.add_0_r in H3. unfold blen at 1 in H3. rewrite Nat2Z.id, patch_mid in H3 by done.
  fold data in H3.
  assert (Hbd : blen (bs ++ data) = blen (bs ++ old ++ d)).
  { unfold data. rewrite !blen_app. change (blen (be32 _)) with 4. unfold blen in *. lia. }
  assert (Hd4 : blen data = blen d + 4).
  { unfold data. rewrite blen_app. change (blen (be32 _)) with 4. lia. }
  rewrite <- Hbd in H3. destruct H3 as (? & ? & ? & ? & ? & ? & Hw & ? & ? & ? & ?).
  unfold building in *; simpl in *. split_and!; auto; try lia.
  rewrite ALIGN_16, Hd4. dlia.
Qed.

(** *** The end of a WQE *)

Definition finish_bytes (bs : list Z) (size fence opc : Z) : list Z :=
  let b := patch bs 0 (be32 ((cur_post (e_sq e) <<. 8) .| opc)) in
  let b := patch b 4 (be32 (size .| (qpn (e_qp e) <<. 8))) in
  let b := patch b 11 [u8 (nth 11 bs 0 .| fence)] in
  if wq_sig_en (e_qp e) then patch b 8 [255] else b.

Lemma blen_patch bs i v : Z.of_nat i + blen v <= blen bs -> blen (patch bs i v) = blen bs.
Proof. unfold blen. intros H. by rewrite (length_patch _ _ _ (length bs)) by lia. Qed.

(** Number of 64-byte blocks of a WQE of [n] bytes. *)
Definition blocks (n : Z) : Z := (n + 63) / 64.

(** finish_wqe keeps the cached edge right for the next WQE. *)
Lemma finish_edge idx id opc nreq size p ed n :
  at_pos (e_sq e) p ed (e_start e + n) -> 0 <= cur_post (e_sq e) -> 0 <= n ->
  DIV_ROUND_UP (size * 16) MLX5_SEND_WQE_BB = blocks n ->
  cur_edge (finish_sq (e_sq e) idx id opc nreq size p ed) =
  get_sq_edge (e_sq e) (ring_idx (e_sq e) (e_start e + 64 * blocks n)).
Proof.
  intros Hat Hp Hn Hb. pose proof He as (Hwf & _). pose proof (wqe_cnt_range _ Hwf) as Hc.
  assert (Hidx : u16 (cur_post (e_sq e) + blocks n) .& (wqe_cnt (e_sq e) - 1) =
                 ring_idx (e_sq e) (e_start e + 64 * blocks n)).
  { unfold ring_idx, e_start. replace (64 * cur_post (e_sq e) + 64 * blocks n)
      with ((cur_post (e_sq e) + blocks n) * 64) by lia. rewrite Z.div_mul by lia.
    destruct Hwf as (Hf & _ & H15 & -> & _). destruct Hf as (_ & Hz & _).
    rewrite land_mask by lia. apply u16_mod. lia. }
  unfold finish_sq. rewrite Hb. destruct (ptr_eqb _ _) eqn:E; simpl; [by rewrite Hidx|].
  assert (Hr : n mod 64 = 0 /\ 64 * blocks n = n \/ n mod 64 <> 0 /\ 64 * blocks n = n + (64 - n mod 64))
    by (unfold blocks; dlia).
  assert (Hal : off p mod 64 = n mod 64).
  { destruct Hat as [[-> _]|(Hm & -> & ->)]; [|rewrite start_mod in Hm; lia].
    cbn [padd off]. rewrite start_mod, Zplus_mod, wqe_aligned by (auto; by apply ring_idx_range).
    rewrite Z.mod_mod by lia. apply Z.mod_mod. lia. }
  unfold MLX5_SEND_WQE_BB in E.
  assert (Epa : PTR_ALIGN p 64 = padd p (64 * blocks n - n)).
  { unfold PTR_ALIGN, padd. f_equal. rewrite ALIGN_64. dlia. }
  rewrite Epa in E. destruct Hat as [Hrun|(Hm & -> & Ho)].
  - pose proof (run_room _ _ _ Hrun).
    destruct (at_pos_add _ Hwf _ _ _ (64 * blocks n - n) Hrun ltac:(dlia)) as [[_ ->]|(_ & E' & _)].
    + do 2 f_equal. lia.
    + rewrite E' in E. by rewrite (proj2 (ptr_eqb_spec ed ed) eq_refl) in E.
  - rewrite start_mod in Hm. assert (64 * blocks n - n = 0) as Ez by lia.
    rewrite Ez, padd_0, (proj2 (ptr_eqb_spec ed ed) eq_refl) in E. done.
Qed.

(** What finish_wqe leaves: the completed bytes and the queue bookkeeping. *)
Definition finished (bs : list Z) (size fence opc id nreq : Z) (p ed : ptr) (s : pst) : Prop :=
  p_qp s = set_sq (e_qp e) (finish_sq (e_sq e) (ring_idx (e_sq e) (e_start e)) id opc nreq size p ed) /\
  p_mrs s = e_mrs e /\ p_next_fence s = e_nf e /\ p_mmio_wqe s = e_mmio e /\
  fm_size (p_mem s) = e_size e /\
  fm_byte (p_mem s) ≐ ring_put (e_sq e) (e_f0 e) (e_start e) (finish_bytes bs size fence opc) /\
  p_ctrl s = Some (mlx5_frag_buf_get_wqe (fbc (e_sq e)) (ring_idx (e_sq e) (e_start e))).

Lemma nth_patch_ne bs i v k :
  Z.of_nat i + blen v <= blen bs -> (k < i \/ i + length v <= k)%nat -> nth k (patch bs i v) 0 = nth k bs 0.
Proof.
  intros Hl Hk. rewrite nth_patch by (unfold blen in *; lia).
  destruct (Nat.leb_spec i k), (Nat.ltb_spec k (i + length v)); simpl; lia || done.
Qed.

Lemma wp_ctrl_or bs n sz s fence :
  building e bs n sz s -> 16 <= blen bs <= ring_bytes (e_sq e) ->
  wp (let! f := get_ctrl 11 1 in put_ctrl 11 [u8 (nth 0 f 0 .| fence)]) (okp (fun _ s' =>
    building e (patch bs 11 [u8 (nth 11 bs 0 .| fence)]) n sz s' /\ p_cur s' = p_cur s)) s.
Proof.
  intros H Hlen. eapply wp_ok_seq; [apply (wp_get_ctrl _ _ _ _ 11 1 H); lia|].
  intros f s1 [-> ->].
  assert (nth 0 (take 1 (drop (Z.to_nat 11) bs)) 0 = nth 11 bs 0) as ->.
  { rewrite nth_firstn, nth_skipn. done. }
  apply (wp_put_ctrl _ _ _ _ 11 _ H); unfold blen in *; simpl; lia.
Qed.

(** The signature is computed over no bytes: byte 8, which holds the length, is
    the signature byte itself and still zero. *)
Lemma wp_signature bs n sz s :
  building e bs n sz s -> 16 <= blen bs <= ring_bytes (e_sq e) -> nth 8 bs 0 = 0 ->
  wp (let! g := wq_sig in put_ctrl 8 [g]) (okp (fun _ s' =>
    building e (patch bs 8 [255]) n sz s' /\ p_cur s' = p_cur s)) s.
Proof.
  intros H Hlen H8. eapply (wp_ok_seq _ _ (fun g s' => g = 255 /\ s' = s)).
  - unfold wq_sig. eapply wp_ok_seq; [apply (wp_get_ctrl _ _ _ _ 8 1 H); lia|].
    intros f s1 [-> ->].
    assert (nth 0 (take 1 (drop (Z.to_nat 8) bs)) 0 = 0) as ->.
    { rewrite nth_firstn, nth_skipn. done. }
    change (Z.to_nat ((0 .& 63) <<. 4)) with 0%nat.
    eapply wp_ok_seq; [apply (wp_get_ctrl _ _ _ _ 0 0 H); lia|].
    intros f s1 [-> ->]. by apply wp_ret.
  - intros g s1 [-> ->]. apply (wp_put_ctrl _ _ _ _ 8 _ H); unfold blen in *; simpl; lia.
Qed.

Lemma wp_finish bs n sz s id nreq fence opc :
  building e bs n sz s -> 16 <= blen bs <= ring_bytes (e_sq e) -> nth 8 bs 0 = 0 ->
  0 <= wqe_sz (p_cur s) < 256 ->
  wp (finish_wqe id nreq fence opc) (okp (fun _ s' =>
    finished bs (wqe_sz (p_cur s)) fence opc id nreq (seg (p_cur s)) (edge (p_cur s)) s')) s.
Proof.
  intros H Hlen H8 Hsz. pose proof He as (Hwf & _).
  pose proof H as (Hq & _ & _ & _ & _ & _ & _ & _ & _ & _ & Hi).
  assert (Es : p_sq s = e_sq e) by (unfold p_sq, e_sq; by rewrite Hq).
  assert (H4 : forall x, blen (be32 x) = 4) by done.
  unfold finish_wqe. apply wp_get. rewrite Hq, Es, u8_small by lia.
  eapply wp_ok_seq; [apply (wp_put_ctrl _ _ _ _ 0 _ H); rewrite ?H4; lia|].
  intros [] s1 [H1 Hc1]. change (Z.to_nat 0) with 0%nat in H1.
  set (b1 := patch bs 0 (be32 ((cur_post (e_sq e) <<. 8) .| opc))) in *.
  assert (L1 : blen b1 = blen bs) by (apply blen_patch; rewrite ?H4; lia).
  eapply wp_ok_seq; [apply (wp_put_ctrl _ _ _ _ 4 _ H1); rewrite ?H4; lia|].
  intros [] s2 [H2 Hc2]. change (Z.to_nat 4) with 4%nat in H2.
  set (b2 := patch b1 4 (be32 (wqe_sz (p_cur s) .| (qpn (e_qp e) <<. 8)))) in *.
  assert (L2 : blen b2 = blen bs) by (rewrite <- L1; apply blen_patch; rewrite ?H4; lia).
  assert (Hnth : forall k, (8 <= k)%nat -> nth k b2 0 = nth k bs 0).
  { intros k Hk. unfold b2. rewrite nth_patch_ne by (rewrite ?H4, ?L1; simpl; lia).
    unfold b1. rewrite nth_patch_ne by (rewrite ?H4; simpl; lia). done. }
  eapply wp_ok_seq; [apply (wp_ctrl_or _ _ _ _ fence H2); lia|].
  intros [] s3 [H3 Hc3]. rewrite Hnth in H3 by lia.
  set (b3 := patch b2 11 [u8 (nth 11 bs 0 .| fence)]) in *.
  assert (L3 : blen b3 = blen bs) by (rewrite <- L2; apply blen_patch; change (blen [_]) with 1; lia).
  set (b4 := if wq_sig_en (e_qp e) then patch b3 8 [255] else b3).
  eapply (wp_ok_seq _ _ (fun _ s' => building e b4 n sz s' /\ p_cur s' = p_cur s3)).
  { unfold b4. destruct (wq_sig_en (e_qp e)); [|by apply wp_ret].
    apply wp_signature; auto; [lia|]. unfold b3.
    rewrite nth_patch_ne by (change (blen [_]) with 1; lia). by rewrite Hnth by lia. }
  intros [] s4 [H4' Hc4]. rewrite Hi. pose proof (ring_idx_range _ Hwf (e_start e)) as Hr.
  assert (arr_ok (e_sq e) (ring_idx (e_sq e) (e_start e)) = true) as ->.
  { unfold arr_ok. rewrite andb_true_iff, Z.leb_le, Z.ltb_lt. lia. }
  exists tt. split; [done|]. destruct H4' as (Hq4 & ? & ? & ? & ? & ? & ? & ? & ? & ? & ?).
  unfold finished, with_qp; simpl. rewrite Hq4. split_and!; auto.
Qed.
End Building.

Arguments finished : clear implicits.
Arguments building : clear implicits.

(** ** The start of a WQE *)

(** The queue between two requests: the cached edge belongs to the block the
    next WQE starts in. *)
Definition sq_ready (sq : mlx5_ib_wq) : Prop :=
  sq_wf sq /\ 0 <= cur_post sq < 65536 /\
  cur_edge sq = get_sq_edge sq (ring_idx sq (64 * cur_post sq)).

Definition env_of (s : pst) : wenv :=
  mkenv (p_qp s) (p_mrs s) (p_next_fence s) (p_mmio_wqe s) (fm_size (p_mem s)) (fm_byte (p_mem s)).

(** The control byte begin_wqe writes. *)
Definition ctrl_flags (q : mlx5_ib_qp) (send_signaled solicited : bool) : Z :=
  u8 (sq_signal_bits q .| (if send_signaled then MLX5_WQE_CTRL_CQ_UPDATE else 0)
      .| (if solicited then MLX5_WQE_CTRL_SOLICITED else 0)).

Lemma begin_patch old ieth b :
  length old = 16%nat -> length ieth = 4%nat ->
  patch (patch (patch old 8 (zeros 4)) 12 ieth) 11 [b] = take 8 old ++ [0; 0; 0; b] ++ ieth.
Proof.
  intros Ho Hi. do 16 (destruct old as [|? old]; [done|]). destruct old; [|done].
  do 4 (destruct ieth as [|? ieth]; [done|]). by destruct ieth.
Qed.

Lemma wp_begin wr nreq sg so s :
  sq_ready (p_sq s) -> env_ok (env_of s) -> length (ex wr) = 4%nat ->
  mlx5_wq_overflow (p_sq s) nreq = false ->
  wp (begin_wqe_ wr nreq sg so) (okp (fun _ s' => exists old8, length old8 = 8%nat /\
    built (env_of s) (old8 ++ [0; 0; 0; ctrl_flags (p_qp s) sg so] ++ send_ieth wr) s')) s.
Proof.
  intros (Hwf & Hp & Hedge) He Hex Hov. set (e := env_of s) in *.
  pose proof (wqe_cnt_range _ Hwf) as Hc.
  assert (H64 : 64 <= ring_bytes (p_sq s)) by (unfold ring_bytes; lia).
  unfold begin_wqe_. apply wp_get. rewrite Hov.
  assert (Hidx : cur_post (p_sq s) .& (wqe_cnt (p_sq s) - 1) = ring_idx (p_sq s) (64 * cur_post (p_sq s))).
  { rewrite <- (u32_small (cur_post (p_sq s))), mask_idx by (done || lia).
    unfold ring_idx. rewrite u32_small, Z.mul_comm, Z.div_mul by lia. done. }
  rewrite Hidx, Hedge. apply wp_let. unfold wp at 1, mput.
  set (s1 := with_ctrl _ _ _).
  assert (H1 : built e [] s1 /\ in_run e (blen []) s1).
  { assert (Hn : in_run e (blen []) s1).
    { unfold in_run, blen; simpl. exact (ctrl_run e). }
    split; [|done]. unfold built, building; simpl. split_and!; try done.
    - symmetry. by apply ring_put_nil.
    - by left. }
  destruct H1 as [H1 Hrun]. pose proof (run_room e He _ _ _ Hrun) as Hroom.
  change (blen [] mod 64) with 0 in Hroom.
  destruct (building_extend e He _ _ _ _ 16 H1) as (old & Ho & Hx); [simpl; unfold e_sq; simpl; unfold p_sq in *; lia|].
  simpl app in Hx. change (blen []) with 0 in *.
  assert (Hlo : blen old = 16) by (unfold blen; lia).
  assert (Hie : blen (send_ieth wr) = 4) by (unfold blen; by rewrite length_send_ieth).
  assert (Hr : ring_bytes (e_sq e) = ring_bytes (p_sq s)) by done.
  eapply wp_ok_seq; [apply (wp_put_at e He _ _ _ _ 8 _ Hx Hrun); change (blen (zeros 4)) with 4; lia|].
  intros [] s2 [H2 Hc2]. change (Z.to_nat (0 + 8)) with 8%nat in H2.
  assert (L2 : blen (patch old 8 (zeros 4)) = 16) by (rewrite blen_patch; change (blen (zeros 4)) with 4; lia).
  eapply wp_ok_seq; [apply (wp_put_at e He _ _ _ _ 12 _ H2); unfold in_run in *; rewrite ?Hc2; auto; lia|].
  intros [] s3 [H3 Hc3]. change (Z.to_nat (0 + 12)) with 12%nat in H3.
  assert (L3 : blen (patch (patch old 8 (zeros 4)) 12 (send_ieth wr)) = 16) by (rewrite blen_patch; lia).
  eapply wp_ok_seq; [apply (wp_put_at e He _ _ _ _ 11 _ H3); unfold in_run in *; rewrite ?Hc3, ?Hc2; auto;
    change (blen [_]) with 1; lia|].
  intros [] s4 [H4 Hc4]. change (Z.to_nat (0 + 11)) with 11%nat in H4.
  rewrite begin_patch in H4 by (try done; by apply length_send_ieth).
  fold (ctrl_flags (p_qp s) sg so) in H4.
  assert (L4 : blen (take 8 old ++ [0; 0; 0; ctrl_flags (p_qp s) sg so] ++ send_ieth wr) = 16).
  { rewrite !blen_app, Hie. unfold blen. rewrite length_take, Ho. done. }
  eapply wp_mono; [apply (wp_adv e He _ _ _ _ sizeof_ctrl_seg H4); unfold in_run in *;
    rewrite ?Hc4, ?Hc3, ?Hc2, ?L4; auto; done|].
  intros r s5 (a & -> & H5). exists a. split; [done|]. exists (take 8 old).
  split; [rewrite length_take; lia|]. unfold built. by rewrite L4.
Qed.
