(* ===== verification/PostSendThm.v ===== *)
(** * PostSendThm: what posting a send request puts into the ring

    The WQE image of a data-path request (RDMA read and write, send, with
    immediate or invalidate, on RC, UC, DC initiator, UD, GSI and SMI queue
    pairs, inline or by reference) is defined without reference to fragments,
    edges or the order of the stores; the theorems show that post_send writes
    exactly it. *)

From S2P Require Import Prelude FragBuf QpTypes WqeSeg SqRing PostSend PostRing.

(** ** The image *)

Definition rdma_op (wr : ib_send_wr) : bool :=
  is_op wr [IB_WR_RDMA_READ; IB_WR_RDMA_WRITE; IB_WR_RDMA_WRITE_WITH_IMM].
Definition wire_op (wr : ib_send_wr) : bool :=
  is_op wr [IB_WR_RDMA_READ; IB_WR_RDMA_WRITE; IB_WR_RDMA_WRITE_WITH_IMM;
            IB_WR_SEND; IB_WR_SEND_WITH_IMM; IB_WR_SEND_WITH_INV].

(** The segments between the control segment and the data. *)
Definition transport_bytes (q : mlx5_ib_qp) (wr : ib_send_wr) : option (list Z) :=
  let raddr :=
    match ext wr with
    | WrRdma a k | WrDc a k _ _ _ => Some (set_raddr_seg a k)
    | _ => None
    end in
  match qp_type q with
  | IB_QPT_RC => if rdma_op wr then raddr else Some []
  | IB_QPT_UC =>
      if is_op wr [IB_WR_RDMA_WRITE; IB_WR_RDMA_WRITE_WITH_IMM] then raddr else Some []
  | IB_EXP_QPT_DC_INI =>
      match ext wr with
      | WrDc a k av key num =>
          if (length av =? 48)%nat
          then Some (xset_dci_seg av key num ++ if rdma_op wr then set_raddr_seg a k else [])
          else None
      | _ => None
      end
  | IB_QPT_UD | MLX5_IB_QPT_HW_GSI | IB_QPT_SMI =>
      match ext wr with
      | WrUd av _ _ _ rqpn rqkey =>
          if (length av =? 48)%nat then Some (set_datagram_seg av rqpn rqkey) else None
      | _ => None
      end
  | _ => None
  end.

Definition payload_bytes (host : Z -> Z) (wr : ib_send_wr) (sges : list ib_sge) : list Z :=
  if test (send_flags wr) IB_SEND_INLINE && negb (num_sge wr =? 0)
  then be32 (blen (inl_bytes host sges) .| MLX5_INLINE_SEG) ++ inl_bytes host sges
  else data_bytes sges.

Definition fence_of (q : mlx5_ib_qp) (wr : ib_send_wr) : Z :=
  if test (send_flags wr) IB_SEND_FENCE
  then if next_fence q =? 0 then MLX5_FENCE_MODE_FENCE else MLX5_FENCE_MODE_SMALL_AND_FENCE
  else next_fence q.

(** Size of the WQE in 16-byte units. *)
Definition wqe_ds (body : list Z) : Z := 1 + (blen body + 15) / 16.

Definition ctrl_bytes (q : mlx5_ib_qp) (wr : ib_send_wr) (ds : Z) : list Z :=
  be32 ((cur_post (qp_sq q) <<. 8) .| mlx5_ib_opcode (opcode wr))
  ++ be32 (ds .| (qpn q <<. 8))
  ++ [if wq_sig_en q then 255 else 0; 0; 0;
      u8 (ctrl_flags q (test (send_flags wr) IB_SEND_SIGNALED)
                       (test (send_flags wr) IB_SEND_SOLICITED) .| fence_of q wr)]
  ++ send_ieth wr.

Definition wqe_image (q : mlx5_ib_qp) (wr : ib_send_wr) (body : list Z) : list Z :=
  ctrl_bytes q wr (wqe_ds body) ++ body.

(** ** Building it *)

Definition env_wr_data (e : wenv) (v : Z) : wenv :=
  mkenv (set_sq (e_qp e) (set_wr_data (e_sq e)
           (upd (wr_data (e_sq e)) (ring_idx (e_sq e) (e_start e)) v)))
        (e_mrs e) (e_nf e) (e_mmio e) (e_size e) (e_f0 e).

Definition env_next_fence (e : wenv) (f : Z) : wenv :=
  mkenv (set_next_fence (e_qp e) f) (e_mrs e) (e_nf e) (e_mmio e) (e_size e) (e_f0 e).

Section Steps.
Context (dev : mlx5_ib_dev) (host : Z -> Z) (e : wenv) (He : env_ok e).

Lemma wp_put_wr_data bs n sz s v :
  building e bs n sz s ->
  wp (put_wr_data v) (okp (fun _ s' => building (env_wr_data e v) bs n sz s')) s.
Proof.
  intros H. pose proof He as (Hwf & _).
  destruct H as (Hq & ? & ? & ? & ? & ? & ? & ? & ? & ? & Hi).
  assert (Es : p_sq s = e_sq e) by (unfold p_sq, e_sq; by rewrite Hq).
  pose proof (ring_idx_range _ Hwf (e_start e)).
  unfold wp, put_wr_data. rewrite Es, Hi.
  assert (arr_ok (e_sq e) (ring_idx (e_sq e) (e_start e)) = true) as ->.
  { unfold arr_ok. rewrite andb_true_iff, Z.leb_le, Z.ltb_lt. lia. }
  exists tt. split; [done|]. unfold building, with_qp; simpl. rewrite Hq.
  split_and!; first [assumption|reflexivity|lia].
Qed.

Lemma wp_raddr bs s wr a k :
  built e bs s -> blen bs mod 16 = 0 -> blen bs mod 64 <> 0 \/ in_run e (blen bs) s ->
  blen bs + 16 <= ring_bytes (e_sq e) ->
  (ext wr = WrRdma a k \/ exists av key num, ext wr = WrDc a k av key num) ->
  wp (post_raddr wr) (okp (fun r s' => r = Some (num_sge wr) /\
                            built e (bs ++ set_raddr_seg a k) s')) s.
Proof.
  intros H H16 Hrun Hfit Hext.
  assert (Hr : ready e bs s) by (destruct Hrun; [by apply built_ready|done]).
  assert (Hl : blen (set_raddr_seg a k) = 16) by (unfold blen; by rewrite length_raddr).
  unfold post_raddr.
  assert (Hgo : wp (put_at 0 (set_raddr_seg a k);;; adv sizeof_raddr_seg;;; mret (Some (num_sge wr)))
    (okp (fun r s' => r = Some (num_sge wr) /\ built e (bs ++ set_raddr_seg a k) s')) s).
  { change sizeof_raddr_seg with 16. rewrite <- Hl. apply (wp_put_adv e He bs); [done|by rewrite Hl|rewrite Hl; dlia|by rewrite Hl|].
    intros s' H'. by apply wp_ret. }
  destruct Hext as [->|(av & key & num & ->)]; exact Hgo.
Qed.

Lemma is_op_In wr l : is_op wr l = true -> In (opcode wr) l.
Proof. unfold is_op. intros (x & Hx & E)%existsb_exists. by apply Z.eqb_eq in E as ->. Qed.

Lemma wp_rc bs s wr nreq fence a k :
  built e bs s -> blen bs mod 16 = 0 -> blen bs mod 64 <> 0 \/ in_run e (blen bs) s ->
  wire_op wr = true ->
  (rdma_op wr = true -> blen bs + 16 <= ring_bytes (e_sq e) /\
     (ext wr = WrRdma a k \/ exists av key num, ext wr = WrDc a k av key num)) ->
  wp (post_rc host wr nreq fence) (okp (fun r s' => r = Some (num_sge wr) /\
        built e (bs ++ if rdma_op wr then set_raddr_seg a k else []) s')) s.
Proof.
  intros H H16 Hrun Hw Hext. unfold post_rc. fold (rdma_op wr).
  destruct (rdma_op wr) eqn:Er.
  { destruct (Hext eq_refl). by apply wp_raddr. }
  apply is_op_In in Hw. unfold rdma_op, is_op in *. simpl in Hw, Er |- *.
  destruct Hw as [E|[E|[E|[E|[E|[E|[]]]]]]]; rewrite <- E in *; try discriminate Er; simpl;
    apply wp_ret; by rewrite app_nil_r.
Qed.

Lemma wp_datagram bs s wr av h hl mss q k :
  built e bs s -> blen bs = 16 -> 64 <= ring_bytes (e_sq e) -> ext wr = WrUd av h hl mss q k ->
  length av = 48%nat ->
  wp (post_datagram wr) (okp (fun _ s' => built e (bs ++ set_datagram_seg av q k) s')) s.
Proof.
  intros H Hl Hfit Hext Hav. unfold post_datagram. rewrite Hext.
  assert (Hd : blen (set_datagram_seg av q k) = 48) by (unfold blen; by rewrite length_datagram).
  eapply wp_mono.
  - apply (wp_put_seg e He bs); rewrite ?Hl, ?Hd; try done. apply built_ready; auto. by rewrite Hl.
  - intros r s' (x & -> & H' & _). by exists x.
Qed.

Lemma wire_not_nop wr : wire_op wr = true -> (opcode wr =? MLX5_IB_WR_NOP) = false.
Proof.
  intros Hw%is_op_In. simpl in Hw. destruct Hw as [<-|[<-|[<-|[<-|[<-|[<-|[]]]]]]]; done.
Qed.

Lemma wire_not_reg wr : wire_op wr = true -> (opcode wr =? IB_WR_REG_MR) = false.
Proof.
  intros Hw%is_op_In. simpl in Hw. destruct Hw as [<-|[<-|[<-|[<-|[<-|[<-|[]]]]]]]; done.
Qed.

Lemma wp_dc bs s wr nreq fence a k av key num :
  built e bs s -> blen bs = 16 -> wire_op wr = true -> ext wr = WrDc a k av key num ->
  length av = 48%nat ->
  let tb := xset_dci_seg av key num ++ if rdma_op wr then set_raddr_seg a k else [] in
  16 + blen tb <= ring_bytes (e_sq e) ->
  wp (put_seg (xset_dci_seg av key num);;; post_rc host wr nreq fence)
     (okp (fun r s' => r = Some (num_sge wr) /\ built e (bs ++ tb) s')) s.
Proof.
  intros H Hl Hw Hext Hav tb Hfit.
  assert (Hx : blen (xset_dci_seg av key num) = 48 \/ blen (xset_dci_seg av key num) = 16).
  { unfold blen. rewrite length_xset_dci by done. destruct (xhas_grh av); auto. }
  unfold tb in Hfit. rewrite blen_app in Hfit.
  pose proof (blen_nonneg (if rdma_op wr then set_raddr_seg a k else [])).
  eapply wp_ok_seq.
  { apply (wp_put_seg e He bs); rewrite ?Hl.
    - apply built_ready; auto. by rewrite Hl.
    - done.
    - destruct Hx as [-> | ->]; done.
    - destruct Hx as [-> | ->]; done.
    - lia. }
  intros [] s1 [H1 Hr1]. unfold tb. rewrite app_assoc. apply wp_rc; auto.
  - rewrite blen_app, Hl. destruct Hx as [-> | ->]; done.
  - intros Hr. rewrite Hr in Hfit. rewrite blen_app, Hl. split; [|right; eauto].
    unfold blen in Hfit at 2. rewrite length_raddr in Hfit. lia.
Qed.

Lemma wp_transport bs s wr nreq fence tb :
  built e bs s -> blen bs = 16 -> wire_op wr = true ->
  transport_bytes (e_qp e) wr = Some tb -> 16 + blen tb <= ring_bytes (e_sq e) ->
  (qp_type (e_qp e) = IB_QPT_UD -> test (qp_flags (e_qp e)) IB_QP_CREATE_IPOIB_UD_LSO = false) ->
  (qp_type (e_qp e) = IB_QPT_SMI -> has_smi dev (port (e_qp e) - 1) = true) ->
  wp (post_transport dev host wr nreq fence)
     (okp (fun r s' => r = Some (num_sge wr) /\ built e (bs ++ tb) s')) s.
Proof.
  intros H Hl Hw Htb Hfit Hlso Hsmi. unfold post_transport. apply wp_get.
  pose proof H as (Hq & _). rewrite Hq, (wire_not_nop _ Hw), (wire_not_reg _ Hw).
  assert (Hm16 : blen bs mod 16 = 0) by (by rewrite Hl).
  assert (Hm64 : blen bs mod 64 <> 0) by (by rewrite Hl).
  assert (Hr0 : forall a k, blen (set_raddr_seg a k) = 16) by (intros; unfold blen; by rewrite length_raddr).
  assert (Hgsi : forall av h hl mss q k, ext wr = WrUd av h hl mss q k -> length av = 48%nat ->
    tb = set_datagram_seg av q k ->
    wp (post_datagram wr) (okp (fun _ s' => built e (bs ++ tb) s')) s).
  { intros av h hl mss q k Hx Hav ->. eapply wp_datagram; eauto.
    unfold blen in Hfit. rewrite length_datagram in Hfit by done. lia. }
  unfold transport_bytes in Htb. destruct (qp_type (e_qp e)) eqn:Et; try discriminate Htb.
  - rewrite Hsmi by done. destruct (ext wr) eqn:Ex; try discriminate Htb.
    destruct (Nat.eqb_spec (length av) 48); [|done]. injection Htb as <-.
    eapply wp_ok_seq; [by eapply Hgsi|]. intros [] s1 H1. by apply wp_ret.
  - assert (Ha : exists a k, (rdma_op wr = true ->
      ext wr = WrRdma a k \/ exists av key num, ext wr = WrDc a k av key num) /\
      tb = if rdma_op wr then set_raddr_seg a k else []).
    { destruct (rdma_op wr); [|exists 0, 0; split; [done|congruence]].
      destruct (ext wr); try discriminate Htb; injection Htb as <-;
        eexists _, _; split; eauto 8. }
    destruct Ha as (a & k & Hext & ->). apply wp_rc; auto.
    intros Hr. split; [|by apply Hext]. rewrite Hr, Hr0 in Hfit. lia.
  - destruct (is_op wr [IB_WR_RDMA_WRITE; IB_WR_RDMA_WRITE_WITH_IMM]).
    + destruct (ext wr) eqn:Ex; try discriminate Htb; injection Htb as <-; rewrite Hr0 in Hfit;
        apply wp_raddr; eauto 8; lia.
    + injection Htb as <-. apply wp_ret. by rewrite app_nil_r.
  - rewrite Hlso by done. destruct (ext wr) eqn:Ex; try discriminate Htb.
    destruct (Nat.eqb_spec (length av) 48); [|done]. injection Htb as <-.
    eapply wp_ok_seq; [by eapply Hgsi|]. intros [] s1 H1.
    eapply wp_ok_seq; [apply (wp_ret tt (fun _ s' => s' = s1)); done|]. intros [] s2 ->. by apply wp_ret.
  - rewrite andb_true_r. unfold qpt_eqb. rewrite bool_decide_true by done.
    destruct (ext wr) eqn:Ex; try discriminate Htb.
    destruct (Nat.eqb_spec (length av) 48); [|done]. injection Htb as <-. by apply wp_dc.
  - destruct (ext wr) eqn:Ex; try discriminate Htb.
    destruct (Nat.eqb_spec (length av) 48); [|done]. injection Htb as <-.
    eapply wp_ok_seq; [by eapply Hgsi|]. intros [] s1 H1. by apply wp_ret.
Qed.

(** The data segments; [n] bytes are described, [size] counts whole 16-byte
    units. *)
Lemma wp_payload bs s wr sges :
  built e bs s -> blen bs mod 16 = 0 -> wr_sges wr = Some sges ->
  Forall (fun sg => 0 <= sge_length sg) sges ->
  let pl := payload_bytes host wr sges in
  (test (send_flags wr) IB_SEND_INLINE && negb (num_sge wr =? 0) = true ->
     blen (inl_bytes host sges) <= max_inline_data (e_qp e) < 2 ^ 31) ->
  blen bs + blen pl <= ring_bytes (e_sq e) ->
  wp (post_data host wr (num_sge wr)) (okp (fun _ s' =>
    building e (bs ++ pl) (blen (bs ++ pl)) (blen bs + 16 * ((blen pl + 15) / 16)) s')) s.
Proof.
  intros H H16 Hs Hf pl Hinl Hfit. unfold post_data.
  eapply wp_ok_seq; [by apply wp_edge_built|]. intros [] s1 H1. unfold pl, payload_bytes in *.
  destruct (test (send_flags wr) IB_SEND_INLINE && negb (num_sge wr =? 0)).
  - eapply wp_data_inl; eauto. rewrite blen_app in Hfit. change (blen (be32 _)) with 4 in Hfit. lia.
  - assert (E : blen bs + 16 * ((blen (data_bytes sges) + 15) / 16) = blen (bs ++ data_bytes sges)).
    { rewrite blen_app. pose proof (blen_data_bytes sges). dlia. }
    rewrite E. destruct (Z.eqb_spec (num_sge wr) 0) as [Hz|Hz].
    + unfold wr_sges in Hs. rewrite Hz in Hs. simpl in Hs. injection Hs as <-.
      apply wp_ret. simpl. rewrite app_nil_r. apply H1.
    + eapply wp_lift_seq; [exact Hs|]. apply wp_data_segs; auto. apply H1.
Qed.
End Steps.

(** A data-path request that queue pair [q] accepts, with the bytes [body] that
    follow its control segment. *)
Definition plain_wr (dev : mlx5_ib_dev) (host : Z -> Z) (q : mlx5_ib_qp) (wr : ib_send_wr)
    (body : list Z) : Prop :=
  exists sges tb,
    body = tb ++ payload_bytes host wr sges /\
    wire_op wr = true /\ num_sge wr <= max_gs (qp_sq q) /\ wr_sges wr = Some sges /\
    Forall (fun sg => 0 <= sge_length sg) sges /\ length (ex wr) = 4%nat /\
    transport_bytes q wr = Some tb /\
    test (send_flags wr) IB_SEND_SIG_PIPELINED = false /\
    test (qp_flags q) MLX5_IB_QP_WC_TEST = false /\
    (qp_type q = IB_QPT_UD -> test (qp_flags q) IB_QP_CREATE_IPOIB_UD_LSO = false) /\
    (qp_type q = IB_QPT_SMI -> has_smi dev (port q - 1) = true) /\
    (test (send_flags wr) IB_SEND_INLINE && negb (num_sge wr =? 0) = true ->
       blen (inl_bytes host sges) <= max_inline_data q < 2 ^ 31) /\
    16 + blen body <= ring_bytes (qp_sq q) /\ wqe_ds body < 256.

Lemma finish_image e old8 fl ieth body ds fence opc :
  length old8 = 8%nat -> length ieth = 4%nat ->
  finish_bytes e (old8 ++ [0; 0; 0; fl] ++ ieth ++ body) ds fence opc =
  be32 ((cur_post (e_sq e) <<. 8) .| opc) ++ be32 (ds .| (qpn (e_qp e) <<. 8))
  ++ [if wq_sig_en (e_qp e) then 255 else 0; 0; 0; u8 (fl .| fence)] ++ ieth ++ body.
Proof.
  intros Ho Hi. do 8 (destruct old8 as [|? old8]; [done|]). destruct old8; [|done].
  do 4 (destruct ieth as [|? ieth]; [done|]). destruct ieth; [|done].
  unfold finish_bytes, be32. by destruct (wq_sig_en (e_qp e)).
Qed.

Lemma wp_pick_fence dev wr s :
  wire_op wr = true ->
  wp (pick_fence dev wr) (okp (fun f s' => f = fence_of (p_qp s) wr /\ s' = s)) s.
Proof.
  intros Hw%is_op_In. unfold pick_fence. apply wp_get.
  assert (is_op wr [IB_WR_REG_MR; IB_WR_REG_MR_INTEGRITY] = false) as ->.
  { unfold is_op. simpl in Hw. destruct Hw as [<-|[<-|[<-|[<-|[<-|[<-|[]]]]]]]; done. }
  unfold fence_of. case_match; by apply wp_ret.
Qed.

Lemma transport_mod16 q wr tb : transport_bytes q wr = Some tb -> blen tb mod 16 = 0.
Proof.
  unfold transport_bytes. intros H.
  assert (Hr : forall a k, blen (set_raddr_seg a k) = 16) by (intros; unfold blen; by rewrite length_raddr).
  assert (Hd : forall av k n, length av = 48%nat -> blen (set_datagram_seg av k n) = 48)
    by (intros; unfold blen; by rewrite length_datagram).
  assert (Hx : forall av k n, length av = 48%nat ->
    blen (xset_dci_seg av k n) = 48 \/ blen (xset_dci_seg av k n) = 16).
  { intros av k n Hl. unfold blen. rewrite length_xset_dci by done. destruct (xhas_grh av); auto. }
  destruct (qp_type q); try discriminate H; repeat (case_match; try discriminate); simplify_eq;
    repeat match goal with Hl : (length _ =? 48)%nat = true |- _ => apply Nat.eqb_eq in Hl end;
    rewrite ?blen_app, ?Hr; try done; try (rewrite Hd by done; done);
    match goal with |- context [xset_dci_seg ?a ?b ?c] => destruct (Hx a b c) as [-> | ->]; done end.
Qed.

(** What posting one request changes in the queue: the counters, the tracking
    arrays at the WQE's index, and the cached edge. *)
Definition posted (sq sq' : mlx5_ib_wq) (wr : ib_send_wr) (nreq n : Z) : Prop :=
  let idx := ring_idx sq (64 * cur_post sq) in
  sq_ready sq' /\ cur_post sq' = u16 (cur_post sq + blocks n) /\
  fbc sq' = fbc sq /\ wqe_cnt sq' = wqe_cnt sq /\ max_post sq' = max_post sq /\
  max_gs sq' = max_gs sq /\ head sq' = head sq /\ tail sq' = tail sq /\
  last_poll sq' = last_poll sq /\
  wrid sq' = upd (wrid sq) idx (wr_id wr) /\
  wqe_head sq' = upd (wqe_head sq) idx (u32 (head sq + nreq)) /\
  w_list_next sq' = upd (w_list_next sq) idx (cur_post sq') /\
  w_list_opcode sq' = upd (w_list_opcode sq) idx (u16 (mlx5_ib_opcode (opcode wr))) /\
  wr_data sq' = upd (wr_data sq) idx 0.

Lemma finish_posted e (He : env_ok e) f wr nreq size p ed n :
  let e1 := env_next_fence (env_wr_data e 0) f in
  0 <= cur_post (e_sq e) < 65536 -> 0 <= n ->
  at_pos (e_sq e) p ed (e_start e + n) -> DIV_ROUND_UP (size * 16) MLX5_SEND_WQE_BB = blocks n ->
  posted (e_sq e)
    (finish_sq (e_sq e1) (ring_idx (e_sq e1) (e_start e1)) (wr_id wr) (mlx5_ib_opcode (opcode wr))
       nreq size p ed) wr nreq n.
Proof.
  intros e1 Hp Hn Hat Hb.
  assert (He1 : env_ok e1) by exact He.
  pose proof (finish_edge e1 He1 (ring_idx (e_sq e1) (e_start e1)) (wr_id wr)
    (mlx5_ib_opcode (opcode wr)) nreq size p ed n Hat (proj1 Hp) Hn Hb) as Hedge.
  pose proof He as (Hwf & _).
  set (sq' := finish_sq (e_sq e1) _ _ _ _ _ _ _) in *.
  assert (Hpost : cur_post sq' = u16 (cur_post (e_sq e) + blocks n)).
  { unfold sq', finish_sq. rewrite Hb. by destruct (ptr_eqb _ _). }
  assert (Hf : fbc sq' = fbc (e_sq e) /\ wqe_cnt sq' = wqe_cnt (e_sq e))
    by (unfold sq', finish_sq; by destruct (ptr_eqb _ _)).
  destruct Hf as [Hf Hc].
  assert (Hr : sq_ready sq').
  { split; [|split].
    - unfold sq_wf in *. rewrite Hf, Hc. exact Hwf.
    - rewrite Hpost. apply u16_range.
    - rewrite Hedge. unfold get_sq_edge. rewrite Hf. do 3 f_equal.
      unfold ring_idx. rewrite Hc, Hpost. change (e_start e1) with (64 * cur_post (e_sq e)).
      change (wqe_cnt (e_sq e1)) with (wqe_cnt (e_sq e)).
      replace (64 * cur_post (e_sq e) + 64 * blocks n) with ((cur_post (e_sq e) + blocks n) * 64) by lia.
      rewrite (Z.mul_comm 64), !Z.div_mul by lia.
      destruct Hwf as (Hfb & _ & H15 & -> & _). destruct Hfb as (_ & Hz & _).
      symmetry. apply u16_mod. lia. }
  unfold posted. split; [done|]. split_and!; auto; unfold sq', finish_sq; by destruct (ptr_eqb _ _).
Qed.

(** Posting a data-path request: the ring receives exactly the WQE image at the
    producer position, and nothing else of the buffer changes. *)
Lemma post_one_plain dev host wr nreq s body :
  sq_ready (p_sq s) -> env_ok (env_of s) -> plain_wr dev host (p_qp s) wr body ->
  mlx5_wq_overflow (p_sq s) nreq = false ->
  wp (post_one dev host wr nreq) (okp (fun _ s' =>
    fm_size (p_mem s') = fm_size (p_mem s) /\
    fm_byte (p_mem s') ≐ ring_put (p_sq s) (fm_byte (p_mem s)) (64 * cur_post (p_sq s))
                                  (wqe_image (p_qp s) wr body) /\
    posted (p_sq s) (p_sq s') wr nreq (16 + blen body) /\
    p_qp s' = set_next_fence (set_sq (p_qp s) (p_sq s')) (p_next_fence s) /\
    p_mrs s' = p_mrs s /\ p_next_fence s' = p_next_fence s /\
    p_ctrl s' = Some (mlx5_frag_buf_get_wqe (fbc (p_sq s)) (ring_idx (p_sq s) (64 * cur_post (p_sq s)))))) s.
Proof.
  intros Hrdy He (sges & tb & Eb & Hw & Hgs & Hs & Hlen & Hex & Htb & Hsp & Hwc & Hlso & Hsmi & Hinl & Hfit & Hds) Hov.
  pose proof (transport_mod16 _ _ _ Htb) as Ht16. pose proof Hrdy as (Hwf & Hcp & _).
  set (e := env_of s) in *. unfold post_one. apply wp_get.
  assert (Hop : (mlx5_ib_opcode_size <=? u32 (opcode wr)) = false).
  { apply is_op_In in Hw. simpl in Hw. destruct Hw as [<-|[<-|[<-|[<-|[<-|[<-|[]]]]]]]; done. }
  rewrite Hop. destruct (Z.ltb_spec (max_gs (p_sq s)) (num_sge wr)); [unfold p_sq in *; lia|].
  eapply wp_ok_seq; [by apply wp_begin|]. intros [] s1 (old8 & Ho & H1).
  set (fl := ctrl_flags _ _ _) in *.
  set (bs := old8 ++ [0; 0; 0; fl] ++ send_ieth wr) in *.
  assert (Hbs : blen bs = 16).
  { unfold bs, blen. rewrite !length_app, Ho, length_send_ieth by done. done. }
  eapply wp_ok_seq; [by apply wp_pick_fence|]. intros f s1' [-> ->].
  assert (Hq1 : p_qp s1 = p_qp s) by apply H1. rewrite Hq1.
  eapply wp_ok_seq; [by apply (wp_put_wr_data e He)|]. intros [] s2 H2.
  set (e1 := env_wr_data e 0) in *.
  assert (He1 : env_ok e1) by exact He.
  rewrite Hsp, andb_false_r.
  eapply wp_ok_seq; [apply (wp_ret tt (fun _ s' => s' = s2)); done|]. intros [] s2' ->.
  subst body. rewrite blen_app in Hfit. pose proof (blen_nonneg (payload_bytes host wr sges)).
  eapply wp_ok_seq.
  { apply (wp_transport dev host e1 He1 bs s2 wr nreq _ tb); try done.
    change (ring_bytes (e_sq e1)) with (ring_bytes (qp_sq (p_qp s))). lia. }
  intros n s3 [-> H3].
  assert (Hb3 : blen (bs ++ tb) = 16 + blen tb) by (rewrite blen_app; lia).
  eapply wp_ok_seq.
  { apply (wp_payload host e1 He1 (bs ++ tb) s3 wr sges); try done.
    - rewrite Hb3. dlia.
    - rewrite Hb3. change (ring_bytes (e_sq e1)) with (ring_bytes (qp_sq (p_qp s))). lia. }
  intros [] s4 H4. set (pl := payload_bytes host wr sges) in *.
  unfold post_end. apply wp_mod_seq.
  set (e2 := env_next_fence e1 (p_next_fence s)). assert (He2 : env_ok e2) by exact He.
  assert (H5 : building e2 ((bs ++ tb) ++ pl) (blen ((bs ++ tb) ++ pl))
    (blen (bs ++ tb) + 16 * ((blen pl + 15) / 16))
    (with_qp s4 (set_next_fence (p_qp s4) (p_next_fence s4)))).
  { destruct H4 as (Hq4 & ? & Hnf4 & ? & ? & ? & ? & ? & ? & ? & ?). unfold building; simpl.
    rewrite Hq4, Hnf4. split_and!; first [assumption|reflexivity|lia]. }
  set (s5 := with_qp s4 _) in *.
  assert (Hsz : wqe_sz (p_cur s5) = wqe_ds (tb ++ pl)).
  { destruct H5 as (_ & _ & _ & _ & _ & _ & Hsz & _). unfold wqe_ds. rewrite blen_app. dlia. }
  assert (Hb5 : blen ((bs ++ tb) ++ pl) = 16 + blen (tb ++ pl)) by (rewrite !blen_app; lia).
  pose proof (blen_nonneg (tb ++ pl)) as Hb0.
  eapply wp_ok_seq.
  { apply (wp_finish e2 He2 _ _ _ _ _ _ _ _ H5).
    - rewrite Hb5. change (ring_bytes (e_sq e2)) with (ring_bytes (qp_sq (p_qp s))).
      rewrite <- blen_app in Hfit. lia.
    - unfold bs. rewrite <- !app_assoc, app_nth2, Ho by lia. done.
    - rewrite Hsz. split; [unfold wqe_ds; dlia|done]. }
  intros [] s6 (Hq6 & Hm6 & Hn6 & Hmm6 & Hs6 & Hb6 & Hc6). apply wp_get.
  assert (test (qp_flags (p_qp s6)) MLX5_IB_QP_WC_TEST = false) as -> by (rewrite Hq6; exact Hwc).
  apply wp_ret. split; [done|]. split; [|split; [|split; [|done]]].
  - rewrite Hb6. unfold bs. rewrite <- !app_assoc, finish_image by (done || by apply length_send_ieth).
    rewrite Hsz. reflexivity.
  - unfold p_sq at 2. rewrite Hq6. apply (finish_posted e He); try done; [lia| |].
    + rewrite <- Hb5. apply H5.
    + rewrite Hsz. unfold DIV_ROUND_UP, MLX5_SEND_WQE_BB, blocks, wqe_ds. dlia.
  - unfold p_sq. rewrite Hq6. reflexivity.
Qed.

(** ** Chains of requests *)

(** The queue pair with its producer counter at [post] and fence [nf]. *)
Definition at_post (q : mlx5_ib_qp) (post nf : Z) : mlx5_ib_qp :=
  set_next_fence (set_sq q
    {| fbc := fbc (qp_sq q); wrid := wrid (qp_sq q); wr_data := wr_data (qp_sq q);
       w_list_opcode := w_list_opcode (qp_sq q); w_list_next := w_list_next (qp_sq q);
       wqe_head := wqe_head (qp_sq q); wqe_cnt := wqe_cnt (qp_sq q); max_post := max_post (qp_sq q);
       max_gs := max_gs (qp_sq q); wq_offset := wq_offset (qp_sq q);
       wqe_shift := wqe_shift (qp_sq q); head := head (qp_sq q); tail := tail (qp_sq q);
       cur_post := post; last_poll := last_poll (qp_sq q); cur_edge := cur_edge (qp_sq q) |}) nf.

Definition wqe_blocks (body : list Z) : Z := blocks (16 + blen body).
Definition total_blocks (bodies : list (list Z)) : Z := foldr (fun b n => wqe_blocks b + n) 0 bodies.

(** The ring [f] holds the images of the requests one after the other, the
    first at counter [post]. *)
Fixpoint ring_holds (q : mlx5_ib_qp) (f : Z -> Z) (post nf nf' : Z) (l : list (ib_send_wr * list Z))
    : Prop :=
  match l with
  | [] => True
  | (wr, body) :: r =>
      ring_bytes_at (qp_sq q) f (64 * post) (length (wqe_image (at_post q post nf) wr body))
      = wqe_image (at_post q post nf) wr body /\
      ring_holds q f (u16 (post + wqe_blocks body)) nf' nf' r
  end.

Lemma wqe_blocks_pos body : 1 <= wqe_blocks body.
Proof. unfold wqe_blocks, blocks. pose proof (blen_nonneg body). dlia. Qed.

Lemma total_blocks_nonneg bodies : 0 <= total_blocks bodies.
Proof. induction bodies as [|b r IH]; simpl; [lia|]. pose proof (wqe_blocks_pos b). lia. Qed.

Lemma length_image q wr body :
  length (ex wr) = 4%nat -> Z.of_nat (length (wqe_image q wr body)) = 16 + blen body.
Proof.
  intros He. unfold wqe_image, ctrl_bytes, be32, blen.
  rewrite !length_app, !length_be_bytes, length_send_ieth by done. simpl. lia.
Qed.

(** Ring positions do not see the wrap of the 16-bit counter. *)
Lemma post_wrap sq x : sq_wf sq -> (64 * u16 x) mod ring_bytes sq = (64 * x) mod ring_bytes sq.
Proof.
  intros (Hf & _ & H15 & Hc & _). unfold ring_bytes. rewrite Hc.
  destruct Hf as (_ & Hz & _). pose proof (pow2_pos (log_sz (fbc sq))).
  rewrite !Z.mul_mod_distr_l by lia. f_equal. apply u16_mod. lia.
Qed.

(** Distance of a buffer address from ring position [P]. *)
Definition dist (sq : mlx5_ib_wq) (P k : Z) : Z := (k - ring_base sq - P) mod ring_bytes sq.
Definition in_ring (sq : mlx5_ib_wq) (k : Z) : Prop :=
  ring_base sq <= k < ring_base sq + ring_bytes sq.

Lemma dist_shift sq (Hwf : sq_wf sq) P k n :
  0 <= n <= ring_bytes sq ->
  dist sq (P + n) k = if dist sq P k <? n then dist sq P k - n + ring_bytes sq else dist sq P k - n.
Proof.
  intros Hn. pose proof (wqe_cnt_range sq Hwf). unfold dist.
  assert (Hpos : 0 < ring_bytes sq) by (unfold ring_bytes; lia).
  pose proof (Z.mod_pos_bound (k - ring_base sq - P) (ring_bytes sq) Hpos).
  replace (k - ring_base sq - (P + n)) with (k - ring_base sq - P - n) by lia.
  rewrite <- (Zminus_mod_idemp_l _ n). zcases; [symmetry; apply Z.mod_unique with (-1); lia|].
  apply Z.mod_small. lia.
Qed.

Lemma dist_mod sq P P' k :
  P mod ring_bytes sq = P' mod ring_bytes sq -> dist sq P k = dist sq P' k.
Proof. intros E. unfold dist. by rewrite <- Zminus_mod_idemp_r, E, Zminus_mod_idemp_r. Qed.

Lemma dist_at sq (Hwf : sq_wf sq) P i :
  0 <= i < ring_bytes sq ->
  in_ring sq (ring_base sq + (P + i) mod ring_bytes sq) /\
  dist sq P (ring_base sq + (P + i) mod ring_bytes sq) = i.
Proof.
  intros Hi. pose proof (Z.mod_pos_bound (P + i) (ring_bytes sq) ltac:(lia)). split; [unfold in_ring; lia|].
  unfold dist. replace (ring_base sq + (P + i) mod ring_bytes sq - ring_base sq - P)
    with ((P + i) mod ring_bytes sq - P) by lia.
  rewrite Zminus_mod_idemp_l. replace (P + i - P) with i by lia. apply Z.mod_small. lia.
Qed.

(** The counter at which the last of the WQEs starts. *)
Fixpoint last_post (post : Z) (bodies : list (list Z)) : Z :=
  match bodies with
  | [] | [_] => post
  | b :: r => last_post (u16 (post + wqe_blocks b)) r
  end.

Lemma plain_wr_static dev host q q' wr body :
  qp_type q' = qp_type q -> qp_flags q' = qp_flags q -> port q' = port q ->
  max_inline_data q' = max_inline_data q -> max_gs (qp_sq q') = max_gs (qp_sq q) ->
  wqe_cnt (qp_sq q') = wqe_cnt (qp_sq q) ->
  plain_wr dev host q wr body -> plain_wr dev host q' wr body.
Proof.
  unfold plain_wr, transport_bytes, ring_bytes. intros -> -> -> -> -> ->. done.
Qed.

Lemma ring_holds_static q q' f post nf nf' l :
  fbc (qp_sq q') = fbc (qp_sq q) -> wqe_cnt (qp_sq q') = wqe_cnt (qp_sq q) ->
  qpn q' = qpn q -> wq_sig_en q' = wq_sig_en q -> sq_signal_bits q' = sq_signal_bits q ->
  ring_holds q' f post nf nf' l -> ring_holds q f post nf nf' l.
Proof.
  intros Hf Hc Hn Hs Hb. revert post nf. induction l as [|[wr body] r IH]; intros post nf; [done|].
  cbn [ring_holds]. intros [H1 H2]. split; [|by apply IH].
  assert (E : wqe_image (at_post q' post nf) wr body = wqe_image (at_post q post nf) wr body).
  { unfold wqe_image, ctrl_bytes, fence_of, ctrl_flags; simpl. by rewrite Hn, Hs, Hb. }
  rewrite E in H1. unfold ring_bytes_at, ring_base, ring_bytes in *. by rewrite Hf, Hc in H1.
Qed.

(** What a chain of requests leaves behind. *)
Definition chain_done (s s' : pst) (l : list (ib_send_wr * list Z)) : Prop :=
  let sq := p_sq s in
  let P := 64 * cur_post sq in
  let total := total_blocks (snd <$> l) in
  fm_size (p_mem s') = fm_size (p_mem s) /\
  (forall k, ~ in_ring sq k \/ 64 * total <= dist sq P k -> fm_byte (p_mem s') k = fm_byte (p_mem s) k) /\
  ring_holds (p_qp s) (fm_byte (p_mem s')) (cur_post sq) (next_fence (p_qp s)) (p_next_fence s) l /\
  sq_ready (p_sq s') /\ cur_post (p_sq s') = u16 (cur_post sq + total) /\
  fbc (p_sq s') = fbc sq /\ wqe_cnt (p_sq s') = wqe_cnt sq /\ max_post (p_sq s') = max_post sq /\
  max_gs (p_sq s') = max_gs sq /\ head (p_sq s') = head sq /\ tail (p_sq s') = tail sq /\
  last_poll (p_sq s') = last_poll sq /\
  p_qp s' = set_next_fence (set_sq (p_qp s) (p_sq s'))
              match l with [] => next_fence (p_qp s) | _ => p_next_fence s end /\
  p_ctrl s' = match l with
              | [] => p_ctrl s
              | _ => Some (mlx5_frag_buf_get_wqe (fbc sq)
                       (ring_idx sq (64 * last_post (cur_post sq) (snd <$> l))))
              end.

(** The tracking arrays at index [i]. *)
Definition track (sq : mlx5_ib_wq) (i : Z) : Z * Z * Z * Z * Z :=
  (wrid sq i, wqe_head sq i, w_list_next sq i, w_list_opcode sq i, wr_data sq i).

(** The arrays describe the requests, the first at counter [post], request
    number [h] of the queue. *)
Fixpoint tracked (sq : mlx5_ib_wq) (post h : Z) (l : list (ib_send_wr * list Z)) : Prop :=
  match l with
  | [] => True
  | (wr, body) :: r =>
      track sq (post mod wqe_cnt sq)
      = (wr_id wr, u32 h, u16 (post + wqe_blocks body),
         u16 (mlx5_ib_opcode (opcode wr)), 0) /\
      tracked sq (u16 (post + wqe_blocks body)) (h + 1) r
  end.

Definition chain_tracked (sq sq' : mlx5_ib_wq) (n : Z) (l : list (ib_send_wr * list Z)) : Prop :=
  tracked sq' (cur_post sq) (head sq + n) l /\
  forall i, 0 <= i < wqe_cnt sq -> total_blocks (snd <$> l) <= (i - cur_post sq) mod wqe_cnt sq ->
    track sq' i = track sq i.

Lemma ring_idx_post sq post : ring_idx sq (64 * post) = post mod wqe_cnt sq.
Proof. unfold ring_idx. by rewrite Z.mul_comm, Z.div_mul. Qed.

Lemma chain_tracked_ext sq sq1 sq2 n l :
  wqe_cnt sq2 = wqe_cnt sq1 -> (forall i, track sq2 i = track sq1 i) ->
  chain_tracked sq sq1 n l -> chain_tracked sq sq2 n l.
Proof.
  intros Hc Ht [H1 H2]. split; [|intros i Hi Hd; rewrite Ht; auto].
  revert H1. generalize (cur_post sq) (head sq + n). clear -Hc Ht.
  induction l as [|[wr body] r IH]; [done|]. intros post h; cbn [tracked]. rewrite Hc, Ht.
  intros [? ?]. auto.
Qed.

Lemma posted_track sq sq' wr nreq n i :
  posted sq sq' wr nreq n ->
  track sq' i = if i =? cur_post sq mod wqe_cnt sq
                then (wr_id wr, u32 (head sq + nreq), u16 (cur_post sq + blocks n),
                      u16 (mlx5_ib_opcode (opcode wr)), 0)
                else track sq i.
Proof.
  unfold posted. rewrite ring_idx_post.
  intros (_ & Hp & _ & _ & _ & _ & _ & _ & _ & H1 & H2 & H3 & H4 & H5).
  unfold track. rewrite H1, H2, H3, H4, H5, Hp. unfold upd. by case_match.
Qed.

Lemma tracked_cons sq sq1 sq2 wr nreq body r :
  sq_wf sq -> total_blocks (body :: (snd <$> r)) <= wqe_cnt sq ->
  wqe_cnt sq2 = wqe_cnt sq ->
  posted sq sq1 wr nreq (16 + blen body) -> chain_tracked sq1 sq2 (nreq + 1) r ->
  chain_tracked sq sq2 nreq ((wr, body) :: r).
Proof.
  intros Hwf Htot Hc2 Hp [Ht Hrest]. pose proof (wqe_cnt_range _ Hwf) as Hc.
  pose proof (fun i => posted_track _ _ _ _ _ i Hp) as Htr.
  destruct Hp as (_ & Hcp & _ & Hw & _ & _ & Hh & _). fold (wqe_blocks body) in Hcp, Htr.
  pose proof (wqe_blocks_pos body) as Hb. pose proof (total_blocks_nonneg (snd <$> r)).
  change (wqe_blocks body + total_blocks (snd <$> r) <= wqe_cnt sq) in Htot.
  assert (Hmod : forall i, (i - cur_post sq1) mod wqe_cnt sq = (i - cur_post sq - wqe_blocks body) mod wqe_cnt sq).
  { intros i. rewrite Hcp. destruct Hwf as (Hf & _ & H15 & Hcc & _). rewrite Hcc.
    destruct Hf as (_ & Hz & _). rewrite <- Zminus_mod_idemp_r, u16_mod, Zminus_mod_idemp_r by lia.
    f_equal. lia. }
  assert (Hstep : forall i, total_blocks (snd <$> r) <= (i - cur_post sq1) mod wqe_cnt sq ->
            0 <= i < wqe_cnt sq -> track sq2 i = track sq1 i).
  { intros i Hi Hr. apply Hrest; rewrite Hw; done. }
  split.
  - cbn [tracked]. rewrite Hc2, Hcp, Hh, Z.add_assoc in *. split; [|done].
    rewrite Hstep, Htr, Z.eqb_refl; [done| |apply Z.mod_pos_bound; lia].
    rewrite Hmod, (Z.mod_eq (cur_post sq)) by lia.
    rewrite <- (Z.mod_unique _ (wqe_cnt sq) (- (cur_post sq / wqe_cnt sq) - 1) (wqe_cnt sq - wqe_blocks body)); lia.
  - cbn [fmap list_fmap snd]. intros i Hi Hd.
    change (wqe_blocks body + total_blocks (snd <$> r) <= (i - cur_post sq) mod wqe_cnt sq) in Hd.
    rewrite Hstep, Htr; [|rewrite Hmod, <- Zminus_mod_idemp_l, Z.mod_small|done].
    + zcases; [|done]. subst i. rewrite Zminus_mod_idemp_l, Z.sub_diag, Z.mod_0_l in Hd; lia.
    + lia.
    + pose proof (Z.mod_pos_bound (i - cur_post sq) (wqe_cnt sq)). lia.
Qed.

Lemma overflow_false sq nreq :
  0 <= nreq -> u32 (head sq - tail sq) + nreq < max_post sq < 2 ^ 31 ->
  mlx5_wq_overflow sq nreq = false.
Proof.
  intros Hn H. pose proof (u32_range (head sq - tail sq)). unfold mlx5_wq_overflow.
  rewrite (u32_small (_ + nreq)), (u32_small (max_post sq)) by lia.
  destruct (Z.ltb_spec (u32 (head sq - tail sq) + nreq) (max_post sq)); [done|lia].
Qed.

Lemma ring_bytes_at_put sq (Hwf : sq_wf sq) f g P bs n :
  (forall k, in_ring sq k -> dist sq P k < Z.of_nat (length bs) -> g k = ring_put sq f P bs k) ->
  Z.of_nat (length bs) <= ring_bytes sq -> n = length bs -> ring_bytes_at sq g P n = bs.
Proof.
  intros Hg Hn ->. apply nth_ext with 0 0; [apply length_ring_bytes_at|].
  intros i Hi. rewrite length_ring_bytes_at in Hi. rewrite nth_ring_bytes_at by done.
  destruct (dist_at sq Hwf P (Z.of_nat i)) as [Hk Hd]; [lia|].
  rewrite Hg by (rewrite ?Hd; auto; lia). rewrite ring_put_at by lia. f_equal. lia.
Qed.

Section Chain.
Context (dev : mlx5_ib_dev) (host : Z -> Z).

(** The state after one request, as post_one_plain describes it. *)
Definition one_done (s s' : pst) (wr : ib_send_wr) (nreq : Z) (body : list Z) : Prop :=
  fm_size (p_mem s') = fm_size (p_mem s) /\
  fm_byte (p_mem s') ≐ ring_put (p_sq s) (fm_byte (p_mem s)) (64 * cur_post (p_sq s))
                                (wqe_image (p_qp s) wr body) /\
  posted (p_sq s) (p_sq s') wr nreq (16 + blen body) /\
  p_qp s' = set_next_fence (set_sq (p_qp s) (p_sq s')) (p_next_fence s) /\
  p_mrs s' = p_mrs s /\ p_next_fence s' = p_next_fence s /\
  p_ctrl s' = Some (mlx5_frag_buf_get_wqe (fbc (p_sq s)) (ring_idx (p_sq s) (64 * cur_post (p_sq s)))).

Lemma chain_cons s s1 s2 wr nreq body r :
  sq_ready (p_sq s) -> length (ex wr) = 4%nat ->
  total_blocks (body :: (snd <$> r)) <= wqe_cnt (p_sq s) ->
  one_done s s1 wr nreq body -> chain_done s1 s2 r -> chain_done s s2 ((wr, body) :: r).
Proof.
  intros (Hwf & Hcp & _) Hex Htot H1 H2. cbn [total_blocks foldr] in Htot.
  fold (total_blocks (snd <$> r)) in Htot.
  pose proof (wqe_blocks_pos body). pose proof (total_blocks_nonneg (snd <$> r)).
  destruct H1 as (Hs1 & Hb1 & Hp & Hq1 & _ & Hn1 & Hc1).
  destruct Hp as (_ & Hcp1 & Hf1 & Hw1 & Hmp1 & Hg1 & Hh1 & Ht1 & Hlp1 & _).
  destruct H2 as (Hs2 & Hb2 & Hh2 & Hr2 & Hcp2 & Hf2 & Hw2 & Hmp2 & Hg2 & Hhd2 & Htl2 & Hlp2 & Hq2 & Hc2).
  fold (wqe_blocks body) in Hcp1. set (sq := p_sq s) in *. set (P := 64 * cur_post sq) in *.
  assert (Hlen : Z.of_nat (length (wqe_image (p_qp s) wr body)) = 16 + blen body) by by apply length_image.
  assert (Hlb : 16 + blen body <= 64 * wqe_blocks body) by (unfold wqe_blocks, blocks; dlia).
  assert (Hrb : ring_bytes sq = 64 * wqe_cnt sq) by done.
  (* addresses and positions of the rest of the chain, seen from this queue *)
  assert (Hdist : forall k, dist (p_sq s1) (64 * cur_post (p_sq s1)) k = dist sq (P + 64 * wqe_blocks body) k).
  { intros k. rewrite Hcp1. transitivity (dist sq (64 * u16 (cur_post sq + wqe_blocks body)) k).
    - unfold dist, ring_base, ring_bytes. by rewrite Hf1, Hw1.
    - apply dist_mod. rewrite post_wrap by done. f_equal. unfold P. lia. }
  assert (Hring : forall k, in_ring (p_sq s1) k <-> in_ring sq k).
  { intros k. unfold in_ring, ring_base, ring_bytes. by rewrite Hf1, Hw1. }
  assert (Hd0 : forall k, 0 <= dist sq P k < ring_bytes sq).
  { intros k. apply Z.mod_pos_bound. pose proof (wqe_cnt_range sq Hwf). unfold ring_bytes. lia. }
  unfold chain_done. cbn [fmap list_fmap snd]. fold sq P.
  assert (Etot : total_blocks (body :: (snd <$> r)) = wqe_blocks body + total_blocks (snd <$> r)) by done.
  rewrite Etot.
  split; [congruence|]. split; [|split; [|split; [done|]]].
  - intros k Hk. pose proof (Hd0 k) as Hdk.
    rewrite Hb2, Hb1.
    + apply ring_put_out. change ((k - ring_base sq - P) mod ring_bytes sq) with (dist sq P k).
      unfold in_ring in Hk. lia.
    + rewrite Hring, Hdist, dist_shift by (done || lia).
      destruct Hk as [Hk|Hk]; [by left|right]. zcases; lia.
  - cbn [ring_holds]. split.
    + assert (Ei : wqe_image (at_post (p_qp s) (cur_post sq) (next_fence (p_qp s))) wr body
                   = wqe_image (p_qp s) wr body) by done.
      rewrite Ei. apply (ring_bytes_at_put sq Hwf (fm_byte (p_mem s))); [|lia|done].
      intros k Hk Hd. fold P in Hd |- *. rewrite Hb2, Hb1; [done|].
      right. rewrite Hdist, dist_shift by (done || lia). pose proof (Hd0 k). zcases; lia.
    + apply (ring_holds_static (p_qp s) (p_qp s1)); try (by rewrite ?Hq1).
      fold sq in Hh2. rewrite Hcp1, Hn1 in Hh2. rewrite Hq1 in Hh2 at 2. exact Hh2.
  - split_and!; try congruence.
    + rewrite Hcp2, Hcp1. unfold u16. rewrite Zplus_mod_idemp_l. f_equal. lia.
    + rewrite Hq2, Hq1. destruct r; [done|]. by rewrite Hn1.
    + rewrite Hc2. destruct r as [|[wr' body'] r]; [done|]. simpl.
      rewrite Hf1, Hcp1. unfold ring_idx. by rewrite Hw1.
Qed.

(** The request loop on data-path requests: every request is accepted. *)
Lemma post_loop_plain l nreq s :
  sq_ready (p_sq s) -> env_ok (env_of s) ->
  Forall (fun '(wr, body) => plain_wr dev host (p_qp s) wr body) l ->
  u32 (head (p_sq s) - tail (p_sq s)) + Z.of_nat nreq + Z.of_nat (length l) <= max_post (p_sq s) < 2 ^ 31 ->
  total_blocks (snd <$> l) <= wqe_cnt (p_sq s) ->
  exists s', post_loop dev host nreq (fst <$> l) s = Some (0, None, (nreq + length l)%nat, s') /\
             chain_done s s' l /\ chain_tracked (p_sq s) (p_sq s') (Z.of_nat nreq) l.
Proof.
  revert nreq s; induction l as [|[wr body] r IH]; intros nreq s Hrdy He Hpl Hov Htot.
  { exists s. split; [by rewrite Nat.add_0_r|]. unfold chain_done. simpl.
    destruct Hrdy as (Hwf & Hcp & Hed). rewrite Z.add_0_r, u16_small by done.
    split; [|done]. split; [done|]. split; [done|]. split; [done|]. split; [done|]. split_and!; try done.
    unfold p_sq. by destruct (p_qp s). }
  apply Forall_cons in Hpl as [Hp Hpl]. simpl length in Hov.
  assert (Hof : mlx5_wq_overflow (p_sq s) (Z.of_nat nreq) = false) by (apply overflow_false; lia).
  pose proof (post_one_plain dev host wr (Z.of_nat nreq) s body Hrdy He Hp Hof) as Hone.
  unfold wp in Hone. cbn [fmap list_fmap fst post_loop].
  destruct (post_one dev host wr (Z.of_nat nreq) s) as [[res s1]|]; [|done].
  destruct Hone as (x & -> & Hone). fold (one_done s s1 wr (Z.of_nat nreq) body) in Hone.
  pose proof Hone as (Hs1 & _ & Hpo & Hq1 & _).
  destruct Hpo as (Hr1 & _ & Hf1 & Hw1 & Hmp1 & Hg1 & Hh1 & Ht1 & _).
  assert (Hex : length (ex wr) = 4%nat) by (destruct Hp as (? & ? & ? & ? & ? & ? & ? & ? & _); done).
  pose proof (wqe_blocks_pos body) as Hwb.
  destruct (IH (S nreq) s1) as (s2 & E & Hc & Ht); auto.
  - destruct He as (_ & Hb & Hsz). split; [apply Hr1|]. unfold ring_base, ring_bytes in *.
    unfold e_sq, env_of in *; simpl in *. fold (p_sq s1) (p_sq s) in *. rewrite Hf1, Hw1, Hs1. done.
  - eapply Forall_impl; [exact Hpl|]. intros [wr' body'] H'.
    eapply plain_wr_static; [..|exact H']; try (by rewrite Hq1); done.
  - rewrite Hh1, Ht1, Hmp1. lia.
  - rewrite Hw1. change (wqe_blocks body + total_blocks (snd <$> r) <= wqe_cnt (p_sq s)) in Htot. lia.
  - exists s2. rewrite E. split; [cbn [length]; by rewrite Nat.add_succ_comm|].
    split; [by eapply chain_cons|].
    destruct Hone as (_ & _ & Hpo & _). destruct Hrdy as (Hwf & _).
    destruct Hc as (_ & _ & _ & _ & _ & _ & Hw2 & _).
    replace (Z.of_nat (S nreq)) with (Z.of_nat nreq + 1) in Ht by lia.
    eapply tracked_cons; [done|done|congruence|done|done].
Qed.
End Chain.

(** ** The whole call *)

(** Blocks start inside a fragment: up to 64 bytes are readable there. *)
Lemma load_block m sq (Hwf : sq_wf sq) post n :
  ring_in sq m -> Z.of_nat n <= 64 ->
  load m (mlx5_frag_buf_get_wqe (fbc sq) (ring_idx sq (64 * post))) n
  = Some (ring_bytes_at sq (fm_byte m) (64 * post) n).
Proof.
  intros Hin Hn. pose proof (wqe_cnt_range sq Hwf).
  assert (H0 : (64 * post) mod 64 = 0) by (rewrite Z.mul_comm; by apply Z.mod_mul).
  assert (Hnorm : normal sq (mlx5_frag_buf_get_wqe (fbc sq) (ring_idx sq (64 * post)))
            (get_sq_edge sq (ring_idx sq (64 * post))) (64 * post)).
  { split; [|done]. by rewrite H0, padd_0. }
  destruct (normal_facts sq Hwf _ _ _ Hnorm) as (_ & _ & _ & _ & Hroom & _ & Hfit & _).
  rewrite <- (padd_0 (mlx5_frag_buf_get_wqe _ _)), (load_ring_at sq Hwf m _ _ _ 0 n Hin Hnorm) by lia.
  f_equal. unfold bytes_at, ring_bytes_at. apply list_fmap_ext. intros i x [-> Hx]%lookup_seq.
  f_equal. rewrite <- Zplus_mod_idemp_l, (Z.mod_small (_ mod _ + _)); [lia|].
  pose proof (Z.mod_pos_bound (64 * post) (ring_bytes sq)). unfold ring_bytes in *. lia.
Qed.

(** A call that is accepted, with the requests and the bytes that follow the
    control segment of each of their WQEs. *)
Record accepted (q : mlx5_ib_qp) (m : frag_mem) (l : list (ib_send_wr * list Z))
    (q' : mlx5_ib_qp) (m' : frag_mem) : Prop := {
  acc_size : fm_size m' = fm_size m;
  (* the WQEs, one after the other from the producer counter *)
  acc_ring : ring_holds q (fm_byte m') (cur_post (qp_sq q)) (next_fence q) 0 l;
  (* and nothing else of the buffer *)
  acc_frame : forall k,
    ~ in_ring (qp_sq q) k \/
      64 * total_blocks (snd <$> l) <= dist (qp_sq q) (64 * cur_post (qp_sq q)) k ->
    fm_byte m' k = fm_byte m k;
  acc_tracked : chain_tracked (qp_sq q) (qp_sq q') 0 l;
  acc_post : cur_post (qp_sq q') = u16 (cur_post (qp_sq q) + total_blocks (snd <$> l));
  acc_head : head (qp_sq q') = u32 (head (qp_sq q) + Z.of_nat (length l));
  acc_tail : tail (qp_sq q') = tail (qp_sq q);
  acc_ready : sq_ready (qp_sq q');
  acc_same : fbc (qp_sq q') = fbc (qp_sq q) /\ wqe_cnt (qp_sq q') = wqe_cnt (qp_sq q) /\
             max_post (qp_sq q') = max_post (qp_sq q) /\ last_poll (qp_sq q') = last_poll (qp_sq q);
  acc_static : (qp_type q', qp_flags q', qpn q', port q', sq_signal_bits q', wq_sig_en q',
                max_inline_data q', max_gs (qp_sq q'))
    = (qp_type q, qp_flags q, qpn q, port q, sq_signal_bits q, wq_sig_en q,
       max_inline_data q, max_gs (qp_sq q));
  acc_fence : next_fence q' = 0;
  (* the doorbell record, then the first eight bytes of the last WQE *)
  acc_db : db_snd q' = be32 (cur_post (qp_sq q'));
  acc_mmio : mmio q' = mmio q ++
    [(bf_offset q, ring_bytes_at (qp_sq q) (fm_byte m') (64 * last_post (cur_post (qp_sq q)) (snd <$> l)) 8)];
  acc_bf : bf_offset q' = Z.lxor (bf_offset q) (bf_buf_size q);
}.

(** The requests before a refused one are posted. *)
Lemma post_loop_refused dev host l wr rest nreq s s1 e :
  post_loop dev host nreq l s = Some (0, None, (nreq + length l)%nat, s1) ->
  post_one dev host wr (Z.of_nat (nreq + length l)) s1 = Some (Err e true, s1) ->
  post_loop dev host nreq (l ++ wr :: rest) s = Some (e, Some (nreq + length l)%nat, (nreq + length l)%nat, s1).
Proof.
  revert nreq s. induction l as [|w l IH]; intros nreq s H1 H2; simpl in *.
  { rewrite Nat.add_0_r in *. injection H1 as ->. by rewrite H2. }
  rewrite Nat.add_succ_r in *.
  destruct (post_one dev host w (Z.of_nat nreq) s) as [[[]]|]; [|injection H1; lia|done].
  by apply (IH (S nreq)).
Qed.

(** Why the [n]-th request of a call is refused before it touches the ring. *)
Definition refused (q : mlx5_ib_qp) (n : nat) (wr : ib_send_wr) : option Z :=
  if mlx5_ib_opcode_size <=? u32 (opcode wr) then Some (- EINVAL)
  else if max_gs (qp_sq q) <? num_sge wr then Some (- EINVAL)
  else if max_post (qp_sq q) <=? u32 (head (qp_sq q) - tail (qp_sq q)) + Z.of_nat n
  then Some (- ENOMEM) else None.

Lemma post_one_refused dev host wr n e s :
  u32 (head (p_sq s) - tail (p_sq s)) + Z.of_nat n < 2 ^ 32 -> 0 <= max_post (p_sq s) < 2 ^ 32 ->
  refused (p_qp s) n wr = Some e -> post_one dev host wr (Z.of_nat n) s = Some (Err e true, s).
Proof.
  intros Hn Hm. pose proof (u32_range (head (p_sq s) - tail (p_sq s))).
  unfold refused, post_one, mlet, mget. fold (p_sq s). case_match; [by intros [= <-]|].
  case_match; [by intros [= <-]|]. unfold begin_wqe, begin_wqe_, mlet, mget, mlx5_wq_overflow.
  rewrite (u32_small (_ + _)), (u32_small (max_post _)) by lia.
  destruct (Z.leb_spec (max_post (p_sq s)) (u32 (head (p_sq s) - tail (p_sq s)) + Z.of_nat n)); [|done].
  intros [= <-]. destruct (Z.ltb_spec (u32 (head (p_sq s) - tail (p_sq s)) + Z.of_nat n) (max_post (p_sq s))); [lia|].
  done.
Qed.

(** The state post_send starts its loop in. *)
Definition entry (q : mlx5_ib_qp) (m : frag_mem) (mrs : Z -> mlx5_ib_mr) : pst :=
  mkpst q m mrs (mkcursor (mkptr 0 0) 0 (mkptr 0 0)) None 0 0 (zeros 64).

Section Whole.
Context (dev : mlx5_ib_dev) (host : Z -> Z) (gsi : mlx5_ib_qp -> list ib_send_wr -> Z * option nat).
Context (q : mlx5_ib_qp) (m : frag_mem) (mrs : Z -> mlx5_ib_mr) (l : list (ib_send_wr * list Z)).

Lemma doorbell_accepted s1 :
  l <> [] -> sq_wf (qp_sq q) -> ring_in (qp_sq q) m ->
  Forall (fun '(wr, body) => plain_wr dev host q wr body) l ->
  chain_done (entry q m mrs) s1 l -> chain_tracked (qp_sq q) (p_sq s1) 0 l ->
  exists s', ring_doorbell (length l) s1 = Some s' /\ accepted q m l (p_qp s') (p_mem s').
Proof.
  intros Hl Hwf Hin Hpl (Hs & Hb & Hh & Hr & Hcp & Hf & Hw & Hmp & Hmg & Hhd & Htl & Hlp & Hq & Hctl) Ht.
  set (s := entry q m mrs) in *. change (p_sq s) with (qp_sq q) in *.
  assert (Hwc : test (qp_flags (p_qp s1)) MLX5_IB_QP_WC_TEST = false).
  { rewrite Hq; simpl. destruct l as [|[wr body] l']; [done|].
    apply Forall_cons in Hpl as [(? & ? & H) _]. apply H. }
  assert (Hin1 : ring_in (qp_sq q) (p_mem s1)) by (unfold ring_in in *; by rewrite Hs).
  assert (Hc : p_ctrl s1 = Some (mlx5_frag_buf_get_wqe (fbc (qp_sq q))
            (ring_idx (qp_sq q) (64 * last_post (cur_post (qp_sq q)) (snd <$> l))))) by by destruct l.
  unfold ring_doorbell. assert ((length l =? 0)%nat = false) as -> by by destruct l.
  rewrite Hwc, Hc; simpl. rewrite load_block by done. simpl.
  assert (Hq' : p_qp s1 = set_next_fence (set_sq q (p_sq s1)) 0) by (rewrite Hq; by destruct l).
  eexists. split; [done|]. split; simpl; try done.
  - by apply chain_tracked_ext with (p_sq s1).
  - fold (p_sq s1). by rewrite Hhd.
  - change (max_gs (qp_sq (p_qp s1))) with (max_gs (p_sq s1)). rewrite Hmg, Hq'. done.
  - by rewrite Hq'.
  - rewrite Hq' at 1 2. done.
  - by rewrite Hq'.
Qed.

Lemma loop_accepted :
  sq_ready (qp_sq q) -> ring_in (qp_sq q) m ->
  Forall (fun '(wr, body) => plain_wr dev host q wr body) l ->
  u32 (head (qp_sq q) - tail (qp_sq q)) + Z.of_nat (length l) <= max_post (qp_sq q) < 2 ^ 31 ->
  total_blocks (snd <$> l) <= wqe_cnt (qp_sq q) ->
  exists s1, post_loop dev host 0 (fst <$> l) (entry q m mrs) = Some (0, None, length l, s1) /\
    chain_done (entry q m mrs) s1 l /\ chain_tracked (qp_sq q) (p_sq s1) 0 l.
Proof.
  intros Hrdy Hin Hpl Hcap Htot.
  apply (post_loop_plain dev host l 0 (entry q m mrs)); auto; [|unfold p_sq; simpl; lia].
  split; [apply Hrdy|exact Hin].
Qed.

Lemma post_send_unfold wrs :
  internal_error dev = false -> qp_type q <> IB_QPT_GSI ->
  mlx5_ib_post_send dev host gsi q m mrs wrs =
  ('(e, bad, nreq, s) ← post_loop dev host 0 wrs (entry q m mrs);
   s ← ring_doorbell nreq s; Some (e, bad, s)).
Proof.
  intros Hie Hgsi. unfold mlx5_ib_post_send, post_send_. rewrite Hie.
  assert (qpt_eqb (qp_type q) IB_QPT_GSI = false) as -> by (by destruct (qp_type q)). done.
Qed.

(** C1. A call of post_send with data-path requests that fit the queue is
    accepted as a whole: it returns 0 and sets no bad_wr; the ring holds the
    WQE image of each request, one after the other across fragment edges and
    the end of the ring, and no other byte of the buffer changes; the tracking
    arrays name the requests; the producer counter moves by the blocks used
    and the head by the requests; the doorbell record holds the new counter
    and the doorbell register gets the first eight bytes of the last WQE. *)
Theorem post_send_accepted :
  internal_error dev = false -> qp_type q <> IB_QPT_GSI -> l <> [] ->
  sq_ready (qp_sq q) -> ring_in (qp_sq q) m ->
  Forall (fun '(wr, body) => plain_wr dev host q wr body) l ->
  u32 (head (qp_sq q) - tail (qp_sq q)) + Z.of_nat (length l) <= max_post (qp_sq q) < 2 ^ 31 ->
  total_blocks (snd <$> l) <= wqe_cnt (qp_sq q) ->
  exists s', mlx5_ib_post_send dev host gsi q m mrs (fst <$> l) = Some (0, None, s') /\
             accepted q m l (p_qp s') (p_mem s').
Proof.
  intros Hie Hgsi Hl Hrdy Hin Hpl Hcap Htot. rewrite post_send_unfold by done.
  destruct loop_accepted as (s1 & E & Hc & Ht); auto. rewrite E; simpl.
  destruct (doorbell_accepted s1) as (s' & -> & Hacc); auto; [apply Hrdy|]. by exists s'.
Qed.

Lemma stopped_call wr rest e :
  internal_error dev = false -> qp_type q <> IB_QPT_GSI ->
  sq_ready (qp_sq q) -> ring_in (qp_sq q) m ->
  Forall (fun '(wr, body) => plain_wr dev host q wr body) l ->
  u32 (head (qp_sq q) - tail (qp_sq q)) + Z.of_nat (length l) <= max_post (qp_sq q) < 2 ^ 31 ->
  total_blocks (snd <$> l) <= wqe_cnt (qp_sq q) ->
  refused q (length l) wr = Some e ->
  exists s', mlx5_ib_post_send dev host gsi q m mrs ((fst <$> l) ++ wr :: rest)
             = Some (e, Some (length l), s') /\
             if decide (l = []) then p_qp s' = q /\ p_mem s' = m
             else accepted q m l (p_qp s') (p_mem s').
Proof.
  intros Hie Hgsi Hrdy Hin Hpl Hcap Htot Href. rewrite post_send_unfold by done.
  destruct loop_accepted as (s1 & E & Hc & Ht); auto.
  assert (Hone : post_one dev host wr (Z.of_nat (length l)) s1 = Some (Err e true, s1)).
  { pose proof Hc as (_ & _ & _ & _ & _ & _ & _ & Hmp & Hmg & Hhd & Htl & _).
    pose proof (u32_range (head (qp_sq q) - tail (qp_sq q))).
    change (p_sq (entry q m mrs)) with (qp_sq q) in *.
    apply post_one_refused; rewrite ?Hhd, ?Htl, ?Hmp; [lia..|].
    rewrite <- Href. unfold refused. fold (p_sq s1). by rewrite Hhd, Htl, Hmp, Hmg. }
  pose proof (post_loop_refused dev host (fst <$> l) wr rest 0 (entry q m mrs) s1 e) as Hl.
  rewrite length_fmap in Hl. rewrite Hl by done; simpl. case_decide as Hnil.
  - rewrite Hnil in E |- *. injection E as <-. by exists (entry q m mrs).
  - destruct (doorbell_accepted s1) as (s' & -> & Hacc); auto; [apply Hrdy|]. by exists s'.
Qed.

(** C5. A request that is refused before its WQE is begun (opcode out of
    range, too many SGEs, queue full) stops the call with its error code and
    bad_wr pointing at it; the requests before it are posted exactly as if the
    chain had ended there, and with none before it nothing changes at all. *)
Theorem post_send_refused wr rest e :
  internal_error dev = false -> qp_type q <> IB_QPT_GSI ->
  sq_ready (qp_sq q) -> ring_in (qp_sq q) m ->
  Forall (fun '(wr, body) => plain_wr dev host q wr body) l ->
  u32 (head (qp_sq q) - tail (qp_sq q)) + Z.of_nat (length l) <= max_post (qp_sq q) < 2 ^ 31 ->
  total_blocks (snd <$> l) <= wqe_cnt (qp_sq q) ->
  refused q (length l) wr = Some e ->
  exists s', mlx5_ib_post_send dev host gsi q m mrs ((fst <$> l) ++ wr :: rest)
             = Some (e, Some (length l), s') /\
             if decide (l = []) then p_qp s' = q /\ p_mem s' = m
             else accepted q m l (p_qp s') (p_mem s').
Proof. apply stopped_call. Qed.
End Whole.

(** A reliable-connection queue pair of four blocks whose next WQE starts in
    the last one, and two requests: an inline write that wraps around the end
    of the ring and a send by reference. *)
Definition ex_sq : mlx5_ib_wq :=
  let f := mlx5_init_fbc 0 6 2 in
  {| fbc := f; wrid := fun _ => 0; wr_data := fun _ => 0; w_list_opcode := fun _ => 0;
     w_list_next := fun _ => 0; wqe_head := fun _ => 0; wqe_cnt := 4; max_post := 3; max_gs := 2;
     wq_offset := 0; wqe_shift := 6; head := 2 ^ 32 - 1; tail := 2 ^ 32 - 1; cur_post := 65535;
     last_poll := 0; cur_edge := mkptr 0 256 |}.
Definition ex_qp : mlx5_ib_qp :=
  {| qp_type := IB_QPT_RC; qp_flags := 0; qp_sq := ex_sq; qpn := 71; port := 1; sq_signal_bits := 8;
     next_fence := 0; wq_sig_en := false; max_inline_data := 64; integrity_en := false; pdn := 1;
     local_dma_lkey := 0; bf_buf_size := 256; bf_offset := 0; db_snd := be32 65535; mmio := [] |}.
Definition ex_dev : mlx5_ib_dev :=
  {| internal_error := false; umr_fence := 0; cap_atomic := true;
     umr_modify_entity_size_disabled := false; umr_modify_atomic_disabled := false;
     tunnel_atomic_supported := false; has_smi := fun _ => false |}.
Definition ex_mem : frag_mem := {| fm_size := 4096; fm_byte := fun _ => 0 |}.
Definition ex_host (a : Z) : Z := a mod 256.
Definition ex_write : ib_send_wr :=
  mkwr 11 [mksge 4096 40 1] 1 IB_WR_RDMA_WRITE (IB_SEND_INLINE .| IB_SEND_SIGNALED) (zeros 4)
    (WrRdma 8192 5).
Definition ex_send : ib_send_wr :=
  mkwr 12 [mksge 4096 40 1; mksge 0 0 1] 2 IB_WR_SEND 0 (zeros 4) WrPlain.
Definition ex_bodies : list (ib_send_wr * list Z) :=
  [(ex_write, set_raddr_seg 8192 5 ++ payload_bytes ex_host ex_write [mksge 4096 40 1]);
   (ex_send, payload_bytes ex_host ex_send [mksge 4096 40 1; mksge 0 0 1])].

Definition ex_mr : mlx5_ib_mr := mkmr 256 256 0 4096 4096 0 0 0 1 4096 0 0 8 1 0 0 None None None.

Lemma ex_ready : sq_ready ex_sq.
Proof.
  split; [|split; [simpl; lia|done]]. split; [apply init_fbc_offset_wf; vm_compute; repeat split; done|].
  repeat split; vm_compute; done.
Qed.

Lemma ex_plain : Forall (fun '(wr, body) => plain_wr ex_dev ex_host ex_qp wr body) ex_bodies.
Proof.
  repeat constructor.
  - exists [mksge 4096 40 1], (set_raddr_seg 8192 5). split_and!; try done; repeat constructor; done.
  - exists [mksge 4096 40 1; mksge 0 0 1], []. split_and!; try done; repeat constructor; done.
Qed.

Lemma post_send_accepted_witness :
  exists s', mlx5_ib_post_send ex_dev ex_host (fun _ _ => (0, None)) ex_qp ex_mem (fun _ => ex_mr) (fst <$> ex_bodies)
             = Some (0, None, s') /\ accepted ex_qp ex_mem ex_bodies (p_qp s') (p_mem s').
Proof.
  apply post_send_accepted; try exact ex_ready; try exact ex_plain; try done; vm_compute; split; done.
Defined.

Lemma post_send_refused_witness :
  exists s', mlx5_ib_post_send ex_dev ex_host (fun _ _ => (0, None)) ex_qp ex_mem (fun _ => ex_mr)
               ((fst <$> ex_bodies) ++ [mkwr 13 [] 3 IB_WR_SEND 0 (zeros 4) WrPlain])
             = Some (- EINVAL, Some 2%nat, s') /\
             if decide (ex_bodies = []) then p_qp s' = ex_qp /\ p_mem s' = ex_mem
             else accepted ex_qp ex_mem ex_bodies (p_qp s') (p_mem s').
Proof.
  apply post_send_refused; try exact ex_ready; try exact ex_plain; try done; vm_compute; split; done.
Defined.

(** A ring of one page whose next WQE starts in the last block of the page. *)
Definition edge_sq : mlx5_ib_wq :=
  {| fbc := mlx5_init_fbc 0 6 6; wrid := fun _ => 0; wr_data := fun _ => 0;
     w_list_opcode := fun _ => 0; w_list_next := fun _ => 0; wqe_head := fun _ => 0; wqe_cnt := 64;
     max_post := 16; max_gs := 2; wq_offset := 0; wqe_shift := 6; head := 0; tail := 0;
     cur_post := 63; last_poll := 0; cur_edge := mkptr 0 4096 |}.
Definition edge_qp (t : ib_qp_type) : mlx5_ib_qp :=
  {| qp_type := t; qp_flags := 0; qp_sq := edge_sq; qpn := 71; port := 1; sq_signal_bits := 8;
     next_fence := 0; wq_sig_en := false; max_inline_data := 64; integrity_en := false; pdn := 1;
     local_dma_lkey := 0; bf_buf_size := 256; bf_offset := 0; db_snd := be32 63; mmio := [] |}.
Definition reg_mr_wr : ib_send_wr :=
  mkwr 1 [] 0 IB_WR_REG_MR 0 (zeros 4) (WrReg 0 256 0).

(** A memory registration posted on a DC initiator or XRC initiator queue
    pair writes its 48-byte UMR segment across the end of the fragment when the
    WQE starts in the fragment's last block: the XRC segment before it is
    skipped without a look at the edge.  The same request on a reliable
    connection, with its segment 16 bytes earlier, is posted. *)
Theorem reg_mr_overruns_fragment :
  sq_ready edge_sq /\
  mlx5_ib_post_send ex_dev ex_host (fun _ _ => (0, None)) (edge_qp IB_EXP_QPT_DC_INI) ex_mem
    (fun _ => ex_mr) [reg_mr_wr] = None /\
  mlx5_ib_post_send ex_dev ex_host (fun _ _ => (0, None)) (edge_qp IB_QPT_XRC_INI) ex_mem
    (fun _ => ex_mr) [reg_mr_wr] = None /\
  match mlx5_ib_post_send ex_dev ex_host (fun _ _ => (0, None)) (edge_qp IB_QPT_RC) ex_mem
          (fun _ => ex_mr) [reg_mr_wr] with
  | Some (0, None, s') => cur_post (p_sq s') = 66
  | _ => False
  end.
Proof.
  split; [|split; [by vm_compute|split; by vm_compute]]. split; [|split; [simpl; lia|done]].
  split; [apply init_fbc_offset_wf; vm_compute; repeat split; done|]. repeat split; vm_compute; done.
Qed.
