(* ===== verification/Strides.v ===== *)
(** * Strides: queues of fixed-size entries in a fragmented buffer

    The receive queue, the shared receive queue and the completion queue keep
    one entry per stride.  A stride never crosses a fragment, so an entry is
    read and written at a linear address, and different entries are disjoint. *)

From S2P Require Import Prelude FragBuf.

Section Strides.
Context (c : mlx5_frag_buf_ctrl) (Hwf : fbc_wf c).

Definition stride : Z := 2 ^ log_stride c.
Definition entries : Z := 2 ^ log_sz c.
Definition slot (ix : Z) : Z := fbc_base c + ix * stride.

(** The buffer holds [n] entries; the whole queue. *)
Definition fits_n (n : Z) (m : frag_mem) : Prop :=
  n <= 2 ^ 31 /\ 0 <= fbc_frags c /\ slot n <= fm_size m.
Definition fits (m : frag_mem) : Prop := fits_n entries m.

Lemma stride_pos : 0 < stride.
Proof. apply pow2_pos, Hwf. Qed.

Lemma entries_pos : 0 < entries.
Proof. destruct Hwf as (_ & H & _). apply pow2_pos. lia. Qed.

Lemma slot_in_frag cnt m ix i n :
  fits_n cnt m -> 0 <= ix < cnt -> 0 <= i -> 0 <= n -> i + n <= stride ->
  in_frag m (padd (mlx5_frag_buf_get_wqe c ix) i) n = true /\
  lin (padd (mlx5_frag_buf_get_wqe c ix) i) = slot ix + i.
Proof.
  intros (H31 & Hf & Hm) Hix Hi Hn Hs.
  destruct (get_wqe_lin_any c Hwf ix) as (Hl & Ho & He); [lia|].
  fold stride in He, Hl. rewrite lin_padd, Hl. split; [|done].
  assert (Hpg : 0 <= pg (mlx5_frag_buf_get_wqe c ix)).
  { simpl. apply Z.add_nonneg_nonneg; [done|]. apply Z.shiftr_nonneg. apply u32_range. }
  unfold in_frag. rewrite lin_padd, Hl. cbn [padd pg off].
  assert (slot ix + stride <= slot cnt) by (unfold slot; pose proof stride_pos; nia).
  unfold slot in *. rewrite !andb_true_iff, !Z.leb_le. lia.
Qed.

Lemma store_slot_n cnt m ix i bs :
  fits_n cnt m -> 0 <= ix < cnt -> 0 <= i -> i + Z.of_nat (length bs) <= stride ->
  store m (padd (mlx5_frag_buf_get_wqe c ix) i) bs
  = Some {| fm_size := fm_size m; fm_byte := overlay (fm_byte m) (slot ix + i) bs |}.
Proof.
  intros Hm Hix Hi Hs.
  destruct (slot_in_frag cnt m ix i (Z.of_nat (length bs))) as [E L]; auto; [lia|].
  unfold store. by rewrite E, L.
Qed.

Lemma load_slot_n cnt m ix i n :
  fits_n cnt m -> 0 <= ix < cnt -> 0 <= i -> i + Z.of_nat n <= stride ->
  load m (padd (mlx5_frag_buf_get_wqe c ix) i) n = Some (bytes_at (fm_byte m) (slot ix + i) n).
Proof.
  intros Hm Hix Hi Hs. destruct (slot_in_frag cnt m ix i (Z.of_nat n)) as [E L]; auto; [lia|].
  unfold load. by rewrite E, L.
Qed.

Lemma store_entry_n cnt m ix bs :
  fits_n cnt m -> 0 <= ix < cnt -> Z.of_nat (length bs) <= stride ->
  store m (mlx5_frag_buf_get_wqe c ix) bs
  = Some {| fm_size := fm_size m; fm_byte := overlay (fm_byte m) (slot ix) bs |}.
Proof.
  intros. pose proof (store_slot_n cnt m ix 0 bs) as E. rewrite Z.add_0_r in E.
  unfold padd in E. rewrite Z.add_0_r in E. destruct (mlx5_frag_buf_get_wqe c ix). apply E; auto; lia.
Qed.

Lemma load_entry_n cnt m ix n :
  fits_n cnt m -> 0 <= ix < cnt -> Z.of_nat n <= stride ->
  load m (mlx5_frag_buf_get_wqe c ix) n = Some (bytes_at (fm_byte m) (slot ix) n).
Proof.
  intros. pose proof (load_slot_n cnt m ix 0 n) as E. rewrite Z.add_0_r in E.
  unfold padd in E. rewrite Z.add_0_r in E. destruct (mlx5_frag_buf_get_wqe c ix). apply E; auto; lia.
Qed.

Lemma store_slot m ix i bs :
  fits m -> 0 <= ix < entries -> 0 <= i -> i + Z.of_nat (length bs) <= stride ->
  store m (padd (mlx5_frag_buf_get_wqe c ix) i) bs
  = Some {| fm_size := fm_size m; fm_byte := overlay (fm_byte m) (slot ix + i) bs |}.
Proof. apply store_slot_n. Qed.

Lemma load_slot m ix i n :
  fits m -> 0 <= ix < entries -> 0 <= i -> i + Z.of_nat n <= stride ->
  load m (padd (mlx5_frag_buf_get_wqe c ix) i) n = Some (bytes_at (fm_byte m) (slot ix + i) n).
Proof. apply load_slot_n. Qed.

Lemma slot_disjoint ix jx : 0 <= ix -> 0 <= jx -> ix <> jx -> slot ix + stride <= slot jx \/ slot jx + stride <= slot ix.
Proof. intros. pose proof stride_pos. unfold slot. nia. Qed.

(** An entry written elsewhere is not seen. *)
Lemma bytes_at_other f ix jx i j n bs :
  0 <= ix -> 0 <= jx -> ix <> jx -> 0 <= i -> i + Z.of_nat n <= stride ->
  0 <= j -> j + Z.of_nat (length bs) <= stride ->
  bytes_at (overlay f (slot jx + j) bs) (slot ix + i) n = bytes_at f (slot ix + i) n.
Proof.
  intros ? ? Hne ? ? ? ?. apply bytes_at_ext. intros k Hk. apply overlay_out.
  destruct (slot_disjoint ix jx); auto; lia.
Qed.
End Strides.

(** Adjacent writes are one write. *)
Lemma overlay_app f a xs ys :
  overlay (overlay f a xs) (a + Z.of_nat (length xs)) ys ≐ overlay f a (xs ++ ys).
Proof.
  intros k. unfold overlay. rewrite length_app.
  destruct (Z.leb_spec a k); simpl; [|zcases; simpl; lia || done].
  destruct (Z.ltb_spec k (a + Z.of_nat (length xs))).
  - rewrite (proj2 (Z.leb_gt _ _)) by lia. simpl.
    rewrite (proj2 (Z.ltb_lt k (a + Z.of_nat (length xs + length ys)))) by lia.
    rewrite app_nth1 by lia. done.
  - rewrite (proj2 (Z.leb_le _ _)) by lia. simpl.
    destruct (Z.ltb_spec k (a + Z.of_nat (length xs) + Z.of_nat (length ys))).
    + rewrite (proj2 (Z.ltb_lt k (a + Z.of_nat (length xs + length ys)))) by lia.
      rewrite app_nth2 by lia. f_equal. lia.
    + rewrite (proj2 (Z.ltb_ge k (a + Z.of_nat (length xs + length ys)))) by lia. done.
Qed.

(** The last byte written again. *)
Lemma overlay_last f a bs x :
  (0 < length bs)%nat ->
  overlay (overlay f a bs) (a + (Z.of_nat (length bs) - 1)) [x]
  ≐ overlay f a (take (length bs - 1) bs ++ [x]).
Proof.
  intros Hl j. unfold overlay. rewrite length_app, length_take. change (length [x]) with 1%nat. change (Z.of_nat 1) with 1.
  replace (Z.of_nat ((length bs - 1) `min` length bs + 1)) with (Z.of_nat (length bs)) by lia.
  destruct (Z.leb_spec a j), (Z.ltb_spec j (a + Z.of_nat (length bs))); simpl.
  - destruct (Z.leb_spec (a + (Z.of_nat (length bs) - 1)) j); simpl.
    + rewrite (proj2 (Z.ltb_lt j _)) by lia. rewrite app_nth2 by (rewrite length_take; lia).
      rewrite length_take. replace (Z.to_nat (j - a) - _)%nat with 0%nat by lia.
      replace (Z.to_nat (j - _)) with 0%nat by lia. done.
    + rewrite app_nth1 by (rewrite length_take; lia). rewrite nth_firstn.
      destruct (Nat.ltb_spec (Z.to_nat (j - a)) (length bs - 1)); [done|lia].
  - destruct (Z.ltb_spec j (a + (Z.of_nat (length bs) - 1) + 1)); [lia|]. by rewrite andb_false_r.
  - destruct (Z.leb_spec (a + (Z.of_nat (length bs) - 1)) j); [lia|done].
  - destruct (Z.leb_spec (a + (Z.of_nat (length bs) - 1)) j); [lia|done].
Qed.

Lemma overlay_nil f a : overlay f a [] ≐ f.
Proof. intros k. unfold overlay. simpl. zcases; simpl; lia || done. Qed.

Lemma overlay_feq f g a bs : f ≐ g -> overlay f a bs ≐ overlay g a bs.
Proof. intros H k. unfold overlay. by case_match. Qed.

#[export] Instance overlay_proper : Proper (feq ==> eq ==> eq ==> feq) overlay.
Proof. intros f g H a ? <- bs ? <-. by apply overlay_feq. Qed.

#[export] Instance bytes_at_proper : Proper (feq ==> eq ==> eq ==> eq) bytes_at.
Proof. intros f g H a ? <- n ? <-. apply bytes_at_ext. intros; apply H. Qed.

(** Reading inside what was written. *)
Lemma bytes_at_overlay_in f a bs i n :
  (i + n <= length bs)%nat ->
  bytes_at (overlay f a bs) (a + Z.of_nat i) n = take n (drop i bs).
Proof.
  intros H. apply nth_ext with 0 0; [rewrite length_bytes_at, length_take, length_drop; lia|].
  intros j Hj. rewrite length_bytes_at in Hj. rewrite nth_bytes_at by done.
  rewrite overlay_in by lia. rewrite nth_firstn.
  destruct (Nat.ltb_spec j n) as [_|]; [|lia]. rewrite nth_skipn. f_equal. lia.
Qed.
