(* ===== verification/RecvQueue.v ===== *)
(** * RecvQueue: posting receive requests (hw/mlx5/qp.c, _mlx5_ib_post_recv)

    A receive WQE is one stride of the receive queue: the scatter entries and,
    when there are fewer than max_gs of them, a terminating one. *)

From S2P Require Import Prelude FragBuf Strides QpTypes WqeSeg SqRing PostSend.

Record ib_recv_wr := mkrwr { r_wr_id : Z; r_sg_list : list ib_sge; r_num_sge : Z }.

Definition MLX5_INVALID_LKEY : Z := 256.

(** The [num_sge] entries of a request; reading past its list is undefined. *)
Definition recv_sges (wr : ib_recv_wr) : option (list ib_sge) :=
  let n := Z.to_nat (r_num_sge wr) in
  if (length (r_sg_list wr) <? n)%nat then None else Some (take n (r_sg_list wr)).

Fixpoint put_scat (m : frag_mem) (scat : ptr) (sges : list ib_sge) : option frag_mem :=
  match sges with
  | [] => Some m
  | sg :: r => m ← store m scat (set_data_ptr_seg sg); put_scat m (padd scat sizeof_data_seg) r
  end.

(** The entry that ends a scatter list. *)
Definition scat_end : list Z := be32 0 ++ be32 MLX5_INVALID_LKEY ++ be64 0.

(** Scatter entries at [scat], ended when there are fewer than [max]. *)
Definition put_scat_list (m : frag_mem) (scat : ptr) (sges : list ib_sge) (max : Z)
    : option frag_mem :=
  m ← put_scat m scat sges;
  if Z.of_nat (length sges) <? max
  then store m (padd scat (Z.of_nat (length sges) * sizeof_data_seg)) scat_end
  else Some m.

(** [size] is negative or zero for an empty loop. *)
Definition set_sig_seg (m : frag_mem) (sig : ptr) (size : Z) : option frag_mem :=
  bs ← load m sig (Z.to_nat size);
  store m (padd sig 4) [calc_sig bs].

(** One request: its WQE at [ind]. *)
Definition recv_wqe (rq : mlx5_ib_wq) (wq_sig : bool) (m : frag_mem) (ind : Z) (wr : ib_recv_wr)
    : option frag_mem :=
  let scat := mlx5_frag_buf_get_wqe (fbc rq) ind in
  let scat := if wq_sig then padd scat sizeof_data_seg else scat in
  sges ← recv_sges wr;
  m ← put_scat_list m scat sges (max_gs rq);
  if wq_sig then set_sig_seg m scat ((max_gs rq + 1) <<. 2) else Some m.

Record rst := mkrst { r_rq : mlx5_ib_wq; r_mem : frag_mem; r_db : list Z }.

Definition set_wrid (wq : mlx5_ib_wq) (f : Z -> Z) : mlx5_ib_wq :=
  {| fbc := fbc wq; wrid := f; wr_data := wr_data wq; w_list_opcode := w_list_opcode wq;
     w_list_next := w_list_next wq; wqe_head := wqe_head wq; wqe_cnt := wqe_cnt wq;
     max_post := max_post wq; max_gs := max_gs wq; wq_offset := wq_offset wq;
     wqe_shift := wqe_shift wq; head := head wq; tail := tail wq; cur_post := cur_post wq;
     last_poll := last_poll wq; cur_edge := cur_edge wq |}.

Definition set_head (wq : mlx5_ib_wq) (h : Z) : mlx5_ib_wq :=
  {| fbc := fbc wq; wrid := wrid wq; wr_data := wr_data wq; w_list_opcode := w_list_opcode wq;
     w_list_next := w_list_next wq; wqe_head := wqe_head wq; wqe_cnt := wqe_cnt wq;
     max_post := max_post wq; max_gs := max_gs wq; wq_offset := wq_offset wq;
     wqe_shift := wqe_shift wq; head := h; tail := tail wq; cur_post := cur_post wq;
     last_poll := last_poll wq; cur_edge := cur_edge wq |}.

(** The request loop: the error code, the position of *bad_wr and the number
    of requests before it. *)
Fixpoint recv_loop (wq_sig : bool) (nreq : nat) (ind : Z) (wrs : list ib_recv_wr)
    (rq : mlx5_ib_wq) (m : frag_mem) : option (Z * option nat * nat * mlx5_ib_wq * frag_mem) :=
  match wrs with
  | [] => Some (0, None, nreq, rq, m)
  | wr :: rest =>
      if mlx5_wq_overflow rq (Z.of_nat nreq) then Some (- ENOMEM, Some nreq, nreq, rq, m)
      else if max_gs rq <? r_num_sge wr then Some (- EINVAL, Some nreq, nreq, rq, m)
      else
        m ← recv_wqe rq wq_sig m ind wr;
        if arr_ok rq ind
        then recv_loop wq_sig (S nreq) ((ind + 1) .& (wqe_cnt rq - 1)) rest
               (set_wrid rq (upd (wrid rq) ind (r_wr_id wr))) m
        else None
  end.

Section Recv.
Context (gsi_post_recv : mlx5_ib_wq -> list ib_recv_wr -> Z * option nat).

Definition post_recv_ (internal_error : bool) (qt : ib_qp_type) (wq_sig : bool) (s : rst)
    (wrs : list ib_recv_wr) (drain : bool) : option (Z * option nat * rst) :=
  if internal_error && negb drain then Some (- EIO, Some 0%nat, s)
  else if qpt_eqb qt IB_QPT_GSI then let '(e, bad) := gsi_post_recv (r_rq s) wrs in Some (e, bad, s)
  else
    '(e, bad, nreq, rq, m) ←
       recv_loop wq_sig 0 (head (r_rq s) .& (wqe_cnt (r_rq s) - 1)) wrs (r_rq s) (r_mem s);
    Some (e, bad,
      if (nreq =? 0)%nat then mkrst rq m (r_db s)
      else let h := u32 (head rq + Z.of_nat nreq) in
           mkrst (set_head rq h) m (be32 (h .& 65535))).

Definition mlx5_ib_post_recv (internal_error : bool) (qt : ib_qp_type) (wq_sig : bool) (s : rst)
    (wrs : list ib_recv_wr) : option (Z * option nat * rst) :=
  post_recv_ internal_error qt wq_sig s wrs false.
End Recv.

(** ** The WQE as one write *)

Definition scat_bytes (sges : list ib_sge) (max : Z) : list Z :=
  mjoin (set_data_ptr_seg <$> sges) ++ (if Z.of_nat (length sges) <? max then scat_end else []).

Lemma scat_cons sg r :
  mjoin (set_data_ptr_seg <$> sg :: r) = set_data_ptr_seg sg ++ mjoin (set_data_ptr_seg <$> r).
Proof. done. Qed.

Lemma length_scat sges : Z.of_nat (length (mjoin (set_data_ptr_seg <$> sges))) = 16 * Z.of_nat (length sges).
Proof.
  induction sges as [|sg r IH]; [done|].
  rewrite scat_cons, length_app, length_data_ptr. cbn [length]. lia.
Qed.

Lemma length_scat_bytes sges max :
  Z.of_nat (length sges) <= max ->
  Z.of_nat (length (scat_bytes sges max)) = 16 * Z.min (Z.of_nat (length sges) + 1) max.
Proof.
  intros H. unfold scat_bytes. rewrite length_app, Nat2Z.inj_add, length_scat.
  zcases; [change (length scat_end) with 16%nat|change (length []) with 0%nat]; lia.
Qed.

Section Slot.
Context (c : mlx5_frag_buf_ctrl) (Hwf : fbc_wf c).

Lemma put_scat_slot m ix i sges :
  fits c m -> 0 <= ix < entries c -> 0 <= i -> i + 16 * Z.of_nat (length sges) <= stride c ->
  exists m', put_scat m (padd (mlx5_frag_buf_get_wqe c ix) i) sges = Some m' /\
    fm_size m' = fm_size m /\
    fm_byte m' ≐ overlay (fm_byte m) (slot c ix + i) (mjoin (set_data_ptr_seg <$> sges)).
Proof.
  revert m i. induction sges as [|sg r IH]; intros m i Hm Hix Hi Hs.
  { exists m. split; [done|]. split; [done|]. by rewrite overlay_nil. }
  cbn [length] in Hs. cbn [put_scat]. rewrite (store_slot c Hwf) by (auto; rewrite length_data_ptr; lia).
  rewrite scat_cons. cbn [mbind option_bind]. rewrite padd_padd. destruct (IH {| fm_size := fm_size m;
    fm_byte := overlay (fm_byte m) (slot c ix + i) (set_data_ptr_seg sg) |} (i + sizeof_data_seg))
    as (m' & E & Hz & Hb); auto; unfold sizeof_data_seg in *; [lia..|].
  exists m'. split; [done|]. split; [done|]. 
  etransitivity; [exact Hb|]. etransitivity; [|apply overlay_app].
  rewrite length_data_ptr, Z.add_assoc. done.
Qed.

Lemma put_scat_list_slot m ix i sges max :
  fits c m -> 0 <= ix < entries c -> 0 <= i -> Z.of_nat (length sges) <= max -> i + 16 * max <= stride c ->
  exists m', put_scat_list m (padd (mlx5_frag_buf_get_wqe c ix) i) sges max = Some m' /\
    fm_size m' = fm_size m /\
    fm_byte m' ≐ overlay (fm_byte m) (slot c ix + i) (scat_bytes sges max).
Proof.
  intros Hm Hix Hi Hl Hs. unfold put_scat_list, scat_bytes.
  destruct (put_scat_slot m ix i sges) as (m1 & E & Hz & Hb); auto; [lia|]. rewrite E; simpl.
  zcases; [|exists m1; rewrite app_nil_r; auto].
  assert (Hm1 : fits c m1) by (unfold fits, fits_n in *; by rewrite Hz).
  change (length scat_end) with 16%nat in *. unfold sizeof_data_seg.
  rewrite padd_padd, (store_slot c Hwf) by (auto; change (length scat_end) with 16%nat; lia).
  eexists. split; [done|]. split; [done|]. simpl.
  etransitivity; [by apply overlay_feq|]. etransitivity; [|apply overlay_app]. rewrite length_scat. apply overlay_proper; [done| |done]. lia.
Qed.
End Slot.

(** ** The queue *)

Definition rq_wf (rq : mlx5_ib_wq) : Prop :=
  fbc_wf (fbc rq) /\ wqe_cnt rq = entries (fbc rq) /\ 0 <= max_gs rq /\
  16 * max_gs rq <= stride (fbc rq) /\ 0 <= max_post rq <= wqe_cnt rq.

(** Requests [l] were written from request number [h] on: each has its WQE in
    its stride and its identifier beside it; nothing else changed. *)
Record filled (c : mlx5_frag_buf_ctrl) (max : Z) (f f' w w' : Z -> Z) (h : Z)
    (l : list (ib_recv_wr * list ib_sge)) : Prop := {
  fil_wqe : forall j wr sges, l !! j = Some (wr, sges) ->
    bytes_at f' (slot c ((h + Z.of_nat j) mod entries c)) (length (scat_bytes sges max))
    = scat_bytes sges max;
  fil_wrid : forall j wr sges, l !! j = Some (wr, sges) ->
    w' ((h + Z.of_nat j) mod entries c) = r_wr_id wr;
  fil_frame : forall k,
    (forall j, (j < length l)%nat ->
       k < slot c ((h + Z.of_nat j) mod entries c)
       \/ slot c ((h + Z.of_nat j) mod entries c) + stride c <= k) -> f' k = f k;
  fil_wrid_frame : forall i,
    (forall j, (j < length l)%nat -> i <> (h + Z.of_nat j) mod entries c) -> w' i = w i;
}.

Lemma mod_apart h i j n : 0 < n -> 0 <= i < n -> 0 <= j < n -> i <> j -> (h + i) mod n <> (h + j) mod n.
Proof.
  intros Hn Hi Hj Hne E. apply Hne.
  pose proof (Z.div_mod (h + i) n ltac:(lia)). pose proof (Z.div_mod (h + j) n ltac:(lia)).
  set (q := (h + i) / n - (h + j) / n). assert (Hq : n * q = i - j) by (unfold q; lia).
  clearbody q. assert (q < 1) by nia. assert (-1 < q) by nia. assert (q = 0) by lia. subst q. lia.
Qed.

Lemma filled_cons c (Hwf : fbc_wf c) max f f1 f' w w' h wr sges l :
  Z.of_nat (length sges) <= max -> 16 * max <= stride c ->
  Z.of_nat (length ((wr, sges) :: l)) <= entries c ->
  f1 ≐ overlay f (slot c (h mod entries c)) (scat_bytes sges max) ->
  filled c max f1 f' (upd w (h mod entries c) (r_wr_id wr)) w' (h + 1) l ->
  filled c max f f' w w' h ((wr, sges) :: l).
Proof.
  intros Hs Hm Hl H1 [F1 F2 F3 F4]. pose proof (entries_pos c Hwf) as Hp.
  pose proof (length_scat_bytes sges max Hs) as Hlen. cbn [length] in Hl.
  assert (Hsh : forall j, h + 1 + Z.of_nat j = h + Z.of_nat (S j)) by (intros; lia).
  assert (Hap : forall j, (j < length l)%nat -> h mod entries c <> (h + 1 + Z.of_nat j) mod entries c).
  { intros j Hj. rewrite Hsh. rewrite <- (Z.add_0_r h) at 1. apply mod_apart; lia. }
  pose proof (Z.mod_pos_bound h _ Hp) as Hb.
  split.
  - intros [|j] wr' sges' E; [|rewrite <- Hsh; by eapply F1].
    injection E as <- <-. rewrite Z.add_0_r. transitivity (bytes_at f1 (slot c (h mod entries c)) (length (scat_bytes sges max))).
    + apply bytes_at_ext. intros k Hk. apply F3. intros j Hj.
      pose proof (Z.mod_pos_bound (h + 1 + Z.of_nat j) _ Hp).
      destruct (slot_disjoint c Hwf (h mod entries c) ((h + 1 + Z.of_nat j) mod entries c)); auto; lia.
    + rewrite H1. apply bytes_at_overlay.
  - intros [|j] wr' sges' E; [|rewrite <- Hsh; by eapply F2].
    injection E as <- <-. rewrite Z.add_0_r, F4; [apply upd_eq|]. auto.
  - intros k Hk. rewrite F3, H1.
    + apply overlay_out. specialize (Hk 0%nat). rewrite Z.add_0_r in Hk. cbn [length] in Hk. lia.
    + intros j Hj. rewrite Hsh. apply Hk. simpl. lia.
  - intros i Hi. rewrite F4.
    + unfold upd. specialize (Hi 0%nat). rewrite Z.add_0_r in Hi. zcases; [|done]. exfalso; apply Hi; simpl; lia.
    + intros j Hj. rewrite Hsh. apply Hi. simpl. lia.
Qed.

Lemma filled_nil c max f w h : filled c max f f w w h [].
Proof. by split. Qed.

(** How the call ends at its [n]-th request. *)
Definition recv_stop (rq : mlx5_ib_wq) (n : nat) (rest : list ib_recv_wr) : option (Z * option nat) :=
  match rest with
  | [] => Some (0, None)
  | wr :: _ =>
      if max_post rq <=? u32 (head rq - tail rq) + Z.of_nat n then Some (- ENOMEM, Some n)
      else if max_gs rq <? r_num_sge wr then Some (- EINVAL, Some n) else None
  end.

(** A request the queue takes, with its scatter list. *)
Definition recv_ok (rq : mlx5_ib_wq) (x : ib_recv_wr * list ib_sge) : Prop :=
  r_num_sge x.1 <= max_gs rq /\ recv_sges x.1 = Some x.2.

Lemma recv_ok_length rq x : 0 <= max_gs rq -> recv_ok rq x -> Z.of_nat (length x.2) <= max_gs rq.
Proof.
  intros H0 [Hn Hs]. unfold recv_sges in Hs. case_match; [done|].
  injection Hs as <-. rewrite length_take. lia.
Qed.

Lemma rq_overflow rq n :
  rq_wf rq -> entries (fbc rq) <= 2 ^ 30 -> Z.of_nat n <= entries (fbc rq) ->
  u32 (head rq - tail rq) <= entries (fbc rq) ->
  mlx5_wq_overflow rq (Z.of_nat n) = (max_post rq <=? u32 (head rq - tail rq) + Z.of_nat n).
Proof.
  intros (_ & Hc & _ & _ & Hp) He Hn Hu. pose proof (u32_range (head rq - tail rq)).
  unfold mlx5_wq_overflow. 
  rewrite (u32_small (_ + _)), (u32_small (max_post rq)) by lia.
  destruct (Z.ltb_spec (u32 (head rq - tail rq) + Z.of_nat n) (max_post rq)); [|done].
  symmetry. apply Z.leb_gt. lia.
Qed.

Lemma entries_bound c : fbc_wf c -> entries c <= 2 ^ 30.
Proof. intros (_ & H & _). apply Z.pow_le_mono_r; lia. Qed.

Lemma mask_mod c (Hwf : fbc_wf c) x : x .& (entries c - 1) = x mod entries c.
Proof. destruct Hwf as (_ & H & _). unfold entries. apply land_mask. lia. Qed.

Lemma recv_loop_ok l : forall nreq h rq m rest e bad,
  rq_wf rq -> fits (fbc rq) m -> Forall (recv_ok rq) l ->
  u32 (head rq - tail rq) + Z.of_nat (nreq + length l) <= max_post rq ->
  recv_stop rq (nreq + length l) rest = Some (e, bad) ->
  exists w' m', recv_loop false nreq (h mod entries (fbc rq)) ((fst <$> l) ++ rest) rq m
    = Some (e, bad, (nreq + length l)%nat, set_wrid rq w', m') /\
    fm_size m' = fm_size m /\ (l = [] -> w' = wrid rq) /\
    filled (fbc rq) (max_gs rq) (fm_byte m) (fm_byte m') (wrid rq) w' h l.
Proof.
  induction l as [|[wr sges] l IH]; intros nreq h rq m rest e bad Hwf Hm Hok Hcap Hstop;
    pose proof Hwf as (Hf & Hc & Hg & Hs & Hp); pose proof (entries_bound _ Hf);
    pose proof (u32_range (head rq - tail rq)).
  { exists (wrid rq), m. rewrite Nat.add_0_r in *. split; [|split; [done|split; [done|apply filled_nil]]].
    assert (set_wrid rq (wrid rq) = rq) as -> by by destruct rq.
    destruct rest as [|wr rest]; simpl in *; [by simplify_eq|].
    rewrite rq_overflow by (done || lia). repeat case_match; by simplify_eq. }
  cbn [length] in Hcap, Hstop. apply Forall_cons in Hok as [Hok1 Hok].
  pose proof (recv_ok_length _ _ Hg Hok1) as Hl. destruct Hok1 as [Hn Hsg]. cbn [fst snd] in *.
  pose proof (Z.mod_pos_bound h _ (entries_pos _ Hf)) as Hh.
  cbn [fmap list_fmap fst app recv_loop]. rewrite rq_overflow by (done || lia).
  destruct (Z.leb_spec (max_post rq) (u32 (head rq - tail rq) + Z.of_nat nreq)); [lia|].
  destruct (Z.ltb_spec (max_gs rq) (r_num_sge wr)); [lia|].
  unfold recv_wqe. rewrite Hsg; simpl.
  destruct (put_scat_list_slot (fbc rq) Hf m (h mod entries (fbc rq)) 0 sges (max_gs rq))
    as (m1 & E & Hz & Hb); auto; [lia..|].
  rewrite padd_0 in E. rewrite E; simpl. rewrite Z.add_0_r in Hb.
  assert (arr_ok rq (h mod entries (fbc rq)) = true) as ->.
  { unfold arr_ok. rewrite Hc, andb_true_iff, Z.leb_le, Z.ltb_lt. lia. }
  rewrite Hc, (mask_mod _ Hf), Z.add_mod_idemp_l by (pose proof (entries_pos _ Hf); lia).
  set (rq1 := set_wrid rq _).
  destruct (IH (S nreq) (h + 1) rq1 m1 rest e bad) as (w' & m' & E' & Hz' & _ & Hfil); auto.
  - unfold fits, fits_n in *. rewrite Hz. done.
  - simpl. rewrite <- Nat.add_succ_comm in Hcap. lia.
  - rewrite Nat.add_succ_comm. done.
  - exists w', m'. split; [etransitivity; [exact E'|]; by rewrite Nat.add_succ_comm|]. split; [congruence|]. split; [done|].
    apply (filled_cons _ Hf) with (fm_byte m1); auto. cbn [length]. lia.
Qed.

(** The call as a whole. *)
Lemma post_recv_ok gsi qt rq m db l rest e bad :
  qt <> IB_QPT_GSI -> rq_wf rq -> fits (fbc rq) m -> Forall (recv_ok rq) l ->
  u32 (head rq - tail rq) + Z.of_nat (length l) <= max_post rq ->
  recv_stop rq (length l) rest = Some (e, bad) ->
  exists rq' m' db', mlx5_ib_post_recv gsi false qt false (mkrst rq m db) ((fst <$> l) ++ rest)
    = Some (e, bad, mkrst rq' m' db') /\
    fm_size m' = fm_size m /\
    filled (fbc rq) (max_gs rq) (fm_byte m) (fm_byte m') (wrid rq) (wrid rq') (head rq) l /\
    tail rq' = tail rq /\
    (if decide (l = []) then rq' = rq /\ db' = db
     else head rq' = u32 (head rq + Z.of_nat (length l)) /\ db' = be32 (head rq' mod 65536)).
Proof.
  intros Hq Hwf Hm Hok Hcap Hstop. pose proof Hwf as (Hf & Hc & _).
  destruct (recv_loop_ok l 0 (head rq) rq m rest e bad) as (w' & m' & E & Hz & Hnil & Hfil); auto.
  unfold mlx5_ib_post_recv, post_recv_. simpl.
  assert (qpt_eqb qt IB_QPT_GSI = false) as -> by by destruct qt.
  rewrite Hc, (mask_mod _ Hf), E. simpl. destruct l as [|x l].
  - rewrite Hnil in * by done. exists rq, m', db. split; [by destruct rq|]. by repeat (split; [done|]).
  - eexists _, m', _. split; [done|]. split; [done|]. split; [done|]. split; [done|].
    split; [done|]. simpl. by rewrite (land_mask _ 16).
Qed.

(** C24. Receive requests that fit the queue are written one per stride, ended
    by a terminating entry when shorter than max_gs, with their identifiers
    beside them and nothing else touched; head and doorbell record count them.
    The call stops at the first request that does not fit (-ENOMEM) or has too
    many scatter entries (-EINVAL), bad_wr points at it, and those before it
    are posted; with none before it the queue and the doorbell are unchanged. *)
Theorem post_recv_posts gsi qt rq m db l rest e bad :
  qt <> IB_QPT_GSI -> rq_wf rq -> fits (fbc rq) m -> Forall (recv_ok rq) l ->
  u32 (head rq - tail rq) + Z.of_nat (length l) <= max_post rq ->
  recv_stop rq (length l) rest = Some (e, bad) ->
  exists rq' m' db', mlx5_ib_post_recv gsi false qt false (mkrst rq m db) ((fst <$> l) ++ rest)
    = Some (e, bad, mkrst rq' m' db') /\
    fm_size m' = fm_size m /\
    filled (fbc rq) (max_gs rq) (fm_byte m) (fm_byte m') (wrid rq) (wrid rq') (head rq) l /\
    tail rq' = tail rq /\
    (if decide (l = []) then rq' = rq /\ db' = db
     else head rq' = u32 (head rq + Z.of_nat (length l)) /\ db' = be32 (head rq' mod 65536)).
Proof. apply post_recv_ok. Qed.

Definition ex_rq : mlx5_ib_wq :=
  {| fbc := mlx5_init_fbc 0 5 2; wrid := fun _ => 0; wr_data := fun _ => 0;
     w_list_opcode := fun _ => 0; w_list_next := fun _ => 0; wqe_head := fun _ => 0; wqe_cnt := 4;
     max_post := 4; max_gs := 2; wq_offset := 0; wqe_shift := 5; head := 2 ^ 32 - 1;
     tail := 2 ^ 32 - 2; cur_post := 0; last_poll := 0; cur_edge := mkptr 0 0 |}.
Definition ex_recvs : list (ib_recv_wr * list ib_sge) :=
  [(mkrwr 5 [mksge 4096 64 1] 1, [mksge 4096 64 1]); (mkrwr 6 [] 0, [])].

Lemma ex_rq_wf : rq_wf ex_rq /\ fits (fbc ex_rq) {| fm_size := 4096; fm_byte := fun _ => 0 |}.
Proof.
  split; [split; [apply init_fbc_offset_wf; vm_compute; repeat split; done|]|]; vm_compute; repeat split; done.
Qed.

Lemma post_recv_posts_witness :
  let m := {| fm_size := 4096; fm_byte := fun _ => 0 |} in
  exists rq' m' db', mlx5_ib_post_recv (fun _ _ => (0, None)) false IB_QPT_RC false
      (mkrst ex_rq m (be32 0)) ((fst <$> ex_recvs) ++ [mkrwr 7 [] 3])
    = Some (- EINVAL, Some 2%nat, mkrst rq' m' db') /\
    fm_size m' = fm_size m /\
    filled (fbc ex_rq) 2 (fm_byte m) (fm_byte m') (wrid ex_rq) (wrid rq') (head ex_rq) ex_recvs /\
    tail rq' = tail ex_rq /\
    (if decide (ex_recvs = []) then rq' = ex_rq /\ db' = be32 0
     else head rq' = u32 (head ex_rq + 2) /\ db' = be32 (head rq' mod 65536)).
Proof.
  apply post_recv_posts; try done; try apply ex_rq_wf. repeat constructor; done.
Defined.

(** With receive signatures enabled the signature of a request is stored
    in its first scatter entry, over the top byte of the local key, and the
    signature segment in front of the entries is not written at all. *)
Theorem recv_signature_misplaced rq m ind wr sg sges :
  fbc_wf (fbc rq) -> fits (fbc rq) m -> 0 <= ind < entries (fbc rq) ->
  recv_sges wr = Some (sg :: sges) -> Z.of_nat (length (sg :: sges)) <= max_gs rq ->
  16 * (max_gs rq + 1) <= stride (fbc rq) ->
  let a := slot (fbc rq) ind in
  exists m', recv_wqe rq true m ind wr = Some m' /\
    bytes_at (fm_byte m') a 16 = bytes_at (fm_byte m) a 16 /\
    bytes_at (fm_byte m') (a + 16) 16
    = be32 (sge_length sg)
      ++ [calc_sig (bytes_at (overlay (fm_byte m) (a + 16) (scat_bytes (sg :: sges) (max_gs rq)))
                     (a + 16) (Z.to_nat (4 * (max_gs rq + 1))))]
      ++ drop 1 (be32 (sge_lkey sg)) ++ be64 (sge_addr sg).
Proof.
  intros Hf Hm Hi Hs Hl Hst a. unfold recv_wqe. rewrite Hs. cbn [mbind option_bind].
  destruct (put_scat_list_slot (fbc rq) Hf m ind 16 (sg :: sges) (max_gs rq))
    as (m1 & E & Hz & Hb); auto; [lia..|]. fold a in Hb. unfold sizeof_data_seg. rewrite E.
  cbn [mbind option_bind]. unfold set_sig_seg.
  assert (Hm1 : fits (fbc rq) m1) by (unfold fits, fits_n in *; by rewrite Hz).
  rewrite Z.shiftl_mul_pow2, Z.mul_comm by lia. change (2 ^ 2) with 4.
  assert (Hg : 1 <= max_gs rq) by (cbn [length] in Hl; lia).
  rewrite (load_slot _ Hf) by (auto; lia). cbn [mbind option_bind]. rewrite padd_padd.
  rewrite (store_slot _ Hf) by (auto; simpl length; lia). fold a.
  rewrite (bytes_at_proper _ _ Hb _ _ eq_refl _ _ eq_refl).
  eexists. split; [done|]. cbn [fm_byte]. split.
  { apply bytes_at_ext. intros k Hk. rewrite overlay_out by (simpl length; lia).
    rewrite Hb. apply overlay_out. lia. }
  set (sig := calc_sig _).
  assert (Hfirst : bytes_at (fm_byte m1) (a + 16) 16 = set_data_ptr_seg sg).
  { rewrite (bytes_at_proper _ _ Hb _ _ eq_refl _ _ eq_refl).
    pose proof (bytes_at_overlay_in (fm_byte m) (a + 16) (scat_bytes (sg :: sges) (max_gs rq)) 0 16) as Hov.
    rewrite Z.add_0_r in Hov. rewrite Hov; [done|].
    pose proof (length_scat_bytes _ _ Hl). cbn [length] in *. lia. }
  apply nth_ext with 0 0; [by rewrite length_bytes_at|]. intros i Hi16. rewrite length_bytes_at in Hi16.
  rewrite nth_bytes_at by done. destruct (decide (i = 4)%nat) as [->|Hne].
  - rewrite overlay_in by (simpl length; lia). replace (a + 16 + Z.of_nat 4 - (a + (16 + 4))) with 0 by lia. done.
  - rewrite overlay_out by (simpl length; lia).
    rewrite <- (nth_bytes_at _ _ 16) by done. rewrite Hfirst.
    do 16 (destruct i as [|i]; [done|]). lia.
Qed.

Lemma recv_signature_misplaced_witness :
  let m := {| fm_size := 4096; fm_byte := fun _ => 0 |} in
  let rq := {| fbc := mlx5_init_fbc 0 6 2; wrid := fun _ => 0; wr_data := fun _ => 0;
     w_list_opcode := fun _ => 0; w_list_next := fun _ => 0; wqe_head := fun _ => 0; wqe_cnt := 4;
     max_post := 4; max_gs := 2; wq_offset := 0; wqe_shift := 6; head := 0;
     tail := 0; cur_post := 0; last_poll := 0; cur_edge := mkptr 0 0 |} in
  exists m', recv_wqe rq true m 1 (mkrwr 5 [mksge 4096 64 (2 ^ 24 * 17)] 1) = Some m' /\
    fm_byte m' 84 <> 17.
Proof.
  set (m := {| fm_size := 4096; fm_byte := fun _ => 0 |}).
  set (rq := {| fbc := mlx5_init_fbc 0 6 2 |}).
  destruct (recv_signature_misplaced rq m 1 (mkrwr 5 [mksge 4096 64 (2 ^ 24 * 17)] 1)
              (mksge 4096 64 (2 ^ 24 * 17)) []) as (m' & E & _ & H).
  - apply init_fbc_offset_wf; vm_compute; repeat split; done.
  - vm_compute; split; done.
  - vm_compute; split; done.
  - done.
  - vm_compute; done.
  - vm_compute; done.
  - exists m'. split; [exact E|]. intros H17. apply (f_equal (fun l => nth 4 l 0)) in H.
    rewrite nth_bytes_at in H by lia. vm_compute slot in H.
    change (fm_byte m' 84 = calc_sig (bytes_at (overlay (fm_byte m) 80
      (scat_bytes [mksge 4096 64 (2 ^ 24 * 17)] 2)) 80 12)) in H.
    rewrite H17 in H. vm_compute in H. done.
Defined.
