(* ===== verification/Srq.v ===== *)
(** * Srq: shared receive queues (hw/mlx5/srq.c)

    The free WQEs of a shared receive queue form a linked list through the
    next_wqe_index fields of the buffer, from head to tail.  Posting takes WQEs
    from the head; the completion of a WQE appends it at the tail; the list
    always keeps one entry, which is never posted. *)

From S2P Require Import Prelude FragBuf Strides QpTypes WqeSeg SqRing PostSend RecvQueue.

Record mlx5_ib_srq := mksrq {
  srq_max : Z;
  srq_max_gs : Z;
  srq_max_avail_gather : Z;
  srq_fbc : mlx5_frag_buf_ctrl;
  srq_wrid : Z -> Z;
  srq_head : Z;
  srq_tail : Z;
  srq_wqe_ctr : Z;
  srq_db : list Z;           (* *db.db, as stored *)
}.

Definition sizeof_srq_next_seg : Z := 16.

Definition get_wqe (srq : mlx5_ib_srq) (n : Z) : ptr := mlx5_frag_buf_get_wqe (srq_fbc srq) n.

(** The next_wqe_index field, two bytes into the stride. *)
Definition get_next (srq : mlx5_ib_srq) (m : frag_mem) (n : Z) : option Z :=
  bs ← load m (padd (get_wqe srq n) 2) 2; Some (be_val bs).
Definition set_next (srq : mlx5_ib_srq) (m : frag_mem) (n v : Z) : option frag_mem :=
  store m (padd (get_wqe srq n) 2) (be16 v).

(** The loop of create_srq_kernel that links the WQEs, from [i] on. *)
Fixpoint link_wqes (n : nat) (srq : mlx5_ib_srq) (i : Z) (m : frag_mem) : option frag_mem :=
  match n with
  | O => Some m
  | S n => m ← set_next srq m i ((i + 1) .& (srq_max srq - 1)); link_wqes n srq (i + 1) m
  end.

(** The part of create_srq_kernel behind its allocations. *)
Definition init_srq (frags max max_gs max_avail_gather wqe_shift : Z) (wrid : Z -> Z) (db : list Z)
    (m : frag_mem) : option (mlx5_ib_srq * frag_mem) :=
  let srq := {| srq_max := max; srq_max_gs := max_gs; srq_max_avail_gather := max_avail_gather;
                srq_fbc := mlx5_init_fbc frags wqe_shift (ilog2 max); srq_wrid := wrid;
                srq_head := 0; srq_tail := max - 1; srq_wqe_ctr := 0; srq_db := db |} in
  m ← link_wqes (Z.to_nat max) srq 0 m;
  Some (srq, m).

Definition mlx5_ib_free_srq_wqe (srq : mlx5_ib_srq) (m : frag_mem) (wqe_index : Z)
    : option (mlx5_ib_srq * frag_mem) :=
  m ← set_next srq m (srq_tail srq) wqe_index;
  Some ({| srq_max := srq_max srq; srq_max_gs := srq_max_gs srq;
           srq_max_avail_gather := srq_max_avail_gather srq; srq_fbc := srq_fbc srq;
           srq_wrid := srq_wrid srq; srq_head := srq_head srq; srq_tail := wqe_index;
           srq_wqe_ctr := srq_wqe_ctr srq; srq_db := srq_db srq |}, m).

Definition srq_take (srq : mlx5_ib_srq) (id hd : Z) : mlx5_ib_srq :=
  {| srq_max := srq_max srq; srq_max_gs := srq_max_gs srq;
     srq_max_avail_gather := srq_max_avail_gather srq; srq_fbc := srq_fbc srq;
     srq_wrid := upd (srq_wrid srq) (srq_head srq) id; srq_head := hd; srq_tail := srq_tail srq;
     srq_wqe_ctr := srq_wqe_ctr srq; srq_db := srq_db srq |}.

(** The request loop of mlx5_ib_post_srq_recv.  num_sge is converted to
    size_t for the comparison. *)
Fixpoint srq_loop (nreq : nat) (wrs : list ib_recv_wr) (srq : mlx5_ib_srq) (m : frag_mem)
    : option (Z * option nat * nat * mlx5_ib_srq * frag_mem) :=
  match wrs with
  | [] => Some (0, None, nreq, srq, m)
  | wr :: rest =>
      if srq_max_gs srq <? u64 (r_num_sge wr) then Some (- EINVAL, Some nreq, nreq, srq, m)
      else if srq_head srq =? srq_tail srq then Some (- ENOMEM, Some nreq, nreq, srq, m)
      else if (0 <=? srq_head srq) && (srq_head srq <? srq_max srq) then
        nxt ← get_next srq m (srq_head srq);
        sges ← recv_sges wr;
        m ← put_scat_list m (padd (get_wqe srq (srq_head srq)) sizeof_srq_next_seg) sges
              (srq_max_avail_gather srq);
        srq_loop (S nreq) rest (srq_take srq (r_wr_id wr) nxt) m
      else None
  end.

Definition mlx5_ib_post_srq_recv (internal_error : bool) (srq : mlx5_ib_srq) (m : frag_mem)
    (wrs : list ib_recv_wr) : option (Z * option nat * mlx5_ib_srq * frag_mem) :=
  if internal_error then Some (- EIO, Some 0%nat, srq, m)
  else
    '(e, bad, nreq, srq, m) ← srq_loop 0 wrs srq m;
    Some (e, bad,
      if (nreq =? 0)%nat then srq
      else let ctr := u16 (srq_wqe_ctr srq + Z.of_nat nreq) in
           {| srq_max := srq_max srq; srq_max_gs := srq_max_gs srq;
              srq_max_avail_gather := srq_max_avail_gather srq; srq_fbc := srq_fbc srq;
              srq_wrid := srq_wrid srq; srq_head := srq_head srq; srq_tail := srq_tail srq;
              srq_wqe_ctr := ctr; srq_db := be32 ctr |}, m).

(** ** The free list *)

Definition next_of (c : mlx5_frag_buf_ctrl) (f : Z -> Z) (n : Z) : Z :=
  be_val (bytes_at f (slot c n + 2) 2).

(** [l] are the WQEs from [h] up to, but without, [t]. *)
Fixpoint chain (c : mlx5_frag_buf_ctrl) (f : Z -> Z) (h : Z) (l : list Z) (t : Z) : Prop :=
  match l with
  | [] => h = t
  | x :: r => h = x /\ chain c f (next_of c f x) r t
  end.

Definition srq_wf (srq : mlx5_ib_srq) : Prop :=
  fbc_wf (srq_fbc srq) /\ srq_max srq = entries (srq_fbc srq) /\ srq_max srq <= 65536 /\
  0 <= srq_max_gs srq <= srq_max_avail_gather srq /\
  16 + 16 * srq_max_avail_gather srq <= stride (srq_fbc srq).

(** A WQE the device may use: its scatter list is in its stride and the
    request's identifier beside it. *)
Definition posted_wqe (srq : mlx5_ib_srq) (f : Z -> Z) (x : Z * (ib_recv_wr * list ib_sge)) : Prop :=
  let '(i, (wr, sges)) := x in
  bytes_at f (slot (srq_fbc srq) i + 16) (length (scat_bytes sges (srq_max_avail_gather srq)))
  = scat_bytes sges (srq_max_avail_gather srq) /\
  Z.of_nat (length sges) <= srq_max_avail_gather srq /\
  srq_wrid srq i = r_wr_id wr.

(** The abstract state: the WQEs that can be posted, in order, and the posted
    ones.  With the tail they are all WQEs of the queue, each once. *)
Record srq_inv (srq : mlx5_ib_srq) (m : frag_mem) (free : list Z)
    (out : list (Z * (ib_recv_wr * list ib_sge))) : Prop := {
  si_wf : srq_wf srq;
  si_fits : fits (srq_fbc srq) m;
  si_chain : chain (srq_fbc srq) (fm_byte m) (srq_head srq) free (srq_tail srq);
  si_all : Permutation (free ++ srq_tail srq :: (fst <$> out)) (seqZ 0 (srq_max srq));
  si_out : Forall (posted_wqe srq (fm_byte m)) out;
}.

Lemma chain_frame c f f' h l t :
  (forall x, x ∈ l -> next_of c f' x = next_of c f x) -> chain c f h l t -> chain c f' h l t.
Proof.
  revert h. induction l as [|x r IH]; intros h Hf; [done|]. cbn [chain]. intros [-> Hc].
  split; [done|]. rewrite Hf by left. apply IH; [|done]. intros y Hy. apply Hf. by right.
Qed.

Lemma chain_snoc c f h l t t' : chain c f h l t -> next_of c f t = t' -> chain c f h (l ++ [t]) t'.
Proof.
  revert h. induction l as [|x r IH]; intros h; simpl; [by intros -> ->|]. intros [-> H] E. auto.
Qed.

Section Fields.
Context (c : mlx5_frag_buf_ctrl) (Hwf : fbc_wf c) (H16 : 16 <= stride c).

Lemma next_of_other f i j o bs :
  0 <= i -> 0 <= j -> i <> j \/ 4 <= o -> 0 <= o -> o + Z.of_nat (length bs) <= stride c ->
  next_of c (overlay f (slot c j + o) bs) i = next_of c f i.
Proof.
  intros Hi Hj Ho Ho0 Hl. unfold next_of. f_equal. destruct (decide (i = j)) as [->|Hne].
  - apply bytes_at_ext. intros k Hk. apply overlay_out. lia.
  - apply (bytes_at_other c Hwf); auto; lia.
Qed.

Lemma next_of_same f i v :
  0 <= v < 65536 -> next_of c (overlay f (slot c i + 2) (be16 v)) i = v.
Proof.
  intros Hv. unfold next_of. change 2%nat with (length (be16 v)). rewrite bytes_at_overlay.
  unfold be16. rewrite be_val_bytes. apply Z.mod_small. done.
Qed.

Lemma next_of_feq f g i : f ≐ g -> next_of c f i = next_of c g i.
Proof. intros H. unfold next_of. by rewrite (bytes_at_proper _ _ H _ _ eq_refl _ _ eq_refl). Qed.
End Fields.

Section Inv.
Context (srq : mlx5_ib_srq) (m : frag_mem) (free : list Z) (out : list (Z * (ib_recv_wr * list ib_sge))).
Context (Hinv : srq_inv srq m free out).

Lemma srq_member x : x ∈ free ++ srq_tail srq :: (fst <$> out) -> 0 <= x < entries (srq_fbc srq).
Proof.
  intros Hx. destruct Hinv as [(_ & Hm & _) _ _ Hall _]. rewrite Hall in Hx.
  apply elem_of_seqZ in Hx. lia.
Qed.

Lemma srq_nodup : NoDup (free ++ srq_tail srq :: (fst <$> out)).
Proof. destruct Hinv as [_ _ _ Hall _]. rewrite Hall. apply NoDup_seqZ. Qed.

Lemma srq_stride : 16 <= stride (srq_fbc srq).
Proof. destruct Hinv as [(_ & _ & _ & Hg & Hs) _ _ _ _]. lia. Qed.

Lemma srq_get_next x : 0 <= x < entries (srq_fbc srq) -> get_next srq m x = Some (next_of (srq_fbc srq) (fm_byte m) x).
Proof.
  intros Hx. pose proof srq_stride. destruct Hinv as [(Hf & _) Hm _ _ _]. unfold get_next, get_wqe.
  rewrite (load_slot _ Hf) by (auto; lia). done.
Qed.

(** The head is the first free WQE; it is the tail when there is none. *)
Lemma srq_head_free : srq_head srq = match free with [] => srq_tail srq | x :: _ => x end.
Proof. destruct Hinv as [_ _ Hc _ _]. destruct free; [done|]. apply Hc. Qed.

Lemma srq_head_tail : (srq_head srq =? srq_tail srq) = match free with [] => true | _ => false end.
Proof.
  rewrite srq_head_free. pose proof srq_nodup as Hn. destruct free as [|x r]; [apply Z.eqb_refl|].
  apply Z.eqb_neq. intros ->. apply NoDup_cons in Hn as [Hn _]. apply Hn, elem_of_app. right. left.
Qed.
End Inv.

(** One request takes the first free WQE. *)
Lemma srq_post_one srq m x free out wr sges :
  srq_inv srq m (x :: free) out -> Z.of_nat (length sges) <= srq_max_avail_gather srq ->
  exists m', put_scat_list m (padd (get_wqe srq x) sizeof_srq_next_seg) sges (srq_max_avail_gather srq)
             = Some m' /\
    srq_inv (srq_take srq (r_wr_id wr) (next_of (srq_fbc srq) (fm_byte m) x)) m' free
            (out ++ [(x, (wr, sges))]).
Proof.
  intros Hinv Hl. pose proof (srq_nodup _ _ _ _ Hinv) as Hnd. pose proof (srq_member _ _ _ _ Hinv) as Hr.
  pose proof (srq_stride _ _ _ _ Hinv) as H16. pose proof (srq_head_free _ _ _ _ Hinv) as Hhd.
  destruct Hinv as [Hwf Hm Hc Hall Hout]. pose proof Hwf as (Hf & Hmax & _ & Hg & Hst).
  assert (Hx : 0 <= x < entries (srq_fbc srq)) by (apply Hr; left).
  destruct (put_scat_list_slot (srq_fbc srq) Hf m x 16 sges (srq_max_avail_gather srq))
    as (m' & E & Hz & Hb); auto; [lia..|].
  exists m'. split; [exact E|]. pose proof (length_scat_bytes _ _ Hl) as Hlen.
  assert (Hlo : 16 + Z.of_nat (length (scat_bytes sges (srq_max_avail_gather srq))) <= stride (srq_fbc srq)) by lia.
  simpl in Hnd. apply NoDup_cons in Hnd as [Hx1 Hnd].
  split; simpl; try done.
  - unfold fits, fits_n in *. by rewrite Hz.
  - destruct Hc as [_ Hc]. eapply chain_frame; [|exact Hc]. intros y Hy.
    rewrite (next_of_feq _ _ _ _ Hb). apply (next_of_other _ Hf); auto; try lia.
    apply Hr. right. apply elem_of_app; auto.
  - rewrite fmap_app; simpl. rewrite <- Hall. simpl.
    rewrite app_comm_cons, app_assoc, <- Permutation_cons_append. done.
  - apply Forall_app. split.
    + apply Forall_forall. intros [i [w sg]] Hi. rewrite Forall_forall in Hout.
      specialize (Hout _ Hi) as (Hby & Hl' & Hw). assert (Hi' : i ∈ (fst <$> out)).
      { apply list_elem_of_fmap. by exists (i, (w, sg)). }
      assert (i <> x) by (intros ->; apply Hx1, elem_of_app; right; by right).
      assert (0 <= i < entries (srq_fbc srq)) by (apply Hr; right; apply elem_of_app; right; by right).
      pose proof (length_scat_bytes _ _ Hl') as Hlen'.
      split; [|split; [done|]].
      * cbn [srq_fbc srq_take srq_max_avail_gather].
        rewrite (bytes_at_proper _ _ Hb _ _ eq_refl _ _ eq_refl), (bytes_at_other _ Hf); auto; lia.
      * simpl. rewrite Hhd, upd_ne by done. done.
    + apply Forall_singleton. split; [|split; [done|]].
      * cbn [srq_fbc srq_take srq_max_avail_gather].
        rewrite (bytes_at_proper _ _ Hb _ _ eq_refl _ _ eq_refl). apply bytes_at_overlay.
      * simpl. rewrite Hhd. apply upd_eq.
Qed.

(** A request the queue takes, with its scatter list. *)
Definition srq_ok (srq : mlx5_ib_srq) (x : ib_recv_wr * list ib_sge) : Prop :=
  u64 (r_num_sge x.1) <= srq_max_gs srq /\ 0 <= r_num_sge x.1 < 2 ^ 31 /\ recv_sges x.1 = Some x.2.

(** How the call ends when [n] requests are posted and [free] WQEs are left. *)
Definition srq_stop (srq : mlx5_ib_srq) (free : list Z) (n : nat) (rest : list ib_recv_wr)
    : option (Z * option nat) :=
  match rest with
  | [] => Some (0, None)
  | wr :: _ =>
      if srq_max_gs srq <? u64 (r_num_sge wr) then Some (- EINVAL, Some n)
      else match free with [] => Some (- ENOMEM, Some n) | _ => None end
  end.

Lemma srq_ok_length srq x : srq_ok srq x -> Z.of_nat (length x.2) <= srq_max_gs srq.
Proof.
  intros (Hn & Hr & Hs). rewrite u64_small in Hn by lia. unfold recv_sges in Hs.
  case_match; [done|]. injection Hs as <-. rewrite length_take. lia.
Qed.

Lemma srq_loop_ok l : forall nreq free srq m out rest e bad,
  srq_inv srq m ((zip_with (fun x _ => x) (take (length l) free) l) ++ drop (length l) free) out ->
  (length l <= length free)%nat -> Forall (srq_ok srq) l ->
  srq_stop srq (drop (length l) free) (nreq + length l) rest = Some (e, bad) ->
  exists srq' m', srq_loop nreq ((fst <$> l) ++ rest) srq m
    = Some (e, bad, (nreq + length l)%nat, srq', m') /\
    srq_inv srq' m' (drop (length l) free) (out ++ zip (take (length l) free) l) /\
    srq_wqe_ctr srq' = srq_wqe_ctr srq /\ srq_tail srq' = srq_tail srq /\
    (l = [] -> srq' = srq /\ m' = m).
Proof.
  induction l as [|[wr sges] l IH]; intros nreq free srq m out rest e bad Hinv Hlen Hok Hstop.
  { simpl in *. rewrite drop_0 in *. rewrite Nat.add_0_r in *. exists srq, m.
    rewrite app_nil_r. split; [|done]. destruct rest as [|wr rest]; simpl in *; [by simplify_eq|].
    rewrite (srq_head_tail _ _ _ _ Hinv). repeat case_match; by simplify_eq. }
  destruct free as [|x free]; [simpl in Hlen; lia|]. simpl in Hlen.
  cbn [length take drop zip_with app] in *. apply Forall_cons in Hok as [Hok1 Hok].
  pose proof (srq_ok_length _ _ Hok1) as Hl. pose proof Hok1 as (Hn & Hr & Hs). cbn [fst snd] in *.
  cbn [fmap list_fmap fst app srq_loop]. destruct (Z.ltb_spec (srq_max_gs srq) (u64 (r_num_sge wr))); [lia|].
  rewrite (srq_head_tail _ _ _ _ Hinv), (srq_head_free _ _ _ _ Hinv).
  assert (Hx : 0 <= x < entries (srq_fbc srq)) by (apply (srq_member _ _ _ _ Hinv); left).
  pose proof (si_wf _ _ _ _ Hinv) as (_ & Hmax & _ & Hg & _).
  assert ((0 <=? x) && (x <? srq_max srq) = true) as ->.
  { rewrite Hmax, andb_true_iff, Z.leb_le, Z.ltb_lt. lia. }
  rewrite (srq_get_next _ _ _ _ Hinv) by done. cbn [mbind option_bind]. rewrite Hs. cbn [mbind option_bind].
  destruct (srq_post_one srq m x _ out wr sges Hinv) as (m1 & E & Hinv1); [lia|]. rewrite E.
  cbn [mbind option_bind]. set (srq1 := srq_take _ _ _) in *.
  destruct (IH (S nreq) free srq1 m1 (out ++ [(x, (wr, sges))]) rest e bad)
    as (srq' & m' & E' & Hi' & Hc & Ht & _); auto; [lia|by rewrite Nat.add_succ_comm|].
  exists srq', m'. split; [etransitivity; [exact E'|]; by rewrite Nat.add_succ_comm|].
  split; [|done]. by rewrite <- app_assoc in Hi'.
Qed.

Lemma zip_with_fst_id {A B} (l : list A) (k : list B) :
  (length l <= length k)%nat -> zip_with (fun x _ => x) l k = l.
Proof. revert k. induction l as [|x l IH]; intros [|y k] H; simpl in *; try lia; [done..|]. rewrite IH; [done|lia]. Qed.

(** The call as a whole. *)
Lemma post_srq_recv_ok srq m free out l rest e bad :
  srq_inv srq m free out -> (length l <= length free)%nat -> Forall (srq_ok srq) l ->
  srq_stop srq (drop (length l) free) (length l) rest = Some (e, bad) ->
  exists srq' m', mlx5_ib_post_srq_recv false srq m ((fst <$> l) ++ rest) = Some (e, bad, srq', m') /\
    srq_inv srq' m' (drop (length l) free) (out ++ zip (take (length l) free) l) /\
    srq_tail srq' = srq_tail srq /\
    (if decide (l = []) then srq' = srq /\ m' = m
     else srq_wqe_ctr srq' = u16 (srq_wqe_ctr srq + Z.of_nat (length l)) /\
          srq_db srq' = be32 (srq_wqe_ctr srq')).
Proof.
  intros Hinv Hlen Hok Hstop.
  destruct (srq_loop_ok l 0 free srq m out rest e bad) as (srq' & m' & E & Hi & Hc & Ht & Hnil); auto.
  { rewrite zip_with_fst_id by (rewrite length_take; lia). by rewrite take_drop. }
  unfold mlx5_ib_post_srq_recv. rewrite E. cbn [mbind option_bind]. destruct l as [|x l].
  - destruct Hnil as [-> ->]; [done|]. by exists srq, m.
  - eexists _, m'. split; [done|]. split; [|split; [done|]]; [by destruct Hi; split|].
    split; [|done]. cbn [srq_wqe_ctr]. by rewrite Hc.
Qed.

(** C23. Posting to a shared receive queue takes its free WQEs in order: each
    request gets the next one, with its scatter list and identifier, and every
    WQE stays in exactly one of the two roles.  The call stops at the first
    request with too many entries (-EINVAL) or when only the tail is left
    (-ENOMEM), with bad_wr at it and the requests before it posted. *)
Theorem post_srq_recv_takes srq m free out l rest e bad :
  srq_inv srq m free out -> (length l <= length free)%nat -> Forall (srq_ok srq) l ->
  srq_stop srq (drop (length l) free) (length l) rest = Some (e, bad) ->
  exists srq' m', mlx5_ib_post_srq_recv false srq m ((fst <$> l) ++ rest) = Some (e, bad, srq', m') /\
    srq_inv srq' m' (drop (length l) free) (out ++ zip (take (length l) free) l) /\
    srq_tail srq' = srq_tail srq /\
    (if decide (l = []) then srq' = srq /\ m' = m
     else srq_wqe_ctr srq' = u16 (srq_wqe_ctr srq + Z.of_nat (length l)) /\
          srq_db srq' = be32 (srq_wqe_ctr srq')).
Proof. apply post_srq_recv_ok. Qed.

(** Completing a posted WQE appends it to the free list, behind the old
    tail, and forgets the request; the others keep their WQEs. *)
Theorem free_srq_wqe_returns srq m free out1 i x out2 :
  srq_inv srq m free (out1 ++ (i, x) :: out2) ->
  exists srq' m', mlx5_ib_free_srq_wqe srq m i = Some (srq', m') /\
    srq_inv srq' m' (free ++ [srq_tail srq]) (out1 ++ out2) /\ srq_tail srq' = i.
Proof.
  intros Hinv. pose proof (srq_nodup _ _ _ _ Hinv) as Hnd. pose proof (srq_member _ _ _ _ Hinv) as Hr.
  pose proof (srq_stride _ _ _ _ Hinv) as H16. destruct Hinv as [Hwf Hm Hc Hall Hout].
  pose proof Hwf as (Hf & Hmax & H64k & Hg & Hst).
  assert (Ht : 0 <= srq_tail srq < entries (srq_fbc srq)) by (apply Hr, elem_of_app; right; left).
  assert (Hi : 0 <= i < entries (srq_fbc srq)).
  { apply Hr, elem_of_app; right; right. rewrite fmap_app. apply elem_of_app; right; left. }
  unfold mlx5_ib_free_srq_wqe, set_next, get_wqe.
  rewrite (store_slot _ Hf) by (auto; change (length (be16 i)) with 2%nat; lia). cbn [mbind option_bind].
  eexists _, _. split; [done|]. split; [|done]. apply NoDup_app in Hnd as (_ & Htf & Hnd).
  apply NoDup_cons in Hnd as [Hto _].
  split; simpl; try done.
  - apply chain_snoc with (t := srq_tail srq).
    + eapply chain_frame; [|exact Hc]. intros y Hy. apply (next_of_other _ Hf); try lia.
      * apply Hr, elem_of_app; auto.
      * left. intros ->. by apply (Htf _ Hy); left.
      * change (length (be16 i)) with 2%nat. lia.
    + apply next_of_same. lia.
  - rewrite <- Hall, fmap_app, fmap_app, fmap_cons, <- app_assoc; simpl.
    do 2 f_equiv. by rewrite Permutation_middle.
  - assert (Hout' : Forall (posted_wqe srq (fm_byte m)) (out1 ++ out2)).
    { apply Forall_app in Hout as [H1 H2]. apply Forall_cons in H2 as [_ H2]. by apply Forall_app. }
    apply Forall_forall. intros [j [w sg]] Hj. rewrite Forall_forall in Hout'.
    specialize (Hout' _ Hj) as (Hby & Hl' & Hw). pose proof (length_scat_bytes _ _ Hl').
    assert (Hj' : j ∈ (fst <$> (out1 ++ (i, x) :: out2))).
    { rewrite fmap_app, fmap_cons. apply (list_elem_of_fmap_2 fst) in Hj. rewrite fmap_app in Hj.
      set_solver. }
    split; [|done]. simpl. rewrite (bytes_at_other _ Hf); auto; try lia.
    + apply Hr, elem_of_app; right; by right.
    + intros ->. done.
    + change (length (be16 i)) with 2%nat. lia.
Qed.

Lemma link_wqes_ok n : forall srq m i,
  fbc_wf (srq_fbc srq) -> srq_max srq = entries (srq_fbc srq) -> srq_max srq <= 65536 ->
  16 <= stride (srq_fbc srq) -> fits (srq_fbc srq) m -> 0 <= i -> i + Z.of_nat n = srq_max srq ->
  exists m', link_wqes n srq i m = Some m' /\ fm_size m' = fm_size m /\
    (forall x, i <= x < srq_max srq -> next_of (srq_fbc srq) (fm_byte m') x = (x + 1) mod srq_max srq) /\
    (forall x, 0 <= x < i -> next_of (srq_fbc srq) (fm_byte m') x = next_of (srq_fbc srq) (fm_byte m) x).
Proof.
  induction n as [|n IH]; intros srq m i Hf Hmax H64 H16 Hm Hi Hn.
  { exists m. repeat split; auto. intros x ?. lia. }
  cbn [link_wqes]. unfold set_next, get_wqe. rewrite Hmax, (mask_mod _ Hf), <- Hmax.
  rewrite (store_slot _ Hf) by (auto; change (length (be16 ((i + 1) mod srq_max srq))) with 2%nat; lia).
  cbn [mbind option_bind]. set (m1 := {| fm_size := _ |}).
  destruct (IH srq m1 (i + 1)) as (m' & E & Hz & Hnew & Hold); auto; [lia..|].
  exists m'. split; [done|]. split; [done|].
  pose proof (Z.mod_pos_bound (i + 1) (srq_max srq)) as Hb.
  split.
  - intros x Hx. destruct (decide (x = i)) as [->|]; [|apply Hnew; lia].
    rewrite Hold by lia. apply next_of_same. lia.
  - intros x Hx. rewrite Hold by lia. apply (next_of_other _ Hf); try lia.
    change (length (be16 ((i + 1) mod srq_max srq))) with 2%nat. lia.
Qed.

Lemma chain_seq c f h n : forall t,
  (forall x, h <= x < t -> next_of c f x = x + 1) -> t = h + Z.of_nat n -> chain c f h (seqZ h (Z.of_nat n)) t.
Proof.
  revert h. induction n as [|n IH]; intros h t Hn ->.
  { simpl. lia. }
  rewrite seqZ_cons by lia. cbn [chain]. split; [done|]. rewrite Hn by lia.
  replace (Z.pred (Z.of_nat (S n))) with (Z.of_nat n) by lia. rewrite <- Z.add_1_r.
  apply IH; [|lia]. intros x Hx. apply Hn. lia.
Qed.

Lemma init_srq_fbc frags max shift :
  0 <= shift <= 12 -> (exists k, 0 <= k <= 16 /\ max = 2 ^ k) ->
  fbc_wf (mlx5_init_fbc frags shift (ilog2 max)) /\ entries (mlx5_init_fbc frags shift (ilog2 max)) = max.
Proof.
  intros Hs (k & Hk & ->). assert (ilog2 (2 ^ k) = k) as -> by (apply Z.log2_pow2; lia).
  pose proof (pow2_pos (12 - shift)). split; [apply init_fbc_offset_wf; lia|done].
Qed.

(** A new shared receive queue has all its WQEs but the last on the free list,
    in order, so that a queue of max WQEs takes max - 1 requests. *)
Lemma init_srq_ok frags max max_gs gather shift wrid db m :
  0 <= shift <= 12 -> (exists k, 0 <= k <= 16 /\ max = 2 ^ k) ->
  0 <= max_gs <= gather -> 16 + 16 * gather <= 2 ^ shift ->
  fits (mlx5_init_fbc frags shift (ilog2 max)) m ->
  exists srq m', init_srq frags max max_gs gather shift wrid db m = Some (srq, m') /\
    srq_inv srq m' (seqZ 0 (max - 1)) [] /\ srq_tail srq = max - 1.
Proof.
  intros Hs Hk Hg Hst Hm. destruct (init_srq_fbc frags max shift Hs Hk) as [Hf He].
  assert (Hpos : 1 <= max <= 65536).
  { destruct Hk as (k & Hk & ->). pose proof (pow2_pos k). pose proof (Z.pow_le_mono_r 2 k 16). lia. }
  unfold init_srq. set (srq := {| srq_max := max |}).
  destruct (link_wqes_ok (Z.to_nat max) srq m 0) as (m' & E & Hz & Hn & _); auto; simpl; try lia.
  { unfold stride; simpl. lia. }
  rewrite E. cbn [mbind option_bind]. eexists _, m'. split; [done|]. split; [|done].
  split; simpl.
  - split; [done|]. unfold stride; simpl. repeat split; lia.
  - unfold fits, fits_n in *. by rewrite Hz.
  - replace (max - 1) with (Z.of_nat (Z.to_nat (max - 1))) at 1 by lia.
    apply chain_seq; [|lia]. intros x Hx. simpl in Hn. rewrite Hn by lia. apply Z.mod_small. lia.
  - replace (seqZ 0 max) with (seqZ 0 ((max - 1) + 1)) by (f_equal; lia).
    rewrite seqZ_app by lia. by rewrite (seqZ_cons _ 1) by lia.
  - done.
Qed.

(** Four WQEs of 64 bytes; request 9, with no scatter entries, is in WQE 0. *)
Definition ex_srq : mlx5_ib_srq :=
  {| srq_max := 4; srq_max_gs := 3; srq_max_avail_gather := 3; srq_fbc := mlx5_init_fbc 0 6 2;
     srq_wrid := upd (fun _ => 0) 0 9; srq_head := 1; srq_tail := 3; srq_wqe_ctr := 65535;
     srq_db := be32 65535 |}.
Definition ex_linked : frag_mem :=
  {| fm_size := 4096;
     fm_byte := fun k => if k =? 22 then 1 else if k mod 64 =? 3 then (k / 64 + 1) mod 4 else 0 |}.

Lemma ex_srq_inv : srq_inv ex_srq ex_linked [1; 2] [(0, (mkrwr 9 [] 0, []))].
Proof.
  split.
  - split; [apply init_fbc_offset_wf; vm_compute; repeat split; done|]. vm_compute; repeat split; done.
  - vm_compute; split; done.
  - vm_compute; repeat split; done.
  - vm_compute. apply (Permutation_app_comm [1; 2; 3] [0]).
  - repeat constructor; done.
Qed.

Lemma post_srq_recv_takes_witness :
  exists srq' m', mlx5_ib_post_srq_recv false ex_srq ex_linked [mkrwr 5 [mksge 0 8 1] 1; mkrwr 6 [] 0; mkrwr 7 [] 0]
    = Some (- ENOMEM, Some 2%nat, srq', m') /\
    srq_inv srq' m' [] [(0, (mkrwr 9 [] 0, [])); (1, (mkrwr 5 [mksge 0 8 1] 1, [mksge 0 8 1]));
                        (2, (mkrwr 6 [] 0, []))] /\
    srq_tail srq' = 3 /\
    (if decide ([mkrwr 5 [mksge 0 8 1] 1] = []) then srq' = ex_srq /\ m' = ex_linked
     else srq_wqe_ctr srq' = u16 (65535 + 2) /\ srq_db srq' = be32 (srq_wqe_ctr srq')).
Proof.
  apply (post_srq_recv_takes ex_srq ex_linked [1; 2] [(0, (mkrwr 9 [] 0, []))]
           [(mkrwr 5 [mksge 0 8 1] 1, [mksge 0 8 1]); (mkrwr 6 [] 0, [])] [mkrwr 7 [] 0]).
  - exact ex_srq_inv.
  - simpl; lia.
  - repeat constructor; done.
  - done.
Defined.

Lemma free_srq_wqe_returns_witness :
  exists srq' m', mlx5_ib_free_srq_wqe ex_srq ex_linked 0 = Some (srq', m') /\
    srq_inv srq' m' [1; 2; 3] [] /\ srq_tail srq' = 0.
Proof.
  apply (free_srq_wqe_returns ex_srq ex_linked [1; 2] [] 0 (mkrwr 9 [] 0, []) []). exact ex_srq_inv.
Defined.
