(* ===== verification/Cqe.v ===== *)
(** * Cqe: decoding completion entries (hw/mlx5/cq.c, include/linux/mlx5/device.h)

    A completion entry is 64 bytes; the three structures laid over it
    (mlx5_cqe64, mlx5_err_cqe, mlx5_sig_err_cqe) are read field by field. *)

From S2P Require Import Prelude FragBuf QpTypes WqeSeg PostSend.

(** [len] bytes at [o], big-endian. *)
Definition field (cqe : list Z) (o len : nat) : Z := be_val (take len (drop o cqe)).

Definition cqe_ml_path (c : list Z) : Z := field c 17 1.
Definition cqe_slid (c : list Z) : Z := field c 22 2.
Definition cqe_flags_rqpn (c : list Z) : Z := field c 24 4.
Definition cqe_hds_ip_ext (c : list Z) : Z := field c 28 1.
Definition cqe_l4_l3_hdr_type (c : list Z) : Z := field c 29 1.
Definition cqe_vlan_info (c : list Z) : Z := field c 30 2.
Definition cqe_srqn (c : list Z) : Z := field c 32 4.
Definition cqe_immediate (c : list Z) : list Z := take 4 (drop 36 c).
Definition cqe_inval_rkey (c : list Z) : Z := field c 36 4.
Definition cqe_pkey (c : list Z) : Z := field c 36 4.
Definition cqe_byte_cnt (c : list Z) : Z := field c 44 4.
Definition cqe_vendor_err_synd (c : list Z) : Z := field c 54 1.
Definition cqe_syndrome (c : list Z) : Z := field c 55 1.
Definition cqe_sop_drop_qpn (c : list Z) : Z := field c 56 4.
Definition cqe_wqe_counter (c : list Z) : Z := field c 60 2.
Definition cqe_op_own (c : list Z) : Z := field c 63 1.

Definition MLX5_CQE_OWNER_MASK : Z := 1.
Definition MLX5_CQE_REQ : Z := 0.
Definition MLX5_CQE_RESP_WR_IMM : Z := 1.
Definition MLX5_CQE_RESP_SEND : Z := 2.
Definition MLX5_CQE_RESP_SEND_IMM : Z := 3.
Definition MLX5_CQE_RESP_SEND_INV : Z := 4.
Definition MLX5_CQE_RESIZE_CQ : Z := 5.
Definition MLX5_CQE_SIG_ERR : Z := 12.
Definition MLX5_CQE_REQ_ERR : Z := 13.
Definition MLX5_CQE_RESP_ERR : Z := 14.
Definition MLX5_CQE_INVALID : Z := 15.

Definition get_cqe_opcode (c : list Z) : Z := cqe_op_own c >>. 4.

(** ** Work completions (include/rdma/ib_verbs.h) *)

Definition IB_WC_SUCCESS : Z := 0.
Definition IB_WC_LOC_LEN_ERR : Z := 1.
Definition IB_WC_LOC_QP_OP_ERR : Z := 2.
Definition IB_WC_LOC_PROT_ERR : Z := 4.
Definition IB_WC_WR_FLUSH_ERR : Z := 5.
Definition IB_WC_MW_BIND_ERR : Z := 6.
Definition IB_WC_BAD_RESP_ERR : Z := 7.
Definition IB_WC_LOC_ACCESS_ERR : Z := 8.
Definition IB_WC_REM_INV_REQ_ERR : Z := 9.
Definition IB_WC_REM_ACCESS_ERR : Z := 10.
Definition IB_WC_REM_OP_ERR : Z := 11.
Definition IB_WC_RETRY_EXC_ERR : Z := 12.
Definition IB_WC_RNR_RETRY_EXC_ERR : Z := 13.
Definition IB_WC_REM_ABORT_ERR : Z := 16.
Definition IB_WC_GENERAL_ERR : Z := 21.
Definition IB_WC_SIG_PIPELINE_CANCELED : Z := 22.

Definition IB_WC_SEND : Z := 0.
Definition IB_WC_RDMA_WRITE : Z := 1.
Definition IB_WC_RDMA_READ : Z := 2.
Definition IB_WC_COMP_SWAP : Z := 3.
Definition IB_WC_FETCH_ADD : Z := 4.
Definition IB_WC_LOCAL_INV : Z := 6.
Definition IB_WC_REG_MR : Z := 7.
Definition IB_WC_MASKED_COMP_SWAP : Z := 8.
Definition IB_WC_MASKED_FETCH_ADD : Z := 9.
Definition IB_WC_RECV : Z := 128.
Definition IB_WC_RECV_RDMA_WITH_IMM : Z := 129.

Definition IB_WC_GRH : Z := 1.
Definition IB_WC_WITH_IMM : Z := 2.
Definition IB_WC_WITH_INVALIDATE : Z := 4.
Definition IB_WC_IP_CSUM_OK : Z := 8.
Definition IB_WC_WITH_VLAN : Z := 32.
Definition IB_WC_WITH_NETWORK_HDR_TYPE : Z := 64.

Definition RDMA_NETWORK_IB : Z := 0.
Definition RDMA_NETWORK_IPV4 : Z := 1.
Definition RDMA_NETWORK_IPV6 : Z := 2.

Record ib_wc := mkwc {
  wc_wr_id : Z;
  wc_status : Z;
  wc_opcode : Z;
  wc_vendor_err : Z;
  wc_byte_len : Z;
  wc_qp : Z;                 (* the queue pair, by its number *)
  wc_ex : list Z;            (* the union ex, as stored *)
  wc_src_qp : Z;
  wc_slid : Z;
  wc_flags : Z;
  wc_pkey_index : Z;
  wc_sl : Z;
  wc_dlid_path_bits : Z;
  wc_vlan_id : Z;
  wc_network_hdr_type : Z;
}.

Definition wc_set_id (w : ib_wc) (id : Z) : ib_wc :=
  mkwc id (wc_status w) (wc_opcode w) (wc_vendor_err w) (wc_byte_len w) (wc_qp w) (wc_ex w)
    (wc_src_qp w) (wc_slid w) (wc_flags w) (wc_pkey_index w) (wc_sl w) (wc_dlid_path_bits w)
    (wc_vlan_id w) (wc_network_hdr_type w).
Definition wc_set_status (w : ib_wc) (st : Z) : ib_wc :=
  mkwc (wc_wr_id w) st (wc_opcode w) (wc_vendor_err w) (wc_byte_len w) (wc_qp w) (wc_ex w)
    (wc_src_qp w) (wc_slid w) (wc_flags w) (wc_pkey_index w) (wc_sl w) (wc_dlid_path_bits w)
    (wc_vlan_id w) (wc_network_hdr_type w).
Definition wc_set_qp (w : ib_wc) (q : Z) : ib_wc :=
  mkwc (wc_wr_id w) (wc_status w) (wc_opcode w) (wc_vendor_err w) (wc_byte_len w) q (wc_ex w)
    (wc_src_qp w) (wc_slid w) (wc_flags w) (wc_pkey_index w) (wc_sl w) (wc_dlid_path_bits w)
    (wc_vlan_id w) (wc_network_hdr_type w).
Definition wc_set_vendor (w : ib_wc) (v : Z) : ib_wc :=
  mkwc (wc_wr_id w) (wc_status w) (wc_opcode w) v (wc_byte_len w) (wc_qp w) (wc_ex w)
    (wc_src_qp w) (wc_slid w) (wc_flags w) (wc_pkey_index w) (wc_sl w) (wc_dlid_path_bits w)
    (wc_vlan_id w) (wc_network_hdr_type w).
(** opcode, wc_flags and byte_len together. *)
Definition wc_set_op (w : ib_wc) (op flags len : Z) : ib_wc :=
  mkwc (wc_wr_id w) (wc_status w) op (wc_vendor_err w) len (wc_qp w) (wc_ex w)
    (wc_src_qp w) (wc_slid w) flags (wc_pkey_index w) (wc_sl w) (wc_dlid_path_bits w)
    (wc_vlan_id w) (wc_network_hdr_type w).

(** ** Requester completions *)

Definition get_umr_comp (wq : mlx5_ib_wq) (idx : Z) : Z :=
  let d := wr_data wq idx in
  if d =? MLX5_IB_WR_UMR then 0
  else if d =? IB_WR_LOCAL_INV then IB_WC_LOCAL_INV
  else if d =? IB_WR_REG_MR then IB_WC_REG_MR
  else 0.

(** An opcode that is not in the switch leaves opcode and byte_len alone. *)
Definition handle_good_req (wc : ib_wc) (cqe : list Z) (wq : mlx5_ib_wq) (idx : Z) : ib_wc :=
  let op := cqe_sop_drop_qpn cqe >>. 24 in
  let keep := wc_byte_len wc in
  if op =? MLX5_OPCODE_RDMA_WRITE_IMM then wc_set_op wc IB_WC_RDMA_WRITE IB_WC_WITH_IMM keep
  else if op =? MLX5_OPCODE_RDMA_WRITE then wc_set_op wc IB_WC_RDMA_WRITE 0 keep
  else if op =? MLX5_OPCODE_SEND_IMM then wc_set_op wc IB_WC_SEND IB_WC_WITH_IMM keep
  else if (op =? MLX5_OPCODE_NOP) || (op =? MLX5_OPCODE_SEND) || (op =? MLX5_OPCODE_SEND_INVAL)
  then wc_set_op wc IB_WC_SEND 0 keep
  else if op =? MLX5_OPCODE_RDMA_READ then wc_set_op wc IB_WC_RDMA_READ 0 (cqe_byte_cnt cqe)
  else if op =? MLX5_OPCODE_ATOMIC_CS then wc_set_op wc IB_WC_COMP_SWAP 0 8
  else if op =? MLX5_OPCODE_ATOMIC_FA then wc_set_op wc IB_WC_FETCH_ADD 0 8
  else if op =? MLX5_OPCODE_ATOMIC_MASKED_CS then wc_set_op wc IB_WC_MASKED_COMP_SWAP 0 8
  else if op =? MLX5_OPCODE_ATOMIC_MASKED_FA then wc_set_op wc IB_WC_MASKED_FETCH_ADD 0 8
  else if op =? MLX5_OPCODE_UMR then wc_set_op wc (get_umr_comp wq idx) 0 keep
  else wc_set_op wc (wc_opcode wc) 0 keep.

(** ** Responder completions *)

Definition CQE_L3_OK : Z := 2.
Definition CQE_L4_OK : Z := 4.
Definition is_qp1 (qt : ib_qp_type) : bool := qpt_eqb qt MLX5_IB_QPT_HW_GSI.

(** What handle_responder does behind the receive WQE: [eth] is the link layer
    of port 1, [find_pkey] is ib_find_cached_pkey, which sets the index only
    when it finds the key. *)
Definition decode_responder (eth : bool) (find_pkey : Z -> Z -> option Z) (qt : ib_qp_type)
    (port : Z) (cqe : list Z) (wc : ib_wc) : ib_wc :=
  let opc := get_cqe_opcode cqe in
  let '(op, flags, ex) :=
    if opc =? MLX5_CQE_RESP_WR_IMM
    then (IB_WC_RECV_RDMA_WITH_IMM, IB_WC_WITH_IMM, cqe_immediate cqe)
    else if opc =? MLX5_CQE_RESP_SEND
    then (IB_WC_RECV,
          if test (cqe_hds_ip_ext cqe) CQE_L3_OK && test (cqe_hds_ip_ext cqe) CQE_L4_OK
          then IB_WC_IP_CSUM_OK else 0, wc_ex wc)
    else if opc =? MLX5_CQE_RESP_SEND_IMM
    then (IB_WC_RECV, IB_WC_WITH_IMM, cqe_immediate cqe)
    else if opc =? MLX5_CQE_RESP_SEND_INV
    then (IB_WC_RECV, IB_WC_WITH_INVALIDATE, rev (be32 (cqe_inval_rkey cqe)))
    else (wc_opcode wc, wc_flags wc, wc_ex wc) in
  let rqpn := cqe_flags_rqpn cqe in
  let g := (rqpn >>. 28) .& 3 in
  let flags := flags .| (if g =? 0 then 0 else IB_WC_GRH) in
  let pkey_index :=
    if is_qp1 qt
    then match find_pkey port (cqe_pkey cqe .& 65535) with
         | Some i => i
         | None => wc_pkey_index wc
         end
    else 0 in
  let vlan := negb (cqe_l4_l3_hdr_type cqe .& 1 =? 0) in
  let roce := (rqpn >>. 24) .& 3 in
  if negb eth
  then mkwc (wc_wr_id wc) (wc_status wc) op (wc_vendor_err wc) (cqe_byte_cnt cqe) (wc_qp wc) ex
         (rqpn .& 16777215) (cqe_slid cqe) flags pkey_index ((rqpn >>. 24) .& 15)
         (cqe_ml_path cqe) (wc_vlan_id wc) (wc_network_hdr_type wc)
  else
    mkwc (wc_wr_id wc) (wc_status wc) op (wc_vendor_err wc) (cqe_byte_cnt cqe) (wc_qp wc) ex
      (rqpn .& 16777215) 0
      (flags .| (if vlan then IB_WC_WITH_VLAN else 0) .| IB_WC_WITH_NETWORK_HDR_TYPE) pkey_index
      (if vlan then (cqe_vlan_info cqe >>. 13) .& 7 else 0) (cqe_ml_path cqe)
      (if vlan then cqe_vlan_info cqe .& 4095 else wc_vlan_id wc)
      (if roce =? 0 then RDMA_NETWORK_IB
       else if roce =? 1 then RDMA_NETWORK_IPV6
       else if roce =? 2 then RDMA_NETWORK_IPV4
       else wc_network_hdr_type wc).

(** ** Errors *)

Definition MLX5_CQE_SYNDROME_WR_FLUSH_ERR : Z := 5.

(** The status of a syndrome. *)
Definition syndrome_status (s : Z) : Z :=
  if s =? 1 then IB_WC_LOC_LEN_ERR
  else if s =? 2 then IB_WC_LOC_QP_OP_ERR
  else if s =? 4 then IB_WC_LOC_PROT_ERR
  else if s =? MLX5_CQE_SYNDROME_WR_FLUSH_ERR then IB_WC_WR_FLUSH_ERR
  else if s =? 6 then IB_WC_MW_BIND_ERR
  else if s =? 16 then IB_WC_BAD_RESP_ERR
  else if s =? 17 then IB_WC_LOC_ACCESS_ERR
  else if s =? 18 then IB_WC_REM_INV_REQ_ERR
  else if s =? 19 then IB_WC_REM_ACCESS_ERR
  else if s =? 20 then IB_WC_REM_OP_ERR
  else if s =? 21 then IB_WC_RETRY_EXC_ERR
  else if s =? 22 then IB_WC_RNR_RETRY_EXC_ERR
  else if s =? 34 then IB_WC_REM_ABORT_ERR
  else IB_WC_GENERAL_ERR.

Definition mlx5_handle_error_cqe (cqe : list Z) (wc : ib_wc) : ib_wc :=
  wc_set_vendor (wc_set_status wc (syndrome_status (cqe_syndrome cqe))) (cqe_vendor_err_synd cqe).

Record ib_sig_err := mksigerr {
  se_type : Z; se_expected : Z; se_actual : Z; se_offset : Z; se_key : Z }.

Definition IB_SIG_BAD_GUARD : Z := 0.
Definition IB_SIG_BAD_REFTAG : Z := 1.
Definition IB_SIG_BAD_APPTAG : Z := 2.

Definition get_sig_err_item (cqe : list Z) (item : ib_sig_err) : ib_sig_err :=
  let syndrome := field cqe 32 2 in
  let etrans := field cqe 16 4 in
  let atrans := field cqe 20 4 in
  let '(t, e, a) :=
    if test syndrome (2 ^ 13) then (IB_SIG_BAD_GUARD, etrans >>. 16, atrans >>. 16)
    else if test syndrome (2 ^ 11) then (IB_SIG_BAD_REFTAG, field cqe 24 4, field cqe 28 4)
    else if test syndrome (2 ^ 12) then (IB_SIG_BAD_APPTAG, etrans .& 65535, atrans .& 65535)
    else (se_type item, se_expected item, se_actual item) in
  mksigerr t e a (field cqe 40 8) (field cqe 36 4).

(** ** Lemmas *)

Lemma field_range cqe o len : bytes_ok cqe -> 0 <= field cqe o len < 2 ^ (8 * Z.of_nat len).
Proof.
  intros Hb. unfold field.
  assert (Hok : bytes_ok (take len (drop o cqe))) by (apply Forall_take, Forall_drop; done).
  pose proof (be_val_range _ Hok) as Hr. rewrite length_take in Hr.
  assert (2 ^ (8 * Z.of_nat (len `min` length (drop o cqe))) <= 2 ^ (8 * Z.of_nat len))
    by (apply Z.pow_le_mono_r; lia).
  lia.
Qed.
