(* ===== verification/CqRing.v ===== *)
(** * CqRing: the buffer of a completion queue (hw/mlx5/cq.c)

    Who owns an entry is read off its owner bit, which the device flips on
    every turn of the ring.  Cleaning the queue of a destroyed queue pair and
    copying it to a resized buffer move entries and have to keep these bits
    right. *)

From S2P Require Import Prelude FragBuf Strides KHeap FragAlloc QpTypes WqeSeg SqRing PostSend RecvQueue Srq Cqe.

Record mlx5_ib_cq_buf := mkcqbuf {
  cb_fbc : mlx5_frag_buf_ctrl;
  cb_mem : frag_mem;
  cb_frag_buf : mlx5_frag_buf;
  cb_cqe_size : Z;
  cb_nent : Z;
}.

Record mlx5_ib_cq := mkcq {
  cq_buf : mlx5_ib_cq_buf;
  cq_cqe : Z;                             (* ibcq.cqe: entries - 1 *)
  cq_cqe_sz : Z;                          (* mcq.cqe_sz *)
  cq_cons_index : Z;
  cq_set_ci_db : list Z;                  (* *mcq.set_ci_db, as stored *)
  cq_resize_buf : option (nat * mlx5_ib_cq_buf);
}.

Definition with_cq_mem (cq : mlx5_ib_cq) (m : frag_mem) : mlx5_ib_cq :=
  let b := cq_buf cq in
  {| cq_buf := {| cb_fbc := cb_fbc b; cb_mem := m; cb_frag_buf := cb_frag_buf b;
                  cb_cqe_size := cb_cqe_size b; cb_nent := cb_nent b |};
     cq_cqe := cq_cqe cq; cq_cqe_sz := cq_cqe_sz cq; cq_cons_index := cq_cons_index cq;
     cq_set_ci_db := cq_set_ci_db cq; cq_resize_buf := cq_resize_buf cq |}.

Definition with_cons (cq : mlx5_ib_cq) (ci : Z) : mlx5_ib_cq :=
  {| cq_buf := cq_buf cq; cq_cqe := cq_cqe cq; cq_cqe_sz := cq_cqe_sz cq; cq_cons_index := ci;
     cq_set_ci_db := cq_set_ci_db cq; cq_resize_buf := cq_resize_buf cq |}.

Definition mlx5_cq_set_ci (cq : mlx5_ib_cq) : mlx5_ib_cq :=
  {| cq_buf := cq_buf cq; cq_cqe := cq_cqe cq; cq_cqe_sz := cq_cqe_sz cq;
     cq_cons_index := cq_cons_index cq; cq_set_ci_db := be32 (cq_cons_index cq .& 16777215);
     cq_resize_buf := cq_resize_buf cq |}.

Definition get_cqe (cq : mlx5_ib_cq) (n : Z) : ptr := mlx5_frag_buf_get_wqe (cb_fbc (cq_buf cq)) n.
Definition sw_ownership_bit (n nent : Z) : Z := if n .& nent =? 0 then 0 else 1.

(** The 64-byte entry inside an entry of [size] bytes. *)
Definition cqe64_of (size : Z) (cqe : ptr) : ptr := if size =? 64 then cqe else padd cqe 64.

Definition read_cqe64 (cq : mlx5_ib_cq) (cqe : ptr) : option (list Z) :=
  load (cb_mem (cq_buf cq)) (cqe64_of (cq_cqe_sz cq) cqe) 64.

Definition get_sw_cqe (cq : mlx5_ib_cq) (n : Z) : option (option ptr) :=
  let cqe := get_cqe cq (n .& cq_cqe cq) in
  c ← read_cqe64 cq cqe;
  Some (if negb (get_cqe_opcode c =? MLX5_CQE_INVALID)
           && (Z.lxor (cqe_op_own c .& MLX5_CQE_OWNER_MASK)
                 (sw_ownership_bit n (cq_cqe cq + 1)) =? 0)
        then Some cqe else None).

Definition next_cqe_sw (cq : mlx5_ib_cq) : option (option ptr) := get_sw_cqe cq (cq_cons_index cq).

(** ** Cleaning *)

Definition is_equal_rsn (c : list Z) (rsn : Z) : bool := rsn =? (cqe_sop_drop_qpn c .& 16777215).

(** The producer index: the first entry the device owns, or the last one. *)
Fixpoint find_prod (fuel : nat) (cq : mlx5_ib_cq) (prod : Z) : option Z :=
  match fuel with
  | O => None
  | S fuel =>
      o ← get_sw_cqe cq prod;
      match o with
      | None => Some prod
      | Some _ => if prod =? u32 (cq_cons_index cq + cq_cqe cq) then Some prod
                  else find_prod fuel cq (u32 (prod + 1))
      end
  end.

Definition srq_ref : Type := option (mlx5_ib_srq * frag_mem).

(** Copy entry [cqe] over [dest], whose owner bit stays. *)
Definition move_cqe (cq : mlx5_ib_cq) (cqe dest : ptr) : option mlx5_ib_cq :=
  let m := cb_mem (cq_buf cq) in
  let dest64 := cqe64_of (cq_cqe_sz cq) dest in
  old ← load m (padd dest64 63) 1;
  let owner_bit := nth 0 old 0 .& MLX5_CQE_OWNER_MASK in
  bs ← load m cqe (Z.to_nat (cq_cqe_sz cq));
  m ← store m dest bs;
  new ← load m (padd dest64 63) 1;
  m ← store m (padd dest64 63) [owner_bit .| (nth 0 new 0 .& Z.lnot MLX5_CQE_OWNER_MASK)];
  Some (with_cq_mem cq m).

Fixpoint sweep (fuel : nat) (rsn : Z) (cq : mlx5_ib_cq) (srq : srq_ref) (prod nfreed : Z)
    : option (mlx5_ib_cq * srq_ref * Z) :=
  match fuel with
  | O => None
  | S fuel =>
      let prod := u32 (prod - 1) in
      if s32 (prod - cq_cons_index cq) <? 0 then Some (cq, srq, nfreed)
      else
        let cqe := get_cqe cq (prod .& cq_cqe cq) in
        c ← read_cqe64 cq cqe;
        if is_equal_rsn c rsn then
          srq ← match srq with
                | Some (q, m) =>
                    if cqe_srqn c .& 16777215 =? 0 then Some srq
                    else r ← mlx5_ib_free_srq_wqe q m (cqe_wqe_counter c); Some (Some r)
                | None => Some None
                end;
          sweep fuel rsn cq srq prod (nfreed + 1)
        else if nfreed =? 0 then sweep fuel rsn cq srq prod nfreed
        else
          cq ← move_cqe cq cqe (get_cqe cq (u32 (prod + nfreed) .& cq_cqe cq));
          sweep fuel rsn cq srq prod nfreed
  end.

(** The loops visit each entry once: cqe + 2 rounds are enough for both. *)
Definition cq_clean_ (cq : mlx5_ib_cq) (rsn : Z) (srq : srq_ref) : option (mlx5_ib_cq * srq_ref) :=
  let fuel := Z.to_nat (cq_cqe cq + 2) in
  prod ← find_prod fuel cq (cq_cons_index cq);
  '(cq, srq, nfreed) ← sweep fuel rsn cq srq prod 0;
  Some (if nfreed =? 0 then cq
        else mlx5_cq_set_ci (with_cons cq (u32 (cq_cons_index cq + nfreed))), srq).

(** mlx5_ib_cq_clean, and __mlx5_ib_cq_clean, on a queue that may be absent. *)
Definition mlx5_ib_cq_clean (cq : option mlx5_ib_cq) (rsn : Z) (srq : srq_ref)
    : option (option mlx5_ib_cq * srq_ref) :=
  match cq with
  | None => Some (None, srq)
  | Some cq => '(cq, srq) ← cq_clean_ cq rsn srq; Some (Some cq, srq)
  end.

(** ** Entries of a well-formed queue *)

Section Ring.
Context (c : mlx5_frag_buf_ctrl) (k : Z).

Definition ring_n : Z := 2 ^ k.
Definition esz : Z := stride c.

(** Entry [n], counted from the creation of the queue. *)
Definition ent (f : Z -> Z) (n : Z) : list Z := bytes_at f (slot c (n mod ring_n)) (Z.to_nat esz).
Definition cqe64 (f : Z -> Z) (n : Z) : list Z := bytes_at f (slot c (n mod ring_n) + (esz - 64)) 64.

Definition sw_owned (f : Z -> Z) (n : Z) : bool :=
  negb (get_cqe_opcode (cqe64 f n) =? MLX5_CQE_INVALID)
  && (Z.lxor (cqe_op_own (cqe64 f n) .& MLX5_CQE_OWNER_MASK) (Z.b2z (Z.testbit n k)) =? 0).

Context (Hwf : fbc_wf c) (Hk : 0 <= k <= 24) (Hsz : esz = 64 \/ esz = 128).

Lemma ring_n_pos : 0 < ring_n <= 2 ^ 24.
Proof. split; [apply pow2_pos; lia|apply Z.pow_le_mono_r; lia]. Qed.

Lemma ring_mod n : 0 <= n mod ring_n < ring_n.
Proof. apply Z.mod_pos_bound, ring_n_pos. Qed.

Lemma ring_mod_u32 n : u32 n mod ring_n = n mod ring_n.
Proof. apply u32_mod. lia. Qed.

Lemma ring_mask n : n .& (ring_n - 1) = n mod ring_n.
Proof. apply land_mask. lia. Qed.

Lemma owner_bit n : sw_ownership_bit n ring_n = Z.b2z (Z.testbit n k).
Proof.
  unfold sw_ownership_bit, ring_n. destruct (Z.eqb_spec (n .& 2 ^ k) 0) as [H|H].
  - assert (Hb : Z.testbit (n .& 2 ^ k) k = false) by by rewrite H, Z.testbit_0_l.
    rewrite Z.land_spec, Z.pow2_bits_true, andb_true_r in Hb by lia. by rewrite Hb.
  - destruct (Z.testbit n k) eqn:E; [done|]. exfalso. apply H. apply Z.bits_inj'. intros i Hi.
    rewrite Z.land_spec, Z.testbit_0_l, Z.pow2_bits_eqb by lia.
    destruct (Z.eqb_spec k i) as [<-|]; [by rewrite E|]. by rewrite andb_false_r.
Qed.

Lemma testbit_u32 n : Z.testbit (u32 n) k = Z.testbit n k.
Proof. unfold u32. change 4294967296 with (2 ^ 32). apply Z.mod_pow2_bits_low. lia. Qed.

Lemma sw_owned_u32 f n : sw_owned f (u32 n) = sw_owned f n.
Proof. unfold sw_owned, cqe64. by rewrite ring_mod_u32, testbit_u32. Qed.

Lemma ent_u32 f n : ent f (u32 n) = ent f n.
Proof. unfold ent. by rewrite ring_mod_u32. Qed.
Lemma cqe64_u32 f n : cqe64 f (u32 n) = cqe64 f n.
Proof. unfold cqe64. by rewrite ring_mod_u32. Qed.

Lemma cqe64_drop f n : cqe64 f n = drop (Z.to_nat (esz - 64)) (ent f n).
Proof.
  apply nth_ext with 0 0.
  { unfold cqe64, ent. rewrite length_drop, !length_bytes_at. lia. }
  intros i Hi. unfold cqe64 in *. rewrite length_bytes_at in Hi. rewrite nth_bytes_at by done.
  rewrite nth_skipn. unfold ent. rewrite nth_bytes_at by lia. f_equal. lia.
Qed.

Lemma op_own_last f n : cqe_op_own (cqe64 f n) = f (slot c (n mod ring_n) + (esz - 1)).
Proof.
  unfold cqe_op_own, field. assert (Hl : length (cqe64 f n) = 64%nat) by apply length_bytes_at.
  assert (take 1 (drop 63 (cqe64 f n)) = [nth 63 (cqe64 f n) 0]) as ->.
  { generalize dependent (cqe64 f n). intros l Hl.
    rewrite <- (take_drop 63 l) at 2. rewrite app_nth2 by (rewrite length_take; lia).
    rewrite length_take, Hl. change (63 - 63 `min` 64)%nat with 0%nat.
    assert (length (drop 63 l) = 1%nat) by (rewrite length_drop; lia).
    destruct (drop 63 l) as [|x [|]]; done. }
  unfold cqe64. rewrite nth_bytes_at by lia. cbn [be_val length].
  change (2 ^ (8 * Z.of_nat 0)) with 1. rewrite Z.mul_1_r, Z.add_0_r. f_equal. lia.
Qed.
End Ring.

Record cq_wf (cq : mlx5_ib_cq) (k : Z) : Prop := {
  cw_fbc : fbc_wf (cb_fbc (cq_buf cq));
  cw_k : 0 <= k <= 24;
  cw_cqe : cq_cqe cq = ring_n k - 1;
  cw_sz : esz (cb_fbc (cq_buf cq)) = 64 \/ esz (cb_fbc (cq_buf cq)) = 128;
  cw_cqe_sz : cq_cqe_sz cq = esz (cb_fbc (cq_buf cq));
  cw_fits : fits_n (cb_fbc (cq_buf cq)) (ring_n k) (cb_mem (cq_buf cq));
}.

(** What the buffer operations do on a well-formed queue. *)
Section Wf.
Context (cq : mlx5_ib_cq) (k : Z) (Hcq : cq_wf cq k).
Let c := cb_fbc (cq_buf cq).
Let f := fm_byte (cb_mem (cq_buf cq)).

Lemma cqe64_ptr p : cqe64_of (cq_cqe_sz cq) p = padd p (esz c - 64).
Proof.
  destruct Hcq as [_ _ _ Hsz Hcs _]. fold c in Hsz, Hcs. unfold cqe64_of. rewrite Hcs.
  destruct Hsz as [-> | ->]; simpl; by rewrite ?padd_0.
Qed.

Lemma read_cqe64_eq n : read_cqe64 cq (get_cqe cq (n .& cq_cqe cq)) = Some (cqe64 c k f n).
Proof.
  destruct Hcq as [Hf Hk Hc Hsz Hcs Hm]. fold c in Hf, Hsz, Hcs, Hm. unfold read_cqe64, get_cqe.
  rewrite cqe64_ptr, Hc, ring_mask by lia. fold c.
  rewrite (load_slot_n c Hf (ring_n k)); [done|done|apply ring_mod; lia|lia|].
  change (stride c) with (esz c). lia.
Qed.

Lemma get_sw_cqe_eq n :
  get_sw_cqe cq n = Some (if sw_owned c k f n then Some (get_cqe cq (n mod ring_n k)) else None).
Proof.
  unfold get_sw_cqe. rewrite read_cqe64_eq. cbn [mbind option_bind].
  destruct Hcq as [_ Hk Hc _ _ _]. rewrite Hc. replace (ring_n k - 1 + 1) with (ring_n k) by lia.
  rewrite ring_mask, owner_bit by lia. done.
Qed.

(** The entry that replaces [d] when [n] is moved there: the bytes of [n] with
    the owner bit of [d]. *)
Definition moved (n d : Z) : list Z :=
  take (Z.to_nat (esz c - 1)) (ent c k f n)
  ++ [(cqe_op_own (cqe64 c k f d) .& 1) .| (cqe_op_own (cqe64 c k f n) .& Z.lnot 1)].

Lemma length_moved n d : length (moved n d) = Z.to_nat (esz c).
Proof.
  destruct Hcq as [_ _ _ Hsz _ _]. fold c in Hsz. unfold moved, ent.
  rewrite length_app, length_take, length_bytes_at. simpl. lia.
Qed.

Lemma move_cqe_eq n d : exists m',
  move_cqe cq (get_cqe cq (n .& cq_cqe cq)) (get_cqe cq (d .& cq_cqe cq)) = Some (with_cq_mem cq m') /\
  fm_size m' = fm_size (cb_mem (cq_buf cq)) /\
  fm_byte m' ≐ overlay f (slot c (d mod ring_n k)) (moved n d).
Proof.
  pose proof Hcq as [Hf Hk Hc Hsz Hcs Hm]. fold c in Hf, Hsz, Hcs, Hm. unfold move_cqe, get_cqe.
  rewrite cqe64_ptr, padd_padd, Hc, !ring_mask by lia. fold c.
  replace (esz c - 64 + 63) with (esz c - 1) by lia.
  pose proof (ring_mod k Hk n) as Hn. pose proof (ring_mod k Hk d) as Hd.
  assert (Hst : stride c = esz c) by done.
  rewrite (load_slot_n c Hf (ring_n k)) by (auto; lia). cbn [mbind option_bind].
  rewrite Hcs, (load_entry_n c Hf (ring_n k)) by (auto; lia). cbn [mbind option_bind].
  fold f. change (bytes_at f (slot c (n mod ring_n k)) (Z.to_nat (esz c))) with (ent c k f n).
  assert (Hle : length (ent c k f n) = Z.to_nat (esz c)) by apply length_bytes_at.
  rewrite (store_entry_n c Hf (ring_n k)) by (auto; lia). cbn [mbind option_bind].
  set (m1 := {| fm_size := _ |}).
  assert (Hm1 : fits_n c (ring_n k) m1) by done.
  rewrite (load_slot_n c Hf (ring_n k)) by (auto; lia). cbn [mbind option_bind].
  rewrite (store_slot_n c Hf (ring_n k)) by (auto; simpl length; lia). cbn [mbind option_bind].
  eexists. split; [done|]. split; [done|]. cbn [fm_byte m1]. fold f.
  match goal with |- overlay _ _ [?x] ≐ _ => set (b := x) end.
  replace (esz c - 1) with (Z.of_nat (length (ent c k f n)) - 1) by lia.
  etransitivity; [apply overlay_last; lia|]. unfold moved, b. rewrite Hle.
  replace (Z.to_nat (esz c) - 1)%nat with (Z.to_nat (esz c - 1)) by lia.
  rewrite !op_own_last by done. rewrite !nth_bytes_at by lia. rewrite !Z.add_0_r.
  rewrite overlay_in by lia. unfold ent at 2. rewrite nth_bytes_at by lia.
  replace (slot c (n mod ring_n k) + _) with (slot c (n mod ring_n k) + (esz c - 1)) by lia. done.
Qed.
End Wf.

(** ** Entries up to their owner bit *)

Definition strip (bs : list Z) : list Z :=
  take (length bs - 1) bs ++ [nth (length bs - 1) bs 0 .& Z.lnot 1].

(** Ownership is decided by the last byte. *)
Definition owned_byte (b : Z) (turn : bool) : bool :=
  negb (b >>. 4 =? MLX5_CQE_INVALID) && (Z.lxor (b .& 1) (Z.b2z turn) =? 0).

Lemma merge_bits x y : ((x .& 1) .| (y .& Z.lnot 1)) .& 1 = x .& 1 /\
  ((x .& 1) .| (y .& Z.lnot 1)) .& Z.lnot 1 = y .& Z.lnot 1 /\
  ((x .& 1) .| (y .& Z.lnot 1)) >>. 4 = y >>. 4.
Proof.
  assert (H1 : forall i, 0 <= i -> Z.testbit 1 i = (i =? 0)).
  { intros i Hi. change 1 with (2 ^ 0). rewrite Z.pow2_bits_eqb by lia. by rewrite Z.eqb_sym. }
  split; [|split]; apply Z.bits_inj'; intros i Hi;
    rewrite ?Z.shiftr_spec, ?Z.land_spec, ?Z.lor_spec, ?Z.land_spec, ?Z.lnot_spec, ?H1 by lia;
    zcases; try lia; by rewrite ?andb_true_r, ?andb_false_r, ?orb_false_r, ?orb_false_l.
Qed.

Section Moves.
Context (c : mlx5_frag_buf_ctrl) (k : Z).
Context (Hwf : fbc_wf c) (Hk : 0 <= k <= 24) (Hsz : esz c = 64 \/ esz c = 128).

Lemma sw_owned_byte f n :
  sw_owned c k f n = owned_byte (f (slot c (n mod ring_n k) + (esz c - 1))) (Z.testbit n k).
Proof. unfold sw_owned, get_cqe_opcode. by rewrite !op_own_last. Qed.

Lemma sw_owned_ent f g n : ent c k f n = ent c k g n -> sw_owned c k f n = sw_owned c k g n.
Proof. intros E. unfold sw_owned. by rewrite !cqe64_drop, E. Qed.

Lemma ent_feq f g n : f ≐ g -> ent c k f n = ent c k g n.
Proof. intros H. unfold ent. by rewrite (bytes_at_proper _ _ H _ _ eq_refl _ _ eq_refl). Qed.

Lemma ent_other f n d bs :
  n mod ring_n k <> d mod ring_n k -> Z.of_nat (length bs) <= esz c ->
  ent c k (overlay f (slot c (d mod ring_n k)) bs) n = ent c k f n.
Proof.
  intros Hne Hl. pose proof (ring_mod k Hk n). pose proof (ring_mod k Hk d).
  pose proof (bytes_at_other c Hwf f (n mod ring_n k) (d mod ring_n k) 0 0 (Z.to_nat (esz c)) bs) as E.
  rewrite !Z.add_0_r in E. unfold ent. change (stride c) with (esz c) in E. apply E; lia.
Qed.

Lemma ent_same f d bs :
  Z.of_nat (length bs) = esz c -> ent c k (overlay f (slot c (d mod ring_n k)) bs) d = bs.
Proof. intros Hl. unfold ent. rewrite <- Hl, Nat2Z.id. apply bytes_at_overlay. Qed.

Lemma length_ent f n : length (ent c k f n) = Z.to_nat (esz c).
Proof. apply length_bytes_at. Qed.

Lemma ent_last f n : nth (Z.to_nat (esz c - 1)) (ent c k f n) 0 = cqe_op_own (cqe64 c k f n).
Proof. rewrite op_own_last by done. unfold ent. rewrite nth_bytes_at by lia. f_equal. lia. Qed.

(** Moving keeps the contents and the owner of the destination. *)
Lemma moved_spec f n d bs :
  bs = take (Z.to_nat (esz c - 1)) (ent c k f n)
       ++ [(cqe_op_own (cqe64 c k f d) .& 1) .| (cqe_op_own (cqe64 c k f n) .& Z.lnot 1)] ->
  sw_owned c k f n = true -> sw_owned c k f d = true ->
  strip bs = strip (ent c k f n) /\
  sw_owned c k (overlay f (slot c (d mod ring_n k)) bs) d = true.
Proof.
  intros -> Hn Hd. set (b := (_ .& 1) .| _).
  assert (Hlt : length (take (Z.to_nat (esz c - 1)) (ent c k f n)) = Z.to_nat (esz c - 1)).
  { rewrite length_take, length_ent. lia. }
  destruct (merge_bits (cqe_op_own (cqe64 c k f d)) (cqe_op_own (cqe64 c k f n))) as (B1 & B2 & B3).
  fold b in B1, B2, B3. split.
  - unfold strip. rewrite length_app, Hlt, length_ent. simpl length.
    replace (Z.to_nat (esz c - 1) + 1 - 1)%nat with (Z.to_nat (esz c - 1)) by lia.
    replace (Z.to_nat (esz c) - 1)%nat with (Z.to_nat (esz c - 1)) by lia.
    rewrite take_app_le, app_nth2 by lia. rewrite Hlt, Nat.sub_diag, take_take, Nat.min_id. simpl nth.
    by rewrite B2, ent_last.
  - rewrite sw_owned_byte. rewrite overlay_in by (rewrite length_app, Hlt; simpl length; lia).
    rewrite app_nth2 by lia. rewrite Hlt. replace (_ - _)%nat with 0%nat by lia. simpl nth.
    rewrite !sw_owned_byte, <- !op_own_last in Hn, Hd by done. unfold owned_byte in *.
    apply andb_true_iff in Hn as [Hn _], Hd as [_ Hd]. by rewrite B1, B3, Hn, Hd.
Qed.
End Moves.

(** ** Cleaning is filtering *)

(** The shared receive queue after the entries [l] were dropped. *)
Fixpoint release_wqes (srq : srq_ref) (l : list (list Z)) : option srq_ref :=
  match l with
  | [] => Some srq
  | e :: r =>
      srq ← match srq with
            | Some (q, m) =>
                if cqe_srqn e .& 16777215 =? 0 then Some srq
                else x ← mlx5_ib_free_srq_wqe q m (cqe_wqe_counter e); Some (Some x)
            | None => Some None
            end;
      release_wqes srq r
  end.

Section Clean.
Context (cq0 : mlx5_ib_cq) (k : Z) (Hcq : cq_wf cq0 k) (rsn n : Z).
Let c := cb_fbc (cq_buf cq0).
Let f0 := fm_byte (cb_mem (cq_buf cq0)).
Let cons := cq_cons_index cq0.

Definition dropped (i : Z) : bool := is_equal_rsn (cqe64 c k f0 (cons + i)) rsn.

(** Positions, from the consumer index, of the entries in [lo, n) that stay,
    oldest first, and of those below [hi] that go, newest first. *)
Definition kept (lo : Z) : list Z := filter (fun i => dropped i = false) (seqZ lo (n - lo)).
Definition gone (hi : nat) : list (list Z) :=
  (fun i => cqe64 c k f0 (cons + i)) <$> rev (filter (fun i => dropped i = true) (seqZ 0 (Z.of_nat hi))).

Record swept (p nf : Z) (m : frag_mem) : Prop := {
  sp_size : fm_size m = fm_size (cb_mem (cq_buf cq0));
  sp_low : forall i, 0 <= i < p -> ent c k (fm_byte m) (cons + i) = ent c k f0 (cons + i);
  sp_count : nf + Z.of_nat (length (kept p)) = n - p;
  sp_kept : forall j i, kept p !! j = Some i ->
    strip (ent c k (fm_byte m) (cons + (p + nf + Z.of_nat j))) = strip (ent c k f0 (cons + i));
  sp_owned : forall i, 0 <= i < ring_n k -> sw_owned c k (fm_byte m) (cons + i) = sw_owned c k f0 (cons + i);
  sp_rest : forall i, n <= i < ring_n k -> ent c k (fm_byte m) (cons + i) = ent c k f0 (cons + i);
}.

Context (Hn : 0 <= n < ring_n k) (Hown : forall i, 0 <= i < n -> sw_owned c k f0 (cons + i) = true).

Lemma kept_step p : 0 < p <= n ->
  kept (p - 1) = if dropped (p - 1) then kept p else (p - 1) :: kept p.
Proof.
  intros Hp. unfold kept. rewrite seqZ_cons by lia.
  replace (Z.succ (p - 1)) with p by lia. replace (Z.pred (n - (p - 1))) with (n - p) by lia.
  rewrite filter_cons. case_decide as E; [by rewrite E|].
  apply not_false_is_true in E. by rewrite E.
Qed.

Lemma gone_step p : gone (S p) =
  if dropped (Z.of_nat p) then cqe64 c k f0 (cons + Z.of_nat p) :: gone p else gone p.
Proof.
  unfold gone. replace (Z.of_nat (S p)) with (Z.of_nat p + 1) by lia.
  rewrite seqZ_app, filter_app, rev_app_distr by lia. rewrite (seqZ_cons _ 1), filter_cons by lia.
  rewrite seqZ_nil by lia. rewrite Z.add_0_l.
  case_decide as E; [by rewrite E|]. apply not_true_is_false in E. by rewrite E.
Qed.

Lemma swept_start : swept n 0 (cb_mem (cq_buf cq0)).
Proof.
  split; try done.
  - unfold kept. rewrite seqZ_nil by lia. simpl. lia.
  - intros j i. unfold kept. rewrite seqZ_nil by lia. done.
Qed.

(** One entry is dropped. *)
Lemma swept_drop p nf m :
  0 < p <= n -> swept p nf m -> dropped (p - 1) = true -> swept (p - 1) (nf + 1) m.
Proof.
  intros Hp [S1 S2 S3 S4 S5 S6] Hd. pose proof (kept_step p Hp) as Hks. rewrite Hd in Hks.
  split; auto.
  - intros i Hi. apply S2. lia.
  - rewrite Hks. lia.
  - intros j i Hj. rewrite Hks in Hj. replace (p - 1 + (nf + 1)) with (p + nf) by lia. auto.
Qed.

(** One entry stays where it is. *)
Lemma swept_stay p m :
  0 < p <= n -> swept p 0 m -> dropped (p - 1) = false -> swept (p - 1) 0 m.
Proof.
  intros Hp [S1 S2 S3 S4 S5 S6] Hd. pose proof (kept_step p Hp) as Hks. rewrite Hd in Hks.
  split; auto.
  - intros i Hi. apply S2. lia.
  - rewrite Hks. cbn [length]. lia.
  - intros [|j] i Hj; rewrite Hks in Hj; simpl in Hj.
    + injection Hj as <-. rewrite !Z.add_0_r. by rewrite S2 by lia.
    + replace (p - 1 + 0 + Z.of_nat (S j)) with (p + 0 + Z.of_nat j) by lia. auto.
Qed.

Lemma slots_apart i j :
  0 <= i < ring_n k -> 0 <= j < ring_n k -> i <> j ->
  (cons + i) mod ring_n k <> (cons + j) mod ring_n k.
Proof. intros. apply mod_apart; auto. apply ring_n_pos, Hcq. Qed.

(** One entry moves up by the number of dropped ones. *)
Lemma swept_move p nf m m' :
  0 < p <= n -> 0 < nf -> swept p nf m -> dropped (p - 1) = false ->
  let f := fm_byte m in
  let bs := take (Z.to_nat (esz c - 1)) (ent c k f (cons + (p - 1)))
            ++ [(cqe_op_own (cqe64 c k f (cons + (p - 1 + nf))) .& 1)
                .| (cqe_op_own (cqe64 c k f (cons + (p - 1))) .& Z.lnot 1)] in
  fm_size m' = fm_size m ->
  fm_byte m' ≐ overlay f (slot c ((cons + (p - 1 + nf)) mod ring_n k)) bs ->
  swept (p - 1) nf m'.
Proof.
  intros Hp Hnf [S1 S2 S3 S4 S5 S6] Hd f bs Hz Hb.
  pose proof (kept_step p Hp) as Hks. rewrite Hd in Hks.
  destruct Hcq as [Hf Hk _ Hsz _ _]. fold c in Hf, Hsz.
  assert (Hlen : Z.of_nat (length bs) = esz c).
  { unfold bs. rewrite length_app, length_take, length_ent. simpl. lia. }
  set (d := p - 1 + nf) in *.
  assert (Hother : forall i, 0 <= i < ring_n k -> i <> d ->
            ent c k (fm_byte m') (cons + i) = ent c k f (cons + i)).
  { intros i Hi Hne. rewrite (ent_feq _ _ _ _ _ Hb). apply ent_other; auto; [|lia].
    apply slots_apart; lia. }
  assert (Hsame : ent c k (fm_byte m') (cons + d) = bs).
  { rewrite (ent_feq _ _ _ _ _ Hb). by apply ent_same. }
  destruct (moved_spec c k Hsz f (cons + (p - 1)) (cons + d) bs eq_refl) as [Hst Ho].
  { rewrite S5 by lia. apply Hown. lia. }
  { rewrite S5 by lia. apply Hown. lia. }
  split.
  - congruence.
  - intros i Hi. rewrite Hother by lia. apply S2. lia.
  - rewrite Hks. cbn [length]. lia.
  - intros [|j] i Hj; rewrite Hks in Hj; simpl in Hj.
    + injection Hj as <-. rewrite Z.add_0_r. fold d. rewrite Hsame, Hst. unfold f. by rewrite S2 by lia.
    + pose proof (lookup_lt_Some _ _ _ Hj).
      replace (p - 1 + nf + Z.of_nat (S j)) with (p + nf + Z.of_nat j) by lia.
      rewrite Hother by lia. auto.
  - intros i Hi. destruct (decide (i = d)) as [->|Hne].
    + rewrite (Hown d) by lia. transitivity (sw_owned c k (overlay f (slot c ((cons + d) mod ring_n k)) bs) (cons + d)); [|done].
      apply sw_owned_ent; [done|]. rewrite Hsame. symmetry. by apply ent_same.
    + rewrite <- S5 by done. apply sw_owned_ent; [done|]. by apply Hother.
  - intros i Hi. rewrite Hother by lia. auto.
Qed.

Lemma cq_wf_mem m : fm_size m = fm_size (cb_mem (cq_buf cq0)) -> cq_wf (with_cq_mem cq0 m) k.
Proof. intros Hz. destruct Hcq as [? ? ? ? ? (? & ? & ?)]. split; auto. split; auto. simpl. by rewrite Hz. Qed.

Lemma find_prod_ok fuel p :
  0 <= p <= n -> sw_owned c k f0 (cons + n) = false -> (Z.to_nat (n - p) < fuel)%nat ->
  find_prod fuel cq0 (u32 (cons + p)) = Some (u32 (cons + n)).
Proof.
  revert p. induction fuel as [|fuel IH]; intros p Hp Hend Hfu; [lia|]. cbn [find_prod].
  pose proof (cw_k _ _ Hcq) as Hk. pose proof (ring_n_pos k Hk) as HN.
  rewrite (get_sw_cqe_eq _ _ Hcq), sw_owned_u32 by done. fold c f0. cbn [mbind option_bind].
  destruct (decide (p = n)) as [->|Hne]; [by rewrite Hend|]. rewrite Hown by lia.
  rewrite (cw_cqe _ _ Hcq). fold cons.
  destruct (Z.eqb_spec (u32 (cons + p)) (u32 (cons + (ring_n k - 1)))) as [E|_].
  - exfalso. apply (f_equal (fun x => x mod ring_n k)) in E. rewrite !ring_mod_u32 in E by done.
    revert E. apply slots_apart; lia.
  - rewrite u32_add, <- Z.add_assoc. apply IH; [lia|done|lia].
Qed.

Lemma sweep_ok p : forall fuel srq srq' nf m,
  (p < fuel)%nat -> Z.of_nat p <= n -> 0 <= nf -> swept (Z.of_nat p) nf m ->
  release_wqes srq (gone p) = Some srq' ->
  exists m' nf', sweep fuel rsn (with_cq_mem cq0 m) srq (u32 (cons + Z.of_nat p)) nf
    = Some (with_cq_mem cq0 m', srq', nf') /\ swept 0 nf' m' /\ nf <= nf' /\ (nf' = 0 -> m' = m).
Proof.
  pose proof (cw_k _ _ Hcq) as Hk. pose proof (ring_n_pos k Hk) as HN.
  induction p as [|p IH]; intros [|fuel] srq srq' nf m Hfu Hp Hnf Hs Hr; try lia; cbn [sweep];
    change (cq_cons_index (with_cq_mem cq0 m)) with cons.
  { exists m, nf. change (Z.of_nat 0) with 0 in *.
    assert (s32 (u32 (u32 (cons + 0) - 1) - cons) = -1) as ->.
    { rewrite u32_sub, s32_u32_sub. replace (cons + 0 - 1 - cons) with (-1) by lia. done. }
    split; [by injection Hr as ->|]. split; [done|]. split; [lia|done]. }
  assert (Hpi : u32 (u32 (cons + Z.of_nat (S p)) - 1) = u32 (cons + Z.of_nat p)).
  { rewrite u32_sub. f_equal. lia. }
  rewrite Hpi. assert (s32 (u32 (cons + Z.of_nat p) - cons) = Z.of_nat p) as ->.
  { rewrite s32_u32_sub. replace (cons + Z.of_nat p - cons) with (Z.of_nat p) by lia.
    apply s32_small. lia. }
  destruct (Z.ltb_spec (Z.of_nat p) 0); [lia|].
  pose proof (cq_wf_mem m (sp_size _ _ _ Hs)) as Hwm.
  rewrite (read_cqe64_eq _ _ Hwm). cbn [mbind option_bind].
  change (cb_fbc (cq_buf (with_cq_mem cq0 m))) with c. cbn [with_cq_mem cq_buf cb_mem].
  rewrite cqe64_u32 by done.
  assert (Hce : cqe64 c k (fm_byte m) (cons + Z.of_nat p) = cqe64 c k f0 (cons + Z.of_nat p)).
  { pose proof (cw_sz _ _ Hcq). rewrite !cqe64_drop by done. by rewrite (sp_low _ _ _ Hs) by lia. }
  rewrite Hce. fold (dropped (Z.of_nat p)). rewrite gone_step in Hr.
  replace (Z.of_nat (S p)) with (Z.of_nat p + 1) in Hs by lia.
  assert (Hp1 : Z.of_nat p + 1 - 1 = Z.of_nat p) by lia.
  destruct (dropped (Z.of_nat p)) eqn:Ed.
  - cbn [release_wqes] in Hr.
    destruct (match srq with Some (q, m0) => _ | None => _ end) as [srq1|]; [|done]. cbn [mbind option_bind] in *.
    destruct (IH fuel srq1 srq' (nf + 1) m) as (m2 & nf2 & E2 & H2 & H3 & H4); auto; try lia.
    { rewrite <- Hp1. apply swept_drop; rewrite ?Hp1; auto; lia. }
    exists m2, nf2. split; [exact E2|]. split; [done|]. split; [lia|done].
  - destruct (Z.eqb_spec nf 0) as [->|Hn0].
    + apply (IH fuel srq srq' 0 m); auto; try lia.
      rewrite <- Hp1. apply swept_stay; rewrite ?Hp1; auto; lia.
    + destruct (move_cqe_eq _ _ Hwm (u32 (cons + Z.of_nat p)) (u32 (u32 (cons + Z.of_nat p) + nf)))
        as (m' & E & Hz & Hb). cbn [with_cq_mem cq_cqe cq_buf cb_mem] in *. rewrite E. cbn [mbind option_bind].
      destruct (IH fuel srq srq' nf m') as (m2 & nf2 & E2 & H2 & H3 & H4); auto; try lia.
      { rewrite <- Hp1. apply (swept_move (Z.of_nat p + 1) nf m m'); auto; try lia; [by rewrite Hp1|].
        rewrite Hp1. etransitivity; [exact Hb|]. unfold moved. cbn [with_cq_mem cq_buf cb_fbc cb_mem].
        rewrite u32_add, ring_mod_u32, ent_u32, !cqe64_u32 by done. by rewrite Z.add_assoc. }
      exists m2, nf2. split; [exact E2|]. split; [done|]. split; [lia|]. intros ->. lia.
Qed.
End Clean.

(** The software has the [n] entries from the consumer index on, the device the
    one behind them. *)
Definition cq_holds (cq : mlx5_ib_cq) (k n : Z) : Prop :=
  let c := cb_fbc (cq_buf cq) in
  let f := fm_byte (cb_mem (cq_buf cq)) in
  let cons := cq_cons_index cq in
  cq_wf cq k /\ 0 <= n < ring_n k /\ 0 <= cons < 2 ^ 32 /\
  (forall i, 0 <= i < n -> sw_owned c k f (cons + i) = true) /\
  sw_owned c k f (cons + n) = false.

(** [cq'] is [cq] without the entries of [rsn]. *)
Record cleaned (cq : mlx5_ib_cq) (k rsn n : Z) (cq' : mlx5_ib_cq) : Prop := {
  cl_wf : cq_wf cq' k;
  cl_fbc : cb_fbc (cq_buf cq') = cb_fbc (cq_buf cq);
  cl_cons : cq_cons_index cq' = u32 (cq_cons_index cq + (n - Z.of_nat (length (kept cq k rsn n 0))));
  cl_db : cq_set_ci_db cq' =
    if n - Z.of_nat (length (kept cq k rsn n 0)) =? 0 then cq_set_ci_db cq
    else be32 (cq_cons_index cq' mod 2 ^ 24);
  cl_kept : forall j i, kept cq k rsn n 0 !! j = Some i ->
    let at' := cq_cons_index cq + (n - Z.of_nat (length (kept cq k rsn n 0)) + Z.of_nat j) in
    strip (ent (cb_fbc (cq_buf cq)) k (fm_byte (cb_mem (cq_buf cq'))) at')
    = strip (ent (cb_fbc (cq_buf cq)) k (fm_byte (cb_mem (cq_buf cq))) (cq_cons_index cq + i)) /\
    sw_owned (cb_fbc (cq_buf cq)) k (fm_byte (cb_mem (cq_buf cq'))) at' = true;
  cl_end : sw_owned (cb_fbc (cq_buf cq)) k (fm_byte (cb_mem (cq_buf cq'))) (cq_cons_index cq + n) = false;
  cl_frag : cb_frag_buf (cq_buf cq') = cb_frag_buf (cq_buf cq);
}.

Lemma cq_clean_ok cq k rsn n srq srq' :
  cq_holds cq k n -> release_wqes srq (gone cq k rsn (Z.to_nat n)) = Some srq' ->
  exists cq', mlx5_ib_cq_clean (Some cq) rsn srq = Some (Some cq', srq') /\ cleaned cq k rsn n cq'.
Proof.
  intros (Hcq & Hn & Hc & Hown & Hend) Hr.
  set (c := cb_fbc (cq_buf cq)) in *. set (f := fm_byte (cb_mem (cq_buf cq))) in *.
  set (cons := cq_cons_index cq) in *.
  unfold mlx5_ib_cq_clean, cq_clean_. pose proof (cw_cqe _ _ Hcq) as Hcqe.
  pose proof (find_prod_ok cq k Hcq n Hn Hown (Z.to_nat (cq_cqe cq + 2)) 0) as Hprod.
  rewrite Z.add_0_r in Hprod. fold c f cons in Hprod. rewrite u32_small in Hprod by lia.
  fold cons. rewrite Hprod by (done || lia). cbn [mbind option_bind].
  destruct (sweep_ok cq k Hcq rsn n Hn Hown (Z.to_nat n) (Z.to_nat (cq_cqe cq + 2)) srq srq' 0
              (cb_mem (cq_buf cq))) as (m' & nf & E & Hs & Hnf0 & H0); auto; try lia.
  { rewrite Z2Nat.id by lia. by apply swept_start. }
  rewrite Z2Nat.id in E by lia. fold cons in E.
  assert (with_cq_mem cq (cb_mem (cq_buf cq)) = cq) as Hid by by destruct cq as [[] ? ? ? ? ?].
  rewrite Hid in E. rewrite E. cbn [mbind option_bind].
  destruct Hs as [S1 S2 S3 S4 S5 S6]. rewrite !Z.sub_0_r in S3.
  assert (Hnf : n - Z.of_nat (length (kept cq k rsn n 0)) = nf) by lia.
  pose proof (cq_wf_mem cq k Hcq m' S1) as [? ? ? ? ? ?].
  eexists. split; [done|].
  assert (Hf' : forall cq', cq' = (if nf =? 0 then with_cq_mem cq m'
            else mlx5_cq_set_ci (with_cons (with_cq_mem cq m') (u32 (cons + nf)))) ->
            cb_mem (cq_buf cq') = m') by (intros cq' ->; by destruct (nf =? 0)).
  change (cq_cons_index (with_cq_mem cq m')) with cons.
  split; rewrite ?Hnf, ?(Hf' _ eq_refl); fold c f cons.
  - destruct (nf =? 0); split; done.
  - by destruct (nf =? 0).
  - destruct (Z.eqb_spec nf 0) as [->|]; [|done]. by rewrite Z.add_0_r, u32_small.
  - zcases; simpl; [done|]. change 16777215 with (2 ^ 24 - 1). by rewrite land_mask.
  - intros j i Hj. pose proof (lookup_lt_Some _ _ _ Hj). split; [by apply S4|]. rewrite S5 by lia. apply Hown. lia.
  - rewrite S5 by lia. done.
  - by destruct (nf =? 0).
Qed.

(** The queue pair an entry names is not touched by [strip]. *)
Lemma strip_rsn e e' o rsn :
  strip e = strip e' -> length e = length e' -> (o + 64 <= length e)%nat ->
  is_equal_rsn (drop o e) rsn = is_equal_rsn (drop o e') rsn.
Proof.
  unfold strip, is_equal_rsn, cqe_sop_drop_qpn, field. intros H Hl Ho.
  apply app_inj_1 in H as [H _]; [|rewrite !length_take; lia].
  rewrite <- Hl in H. do 3 f_equal. rewrite !drop_drop.
  assert (Ht : forall l : list Z, (o + 64 <= length l)%nat ->
    take 4 (drop (o + 56) l) = take 4 (drop (o + 56) (take (length l - 1) l))).
  { intros l Hlen. rewrite !take_drop_commute, take_take. do 2 f_equal. lia. }
  rewrite (Ht e), (Ht e'), <- Hl, H by lia. done.
Qed.

(** What is left is not the queue pair's. *)
Lemma cleaned_none cq k rsn n cq' i :
  cq_wf cq k -> cleaned cq k rsn n cq' -> n - Z.of_nat (length (kept cq k rsn n 0)) <= i < n ->
  is_equal_rsn (cqe64 (cb_fbc (cq_buf cq)) k (fm_byte (cb_mem (cq_buf cq'))) (cq_cons_index cq + i)) rsn = false.
Proof.
  intros Hwf Hcl Hi. set (l := kept cq k rsn n 0) in *.
  destruct (lookup_lt_is_Some_2 l (Z.to_nat (i - (n - Z.of_nat (length l))))) as [x Hx]; [lia|].
  destruct (cl_kept _ _ _ _ _ Hcl _ _ Hx) as [Hs _]. fold l in Hs.
  replace (n - Z.of_nat (length l) + Z.of_nat (Z.to_nat (i - (n - Z.of_nat (length l))))) with i in Hs by lia.
  pose proof (cw_sz _ _ Hwf) as Hsz. rewrite cqe64_drop by done.
  rewrite (strip_rsn _ _ _ _ Hs) by (unfold ent; rewrite !length_bytes_at; lia).
  rewrite <- cqe64_drop by done. apply list_elem_of_lookup_2 in Hx. unfold l, kept in Hx.
  by apply list_elem_of_filter in Hx as [? _].
Qed.

(** C17. Cleaning a completion queue of a queue pair is filtering it: when the
    [n] entries from the consumer index are the software's and entry [n] is the
    device's, the entries of the queue pair disappear and the others stay, in
    their order, right before entry [n], unchanged up to the owner bit, and
    still owned by the software; the consumer index and its doorbell move by
    the number dropped, and the receive WQEs the dropped entries name go back
    to their shared receive queue. *)
Theorem cq_clean_filters cq k rsn n srq srq' :
  let c := cb_fbc (cq_buf cq) in
  let f := fm_byte (cb_mem (cq_buf cq)) in
  let cons := cq_cons_index cq in
  cq_wf cq k -> 0 <= n < ring_n k -> 0 <= cons < 2 ^ 32 ->
  (forall i, 0 <= i < n -> sw_owned c k f (cons + i) = true) ->
  sw_owned c k f (cons + n) = false ->
  release_wqes srq (gone cq k rsn (Z.to_nat n)) = Some srq' ->
  exists cq', mlx5_ib_cq_clean (Some cq) rsn srq = Some (Some cq', srq') /\ cq_wf cq' k /\
    let f' := fm_byte (cb_mem (cq_buf cq')) in
    let l := kept cq k rsn n 0 in
    let nfreed := n - Z.of_nat (length l) in
    cb_fbc (cq_buf cq') = c /\
    cq_cons_index cq' = u32 (cons + nfreed) /\
    cq_set_ci_db cq' = (if nfreed =? 0 then cq_set_ci_db cq else be32 (cq_cons_index cq' mod 2 ^ 24)) /\
    (forall j i, l !! j = Some i ->
       strip (ent c k f' (cons + (nfreed + Z.of_nat j))) = strip (ent c k f (cons + i)) /\
       sw_owned c k f' (cons + (nfreed + Z.of_nat j)) = true) /\
    sw_owned c k f' (cons + n) = false.
Proof.
  intros c f cons Hcq Hn Hc Hown Hend Hr.
  destruct (cq_clean_ok cq k rsn n srq srq') as (cq' & E & [H1 H2 H3 H4 H5 H6 _]);
    [exact (conj Hcq (conj Hn (conj Hc (conj Hown Hend))))|done|].
  exists cq'. split; [done|]. split; [exact H1|]. split; [exact H2|]. by repeat (split; [done|]).
Qed.

(** Four entries of 64 bytes; the software has those of queue pairs 5 and 6. *)
Definition ex_clean : mlx5_ib_cq :=
  {| cq_buf := {| cb_fbc := mlx5_init_fbc 0 6 6;
                  cb_mem := {| fm_size := 256;
                               fm_byte := fun a => if a =? 59 then 6 else if a =? 123 then 5
                                          else if (a =? 191) || (a =? 255) then 240 else 0 |};
                  cb_frag_buf := mkfb [] 0 1 256 12; cb_cqe_size := 64; cb_nent := 4 |};
     cq_cqe := 3; cq_cqe_sz := 64; cq_cons_index := 0; cq_set_ci_db := be32 0; cq_resize_buf := None |}.

Lemma ex_clean_wf : cq_wf ex_clean 2.
Proof.
  split; simpl; [by apply init_fbc_offset_wf|lia|done|by left|done|]. vm_compute; repeat split; done.
Qed.

Lemma cq_clean_filters_witness :
  exists cq', mlx5_ib_cq_clean (Some ex_clean) 5 None = Some (Some cq', None) /\
    cq_cons_index cq' = 1 /\
    strip (ent (mlx5_init_fbc 0 6 6) 2 (fm_byte (cb_mem (cq_buf cq'))) 1)
    = strip (ent (mlx5_init_fbc 0 6 6) 2 (fm_byte (cb_mem (cq_buf ex_clean))) 0).
Proof.
  destruct (cq_clean_filters ex_clean 2 5 2 None None) as (cq' & E & _ & _ & Hc & _ & Hk & _).
  - apply ex_clean_wf.
  - split; [lia|done].
  - split; [done|done].
  - intros i Hi. assert (i = 0 \/ i = 1) as [-> | ->] by lia; vm_compute; done.
  - vm_compute; done.
  - vm_compute; done.
  - exists cq'. split; [exact E|]. split; [rewrite Hc; vm_compute; done|].
    destruct (Hk 0%nat 0) as [Hs _]; [vm_compute; done|]. exact Hs.
Defined.
