(* ===== verification/CqResize.v ===== *)
(** * CqResize: creating and resizing the buffer of a completion queue
    (hw/mlx5/cq.c) *)

From S2P Require Import Prelude FragBuf Strides KHeap FragAlloc QpTypes WqeSeg SqRing PostSend RecvQueue Srq Cqe CqRing.

Section Buffers.
Context (o : oracle).

(** The second log_wq_sz is the code's: of the entry size, not of the number
    of entries.  A coherent allocation is zeroed. *)
Definition alloc_cq_frag_buf (nent cqe_size : Z) (h : heap)
    : option (Z * option mlx5_ib_cq_buf * heap) :=
  let log_wq_stride := 6 + (if cqe_size =? 128 then 1 else 0) in
  let log_wq_sz := ilog2 cqe_size in
  '(err, fb, h) ← mlx5_frag_buf_alloc_node o (s32 (nent * cqe_size)) h;
  match fb with
  | None => Some (err, None, h)
  | Some fb =>
      Some (0, Some {| cb_fbc := mlx5_init_fbc 0 log_wq_stride log_wq_sz;
                       cb_mem := {| fm_size := fb_size fb; fm_byte := fun _ => 0 |};
                       cb_frag_buf := fb; cb_cqe_size := cqe_size; cb_nent := nent |}, h)
  end.

(** [for (i = 0; i < buf->nent; i++)]: the entry is taken from the queue's
    current buffer, the number of entries and their size from [buf]. *)
Fixpoint init_cqes (n : nat) (i : Z) (buf : mlx5_ib_cq_buf) (cq : mlx5_ib_cq)
    : option mlx5_ib_cq :=
  match n with
  | O => Some cq
  | S n =>
      let cqe := get_cqe cq i in
      let cqe64 := if cb_cqe_size buf =? 64 then cqe else padd cqe 64 in
      m ← store (cb_mem (cq_buf cq)) (padd cqe64 63) [MLX5_CQE_INVALID <<. 4];
      init_cqes n (i + 1) buf (with_cq_mem cq m)
  end.

Definition init_cq_frag_buf (cq : mlx5_ib_cq) (buf : mlx5_ib_cq_buf) : option mlx5_ib_cq :=
  init_cqes (Z.to_nat (cb_nent buf)) 0 buf cq.

Definition with_resize (cq : mlx5_ib_cq) (r : option (nat * mlx5_ib_cq_buf)) : mlx5_ib_cq :=
  {| cq_buf := cq_buf cq; cq_cqe := cq_cqe cq; cq_cqe_sz := cq_cqe_sz cq;
     cq_cons_index := cq_cons_index cq; cq_set_ci_db := cq_set_ci_db cq; cq_resize_buf := r |}.

Definition with_buf (cq : mlx5_ib_cq) (b : mlx5_ib_cq_buf) : mlx5_ib_cq :=
  {| cq_buf := b; cq_cqe := cq_cqe cq; cq_cqe_sz := cq_cqe_sz cq;
     cq_cons_index := cq_cons_index cq; cq_set_ci_db := cq_set_ci_db cq;
     cq_resize_buf := cq_resize_buf cq |}.

(** sizeof(struct mlx5_ib_cq_buf) *)
Definition sizeof_cq_buf : Z := 80.

(** The buffer structure is zeroed until alloc_cq_frag_buf fills it.  After a
    failed allocation the freed structure stays in resize_buf. *)
Definition resize_kernel (cq : mlx5_ib_cq) (entries cqe_size : Z) (h : heap)
    : option (Z * mlx5_ib_cq * heap) :=
  match kmalloc o sizeof_cq_buf h with
  | (None, h) => Some (- ENOMEM, with_resize cq None, h)
  | (Some p, h) =>
      '(err, b, h) ← alloc_cq_frag_buf entries cqe_size h;
      match b with
      | None =>
          h ← kfree p h;
          let zero := mkcqbuf (mkfbc 0 0 0 0 0 0 0) (mkfrag_mem 0 (fun _ => 0)) (mkfb [] 0 0 0 0) 0 0 in
          Some (err, with_resize cq (Some (p, zero)), h)
      | Some b =>
          cq ← init_cq_frag_buf (with_resize cq (Some (p, b))) b;
          Some (0, cq, h)
      end
  end.

Definition free_cq_buf (b : mlx5_ib_cq_buf) (h : heap) : option heap :=
  mlx5_frag_buf_free (cb_frag_buf b) h.

Definition un_resize_kernel (cq : mlx5_ib_cq) (h : heap) : option (mlx5_ib_cq * heap) :=
  '(_, b) ← cq_resize_buf cq;
  h ← free_cq_buf b h;
  Some (with_resize cq None, h).

(** The loop of copy_resize_cqes at entry [scqe], number [i]. *)
Fixpoint copy_cqes (fuel : nat) (cq : mlx5_ib_cq) (p : nat) (rb : mlx5_ib_cq_buf) (start scqe : ptr)
    (i : Z) : option (Z * mlx5_ib_cq) :=
  match fuel with
  | O => None
  | S fuel =>
      let size := cb_cqe_size (cq_buf cq) in
      c ← load (cb_mem (cq_buf cq)) (cqe64_of size scqe) 64;
      if get_cqe_opcode c =? MLX5_CQE_RESIZE_CQ
      then Some (0, with_cons (with_resize cq (Some (p, rb))) (u32 (cq_cons_index cq + 1)))
      else
        let dcqe := mlx5_frag_buf_get_wqe (cb_fbc rb) ((i + 1) .& cb_nent rb) in
        let dcqe64 := cqe64_of (cb_cqe_size rb) dcqe in
        let sw_own := sw_ownership_bit (i + 1) (cb_nent rb) in
        bs ← load (cb_mem (cq_buf cq)) scqe (Z.to_nat (cb_cqe_size rb));
        m ← store (cb_mem rb) dcqe bs;
        old ← load m (padd dcqe64 63) 1;
        m ← store m (padd dcqe64 63) [(nth 0 old 0 .& Z.lnot MLX5_CQE_OWNER_MASK) .| sw_own];
        let rb := {| cb_fbc := cb_fbc rb; cb_mem := m; cb_frag_buf := cb_frag_buf rb;
                     cb_cqe_size := cb_cqe_size rb; cb_nent := cb_nent rb |} in
        nxt ← get_sw_cqe cq (u32 (i + 1));
        match nxt with
        | None => Some (- EINVAL, with_resize cq (Some (p, rb)))
        | Some scqe =>
            if ptr_eqb scqe start then Some (- ENOMEM, with_resize cq (Some (p, rb)))
            else copy_cqes fuel cq p rb start scqe (u32 (i + 1))
        end
  end.

(** Each round takes another entry and the first one ends the loop, so one
    round per entry of the ring is enough. *)
Definition copy_resize_cqes (cq : mlx5_ib_cq) (p : nat) (rb : mlx5_ib_cq_buf)
    : option (Z * mlx5_ib_cq) :=
  if negb (cb_cqe_size (cq_buf cq) =? cb_cqe_size rb) then Some (- EINVAL, cq)
  else
    o ← get_sw_cqe cq (cq_cons_index cq);
    match o with
    | None => Some (- EINVAL, cq)
    | Some scqe => copy_cqes (Z.to_nat (cq_cqe cq + 2)) cq p rb scqe scqe (cq_cons_index cq)
    end.

Definition with_cqe (cq : mlx5_ib_cq) (n : Z) : mlx5_ib_cq :=
  {| cq_buf := cq_buf cq; cq_cqe := n; cq_cqe_sz := cq_cqe_sz cq;
     cq_cons_index := cq_cons_index cq; cq_set_ci_db := cq_set_ci_db cq;
     cq_resize_buf := cq_resize_buf cq |}.

(** mlx5_ib_resize_cq behind the modify command: the new buffer takes over,
    unless a poll has already installed it. *)
Definition resize_finish (cq : mlx5_ib_cq) (entries : Z) (h : heap) : option (mlx5_ib_cq * heap) :=
  match cq_resize_buf cq with
  | None => Some (with_cqe cq (entries - 1), h)
  | Some (p, rb) =>
      '(err, cq) ← copy_resize_cqes cq p rb;
      if err =? 0 then
        '(p, rb) ← cq_resize_buf cq;
        h ← kfree p h;
        h ← free_cq_buf (cq_buf cq) h;
        Some (with_cqe (with_resize (with_buf cq rb) None) (entries - 1), h)
      else Some (with_cqe cq (entries - 1), h)
  end.

(** The kernel path of mlx5_ib_resize_cq.  [modify] is the result of the
    modify command, [between] what the device and other callers do to the queue
    and the heap until it returns. *)
Definition mlx5_ib_resize_cq (cap_resize : bool) (log_max_cq_sz sizeof_in : Z) (modify : Z)
    (between : mlx5_ib_cq * heap -> mlx5_ib_cq * heap) (cq : mlx5_ib_cq) (entries : Z) (h : heap)
    : option (Z * mlx5_ib_cq * heap) :=
  if negb cap_resize then Some (- ENOSYS, cq, h)
  else if (entries <? 1) || (1 <<. log_max_cq_sz <? entries) then Some (- EINVAL, cq, h)
  else
    let entries := roundup_pow_of_two (entries + 1) in
    if (1 <<. log_max_cq_sz) + 1 <? entries then Some (- EINVAL, cq, h)
    else if entries =? cq_cqe cq + 1 then Some (0, cq, h)
    else
      '(err, cq, h) ← resize_kernel cq entries 64 h;
      if negb (err =? 0) then Some (err, cq, h)
      else
        '(_, rb) ← cq_resize_buf cq;
        match kmalloc o (sizeof_in + 8 * fb_npages (cb_frag_buf rb)) h with
        | (None, h) => '(cq, h) ← un_resize_kernel cq h; Some (- ENOMEM, cq, h)
        | (Some inp, h) =>
            if negb (modify =? 0) then
              h ← kfree inp h;
              '(cq, h) ← un_resize_kernel cq h;
              Some (modify, cq, h)
            else
              let '(cq, h) := between (cq, h) in
              '(cq, h) ← resize_finish cq entries h;
              h ← kfree inp h;
              Some (0, cq, h)
        end.
End Buffers.

(** ** Initialising *)

Section Init.
Context (k : Z) (buf : mlx5_ib_cq_buf).

Lemma init_cqes_ok n : forall cq i,
  cq_wf cq k -> cb_cqe_size buf = cq_cqe_sz cq -> 0 <= i -> i + Z.of_nat n <= ring_n k ->
  let c := cb_fbc (cq_buf cq) in
  let last x := slot c x + (esz c - 1) in
  exists m', init_cqes n i buf cq = Some (with_cq_mem cq m') /\
    fm_size m' = fm_size (cb_mem (cq_buf cq)) /\
    (forall x, i <= x < i + Z.of_nat n -> fm_byte m' (last x) = MLX5_CQE_INVALID <<. 4) /\
    (forall a, (forall x, i <= x < i + Z.of_nat n -> a <> last x) ->
       fm_byte m' a = fm_byte (cb_mem (cq_buf cq)) a).
Proof.
  induction n as [|n IH]; intros cq i Hwf Hsz Hi Hn c last.
  { exists (cb_mem (cq_buf cq)). split; [simpl; by destruct cq as [[] ? ? ? ? ?]|].
    split; [done|]. split; [lia|done]. }
  pose proof Hwf as [Hf Hk Hc Hs Hcs Hm]. fold c in Hf, Hs, Hcs, Hm.
  cbn [init_cqes]. fold (cqe64_of (cb_cqe_size buf) (get_cqe cq i)). rewrite Hsz, (cqe64_ptr _ _ Hwf).
  fold c. rewrite padd_padd. unfold get_cqe. fold c.
  rewrite (store_slot_n c Hf (ring_n k)); [|done|lia|lia|change (stride c) with (esz c); simpl length; lia].
  cbn [mbind option_bind]. set (m1 := {| fm_size := _ |}).
  destruct (IH (with_cq_mem cq m1) (i + 1)) as (m' & E & Hz & Hin & Hout);
    [by apply cq_wf_mem|done|lia|lia|]. cbn [with_cq_mem cq_buf cb_fbc cb_mem] in Hin, Hout, Hz. fold c last in Hin, Hout.
  assert (Hlast : slot c i + (esz c - 64 + 63) = last i) by (unfold last; lia).
  assert (Hinj : forall x y, last x = last y -> x = y).
  { unfold last, slot. intros x y E'. pose proof (stride_pos c Hf). apply (Z.mul_reg_r x y (stride c)); lia. }
  exists m'. split; [exact E|]. split; [done|]. split.
  - intros x Hx. destruct (decide (x = i)) as [->|]; [|apply Hin; lia].
    rewrite Hout by (intros y Hy E'%Hinj; lia). unfold m1; cbn [fm_byte].
    rewrite Hlast, overlay_in by (simpl length; lia). rewrite Z.sub_diag. done.
  - intros a Ha. rewrite Hout by (intros y Hy; apply Ha; lia). unfold m1; cbn [fm_byte].
    rewrite Hlast, overlay_out; [done|]. specialize (Ha i). simpl length. lia.
Qed.

(** Past the end of the buffer. *)
Lemma init_cqes_overrun n : forall cq i,
  cq_wf cq k -> cb_cqe_size buf = cq_cqe_sz cq -> 0 <= i <= ring_n k -> ring_n k < i + Z.of_nat n ->
  fm_size (cb_mem (cq_buf cq)) = slot (cb_fbc (cq_buf cq)) (ring_n k) ->
  init_cqes n i buf cq = None.
Proof.
  induction n as [|n IH]; intros cq i Hwf Hsz Hi Hn Hm; [lia|].
  pose proof Hwf as [Hf Hk Hc Hs Hcs Hfit]. set (c := cb_fbc (cq_buf cq)) in *.
  cbn [init_cqes]. fold (cqe64_of (cb_cqe_size buf) (get_cqe cq i)). rewrite Hsz, (cqe64_ptr _ _ Hwf).
  fold c. rewrite padd_padd. unfold get_cqe. fold c. destruct (decide (i = ring_n k)) as [->|Hne].
  - pose proof (ring_n_pos k Hk).
    destruct (get_wqe_lin_any c Hf (ring_n k)) as (Hl & _); [lia|]. fold (stride c) in Hl.
    unfold store, in_frag. rewrite lin_padd, Hl, Hm. unfold slot. simpl length.
    match goal with |- context [?a <=? fbc_base c + ?b] => destruct (Z.leb_spec a (fbc_base c + b)) end; [lia|].
    by rewrite andb_false_r.
  - rewrite (store_slot_n c Hf (ring_n k)); [|done|lia|lia|change (stride c) with (esz c); simpl length; lia].
    cbn [mbind option_bind]. apply IH; [by apply cq_wf_mem|done|lia|lia|done].
Qed.

Lemma invalid_not_owned c f n :
  esz c = 64 \/ esz c = 128 -> f (slot c (n mod ring_n k) + (esz c - 1)) = MLX5_CQE_INVALID <<. 4 ->
  sw_owned c k f n = false.
Proof. intros Hsz E. rewrite sw_owned_byte by done. by rewrite E. Qed.
End Init.

(** A new completion queue is empty: after its buffer is initialised no entry,
    on any turn of the ring, is taken for a completion. *)
Lemma init_cq_empty cq k :
  cq_wf cq k -> cb_cqe_size (cq_buf cq) = cq_cqe_sz cq -> cb_nent (cq_buf cq) = ring_n k ->
  exists m', init_cq_frag_buf cq (cq_buf cq) = Some (with_cq_mem cq m') /\ cq_wf (with_cq_mem cq m') k /\
    forall n, get_sw_cqe (with_cq_mem cq m') n = Some None.
Proof.
  intros Hwf Hsz Hn. pose proof Hwf as [Hf Hk _ Hs _ _]. pose proof (ring_n_pos k Hk).
  destruct (init_cqes_ok k (cq_buf cq) (Z.to_nat (cb_nent (cq_buf cq))) cq 0) as (m' & E & Hz & Hin & _);
    auto; [lia..|].
  pose proof (cq_wf_mem cq k Hwf m' Hz) as Hwf'.
  exists m'. split; [done|]. split; [done|].
  intros n. rewrite (get_sw_cqe_eq _ _ Hwf'). cbn [with_cq_mem cq_buf cb_fbc cb_mem].
  rewrite (invalid_not_owned k _ _ n); auto.
  apply Hin. pose proof (ring_mod k Hk n). lia.
Qed.

(** A new buffer: zeroed, of the right shape. *)
Lemma alloc_cq_frag_buf_64 o nent h err b h' :
  alloc_cq_frag_buf o nent 64 h = Some (err, Some b, h') ->
  err = 0 /\ cb_fbc b = mlx5_init_fbc 0 6 6 /\ cb_cqe_size b = 64 /\ cb_nent b = nent /\
  cb_mem b = {| fm_size := s32 (nent * 64); fm_byte := fun _ => 0 |}.
Proof.
  unfold alloc_cq_frag_buf. change (ilog2 64) with 6. simpl.
  destruct (mlx5_frag_buf_alloc_node o (s32 (nent * 64)) h) as [[[e fb] h1]|] eqn:E; [|done]. simpl.
  destruct fb as [fb|]; [|done]. intros [= <- <- <-]. simpl. repeat split.
  assert (fb_size fb = s32 (nent * 64)) as ->; [|done].
  unfold mlx5_frag_buf_alloc_node in E. destruct (kmalloc o _ h) as [[arr|] h2]; [|done].
  destruct (alloc_frags o _ _ _ h2) as [[[ok frags] h3]|]; [|done]. simpl in E.
  destruct ok; [by simplify_eq|].
  destruct (free_frags_page frags h3) as [h4|]; [|done]. simpl in E.
  destruct (kfree arr h4); by simplify_eq.
Qed.

Lemma resize_kernel_success o cq entries h cq' h' :
  resize_kernel o cq entries 64 h = Some (0, cq', h') ->
  exists p b, cb_fbc b = mlx5_init_fbc 0 6 6 /\ cb_cqe_size b = 64 /\ cb_nent b = entries /\
    cb_mem b = {| fm_size := s32 (entries * 64); fm_byte := fun _ => 0 |} /\
    init_cq_frag_buf (with_resize cq (Some (p, b))) b = Some cq'.
Proof.
  unfold resize_kernel. destruct (kmalloc o _ h) as [[p|] h1]; [|done].
  destruct (alloc_cq_frag_buf o entries 64 h1) as [[[err b] h2]|] eqn:E; [|done]. simpl.
  destruct b as [b|].
  - apply alloc_cq_frag_buf_64 in E as (-> & Hfb & Hs & Hn & Hm).
    destruct (init_cq_frag_buf _ b) as [cq1|] eqn:Ei; [|done]. simpl. intros [= <- <-].
    exists p, b. auto.
  - destruct (kfree p h2); [|done]. simpl. intros [= -> _ _]. exfalso.
    unfold alloc_cq_frag_buf in E.
    destruct (mlx5_frag_buf_alloc_node o _ h1) as [[[e fb] h3]|] eqn:E'; [|done]. simpl in E.
    destruct fb; [done|]. simplify_eq.
    unfold mlx5_frag_buf_alloc_node in E'. destruct (kmalloc o _ h1) as [[arr|] h4]; [|by simplify_eq].
    destruct (alloc_frags o _ _ _ h4) as [[[ok frags] h5]|]; [|done]. simpl in E'.
    destruct ok; [by simplify_eq|].
    destruct (free_frags_page frags h5) as [h6|]; [|done]. simpl in E'.
    destruct (kfree arr h6); by simplify_eq.
Qed.

(** Shrinking a completion queue wipes the queue in use instead of the
    new buffer: once resize_kernel has succeeded, the first [entries] entries
    of the current buffer are no completions any more, whatever was waiting in
    them, and every byte of the new buffer is still zero, so that each of its
    entries passes for a completion on the even turns of the ring. *)
Theorem resize_wipes_live_queue o cq k j h cq' h' :
  cq_wf cq k -> cq_cqe_sz cq = 64 -> 0 <= j < k ->
  resize_kernel o cq (2 ^ j) 64 h = Some (0, cq', h') ->
  (forall n, n mod ring_n k < 2 ^ j -> get_sw_cqe cq' n = Some None) /\
  exists p b, cq_resize_buf cq' = Some (p, b) /\
    forall n, Z.testbit n j = false ->
      exists x, get_sw_cqe (with_cqe (with_buf cq' b) (2 ^ j - 1)) n = Some (Some x).
Proof.
  intros Hwf H64 Hj Hr. pose proof Hwf as [Hf Hk Hc Hs Hcs Hm].
  destruct (resize_kernel_success _ _ _ _ _ _ Hr) as (p & b & Hfb & Hbs & Hbn & Hbm & Ei).
  assert (Hjk : 2 ^ j <= ring_n k) by (apply Z.pow_le_mono_r; lia). pose proof (pow2_pos j ltac:(lia)).
  destruct (init_cqes_ok k b (Z.to_nat (cb_nent b)) (with_resize cq (Some (p, b))) 0)
    as (m' & E & Hz & Hin & _); [by split|by rewrite Hbs|lia|lia|].
  fold (init_cq_frag_buf (with_resize cq (Some (p, b))) b) in E. rewrite Ei in E. injection E as ->.
  assert (Hwf' : cq_wf (with_cq_mem (with_resize cq (Some (p, b))) m') k).
  { apply (cq_wf_mem (with_resize cq (Some (p, b)))); [by split|done]. }
  split.
  - intros n Hn. rewrite (get_sw_cqe_eq _ _ Hwf'). pose proof (ring_mod k Hk n).
    rewrite (invalid_not_owned k _ _ n); [done|done|]. apply Hin. lia.
  - exists p, b. split; [done|]. intros n Hbit.
    assert (Hw2 : cq_wf (with_cqe (with_buf (with_cq_mem (with_resize cq (Some (p, b))) m') b) (2 ^ j - 1)) j).
    { assert (2 ^ j <= 2 ^ 23) by (apply Z.pow_le_mono_r; lia).
      split; simpl; rewrite ?Hfb; [by apply init_fbc_offset_wf|lia|done|by left|done|].
      split; [unfold ring_n; lia|]. split; [done|]. rewrite Hbm. unfold slot, stride; simpl.
      rewrite s32_small by lia. change (fbc_base _) with 0. unfold ring_n. lia. }
    rewrite (get_sw_cqe_eq _ _ Hw2). cbn [with_cqe with_buf cq_buf]. rewrite sw_owned_byte by (by rewrite Hfb; left).
    rewrite Hbm, Hbit. eauto.
Qed.

(** Growing a completion queue writes past the end of the buffer in use:
    resize_kernel never reports success, its result is undefined as soon as its
    allocations are granted. *)
Theorem resize_grow_overruns o cq k entries h :
  cq_wf cq k -> cq_cqe_sz cq = 64 -> ring_n k < entries ->
  fm_size (cb_mem (cq_buf cq)) = slot (cb_fbc (cq_buf cq)) (ring_n k) ->
  match resize_kernel o cq entries 64 h with
  | Some (err, _, _) => err <> 0
  | None => True
  end.
Proof.
  intros Hwf H64 He Hm. destruct (resize_kernel o cq entries 64 h) as [[[err cq'] h']|] eqn:Hr; [|done].
  intros ->. destruct (resize_kernel_success _ _ _ _ _ _ Hr) as (p & b & _ & Hbs & Hbn & _ & Ei).
  unfold init_cq_frag_buf in Ei. rewrite (init_cqes_overrun k) in Ei; [done|by destruct Hwf|by rewrite Hbs| | |done].
  - pose proof (ring_n_pos k (cw_k _ _ Hwf)). lia.
  - pose proof (ring_n_pos k (cw_k _ _ Hwf)). lia.
Qed.

(** ** Copying *)

(** The mask of copy_resize_cqes is the number of entries, not one less. *)
Lemma land_pow2_cases x j : 0 <= j -> x .& 2 ^ j = 0 \/ x .& 2 ^ j = 2 ^ j.
Proof.
  intros Hj. destruct (Z.testbit x j) eqn:E; [right|left]; apply Z.bits_inj'; intros i Hi;
    rewrite Z.land_spec, ?Z.testbit_0_l, Z.pow2_bits_eqb by lia;
    destruct (Z.eqb_spec j i) as [<-|]; by rewrite ?E, ?andb_true_r, ?andb_false_r.
Qed.

Lemma load_length m p n bs : load m p n = Some bs -> length bs = n.
Proof. unfold load. destruct (in_frag _ _ _); [|done]. intros [= <-]. apply length_bytes_at. Qed.

Lemma store_frame m p bs m' a :
  store m p bs = Some m' -> a < lin p \/ lin p + Z.of_nat (length bs) <= a -> fm_byte m' a = fm_byte m a.
Proof. intros (_ & _ & ->)%store_Some Ha. by apply overlay_out. Qed.

Section Copy.
Context (c : mlx5_frag_buf_ctrl) (j : Z) (f0 : Z -> Z).
Context (Hwf : fbc_wf c) (Hst : stride c = 64) (Hj : 0 <= j <= 24).

(** Nothing of the entries 1 to 2^j - 1 has changed. *)
Definition inner_kept (b : mlx5_ib_cq_buf) : Prop :=
  cb_fbc b = c /\ cb_nent b = 2 ^ j /\ cb_cqe_size b = 64 /\
  forall a, slot c 1 <= a < slot c (2 ^ j) -> fm_byte (cb_mem b) a = f0 a.

Lemma copy_cqes_slots fuel : forall cq p rb start scqe i err cq' rb',
  inner_kept rb -> copy_cqes fuel cq p rb start scqe i = Some (err, cq') ->
  cq_resize_buf cq' = Some (p, rb') -> inner_kept rb'.
Proof.
  induction fuel as [|fuel IH]; intros cq p rb start scqe i err cq' rb' Hin E Hrb; [done|].
  cbn [copy_cqes] in E. destruct (load _ (cqe64_of _ scqe) 64) as [e|]; [|done]. cbn [mbind option_bind] in E.
  case_match; [injection E as <- <-; simpl in Hrb; by simplify_eq|].
  destruct (load (cb_mem (cq_buf cq)) scqe _) as [bs|] eqn:El; [|done]. cbn [mbind option_bind] in E.
  destruct (store (cb_mem rb) _ bs) as [m1|] eqn:E1; [|done]. cbn [mbind option_bind] in E.
  destruct (load m1 _ 1) as [old|]; [|done]. cbn [mbind option_bind] in E.
  destruct (store m1 _ _) as [m2|] eqn:E2; [|done]. cbn [mbind option_bind] in E.
  destruct (get_sw_cqe cq _) as [nxt|]; [|done]. cbn [mbind option_bind] in E.
  set (rb1 := {| cb_fbc := _ |}) in *. assert (H1 : inner_kept rb1).
  { destruct Hin as (Hc & Hn & Hs & Hb). split; [done|]. split; [done|]. split; [done|].
    intros a Ha. rewrite <- Hb by done. cbn [rb1 cb_mem]. rewrite Hc, Hn, Hs in *.
    pose proof (pow2_pos j ltac:(lia)). assert (2 ^ j <= 2 ^ 24) by (apply Z.pow_le_mono_r; lia).
    apply load_length in El as Hlen. change (Z.to_nat 64) with 64%nat in Hlen.
    assert (Hlin : lin (mlx5_frag_buf_get_wqe c ((i + 1) .& 2 ^ j)) = slot c 0 \/
                   lin (mlx5_frag_buf_get_wqe c ((i + 1) .& 2 ^ j)) = slot c (2 ^ j)).
    { destruct (land_pow2_cases (i + 1) j ltac:(lia)) as [E0|E0]; rewrite E0; [left|right];
        apply get_wqe_lin_any; auto; lia. }
    unfold slot in *. rewrite Hst in *.
    rewrite (store_frame _ _ _ _ _ E2), (store_frame _ _ _ _ _ E1); [done| |];
      change (cqe64_of 64 ?x) with x; rewrite ?lin_padd, ?Hlen; simpl length; lia. }
  destruct nxt as [nxt|]; [|injection E as <- <-; simpl in Hrb; by simplify_eq].
  case_match; [injection E as <- <-; simpl in Hrb; by simplify_eq|]. by eapply IH.
Qed.
End Copy.

(** Copying the waiting completions to the resized buffer puts none of
    them where it belongs: the mask used for the destination is the number of
    entries itself, so every copy goes to entry 0 or past the last entry, and
    the entries between keep the bytes they had. *)
Theorem copy_resize_misses cq p rb j err cq' rb' :
  fbc_wf (cb_fbc rb) -> stride (cb_fbc rb) = 64 -> 0 <= j <= 24 -> cb_nent rb = 2 ^ j ->
  cb_cqe_size rb = 64 -> cq_resize_buf cq = Some (p, rb) ->
  copy_resize_cqes cq p rb = Some (err, cq') -> cq_resize_buf cq' = Some (p, rb') ->
  forall x, 1 <= x < 2 ^ j ->
    bytes_at (fm_byte (cb_mem rb')) (slot (cb_fbc rb) x) 64
    = bytes_at (fm_byte (cb_mem rb)) (slot (cb_fbc rb) x) 64.
Proof.
  intros Hf Hst Hj Hn Hs Hr E Hrb x Hx.
  assert (Hk : inner_kept (cb_fbc rb) j (fm_byte (cb_mem rb)) rb').
  { assert (H0 : inner_kept (cb_fbc rb) j (fm_byte (cb_mem rb)) rb) by (split_and!; done).
    assert (Hsame : cq' = cq -> inner_kept (cb_fbc rb) j (fm_byte (cb_mem rb)) rb').
    { intros ->. rewrite Hr in Hrb. by injection Hrb as <-. }
    unfold copy_resize_cqes in E. destruct (negb _); [injection E as _ <-; by apply Hsame|].
    destruct (get_sw_cqe cq _) as [[s|]|]; cbn [mbind option_bind] in E;
      [|injection E as _ <-; by apply Hsame|done].
    by eapply (copy_cqes_slots _ j _ Hf Hst Hj); [|exact E|exact Hrb]. }
  destruct Hk as (_ & _ & _ & Hb). apply bytes_at_ext. intros a Ha. apply Hb.
  unfold slot in *. rewrite Hst in *. lia.
Qed.

(** Four entries of 64 bytes: completions of queue pairs 5 and 6 are waiting. *)
Definition ex_cq_mem : frag_mem :=
  {| fm_size := 256;
     fm_byte := fun a => if a =? 59 then 5 else if a =? 123 then 6
                         else if (a =? 191) || (a =? 255) then 240 else 0 |}.
Definition ex_cq : mlx5_ib_cq :=
  {| cq_buf := {| cb_fbc := mlx5_init_fbc 0 6 6; cb_mem := ex_cq_mem; cb_frag_buf := mkfb [] 0 1 256 12;
                  cb_cqe_size := 64; cb_nent := 4 |};
     cq_cqe := 3; cq_cqe_sz := 64; cq_cons_index := 0; cq_set_ci_db := be32 0; cq_resize_buf := None |}.

Lemma ex_cq_wf : cq_wf ex_cq 2.
Proof.
  split; simpl; [by apply init_fbc_offset_wf|lia|done|by left|done|]. vm_compute; repeat split; done.
Qed.

Definition ex_oracle : oracle := fun n => Some (Z.of_nat n * 4096).

Lemma resize_wipes_live_queue_witness :
  match resize_kernel ex_oracle ex_cq 2 64 (mkheap 0 ∅) with
  | Some (0, cq', _) => get_sw_cqe ex_cq 0 <> Some None /\ get_sw_cqe cq' 0 = Some None
  | _ => False
  end.
Proof.
  destruct (resize_kernel ex_oracle ex_cq 2 64 (mkheap 0 ∅)) as [[[e cq'] h']|] eqn:E; [|by vm_compute in E].
  assert (He : e = 0) by (vm_compute in E; injection E; congruence). subst e. split.
  - vm_compute. done.
  - apply (resize_wipes_live_queue ex_oracle ex_cq 2 1 (mkheap 0 ∅) cq' h');
      [exact ex_cq_wf|done|lia|exact E|done].
Defined.

Lemma resize_grow_overruns_witness :
  match resize_kernel ex_oracle ex_cq 8 64 (mkheap 0 ∅) with
  | Some (err, _, _) => err <> 0
  | None => True
  end.
Proof. apply (resize_grow_overruns ex_oracle ex_cq 2 8); [exact ex_cq_wf|done|done|done]. Defined.

(** The same queue in the middle of a resize to eight entries, the resize entry
    behind the two completions. *)
Definition ex_resizing : mlx5_ib_cq * mlx5_ib_cq_buf :=
  let b := {| cb_fbc := mlx5_init_fbc 0 6 6; cb_mem := {| fm_size := 512; fm_byte := fun _ => 0 |};
              cb_frag_buf := mkfb [] 0 1 512 12; cb_cqe_size := 64; cb_nent := 8 |} in
  let m := {| fm_size := 256;
              fm_byte := fun a => if a =? 191 then 80 else fm_byte ex_cq_mem a |} in
  (with_resize (with_cq_mem ex_cq m) (Some (1%nat, b)), b).

Lemma copy_resize_misses_witness :
  match copy_resize_cqes (ex_resizing.1) 1 (ex_resizing.2) with
  | Some (0, cq') =>
      match cq_resize_buf cq' with
      | Some (_, rb') => cq_cons_index cq' = 1 /\ bytes_at (fm_byte (cb_mem rb')) 128 64 = bytes_at (fun _ => 0) 128 64
      | None => False
      end
  | _ => False
  end.
Proof.
  destruct (copy_resize_cqes (ex_resizing.1) 1 (ex_resizing.2)) as [[e cq']|] eqn:E; [|by vm_compute in E].
  assert (He : e = 0) by (vm_compute in E; injection E; congruence). subst e.
  destruct (cq_resize_buf cq') as [[p' rb']|] eqn:Er.
  2: { vm_compute in E. injection E as <-. by vm_compute in Er. }
  assert (Hp : p' = 1%nat /\ cq_cons_index cq' = 1).
  { vm_compute in E. injection E as <-. split; [vm_compute in Er; injection Er; congruence|by vm_compute]. }
  destruct Hp as [-> Hc]. split; [exact Hc|].
  refine (copy_resize_misses _ 1 (ex_resizing.2) 3 0 cq' rb' _ _ _ _ _ _ E Er 2 _);
    [by apply init_fbc_offset_wf|done|lia|done|done|done|lia].
Defined.
