(* ===== verification/CqPoll.v ===== *)
(** * CqPoll: polling a completion queue (hw/mlx5/cq.c, mlx5_ib_poll_cq)

    A poll touches the completion queue, the send or receive queue of the queue
    pair the entry names, the shared receive queues and the memory regions; they
    are the [world] below, each in a table by its number. *)

From S2P Require Import Prelude FragBuf Strides KHeap FragAlloc QpTypes WqeSeg SqRing PostSend RecvQueue Srq Cqe CqRing CqResize.

Record poll_qp := mkpqp {
  pq_type : ib_qp_type;
  pq_qp_num : Z;
  pq_port : Z;
  pq_sq : mlx5_ib_wq;
  pq_rq : mlx5_ib_wq;
  pq_srq : option Z;
  pq_xrcd : bool;
}.

Record sig_state := mksigst { ss_item : ib_sig_err; ss_exists : bool; ss_count : Z }.

Record world := mkworld {
  w_cq : mlx5_ib_cq;
  w_qps : Z -> option poll_qp;                       (* __mlx5_qp_lookup *)
  w_srqs : Z -> option (mlx5_ib_srq * frag_mem);     (* mlx5_cmd_get_srq *)
  w_sigs : Z -> option sig_state;                    (* __mlx5_mr_lookup, by key index *)
  w_heap : heap;
  w_soft : list ib_wc;                               (* cq->wc_list *)
  w_send_list : list Z;                              (* cq->list_send_qp *)
  w_recv_list : list Z;
}.

Definition set_cq (w : world) (c : mlx5_ib_cq) : world :=
  mkworld c (w_qps w) (w_srqs w) (w_sigs w) (w_heap w) (w_soft w) (w_send_list w) (w_recv_list w).
Definition set_qp (w : world) (n : Z) (q : poll_qp) : world :=
  mkworld (w_cq w) (upd (w_qps w) n (Some q)) (w_srqs w) (w_sigs w) (w_heap w) (w_soft w)
    (w_send_list w) (w_recv_list w).
Definition set_srq (w : world) (n : Z) (s : mlx5_ib_srq * frag_mem) : world :=
  mkworld (w_cq w) (w_qps w) (upd (w_srqs w) n (Some s)) (w_sigs w) (w_heap w) (w_soft w)
    (w_send_list w) (w_recv_list w).
Definition set_sig (w : world) (n : Z) (s : sig_state) : world :=
  mkworld (w_cq w) (w_qps w) (w_srqs w) (upd (w_sigs w) n (Some s)) (w_heap w) (w_soft w)
    (w_send_list w) (w_recv_list w).
Definition set_heap (w : world) (h : heap) : world :=
  mkworld (w_cq w) (w_qps w) (w_srqs w) (w_sigs w) h (w_soft w) (w_send_list w) (w_recv_list w).
Definition set_soft (w : world) (l : list ib_wc) : world :=
  mkworld (w_cq w) (w_qps w) (w_srqs w) (w_sigs w) (w_heap w) l (w_send_list w) (w_recv_list w).

Definition set_tail_poll (wq : mlx5_ib_wq) (t lp : Z) : mlx5_ib_wq :=
  {| fbc := fbc wq; wrid := wrid wq; wr_data := wr_data wq; w_list_opcode := w_list_opcode wq;
     w_list_next := w_list_next wq; wqe_head := wqe_head wq; wqe_cnt := wqe_cnt wq;
     max_post := max_post wq; max_gs := max_gs wq; wq_offset := wq_offset wq;
     wqe_shift := wqe_shift wq; head := head wq; tail := t; cur_post := cur_post wq;
     last_poll := lp; cur_edge := cur_edge wq |}.
Definition set_pq_sq (q : poll_qp) (s : mlx5_ib_wq) : poll_qp :=
  mkpqp (pq_type q) (pq_qp_num q) (pq_port q) s (pq_rq q) (pq_srq q) (pq_xrcd q).
Definition set_pq_rq (q : poll_qp) (r : mlx5_ib_wq) : poll_qp :=
  mkpqp (pq_type q) (pq_qp_num q) (pq_port q) (pq_sq q) r (pq_srq q) (pq_xrcd q).

(** ** The queues behind an entry *)

(** The loop of handle_atomics: follow the w_list chain from [tail] to the WQE
    at [head]; the result is the counter behind it.  A chain that misses
    [head] never ends. *)
Fixpoint handle_atomics (fuel : nat) (sq : mlx5_ib_wq) (tail head : Z) : option Z :=
  match fuel with
  | O => None
  | S fuel =>
      let idx := tail .& (wqe_cnt sq - 1) in
      if idx =? head then Some (w_list_next sq idx)
      else handle_atomics fuel sq (w_list_next sq idx) head
  end.

(** A good requester completion on send queue [sq]: the request's identifier,
    its status and the queue behind it.  The chain visits an index at most
    once, so wqe_cnt rounds are enough. *)
Definition comp_req (sq : mlx5_ib_wq) (wqe_ctr : Z) : option (Z * Z * Z * mlx5_ib_wq) :=
  let idx := wqe_ctr .& (wqe_cnt sq - 1) in
  lp ← handle_atomics (Z.to_nat (wqe_cnt sq)) sq (last_poll sq) idx;
  Some (idx, wrid sq idx,
        if wr_data sq idx =? MLX5_IB_WR_SIG_CANCELED then IB_WC_SIG_PIPELINE_CANCELED
        else IB_WC_SUCCESS,
        set_tail_poll sq (u32 (wqe_head sq idx + 1)) lp).

(** A failed one: last_poll stays. *)
Definition comp_req_err (sq : mlx5_ib_wq) (wqe_ctr : Z) : Z * mlx5_ib_wq :=
  let idx := wqe_ctr .& (wqe_cnt sq - 1) in
  (wrid sq idx, set_tail_poll sq (u32 (wqe_head sq idx + 1)) (last_poll sq)).

(** The oldest receive request. *)
Definition comp_recv (rq : mlx5_ib_wq) : Z * mlx5_ib_wq :=
  (wrid rq (tail rq .& (wqe_cnt rq - 1)), set_tail_poll rq (u32 (tail rq + 1)) (last_poll rq)).

(** WQE [wqe_ctr] of shared receive queue [n]. *)
Definition comp_srq (w : world) (n wqe_ctr : Z) : option (Z * world) :=
  '(srq, m) ← w_srqs w n;
  if wqe_ctr <? srq_max srq
  then r ← mlx5_ib_free_srq_wqe srq m wqe_ctr; Some (srq_wrid srq wqe_ctr, set_srq w n r)
  else None.

(** The receive WQE of handle_responder.  A lookup that fails is turned into a
    pointer in front of the address space and used. *)
Definition responder_wqe (w : world) (n : Z) (q : poll_qp) (cqe : list Z) : option (Z * world) :=
  if pq_xrcd q then comp_srq w (cqe_srqn cqe) (cqe_wqe_counter cqe)
  else match pq_srq q with
       | Some s => comp_srq w s (cqe_wqe_counter cqe)
       | None => let '(id, rq) := comp_recv (pq_rq q) in Some (id, set_qp w n (set_pq_rq q rq))
       end.

(** The receive WQE of an error entry, which does not look at the XRC domain. *)
Definition responder_err_wqe (w : world) (n : Z) (q : poll_qp) (cqe : list Z)
    : option (Z * world) :=
  match pq_srq q with
  | Some s => comp_srq w s (cqe_wqe_counter cqe)
  | None => let '(id, rq) := comp_recv (pq_rq q) in Some (id, set_qp w n (set_pq_rq q rq))
  end.

(** ** One completion *)

Section Poll.
Context (eth : bool) (find_pkey : Z -> Z -> option Z).

(** The switch of mlx5_poll_one, for entry [cqe] of queue pair [n]; [None] in
    the second component is [goto repoll]. *)
Definition poll_entry (w : world) (n : Z) (q : poll_qp) (cqe : list Z) (wc : ib_wc)
    : option (world * option ib_wc) :=
  let opcode := get_cqe_opcode cqe in
  if opcode =? MLX5_CQE_REQ then
    '(idx, id, status, sq) ← comp_req (pq_sq q) (cqe_wqe_counter cqe);
    let wc := handle_good_req wc cqe (pq_sq q) idx in
    Some (set_qp w n (set_pq_sq q sq), Some (wc_set_status (wc_set_id wc id) status))
  else if (opcode =? MLX5_CQE_RESP_WR_IMM) || (opcode =? MLX5_CQE_RESP_SEND)
       || (opcode =? MLX5_CQE_RESP_SEND_IMM) || (opcode =? MLX5_CQE_RESP_SEND_INV) then
    '(id, w) ← responder_wqe w n q cqe;
    let wc := decode_responder eth find_pkey (pq_type q) (pq_port q) cqe (wc_set_id wc id) in
    Some (w, Some (wc_set_status wc IB_WC_SUCCESS))
  else if opcode =? MLX5_CQE_REQ_ERR then
    let wc := mlx5_handle_error_cqe cqe wc in
    let '(id, sq) := comp_req_err (pq_sq q) (cqe_wqe_counter cqe) in
    Some (set_qp w n (set_pq_sq q sq), Some (wc_set_id wc id))
  else if opcode =? MLX5_CQE_RESP_ERR then
    let wc := mlx5_handle_error_cqe cqe wc in
    '(id, w) ← responder_err_wqe w n q cqe;
    Some (w, Some (wc_set_id wc id))
  else if opcode =? MLX5_CQE_SIG_ERR then
    let key := field cqe 36 4 >>. 8 in
    s ← w_sigs w key;
    Some (set_sig w key (mksigst (get_sig_err_item cqe (ss_item s)) true (u32 (ss_count s + 1))), None)
  else Some (w, Some wc).

(** Entry [cqe] of mlx5_poll_one once it is consumed: [inl] goes on polling,
    [inr] returns the result, the queue pair of the entry and the completion. *)
Definition take_entry (w : world) (cqe : list Z) (cur : option Z) (wc : ib_wc)
    : option (world * option Z * ib_wc + Z * world * option Z * ib_wc) :=
  match (get_cqe_opcode cqe =? MLX5_CQE_RESIZE_CQ), cq_resize_buf (w_cq w) with
  | true, Some (rp, rb) =>
      h ← free_cq_buf (cq_buf (w_cq w)) (w_heap w);
      h ← kfree rp h;
      Some (inl (set_heap (set_cq w (with_resize (with_buf (w_cq w) rb) None)) h, cur, wc))
  | _, _ =>
      let qpn := cqe_sop_drop_qpn cqe .& 16777215 in
      let same := match cur with
                  | Some n => match w_qps w n with
                              | Some q => pq_qp_num q =? qpn
                              | None => false
                              end
                  | None => false
                  end in
      let n := if same then default 0 cur else qpn in
      q ← w_qps w n;
      '(w, r) ← poll_entry w n q cqe (wc_set_qp wc n);
      Some (match r with
            | Some wc => inr (0, w, Some n, wc)
            | None => inl (w, Some n, wc_set_qp wc n)
            end)
  end.

(** One round of mlx5_poll_one, from its label repoll on: [inl] jumps back there,
    [inr] returns -EAGAIN or 0, the queue pair of the last entry and the
    completion; [None] is undefined behaviour. *)
Definition poll_round (w : world) (cur : option Z) (wc : ib_wc)
    : option (world * option Z * ib_wc + Z * world * option Z * ib_wc) :=
  let cq := w_cq w in
  e ← next_cqe_sw cq;
  match e with
  | None => Some (inr (- EAGAIN, w, cur, wc))
  | Some p =>
      cqe ← read_cqe64 cq p;
      take_entry (set_cq w (with_cons cq (u32 (cq_cons_index cq + 1)))) cqe cur wc
  end.

Inductive poll_outcome :=
| Polled (r : Z * world * option Z * ib_wc)
| Undefined
| OutOfRounds.

(** At most [fuel] rounds. *)
Fixpoint poll_rounds (fuel : nat) (w : world) (cur : option Z) (wc : ib_wc) : poll_outcome :=
  match fuel with
  | O => OutOfRounds
  | S fuel =>
      match poll_round w cur wc with
      | None => Undefined
      | Some (inl (w, cur, wc)) => poll_rounds fuel w cur wc
      | Some (inr r) => Polled r
      end
  end.

Definition poll_one (fuel : nat) (w : world) (cur : option Z) (wc : ib_wc) : option (Z * world * option Z * ib_wc) :=
  match poll_rounds fuel w cur wc with Polled r => Some r | _ => None end.

(** ** Completions made by software *)

(** sw_comp: flush up to [room] outstanding requests of one queue. *)
Fixpoint flush_wq (room : nat) (cur : nat) (is_send : bool) (n : Z) (wq : mlx5_ib_wq)
    (wcs : list ib_wc) : list ib_wc * mlx5_ib_wq :=
  match room, cur, wcs with
  | S room, S cur, wc :: wcs =>
      let idx := (if is_send then last_poll wq else tail wq) .& (wqe_cnt wq - 1) in
      let wc := wc_set_qp (wc_set_vendor (wc_set_status (wc_set_id wc (wrid wq idx))
                  IB_WC_WR_FLUSH_ERR) MLX5_CQE_SYNDROME_WR_FLUSH_ERR) n in
      let wq := set_tail_poll wq (u32 (tail wq + 1))
                  (if is_send then w_list_next wq idx else last_poll wq) in
      let '(done, wq) := flush_wq room cur is_send n wq wcs in
      (wc :: done, wq)
  | _, _, _ => ([], wq)
  end.

Definition sw_comp (w : world) (n : Z) (room : nat) (is_send : bool) (wcs : list ib_wc)
    : option (list ib_wc * world) :=
  q ← w_qps w n;
  let wq := if is_send then pq_sq q else pq_rq q in
  let '(done, wq) := flush_wq room (Z.to_nat (u32 (head wq - tail wq))) is_send n wq wcs in
  Some (done, set_qp w n (if is_send then set_pq_sq q wq else set_pq_rq q wq)).

Fixpoint sw_comp_list (w : world) (qps : list Z) (room : nat) (is_send : bool) (wcs : list ib_wc)
    : option (list ib_wc * world) :=
  match qps with
  | [] => Some ([], w)
  | n :: rest =>
      '(done, w) ← sw_comp w n room is_send wcs;
      if (room <=? length done)%nat then Some (done, w)
      else
        '(more, w) ← sw_comp_list w rest (room - length done) is_send (drop (length done) wcs);
        Some (done ++ more, w)
  end.

Definition mlx5_ib_poll_sw_comp (w : world) (room : nat) (wcs : list ib_wc)
    : option (list ib_wc * world) :=
  '(done, w) ← sw_comp_list w (w_send_list w) room true wcs;
  if (room <=? length done)%nat then Some (done, w)
  else
    '(more, w) ← sw_comp_list w (w_recv_list w) (room - length done) false (drop (length done) wcs);
    Some (done ++ more, w).

(** poll_soft_wc: take up to [room] of the completions generated in software. *)
Definition poll_soft_wc (w : world) (room : nat) (is_fatal_err : bool) : list ib_wc * world :=
  let l := take room (w_soft w) in
  ((fun wc => if is_fatal_err
              then wc_set_vendor (wc_set_status wc IB_WC_WR_FLUSH_ERR) MLX5_CQE_SYNDROME_WR_FLUSH_ERR
              else wc) <$> l, set_soft w (drop room (w_soft w))).

(** The loop of mlx5_ib_poll_cq over the hardware's completions. *)
Fixpoint poll_loop (fuel : nat) (w : world) (cur : option Z) (wcs : list ib_wc)
    : option (list ib_wc * world) :=
  match wcs with
  | [] => Some ([], w)
  | wc :: rest =>
      '(err, w, cur, wc) ← poll_one fuel w cur wc;
      if negb (err =? 0) then Some ([], w)
      else '(done, w) ← poll_loop fuel w cur rest; Some (wc :: done, w)
  end.

(** mlx5_ib_poll_cq with the array [wcs] of num_entries completions; the
    completions reported are its first entries.  An entry, once consumed, has the
    wrong owner bit for the next turn of the ring, so one poll consumes at most
    one turn, and one more after a resize. *)
Definition mlx5_ib_poll_cq (internal_error : bool) (w : world) (wcs : list ib_wc)
    : option (list ib_wc * world) :=
  let '(soft, w) := poll_soft_wc w (length wcs) internal_error in
  let wcs := drop (length soft) wcs in
  if internal_error then
    '(done, w) ← mlx5_ib_poll_sw_comp w (length wcs) wcs;
    Some (soft ++ done, w)
  else
    '(done, w) ← poll_loop (Z.to_nat (2 * (cq_cqe (w_cq w) + 1) + 2)) w None wcs;
    Some (soft ++ done,
          if (length done =? 0)%nat then w else set_cq w (mlx5_cq_set_ci (w_cq w))).

(** ** Arming *)

Definition IB_CQ_SOLICITED : Z := 1.
Definition IB_CQ_NEXT_COMP : Z := 2.
Definition IB_CQ_SOLICITED_MASK : Z := 3.
Definition IB_CQ_REPORT_MISSED_EVENTS : Z := 4.
Definition MLX5_CQ_DB_REQ_NOT_SOL : Z := 2 ^ 24.

(** mlx5_cq_arm: the arm record and the two doorbell words. *)
Definition mlx5_cq_arm (arm_sn cmd cqn cons_index : Z) : list Z * list Z :=
  let v := ((arm_sn .& 3) <<. 28) .| cmd .| (cons_index .& 16777215) in
  (be32 v, be32 v ++ be32 cqn).

(** mlx5_ib_arm_cq: the result, the new notify_flags and the doorbell. *)
Definition mlx5_ib_arm_cq (w : world) (arm_sn cqn notify_flags flags : Z)
    : Z * Z * (list Z * list Z) :=
  (if test flags IB_CQ_REPORT_MISSED_EVENTS && negb (length (w_soft w) =? 0)%nat then 1 else 0,
   if notify_flags =? IB_CQ_NEXT_COMP then notify_flags else flags .& IB_CQ_SOLICITED_MASK,
   mlx5_cq_arm arm_sn
     (if flags .& IB_CQ_SOLICITED_MASK =? IB_CQ_SOLICITED then MLX5_CQ_DB_REQ_NOT_SOL else 0)
     cqn (cq_cons_index (w_cq w))).

(** mlx5_ib_generate_wc: queue a software completion; [true] schedules the
    notification. *)
Definition mlx5_ib_generate_wc (w : world) (notify_flags : Z) (wc : ib_wc) : world * Z * bool :=
  let w := set_soft w (w_soft w ++ [wc]) in
  if (notify_flags =? IB_CQ_NEXT_COMP) || negb (wc_status wc =? IB_WC_SUCCESS)
  then (w, 0, true) else (w, notify_flags, false).
End Poll.
