(* ===== verification/GsiRing.v ===== *)
(** * GsiRing: sending management datagrams (hw/mlx5/gsi.c)

    The queue pair 1 a consumer sees is a wrapper: a send goes out on one of
    several hardware queue pairs, one for each partition key, so the hardware
    completes sends in any order.  The ring [outstanding_wrs] puts them back in
    the order they were posted.  Its entries are also the software completions on
    the list of the consumer's completion queue, which links them: a poll reads
    the ring and hands the entry back, and until then the entry cannot be reused.

    The machine [fifo] is what the ring promises: a queue of sends, the finished
    ones at its front moved to the completion queue of CqPoll.  The ring runs
    without undefined behaviour and gives the results of the machine. *)

From S2P Require Import Prelude ErrState QpTypes WqeSeg Cqe CqRing CqPoll.

Open Scope es_scope.

(** ** The ring *)

Record mlx5_ib_gsi_wr := mkgwr {
  gw_done : bool;               (* cqe.done is handle_single_completion *)
  gw_wc : ib_wc;                (* mwc.wc *)
  gw_in_use : bool;             (* mwc.in_use *)
  gw_send_flags : Z;
  gw_completed : bool;
}.

Record mlx5_ib_gsi_qp := mkgsi {
  gs_rx_qp : Z;
  gs_port_num : Z;
  gs_max_send_wr : Z;           (* cap.max_send_wr *)
  gs_sig_all : bool;            (* sq_sig_type == IB_SIGNAL_ALL_WR *)
  gs_wrs : list mlx5_ib_gsi_wr; (* outstanding_wrs *)
  gs_pi : Z;                    (* outstanding_pi *)
  gs_ci : Z;                    (* outstanding_ci *)
  gs_num_qps : Z;
  gs_tx_qps : list (option Z);
}.

(** A datagram to send, as far as the wrapper looks at it. *)
Record ud_send := mkuds { us_wr_id : Z; us_pkey_index : Z; us_rest : list Z }.

(** What the hardware is sending: the queue pair, wr_cqe as the entry it is in,
    and the request. *)
Definition flight : Type := Z * nat * ud_send.

Record gst := mkgst {
  g_qp : mlx5_ib_gsi_qp;
  g_wc_list : list nat;         (* send_cq->wc_list: entries of the ring *)
  g_notify : Z;                 (* send_cq->notify_flags *)
  g_notified : Z;               (* how often notify_work was scheduled *)
  g_calls : nat;                (* calls of ib_post_send so far *)
  g_flight : list flight;
}.

Definition gw_set_completed (w : mlx5_ib_gsi_wr) (b : bool) : mlx5_ib_gsi_wr :=
  mkgwr (gw_done w) (gw_wc w) (gw_in_use w) (gw_send_flags w) b.
Definition gw_set_mwc (w : mlx5_ib_gsi_wr) (wc : ib_wc) (in_use : bool) : mlx5_ib_gsi_wr :=
  mkgwr (gw_done w) wc in_use (gw_send_flags w) (gw_completed w).
Definition set_wrs (g : mlx5_ib_gsi_qp) (l : list mlx5_ib_gsi_wr) : mlx5_ib_gsi_qp :=
  mkgsi (gs_rx_qp g) (gs_port_num g) (gs_max_send_wr g) (gs_sig_all g) l (gs_pi g) (gs_ci g) (gs_num_qps g) (gs_tx_qps g).
Definition set_pi (g : mlx5_ib_gsi_qp) (i : Z) : mlx5_ib_gsi_qp :=
  mkgsi (gs_rx_qp g) (gs_port_num g) (gs_max_send_wr g) (gs_sig_all g) (gs_wrs g) i (gs_ci g) (gs_num_qps g) (gs_tx_qps g).
Definition set_ci (g : mlx5_ib_gsi_qp) (i : Z) : mlx5_ib_gsi_qp :=
  mkgsi (gs_rx_qp g) (gs_port_num g) (gs_max_send_wr g) (gs_sig_all g) (gs_wrs g) (gs_pi g) i (gs_num_qps g) (gs_tx_qps g).
Definition on_gsi (f : mlx5_ib_gsi_qp -> mlx5_ib_gsi_qp) (s : gst) : gst :=
  mkgst (f (g_qp s)) (g_wc_list s) (g_notify s) (g_notified s) (g_calls s) (g_flight s).
Definition put_wr (j : nat) (w : mlx5_ib_gsi_wr) (s : gst) : gst := on_gsi (fun g => set_wrs g (<[j := w]> (gs_wrs g))) s.

(** [&gsi->outstanding_wrs[index % gsi->cap.max_send_wr]]: no entry if that divides by zero. *)
Definition wr_index (g : mlx5_ib_gsi_qp) (index : Z) : option nat :=
  if gs_max_send_wr g =? 0 then None else Some (Z.to_nat (index mod gs_max_send_wr g)).

(** mlx5_ib_generate_wc on an entry; linking one that is on the list already
    breaks the list. *)
Definition generate_soft_wc (j : nat) : es gst unit := fun s =>
  w ← gs_wrs (g_qp s) !! j;
  if decide (j ∈ g_wc_list s) then None else
  let s := put_wr j (gw_set_mwc w (gw_wc w) true) s in
  let notify := (g_notify s =? IB_CQ_NEXT_COMP) || negb (wc_status (gw_wc w) =? IB_WC_SUCCESS) in
  Some (inr tt, mkgst (g_qp s) (g_wc_list s ++ [j]) (if notify then 0 else g_notify s)
                  (g_notified s + b2z notify) (g_calls s) (g_flight s)).

(** The loop of generate_completions; it returns the index it stops at.  Each
    turn clears a completed flag, so there is at most one more turn than entries. *)
Fixpoint completions_loop (fuel : nat) (index : Z) : es gst Z :=
  match fuel with
  | O => es_undef
  | S fuel =>
      do! s := es_get in
      if index =? gs_pi (g_qp s) then es_ret index else
      do! j := es_lift (wr_index (g_qp s) index) in
      do! w := es_lift (gs_wrs (g_qp s) !! j) in
      if negb (gw_completed w) then es_ret index else
      when gs_sig_all (g_qp s) || test (gw_send_flags w) IB_SEND_SIGNALED then! generate_soft_wc j;;
      do! w := (fun s => w ← gs_wrs (g_qp s) !! j; Some (inr w, s)) in
      es_mod (put_wr j (gw_set_completed w false));;
      completions_loop fuel (u32 (index + 1))
  end.

Definition generate_completions : es gst unit :=
  do! s := es_get in
  do! index := completions_loop (S (length (gs_wrs (g_qp s)))) (gs_ci (g_qp s)) in
  es_mod (on_gsi (fun g => set_ci g index)).

(** handle_single_completion for the entry [j] that wc->wr_cqe is in; queue pair 1 is
    gsi->ibqp. *)
Definition handle_single_completion (j : nat) (wc : ib_wc) : es gst unit :=
  do! s := es_get in
  do! w := es_lift (gs_wrs (g_qp s) !! j) in
  es_mod (put_wr j (gw_set_mwc (gw_set_completed w true) (wc_set_qp (wc_set_id wc (wc_wr_id (gw_wc w))) 1) (gw_in_use w)));;
  generate_completions.

(** [memset(&wc, 0, sizeof(wc))] and the two fields set after it. *)
Definition pending_wc (wr : ud_send) : ib_wc := mkwc (us_wr_id wr) 0 0 0 0 0 (zeros 4) 0 0 0 (u16 (us_pkey_index wr)) 0 0 0 0.

(** mlx5_ib_add_outstanding_wr; it returns the entry wr_cqe now points to. *)
Definition mlx5_ib_add_outstanding_wr (wr : ud_send) (wc : option ib_wc) : es gst nat :=
  do! s := es_get in
  let g := g_qp s in
  if gs_pi g =? u32 (gs_ci g + gs_max_send_wr g) then es_fail (- ENOMEM) else
  do! j := es_lift (wr_index g (gs_pi g)) in
  do! w := es_lift (gs_wrs g !! j) in
  if gw_in_use w then es_fail (- ENOMEM) else
  es_mod (on_gsi (fun g => set_pi g (u32 (gs_pi g + 1))));;
  es_mod (put_wr j (match wc with
                    | None => mkgwr true (pending_wc wr) false (gw_send_flags w) (gw_completed w)
                    | Some wc => mkgwr true wc false (gw_send_flags w) true
                    end));;
  es_ret j.

Definition dropped_wc (wr : ud_send) : ib_wc :=
  mkwc (us_wr_id wr) IB_WC_SUCCESS IB_WC_SEND 0 0 1 (zeros 4) 0 0 0 0 0 0 0 0.

Definition mlx5_ib_gsi_silent_drop (wr : ud_send) : es gst unit :=
  do! _ := mlx5_ib_add_outstanding_wr wr (Some (dropped_wc wr)) in generate_completions.

(** get_tx_qp; [cap] is set_deth_sqpn; tx_qps has num_qps entries and pkey_index is a u16. *)
Definition get_tx_qp (cap : bool) (g : mlx5_ib_gsi_qp) (wr : ud_send) : option (option Z) :=
  if negb cap then Some (Some (gs_rx_qp g))
  else if u16 (us_pkey_index wr) >=? gs_num_qps g then Some None
  else gs_tx_qps g !! Z.to_nat (u16 (us_pkey_index wr)).

Section Send.
Context (cap : bool).
(** ib_post_send of the hardware queue pairs: what the n-th call returns, given what is being
    sent; a request it takes is sent, one it does not take is not. *)
Context (ib_post_send : nat -> list (Z * ud_send) -> Z -> ud_send -> Z).

Definition sending (l : list flight) : list (Z * ud_send) := (fun '(q, _, w) => (q, w)) <$> l.

Definition post_to (q : Z) (j : nat) (wr : ud_send) : es gst Z := fun s =>
  let ret := ib_post_send (g_calls s) (sending (g_flight s)) q wr in
  Some (inr ret, mkgst (g_qp s) (g_wc_list s) (g_notify s) (g_notified s) (S (g_calls s))
                   (if ret =? 0 then g_flight s ++ [(q, j, wr)] else g_flight s)).

(** One turn of the loop of mlx5_ib_gsi_post_send. *)
Definition gsi_post_one (wr : ud_send) : es gst unit :=
  do! s := es_get in
  do! tx_qp := es_lift (get_tx_qp cap (g_qp s) wr) in
  match tx_qp with
  | None => mlx5_ib_gsi_silent_drop wr
  | Some q =>
      do! j := mlx5_ib_add_outstanding_wr wr None in
      do! ret := post_to q j wr in
      if negb (ret =? 0) then
        es_mod (on_gsi (fun g => set_pi g (u32 (gs_pi g - 1) mod gs_max_send_wr g)));;
        es_fail ret
      else es_ret tt
  end.

(** mlx5_ib_gsi_post_send: the result and, with an error, the list from *bad_wr on. *)
Fixpoint mlx5_ib_gsi_post_send (wrs : list ud_send) : es gst (Z * list ud_send) :=
  match wrs with
  | [] => es_ret (0, [])
  | wr :: rest => fun s =>
      '(r, s) ← gsi_post_one wr s;
      match r with
      | inr _ => mlx5_ib_gsi_post_send rest s
      | inl e => Some (inr (e, wr :: rest), s)
      end
  end.

(** poll_soft_wc on the entries linked. *)
Fixpoint poll_entries (room : nat) (is_fatal_err : bool) : es gst (list ib_wc) := fun s =>
  match room, g_wc_list s with
  | S room, j :: rest =>
      w ← gs_wrs (g_qp s) !! j;
      let wc := if is_fatal_err
                then wc_set_vendor (wc_set_status (gw_wc w) IB_WC_WR_FLUSH_ERR) MLX5_CQE_SYNDROME_WR_FLUSH_ERR
                else gw_wc w in
      let s := put_wr j (gw_set_mwc w wc false) s in
      (do! more := poll_entries room is_fatal_err in es_ret (wc :: more))
        (mkgst (g_qp s) rest (g_notify s) (g_notified s) (g_calls s) (g_flight s))
  | _, _ => Some (inr [], s)
  end.

(** The hardware completes what it has been sending for the [k]-th longest:
    cqe.done is called with the completion; one it is not sending it does not complete. *)
Definition hw_complete (k : nat) (wc : ib_wc) : es gst unit := fun s =>
  match g_flight s !! k with
  | None => Some (inr tt, s)
  | Some (_, j, _) =>
      w ← gs_wrs (g_qp s) !! j;
      if negb (gw_done w) then None else
      handle_single_completion j wc
        (mkgst (g_qp s) (g_wc_list s) (g_notify s) (g_notified s) (g_calls s) (delete k (g_flight s)))
  end.

(** ** What happens to the queue pair *)

Inductive gsi_op :=
  | Post (wrs : list ud_send)
  | Complete (k : nat) (wc : ib_wc)
  | Poll (room : nat) (is_fatal_err : bool)
  | Arm (flags : Z).

Inductive gsi_out :=
  | Posted (ret : Z) (bad_wr : list ud_send)
  | Polled (wcs : list ib_wc)
  | Quiet.

Definition arm_notify (flags : Z) (s : gst) : gst :=
  mkgst (g_qp s) (g_wc_list s)
    (if g_notify s =? IB_CQ_NEXT_COMP then g_notify s else flags .& IB_CQ_SOLICITED_MASK)
    (g_notified s) (g_calls s) (g_flight s).

Definition gsi_step (op : gsi_op) : es gst gsi_out :=
  match op with
  | Post wrs => do! r := mlx5_ib_gsi_post_send wrs in es_ret (Posted r.1 r.2)
  | Complete k wc => hw_complete k wc;; es_ret Quiet
  | Poll room fatal => do! l := poll_entries room fatal in es_ret (Polled l)
  | Arm flags => es_mod (arm_notify flags);; es_ret Quiet
  end.

Fixpoint gsi_run (ops : list gsi_op) : es gst (list gsi_out) :=
  match ops with
  | [] => es_ret []
  | op :: ops => do! out := gsi_step op in do! outs := gsi_run ops in es_ret (out :: outs)
  end.

(** The queue pair and its completion queue as mlx5_ib_gsi_create_qp leaves them. *)
Definition new_gsi_wr : mlx5_ib_gsi_wr := mkgwr false (mkwc 0 0 0 0 0 0 (zeros 4) 0 0 0 0 0 0 0 0) false 0 false.
Definition new_gsi (rx_qp port max_send_wr : Z) (sig_all : bool) (tx_qps : list (option Z)) : mlx5_ib_gsi_qp :=
  mkgsi rx_qp port max_send_wr sig_all (replicate (Z.to_nat max_send_wr) new_gsi_wr) 0 0 (Z.of_nat (length tx_qps)) tx_qps.
Definition idle_gst (g : mlx5_ib_gsi_qp) (notify : Z) : gst := mkgst g [] notify 0 0 [].

(** ** The queue it implements *)

(** A send: on the wire on queue pair [q], or finished with a completion that earlier sends hold up. *)
Inductive send_entry := Flying (q : Z) (wr : ud_send) | Finished (wc : ib_wc).

Record fifo := mkfifo {
  f_open : list send_entry;
  f_cq : world;                 (* the consumer's completion queue, of CqPoll *)
  f_notify : Z;
  f_notified : Z;
  f_calls : nat;
}.

Definition on_wire (e : send_entry) : option (Z * ud_send) :=
  match e with Flying q wr => Some (q, wr) | Finished _ => None end.
Definition f_flying (f : fifo) : list (Z * ud_send) := omap on_wire (f_open f).
Definition f_soft (f : fifo) : list ib_wc := w_soft (f_cq f).
Definition f_set_open (f : fifo) (l : list send_entry) : fifo := mkfifo l (f_cq f) (f_notify f) (f_notified f) (f_calls f).

Definition f_report (wc : ib_wc) (f : fifo) : fifo :=
  let '(w, notify, scheduled) := mlx5_ib_generate_wc (f_cq f) (f_notify f) wc in
  mkfifo (f_open f) w notify (f_notified f + b2z scheduled) (f_calls f).

(** The finished sends at the front leave the queue, reported in turn. *)
Fixpoint settle (sig_all : bool) (open : list send_entry) (f : fifo) : fifo :=
  match open with
  | Finished wc :: rest => settle sig_all rest (if sig_all then f_report wc f else f)
  | _ => f_set_open f open
  end.

(** The completion [wc] of the [k]-th send on the wire, under its own identifier. *)
Fixpoint finish (k : nat) (wc : ib_wc) (open : list send_entry) : list send_entry :=
  match open with
  | [] => []
  | Finished w :: rest => Finished w :: finish k wc rest
  | Flying q wr :: rest =>
      match k with
      | O => Finished (wc_set_qp (wc_set_id wc (us_wr_id wr)) 1) :: rest
      | S k => Flying q wr :: finish k wc rest
      end
  end.

Section Fifo.
Context (capacity : nat) (sig_all : bool) (tx : ud_send -> option Z).

(** A send is refused if the sends not finished and the completions not polled fill the queue. *)
Definition f_post_one (wr : ud_send) (f : fifo) : Z * fifo :=
  if (capacity <=? length (f_soft f) + length (f_open f))%nat then (- ENOMEM, f)
  else match tx wr with
       | None => (0, settle sig_all (f_open f ++ [Finished (dropped_wc wr)]) f)
       | Some q =>
           let ret := ib_post_send (f_calls f) (f_flying f) q wr in
           (ret, mkfifo (if ret =? 0 then f_open f ++ [Flying q wr] else f_open f) (f_cq f)
                   (f_notify f) (f_notified f) (S (f_calls f)))
       end.

Fixpoint f_post (wrs : list ud_send) (f : fifo) : Z * list ud_send * fifo :=
  match wrs with
  | [] => (0, [], f)
  | wr :: rest => let '(ret, f) := f_post_one wr f in
                  if ret =? 0 then f_post rest f else (ret, wr :: rest, f)
  end.

Definition f_step (op : gsi_op) (f : fifo) : gsi_out * fifo :=
  match op with
  | Post wrs => let '(ret, bad, f) := f_post wrs f in (Posted ret bad, f)
  | Complete k wc =>
      (Quiet, if (k <? length (f_flying f))%nat then settle sig_all (finish k wc (f_open f)) f else f)
  | Poll room fatal =>
      let '(l, w) := poll_soft_wc (f_cq f) room fatal in
      (Polled l, mkfifo (f_open f) w (f_notify f) (f_notified f) (f_calls f))
  | Arm flags =>
      (Quiet, mkfifo (f_open f) (f_cq f) (mlx5_ib_arm_cq (f_cq f) 0 0 (f_notify f) flags).1.2 (f_notified f) (f_calls f))
  end.

Fixpoint f_run (ops : list gsi_op) (f : fifo) : list gsi_out * fifo :=
  match ops with
  | [] => ([], f)
  | op :: ops => let '(out, f) := f_step op f in let '(outs, f) := f_run ops f in (out :: outs, f)
  end.
End Fifo.
End Send.
