(* ===== verification/GsiFifo.v ===== *)
(** * GsiFifo: the ring of queue pair 1 is a queue

    The simulation between the ring of GsiRing and its machine [fifo], and what
    follows for a consumer: completions come in the order of the sends. *)

From S2P Require Import Prelude ErrState KHeap QpTypes WqeSeg Cqe CqRing CqResize CqPoll GsiRing.

Open Scope es_scope.

(** ** The ring as a list that starts at any entry *)

Inductive cell := CReported (wc : ib_wc) | COpen (e : send_entry) | CFree.

Definition cell_ok (c : cell) (w : mlx5_ib_gsi_wr) : Prop :=
  gw_send_flags w = 0 /\
  match c with
  | CReported wc => gw_in_use w = true /\ gw_completed w = false /\ gw_wc w = wc
  | COpen (Flying _ wr) =>
      gw_in_use w = false /\ gw_completed w = false /\ gw_done w = true /\ wc_wr_id (gw_wc w) = us_wr_id wr
  | COpen (Finished wc) => gw_in_use w = false /\ gw_completed w = true /\ gw_wc w = wc
  | CFree => gw_in_use w = false /\ gw_completed w = false
  end.

Section Ring.
Context (n : nat) (Hn : (0 < n)%nat).

Definition slot_at (i : Z) : nat := Z.to_nat (i mod Z.of_nat n).

Lemma slot_at_lt i : (slot_at i < n)%nat.
Proof. unfold slot_at. pose proof (Z.mod_pos_bound i (Z.of_nat n)). lia. Qed.
Lemma slot_at_inj i j : slot_at i = slot_at j -> Z.abs (i - j) < Z.of_nat n -> i = j.
Proof.
  unfold slot_at. intros E Hd.
  pose proof (Z.mod_pos_bound i (Z.of_nat n)). pose proof (Z.mod_pos_bound j (Z.of_nat n)).
  assert (Hm : i mod Z.of_nat n = j mod Z.of_nat n) by lia.
  rewrite (Z.div_mod i (Z.of_nat n)), (Z.div_mod j (Z.of_nat n)), Hm in Hd |- * by lia.
  assert (i / Z.of_nat n = j / Z.of_nat n) by nia. congruence.
Qed.
Lemma slot_at_turn i : slot_at (i + Z.of_nat n) = slot_at i.
Proof. unfold slot_at. f_equal. rewrite <- (Z.mul_1_l (Z.of_nat n)) at 1. by rewrite Z.mod_add by lia. Qed.

Record ring (C : Z) (cells : list cell) (wrs : list mlx5_ib_gsi_wr) : Prop := {
  rg_cells : length cells = n;
  rg_wrs : length wrs = n;
  rg_at : forall k c, cells !! k = Some c -> exists w, wrs !! slot_at (C + Z.of_nat k) = Some w /\ cell_ok c w;
}.

Lemma ring_get C l c r wrs : ring C (l ++ c :: r) wrs -> exists w, wrs !! slot_at (C + Z.of_nat (length l)) = Some w /\ cell_ok c w.
Proof. intros H. eapply rg_at; [done|]. by apply list_lookup_middle. Qed.

Lemma ring_put C l c c' r wrs w :
  ring C (l ++ c :: r) wrs -> cell_ok c' w ->
  ring C (l ++ c' :: r) (<[slot_at (C + Z.of_nat (length l)) := w]> wrs).
Proof.
  intros [Hc Hw Hat] Hok. rewrite length_app in Hc. simpl in Hc. split.
  - rewrite length_app. simpl. lia.
  - by rewrite length_insert.
  - intros k d Hk. pose proof (lookup_lt_Some _ _ _ Hk) as Hlt. rewrite length_app in Hlt. simpl in Hlt.
    destruct (decide (k = length l)) as [->|Hne].
    + rewrite list_lookup_middle in Hk by done. injection Hk as <-. exists w. split; [|done].
      apply list_lookup_insert_eq. rewrite Hw. apply slot_at_lt.
    + destruct (Hat k d) as (w' & E & Hok').
      { rewrite <- Hk. rewrite !lookup_app. case_match; [done|].
        assert (k - length l = S (k - length l - 1))%nat as -> by (apply lookup_ge_None in H; lia). done. }
      exists w'. split; [|done]. rewrite list_lookup_insert_ne; [done|].
      intros E'. apply slot_at_inj in E'; lia.
Qed.

(** A free entry at the front is one at the end. *)
Lemma ring_turn C r wrs : ring C (CFree :: r) wrs -> ring (C + 1) (r ++ [CFree]) wrs.
Proof.
  intros [Hc Hw Hat]. simpl in Hc. split; [rewrite length_app; simpl; lia|done|]. intros k c Hk.
  destruct (decide (k < length r)%nat) as [Hlt|Hge].
  - rewrite lookup_app_l in Hk by done. replace (C + 1 + Z.of_nat k) with (C + Z.of_nat (S k)) by lia. by apply Hat.
  - pose proof (lookup_lt_Some _ _ _ Hk) as Hlt. rewrite length_app in Hlt. simpl in Hlt.
    assert (k = length r) as -> by lia. rewrite list_lookup_middle in Hk by done. injection Hk as <-.
    replace (C + 1 + Z.of_nat (length r)) with (C + Z.of_nat 0 + Z.of_nat n) by lia. rewrite slot_at_turn.
    by apply (Hat 0%nat).
Qed.
End Ring.

(** ** The simulation *)

Definition cells (soft : list ib_wc) (open : list send_entry) (m : nat) : list cell :=
  (CReported <$> soft) ++ (COpen <$> open) ++ replicate m CFree.

Fixpoint flights (n : nat) (i : Z) (open : list send_entry) : list flight :=
  match open with
  | [] => []
  | Flying q wr :: rest => (q, slot_at n i, wr) :: flights n (i + 1) rest
  | Finished _ :: rest => flights n (i + 1) rest
  end.

Lemma flights_snoc n i open e :
  flights n i (open ++ [e]) =
  flights n i open ++ match e with Flying q wr => [(q, slot_at n (i + Z.of_nat (length open)), wr)] | Finished _ => [] end.
Proof.
  revert i. induction open as [|e' open IH]; intros i; simpl.
  - replace (i + Z.of_nat 0) with i by lia. by destruct e.
  - rewrite IH. replace (i + 1 + Z.of_nat (length open)) with (i + Z.of_nat (S (length open))) by lia.
    by destruct e'.
Qed.

Lemma flights_sending n i open : sending (flights n i open) = omap on_wire open.
Proof. revert i. induction open as [|[q wr|wc] open IH]; intros i; simpl; [done| |apply IH]. f_equal. apply IH. Qed.

Lemma flights_finish n i open k wc q j wr :
  flights n i open !! k = Some (q, j, wr) ->
  exists l r, open = l ++ Flying q wr :: r /\ j = slot_at n (i + Z.of_nat (length l)) /\
    finish k wc open = l ++ Finished (wc_set_qp (wc_set_id wc (us_wr_id wr)) 1) :: r /\
    flights n i (finish k wc open) = delete k (flights n i open).
Proof.
  revert i k. induction open as [|[q' wr'|w] open IH]; intros i k; simpl; [done| |].
  - destruct k as [|k]; simpl.
    + intros [= <- <- <-]. exists [], open. simpl. replace (i + Z.of_nat 0) with i by lia. done.
    + intros E. destruct (IH _ _ E) as (l & r & -> & -> & -> & Hf). exists (Flying q' wr' :: l), r. simpl.
      rewrite Hf. split_and!; [done| |done|done]. f_equal. lia.
  - intros E. destruct (IH _ _ E) as (l & r & -> & -> & -> & Hf). exists (Finished w :: l), r. simpl.
    rewrite Hf. split_and!; [done| |done|done]. f_equal. lia.
Qed.

Lemma f_report_fields wc f : f_soft (f_report wc f) = f_soft f ++ [wc] /\ f_open (f_report wc f) = f_open f /\ f_calls (f_report wc f) = f_calls f.
Proof. unfold f_report, f_soft, mlx5_ib_generate_wc. by destruct (_ || _). Qed.
Lemma f_report_set_open wc f l : f_report wc (f_set_open f l) = f_set_open (f_report wc f) l.
Proof. unfold f_report, mlx5_ib_generate_wc, f_set_open. simpl. by destruct (_ || _). Qed.
Lemma settle_set_open sig l f l' : settle sig l (f_set_open f l') = settle sig l f.
Proof.
  revert f. induction l as [|[q wr|wc] l IH]; intros f; simpl; [done|done|].
  destruct sig; [|apply IH]. by rewrite f_report_set_open, IH.
Qed.

Lemma u32_ahead x d : 0 < d < 4294967296 -> u32 x <> u32 (x + d).
Proof.
  intros Hd E. pose proof (u32_sub_add x d ltac:(lia)) as H. rewrite <- E, u32_sub, Z.sub_diag in H.
  rewrite u32_small in H; lia.
Qed.

Section Sim.
Context (cap : bool) (ib_post_send : nat -> list (Z * ud_send) -> Z -> ud_send -> Z).
Context (n : nat) (sig : bool) (tx : ud_send -> option Z) (B : Z).
Context (Hn : (0 < n)%nat) (Hn32 : Z.of_nat n < 2 ^ 32).
Context (Hwrap : (Z.of_nat n | 2 ^ 32) \/ B <= 2 ^ 32).
Context (Hfail : (forall c l q wr, ib_post_send c l q wr = 0) \/ B <= Z.of_nat n).

(** The ring, the completion queue's list and the sends on the wire: from the [C]-th send since the
    queue pair was made on, [soft] are reported and [open] are not; [m] entries are free.  [idx] is
    the consumer index and [b] bounds how many sends there were. *)
Record layout (b idx C : Z) (soft : list ib_wc) (open : list send_entry) (m : nat)
    (g : mlx5_ib_gsi_qp) (l : list nat) (fl : list flight) : Prop := {
  ly_max : gs_max_send_wr g = Z.of_nat n;
  ly_sig : gs_sig_all g = sig;
  ly_tx : forall wr, get_tx_qp cap g wr = Some (tx wr);
  ly_ring : ring n C (cells soft open m) (gs_wrs g);
  ly_idx : idx = u32 (C + Z.of_nat (length soft));
  ly_pi : gs_pi g = u32 (C + Z.of_nat (length soft) + Z.of_nat (length open));
  ly_list : l = slot_at n <$> seqZ C (Z.of_nat (length soft));
  ly_flight : fl = flights n (C + Z.of_nat (length soft)) open;
  ly_quiet : sig = false -> soft = [];
  ly_bound : 0 <= C /\ C + Z.of_nat (length soft) + Z.of_nat (length open) <= b <= B;
}.

Section Layout.
Context (b idx C : Z) (soft : list ib_wc) (open : list send_entry) (m : nat) (g : mlx5_ib_gsi_qp) (l : list nat) (fl : list flight).

Lemma layout_length : layout b idx C soft open m g l fl -> (length soft + length open + m = n)%nat.
Proof.
  intros H. pose proof (rg_cells _ _ _ _ (ly_ring _ _ _ _ _ _ _ _ _ H)) as E.
  unfold cells in E. rewrite !length_app, !length_fmap, length_replicate in E. lia.
Qed.

Lemma slot_wrap i : 0 <= i < B -> slot_at n (u32 i) = slot_at n i.
Proof.
  intros Hi. unfold slot_at. f_equal. unfold u32. destruct Hwrap as [Hd|Hb].
  - by apply Z.mod_mod_divide.
  - by rewrite (Z.mod_small i) by lia.
Qed.

Lemma wr_index_at i : gs_max_send_wr g = Z.of_nat n -> 0 <= i < B -> wr_index g (u32 i) = Some (slot_at n i).
Proof.
  intros E Hi. unfold wr_index. rewrite E. destruct (Z.eqb_spec (Z.of_nat n) 0); [lia|].
  f_equal. by apply slot_wrap.
Qed.

(** An entry that is open or free is not on the completion queue's list. *)
Lemma not_listed d :
  layout b idx C soft open m g l fl -> (d < length open + m)%nat ->
  slot_at n (C + Z.of_nat (length soft) + Z.of_nat d) ∉ l.
Proof.
  intros H Hd Hin. pose proof (layout_length H). rewrite (ly_list _ _ _ _ _ _ _ _ _ H) in Hin.
  apply list_elem_of_fmap in Hin as (k & E & Hk). apply elem_of_seqZ in Hk.
  apply slot_at_inj in E; lia.
Qed.

(** The entry of an open send. *)
Lemma layout_open a e r :
  layout b idx C soft open m g l fl -> open = a ++ e :: r ->
  exists w, gs_wrs g !! slot_at n (C + Z.of_nat (length soft) + Z.of_nat (length a)) = Some w /\ cell_ok (COpen e) w.
Proof.
  intros H ->. pose proof (ly_ring _ _ _ _ _ _ _ _ _ H) as Hr. unfold cells in Hr.
  rewrite fmap_app, fmap_cons, <- app_assoc, app_assoc in Hr. apply ring_get in Hr.
  by rewrite length_app, !length_fmap, Nat2Z.inj_add, Z.add_assoc in Hr.
Qed.

(** Change the entry of an open send. *)
Lemma layout_set a e e' r w :
  layout b idx C soft open m g l fl -> open = a ++ e :: r -> cell_ok (COpen e') w ->
  layout b idx C soft (a ++ e' :: r) m
    (set_wrs g (<[slot_at n (C + Z.of_nat (length soft) + Z.of_nat (length a)) := w]> (gs_wrs g))) l
    (flights n (C + Z.of_nat (length soft)) (a ++ e' :: r)).
Proof.
  intros H -> Hok. split; try apply H; try done.
  - pose proof (ly_ring _ _ _ _ _ _ _ _ _ H) as Hr. unfold cells in Hr |- *.
    rewrite fmap_app, fmap_cons, <- app_assoc, app_assoc in Hr |- *. eapply ring_put in Hr; [|done..].
    by rewrite length_app, !length_fmap, Nat2Z.inj_add, Z.add_assoc in Hr.
  - cbn [set_wrs gs_pi]. rewrite (ly_pi _ _ _ _ _ _ _ _ _ H), !length_app. done.
  - destruct (ly_bound _ _ _ _ _ _ _ _ _ H). rewrite length_app in *. simpl in *. lia.
Qed.
End Layout.

(** The finished send at the front is reported. *)
Lemma layout_report b idx C soft wc rest m g l fl w :
  layout b idx C soft (Finished wc :: rest) m g l fl -> sig = true -> cell_ok (CReported wc) w ->
  let j := slot_at n (C + Z.of_nat (length soft)) in
  layout b (u32 (idx + 1)) C (soft ++ [wc]) rest m (set_wrs g (<[j := w]> (gs_wrs g))) (l ++ [j]) fl.
Proof.
  intros H Hs Hok j. destruct H as [Hmax Hsig Htx Hr -> Hpi -> -> Hq Hb]. split; try done; rewrite ?length_app; simpl in *.
  - unfold cells in *. rewrite fmap_app, <- app_assoc. simpl in *. eapply ring_put in Hr; [|done..].
    by rewrite length_fmap in Hr.
  - rewrite u32_add. f_equal. lia.
  - rewrite Hpi. f_equal. lia.
  - rewrite Nat2Z.inj_add, seqZ_app by lia. by rewrite fmap_app.
  - f_equal. lia.
  - by rewrite Hs.
  - lia.
Qed.

(** Without a report its entry is free at once. *)
Lemma layout_skip b idx C wc rest m g l fl w :
  layout b idx C [] (Finished wc :: rest) m g l fl -> cell_ok CFree w ->
  layout b (u32 (idx + 1)) (C + 1) [] rest (S m) (set_wrs g (<[slot_at n (C + 0) := w]> (gs_wrs g))) l fl.
Proof.
  intros [Hmax Hsig Htx Hr -> Hpi -> -> Hq Hb] Hok. split; try done; simpl in *.
  - apply (ring_put _ Hn C []  (COpen (Finished wc)) CFree) with (w := w) in Hr; [|done].
    apply ring_turn in Hr; [|done]. unfold cells. simpl in *. rewrite <- app_assoc, <- replicate_cons_app in Hr.
    done.
  - rewrite u32_add. f_equal. lia.
  - rewrite Hpi. f_equal. lia.
  - f_equal. lia.
  - lia.
Qed.

(** A send takes a free entry. *)
Lemma layout_free b idx C soft open m g l fl :
  layout b idx C soft open (S m) g l fl ->
  exists w, gs_wrs g !! slot_at n (C + Z.of_nat (length soft) + Z.of_nat (length open)) = Some w /\ cell_ok CFree w.
Proof.
  intros H. pose proof (ly_ring _ _ _ _ _ _ _ _ _ H) as Hr. unfold cells in Hr. rewrite app_assoc in Hr.
  apply ring_get in Hr. by rewrite length_app, !length_fmap, Nat2Z.inj_add, Z.add_assoc in Hr.
Qed.
Lemma layout_touch b idx C soft open m g l fl w :
  layout b idx C soft open (S m) g l fl -> cell_ok CFree w ->
  layout b idx C soft open (S m)
    (set_wrs g (<[slot_at n (C + Z.of_nat (length soft) + Z.of_nat (length open)) := w]> (gs_wrs g))) l fl.
Proof.
  intros [Hmax Hsig Htx Hr Hi Hpi Hl Hf Hq Hb] Hok. split; try done.
  unfold cells in *. rewrite app_assoc in *. eapply ring_put in Hr; [|done..].
  by rewrite length_app, !length_fmap, Nat2Z.inj_add, Z.add_assoc in Hr.
Qed.
(** Taking the entry and giving it back, before the producer index has gone round. *)
Lemma layout_undo b idx C soft open m g l fl w :
  layout b idx C soft open (S m) g l fl -> b + 1 <= B <= Z.of_nat n -> cell_ok CFree w ->
  let j := slot_at n (C + Z.of_nat (length soft) + Z.of_nat (length open)) in
  layout b idx C soft open (S m)
    (set_pi (set_wrs (set_pi g (u32 (gs_pi g + 1))) (<[j := w]> (gs_wrs g)))
       (u32 (u32 (gs_pi g + 1) - 1) mod gs_max_send_wr g)) l fl.
Proof.
  intros H HB Hok j. pose proof H as [Hmax _ _ _ _ Hpi _ _ _ Hb]. rewrite Hmax, u32_sub, Z.add_simpl_r.
  replace (u32 (gs_pi g) mod Z.of_nat n) with (gs_pi g); [exact (layout_touch _ _ _ _ _ _ _ _ _ _ H Hok)|].
  rewrite Hpi. rewrite !u32_small, Z.mod_small by lia. done.
Qed.
Lemma layout_push b idx C soft open m g l fl w e :
  layout b idx C soft open (S m) g l fl -> b + 1 <= B -> cell_ok (COpen e) w ->
  let j := slot_at n (C + Z.of_nat (length soft) + Z.of_nat (length open)) in
  layout (b + 1) idx C soft (open ++ [e]) m (set_wrs (set_pi g (u32 (gs_pi g + 1))) (<[j := w]> (gs_wrs g))) l
    (fl ++ match e with Flying q wr => [(q, j, wr)] | Finished _ => [] end).
Proof.
  intros [Hmax Hsig Htx Hr Hi Hpi Hl -> Hq Hb] HB Hok j. split; try done; rewrite ?length_app; simpl in *.
  - unfold cells in *. rewrite fmap_app, <- app_assoc. simpl. rewrite app_assoc in *. eapply ring_put in Hr; [|done..].
    by rewrite length_app, !length_fmap, Nat2Z.inj_add, Z.add_assoc in Hr.
  - rewrite Hpi, u32_add. f_equal. lia.
  - by rewrite flights_snoc.
  - lia.
Qed.

(** The first completion on the list is polled. *)
Lemma layout_poll b idx C wc soft open m g l fl :
  layout b idx C (wc :: soft) open m g l fl ->
  exists j l' w, l = j :: l' /\ gs_wrs g !! j = Some w /\ cell_ok (CReported wc) w /\
  forall w', cell_ok CFree w' -> layout b idx (C + 1) soft open (S m) (set_wrs g (<[j := w']> (gs_wrs g))) l' fl.
Proof.
  intros [Hmax Hsig Htx Hr -> Hpi -> -> Hq Hb].
  destruct (ring_get _ C [] _ _ _ Hr) as (w & E & Hok). cbn [length Z.of_nat] in E. rewrite Z.add_0_r in E.
  do 3 eexists. split; [rewrite seqZ_cons by (simpl; lia); done|]. split; [done|]. split; [done|]. intros w' Hok'.
  split; try done; simpl in *.
  - apply (ring_put _ Hn C [] (CReported wc) CFree) with (w := w') in Hr; [|done]. cbn [length Z.of_nat] in Hr.
    rewrite Z.add_0_r in Hr. apply ring_turn in Hr; [|done]. unfold cells. simpl in *.
    by rewrite <- !app_assoc, <- replicate_cons_app in Hr.
  - f_equal. lia.
  - rewrite Hpi. f_equal. lia.
  - by replace (Z.pred (Z.of_nat (S (length soft)))) with (Z.of_nat (length soft)) by lia.
  - f_equal. lia.
  - intros Hs. by apply Hq in Hs.
  - lia.
Qed.

(** The list of the completion queue holds the completions reported. *)
Lemma soft_listed C soft (wrs : list mlx5_ib_gsi_wr) :
  (forall k wc, soft !! k = Some wc -> exists w, wrs !! slot_at n (C + Z.of_nat k) = Some w /\ gw_wc w = wc) ->
  omap (fun j => gw_wc <$> wrs !! j) (slot_at n <$> seqZ C (Z.of_nat (length soft))) = soft.
Proof.
  revert C. induction soft as [|wc soft IH]; intros C H; [done|].
  rewrite seqZ_cons by (simpl; lia). rewrite fmap_cons. cbn [omap list_omap].
  destruct (H 0%nat wc eq_refl) as (w & E & Hw). rewrite Z.add_0_r in E. rewrite E. simpl. rewrite Hw. f_equal.
  replace (Z.pred (Z.of_nat (S (length soft)))) with (Z.of_nat (length soft)) by lia.
  apply IH. intros k c Hk. replace (Z.succ C + Z.of_nat k) with (C + Z.of_nat (S k)) by lia. by apply H.
Qed.
Lemma layout_soft b idx C soft open m g l fl :
  layout b idx C soft open m g l fl -> omap (fun j => gw_wc <$> gs_wrs g !! j) l = soft.
Proof.
  intros H. rewrite (ly_list _ _ _ _ _ _ _ _ _ H). apply soft_listed. intros k wc Hk.
  destruct (rg_at _ _ _ _ (ly_ring _ _ _ _ _ _ _ _ _ H) k (CReported wc)) as (w & E & _ & _ & _ & Hw); [|eauto].
  unfold cells. apply lookup_app_l_Some. rewrite list_lookup_fmap, Hk. done.
Qed.

(** ** The operations *)

Definition sim (b idx : Z) (s : gst) (f : fifo) : Prop :=
  (exists C m, layout b idx C (f_soft f) (f_open f) m (g_qp s) (g_wc_list s) (g_flight s)) /\
  g_notify s = f_notify f /\ g_notified s = f_notified f /\ g_calls s = f_calls f.

Lemma generate_soft_ok s j w :
  gs_wrs (g_qp s) !! j = Some w -> j ∉ g_wc_list s ->
  let notify := (g_notify s =? IB_CQ_NEXT_COMP) || negb (wc_status (gw_wc w) =? IB_WC_SUCCESS) in
  generate_soft_wc j s =
    Some (inr tt, mkgst (set_wrs (g_qp s) (<[j := gw_set_mwc w (gw_wc w) true]> (gs_wrs (g_qp s)))) (g_wc_list s ++ [j])
                    (if notify then 0 else g_notify s) (g_notified s + b2z notify) (g_calls s) (g_flight s)).
Proof. intros E Hj. unfold generate_soft_wc. rewrite E. simpl. by rewrite decide_False. Qed.

(** One turn of the loop at a finished send. *)
Lemma loop_turn b idx s f wc rest fuel :
  sim b idx s f -> f_open f = Finished wc :: rest ->
  exists s', completions_loop (S fuel) idx s = completions_loop fuel (u32 (idx + 1)) s' /\
    sim b (u32 (idx + 1)) s' (f_set_open (if sig then f_report wc f else f) rest).
Proof.
  intros ((C & m & Hly) & Hno & Hnd & Hca) Ho. rewrite Ho in Hly. pose proof Hly as [Hmax Hsig _ Hr -> Hpi _ _ Hq Hb].
  simpl in Hb. pose proof (layout_length _ _ _ _ _ _ _ _ _ Hly) as Hlen. simpl in Hlen.
  destruct (layout_open _ _ _ _ _ _ _ _ _ [] _ rest Hly eq_refl) as (w & E & Hfl & Hu & Hc & Hwc).
  cbn [length Z.of_nat] in E. rewrite Z.add_0_r in E.
  cbn [completions_loop]. rewrite es_get_ok, (proj2 (Z.eqb_neq _ _)) by (rewrite Hpi; apply u32_ahead; simpl; lia).
  rewrite (wr_index_at _ _ Hmax), es_lift_ok, E, es_lift_ok, Hc, Hsig, Hfl, orb_false_r by lia. cbn [negb].
  destruct sig eqn:Hsg.
  - assert (Hnl : slot_at n (C + Z.of_nat (length (f_soft f))) ∉ g_wc_list s).
    { rewrite <- (Z.add_0_r (_ + _)). apply (not_listed _ _ _ _ _ _ _ _ _ 0 Hly). simpl. lia. }
    rewrite (es_bind_ok _ _ _ _ _ (generate_soft_ok _ _ _ E Hnl)). erewrite es_bind_ok.
    2:{ cbn [g_qp gs_wrs set_wrs]. rewrite list_lookup_insert_eq by (rewrite (rg_wrs _ _ _ _ Hr); by apply slot_at_lt).
        reflexivity. }
    eexists. split; [reflexivity|].
    eapply (layout_report _ _ _ _ _ _ _ _ _ _ (gw_set_completed (gw_set_mwc w wc true) false)) in Hly; [|done..].
    unfold sim, f_report, mlx5_ib_generate_wc. cbn [put_wr on_gsi g_qp gs_wrs set_wrs g_notify g_notified g_calls g_wc_list g_flight].
    rewrite list_insert_insert_eq, Hno, Hnd, Hca, Hwc.
    destruct (_ || _); (split; [exists C, m; apply Hly|done]).
  - rewrite es_ret_ok. unfold es_bind at 1. rewrite E. cbn [mbind option_bind]. eexists. split; [reflexivity|].
    split; [|done]. rewrite (Hq eq_refl) in *. exists (C + 1), (S m).
    eapply (layout_skip _ _ _ _ _ _ _ _ _ (gw_set_completed w false)) in Hly; [|done].
    change (f_soft (f_set_open f rest)) with (f_soft f). rewrite (Hq eq_refl). exact Hly.
Qed.

Lemma loop_runs open : forall fuel b idx s f,
  sim b idx s f -> f_open f = open -> (length open < fuel)%nat ->
  exists idx' s', completions_loop fuel idx s = Some (inr idx', s') /\ sim b idx' s' (settle sig open f).
Proof.
  induction open as [|[q wr|wc] open IH]; intros fuel b idx s f Hs Ho Hf; (destruct fuel as [|fuel]; [simpl in Hf; lia|]).
  - exists idx, s. pose proof Hs as ((C & m & Hly) & Heq). simpl. split.
    + rewrite Ho in Hly. destruct Hly as [_ _ _ _ -> Hpi _ _ _ _]. simpl in Hpi. rewrite Z.add_0_r in Hpi.
      by rewrite es_get_ok, Hpi, Z.eqb_refl.
    + unfold sim, f_set_open. by rewrite <- Ho.
  - exists idx, s. pose proof Hs as ((C & m & Hly) & Heq). rewrite Ho in Hly.
    pose proof (layout_length _ _ _ _ _ _ _ _ _ Hly) as Hlen.
    destruct (layout_open _ _ _ _ _ _ _ _ _ [] _ open Hly eq_refl) as (w & E & _ & _ & Hc & _).
    cbn [length Z.of_nat] in E. rewrite Z.add_0_r in E. destruct Hly as [Hmax _ _ _ -> Hpi _ _ _ Hb]. simpl in *.
    split.
    + rewrite es_get_ok, (proj2 (Z.eqb_neq _ _)) by (rewrite Hpi; apply u32_ahead; lia).
      rewrite (wr_index_at _ _ Hmax), es_lift_ok, E, es_lift_ok, Hc by lia. done.
    + unfold sim, f_set_open. by rewrite <- Ho.
  - destruct (loop_turn _ _ _ _ _ _ fuel Hs Ho) as (s' & -> & Hs').
    destruct (IH fuel b _ s' _ Hs' eq_refl) as (idx' & s'' & E & H); [simpl in Hf; lia|].
    exists idx', s''. split; [done|]. simpl. by rewrite settle_set_open in H.
Qed.

Lemma generate_runs b s f :
  sim b (gs_ci (g_qp s)) s f -> exists s', generate_completions s = Some (inr tt, s') /\
    sim b (gs_ci (g_qp s')) s' (settle sig (f_open f) f).
Proof.
  intros Hs. pose proof Hs as ((C & m & Hly) & _). pose proof (layout_length _ _ _ _ _ _ _ _ _ Hly) as Hlen.
  destruct (loop_runs _ (S (length (gs_wrs (g_qp s)))) _ _ _ _ Hs eq_refl) as (idx & s' & E & (C' & m' & Hly') & Heq).
  { rewrite (rg_wrs _ _ _ _ (ly_ring _ _ _ _ _ _ _ _ _ Hly)). lia. }
  eexists. split; [unfold generate_completions; rewrite es_get_ok; by rewrite (es_bind_ok _ _ _ _ _ E)|].
  split; [|done]. exists C', m'. cbn. by destruct Hly'.
Qed.

Lemma sim_more b b' idx s f : sim b idx s f -> b <= b' <= B -> sim b' idx s f.
Proof. intros ((C & m & []) & Heq) Hb. split; [|done]. exists C, m. split; try done. lia. Qed.

(** The queue is full, or the entry's last completion has not been polled. *)
Lemma add_refused b s f wr wc :
  sim b (gs_ci (g_qp s)) s f -> b + 1 <= B -> (n <= length (f_soft f) + length (f_open f))%nat ->
  mlx5_ib_add_outstanding_wr wr wc s = Some (inl (- ENOMEM), s).
Proof.
  intros ((C & m & Hly) & _) HB Hfull. pose proof (layout_length _ _ _ _ _ _ _ _ _ Hly) as Hlen.
  pose proof Hly as [Hmax _ _ Hr Hci Hpi _ _ _ Hb]. unfold mlx5_ib_add_outstanding_wr.
  rewrite es_get_ok, Hmax, Hci, u32_add. destruct (f_soft f) as [|c soft] eqn:Es.
  - simpl in *. replace (length (f_open f)) with n in Hpi by lia. by rewrite Hpi, Z.eqb_refl.
  - replace (C + _ + _) with (C + Z.of_nat n) in Hpi by lia. rewrite Hpi, (proj2 (Z.eqb_neq _ _)).
    2:{ replace (C + Z.of_nat (length (c :: soft)) + Z.of_nat n) with (C + Z.of_nat n + Z.of_nat (length (c :: soft))) by lia.
        apply u32_ahead. simpl in *. lia. }
    destruct (ring_get _ _ [] _ _ _ Hr) as (w & E & _ & Hu & _). cbn [length Z.of_nat] in E. rewrite Z.add_0_r in E.
    rewrite (wr_index_at _ _ Hmax), es_lift_ok, slot_at_turn, E, es_lift_ok, Hu by lia. done.
Qed.

Lemma add_takes b s f C m wr wc :
  layout b (gs_ci (g_qp s)) C (f_soft f) (f_open f) (S m) (g_qp s) (g_wc_list s) (g_flight s) -> b + 1 <= B ->
  let j := slot_at n (C + Z.of_nat (length (f_soft f)) + Z.of_nat (length (f_open f))) in
  exists w, cell_ok CFree w /\ mlx5_ib_add_outstanding_wr wr wc s =
    Some (inr j, put_wr j (match wc with
                           | None => mkgwr true (pending_wc wr) false (gw_send_flags w) (gw_completed w)
                           | Some wc => mkgwr true wc false (gw_send_flags w) true
                           end) (on_gsi (fun g => set_pi g (u32 (gs_pi g + 1))) s)).
Proof.
  intros Hly HB j. pose proof (layout_length _ _ _ _ _ _ _ _ _ Hly) as Hlen.
  destruct (layout_free _ _ _ _ _ _ _ _ _ Hly) as (w & E & Hok). pose proof Hly as [Hmax _ _ _ Hci Hpi _ _ _ Hb].
  exists w. split; [done|]. unfold mlx5_ib_add_outstanding_wr. rewrite es_get_ok, Hmax, Hci, u32_add, Hpi.
  rewrite (proj2 (Z.eqb_neq _ _)).
  2:{ replace (C + Z.of_nat (length (f_soft f)) + Z.of_nat n)
        with (C + Z.of_nat (length (f_soft f)) + Z.of_nat (length (f_open f)) + Z.of_nat (n - length (f_open f))) by lia.
      apply u32_ahead. lia. }
  rewrite (wr_index_at _ _ Hmax), es_lift_ok, E, es_lift_ok by lia. destruct Hok as (_ & -> & _). done.
Qed.

Lemma post_one_runs b s f wr :
  sim b (gs_ci (g_qp s)) s f -> b + 1 <= B ->
  exists r s', gsi_post_one cap ib_post_send wr s = Some (r, s') /\
    sim (b + 1) (gs_ci (g_qp s')) s' (f_post_one ib_post_send n sig tx wr f).2 /\
    let ret := (f_post_one ib_post_send n sig tx wr f).1 in
    r = if ret =? 0 then inr tt else inl ret.
Proof.
  intros Hs HB. pose proof Hs as ((C & m & Hly) & Hno & Hnd & Hca). unfold gsi_post_one, f_post_one.
  rewrite es_get_ok, (ly_tx _ _ _ _ _ _ _ _ _ Hly), es_lift_ok.
  pose proof (layout_length _ _ _ _ _ _ _ _ _ Hly) as Hlen. destruct (Nat.leb_spec n (length (f_soft f) + length (f_open f))).
  - exists (inl (- ENOMEM)), s. split; [|split; [eapply sim_more; [done|lia]|done]].
    destruct (tx wr); [|unfold mlx5_ib_gsi_silent_drop]; apply es_bind_err; by eapply add_refused.
  - destruct m as [|m]; [lia|]. destruct (tx wr) as [q|].
    + destruct (add_takes _ _ _ _ _ wr None Hly HB) as (w & Hok & Ea). rewrite (es_bind_ok _ _ _ _ _ Ea).
      erewrite es_bind_ok by (unfold post_to; reflexivity). cbn [put_wr on_gsi g_calls g_flight].
      assert (Hret : ib_post_send (g_calls s) (sending (g_flight s)) q wr = ib_post_send (f_calls f) (f_flying f) q wr).
      { by rewrite Hca, (ly_flight _ _ _ _ _ _ _ _ _ Hly), flights_sending. }
      rewrite Hret. set (ret := ib_post_send _ _ q wr). cbn [fst snd]. destruct Hok as (Hfl & Hu & Hc).
      destruct (Z.eqb_spec ret 0) as [Hz|Hz]; cbn [negb].
      * exists (inr tt). eexists. split; [done|]. split; [|done]. split; [|cbn; by rewrite Hca]. exists C, m.
        eapply layout_push with (e := Flying q wr) in Hly; [exact Hly|done|done].
      * exists (inl ret). eexists. split; [done|]. split; [|done]. apply (sim_more b); [|lia].
        split; [|cbn; by rewrite Hca]. exists C, (S m). 
        refine (layout_undo _ _ _ _ _ _ _ _ _ (mkgwr true (pending_wc wr) false (gw_send_flags w) (gw_completed w)) Hly _ _); [|done].
        destruct Hfail as [H0|?]; [by destruct Hz; apply H0|lia].
    + destruct (add_takes _ _ _ _ _ wr (Some (dropped_wc wr)) Hly HB) as (w & Hok & Ea).
      unfold mlx5_ib_gsi_silent_drop. rewrite (es_bind_ok _ _ _ _ _ Ea). set (s1 := put_wr _ _ _).
      destruct (generate_runs (b + 1) s1 (f_set_open f (f_open f ++ [Finished (dropped_wc wr)]))) as (s' & E & Hs').
      { split; [|done]. exists C, m. eapply layout_push with (e := Finished (dropped_wc wr)) in Hly; [|done|].
        - rewrite app_nil_r in Hly. exact Hly.
        - destruct Hok as (? & ? & ?). done. }
      exists (inr tt), s'. rewrite settle_set_open in Hs'. done.
Qed.

Lemma post_runs wrs : forall b s f,
  sim b (gs_ci (g_qp s)) s f -> b + Z.of_nat (length wrs) <= B ->
  exists s', mlx5_ib_gsi_post_send cap ib_post_send wrs s = Some (inr (f_post ib_post_send n sig tx wrs f).1, s') /\
    sim (b + Z.of_nat (length wrs)) (gs_ci (g_qp s')) s' (f_post ib_post_send n sig tx wrs f).2.
Proof.
  induction wrs as [|wr wrs IH]; intros b s f Hs HB; simpl length in *; simpl.
  - exists s. split; [done|]. by apply (sim_more b); [|destruct Hs as ((? & ? & []) & _); lia].
  - destruct (post_one_runs b s f wr Hs ltac:(lia)) as (r & s1 & E & H1 & Hr). rewrite E. simpl.
    destruct (f_post_one _ n sig tx wr f) as [ret f1]. simpl in *. subst r. destruct (Z.eqb_spec ret 0).
    + destruct (IH _ _ _ H1 ltac:(lia)) as (s2 & E2 & H2). exists s2. split; [done|].
      by replace (b + Z.of_nat (S (length wrs))) with (b + 1 + Z.of_nat (length wrs)) by lia.
    + exists s1. split; [done|]. apply (sim_more (b + 1)); [done|lia].
Qed.

Lemma complete_runs b s f k wc :
  sim b (gs_ci (g_qp s)) s f ->
  exists s', hw_complete k wc s = Some (inr tt, s') /\
    sim b (gs_ci (g_qp s')) s' (f_step ib_post_send n sig tx (Complete k wc) f).2.
Proof.
  intros Hs. pose proof Hs as ((C & m & Hly) & Heq). unfold hw_complete, f_step. cbn [snd].
  pose proof (ly_flight _ _ _ _ _ _ _ _ _ Hly) as Hfl.
  assert (Hlen : length (f_flying f) = length (g_flight s)).
  { unfold f_flying. erewrite <- flights_sending, <- Hfl. apply length_fmap. }
  rewrite Hlen. destruct (g_flight s !! k) as [[[q j] wr]|] eqn:Ek.
  - rewrite (proj2 (Nat.ltb_lt _ _)) by (by eapply lookup_lt_Some). rewrite Hfl in Ek.
    destruct (flights_finish _ _ _ _ wc _ _ _ Ek) as (a & r & Ho & -> & Hfin & Hdel).
    destruct (layout_open _ _ _ _ _ _ _ _ _ a _ r Hly Ho) as (w & E & Hfg & Hu & Hc & Hd & Hid).
    rewrite E. cbn [mbind option_bind]. rewrite Hd. cbn [negb]. unfold handle_single_completion.
    rewrite es_get_ok. cbn [g_qp]. rewrite E, es_lift_ok, es_mod_ok, Hid, Hu. set (s1 := put_wr _ _ _).
    destruct (generate_runs b s1 (f_set_open f (finish k wc (f_open f)))) as (s2 & E2 & H2).
    { split; [|done]. exists C, m. cbn [f_set_open f_open]. change (f_soft (f_set_open _ _)) with (f_soft f).
      eapply (layout_set _ _ _ _ _ _ _ _ _ a _ (Finished (wc_set_qp (wc_set_id wc (us_wr_id wr)) 1)) r) in Hly; [|done|].
      - rewrite <- Hfin, Hdel, <- Hfl in Hly. exact Hly.
      - done. }
    exists s2. by rewrite settle_set_open in H2.
  - rewrite (proj2 (Nat.ltb_ge _ _)) by (by apply lookup_ge_None). eauto.
Qed.

Lemma poll_runs room fatal : forall b s f,
  sim b (gs_ci (g_qp s)) s f ->
  exists s', poll_entries room fatal s = Some (inr (poll_soft_wc (f_cq f) room fatal).1, s') /\
    sim b (gs_ci (g_qp s')) s'
      (mkfifo (f_open f) (poll_soft_wc (f_cq f) room fatal).2 (f_notify f) (f_notified f) (f_calls f)).
Proof.
  induction room as [|room IH]; intros b s f Hs; pose proof Hs as ((C & m & Hly) & Heq); simpl.
  - exists s. split; [done|]. by destruct f as [? []].
  - destruct f as [open [cq qps srqs sigs h soft sl rl] no nd ca]. unfold f_soft in Hly. simpl in *.
    destruct soft as [|wc soft]; simpl in *.
    + exists s. rewrite (ly_list _ _ _ _ _ _ _ _ _ Hly). done.
    + destruct (layout_poll _ _ _ _ _ _ _ _ _ _ Hly) as (j & l & w & -> & E & Hok & Hnext). rewrite E. simpl.
      destruct Hok as (Hfg & Hu & Hc & Hwc). rewrite Hwc. set (v := if fatal then _ else wc).
      destruct (IH b (mkgst (set_wrs (g_qp s) (<[j := gw_set_mwc w v false]> (gs_wrs (g_qp s)))) l (g_notify s)
                  (g_notified s) (g_calls s) (g_flight s))
                (mkfifo open (mkworld cq qps srqs sigs h soft sl rl) no nd ca)) as (s' & E' & H').
      { split; [|done]. exists (C + 1), (S m). by apply Hnext. }
      exists s'. split; [|exact H']. unfold es_bind. cbn [put_wr on_gsi g_qp g_wc_list g_notify g_notified g_calls g_flight].
      by rewrite E'.
Qed.

Definition op_posts (op : gsi_op) : nat := match op with Post wrs => length wrs | _ => 0 end.
Definition posts (ops : list gsi_op) : nat := sum_list_with op_posts ops.

Lemma step_runs b s f op :
  sim b (gs_ci (g_qp s)) s f -> b + Z.of_nat (op_posts op) <= B ->
  exists s', gsi_step cap ib_post_send op s = Some (inr (f_step ib_post_send n sig tx op f).1, s') /\
    sim (b + Z.of_nat (op_posts op)) (gs_ci (g_qp s')) s' (f_step ib_post_send n sig tx op f).2.
Proof.
  intros Hs HB. destruct op as [wrs|k wc|room fatal|flags]; simpl op_posts in *; rewrite ?Z.add_0_r.
  - destruct (post_runs wrs b s f Hs HB) as (s' & E & H). exists s'. unfold gsi_step, f_step.
    rewrite (es_bind_ok _ _ _ _ _ E). by destruct (f_post _ n sig tx wrs f) as [[ret bad] f'].
  - destruct (complete_runs b s f k wc Hs) as (s' & E & H). exists s'. unfold gsi_step.
    by rewrite (es_bind_ok _ _ _ _ _ E).
  - destruct (poll_runs room fatal b s f Hs) as (s' & E & H). exists s'. unfold gsi_step, f_step.
    rewrite (es_bind_ok _ _ _ _ _ E). by destruct (poll_soft_wc _ _ _).
  - eexists. split; [done|]. destruct Hs as (Hly & Hno & Hnd & Hca). split; [done|]. simpl. by rewrite Hno.
Qed.

Lemma run_runs ops : forall b s f,
  sim b (gs_ci (g_qp s)) s f -> b + Z.of_nat (posts ops) <= B ->
  exists s', gsi_run cap ib_post_send ops s = Some (inr (f_run ib_post_send n sig tx ops f).1, s') /\
    sim (b + Z.of_nat (posts ops)) (gs_ci (g_qp s')) s' (f_run ib_post_send n sig tx ops f).2.
Proof.
  induction ops as [|op ops IH]; intros b s f Hs HB; simpl.
  - exists s. by rewrite Z.add_0_r.
  - simpl in HB. destruct (step_runs b s f op Hs ltac:(lia)) as (s1 & E1 & H1). rewrite (es_bind_ok _ _ _ _ _ E1).
    destruct (f_step _ n sig tx op f) as [out f1]. simpl in *. destruct (IH _ _ _ H1 ltac:(lia)) as (s2 & E2 & H2).
    rewrite (es_bind_ok _ _ _ _ _ E2). destruct (f_run _ n sig tx ops f1) as [outs f2]. simpl in *.
    exists s2. split; [done|]. by replace (b + Z.of_nat (op_posts op + posts ops)) with (b + Z.of_nat (op_posts op) + Z.of_nat (posts ops)) by lia.
Qed.
End Sim.

Definition tx_of (cap : bool) (rx : Z) (txs : list (option Z)) (wr : ud_send) : option Z :=
  default None (get_tx_qp cap (new_gsi rx 0 0 false txs) wr).

Lemma get_tx_total cap rx port max sig txs wr : get_tx_qp cap (new_gsi rx port max sig txs) wr = Some (tx_of cap rx txs wr).
Proof.
  unfold tx_of, get_tx_qp. simpl. destruct cap; [|done]. simpl. pose proof (u16_range (us_pkey_index wr)).
  destruct (Z.geb_spec (u16 (us_pkey_index wr)) (Z.of_nat (length txs))); [done|].
  destruct (lookup_lt_is_Some_2 txs (Z.to_nat (u16 (us_pkey_index wr)))) as [q ->]; [lia|done].
Qed.

(** What the ring needs of its users: a size that divides the range of the indices, or fewer sends than
    that range; and, since the code that undoes a failed ib_post_send reduces the producer index, that
    it does not fail or that the index has not gone round. *)
Record ring_use (post : nat -> list (Z * ud_send) -> Z -> ud_send -> Z) (max : Z) (ops : list gsi_op) : Prop := {
  ru_max : 0 < max < 2 ^ 32;
  ru_wrap : (max | 2 ^ 32) \/ Z.of_nat (posts ops) <= 2 ^ 32;
  ru_fail : (forall c l q wr, post c l q wr = 0) \/ Z.of_nat (posts ops) <= max;
}.

Lemma new_ring n k : (0 < n)%nat -> ring n k (replicate n CFree) (replicate n new_gsi_wr).
Proof.
  intros Hn. split; [apply length_replicate..|]. intros i c Hi. apply lookup_replicate in Hi as [-> _].
  exists new_gsi_wr. split; [|done]. apply lookup_replicate. split; [done|by apply slot_at_lt].
Qed.

Lemma gsi_run_sim cap post rx port max sig txs notify w ops :
  ring_use post max ops -> w_soft w = [] ->
  exists s', gsi_run cap post ops (idle_gst (new_gsi rx port max sig txs) notify) =
    Some (inr (f_run post (Z.to_nat max) sig (tx_of cap rx txs) ops (mkfifo [] w notify 0 0)).1, s') /\
    sim cap (Z.to_nat max) sig (tx_of cap rx txs) (Z.of_nat (posts ops)) (Z.of_nat (posts ops)) (gs_ci (g_qp s')) s'
      (f_run post (Z.to_nat max) sig (tx_of cap rx txs) ops (mkfifo [] w notify 0 0)).2.
Proof.
  intros [Hmax Hwrap Hfail] Hw.
  apply (run_runs cap post (Z.to_nat max) sig (tx_of cap rx txs) (Z.of_nat (posts ops))) with (b := 0);
    rewrite ?Z2Nat.id by lia; try done; try lia.
  split; [|done]. exists 0, (Z.to_nat max). unfold f_soft. simpl. rewrite Hw. split; simpl; try done.
  - lia.
  - apply get_tx_total.
  - apply new_ring. lia.
  - lia.
Qed.

(** ** What a consumer sees *)

Definition entry_id (e : send_entry) : Z := match e with Flying _ wr => us_wr_id wr | Finished wc => wc_wr_id wc end.
Definition f_ids (f : fifo) : list Z := (wc_wr_id <$> f_soft f) ++ (entry_id <$> f_open f).
Definition settled (f : fifo) : Prop := match f_open f with Finished _ :: _ => False | _ => True end.

(** The identifiers of the requests taken, and of the completions polled. *)
Definition op_taken (op : gsi_op) (out : gsi_out) : list Z :=
  match op, out with
  | Post wrs, Posted _ bad => us_wr_id <$> take (length wrs - length bad) wrs
  | _, _ => []
  end.
Definition taken (ops : list gsi_op) (outs : list gsi_out) : list Z := concat (zip_with op_taken ops outs).
Definition out_polled (out : gsi_out) : list Z := match out with Polled l => wc_wr_id <$> l | _ => [] end.
Definition polled (outs : list gsi_out) : list Z := outs ≫= out_polled.

Lemma settle_settled sig open f : settled (settle sig open f).
Proof. revert f. induction open as [|[q wr|wc] open IH]; intros f; simpl; [done|done|apply IH]. Qed.
Lemma settle_ids open f : f_ids (settle true open f) = (wc_wr_id <$> f_soft f) ++ (entry_id <$> open).
Proof.
  revert f. induction open as [|[q wr|wc] open IH]; intros f; simpl; [done|done|].
  rewrite IH. destruct (f_report_fields wc f) as (-> & _). by rewrite fmap_app, <- app_assoc.
Qed.
Lemma settle_quiet open f : f_soft (settle false open f) = f_soft f.
Proof. revert f. induction open as [|[q wr|wc] open IH]; intros f; simpl; [done|done|apply IH]. Qed.
Lemma finish_ids k wc open : entry_id <$> finish k wc open = entry_id <$> open.
Proof.
  revert k. induction open as [|[q wr|w] open IH]; intros k; simpl; [done| |by f_equal; apply IH].
  destruct k as [|k]; simpl; [done|]. f_equal. apply IH.
Qed.
Lemma settled_wire f : settled f -> f_flying f = [] -> f_open f = [].
Proof. unfold settled, f_flying. by destruct (f_open f) as [|[q wr|wc] open]. Qed.

Section Seen.
Context (post : nat -> list (Z * ud_send) -> Z -> ud_send -> Z) (n : nat) (sig : bool) (tx : ud_send -> option Z).

Lemma f_post_one_facts wr f :
  settled f -> let '(ret, f') := f_post_one post n sig tx wr f in
  settled f' /\ (if sig then f_ids f' = f_ids f ++ (if ret =? 0 then [us_wr_id wr] else []) else f_soft f' = f_soft f).
Proof.
  intros Hs. unfold f_post_one. destruct (n <=? _)%nat; [split; [done|]; destruct sig; [by rewrite app_nil_r|done]|].
  destruct (tx wr) as [q|]; cbn [fst snd].
  - destruct (_ =? 0); split; try (destruct sig; [|done]); unfold f_ids, f_soft; simpl;
      rewrite ?fmap_app, ?app_assoc, ?app_nil_r; try done. unfold settled in *. simpl.
    by destruct (f_open f) as [|[]].
  - split; [apply settle_settled|]. destruct sig; [|apply settle_quiet].
    by rewrite settle_ids, fmap_app, app_assoc.
Qed.

Lemma f_post_facts wrs f :
  settled f -> let '(ret, bad, f') := f_post post n sig tx wrs f in
  settled f' /\ (length bad <= length wrs)%nat /\
  if sig then f_ids f' = f_ids f ++ (us_wr_id <$> take (length wrs - length bad) wrs) else f_soft f' = f_soft f.
Proof.
  revert f. induction wrs as [|wr wrs IH]; intros f Hs; simpl.
  - split_and!; [done|done|]. destruct sig; [by rewrite app_nil_r|done].
  - pose proof (f_post_one_facts wr f Hs) as H1. destruct (f_post_one _ n sig tx wr f) as [ret f1]. destruct H1 as [Hs1 H1].
    destruct (ret =? 0).
    + specialize (IH f1 Hs1). destruct (f_post _ n sig tx wrs f1) as [[ret2 bad] f2]. destruct IH as (Hs2 & Hl & H2).
      split_and!; [done|lia|]. destruct sig; [|congruence].
      rewrite H2, H1, <- app_assoc. do 2 f_equal. by rewrite Nat.sub_succ_l by done.
    + split_and!; [done|done|]. destruct sig; [|done]. simpl. by rewrite Nat.sub_diag, H1.
Qed.

Lemma f_step_facts op f :
  settled f -> let '(out, f') := f_step post n sig tx op f in
  settled f' /\ if sig then f_ids f ++ op_taken op out = out_polled out ++ f_ids f'
                else f_soft f = [] -> out_polled out = [] /\ f_soft f' = [].
Proof.
  intros Hs. destruct op as [wrs|k wc|room fatal|flags]; simpl.
  - pose proof (f_post_facts wrs f Hs) as H. destruct (f_post _ n sig tx wrs f) as [[ret bad] f'].
    destruct H as (Hs' & _ & H). split; [done|]. destruct sig; simpl; [done|]. intros. split; congruence.
  - destruct (k <? _)%nat.
    + split; [apply settle_settled|]. destruct sig; [|by rewrite settle_quiet].
      by rewrite settle_ids, finish_ids, app_nil_r.
    + split; [done|]. destruct sig; [by rewrite app_nil_r|done].
  - split; [done|]. destruct sig.
    + rewrite app_nil_r. unfold f_ids, f_soft. simpl. rewrite app_assoc. f_equal. rewrite <- list_fmap_compose.
      rewrite <- (take_drop room (w_soft (f_cq f))) at 1. rewrite fmap_app. f_equal.
      apply list_fmap_ext. intros _ wc _. simpl. by destruct fatal.
    + unfold f_soft. simpl. intros ->. by destruct room.
  - split; [done|]. destruct sig; [by rewrite app_nil_r|done].
Qed.

Lemma f_run_facts ops : forall f,
  settled f -> let '(outs, f') := f_run post n sig tx ops f in
  settled f' /\ if sig then f_ids f ++ taken ops outs = polled outs ++ f_ids f'
                else f_soft f = [] -> polled outs = [].
Proof.
  induction ops as [|op ops IH]; intros f Hs; simpl.
  - split; [done|]. destruct sig; [by rewrite app_nil_r|done].
  - pose proof (f_step_facts op f Hs) as H1. destruct (f_step _ n sig tx op f) as [out f1]. destruct H1 as [Hs1 H1].
    specialize (IH f1 Hs1). destruct (f_run _ n sig tx ops f1) as [outs f2]. destruct IH as [Hs2 H2].
    split; [done|]. unfold taken, polled in *. simpl. destruct sig.
    + by rewrite app_assoc, H1, <- !app_assoc, H2.
    + intros H. destruct (H1 H) as [-> H']. exact (H2 H').
Qed.
End Seen.

(** A completion queue with nothing on its list. *)
Definition quiet_cq : world := mkworld ex_cq (fun _ => None) (fun _ => None) (fun _ => None) (mkheap 0 ∅) [] [] [].

(** ** The theorems *)

(** C15. The ring implements the queue: whatever is posted, completed by the
    hardware in any order, polled and armed, the wrapper of queue pair 1 has no
    undefined behaviour and gives the results of [fifo], whose completion queue is
    that of CqPoll; a send is refused exactly if the sends not reported and the
    completions not polled are max_send_wr.  The ring needs two things of its
    users ([ring_use]): max_send_wr divides 2^32, or at most 2^32 sends are
    posted; and ib_post_send on the UD queue pair never fails, or at most
    max_send_wr sends are posted, since the code that undoes a failed send reduces
    the producer index.  The wrapper starts idle, with no software completion
    waiting. *)
Theorem gsi_refines_fifo cap post rx port max sig txs notify w ops :
  ring_use post max ops -> w_soft w = [] ->
  let '(outs, f) := f_run post (Z.to_nat max) sig (tx_of cap rx txs) ops (mkfifo [] w notify 0 0) in
  exists s', gsi_run cap post ops (idle_gst (new_gsi rx port max sig txs) notify) = Some (inr outs, s') /\
    sending (g_flight s') = f_flying f /\ g_notify s' = f_notify f /\ g_notified s' = f_notified f /\
    omap (fun j => gw_wc <$> gs_wrs (g_qp s') !! j) (g_wc_list s') = f_soft f.
Proof.
  intros Hu Hw. destruct (gsi_run_sim cap post rx port max sig txs notify w ops Hu Hw) as (s' & E & (C & m & Hly) & Hno & Hnd & _).
  destruct (f_run _ _ _ _ _ _) as [outs f]. simpl in *. exists s'. split_and!; try done.
  - rewrite (ly_flight _ _ _ _ _ _ _ _ _ _ _ _ _ _ Hly). apply flights_sending.
  - destruct Hu. eapply layout_soft, Hly. lia.
Qed.

(** A consumer that asks for a completion of every send gets them once
    each and in the order the sends were taken, although the hardware completes
    them in any order; at most max_send_wr are outstanding, and if none is on
    the wire and none waits to be polled, none is missing.  A consumer that asks
    for completions of single sends never gets one, since no code writes the
    send_flags the ring looks at. *)
Theorem gsi_in_order cap post rx port max sig txs notify ops :
  ring_use post max ops ->
  exists outs s' rest, gsi_run cap post ops (idle_gst (new_gsi rx port max sig txs) notify) = Some (inr outs, s') /\
    if sig then taken ops outs = polled outs ++ rest /\ Z.of_nat (length rest) <= max /\
                (g_flight s' = [] -> g_wc_list s' = [] -> rest = [])
    else polled outs = [].
Proof.
  intros Hu. pose proof (ru_max _ _ _ Hu) as Hmax. assert (H0 : (0 < Z.to_nat max)%nat) by lia.
  destruct (gsi_run_sim cap post rx port max sig txs notify quiet_cq ops Hu eq_refl) as (s' & E & (C & m & Hly) & _).
  pose proof (f_run_facts post (Z.to_nat max) sig (tx_of cap rx txs) ops (mkfifo [] quiet_cq notify 0 0) I) as Hf.
  destruct (f_run _ _ _ _ _ _) as [outs f]. simpl in *. destruct Hf as [Hs Hf].
  exists outs, s', (f_ids f). split; [done|]. destruct sig; [|by apply Hf]. split; [done|].
  pose proof (layout_length _ _ _ _ _ H0 _ _ _ _ _ _ _ _ _ Hly) as Hlen. split.
  - unfold f_ids. rewrite length_app, !length_fmap. lia.
  - intros Hfl Hl. unfold f_ids. rewrite <- (layout_soft _ _ _ _ _ H0 _ _ _ _ _ _ _ _ _ Hly), Hl. simpl.
    rewrite settled_wire; [done|done|]. unfold f_flying.
    rewrite <- (flights_sending (Z.to_nat max) (C + Z.of_nat (length (f_soft f)))), <- (ly_flight _ _ _ _ _ _ _ _ _ _ _ _ _ _ Hly).
    by rewrite Hfl.
Qed.

(** ** Examples *)

Definition ex_send (i : nat) : ud_send := mkuds (Z.of_nat i) 0 [].
Definition ok_wc : ib_wc := mkwc 0 0 0 0 0 0 (zeros 4) 0 0 0 0 0 0 0 0.
(** Two partition keys: the first has no queue pair yet; the hardware finishes the second send first. *)
Definition ex_gsi_ops : list gsi_op :=
  [Post [mkuds 11 1 []; mkuds 12 1 []; mkuds 13 0 []]; Complete 1 ok_wc; Poll 4 false; Complete 0 ok_wc; Poll 4 false].
Definition always_sends (_ : nat) (_ : list (Z * ud_send)) (_ : Z) (_ : ud_send) : Z := 0.

(** What a run shows, to be computed. *)
Definition seen (cap : bool) (post : nat -> list (Z * ud_send) -> Z -> ud_send -> Z) (ops : list gsi_op) (s : gst)
    : option (list Z * list Z * list flight * list nat) :=
  match gsi_run cap post ops s with
  | Some (inr outs, s') => Some (taken ops outs, polled outs, g_flight s', g_wc_list s')
  | _ => None
  end.
Lemma seen_run cap post ops s t p fl l :
  seen cap post ops s = Some (t, p, fl, l) ->
  exists outs s', gsi_run cap post ops s = Some (inr outs, s') /\
    taken ops outs = t /\ polled outs = p /\ g_flight s' = fl /\ g_wc_list s' = l.
Proof. unfold seen. destruct (gsi_run _ _ _ _) as [[[e|outs] s']|]; [done| |done]. intros [= <- <- <- <-]. eauto 10. Qed.

Lemma ex_ring_use : ring_use always_sends 4 ex_gsi_ops.
Proof. split; [done|left; by exists (2 ^ 30)|by left]. Qed.

Lemma gsi_refines_fifo_witness :
  exists s', gsi_run true always_sends ex_gsi_ops (idle_gst (new_gsi 5 1 4 true [None; Some 9]) 2) =
    Some (inr (f_run always_sends 4 true (tx_of true 5 [None; Some 9]) ex_gsi_ops (mkfifo [] quiet_cq 2 0 0)).1, s').
Proof.
  pose proof (gsi_refines_fifo true always_sends 5 1 4 true [None; Some 9] 2 quiet_cq ex_gsi_ops ex_ring_use eq_refl) as H.
  destruct (f_run always_sends (Z.to_nat 4) true _ ex_gsi_ops _) as [outs f] eqn:E. change (Z.to_nat 4) with 4%nat in E.
  rewrite E. destruct H as (s' & H & _). exists s'. exact H.
Defined.

Lemma gsi_in_order_witness :
  exists outs s', gsi_run true always_sends ex_gsi_ops (idle_gst (new_gsi 5 1 4 true [None; Some 9]) 2) = Some (inr outs, s') /\
    taken ex_gsi_ops outs = [11; 12; 13] /\ polled outs = [11; 12; 13].
Proof.
  destruct (gsi_in_order true always_sends 5 1 4 true [None; Some 9] 2 ex_gsi_ops ex_ring_use) as (outs & s' & rest & E & Ht & _ & Hr).
  destruct (seen_run true always_sends ex_gsi_ops (idle_gst (new_gsi 5 1 4 true [None; Some 9]) 2) [11; 12; 13] [11; 12; 13] [] [])
    as (outs' & s'' & E' & Hk & Hp & Hf & Hl); [by vm_compute|].
  rewrite E in E'. injection E' as <- <-. exists outs, s'. split; [done|]. split; [done|].
  rewrite (Hr Hf Hl), app_nil_r in Ht. by rewrite <- Ht.
Defined.

(** ib_post_send fails once, at its 129th call. *)
Definition fails_once (c : nat) (_ : list (Z * ud_send)) (_ : Z) (_ : ud_send) : Z := if (c =? 128)%nat then - ENOMEM else 0.
Definition undo_ops : list gsi_op :=
  [Post (ex_send <$> seq 0 128)] ++ replicate 128 (Complete 0 ok_wc) ++ [Poll 128 false; Post [ex_send 500]] ++
  [Post (ex_send <$> seq 1000 128)] ++ replicate 128 (Complete 0 ok_wc) ++ [Poll 128 false].

(** One failed ib_post_send after the producer index has gone round loses
    completions.  With the 128 sends of the MAD layer: 128 sends complete, one
    fails, the next 128 are taken and the hardware completes them all; none of
    these is reported, although nothing is on the wire or waits to be polled.
    The code that undoes the failed send stores the index reduced modulo
    max_send_wr, while the consumer index is not reduced. *)
Theorem gsi_undo_loses_completions :
  exists outs s', gsi_run false fails_once undo_ops (idle_gst (new_gsi 5 1 128 true []) 0) = Some (inr outs, s') /\
    taken undo_ops outs = (Z.of_nat <$> seq 0 128) ++ (Z.of_nat <$> seq 1000 128) /\
    polled outs = Z.of_nat <$> seq 0 128 /\ g_flight s' = [] /\ g_wc_list s' = [].
Proof.
  apply seen_run. vm_compute. reflexivity.
Qed.
