(* ===== verification/GsiLife.v ===== *)
(** * GsiLife: creating and destroying queue pair 1 (hw/mlx5/gsi.c)

    The wrapper owns three allocations, a completion queue, the hardware queue
    pair that receives, and one UD queue pair for each partition key, made when
    the receiving one reaches RTS or the table of keys changes.  It makes and
    destroys them through the verbs layer, which is the interface [GsiVerbs]:
    the queue pairs and completion queues in being, and what each call adds or
    takes away. *)

From S2P Require Import Prelude ErrState KHeap FragAlloc DbAlloc DrvState FragBuf QpTypes QpState QpContext Cqe GsiRing.

Open Scope es_scope.

Definition IB_QP1_QKEY : Z := 2147549184.

(** The part of struct ib_qp_init_attr that gsi.c sets. *)
Record hw_attr := mkhwattr {
  ha_type : ib_qp_type;
  ha_send_cq : Z;
  ha_recv_cq : Z;
  ha_cap : ib_qp_cap;
  ha_sig_all : bool;
  ha_flags : Z;
  ha_port : Z;
}.

(** ** The verbs the wrapper calls *)

Class GsiVerbs (W : Type) := {
  v_alloc_cq : Z -> es W Z;                      (* ib_alloc_cq *)
  v_free_cq : Z -> es W unit;                    (* ib_free_cq *)
  v_create_qp : hw_attr -> es W Z;               (* ib_create_qp *)
  v_destroy_qp : Z -> es W unit;                 (* ib_destroy_qp *)
  v_modify_qp : Z -> ib_qp_attr -> Z -> es W unit; (* ib_modify_qp *)
  v_query_pkey : Z -> Z -> es W Z;               (* ib_query_pkey *)
  v_state : W -> Z -> ib_qp_state;               (* to_mqp(qp)->state *)
}.

(** No queue pair in being uses the completion queue [c]; a queue pair is its
    number with the completion queues it sends and receives on. *)
Definition unused (c : Z) (qps : gmap Z (Z * Z)) : Prop := map_Forall (fun _ p => p.1 <> c /\ p.2 <> c) qps.

(** What they promise: [v_qps] and [v_cqs] are the objects in being; a call that fails
    changes neither.  ib_free_cq only warns and returns when the completion queue is
    still in use. *)
Class GsiVerbsOk (W : Type) `{GsiVerbs W} := {
  v_qps : W -> gmap Z (Z * Z);
  v_cqs : W -> gset Z;
  v_alloc_cq_ok : forall n w, runs (v_alloc_cq n) w (fun r w' => v_qps w' = v_qps w /\
    match r with
    | inl e => e < 0 /\ v_cqs w' = v_cqs w
    | inr c => (c ∉ v_cqs w) /\ unused c (v_qps w) /\ v_cqs w' = {[c]} ∪ v_cqs w
    end);
  v_free_cq_ok : forall c w, c ∈ v_cqs w -> runs (v_free_cq c) w (fun r w' => r = inr tt /\ v_qps w' = v_qps w /\
    (unused c (v_qps w) -> v_cqs w' = v_cqs w ∖ {[c]}) /\ (~ unused c (v_qps w) -> v_cqs w' = v_cqs w));
  v_create_qp_ok : forall a w, runs (v_create_qp a) w (fun r w' => v_cqs w' = v_cqs w /\
    match r with
    | inl e => e < 0 /\ v_qps w' = v_qps w
    | inr q => v_qps w !! q = None /\ v_qps w' = <[q := (ha_send_cq a, ha_recv_cq a)]> (v_qps w)
    end);
  v_destroy_qp_ok : forall q w, is_Some (v_qps w !! q) -> runs (v_destroy_qp q) w (fun r w' => v_cqs w' = v_cqs w /\
    match r with inl e => e < 0 /\ v_qps w' = v_qps w | inr _ => v_qps w' = delete q (v_qps w) end);
  v_modify_qp_ok : forall q a mask w, runs (v_modify_qp q a mask) w (fun r w' => v_cqs w' = v_cqs w /\ v_qps w' = v_qps w);
  v_query_pkey_ok : forall p i w, runs (v_query_pkey p i) w (fun r w' => v_cqs w' = v_cqs w /\ v_qps w' = v_qps w);
}.

(** ** The wrapper *)

(** The device besides memory: the verbs' state and devr.ports[].gsi. *)
Record gdev (W : Type) := mkgdev { gd_v : W; gd_ports : list (option nat) }.
Arguments mkgdev {W} _ _.
Arguments gd_v {W} _.
Arguments gd_ports {W} _.

Record gsi_obj := mkgobj {
  go_addr : nat;                (* the structure *)
  go_tx_mem : nat;              (* tx_qps *)
  go_wrs_mem : nat;             (* outstanding_wrs *)
  go_cq : Z;
  go_recv_cq : Z;
  go_cap : ib_qp_cap;
  go_gsi : mlx5_ib_gsi_qp;
}.

Definition with_tx (g : gsi_obj) (l : list (option Z)) : gsi_obj :=
  let q := go_gsi g in
  mkgobj (go_addr g) (go_tx_mem g) (go_wrs_mem g) (go_cq g) (go_recv_cq g) (go_cap g)
    (mkgsi (gs_rx_qp q) (gs_port_num q) (gs_max_send_wr q) (gs_sig_all q) (gs_wrs q) (gs_pi q) (gs_ci q) (gs_num_qps q) l).

Section Gsi.
Context {W : Type} `{GsiVerbs W}.
Context (o : oracle) (sizeof_gsi sizeof_gsi_wr : Z).
Context (deth_sqpn : bool) (max_pkeys : Z).
(** What is on the stack where modify_to_rts has its attributes. *)
Context (stack : ib_qp_attr).

Definition gest : Type -> Type := es (drv (gdev W)).
Definition on_verbs {A} (m : es W A) : gest A :=
  on_rest (fun x => '(r, w) ← m (gd_v x); Some (r, mkgdev w (gd_ports x))).
Definition set_port (i : nat) (v : option nat) : gest unit :=
  on_rest (es_mod (fun x => mkgdev (gd_v x) (<[i := v]> (gd_ports x)))).

(** mlx5_ib_gsi_create_qp; the attributes are the consumer's. kcalloc of no elements
    is an allocation like another. *)
Definition mlx5_ib_gsi_create_qp (a : hw_attr) : gest gsi_obj :=
  let num_qps := if deth_sqpn then max_pkeys else 0 in
  do! s := es_get in
  if (ha_port a >? Z.of_nat (length (gd_ports (d_rest s)))) || (ha_port a <? 1) then es_fail (- EINVAL) else
  let i := Z.to_nat (ha_port a - 1) in
  do! gsi := d_kzalloc o sizeof_gsi in
  es_cleanup
    (do! tx := d_kzalloc o (8 * num_qps) in
     es_cleanup
       (do! wrs := d_kzalloc o (sizeof_gsi_wr * max_send_wr (ha_cap a)) in
        es_cleanup
          (do! s := es_get in
           do! used := es_lift (gd_ports (d_rest s) !! i) in
           if bool_decide (is_Some used) then es_fail (- EBUSY) else
           do! cq := on_verbs (v_alloc_cq (max_send_wr (ha_cap a))) in
           do! rx := es_cleanup
             (on_verbs (v_create_qp
                (mkhwattr MLX5_IB_QPT_HW_GSI cq (ha_recv_cq a)
                   (if negb (num_qps =? 0)
                    then mkcap 0 (max_recv_wr (ha_cap a)) 0 (max_recv_sge (ha_cap a)) 0
                    else ha_cap a)
                   (ha_sig_all a) (ha_flags a) (ha_port a))))
             (on_verbs (v_free_cq cq)) in
           set_port i (Some gsi);;
           es_ret (mkgobj gsi tx wrs cq (ha_recv_cq a) (ha_cap a)
                     (new_gsi rx (ha_port a) (max_send_wr (ha_cap a)) (ha_sig_all a) (replicate (Z.to_nat num_qps) None))))
          (d_kfree wrs))
       (d_kfree tx))
    (d_kfree gsi).

(** The loop of mlx5_ib_gsi_destroy_qp over tx_qps; an error is only warned of. *)
Fixpoint destroy_tx_qps (l : list (option Z)) : es W unit :=
  match l with
  | [] => es_ret tt
  | None :: l => destroy_tx_qps l
  | Some q :: l => fun w => '(_, w) ← v_destroy_qp q w; destroy_tx_qps l w
  end.

Definition mlx5_ib_gsi_destroy_qp (g : gsi_obj) : gest unit :=
  on_verbs (v_destroy_qp (gs_rx_qp (go_gsi g)));;
  set_port (Z.to_nat (gs_port_num (go_gsi g) - 1)) None;;
  on_verbs (destroy_tx_qps (gs_tx_qps (go_gsi g)));;
  on_verbs (v_free_cq (go_cq g));;
  d_kfree (go_wrs_mem g);;
  d_kfree (go_tx_mem g);;
  d_kfree (go_addr g).

(** ** The queue pairs that send *)

Definition create_gsi_ud_qp (g : gsi_obj) : es W Z :=
  v_create_qp (mkhwattr IB_QPT_UD (go_cq g) (go_recv_cq g)
    (mkcap (max_send_wr (go_cap g)) 0 (max_send_sge (go_cap g)) 0 (cap_max_inline_data (go_cap g)))
    (gs_sig_all (go_gsi g)) MLX5_IB_QP_CREATE_SQPN_QP1 0).

(** The attributes of modify_to_rts: the fields it writes, over what was there. *)
Definition tx_attr (a : ib_qp_attr) (st : ib_qp_state) (pkey key psn port : Z) : ib_qp_attr :=
  mkqattr st (cur_qp_state a) (path_mtu a) (path_mig_state a) key (rq_psn a) psn (dest_qp_num a)
    (qp_access_flags a) (ah_attr a) (alt_ah_attr a) pkey (alt_pkey_index a) (max_rd_atomic a)
    (max_dest_rd_atomic a) (min_rnr_timer a) port (timeout a) (retry_cnt a) (rnr_retry a)
    (alt_port_num a) (alt_timeout a) (dct_key a) (offload_type a) (rmpn_xrqn a).

Definition rts_requests (port qp_index : Z) : list (ib_qp_attr * Z) :=
  [(tx_attr stack IB_QPS_INIT qp_index IB_QP1_QKEY (sq_psn stack) port,
    IB_QP_STATE .| IB_QP_PKEY_INDEX .| IB_QP_QKEY .| IB_QP_PORT);
   (tx_attr stack IB_QPS_RTR qp_index IB_QP1_QKEY (sq_psn stack) port, IB_QP_STATE);
   (tx_attr stack IB_QPS_RTS qp_index IB_QP1_QKEY 0 port, IB_QP_STATE .| IB_QP_SQ_PSN)].

Fixpoint modify_all (q : Z) (l : list (ib_qp_attr * Z)) : es W unit :=
  match l with
  | [] => es_ret tt
  | (a, mask) :: l => v_modify_qp q a mask;; modify_all q l
  end.
Definition modify_to_rts (g : gsi_obj) (q qp_index : Z) : es W unit :=
  modify_all q (rts_requests (gs_port_num (go_gsi g)) qp_index).

(** setup_qp: errors end it and are not passed on; the queue pair that could not be moved to RTS is
    neither kept nor destroyed (WARN_ON_ONCE(qp)). *)
Definition setup_qp (g : gsi_obj) (qp_index : nat) : es W gsi_obj := fun w =>
  '(r, w) ← v_query_pkey (gs_port_num (go_gsi g)) (Z.of_nat qp_index) w;
  match r with
  | inl _ => Some (inr g, w)
  | inr pkey =>
      if u16 pkey =? 0 then Some (inr g, w) else
      slot ← gs_tx_qps (go_gsi g) !! qp_index;
      match slot with
      | Some _ => Some (inr g, w)
      | None =>
          '(r, w) ← create_gsi_ud_qp g w;
          match r with
          | inl _ => Some (inr g, w)
          | inr q =>
              '(r, w) ← modify_to_rts g q (Z.of_nat qp_index) w;
              match r with
              | inl _ => Some (inr g, w)
              | inr _ => Some (inr (with_tx g (<[qp_index := Some q]> (gs_tx_qps (go_gsi g)))), w)
              end
          end
      end
  end.

Fixpoint setup_from (fuel : nat) (qp_index : nat) (g : gsi_obj) : es W gsi_obj :=
  match fuel with
  | O => es_ret g
  | S fuel => do! g := setup_qp g qp_index in setup_from fuel (S qp_index) g
  end.
Definition setup_qps (g : gsi_obj) : es W gsi_obj := setup_from (Z.to_nat (gs_num_qps (go_gsi g))) 0 g.

(** mlx5_ib_gsi_modify_qp: the code it returns and the queue pair. *)
Definition mlx5_ib_gsi_modify_qp (g : gsi_obj) (a : ib_qp_attr) (mask : Z) : es W (Z * gsi_obj) := fun w =>
  '(r, w) ← v_modify_qp (gs_rx_qp (go_gsi g)) a mask w;
  match r with
  | inl e => Some (inr (e, g), w)
  | inr _ => if qps_eqb (v_state w (gs_rx_qp (go_gsi g))) IB_QPS_RTS
             then (do! g := setup_qps g in es_ret (0, g)) w else Some (inr (0, g), w)
  end.

Definition mlx5_ib_gsi_pkey_change (g : option gsi_obj) : es W (option gsi_obj) :=
  match g with None => es_ret None | Some g => do! g := setup_qps g in es_ret (Some g) end.

(** ** A life *)

Inductive gsi_event := Modify (a : ib_qp_attr) (mask : Z) | PkeyChange.

Fixpoint live_through (evs : list gsi_event) (g : gsi_obj) : es W gsi_obj :=
  match evs with
  | [] => es_ret g
  | Modify a mask :: evs => do! r := mlx5_ib_gsi_modify_qp g a mask in live_through evs r.2
  | PkeyChange :: evs => do! r := mlx5_ib_gsi_pkey_change (Some g) in
                         match r with Some g => live_through evs g | None => es_undef end
  end.
End Gsi.

(** The three requests are transitions the verbs layer allows. *)
Lemma rts_requests_allowed stack port i :
  (fun '(cur, (a, mask)) => ib_modify_qp_is_ok cur (qp_state a) IB_QPT_UD mask) <$>
    zip [IB_QPS_RESET; IB_QPS_INIT; IB_QPS_RTR] (rts_requests stack port i) = [Some true; Some true; Some true].
Proof. by vm_compute. Qed.

Section Life.
Context {W : Type} `{VO : GsiVerbsOk W}.
Context (o : oracle) (cls sizeof_gsi sizeof_gsi_wr : Z) (deth_sqpn : bool) (max_pkeys : Z) (stack : ib_qp_attr).
Implicit Types (w : W) (x : gdev W) (g : gsi_obj).

Definition modify_succeeds : Prop := forall q a mask w r w', v_modify_qp q a mask w = Some (r, w') -> r = inr tt.
Definition destroy_succeeds : Prop := forall q w r w', v_destroy_qp q w = Some (r, w') -> r = inr tt.

(** The wrapper's queue pairs with those it lost. *)
Definition own_qps (lost : list Z) (g : gsi_obj) : list Z := gs_rx_qp (go_gsi g) :: omap id (gs_tx_qps (go_gsi g)) ++ lost.

(** The queue pairs in being are the wrapper's, those it lost, all of which send on
    its completion queue, and those of others, [L]. *)
Record has_qps (L : gmap Z (Z * Z)) (lost : list Z) (g : gsi_obj) (w : W) : Prop := {
  hq_own : forall q, q ∈ own_qps lost g -> exists r, v_qps w !! q = Some (go_cq g, r);
  hq_rest : forall q, q ∉ own_qps lost g -> v_qps w !! q = L !! q;
  hq_nodup : NoDup (own_qps lost g);
  hq_others : forall q, q ∈ own_qps lost g -> L !! q = None;
  hq_len : length (gs_tx_qps (go_gsi g)) = Z.to_nat (gs_num_qps (go_gsi g));
}.

(** What of the wrapper does not change. *)
Definition same_gsi (g g' : gsi_obj) : Prop :=
  exists l, g' = with_tx g l /\ length l = length (gs_tx_qps (go_gsi g)).

Lemma same_gsi_refl g : same_gsi g g.
Proof. exists (gs_tx_qps (go_gsi g)). by destruct g as [? ? ? ? ? ? []]. Qed.
Lemma same_gsi_trans g1 g2 g3 : same_gsi g1 g2 -> same_gsi g2 g3 -> same_gsi g1 g3.
Proof. intros (l & -> & H1) (l' & -> & H2). exists l'. simpl in *. by rewrite H2. Qed.

Lemma modify_all_runs q l w :
  runs (modify_all q l) w (fun r w' => v_cqs w' = v_cqs w /\ v_qps w' = v_qps w /\ (modify_succeeds -> r = inr tt)).
Proof.
  revert w. induction l as [|[a mask] l IH]; intros w; simpl; [by apply runs_ret|].
  apply runs_bind. destruct (v_modify_qp_ok q a mask w) as (r & w1 & E & Hc & Hq). exists r, w1. split; [done|].
  destruct r as [e|[]].
  - split_and!; [done|done|]. intros Hm. by apply Hm in E.
  - eapply runs_mono; [apply IH|]. intros r w2 (-> & -> & Hr). by rewrite Hc, Hq.
Qed.

Definition setup_post (L : gmap Z (Z * Z)) (lost : list Z) (g : gsi_obj) (w : W) (r : Z + gsi_obj) (w' : W) : Prop :=
  exists g' more, r = inr g' /\ same_gsi g g' /\ v_cqs w' = v_cqs w /\ has_qps L (lost ++ more) g' w' /\
    (modify_succeeds -> more = []).

Lemma setup_keep L lost g w w' :
  has_qps L lost g w -> v_cqs w' = v_cqs w -> v_qps w' = v_qps w -> setup_post L lost g w (inr g) w'.
Proof.
  intros [Hs Hr Hn Ho Hl] Hc Hq. exists g, []. rewrite app_nil_r. split_and!; [done|apply same_gsi_refl|done| |done].
  split; [by rewrite Hq|by rewrite Hq|done..].
Qed.

(** Put a new queue pair into an empty entry of tx_qps. *)
Lemma omap_fill (l : list (option Z)) i q : l !! i = Some None -> omap id (<[i := Some q]> l) ≡ₚ q :: omap id l.
Proof.
  revert i. induction l as [|a l IH]; intros [|i]; simpl; [done|done|intros [= ->]; done|].
  intros Hi. specialize (IH _ Hi). destruct a as [a|]; simpl; rewrite IH; [apply Permutation_swap|done].
Qed.

Lemma has_qps_perm L lost lost' g g' w w' :
  has_qps L lost g w -> gs_num_qps (go_gsi g') = gs_num_qps (go_gsi g) -> go_cq g' = go_cq g ->
  length (gs_tx_qps (go_gsi g')) = length (gs_tx_qps (go_gsi g)) ->
  forall q r, v_qps w !! q = None -> v_qps w' = <[q := (go_cq g, r)]> (v_qps w) ->
  own_qps lost' g' ≡ₚ q :: own_qps lost g -> has_qps L lost' g' w'.
Proof.
  intros [Hs Hr Hn Ho Hl] Hnum Hcq Hlen q r Hq Hw Hp.
  assert (Hnew : q ∉ own_qps lost g) by (intros [z Hz]%Hs; congruence). split.
  - intros q'. rewrite Hp, Hw, Hcq. intros [->|Hq']%elem_of_cons; [exists r; apply lookup_insert_eq|].
    rewrite lookup_insert_ne by (by intros ->). by apply Hs.
  - intros q'. rewrite Hp, Hw, not_elem_of_cons. intros [Hne Hq']. rewrite lookup_insert_ne by done. by apply Hr.
  - rewrite Hp. by constructor.
  - intros q'. rewrite Hp. intros [->|Hq']%elem_of_cons; [by rewrite <- Hr|by apply Ho].
  - congruence.
Qed.

Lemma setup_qp_runs L lost g i w :
  has_qps L lost g w -> (i < length (gs_tx_qps (go_gsi g)))%nat ->
  runs (setup_qp stack g i) w (setup_post L lost g w).
Proof.
  intros Hh Hi. unfold runs, setup_qp.
  destruct (v_query_pkey_ok (gs_port_num (go_gsi g)) (Z.of_nat i) w) as (r & w1 & -> & Hc1 & Hq1). cbn [mbind option_bind].
  destruct r as [e|pkey]; [do 2 eexists; split; [done|by apply setup_keep]|].
  destruct (u16 pkey =? 0); [do 2 eexists; split; [done|by apply setup_keep]|].
  destruct (lookup_lt_is_Some_2 _ _ Hi) as [slot Hslot]. rewrite Hslot. cbn [mbind option_bind].
  destruct slot as [q0|]; [do 2 eexists; split; [done|by apply setup_keep]|].
  unfold create_gsi_ud_qp. match goal with |- context [v_create_qp ?a] => destruct (v_create_qp_ok a w1) as (r & w2 & -> & Hc2 & Hr) end.
  cbn [mbind option_bind]. destruct r as [e|q].
  - destruct Hr as [_ Hq2]. do 2 eexists. split; [done|]. apply setup_keep; congruence.
  - destruct Hr as [Hnew Hq2]. rewrite Hq1 in Hnew, Hq2. simpl in Hq2.
    destruct (modify_all_runs q (rts_requests stack (gs_port_num (go_gsi g)) (Z.of_nat i)) w2) as (r & w3 & E & Hc3 & Hq3 & Hm).
    unfold modify_to_rts. rewrite E. cbn [mbind option_bind]. assert (Hw : v_qps w3 = <[q := (go_cq g, go_recv_cq g)]> (v_qps w)) by congruence.
    destruct r as [e|[]]; do 2 eexists; (split; [done|]).
    + exists g, [q]. split_and!; [done|apply same_gsi_refl|congruence| |intros Hs; by apply Hm in Hs].
      eapply has_qps_perm; [exact Hh|done|done|done|exact Hnew|exact Hw|].
      unfold own_qps. rewrite app_assoc, (Permutation_app_comm _ [q]). simpl. apply Permutation_swap.
    + exists (with_tx g (<[i := Some q]> (gs_tx_qps (go_gsi g)))), []. rewrite app_nil_r.
      split_and!; [done| |congruence| |done].
      * eexists. split; [done|]. by rewrite length_insert.
      * eapply has_qps_perm; [exact Hh|done|done| |exact Hnew|exact Hw|].
        -- simpl. by rewrite length_insert.
        -- unfold own_qps. simpl. rewrite (omap_fill _ _ _ Hslot). apply Permutation_swap.
Qed.

(** One piece of set-up after another. *)
Lemma setup_then L lost g w g1 w1 (m : es W gsi_obj) :
  setup_post L lost g w (inr g1) w1 ->
  (forall lost', has_qps L lost' g1 w1 -> runs m w1 (setup_post L lost' g1 w1)) -> runs m w1 (setup_post L lost g w).
Proof.
  intros (g1' & more1 & [= <-] & Hs1 & Hc1 & Hh1 & Hm1) H2. eapply runs_mono; [by apply H2|].
  intros r w2 (g2 & more2 & -> & Hs2 & Hc2 & Hh2 & Hm2). exists g2, (more1 ++ more2).
  split_and!; [done|by eapply same_gsi_trans|congruence|by rewrite app_assoc|]. intros Hm. by rewrite Hm1, Hm2.
Qed.

Lemma setup_from_runs fuel : forall i L lost g w,
  has_qps L lost g w -> (i + fuel <= length (gs_tx_qps (go_gsi g)))%nat ->
  runs (setup_from stack fuel i g) w (setup_post L lost g w).
Proof.
  induction fuel as [|fuel IH]; intros i L lost g w Hh Hi; simpl; [by apply runs_ret, setup_keep|].
  apply runs_bind. destruct (setup_qp_runs L lost g i w Hh ltac:(lia)) as (r & w1 & E & Hp). exists r, w1. split; [done|].
  pose proof Hp as (g1 & more & -> & (l & -> & Hl) & _). eapply setup_then; [exact Hp|]. intros lost' Hh'.
  apply IH; [done|]. simpl. lia.
Qed.

Lemma setup_qps_runs L lost g w : has_qps L lost g w -> runs (setup_qps stack g) w (setup_post L lost g w).
Proof. intros Hh. apply setup_from_runs; [done|]. rewrite (hq_len _ _ _ _ Hh). lia. Qed.

Lemma gsi_modify_runs L lost g a mask w :
  has_qps L lost g w ->
  runs (mlx5_ib_gsi_modify_qp stack g a mask) w (fun r w' => exists c g', r = inr (c, g') /\ setup_post L lost g w (inr g') w').
Proof.
  intros Hh. unfold runs, mlx5_ib_gsi_modify_qp.
  destruct (v_modify_qp_ok (gs_rx_qp (go_gsi g)) a mask w) as (r & w1 & -> & Hc & Hq). cbn [mbind option_bind].
  destruct r as [e|[]].
  - do 2 eexists. split; [done|]. do 2 eexists. split; [done|]. by apply setup_keep.
  - assert (Hh1 : has_qps L lost g w1) by (destruct Hh; split; [by rewrite Hq|by rewrite Hq|done..]).
    destruct (qps_eqb _ _).
    + destruct (setup_qps_runs L lost g w1 Hh1) as (r & w2 & E & Hp). pose proof Hp as (g2 & more & -> & _).
      rewrite (es_bind_ok _ _ _ _ _ E). do 2 eexists. split; [done|]. do 2 eexists. split; [done|].
      destruct Hp as (g2' & more' & [= <-] & Hs & Hc2 & Hrest). exists g2, more'. split_and!; try done; [congruence|apply Hrest..].
    + do 2 eexists. split; [done|]. do 2 eexists. split; [done|]. by apply setup_keep.
Qed.

Lemma live_through_runs evs : forall L lost g w,
  has_qps L lost g w -> runs (live_through stack evs g) w (setup_post L lost g w).
Proof.
  induction evs as [|[a mask|] evs IH]; intros L lost g w Hh; simpl; [by apply runs_ret, setup_keep| |].
  - apply runs_bind. destruct (gsi_modify_runs L lost g a mask w Hh) as (r & w1 & E & c & g1 & -> & Hp).
    exists (inr (c, g1)), w1. split; [done|].
    eapply setup_then; [exact Hp|]. intros lost' Hh'. by apply IH.
  - apply runs_bind. destruct (setup_qps_runs L lost g w Hh) as (r & w1 & E & Hp). pose proof Hp as (g1 & more & -> & _).
    exists (inr (Some g1)), w1. split; [unfold mlx5_ib_gsi_pkey_change; by rewrite (es_bind_ok _ _ _ _ _ E)|].
    eapply setup_then; [exact Hp|]. intros lost' Hh'. by apply IH.
Qed.

(** ** Giving back *)

(** A queue pair is destroyed or left as it was. *)
Lemma destroy_tx_runs l : forall w,
  (forall q, q ∈ omap id l -> is_Some (v_qps w !! q)) -> NoDup (omap id l) ->
  runs (destroy_tx_qps l) w (fun r w' => r = inr tt /\ v_cqs w' = v_cqs w /\
    (forall q, q ∉ omap id l -> v_qps w' !! q = v_qps w !! q) /\
    (forall q, v_qps w' !! q = None \/ v_qps w' !! q = v_qps w !! q) /\
    (destroy_succeeds -> forall q, q ∈ omap id l -> v_qps w' !! q = None)).
Proof.
  induction l as [|[q|] l IH]; intros w Hin Hn; simpl in *.
  - apply runs_ret. split_and!; [done|done|done|by right|]. intros _ q Hq. by apply elem_of_nil in Hq.
  - apply NoDup_cons in Hn as [Hq Hn]. unfold runs.
    destruct (v_destroy_qp_ok q w) as (r & w1 & E & Hc & Hr); [apply Hin; by left|]. rewrite E. cbn [mbind option_bind].
    assert (Hw1 : (forall q', q' <> q -> v_qps w1 !! q' = v_qps w !! q') /\
                  (forall q', v_qps w1 !! q' = None \/ v_qps w1 !! q' = v_qps w !! q') /\ (r = inr tt -> v_qps w1 !! q = None)).
    { destruct r as [e|[]]; [destruct Hr as [_ ->]; split_and!; [done|by right|done]|]. rewrite Hr. split_and!.
      - intros q' Hne. by rewrite lookup_delete_ne.
      - intros q'. destruct (decide (q' = q)) as [->|]; [left; apply lookup_delete_eq|right; by rewrite lookup_delete_ne].
      - intros _. apply lookup_delete_eq. }
    destruct Hw1 as (Hw1 & Hk1 & Hd1). destruct (IH w1) as (r2 & w2 & E2 & -> & Hc2 & Hs2 & Hk2 & Hd2); [|done|].
    { intros q' Hq'. rewrite Hw1 by (by intros ->). apply Hin. by right. }
    exists (inr tt), w2. split; [done|]. split; [done|]. split; [congruence|]. split; [|split].
    + intros q' [Hne Hq']%not_elem_of_cons. rewrite Hs2 by done. by apply Hw1.
    + intros q'. destruct (Hk2 q') as [->| ->]; [by left|apply Hk1].
    + intros Hd q' [->|Hq']%elem_of_cons; [|by apply Hd2]. rewrite Hs2 by done. by apply Hd1, (Hd _ _ _ _ E).
  - by apply IH.
Qed.

Lemma runs_on_verbs {A} (c : es W A) st x (Q : Z + A -> drv (gdev W) -> Prop) :
  runs c (gd_v x) (fun r w' => Q r (mkdrv st (mkgdev w' (gd_ports x)))) -> runs (on_verbs c) (mkdrv st x) Q.
Proof. intros (r & w' & E & HQ). apply runs_on_rest. unfold runs. rewrite E. by do 2 eexists. Qed.

Definition same_dev (x x' : gdev W) : Prop :=
  gd_ports x' = gd_ports x /\ v_qps (gd_v x') = v_qps (gd_v x) /\ v_cqs (gd_v x') = v_cqs (gd_v x).

Definition create_gsi (a : hw_attr) : gest (W := W) gsi_obj := mlx5_ib_gsi_create_qp o sizeof_gsi sizeof_gsi_wr deth_sqpn max_pkeys a.

(** What a wrapper just made holds. *)
Record gsi_made (x : gdev W) m D (g : gsi_obj) (s : drv (gdev W)) : Prop := {
  gm_mem : exists s1 s2 s3 : Z,
    owned cls ({[go_wrs_mem g := s1]} ∪ ({[go_tx_mem g := s2]} ∪ ({[go_addr g := s3]} ∪ m))) D (d_mem s) /\
    m !! go_addr g = None /\ ({[go_addr g := s3]} ∪ m) !! go_tx_mem g = None /\
    ({[go_tx_mem g := s2]} ∪ ({[go_addr g := s3]} ∪ m)) !! go_wrs_mem g = None;
  gm_qps : has_qps (v_qps (gd_v x)) [] g (gd_v (d_rest s));
  gm_cq : go_cq g ∉ v_cqs (gd_v x) /\ unused (go_cq g) (v_qps (gd_v x)) /\ v_cqs (gd_v (d_rest s)) = {[go_cq g]} ∪ v_cqs (gd_v x);
  gm_port : let i := Z.to_nat (gs_port_num (go_gsi g) - 1) in
            gd_ports x !! i = Some None /\ gd_ports (d_rest s) = <[i := Some (go_addr g)]> (gd_ports x);
}.

Lemma take_back (c : Z) (A : gset Z) : c ∉ A -> ({[c]} ∪ A) ∖ {[c]} = A.
Proof. set_solver. Qed.
Lemma omap_none k : omap id (replicate k (@None Z)) = [].
Proof. by induction k. Qed.

Lemma new_has_qps w w' rx port max sig k addr tx wrs cq rcq c :
  v_qps w !! rx = None -> v_qps w' = <[rx := (cq, rcq)]> (v_qps w) ->
  has_qps (v_qps w) [] (mkgobj addr tx wrs cq rcq c (new_gsi rx port max sig (replicate k None))) w'.
Proof.
  intros Hn Hw. split; unfold own_qps; simpl; rewrite ?omap_none; simpl; rewrite ?length_replicate.
  - intros q ->%list_elem_of_singleton. rewrite Hw. exists rcq. apply lookup_insert_eq.
  - intros q Hq. rewrite Hw. apply lookup_insert_ne. intros ->. by apply Hq, list_elem_of_singleton.
  - apply NoDup_singleton.
  - intros q ->%list_elem_of_singleton. done.
  - lia.
Qed.

Lemma create_runs a st x m D :
  owned cls m D st ->
  runs (create_gsi a) (mkdrv st x) (fun r s => match r with
    | inl e => e < 0 /\ owned cls m D (d_mem s) /\ same_dev x (d_rest s)
    | inr g => gsi_made x m D g s
    end).
Proof.
  intros Ho. unfold create_gsi, mlx5_ib_gsi_create_qp. apply runs_bind, runs_get.
  destruct (_ || _) eqn:Hport; [apply runs_fail; done|]. zbool. simpl in *. rewrite Z.gtb_ltb in *. zbool.
  apply runs_bind. eapply runs_kzalloc; [exact Ho|done|]. intros gsi st1 Hgsi Ho1.
  apply runs_cleanup, runs_bind. eapply runs_kzalloc; [exact Ho1| |].
  { intros st' Ho'. eapply runs_kfree; [exact Ho'|done|]. done. }
  intros tx st2 Htx Ho2. apply runs_cleanup, runs_bind. eapply runs_kzalloc; [exact Ho2| |].
  { intros st' Ho'. eapply runs_kfree; [exact Ho'|done|]. intros st'' Ho''. eapply runs_kfree; [exact Ho''|done|]. done. }
  intros wrs st3 Hwrs Ho3. apply runs_cleanup.
  assert (Hback : forall e x', e < 0 -> same_dev x x' ->
    runs (d_kfree wrs) (mkdrv st3 x') (fun _ s => runs (d_kfree tx) s (fun _ s => runs (d_kfree gsi) s (fun _ s =>
      e < 0 /\ owned cls m D (d_mem s) /\ same_dev x (d_rest s))))).
  { intros e x' He Hx. do 3 (eapply runs_kfree; [eassumption|done|]; intros). done. }
  apply runs_bind, runs_get, runs_bind. cbn [d_rest].
  destruct (lookup_lt_is_Some_2 (gd_ports x) (Z.to_nat (ha_port a - 1))) as [used Hused]; [lia|]. rewrite Hused.
  apply runs_lift. case_bool_decide as Hu; [by apply runs_fail, Hback|]. apply runs_bind, runs_on_verbs.
  eapply runs_mono; [apply v_alloc_cq_ok|]. intros [e|cq] w1 [Hq1 Hr]; [by apply Hback; [apply Hr|split_and!; [|..|apply Hr]]|].
  destruct Hr as (Hcq & Hun & Hc1). apply runs_bind, runs_cleanup, runs_on_verbs.
  eapply runs_mono; [apply v_create_qp_ok|]. intros [e|rx] w2 [Hc2 Hr]; cbn [gd_v gd_ports] in *.
  - destruct Hr as [He Hq2]. apply runs_on_verbs. eapply runs_mono; [apply v_free_cq_ok; simpl; rewrite Hc2, Hc1; apply elem_of_union_l, elem_of_singleton_2; done|].
    intros r w3 (-> & Hq3 & Hc3 & _). simpl in *. apply Hback; [done|]. split_and!; simpl; [done|congruence|].
    rewrite Hc3 by (by rewrite Hq2, Hq1). rewrite Hc2, Hc1. by apply take_back.
  - destruct Hr as [Hrx Hq2]. rewrite Hq1 in Hrx, Hq2. apply runs_bind, runs_on_rest, runs_mod, runs_ret.
    split; simpl; [by do 3 eexists|by apply new_has_qps|by rewrite Hc2|].
    split; [|done]. rewrite Hused. f_equal. by destruct used; [destruct Hu|].
Qed.

(** After a destruction the memory and the port are back.  Either all queue pairs are gone, and the
    completion queue with them, or one is left, and then the completion queue is left too. *)
Definition given_back (x : gdev W) m D (cq : Z) (lost : list Z) (s : drv (gdev W)) : Prop :=
  owned cls m D (d_mem s) /\ gd_ports (d_rest s) = gd_ports x /\ v_qps (gd_v x) ⊆ v_qps (gd_v (d_rest s)) /\
  (v_qps (gd_v (d_rest s)) = v_qps (gd_v x) /\ v_cqs (gd_v (d_rest s)) = v_cqs (gd_v x) \/
   v_qps (gd_v (d_rest s)) <> v_qps (gd_v x) /\ v_cqs (gd_v (d_rest s)) = {[cq]} ∪ v_cqs (gd_v x) /\
   (lost = [] -> ~ destroy_succeeds)).

(** The queue pairs once those of the wrapper have been destroyed, as far as that went. *)
Lemma left_over L lost g w w1 w2 :
  has_qps L lost g w -> v_qps w1 = delete (gs_rx_qp (go_gsi g)) (v_qps w) ->
  (forall q, q ∉ omap id (gs_tx_qps (go_gsi g)) -> v_qps w2 !! q = v_qps w1 !! q) ->
  (forall q, v_qps w2 !! q = None \/ v_qps w2 !! q = v_qps w1 !! q) ->
  (destroy_succeeds -> forall q, q ∈ omap id (gs_tx_qps (go_gsi g)) -> v_qps w2 !! q = None) ->
  L ⊆ v_qps w2 /\
  (v_qps w2 = L \/ v_qps w2 <> L /\ (exists q r, v_qps w2 !! q = Some (go_cq g, r)) /\ (lost = [] -> ~ destroy_succeeds)).
Proof.
  intros [Hs Hr Hn Ho _] H1 H2 H3 H4. set (rx := gs_rx_qp (go_gsi g)) in *. set (tx := omap id _) in *.
  assert (Hrx : rx ∉ tx) by (intros Hin; apply NoDup_cons in Hn as [Hn _]; apply Hn, elem_of_app; by left).
  assert (Hout : forall q, q ∉ tx ++ lost -> v_qps w2 !! q = L !! q).
  { intros q [Hq Hl]%not_elem_of_app. rewrite H2, H1 by done. destruct (decide (q = rx)) as [->|Hne].
    - rewrite lookup_delete_eq. symmetry. apply Ho. by left.
    - rewrite lookup_delete_ne by done. apply Hr. unfold own_qps. rewrite not_elem_of_cons, not_elem_of_app. done. }
  assert (Hin : forall q, q ∈ tx ++ lost -> L !! q = None) by (intros q Hq; apply Ho; by right). split.
  { apply map_subseteq_spec. intros q p Hq. rewrite Hout; [done|]. intros Hin'. apply Hin in Hin'. congruence. }
  destruct (decide (Forall (fun q => v_qps w2 !! q = None) (tx ++ lost))) as [Hall|Hex].
  - left. apply map_eq. intros q. destruct (decide (q ∈ tx ++ lost)) as [Hq|Hq]; [|by apply Hout].
    rewrite Forall_forall in Hall. by rewrite Hall, Hin.
  - right. apply not_Forall_Exists in Hex; [|apply _]. apply Exists_exists in Hex as (q & Hq & Hne). simpl in Hne.
    assert (Hv : exists r, v_qps w2 !! q = Some (go_cq g, r)).
    { destruct (H3 q) as [|Heq]; [done|]. destruct (Hs q) as [r Hv]; [by right|]. exists r. rewrite Heq, H1, lookup_delete_ne; [done|].
      intros <-. apply NoDup_cons in Hn as [Hn _]. by apply Hn. }
    split_and!; [|by exists q|].
    + intros E. rewrite E in Hne. by apply Hne, Hin.
    + intros -> Hd. rewrite app_nil_r in Hq. by apply Hne, H4.
Qed.

Lemma destroy_runs x m D g s g' w lost :
  gsi_made x m D g s -> same_gsi g g' -> has_qps (v_qps (gd_v x)) lost g' w -> v_cqs w = v_cqs (gd_v (d_rest s)) ->
  runs (mlx5_ib_gsi_destroy_qp g') (mkdrv (d_mem s) (mkgdev w (gd_ports (d_rest s)))) (fun r s' => match r with
    | inl e => e < 0 /\ d_mem s' = d_mem s /\ same_dev (mkgdev w (gd_ports (d_rest s))) (d_rest s') /\ ~ destroy_succeeds
    | inr _ => given_back x m D (go_cq g) lost s'
    end).
Proof.
  intros [(z1 & z2 & z3 & Hmem & Ha & Ht & Hwr) _ (Hcq & Hun & Hcqs) [Hp Hports]] (l & -> & _) Hh Hcw.
  pose proof Hh as [Hown _ Hnd _ _]. simpl in *. apply NoDup_cons in Hnd as [Hrx Hnd].
  apply NoDup_app in Hnd as (Hntx & _ & _). simpl in Hntx, Hrx. rewrite not_elem_of_app in Hrx.
  apply runs_bind, runs_on_verbs. simpl.
  destruct (v_destroy_qp_ok (gs_rx_qp (go_gsi g)) w) as (r & w1 & E1 & Hc1 & Hq1).
  { destruct (Hown (gs_rx_qp (go_gsi g))) as [z Hz]; [by left|]. by rewrite Hz. }
  exists r, w1. split; [exact E1|]. destruct r as [e|[]]; [destruct Hq1; by split_and!; [| |split_and!|intros Hd; apply Hd in E1]|].
  apply runs_bind, runs_on_rest, runs_mod, runs_bind, runs_on_verbs. simpl.
  eapply runs_mono; [apply destroy_tx_runs; [|done]|].
  { intros q Hq. rewrite Hq1, lookup_delete_ne by (intros <-; tauto).
    destruct (Hown q) as [z Hz]; [right; apply elem_of_app; by left|]. by rewrite Hz. }
  intros r w2 (-> & Hc2 & Hs2 & Hk2 & Hd2). apply runs_bind, runs_on_verbs. simpl.
  assert (Hcs : v_cqs w2 = {[go_cq g]} ∪ v_cqs (gd_v x)) by congruence.
  destruct (left_over _ _ _ _ _ _ Hh Hq1 Hs2 Hk2 Hd2) as [Hsub Hleft].
  eapply runs_mono; [apply v_free_cq_ok; rewrite Hcs; apply elem_of_union_l, elem_of_singleton_2; done|].
  intros r w3 (-> & Hq3 & Hfree & Hkeep). apply runs_bind. eapply runs_kfree; [exact Hmem|done|]. intros st1 Ho1.
  apply runs_bind. eapply runs_kfree; [exact Ho1|done|]. intros st2 Ho2. eapply runs_kfree; [exact Ho2|done|]. intros st3 Ho3.
  split_and!; simpl; [done| |by rewrite Hq3|rewrite Hq3].
  - rewrite Hports, list_insert_insert_eq. by apply list_insert_id.
  - destruct Hleft as [E|(Hne & (q & z & Hz) & Hd)]; [left|right].
    + split; [done|]. rewrite Hfree, Hcs by (by rewrite E). by apply take_back.
    + split_and!; [done| |done]. rewrite Hkeep, Hcs; [done|]. intros Hall. by destruct (Hall _ _ Hz).
Qed.

(** C16. The life of queue pair 1.  Creating it gives everything back on an error.
    Otherwise, after changing its state and the partition keys any number of
    times, destroying it fails only if ib_destroy_qp does, and then changes
    nothing; when it succeeds, the memory and the port are back and the queue
    pairs of others are as they were.  Of the wrapper's own objects, either all
    queue pairs and the completion queue are gone, which is so when no
    ib_modify_qp or ib_destroy_qp has failed; or a queue pair has been left
    behind, and then the completion queue, being still in use, is left as well.
    Assumed: the memory is accounted for, and the calls into the verbs layer keep
    the promises of [GsiVerbsOk] (each ends, a failing one changes nothing, numbers
    are fresh, and ib_free_cq frees a completion queue exactly if no queue pair
    uses it). *)
Theorem gsi_life a st x m D :
  owned cls m D st ->
  exists r s, create_gsi a (mkdrv st x) = Some (r, s) /\
  match r with
  | inl e => e < 0 /\ owned cls m D (d_mem s) /\ same_dev x (d_rest s)
  | inr g => forall evs, exists g' w, live_through stack evs g (gd_v (d_rest s)) = Some (inr g', w) /\
      exists r' s', mlx5_ib_gsi_destroy_qp g' (mkdrv (d_mem s) (mkgdev w (gd_ports (d_rest s)))) = Some (r', s') /\
      match r' with
      | inl e => e < 0 /\ d_mem s' = d_mem s /\ same_dev (mkgdev w (gd_ports (d_rest s))) (d_rest s') /\ ~ destroy_succeeds
      | inr _ => owned cls m D (d_mem s') /\ gd_ports (d_rest s') = gd_ports x /\
          v_qps (gd_v x) ⊆ v_qps (gd_v (d_rest s')) /\
          (v_qps (gd_v (d_rest s')) = v_qps (gd_v x) /\ v_cqs (gd_v (d_rest s')) = v_cqs (gd_v x) \/
           v_qps (gd_v (d_rest s')) <> v_qps (gd_v x) /\ v_cqs (gd_v (d_rest s')) = {[go_cq g]} ∪ v_cqs (gd_v x) /\
           ~ (modify_succeeds /\ destroy_succeeds))
      end
  end.
Proof.
  intros Ho. destruct (create_runs a st x m D Ho) as (r & s & E & Hr). exists r, s. split; [done|].
  destruct r as [e|g]; [done|]. intros evs.
  destruct (live_through_runs evs _ _ _ _ (gm_qps _ _ _ _ _ Hr)) as (r & w & El & g' & lost & -> & Hs & Hc & Hh & Hm).
  exists g', w. split; [done|]. destruct (destroy_runs x m D g s g' w lost Hr Hs Hh Hc) as (r' & s' & Ed & Hd).
  exists r', s'. split; [done|]. destruct r' as [e|[]]; [done|]. destruct Hd as (? & ? & ? & Hcase).
  split_and!; [done..|]. destruct Hcase as [Hc1|(Hne & Hc2 & Hd)]; [by left|right]. split_and!; [done..|].
  intros [Hms Hds]. apply Hd; [by apply Hm|done].
Qed.

(** A queue pair that cannot be moved to RTS is leaked: setup_qp ends without an
    error, the wrapper is as before, and the queue pair it created stays, with no
    record of it; the next call makes another. *)
Theorem gsi_setup_leaks g i w pkey w1 q w2 e w3 :
  v_query_pkey (gs_port_num (go_gsi g)) (Z.of_nat i) w = Some (inr pkey, w1) -> u16 pkey <> 0 ->
  gs_tx_qps (go_gsi g) !! i = Some None -> create_gsi_ud_qp g w1 = Some (inr q, w2) ->
  modify_to_rts stack g q (Z.of_nat i) w2 = Some (inl e, w3) ->
  setup_qp stack g i w = Some (inr g, w3) /\ v_qps w !! q = None /\ v_qps w3 = <[q := (go_cq g, go_recv_cq g)]> (v_qps w).
Proof.
  intros Eq Hp Hs Ec Em. unfold setup_qp. rewrite Eq. cbn [mbind option_bind]. rewrite (proj2 (Z.eqb_neq _ _) Hp), Hs.
  cbn [mbind option_bind]. rewrite Ec. cbn [mbind option_bind]. rewrite Em. split; [done|].
  destruct (v_query_pkey_ok (gs_port_num (go_gsi g)) (Z.of_nat i) w) as (r & w' & E & _ & H1). simplify_eq.
  destruct (modify_all_runs q (rts_requests stack (gs_port_num (go_gsi g)) (Z.of_nat i)) w2) as (r' & w' & E' & _ & H3 & _).
  unfold modify_to_rts in Em. rewrite Em in E'. simplify_eq.
  unfold create_gsi_ud_qp in Ec. edestruct v_create_qp_ok as (r & w'' & E'' & _ & H2). rewrite Ec in E''. simplify_eq.
  destruct H2 as [Hn Hw]. simpl in Hw. rewrite H3, Hw, <- H1. split; [congruence|done].
Qed.
End Life.

(** ** Examples: the verbs as a ledger of objects, where ib_modify_qp returns [code] *)

Record ledger := mkledger { lg_qps : gmap Z (Z * Z); lg_cqs : gset Z }.

Definition ledger_verbs (code : Z) : GsiVerbs ledger := {|
  v_alloc_cq := fun _ w =>
    let c := fresh (lg_cqs w ∪ list_to_set ((map_to_list (lg_qps w)).*2.*1) ∪ list_to_set ((map_to_list (lg_qps w)).*2.*2)) in
    Some (inr c, mkledger (lg_qps w) ({[c]} ∪ lg_cqs w));
  v_free_cq := fun c w => Some (inr tt, if decide (unused c (lg_qps w)) then mkledger (lg_qps w) (lg_cqs w ∖ {[c]}) else w);
  v_create_qp := fun a w => let q := fresh (dom (lg_qps w)) in
    Some (inr q, mkledger (<[q := (ha_send_cq a, ha_recv_cq a)]> (lg_qps w)) (lg_cqs w));
  v_destroy_qp := fun q w => Some (inr tt, mkledger (delete q (lg_qps w)) (lg_cqs w));
  v_modify_qp := fun _ _ _ w => Some (if code =? 0 then inr tt else inl code, w);
  v_query_pkey := fun _ _ w => Some (inr 65535, w);
  v_state := fun _ _ => IB_QPS_RTS;
|}.

Definition ledger_ok (code : Z) : @GsiVerbsOk ledger (ledger_verbs code).
Proof.
  refine (Build_GsiVerbsOk _ (ledger_verbs code) lg_qps lg_cqs _ _ _ _ _ _).
  - intros n w. do 2 eexists. split; [done|]. split; [done|]. set (A := lg_cqs w ∪ _ ∪ _).
    pose proof (is_fresh A) as Hf. split_and!; [set_solver| |done]. intros q p Hq%elem_of_map_to_list.
    assert (Hp : p ∈ (map_to_list (lg_qps w)).*2) by (apply list_elem_of_fmap; by exists (q, p)).
    unfold A in *. rewrite !not_elem_of_union, !elem_of_list_to_set in Hf. destruct Hf as [[_ H1] H2].
    split; intros E; [apply H1|apply H2]; apply list_elem_of_fmap; by exists p.
  - intros c w _. do 2 eexists. split; [done|]. split; [done|]. by case_decide.
  - intros a w. do 2 eexists. split; [done|]. split; [done|]. split; [|done]. apply not_elem_of_dom, is_fresh.
  - intros q w _. by do 2 eexists.
  - intros q a mask w. by do 2 eexists.
  - intros p i w. by do 2 eexists.
Defined.

Definition ex_hw : hw_attr := mkhwattr IB_QPT_GSI 3 4 (mkcap 2 4 2 2 0) true 0 1.
Definition ex_stack : ib_qp_attr :=
  mkqattr IB_QPS_RESET IB_QPS_RESET 0 IB_MIG_MIGRATED 0 0 0 0 0 zero_ah zero_ah 0 0 0 0 0 0 0 0 0 0 0 0 0 0.
Definition ex_gdev : gdev ledger := mkgdev (mkledger {[ 7 := (3, 4) ]} {[ 3; 4 ]}) [None; None].
Definition ex_events : list gsi_event := [Modify ex_stack IB_QP_STATE; PkeyChange].
Definition ex_creation : option ((Z + gsi_obj) * drv (gdev ledger)) :=
  @create_gsi ledger (ledger_verbs 0) plenty 512 256 true 2 ex_hw (mkdrv idle_mem ex_gdev).
Definition made_it (r : option ((Z + gsi_obj) * drv (gdev ledger))) : bool :=
  match r with Some (inr _, _) => true | _ => false end.

Lemma gsi_life_witness :
  exists g s g' w s', ex_creation = Some (inr g, s) /\
    @live_through ledger (ledger_verbs 0) ex_stack ex_events g (gd_v (d_rest s)) = Some (inr g', w) /\
    @mlx5_ib_gsi_destroy_qp ledger (ledger_verbs 0) g' (mkdrv (d_mem s) (mkgdev w (gd_ports (d_rest s)))) = Some (inr tt, s') /\
    owned 64 ∅ ∅ (d_mem s') /\ lg_cqs (gd_v (d_rest s')) = {[ 3; 4 ]} /\ lg_qps (gd_v (d_rest s')) = {[ 7 := (3, 4) ]}.
Proof.
  assert (Hmade : made_it ex_creation = true) by (vm_compute; reflexivity).
  destruct (@gsi_life ledger (ledger_verbs 0) (ledger_ok 0) plenty 64 512 256 true 2 ex_stack ex_hw idle_mem ex_gdev ∅ ∅ idle_owned)
    as (r & s & E & Hr).
  fold ex_creation in E. rewrite E in Hmade. destruct r as [e|g]; [done|].
  destruct (Hr ex_events) as (g' & w & El & r' & s' & Ed & Hd).
  exists g, s, g', w, s'. destruct r' as [e|[]].
  - destruct Hd as (_ & _ & _ & Hd). destruct Hd. by intros q w0 r w1 [= <- <-].
  - destruct Hd as (Ho & _ & _ & [[Hq Hc]|(_ & _ & Hn)]); [by split_and!|].
    destruct Hn. split; [by intros q a mask w0 r w1 [= <- <-]|by intros q w0 r w1 [= <- <-]].
Defined.

Definition ex_gobj : gsi_obj := mkgobj 0 1 2 3 4 (mkcap 2 4 2 2 0) (new_gsi 8 1 2 true [None; None]).
Definition ex_ledger : ledger := mkledger {[ 7 := (3, 4); 8 := (3, 4) ]} {[ 3; 4 ]}.
Definition ex_leaked : ledger := mkledger (<[ fresh (dom (lg_qps ex_ledger)) := (3, 4) ]> (lg_qps ex_ledger)) (lg_cqs ex_ledger).

Lemma gsi_setup_leaks_witness :
  @setup_qp ledger (ledger_verbs (- EIO)) ex_stack ex_gobj 0 ex_ledger = Some (inr ex_gobj, ex_leaked) /\
  lg_qps ex_ledger !! fresh (dom (lg_qps ex_ledger)) = None /\
  lg_qps ex_leaked = <[ fresh (dom (lg_qps ex_ledger)) := (3, 4) ]> (lg_qps ex_ledger).
Proof.
  apply (@gsi_setup_leaks ledger (ledger_verbs (- EIO)) (ledger_ok (- EIO)) ex_stack ex_gobj 0 ex_ledger 65535 ex_ledger
           (fresh (dom (lg_qps ex_ledger))) ex_leaked (- EIO)); done.
Defined.
