(* ===== verification/QpSystem.v ===== *)
(** * QpSystem: a send queue between posting and polling

    The queue pair, its buffer and the WQEs the device has not completed yet,
    as a transition system: a call of post_send adds WQEs, a completion entry
    for one of them retires it and everything posted before it.  The invariant
    ties the ring, the tracking arrays and the counters of the driver to the
    list of outstanding WQEs. *)

From S2P Require Import Prelude FragBuf Strides KHeap FragAlloc QpTypes WqeSeg SqRing PostSend PostRing PostSendThm RecvQueue Srq Cqe CqRing CqResize CqPoll.

(** An outstanding WQE: its producer counter, blocks, request identifier,
    request number and bytes. *)
Record owqe := mkout { o_post : Z; o_blocks : Z; o_id : Z; o_head : Z; o_img : list Z }.

Definition blocks_of (l : list owqe) : Z := foldr (fun x n => o_blocks x + n) 0 l.

(** The tracking arrays lead from counter [p] through [l] to counter [e]. *)
Fixpoint sq_chain (sq : mlx5_ib_wq) (p : Z) (l : list owqe) (e : Z) : Prop :=
  match l with
  | [] => p = e
  | x :: r =>
      o_post x = p /\ 1 <= o_blocks x /\
      (exists op, track sq (p mod wqe_cnt sq) = (o_id x, o_head x, u16 (p + o_blocks x), op, 0)) /\
      sq_chain sq (u16 (p + o_blocks x)) r e
  end.

(** Requests are numbered from [h] on. *)
Fixpoint numbered (h : Z) (l : list owqe) : Prop :=
  match l with
  | [] => True
  | x :: r => o_head x = u32 h /\ numbered (h + 1) r
  end.

(** The ring holds the bytes of a WQE. *)
Definition held (sq : mlx5_ib_wq) (f : Z -> Z) (x : owqe) : Prop :=
  Z.of_nat (length (o_img x)) <= 64 * o_blocks x /\
  ring_bytes_at sq f (64 * o_post x) (length (o_img x)) = o_img x.

Record sq_inv (sq : mlx5_ib_wq) (m : frag_mem) (l : list owqe) : Prop := {
  iv_ready : sq_ready sq;
  iv_ring : ring_in sq m;
  iv_poll : 0 <= last_poll sq < 65536;
  iv_chain : sq_chain sq (last_poll sq) l (cur_post sq);
  iv_blocks : blocks_of l <= wqe_cnt sq;
  iv_tail : tail sq = u32 (head sq - Z.of_nat (length l));
  iv_num : numbered (head sq - Z.of_nat (length l)) l;
  iv_held : Forall (held sq (fm_byte m)) l;
}.

Lemma blocks_nonneg sq p l e : sq_chain sq p l e -> 0 <= blocks_of l.
Proof.
  revert p. induction l as [|x r IH]; intros p; simpl; [lia|]. intros (_ & H & _ & Hc).
  apply IH in Hc. unfold blocks_of in *. lia.
Qed.

Lemma blocks_app l1 l2 : blocks_of (l1 ++ l2) = blocks_of l1 + blocks_of l2.
Proof. induction l1 as [|x r IH]; simpl; [done|]. unfold blocks_of in *. lia. Qed.

Section Dist.
Context (sq : mlx5_ib_wq) (Hwf : sq_wf sq).

(** Counters wrap at a multiple of the ring size. *)
Lemma post_count_mod x : u16 x mod wqe_cnt sq = x mod wqe_cnt sq.
Proof. destruct Hwf as (Hf & _ & H15 & -> & _). destruct Hf as (_ & Hz & _). apply u16_mod. lia. Qed.

(** The end of the chain is as many blocks ahead as the WQEs have. *)
Lemma chain_end p l e : sq_chain sq p l e -> e mod wqe_cnt sq = (p + blocks_of l) mod wqe_cnt sq.
Proof.
  revert p. induction l as [|x r IH]; intros p; cbn [sq_chain].
  - intros ->. f_equal. simpl. lia.
  - intros (_ & _ & _ & Hc). rewrite (IH _ Hc), <- Zplus_mod_idemp_l, post_count_mod, Zplus_mod_idemp_l.
    f_equal. simpl. unfold blocks_of. lia.
Qed.

(** Seen from the end, the first WQE is at the far side of the ring. *)
Lemma chain_back p x r e i :
  sq_chain sq p (x :: r) e -> blocks_of (x :: r) <= wqe_cnt sq -> 0 <= i < 64 * o_blocks x ->
  (64 * p + i - 64 * e) mod (64 * wqe_cnt sq) = 64 * (wqe_cnt sq - blocks_of (x :: r)) + i.
Proof.
  intros Hc Hb Hi. pose proof (wqe_cnt_range sq Hwf) as Hn.
  pose proof (chain_end _ _ _ Hc) as He. pose proof Hc as (_ & Hx & _ & Hc').
  pose proof (blocks_nonneg _ _ _ _ Hc'). set (b := blocks_of (x :: r)) in *.
  assert (Hbx : o_blocks x <= b) by (unfold b; simpl; unfold blocks_of in *; lia).
  pose proof (Z.div_mod e (wqe_cnt sq) ltac:(lia)). pose proof (Z.div_mod (p + b) (wqe_cnt sq) ltac:(lia)).
  symmetry. apply Z.mod_unique with ((p + b) / wqe_cnt sq - e / wqe_cnt sq - 1); nia.
Qed.
End Dist.

(** Writing [n] blocks behind the chain leaves it alone. *)
Lemma sq_chain_frame sq sq' n l : forall p e,
  sq_wf sq -> wqe_cnt sq' = wqe_cnt sq -> blocks_of l + n <= wqe_cnt sq ->
  (forall i, 0 <= i < wqe_cnt sq -> n <= (i - e) mod wqe_cnt sq -> track sq' i = track sq i) ->
  sq_chain sq p l e -> 0 <= n -> sq_chain sq' p l e.
Proof.
  induction l as [|x r IH]; intros p e Hwf Hc Hb Ht Hch Hn; [done|].
  pose proof Hch as (Hp & Hx & [op Htr] & Hch'). pose proof (wqe_cnt_range sq Hwf) as Hw.
  pose proof (chain_back sq Hwf _ _ _ _ 0 Hch ltac:(lia) ltac:(lia)) as Hback.
  assert (Hrb : blocks_of (x :: r) = o_blocks x + blocks_of r) by done.
  replace (64 * p + 0 - 64 * e) with (64 * (p - e)) in Hback by lia.
  rewrite Z.mul_mod_distr_l in Hback by lia.
  cbn [sq_chain]. split; [done|]. split; [done|]. split.
  - exists op. rewrite Hc, Ht; [done|apply Z.mod_pos_bound; lia|]. rewrite Zminus_mod_idemp_l. lia.
  - apply IH; auto. lia.
Qed.

Lemma held_frame sq f f' n l : forall p e,
  sq_wf sq -> blocks_of l + n <= wqe_cnt sq -> 0 <= n ->
  (forall k, ~ in_ring sq k \/ 64 * n <= dist sq (64 * e) k -> f' k = f k) ->
  sq_chain sq p l e -> Forall (held sq f) l -> Forall (held sq f') l.
Proof.
  induction l as [|x r IH]; intros p e Hwf Hb Hn Hf Hch Hh; [done|].
  apply Forall_cons in Hh as [[Hlen Hx] Hh]. pose proof Hch as (Hp & Hx1 & _ & Hch').
  assert (Hrb : blocks_of (x :: r) = o_blocks x + blocks_of r) by done.
  pose proof (blocks_nonneg _ _ _ _ Hch'). pose proof (wqe_cnt_range sq Hwf) as Hw.
  constructor; [|eapply IH; eauto; lia]. split; [done|]. rewrite <- Hx at 2.
  unfold ring_bytes_at. apply list_fmap_ext. intros i y [-> Hi]%lookup_seq. apply Hf. right.
  assert (Hi64 : 0 <= Z.of_nat i < 64 * o_blocks x) by lia.
  pose proof (chain_back sq Hwf _ _ _ _ (Z.of_nat i) Hch ltac:(lia) Hi64) as Hback.
  unfold dist. replace (ring_base sq + (64 * o_post x + Z.of_nat (0 + i)) mod ring_bytes sq - ring_base sq - 64 * e)
    with ((64 * p + Z.of_nat i) mod ring_bytes sq - 64 * e) by (rewrite Hp; simpl; lia).
  rewrite Zminus_mod_idemp_l. unfold ring_bytes. rewrite Hback. lia.
Qed.

(** The WQEs a call adds, from counter [post] and request number [h]. *)
Fixpoint outs_of (q : mlx5_ib_qp) (post nf h : Z) (l : list (ib_send_wr * list Z)) : list owqe :=
  match l with
  | [] => []
  | (wr, body) :: r =>
      mkout post (wqe_blocks body) (wr_id wr) (u32 h) (wqe_image (at_post q post nf) wr body)
      :: outs_of q (u16 (post + wqe_blocks body)) 0 (h + 1) r
  end.

Lemma outs_blocks q post nf h l : blocks_of (outs_of q post nf h l) = total_blocks (snd <$> l).
Proof.
  revert post nf h. induction l as [|[wr body] r IH]; intros; [done|]. cbn [outs_of].
  change (wqe_blocks body + blocks_of (outs_of q (u16 (post + wqe_blocks body)) 0 (h + 1) r)
          = wqe_blocks body + total_blocks (snd <$> r)). by rewrite IH.
Qed.

Lemma outs_length q post nf h l : length (outs_of q post nf h l) = length l.
Proof. revert post nf h. induction l as [|[wr body] r IH]; intros; simpl; [done|]. by rewrite IH. Qed.

Lemma outs_numbered q post nf h l : numbered h (outs_of q post nf h l).
Proof. revert post nf h. induction l as [|[wr body] r IH]; intros; simpl; auto. Qed.

Lemma outs_chain q sq post nf h l :
  0 <= post < 65536 -> tracked sq post h l ->
  sq_chain sq post (outs_of q post nf h l) (u16 (post + total_blocks (snd <$> l))).
Proof.
  revert post nf h. induction l as [|[wr body] r IH]; intros post nf h Hp.
  { intros _. simpl. by rewrite Z.add_0_r, u16_small. }
  cbn [tracked outs_of sq_chain o_post o_blocks o_id o_head]. intros [Ht Hr].
  split; [done|]. split; [apply wqe_blocks_pos|]. split; [eauto|].
  replace (u16 (post + total_blocks (snd <$> (wr, body) :: r)))
    with (u16 (u16 (post + wqe_blocks body) + total_blocks (snd <$> r))).
  - apply IH; [apply u16_range|done].
  - unfold u16. rewrite Zplus_mod_idemp_l. f_equal. rewrite <- Z.add_assoc. done.
Qed.

Lemma outs_held q f post nf h l :
  Forall (fun x => length (ex x.1) = 4%nat) l -> ring_holds q f post nf 0 l ->
  Forall (held (qp_sq q) f) (outs_of q post nf h l).
Proof.
  revert post nf h. induction l as [|[wr body] r IH]; intros post nf h Hex; [done|].
  apply Forall_cons in Hex as [He Hex]. cbn [ring_holds outs_of]. intros [Hi Hr].
  constructor; [|by apply IH]. split; [|done]. cbn [o_img o_blocks].
  pose proof (length_image (at_post q post nf) wr body He). unfold wqe_blocks, blocks. dlia.
Qed.

Lemma sq_chain_app sq p l1 m l2 e :
  sq_chain sq p l1 m -> sq_chain sq m l2 e -> sq_chain sq p (l1 ++ l2) e.
Proof.
  revert p. induction l1 as [|x r IH]; intros p; simpl; [by intros ->|].
  intros (? & ? & ? & ?) ?. auto.
Qed.

Lemma numbered_app h l1 l2 :
  numbered h l1 -> numbered (h + Z.of_nat (length l1)) l2 -> numbered h (l1 ++ l2).
Proof.
  revert h. induction l1 as [|x r IH]; intros h; simpl; [by rewrite Z.add_0_r|].
  intros [? ?] H2. split; [done|]. apply IH; [done|].
  replace (h + 1 + Z.of_nat (length r)) with (h + Z.of_nat (S (length r))) by lia. done.
Qed.

Lemma numbered_u32 h h' l : u32 h = u32 h' -> numbered h l -> numbered h' l.
Proof.
  revert h h'. induction l as [|x r IH]; intros h h' E; simpl; [done|].
  intros [-> H]. split; [done|]. eapply IH; [|exact H]. by rewrite <- (u32_add h), <- (u32_add h'), E.
Qed.

(** ** Completions *)

Lemma chain_suffix sq p l e j x :
  sq_chain sq p l e -> l !! j = Some x -> sq_chain sq (o_post x) (drop j l) e.
Proof.
  revert p j. induction l as [|y r IH]; intros p [|j] Hc Hx; try done.
  - injection Hx as ->. pose proof Hc as (-> & _). exact Hc.
  - destruct Hc as (_ & _ & _ & Hc). by apply (IH (u16 (p + o_blocks y))).
Qed.

Lemma blocks_drop sq p l e j : sq_chain sq p l e -> blocks_of (drop j l) <= blocks_of l.
Proof.
  revert p j. induction l as [|y r IH]; intros p [|j] Hc; [done..|].
  destruct Hc as (_ & H & _ & Hc). specialize (IH _ j Hc).
  change (blocks_of (drop (S j) (y :: r))) with (blocks_of (drop j r)).
  change (blocks_of (y :: r)) with (o_blocks y + blocks_of r). lia.
Qed.

(** Different outstanding WQEs start at different indices. *)
Lemma chain_index_ne sq (Hwf : sq_wf sq) p y r e j x :
  sq_chain sq p (y :: r) e -> blocks_of (y :: r) <= wqe_cnt sq -> r !! j = Some x ->
  p mod wqe_cnt sq <> o_post x mod wqe_cnt sq.
Proof.
  intros Hc Hb Hx E. pose proof Hc as (_ & Hy & _ & Hc'). pose proof (wqe_cnt_range sq Hwf).
  pose proof (chain_suffix _ _ _ _ _ _ Hc' Hx) as Hs. pose proof (blocks_drop _ _ _ _ j Hc').
  assert (Hrb : blocks_of (y :: r) = o_blocks y + blocks_of r) by done.
  destruct (drop j r) as [|x' r'] eqn:Ed.
  { apply lookup_lt_Some in Hx. apply (f_equal length) in Ed. rewrite length_drop in Ed. simpl in Ed. lia. }
  pose proof Hs as (_ & Hx1 & _ & Hs'). pose proof (blocks_nonneg _ _ _ _ Hs').
  assert (Hrb' : blocks_of (x' :: r') = o_blocks x' + blocks_of r') by done.
  pose proof (chain_back sq Hwf _ _ _ _ 0 Hc ltac:(lia) ltac:(lia)) as B1.
  pose proof (chain_back sq Hwf _ _ _ _ 0 Hs ltac:(lia) ltac:(lia)) as B2.
  replace (64 * p + 0 - 64 * e) with (64 * (p - e)) in B1 by lia.
  replace (64 * o_post x + 0 - 64 * e) with (64 * (o_post x - e)) in B2 by lia.
  rewrite Z.mul_mod_distr_l in B1, B2 by lia.
  rewrite <- Zminus_mod_idemp_l, E, Zminus_mod_idemp_l in B1. lia.
Qed.

(** The chain walk finds an outstanding WQE. *)
Lemma handle_atomics_ok sq (Hwf : sq_wf sq) l : forall p e j x fuel,
  sq_chain sq p l e -> blocks_of l <= wqe_cnt sq -> 0 <= p < 65536 -> l !! j = Some x -> (j < fuel)%nat ->
  handle_atomics fuel sq p (o_post x mod wqe_cnt sq) = Some (u16 (o_post x + o_blocks x)).
Proof.
  induction l as [|y r IH]; intros p e j x [|fuel] Hc Hb Hp Hx Hfu; try done; try lia.
  pose proof Hc as (Hpy & Hy & [op Htr] & Hc'). cbn [handle_atomics].
  destruct Hwf as (Hf & Hls & H15 & Hcnt & Hfr) eqn:Hwf'. clear Hwf'.
  assert (Hmask : p .& (wqe_cnt sq - 1) = p mod wqe_cnt sq).
  { rewrite Hcnt. apply land_mask. destruct Hf as (_ & Hz & _). lia. }
  rewrite Hmask. injection Htr as _ _ Hnext _ _. rewrite Hnext. destruct j as [|j].
  - injection Hx as ->. rewrite Hpy, Z.eqb_refl. done.
  - simpl in Hx. pose proof (chain_index_ne sq Hwf _ _ _ _ _ _ Hc Hb Hx) as Hne.
    apply Z.eqb_neq in Hne. rewrite Hne. apply (IH _ e j); auto; [|apply u16_range|lia].
    change (blocks_of (y :: r)) with (o_blocks y + blocks_of r) in Hb. lia.
Qed.

Lemma numbered_lookup h l j x : numbered h l -> l !! j = Some x -> o_head x = u32 (h + Z.of_nat j).
Proof.
  revert h j. induction l as [|y r IH]; intros h [|j] Hn Hx; try done.
  - injection Hx as ->. destruct Hn as [-> _]. f_equal. lia.
  - destruct Hn as [_ Hn]. rewrite (IH _ _ Hn Hx). f_equal. lia.
Qed.

Lemma numbered_drop h l j : numbered h l -> (j <= length l)%nat -> numbered (h + Z.of_nat j) (drop j l).
Proof.
  revert h j. induction l as [|y r IH]; intros h [|j] Hn Hj; simpl in *; try done; try lia.
  - by rewrite Z.add_0_r.
  - destruct Hn as [_ Hn]. replace (h + Z.of_nat (S j)) with (h + 1 + Z.of_nat j) by lia. apply IH; [done|lia].
Qed.

Lemma chain_drop sq p l e j x :
  sq_chain sq p l e -> l !! j = Some x -> sq_chain sq (u16 (o_post x + o_blocks x)) (drop (S j) l) e.
Proof.
  intros Hc Hx. pose proof (chain_suffix _ _ _ _ _ _ Hc Hx) as Hs.
  rewrite (drop_S _ _ _ Hx) in Hs. destruct Hs as (_ & _ & _ & Hs). exact Hs.
Qed.

Lemma chain_ext sq sq' p l e :
  wqe_cnt sq' = wqe_cnt sq -> (forall i, track sq' i = track sq i) -> sq_chain sq p l e -> sq_chain sq' p l e.
Proof.
  intros Hc Ht. revert p. induction l as [|x r IH]; intros p; [done|]. cbn [sq_chain]. rewrite Hc, Ht.
  intros (? & ? & ? & ?). auto.
Qed.

(** ** Preservation *)

Lemma tracked_ex dev host q l :
  Forall (fun '(wr, body) => plain_wr dev host q wr body) l -> Forall (fun x => length (ex x.1) = 4%nat) l.
Proof.
  intros H. eapply Forall_impl; [exact H|]. intros [wr body] (sges & tb & Hp). simpl.
  destruct Hp as (_ & _ & _ & _ & _ & He & _). exact He.
Qed.

(** A call that is accepted adds its WQEs behind the outstanding ones. *)
Lemma sq_inv_post dev host q m l out q' m' :
  sq_inv (qp_sq q) m out -> Forall (fun '(wr, body) => plain_wr dev host q wr body) l ->
  blocks_of out + total_blocks (snd <$> l) <= wqe_cnt (qp_sq q) ->
  accepted q m l q' m' ->
  sq_inv (qp_sq q') m' (out ++ outs_of q (cur_post (qp_sq q)) (next_fence q) (head (qp_sq q)) l).
Proof.
  intros [I1 I2 I3 I4 I5 I6 I7 I8] Hpl Hb [A1 A2 A3 [A4 A4'] A5 A6 A7 A8 (Hf & Hw & _ & Hlp) _ _ _].
  pose proof I1 as (Hwf & Hcp & _). pose proof (total_blocks_nonneg (snd <$> l)) as Ht0.
  rewrite Z.add_0_r in A4. set (sq := qp_sq q) in *. set (new := outs_of q _ _ _ l).
  assert (Hlen : Z.of_nat (length (out ++ new)) = Z.of_nat (length out) + Z.of_nat (length l)).
  { unfold new. rewrite length_app, outs_length. lia. }
  assert (Hu : u32 (head (qp_sq q') - Z.of_nat (length (out ++ new))) = u32 (head sq - Z.of_nat (length out))).
  { rewrite A6, u32_sub, Hlen. f_equal. lia. }
  assert (Hheld : forall f x, held (qp_sq q') f x <-> held sq f x).
  { intros f x. unfold held, ring_bytes_at, ring_base, ring_bytes. by rewrite Hf, Hw. }
  split.
  - exact A8.
  - unfold ring_in, ring_base, ring_bytes in *. rewrite Hf, Hw, A1. exact I2.
  - by rewrite Hlp.
  - rewrite Hlp, A5. eapply sq_chain_app; [|by apply outs_chain].
    eapply (sq_chain_frame sq); eauto.
  - rewrite blocks_app. unfold new. rewrite outs_blocks, Hw. lia.
  - by rewrite A7, Hu.
  - apply (numbered_u32 (head sq - Z.of_nat (length out))); [done|]. apply numbered_app; [done|].
    replace (head sq - Z.of_nat (length out) + Z.of_nat (length out)) with (head sq) by lia.
    apply outs_numbered.
  - apply Forall_app; split.
    + apply (Forall_impl (held sq (fm_byte m'))); [|intros; by apply Hheld].
      eapply (held_frame sq); eauto.
    + apply (Forall_impl (held sq (fm_byte m'))); [|intros; by apply Hheld].
      apply outs_held; [by eapply tracked_ex|done].
Qed.

(** A completion retires the WQE it names and all older ones. *)
Lemma sq_inv_comp sq m out j x :
  sq_inv sq m out -> out !! j = Some x ->
  exists idx sq', comp_req sq (o_post x) = Some (idx, o_id x, IB_WC_SUCCESS, sq') /\
    sq_inv sq' m (drop (S j) out).
Proof.
  intros [I1 I2 I3 I4 I5 I6 I7 I8] Hx. pose proof I1 as (Hwf & Hcp & Hed).
  pose proof (wqe_cnt_range sq Hwf) as Hc. pose proof (lookup_lt_Some _ _ _ Hx) as Hj.
  assert (Hmask : o_post x .& (wqe_cnt sq - 1) = o_post x mod wqe_cnt sq).
  { destruct Hwf as (Hf & _ & H15 & -> & _). destruct Hf as (_ & Hz & _). apply land_mask. lia. }
  assert (Hlen : Z.of_nat (length out) <= blocks_of out).
  { clear -I4. revert I4. generalize (last_poll sq). induction out as [|y r IH]; intros p; [done|].
    intros (_ & Hy & _ & Hr%IH). change (blocks_of (y :: r)) with (o_blocks y + blocks_of r). simpl length. lia. }
  unfold comp_req. rewrite Hmask.
  rewrite (handle_atomics_ok sq Hwf out _ _ j x _ I4 I5 I3 Hx) by lia. cbn [mbind option_bind].
  pose proof (chain_suffix _ _ _ _ _ _ I4 Hx) as Hs. rewrite (drop_S _ _ _ Hx) in Hs.
  destruct Hs as (_ & _ & [op Htr] & _). injection Htr as Hid Hhd Hnx _ Hda. rewrite Hid, Hda, Hhd.
  eexists _, _. split; [done|].
  assert (Hl : Z.of_nat (length (drop (S j) out)) = Z.of_nat (length out) - Z.of_nat (S j)).
  { rewrite length_drop. lia. }
  split; cbn [set_tail_poll head tail last_poll cur_post wqe_cnt].
  - split; [done|]. split; done.
  - exact I2.
  - apply u16_range.
  - apply (chain_ext sq); [done|done|]. by eapply chain_drop.
  - pose proof (blocks_drop _ _ _ _ (S j) I4). lia.
  - rewrite (numbered_lookup _ _ _ _ I7 Hx), u32_add. f_equal. lia.
  - rewrite Hl. replace (head sq - (Z.of_nat (length out) - Z.of_nat (S j)))
      with (head sq - Z.of_nat (length out) + Z.of_nat (S j)) by lia. apply numbered_drop; [done|lia].
  - apply Forall_drop. exact I8.
Qed.

(** ** The transition system *)

Record sys := mksys { y_qp : mlx5_ib_qp; y_mem : frag_mem; y_out : list owqe }.

Section System.
Context (dev : mlx5_ib_dev) (host : Z -> Z) (gsi : mlx5_ib_qp -> list ib_send_wr -> Z * option nat).
Context (mrs : Z -> mlx5_ib_mr).
(** The blocks of the largest WQE, as calc_sq_size reserves them. *)
Context (B : Z).

(** Requests a user of the verbs hands in: each well formed for the queue pair and
    not larger than a WQE.  Nothing is said about how many there are. *)
Definition may_call (s : sys) (l : list (ib_send_wr * list Z)) : Prop :=
  Forall (fun '(wr, body) => plain_wr dev host (y_qp s) wr body) l /\
  Forall (fun x => wqe_blocks x.2 <= B) l /\ qp_type (y_qp s) <> IB_QPT_GSI.

(** A request that is refused for what it is. *)
Definition malformed (q : mlx5_ib_qp) (wr : ib_send_wr) : Prop :=
  mlx5_ib_opcode_size <= u32 (opcode wr) \/ max_gs (qp_sq q) < num_sge wr.

(** Requests for which there is room in state [s]. *)
Definition may_post (s : sys) (l : list (ib_send_wr * list Z)) : Prop :=
  l <> [] /\ Forall (fun '(wr, body) => plain_wr dev host (y_qp s) wr body) l /\
  Forall (fun x => wqe_blocks x.2 <= B) l /\ qp_type (y_qp s) <> IB_QPT_GSI /\
  Z.of_nat (length (y_out s)) + Z.of_nat (length l) <= max_post (qp_sq (y_qp s)).

(** A call ends at the first malformed request, if there is one, or where the code
    stops for want of room; [bad] is the request it stopped at. *)
Inductive step : sys -> sys -> Prop :=
| StepPost s l rest e bad st :
    may_call s l -> rest = [] \/ (exists wr r, rest = wr :: r /\ malformed (y_qp s) wr) -> (fst <$> l) ++ rest <> [] ->
    mlx5_ib_post_send dev host gsi (y_qp s) (y_mem s) mrs ((fst <$> l) ++ rest) = Some (e, bad, st) ->
    step s (mksys (p_qp st) (p_mem st)
      (y_out s ++ outs_of (y_qp s) (cur_post (qp_sq (y_qp s))) (next_fence (y_qp s))
                          (head (qp_sq (y_qp s))) (take (default (length l) bad) l)))
| StepComp s j x idx id status sq :
    y_out s !! j = Some x ->
    comp_req (qp_sq (y_qp s)) (o_post x) = Some (idx, id, status, sq) ->
    step s (mksys (set_sq (y_qp s) sq) (y_mem s) (drop (S j) (y_out s))).

Definition sys_ok (s : sys) : Prop :=
  sq_inv (qp_sq (y_qp s)) (y_mem s) (y_out s) /\ Forall (fun x => o_blocks x <= B) (y_out s) /\
  0 <= max_post (qp_sq (y_qp s)) < 2 ^ 31 /\ max_post (qp_sq (y_qp s)) * B <= wqe_cnt (qp_sq (y_qp s)) /\
  Z.of_nat (length (y_out s)) <= max_post (qp_sq (y_qp s)).

Lemma blocks_le (l : list owqe) : Forall (fun x => o_blocks x <= B) l -> blocks_of l <= Z.of_nat (length l) * B.
Proof.
  induction l as [|x r IH]; intros H; [simpl; lia|]. apply Forall_cons in H as [Hx Hr]. apply IH in Hr.
  change (blocks_of (x :: r)) with (o_blocks x + blocks_of r). simpl length. lia.
Qed.

Lemma outs_le q post nf h l :
  Forall (fun x => wqe_blocks x.2 <= B) l -> Forall (fun x => o_blocks x <= B) (outs_of q post nf h l).
Proof.
  revert post nf h. induction l as [|[wr body] r IH]; intros post nf h H; [done|].
  apply Forall_cons in H as [Hx Hr]. cbn [outs_of]. constructor; auto.
Qed.

Lemma may_post_room s l :
  sys_ok s -> may_post s l -> blocks_of (y_out s) + total_blocks (snd <$> l) <= wqe_cnt (qp_sq (y_qp s)).
Proof.
  intros (Hi & Hout & Hmp & HB & _) (Hne & _ & Hl & _ & Hcap).
  pose proof (blocks_le _ Hout). pose proof (blocks_le _ (outs_le (y_qp s) 0 0 0 l Hl)) as Hn.
  rewrite outs_blocks, outs_length in Hn.
  assert (0 <= B).
  { destruct l as [|x l]; [done|]. apply Forall_cons in Hl as [Hx _]. pose proof (wqe_blocks_pos x.2). lia. }
  nia.
Qed.

(** Posting what may be posted is accepted. *)
Lemma sys_post s l :
  internal_error dev = false -> sys_ok s -> may_post s l ->
  exists st, mlx5_ib_post_send dev host gsi (y_qp s) (y_mem s) mrs (fst <$> l) = Some (0, None, st) /\
    accepted (y_qp s) (y_mem s) l (p_qp st) (p_mem st).
Proof.
  intros Hie Hok Hmay. pose proof (may_post_room _ _ Hok Hmay) as Hroom.
  destruct Hok as (Hi & _ & Hmp & _ & Hlen). destruct Hmay as (Hne & Hpl & _ & Hg & Hcap).
  pose proof Hi as [I1 I2 _ I4 _ I6 _ _]. pose proof (blocks_nonneg _ _ _ _ I4).
  assert (Hu : u32 (head (qp_sq (y_qp s)) - tail (qp_sq (y_qp s))) = Z.of_nat (length (y_out s))).
  { rewrite I6. apply u32_sub_cancel. lia. }
  rewrite post_send_unfold by done.
  destruct (loop_accepted dev host (y_qp s) (y_mem s) mrs l) as (s1 & E & Hc & Ht); auto; [lia..|].
  rewrite E; simpl.
  destruct (doorbell_accepted dev host (y_qp s) (y_mem s) mrs l s1) as (s' & -> & Hacc); auto; [apply I1|].
  by exists s'.
Qed.

(** A call that is accepted as a whole is a step. *)
Lemma step_posted s l st :
  may_post s l -> mlx5_ib_post_send dev host gsi (y_qp s) (y_mem s) mrs (fst <$> l) = Some (0, None, st) ->
  step s (mksys (p_qp st) (p_mem st) (y_out s ++ outs_of (y_qp s) (cur_post (qp_sq (y_qp s))) (next_fence (y_qp s))
                                                         (head (qp_sq (y_qp s))) l)).
Proof.
  intros (Hne & H1 & H2 & H3 & _) E. pose proof (StepPost s l [] 0 None st (conj H1 (conj H2 H3)) (or_introl eq_refl)) as H.
  simpl default in H. rewrite app_nil_r, firstn_all in H. apply H; [|done]. by destruct l.
Qed.

(** The free places of the queue. *)
Definition room (s : sys) : nat := Z.to_nat (max_post (qp_sq (y_qp s)) - Z.of_nat (length (y_out s))).

Lemma may_call_take s l k : may_call s l -> may_call s (take k l).
Proof. intros (H1 & H2 & H3). split_and!; [by apply Forall_take..|done]. Qed.

Lemma may_call_post s l : sys_ok s -> may_call s l -> (length l <= room s)%nat -> l <> [] -> may_post s l.
Proof. intros (_ & _ & _ & _ & Hlen) (H1 & H2 & H3) Hr Hne. unfold room in Hr. split_and!; auto. lia. Qed.

Lemma sys_used s : sys_ok s -> u32 (head (qp_sq (y_qp s)) - tail (qp_sq (y_qp s))) = Z.of_nat (length (y_out s)).
Proof. intros (Hi & _ & Hmp & _ & Hlen). rewrite (iv_tail _ _ _ Hi). apply u32_sub_cancel. lia. Qed.

Lemma stops_somewhere q n wr :
  malformed q wr \/ max_post (qp_sq q) <= u32 (head (qp_sq q) - tail (qp_sq q)) + Z.of_nat n -> exists e, refused q n wr = Some e.
Proof.
  unfold malformed, refused. intros H. destruct (Z.leb_spec mlx5_ib_opcode_size (u32 (opcode wr))); [eauto|].
  destruct (Z.ltb_spec (max_gs (qp_sq q)) (num_sge wr)); [eauto|]. destruct (Z.leb_spec (max_post (qp_sq q)) (u32 (head (qp_sq q) - tail (qp_sq q)) + Z.of_nat n)); [eauto|]. lia.
Qed.

(** Whatever is handed in, the code takes the requests for which there is room. *)
Lemma sys_call s l rest :
  internal_error dev = false -> sys_ok s -> may_call s l ->
  rest = [] \/ (exists wr r, rest = wr :: r /\ malformed (y_qp s) wr) -> (fst <$> l) ++ rest <> [] ->
  let k := Nat.min (length l) (room s) in
  exists e bad st, mlx5_ib_post_send dev host gsi (y_qp s) (y_mem s) mrs ((fst <$> l) ++ rest) = Some (e, bad, st) /\
    default (length l) bad = k /\
    if decide (take k l = []) then p_qp st = y_qp s /\ p_mem st = y_mem s
    else accepted (y_qp s) (y_mem s) (take k l) (p_qp st) (p_mem st).
Proof.
  intros Hie Hok Hmay Hrest Hne k. pose proof (may_call_take s l k Hmay) as (Hpl & Hbl & Hg).
  assert (Hstop : forall wr r, (fst <$> l) ++ rest = (fst <$> take k l) ++ wr :: r -> (exists e, refused (y_qp s) (length (take k l)) wr = Some e) ->
    exists e bad st, mlx5_ib_post_send dev host gsi (y_qp s) (y_mem s) mrs ((fst <$> l) ++ rest) = Some (e, bad, st) /\
    default (length l) bad = k /\
    if decide (take k l = []) then p_qp st = y_qp s /\ p_mem st = y_mem s
    else accepted (y_qp s) (y_mem s) (take k l) (p_qp st) (p_mem st)).
  { intros wr r -> [e He]. pose proof Hok as (Hi & _ & Hmp & _ & Hlen). pose proof (sys_used s Hok) as Hu.
    assert (Hlk : length (take k l) = k) by (rewrite length_take; lia).
    assert (Hroom : total_blocks (snd <$> take k l) <= wqe_cnt (qp_sq (y_qp s))).
    { destruct (decide (take k l = [])) as [->|Hn]; [simpl; pose proof (wqe_cnt_range _ (proj1 (iv_ready _ _ _ Hi))); lia|].
      pose proof (may_post_room s (take k l) Hok (may_call_post s _ Hok (may_call_take s l k Hmay) ltac:(lia) Hn)).
      pose proof (blocks_nonneg _ _ _ _ (iv_chain _ _ _ Hi)). lia. }
    destruct (stopped_call dev host gsi (y_qp s) (y_mem s) mrs (take k l) wr r e) as (st & E & Hst); auto;
      [apply Hi|apply Hi|rewrite Hu, Hlk; unfold room in *; lia|].
    exists e, (Some (length (take k l))), st. split_and!; [exact E|done|]. exact Hst. }
  destruct (decide (k < length l)%nat) as [Hlt|Hge].
  - destruct (drop k l) as [|[wr body] r] eqn:Ed; [apply (f_equal length) in Ed; rewrite length_drop in Ed; simpl in Ed; lia|].
    apply (Hstop wr ((fst <$> r) ++ rest)).
    + rewrite <- (take_drop k l) at 1. by rewrite Ed, fmap_app, <- app_assoc.
    + apply stops_somewhere. right. rewrite (sys_used s Hok), length_take. destruct Hok as (_ & _ & Hmp & _ & Hlen). unfold room in *. lia.
  - assert (Hk : take k l = l) by (apply take_ge; lia). destruct Hrest as [->|(wr & r & -> & Hbad)].
    + rewrite app_nil_r in *. rewrite Hk. assert (Hnl : l <> []) by (by intros ->).
      destruct (sys_post s l Hie Hok) as (st & E & Hacc); [apply may_call_post; auto; lia|].
      exists 0, None, st. split_and!; [done|simpl; lia|]. by rewrite decide_False.
    + apply (Hstop wr r); [by rewrite Hk|]. apply stops_somewhere. by left.
Qed.

Lemma step_ok s s' : internal_error dev = false -> step s s' -> sys_ok s -> sys_ok s'.
Proof.
  intros Hie Hst Hok. destruct Hst as [s l rest e bad st Hmay Hrest Hne E|s j x idx id status sq Hx E].
  - destruct (sys_call s l rest Hie Hok Hmay Hrest Hne) as (e' & bad' & st' & E' & Hk & Hacc). rewrite E in E'.
    injection E' as <- <- <-. rewrite Hk. set (k := Nat.min _ _) in *. case_decide as Hnil.
    { rewrite Hnil. cbn [outs_of]. rewrite app_nil_r. destruct Hacc as [-> ->]. by destruct s. }
    assert (Hp : may_post s (take k l)).
    { apply may_call_post; auto; [by apply may_call_take|]. rewrite length_take. lia. }
    pose proof (may_post_room _ _ Hok Hp) as Hroom.
    destruct Hok as (Hi & Hout & Hmp & HB & Hlen). destruct Hp as (_ & Hpl & Hl & _ & Hcap).
    destruct (acc_same _ _ _ _ _ Hacc) as (_ & Hw & Hm & _).
    split; [by eapply sq_inv_post|]. cbn [y_qp y_out]. rewrite Hw, Hm. split; [|split; [done|split; [done|]]].
    + apply Forall_app; split; [done|]. by apply outs_le.
    + rewrite length_app, outs_length. lia.
  - destruct Hok as (Hi & Hout & Hmp & HB & Hlen).
    destruct (sq_inv_comp _ _ _ _ _ Hi Hx) as (idx' & sq' & E' & Hi'). rewrite E in E'. injection E' as -> _ _ ->.
    assert (Hsame : wqe_cnt sq' = wqe_cnt (qp_sq (y_qp s)) /\ max_post sq' = max_post (qp_sq (y_qp s))).
    { unfold comp_req in E. destruct (handle_atomics _ _ _ _); simplify_eq/=. done. }
    destruct Hsame as [Hw Hm]. split; [done|]. cbn [y_qp y_out set_sq qp_sq]. rewrite Hw, Hm.
    split; [by apply Forall_drop|]. split; [done|]. split; [done|]. rewrite length_drop. lia.
Qed.
End System.

(** C2. Whatever sequence of calls of post_send and completions has happened, the
    WQEs the device has not completed are intact in the ring, the tracking
    arrays lead through exactly them, and the counters count exactly them: a
    post never overwrites an outstanding WQE and a completion never frees
    another one.  A call hands in any number of well-formed requests, also more
    than there is room for, and possibly a malformed one (bad opcode, too many
    SGEs) after them; what the code accepts is what it takes before it stops.
    Assumed: the device has no internal error, the queue pair is not of type GSI,
    no WQE is larger than B blocks, and the ring has room for max_post WQEs of B
    blocks, as calc_sq_size makes it.  Completions are successful ones. *)
Theorem send_queue_safe dev host gsi mrs B s s' :
  internal_error dev = false -> sys_ok B s -> rtc (step dev host gsi mrs B) s s' ->
  sys_ok B s' /\ Forall (held (qp_sq (y_qp s')) (fm_byte (y_mem s'))) (y_out s') /\
  u32 (head (qp_sq (y_qp s')) - tail (qp_sq (y_qp s'))) = Z.of_nat (length (y_out s')).
Proof.
  intros Hie Hok Hr. assert (Hok' : sys_ok B s').
  { induction Hr as [|s s1 s2 Hst _ IH]; [done|]. by eapply IH, step_ok. }
  split; [done|]. destruct Hok' as (Hi & _ & Hmp & _ & Hlen). split; [apply Hi|].
  rewrite (iv_tail _ _ _ Hi). apply u32_sub_cancel. lia.
Qed.

(** C3. The system never gets stuck: in every such state a call with requests
    that fit is accepted, and the completion of any outstanding WQE terminates
    and reports the identifier of its request. *)
Theorem send_queue_live dev host gsi mrs B s s' :
  internal_error dev = false -> sys_ok B s -> rtc (step dev host gsi mrs B) s s' ->
  (forall l, may_post dev host B s' l ->
     exists st, mlx5_ib_post_send dev host gsi (y_qp s') (y_mem s') mrs (fst <$> l) = Some (0, None, st)) /\
  (forall j x, y_out s' !! j = Some x ->
     exists idx sq, comp_req (qp_sq (y_qp s')) (o_post x) = Some (idx, o_id x, IB_WC_SUCCESS, sq)).
Proof.
  intros Hie Hok Hr. assert (Hok' : sys_ok B s').
  { induction Hr as [|s s1 s2 Hst _ IH]; [done|]. by eapply IH, step_ok. }
  split.
  - intros l Hl. destruct (sys_post dev host gsi mrs B s' l Hie Hok' Hl) as (st & E & _). by exists st.
  - intros j x Hx. destruct Hok' as (Hi & _).
    destruct (sq_inv_comp _ _ _ _ _ Hi Hx) as (idx & sq & E & _). by exists idx, sq.
Qed.

(** ** Flushing a dead device *)

(** The completion sw_comp makes for one request. *)
Definition flushed (n : Z) (id : Z) (wc : ib_wc) : Prop :=
  wc_wr_id wc = id /\ wc_status wc = IB_WC_WR_FLUSH_ERR /\ wc_qp wc = n.

Lemma flush_chain l : forall sq e n cur room wcs,
  sq_wf sq -> sq_chain sq (last_poll sq) l e -> (cur <= length l)%nat -> (cur <= room)%nat ->
  (cur <= length wcs)%nat ->
  exists fl sq', flush_wq room cur true n sq wcs = (fl, sq') /\
    Forall2 (flushed n) (o_id <$> take cur l) fl /\
    tail sq' = (if (cur =? 0)%nat then tail sq else u32 (tail sq + Z.of_nat cur)) /\ head sq' = head sq.
Proof.
  induction l as [|x r IH]; intros sq e n cur room wcs Hwf Hc H1 H2 H3.
  { simpl in H1. assert (cur = 0)%nat as -> by lia. exists [], sq.
    split; [by destruct room|]. split; [constructor|done]. }
  destruct cur as [|cur]; [exists [], sq; split; [by destruct room|]; split; [constructor|done]|].
  destruct room as [|room]; [lia|]. destruct wcs as [|wc wcs]; [simpl in H3; lia|]. simpl in H1, H2, H3.
  destruct Hc as (Hp & Hx & [op Htr] & Hc). cbn [flush_wq].
  assert (Hmask : last_poll sq .& (wqe_cnt sq - 1) = last_poll sq mod wqe_cnt sq).
  { destruct Hwf as (Hf & _ & H15 & -> & _). destruct Hf as (_ & Hz & _). apply land_mask. lia. }
  rewrite Hmask. injection Htr as Hid _ Hnext _ _. rewrite Hid, Hnext. set (sq1 := set_tail_poll _ _ _).
  destruct (IH sq1 e n cur room wcs) as (fl & sq' & E & Hf & Ht & Hh); try lia; [done|by apply (chain_ext sq)|].
  rewrite E. eexists _, sq'. split; [done|]. split; [|split; [|done]].
  - cbn [take fmap list_fmap]. constructor; [|done]. done.
  - rewrite Ht. cbn [sq1 set_tail_poll tail]. destruct cur; simpl; [done|]. rewrite u32_add. f_equal. lia.
Qed.

(** On a device in internal error the send requests that are outstanding
    are flushed: each is reported once, oldest first, as a flush error of its
    queue pair, and afterwards none is outstanding. *)
Theorem flush_reports_outstanding w n q m l wcs room :
  w_qps w n = Some q -> sq_inv (pq_sq q) m l ->
  (length l <= room)%nat -> (length l <= length wcs)%nat -> Z.of_nat (length l) < 2 ^ 32 ->
  exists fl w' q', sw_comp w n room true wcs = Some (fl, w') /\
    Forall2 (flushed n) (o_id <$> l) fl /\ w_qps w' n = Some q' /\
    u32 (head (pq_sq q') - tail (pq_sq q')) = 0.
Proof.
  intros Hq [I1 _ _ I4 _ I6 _ _] Hr Hw Hl. unfold sw_comp. rewrite Hq. cbn [mbind option_bind].
  assert (Hu : u32 (head (pq_sq q) - tail (pq_sq q)) = Z.of_nat (length l)).
  { rewrite I6. apply u32_sub_cancel. lia. }
  rewrite Hu, Nat2Z.id.
  destruct (flush_chain l (pq_sq q) _ n (length l) room wcs (proj1 I1) I4) as (fl & sq' & E & Hf & Ht & Hh); auto.
  rewrite E. eexists fl, _, _. split; [done|]. rewrite take_ge in Hf by lia. split; [done|].
  cbn [set_qp w_qps]. rewrite upd_eq. split; [done|]. cbn [set_pq_sq pq_sq]. rewrite Hh, Ht.
  destruct l as [|x l]; [done|]. cbn [length Nat.eqb]. rewrite I6, u32_add.
  replace (head (pq_sq q) - _ + _) with (head (pq_sq q)) by (cbn [length]; lia).
  rewrite <- (u32_sub_cancel (head (pq_sq q)) 0) by lia. by rewrite Z.sub_0_r.
Qed.

(** After an error completion the flush goes wrong: the error leaves
    last_poll behind, so the flush starts with the request that has already
    been reported, repeats it, and never reports the newest one. *)
Theorem flush_after_error_repeats w n q m x r wcs room :
  w_qps w n = Some q -> sq_inv (pq_sq q) m (x :: r) -> r <> [] ->
  (length r <= room)%nat -> (length r <= length wcs)%nat -> Z.of_nat (length r) < 2 ^ 31 ->
  let '(id, sq) := comp_req_err (pq_sq q) (o_post x) in
  id = o_id x /\
  exists fl w', sw_comp (set_qp w n (set_pq_sq q sq)) n room true wcs = Some (fl, w') /\
    Forall2 (flushed n) (o_id <$> x :: removelast r) fl.
Proof.
  intros Hq [I1 _ _ I4 _ I6 I7 _] Hr Hroom Hw Hl.
  pose proof I1 as (Hwf & _). unfold comp_req_err.
  assert (Hmask : o_post x .& (wqe_cnt (pq_sq q) - 1) = o_post x mod wqe_cnt (pq_sq q)).
  { destruct Hwf as (Hf & _ & H15 & -> & _). destruct Hf as (_ & Hz & _). apply land_mask. lia. }
  pose proof I4 as (Hp & _ & [op Htr] & _). rewrite Hmask, Hp. injection Htr as Hid Hhd _ _ _.
  rewrite Hid, Hhd. split; [done|]. unfold sw_comp. cbn [set_qp w_qps]. rewrite upd_eq. cbn [mbind option_bind set_pq_sq pq_sq].
  set (sq1 := set_tail_poll _ _ _).
  assert (Hu : u32 (head sq1 - tail sq1) = Z.of_nat (length r)).
  { cbn [sq1 set_tail_poll head tail]. destruct I7 as [-> _]. rewrite u32_add.
    replace (head (pq_sq q) - Z.of_nat (length (x :: r)) + 1) with (head (pq_sq q) - Z.of_nat (length r))
      by (cbn [length]; lia). apply u32_sub_cancel. lia. }
  rewrite Hu, Nat2Z.id.
  destruct (flush_chain (x :: r) sq1 (cur_post (pq_sq q)) n (length r) room wcs) as (fl & sq' & E & Hf & _);
    try (cbn [length]; lia); [done|by apply (chain_ext (pq_sq q))|].
  rewrite E. eexists fl, _. split; [done|].
  assert (take (length r) (x :: r) = x :: removelast r) as <-; [|done].
  destruct r as [|y r]; [done|]. rewrite removelast_firstn_len. done.
Qed.

(** ** Example states *)

(** The example queue of PostSendThm with nothing outstanding, for WQEs of up
    to two blocks. *)
Definition idle_sq : mlx5_ib_wq :=
  {| fbc := mlx5_init_fbc 0 6 2; wrid := fun _ => 0; wr_data := fun _ => 0;
     w_list_opcode := fun _ => 0; w_list_next := fun _ => 0; wqe_head := fun _ => 0; wqe_cnt := 4;
     max_post := 2; max_gs := 2; wq_offset := 0; wqe_shift := 6; head := 2 ^ 32 - 1;
     tail := 2 ^ 32 - 1; cur_post := 65535; last_poll := 65535; cur_edge := mkptr 0 256 |}.
Definition idle : sys := mksys (set_sq ex_qp idle_sq) ex_mem [].

Lemma idle_ready : sq_ready idle_sq.
Proof.
  split; [|split; [simpl; lia|done]]. split; [by apply init_fbc_offset_wf|]. repeat split; vm_compute; done.
Qed.

Lemma idle_ok : sys_ok 2 idle.
Proof.
  split; [|split; [constructor|vm_compute; repeat split; done]].
  split; try exact idle_ready; done.
Qed.

Lemma idle_may_post : may_post ex_dev ex_host 2 idle ex_bodies.
Proof.
  split; [done|]. split; [|split; [repeat constructor; vm_compute; done|split; [done|done]]].
  eapply Forall_impl; [exact ex_plain|]. intros [wr body]. apply plain_wr_static; done.
Qed.

Definition no_gsi : mlx5_ib_qp -> list ib_send_wr -> Z * option nat := fun _ _ => (0, None).

(** The state behind the post of the two example requests. *)
Definition ex_posted : option sys :=
  '(_, _, st) ← mlx5_ib_post_send ex_dev ex_host no_gsi (y_qp idle) (y_mem idle) (fun _ => ex_mr)
                  (fst <$> ex_bodies);
  Some (mksys (p_qp st) (p_mem st)
    ([] ++ outs_of (y_qp idle) 65535 0 (2 ^ 32 - 1) ex_bodies)).

Lemma ex_posted_step : match ex_posted with
  | Some s => step ex_dev ex_host no_gsi (fun _ => ex_mr) 2 idle s
  | None => False
  end.
Proof.
  unfold ex_posted.
  destruct (mlx5_ib_post_send ex_dev ex_host no_gsi (y_qp idle) (y_mem idle) (fun _ => ex_mr) (fst <$> ex_bodies))
    as [[[e bad] st]|] eqn:E; [|by vm_compute in E].
  cbn [mbind option_bind]. apply (step_posted _ _ _ _ _ idle ex_bodies st); [exact idle_may_post|].
  rewrite E. vm_compute in E. injection E as <- <- _. done.
Qed.

Lemma send_queue_safe_witness :
  match ex_posted with
  | Some s => u32 (head (qp_sq (y_qp s)) - tail (qp_sq (y_qp s))) = 2 /\ sys_ok 2 s
  | None => False
  end.
Proof.
  pose proof ex_posted_step as Hst. destruct ex_posted as [s|] eqn:E; [|done].
  destruct (send_queue_safe ex_dev ex_host no_gsi (fun _ => ex_mr) 2 idle s eq_refl idle_ok (rtc_once _ _ Hst))
    as (Hok & _ & Hc).
  split; [|exact Hok]. rewrite Hc. unfold ex_posted in E. vm_compute in E. by injection E as <-.
Defined.

Lemma send_queue_live_witness :
  match ex_posted with
  | Some s => forall j x, y_out s !! j = Some x ->
      exists idx sq, comp_req (qp_sq (y_qp s)) (o_post x) = Some (idx, o_id x, IB_WC_SUCCESS, sq)
  | None => False
  end.
Proof.
  pose proof ex_posted_step as Hst. destruct ex_posted as [s|] eqn:E; [|done].
  apply (send_queue_live ex_dev ex_host no_gsi (fun _ => ex_mr) 2 idle s eq_refl idle_ok (rtc_once _ _ Hst)).
Defined.

(** The same queue with two requests outstanding, and its queue pair 71. *)
Definition busy_sq : mlx5_ib_wq :=
  {| fbc := mlx5_init_fbc 0 6 2; wrid := fun i => if i =? 3 then 11 else 12; wr_data := fun _ => 0;
     w_list_opcode := fun _ => 10; w_list_next := fun i => if i =? 3 then 1 else 2;
     wqe_head := fun i => if i =? 3 then 2 ^ 32 - 1 else 0; wqe_cnt := 4;
     max_post := 2; max_gs := 2; wq_offset := 0; wqe_shift := 6; head := 1;
     tail := 2 ^ 32 - 1; cur_post := 2; last_poll := 65535; cur_edge := mkptr 0 256 |}.
Definition busy_out : list owqe := [mkout 65535 2 11 (2 ^ 32 - 1) []; mkout 1 1 12 0 []].
Definition busy_qp : poll_qp := mkpqp IB_QPT_RC 71 1 busy_sq idle_sq None false.
Definition ex_wc : ib_wc := mkwc 0 0 0 0 0 0 [] 0 0 0 0 0 0 0 0.
Definition busy_world : world :=
  mkworld ex_cq (upd (fun _ => None) 71 (Some busy_qp)) (fun _ => None) (fun _ => None)
    (mkheap 0 ∅) [] [71] [].

Lemma busy_inv : sq_inv busy_sq ex_mem busy_out.
Proof.
  split.
  - split; [|split; [simpl; lia|done]]. split; [by apply init_fbc_offset_wf|]. repeat split; vm_compute; done.
  - vm_compute; split; done.
  - vm_compute; split; done.
  - split; [done|]. split; [done|]. split; [by exists 10|].
    split; [done|]. split; [done|]. split; [by exists 10|done].
  - done.
  - done.
  - done.
  - repeat constructor; vm_compute; done.
Qed.

Lemma flush_reports_outstanding_witness :
  exists fl w' q', sw_comp busy_world 71 4 true [ex_wc; ex_wc; ex_wc; ex_wc] = Some (fl, w') /\
    Forall2 (flushed 71) [11; 12] fl /\ w_qps w' 71 = Some q' /\
    u32 (head (pq_sq q') - tail (pq_sq q')) = 0.
Proof.
  apply (flush_reports_outstanding busy_world 71 busy_qp ex_mem busy_out);
    [done|exact busy_inv|simpl; lia|simpl; lia|done].
Defined.

Lemma flush_after_error_repeats_witness :
  let '(id, sq) := comp_req_err busy_sq 65535 in
  id = 11 /\
  exists fl w', sw_comp (set_qp busy_world 71 (set_pq_sq busy_qp sq)) 71 4 true [ex_wc; ex_wc; ex_wc; ex_wc]
    = Some (fl, w') /\ Forall2 (flushed 71) [11] fl.
Proof.
  apply (flush_after_error_repeats busy_world 71 busy_qp ex_mem (mkout 65535 2 11 (2 ^ 32 - 1) [])
           [mkout 1 1 12 0 []] [ex_wc; ex_wc; ex_wc; ex_wc] 4);
    [done|exact busy_inv|done|simpl; lia|simpl; lia|done].
Defined.
