(* ===== verification/CqPollThm.v ===== *)
(** * CqPollThm: what a poll reports, and that it ends *)

From S2P Require Import Prelude FragBuf Strides KHeap FragAlloc QpTypes WqeSeg SqRing PostSend PostRing PostSendThm RecvQueue Srq Cqe CqRing CqResize CqPoll QpSystem.

(** ** A poll ends *)


Section Fuel.
Context (eth : bool) (find_pkey : Z -> Z -> option Z) (k : Z) (Hk : 0 <= k <= 24).


















Lemma poll_one_step fuel w cur wc :
  poll_one eth find_pkey (S fuel) w cur wc =
  match poll_round eth find_pkey w cur wc with
  | None => None
  | Some (inl (w, cur, wc)) => poll_one eth find_pkey fuel w cur wc
  | Some (inr r) => Some r
  end.
Proof. unfold poll_one. cbn [poll_rounds]. by destruct (poll_round eth find_pkey w cur wc) as [[[[? ?] ?]|]|]. Qed.
End Fuel.


(** The entry under the consumer index. *)
Lemma next_entry cq k :
  cq_wf cq k -> sw_owned (cb_fbc (cq_buf cq)) k (fm_byte (cb_mem (cq_buf cq))) (cq_cons_index cq) = true ->
  exists p, next_cqe_sw cq = Some (Some p) /\
    read_cqe64 cq p = Some (cqe64 (cb_fbc (cq_buf cq)) k (fm_byte (cb_mem (cq_buf cq))) (cq_cons_index cq)).
Proof.
  intros Hwf Ho. unfold next_cqe_sw. rewrite (get_sw_cqe_eq _ _ Hwf), Ho. eexists. split; [done|].
  rewrite <- (read_cqe64_eq _ _ Hwf). rewrite (cw_cqe _ _ Hwf), ring_mask by apply Hwf. done.
Qed.

(** A poll that meets the completion of an outstanding send request
    reports that request: its identifier, success and its queue pair; it
    consumes one entry, and the requests posted after it stay outstanding. *)
Theorem poll_reports_send eth find_pkey fuel w wc k q m out j x :
  let cq := w_cq w in
  let cqe := cqe64 (cb_fbc (cq_buf cq)) k (fm_byte (cb_mem (cq_buf cq))) (cq_cons_index cq) in
  let n := cqe_sop_drop_qpn cqe .& 16777215 in
  cq_wf cq k ->
  sw_owned (cb_fbc (cq_buf cq)) k (fm_byte (cb_mem (cq_buf cq))) (cq_cons_index cq) = true ->
  get_cqe_opcode cqe = MLX5_CQE_REQ -> w_qps w n = Some q -> sq_inv (pq_sq q) m out ->
  out !! j = Some x -> cqe_wqe_counter cqe = o_post x ->
  exists w' wc' q', poll_one eth find_pkey (S fuel) w None wc = Some (0, w', Some n, wc') /\
    wc_wr_id wc' = o_id x /\ wc_status wc' = IB_WC_SUCCESS /\ wc_qp wc' = n /\
    cq_cons_index (w_cq w') = u32 (cq_cons_index cq + 1) /\
    w_qps w' n = Some q' /\ sq_inv (pq_sq q') m (drop (S j) out) /\ pq_rq q' = pq_rq q /\
    (forall n', n' <> n -> w_qps w' n' = w_qps w n') /\ w_srqs w' = w_srqs w.
Proof.
  intros cq cqe n Hwf Ho Hop Hq Hinv Hx Hctr. destruct (next_entry cq k Hwf Ho) as (p & Hn & Hr).
  destruct (sq_inv_comp _ _ _ _ _ Hinv Hx) as (idx & sq & Ec & Hinv').
  rewrite poll_one_step. unfold poll_round. fold cq. rewrite Hn. cbn [mbind option_bind]. rewrite Hr. cbn [mbind option_bind].
  fold cqe. unfold take_entry. rewrite Hop. cbn [set_cq w_qps]. fold n. rewrite Hq. cbn [mbind option_bind].
  unfold poll_entry. rewrite Hop, Hctr, Ec. cbn [mbind option_bind].
  eexists _, _, (set_pq_sq q sq). split; [done|]. cbn [set_qp set_cq w_qps w_cq w_srqs wc_set_status wc_set_id wc_wr_id wc_status wc_qp].
  split; [done|]. split; [done|]. split; [by unfold handle_good_req; repeat case_match|].
  split; [done|]. split; [apply upd_eq|]. split; [done|]. split; [done|]. split; [|done].
  intros n' Hne. by rewrite upd_ne.
Qed.

(** A receive completion on an XRC target names its shared receive queue
    by number; when that number is not known, the driver does not notice: the
    poll goes on with a queue that is not there. *)
Theorem poll_xrc_unknown_srq eth find_pkey fuel w wc k q :
  let cq := w_cq w in
  let cqe := cqe64 (cb_fbc (cq_buf cq)) k (fm_byte (cb_mem (cq_buf cq))) (cq_cons_index cq) in
  cq_wf cq k ->
  sw_owned (cb_fbc (cq_buf cq)) k (fm_byte (cb_mem (cq_buf cq))) (cq_cons_index cq) = true ->
  get_cqe_opcode cqe = MLX5_CQE_RESP_SEND -> w_qps w (cqe_sop_drop_qpn cqe .& 16777215) = Some q ->
  pq_xrcd q = true -> w_srqs w (cqe_srqn cqe) = None ->
  poll_one eth find_pkey fuel w None wc = None.
Proof.
  intros cq cqe Hwf Ho Hop Hq Hx Hs. destruct fuel as [|fuel]; [done|].
  destruct (next_entry cq k Hwf Ho) as (p & Hn & Hr).
  rewrite poll_one_step. unfold poll_round. fold cq. rewrite Hn. cbn [mbind option_bind]. rewrite Hr. cbn [mbind option_bind].
  fold cqe. unfold take_entry. rewrite Hop. cbn [set_cq w_qps]. rewrite Hq. cbn [mbind option_bind].
  unfold poll_entry. rewrite Hop. cbv [MLX5_CQE_RESP_SEND MLX5_CQE_REQ MLX5_CQE_RESP_WR_IMM Z.eqb Pos.eqb orb].
  unfold responder_wqe, comp_srq. rewrite Hx. cbn [set_cq w_srqs]. by rewrite Hs.
Qed.

(** ** Witnesses *)

Definition find_none : Z -> Z -> option Z := fun _ _ => None.


(** A ring whose first entry completes the WQE at counter 65535 of queue pair
    71. *)
Definition send_cq (op srqn : Z) : mlx5_ib_cq :=
  {| cq_buf := {| cb_fbc := mlx5_init_fbc 0 6 6;
                  cb_mem := {| fm_size := 256;
                     fm_byte := fun a => if a =? 59 then 71 else if (a =? 60) || (a =? 61) then 255
                        else if a =? 63 then 16 * op else if a =? 35 then srqn
                        else if a mod 64 =? 63 then 240 else 0 |};
                  cb_frag_buf := mkfb [] 0 1 256 12; cb_cqe_size := 64; cb_nent := 4 |};
     cq_cqe := 3; cq_cqe_sz := 64; cq_cons_index := 0; cq_set_ci_db := be32 0; cq_resize_buf := None |}.

Lemma send_cq_wf op srqn : cq_wf (send_cq op srqn) 2.
Proof.
  split; simpl; [by apply init_fbc_offset_wf|lia|done|by left|done|]. vm_compute; repeat split; done.
Qed.

Lemma poll_reports_send_witness :
  exists w' wc' q', poll_one false find_none 1 (set_cq busy_world (send_cq 0 0)) None ex_wc = Some (0, w', Some 71, wc') /\
    wc_wr_id wc' = 11 /\ w_qps w' 71 = Some q' /\ sq_inv (pq_sq q') ex_mem [mkout 1 1 12 0 []].
Proof.
  destruct (poll_reports_send false find_none 0 (set_cq busy_world (send_cq 0 0)) ex_wc 2 busy_qp ex_mem busy_out 0
              (mkout 65535 2 11 (2 ^ 32 - 1) [])) as (w' & wc' & q' & E & Hid & _ & _ & _ & Hq & Hi & _).
  - apply send_cq_wf.
  - vm_compute; done.
  - vm_compute; done.
  - vm_compute; done.
  - exact busy_inv.
  - done.
  - vm_compute; done.
  - exists w', wc', q'. split; [exact E|]. split; [exact Hid|]. split; [exact Hq|exact Hi].
Defined.

Lemma poll_xrc_unknown_srq_witness :
  poll_one false find_none 9
    (set_qp (set_cq busy_world (send_cq 2 7)) 71 (mkpqp IB_QPT_XRC_TGT 71 1 busy_sq idle_sq None true)) None ex_wc = None.
Proof.
  apply (poll_xrc_unknown_srq false find_none 9 _ ex_wc 2 (mkpqp IB_QPT_XRC_TGT 71 1 busy_sq idle_sq None true));
    [apply send_cq_wf|vm_compute; done..].
Defined.
