(* ===== verification/RecvTarget.v ===== *)
(** * RecvTarget: what a receive queue promises to its users

    The kernel library posts receive buffers to queue pairs and to shared
    receive queues alike.  [RecvTarget] is the operation, [RecvTargetSpec] the
    contract its users rely on: the queue holds requests, takes more of them up
    to its capacity, and a call that runs out of room posts what fits and says
    where it stopped.  Both queues of the driver meet it; the receive queue of
    a queue pair is moreover first-in first-out. *)

From S2P Require Import Prelude FragBuf Strides QpTypes WqeSeg SqRing PostSend RecvQueue Srq CqPoll.

Class RecvTarget (T : Type) :=
  post_recv_to : T -> list ib_recv_wr -> option (Z * option nat * T).

(** How a call with requests left over ends. *)
Definition full_stop (n : nat) (rest : list ib_recv_wr) : Z * option nat :=
  match rest with [] => (0, None) | _ => (- ENOMEM, Some n) end.

Class RecvTargetSpec (T : Type) `{RecvTarget T} := {
  rt_holds : T -> list ib_recv_wr -> Prop;
  rt_cap : T -> nat;
  rt_takes : T -> ib_recv_wr -> Prop;
  rt_post : forall t out l rest,
    rt_holds t out -> Forall (rt_takes t) (l ++ rest) ->
    (length out + length l <= rt_cap t)%nat ->
    rest = [] \/ (length out + length l)%nat = rt_cap t ->
    exists t', post_recv_to t (l ++ rest) = Some (full_stop (length l) rest, t') /\
      rt_holds t' (out ++ l) /\ rt_cap t' = rt_cap t /\
      (forall wr, rt_takes t wr -> rt_takes t' wr);
}.

(** Requests with their scatter lists. *)
Lemma with_sges (P : ib_recv_wr -> list ib_sge -> Prop) l :
  Forall (fun wr => exists sges, P wr sges) l ->
  exists l', fst <$> l' = l /\ Forall (fun x => P x.1 x.2) l'.
Proof.
  induction 1 as [|wr l [sges Hs] _ (l' & <- & Hl)]; [by exists []|].
  exists ((wr, sges) :: l'). split; [done|]. by constructor.
Qed.

(** ** The receive queue of a queue pair *)

Record qp_target := mkqpt {
  qt_gsi : mlx5_ib_wq -> list ib_recv_wr -> Z * option nat;
  qt_internal_error : bool;
  qt_type : ib_qp_type;
  qt_wq_sig : bool;
  qt_st : rst;
}.

#[export] Instance qp_recv_target : RecvTarget qp_target := fun t wrs =>
  '(e, bad, s) ← mlx5_ib_post_recv (qt_gsi t) (qt_internal_error t) (qt_type t) (qt_wq_sig t)
                   (qt_st t) wrs;
  Some (e, bad, mkqpt (qt_gsi t) (qt_internal_error t) (qt_type t) (qt_wq_sig t) s).

(** The queue holds [out], oldest first: request [i] is in the stride [tail + i],
    with its identifier beside it, and the counters count them. *)
Record rq_inv (rq : mlx5_ib_wq) (m : frag_mem) (out : list (ib_recv_wr * list ib_sge)) : Prop := {
  ri_wf : rq_wf rq;
  ri_fits : fits (fbc rq) m;
  ri_count : Z.of_nat (length out) <= max_post rq;
  ri_tail : tail rq = u32 (head rq - Z.of_nat (length out));
  ri_wqe : forall i wr sges, out !! i = Some (wr, sges) ->
    let ix := (tail rq + Z.of_nat i) mod entries (fbc rq) in
    Z.of_nat (length sges) <= max_gs rq /\ wrid rq ix = r_wr_id wr /\
    bytes_at (fm_byte m) (slot (fbc rq) ix) (length (scat_bytes sges (max_gs rq)))
    = scat_bytes sges (max_gs rq);
}.

(** Request numbers are taken modulo the size of the ring, which divides 2^32. *)
Lemma u32_entries c (Hwf : fbc_wf c) x : u32 x mod entries c = x mod entries c.
Proof. destruct Hwf as (_ & H & _). unfold entries. apply u32_mod. lia. Qed.

Section Rq.
Context (rq : mlx5_ib_wq) (m : frag_mem) (out : list (ib_recv_wr * list ib_sge)) (Hinv : rq_inv rq m out).

Lemma rq_inv_used : u32 (head rq - tail rq) = Z.of_nat (length out).
Proof.
  destruct Hinv as [(Hf & Hc & _ & _ & Hp) _ Hn -> _]. pose proof (entries_bound _ Hf).
  apply u32_sub_cancel. lia.
Qed.

(** The stride of an outstanding request, counted from the head. *)
Lemma rq_inv_slot i :
  (tail rq + i) mod entries (fbc rq) = (head rq - Z.of_nat (length out) + i) mod entries (fbc rq).
Proof.
  destruct Hinv as [(Hf & _) _ _ -> _]. pose proof (entries_pos _ Hf).
  by rewrite <- Zplus_mod_idemp_l, (u32_entries _ Hf), Zplus_mod_idemp_l.
Qed.

Lemma rq_inv_post rq' m' l :
  fm_size m' = fm_size m -> Forall (recv_ok rq) l ->
  Z.of_nat (length out) + Z.of_nat (length l) <= max_post rq ->
  filled (fbc rq) (max_gs rq) (fm_byte m) (fm_byte m') (wrid rq) (wrid rq') (head rq) l ->
  (fbc rq', wqe_cnt rq', max_gs rq', max_post rq') = (fbc rq, wqe_cnt rq, max_gs rq, max_post rq) ->
  tail rq' = tail rq -> u32 (head rq') = u32 (head rq + Z.of_nat (length l)) ->
  rq_inv rq' m' (out ++ l).
Proof.
  intros Hz Hok Hcap [F1 F2 F3 F4] Hs Ht Hh. injection Hs as Hs1 Hs2 Hs3 Hs4.
  pose proof Hinv as [Hwf Hm Hn Htl Hw]. pose proof Hwf as (Hf & Hc & Hg & Hst & Hp).
  pose proof (entries_pos _ Hf) as He. split.
  - unfold rq_wf. by rewrite Hs1, Hs2, Hs3, Hs4.
  - unfold fits, fits_n in *. by rewrite Hs1, Hz.
  - rewrite length_app, Hs4. lia.
  - rewrite Ht, Htl, length_app, Nat2Z.inj_add. unfold u32 in *.
    rewrite <- (Zminus_mod_idemp_l (head rq')), Hh, Zminus_mod_idemp_l. f_equal. lia.
  - intros i wr sges Hi ix. subst ix. rewrite Hs1, Hs3, Ht, rq_inv_slot.
    apply lookup_app_Some in Hi as [Hi|[Hl Hi]].
    + specialize (Hw _ _ _ Hi) as (Hle & Hid & Hby). rewrite rq_inv_slot in Hid, Hby.
      apply lookup_lt_Some in Hi. pose proof (length_scat_bytes _ _ Hle) as Hlen.
      assert (Hap : forall j, (j < length l)%nat ->
        (head rq - Z.of_nat (length out) + Z.of_nat i) mod entries (fbc rq)
        <> (head rq + Z.of_nat j) mod entries (fbc rq)).
      { intros j Hj. replace (head rq + Z.of_nat j) with
          (head rq - Z.of_nat (length out) + (Z.of_nat (length out) + Z.of_nat j)) by lia.
        apply mod_apart; lia. }
      split; [done|]. split; [by rewrite F4|]. rewrite <- Hby at 2. apply bytes_at_ext. intros k Hk.
      apply F3. intros j Hj. destruct (Z.mod_pos_bound (head rq + Z.of_nat j) _ He) as [H1 _].
      destruct (Z.mod_pos_bound (head rq - Z.of_nat (length out) + Z.of_nat i) _ He) as [H2 _].
      destruct (slot_disjoint _ Hf _ _ H2 H1 (Hap j Hj)); lia.
    + assert (Hix : head rq - Z.of_nat (length out) + Z.of_nat i
                    = head rq + Z.of_nat (i - length out)) by lia.
      rewrite Hix. split; [|split; [by eapply F2|by eapply F1]].
      apply (Forall_lookup_1 _ _ _ _ Hok) in Hi. by apply (recv_ok_length _ _ Hg) in Hi.
Qed.
End Rq.

(** Posting leaves the geometry of the queue alone. *)
Lemma recv_loop_static sg wrs : forall nreq ind rq m e bad n rq' m',
  recv_loop sg nreq ind wrs rq m = Some (e, bad, n, rq', m') ->
  (fbc rq', wqe_cnt rq', max_gs rq', max_post rq') = (fbc rq, wqe_cnt rq, max_gs rq, max_post rq).
Proof.
  induction wrs as [|wr r IH]; intros nreq ind rq m e bad n rq' m'; cbn [recv_loop]; [by intros [= _ _ _ <- _]|].
  case_match; [by intros [= _ _ _ <- _]|]. case_match; [by intros [= _ _ _ <- _]|].
  destruct (recv_wqe rq sg m ind wr) as [m1|]; [|done]. simpl. case_match; [|done].
  intros H'. apply IH in H'. exact H'.
Qed.

Lemma post_recv_static gsi ie qt sg s wrs e bad s' :
  mlx5_ib_post_recv gsi ie qt sg s wrs = Some (e, bad, s') ->
  (fbc (r_rq s'), wqe_cnt (r_rq s'), max_gs (r_rq s'), max_post (r_rq s'))
  = (fbc (r_rq s), wqe_cnt (r_rq s), max_gs (r_rq s), max_post (r_rq s)).
Proof.
  unfold mlx5_ib_post_recv, post_recv_. case_match; [by intros [= _ _ <-]|].
  case_match; [destruct (gsi _ _); by intros [= _ _ <-]|].
  destruct (recv_loop _ _ _ _ _ _) as [[[[[e1 b1] n1] rq1] m1]|] eqn:E; [|done]. simpl.
  intros [= _ _ <-]. apply recv_loop_static in E. by case_match.
Qed.

(** The requests a queue pair's target holds. *)
Definition qp_holds (t : qp_target) (out : list ib_recv_wr) : Prop :=
  qt_internal_error t = false /\ qt_type t <> IB_QPT_GSI /\ qt_wq_sig t = false /\
  exists l, fst <$> l = out /\ rq_inv (r_rq (qt_st t)) (r_mem (qt_st t)) l.

Definition rq_takes (rq : mlx5_ib_wq) (wr : ib_recv_wr) : Prop :=
  r_num_sge wr <= max_gs rq /\ exists sges, recv_sges wr = Some sges.

Lemma rq_takes_sges rq l : Forall (rq_takes rq) l -> exists l', fst <$> l' = l /\ Forall (recv_ok rq) l'.
Proof.
  intros H. destruct (with_sges (fun wr sges => recv_ok rq (wr, sges)) l) as (l' & <- & H').
  - eapply Forall_impl; [exact H|]. intros wr [Hn [sges Hs]]. by exists sges.
  - exists l'. split; [done|]. eapply Forall_impl; [exact H'|]. by intros [].
Qed.

Lemma qp_holds_post t out l rest :
  qp_holds t out -> Forall (rq_takes (r_rq (qt_st t))) (l ++ rest) ->
  (length out + length l <= Z.to_nat (max_post (r_rq (qt_st t))))%nat ->
  rest = [] \/ (length out + length l)%nat = Z.to_nat (max_post (r_rq (qt_st t))) ->
  exists t', post_recv_to t (l ++ rest) = Some (full_stop (length l) rest, t') /\
    qp_holds t' (out ++ l) /\
    (max_gs (r_rq (qt_st t')), max_post (r_rq (qt_st t')))
    = (max_gs (r_rq (qt_st t)), max_post (r_rq (qt_st t))).
Proof.
  intros (Hie & Hty & Hsig & o & <- & Hinv) Hok Hcap Hrest. destruct t as [gsi ie qt sig [rq m db]].
  simpl in *. subst ie sig. pose proof Hinv as [Hwf Hm Hn _ _]. rewrite length_fmap in *.
  apply Forall_app in Hok as [(l' & <- & Hok)%rq_takes_sges Hrok]. rewrite length_fmap in *.
  pose proof (rq_inv_used _ _ _ Hinv) as Hused.
  assert (Hc : u32 (head rq - tail rq) + Z.of_nat (length l') <= max_post rq) by lia.
  assert (Hstop : recv_stop rq (length l') rest = Some (full_stop (length l') rest)).
  { destruct rest as [|wr rest]; [done|]. destruct Hrest as [?|Hfull]; [done|]. simpl.
    rewrite (proj2 (Z.leb_le _ _)) by lia. done. }
  destruct (full_stop (length l') rest) as [e bad] eqn:Ef.
  destruct (post_recv_ok gsi qt rq m db l' rest e bad) as (rq' & m' & db' & E & Hz & Hfil & Ht & Hd); auto.
  assert (Hst : (fbc rq', wqe_cnt rq', max_gs rq', max_post rq') = (fbc rq, wqe_cnt rq, max_gs rq, max_post rq)).
  { exact (post_recv_static _ _ _ _ _ _ _ _ _ E). }
  unfold post_recv_to, qp_recv_target. simpl. rewrite E. simpl. eexists. split; [done|].
  split; [|by injection Hst as _ _ Hg Hp; simpl; rewrite Hg, Hp].
  split; [done|]. split; [done|]. split; [done|]. exists (o ++ l'). rewrite fmap_app. split; [done|].
  eapply rq_inv_post; eauto; [lia|]. case_decide as Hnil.
  - subst l'. destruct Hd as [Hd _]. simpl. by rewrite Hd, Z.add_0_r.
  - destruct Hd as [Hd _]. simpl. rewrite Hd. unfold u32. apply Zmod_mod.
Qed.

Lemma qp_target_post t out l rest :
  qp_holds t out -> Forall (rq_takes (r_rq (qt_st t))) (l ++ rest) ->
  (length out + length l <= Z.to_nat (max_post (r_rq (qt_st t))))%nat ->
  rest = [] \/ (length out + length l)%nat = Z.to_nat (max_post (r_rq (qt_st t))) ->
  exists t', post_recv_to t (l ++ rest) = Some (full_stop (length l) rest, t') /\
    qp_holds t' (out ++ l) /\
    Z.to_nat (max_post (r_rq (qt_st t'))) = Z.to_nat (max_post (r_rq (qt_st t))) /\
    (forall wr, rq_takes (r_rq (qt_st t)) wr -> rq_takes (r_rq (qt_st t')) wr).
Proof.
  intros Hh Hok Hcap Hrest.
  destruct (qp_holds_post t out l rest Hh Hok Hcap Hrest) as (t' & E & Hh' & [= Hg Hp]).
  exists t'. split; [done|]. split; [done|]. split; [by rewrite Hp|].
  unfold rq_takes. by rewrite Hg.
Qed.

#[export] Instance qp_recv_spec : RecvTargetSpec qp_target := {
  rt_holds := qp_holds;
  rt_cap t := Z.to_nat (max_post (r_rq (qt_st t)));
  rt_takes t := rq_takes (r_rq (qt_st t));
  rt_post := qp_target_post;
}.

(** The oldest request is completed. *)
Lemma rq_inv_comp rq m wr sges out :
  rq_inv rq m ((wr, sges) :: out) ->
  exists rq', comp_recv rq = (r_wr_id wr, rq') /\ rq_inv rq' m out.
Proof.
  intros Hinv. pose proof (rq_inv_slot _ _ _ Hinv) as Hslot. destruct Hinv as [Hwf Hm Hn Ht Hw].
  pose proof Hwf as (Hf & Hc & Hg & Hst & Hp). cbn [length] in *.
  unfold comp_recv. rewrite Hc, (mask_mod _ Hf).
  pose proof (Hw 0%nat _ _ eq_refl) as (_ & Hid & _). rewrite Z.add_0_r in Hid. rewrite Hid.
  eexists. split; [done|]. split; cbn [set_tail_poll fbc max_gs max_post wqe_cnt head tail wrid]; auto.
  - lia.
  - rewrite Ht, u32_add. f_equal. lia.
  - intros i wr' sges' Hi. specialize (Hw (S i) _ _ Hi). cbn zeta.
    rewrite <- Zplus_mod_idemp_l, (u32_entries _ Hf), Zplus_mod_idemp_l.
    replace (tail rq + 1 + Z.of_nat i) with (tail rq + Z.of_nat (S i)) by lia. exact Hw.
Qed.

(** ** Shared receive queues *)

Record srq_target := mksrqt { st_internal_error : bool; st_srq : mlx5_ib_srq; st_mem : frag_mem }.

#[export] Instance srq_recv_target : RecvTarget srq_target := fun t wrs =>
  '(e, bad, srq, m) ← mlx5_ib_post_srq_recv (st_internal_error t) (st_srq t) (st_mem t) wrs;
  Some (e, bad, mksrqt (st_internal_error t) srq m).

Definition srq_takes (srq : mlx5_ib_srq) (wr : ib_recv_wr) : Prop :=
  exists sges, srq_ok srq (wr, sges).

Definition srq_holds (t : srq_target) (out : list ib_recv_wr) : Prop :=
  st_internal_error t = false /\
  exists free o, (fun x => fst (snd x)) <$> o = out /\ srq_inv (st_srq t) (st_mem t) free o.

Lemma srq_loop_static wrs : forall nreq srq m e bad n srq' m',
  srq_loop nreq wrs srq m = Some (e, bad, n, srq', m') ->
  (srq_max srq', srq_max_gs srq') = (srq_max srq, srq_max_gs srq).
Proof.
  induction wrs as [|wr r IH]; intros nreq srq m e bad n srq' m'; cbn [srq_loop]; [by intros [= _ _ _ <- _]|].
  case_match; [by intros [= _ _ _ <- _]|]. case_match; [by intros [= _ _ _ <- _]|]. case_match; [|done].
  destruct (get_next srq m (srq_head srq)) as [nx|]; [|done].
  destruct (recv_sges wr) as [sg|]; [|done]. cbn [mbind option_bind].
  destruct (put_scat_list _ _ sg _) as [m1|]; [|done]. cbn [mbind option_bind].
  intros H'. apply IH in H'. exact H'.
Qed.

(** The WQEs that can be posted: all but the tail and the posted ones. *)
Lemma srq_free_count srq m free out :
  srq_inv srq m free out -> (length free + 1 + length out)%nat = Z.to_nat (srq_max srq).
Proof.
  intros [Hwf _ _ Hall _]. apply Permutation_length in Hall.
  rewrite length_app, length_seqZ in Hall. cbn [length] in Hall. rewrite length_fmap in Hall. lia.
Qed.

Lemma srq_takes_sges srq l : Forall (srq_takes srq) l -> exists l', fst <$> l' = l /\ Forall (srq_ok srq) l'.
Proof.
  intros H. destruct (with_sges (fun wr sges => srq_ok srq (wr, sges)) l) as (l' & <- & H'); [done|].
  exists l'. split; [done|]. eapply Forall_impl; [exact H'|]. by intros [].
Qed.

Lemma srq_holds_post t out l rest :
  srq_holds t out -> Forall (srq_takes (st_srq t)) (l ++ rest) ->
  (length out + length l <= Z.to_nat (srq_max (st_srq t)) - 1)%nat ->
  rest = [] \/ (length out + length l)%nat = (Z.to_nat (srq_max (st_srq t)) - 1)%nat ->
  exists t', post_recv_to t (l ++ rest) = Some (full_stop (length l) rest, t') /\
    srq_holds t' (out ++ l) /\
    (srq_max (st_srq t'), srq_max_gs (st_srq t')) = (srq_max (st_srq t), srq_max_gs (st_srq t)).
Proof.
  intros (Hie & free & o & <- & Hinv) Hok Hcap Hrest. destruct t as [ie srq m]. simpl in *. subst ie.
  pose proof (srq_free_count _ _ _ _ Hinv) as Hfree. rewrite length_fmap in *.
  apply Forall_app in Hok as [(l' & <- & Hok)%srq_takes_sges Hrok]. rewrite length_fmap in *.
  assert (Hstop : srq_stop srq (drop (length l') free) (length l') rest = Some (full_stop (length l') rest)).
  { destruct rest as [|wr rest]; [done|]. destruct Hrest as [?|Hfull]; [done|]. simpl.
    apply Forall_cons in Hrok as [[sg (Hg & _)] _]. destruct (Z.ltb_spec (srq_max_gs srq) (u64 (r_num_sge wr))).
    - simpl in Hg. lia.
    - by rewrite drop_ge by lia. }
  destruct (full_stop (length l') rest) as [e bad] eqn:Ef.
  destruct (post_srq_recv_ok srq m free o l' rest e bad) as (srq' & m' & E & Hi & _); auto; [lia|].
  unfold post_recv_to, srq_recv_target. cbn [st_internal_error st_srq st_mem]. rewrite E.
  cbn [mbind option_bind]. eexists. split; [done|]. split.
  - split; [done|]. eexists _, _. split; [|exact Hi]. rewrite fmap_app. f_equal.
    transitivity (fst <$> (snd <$> zip (take (length l') free) l')); [by rewrite <- list_fmap_compose|].
    rewrite snd_zip; [done|]. rewrite length_take. lia.
  - simpl. unfold mlx5_ib_post_srq_recv in E.
    destruct (srq_loop 0 _ srq m) as [[[[[e1 b1] n1] srq1] m1]|] eqn:El; [|done].
    simpl in E. injection E as _ _ <- _. apply srq_loop_static in El. by case_match.
Qed.

Lemma srq_target_post t out l rest :
  srq_holds t out -> Forall (srq_takes (st_srq t)) (l ++ rest) ->
  (length out + length l <= Z.to_nat (srq_max (st_srq t)) - 1)%nat ->
  rest = [] \/ (length out + length l)%nat = (Z.to_nat (srq_max (st_srq t)) - 1)%nat ->
  exists t', post_recv_to t (l ++ rest) = Some (full_stop (length l) rest, t') /\
    srq_holds t' (out ++ l) /\
    (Z.to_nat (srq_max (st_srq t')) - 1)%nat = (Z.to_nat (srq_max (st_srq t)) - 1)%nat /\
    (forall wr, srq_takes (st_srq t) wr -> srq_takes (st_srq t') wr).
Proof.
  intros Hh Hok Hcap Hrest.
  destruct (srq_holds_post t out l rest Hh Hok Hcap Hrest) as (t' & E & Hh' & [= Hmax Hg]).
  exists t'. split; [done|]. split; [done|]. split; [by rewrite Hmax|].
  unfold srq_takes, srq_ok. by rewrite Hg.
Qed.

#[export] Instance srq_recv_spec : RecvTargetSpec srq_target := {
  rt_holds := srq_holds;
  rt_cap t := (Z.to_nat (srq_max (st_srq t)) - 1)%nat;
  rt_takes t := srq_takes (st_srq t);
  rt_post := srq_target_post;
}.

(** C25. The receive queue of a queue pair is a queue: posting requests that
    fit appends them, in order, and posting more appends those that fit and
    reports the first that does not; completing one reports the identifier of
    the oldest and removes it.  The scatter lists of the requests it holds stay
    in the buffer until then. *)
Theorem recv_queue_fifo t out :
  qp_holds t out ->
  (forall l rest, Forall (rq_takes (r_rq (qt_st t))) (l ++ rest) ->
     (length out + length l <= Z.to_nat (max_post (r_rq (qt_st t))))%nat ->
     rest = [] \/ (length out + length l)%nat = Z.to_nat (max_post (r_rq (qt_st t))) ->
     exists t', post_recv_to t (l ++ rest) = Some (full_stop (length l) rest, t') /\
       qp_holds t' (out ++ l)) /\
  (forall wr r, out = wr :: r -> exists rq',
     comp_recv (r_rq (qt_st t)) = (r_wr_id wr, rq') /\
     qp_holds (mkqpt (qt_gsi t) (qt_internal_error t) (qt_type t) (qt_wq_sig t)
                 (mkrst rq' (r_mem (qt_st t)) (r_db (qt_st t)))) r).
Proof.
  intros Hh. split.
  - intros l rest Hok Hc Hr. destruct (qp_holds_post t out l rest) as (t' & E & Hh' & _); auto. by exists t'.
  - intros wr r ->. destruct Hh as (Hie & Hty & Hsg & l & Hl & Hinv).
    destruct l as [|[wr' sges] l]; [done|]. injection Hl as -> <-.
    destruct (rq_inv_comp _ _ _ _ _ Hinv) as (rq' & E & Hi). exists rq'. split; [done|].
    split; [done|]. split; [done|]. split; [done|]. by exists l.
Qed.

(** The example receive queue with nothing posted. *)
Definition ex_target : qp_target :=
  mkqpt (fun _ _ => (0, None)) false IB_QPT_RC false
    (mkrst (set_tail_poll ex_rq (head ex_rq) 0) {| fm_size := 4096; fm_byte := fun _ => 0 |} (be32 0)).

Lemma ex_target_holds : qp_holds ex_target [].
Proof.
  split; [done|]. split; [done|]. split; [done|]. exists []. split; [done|].
  destruct ex_rq_wf as [Hwf Hm]. split; [exact Hwf|exact Hm|vm_compute; done|done|done].
Qed.

Lemma recv_queue_fifo_witness :
  exists t', post_recv_to ex_target ([mkrwr 5 [] 0] ++ []) = Some (full_stop 1 [], t') /\
    qp_holds t' ([] ++ [mkrwr 5 [] 0]).
Proof.
  apply (recv_queue_fifo ex_target [] ex_target_holds); [|vm_compute; lia|by left].
  apply Forall_singleton. split; [vm_compute; done|by exists []].
Defined.
