(* ===== verification/QpModify.v ===== *)
(** * QpModify: changing the state of a queue pair (hw/mlx5/qp.c, mlx5_ib_modify_qp)

    The handler from the checks on the transition to the command for the device
    and what follows its success, a move to RESET cleaning the completion queues
    and rewinding the work queues.  Left to parameters are the paths for queue
    pairs that have no context in the device of their own: the GSI wrapper,
    DC targets and raw packet queue pairs. *)

From S2P Require Import Prelude ErrState FragBuf Strides KHeap FragAlloc QpTypes SqRing RecvQueue Srq Cqe CqRing QpState QpContext.

Open Scope es_scope.

Definition MLX5_IB_QP_SQPN_QP1 : Z := 64.
Definition MLX5_IB_QP_UNDERLAY : Z := 1024.
Definition MLX5_QP_OOO_ATTR : Z := 25.
Definition MLX5_IB_ACK_REQ_FREQ : Z := 8.
Definition MLX5_MAX_PORTS : Z := 2.
Definition IB_MTU_256 : Z := 1.
Definition IB_MTU_4096 : Z := 5.
Definition IB_QP_OFFLOAD_NVMF : Z := 1.
Definition MLX5_QPC_OFFLOAD_TYPE_NVMF : Z := 2.

(** What does not change after the queue pair was created. *)
Record qp_fix := mkfix {
  k_type : ib_qp_type;
  k_sub_type : ib_qp_type;
  k_flags : Z;
  k_uobject : bool;                (* made for a user process *)
  k_kernel : bool;                 (* create_type == MLX5_QP_KERNEL *)
  k_num : Z;                       (* ibqp.qp_num *)
  k_qpn : Z;                       (* base.mqp.qpn *)
  k_pdn : option Z;
  k_send_cq : option Z;
  k_recv_cq : option Z;
  k_rwq_ind_tbl : bool;
  k_rq_srq : bool;                 (* rq_type == MLX5_SRQ_RQ *)
  k_counter : option Z;            (* ibqp->counter->id *)
  k_db_dma : Z;
}.

Record qp_dyn := mkdyn {
  k_state : ib_qp_state;
  k_port : Z;
  k_atomic_rd_en : Z;
  k_resp_depth : Z;
  k_alt_port : Z;
  k_srq : option Z;
  k_counter_pending : bool;
  k_ah : option (rdma_ah_attr * Z);
}.

Record kqp := mkkqp {
  k_fix : qp_fix;
  k_dyn : qp_dyn;
  k_sq : mlx5_ib_wq;
  k_rq : mlx5_ib_wq;
  k_db : option (list Z * list Z); (* db.db[MLX5_RCV_DBR], db.db[MLX5_SND_DBR] *)
}.

(** A command for the device; 2RST and 2ERR carry no context. *)
Record qp_cmd := mkcmd { c_op : Z; c_body : option (Z * mlx5_qp_context) }.

Record srq_info := mksrqi { si_q : mlx5_ib_srq * frag_mem; si_usecnt : Z; si_nvmf : bool }.

Record mst := mkmst {
  m_qp : kqp;
  m_cqs : Z -> option mlx5_ib_cq;
  m_srqs : Z -> option srq_info;
  m_tx : Z;                        (* tx_port_affinity *)
  m_cmds : list (qp_cmd * Z);      (* commands the device saw, with its answer *)
}.

(** What the surroundings answer during a call: the allocators and the device. *)
Record env := mkenv {
  e_ctx : bool;                    (* kzalloc of the context *)
  e_mbox : qp_cmd -> bool;         (* kzalloc of the mailboxes *)
  e_exec : qp_cmd -> Z;            (* mlx5_cmd_exec *)
}.

Definition with_m_qp (s : mst) (q : kqp) : mst := mkmst q (m_cqs s) (m_srqs s) (m_tx s) (m_cmds s).
Definition with_m_cqs (s : mst) (c : Z -> option mlx5_ib_cq) : mst :=
  mkmst (m_qp s) c (m_srqs s) (m_tx s) (m_cmds s).
Definition with_m_srqs (s : mst) (c : Z -> option srq_info) : mst :=
  mkmst (m_qp s) (m_cqs s) c (m_tx s) (m_cmds s).
Definition with_m_tx (s : mst) (t : Z) : mst := mkmst (m_qp s) (m_cqs s) (m_srqs s) t (m_cmds s).
Definition with_m_cmd (s : mst) (c : qp_cmd) (e : Z) : mst :=
  mkmst (m_qp s) (m_cqs s) (m_srqs s) (m_tx s) (m_cmds s ++ [(c, e)]).
Definition with_k_dyn (q : kqp) (d : qp_dyn) : kqp := mkkqp (k_fix q) d (k_sq q) (k_rq q) (k_db q).
Definition with_k_srq (q : kqp) (srq : option Z) : kqp :=
  let d := k_dyn q in
  with_k_dyn q (mkdyn (k_state d) (k_port d) (k_atomic_rd_en d) (k_resp_depth d) (k_alt_port d) srq
                  (k_counter_pending d) (k_ah d)).
Definition with_k_ah (q : kqp) (ah : option (rdma_ah_attr * Z)) : kqp :=
  let d := k_dyn q in
  with_k_dyn q (mkdyn (k_state d) (k_port d) (k_atomic_rd_en d) (k_resp_depth d) (k_alt_port d) (k_srq d)
                  (k_counter_pending d) (if ah is Some _ then ah else k_ah d)).
Definition with_k_pending (q : kqp) (b : bool) : kqp :=
  let d := k_dyn q in
  with_k_dyn q (mkdyn (k_state d) (k_port d) (k_atomic_rd_en d) (k_resp_depth d) (k_alt_port d) (k_srq d)
                  b (k_ah d)).

(** ** Helpers of the handler *)

Definition is_sqp (t : ib_qp_type) : bool :=
  match t with IB_QPT_SMI | MLX5_IB_QPT_HW_GSI => true | _ => false end.

Definition is_ooo_supported (dev : mlx5_dev) (t : ib_qp_type) : bool :=
  match t with
  | IB_QPT_RC => multipath_rc_qp dev
  | IB_QPT_XRC_INI | IB_QPT_XRC_TGT => multipath_xrc_qp dev
  | IB_EXP_QPT_DC_INI => multipath_dc_qp dev
  | _ => false
  end.

(** send_cq, recv_cq *)
Definition get_cqs (t : ib_qp_type) (ib_send_cq ib_recv_cq : option Z) : option Z * option Z :=
  match t with
  | IB_QPT_XRC_TGT => (None, None)
  | MLX5_IB_QPT_REG_UMR | IB_QPT_XRC_INI => (ib_send_cq, None)
  | IB_QPT_SMI | MLX5_IB_QPT_HW_GSI | IB_QPT_RC | IB_QPT_UC | IB_QPT_UD | IB_QPT_RAW_IPV6
  | IB_QPT_RAW_ETHERTYPE | MLX5_IB_QPT_SW_CNAK | IB_QPT_RAW_PACKET => (ib_send_cq, ib_recv_cq)
  | _ => (None, None)
  end.

(** modify_qp_mbox_alloc: the command that goes into the mailbox. *)
Definition modify_qp_mbox (op optpar : Z) (ctx : mlx5_qp_context) : option qp_cmd :=
  if (op =? MLX5_CMD_OP_2RST_QP) || (op =? MLX5_CMD_OP_2ERR_QP) then Some (mkcmd op None)
  else if (op =? MLX5_CMD_OP_RST2INIT_QP) || (op =? MLX5_CMD_OP_INIT2RTR_QP)
          || (op =? MLX5_CMD_OP_RTR2RTS_QP) || (op =? MLX5_CMD_OP_RTS2RTS_QP)
          || (op =? MLX5_CMD_OP_SQERR2RTS_QP) || (op =? MLX5_CMD_OP_SQD_RTS_QP)
          || (op =? MLX5_CMD_OP_INIT2INIT_QP)
       then Some (mkcmd op (Some (optpar, ctx)))
       else None.

Definition mlx5_core_qp_modify (e : env) (op optpar : Z) (ctx : mlx5_qp_context) : es mst unit :=
  match modify_qp_mbox op optpar ctx with
  | None => es_fail (- EINVAL)
  | Some c =>
      if negb (e_mbox e c) then es_fail (- ENOMEM)
      else es_mod (fun s => with_m_cmd s c (e_exec e c)) ;;
           if e_exec e c =? 0 then es_ret tt else es_fail (e_exec e c)
  end.

(** ** The context for the command *)

Definition takes_tx_affinity (t : ib_qp_type) (fl : Z) : bool :=
  match t with
  | IB_QPT_RC | IB_QPT_UC | IB_QPT_RAW_PACKET | IB_QPT_XRC_INI | IB_QPT_XRC_TGT
  | IB_EXP_QPT_DC_INI => true
  | IB_QPT_UD => negb (test fl MLX5_IB_QP_SQPN_QP1)
  | _ => false
  end.

Definition get_tx_affinity : es mst Z :=
  es_mod (fun s => with_m_tx s (u32 (m_tx s + 1))) ;;
  do! s := es_get in es_ret (m_tx s mod MLX5_MAX_PORTS + 1).

(** The migration state, in the two bits of the context. *)
Definition mig_bits (attr : ib_qp_attr) (mask : Z) : Z :=
  if negb (test mask IB_QP_PATH_MIG_STATE) then 3
  else match path_mig_state attr with
       | IB_MIG_MIGRATED => 3 | IB_MIG_REARM => 1 | IB_MIG_ARMED => 0
       end.

Definition mtu_field (dev : mlx5_dev) (f : qp_fix) (attr : ib_qp_attr) (mask : Z) : Z + Z :=
  let t := k_type f in
  if is_sqp t then inr ((IB_MTU_256 <<. 5) .| 8)
  else if (qpt_eqb t IB_QPT_UD && negb (test (k_flags f) MLX5_IB_QP_UNDERLAY))
          || qpt_eqb t MLX5_IB_QPT_REG_UMR
       then inr ((IB_MTU_4096 <<. 5) .| 12)
  else if test mask IB_QP_PATH_MTU then
         if (path_mtu attr <? IB_MTU_256) || (IB_MTU_4096 <? path_mtu attr) then inl (- EINVAL)
         else inr (u8 ((path_mtu attr <<. 5) .| u8 (log_max_msg dev)))
  else inr 0.

(** The primary path before and after the address is filled in. *)
Definition pri_path_start (f : qp_fix) (d : qp_dyn) (attr : ib_qp_attr) (mask : Z) : mlx5_qp_path :=
  {| fl_free_ar := 0;
     p_pkey_index := if test mask IB_QP_PKEY_INDEX then pkey_index attr else 0;
     grh_mlid := 0; rlid := 0; ackto_lt := 0; mgid_index := 0; static_rate := 0; hop_limit := 0;
     tclass_flowlabel := 0; rgid := zeros 16; ecn_dscp := 0; udp_sport := 0; dci_cfi_prio_sl := 0;
     p_port := if test mask IB_QP_PORT then port_num attr else if is_sqp (k_type f) then k_port d else 0;
     rmac := zeros 6 |}.

Definition add_timeout (p : mlx5_qp_path) (attr : ib_qp_attr) (mask : Z) : mlx5_qp_path :=
  {| fl_free_ar := fl_free_ar p; p_pkey_index := p_pkey_index p; grh_mlid := grh_mlid p; rlid := rlid p;
     ackto_lt := if test mask IB_QP_TIMEOUT then ackto_lt p .| u8 (timeout attr <<. 3) else ackto_lt p;
     mgid_index := mgid_index p; static_rate := static_rate p; hop_limit := hop_limit p;
     tclass_flowlabel := tclass_flowlabel p; rgid := rgid p; ecn_dscp := ecn_dscp p;
     udp_sport := udp_sport p; dci_cfi_prio_sl := dci_cfi_prio_sl p; p_port := p_port p; rmac := rmac p |}.

Definition set_path (dev : mlx5_dev) (q : path_qp) (ah : rdma_ah_attr) (path : mlx5_qp_path)
    (port mask : Z) (attr : ib_qp_attr) (alt : bool) : es mst mlx5_qp_path :=
  let '(r, saved) := mlx5_set_path dev q ah path port mask 0 attr alt in
  es_mod (fun s => with_m_qp s (with_k_ah (m_qp s) saved)) ;; es_sum r.

Definition params1_field (attr : ib_qp_attr) (mask : Z) : Z :=
  u32 (MLX5_IB_ACK_REQ_FREQ <<. 28)
  .| (if test mask IB_QP_RNR_RETRY then rnr_retry attr <<. 13 else 0)
  .| (if test mask IB_QP_RETRY_CNT then retry_cnt attr <<. 16 else 0)
  .| (if test mask IB_QP_MAX_QP_RD_ATOMIC && negb (max_rd_atomic attr =? 0)
      then fls (max_rd_atomic attr - 1) <<. 21 else 0).

(** The counter set of the queue pair, for RST2INIT. *)
Definition counter_set (dev : mlx5_dev) (f : qp_fix) (d : qp_dyn) (attr : ib_qp_attr) (mask : Z) : Z :=
  let port := u8 ((if test mask IB_QP_PORT then port_num attr else k_port d) - 1) in
  let port := if test (k_flags f) MLX5_IB_QP_UNDERLAY then 0 else port in
  match k_counter f with Some id => id | None => counters_id dev port end.

(** The bit for out-of-order data placement; [None] is the jump to [out]. *)
Definition ooo_bit (dev : mlx5_dev) (t : ib_qp_type) (mask : Z) : option Z :=
  if test mask IB_EXP_QP_OOO_RW_DATA_PLACEMENT then
    match t with
    | IB_QPT_RC | IB_QPT_XRC_INI | IB_QPT_XRC_TGT | IB_EXP_QPT_DC_INI =>
        if is_ooo_supported dev t then Some (1 <<. MLX5_QP_OOO_ATTR) else None
    | _ => Some 0
    end
  else Some 0.

(** What [err] holds at that jump: 0 if one of the calls before set it. *)
Definition err_so_far (mask : Z) : option Z :=
  if test mask (IB_QP_AV .| IB_QP_ALT_PATH .| IB_QP_ACCESS_FLAGS .| IB_QP_MAX_DEST_RD_ATOMIC)
  then Some 0 else None.

Definition modify_context (dev : mlx5_dev) (f : qp_fix) (d : qp_dyn) (rq_cnt : Z) (q : path_qp)
    (attr : ib_qp_attr) (mask : Z) (cur new : ib_qp_state) (st : Z) : es mst mlx5_qp_context :=
  let first := qps_eqb cur IB_QPS_RESET && qps_eqb new IB_QPS_INIT in
  let port := if test mask IB_QP_PORT then port_num attr else k_port d in
  do! tx := (if first && takes_tx_affinity (k_type f) (k_flags f) && lag dev
             then get_tx_affinity else es_ret 0) in
  do! mtu := es_sum (mtu_field dev f attr mask) in
  let pri := pri_path_start f d attr mask in
  do! pri := (if test mask IB_QP_AV
              then set_path dev q (ah_attr attr) pri port mask attr false else es_ret pri) in
  let pri := add_timeout pri attr mask in
  do! alt := (if test mask IB_QP_ALT_PATH
              then set_path dev q (alt_ah_attr attr) zero_path (alt_port_num attr)
                     (mask .| IB_QP_PKEY_INDEX .| IB_QP_TIMEOUT) attr true
              else es_ret zero_path) in
  if test mask IB_QP_ACCESS_FLAGS && test (qp_access_flags attr) IB_ACCESS_REMOTE_ATOMIC
     && negb (enable_atomic_resp dev)
  then es_fail (- EINVAL)
  else
  do! access := (if test mask (IB_QP_ACCESS_FLAGS .| IB_QP_MAX_DEST_RD_ATOMIC)
                 then es_sum (to_mlx5_access_flags dev (k_type f) (k_resp_depth d) (k_atomic_rd_en d) attr mask)
                 else es_ret 0) in
  let '(send_cq, recv_cq) := get_cqs (k_type f) (k_send_cq f) (k_recv_cq f) in
  match ooo_bit dev (k_type f) mask with
  | None => do! err := es_lift (err_so_far mask) in es_fail err
  | Some ooo =>
      es_ret
        {| flags := (st <<. 16) .| (mig_bits attr mask <<. 11) .| (tx <<. 24);
           flags_pd := default (p0_pdn dev) (k_pdn f) .| ooo;
           mtu_msgmax := mtu;
           sq_crq_size := if negb (k_uobject f) && first then 1 <<. 4 else 0;
           qp_counter_set_usr_page := if first then u32 (counter_set dev f d attr mask <<. 24) else 0;
           log_pg_sz_remote_qpn := if test mask IB_QP_DEST_QPN then dest_qp_num attr else 0;
           pri_path := pri;
           alt_path := alt;
           params1 := params1_field attr mask;
           next_send_psn := if test mask IB_QP_SQ_PSN then sq_psn attr .& 16777215 else 0;
           cqn_send := default 0 send_cq;
           deth_sqpn := if test (k_flags f) MLX5_IB_QP_SQPN_QP1 then 1 else 0;
           params2 := (if test mask IB_QP_MAX_DEST_RD_ATOMIC && negb (max_dest_rd_atomic attr =? 0)
                       then fls (max_dest_rd_atomic attr - 1) <<. 21 else 0) .| access;
           rnr_nextrecvpsn := (if test mask IB_QP_MIN_RNR_TIMER then u32 (min_rnr_timer attr <<. 24) else 0)
                              .| (if test mask IB_QP_RQ_PSN then rq_psn attr .& 16777215 else 0);
           cqn_recv := default 0 recv_cq;
           db_rec_addr := if negb (rq_cnt =? 0) && first then k_db_dma f else 0;
           ctx_qkey := if test mask IB_QP_QKEY then qkey attr else 0;
           rq_type_srqn := 0;
           dc_access_key := if test mask IB_QP_DC_KEY then dct_key attr else 0 |}
  end.

(** ** After the command *)

Definition rewind_sq (sq : mlx5_ib_wq) : mlx5_ib_wq :=
  {| fbc := fbc sq; wrid := wrid sq; wr_data := wr_data sq; w_list_opcode := w_list_opcode sq;
     w_list_next := w_list_next sq; wqe_head := wqe_head sq; wqe_cnt := wqe_cnt sq;
     max_post := max_post sq; max_gs := max_gs sq; wq_offset := wq_offset sq; wqe_shift := wqe_shift sq;
     head := 0; tail := 0; cur_post := 0; last_poll := 0;
     cur_edge := if wqe_cnt sq =? 0 then cur_edge sq else get_sq_edge sq 0 |}.

Definition rewind_rq (rq : mlx5_ib_wq) : mlx5_ib_wq :=
  {| fbc := fbc rq; wrid := wrid rq; wr_data := wr_data rq; w_list_opcode := w_list_opcode rq;
     w_list_next := w_list_next rq; wqe_head := wqe_head rq; wqe_cnt := wqe_cnt rq;
     max_post := max_post rq; max_gs := max_gs rq; wq_offset := wq_offset rq; wqe_shift := wqe_shift rq;
     head := 0; tail := 0; cur_post := cur_post rq; last_poll := last_poll rq; cur_edge := cur_edge rq |}.

(** mlx5_ib_cq_clean(cq, qpn, srq) on the tables of completion and shared
    receive queues. *)
Definition clean_cq (cq : option Z) (qpn : Z) (srq : option Z) : es mst unit :=
  match cq with
  | None => es_ret tt
  | Some i =>
      do! s := es_get in
      do! c := es_lift (m_cqs s i) in
      do! info := es_lift (match srq with
                           | Some j => x ← m_srqs s j; Some (Some (j, x))
                           | None => Some None
                           end) in
      do! r := es_lift (mlx5_ib_cq_clean (Some c) qpn ((fun '(_, x) => si_q x) <$> info)) in
      let s := with_m_cqs s (upd (m_cqs s) i (fst r)) in
      es_mod (fun _ => match info, snd r with
                       | Some (j, x), Some q' =>
                           with_m_srqs s (upd (m_srqs s) j (Some (mksrqi q' (si_usecnt x) (si_nvmf x))))
                       | _, _ => s
                       end)
  end.

(** The new state and the attributes the driver keeps itself. *)
Definition record_attrs (attr : ib_qp_attr) (mask : Z) (new : ib_qp_state) (q : kqp) : kqp :=
  let d := k_dyn q in
  with_k_dyn q
    {| k_state := new;
       k_port := if test mask IB_QP_PORT then port_num attr else k_port d;
       k_atomic_rd_en := if test mask IB_QP_ACCESS_FLAGS then u8 (qp_access_flags attr) else k_atomic_rd_en d;
       k_resp_depth := if test mask IB_QP_MAX_DEST_RD_ATOMIC then max_dest_rd_atomic attr else k_resp_depth d;
       k_alt_port := if test mask IB_QP_ALT_PATH then alt_port_num attr else k_alt_port d;
       k_srq := k_srq d; k_counter_pending := k_counter_pending d; k_ah := k_ah d |}.

Definition rewind (q : kqp) : kqp :=
  mkkqp (k_fix q) (k_dyn q) (rewind_sq (k_sq q)) (rewind_rq (k_rq q))
    (match k_db q with Some _ => Some (be32 0, be32 0) | None => None end).

Definition reset_queues : es mst unit :=
  do! s := es_get in
  let f := k_fix (m_qp s) in
  let '(send_cq, recv_cq) := get_cqs (k_type f) (k_send_cq f) (k_recv_cq f) in
  clean_cq recv_cq (k_qpn f) (k_srq (k_dyn (m_qp s))) ;;
  (when negb (bool_decide (send_cq = recv_cq)) then! clean_cq send_cq (k_qpn f) None) ;;
  es_mod (fun s => with_m_qp s (rewind (m_qp s))).

(** __mlx5_ib_qp_set_counter: the context has the counter set and nothing else. *)
Definition qp_set_counter (dev : mlx5_dev) (e : env) : es mst unit :=
  do! s := es_get in
  let f := k_fix (m_qp s) in
  let set_id := match k_counter f with
                | Some id => id
                | None => counters_id dev (u8 (k_port (k_dyn (m_qp s)) - 1))
                end in
  mlx5_core_qp_modify e MLX5_CMD_OP_RTS2RTS_QP MLX5_QP_OPTPAR_COUNTER_SET_ID
    (mkctx 0 0 0 0 (u32 (set_id <<. 24)) 0 zero_path zero_path 0 0 0 0 0 0 0 0 0 0 0).

Definition after_command (dev : mlx5_dev) (e : env) (attr : ib_qp_attr) (mask : Z) (new : ib_qp_state)
    : es mst unit :=
  es_mod (fun s => with_m_qp s (record_attrs attr mask new (m_qp s))) ;;
  do! s := es_get in
  let f := k_fix (m_qp s) in
  (when qps_eqb new IB_QPS_RESET && negb (k_uobject f) && negb (qpt_eqb (k_type f) IB_QPT_XRC_TGT)
   then! reset_queues) ;;
  do! s := es_get in
  when qps_eqb new IB_QPS_RTS && k_counter_pending (k_dyn (m_qp s))
  then! (qp_set_counter dev e ;; es_mod (fun s => with_m_qp s (with_k_pending (m_qp s) false))).

(** ** Attaching another shared receive queue *)

Definition count_srq (n : Z) (dn : Z) (s : mst) : mst :=
  with_m_srqs s (upd (m_srqs s) n
    ((fun x => mksrqi (si_q x) (si_usecnt x + dn) (si_nvmf x)) <$> m_srqs s n)).

(** mlx5_ib_set_qp_srqn and the reference counts around it; the old queue is
    what the error path puts back. *)
Definition swap_srq (srqn : Z) : es mst Z :=
  do! s := es_get in
  let q := m_qp s in
  if negb (k_rq_srq (k_fix q)) then es_fail (- EINVAL)
  else match m_srqs s srqn with
       | None => es_fail (- EINVAL)
       | Some _ =>
           do! old := es_lift (k_srq (k_dyn q)) in
           es_mod (fun s => count_srq srqn 1 (count_srq old (-1)
                              (with_m_qp s (with_k_srq (m_qp s) (Some srqn))))) ;;
           es_ret old
       end.

Definition restore_srq (old : Z) : es mst unit :=
  do! s := es_get in
  do! srqn := es_lift (k_srq (k_dyn (m_qp s))) in
  es_mod (fun s => with_m_qp (count_srq old 1 (count_srq srqn (-1) s)) (with_k_srq (m_qp s) (Some old))).

(** mlx5_ib_set_qp_offload_type: the bits for the context. *)
Definition offload_bits (s : mst) (offload_type : Z) : Z + Z :=
  let nvmf := match k_srq (k_dyn (m_qp s)) with
              | Some n => match m_srqs s n with Some x => si_nvmf x | None => false end
              | None => false
              end in
  if (offload_type =? IB_QP_OFFLOAD_NVMF) && nvmf then inr (MLX5_QPC_OFFLOAD_TYPE_NVMF <<. 4)
  else inl (- EINVAL).

Definition with_flags (c : mlx5_qp_context) (bits srqn : Z) : mlx5_qp_context :=
  {| flags := flags c .| bits; flags_pd := flags_pd c; mtu_msgmax := mtu_msgmax c;
     sq_crq_size := sq_crq_size c; qp_counter_set_usr_page := qp_counter_set_usr_page c;
     log_pg_sz_remote_qpn := log_pg_sz_remote_qpn c; pri_path := pri_path c; alt_path := alt_path c;
     params1 := params1 c; next_send_psn := next_send_psn c; cqn_send := cqn_send c;
     deth_sqpn := deth_sqpn c; params2 := params2 c; rnr_nextrecvpsn := rnr_nextrecvpsn c;
     cqn_recv := cqn_recv c; db_rec_addr := db_rec_addr c; ctx_qkey := ctx_qkey c;
     rq_type_srqn := rq_type_srqn c .| srqn; dc_access_key := dc_access_key c |}.

(** ** The handler *)

Record udata := mkudata {
  u_inlen : Z;
  u_cleared : bool;                (* ib_is_udata_cleared of the bytes behind the command *)
  u_copied : bool;                 (* ib_copy_from_udata *)
  u_comp_mask : Z;
  u_reserved : bool;               (* a reserved byte is not zero *)
}.

Definition check_udata (u : option udata) : Z + unit :=
  match u with
  | Some u =>
      if u_inlen u =? 0 then inr tt
      else if u_inlen u <? 16 then inl (- EINVAL)
      else if (16 <? u_inlen u) && negb (u_cleared u) then inl (- EOPNOTSUPP)
      else if negb (u_copied u) then inl (- EFAULT)
      else if negb (u_comp_mask u =? 0) || u_reserved u then inl (- EOPNOTSUPP)
      else inr tt
  | None => inr tt
  end.

Definition set_dc_ini_ah_fields (dev : mlx5_dev) (attr : ib_qp_attr) : ib_qp_attr :=
  let ah := ah_attr attr in
  {| qp_state := qp_state attr; cur_qp_state := cur_qp_state attr; path_mtu := path_mtu attr;
     path_mig_state := path_mig_state attr; qkey := qkey attr; rq_psn := rq_psn attr;
     sq_psn := sq_psn attr; dest_qp_num := dest_qp_num attr; qp_access_flags := qp_access_flags attr;
     ah_attr := mkah (ah_type ah) (ah_sl ah) IB_RATE_PORT_CURRENT (start_port dev) (ah_flags ah)
                  (ah_dgid ah) (ah_flow_label ah) (ah_sgid_index ah) (ah_hop_limit ah)
                  (ah_traffic_class ah) (ah_gid_type ah) (ah_dlid ah) (ah_src_path_bits ah)
                  (ah_udp_sport ah) (ah_dmac ah);
     alt_ah_attr := alt_ah_attr attr; pkey_index := pkey_index attr; alt_pkey_index := alt_pkey_index attr;
     max_rd_atomic := max_rd_atomic attr; max_dest_rd_atomic := max_dest_rd_atomic attr;
     min_rnr_timer := min_rnr_timer attr; port_num := port_num attr; timeout := timeout attr;
     retry_cnt := retry_cnt attr; rnr_retry := rnr_retry attr; alt_port_num := alt_port_num attr;
     alt_timeout := alt_timeout attr; dct_key := dct_key attr; offload_type := offload_type attr;
     rmpn_xrqn := rmpn_xrqn attr |}.

Definition cur_state (d : qp_dyn) (attr : ib_qp_attr) (mask : Z) : ib_qp_state :=
  if test mask IB_QP_CUR_STATE then cur_qp_state attr else k_state d.
Definition new_state (d : qp_dyn) (attr : ib_qp_attr) (mask : Z) : ib_qp_state :=
  if test mask IB_QP_STATE then qp_state attr else cur_state d attr mask.

(** The type the transition is checked with. *)
Definition checked_type (f : qp_fix) : ib_qp_type :=
  match k_type f with
  | IB_QPT_DRIVER => k_sub_type f
  | MLX5_IB_QPT_HW_GSI => IB_QPT_GSI
  | t => t
  end.

(** The type that decides the service. *)
Definition device_type (f : qp_fix) : ib_qp_type :=
  match k_type f with IB_QPT_DRIVER => k_sub_type f | t => t end.

(** Is the transition allowed? *)
Definition transition_ok (f : qp_fix) (cur new : ib_qp_state) (mask : Z) : option bool :=
  let t := checked_type f in
  if test (k_flags f) MLX5_IB_QP_UNDERLAY
  then Some (negb (test mask (Z.lnot (IB_QP_STATE .| IB_QP_CUR_STATE))))
  else if ignored_ts_check t
       then Some (negb (qpt_eqb t MLX5_IB_QPT_DCI) || modify_dci_qp_is_ok cur new mask)
       else ib_modify_qp_is_ok cur new t mask.

(** Are the values in the ranges of the device? *)
Definition values_ok (dev : mlx5_dev) (d : qp_dyn) (attr : ib_qp_attr) (mask : Z) : bool :=
  let port := if test mask IB_QP_PORT then port_num attr else k_port d in
  if test mask IB_QP_PORT && ((port_num attr =? 0) || (num_ports dev <? port_num attr)) then false
  else if test mask IB_QP_PKEY_INDEX && (pkey_table_len dev (port - 1) <=? pkey_index attr) then false
  else if test mask IB_QP_MAX_QP_RD_ATOMIC && ((1 <<. log_max_ra_res_qp dev) <? max_rd_atomic attr)
       then false
  else if test mask IB_QP_MAX_DEST_RD_ATOMIC && ((1 <<. log_max_ra_req_qp dev) <? max_dest_rd_atomic attr)
       then false
  else true.

Section Handler.
Context (dev : mlx5_dev).
(** modify_raw_packet_qp, mlx5_ib_gsi_modify_qp and mlx5_ib_modify_dct *)
Context (modify_raw : Z -> ib_qp_attr -> Z -> es mst unit).
Context (modify_gsi modify_dct : ib_qp_attr -> Z -> es mst unit).

(** From the raised command on; [srqn] is the new shared receive queue. *)
Definition send_command (e : env) (attr : ib_qp_attr) (mask : Z) (new : ib_qp_state) (op optpar : Z)
    (ctx : mlx5_qp_context) (srqn : Z) : es mst unit :=
  do! s := es_get in
  let f := k_fix (m_qp s) in
  do! off := (if test mask IB_QP_OFFLOAD_TYPE then es_sum (offload_bits s (offload_type attr))
              else es_ret 0) in
  (if qpt_eqb (k_type f) IB_QPT_RAW_PACKET || test (k_flags f) MLX5_IB_QP_UNDERLAY
   then modify_raw op attr mask
   else mlx5_core_qp_modify e op optpar (with_flags ctx off srqn)) ;;
  after_command dev e attr mask new.

(** __mlx5_ib_modify_qp *)
Definition modify_qp_ (e : env) (attr : ib_qp_attr) (mask : Z) (cur new : ib_qp_state) : es mst unit :=
  do! s := es_get in
  let q := m_qp s in
  let f := k_fix q in
  let st := to_mlx5_st (device_type f) in
  if st <? 0 then es_fail (- EINVAL)
  else if negb (e_ctx e) then es_fail (- ENOMEM)
  else
  do! ctx := modify_context dev f (k_dyn q) (wqe_cnt (k_rq q))
               (mkpathqp (k_type f) (k_num f) (negb (wqe_cnt (k_sq q) =? 0))) attr mask cur new st in
  let mlx5_cur := to_mlx5_state cur in
  let mlx5_new := to_mlx5_state new in
  let op := optab mlx5_cur mlx5_new in
  if op =? 0 then es_fail (- EINVAL)
  else
  do! om := es_lift (opt_mask mlx5_cur mlx5_new st) in
  let optpar := ib_mask_to_mlx5_opt mask .& om in
  if test mask IB_QP_RMPN_XRQN then
    do! old := swap_srq (rmpn_xrqn attr) in
    es_cleanup (send_command e attr mask new op optpar ctx (rmpn_xrqn attr .& 16777215)) (restore_srq old)
  else send_command e attr mask new op optpar ctx 0.

Definition mlx5_ib_modify_qp (e : env) (u : option udata) (attr : ib_qp_attr) (mask : Z) : es mst unit :=
  do! s := es_get in
  let f := k_fix (m_qp s) in
  let d := k_dyn (m_qp s) in
  if k_rwq_ind_tbl f then es_fail (- ENOSYS)
  else
  es_sum (check_udata u) ;;
  if qpt_eqb (k_type f) IB_QPT_GSI then modify_gsi attr mask
  else if qpt_eqb (checked_type f) MLX5_IB_QPT_DCT then modify_dct attr mask
  else
  let cur := cur_state d attr mask in
  let new := new_state d attr mask in
  do! ok := es_lift (transition_ok f cur new mask) in
  if negb ok then es_fail (- EINVAL)
  else if negb (values_ok dev d attr mask) then es_fail (- EINVAL)
  else if qps_eqb cur new && qps_eqb cur IB_QPS_RESET then es_ret tt
  else
  let mask := if k_kernel f && qps_eqb new IB_QPS_RTR && ooo_enabled dev && is_ooo_supported dev (k_type f)
              then mask .| IB_EXP_QP_OOO_RW_DATA_PLACEMENT else mask in
  let attr := if test mask IB_QP_AV then set_dc_ini_ah_fields dev attr else attr in
  modify_qp_ e attr mask cur new.
End Handler.
