(* ===== verification/QpExample.v ===== *)
(** * QpExample: a device and a queue pair to evaluate the handlers on

    A reliable connection of the kernel, number 5, with the send and receive
    queues, the completion queues and the memory of the other files' examples. *)

From S2P Require Import Prelude ErrState FragBuf Strides KHeap FragAlloc QpTypes SqRing PostSend PostRing PostSendThm RecvQueue Srq Cqe CqRing CqResize QpState QpContext QpModify.

(** An InfiniBand port, no out-of-order placement, no rules of an
    administrator. *)
Definition ib_dev : mlx5_dev :=
  {| num_ports := 1; pkey_table_len := fun _ => 128; gid_table_len := fun _ => 16;
     log_max_ra_res_qp := 4; log_max_ra_req_qp := 4; log_max_msg := 30;
     multipath_rc_qp := false; multipath_xrc_qp := false; multipath_dc_qp := false; ooo_enabled := true;
     lag := false; enable_atomic_resp := true; cap_atomic := true; atomic_operations := 3;
     atomic_size_dc := 8; atomic_size_qp := 8; stat_rate_support := 65535; counters_id := fun _ => 0;
     p0_pdn := 7; ttl := fun _ => 0; tclass_get := fun _ _ c => c; start_port := 1;
     port_type := fun _ => RDMA_AH_ATTR_TYPE_IB; eth_prio := fun _ => 0 |}.

Definition rc_fix : qp_fix :=
  {| k_type := IB_QPT_RC; k_sub_type := IB_QPT_RC; k_flags := 0; k_uobject := false; k_kernel := true;
     k_num := 5; k_qpn := 5; k_pdn := Some 1; k_send_cq := Some 0; k_recv_cq := Some 1;
     k_rwq_ind_tbl := false; k_rq_srq := false; k_counter := None; k_db_dma := 4096 |}.

Definition dc_fix : qp_fix :=
  {| k_type := IB_EXP_QPT_DC_INI; k_sub_type := IB_EXP_QPT_DC_INI; k_flags := 0; k_uobject := false;
     k_kernel := true; k_num := 5; k_qpn := 5; k_pdn := Some 1; k_send_cq := Some 0; k_recv_cq := Some 1;
     k_rwq_ind_tbl := false; k_rq_srq := false; k_counter := None; k_db_dma := 4096 |}.

Definition qp_in (f : qp_fix) (st : ib_qp_state) : mst :=
  {| m_qp := mkkqp f (mkdyn st 1 0 0 0 None false None) ex_sq ex_rq (Some (be32 7, be32 7));
     m_cqs := fun i => if i =? 0 then Some ex_clean else if i =? 1 then Some ex_cq else None;
     m_srqs := fun _ => None; m_tx := 0; m_cmds := [] |}.

(** A peer on the same subnet, and one behind a router. *)
Definition ib_peer : rdma_ah_attr :=
  mkah RDMA_AH_ATTR_TYPE_IB 3 0 1 0 (zeros 16) 0 0 0 0 0 21 1 0 (zeros 6).
Definition ib_far_peer : rdma_ah_attr :=
  mkah RDMA_AH_ATTR_TYPE_IB 3 2 1 1 (replicate 16 9) 77 2 8 5 0 21 1 0 (zeros 6).

Definition ex_attr (st : ib_qp_state) (ah : rdma_ah_attr) : ib_qp_attr :=
  {| qp_state := st; cur_qp_state := st; path_mtu := 4; path_mig_state := IB_MIG_MIGRATED; qkey := 0;
     rq_psn := 100; sq_psn := 200; dest_qp_num := 9; qp_access_flags := 7; ah_attr := ah;
     alt_ah_attr := zero_ah; pkey_index := 0; alt_pkey_index := 0; max_rd_atomic := 16;
     max_dest_rd_atomic := 9; min_rnr_timer := 12; port_num := 1; timeout := 14; retry_cnt := 7;
     rnr_retry := 6; alt_port_num := 0; alt_timeout := 0; dct_key := 0; offload_type := 0; rmpn_xrqn := 0 |}.

(** Allocations succeed and the device takes every command. *)
Definition willing : env := mkenv true (fun _ => true) (fun _ => 0).

Definition no_raw : Z -> ib_qp_attr -> Z -> es mst unit := fun _ _ _ => es_fail (- ENOSYS).
Definition no_other : ib_qp_attr -> Z -> es mst unit := fun _ _ => es_fail (- ENOSYS).

Definition to_init : Z := IB_QP_STATE .| IB_QP_PKEY_INDEX .| IB_QP_PORT .| IB_QP_ACCESS_FLAGS.
Definition to_rtr : Z :=
  IB_QP_STATE .| IB_QP_AV .| IB_QP_PATH_MTU .| IB_QP_DEST_QPN .| IB_QP_RQ_PSN .| IB_QP_MAX_DEST_RD_ATOMIC
  .| IB_QP_MIN_RNR_TIMER.

(** The state after a call. *)
Definition after (m : es mst unit) (s : mst) : mst :=
  match m s with Some (_, s') => s' | None => s end.
