(* ===== verification/QpModifyThm.v ===== *)
(** * QpModifyThm: the driver and the device agree on the state of a queue pair

    Seen from the device, the commands of modify_qp are a walk through its own
    state machine; the driver's record of the state follows it, and a queue pair
    that reached a state was given every attribute the states on the way ask
    for. *)

From stdpp Require Import relations.
From S2P Require Import Prelude ErrState FragBuf Strides KHeap FragAlloc QpTypes SqRing RecvQueue Srq Cqe CqRing QpState QpContext QpModify QpExample.

Open Scope es_scope.

(** ** The state machine of the device *)

(** The state a command leaves the queue pair in, if it is legal. *)
Definition dev_next (op : Z) (s : mlx5_qp_state) : option mlx5_qp_state :=
  if op =? MLX5_CMD_OP_2RST_QP then Some MLX5_QP_STATE_RST
  else if op =? MLX5_CMD_OP_2ERR_QP then Some MLX5_QP_STATE_ERR
  else match s with
       | MLX5_QP_STATE_RST => if op =? MLX5_CMD_OP_RST2INIT_QP then Some MLX5_QP_STATE_INIT else None
       | MLX5_QP_STATE_INIT =>
           if op =? MLX5_CMD_OP_INIT2INIT_QP then Some MLX5_QP_STATE_INIT
           else if op =? MLX5_CMD_OP_INIT2RTR_QP then Some MLX5_QP_STATE_RTR else None
       | MLX5_QP_STATE_RTR => if op =? MLX5_CMD_OP_RTR2RTS_QP then Some MLX5_QP_STATE_RTS else None
       | MLX5_QP_STATE_RTS => if op =? MLX5_CMD_OP_RTS2RTS_QP then Some MLX5_QP_STATE_RTS else None
       | MLX5_QP_STATE_SQER => if op =? MLX5_CMD_OP_SQERR2RTS_QP then Some MLX5_QP_STATE_RTS else None
       | MLX5_QP_STATE_SQD => if op =? MLX5_CMD_OP_SQD_RTS_QP then Some MLX5_QP_STATE_RTS else None
       | _ => None
       end.

(** The state after a list of commands with the device's answers; [None] if one
    of them, refused or not, was not legal when it was sent. *)
Fixpoint dev_run (s : mlx5_qp_state) (l : list (qp_cmd * Z)) : option mlx5_qp_state :=
  match l with
  | [] => Some s
  | (c, e) :: r => s' ← dev_next (c_op c) s; dev_run (if e =? 0 then s' else s) r
  end.

Lemma dev_run_app s l1 l2 : dev_run s (l1 ++ l2) = s' ← dev_run s l1; dev_run s' l2.
Proof.
  revert s. induction l1 as [|[c e] r IH]; intros s; [done|]. simpl.
  destruct (dev_next (c_op c) s); [apply IH|done].
Qed.

(** A command of the table is legal and leads where the table says. *)
Lemma optab_legal cur new :
  optab (to_mlx5_state cur) (to_mlx5_state new) <> 0 ->
  dev_next (optab (to_mlx5_state cur) (to_mlx5_state new)) (to_mlx5_state cur) = Some (to_mlx5_state new).
Proof. by destruct cur, new. Qed.

(** ** What one call does *)

(** [sent op new s s']: the call sent command [op]; either the device refused
    and the state stays, or it is [new] and a counter command may follow. *)
Inductive sent (op : Z) (new : ib_qp_state) (s s' : mst) : Prop :=
| sent_refused c e :
    c_op c = op -> e <> 0 -> m_cmds s' = m_cmds s ++ [(c, e)] ->
    k_state (k_dyn (m_qp s')) = k_state (k_dyn (m_qp s)) -> sent op new s s'
| sent_done c rest :
    c_op c = op -> m_cmds s' = m_cmds s ++ (c, 0) :: rest ->
    (rest = [] \/ exists c2 e2, rest = [(c2, e2)] /\ c_op c2 = MLX5_CMD_OP_RTS2RTS_QP /\ new = IB_QPS_RTS) ->
    k_state (k_dyn (m_qp s')) = new -> sent op new s s'.

(** Nothing was sent and the state is as before. *)
Definition quiet (s s' : mst) : Prop :=
  m_cmds s' = m_cmds s /\ k_state (k_dyn (m_qp s')) = k_state (k_dyn (m_qp s)).

Definition same_fix (s s' : mst) : Prop := k_fix (m_qp s') = k_fix (m_qp s).

(** A step that changes neither commands nor state. *)
Definition inert {A} (m : es mst A) : Prop :=
  forall s, post m s (fun _ s' => quiet s s' /\ same_fix s s').

Lemma quiet_refl s : quiet s s /\ same_fix s s.
Proof. done. Qed.
Lemma quiet_trans s1 s2 s3 :
  quiet s1 s2 /\ same_fix s1 s2 -> quiet s2 s3 /\ same_fix s2 s3 -> quiet s1 s3 /\ same_fix s1 s3.
Proof. unfold quiet, same_fix. intros [[? ?] ?] [[? ?] ?]. repeat split; congruence. Qed.

Lemma inert_ret {A} (a : A) : inert (es_ret a).
Proof. intros s. by apply post_ret, quiet_refl. Qed.
Lemma inert_fail {A} e : inert (@es_fail mst A e).
Proof. intros s. by apply post_fail, quiet_refl. Qed.
Lemma inert_get : inert (@es_get mst).
Proof. intros s. by apply post_get, quiet_refl. Qed.
Lemma inert_lift {A} (o : option A) : inert (@es_lift mst A o).
Proof. intros s. apply post_lift. intros. apply quiet_refl. Qed.
Lemma inert_mod f : (forall s, quiet s (f s) /\ same_fix s (f s)) -> inert (es_mod f).
Proof. intros H s. apply post_mod, H. Qed.
Lemma inert_bind {A B} (m : es mst A) (k : A -> es mst B) :
  inert m -> (forall a, inert (k a)) -> inert (es_bind m k).
Proof.
  intros Hm Hk s. apply post_bind. eapply post_mono; [apply Hm|]. intros [e|a] s1 H1; [done|].
  eapply post_mono; [apply Hk|]. intros r s2 H2. by eapply quiet_trans.
Qed.
Lemma inert_sum {A} (r : Z + A) : inert (es_sum r).
Proof. destruct r; [apply inert_fail|apply inert_ret]. Qed.

Create HintDb modify.
#[export] Hint Resolve inert_ret inert_fail inert_get inert_lift inert_sum : modify.

(** Walk through a computation. *)
Ltac inert_tac :=
  repeat match goal with
  | |- inert (es_bind _ _) => apply inert_bind; [|intros ?]
  | |- inert (es_mod _) => apply inert_mod; intros ?
  | |- inert (if ?b then _ else _) => destruct b
  | |- inert (match ?x with _ => _ end) => destruct x
  | |- inert _ => solve [auto with modify]
  end.

Lemma inert_set_path dev q ah p port mask attr alt : inert (set_path dev q ah p port mask attr alt).
Proof. unfold set_path. destruct (mlx5_set_path _ _ _ _ _ _ _ _) as [r saved]. inert_tac. done. Qed.
#[export] Hint Resolve inert_set_path : modify.

Lemma inert_context dev f d n q attr mask cur new st :
  inert (modify_context dev f d n q attr mask cur new st).
Proof. unfold modify_context, get_tx_affinity. inert_tac; done. Qed.

Lemma inert_clean_cq cq n srq : inert (clean_cq cq n srq).
Proof.
  unfold clean_cq. destruct cq as [i|]; [|apply inert_ret].
  intros s. apply post_bind, post_get, post_bind, post_lift. intros c _.
  apply post_bind, post_lift. intros info _. apply post_bind, post_lift. intros r _.
  apply post_mod. destruct info as [[j x]|], (snd r); done.
Qed.
#[export] Hint Resolve inert_context inert_clean_cq : modify.

Lemma inert_reset_queues : inert reset_queues.
Proof. unfold reset_queues. inert_tac; done. Qed.

Lemma inert_swap_srq n : inert (swap_srq n).
Proof. unfold swap_srq. inert_tac; done. Qed.
Lemma inert_restore_srq n : inert (restore_srq n).
Proof. unfold restore_srq. inert_tac; done. Qed.

Lemma mbox_op op optpar ctx c : modify_qp_mbox op optpar ctx = Some c -> c_op c = op.
Proof. unfold modify_qp_mbox. repeat case_match; naive_solver. Qed.

(** The command reaches the device at most once, and the code is its answer. *)
Lemma core_modify_post e op optpar ctx s :
  post (mlx5_core_qp_modify e op optpar ctx) s (fun r s' =>
    m_qp s' = m_qp s /\
    match r with
    | inr _ => exists c, c_op c = op /\ m_cmds s' = m_cmds s ++ [(c, 0)]
    | inl _ => m_cmds s' = m_cmds s \/
               exists c x, c_op c = op /\ x <> 0 /\ m_cmds s' = m_cmds s ++ [(c, x)]
    end).
Proof.
  unfold mlx5_core_qp_modify. destruct (modify_qp_mbox op optpar ctx) as [c|] eqn:Ec.
  2: { apply post_fail. auto. }
  apply mbox_op in Ec. destruct (e_mbox e c); simpl; [|apply post_fail; auto].
  apply post_bind, post_mod. destruct (Z.eqb_spec (e_exec e c) 0) as [E|E].
  - apply post_ret. rewrite E. split; [done|]. by exists c.
  - apply post_fail. split; [done|]. right. by exists c, (e_exec e c).
Qed.

(** A counter command may follow a move to RTS. *)
Definition trailing (new : ib_qp_state) (rest : list (qp_cmd * Z)) : Prop :=
  rest = [] \/ exists c e, rest = [(c, e)] /\ c_op c = MLX5_CMD_OP_RTS2RTS_QP /\ new = IB_QPS_RTS.

Lemma after_command_post dev e attr mask new s :
  post (after_command dev e attr mask new) s (fun _ s' =>
    same_fix s s' /\ k_state (k_dyn (m_qp s')) = new /\
    exists rest, m_cmds s' = m_cmds s ++ rest /\ trailing new rest).
Proof.
  unfold after_command. apply post_bind, post_mod, post_bind, post_get, post_bind.
  set (s1 := with_m_qp s _).
  eapply (post_mono _ _ (fun _ s' => quiet s1 s' /\ same_fix s1 s')).
  { destruct (_ && _); [apply inert_reset_queues|apply post_ret, quiet_refl]. }
  intros r s2 [[Hc Hst] Hf]. change (same_fix s s2) in Hf. change (m_cmds s2 = m_cmds s) in Hc.
  change (k_state (k_dyn (m_qp s2)) = new) in Hst.
  assert (Hnil : exists rest, m_cmds s2 = m_cmds s ++ rest /\ trailing new rest).
  { exists []. rewrite app_nil_r. split; [done|by left]. }
  destruct r as [x|[]]; [done|]. apply post_bind, post_get.
  destruct (qps_eqb new IB_QPS_RTS) eqn:En; [|by apply post_ret].
  apply bool_decide_eq_true in En. simpl. destruct (k_counter_pending _); [|by apply post_ret].
  apply post_bind. unfold qp_set_counter. apply post_bind, post_get.
  eapply post_mono; [apply core_modify_post|]. intros r s3 [Hq Hr]. simpl in Hr.
  destruct r as [x|[]].
  - split; [unfold same_fix; by rewrite Hq|]. split; [by rewrite Hq|].
    destruct Hr as [Hr|(c & y & Hop & Hy & Hr)]; rewrite Hr, Hc.
    + exists []. rewrite app_nil_r. split; [done|by left].
    + exists [(c, y)]. split; [done|]. right. by exists c, y.
  - apply post_mod. destruct Hr as (c & Hop & Hr). simpl. rewrite Hr, Hc, Hq.
    split; [exact Hf|]. split; [done|].
    exists [(c, 0)]. split; [done|]. right. by exists c, 0.
Qed.

(** A queue pair with a context of its own in the device. *)
Definition plain (f : qp_fix) : Prop :=
  k_rwq_ind_tbl f = false /\ test (k_flags f) MLX5_IB_QP_UNDERLAY = false /\
  k_type f <> IB_QPT_GSI /\ k_type f <> IB_QPT_RAW_PACKET /\ checked_type f <> MLX5_IB_QPT_DCT.

Definition outcome (op : Z) (new : ib_qp_state) (s s' : mst) : Prop :=
  same_fix s s' /\ (quiet s s' \/ sent op new s s').

Lemma outcome_pre op new s1 s2 s3 :
  quiet s1 s2 /\ same_fix s1 s2 -> outcome op new s2 s3 -> outcome op new s1 s3.
Proof.
  intros [[Hc Hs] Hf] [Hf' H]. split; [unfold same_fix in *; congruence|].
  destruct H as [[Hc' Hs']|H]; [left; split; congruence|right].
  destruct H as [c e H1 H2 H3 H4|c rest H1 H2 H3 H4]; [eapply sent_refused|eapply sent_done]; eauto; congruence.
Qed.

Lemma outcome_post op new s1 s2 s3 :
  outcome op new s1 s2 -> quiet s2 s3 /\ same_fix s2 s3 -> outcome op new s1 s3.
Proof.
  intros [Hf' H] [[Hc Hs] Hf]. split; [unfold same_fix in *; congruence|].
  destruct H as [[Hc' Hs']|H]; [left; split; congruence|right].
  destruct H as [c e H1 H2 H3 H4|c rest H1 H2 H3 H4]; [eapply sent_refused|eapply sent_done]; eauto; congruence.
Qed.

Section Call.
Context (dev : mlx5_dev) (raw : Z -> ib_qp_attr -> Z -> es mst unit) (gsi dct : ib_qp_attr -> Z -> es mst unit).

Lemma send_command_outcome e attr mask new op optpar ctx srqn s :
  plain (k_fix (m_qp s)) ->
  post (send_command dev raw e attr mask new op optpar ctx srqn) s (fun _ s' => outcome op new s s').
Proof.
  intros (_ & Hu & _ & Hr & _). unfold send_command. apply post_bind, post_get, post_bind.
  assert (Hoff : inert (if test mask IB_QP_OFFLOAD_TYPE then es_sum (offload_bits s (offload_type attr))
                        else es_ret 0)) by inert_tac.
  eapply post_mono; [apply Hoff|]. intros [x|off] s1 H1; [by destruct H1; split; [|left]|].
  rewrite Hu. unfold qpt_eqb. rewrite bool_decide_eq_false_2 by done. simpl. apply post_bind.
  eapply post_mono; [apply core_modify_post|]. intros [x|[]] s2 [Hq Hc].
  - apply (outcome_pre _ _ _ s1); [done|]. split; [unfold same_fix; by rewrite Hq|].
    destruct Hc as [Hc|(c & y & Hop & Hy & Hc)]; [left; split; [done|by rewrite Hq]|right].
    eapply sent_refused; eauto. by rewrite Hq.
  - destruct Hc as (c & Hop & Hc). eapply post_mono; [apply after_command_post|].
    intros r s3 (Hf & Hst & rest & Hc3 & Htr). apply (outcome_pre _ _ _ s1); [done|].
    split; [unfold same_fix in *; congruence|]. right. apply (sent_done _ _ _ _ c rest); auto.
    rewrite Hc3, Hc, <- app_assoc. done.
Qed.

Lemma modify_qp_outcome e attr mask cur new s :
  plain (k_fix (m_qp s)) ->
  post (modify_qp_ dev raw e attr mask cur new) s (fun _ s' =>
    outcome (optab (to_mlx5_state cur) (to_mlx5_state new)) new s s' /\
    (optab (to_mlx5_state cur) (to_mlx5_state new) = 0 -> quiet s s')).
Proof.
  intros Hp. unfold modify_qp_. apply post_bind, post_get.
  assert (Hq : outcome (optab (to_mlx5_state cur) (to_mlx5_state new)) new s s
               /\ (optab (to_mlx5_state cur) (to_mlx5_state new) = 0 -> quiet s s)) by (split; [split; [|left]|]; done).
  destruct (_ <? 0); [by apply post_fail|]. destruct (e_ctx e); [|by apply post_fail]. simpl.
  apply post_bind. eapply post_mono; [apply inert_context|].
  intros [x|ctx] s1 H1; [split; [split; [apply H1|left; apply H1]|intros _; apply H1]|].
  destruct (Z.eqb_spec (optab (to_mlx5_state cur) (to_mlx5_state new)) 0) as [E|E].
  { apply post_fail. split; [split; [apply H1|left; apply H1]|intros _; apply H1]. }
  apply post_bind, post_lift. intros om _.
  assert (Hp1 : plain (k_fix (m_qp s1))) by (destruct H1 as [_ H1]; by rewrite H1).
  set (op := optab _ _) in *.
  assert (Hsend : forall n, post (send_command dev raw e attr mask new op (ib_mask_to_mlx5_opt mask .& om) ctx n) s1
            (fun _ s' => outcome op new s s' /\ (op = 0 -> quiet s s'))).
  { intros n. eapply post_mono; [by apply send_command_outcome|]. intros r s2 H2. split; [|done].
    by eapply outcome_pre. }
  destruct (test mask IB_QP_RMPN_XRQN); [|apply Hsend].
  apply post_bind. eapply post_mono; [apply inert_swap_srq|]. intros [x|old] s2 H2.
  { split; [|done]. pose proof (quiet_trans _ _ _ H1 H2) as H. split; [apply H|left; apply H]. }
  assert (Hp2 : plain (k_fix (m_qp s2))) by (destruct H2 as [_ H2]; by rewrite H2).
  pose proof (quiet_trans _ _ _ H1 H2) as H12.
  apply post_cleanup. eapply post_mono; [by apply send_command_outcome|]. intros [x|[]] s3 H3.
  - eapply post_mono; [apply inert_restore_srq|]. intros r4 s4 H4. split; [|done].
    eapply outcome_post; [|exact H4]. by eapply outcome_pre.
  - split; [|done]. by eapply outcome_pre.
Qed.

(** The caller that names the current state names it right. *)
Definition truthful (d : qp_dyn) (attr : ib_qp_attr) (mask : Z) : Prop :=
  test mask IB_QP_CUR_STATE = true -> cur_qp_state attr = k_state d.

Lemma truthful_cur d attr mask : truthful d attr mask -> cur_state d attr mask = k_state d.
Proof. unfold truthful, cur_state. destruct (test mask IB_QP_CUR_STATE); auto. Qed.

(** A call either does nothing the device sees or sends the command of a
    transition the tables allow. *)
Lemma modify_outcome e u attr mask s :
  plain (k_fix (m_qp s)) ->
  let d := k_dyn (m_qp s) in
  let cur := cur_state d attr mask in
  let new := new_state d attr mask in
  post (mlx5_ib_modify_qp dev raw gsi dct e u attr mask) s (fun _ s' =>
    same_fix s s' /\
    (quiet s s' \/
     (transition_ok (k_fix (m_qp s)) cur new mask = Some true /\
      optab (to_mlx5_state cur) (to_mlx5_state new) <> 0 /\
      sent (optab (to_mlx5_state cur) (to_mlx5_state new)) new s s'))).
Proof.
  intros Hp d cur new. unfold mlx5_ib_modify_qp. apply post_bind, post_get.
  destruct Hp as (Hi & Hu & Hg & Hr & Hd). rewrite Hi.
  apply post_bind.
  destruct (check_udata u) as [x|[]]; [apply post_fail; by split; [|left]|apply post_ret].
  unfold qpt_eqb. rewrite !bool_decide_eq_false_2 by done.
  fold d. fold cur. fold new. apply post_bind, post_lift. intros ok Hok.
  destruct ok; [|apply post_fail; by split; [|left]]. simpl.
  destruct (values_ok dev d attr mask); [|apply post_fail; by split; [|left]]. simpl.
  destruct (qps_eqb cur new && qps_eqb cur IB_QPS_RESET); [apply post_ret; by split; [|left]|].
  eapply post_mono; [apply modify_qp_outcome; by split_and!|].
  intros r s' [[Hf [H|H]] H0]; (split; [done|]); [by left|].
  destruct (Z.eq_dec (optab (to_mlx5_state cur) (to_mlx5_state new)) 0); [by left; auto|right; auto].
Qed.
End Call.

(** ** Attributes *)

(** Every attribute of [req] is in [g]. *)
Definition covers (g req : Z) : Prop := req .& g = req.

Lemma covers_bits g req :
  covers g req <-> (forall i, 0 <= i -> Z.testbit req i = true -> Z.testbit g i = true).
Proof.
  unfold covers. split.
  - intros H i Hi Hb. rewrite <- H, Z.land_spec, andb_true_iff in Hb. tauto.
  - intros H. apply Z.bits_inj'. intros i Hi. rewrite Z.land_spec. destruct (Z.testbit req i) eqn:E; [|done].
    simpl. by apply H.
Qed.

Lemma covers_0 g : covers g 0.
Proof. apply Z.land_0_l. Qed.
Lemma covers_lor g a b : covers g a -> covers g b -> covers g (a .| b).
Proof.
  rewrite !covers_bits. intros Ha Hb i Hi. rewrite Z.lor_spec, orb_true_iff. naive_solver.
Qed.
Lemma covers_mono g h a : covers g a -> covers (g .| h) a.
Proof. rewrite !covers_bits. intros Ha i Hi Hb. rewrite Z.lor_spec, (Ha i) by done. done. Qed.
Lemma covers_mono_r g h a : covers h a -> covers (g .| h) a.
Proof. rewrite Z.lor_comm. apply covers_mono. Qed.
#[export] Hint Resolve covers_0 covers_lor covers_mono covers_mono_r : modify.

Definition asks (t : ib_qp_type) (cur new : ib_qp_state) : Z := req_param (qp_state_table cur new) t.

(** The attributes the way from RESET to a state asks for. *)
Definition needs (t : ib_qp_type) (s : ib_qp_state) : Z :=
  match s with
  | IB_QPS_RESET | IB_QPS_ERR => 0
  | IB_QPS_INIT => asks t IB_QPS_RESET IB_QPS_INIT
  | IB_QPS_RTR => asks t IB_QPS_RESET IB_QPS_INIT .| asks t IB_QPS_INIT IB_QPS_RTR
  | _ => asks t IB_QPS_RESET IB_QPS_INIT .| asks t IB_QPS_INIT IB_QPS_RTR .| asks t IB_QPS_RTR IB_QPS_RTS
  end.

Lemma is_ok_spec cur new t mask :
  ib_modify_qp_is_ok cur new t mask = Some true ->
  valid (qp_state_table cur new) = true /\ covers mask (asks t cur new).
Proof.
  unfold ib_modify_qp_is_ok, covers, asks. rewrite (Z.land_comm (req_param _ _)).
  destruct (_ && _); [done|]. destruct (valid _); [|done]. destruct (in_table t); [|done]. simpl.
  destruct (Z.eqb_spec (mask .& req_param (qp_state_table cur new) t) (req_param (qp_state_table cur new) t));
    [|done]. done.
Qed.

(** One transition adds what the next state asks for beyond the present one. *)
Lemma needs_step g mask t cur new :
  valid (qp_state_table cur new) = true -> covers g (needs t cur) -> covers mask (asks t cur new) ->
  covers (g .| mask) (needs t new).
Proof.
  intros Hv Hg Hm. destruct cur, new; try discriminate Hv; unfold needs in *; auto 6 with modify.
Qed.

(** ** The reachable states *)

(** The device accepted the command of the call. *)
Definition taken (s s' : mst) : bool :=
  match drop (length (m_cmds s)) (m_cmds s') with (_, e) :: _ => e =? 0 | [] => false end.

(** A queue pair and the attributes it was given since it last left RESET. *)
Record msys := mkmsys { y_m : mst; y_given : Z }.

Section Reach.
Context (dev : mlx5_dev) (raw : Z -> ib_qp_attr -> Z -> es mst unit) (gsi dct : ib_qp_attr -> Z -> es mst unit).

Inductive mstep : msys -> msys -> Prop :=
| mstep_call e u attr mask r s s' g :
    truthful (k_dyn (m_qp s)) attr mask ->
    mlx5_ib_modify_qp dev raw gsi dct e u attr mask s = Some (r, s') ->
    mstep (mkmsys s g)
      (mkmsys s' (if taken s s'
                  then match new_state (k_dyn (m_qp s)) attr mask with
                       | IB_QPS_RESET => 0
                       | _ => g .| mask
                       end
                  else g)).

(** The type is one of the verbs layer's. *)
Definition table_type (f : qp_fix) : Prop :=
  ignored_ts_check (checked_type f) = false.

Definition in_step (y : msys) : Prop :=
  let s := y_m y in
  let st := k_state (k_dyn (m_qp s)) in
  plain (k_fix (m_qp s)) /\ table_type (k_fix (m_qp s)) /\
  dev_run MLX5_QP_STATE_RST (m_cmds s) = Some (to_mlx5_state st) /\
  covers (y_given y) (needs (checked_type (k_fix (m_qp s))) st).

Lemma taken_quiet s s' : quiet s s' -> taken s s' = false.
Proof. intros [H _]. unfold taken. by rewrite H, drop_all. Qed.
Lemma taken_sent s s' c e rest : m_cmds s' = m_cmds s ++ (c, e) :: rest -> taken s s' = (e =? 0).
Proof. intros H. unfold taken. by rewrite H, drop_app_length. Qed.

Lemma mstep_inv y y' : in_step y -> mstep y y' -> in_step y'.
Proof.
  intros (Hp & Ht & Hrun & Hcov) H. inversion H as [e u attr mask r s s' g Htr Hcall]; subst; clear H.
  cbn [y_m y_given] in *. pose proof (truthful_cur _ _ _ Htr) as Hcur.
  destruct (modify_outcome dev raw gsi dct e u attr mask s Hp _ _ Hcall) as [Hf H].
  rewrite Hcur in H. unfold in_step. cbn [y_m y_given]. rewrite !Hf. split; [done|]. split; [done|].
  destruct H as [Hq|(Hok & Hop & Hs)].
  { rewrite (taken_quiet _ _ Hq). destruct Hq as [-> ->]. done. }
  pose proof (optab_legal _ _ Hop) as Hleg.
  destruct Hs as [c x Hc Hx Hcm Hst|c rest Hc Hcm Htail Hst].
  - rewrite (taken_sent _ _ _ _ _ Hcm), Hcm, dev_run_app, Hrun, Hst. simpl. rewrite Hc, Hleg. simpl.
    zcases; [done|]. done.
  - rewrite (taken_sent _ _ _ _ _ Hcm), Hcm, dev_run_app, Hrun, Hst. simpl. rewrite Hc, Hleg. simpl. split.
    + destruct Htail as [->|(c2 & e2 & -> & H2 & ->)]; [done|]. simpl. rewrite H2. simpl. by destruct (e2 =? 0).
    + unfold transition_ok in Hok. destruct Hp as (_ & Hu & _). rewrite Hu, Ht in Hok.
      apply is_ok_spec in Hok as [Hv Hm]. pose proof (needs_step _ _ _ _ _ Hv Hcov Hm) as Hn.
      destruct (new_state _ _ _); [apply covers_0|exact Hn..].
Qed.
End Reach.

(** C6. Through any sequence of modify_qp calls, with whatever answers of the
    allocators and the device, on a queue pair that starts in RESET, every
    command sent is legal in the state the device is in, the driver's idea of
    the state is the device's, and the queue pair has been given every attribute
    that the states on the way to where it is ask for.  Two conditions: a caller
    that passes IB_QP_CUR_STATE names the state the queue pair is in (the driver
    does not check it), and the queue pair is of a type of the verbs table of
    transitions: not GSI, raw packet, DC initiator or DC target, no RSS table, not
    an underlay queue pair. *)
Theorem modify_tracks_device dev raw gsi dct s0 s g :
  plain (k_fix (m_qp s0)) -> table_type (k_fix (m_qp s0)) ->
  m_cmds s0 = [] -> k_state (k_dyn (m_qp s0)) = IB_QPS_RESET ->
  rtc (mstep dev raw gsi dct) (mkmsys s0 0) (mkmsys s g) ->
  let st := k_state (k_dyn (m_qp s)) in
  dev_run MLX5_QP_STATE_RST (m_cmds s) = Some (to_mlx5_state st) /\
  covers g (needs (checked_type (k_fix (m_qp s))) st).
Proof.
  intros Hp Ht Hc Hs Hr.
  assert (H0 : in_step (mkmsys s0 0)).
  { split; [done|]. split; [done|]. simpl. rewrite Hc, Hs. split; [done|apply covers_0]. }
  enough (in_step (mkmsys s g)) as (_ & _ & H) by exact H.
  revert H0. induction Hr as [|x y z Hxy _ IH]; [done|]. intros Hx. apply IH. by eapply mstep_inv.
Qed.

(** ** A call that returns 0 *)

(** No error is reported as 0. *)
Definition honest {A} (m : es mst A) : Prop := forall s, post m s (fun r _ => r <> inl 0).

Lemma honest_ret {A} (a : A) : honest (es_ret a).
Proof. intros s. by apply post_ret. Qed.
Lemma honest_fail {A} e : e <> 0 -> honest (@es_fail mst A e).
Proof. intros H s. apply post_fail. naive_solver. Qed.
Lemma honest_get : honest (@es_get mst).
Proof. intros s. by apply post_get. Qed.
Lemma honest_lift {A} (o : option A) : honest (@es_lift mst A o).
Proof. intros s. by apply post_lift. Qed.
Lemma honest_mod f : honest (@es_mod mst f).
Proof. intros s. by apply post_mod. Qed.
Lemma honest_bind {A B} (m : es mst A) (k : A -> es mst B) :
  honest m -> (forall a, honest (k a)) -> honest (es_bind m k).
Proof.
  intros Hm Hk s. apply post_bind. eapply post_mono; [apply Hm|]. intros [e|a] s1 H1; [naive_solver|apply Hk].
Qed.
Lemma honest_sum {A} (r : Z + A) : r <> inl 0 -> honest (es_sum r).
Proof. destruct r; simpl; [intros; apply honest_fail; naive_solver|intros; apply honest_ret]. Qed.
Lemma honest_EINVAL {A} : honest (@es_fail mst A (- EINVAL)).
Proof. by apply honest_fail. Qed.
#[export] Hint Resolve honest_ret honest_get honest_lift honest_mod honest_EINVAL : modify.

Ltac honest_tac :=
  repeat match goal with
  | |- honest (es_bind _ _) => apply honest_bind; [|intros ?]
  | |- honest (if ?b then _ else _) => destruct b
  | |- honest (match ?x with _ => _ end) => destruct x
  | |- honest _ => solve [auto with modify]
  end.

Lemma honest_core_modify e op optpar ctx : honest (mlx5_core_qp_modify e op optpar ctx).
Proof.
  unfold mlx5_core_qp_modify. destruct (modify_qp_mbox _ _ _); [|apply honest_EINVAL].
  destruct (e_mbox e q); simpl; [|by apply honest_fail]. apply honest_bind; [apply honest_mod|intros _].
  destruct (Z.eqb_spec (e_exec e q) 0); [apply honest_ret|by apply honest_fail].
Qed.

Lemma honest_set_path dev q ah p port mask attr alt : honest (set_path dev q ah p port mask attr alt).
Proof.
  unfold set_path. destruct (mlx5_set_path _ _ _ _ _ _ _ _) as [r saved] eqn:E.
  apply honest_bind; [apply honest_mod|intros _]. apply honest_sum. unfold mlx5_set_path in E.
  destruct (_ && _) eqn:E1 in E; [naive_solver|]. destruct (is_roce _ && _); [naive_solver|].
  destruct (Z.ltb_spec (ib_rate_to_mlx5 dev (ah_static_rate ah)) 0); [injection E as <- _; intros [=]; lia|].
  revert E. cbv zeta. match goal with |- context [?a =? 0] => destruct (Z.eqb_spec a 0) end;
    intros [= <- _]; [done|]. intros [=]. lia.
Qed.

Lemma honest_clean_cq cq n srq : honest (clean_cq cq n srq).
Proof. unfold clean_cq. honest_tac. Qed.
#[export] Hint Resolve honest_core_modify honest_set_path honest_clean_cq : modify.

Lemma honest_context dev f d n q attr mask cur new st :
  ooo_bit dev (k_type f) mask <> None ->
  honest (modify_context dev f d n q attr mask cur new st).
Proof.
  intros Hooo. unfold modify_context.
  destruct (get_cqs _ _ _) as [send_cq recv_cq]. destruct (ooo_bit dev (k_type f) mask); [|done].
  unfold get_tx_affinity. honest_tac.
  - apply honest_sum. unfold mtu_field. repeat case_match; naive_solver.
  - apply honest_sum. unfold to_mlx5_access_flags. repeat case_match; naive_solver.
Qed.

Lemma honest_after_command dev e attr mask new : honest (after_command dev e attr mask new).
Proof.
  unfold after_command, reset_queues, qp_set_counter. honest_tac.
Qed.

Section Success.
Context (dev : mlx5_dev) (raw : Z -> ib_qp_attr -> Z -> es mst unit).

(** A computation that succeeds sends the command, and the device takes it. *)
Definition moved (s s' : mst) (new : ib_qp_state) (r : Z + unit) : Prop :=
  r = inr tt -> k_state (k_dyn (m_qp s')) = new /\ taken s s' = true.

Lemma send_command_moves e attr mask new op optpar ctx srqn s0 s :
  plain (k_fix (m_qp s)) -> m_cmds s = m_cmds s0 ->
  post (send_command dev raw e attr mask new op optpar ctx srqn) s (fun r s' => moved s0 s' new r).
Proof.
  intros (_ & Hu & _ & Hr & _) H0. unfold send_command. apply post_bind, post_get, post_bind.
  assert (Hoff : inert (if test mask IB_QP_OFFLOAD_TYPE then es_sum (offload_bits s (offload_type attr))
                        else es_ret 0)) by inert_tac.
  eapply post_mono; [apply Hoff|]. intros [x|off] s1 [[H1 _] _]; [done|].
  rewrite Hu. unfold qpt_eqb. rewrite bool_decide_eq_false_2 by done. simpl. apply post_bind.
  eapply post_mono; [apply core_modify_post|]. intros [x|[]] s2 [Hq Hc]; [done|].
  destruct Hc as (c & Hop & Hc). eapply post_mono; [apply after_command_post|].
  intros r s3 (Hf & Hst & rest & Hc3 & Htr) _. split; [done|].
  apply (taken_sent _ _ c 0 rest). rewrite Hc3, Hc, H1, H0, <- app_assoc. done.
Qed.

Lemma honest_send_command e attr mask new op optpar ctx srqn s :
  plain (k_fix (m_qp s)) ->
  post (send_command dev raw e attr mask new op optpar ctx srqn) s (fun r _ => r <> inl 0).
Proof.
  intros (_ & Hu & _ & Hr & _). unfold send_command. apply post_bind, post_get.
  rewrite Hu. unfold qpt_eqb. rewrite bool_decide_eq_false_2 by done. cbn [orb].
  match goal with |- post ?m s _ => enough (honest m) as H by apply H end.
  pose proof (honest_after_command dev e attr mask new). honest_tac.
  apply honest_sum. unfold offload_bits. by destruct (_ && _).
Qed.

Lemma modify_qp_moves e attr mask cur new s :
  plain (k_fix (m_qp s)) -> ooo_bit dev (k_type (k_fix (m_qp s))) mask <> None ->
  post (modify_qp_ dev raw e attr mask cur new) s (fun r s' => r <> inl 0 /\ moved s s' new r).
Proof.
  intros Hp Ho. unfold modify_qp_. apply post_bind, post_get.
  destruct (_ <? 0); [by apply post_fail|]. destruct (e_ctx e); [|by apply post_fail]. simpl.
  apply post_bind. intros r1 s1 Hctx. pose proof (inert_context _ _ _ _ _ _ _ _ _ _ _ _ _ Hctx) as [[Hc1 _] Hf1].
  pose proof (honest_context _ _ _ _ _ _ _ _ _ _ Ho _ _ _ Hctx) as Hh.
  destruct r1 as [x|ctx]; [by split; [naive_solver|]|].
  destruct (optab _ _ =? 0); [by apply post_fail|]. apply post_bind, post_lift. intros om _.
  assert (Hp1 : plain (k_fix (m_qp s1))) by (by rewrite Hf1).
  destruct (test mask IB_QP_RMPN_XRQN).
  - apply post_bind. intros r2 s2 Hsw. pose proof (inert_swap_srq _ _ _ _ Hsw) as [[Hc2 _] Hf2].
    assert (Hp2 : plain (k_fix (m_qp s2))) by (by rewrite Hf2).
    destruct r2 as [x|old].
    { split; [|done]. enough (honest (swap_srq (rmpn_xrqn attr))) as H.
      { specialize (H _ _ _ Hsw). naive_solver. }
      unfold swap_srq. honest_tac. }
    apply post_cleanup. intros r3 s3 H3.
    pose proof (honest_send_command _ _ _ _ _ _ _ _ _ Hp2 _ _ H3) as Hh3.
    assert (Hm : moved s s3 new r3) by (eapply send_command_moves; [exact Hp2|congruence|exact H3]).
    destruct r3 as [x|[]]; [|done]. intros r4 s4 _. by split; [naive_solver|].
  - intros r3 s3 H3. split; [by eapply honest_send_command|]. by eapply send_command_moves.
Qed.

(** Or-ing in the bit for a device that supports it does no harm. *)
Lemma ooo_bit_added mask t :
  ooo_bit dev t mask <> None -> is_ooo_supported dev t = true ->
  ooo_bit dev t (mask .| IB_EXP_QP_OOO_RW_DATA_PLACEMENT) <> None.
Proof.
  intros _ H. unfold ooo_bit. destruct (test _ _); [|done]. destruct t; try done; by rewrite H.
Qed.
End Success.

(** When modify_qp returns 0 for a transition that is not from RESET to
    RESET, the device took the command and the driver has the new state;
    refusals, failed allocations and bad values all show in the return value.
    The exception is a request for out-of-order placement the device does not
    offer. *)
Theorem modify_zero_moved dev raw gsi dct e u attr mask s s' :
  plain (k_fix (m_qp s)) -> ooo_bit dev (k_type (k_fix (m_qp s))) mask <> None ->
  let d := k_dyn (m_qp s) in
  ~ (cur_state d attr mask = IB_QPS_RESET /\ new_state d attr mask = IB_QPS_RESET) ->
  es_code (mlx5_ib_modify_qp dev raw gsi dct e u attr mask) s = Some (0, s') ->
  k_state (k_dyn (m_qp s')) = new_state d attr mask /\ taken s s' = true.
Proof.
  intros Hp Ho d Hnr Hcode. unfold es_code in Hcode.
  destruct (mlx5_ib_modify_qp _ _ _ _ _ _ _ _ s) as [[r s1]|] eqn:E; [|done].
  enough (r <> inl 0 /\ moved s s1 (new_state d attr mask) r) as [H1 H2].
  { destruct r as [x|[]]; simpl in Hcode; injection Hcode as ?; subst; [naive_solver|]. by apply H2. }
  revert r s1 E Hcode. enough (post (mlx5_ib_modify_qp dev raw gsi dct e u attr mask) s
    (fun r s1 => r <> inl 0 /\ moved s s1 (new_state d attr mask) r)) as H by (intros r s1 E _; by apply H).
  unfold mlx5_ib_modify_qp. apply post_bind, post_get. destruct Hp as (Hi & Hu & Hg & Hr & Hd). rewrite Hi.
  apply post_bind. destruct (check_udata u) as [x|[]] eqn:Eu.
  { apply post_fail. split; [|done]. revert Eu. unfold check_udata. repeat case_match; naive_solver. }
  apply post_ret. unfold qpt_eqb. rewrite !bool_decide_eq_false_2 by done. fold d.
  apply post_bind, post_lift. intros [] _; simpl; [|by apply post_fail].
  destruct (values_ok dev d attr mask); simpl; [|by apply post_fail].
  destruct (qps_eqb (cur_state d attr mask) (new_state d attr mask)
            && qps_eqb (cur_state d attr mask) IB_QPS_RESET) eqn:Eq.
  { exfalso. apply Hnr. apply andb_true_iff in Eq as [E1 E2]. apply bool_decide_eq_true in E1, E2. by rewrite <- E1. }
  match goal with |- post (modify_qp_ _ _ _ ?a ?m ?c ?n) _ _ => apply (modify_qp_moves dev raw e a m c n s) end;
    [by repeat split|].
  destruct (k_kernel _ && _ && _ && _) eqn:Eo; [|done].
  apply ooo_bit_added; [done|]. by apply andb_true_iff in Eo as [_ ?].
Qed.

(** ** A request the device cannot meet *)

(** A computation that always leaves through an error. *)
Definition fails {A} (m : es mst A) : Prop := forall s, post m s (fun r _ => exists x, r = inl x).

Lemma fails_fail {A} x : fails (@es_fail mst A x).
Proof. intros s. apply post_fail. eauto. Qed.
Lemma fails_bind {A B} (m : es mst A) (k : A -> es mst B) : (forall a, fails (k a)) -> fails (es_bind m k).
Proof. intros Hk s. apply post_bind. intros [x|a] s1 _; [eauto|apply Hk]. Qed.

Lemma fails_context dev f d n q attr mask cur new st :
  ooo_bit dev (k_type f) mask = None -> fails (modify_context dev f d n q attr mask cur new st).
Proof.
  intros Ho. unfold modify_context. destruct (get_cqs _ _ _) as [send_cq recv_cq]. rewrite Ho.
  do 4 (apply fails_bind; intros ?). destruct (_ && _); [apply fails_fail|].
  do 2 (apply fails_bind; intros ?). apply fails_fail.
Qed.

Lemma ooo_bit_None dev t mask : ooo_bit dev t mask = None -> is_ooo_supported dev t = false.
Proof. unfold ooo_bit. destruct (test _ _); [|done]. destruct t; try done; by destruct (is_ooo_supported _ _). Qed.

(** Asking for out-of-order data placement on a device without it never
    moves the queue pair: no command is sent and the state stays, whatever the
    call returns.  It may return 0, as the witness does, so that the caller
    takes the transition for done. *)
Theorem ooo_request_dropped dev raw gsi dct e u attr mask s r s' :
  plain (k_fix (m_qp s)) -> ooo_bit dev (k_type (k_fix (m_qp s))) mask = None ->
  mlx5_ib_modify_qp dev raw gsi dct e u attr mask s = Some (r, s') -> quiet s s'.
Proof.
  intros Hp Ho. enough (post (mlx5_ib_modify_qp dev raw gsi dct e u attr mask) s (fun _ s' => quiet s s')) as H by apply H.
  unfold mlx5_ib_modify_qp. apply post_bind, post_get. destruct Hp as (Hi & Hu & Hg & Hr & Hd). rewrite Hi.
  apply post_bind. destruct (check_udata u) as [x|[]]; [by apply post_fail|apply post_ret].
  unfold qpt_eqb. rewrite !bool_decide_eq_false_2 by done.
  apply post_bind, post_lift. intros [] _; simpl; [|by apply post_fail].
  destruct (values_ok _ _ _ _); simpl; [|by apply post_fail]. destruct (qps_eqb _ _ && _); [by apply post_ret|].
  rewrite (ooo_bit_None _ _ _ Ho), !andb_false_r. unfold modify_qp_. apply post_bind, post_get.
  destruct (_ <? 0); [by apply post_fail|]. destruct (e_ctx e); [|by apply post_fail]. simpl. apply post_bind.
  intros r1 s1 Hctx. pose proof (fails_context _ _ _ _ _ _ _ _ _ _ Ho _ _ _ Hctx) as [x ->].
  by apply inert_context in Hctx as [? _].
Qed.

Lemma modify_tracks_device_witness :
  exists s g, k_state (k_dyn (m_qp s)) = IB_QPS_RTR /\
    dev_run MLX5_QP_STATE_RST (m_cmds s) = Some (to_mlx5_state IB_QPS_RTR) /\
    covers g (needs IB_QPT_RC IB_QPS_RTR).
Proof.
  pose (call st mask := mlx5_ib_modify_qp ib_dev no_raw no_other no_other willing None (ex_attr st ib_peer) mask).
  pose (s0 := qp_in rc_fix IB_QPS_RESET).
  pose (s1 := after (call IB_QPS_INIT to_init) s0).
  pose (s2 := after (call IB_QPS_RTR to_rtr) s1).
  exists s2, (to_init .| to_rtr). split; [by vm_compute|].
  apply (modify_tracks_device ib_dev no_raw no_other no_other s0 s2 (to_init .| to_rtr)).
  - by vm_compute.
  - by vm_compute.
  - by vm_compute.
  - by vm_compute.
  - apply (rtc_l _ _ (mkmsys s1 to_init)).
    + exact (mstep_call ib_dev no_raw no_other no_other willing None (ex_attr IB_QPS_INIT ib_peer) to_init
        (inr tt) s0 s1 0 ltac:(done) eq_refl).
    + apply rtc_once.
      exact (mstep_call ib_dev no_raw no_other no_other willing None (ex_attr IB_QPS_RTR ib_peer) to_rtr
        (inr tt) s1 s2 to_init ltac:(done) eq_refl).
Defined.

Lemma modify_zero_moved_witness :
  exists s', es_code (mlx5_ib_modify_qp ib_dev no_raw no_other no_other willing None
                        (ex_attr IB_QPS_INIT ib_peer) to_init) (qp_in rc_fix IB_QPS_RESET) = Some (0, s') /\
    k_state (k_dyn (m_qp s')) = IB_QPS_INIT /\ taken (qp_in rc_fix IB_QPS_RESET) s' = true.
Proof.
  eexists. split; [reflexivity|].
  apply (modify_zero_moved ib_dev no_raw no_other no_other willing None (ex_attr IB_QPS_INIT ib_peer) to_init).
  - by vm_compute.
  - by vm_compute.
  - intros [_ H]. by vm_compute in H.
  - reflexivity.
Defined.

Lemma ooo_request_dropped_witness :
  let mask := to_rtr .| IB_EXP_QP_OOO_RW_DATA_PLACEMENT in
  let call := mlx5_ib_modify_qp ib_dev no_raw no_other no_other willing None (ex_attr IB_QPS_RTR ib_peer) mask in
  let s := qp_in rc_fix IB_QPS_INIT in
  exists s', es_code call s = Some (0, s') /\ quiet s s'.
Proof.
  intros mask call s. exists (after call s). split; [by vm_compute|].
  apply (ooo_request_dropped ib_dev no_raw no_other no_other willing None (ex_attr IB_QPS_RTR ib_peer) mask s
           (inl 0) (after call s)); by vm_compute.
Defined.
