(* ===== verification/QpReset.v ===== *)
(** * QpReset: a queue pair taken back to RESET

    Moving a kernel queue pair to RESET puts it back where it was after its
    creation: nothing of it is left in its completion queues, and the send and
    receive queues satisfy their invariants with nothing outstanding. *)

From S2P Require Import Prelude ErrState FragBuf Strides KHeap FragAlloc QpTypes WqeSeg SqRing PostSend PostRing PostSendThm RecvQueue Srq Cqe CqRing CqResize CqPoll QpSystem RecvTarget QpState QpContext QpModify QpExample QpModifyThm.

Open Scope es_scope.

Definition has_both_cqs (t : ib_qp_type) : Prop := t = IB_QPT_RC \/ t = IB_QPT_UC \/ t = IB_QPT_UD.

(** Those and the DC initiators of the verbs layer. *)
Definition verbs_qp (t : ib_qp_type) : Prop := has_both_cqs t \/ t = IB_EXP_QPT_DC_INI.

Lemma get_cqs_both t a b : has_both_cqs t -> get_cqs t a b = (a, b).
Proof. by intros [-> | [-> | ->]]. Qed.

(** With the state alone in the mask nothing can go wrong in the context. *)
Lemma context_state_only dev f d n q attr cur st s :
  exists ctx, modify_context dev f d n q attr IB_QP_STATE cur IB_QPS_RESET st s = Some (inr ctx, s).
Proof.
  unfold modify_context, mtu_field, ooo_bit. test_consts.
  destruct (get_cqs _ _ _) as [a b]. change (qps_eqb IB_QPS_RESET IB_QPS_INIT) with false.
  rewrite !andb_false_r. cbn [andb].
  destruct (is_sqp (k_type f)); [eexists; reflexivity|].
  match goal with |- context [if ?b then inr _ else _] => destruct b end; eexists; reflexivity.
Qed.

Lemma to_reset_ok f cur : table_type f -> test (k_flags f) MLX5_IB_QP_UNDERLAY = false -> in_table (checked_type f) = true ->
  transition_ok f cur IB_QPS_RESET IB_QP_STATE = Some true.
Proof.
  intros Ht Hu Hi. unfold transition_ok. rewrite Hu, Ht. unfold ib_modify_qp_is_ok. rewrite Hi. test_consts.
  by destruct cur.
Qed.

Lemma clean_cq_ok s i cq k n rsn (srq : option (Z * srq_info)) srq' :
  m_cqs s i = Some cq -> cq_holds cq k n ->
  (forall j x, srq = Some (j, x) -> m_srqs s j = Some x) ->
  release_wqes ((fun '(_, x) => si_q x) <$> srq) (gone cq k rsn (Z.to_nat n)) = Some srq' ->
  exists cq' s', clean_cq (Some i) rsn (fst <$> srq) s = Some (inr tt, s') /\ cleaned cq k rsn n cq' /\
    m_qp s' = m_qp s /\ m_cqs s' = upd (m_cqs s) i (Some cq') /\
    m_srqs s' = match srq, srq' with
                | Some (j, x), Some y => upd (m_srqs s) j (Some (mksrqi y (si_usecnt x) (si_nvmf x)))
                | _, _ => m_srqs s
                end.
Proof.
  intros Hc Hh Hs Hr. destruct (cq_clean_ok cq k rsn n _ _ Hh Hr) as (cq' & E & Hcl). exists cq'.
  unfold clean_cq, es_bind, es_get, es_lift, es_mod. simpl. rewrite Hc. simpl.
  destruct srq as [[j x]|]; simpl in *.
  - rewrite (Hs j x) by done. simpl. rewrite E. simpl. eexists. split; [done|]. split; [done|].
    by destruct srq'.
  - rewrite E. simpl. eexists. by split.
Qed.

Lemma release_none l : release_wqes None l = Some None.
Proof. by induction l. Qed.

Lemma rewind_sq_inv sq m : sq_wf sq -> ring_in sq m -> 0 < wqe_cnt sq -> sq_inv (rewind_sq sq) m [].
Proof.
  intros Hwf Hr Hn. split; try done.
  - split; [exact Hwf|]. split; [simpl; lia|]. simpl. destruct (Z.eqb_spec (wqe_cnt sq) 0); [lia|].
    unfold ring_idx. simpl. rewrite Z.div_0_l, Z.mod_0_l by lia. done.
  - simpl. lia.
Qed.

(** Both completion queues without the entries of [rsn]. *)
Record cqs_cleaned (f f' : Z -> option mlx5_ib_cq) (rsn i j : Z) (cs cr : mlx5_ib_cq) (ks ns kr nr : Z) : Prop := {
  cc_send : exists cs', f' i = Some cs' /\ cleaned cs ks rsn ns cs';
  cc_recv : exists cr', f' j = Some cr' /\ cleaned cr kr rsn nr cr';
  cc_rest : forall c, c <> i -> c <> j -> f' c = f c;
}.

(** The two completion queues in turn, or the one that serves as both, then the counters. *)
Lemma reset_queues_ok s i j cs cr ks ns kr nr srq srq' :
  let f := k_fix (m_qp s) in
  has_both_cqs (k_type f) -> k_send_cq f = Some i -> k_recv_cq f = Some j -> (i = j -> ks = kr /\ ns = nr) ->
  m_cqs s i = Some cs -> cq_holds cs ks ns -> m_cqs s j = Some cr -> cq_holds cr kr nr ->
  k_srq (k_dyn (m_qp s)) = fst <$> srq -> (forall n x, srq = Some (n, x) -> m_srqs s n = Some x) ->
  release_wqes ((fun '(_, x) => si_q x) <$> srq) (gone cr kr (k_qpn f) (Z.to_nat nr)) = Some srq' ->
  exists s', reset_queues s = Some (inr tt, s') /\
    m_qp s' = rewind (m_qp s) /\ cqs_cleaned (m_cqs s) (m_cqs s') (k_qpn f) i j cs cr ks ns kr nr /\
    (forall n x y, srq = Some (n, x) -> srq' = Some y ->
       m_srqs s' n = Some (mksrqi y (si_usecnt x) (si_nvmf x))).
Proof.
  intros f Hb Hsc Hrc Hsame Hcs Hhs Hcr Hhr Hq Hsrq Hrel.
  destruct (clean_cq_ok s j cr kr nr (k_qpn f) srq srq') as (cr' & s1 & E1 & Hcl1 & Hq1 & Hc1 & Hr1); auto.
  unfold reset_queues. rewrite es_get_ok. fold f.
  rewrite get_cqs_both, Hsc, Hrc, Hq, (es_bind_ok _ _ _ _ _ E1) by done. destruct (decide (i = j)) as [->|Hij].
  - rewrite bool_decide_eq_true_2 by done. destruct Hsame as [-> ->]; [done|]. rewrite Hcs in Hcr. injection Hcr as <-.
    eexists. split; [reflexivity|]. cbn [m_qp m_cqs m_srqs with_m_qp]. rewrite Hq1, Hc1. split; [done|]. split.
    + split; [exists cr'; by rewrite upd_eq|exists cr'; by rewrite upd_eq|]. intros c _ Hc. by rewrite upd_ne.
    + intros n x y -> ->. rewrite Hr1. apply upd_eq.
  - rewrite bool_decide_eq_false_2 by congruence. cbn [negb].
    destruct (clean_cq_ok s1 i cs ks ns (k_qpn f) None None) as (cs' & s2 & E2 & Hcl2 & Hq2 & Hc2 & Hr2).
    { by rewrite Hc1, upd_ne. } { done. } { done. } { apply release_none. }
    rewrite (es_bind_ok _ _ _ _ _ E2). eexists. split; [reflexivity|].
    cbn [m_qp m_cqs m_srqs with_m_qp]. rewrite Hq2, Hq1, Hc2, Hc1. split; [done|]. split.
    + split; [exists cs'; by rewrite upd_eq|exists cr'; by rewrite upd_ne, upd_eq|].
      intros c Hci Hcj. by rewrite !upd_ne.
    + intros n x y -> ->. rewrite Hr2, Hr1. apply upd_eq.
Qed.

Section Reset.
Context (dev : mlx5_dev) (raw : Z -> ib_qp_attr -> Z -> es mst unit) (gsi dct : ib_qp_attr -> Z -> es mst unit).

(** The device and the allocators play along. *)
Definition grants_reset (e : env) : Prop :=
  let c := mkcmd MLX5_CMD_OP_2RST_QP None in e_ctx e = true /\ e_mbox e c = true /\ e_exec e c = 0.

(** From the handler down to the cleanup of the queues. *)
Lemma modify_to_reset e attr s :
  let f := k_fix (m_qp s) in
  plain f -> table_type f -> verbs_qp (k_type f) -> k_uobject f = false -> grants_reset e ->
  qp_state attr = IB_QPS_RESET -> k_state (k_dyn (m_qp s)) <> IB_QPS_RESET ->
  mlx5_ib_modify_qp dev raw gsi dct e None attr IB_QP_STATE s
  = (reset_queues ;; es_ret tt)
      (with_m_qp (with_m_cmd s (mkcmd MLX5_CMD_OP_2RST_QP None) 0)
         (record_attrs attr IB_QP_STATE IB_QPS_RESET (m_qp s))).
Proof.
  intros f (Hi & Hu & Hg & Hr & Hd) Ht Hb Ho (He1 & He2 & He3) Ha Hst.
  assert (Htab : in_table (checked_type f) = true) by (unfold checked_type; by destruct Hb as [[-> | [-> | ->]] | ->]).
  unfold mlx5_ib_modify_qp. rewrite es_get_ok. fold f. rewrite Hi.
  change (es_sum (check_udata None)) with (@es_ret mst unit tt). rewrite es_ret_ok.
  unfold qpt_eqb. rewrite !bool_decide_eq_false_2 by done.
  unfold new_state, cur_state. test_consts. rewrite Ha, (to_reset_ok f _ Ht Hu Htab), es_lift_ok. cbn [negb].
  unfold values_ok. test_consts. cbn [andb negb].
  unfold qps_eqb at 1. rewrite (bool_decide_eq_false_2 (_ = IB_QPS_RESET)) by done. cbn [andb].
  rewrite !andb_false_r. test_consts. unfold modify_qp_. rewrite es_get_ok. fold f.
  assert (Hdt : (to_mlx5_st (device_type f) <? 0) = false) by (unfold device_type; by destruct Hb as [[-> | [-> | ->]] | ->]).
  rewrite Hdt, He1. cbn [negb].
  edestruct (context_state_only dev f) as [ctx Hctx]. rewrite (es_bind_ok _ _ _ _ _ Hctx).
  assert (Hop : optab (to_mlx5_state (k_state (k_dyn (m_qp s)))) (to_mlx5_state IB_QPS_RESET) = MLX5_CMD_OP_2RST_QP)
    by (by destruct (k_state _)).
  rewrite Hop. change (MLX5_CMD_OP_2RST_QP =? 0) with false. cbv match.
  assert (Hom : exists om, opt_mask (to_mlx5_state (k_state (k_dyn (m_qp s)))) (to_mlx5_state IB_QPS_RESET)
                  (to_mlx5_st (device_type f)) = Some om).
  { unfold device_type. destruct Hb as [[-> | [-> | ->]] | ->]; eexists; reflexivity. }
  destruct Hom as [om ->]. rewrite es_lift_ok. test_consts. cbv match.
  unfold send_command. rewrite es_get_ok. fold f. test_consts. cbv match. rewrite es_ret_ok, Hu, orb_false_r.
  unfold qpt_eqb. rewrite bool_decide_eq_false_2 by done. unfold mlx5_core_qp_modify, modify_qp_mbox. cbn [orb].
  change (MLX5_CMD_OP_2RST_QP =? MLX5_CMD_OP_2RST_QP) with true. cbv match. cbn [orb].
  rewrite He2, He3. cbn [negb andb].
  rewrite (es_bind_ok _ _ _ tt (with_m_cmd s (mkcmd MLX5_CMD_OP_2RST_QP None) 0)) by done.
  unfold after_command. rewrite es_mod_ok, es_get_ok. cbn [m_qp with_m_cmd with_m_qp record_attrs with_k_dyn k_fix].
  fold f. rewrite Ho. change (qps_eqb IB_QPS_RESET IB_QPS_RESET) with true.
  unfold qpt_eqb. rewrite bool_decide_eq_false_2 by (by destruct Hb as [[-> | [-> | ->]] | ->]). cbn [andb negb].
  change (qps_eqb IB_QPS_RESET IB_QPS_RTS) with false.
  set (s1 := with_m_qp _ _). unfold es_bind. by destruct (reset_queues s1) as [[[]]|].
Qed.
End Reset.

(** C8. Moving an RC, UC or UD queue pair of the kernel to RESET, from any other
    state, leaves nothing of it behind: its entries are gone from its completion
    queues (two, or one that serves as both), where the others stay in their
    order, every other completion queue is untouched, the receive WQEs the dropped
    entries name are back in their shared receive queue, the doorbell records are
    zero, and the send and receive queues satisfy their invariants with nothing
    outstanding, so posting starts afresh.  Assumed: the allocations succeed and
    the device takes the command; it is no underlay, RSS, raw packet, GSI or
    DC target queue pair; the completion queues, the send and the receive queue
    are well formed, and the shared receive queue, if any, can take back the
    requests.  A DC initiator is not cleaned up so. *)
Theorem reset_restores_queues dev raw gsi dct e attr s i j cs cr ks ns kr nr srq srq' sm rm :
  let f := k_fix (m_qp s) in
  let q := m_qp s in
  plain f -> table_type f -> has_both_cqs (k_type f) -> k_uobject f = false -> grants_reset e ->
  qp_state attr = IB_QPS_RESET -> k_state (k_dyn q) <> IB_QPS_RESET ->
  k_send_cq f = Some i -> k_recv_cq f = Some j -> (i = j -> ks = kr /\ ns = nr) ->
  m_cqs s i = Some cs -> cq_holds cs ks ns -> m_cqs s j = Some cr -> cq_holds cr kr nr ->
  k_srq (k_dyn q) = fst <$> srq -> (forall n x, srq = Some (n, x) -> m_srqs s n = Some x) ->
  release_wqes ((fun '(_, x) => si_q x) <$> srq) (gone cr kr (k_qpn f) (Z.to_nat nr)) = Some srq' ->
  sq_wf (k_sq q) -> ring_in (k_sq q) sm -> 0 < wqe_cnt (k_sq q) ->
  rq_wf (k_rq q) -> fits (fbc (k_rq q)) rm ->
  exists s',
    mlx5_ib_modify_qp dev raw gsi dct e None attr IB_QP_STATE s = Some (inr tt, s') /\
    k_state (k_dyn (m_qp s')) = IB_QPS_RESET /\
    cqs_cleaned (m_cqs s) (m_cqs s') (k_qpn f) i j cs cr ks ns kr nr /\
    (forall n x y, srq = Some (n, x) -> srq' = Some y -> m_srqs s' n = Some (mksrqi y (si_usecnt x) (si_nvmf x))) /\
    sq_inv (k_sq (m_qp s')) sm [] /\ rq_inv (k_rq (m_qp s')) rm [] /\
    (forall w, k_db (m_qp s') = Some w -> w = (be32 0, be32 0)).
Proof.
  intros f q Hp Ht Hb Ho He Ha Hst Hsc Hrc Hij Hcs Hhs Hcr Hhr Hq Hsrq Hrel Hwf Hring Hn Hrq Hfit.
  rewrite (modify_to_reset dev raw gsi dct e attr s) by (done || by left).
  set (s1 := with_m_qp _ _).
  destruct (reset_queues_ok s1 i j cs cr ks ns kr nr srq srq') as (s' & E & Hq' & Hc & Hs); auto.
  exists s'. rewrite (es_bind_ok _ _ _ _ _ E). split; [done|]. rewrite Hq'. split; [done|].
  split; [done|]. split; [done|]. split; [by apply rewind_sq_inv|]. split.
  - split; try done. destruct Hrq as (_ & _ & _ & _ & ?). by change (0 <= max_post (k_rq q)); lia.
  - intros w. simpl. fold q. destruct (k_db q); naive_solver.
Qed.

(** C29. A DC initiator is not cleaned up on the way to RESET: its completion
    queues keep all their entries, while its counters start again at zero.
    Polling one of those entries then moves the tail of the send queue past its
    head, and from then on the queue counts as full. *)
Theorem dc_reset_wedges_queue dev raw gsi dct e attr s :
  let f := k_fix (m_qp s) in
  plain f -> table_type f -> k_type f = IB_EXP_QPT_DC_INI -> k_uobject f = false -> grants_reset e ->
  qp_state attr = IB_QPS_RESET -> k_state (k_dyn (m_qp s)) <> IB_QPS_RESET ->
  exists s', mlx5_ib_modify_qp dev raw gsi dct e None attr IB_QP_STATE s = Some (inr tt, s') /\
    m_cqs s' = m_cqs s /\
    forall ctr idx id st sq', comp_req (k_sq (m_qp s')) ctr = Some (idx, id, st, sq') ->
      0 <= wqe_head (k_sq (m_qp s)) idx < 2 ^ 31 -> 0 <= max_post (k_sq (m_qp s)) <= 2 ^ 31 ->
      mlx5_wq_overflow sq' 0 = true.
Proof.
  intros f Hp Ht Hty Ho He Ha Hst.
  rewrite (modify_to_reset dev raw gsi dct e attr s) by (done || by right). unfold reset_queues.
  rewrite (es_bind_ok _ _ _ tt (with_m_qp (with_m_cmd s (mkcmd MLX5_CMD_OP_2RST_QP None) 0)
             (rewind (record_attrs attr IB_QP_STATE IB_QPS_RESET (m_qp s))))).
  2: { rewrite es_get_ok. cbn [m_qp with_m_qp record_attrs with_k_dyn k_fix]. fold f. by rewrite Hty. }
  eexists. split; [done|]. split; [done|]. intros ctr idx id st sq' Hc Hh Hm.
  unfold comp_req in Hc. destruct (handle_atomics _ _ _ _) as [lp|]; [|done]. injection Hc as <- _ _ <-.
  unfold mlx5_wq_overflow.
  cbn [head tail max_post set_tail_poll k_sq m_qp with_m_qp with_m_cmd rewind record_attrs with_k_dyn rewind_sq
       wqe_cnt wqe_head] in *.
  set (h := wqe_head _ _) in *.
  assert (E : u32 (u32 (0 - u32 (h + 1)) + 0) = 2 ^ 32 - (h + 1)).
  { rewrite (u32_small (h + 1)) by lia. rewrite Z.add_0_r. unfold u32. rewrite Z.mod_mod by lia.
    symmetry. apply Z.mod_unique with (-1); lia. }
  rewrite E, (u32_small (max_post _)) by lia. zcases; lia || done.
Qed.

Lemma reset_restores_queues_witness :
  exists s', mlx5_ib_modify_qp ib_dev no_raw no_other no_other willing None (ex_attr IB_QPS_RESET ib_peer)
      IB_QP_STATE (qp_in rc_fix IB_QPS_RTS) = Some (inr tt, s') /\
    sq_inv (k_sq (m_qp s')) ex_mem [] /\ rq_inv (k_rq (m_qp s')) ex_mem [].
Proof.
  destruct (reset_restores_queues ib_dev no_raw no_other no_other willing (ex_attr IB_QPS_RESET ib_peer)
    (qp_in rc_fix IB_QPS_RTS) 0 1 ex_clean ex_cq 2 2 2 2 None None ex_mem ex_mem)
    as (s' & E & _ & _ & _ & Hs & Hr & _); try done.
  - by left.
  - apply (conj ex_clean_wf). split; [done|]. split; [done|]. split; [|done].
    intros i Hi. by assert (i = 0 \/ i = 1) as [-> | ->] by lia.
  - apply (conj ex_cq_wf). split; [done|]. split; [done|]. split; [|done].
    intros i Hi. by assert (i = 0 \/ i = 1) as [-> | ->] by lia.
  - exists s'. split; [exact E|]. by split.
Defined.

Lemma dc_reset_wedges_queue_witness :
  exists s' idx id st sq', mlx5_ib_modify_qp ib_dev no_raw no_other no_other willing None
      (ex_attr IB_QPS_RESET ib_peer) IB_QP_STATE (qp_in dc_fix IB_QPS_RTS) = Some (inr tt, s') /\
    m_cqs s' 0 = Some ex_clean /\
    comp_req (k_sq (m_qp s')) 0 = Some (idx, id, st, sq') /\ mlx5_wq_overflow sq' 0 = true.
Proof.
  pose (s := qp_in dc_fix IB_QPS_RTS).
  pose (call := mlx5_ib_modify_qp ib_dev no_raw no_other no_other willing None
                  (ex_attr IB_QPS_RESET ib_peer) IB_QP_STATE).
  assert (E : call s = Some (inr tt, after call s)) by reflexivity.
  assert (C : exists idx id st sq', comp_req (k_sq (m_qp (after call s))) 0 = Some (idx, id, st, sq'))
    by (eexists _, _, _, _; reflexivity).
  destruct C as (idx & id & st & sq' & C). exists (after call s), idx, id, st, sq'.
  destruct (dc_reset_wedges_queue ib_dev no_raw no_other no_other willing (ex_attr IB_QPS_RESET ib_peer) s)
    as (s1 & E1 & Hc & H); try done.
  unfold call in E. rewrite E in E1. injection E1 as <-.
  split; [exact E|]. split; [exact (f_equal (fun g => g 0) Hc)|]. split; [exact C|]. apply (H _ _ _ _ _ C); done.
Defined.
