(* ===== verification/QpQuery.v ===== *)
(** * QpQuery: what query_qp reads is what modify_qp wrote

    The context modify_qp builds is decoded by query_qp into the attributes it
    was built from. *)

From S2P Require Import Prelude BitFields ErrState FragBuf Strides KHeap FragAlloc QpTypes SqRing RecvQueue Srq Cqe CqRing QpState QpContext QpModify QpExample.

Open Scope es_scope.

(** ** Taking modify_context apart *)

(** The path mlx5_set_path returns. *)
Definition path_of (dev : mlx5_dev) (q : path_qp) (ah : rdma_ah_attr) (path : mlx5_qp_path) (port mask : Z)
    (attr : ib_qp_attr) (alt : bool) : mlx5_qp_path :=
  fill_path dev q ah path port mask 0 attr alt
    (if test (ah_flags ah) IB_AH_GRH then tclass_get dev ah port (ah_traffic_class ah) else ah_traffic_class ah)
    (ib_rate_to_mlx5 dev (ah_static_rate ah)).

(** An address mlx5_set_path accepts. *)
Definition path_accepted (dev : mlx5_dev) (ah : rdma_ah_attr) (port : Z) : Prop :=
  (test (ah_flags ah) IB_AH_GRH = true -> ah_sgid_index ah < gid_table_len dev (port - 1)) /\
  (is_roce (ah_type ah) = true -> test (ah_flags ah) IB_AH_GRH = true) /\
  0 <= ib_rate_to_mlx5 dev (ah_static_rate ah).

Lemma set_path_post dev q ah p port mask attr alt s :
  post (set_path dev q ah p port mask attr alt) s (fun r _ =>
    match r with
    | inr p' => p' = path_of dev q ah p port mask attr alt /\ path_accepted dev ah port
    | inl _ => True
    end).
Proof.
  unfold set_path. destruct (mlx5_set_path _ _ _ _ _ _ _ _) as [r saved] eqn:E.
  apply post_bind, post_mod. destruct r as [x|p']; simpl; [by apply post_fail|]. apply post_ret.
  revert E. unfold mlx5_set_path, path_of, path_accepted. destruct (test (ah_flags ah) IB_AH_GRH); simpl.
  - destruct (Z.leb_spec (gid_table_len dev (port - 1)) (ah_sgid_index ah)); [done|].
    rewrite andb_false_r. destruct (Z.ltb_spec (ib_rate_to_mlx5 dev (ah_static_rate ah)) 0); [done|].
    match goal with |- context [?a =? 0] => destruct (a =? 0) end; [|done]. by intros [= <- _].
  - rewrite andb_true_r. destruct (is_roce (ah_type ah)); [done|].
    destruct (Z.ltb_spec (ib_rate_to_mlx5 dev (ah_static_rate ah)) 0); [done|].
    match goal with |- context [?a =? 0] => destruct (a =? 0) end; [|done]. by intros [= <- _].
Qed.

Section Context.
Context (dev : mlx5_dev) (f : qp_fix) (d : qp_dyn) (n : Z) (q : path_qp) (attr : ib_qp_attr) (mask : Z).
Context (cur new : ib_qp_state) (st : Z).

Definition the_port : Z := if test mask IB_QP_PORT then port_num attr else k_port d.

Definition the_pri : mlx5_qp_path :=
  add_timeout (if test mask IB_QP_AV
               then path_of dev q (ah_attr attr) (pri_path_start f d attr mask) the_port mask attr false
               else pri_path_start f d attr mask) attr mask.

Definition the_alt : mlx5_qp_path :=
  if test mask IB_QP_ALT_PATH
  then path_of dev q (alt_ah_attr attr) zero_path (alt_port_num attr)
         (mask .| IB_QP_PKEY_INDEX .| IB_QP_TIMEOUT) attr true
  else zero_path.

Definition rd_bits (has : Z) (max : Z) : Z :=
  if test mask has && negb (max =? 0) then fls (max - 1) else 0.

(** The fields of a context that was built. *)
Record built (c : mlx5_qp_context) : Prop := {
  bt_flags : exists tx, 0 <= tx <= 2 /\ flags c = (st <<. 16) .| (mig_bits attr mask <<. 11) .| (tx <<. 24);
  bt_mtu : mtu_field dev f attr mask = inr (mtu_msgmax c);
  bt_remote : log_pg_sz_remote_qpn c = if test mask IB_QP_DEST_QPN then dest_qp_num attr else 0;
  bt_pri : pri_path c = the_pri;
  bt_alt : alt_path c = the_alt;
  bt_params1 : params1 c = params1_field attr mask;
  bt_spsn : next_send_psn c = if test mask IB_QP_SQ_PSN then sq_psn attr .& 16777215 else 0;
  bt_params2 : exists acc,
    params2 c = (rd_bits IB_QP_MAX_DEST_RD_ATOMIC (max_dest_rd_atomic attr) <<. 21) .| acc /\
    if test mask (IB_QP_ACCESS_FLAGS .| IB_QP_MAX_DEST_RD_ATOMIC)
    then to_mlx5_access_flags dev (k_type f) (k_resp_depth d) (k_atomic_rd_en d) attr mask = inr acc
    else acc = 0;
  bt_rnr : rnr_nextrecvpsn c =
    (if test mask IB_QP_MIN_RNR_TIMER then u32 (min_rnr_timer attr <<. 24) else 0)
    .| (if test mask IB_QP_RQ_PSN then rq_psn attr .& 16777215 else 0);
  bt_qkey : ctx_qkey c = if test mask IB_QP_QKEY then qkey attr else 0;
  bt_av : test mask IB_QP_AV = true -> path_accepted dev (ah_attr attr) the_port;
}.

Lemma tx_post (b : bool) s : post (if b then get_tx_affinity else es_ret 0) s (fun r _ =>
  match r with inr tx => 0 <= tx <= 2 | inl _ => True end).
Proof.
  destruct b; [|apply post_ret; lia]. unfold get_tx_affinity. apply post_bind, post_mod, post_bind, post_get, post_ret.
  unfold MLX5_MAX_PORTS. pose proof (Z.mod_pos_bound (m_tx (with_m_tx s (u32 (m_tx s + 1)))) 2). lia.
Qed.

Lemma context_built s :
  post (modify_context dev f d n q attr mask cur new st) s (fun r _ =>
    match r with inr c => built c | inl _ => True end).
Proof.
  unfold modify_context. apply post_bind. eapply post_mono; [apply tx_post|]. intros [x|tx] s1 Htx; [done|].
  apply post_bind. destruct (mtu_field dev f attr mask) as [x|mtu] eqn:Emtu; [by apply post_fail|apply post_ret].
  apply post_bind. fold the_port.
  assert (Hpri : post (if test mask IB_QP_AV
      then set_path dev q (ah_attr attr) (pri_path_start f d attr mask) the_port mask attr false
      else es_ret (pri_path_start f d attr mask)) s1 (fun r _ => match r with
      | inr p => add_timeout p attr mask = the_pri /\
                 (test mask IB_QP_AV = true -> path_accepted dev (ah_attr attr) the_port)
      | inl _ => True end)).
  { unfold the_pri. destruct (test mask IB_QP_AV); [|by apply post_ret].
    eapply post_mono; [apply set_path_post|]. intros [x|p] ? H; [done|]. by destruct H as [-> ?]. }
  eapply post_mono; [exact Hpri|]. intros [x|pri] s2 H2; [done|]. destruct H2 as [Hp Hav].
  apply post_bind.
  assert (Halt : post (if test mask IB_QP_ALT_PATH
      then set_path dev q (alt_ah_attr attr) zero_path (alt_port_num attr)
             (mask .| IB_QP_PKEY_INDEX .| IB_QP_TIMEOUT) attr true
      else es_ret zero_path) s2 (fun r _ => match r with inr p => p = the_alt | inl _ => True end)).
  { unfold the_alt. destruct (test mask IB_QP_ALT_PATH); [|by apply post_ret].
    eapply post_mono; [apply set_path_post|]. by intros [x|p] ? H; [|destruct H]. }
  eapply post_mono; [exact Halt|]. intros [x|alt] s3 H3; [done|].
  destruct (_ && _); [by apply post_fail|]. apply post_bind.
  assert (Hacc : post (if test mask (IB_QP_ACCESS_FLAGS .| IB_QP_MAX_DEST_RD_ATOMIC)
      then es_sum (to_mlx5_access_flags dev (k_type f) (k_resp_depth d) (k_atomic_rd_en d) attr mask)
      else es_ret 0) s3 (fun r _ => match r with
      | inr acc => if test mask (IB_QP_ACCESS_FLAGS .| IB_QP_MAX_DEST_RD_ATOMIC)
                   then to_mlx5_access_flags dev (k_type f) (k_resp_depth d) (k_atomic_rd_en d) attr mask = inr acc
                   else acc = 0
      | inl _ => True end)).
  { destruct (test mask (IB_QP_ACCESS_FLAGS .| IB_QP_MAX_DEST_RD_ATOMIC)); [|by apply post_ret].
    destruct (to_mlx5_access_flags _ _ _ _ _ _); [by apply post_fail|by apply post_ret]. }
  eapply post_mono; [exact Hacc|]. intros [x|acc] s4 H4; [done|].
  destruct (get_cqs _ _ _) as [scq rcq]. destruct (ooo_bit dev (k_type f) mask) as [o|].
  2: { apply post_bind, post_lift. intros. by apply post_fail. }
  apply post_ret. split; simpl; try done; [by exists tx|].
  exists acc. split; [|done]. unfold rd_bits. by destruct (_ && _); rewrite ?Z.shiftl_0_l.
Qed.
End Context.

(** ** Reading the words *)

Lemma land_bit x k : 0 <= k -> x .& 2 ^ k = if Z.testbit x k then 2 ^ k else 0.
Proof.
  intros Hk. apply Z.bits_inj'. intros i Hi. rewrite Z.land_spec, Z.pow2_bits_eqb by done.
  destruct (Z.eqb_spec k i) as [->|Hne].
  - destruct (Z.testbit x i); [by rewrite Z.pow2_bits_true|by rewrite Z.bits_0].
  - rewrite andb_false_r. destruct (Z.testbit x k); [by rewrite Z.pow2_bits_false|by rewrite Z.bits_0].
Qed.

Lemma test_bit x k : 0 <= k -> test x (2 ^ k) = Z.testbit x k.
Proof.
  intros Hk. unfold test. rewrite land_bit by done. pose proof (pow2_pos k Hk).
  destruct (Z.testbit x k); [|done]. destruct (Z.eqb_spec (2 ^ k) 0); [lia|done].
Qed.

Lemma get_field_bit x k : 0 <= k -> test x (2 ^ k) = negb (get_field k 1 x =? 0).
Proof.
  intros Hk. rewrite test_bit by done. unfold get_field. change (2 ^ 1 - 1) with (2 ^ 0). rewrite land_bit by lia.
  rewrite Z.shiftr_spec, Z.add_0_l by lia. by destruct (Z.testbit x k).
Qed.

Definition access_word (dest mode : Z) (rre rwe rae : bool) : list bfield :=
  [(21, 3, dest); (16, 4, mode); (15, 1, Z.b2z rre); (14, 1, Z.b2z rwe); (13, 1, Z.b2z rae)].

Lemma access_word_ok dest mode rre rwe rae :
  0 <= dest < 8 -> 0 <= mode < 16 ->
  layout (access_word dest mode rre rwe rae) = true /\ Forall in_width (access_word dest mode rre rwe rae).
Proof. intros. split; [done|]. repeat constructor; simpl; try lia; by destruct rre, rwe, rae. Qed.

Lemma access_word_read dest mode rre rwe rae :
  0 <= dest < 8 -> 0 <= mode < 16 ->
  let x := word (access_word dest mode rre rwe rae) in
  to_ib_qp_access_flags x = (if rre then IB_ACCESS_REMOTE_READ else 0) .| (if rwe then IB_ACCESS_REMOTE_WRITE else 0)
                            .| (if rae then IB_ACCESS_REMOTE_ATOMIC else 0) /\
  (x >>. 21) .& 7 = dest.
Proof.
  intros Hd Hm. destruct (access_word_ok dest mode rre rwe rae Hd Hm) as [Hl Hw]. cbv zeta. split.
  - unfold to_ib_qp_access_flags, MLX5_QP_BIT_RRE, MLX5_QP_BIT_RWE, MLX5_QP_BIT_RAE.
    change 32768 with (2 ^ 15). change 16384 with (2 ^ 14). change 8192 with (2 ^ 13).
    rewrite !get_field_bit by lia.
    rewrite (word_get _ 15 1 (Z.b2z rre) Hl Hw), (word_get _ 14 1 (Z.b2z rwe) Hl Hw),
      (word_get _ 13 1 (Z.b2z rae) Hl Hw) by (unfold access_word; set_solver).
    by destruct rre, rwe, rae.
  - apply (word_get _ 21 3 dest Hl Hw). unfold access_word. set_solver.
Qed.

(** Only a mode of the extended operations keeps its four bits; the others are
    shifted out. *)
Lemma atomic_mode_field dev t :
  0 <= get_atomic_mode dev t ->
  exists m, 0 <= m < 16 /\ u32 (get_atomic_mode dev t <<. MLX5_ATOMIC_MODE_OFF) = m <<. 16.
Proof.
  assert (Hs : forall x, 0 < atomic_size_to_mode x ->
    exists m, 0 <= m < 16 /\ u32 (atomic_size_to_mode x <<. MLX5_ATOMIC_MODE_OFF) = m <<. 16).
  { intros x. unfold atomic_size_to_mode. destruct (Z.eqb_spec (x .& 511) 0) as [|Hx]; [done|].
    destruct (Z.ltb_spec 3 (Z.log2 (x .& 511))); [|by exists 0].
    intros _. assert (Hb : 0 <= x .& 511 < 2 ^ 9).
    { change 511 with (2 ^ 9 - 1). rewrite land_mask by lia. by apply Z.mod_pos_bound. }
    assert (Z.log2 (x .& 511) < 9) by (apply Z.log2_lt_pow2; lia).
    exists (Z.log2 (x .& 511)). split; [lia|]. apply u32_small.
    rewrite Z.shiftl_mul_pow2 by done. change (2 ^ MLX5_ATOMIC_MODE_OFF) with 65536. lia. }
  unfold get_atomic_mode. destruct (negb (cap_atomic dev)); [done|].
  set (sz := if qpt_eqb t _ then _ else _).
  destruct (test _ MLX5_ATOMIC_OPS_EXTENDED_CMP_SWAP || _).
  - destruct (Z.leb_spec (atomic_size_to_mode sz) 0) as [H|H]; simpl.
    + destruct (_ && _); [intros _; by exists 0|]. unfold atomic_size_to_mode in *.
      destruct (_ =? 0); [done|]. destruct (Z.ltb_spec 3 (Z.log2 (sz .& 511))); [lia|done].
    + intros _. by apply Hs.
  - simpl. destruct (_ && _); [intros _; by exists 0|done].
Qed.

Lemma access_flags_word dev t depth en attr mask acc dest :
  to_mlx5_access_flags dev t depth en attr mask = inr acc -> 0 <= dest < 8 ->
  let rd := if test mask IB_QP_MAX_DEST_RD_ATOMIC then max_dest_rd_atomic attr else depth in
  let asked := u32 (if test mask IB_QP_ACCESS_FLAGS then qp_access_flags attr else en) in
  let allowed := if rd =? 0 then asked .& IB_ACCESS_REMOTE_WRITE else asked in
  exists mode, 0 <= mode < 16 /\
    (dest <<. 21) .| acc = word (access_word dest mode (test allowed IB_ACCESS_REMOTE_READ)
                                   (test allowed IB_ACCESS_REMOTE_WRITE) (test allowed IB_ACCESS_REMOTE_ATOMIC)).
Proof.
  intros H Hd rd asked allowed. revert H. unfold to_mlx5_access_flags. fold rd asked allowed.
  set (a := dest <<. 21).
  destruct (test allowed IB_ACCESS_REMOTE_ATOMIC).
  - destruct (Z.ltb_spec (get_atomic_mode dev t) 0) as [|Hm]; [done|].
    destruct (atomic_mode_field dev t Hm) as (m & Hmr & ->). intros [= <-]. exists m. split; [done|].
    unfold word, access_word. cbn [foldr]. fold a. set (b := m <<. 16).
    destruct (test allowed IB_ACCESS_REMOTE_READ), (test allowed IB_ACCESS_REMOTE_WRITE); simpl;
      apply Z.bits_inj'; intros i Hi; rewrite !Z.lor_spec;
      destruct (Z.testbit a i), (Z.testbit b i); simpl; rewrite ?orb_true_r, ?orb_false_r; try done;
      by rewrite <- !Z.lor_spec.
  - intros [= <-]. exists 0. split; [done|]. unfold word, access_word. cbn [foldr]. fold a.
    by destruct (test allowed IB_ACCESS_REMOTE_READ), (test allowed IB_ACCESS_REMOTE_WRITE).
Qed.

Lemma fls_range m : 1 <= m <= 128 -> 0 <= fls (m - 1) < 8.
Proof.
  intros. unfold fls. destruct (Z.eqb_spec (m - 1) 0); [lia|].
  assert (Z.log2 (m - 1) < 7) by (apply Z.log2_lt_pow2; lia). pose proof (Z.log2_nonneg (m - 1)). lia.
Qed.

Lemma fls_pow2 m : 1 <= m -> 1 <<. fls (m - 1) = 2 ^ Z.log2_up m.
Proof.
  intros. rewrite Z.shiftl_1_l. f_equal. unfold fls. destruct (Z.eqb_spec (m - 1) 0).
  - replace m with 1 by lia. done.
  - rewrite Z.log2_up_eqn by lia. by replace (Z.pred m) with (m - 1) by lia.
Qed.

(** The ranges the verbs give to the attributes. *)
Record attr_ok (attr : ib_qp_attr) : Prop := {
  ao_rnr : 0 <= rnr_retry attr < 8;
  ao_retry : 0 <= retry_cnt attr < 8;
  ao_rd : 0 <= max_rd_atomic attr <= 128;
  ao_dest_rd : 0 <= max_dest_rd_atomic attr <= 128;
  ao_timer : 0 <= min_rnr_timer attr < 32;
  ao_rq_psn : 0 <= rq_psn attr < 2 ^ 24;
  ao_sq_psn : 0 <= sq_psn attr < 2 ^ 24;
  ao_dest : 0 <= dest_qp_num attr < 2 ^ 24;
  ao_pkey : 0 <= pkey_index attr < 65536;
  ao_timeout : 0 <= timeout attr < 32;
  ao_alt_pkey : 0 <= alt_pkey_index attr < 65536;
  ao_alt_timeout : 0 <= alt_timeout attr < 32;
}.

Definition params1_word (attr : ib_qp_attr) (mask : Z) : list bfield :=
  [(31, 1, 1); (13, 3, if test mask IB_QP_RNR_RETRY then rnr_retry attr else 0);
   (16, 3, if test mask IB_QP_RETRY_CNT then retry_cnt attr else 0);
   (21, 3, rd_bits mask IB_QP_MAX_QP_RD_ATOMIC (max_rd_atomic attr))].

Lemma rd_bits_range mask has m : 0 <= m <= 128 -> 0 <= rd_bits mask has m < 8.
Proof.
  intros. unfold rd_bits. destruct (test mask has); simpl; [|lia].
  destruct (Z.eqb_spec m 0); simpl; [lia|]. apply fls_range. lia.
Qed.

Lemma params1_fields attr mask :
  attr_ok attr ->
  let x := params1_field attr mask in
  (x >>. 21) .& 7 = rd_bits mask IB_QP_MAX_QP_RD_ATOMIC (max_rd_atomic attr) /\
  (x >>. 16) .& 7 = (if test mask IB_QP_RETRY_CNT then retry_cnt attr else 0) /\
  (x >>. 13) .& 7 = (if test mask IB_QP_RNR_RETRY then rnr_retry attr else 0).
Proof.
  intros [H1 H2 H3]. cbv zeta.
  assert (E : params1_field attr mask = word (params1_word attr mask)).
  { unfold params1_field, word, params1_word, rd_bits. cbn [foldr]. rewrite Z.lor_0_r, <- !Z.lor_assoc. f_equal.
    destruct (test mask IB_QP_RNR_RETRY), (test mask IB_QP_RETRY_CNT), (_ && _); by rewrite ?Z.shiftl_0_l. }
  rewrite E. pose proof (rd_bits_range mask IB_QP_MAX_QP_RD_ATOMIC _ H3).
  assert (Hw : Forall in_width (params1_word attr mask)).
  { repeat constructor; simpl; try lia; match goal with |- context [if ?b then _ else _] => destruct b end; lia. }
  assert (Hl : layout (params1_word attr mask) = true) by done. split; [|split].
  - apply (word_get _ 21 3 _ Hl Hw). unfold params1_word. set_solver.
  - apply (word_get _ 16 3 _ Hl Hw). unfold params1_word. set_solver.
  - apply (word_get _ 13 3 _ Hl Hw). unfold params1_word. set_solver.
Qed.

Lemma low24 x : 0 <= x < 2 ^ 24 -> x .& 16777215 = x.
Proof. intros. change 16777215 with (2 ^ 24 - 1). rewrite land_mask by lia. by apply Z.mod_small. Qed.

Lemma rnr_fields t p :
  0 <= t < 32 -> 0 <= p < 2 ^ 24 ->
  let x := u32 (t <<. 24) .| p in x .& 16777215 = p /\ (x >>. 24) .& 31 = t.
Proof.
  intros Ht Hp. cbv zeta. rewrite u32_small by (rewrite Z.shiftl_mul_pow2 by lia; lia).
  assert (E : (t <<. 24) .| p = word [(24, 5, t); (0, 24, p)]).
  { unfold word. cbn [foldr]. by rewrite Z.lor_0_r, Z.shiftl_0_r. }
  set (l := [(24, 5, t); (0, 24, p)]) in *. assert (Hw : Forall in_width l) by (repeat constructor; simpl; lia).
  rewrite E. split.
  - rewrite <- (Z.shiftr_0_r (word l)). apply (word_get l 0 24 p); [done|done|set_solver].
  - apply (word_get l 24 5 t); [done|done|set_solver].
Qed.

Lemma mtu_read m l : 1 <= m <= 5 -> 0 <= l < 32 -> u8 ((m <<. 5) .| u8 l) >>. 5 = m.
Proof.
  intros Hm Hl. rewrite (u8_small l) by lia. rewrite Z.lor_comm, Z.shiftl_mul_pow2, lor_low_high by lia.
  rewrite u8_small by lia. rewrite Z.shiftr_div_pow2 by lia. symmetry. apply Z.div_unique with l; lia.
Qed.

Lemma mig_read st tx attr mask :
  0 <= st < 32 -> 0 <= tx <= 2 -> test mask IB_QP_PATH_MIG_STATE = true ->
  to_ib_mig_state ((((st <<. 16) .| (mig_bits attr mask <<. 11) .| (tx <<. 24)) >>. 11) .& 3)
    = Some (path_mig_state attr).
Proof.
  intros Hs Ht Hm. assert (Hb : 0 <= mig_bits attr mask <= 3).
  { unfold mig_bits. rewrite Hm. by destruct (path_mig_state attr). }
  assert (E : (st <<. 16) .| (mig_bits attr mask <<. 11) .| (tx <<. 24)
      = word [(16, 5, st); (11, 2, mig_bits attr mask); (24, 2, tx)]).
  { unfold word. cbn [foldr]. by rewrite Z.lor_0_r, Z.lor_assoc. }
  set (l := [(16, 5, st); (11, 2, mig_bits attr mask); (24, 2, tx)]) in *.
  rewrite E. assert (Hg : (word l >>. 11) .& 3 = mig_bits attr mask).
  { apply (word_get l 11 2 (mig_bits attr mask)); [done|repeat constructor; simpl; lia|set_solver]. }
  rewrite Hg.
  unfold mig_bits. rewrite Hm. by destruct (path_mig_state attr).
Qed.

(** ** The address vector *)

(** An address of the port it is used on, in the ranges of the verbs, with a
    rate the device has and no rule of the administrator that rewrites it. *)
Record address_ok (dev : mlx5_dev) (port : Z) (ah : rdma_ah_attr) : Prop := {
  ad_port : 1 <= port <= num_ports dev;
  ad_type : ah_type ah = port_type dev port;
  ad_kind : ah_type ah = RDMA_AH_ATTR_TYPE_IB \/ ah_type ah = RDMA_AH_ATTR_TYPE_ROCE;
  ad_sl : 0 <= ah_sl ah < 16;
  ad_rate : ah_static_rate ah = 0 \/
            2 <= ah_static_rate ah <= 22 /\ test (1 <<. (ah_static_rate ah + 5)) (stat_rate_support dev) = true;
  ad_flow : 0 <= ah_flow_label ah < 2 ^ 20;
  ad_class : 0 <= ah_traffic_class ah < 256;
  ad_gid : 0 <= ah_sgid_index ah < 256;
  ad_lid : 0 <= ah_dlid ah < 65536;
  ad_bits : 0 <= ah_src_path_bits ah < 128;
  ad_ttl : ttl dev (port - 1) = 0;
  ad_tclass : tclass_get dev ah port (ah_traffic_class ah) = ah_traffic_class ah;
}.

(** [r] is [ah] as far as a path can say: the service level of a RoCE address
    is not read from where it is written, and a routable RoCE address with a hop
    limit below 2 gets the default one. *)
Record address_back (port : Z) (ah r : rdma_ah_attr) : Prop := {
  ab_type : ah_type r = ah_type ah;
  ab_port : ah_port_num r = port;
  ab_rate : ah_static_rate r = ah_static_rate ah;
  ab_sl : ah_sl r = if is_roce (ah_type ah) then 0 else ah_sl ah;
  ab_lid : is_roce (ah_type ah) = false -> ah_dlid r = ah_dlid ah /\ ah_src_path_bits r = ah_src_path_bits ah;
  ab_grh : test (ah_flags r) IB_AH_GRH = test (ah_flags ah) IB_AH_GRH;
  ab_route : test (ah_flags ah) IB_AH_GRH = true ->
    ah_dgid r = ah_dgid ah /\ ah_flow_label r = ah_flow_label ah /\ ah_sgid_index r = ah_sgid_index ah /\
    ah_traffic_class r = ah_traffic_class ah /\
    (is_roce (ah_type ah) = false \/ 2 <= ah_hop_limit ah -> ah_hop_limit r = ah_hop_limit ah);
}.

Lemma tclass_flow_fields c l :
  0 <= c < 256 -> 0 <= l < 2 ^ 20 ->
  let x := u32 ((c <<. 20) .| l) in x .& 1048575 = l /\ (x >>. 20) .& 255 = c.
Proof.
  intros Hc Hl. cbv zeta. set (w := [(20, 8, c); (0, 20, l)]).
  assert (Hw : Forall in_width w) by (repeat constructor; simpl; lia).
  assert (E : (c <<. 20) .| l = word w).
  { unfold word, w. cbn [foldr]. by rewrite Z.lor_0_r, Z.shiftl_0_r. }
  rewrite E, u32_small.
  - split; [rewrite <- (Z.shiftr_0_r (word w)); apply (word_get w 0 20 l)|apply (word_get w 20 8 c)];
      solve [done|set_solver].
  - split; [by apply word_nonneg|]. apply (Z.lt_le_trans _ (2 ^ 28)); [|lia].
    apply word_lt; [done|done|lia|]. repeat constructor; lia.
Qed.

Lemma rate_back dev rate :
  rate = 0 \/ 2 <= rate <= 22 /\ test (1 <<. (rate + 5)) (stat_rate_support dev) = true ->
  ib_rate_to_mlx5 dev rate = if rate =? 0 then 0 else rate + 5.
Proof.
  intros [->|[Hr Ht]]; [done|]. unfold ib_rate_to_mlx5, IB_RATE_PORT_CURRENT, IB_RATE_2_5_GBPS, IB_RATE_600_GBPS.
  destruct (Z.eqb_spec rate 0); [lia|]. destruct (Z.ltb_spec rate 2); [lia|]. destruct (Z.ltb_spec 22 rate); [lia|].
  simpl. replace (lower_rate (Z.to_nat rate) (stat_rate_support dev)) with rate.
  { destruct (Z.eqb_spec rate 0); [lia|done]. }
  destruct (Z.to_nat rate) as [|r] eqn:E; [lia|]. cbn [lower_rate]. rewrite <- E, Z2Nat.id by lia.
  unfold MLX5_STAT_RATE_OFFSET. by rewrite Ht.
Qed.

Lemma mlid_fields b (g : bool) :
  0 <= b < 128 -> let x := (b .& 127) .| (if g then 128 else 0) in x .& 127 = b /\ test x 128 = g.
Proof.
  intros Hb. cbv zeta. set (w := [(0, 7, b); (7, 1, Z.b2z g)]).
  assert (Hw : Forall in_width w) by (repeat constructor; simpl; destruct g; simpl; lia).
  assert (E : (b .& 127) .| (if g then 128 else 0) = word w).
  { unfold word, w. cbn [foldr]. rewrite Z.lor_0_r, Z.shiftl_0_r. change 127 with (2 ^ 7 - 1).
    rewrite land_mask, Z.mod_small by lia. by destruct g. }
  rewrite E. split.
  - rewrite <- (Z.shiftr_0_r (word w)). apply (word_get w 0 7 b); [done|done|set_solver].
  - change 128 with (2 ^ 7). rewrite get_field_bit by lia. rewrite (word_get w 7 1 (Z.b2z g)) by solve [done|set_solver].
    by destruct g.
Qed.

Lemma address_read dev q ah start port mask attr alt :
  address_ok dev port ah -> path_accepted dev ah port ->
  address_back port ah (to_rdma_ah_attr dev (path_of dev q ah start port mask attr alt)).
Proof.
  intros H [_ [Hroce _]]. destruct H as [Hp Hty Hk Hsl Hr Hf Hc Hg Hlid Hb Httl Htc].
  destruct (tclass_flow_fields _ _ Hc Hf) as [F1 F2].
  assert (Hst : forall k, (k = 0 \/ k = ah_static_rate ah + 5 /\ ah_static_rate ah <> 0) -> u8 k = k).
  { intros k ?. apply u8_small. lia. }
  assert (Hrate : (if u8 (ib_rate_to_mlx5 dev (ah_static_rate ah)) =? 0 then 0
                   else u8 (ib_rate_to_mlx5 dev (ah_static_rate ah)) - 5) = ah_static_rate ah).
  { rewrite rate_back by done. destruct (Z.eqb_spec (ah_static_rate ah) 0) as [e|e]; [by rewrite e|].
    rewrite Hst by lia. destruct (Z.eqb_spec (ah_static_rate ah + 5) 0); lia. }
  unfold to_rdma_ah_attr, path_of, fill_path. cbn [p_port].
  destruct (Z.eqb_spec port 0); [lia|]. destruct (Z.ltb_spec (num_ports dev) port); [lia|]. cbn [orb].
  rewrite Htc, Httl, <- Hty. simpl (negb (0 =? 0)).
  destruct Hk as [Hk|Hk]; rewrite Hk in *; cbn [is_roce] in *.
  - destruct (mlid_fields _ (test (ah_flags ah) IB_AH_GRH) Hb) as [M1 M2].
    assert (rdma_ah_get_path_bits ah = ah_src_path_bits ah /\ rdma_ah_get_dlid ah = ah_dlid ah) as [P1 P2].
    { unfold rdma_ah_get_path_bits, rdma_ah_get_dlid. by rewrite Hk. }
    rewrite P1, P2.
    split; cbn -[Z.land Z.lor Z.shiftr Z.shiftl u8 u16 u32 test is_roce]; rewrite ?Hk; change (is_roce RDMA_AH_ATTR_TYPE_IB) with false; cbv iota; try done.
    + change 15 with (2 ^ 4 - 1). rewrite !land_mask, Z.mod_mod, Z.mod_small by lia. done.
    + rewrite M1, u16_small by lia. done.
    + rewrite M2, orb_false_r. by destruct (test (ah_flags ah) IB_AH_GRH).
    + intros Hg'. rewrite M2, Hg'. cbn [orb andb]. rewrite F1, F2, u8_small by lia. done.
  - rewrite Hroce by done.
    split; cbn -[Z.land Z.lor Z.shiftr Z.shiftl u8 u16 u32 test is_roce]; rewrite ?Hk; change (is_roce RDMA_AH_ATTR_TYPE_ROCE) with true; cbv iota; rewrite ?orb_true_r; try done.
    + change 15 with (2 ^ 4 - 1). rewrite land_mask, Z.shiftl_mul_pow2 by lia. by apply Z.mod_mul.
    + by rewrite Hroce.
    + intros _. rewrite F1, F2, u8_small by lia. do 4 (split; [done|]). intros [?|?]; [done|].
      destruct (Z.ltb_spec (ah_hop_limit ah) 2); [lia|]. by rewrite andb_false_r.
Qed.

(** ** The round trip *)

Definition takes_mtu (f : qp_fix) : bool :=
  negb (is_sqp (k_type f)) && negb (qpt_eqb (k_type f) IB_QPT_UD && negb (test (k_flags f) MLX5_IB_QP_UNDERLAY))
  && negb (qpt_eqb (k_type f) MLX5_IB_QPT_REG_UMR).

(** The attributes the mask names are in the report. *)
Record reported (f : qp_fix) (d : qp_dyn) (attr : ib_qp_attr) (mask : Z) (r : qp_report) : Prop := {
  rp_mtu : test mask IB_QP_PATH_MTU = true -> takes_mtu f = true -> qr_path_mtu r = path_mtu attr;
  rp_mig : test mask IB_QP_PATH_MIG_STATE = true -> qr_path_mig_state r = Some (path_mig_state attr);
  rp_qkey : test mask IB_QP_QKEY = true -> qr_qkey r = qkey attr;
  rp_rq_psn : test mask IB_QP_RQ_PSN = true -> qr_rq_psn r = rq_psn attr;
  rp_sq_psn : test mask IB_QP_SQ_PSN = true -> qr_sq_psn r = sq_psn attr;
  rp_dest : test mask IB_QP_DEST_QPN = true -> qr_dest_qp_num r = dest_qp_num attr;
  rp_pkey : test mask IB_QP_PKEY_INDEX = true -> qr_pkey_index r = pkey_index attr;
  rp_port : test mask IB_QP_PORT = true -> qr_port_num r = port_num attr;
  rp_timeout : test mask IB_QP_TIMEOUT = true -> qr_timeout r = timeout attr;
  rp_retry : test mask IB_QP_RETRY_CNT = true -> qr_retry_cnt r = retry_cnt attr;
  rp_rnr : test mask IB_QP_RNR_RETRY = true -> qr_rnr_retry r = rnr_retry attr;
  rp_timer : test mask IB_QP_MIN_RNR_TIMER = true -> qr_min_rnr_timer r = min_rnr_timer attr;
  (* depths are rounded up to a power of two, 0 to 1 *)
  rp_rd : test mask IB_QP_MAX_QP_RD_ATOMIC = true -> qr_max_rd_atomic r = 2 ^ Z.log2_up (max_rd_atomic attr);
  rp_dest_rd : test mask IB_QP_MAX_DEST_RD_ATOMIC = true ->
    qr_max_dest_rd_atomic r = 2 ^ Z.log2_up (max_dest_rd_atomic attr);
  (* remote rights; without responder resources only the right to write stays *)
  rp_access : test mask IB_QP_ACCESS_FLAGS = true ->
    qr_access_flags r = u32 (qp_access_flags attr)
      .& (if (if test mask IB_QP_MAX_DEST_RD_ATOMIC then max_dest_rd_atomic attr else k_resp_depth d) =? 0
          then IB_ACCESS_REMOTE_WRITE
          else IB_ACCESS_REMOTE_WRITE .| IB_ACCESS_REMOTE_READ .| IB_ACCESS_REMOTE_ATOMIC);
  rp_alt_timeout : test mask IB_QP_ALT_PATH = true -> qr_alt_timeout r = alt_timeout attr;
}.

Lemma timeout_read t : 0 <= t < 32 -> u8 (t <<. 3) >>. 3 = t.
Proof.
  intros. rewrite u8_small by (rewrite Z.shiftl_mul_pow2 by lia; lia).
  by rewrite Z.shiftr_shiftl_l, Z.sub_diag, Z.shiftl_0_r by lia.
Qed.

Lemma the_pri_fields dev f d q attr mask :
  attr_ok attr ->
  (test mask IB_QP_PKEY_INDEX = true -> p_pkey_index (the_pri dev f d q attr mask) = pkey_index attr) /\
  (test mask IB_QP_PORT = true -> p_port (the_pri dev f d q attr mask) = port_num attr) /\
  (test mask IB_QP_TIMEOUT = true -> ackto_lt (the_pri dev f d q attr mask) >>. 3 = timeout attr).
Proof.
  intros H. destruct H. unfold the_pri, the_port. split; [|split]; intros E.
  - destruct (test mask IB_QP_AV); simpl; rewrite E; [by apply u16_small|done].
  - destruct (test mask IB_QP_AV); simpl; by rewrite E.
  - destruct (test mask IB_QP_AV); simpl; rewrite E; rewrite ?Z.lor_diag, ?Z.lor_0_l; by apply timeout_read.
Qed.

Lemma rd_read mask has m : 0 <= m -> test mask has = true -> 1 <<. rd_bits mask has m = 2 ^ Z.log2_up m.
Proof.
  intros Hm E. unfold rd_bits. rewrite E. simpl. destruct (Z.eqb_spec m 0) as [->|]; [done|]. apply fls_pow2. lia.
Qed.

Lemma rights_read a : let b := test a in
  (if b IB_ACCESS_REMOTE_READ then IB_ACCESS_REMOTE_READ else 0)
  .| (if b IB_ACCESS_REMOTE_WRITE then IB_ACCESS_REMOTE_WRITE else 0)
  .| (if b IB_ACCESS_REMOTE_ATOMIC then IB_ACCESS_REMOTE_ATOMIC else 0)
  = a .& (IB_ACCESS_REMOTE_WRITE .| IB_ACCESS_REMOTE_READ .| IB_ACCESS_REMOTE_ATOMIC).
Proof.
  cbv zeta. unfold IB_ACCESS_REMOTE_READ, IB_ACCESS_REMOTE_WRITE, IB_ACCESS_REMOTE_ATOMIC.
  rewrite !Z.land_lor_distr_r. change 2 with (2 ^ 1). change 4 with (2 ^ 2). change 8 with (2 ^ 3).
  rewrite !land_bit, !test_bit by lia.
  by destruct (Z.testbit a 1), (Z.testbit a 2), (Z.testbit a 3).
Qed.

Lemma params2_read dev t depth en attr mask acc dest :
  to_mlx5_access_flags dev t depth en attr mask = inr acc -> 0 <= dest < 8 ->
  (((dest <<. 21) .| acc) >>. 21) .& 7 = dest /\
  (test mask IB_QP_ACCESS_FLAGS = true ->
   to_ib_qp_access_flags ((dest <<. 21) .| acc) = u32 (qp_access_flags attr)
      .& (if (if test mask IB_QP_MAX_DEST_RD_ATOMIC then max_dest_rd_atomic attr else depth) =? 0
          then IB_ACCESS_REMOTE_WRITE
          else IB_ACCESS_REMOTE_WRITE .| IB_ACCESS_REMOTE_READ .| IB_ACCESS_REMOTE_ATOMIC)).
Proof.
  intros Ha Hd. destruct (access_flags_word _ _ _ _ _ _ _ dest Ha Hd) as (mode & Hm & E). rewrite E.
  match goal with |- context [access_word dest mode ?a ?b ?c] =>
    destruct (access_word_read dest mode a b c Hd Hm) as [R1 R2] end.
  split; [exact R2|]. intros Hf. etransitivity; [exact R1|]. rewrite Hf, rights_read.
  destruct (_ =? 0); [|done]. by rewrite <- Z.land_assoc.
Qed.

Lemma test_lor x a b : test x a = true \/ test x b = true -> test x (a .| b) = true.
Proof.
  unfold test. rewrite Z.land_lor_distr_r. destruct (Z.eqb_spec (Z.lor (x .& a) (x .& b)) 0) as [E|]; [|done].
  apply Z.lor_eq_0_iff in E as [-> ->]. by intros [?|?].
Qed.

Lemma test_sub m a : test a a = true -> test (m .| a) a = true.
Proof.
  unfold test. rewrite Z.land_lor_distr_l. intros Ha. destruct (Z.eqb_spec (Z.lor (m .& a) (a .& a)) 0) as [E|]; [|done].
  apply Z.lor_eq_0_iff in E as [_ E]. by rewrite E in Ha.
Qed.

Lemma mtu_reported dev f attr mask m :
  0 <= log_max_msg dev < 32 -> mtu_field dev f attr mask = inr m ->
  test mask IB_QP_PATH_MTU = true -> takes_mtu f = true -> m >>. 5 = path_mtu attr.
Proof.
  intros Hl Hm E. unfold mtu_field in Hm. unfold takes_mtu. destruct (is_sqp (k_type f)); [done|].
  destruct (qpt_eqb (k_type f) IB_QPT_UD && negb (test (k_flags f) MLX5_IB_QP_UNDERLAY)); [done|].
  destruct (qpt_eqb (k_type f) MLX5_IB_QPT_REG_UMR); [done|]. intros _. simpl in Hm.
  rewrite E in Hm. destruct (Z.ltb_spec (path_mtu attr) IB_MTU_256) as [|H1]; [done|].
  destruct (Z.ltb_spec IB_MTU_4096 (path_mtu attr)) as [|H2]; [done|]. unfold IB_MTU_256, IB_MTU_4096 in *.
  injection Hm as <-. apply mtu_read; lia.
Qed.

Lemma rnr_reported attr mask x :
  attr_ok attr ->
  x = (if test mask IB_QP_MIN_RNR_TIMER then u32 (min_rnr_timer attr <<. 24) else 0)
      .| (if test mask IB_QP_RQ_PSN then rq_psn attr .& 16777215 else 0) ->
  (test mask IB_QP_RQ_PSN = true -> x .& 16777215 = rq_psn attr) /\
  (test mask IB_QP_MIN_RNR_TIMER = true -> (x >>. 24) .& 31 = min_rnr_timer attr).
Proof.
  intros H ->. destruct H. rewrite (low24 (rq_psn attr)) by done.
  destruct (rnr_fields (if test mask IB_QP_MIN_RNR_TIMER then min_rnr_timer attr else 0)
              (if test mask IB_QP_RQ_PSN then rq_psn attr else 0)) as [A B].
  { destruct (test mask _); lia. }
  { destruct (test mask IB_QP_RQ_PSN); lia. }
  split; intros E; rewrite E in A, B |- *.
  - by destruct (test mask IB_QP_MIN_RNR_TIMER).
  - by destruct (test mask IB_QP_RQ_PSN).
Qed.

Lemma built_reported dev f d q attr mask st c :
  attr_ok attr -> 0 <= log_max_msg dev < 32 -> 0 <= st < 32 -> built dev f d q attr mask st c ->
  reported f d attr mask (query_qp_attr dev (k_type f) c).
Proof.
  intros Ha Hl Hst [[tx [Htx Hfl]] Hmtu Hrem Hpri Halt H1 Hsp [acc [H2 Hacc]] Hrnr Hqk _].
  destruct (the_pri_fields dev f d q attr mask Ha) as (P1 & P2 & P3).
  destruct (params1_fields attr mask Ha) as (Q1 & Q2 & Q3).
  destruct (rnr_reported attr mask _ Ha Hrnr) as [R1 R2].
  assert (HP2 : test mask (IB_QP_ACCESS_FLAGS .| IB_QP_MAX_DEST_RD_ATOMIC) = true -> _) by
    (intros Et; rewrite Et in Hacc; exact (params2_read dev _ _ _ attr mask acc _ Hacc
       (rd_bits_range mask IB_QP_MAX_DEST_RD_ATOMIC _ (ao_dest_rd attr Ha)))).
  destruct Ha. split; intros E; cbn -[Z.land Z.lor Z.shiftr Z.shiftl test]; try by auto.
  - by eapply mtu_reported.
  - rewrite Hfl. by apply mig_read.
  - by rewrite Hqk, E.
  - by rewrite Hsp, E, <- Z.land_assoc, low24.
  - by rewrite Hrem, E, low24.
  - rewrite Hpri. auto.
  - rewrite Hpri. auto.
  - rewrite Hpri. auto.
  - by rewrite H1, Q2, E.
  - by rewrite H1, Q3, E.
  - rewrite H1, Q1. apply rd_read; [lia|done].
  - destruct HP2 as [G _]; [apply test_lor; auto|]. rewrite H2, G. apply rd_read; [lia|done].
  - destruct HP2 as [_ G]; [apply test_lor; auto|]. rewrite H2. auto.
  - rewrite Halt. unfold the_alt. rewrite E. cbn [ackto_lt path_of fill_path].
    rewrite (test_sub (mask .| IB_QP_PKEY_INDEX) IB_QP_TIMEOUT) by done. by apply timeout_read.
Qed.

(** C18. Decoding inverts encoding: from any context __mlx5_ib_modify_qp builds
    of attributes that fit the fields of the context ([attr_ok]), query_qp_attr
    returns the scalar attributes the caller's mask named: the MTU for the types
    that take one, depths rounded up to powers of two, remote rights as far as the
    responder depth allows, of the alternate path its timeout only.  For RC and UC
    the primary address comes back too: port, rate and, with a GRH, destination
    GID, flow label, GID index and traffic class; for InfiniBand also the LID, path
    bits, service level and hop limit; for RoCE the service level is 0, the hop
    limit comes back only if at least 2, and nothing is said of MAC address and UDP
    source port.  Assumed of the address ([address_ok]): it is of the port's type,
    in range, its rate is supported, and no rule of the administrator replaces TTL
    or traffic class; of device and transport: the logarithm of the largest message
    and the transport's code fit five bits. *)
Theorem query_returns_modified dev f d n q attr mask cur new st s ctx s' :
  attr_ok attr -> 0 <= log_max_msg dev < 32 -> 0 <= st < 32 ->
  modify_context dev f d n q attr mask cur new st s = Some (inr ctx, s') ->
  let port := the_port d attr mask in
  let r := query_qp_attr dev (k_type f) ctx in
  reported f d attr mask r /\
  (test mask IB_QP_AV = true -> address_ok dev port (ah_attr attr) ->
   k_type f = IB_QPT_RC \/ k_type f = IB_QPT_UC ->
   exists ah alt pkey p, qr_av r = Some (ah, alt, pkey, p) /\ address_back port (ah_attr attr) ah).
Proof.
  intros Ha Hl Hst Hrun. cbv zeta.
  pose proof (context_built dev f d n q attr mask cur new st s _ _ Hrun) as Hb.
  split; [exact (built_reported dev f d q attr mask st ctx Ha Hl Hst Hb)|]. intros Hav Hok Ht. destruct Hb as [_ _ _ Hpri _ _ _ _ _ _ Hacc].
  exists (to_rdma_ah_attr dev (pri_path ctx)). eexists _, _, _. split.
  - cbn. by destruct Ht as [->| ->].
  - rewrite Hpri. unfold the_pri. rewrite Hav.
    exact (address_read dev q _ (pri_path_start f d attr mask) _ mask attr false Hok (Hacc Hav)).
Qed.

Lemma ib_far_peer_ok : address_ok ib_dev 1 ib_far_peer.
Proof. split; try done; [by left|by right]. Qed.

(** The move to RTR of a queue pair with a peer behind a router. *)
Lemma query_returns_modified_witness :
  exists ctx ah alt pkey p,
    let r := query_qp_attr ib_dev IB_QPT_RC ctx in
    let attr := ex_attr IB_QPS_RTR ib_far_peer in
    reported rc_fix (k_dyn (m_qp (qp_in rc_fix IB_QPS_INIT))) attr to_rtr r /\
    qr_av r = Some (ah, alt, pkey, p) /\ address_back 1 ib_far_peer ah /\
    qr_max_dest_rd_atomic r = 16.
Proof.
  pose (s := qp_in rc_fix IB_QPS_INIT).
  pose (run := modify_context ib_dev rc_fix (k_dyn (m_qp s)) 4 (mkpathqp IB_QPT_RC 5 true)
                 (ex_attr IB_QPS_RTR ib_far_peer) to_rtr IB_QPS_INIT IB_QPS_RTR 0).
  assert (E : exists ctx s', run s = Some (inr ctx, s')) by (eexists _, _; vm_compute; reflexivity).
  destruct E as (ctx & s' & E). exists ctx.
  destruct (query_returns_modified ib_dev rc_fix (k_dyn (m_qp s)) 4 (mkpathqp IB_QPT_RC 5 true)
    (ex_attr IB_QPS_RTR ib_far_peer) to_rtr IB_QPS_INIT IB_QPS_RTR 0 s ctx s') as [Hr Hav].
  - split; simpl; lia.
  - simpl; lia.
  - lia.
  - exact E.
  - destruct Hav as (ah & alt & pkey & p & Ha & Hb); [done|exact ib_far_peer_ok|by left|].
    exists ah, alt, pkey, p. split; [exact Hr|]. split; [exact Ha|]. split; [exact Hb|].
    etransitivity; [exact (rp_dest_rd _ _ _ _ _ Hr eq_refl)|done].
Defined.
