(* ===== verification/QpCreate.v ===== *)
(** * QpCreate: making and destroying queue pairs (hw/mlx5/qp.c, core/verbs.c)

    ib_create_qp and ib_destroy_qp for callers in the kernel (udata is NULL)
    down to the commands for the device: the sizes of the queues, their buffer,
    doorbell record and tracking arrays, the mailbox with the context, the table
    of queue pairs and the lists of the completion queues.  Queue pairs of a
    process, raw packet and RSS queue pairs cannot be made this way; the GSI
    wrapper and DC targets are parameters, as is the opening of an XRC target.
    Callers that let the core size the queues (cap.max_rdma_ctxs) are left out. *)

From stdpp Require Import strings.
From S2P Require Import Prelude ErrState FragBuf Strides KHeap FragAlloc DbAlloc DrvState Mailbox QpTypes SqSize WqeSeg SqRing PostSend RecvQueue Srq Cqe CqRing QpState QpContext QpModify.

Open Scope es_scope.

Definition IB_QP_CREATE_CROSS_CHANNEL : Z := 4.
Definition IB_QP_CREATE_MANAGED_SEND : Z := 8.
Definition IB_QP_CREATE_MANAGED_RECV : Z := 16.
Definition IB_QP_CREATE_SCATTER_FCS : Z := 256.
Definition IB_QP_CREATE_CVLAN_STRIPPING : Z := 512.
Definition IB_QP_CREATE_PCI_WRITE_END_PADDING : Z := 2048.
Definition IB_QP_EXP_CREATE_ATOMIC_BE_REPLY : Z := 32768.
Definition IB_QP_EXP_CREATE_RX_END_PADDING : Z := 65536.
Definition IB_QP_EXP_CREATE_TUNNEL_OFFLOADS : Z := 131072.
Definition IB_QP_EXP_CREATE_PACKET_BASED_CREDIT_MODE : Z := 262144.
Definition MLX5_IB_QP_LSO : Z := 1.
Definition MLX5_IB_QP_BLOCK_MULTICAST_LOOPBACK : Z := 2.
Definition MLX5_IB_QP_CROSS_CHANNEL : Z := 4.
Definition MLX5_IB_QP_MANAGED_SEND : Z := 8.
Definition MLX5_IB_QP_MANAGED_RECV : Z := 16.
Definition MLX5_IB_QP_CAP_SCATTER_FCS : Z := 128.
Definition MLX5_IB_QP_CVLAN_STRIPPING : Z := 512.
Definition MLX5_IB_QP_PCI_WRITE_END_PADDING : Z := 2048.
Definition MLX5_IB_QP_PACKET_BASED_CREDIT : Z := 8192.
Definition MLX5_IB_QP_DRAIN_SIGERR : Z := 16384.
Definition MLX5_IB_QP_WC_TEST : Z := 32768.
Definition MLX5_QP_PM_MIGRATED : Z := 3.
Definition MLX5_WQ_END_PAD_MODE_ALIGN : Z := 1.
Definition MLX5_QPC_OFFLOAD_TYPE_RNDV : Z := 1.
Definition MLX5_RES_SCAT_DATA32_CQE : Z := 1.
Definition MLX5_RES_SCAT_DATA64_CQE : Z := 2.
Definition MLX5_REQ_SCAT_DATA32_CQE : Z := 17.
Definition MLX5_REQ_SCAT_DATA64_CQE : Z := 34.
Definition sizeof_create_qp_in : Z := 272.

(** ** The state besides memory *)

Record qps := mkqps {
  q_cqs : Z -> option mlx5_ib_cq;
  q_srqs : Z -> option srq_info;
  q_tx : Z;
  q_list : list nat;                    (* dev->qp_list: addresses of structures *)
  q_send_list : Z -> list nat;          (* list_send_qp and list_recv_qp of each CQ *)
  q_recv_list : Z -> list nat;
  q_tree : gmap Z nat;                  (* qp_table.tree *)
  q_num : Z;                            (* num_qps *)
  q_dev : gset Z;                       (* the queue pairs the device has *)
  q_pd_use : Z -> Z;                    (* usecnt of protection domains and CQs *)
  q_cq_use : Z -> Z;
}.

Definition with_lists (s : qps) (l : list nat) (a b : Z -> list nat) : qps :=
  mkqps (q_cqs s) (q_srqs s) (q_tx s) l a b (q_tree s) (q_num s) (q_dev s) (q_pd_use s) (q_cq_use s).
Definition with_tree (s : qps) (t : gmap Z nat) (n : Z) : qps :=
  mkqps (q_cqs s) (q_srqs s) (q_tx s) (q_list s) (q_send_list s) (q_recv_list s) t n (q_dev s) (q_pd_use s)
    (q_cq_use s).
Definition with_dev (s : qps) (d : gset Z) : qps :=
  mkqps (q_cqs s) (q_srqs s) (q_tx s) (q_list s) (q_send_list s) (q_recv_list s) (q_tree s) (q_num s) d
    (q_pd_use s) (q_cq_use s).
Definition with_use (s : qps) (srqs : Z -> option srq_info) (p c : Z -> Z) : qps :=
  mkqps (q_cqs s) srqs (q_tx s) (q_list s) (q_send_list s) (q_recv_list s) (q_tree s) (q_num s) (q_dev s) p c.

(** ** What is asked for *)

Record create_req := mkreq {
  r_attr : ib_qp_init_attr;
  r_pd : option Z;
  r_send_cq : option Z;
  r_recv_cq : option Z;
  r_srq : option Z;
  r_srq_tm : bool;                      (* the SRQ does tag matching *)
  r_xrcd : option Z;
  r_sig_all : bool;                     (* sq_sig_type == IB_SIGNAL_ALL_WR *)
  r_port_num : Z;
  r_rwq_ind_tbl : bool;
  r_max_inl_recv : Z;                   (* struct ib_exp_qp_init_attr *)
  r_rx_hash : bool;
}.

Definition with_attr (r : create_req) (a : ib_qp_init_attr) : create_req :=
  mkreq a (r_pd r) (r_send_cq r) (r_recv_cq r) (r_srq r) (r_srq_tm r) (r_xrcd r) (r_sig_all r)
    (r_port_num r) (r_rwq_ind_tbl r) (r_max_inl_recv r) (r_rx_hash r).
Definition with_cqs (r : create_req) (send recv : option Z) : create_req :=
  mkreq (r_attr r) (r_pd r) send recv (r_srq r) (r_srq_tm r) (r_xrcd r) (r_sig_all r)
    (r_port_num r) (r_rwq_ind_tbl r) (r_max_inl_recv r) (r_rx_hash r).
Definition with_inl_recv (r : create_req) (n : Z) : create_req :=
  mkreq (r_attr r) (r_pd r) (r_send_cq r) (r_recv_cq r) (r_srq r) (r_srq_tm r) (r_xrcd r) (r_sig_all r)
    (r_port_num r) (r_rwq_ind_tbl r) n (r_rx_hash r).
Definition with_cap (a : ib_qp_init_attr) (c : ib_qp_cap) : ib_qp_init_attr :=
  mkattr (attr_qp_type a) (create_flags a) (attr_srq a) c.

(** The capabilities of the device and the resources the driver made for itself. *)
Record create_dev := mkcdev {
  cd_caps : qp_caps;
  cd_block_lb_mc : bool;
  cd_cd : bool;
  cd_ipoib_basic_offloads : bool;
  cd_eth_net_offloads : bool;
  cd_scatter_fcs : bool;
  cd_vlan_cap : bool;
  cd_end_pad : bool;
  cd_tunnel_offloads : bool;
  cd_qp_packet_based : bool;
  cd_dc_req_scat_data_cqe : bool;
  cd_xrc : bool;
  cd_cqe_v1 : bool;
  cd_reply_be : bool;                   (* atomic_cap == IB_ATOMIC_HCA_REPLY_BE *)
  cd_integrity : bool;                  (* IB_DEVICE_INTEGRITY_HANDOVER *)
  cd_wq_signature : bool;               (* module parameter *)
  cd_fp_uar : Z; cd_wc_uar : Z; cd_uar : Z;   (* index of the three bfregs *)
  cd_p0 : Z; cd_c0 : Z; cd_s0 : Z; cd_s1 : Z; cd_x0 : Z; cd_x1 : Z;
}.

(** What surrounds the calls: contents of fresh memory, the device, and the
    nodes of the radix tree. *)
Record cenv := mkcenv {
  ce_junk : nat -> Z -> Z;
  ce_create : mailbox -> Z + Z;    (* error, or the number of the new queue pair *)
  ce_destroy : Z -> Z;
  ce_node : bool;
  ce_q : env;
  ce_security : Z;                      (* ib_create_qp_security *)
}.

(** ** The kernel's part: buffer, doorbell record, arrays *)

Definition zero_fbc : mlx5_frag_buf_ctrl := mkfbc 0 0 0 0 0 0 0.

(** The queues of a fresh queue pair; the arrays hold what was in memory. *)
Definition kernel_rq (s : wq_sizes) (w : Z -> Z) : mlx5_ib_wq :=
  {| fbc := if sz_wqe_cnt s =? 0 then zero_fbc
            else mlx5_init_fbc 0 (sz_wqe_shift s) (ilog2 (sz_wqe_cnt s));
     wrid := w; wr_data := fun _ => 0; w_list_opcode := fun _ => 0; w_list_next := fun _ => 0;
     wqe_head := fun _ => 0; wqe_cnt := sz_wqe_cnt s; max_post := sz_max_post s; max_gs := sz_max_gs s;
     wq_offset := 0; wqe_shift := sz_wqe_shift s; head := 0; tail := 0; cur_post := 0; last_poll := 0;
     cur_edge := mkptr 0 0 |}.

Definition kernel_sq (s : wq_sizes) (offset : Z) (w wd wo wn wh : Z -> Z) : mlx5_ib_wq :=
  let sq e f :=
    {| fbc := f; wrid := w; wr_data := wd; w_list_opcode := wo; w_list_next := wn; wqe_head := wh;
       wqe_cnt := sz_wqe_cnt s; max_post := sz_max_post s; max_gs := sz_max_gs s; wq_offset := offset;
       wqe_shift := sz_wqe_shift s; head := 0; tail := 0; cur_post := 0; last_poll := 0; cur_edge := e |} in
  if sz_wqe_cnt s =? 0 then sq (mkptr 0 0) zero_fbc
  else
    let f := mlx5_init_fbc_offset (offset / PAGE_SIZE) (ilog2 MLX5_SEND_WQE_BB) (ilog2 (sz_wqe_cnt s))
               ((offset .& (PAGE_SIZE - 1)) / MLX5_SEND_WQE_BB) in
    sq (get_sq_edge (sq (mkptr 0 0) f) 0) f.

(** What a kernel queue pair owns. *)
Record kernel_res := mkres {
  kr_buf : mlx5_frag_buf;
  kr_db : mlx5_db;
  kr_arrays : list (option nat);        (* sq.wrid, sq.wr_data, rq.wrid, sq.w_list, sq.wqe_head *)
}.

Record kernel_qp := mkkernel {
  kp_res : option kernel_res;           (* None: create_type is MLX5_QP_EMPTY *)
  kp_sq : mlx5_ib_wq;
  kp_rq : mlx5_ib_wq;
  kp_cap : ib_qp_cap;
  kp_max_inline : Z;
  kp_flags : Z;
  kp_in_at : nat;
  kp_inlen : Z;
  kp_in : mailbox;
}.

Definition kernel_flags : Z :=
  IB_QP_CREATE_INTEGRITY_EN .| IB_QP_CREATE_SIGNATURE_PIPELINE .| IB_QP_CREATE_BLOCK_MULTICAST_LOOPBACK
  .| IB_QP_CREATE_IPOIB_UD_LSO .| IB_QP_CREATE_NETIF_QP .| MLX5_IB_QP_CREATE_SQPN_QP1
  .| MLX5_IB_QP_CREATE_WC_TEST.

Definition array_sizes (sq rq : wq_sizes) : list Z :=
  [8 * sz_wqe_cnt sq; 4 * sz_wqe_cnt sq; 8 * sz_wqe_cnt rq; 4 * sz_wqe_cnt sq; 4 * sz_wqe_cnt sq].

(** The order in which the arrays are freed: wqe_head, w_list, sq.wrid, wr_data,
    rq.wrid. *)
Definition free_order (l : list (option nat)) : list (option nat) :=
  match l with [a; b; c; d; e] => [e; d; a; b; c] | _ => l end.

Definition block (l : list (option nat)) (i : nat) : nat := default O (mjoin (l !! i)).

Definition est : Type -> Type := es (drv qps).

Section Create.
Context (o : oracle) (cls : Z) (sizeof_qp : Z) (dev : create_dev) (ce : cenv).

(** err_wrid *)
Definition alloc_arrays (sizes : list Z) : est (list (option nat)) :=
  do! l := d_kvmalloc_all o sizes in
  if forallb (fun b => if b is Some _ then true else false) l then es_ret l
  else d_kvfree_all (free_order l) ;; es_fail (- ENOMEM).

(** The sizes of the send queue and the buffer, then the resources; each error
    path undoes what was done before it. *)
Definition create_kernel_qp (attr : ib_qp_init_attr) (rq : wq_sizes) (flags : Z) : est kernel_qp :=
  let fl := create_flags attr in
  if test fl (Z.lnot kernel_flags) then es_fail (- EINVAL)
  else
  let umr := qpt_eqb (attr_qp_type attr) MLX5_IB_QPT_REG_UMR in
  let wc := negb umr && test fl MLX5_IB_QP_CREATE_WC_TEST in
  let flags := if wc then flags .| MLX5_IB_QP_WC_TEST else flags in
  let uar := if umr then cd_fp_uar dev else if wc then cd_wc_uar dev else cd_uar dev in
  let r := calc_sq_size (cd_caps dev) attr in
  if sq_ret r <? 0 then es_fail (sq_ret r)
  else
  let offset := s32 (sz_wqe_cnt rq <<. sz_wqe_shift rq) in
  do! buf := d_frag_buf_alloc o (s32 (sq_ret r + offset)) in
  es_cleanup (
    let inlen := s32 (sizeof_create_qp_in + 8 * fb_npages buf) in
    do! at_ := d_kzalloc o inlen in
    es_cleanup (
      let i := mkmb ∅ [] in
      let i := MLX5_SET "uar_page" uar i in
      let i := MLX5_SET "log_page_size" (fb_page_shift buf - 12) i in
      let i := MLX5_SET "rlky" 1 (MLX5_SET "fre" 1 i) in
      let qp1 := test fl MLX5_IB_QP_CREATE_SQPN_QP1 in
      let i := set_if qp1 "deth_sqpn" 1 i in
      let flags := if qp1 then flags .| MLX5_IB_QP_SQPN_QP1 else flags in
      let pipe := test fl IB_QP_CREATE_SIGNATURE_PIPELINE in
      let i := set_if pipe "drain_sigerr" 1 i in
      let flags := if pipe then flags .| MLX5_IB_QP_DRAIN_SIGERR else flags in
      do! pas := es_lift (mlx5_fill_page_frag_array buf) in
      do! db := d_db_alloc o cls in
      es_cleanup (
        do! l := alloc_arrays (array_sizes (sq_sizes r) rq) in
        let j k := ce_junk ce (block l k) in
        es_ret {| kp_res := Some (mkres buf db l);
                  kp_sq := kernel_sq (sq_sizes r) offset (j 0%nat) (j 1%nat) (fun n => j 3%nat (2 * n))
                             (fun n => j 3%nat (2 * n + 1)) (j 4%nat);
                  kp_rq := kernel_rq rq (j 2%nat);
                  kp_cap := sq_cap r; kp_max_inline := sq_max_inline_data r; kp_flags := flags;
                  kp_in_at := at_; kp_inlen := inlen; kp_in := mkmb (mb_fields i) pas |})
        (d_db_free db))
      (d_kfree at_))
    (d_frag_buf_free buf).

Definition destroy_qp_kernel (r : option kernel_res) : est unit :=
  match r with
  | Some r => d_kvfree_all (free_order (kr_arrays r)) ;; d_db_free (kr_db r) ;; d_frag_buf_free (kr_buf r)
  | None => es_ret tt
  end.

(** Without a protection domain there is the mailbox only. *)
Definition create_empty_qp (attr : ib_qp_init_attr) (rq : wq_sizes) (flags : Z) : est kernel_qp :=
  do! at_ := d_kzalloc o sizeof_create_qp_in in
  es_ret {| kp_res := None;
            kp_sq := kernel_sq (mksizes 0 0 0 0) 0 (fun _ => 0) (fun _ => 0) (fun _ => 0) (fun _ => 0) (fun _ => 0);
            kp_rq := kernel_rq rq (fun _ => 0); kp_cap := cap attr; kp_max_inline := 0; kp_flags := flags;
            kp_in_at := at_; kp_inlen := sizeof_create_qp_in; kp_in := mkmb ∅ [] |}.

(** ** create_qp_common *)

(** The flags of the queue pair, from the flags of the request. *)
Definition common_flags (attr : ib_qp_init_attr) (is_exp : bool) : Z + Z :=
  let fl := create_flags attr in
  let raw := qpt_eqb (attr_qp_type attr) IB_QPT_RAW_PACKET in
  let has := test fl in
  if has IB_QP_CREATE_BLOCK_MULTICAST_LOOPBACK && negb (cd_block_lb_mc dev) then inl (- EINVAL)
  else if has (IB_QP_CREATE_CROSS_CHANNEL .| IB_QP_CREATE_MANAGED_SEND .| IB_QP_CREATE_MANAGED_RECV)
          && negb (cd_cd dev) then inl (- EINVAL)
  else if qpt_eqb (attr_qp_type attr) IB_QPT_UD && has IB_QP_CREATE_IPOIB_UD_LSO
          && negb (cd_ipoib_basic_offloads dev) then inl (- EOPNOTSUPP)
  else if has IB_QP_CREATE_SCATTER_FCS
          && (negb raw || negb (cd_eth_net_offloads dev) || negb (cd_scatter_fcs dev)) then inl (- EOPNOTSUPP)
  else if is_exp && has IB_QP_EXP_CREATE_TUNNEL_OFFLOADS && (negb raw || negb (cd_tunnel_offloads dev))
  then inl (- EOPNOTSUPP)
  else if is_exp && has IB_QP_EXP_CREATE_PACKET_BASED_CREDIT_MODE
          && (negb (cd_qp_packet_based dev) || negb (qpt_eqb (attr_qp_type attr) IB_QPT_RC))
  then inl (- EOPNOTSUPP)
  else if has IB_QP_CREATE_CVLAN_STRIPPING && (negb (cd_eth_net_offloads dev && cd_vlan_cap dev) || negb raw)
  then inl (- EOPNOTSUPP)
  else
    let on (b : bool) v := if b then v else 0 in
    inr (on (has IB_QP_CREATE_BLOCK_MULTICAST_LOOPBACK) MLX5_IB_QP_BLOCK_MULTICAST_LOOPBACK
         .| on (has IB_QP_CREATE_CROSS_CHANNEL) MLX5_IB_QP_CROSS_CHANNEL
         .| on (has IB_QP_CREATE_MANAGED_SEND) MLX5_IB_QP_MANAGED_SEND
         .| on (has IB_QP_CREATE_MANAGED_RECV) MLX5_IB_QP_MANAGED_RECV
         .| on (has IB_QP_CREATE_SCATTER_FCS) MLX5_IB_QP_CAP_SCATTER_FCS
         .| on (is_exp && has IB_QP_EXP_CREATE_RX_END_PADDING && cd_end_pad dev) MLX5_IB_QP_PCI_WRITE_END_PADDING
         .| on (is_exp && has IB_QP_EXP_CREATE_PACKET_BASED_CREDIT_MODE) MLX5_IB_QP_PACKET_BASED_CREDIT
         .| on (has IB_QP_CREATE_CVLAN_STRIPPING) MLX5_IB_QP_CVLAN_STRIPPING).

Definition mlx5_ib_get_cqe_size (cqs : Z -> option mlx5_ib_cq) (cq : option Z) : option Z :=
  match cq with None => Some 128 | Some i => c ← cqs i; Some (cq_cqe_sz c) end.

Definition configure_responder_scat_cqe (r : create_req) (cqs : Z -> option mlx5_ib_cq) (i : mailbox)
    : option mailbox :=
  match attr_qp_type (r_attr r) with
  | MLX5_IB_QPT_DCI | IB_EXP_QPT_DC_INI => Some i
  | t =>
      sz ← mlx5_ib_get_cqe_size cqs (r_recv_cq r);
      match t with
      | MLX5_IB_QPT_DCT => Some (set_if (sz =? 128) "cs_res" MLX5_RES_SCAT_DATA64_CQE i)
      | _ => Some (MLX5_SET "cs_res" (if sz =? 128 then MLX5_RES_SCAT_DATA64_CQE else MLX5_RES_SCAT_DATA32_CQE) i)
      end
  end.

Definition mlx5_ib_exp_is_scat_cqe_dci (sig_all : bool) (scqe_sz : Z) : bool :=
  sig_all && ((scqe_sz =? 128) || cd_dc_req_scat_data_cqe dev).

Definition configure_requester_scat_cqe (r : create_req) (cqs : Z -> option mlx5_ib_cq) (i : mailbox)
    : option mailbox :=
  let t := attr_qp_type (r_attr r) in
  let dci := qpt_eqb t IB_EXP_QPT_DC_INI in
  if qpt_eqb t IB_QPT_UC || qpt_eqb t IB_QPT_UD || negb (r_sig_all r) then Some i
  else
    sz ← mlx5_ib_get_cqe_size cqs (r_send_cq r);
    if ((negb dci && r_sig_all r) || (dci && mlx5_ib_exp_is_scat_cqe_dci (r_sig_all r) sz)) && (sz =? 128)
    then Some (MLX5_SET "cs_req" MLX5_REQ_SCAT_DATA64_CQE i)
    else Some (set_if (negb (qpt_eqb t MLX5_IB_QPT_DCI) || cd_dc_req_scat_data_cqe dev)
                 "cs_req" MLX5_REQ_SCAT_DATA32_CQE i).

(** The sizes of the queues. *)
Definition queue_fields (r : create_req) (k : kernel_qp) (has_rq : bool) (i : mailbox) : mailbox :=
  let rq := kp_rq k in
  let sq := kp_sq k in
  let i := if wqe_cnt rq =? 0 then i
           else MLX5_SET "log_rq_size" (ilog2 (wqe_cnt rq)) (MLX5_SET "log_rq_stride" (wqe_shift rq - 4) i) in
  let i := MLX5_SET "rq_type" (get_rx_type has_rq (r_attr r)) i in
  if negb (wqe_cnt sq =? 0) then MLX5_SET "log_sq_size" (ilog2 (wqe_cnt sq)) i
  else set_if (if r_srq r is Some _ then r_srq_tm r else false) "offload_type" MLX5_QPC_OFFLOAD_TYPE_RNDV
         (MLX5_SET "no_sq" 1 i).

(** The resources of the driver for what the request leaves open. *)
Definition default_resources (r : create_req) (i : mailbox) : option mailbox :=
  match attr_qp_type (r_attr r) with
  | IB_QPT_XRC_TGT =>
      x ← r_xrcd r;
      Some (MLX5_SET "xrcd" x (MLX5_SET "srqn_rmpn_xrqn" (cd_s0 dev)
              (MLX5_SET "cqn_snd" (cd_c0 dev) (MLX5_SET "cqn_rcv" (cd_c0 dev) i))))
  | IB_QPT_XRC_INI =>
      Some (MLX5_SET "srqn_rmpn_xrqn" (cd_s0 dev) (MLX5_SET "xrcd" (cd_x1 dev)
              (MLX5_SET "cqn_rcv" (cd_c0 dev) i)))
  | _ =>
      match r_srq r with
      | Some n => Some (MLX5_SET "srqn_rmpn_xrqn" n (MLX5_SET "xrcd" (cd_x0 dev) i))
      | None => Some (MLX5_SET "srqn_rmpn_xrqn" (cd_s1 dev) (MLX5_SET "xrcd" (cd_x1 dev) i))
      end
  end.

(** The fields of the context that do not come from create_kernel_qp. *)
Definition fill_qpc (r : create_req) (k : kernel_qp) (wq_sig scat_cqe has_rq : bool) (s : qps)
    : option mailbox :=
  let attr := r_attr r in
  let t := attr_qp_type attr in
  let fl := kp_flags k in
  let i := MLX5_SET "st" (to_mlx5_st t) (kp_in k) in
  let i := MLX5_SET "pm_state" MLX5_QP_PM_MIGRATED i in
  let i := if negb (qpt_eqb t MLX5_IB_QPT_REG_UMR) then MLX5_SET "pd" (default (cd_p0 dev) (r_pd r)) i
           else MLX5_SET "latency_sensitive" 1 i in
  let i := set_if wq_sig "wq_signature" 1 i in
  let i := set_if (test fl MLX5_IB_QP_BLOCK_MULTICAST_LOOPBACK) "block_lb_mc" 1 i in
  let i := set_if (test fl MLX5_IB_QP_CROSS_CHANNEL) "cd_master" 1 i in
  let i := set_if (test fl MLX5_IB_QP_MANAGED_SEND) "cd_slave_send" 1 i in
  let i := set_if (test fl MLX5_IB_QP_MANAGED_RECV) "cd_slave_receive" 1 i in
  let i := set_if (test fl MLX5_IB_QP_PACKET_BASED_CREDIT) "req_e2e_credit_mode" 1 i in
  let i := set_if (test fl MLX5_IB_QP_PCI_WRITE_END_PADDING) "end_padding_mode" MLX5_WQ_END_PAD_MODE_ALIGN i in
  i ← (if scat_cqe && is_connected t
       then i ← configure_responder_scat_cqe r (q_cqs s) i; configure_requester_scat_cqe r (q_cqs s) i
       else Some i);
  let i := queue_fields r k has_rq i in
  i ← default_resources r i;
  let i := set_opt "cqn_snd" (r_send_cq r) i in
  let i := set_opt "cqn_rcv" (r_recv_cq r) i in
  let i := MLX5_SET "dbr_addr" (if kp_res k is Some x then db_dma (kr_db x) else 0) i in
  let i := set_if (cd_cqe_v1 dev) "user_index" MLX5_IB_DEFAULT_UIDX i in
  Some (set_if (qpt_eqb t IB_QPT_UD && test (create_flags attr) IB_QP_CREATE_IPOIB_UD_LSO)
          "ulp_stateless_offload_mode" 1 i).

(** create_resource_common and mlx5_core_create_qp; the key of a queue pair in
    the table is its number. *)
Definition create_resource_common (qpn : Z) (addr : nat) : es qps unit :=
  do! s := es_get in
  if negb (ce_node ce) then es_fail (- ENOMEM)
  else match q_tree s !! qpn with
       | Some _ => es_fail (- EEXIST)
       | None => es_mod (fun s => with_tree s (<[qpn := addr]> (q_tree s)) (q_num s))
       end.

(** The command DESTROY_QP, whose error nobody waits for here. *)
Definition destroy_cmd (qpn : Z) : es qps unit :=
  when ce_destroy ce qpn =? 0 then! es_mod (fun s => with_dev s (q_dev s ∖ {[qpn]})).

Definition mlx5_core_create_qp (i : mailbox) (addr : nat) : es qps Z :=
  match ce_create ce i with
  | inl e => es_fail e
  | inr qpn =>
      es_mod (fun s => with_dev s ({[qpn]} ∪ q_dev s)) ;;
      es_cleanup (create_resource_common qpn addr) (destroy_cmd qpn) ;;
      es_mod (fun s => with_tree s (q_tree s) (q_num s + 1)) ;; es_ret qpn
  end.

Definition add_to_lists (addr : nat) (send recv : option Z) (s : qps) : qps :=
  with_lists s (q_list s ++ [addr])
    (if send is Some c then upd (q_send_list s) c (q_send_list s c ++ [addr]) else q_send_list s)
    (if recv is Some c then upd (q_recv_list s) c (q_recv_list s c ++ [addr]) else q_recv_list s).

(** The kernel's part, the number of the queue pair and what has_rq is. *)
Definition create_qp_common (r : create_req) (is_exp : bool) (addr : nat) : est (kernel_qp * Z * bool) :=
  let attr := r_attr r in
  let t := attr_qp_type attr in
  if to_mlx5_st t <? 0 then es_fail (- EINVAL)
  else if r_rwq_ind_tbl r || (is_exp && r_rx_hash r) then es_fail (- ENOSYS)
  else
  do! fl := es_sum (common_flags attr is_exp) in
  let wq_sig := cd_wq_signature dev in
  let scat_cqe := is_exp && negb (r_max_inl_recv r =? 0) in
  let has_rq := qp_has_rq attr in
  let '(err, c, rq) := set_rq_size (cd_caps dev) (cap attr) has_rq (if wq_sig then 1 else 0) None in
  if negb (err =? 0) then es_fail err
  else
  let attr := with_cap attr c in
  do! k := (if r_pd r is Some _ then create_kernel_qp attr rq fl else create_empty_qp attr rq fl) in
  do! kq := es_cleanup (
    do! s := es_get in
    do! i := es_lift (fill_qpc (with_attr r attr) k wq_sig scat_cqe has_rq (d_rest s)) in
    let lso := qpt_eqb t IB_QPT_UD && test (create_flags attr) IB_QP_CREATE_IPOIB_UD_LSO in
    let pad := test (create_flags attr) IB_QP_CREATE_PCI_WRITE_END_PADDING in
    if pad && negb (cd_end_pad dev) then es_fail (- EOPNOTSUPP)
    else
    let i := set_if pad "end_padding_mode" MLX5_WQ_END_PAD_MODE_ALIGN i in
    if kp_inlen k <? 0 then es_fail (- EINVAL)
    else
    do! qpn := es_cleanup (on_rest (mlx5_core_create_qp i addr)) (destroy_qp_kernel (kp_res k)) in
    es_ret (mkkernel (kp_res k) (kp_sq k) (kp_rq k) (kp_cap k) (kp_max_inline k)
              (if lso then kp_flags k .| MLX5_IB_QP_LSO else kp_flags k) (kp_in_at k) (kp_inlen k) i, qpn))
    (d_kfree (kp_in_at k)) in
  d_kfree (kp_in_at k) ;;
  let '(send_cq, recv_cq) := get_cqs t (r_send_cq r) (r_recv_cq r) in
  on_rest (es_mod (add_to_lists addr send_cq recv_cq)) ;;
  es_ret (kq.1, kq.2, has_rq).

(** ** The queue pair *)

Record qobj := mkqobj {
  qo_addr : nat;
  qo_q : kqp;
  qo_res : option kernel_res;
  qo_cap : ib_qp_cap;
  qo_signal_bits : Z;
  qo_cmds : list (qp_cmd * Z);          (* the commands the device saw for it *)
  qo_usecnt : Z;
}.

(** struct mlx5_ib_qp as the driver leaves it: what the core fills in is zero. *)
Definition fresh_qp (r : create_req) (k : kernel_qp) (qpn : Z) (has_rq : bool) : kqp :=
  let t := attr_qp_type (r_attr r) in
  {| k_fix := {| k_type := IB_QPT_SMI; k_sub_type := IB_QPT_SMI; k_flags := kp_flags k; k_uobject := false;
                 k_kernel := if kp_res k is Some _ then true else false;
                 k_num := match t with IB_QPT_SMI => 0 | MLX5_IB_QPT_HW_GSI => 1 | _ => qpn end;
                 k_qpn := qpn; k_pdn := None; k_send_cq := None; k_recv_cq := None; k_rwq_ind_tbl := false;
                 k_rq_srq := get_rx_type has_rq (r_attr r) =? MLX5_SRQ_RQ; k_counter := None;
                 k_db_dma := if kp_res k is Some x then db_dma (kr_db x) else 0 |};
     k_dyn := {| k_state := IB_QPS_RESET; k_port := if is_sqp t then r_port_num r else 0; k_atomic_rd_en := 0;
                 k_resp_depth := 0; k_alt_port := 0; k_srq := None; k_counter_pending := false; k_ah := None |};
     k_sq := kp_sq k; k_rq := kp_rq k;
     k_db := if kp_res k is Some _ then Some (be32 0, be32 0) else None |}.

Context (gsi_create : create_req -> est qobj) (xrc_open : create_req -> qobj -> est qobj).

(** The types that go to the device themselves. *)
Definition make_qp (is_exp : bool) (r : create_req) : est qobj :=
  do! addr := d_kzalloc o sizeof_qp in
  do! x := es_cleanup (create_qp_common r is_exp addr) (d_kfree addr) in
  let '(k, qpn, has_rq) := x in
  es_ret {| qo_addr := addr; qo_q := fresh_qp r k qpn has_rq; qo_res := kp_res k; qo_cap := kp_cap k;
            qo_signal_bits := if r_sig_all r then MLX5_WQE_CTRL_CQ_UPDATE else 0; qo_cmds := []; qo_usecnt := 0 |}.

(** _mlx5_ib_create_qp without a user context. *)
Definition mlx5_create_qp (r : create_req) (is_exp : bool) : est qobj :=
  let t := attr_qp_type (r_attr r) in
  let make := make_qp is_exp in
  if (if r_pd r is Some _ then qpt_eqb t IB_QPT_RAW_PACKET
      else negb (qpt_eqb t IB_QPT_XRC_TGT) && negb (qpt_eqb t MLX5_IB_QPT_REG_UMR))
  then es_fail (- EINVAL)
  else
  (if r_pd r is Some _ then es_ret tt else do! _ := es_lift (r_xrcd r) in es_ret tt) ;;
  match t with
  | IB_QPT_DRIVER => es_fail (- EINVAL)
  | IB_QPT_XRC_TGT =>
      if negb (cd_xrc dev) then es_fail (- ENOSYS)
      else do! _ := es_lift (r_xrcd r) in make (with_cqs r None None)
  | IB_QPT_XRC_INI => if negb (cd_xrc dev) then es_fail (- ENOSYS) else make (with_cqs r (r_send_cq r) None)
  | IB_QPT_RAW_PACKET | IB_QPT_RC | IB_QPT_UC | IB_QPT_UD | IB_QPT_SMI | IB_EXP_QPT_DC_INI | MLX5_IB_QPT_HW_GSI
  | MLX5_IB_QPT_REG_UMR | MLX5_IB_QPT_SW_CNAK | MLX5_IB_QPT_DCI => make r
  | IB_QPT_GSI => gsi_create r
  | _ => es_fail (- EINVAL)
  end.

(** mlx5_ib_exp_create_qp on a little-endian host *)
Definition mlx5_ib_exp_create_qp (r : create_req) : est qobj :=
  do! s := es_get in
  do! r := (match r_pd r with
            | None => es_ret r
            | Some _ =>
                let t := attr_qp_type (r_attr r) in
                if test (create_flags (r_attr r)) IB_QP_EXP_CREATE_ATOMIC_BE_REPLY && negb (cd_reply_be dev)
                then es_fail (- EINVAL)
                else
                do! scqe_sz := es_lift (mlx5_ib_get_cqe_size (q_cqs (d_rest s)) (r_send_cq r)) in
                let inl_ := negb (r_max_inl_recv r =? 0) in
                let dci := qpt_eqb t IB_EXP_QPT_DC_INI && inl_
                           && mlx5_ib_exp_is_scat_cqe_dci (r_sig_all r) scqe_sz in
                let use := (qpt_eqb t IB_QPT_RC || qpt_eqb t IB_QPT_UC) && inl_ in
                if use || dci then
                  do! sz := (if dci then es_ret scqe_sz
                             else es_lift (mlx5_ib_get_cqe_size (q_cqs (d_rest s)) (r_recv_cq r))) in
                  es_ret (with_inl_recv r (if sz =? 128 then 64 else 32))
                else es_ret (with_inl_recv r 0)
            end) in
  mlx5_create_qp r true.

(** ** Destruction *)

Inductive special := DestroyRss | DestroyGsi | DestroyDct | ResetRaw | DestroyRaw.
Context (other : special -> qobj -> est unit).

Definition ignore_error {A} (m : est A) : est unit := fun s => '(_, s') ← m s; Some (inr tt, s').

Definition zero_context : mlx5_qp_context := mkctx 0 0 0 0 0 0 zero_path zero_path 0 0 0 0 0 0 0 0 0 0 0.

(** A step of the handlers on one queue pair. *)
Definition on_q (q : qobj) (m : es mst unit) : est unit := fun s =>
  let x := d_rest s in
  '(r, y) ← m (mkmst (qo_q q) (q_cqs x) (q_srqs x) (q_tx x) (qo_cmds q));
  Some (r, mkdrv (d_mem s)
             (mkqps (m_cqs y) (m_srqs y) (m_tx y) (q_list x) (q_send_list x) (q_recv_list x) (q_tree x) (q_num x)
                (q_dev x) (q_pd_use x) (q_cq_use x))).

Definition drop_from_lists (addr : nat) (send recv : option Z) (s : qps) : qps :=
  let rm := filter (fun a => a <> addr) in
  with_lists s (rm (q_list s))
    (if send is Some c then upd (q_send_list s) c (rm (q_send_list s c)) else q_send_list s)
    (if recv is Some c then upd (q_recv_list s) c (rm (q_recv_list s c)) else q_recv_list s).

(** destroy_resource_common: out of the table, and wait until nobody uses it. *)
Definition mlx5_core_destroy_qp (qpn : Z) : es qps unit :=
  es_mod (fun s => with_tree s (delete qpn (q_tree s)) (q_num s)) ;;
  destroy_cmd qpn ;;
  if ce_destroy ce qpn =? 0 then es_mod (fun s => with_tree s (q_tree s) (q_num s - 1))
  else es_fail (ce_destroy ce qpn).

Definition destroy_qp_common (q : qobj) : est unit :=
  let f := k_fix (qo_q q) in
  let raw := qpt_eqb (k_type f) IB_QPT_RAW_PACKET || test (k_flags f) MLX5_IB_QP_UNDERLAY in
  if k_rwq_ind_tbl f then other DestroyRss q
  else
  (when negb (qps_eqb (k_state (k_dyn (qo_q q))) IB_QPS_RESET) then!
     ignore_error (if raw then other ResetRaw q
                   else on_q q (mlx5_core_qp_modify (ce_q ce) MLX5_CMD_OP_2RST_QP 0 zero_context))) ;;
  let '(send_cq, recv_cq) := get_cqs (k_type f) (k_send_cq f) (k_recv_cq f) in
  on_rest (es_mod (drop_from_lists (qo_addr q) send_cq recv_cq)) ;;
  (when k_kernel f then!
     (on_q q (clean_cq recv_cq (k_qpn f) (k_srq (k_dyn (qo_q q)))) ;;
      when negb (bool_decide (send_cq = recv_cq)) then! on_q q (clean_cq send_cq (k_qpn f) None))) ;;
  (if raw then other DestroyRaw q else ignore_error (on_rest (mlx5_core_destroy_qp (k_qpn f)))) ;;
  destroy_qp_kernel (qo_res q).

Definition mlx5_ib_destroy_qp (q : qobj) : est unit :=
  let f := k_fix (qo_q q) in
  if qpt_eqb (k_type f) IB_QPT_GSI then other DestroyGsi q
  else if qpt_eqb (k_sub_type f) MLX5_IB_QPT_DCT then other DestroyDct q
  else destroy_qp_common q ;; d_kfree (qo_addr q).

(** ** The verbs layer *)

Definition use_srq (j d : Z) (srqs : Z -> option srq_info) : Z -> option srq_info :=
  match srqs j with
  | Some x => upd srqs j (Some (mksrqi (si_q x) (si_usecnt x + d) (si_nvmf x)))
  | None => srqs
  end.
Definition use_num (i : option Z) (d : Z) (f : Z -> Z) : Z -> Z :=
  match i with Some c => upd f c (f c + d) | None => f end.

(** The counts of a queue pair's references change by [d]. *)
Definition count_uses (pd scq rcq srq : option Z) (d : Z) (s : qps) : qps :=
  with_use s (if srq is Some j then use_srq j d (q_srqs s) else q_srqs s)
    (use_num pd d (q_pd_use s)) (use_num scq d (use_num rcq d (q_cq_use s))).

(** ib_destroy_qp_user of a queue pair that is not a handle to a shared one. *)
Definition ib_destroy_qp (q : qobj) : est unit :=
  let f := k_fix (qo_q q) in
  if negb (qo_usecnt q =? 0) then es_fail (- EBUSY)
  else
  mlx5_ib_destroy_qp q ;;
  on_rest (es_mod (count_uses (k_pdn f) (k_send_cq f) (k_recv_cq f) (k_srq (k_dyn (qo_q q))) (-1))).

Definition with_verbs (q : qobj) (t : ib_qp_type) (pd send recv srq : option Z) (rwq : bool) : qobj :=
  let f := k_fix (qo_q q) in
  let f := mkfix t (k_sub_type f) (k_flags f) (k_uobject f) (k_kernel f) (k_num f) (k_qpn f) pd send recv rwq
             (k_rq_srq f) (k_counter f) (k_db_dma f) in
  mkqobj (qo_addr q) (with_k_srq (mkkqp f (k_dyn (qo_q q)) (k_sq (qo_q q)) (k_rq (qo_q q)) (k_db (qo_q q))) srq)
    (qo_res q) (qo_cap q) (qo_signal_bits q) (qo_cmds q) (qo_usecnt q).

(** ib_create_qp_user, with _ib_create_qp inlined *)
Definition ib_create_qp (r : create_req) : est qobj :=
  let attr := r_attr r in
  let t := attr_qp_type attr in
  let some (x : option Z) := if x is Some _ then true else false in
  if r_rwq_ind_tbl r && (some (r_recv_cq r) || some (r_srq r) || negb (max_recv_wr (cap attr) =? 0)
                         || negb (max_recv_sge (cap attr) =? 0))
  then es_fail (- EINVAL)
  else if test (create_flags attr) IB_QP_CREATE_INTEGRITY_EN && negb (cd_integrity dev) then es_fail (- EINVAL)
  else
  do! q := (if qpt_eqb t IB_EXP_QPT_DC_INI then mlx5_ib_exp_create_qp r else mlx5_create_qp r false) in
  let q := with_verbs q (k_type (k_fix (qo_q q))) (r_pd r) None None None false in
  if negb (ce_security ce =? 0) then ignore_error (ib_destroy_qp q) ;; es_fail (ce_security ce)
  else if qpt_eqb t IB_QPT_XRC_TGT then xrc_open r (with_verbs q t (r_pd r) None None None (r_rwq_ind_tbl r))
  else
  let '(recv, srq) := if qpt_eqb t IB_QPT_XRC_INI then (None, None) else (r_recv_cq r, r_srq r) in
  do! pd := es_lift (r_pd r) in
  on_rest (es_mod (count_uses (Some pd) (r_send_cq r) recv srq 1)) ;;
  es_ret (with_verbs q t (Some pd) (r_send_cq r) recv srq (r_rwq_ind_tbl r)).
End Create.
