(* ===== verification/QpLife.v ===== *)
(** * QpLife: a queue pair from its creation to its destruction

    Creating a queue pair either leaves no trace or gives one whose queues
    satisfy the invariants of the data path, with nothing outstanding; and
    destroying it gives back every allocation, its doorbell record, its number
    and its references, and takes its completions out of the completion queues. *)

From stdpp Require Import strings.
From S2P Require Import Prelude ErrState FragBuf Strides KHeap FragAlloc DbAlloc DrvState Mailbox QpTypes SqSize WqeSeg SqRing PostSend PostRing PostSendThm RecvQueue Srq Cqe CqRing CqResize CqPoll QpSystem RecvTarget QpState QpContext QpModify QpExample QpModifyThm QpReset QpCreate.

Open Scope es_scope.

(** ** The geometry of the queues *)

(** Requests whose sizes in bytes fit an int. *)
Definition sq_request (a : ib_qp_init_attr) : Prop :=
  attr_small a /\ 0 < calc_send_wqe a /\ max_send_wr (cap a) * calc_send_wqe a <= 2 ^ 30.
Definition rq_request (c : ib_qp_cap) : Prop := 0 < max_recv_sge c <= 512 /\ 0 < max_recv_wr c <= 2 ^ 16.

Lemma calc_sq_ret_pos caps a :
  sq_request a -> 0 < max_send_wr (cap a) -> 0 <= sq_ret (calc_sq_size caps a) -> 0 < sq_ret (calc_sq_size caps a).
Proof.
  intros (Hs & Hw & Hp) Hwr. unfold calc_sq_size. set (w := calc_send_wqe a) in *.
  destruct (Z.eqb_spec (max_send_wr (cap a)) 0); [lia|]. destruct (Z.ltb_spec w 0); [lia|].
  destruct (Z.ltb_spec (max_wqe_sz_sq caps) w); [simpl; unfold EINVAL; lia|].
  destruct (roundup_pow_of_two_spec (max_send_wr (cap a) * w) 30) as (j & Hj & Ej & Hj2); [nia|lia|].
  assert (2 ^ j <= 2 ^ 30) by (apply Z.pow_le_mono_r; lia).
  rewrite (u32_small (_ * w)), Ej, (s32_small (2 ^ j)) by nia.
  repeat match goal with |- context [if ?b then _ else _] => destruct b end; simpl; unfold ENOMEM; lia.
Qed.

(** The sizes of an accepted send queue. *)
Record sq_sized (s : wq_sizes) (ret : Z) : Prop := {
  ss_cnt : (sz_wqe_cnt s = 0 /\ ret = 0) \/ exists k, 0 <= k <= 15 /\ sz_wqe_cnt s = 2 ^ k /\ ret = 2 ^ k * 64;
  ss_gs : 0 <= sz_max_gs s;
  ss_post : 0 <= sz_max_post s;
}.

Lemma calc_sq_sized caps a :
  sq_request a -> 0 <= log_max_qp_sz caps <= 15 -> 0 <= sq_ret (calc_sq_size caps a) ->
  sq_sized (sq_sizes (calc_sq_size caps a)) (sq_ret (calc_sq_size caps a)).
Proof.
  intros Hr Hl Hret. pose proof Hr as ((Hwr & Hsge & _) & Hw & Hp).
  destruct (decide (max_send_wr (cap a) = 0)) as [E|E].
  - unfold calc_sq_size. rewrite E. simpl. split; simpl; auto; lia.
  - destruct (calc_sq_size_ok caps a) as (k & Hk & Hc & Hrt & _ & _ & Hpo & _ & Hgs & _); try apply Hr; try lia.
    { apply calc_sq_ret_pos; auto; lia. }
    unfold MLX5_SEND_WQE_BB in Hrt. split; [right; exists k; lia|lia|lia].
Qed.

Record rq_sized (s : wq_sizes) : Prop := {
  rs_cnt : sz_wqe_cnt s = 0 \/ exists k j, 0 <= k <= 16 /\ 4 <= j <= 14 /\ sz_wqe_cnt s = 2 ^ k /\
             sz_wqe_shift s = j /\ 6 <= k + j /\ 16 * sz_max_gs s <= 2 ^ j /\ j <= 12;
  rs_shift : sz_wqe_cnt s = 0 -> sz_wqe_shift s = 0;
  rs_gs : 0 <= sz_max_gs s;
  rs_post : 0 <= sz_max_post s <= sz_wqe_cnt s;
}.

Lemma set_rq_shift caps c sig err c' s :
  set_rq_size caps c true sig None = (err, c', s) -> max_wqe_sz_rq caps <= 4096 -> sz_wqe_shift s <= 12.
Proof.
  unfold set_rq_size. simpl. destruct (_ <? max_recv_wr c); [intros [= _ _ <-]; simpl; lia|].
  set (w := s32 (roundup_pow_of_two _)). destruct (Z.ltb_spec (max_wqe_sz_rq caps) w); intros [= _ _ <-] Hm; simpl; [lia|].
  unfold ilog2. change 12 with (Z.log2 4096). apply Z.log2_le_mono. lia.
Qed.

Lemma set_rq_sized caps c has_rq sig :
  (has_rq = true -> rq_request c) -> 0 <= log_max_qp_sz caps <= 15 -> max_wqe_sz_rq caps <= 4096 ->
  let '(err, _, s) := set_rq_size caps c has_rq (if sig : bool then 1 else 0) None in
  err = 0 -> rq_sized s.
Proof.
  intros Hr Hl Hm. destruct has_rq.
  - destruct Hr as [Hg Hw]; [done|].
    pose proof (set_rq_size_ok caps c (if sig then 1 else 0)) as H.
    destruct (set_rq_size caps c true _ None) as [[err c'] s] eqn:E. cbn [fst snd] in H. intros ->.
    destruct H as (k & j & Hc & Hk & Hs & Hj & Hp & Hq & Hgs & H16 & H6); [by destruct sig|lia|lia|lia|done|].
    assert (0 < 2 ^ k) by (apply Z.pow_pos_nonneg; lia). pose proof (set_rq_shift _ _ _ _ _ _ E Hm).
    split; [right; exists k, j; destruct sig; lia|lia|lia|lia].
  - unfold set_rq_size. simpl. destruct (_ <? _); intros ?; [done|]. split; simpl; auto; lia.
Qed.

(** The bytes of the receive queue, a whole number of send blocks. *)
Lemma rq_bytes s : rq_sized s ->
  let n := s32 (sz_wqe_cnt s <<. sz_wqe_shift s) in
  n = sz_wqe_cnt s * 2 ^ sz_wqe_shift s /\ 0 <= n <= 2 ^ 30 /\ n mod 64 = 0.
Proof.
  intros [[Hz|(k & j & Hk & Hj & Hc & Hs & H6 & _)] Hz0 _ _]; cbv zeta.
  - rewrite Hz. rewrite Z.shiftl_0_l. vm_compute. done.
  - rewrite Hs, Hc, Z.shiftl_mul_pow2, <- Z.pow_add_r by lia.
    assert (0 < 2 ^ (k + j) <= 2 ^ 30) by (split; [apply Z.pow_pos_nonneg; lia|apply Z.pow_le_mono_r; lia]).
    rewrite s32_small by lia. split; [done|]. split; [lia|].
    replace (k + j) with (k + j - 6 + 6) by lia. rewrite Z.pow_add_r by lia. apply Z.mod_mul. done.
Qed.

Lemma kernel_rq_inv s w size b :
  rq_sized s -> sz_wqe_cnt s <> 0 -> sz_wqe_cnt s * 2 ^ sz_wqe_shift s <= size -> size <= 2 ^ 31 ->
  rq_inv (kernel_rq s w) (mkfrag_mem size b) [].
Proof.
  intros [[?|(k & j & Hk & Hj & Hc & Hs & H6 & Hgs & Hj12)] _ Hg Hp] Hz Hsz Hmax; [done|].
  assert (Hwf : fbc_wf (mlx5_init_fbc 0 j k)).
  { apply init_fbc_offset_wf; [lia|lia|]. split; [done|]. apply Z.pow_pos_nonneg; lia. }
  unfold kernel_rq. destruct (Z.eqb_spec (sz_wqe_cnt s) 0); [done|]. rewrite Hs, Hc. unfold ilog2.
  rewrite Z.log2_pow2 by lia. split; try done.
  - split; [exact Hwf|]. split; [done|]. cbn [max_gs max_post wqe_cnt]. split; [done|]. split; [exact Hgs|lia].
  - cbn [fbc]. unfold fits, fits_n, slot, entries, stride, fbc_base. cbn. rewrite Hs, Hc in Hsz.
    assert (2 ^ k <= 2 ^ 16) by (apply Z.pow_le_mono_r; lia). lia.
  - simpl. lia.
Qed.

Lemma kernel_sq_inv s ret off size b w wd wo wn wh :
  sq_sized s ret -> sz_wqe_cnt s <> 0 -> 0 <= off -> off mod 64 = 0 -> off + ret <= size ->
  sq_inv (kernel_sq s off w wd wo wn wh) (mkfrag_mem size b) [].
Proof.
  intros [[[? _]|(k & Hk & Hc & Hret)] _ _] Hz Hoff Hm Hsz; [done|].
  unfold kernel_sq. destruct (Z.eqb_spec (sz_wqe_cnt s) 0); [done|]. unfold ilog2, MLX5_SEND_WQE_BB, PAGE_SIZE.
  change (Z.log2 64) with 6. rewrite Hc, Z.log2_pow2 by lia. change (4096 - 1) with (2 ^ 12 - 1).
  rewrite land_mask by lia. change (2 ^ 12) with 4096.
  assert (Hwf : fbc_wf (mlx5_init_fbc_offset (off / 4096) 6 k (off mod 4096 / 64))).
  { apply init_fbc_offset_wf; [lia|lia|]. change (2 ^ (12 - 6)) with 64. dlia. }
  assert (Hpos : 0 < 2 ^ k) by (apply Z.pow_pos_nonneg; lia).
  set (f := mlx5_init_fbc_offset _ _ _ _) in *.
  match goal with |- sq_inv ?q _ _ => set (sq := q) end.
  assert (Hsq : sq_wf sq).
  { split; [exact Hwf|]. split; [done|]. split; [cbn; lia|]. split; [done|]. cbn. apply Z.div_pos; lia. }
  assert (Hbase : ring_base sq = off).
  { unfold ring_base, fbc_base, PAGE_SIZE. cbn. change (2 ^ 6) with 64. dlia. }
  split; try done.
  - unfold ring_in. rewrite Hbase. unfold ring_bytes. cbn. lia.
  - cbn. lia.
Qed.

(** ** What a queue pair owns *)

Definition res_blocks (r : kernel_res) (sizes : list Z) : gmap nat Z :=
  blocks_of_all (kr_arrays r) sizes ∪ buf_blocks (kr_buf r).

(** A buffer of [size] bytes and five arrays. *)
Record res_ok (r : kernel_res) (size : Z) (sizes : list Z) : Prop := {
  ro_buf : buf_ok (kr_buf r) size;
  ro_length : length (kr_arrays r) = 5%nat;
  ro_sizes : length sizes = 5%nat;
  ro_nodup : NoDup (omap id (kr_arrays r));
  ro_apart : blocks_of_all (kr_arrays r) sizes ##ₘ buf_blocks (kr_buf r);
}.

Lemma free_order_perm l : length l = 5%nat -> free_order l ≡ₚ l.
Proof.
  destruct l as [|a [|b [|c [|d [|e [|? ?]]]]]]; try done. intros _.
  change (([e; d] ++ [a; b; c]) ≡ₚ [a; b; c; d; e]). rewrite Permutation_app_comm. simpl.
  do 3 constructor. apply perm_swap.
Qed.

Definition pages_of (w : kernel_res) : list (list Z) := page_list (kr_buf w).

Section Life.
Context (o : oracle) (cls : Z) (sizeof_qp : Z) (dev : create_dev) (ce : cenv) (Hcls : 8 <= cls <= PAGE_SIZE).
Implicit Types (m : gmap nat Z) (D : gset (nat * nat)).

Lemma runs_free_arrays l sizes st x m D (Q : Z + unit -> drv qps -> Prop) :
  length l = 5%nat -> length sizes = 5%nat -> NoDup (omap id l) ->
  owned cls (blocks_of_all l sizes ∪ m) D st -> blocks_of_all l sizes ##ₘ m ->
  (forall st', owned cls m D st' -> Q (inr tt) (mkdrv st' x)) ->
  runs (d_kvfree_all (free_order l)) (mkdrv st x) Q.
Proof.
  intros Hl Hs Hn Ho Hd HQ. pose proof (free_order_perm l Hl) as Hp.
  apply (runs_kvfree_all cls x (free_order l) st (blocks_of_all l sizes) m D); auto.
  - by rewrite Hp.
  - intros b. rewrite Hp. apply blocks_of_all_dom. lia.
Qed.

Lemma runs_alloc_arrays sizes st x m D (Q : Z + list (option nat) -> drv qps -> Prop) :
  length sizes = 5%nat -> owned cls m D st ->
  (forall st', owned cls m D st' -> Q (inl (- ENOMEM)) (mkdrv st' x)) ->
  (forall l st', length l = 5%nat -> NoDup (omap id l) -> blocks_of_all l sizes ##ₘ m ->
     owned cls (blocks_of_all l sizes ∪ m) D st' -> Q (inr l) (mkdrv st' x)) ->
  runs (alloc_arrays o sizes) (mkdrv st x) Q.
Proof.
  intros Hs Ho HN HS. apply runs_bind, (runs_kvmalloc_all o cls x sizes st m D); [done|].
  intros l st' Hl Hn Hd Ho'. destruct (forallb _ l).
  - apply runs_ret, HS; auto. lia.
  - apply runs_bind, (runs_free_arrays l sizes st' x m D); auto; [lia|]. intros st'' Ho''.
    by apply runs_fail, HN.
Qed.

(** Destroying the kernel's part gives back what it owns. *)
Lemma runs_destroy_kernel r size sizes st x m D (Q : Z + unit -> drv qps -> Prop) :
  res_ok r size sizes -> res_blocks r sizes ##ₘ m -> slot_of (kr_db r) ∉ D ->
  owned cls (res_blocks r sizes ∪ m) ({[slot_of (kr_db r)]} ∪ D) st ->
  (forall st', owned cls m D st' -> Q (inr tt) (mkdrv st' x)) ->
  runs (destroy_qp_kernel (Some r)) (mkdrv st x) Q.
Proof.
  intros [Hb Hl Hs Hn Ha] [Hd1 Hd2]%map_disjoint_union_l Hslot Ho HQ. unfold res_blocks in Ho.
  rewrite <- map_union_assoc in Ho. apply runs_bind.
  apply (runs_free_arrays _ sizes st x (buf_blocks (kr_buf r) ∪ m) ({[slot_of (kr_db r)]} ∪ D)); auto.
  { by apply map_disjoint_union_r. }
  intros st1 Ho1. apply runs_bind, (runs_db_free cls x (kr_db r) st1 (buf_blocks (kr_buf r) ∪ m) D); auto.
  intros st2 Ho2. by apply (runs_frag_buf_free cls x (kr_buf r) size st2 m D).
Qed.

(** Flags that make no underlay queue pair. *)
Definition no_underlay (fl : Z) : Prop := fl .& MLX5_IB_QP_UNDERLAY = 0.

Lemma no_underlay_lor a b : no_underlay a -> no_underlay b -> no_underlay (a .| b).
Proof. unfold no_underlay. intros Ha Hb. by rewrite Z.land_lor_distr_l, Ha, Hb. Qed.
Lemma no_underlay_if (b : bool) x y : no_underlay x -> no_underlay y -> no_underlay (if b then x else y).
Proof. by destruct b. Qed.

Lemma common_flags_ok attr is_exp fl : common_flags dev attr is_exp = inr fl -> no_underlay fl.
Proof.
  unfold common_flags. repeat (destruct (_ && _); [discriminate|]). intros [= <-].
  repeat first [apply no_underlay_lor | apply no_underlay_if]; done.
Qed.

(** What create_kernel_qp made. *)
Record kernel_made (attr : ib_qp_init_attr) (rq : wq_sizes) (k : kernel_qp) (r : kernel_res) : Prop := {
  km_res : kp_res k = Some r;
  km_ok : res_ok r (s32 (sq_ret (calc_sq_size (cd_caps dev) attr) + s32 (sz_wqe_cnt rq <<. sz_wqe_shift rq)))
            (array_sizes (sq_sizes (calc_sq_size (cd_caps dev) attr)) rq);
  km_ret : 0 <= sq_ret (calc_sq_size (cd_caps dev) attr);
  km_sq : exists w wd wo wn wh, kp_sq k = kernel_sq (sq_sizes (calc_sq_size (cd_caps dev) attr))
            (s32 (sz_wqe_cnt rq <<. sz_wqe_shift rq)) w wd wo wn wh;
  km_rq : exists w, kp_rq k = kernel_rq rq w;
  km_inlen : 0 <= kp_inlen k;
  km_pas : mb_pas (kp_in k) = pages_of r;
  km_cap : kp_cap k = sq_cap (calc_sq_size (cd_caps dev) attr);
  km_plain : create_flags attr .& Z.lnot kernel_flags = 0;
  km_flags : no_underlay (kp_flags k);
}.

Lemma runs_create_kernel attr rq fl st x m D (Q : Z + kernel_qp -> drv qps -> Prop) :
  sq_request attr -> 0 <= log_max_qp_sz (cd_caps dev) <= 15 -> rq_sized rq -> no_underlay fl -> owned cls m D st ->
  (forall e st', owned cls m D st' -> Q (inl e) (mkdrv st' x)) ->
  (forall k r st', kernel_made attr rq k r ->
     let own := res_blocks r (array_sizes (sq_sizes (calc_sq_size (cd_caps dev) attr)) rq) in
     own ##ₘ m -> (own ∪ m) !! kp_in_at k = None -> slot_of (kr_db r) ∉ D ->
     owned cls ({[kp_in_at k := kp_inlen k]} ∪ (own ∪ m)) ({[slot_of (kr_db r)]} ∪ D) st' ->
     Q (inr k) (mkdrv st' x)) ->
  runs (create_kernel_qp o cls dev ce attr rq fl) (mkdrv st x) Q.
Proof.
  intros Hr Hlog Hrq Hu Ho HN HS. unfold create_kernel_qp.
  destruct (test (create_flags attr) (Z.lnot kernel_flags)) eqn:Hfl; [by apply runs_fail, HN|].
  set (c := calc_sq_size (cd_caps dev) attr) in *.
  destruct (Z.ltb_spec (sq_ret c) 0) as [|Hret]; [by apply runs_fail, HN|].
  pose proof (calc_sq_sized _ _ Hr Hlog Hret) as Hsq. fold c in Hsq.
  destruct (rq_bytes rq Hrq) as (Hoff & Hoff0 & _). set (offset := s32 (sz_wqe_cnt rq <<. sz_wqe_shift rq)) in *.
  assert (Hsz : 0 <= sq_ret c <= 2 ^ 21).
  { destruct (ss_cnt _ _ Hsq) as [[_ ->]|(k & Hk & _ & ->)]; [lia|].
    assert (0 < 2 ^ k <= 2 ^ 15) by (split; [apply Z.pow_pos_nonneg; lia|apply Z.pow_le_mono_r; lia]). lia. }
  assert (Hsum : 0 <= s32 (sq_ret c + offset) < 2 ^ 31) by (rewrite s32_small; lia).
  apply runs_bind, (runs_frag_buf_alloc o cls x _ st m D); [lia|done|by intros; apply HN|].
  intros buf st1 Hbuf Hdb Ho1. apply runs_cleanup, runs_bind.
  assert (Hundo : forall e st', owned cls (buf_blocks buf ∪ m) D st' ->
    runs (d_frag_buf_free buf) (mkdrv st' x) (fun _ s'' => Q (inl e) s'')).
  { intros e st' Ho'. by apply (runs_frag_buf_free cls x buf _ st' m D _ Hbuf); [| |intros; apply HN]. }
  set (inlen := s32 (sizeof_create_qp_in + 8 * fb_npages buf)).
  assert (Hinlen : 0 <= inlen).
  { unfold inlen, sizeof_create_qp_in. rewrite (bo_pages _ _ Hbuf). rewrite s32_small;
      unfold DIV_ROUND_UP, PAGE_SIZE; dlia. }
  apply (runs_kzalloc o cls x inlen st1 (buf_blocks buf ∪ m) D); [done|by intros; apply Hundo|].
  intros at_ st2 Hat Ho2. apply runs_cleanup. rewrite (fill_pages _ _ Hbuf).
  apply runs_bind, runs_lift, runs_bind.
  assert (Hundo2 : forall e st', owned cls ({[at_ := inlen]} ∪ (buf_blocks buf ∪ m)) D st' ->
    runs (d_kfree at_) (mkdrv st' x) (fun _ s'' => runs (d_frag_buf_free buf) s'' (fun _ s3 => Q (inl e) s3))).
  { intros e st' Ho'. apply (runs_kfree cls x at_ inlen st' (buf_blocks buf ∪ m) D); auto. }
  apply (runs_db_alloc o cls x st2 _ D _ Hcls Ho2); [by intros; apply Hundo2|].
  intros db st3 Hslot Ho3. apply runs_cleanup, runs_bind.
  eapply runs_alloc_arrays; [done|exact Ho3| |].
  { intros st4 Ho4. apply (runs_db_free cls x db st4 _ D _ Ho4 Hslot). intros; by apply Hundo2. }
  intros l st4 Hl Hn Hdl Ho4. apply runs_ret.
  set (sizes := array_sizes (sq_sizes c) rq) in *.
  apply map_disjoint_union_r in Hdl as [Hdl1 [Hdl2 Hdl3]%map_disjoint_union_r].
  apply map_disjoint_singleton_r in Hdl1. apply lookup_union_None in Hat as [Hat1 Hat2].
  eapply HS with (r := mkres buf db l).
  - split; simpl; [done|by split|done|by eexists _, _, _, _, _|by eexists|done|done|done| |].
    + unfold test in Hfl. by apply negb_false_iff, Z.eqb_eq in Hfl.
    + by repeat first [apply no_underlay_if | apply no_underlay_lor].
  - unfold res_blocks. simpl. by apply map_disjoint_union_l.
  - unfold res_blocks. simpl. by rewrite !lookup_union_None.
  - done.
  - unfold res_blocks. simpl. fold sizes. rewrite <- map_union_assoc.
    rewrite <- (union_swap _ {[at_ := inlen]}); [done|]. by apply map_disjoint_singleton_r.
Qed.

(** ** The device and the tables *)

(** A device that hands out unused numbers and lets go of queue pairs. *)
Record honest (x : qps) : Prop := {
  ho_fresh : forall i n, ce_create ce i = inr n -> n ∉ q_dev x;
  ho_destroy : forall n, ce_destroy ce n = 0;
}.

Definition entered (x : qps) (n : Z) (addr : nat) : qps :=
  with_tree (with_dev x ({[n]} ∪ q_dev x)) (<[n := addr]> (q_tree x)) (q_num x + 1).

Lemma runs_core_create i addr st x (Q : Z + Z -> drv qps -> Prop) :
  honest x -> (forall e, Q (inl e) (mkdrv st x)) ->
  (forall n, ce_create ce i = inr n -> q_tree x !! n = None -> Q (inr n) (mkdrv st (entered x n addr))) ->
  runs (on_rest (mlx5_core_create_qp ce i addr)) (mkdrv st x) Q.
Proof.
  intros [Hf Hd] HN HS. apply runs_on_rest. unfold mlx5_core_create_qp.
  destruct (ce_create ce i) as [e|n] eqn:E; [by apply runs_fail|].
  apply runs_bind, runs_mod, runs_bind, runs_cleanup, runs_bind, runs_get.
  assert (Hback : forall e, runs (destroy_cmd ce n) (with_dev x ({[n]} ∪ q_dev x)) (fun _ y => Q (inl e) (mkdrv st y))).
  { intros e. unfold destroy_cmd. rewrite Hd. apply runs_mod. specialize (Hf _ _ E).
    replace (with_dev _ _) with x; [done|]. destruct x; unfold with_dev; simpl in *. f_equal. set_solver. }
  destruct (ce_node ce); simpl; [|by apply runs_fail, Hback].
  destruct (q_tree x !! n) eqn:Et; [by apply runs_fail, Hback|]. apply runs_mod, runs_bind, runs_mod, runs_ret. by apply HS.
Qed.

(** ** The mailbox *)

Lemma cqe_size_some cqs cq : (forall c, cq = Some c -> is_Some (cqs c)) -> exists n, mlx5_ib_get_cqe_size cqs cq = Some n.
Proof.
  intros H. destruct cq as [c|]; [|by eexists]. destruct (H c eq_refl) as [q Hq]. simpl. rewrite Hq. by eexists.
Qed.

Definition cqs_exist (x : qps) (r : create_req) : Prop :=
  (forall c, r_send_cq r = Some c -> is_Some (q_cqs x c)) /\ (forall c, r_recv_cq r = Some c -> is_Some (q_cqs x c)).

Lemma scat_cqe_ok x r i :
  cqs_exist x r ->
  exists i', (i ← configure_responder_scat_cqe r (q_cqs x) i; configure_requester_scat_cqe dev r (q_cqs x) i) = Some i' /\
    mb_pas i' = mb_pas i /\ forall f, f <> "cs_res" -> f <> "cs_req" -> field_of i' f = field_of i f.
Proof.
  intros [Hs Hr]. destruct (cqe_size_some _ _ Hs) as [a Ha]. destruct (cqe_size_some _ _ Hr) as [b Hb].
  assert (H1 : exists i1, configure_responder_scat_cqe r (q_cqs x) i = Some i1 /\ mb_pas i1 = mb_pas i /\
            forall f, f <> "cs_res" -> field_of i1 f = field_of i f).
  { unfold configure_responder_scat_cqe. rewrite Hb. simpl.
    destruct (attr_qp_type (r_attr r)); eexists; (split; [done|]);
      rewrite ?pas_set, ?pas_if; split; auto; intros f Hf; by rewrite ?field_set_ne, ?field_if_ne by done. }
  destruct H1 as (i1 & -> & Hp & Hf). simpl. unfold configure_requester_scat_cqe. rewrite Ha. simpl.
  destruct (_ || negb (r_sig_all r)); [exists i1; auto|].
  destruct (_ && (a =? 128)); eexists; (split; [done|]); rewrite ?pas_set, ?pas_if; (split; [done|]);
    intros f H1 H2; rewrite ?field_set_ne, ?field_if_ne by done; auto.
Qed.

(** What the device is told of the queue pair. *)
Record told (r : create_req) (w : kernel_res) (sq rq : mlx5_ib_wq) (i : mailbox) : Prop := {
  to_pas : mb_pas i = pages_of w;
  to_st : field_of i "st" = Some (to_mlx5_st (attr_qp_type (r_attr r)));
  to_pd : field_of i "pd" = Some (default (cd_p0 dev) (r_pd r));
  to_send : forall c, r_send_cq r = Some c -> field_of i "cqn_snd" = Some c;
  to_recv : forall c, r_recv_cq r = Some c -> field_of i "cqn_rcv" = Some c;
  to_srq : forall n, r_srq r = Some n -> field_of i "srqn_rmpn_xrqn" = Some n;
  to_dbr : field_of i "dbr_addr" = Some (db_dma (kr_db w));
  to_sq : wqe_cnt sq <> 0 -> field_of i "log_sq_size" = Some (ilog2 (wqe_cnt sq));
  to_rq : wqe_cnt rq <> 0 -> field_of i "log_rq_size" = Some (ilog2 (wqe_cnt rq)) /\
            field_of i "log_rq_stride" = Some (wqe_shift rq - 4);
}.

(** Fields the sizes of the queues have nothing to do with. *)
Definition no_queue_field (f : string) : Prop :=
  f <> "log_rq_size" /\ f <> "log_rq_stride" /\ f <> "rq_type" /\ f <> "log_sq_size" /\ f <> "offload_type" /\
  f <> "no_sq".

Lemma queue_fields_ok r k has_rq i :
  let j := queue_fields r k has_rq i in
  mb_pas j = mb_pas i /\ (forall f, no_queue_field f -> field_of j f = field_of i f) /\
  (wqe_cnt (kp_sq k) <> 0 -> field_of j "log_sq_size" = Some (ilog2 (wqe_cnt (kp_sq k)))) /\
  (wqe_cnt (kp_rq k) <> 0 -> field_of j "log_rq_size" = Some (ilog2 (wqe_cnt (kp_rq k))) /\
     field_of j "log_rq_stride" = Some (wqe_shift (kp_rq k) - 4)).
Proof.
  cbv zeta. unfold queue_fields.
  destruct (Z.eqb_spec (wqe_cnt (kp_sq k)) 0), (Z.eqb_spec (wqe_cnt (kp_rq k)) 0); cbn [negb]; fields;
    (split; [done|]); (split; [intros f (? & ? & ? & ? & ? & ?);
      by rewrite ?field_if_ne, ?field_set_ne by done|]);
    split; intros; try done; by fields.
Qed.

Lemma fill_qpc_told r k w sig scat has_rq x :
  kp_res k = Some w -> mb_pas (kp_in k) = pages_of w ->
  verbs_qp (attr_qp_type (r_attr r)) -> cqs_exist x r ->
  exists i, fill_qpc dev r k sig scat has_rq x = Some i /\ told r w (kp_sq k) (kp_rq k) i.
Proof.
  intros Hw Hpas Ht Hc. unfold fill_qpc. set (t := attr_qp_type (r_attr r)) in *.
  assert (Humr : qpt_eqb t MLX5_IB_QPT_REG_UMR = false) by (by destruct Ht as [[-> | [-> | ->]] | ->]).
  rewrite Humr. cbn [negb].
  match goal with |- context [if scat && is_connected t then _ else Some ?j] => set (i0 := j) end.
  assert (H1 : exists i1, (if scat && is_connected t then i ← configure_responder_scat_cqe r (q_cqs x) i0;
                configure_requester_scat_cqe dev r (q_cqs x) i else Some i0) = Some i1 /\
              mb_pas i1 = mb_pas i0 /\ forall f, f <> "cs_res" -> f <> "cs_req" -> field_of i1 f = field_of i0 f).
  { destruct (scat && is_connected t); [by apply scat_cqe_ok|by exists i0]. }
  destruct H1 as (i1 & -> & Hp1 & Hf1). cbn [mbind option_bind].
  assert (H0 : mb_pas i0 = mb_pas (kp_in k) /\ field_of i0 "st" = Some (to_mlx5_st t) /\
               field_of i0 "pd" = Some (default (cd_p0 dev) (r_pd r))) by (unfold i0; by fields).
  destruct H0 as (Hp0 & Hst & Hpd). clearbody i0.
  destruct (queue_fields_ok r k has_rq i1) as (Hpq & Hfq & Hsq & Hrq). set (j := queue_fields r k has_rq i1) in *.
  assert (Hd : default_resources dev r j =
    Some (MLX5_SET "srqn_rmpn_xrqn" (default (cd_s1 dev) (r_srq r))
            (MLX5_SET "xrcd" (if r_srq r is Some _ then cd_x0 dev else cd_x1 dev) j))).
  { unfold default_resources. fold t. destruct Ht as [[-> | [-> | ->]] | ->]; by destruct (r_srq r). }
  rewrite Hd. cbn [mbind option_bind]. eexists. split; [done|]. split; fields.
  - congruence.
  - by rewrite Hfq, Hf1.
  - by rewrite Hfq, Hf1.
  - intros c ->. cbn [set_opt]. by fields.
  - intros c ->. cbn [set_opt]. by fields.
  - by intros n ->.
  - by rewrite Hw.
  - done.
  - intros H. destruct (Hrq H). by split; fields.
Qed.

(** ** Creating *)

Record limits_ok : Prop := {
  lo_sz : 0 <= log_max_qp_sz (cd_caps dev) <= 15;
  lo_rq : max_wqe_sz_rq (cd_caps dev) <= 4096;
}.

(** A request of the kernel for one of the verbs types. *)
Record request_ok (x : qps) (r : create_req) : Prop := {
  rk_type : verbs_qp (attr_qp_type (r_attr r));
  rk_pd : is_Some (r_pd r);
  rk_rwq : r_rwq_ind_tbl r = false;
  rk_hash : r_rx_hash r = false;
  rk_sq : sq_request (r_attr r);
  rk_rq : qp_has_rq (r_attr r) = true -> rq_request (cap (r_attr r));
  rk_cqs : cqs_exist x r;
}.

Lemma sq_request_cap a caps has_rq sig err c s :
  set_rq_size caps (cap a) has_rq sig None = (err, c, s) -> sq_request a -> sq_request (with_cap a c).
Proof.
  intros E. assert (H : max_send_wr c = max_send_wr (cap a) /\ max_send_sge c = max_send_sge (cap a) /\
    cap_max_inline_data c = cap_max_inline_data (cap a)).
  { unfold set_rq_size in E. revert E. destruct (_ <? _); [by intros [= _ <- _]|].
    destruct has_rq; simpl; [|by intros [= _ <- _]]. destruct (_ <? _); by intros [= _ <- _]. }
  destruct H as (H1 & H2 & H3). unfold sq_request, attr_small, calc_send_wqe, sq_overhead. simpl.
  by rewrite H1, H2, H3.
Qed.

(** The kernel's own requests never ask for end padding. *)
Lemma no_end_padding fl : fl .& Z.lnot kernel_flags = 0 -> test fl IB_QP_CREATE_PCI_WRITE_END_PADDING = false.
Proof.
  intros H. unfold test. apply negb_false_iff, Z.eqb_eq.
  change IB_QP_CREATE_PCI_WRITE_END_PADDING with (Z.lnot kernel_flags .& IB_QP_CREATE_PCI_WRITE_END_PADDING).
  by rewrite Z.land_assoc, H.
Qed.

Definition sizes_of (sq rq : mlx5_ib_wq) : list Z :=
  [8 * wqe_cnt sq; 4 * wqe_cnt sq; 8 * wqe_cnt rq; 4 * wqe_cnt sq; 4 * wqe_cnt sq].

(** The queues and resources of a new queue pair: the invariants of the data
    path hold with nothing outstanding. *)
Definition fresh_queues (w : kernel_res) (sq rq : mlx5_ib_wq) : Prop :=
  exists size, res_ok w size (sizes_of sq rq) /\
    (wqe_cnt sq <> 0 -> sq_inv sq (mkfrag_mem size (fun _ => 0)) []) /\
    (wqe_cnt rq <> 0 -> rq_inv rq (mkfrag_mem size (fun _ => 0)) []).

Lemma kernel_made_sizes a rq k w :
  kernel_made a rq k w -> array_sizes (sq_sizes (calc_sq_size (cd_caps dev) a)) rq = sizes_of (kp_sq k) (kp_rq k).
Proof.
  intros [_ _ _ (? & ? & ? & ? & ? & Hs) (? & Hr) _ _ _ _ _]. unfold sizes_of. rewrite Hs, Hr.
  unfold kernel_sq. by destruct (_ =? 0).
Qed.

Lemma kernel_made_fresh a rq k w :
  sq_request a -> 0 <= log_max_qp_sz (cd_caps dev) <= 15 -> rq_sized rq -> kernel_made a rq k w ->
  fresh_queues w (kp_sq k) (kp_rq k).
Proof.
  intros Hr Hlog Hrq Hk. pose proof (kernel_made_sizes _ _ _ _ Hk) as Es.
  destruct Hk as [_ Hok Hret (? & ? & ? & ? & ? & Hs) (? & Hq) _ _ _ _ _].
  set (c := calc_sq_size (cd_caps dev) a) in *. pose proof (calc_sq_sized _ _ Hr Hlog Hret) as Hsz. fold c in Hsz.
  destruct (rq_bytes rq Hrq) as (Hoff & Hoff0 & Hoff64).
  assert (Hle : 0 <= sq_ret c <= 2 ^ 21).
  { destruct (ss_cnt _ _ Hsz) as [[_ ->]|(k' & ? & _ & ->)]; [lia|].
    assert (0 < 2 ^ k' <= 2 ^ 15) by (split; [apply Z.pow_pos_nonneg; lia|apply Z.pow_le_mono_r; lia]). lia. }
  rewrite (s32_small (_ + _)) in Hok by lia. eexists. split; [rewrite <- Es; exact Hok|]. rewrite Hs, Hq.
  split; intros Hz.
  - eapply kernel_sq_inv; [exact Hsz| |lia|done|lia]. unfold kernel_sq in Hz. by destruct (_ =? 0).
  - apply kernel_rq_inv; [done|done|lia|lia].
Qed.

Lemma runs_create_common r is_exp addr st x m D (Q : Z + kernel_qp * Z * bool -> drv qps -> Prop) :
  limits_ok -> honest x -> request_ok x r -> owned cls m D st ->
  (forall e st', owned cls m D st' -> Q (inl e) (mkdrv st' x)) ->
  (forall k w n st', kp_res k = Some w -> fresh_queues w (kp_sq k) (kp_rq k) ->
     told r w (kp_sq k) (kp_rq k) (kp_in k) -> no_underlay (kp_flags k) ->
     ce_create ce (kp_in k) = inr n -> q_tree x !! n = None ->
     let own := res_blocks w (sizes_of (kp_sq k) (kp_rq k)) in
     own ##ₘ m -> slot_of (kr_db w) ∉ D -> owned cls (own ∪ m) ({[slot_of (kr_db w)]} ∪ D) st' ->
     let cqs := get_cqs (attr_qp_type (r_attr r)) (r_send_cq r) (r_recv_cq r) in
     Q (inr (k, n, qp_has_rq (r_attr r))) (mkdrv st' (add_to_lists addr cqs.1 cqs.2 (entered x n addr)))) ->
  runs (create_qp_common o cls dev ce r is_exp addr) (mkdrv st x) Q.
Proof.
  intros Hlim Hho Hok Ho HN HS. unfold create_qp_common. set (t := attr_qp_type (r_attr r)) in *.
  assert (Hst : (to_mlx5_st t <? 0) = false) by (by destruct (rk_type _ _ Hok) as [[E | [E | E]] | E]; unfold t; rewrite E).
  rewrite Hst, (rk_rwq _ _ Hok), (rk_hash _ _ Hok), andb_false_r. cbn [orb]. apply runs_bind.
  destruct (common_flags dev (r_attr r) is_exp) as [e|fl] eqn:Efl; [by apply runs_fail, HN|]. apply runs_ret.
  pose proof (set_rq_sized (cd_caps dev) (cap (r_attr r)) (qp_has_rq (r_attr r)) (cd_wq_signature dev)
                (rk_rq _ _ Hok) (lo_sz Hlim) (lo_rq Hlim)) as Hrq.
  destruct (set_rq_size _ _ _ _ _) as [[err c] rq] eqn:Erq.
  destruct (Z.eqb_spec err 0) as [->|]; cbn [negb]; [specialize (Hrq eq_refl)|by apply runs_fail, HN].
  destruct (rk_pd _ _ Hok) as [pd Hpd]. rewrite Hpd. apply runs_bind.
  pose proof (sq_request_cap _ _ _ _ _ _ _ Erq (rk_sq _ _ Hok)) as Hsq.
  apply (runs_create_kernel _ rq fl st x m D); [done|apply Hlim|done|by eapply common_flags_ok|done|by intros; apply HN|].
  intros k w st1 Hk. cbv zeta. rewrite (kernel_made_sizes _ _ _ _ Hk). intros Hown Hat Hslot Ho1.
  set (own := res_blocks w (sizes_of (kp_sq k) (kp_rq k))) in *.
  apply runs_bind, runs_cleanup, runs_bind, runs_get, runs_bind.
  destruct (fill_qpc_told (with_attr r (with_cap (r_attr r) c)) k w (cd_wq_signature dev)
              (is_exp && negb (r_max_inl_recv r =? 0)) (qp_has_rq (r_attr r)) x) as (i & Hi & Htold);
    [apply Hk|apply Hk|apply Hok|apply Hok|].
  cbn [d_rest]. rewrite Hi. apply runs_lift.
  change (create_flags (with_cap (r_attr r) c)) with (create_flags (r_attr r)).
  pose proof (no_end_padding _ (km_plain _ _ _ _ Hk)) as Hpad. cbn [with_cap create_flags] in Hpad.
  rewrite Hpad. cbn [andb set_if].
  destruct (Z.ltb_spec (kp_inlen k) 0); [pose proof (km_inlen _ _ _ _ Hk); lia|].
  apply runs_bind, runs_cleanup, runs_core_create; [done| |].
  - intros e. rewrite (km_res _ _ _ _ Hk). pose proof Hat as Hat2. apply lookup_union_None in Hat2 as [Hat1 Hat2].
    rewrite (union_swap {[kp_in_at k := kp_inlen k]}) in Ho1 by (by apply map_disjoint_singleton_l).
    pose proof (km_ok _ _ _ _ Hk) as Hres. rewrite (kernel_made_sizes _ _ _ _ Hk) in Hres.
    apply (runs_destroy_kernel w _ (sizes_of (kp_sq k) (kp_rq k)) st1 x ({[kp_in_at k := kp_inlen k]} ∪ m) D _ Hres); auto.
    + by apply map_disjoint_union_r; split; [apply map_disjoint_singleton_r|].
    + intros st2 Ho2. by apply (runs_kfree cls x (kp_in_at k) (kp_inlen k) st2 m D _ Ho2 Hat2); intros; apply HN.
  - intros n Hn Htree. apply runs_ret, runs_bind.
    apply (runs_kfree cls _ (kp_in_at k) (kp_inlen k) st1 _ _ _ Ho1 Hat). intros st2 Ho2.
    destruct (get_cqs t _ _) as [scq rcq]. apply runs_bind, runs_on_rest, runs_mod, runs_ret.
    apply (HS (mkkernel _ _ _ _ _ _ _ _ i) w n st2); simpl; try done.
    + apply Hk.
    + by eapply kernel_made_fresh; [exact Hsq|apply Hlim|exact Hrq|].
    + by destruct Htold; split.
    + by apply no_underlay_if; [apply no_underlay_lor|]; try apply Hk.
Qed.

(** A queue pair of the kernel and the memory that is its own. *)
Record keeps (q : qobj) (w : kernel_res) : Prop := {
  ke_res : qo_res q = Some w;
  ke_kernel : k_kernel (k_fix (qo_q q)) = true;
  ke_ok : exists size, res_ok w size (sizes_of (k_sq (qo_q q)) (k_rq (qo_q q)));
}.
Definition own_blocks (q : qobj) (w : kernel_res) : gmap nat Z :=
  {[qo_addr q := sizeof_qp]} ∪ res_blocks w (sizes_of (k_sq (qo_q q)) (k_rq (qo_q q))).

(** The structure itself is none of the other blocks. *)
Definition apart (q : qobj) (w : kernel_res) : Prop :=
  res_blocks w (sizes_of (k_sq (qo_q q)) (k_rq (qo_q q))) !! qo_addr q = None.

(** Neither RSS nor raw packet, and attached to no multicast group. *)
Record ordinary (q : qobj) : Prop := {
  od_rwq : k_rwq_ind_tbl (k_fix (qo_q q)) = false;
  od_underlay : test (k_flags (k_fix (qo_q q))) MLX5_IB_QP_UNDERLAY = false;
  od_sub : qpt_eqb (k_sub_type (k_fix (qo_q q))) MLX5_IB_QPT_DCT = false;
  od_unused : qo_usecnt q = 0;
}.

(** A new queue pair: resources, queues, state, and what the device knows. *)
Record fresh (r : create_req) (q : qobj) (w : kernel_res) : Prop := {
  fr_keeps : keeps q w;
  fr_apart : apart q w;
  fr_queues : fresh_queues w (k_sq (qo_q q)) (k_rq (qo_q q));
  fr_told : exists i, ce_create ce i = inr (k_qpn (k_fix (qo_q q))) /\ told r w (k_sq (qo_q q)) (k_rq (qo_q q)) i;
  fr_num : k_num (k_fix (qo_q q)) = k_qpn (k_fix (qo_q q));
  fr_state : k_state (k_dyn (qo_q q)) = IB_QPS_RESET;
  fr_db : k_db (qo_q q) = Some (be32 0, be32 0);
  fr_ordinary : ordinary q;
  fr_cmds : qo_cmds q = [];
  fr_pending : k_counter_pending (k_dyn (qo_q q)) = false;
}.

Context (gsi_create : create_req -> est qobj) (xrc_open : create_req -> qobj -> est qobj).

(** The queue pair in the tables. *)
Definition listed (x : qps) (r : create_req) (q : qobj) : qps :=
  let cqs := get_cqs (attr_qp_type (r_attr r)) (r_send_cq r) (r_recv_cq r) in
  add_to_lists (qo_addr q) cqs.1 cqs.2 (entered x (k_qpn (k_fix (qo_q q))) (qo_addr q)).

Lemma runs_mlx5_create r is_exp st x m D (Q : Z + qobj -> drv qps -> Prop) :
  limits_ok -> honest x -> request_ok x r -> owned cls m D st ->
  (forall e st', owned cls m D st' -> Q (inl e) (mkdrv st' x)) ->
  (forall q w st', fresh r q w -> q_tree x !! k_qpn (k_fix (qo_q q)) = None ->
     own_blocks q w ##ₘ m -> slot_of (kr_db w) ∉ D ->
     owned cls (own_blocks q w ∪ m) ({[slot_of (kr_db w)]} ∪ D) st' ->
     Q (inr q) (mkdrv st' (listed x r q))) ->
  runs (mlx5_create_qp o cls sizeof_qp dev ce gsi_create r is_exp) (mkdrv st x) Q.
Proof.
  intros Hlim Hho Hok Ho HN HS. unfold mlx5_create_qp. set (t := attr_qp_type (r_attr r)) in *.
  assert (Hmake : runs (make_qp o cls sizeof_qp dev ce is_exp r) (mkdrv st x) Q).
  { apply runs_bind, (runs_kzalloc o cls x sizeof_qp st m D); [done|by intros; apply HN|]. intros addr st1 Hat Ho1.
    apply runs_bind, runs_cleanup. apply (runs_create_common r is_exp addr st1 x _ D _ Hlim Hho Hok Ho1).
    - intros e st2 Ho2. by apply (runs_kfree cls x addr sizeof_qp st2 m D _ Ho2 Hat); intros; apply HN.
    - intros k w n st2 Hres Hfq Htold Hu Hn Htree. cbv zeta.
      intros [Hd1 Hd2]%map_disjoint_union_r Hslot Ho2. apply runs_ret.
      rewrite (union_swap _ {[addr := sizeof_qp]}), map_union_assoc in Ho2 by done.
      assert (Hspec : match t with IB_QPT_SMI => 0 | MLX5_IB_QPT_HW_GSI => 1 | _ => n end = n)
        by (unfold t; by destruct (rk_type _ _ Hok) as [[-> | [-> | ->]] | ->]).
      eapply (HS (mkqobj addr (fresh_qp r k n _) _ _ _ _ _) w st2).
      + split; simpl; rewrite ?Hres.
        * split; simpl; rewrite ?Hres; auto. destruct Hfq as (size & ? & _). by exists size.
        * by apply map_disjoint_singleton_r in Hd1.
        * done.
        * exists (kp_in k). by split.
        * exact Hspec.
        * done.
        * done.
        * split; try done. simpl. unfold test. by rewrite Hu.
        * done.
        * done.
      + done.
      + apply map_disjoint_union_l; split; [by apply map_disjoint_singleton_l|done].
      + done.
      + done. }
  destruct (rk_pd _ _ Hok) as [pd ->].
  by destruct (rk_type _ _ Hok) as [[E | [E | E]] | E]; unfold t; rewrite E; apply runs_bind, runs_ret.
Qed.

Context (other : special -> qobj -> est unit).

Lemma runs_exp_create r st x m D (Q : Z + qobj -> drv qps -> Prop) :
  limits_ok -> honest x -> request_ok x r -> owned cls m D st ->
  (forall e st', owned cls m D st' -> Q (inl e) (mkdrv st' x)) ->
  (forall q w st', fresh r q w -> q_tree x !! k_qpn (k_fix (qo_q q)) = None ->
     own_blocks q w ##ₘ m -> slot_of (kr_db w) ∉ D ->
     owned cls (own_blocks q w ∪ m) ({[slot_of (kr_db w)]} ∪ D) st' ->
     Q (inr q) (mkdrv st' (listed x r q))) ->
  runs (mlx5_ib_exp_create_qp o cls sizeof_qp dev ce gsi_create r) (mkdrv st x) Q.
Proof.
  intros Hlim Hho Hok Ho HN HS. unfold mlx5_ib_exp_create_qp. apply runs_bind, runs_get, runs_bind.
  assert (Hgo : forall n, runs (mlx5_create_qp o cls sizeof_qp dev ce gsi_create (with_inl_recv r n) true) (mkdrv st x) Q).
  { intros n. eapply runs_mlx5_create; [done|done|by destruct Hok; split|exact Ho|done|].
    intros q w st' [Hk Ha Hq (i & Hn & [])]. intros. apply (HS q w); [|done..]. split; try done. by exists i. }
  destruct (rk_pd _ _ Hok) as [pd ->]. destruct (_ && negb (cd_reply_be dev)); [by apply runs_fail, HN|].
  destruct (rk_cqs _ _ Hok) as [Hs Hr]. destruct (cqe_size_some _ _ Hs) as [a Ha]. destruct (cqe_size_some _ _ Hr) as [b Hb].
  cbn [d_rest]. rewrite Ha. apply runs_bind, runs_lift.
  destruct (_ || _); [|by apply runs_ret]. apply runs_bind.
  destruct (_ && _ && _); [by apply runs_ret, runs_ret|rewrite Hb; by apply runs_lift, runs_ret].
Qed.

(** What the verbs layer adds. *)
Record verbs_fields (r : create_req) (q : qobj) : Prop := {
  vf_type : k_type (k_fix (qo_q q)) = attr_qp_type (r_attr r);
  vf_pd : k_pdn (k_fix (qo_q q)) = r_pd r;
  vf_send : k_send_cq (k_fix (qo_q q)) = r_send_cq r;
  vf_recv : k_recv_cq (k_fix (qo_q q)) = r_recv_cq r;
  vf_srq : k_srq (k_dyn (qo_q q)) = r_srq r;
}.

Lemma fresh_verbs r q w t pd a b c : fresh r q w -> fresh r (with_verbs q t pd a b c false) w.
Proof. by intros [[] ? ? ? ? ? ? [] ? ?]; split. Qed.

Lemma runs_ib_create r st x m D (Q : Z + qobj -> drv qps -> Prop) :
  limits_ok -> honest x -> request_ok x r -> ce_security ce = 0 -> owned cls m D st ->
  (forall e st', owned cls m D st' -> Q (inl e) (mkdrv st' x)) ->
  (forall q w st', fresh r q w -> verbs_fields r q -> q_tree x !! k_qpn (k_fix (qo_q q)) = None ->
     own_blocks q w ##ₘ m -> slot_of (kr_db w) ∉ D ->
     owned cls (own_blocks q w ∪ m) ({[slot_of (kr_db w)]} ∪ D) st' ->
     Q (inr q) (mkdrv st' (count_uses (r_pd r) (r_send_cq r) (r_recv_cq r) (r_srq r) 1 (listed x r q)))) ->
  runs (ib_create_qp o cls sizeof_qp dev ce gsi_create xrc_open other r) (mkdrv st x) Q.
Proof.
  intros Hlim Hho Hok Hsec Ho HN HS. unfold ib_create_qp. rewrite (rk_rwq _ _ Hok). cbn [andb].
  destruct (_ && negb (cd_integrity dev)); [by apply runs_fail, HN|]. apply runs_bind.
  assert (Hx : qpt_eqb (attr_qp_type (r_attr r)) IB_QPT_XRC_TGT = false /\
               qpt_eqb (attr_qp_type (r_attr r)) IB_QPT_XRC_INI = false)
    by (by destruct (rk_type _ _ Hok) as [[-> | [-> | ->]] | ->]).
  destruct Hx as [Htgt Hini]. destruct (rk_pd _ _ Hok) as [pd Epd].
  destruct (qpt_eqb _ IB_EXP_QPT_DC_INI);
    [apply (runs_exp_create r st x m D)|apply (runs_mlx5_create r false st x m D)]; try done;
    intros q w st' Hf Ht Hd Hn Ho'; rewrite Hsec, Htgt, Hini; cbn [Z.eqb negb]; rewrite Epd in *;
    apply runs_bind, runs_lift, runs_bind, runs_on_rest, runs_mod, runs_ret;
    (eapply (HS (with_verbs (with_verbs q _ _ _ _ _ _) _ _ _ _ _ _) w st'); [by apply fresh_verbs, fresh_verbs|by split|done..]).
Qed.

(** ** Destroying *)

Definition with_m (x : qps) (y : mst) : qps :=
  mkqps (m_cqs y) (m_srqs y) (m_tx y) (q_list x) (q_send_list x) (q_recv_list x) (q_tree x) (q_num x) (q_dev x)
    (q_pd_use x) (q_cq_use x).
Definition mst_of (q : qobj) (x : qps) : mst := mkmst (qo_q q) (q_cqs x) (q_srqs x) (q_tx x) (qo_cmds q).

Lemma runs_on_q q c st x y (Q : Z + unit -> drv qps -> Prop) :
  c (mst_of q x) = Some (inr tt, y) -> Q (inr tt) (mkdrv st (with_m x y)) -> runs (on_q q c) (mkdrv st x) Q.
Proof. intros E H. unfold runs, on_q. cbn [d_rest]. fold (mst_of q x). rewrite E. by eexists _, _. Qed.

(** The command for the device changes nothing here, whatever becomes of it. *)
Lemma runs_reset_cmd q op st x (Q : Z + unit -> drv qps -> Prop) :
  Q (inr tt) (mkdrv st x) ->
  runs (ignore_error (on_q q (mlx5_core_qp_modify (ce_q ce) op 0 zero_context))) (mkdrv st x) Q.
Proof.
  intros H. assert (Hx : with_m x (mst_of q x) = x) by (by destruct x).
  assert (Hr : exists r y, mlx5_core_qp_modify (ce_q ce) op 0 zero_context (mst_of q x) = Some (r, y) /\
               with_m x y = x).
  { unfold mlx5_core_qp_modify. destruct (modify_qp_mbox _ _ _) as [c|]; [|by eexists _, _].
    destruct (e_mbox (ce_q ce) c); cbn [negb]; [|by eexists _, _].
    unfold es_bind, es_mod. destruct (_ =? 0); by eexists _, _. }
  destruct Hr as (r & y & E & Hy). unfold runs, ignore_error, on_q. cbn [d_rest]. fold (mst_of q x). rewrite E. simpl.
  eexists _, _. split; [done|]. fold (with_m x y). by rewrite Hy.
Qed.

(** The completion queues and the shared receive queue of a queue pair. *)
Record attached (x : qps) (q : qobj) (i j : Z) (cs cr : mlx5_ib_cq) (ks ns kr nr : Z)
    (srq : option (Z * srq_info)) (srq' : srq_ref) : Prop := {
  at_type : has_both_cqs (k_type (k_fix (qo_q q)));
  at_send : k_send_cq (k_fix (qo_q q)) = Some i;
  at_recv : k_recv_cq (k_fix (qo_q q)) = Some j;
  at_scq : q_cqs x i = Some cs;
  at_sholds : cq_holds cs ks ns;
  at_rcq : q_cqs x j = Some cr;
  at_rholds : cq_holds cr kr nr;
  at_same : i = j -> ks = kr /\ ns = nr;
  at_srq : k_srq (k_dyn (qo_q q)) = fst <$> srq;
  at_srqs : forall n y, srq = Some (n, y) -> q_srqs x n = Some y;
  at_release : release_wqes ((fun '(_, y) => si_q y) <$> srq) (gone cr kr (k_qpn (k_fix (qo_q q))) (Z.to_nat nr)) = Some srq';
}.

Lemma runs_clean_cqs q x i j cs cr ks ns kr nr srq srq' st (Q : Z + unit -> drv qps -> Prop) :
  attached x q i j cs cr ks ns kr nr srq srq' ->
  let rsn := k_qpn (k_fix (qo_q q)) in
  (forall y, cqs_cleaned (q_cqs x) (m_cqs y) rsn i j cs cr ks ns kr nr ->
     m_srqs y = match srq, srq' with
                | Some (n, a), Some b => upd (q_srqs x) n (Some (mksrqi b (si_usecnt a) (si_nvmf a)))
                | _, _ => q_srqs x
                end ->
     Q (inr tt) (mkdrv st (with_m x y))) ->
  runs (on_q q (clean_cq (Some j) rsn (k_srq (k_dyn (qo_q q)))) ;;
        when negb (bool_decide (Some i = Some j)) then! on_q q (clean_cq (Some i) rsn None)) (mkdrv st x) Q.
Proof.
  intros [Ht Hs Hr Hsc Hhs Hrc Hhr Hsame Hsrq Hsrqs Hrel] rsn HQ. rewrite Hsrq. apply runs_bind.
  destruct (clean_cq_ok (mst_of q x) j cr kr nr rsn srq srq') as (cr' & s1 & E1 & Hcl1 & Hq1 & Hc1 & Hr1); auto.
  apply (runs_on_q _ _ _ _ _ _ E1). destruct (decide (i = j)) as [->|Hij].
  - rewrite bool_decide_eq_true_2 by done. apply runs_ret, HQ; [|done].
    rewrite Hsc in Hrc. injection Hrc as <-. destruct Hsame as [-> ->]; [done|]. rewrite Hc1.
    split; [exists cr'; by rewrite upd_eq|exists cr'; by rewrite upd_eq|]. intros c _ Hc. by rewrite upd_ne.
  - rewrite bool_decide_eq_false_2 by congruence. cbn [negb].
    destruct (clean_cq_ok (mst_of q (with_m x s1)) i cs ks ns rsn None None) as (cs' & s2 & E2 & Hcl2 & Hq2 & Hc2 & Hr2).
    { simpl. rewrite Hc1, upd_ne by done. done. } { done. } { done. } { apply release_none. }
    apply (runs_on_q _ _ _ _ _ _ E2), (HQ s2).
    + rewrite Hc2. simpl. rewrite Hc1. split.
      * exists cs'. by rewrite upd_eq.
      * exists cr'. by rewrite upd_ne, upd_eq by done.
      * intros c Hci Hcj. by rewrite !upd_ne by done.
    + rewrite Hr2. simpl. by rewrite Hr1.
Qed.

(** The tables without the queue pair. *)
Record destroyed (x : qps) (q : qobj) (i j : Z) (srq : option (Z * srq_info)) (srq' : srq_ref) (x' : qps) : Prop := {
  de_tree : q_tree x' = delete (k_qpn (k_fix (qo_q q))) (q_tree x);
  de_dev : q_dev x' = q_dev x ∖ {[k_qpn (k_fix (qo_q q))]};
  de_num : q_num x' = q_num x - 1;
  de_list : q_list x' = filter (fun a => a <> qo_addr q) (q_list x);
  de_send : q_send_list x' = upd (q_send_list x) i (filter (fun a => a <> qo_addr q) (q_send_list x i));
  de_recv : q_recv_list x' = upd (q_recv_list x) j (filter (fun a => a <> qo_addr q) (q_recv_list x j));
  de_pd : q_pd_use x' = use_num (k_pdn (k_fix (qo_q q))) (-1) (q_pd_use x);
  de_cq : q_cq_use x' = use_num (Some i) (-1) (use_num (Some j) (-1) (q_cq_use x));
  de_srq : forall n a b, srq = Some (n, a) -> srq' = Some b ->
    q_srqs x' n = Some (mksrqi b (si_usecnt a - 1) (si_nvmf a));
}.

Lemma runs_destroy_common q w x i j cs cr ks ns kr nr srq srq' st m D (Q : Z + unit -> drv qps -> Prop) :
  keeps q w -> ordinary q -> attached x q i j cs cr ks ns kr nr srq srq' -> (forall n, ce_destroy ce n = 0) ->
  let own := res_blocks w (sizes_of (k_sq (qo_q q)) (k_rq (qo_q q))) in
  own ##ₘ m -> slot_of (kr_db w) ∉ D -> owned cls (own ∪ m) ({[slot_of (kr_db w)]} ∪ D) st ->
  (forall st' x', owned cls m D st' ->
     destroyed x q i j srq srq' (count_uses (k_pdn (k_fix (qo_q q))) (Some i) (Some j) (fst <$> srq) (-1) x') ->
     cqs_cleaned (q_cqs x) (q_cqs x') (k_qpn (k_fix (qo_q q))) i j cs cr ks ns kr nr ->
     Q (inr tt) (mkdrv st' x')) ->
  runs (destroy_qp_common ce other q) (mkdrv st x) Q.
Proof.
  intros [Hres Hker (size & Hok)] [Hrwq Hund Hsub Huse] Hat Hdes own Hd Hslot Ho HQ.
  unfold destroy_qp_common. pose proof (at_type _ _ _ _ _ _ _ _ _ _ _ _ Hat) as Hty.
  assert (Hraw : qpt_eqb (k_type (k_fix (qo_q q))) IB_QPT_RAW_PACKET = false) by (by destruct Hty as [-> | [-> | ->]]).
  rewrite Hrwq, Hraw, Hund. cbn [orb]. apply runs_bind.
  match goal with |- runs (if ?b then _ else _) _ ?P => enough (HP : P (inr tt) (mkdrv st x))
    by (destruct b; [by apply runs_reset_cmd|by apply runs_ret]) end.
  cbn beta iota. rewrite get_cqs_both, (at_send _ _ _ _ _ _ _ _ _ _ _ _ Hat), (at_recv _ _ _ _ _ _ _ _ _ _ _ _ Hat) by done.
  apply runs_bind, runs_on_rest, runs_mod. rewrite Hker. set (x1 := drop_from_lists _ _ _ x).
  apply runs_bind, (runs_clean_cqs q x1 i j cs cr ks ns kr nr srq srq'); [by destruct Hat; split|].
  intros y Hcc Hsrq. apply runs_bind. unfold runs at 1, ignore_error, on_rest, mlx5_core_destroy_qp, destroy_cmd.
  rewrite Hdes. cbn [Z.eqb]. eexists _, _. split; [reflexivity|]. cbn beta iota. rewrite Hres.
  eapply runs_destroy_kernel; [done|done|done|done|]. intros st' Ho'. apply HQ; [done| |done].
  split; try done. intros n a b -> ->. simpl. unfold use_srq, with_m, x1. simpl. rewrite Hsrq, upd_eq. cbn. by rewrite upd_eq.
Qed.

Lemma runs_ib_destroy q w x i j cs cr ks ns kr nr srq srq' st m D (Q : Z + unit -> drv qps -> Prop) :
  keeps q w -> ordinary q -> attached x q i j cs cr ks ns kr nr srq srq' -> (forall n, ce_destroy ce n = 0) ->
  apart q w -> own_blocks q w ##ₘ m -> slot_of (kr_db w) ∉ D ->
  owned cls (own_blocks q w ∪ m) ({[slot_of (kr_db w)]} ∪ D) st ->
  (forall st' x', owned cls m D st' -> destroyed x q i j srq srq' x' ->
     cqs_cleaned (q_cqs x) (q_cqs x') (k_qpn (k_fix (qo_q q))) i j cs cr ks ns kr nr ->
     Q (inr tt) (mkdrv st' x')) ->
  runs (ib_destroy_qp ce other q) (mkdrv st x) Q.
Proof.
  intros Hk Hod Hat Hdes Hap [Hd1%map_disjoint_singleton_l Hd2]%map_disjoint_union_l Hslot Ho HQ.
  unfold ib_destroy_qp. rewrite (od_unused _ Hod). cbn [Z.eqb negb]. apply runs_bind. unfold mlx5_ib_destroy_qp.
  assert (Hty : qpt_eqb (k_type (k_fix (qo_q q))) IB_QPT_GSI = false)
    by (by destruct (at_type _ _ _ _ _ _ _ _ _ _ _ _ Hat) as [-> | [-> | ->]]).
  rewrite Hty, (od_sub _ Hod). unfold own_blocks in Ho.
  rewrite <- map_union_assoc, union_swap in Ho by (by apply map_disjoint_singleton_l).
  apply runs_bind. eapply runs_destroy_common; [done|done|done|done| |done|exact Ho|].
  { apply map_disjoint_union_r. split; [by apply map_disjoint_singleton_r|done]. }
  intros st' x' Ho' Hx Hcc. apply (runs_kfree cls x' (qo_addr q) sizeof_qp st' m D _ Ho' Hd1). intros st'' Ho''.
  apply runs_on_rest, runs_mod, HQ; [done| |done].
  by rewrite (at_send _ _ _ _ _ _ _ _ _ _ _ _ Hat), (at_recv _ _ _ _ _ _ _ _ _ _ _ _ Hat), (at_srq _ _ _ _ _ _ _ _ _ _ _ _ Hat).
Qed.

(** ** The theorems *)

(** C9. Asked for a queue pair of type RC, UC, UD or DC initiator, ib_create_qp
    always returns.  With an error nothing has changed: memory, doorbell records,
    tables, lists and reference counts are as before.  With a queue pair, exactly
    its own blocks and doorbell record are taken in addition; its number was unused
    and now leads to it; the device was told its type, its protection domain, the
    pages and sizes of its queues, its completion queues and doorbell record; it is
    in state RESET; and its queues satisfy the data-path invariants with nothing
    outstanding.  Assumed: ib_create_qp_security returns 0 (else the queue pair
    stays); the request has a protection domain, no RSS table,
    existing completion queues, and sizes in range ([request_ok]: send queue at most
    2^30 bytes, at most 2^16 receive requests of 1 to 512 entries); log_max_qp_sz <=
    15, receive descriptors of at most 4096 bytes, cache lines of 8 to 4096 bytes;
    the device hands out unused numbers and lets go of a queue pair when told. *)
Theorem create_qp_all_or_nothing r st x m D :
  limits_ok -> honest x -> request_ok x r -> ce_security ce = 0 -> owned cls m D st ->
  exists res st' x', ib_create_qp o cls sizeof_qp dev ce gsi_create xrc_open other r (mkdrv st x)
                     = Some (res, mkdrv st' x') /\
    match res with
    | inl _ => owned cls m D st' /\ x' = x
    | inr q => exists w, fresh r q w /\ verbs_fields r q /\
        own_blocks q w ##ₘ m /\ (slot_of (kr_db w) ∉ D) /\
        owned cls (own_blocks q w ∪ m) ({[slot_of (kr_db w)]} ∪ D) st' /\
        q_tree x !! k_qpn (k_fix (qo_q q)) = None /\
        x' = count_uses (r_pd r) (r_send_cq r) (r_recv_cq r) (r_srq r) 1 (listed x r q)
    end.
Proof.
  intros Hlim Hho Hok Hsec Ho.
  assert (H : runs (ib_create_qp o cls sizeof_qp dev ce gsi_create xrc_open other r) (mkdrv st x) (fun res s' =>
    match res with
    | inl _ => owned cls m D (d_mem s') /\ d_rest s' = x
    | inr q => exists w, fresh r q w /\ verbs_fields r q /\
        own_blocks q w ##ₘ m /\ (slot_of (kr_db w) ∉ D) /\
        owned cls (own_blocks q w ∪ m) ({[slot_of (kr_db w)]} ∪ D) (d_mem s') /\
        q_tree x !! k_qpn (k_fix (qo_q q)) = None /\
        d_rest s' = count_uses (r_pd r) (r_send_cq r) (r_recv_cq r) (r_srq r) 1 (listed x r q)
    end)).
  { apply (runs_ib_create r st x m D); auto. intros q w st' ? ? ? ? ? ?. exists w. by repeat (split; [done|]). }
  destruct H as (res & [st' x'] & E & H). by exists res, st', x'.
Qed.

(** C10. ib_destroy_qp of a queue pair nobody uses returns everything: its
    blocks and its doorbell record are free again and nothing else is, its number
    is out of the table and unknown to the device, it is on no list, the counts
    of what it referred to are one less, and its completion queues hold no entry
    of it any more, while the entries of others are kept in order.  For the types
    RC, UC and UD (a DC initiator leaves its entries behind), a queue pair of the
    kernel without RSS table in no multicast group; its completion queues, which
    may be one and the same, are well formed, its shared receive queue, if any,
    takes back the requests the dropped entries name, and the device obeys the
    command to destroy it. *)
Theorem destroy_qp_gives_back q w x i j cs cr ks ns kr nr srq srq' st m D :
  keeps q w -> ordinary q -> attached x q i j cs cr ks ns kr nr srq srq' -> (forall n, ce_destroy ce n = 0) ->
  apart q w -> own_blocks q w ##ₘ m -> slot_of (kr_db w) ∉ D ->
  owned cls (own_blocks q w ∪ m) ({[slot_of (kr_db w)]} ∪ D) st ->
  exists st' x', ib_destroy_qp ce other q (mkdrv st x) = Some (inr tt, mkdrv st' x') /\
    owned cls m D st' /\ destroyed x q i j srq srq' x' /\
    cqs_cleaned (q_cqs x) (q_cqs x') (k_qpn (k_fix (qo_q q))) i j cs cr ks ns kr nr.
Proof.
  intros Hk Hod Hat Hdes Hap Hd Hslot Ho.
  assert (H : runs (ib_destroy_qp ce other q) (mkdrv st x) (fun r s' => r = inr tt /\ owned cls m D (d_mem s') /\
    destroyed x q i j srq srq' (d_rest s') /\
    cqs_cleaned (q_cqs x) (q_cqs (d_rest s')) (k_qpn (k_fix (qo_q q))) i j cs cr ks ns kr nr)).
  { by eapply runs_ib_destroy. }
  destruct H as (r & [st' x'] & E & -> & H). by exists st', x'.
Qed.

(** Two states with the same tables, lists and counts. *)
Record same_tables (x x' : qps) : Prop := {
  sm_tree : q_tree x' = q_tree x;
  sm_dev : q_dev x' = q_dev x;
  sm_num : q_num x' = q_num x;
  sm_list : q_list x' = q_list x;
  sm_send : forall c, q_send_list x' c = q_send_list x c;
  sm_recv : forall c, q_recv_list x' c = q_recv_list x c;
  sm_pd : forall p, q_pd_use x' p = q_pd_use x p;
  sm_cq : forall c, q_cq_use x' c = q_cq_use x c;
}.

(** The lists hold addresses of live structures. *)
Definition live_lists (x : qps) m : Prop :=
  forall a, a ∈ q_list x \/ (exists c, a ∈ q_send_list x c) \/ (exists c, a ∈ q_recv_list x c) -> is_Some (m !! a).

Lemma filter_snoc (l : list nat) a : a ∉ l -> filter (fun b => b <> a) (l ++ [a]) = l.
Proof.
  induction l as [|b l IH]; cbn [app]; intros [Hb Hl]%not_elem_of_cons || intros _.
  - by rewrite filter_cons_False by auto.
  - by rewrite filter_cons_True, IH by auto.
Qed.
Lemma filter_upd (f : Z -> list nat) i a c :
  (forall c, a ∉ f c) -> upd (upd f i (f i ++ [a])) i (filter (fun b => b <> a) (upd f i (f i ++ [a]) i)) c = f c.
Proof.
  intros H. rewrite upd_eq, filter_snoc by done. unfold upd. destruct (Z.eqb_spec c i) as [->|]; [done|].
  by destruct (Z.eqb_spec c i).
Qed.
Lemma use_num_back i (f : Z -> Z) c : use_num i (-1) (use_num i 1 f) c = f c.
Proof. destruct i as [i|]; [|done]. simpl. unfold upd. rewrite Z.eqb_refl. destruct (Z.eqb_spec c i) as [->|]; lia. Qed.
Lemma use_num_back2 i j (f : Z -> Z) c :
  use_num (Some i) (-1) (use_num (Some j) (-1) (use_num (Some i) 1 (use_num (Some j) 1 f))) c = f c.
Proof.
  simpl. unfold upd. rewrite !Z.eqb_refl.
  destruct (Z.eqb_spec i j), (Z.eqb_spec j i), (Z.eqb_spec c i), (Z.eqb_spec c j); subst; try done; lia.
Qed.

Lemma round_trip_tables x r q i j x' m :
  honest x -> has_both_cqs (attr_qp_type (r_attr r)) -> r_send_cq r = Some i -> r_recv_cq r = Some j -> r_srq r = None ->
  verbs_fields r q -> k_qpn (k_fix (qo_q q)) ∉ q_dev x -> q_tree x !! k_qpn (k_fix (qo_q q)) = None ->
  live_lists x m -> m !! qo_addr q = None ->
  destroyed (count_uses (r_pd r) (Some i) (Some j) None 1 (listed x r q)) q i j None None x' -> same_tables x x'.
Proof.
  intros Hho Hty Hs Hr Hq Hv Hdev Htree Hl Hm [H1 H2 H3 H4 H5 H6 H7 H8 _].
  assert (Hno : (qo_addr q ∉ q_list x) /\ (forall c, qo_addr q ∉ q_send_list x c) /\ forall c, qo_addr q ∉ q_recv_list x c).
  { split_and!; [intros Hin|intros c Hin|intros c Hin]; (destruct (Hl (qo_addr q)) as [? E]; [naive_solver|congruence]). }
  destruct Hno as (Hno1 & Hno2 & Hno3). unfold listed in *. rewrite get_cqs_both, Hs, Hr in * by done. simpl in *.
  rewrite (vf_pd _ _ Hv) in H7. split.
  - by rewrite H1, delete_insert_id.
  - rewrite H2. set_solver.
  - rewrite H3. lia.
  - by rewrite H4, filter_snoc.
  - intros c. by rewrite H5, filter_upd.
  - intros c. by rewrite H6, filter_upd.
  - intros p. rewrite H7. apply use_num_back.
  - intros c. rewrite H8. apply use_num_back2.
Qed.

(** C11. Creating a queue pair and destroying it again leads back to where one
    was: no memory and no doorbell record is lost or freed twice, and the table of
    queue pairs, the device, the lists and the reference counts are as they were;
    only stale completions of the number are gone.  This holds also when the
    creation fails at any point.  For the types RC, UC and UD without a shared
    receive queue, with well formed completion queues, different or the same, and
    under the assumptions of the creation: ib_create_qp_security returns 0, the
    sizes are in range, cache lines have 8 to 4096 bytes, the device hands out
    unused numbers and obeys the command to destroy; the lists hold addresses of
    live structures only. *)
Theorem create_destroy_round_trip r st x m D i j cs cr ks ns kr nr :
  limits_ok -> honest x -> request_ok x r -> ce_security ce = 0 -> owned cls m D st -> live_lists x m ->
  has_both_cqs (attr_qp_type (r_attr r)) -> r_send_cq r = Some i -> r_recv_cq r = Some j -> r_srq r = None ->
  q_cqs x i = Some cs -> cq_holds cs ks ns -> q_cqs x j = Some cr -> cq_holds cr kr nr ->
  (i = j -> ks = kr /\ ns = nr) ->
  exists res st' x',
    (do! q := ib_create_qp o cls sizeof_qp dev ce gsi_create xrc_open other r in ib_destroy_qp ce other q) (mkdrv st x)
    = Some (res, mkdrv st' x') /\ owned cls m D st' /\ same_tables x x' /\
    match res with
    | inl _ => x' = x
    | inr _ => exists n, cqs_cleaned (q_cqs x) (q_cqs x') n i j cs cr ks ns kr nr
    end.
Proof.
  intros Hlim Hho Hok Hsec Ho Hl Hty Hs Hr Hq Hcs Hhs Hcr Hhr Hsame.
  set (P := fun (res : Z + unit) (s' : drv qps) => owned cls m D (d_mem s') /\ same_tables x (d_rest s') /\
    match res with
    | inl _ => d_rest s' = x
    | inr _ => exists n, cqs_cleaned (q_cqs x) (q_cqs (d_rest s')) n i j cs cr ks ns kr nr
    end).
  assert (H : runs (do! q := ib_create_qp o cls sizeof_qp dev ce gsi_create xrc_open other r in ib_destroy_qp ce other q)
                (mkdrv st x) P).
  { apply runs_bind, (runs_ib_create r st x m D); auto; [by intros e st' Ho'; split|].
    intros q w st' Hf Hv Htree Hd Hslot Ho'. rewrite Hs, Hr, Hq.
    destruct Hf as [Hk Ha _ (mb & Hmb & _) _ _ _ Hod _ _].
    eapply (runs_ib_destroy q w _ i j cs cr ks ns kr nr None None); try done.
    - split; try done; try (by rewrite (vf_type _ _ Hv)); try (rewrite ?(vf_send _ _ Hv), ?(vf_recv _ _ Hv), ?(vf_srq _ _ Hv); done).
      apply release_none.
    - apply Hho.
    - intros st2 x2 Ho2 Hdes Hcc. split; [done|]. split; [|by eexists].
      eapply round_trip_tables; try done; [by eapply ho_fresh|].
      apply map_disjoint_union_l in Hd as [Hd _]. by apply map_disjoint_singleton_l in Hd. }
  destruct H as (res & [st' x'] & E & H). by exists res, st', x'.
Qed.
End Life.

(** ** An example *)

Definition ex_cdev : create_dev :=
  mkcdev (mkcaps 15 1024 512) true true true true true true true true true true true true true true false
    1 2 3 1 2 3 4 5 6.
Definition ex_ce (sec : Z) : cenv := mkcenv (fun _ _ => 0) (fun _ => inr 7) (fun _ => 0) true willing sec.
Definition ex_req (t : ib_qp_type) : create_req :=
  mkreq (mkattr t 0 false (mkcap 16 16 2 1 0)) (Some 1) (Some 0) (Some 1) None false None true 0 false 0 false.
Definition ex_tables : qps :=
  mkqps (fun i => if i =? 0 then Some ex_clean else if i =? 1 then Some ex_cq else None) (fun _ => None) 0 []
    (fun _ => []) (fun _ => []) ∅ 0 ∅ (fun _ => 0) (fun _ => 0).
Definition no_gsi : create_req -> est qobj := fun _ => es_fail (- ENOSYS).
Definition no_xrc : create_req -> qobj -> est qobj := fun _ _ => es_fail (- ENOSYS).
Definition no_special : special -> qobj -> est unit := fun _ _ => es_fail (- ENOSYS).
Notation ex_create t :=
  (ib_create_qp plenty 64 1024 ex_cdev (ex_ce 0) no_gsi no_xrc no_special (ex_req t) (mkdrv idle_mem ex_tables)).
Definition ex_made : qobj * drv qps :=
  match ex_create IB_QPT_RC with
  | Some (inr q, s) => (q, s)
  | _ => (mkqobj 0 (m_qp (qp_in rc_fix IB_QPS_RESET)) None (mkcap 0 0 0 0 0) 0 [] 0, mkdrv idle_mem ex_tables)
  end.

Lemma ex_limits : limits_ok ex_cdev.
Proof. done. Qed.
Lemma ex_honest sec : honest (ex_ce sec) ex_tables.
Proof. split; [|done]. intros i n _. apply not_elem_of_empty. Qed.
Lemma ex_request t : verbs_qp t -> request_ok ex_tables (ex_req t).
Proof.
  intros Ht. split; try done; [by destruct Ht as [[-> | [-> | ->]] | ->]|].
  split; intros c [= <-]; by eexists.
Qed.
Lemma ex_made_ok : ex_create IB_QPT_RC = Some (inr ex_made.1, ex_made.2).
Proof.
  assert (H : match ex_create IB_QPT_RC with Some (inr _, _) => true | _ => false end = true) by (by vm_compute).
  revert H. unfold ex_made. by destruct (ex_create IB_QPT_RC) as [[[e|q] s]|].
Qed.

Lemma ex_clean_holds : cq_holds ex_clean 2 2.
Proof.
  apply (conj ex_clean_wf). split; [done|]. split; [done|]. split; [|done].
  intros i Hi. by assert (i = 0 \/ i = 1) as [-> | ->] by lia.
Qed.
Lemma ex_cq_holds : cq_holds ex_cq 2 2.
Proof.
  apply (conj ex_cq_wf). split; [done|]. split; [done|]. split; [|done].
  intros i Hi. by assert (i = 0 \/ i = 1) as [-> | ->] by lia.
Qed.

Lemma create_qp_all_or_nothing_witness :
  exists q w s', ib_create_qp plenty 64 1024 ex_cdev (ex_ce 0) no_gsi no_xrc no_special (ex_req IB_QPT_RC) (mkdrv idle_mem ex_tables)
                 = Some (inr q, s') /\
    fresh ex_cdev (ex_ce 0) (ex_req IB_QPT_RC) q w /\
    owned 64 (own_blocks 1024 q w ∪ ∅) ({[slot_of (kr_db w)]} ∪ ∅) (d_mem s').
Proof.
  destruct (create_qp_all_or_nothing plenty 64 1024 ex_cdev (ex_ce 0) line_64 no_gsi no_xrc no_special
    (ex_req IB_QPT_RC) idle_mem ex_tables ∅ ∅) as (res & st' & x' & E & H).
  - exact ex_limits.
  - apply ex_honest.
  - apply ex_request. by left; left.
  - done.
  - exact idle_owned.
  - pose proof ex_made_ok as E'. rewrite E in E'. destruct res as [e|q]; [done|].
    destruct H as (w & Hf & _ & _ & _ & Ho & _). exists q, w, (mkdrv st' x'). split; [exact E|]. by split.
Defined.

(** The queue pair of the example. *)
Lemma ex_made_facts q s :
  ex_create IB_QPT_RC = Some (inr q, s) ->
  exists w, fresh ex_cdev (ex_ce 0) (ex_req IB_QPT_RC) q w /\ verbs_fields (ex_req IB_QPT_RC) q /\
    own_blocks 1024 q w ##ₘ ∅ /\ owned 64 (own_blocks 1024 q w ∪ ∅) ({[slot_of (kr_db w)]} ∪ ∅) (d_mem s) /\
    q_cqs (d_rest s) = q_cqs ex_tables.
Proof.
  intros E'.
  assert (H : runs (ib_create_qp plenty 64 1024 ex_cdev (ex_ce 0) no_gsi no_xrc no_special (ex_req IB_QPT_RC))
    (mkdrv idle_mem ex_tables)
    (fun res s' => forall q, res = inr q -> exists w, fresh ex_cdev (ex_ce 0) (ex_req IB_QPT_RC) q w /\
       verbs_fields (ex_req IB_QPT_RC) q /\ own_blocks 1024 q w ##ₘ ∅ /\
       owned 64 (own_blocks 1024 q w ∪ ∅) ({[slot_of (kr_db w)]} ∪ ∅) (d_mem s') /\
       q_cqs (d_rest s') = q_cqs ex_tables)).
  { eapply (runs_ib_create plenty 64 1024 ex_cdev (ex_ce 0) line_64 no_gsi no_xrc no_special (ex_req IB_QPT_RC)
      idle_mem ex_tables ∅ ∅);
      [exact ex_limits|apply ex_honest|apply ex_request; by left; left|done|exact idle_owned|done|].
    intros q0 w st' Hf Hv _ Hd _ Ho q1 [= <-]. exists w. exact (conj Hf (conj Hv (conj Hd (conj Ho eq_refl)))). }
  destruct H as (res & s' & E & H). rewrite E in E'. injection E' as -> ->. exact (H q eq_refl).
Qed.

Lemma destroy_qp_gives_back_witness :
  exists st' x', ib_destroy_qp (ex_ce 0) no_special ex_made.1 ex_made.2
                 = Some (inr tt, mkdrv st' x') /\ owned 64 ∅ ∅ st'.
Proof.
  destruct (ex_made_facts ex_made.1 ex_made.2 ex_made_ok) as (w & [Hk Ha _ _ _ _ _ Hod _ _] & Hv & Hd & Ho & Hc).
  set (q := ex_made.1) in *. destruct ex_made.2 as [st x]. cbn [d_mem d_rest] in *.
  clearbody q. destruct (destroy_qp_gives_back 64 1024 (ex_ce 0) no_special q w x 0 1 ex_clean ex_cq 2 2 2 2 None None st ∅ ∅)
    as (st' & x' & E & Ho' & _).
  - exact Hk.
  - exact Hod.
  - split; rewrite ?(vf_type _ _ Hv), ?(vf_send _ _ Hv), ?(vf_recv _ _ Hv), ?(vf_srq _ _ Hv), ?Hc; try done.
    + by left.
    + exact ex_clean_holds.
    + exact ex_cq_holds.
    + apply release_none.
  - done.
  - exact Ha.
  - exact Hd.
  - apply not_elem_of_empty.
  - exact Ho.
  - exists st', x'. by split.
Defined.

Lemma create_destroy_round_trip_witness :
  exists res st' x',
    (do! q := ib_create_qp plenty 64 1024 ex_cdev (ex_ce 0) no_gsi no_xrc no_special (ex_req IB_QPT_RC) in
     ib_destroy_qp (ex_ce 0) no_special q) (mkdrv idle_mem ex_tables) = Some (res, mkdrv st' x') /\
    owned 64 ∅ ∅ st' /\ same_tables ex_tables x'.
Proof.
  destruct (create_destroy_round_trip plenty 64 1024 ex_cdev (ex_ce 0) line_64 no_gsi no_xrc no_special
    (ex_req IB_QPT_RC) idle_mem ex_tables ∅ ∅ 0 1 ex_clean ex_cq 2 2 2 2) as (res & st' & x' & E & Ho & Hs & _).
  - exact ex_limits.
  - apply ex_honest.
  - apply ex_request. by left; left.
  - done.
  - exact idle_owned.
  - intros a [H|[[c H]|[c H]]]; by apply elem_of_nil in H.
  - by left.
  - done.
  - done.
  - done.
  - done.
  - exact ex_clean_holds.
  - done.
  - exact ex_cq_holds.
  - done.
  - exists res, st', x'. split; [exact E|]. by split.
Defined.
