(* ===== verification/CqCreate.v ===== *)
(** * CqCreate: making and destroying completion queues
    (hw/mlx5/cq.c, mlx5 core/cq.c and eq.c, core/verbs.c)

    ib_create_cq and ib_destroy_cq for callers in the kernel: the doorbell
    record, the ring and its initialisation, the mailbox, and the tables of the
    event queues through which completions are announced. *)

From stdpp Require Import strings.
From S2P Require Import Prelude ErrState FragBuf Strides KHeap FragAlloc DbAlloc DrvState Mailbox QpTypes SqSize WqeSeg SqRing PostSend RecvQueue Srq Cqe CqRing CqResize.

Open Scope es_scope.

Definition IB_UVERBS_CQ_FLAGS_TIMESTAMP_COMPLETION : Z := 1.
Definition IB_UVERBS_CQ_FLAGS_IGNORE_OVERRUN : Z := 2.
Definition CQE_STRIDE_64 : Z := 0.
Definition CQE_STRIDE_128 : Z := 1.
Definition sizeof_create_cq_in : Z := 272.

(** The tables of the completion event queues, by number, and of the
    asynchronous one; and what the device has. *)
Record cqt := mkcqt {
  t_comp : Z -> gmap Z nat;
  t_async : gmap Z nat;
  t_dev : gset Z;
}.
Definition with_comp (t : cqt) (e : Z) (g : gmap Z nat) : cqt := mkcqt (upd (t_comp t) e g) (t_async t) (t_dev t).
Definition with_async (t : cqt) (g : gmap Z nat) : cqt := mkcqt (t_comp t) g (t_dev t).
Definition with_cqdev (t : cqt) (d : gset Z) : cqt := mkcqt (t_comp t) (t_async t) d.

Record cq_dev := mkcqdev {
  log_max_cq_sz : Z;
  line_128 : bool;                      (* cache_line_size() == 128 *)
  uar_index : Z;
  comp_eqs : list (Z * Z);              (* comp_eqs_list: number and interrupt *)
}.

(** The device and the nodes of the two trees. *)
Record cq_env := mkcqenv {
  qe_create : mailbox -> Z + Z;
  qe_destroy : Z -> Z;
  qe_comp_node : bool;
  qe_async_node : bool;
}.

(** struct ib_cq_init_attr *)
Record cq_req := mkcqreq { cr_cqe : Z; cr_comp_vector : Z; cr_flags : Z }.

Definition check_cq_create_flags (flags : Z) : Z :=
  flags .& Z.lnot (IB_UVERBS_CQ_FLAGS_IGNORE_OVERRUN .| IB_UVERBS_CQ_FLAGS_TIMESTAMP_COMPLETION).

(** Without the padded 128-byte entries a process may ask for. *)
Definition cqe_sz_to_mlx_sz (size : Z) : Z := if size =? 64 then CQE_STRIDE_64 else CQE_STRIDE_128.

Definition mlx5_vector2eqn (dev : cq_dev) (vector : Z) : Z + (Z * Z) :=
  if vector <? 0 then inl (- ENOENT)
  else match comp_eqs dev !! Z.to_nat vector with Some e => inr e | None => inl (- ENOENT) end.

Definition mlx5_eqn2comp_eq (dev : cq_dev) (eqn : Z) : Z + Z :=
  if existsb (fun e => e.1 =? eqn) (comp_eqs dev) then inr eqn else inl (- ENOENT).

(** radix_tree_insert *)
Definition mlx5_eq_add_cq (node : bool) (tree : gmap Z nat) (cqn : Z) (cq : nat) : Z + gmap Z nat :=
  match tree !! cqn with
  | Some _ => inl (- EEXIST)
  | None => if node then inr (<[cqn := cq]> tree) else inl (- ENOMEM)
  end.
Definition mlx5_eq_del_cq (tree : gmap Z nat) (cqn : Z) : gmap Z nat := delete cqn tree.

Section Create.
Context (o : oracle) (cls : Z) (sizeof_cq : Z) (dev : cq_dev) (ce : cq_env).

(** The command DESTROY_CQ. *)
Definition destroy_cq_cmd (cqn : Z) : es cqt unit :=
  if qe_destroy ce cqn =? 0 then es_mod (fun t => with_cqdev t (t_dev t ∖ {[cqn]})) else es_fail (qe_destroy ce cqn).

Definition add_comp (eqn cqn : Z) (cq : nat) : es cqt unit :=
  do! t := es_get in
  do! g := es_sum (mlx5_eq_add_cq (qe_comp_node ce) (t_comp t eqn) cqn cq) in
  es_mod (fun t => with_comp t eqn g).
Definition add_async (cqn : Z) (cq : nat) : es cqt unit :=
  do! t := es_get in
  do! g := es_sum (mlx5_eq_add_cq (qe_async_node ce) (t_async t) cqn cq) in
  es_mod (fun t => with_async t g).
Definition del_comp (eqn cqn : Z) : es cqt unit :=
  es_mod (fun t => with_comp t eqn (mlx5_eq_del_cq (t_comp t eqn) cqn)).
Definition del_async (cqn : Z) : es cqt unit :=
  es_mod (fun t => with_async t (mlx5_eq_del_cq (t_async t) cqn)).

(** A field that was not set reads as zero. *)
Definition mlx5_core_create_cq (i : mailbox) (cq : nat) : es cqt Z :=
  do! eqn := es_sum (mlx5_eqn2comp_eq dev (default 0 (field_of i "c_eqn"))) in
  match qe_create ce i with
  | inl e => es_fail e
  | inr cqn =>
      es_mod (fun t => with_cqdev t ({[cqn]} ∪ t_dev t)) ;;
      es_cleanup (add_comp eqn cqn cq ;; es_cleanup (add_async cqn cq) (del_comp eqn cqn)) (destroy_cq_cmd cqn) ;;
      es_ret cqn
  end.

(** What waits for the users of the queue is left out: nobody holds a reference
    when the caller is the last one. *)
Definition mlx5_core_destroy_cq (eqn cqn : Z) : es cqt unit :=
  del_async cqn ;; del_comp eqn cqn ;; destroy_cq_cmd cqn.

Definition d_alloc_cq_frag_buf (nent cqe_size : Z) : es (drv cqt) mlx5_ib_cq_buf :=
  do! r := on_heap (alloc_cq_frag_buf o nent cqe_size) in
  match r with (_, Some b) => es_ret b | (e, None) => es_fail e end.
Definition d_free_cq_buf (b : mlx5_ib_cq_buf) : es (drv cqt) unit := d_frag_buf_free (cb_frag_buf b).

(** The queue, its doorbell record, and the mailbox with its address. *)
Record cq_kernel := mkcqk { ck_cq : mlx5_ib_cq; ck_db : mlx5_db; ck_at : nat; ck_inlen : Z; ck_in : mailbox }.

Definition create_cq_kernel (entries cqe_size : Z) : es (drv cqt) cq_kernel :=
  do! db := d_db_alloc o cls in
  es_cleanup (
    do! buf := d_alloc_cq_frag_buf entries cqe_size in
    es_cleanup (
      let cq := {| cq_buf := buf; cq_cqe := entries - 1; cq_cqe_sz := cqe_size; cq_cons_index := 0;
                   cq_set_ci_db := be32 0; cq_resize_buf := None |} in
      do! cq := es_lift (init_cq_frag_buf cq buf) in
      let inlen := s32 (sizeof_create_cq_in + 8 * fb_npages (cb_frag_buf buf)) in
      do! at_ := d_kzalloc o inlen in
      do! pas := es_lift (mlx5_fill_page_frag_array (cb_frag_buf buf)) in
      let i := MLX5_SET "log_page_size" (fb_page_shift (cb_frag_buf buf) - 12) (mkmb ∅ pas) in
      es_ret (mkcqk cq db at_ inlen i))
    (d_free_cq_buf buf))
  (d_db_free db).

Definition destroy_cq_kernel (cq : mlx5_ib_cq) (db : mlx5_db) : es (drv cqt) unit :=
  d_free_cq_buf (cq_buf cq) ;; d_db_free db.

Record cqobj := mkcqobj {
  co_addr : nat;
  co_cq : mlx5_ib_cq;
  co_db : mlx5_db;
  co_eqn : Z;
  co_cqn : Z;
  co_flags : Z;
  co_usecnt : Z;
}.

(** The context, from the request and the queue. *)
Definition fill_cqc (r : cq_req) (k : cq_kernel) (entries cqe_size eqn : Z) : mailbox :=
  let i := MLX5_SET "cqe_sz" (cqe_sz_to_mlx_sz cqe_size) (ck_in k) in
  let i := MLX5_SET "log_cq_size" (ilog2 entries) i in
  let i := MLX5_SET "uar_page" (uar_index dev) i in
  let i := MLX5_SET "c_eqn" eqn i in
  let i := MLX5_SET "dbr_addr" (db_dma (ck_db k)) i in
  set_if (test (cr_flags r) IB_UVERBS_CQ_FLAGS_IGNORE_OVERRUN) "oi" 1 i.

Definition mlx5_ib_create_cq (r : cq_req) : es (drv cqt) cqobj :=
  let entries := cr_cqe r in
  if (entries <? 0) || (1 <<. log_max_cq_sz dev <? entries) then es_fail (- EINVAL)
  else if negb (check_cq_create_flags (cr_flags r) =? 0) then es_fail (- EOPNOTSUPP)
  else
  let entries := s32 (roundup_pow_of_two (entries + 1)) in
  if 1 <<. log_max_cq_sz dev <? entries then es_fail (- EINVAL)
  else
  do! addr := d_kzalloc o sizeof_cq in
  es_cleanup (
    let cqe_size := if line_128 dev then 128 else 64 in
    do! k := create_cq_kernel entries cqe_size in
    do! x := es_cleanup (
      do! e := es_sum (mlx5_vector2eqn dev (cr_comp_vector r)) in
      do! cqn := on_rest (mlx5_core_create_cq (fill_cqc r k entries cqe_size e.1) addr) in
      es_ret (e.1, cqn))
      (d_kfree (ck_at k) ;; destroy_cq_kernel (ck_cq k) (ck_db k)) in
    d_kfree (ck_at k) ;;
    es_ret {| co_addr := addr; co_cq := ck_cq k; co_db := ck_db k; co_eqn := x.1; co_cqn := x.2;
              co_flags := cr_flags r; co_usecnt := 0 |})
  (d_kfree addr).

Definition ignore_err (m : es cqt unit) : es (drv cqt) unit := fun s =>
  '(_, t) ← m (d_rest s); Some (inr tt, mkdrv (d_mem s) t).

Definition mlx5_ib_destroy_cq (q : cqobj) : es (drv cqt) unit :=
  ignore_err (mlx5_core_destroy_cq (co_eqn q) (co_cqn q)) ;;
  destroy_cq_kernel (co_cq q) (co_db q) ;;
  d_kfree (co_addr q).

Definition ib_destroy_cq (q : cqobj) : es (drv cqt) unit :=
  if negb (co_usecnt q =? 0) then es_fail (- EBUSY) else mlx5_ib_destroy_cq q.
End Create.
