(* ===== verification/CqLife.v ===== *)
(** * CqLife: a completion queue from its creation to its destruction

    Creating a completion queue either leaves no trace or gives an empty one in
    both event queues' tables; destroying it gives everything back. *)

From stdpp Require Import strings.
From S2P Require Import Prelude ErrState FragBuf Strides KHeap FragAlloc DbAlloc DrvState Mailbox QpTypes SqSize WqeSeg SqRing PostSend RecvQueue Srq Cqe CqRing CqResize CqCreate.

Open Scope es_scope.

Section Life.
Context (o : oracle) (cls : Z) (sizeof_cq : Z) (dev : cq_dev) (ce : cq_env) (Hcls : 8 <= cls <= PAGE_SIZE).
Implicit Types (m : gmap nat Z) (D : gset (nat * nat)).

(** ** The ring *)

Definition cqe_size_ok (sz : Z) : Prop := sz = 64 \/ sz = 128.

Definition new_buf (fb : mlx5_frag_buf) (nent sz : Z) : mlx5_ib_cq_buf :=
  {| cb_fbc := mlx5_init_fbc 0 (6 + (if sz =? 128 then 1 else 0)) (ilog2 sz);
     cb_mem := {| fm_size := fb_size fb; fm_byte := fun _ => 0 |};
     cb_frag_buf := fb; cb_cqe_size := sz; cb_nent := nent |}.

Lemma alloc_cq_buf_eq nent sz (s : drv cqt) :
  d_alloc_cq_frag_buf o nent sz s
  = (do! fb := d_frag_buf_alloc o (s32 (nent * sz)) in es_ret (new_buf fb nent sz)) s.
Proof.
  unfold d_alloc_cq_frag_buf, d_frag_buf_alloc, alloc_cq_frag_buf, es_bind, on_heap. simpl.
  destruct (mlx5_frag_buf_alloc_node o _ _) as [[[e [fb|]] h]|]; done.
Qed.

Lemma runs_alloc_cq_buf nent sz st x m D (Q : Z + mlx5_ib_cq_buf -> drv cqt -> Prop) :
  0 <= nent * sz < 2 ^ 31 -> owned cls m D st ->
  (forall st', owned cls m D st' -> Q (inl (- ENOMEM)) (mkdrv st' x)) ->
  (forall fb st', buf_ok fb (nent * sz) -> buf_blocks fb ##ₘ m -> owned cls (buf_blocks fb ∪ m) D st' ->
     Q (inr (new_buf fb nent sz)) (mkdrv st' x)) ->
  runs (d_alloc_cq_frag_buf o nent sz) (mkdrv st x) Q.
Proof.
  intros Hn Ho HN HS. unfold runs. rewrite alloc_cq_buf_eq. rewrite s32_small by lia.
  apply runs_bind, (runs_frag_buf_alloc o cls x (nent * sz) st m D); [lia|done|done|].
  intros fb st' Hb Hd Ho'. by apply runs_ret, HS.
Qed.

(** A queue nobody has written to. *)
Definition empty_ring (cq : mlx5_ib_cq) (k : Z) : Prop :=
  cq_wf cq k /\ cq_cons_index cq = 0 /\ cq_resize_buf cq = None /\ forall n, get_sw_cqe cq n = Some None.

Lemma empty_holds cq k : empty_ring cq k -> cq_holds cq k 0.
Proof.
  intros (Hwf & Hc & _ & He). pose proof (ring_n_pos k (cw_k _ _ Hwf)) as Hk.
  split; [done|]. split; [lia|]. rewrite Hc. split; [lia|]. split; [lia|].
  specialize (He (0 + 0)). rewrite (get_sw_cqe_eq _ _ Hwf) in He. by destruct (sw_owned _ _ _ _).
Qed.

Lemma init_new_cq fb k sz :
  0 <= k <= 23 -> cqe_size_ok sz -> buf_ok fb (2 ^ k * sz) ->
  let cq := {| cq_buf := new_buf fb (2 ^ k) sz; cq_cqe := 2 ^ k - 1; cq_cqe_sz := sz; cq_cons_index := 0;
               cq_set_ci_db := be32 0; cq_resize_buf := None |} in
  exists cq', init_cq_frag_buf cq (new_buf fb (2 ^ k) sz) = Some cq' /\ empty_ring cq' k /\
    cb_frag_buf (cq_buf cq') = fb /\ cq_set_ci_db cq' = be32 0.
Proof.
  intros Hk Hsz Hb cq. assert (Hpow : 0 < 2 ^ k <= 2 ^ 23) by (split; [apply pow2_pos; lia|apply Z.pow_le_mono_r; lia]).
  assert (Hwf : cq_wf cq k).
  { destruct Hsz as [-> | ->]; (split; simpl;
      [by apply init_fbc_offset_wf|lia|done|by (left + right)|done|
       split; [unfold ring_n; lia|]; split; [done|]; rewrite (bo_size _ _ Hb); unfold slot, stride; simpl;
       change (fbc_base _) with 0; unfold ring_n; lia]). }
  destruct (init_cq_empty cq k Hwf) as (m' & E & Hwf' & He); [done|done|].
  eexists. split; [exact E|]. by split; [|split].
Qed.

(** ** Creating *)

(** What create_cq_kernel made. *)
Record kernel_cq (k sz : Z) (c : cq_kernel) : Prop := {
  kc_ring : empty_ring (ck_cq c) k;
  kc_buf : buf_ok (cb_frag_buf (cq_buf (ck_cq c))) (2 ^ k * sz);
  kc_db : cq_set_ci_db (ck_cq c) = be32 0;
  kc_pas : mb_pas (ck_in c) = page_list (cb_frag_buf (cq_buf (ck_cq c)));
}.

Lemma ring_bytes_small k sz : 0 <= k <= 23 -> cqe_size_ok sz -> 0 <= 2 ^ k * sz < 2 ^ 31.
Proof.
  intros Hk Hsz. assert (0 < 2 ^ k <= 2 ^ 23) by (split; [apply pow2_pos; lia|apply Z.pow_le_mono_r; lia]).
  destruct Hsz as [-> | ->]; lia.
Qed.

Lemma runs_create_cq_kernel k sz st x m D (Q : Z + cq_kernel -> drv cqt -> Prop) :
  0 <= k <= 23 -> cqe_size_ok sz -> owned cls m D st ->
  (forall e st', owned cls m D st' -> Q (inl e) (mkdrv st' x)) ->
  (forall c st', kernel_cq k sz c ->
     let own := buf_blocks (cb_frag_buf (cq_buf (ck_cq c))) in
     own ##ₘ m -> (own ∪ m) !! ck_at c = None -> slot_of (ck_db c) ∉ D ->
     owned cls ({[ck_at c := ck_inlen c]} ∪ (own ∪ m)) ({[slot_of (ck_db c)]} ∪ D) st' ->
     Q (inr c) (mkdrv st' x)) ->
  runs (create_cq_kernel o cls (2 ^ k) sz) (mkdrv st x) Q.
Proof.
  intros Hk Hsz Ho HN HS. unfold create_cq_kernel. apply runs_bind, (runs_db_alloc o cls x st m D _ Hcls Ho).
  { by intros; apply HN. }
  intros db st1 Hslot Ho1. apply runs_cleanup, runs_bind.
  assert (Hdb : forall e st', owned cls m ({[slot_of db]} ∪ D) st' ->
    runs (d_db_free db) (mkdrv st' x) (fun _ s'' => Q (inl e) s'')).
  { intros e st' Ho'. apply (runs_db_free cls x db st' m D _ Ho' Hslot). intros; by apply HN. }
  eapply runs_alloc_cq_buf; [by apply ring_bytes_small|exact Ho1|by intros; apply Hdb|].
  intros fb st2 Hb Hd Ho2. apply runs_cleanup, runs_bind.
  destruct (init_new_cq fb k sz Hk Hsz Hb) as (cq & -> & He & Hfb & Hci). apply runs_lift, runs_bind.
  eapply runs_kzalloc; [exact Ho2| |].
  { intros st3 Ho3. eapply (runs_frag_buf_free cls x fb); [exact Hb|exact Ho3|done|]. by intros; apply Hdb. }
  intros at_ st3 Hat Ho3. cbn [cb_frag_buf new_buf]. rewrite (fill_pages _ _ Hb). apply runs_bind, runs_lift, runs_ret.
  apply HS; simpl; rewrite ?Hfb; try done. split; simpl; rewrite ?Hfb; done.
Qed.

Lemma runs_destroy_cq_kernel cq db size st x m D (Q : Z + unit -> drv cqt -> Prop) :
  let own := buf_blocks (cb_frag_buf (cq_buf cq)) in
  buf_ok (cb_frag_buf (cq_buf cq)) size -> own ##ₘ m -> slot_of db ∉ D ->
  owned cls (own ∪ m) ({[slot_of db]} ∪ D) st ->
  (forall st', owned cls m D st' -> Q (inr tt) (mkdrv st' x)) ->
  runs (destroy_cq_kernel cq db) (mkdrv st x) Q.
Proof.
  intros own Hb Hd Hslot Ho HQ. apply runs_bind.
  eapply (runs_frag_buf_free cls x _ size); [exact Hb|exact Ho|exact Hd|]. intros st' Ho'.
  by eapply (runs_db_free cls x db); [exact Ho'| |].
Qed.

(** A device that hands out unused numbers and lets go of queues. *)
Record honest_cq (x : cqt) : Prop := {
  hq_fresh : forall i n, qe_create ce i = inr n -> n ∉ t_dev x;
  hq_destroy : forall n, qe_destroy ce n = 0;
}.

Definition cq_entered (x : cqt) (eqn cqn : Z) (addr : nat) : cqt :=
  mkcqt (upd (t_comp x) eqn (<[cqn := addr]> (t_comp x eqn))) (<[cqn := addr]> (t_async x)) ({[cqn]} ∪ t_dev x).

(** Two states of the tables that cannot be told apart. *)
Record cqt_eq (x y : cqt) : Prop := {
  ce_comp : forall e, t_comp x e = t_comp y e;
  ce_async : t_async x = t_async y;
  ce_dev : t_dev x = t_dev y;
}.

#[global] Instance cqt_eq_equivalence : Equivalence cqt_eq.
Proof.
  split.
  - by intros x; split.
  - by intros x y [H1 H2 H3]; split.
  - intros x y z [H1 H2 H3] [G1 G2 G3]. split; [intros e|..]; congruence.
Qed.

(** Adding a number and taking it away again. *)
Lemma comp_back x e n (a : nat) :
  t_comp x e !! n = None -> cqt_eq (with_comp (with_comp x e (<[n := a]> (t_comp x e))) e
    (mlx5_eq_del_cq (t_comp (with_comp x e (<[n := a]> (t_comp x e))) e) n)) x.
Proof.
  intros H. split; simpl; [|done..]. intros e'. unfold mlx5_eq_del_cq. rewrite upd_eq, delete_insert_id by done.
  unfold upd. destruct (Z.eqb_spec e' e) as [->|]; [done|]. by destruct (Z.eqb_spec e' e).
Qed.

Lemma runs_core_create_cq i addr st x (Q : Z + Z -> drv cqt -> Prop) :
  honest_cq x -> (forall e y, cqt_eq y x -> Q (inl e) (mkdrv st y)) ->
  (forall n, let eqn := default 0 (field_of i "c_eqn") in
     qe_create ce i = inr n -> t_comp x eqn !! n = None -> t_async x !! n = None ->
     Q (inr n) (mkdrv st (cq_entered x eqn n addr))) ->
  runs (on_rest (mlx5_core_create_cq dev ce i addr)) (mkdrv st x) Q.
Proof.
  intros [Hf Hd] HN HS. apply runs_on_rest. unfold mlx5_core_create_cq, mlx5_eqn2comp_eq. apply runs_bind.
  destruct (existsb _ _); [apply runs_ret|by apply runs_fail, HN]. set (eqn := default 0 _) in *.
  destruct (qe_create ce i) as [e|n] eqn:E; [by apply runs_fail, HN|]. specialize (Hf _ _ E). specialize (HS n eq_refl).
  apply runs_bind, runs_mod, runs_bind, runs_cleanup, runs_bind.
  assert (Hback : forall e y, cqt_eq y (with_cqdev x ({[n]} ∪ t_dev x)) ->
    runs (destroy_cq_cmd ce n) y (fun _ z => Q (inl e) (mkdrv st z))).
  { intros e y [H1 H2 H3]. unfold destroy_cq_cmd. rewrite Hd. apply runs_mod, HN. split; simpl; [done|done|].
    rewrite H3. simpl. set_solver. }
  unfold add_comp, add_async, mlx5_eq_add_cq. apply runs_bind, runs_get, runs_bind. simpl.
  destruct (t_comp x eqn !! n) eqn:Ec; [by apply runs_fail, Hback|].
  destruct (qe_comp_node ce); [apply runs_ret|by apply runs_fail, Hback]. apply runs_mod, runs_cleanup, runs_bind, runs_get, runs_bind.
  assert (Hdel : forall e, runs (del_comp eqn n) (with_comp (with_cqdev x ({[n]} ∪ t_dev x)) eqn (<[n:=addr]> (t_comp x eqn)))
    (fun _ y => runs (destroy_cq_cmd ce n) y (fun _ z => Q (inl e) (mkdrv st z)))).
  { intros e. apply runs_mod, Hback. by apply (comp_back (with_cqdev x ({[n]} ∪ t_dev x))). }
  simpl. destruct (t_async x !! n) eqn:Ea; [by apply runs_fail, Hdel|].
  destruct (qe_async_node ce); [|by apply runs_fail, Hdel]. by apply runs_ret, runs_mod, runs_ret, HS.
Qed.

(** What the device is told of the queue. *)
Record told_cq (r : cq_req) (q : cqobj) (k : Z) (i : mailbox) : Prop := {
  tc_pas : mb_pas i = page_list (cb_frag_buf (cq_buf (co_cq q)));
  tc_size : field_of i "log_cq_size" = Some k;
  tc_stride : field_of i "cqe_sz" = Some (if line_128 dev then 1 else 0);
  tc_eqn : field_of i "c_eqn" = Some (co_eqn q);
  tc_dbr : field_of i "dbr_addr" = Some (db_dma (co_db q));
}.

(** A new completion queue of 2^k entries. *)
Record fresh_cq (r : cq_req) (q : cqobj) (k : Z) : Prop := {
  fc_size : cr_cqe r < 2 ^ k <= 2 * cr_cqe r + 1;
  fc_ring : empty_ring (co_cq q) k;
  fc_buf : exists size, buf_ok (cb_frag_buf (cq_buf (co_cq q))) size;
  fc_db : cq_set_ci_db (co_cq q) = be32 0;
  fc_eq : exists irqn, mlx5_vector2eqn dev (cr_comp_vector r) = inr (co_eqn q, irqn);
  fc_told : exists i, qe_create ce i = inr (co_cqn q) /\ told_cq r q k i;
  fc_unused : co_usecnt q = 0;
  fc_apart : buf_blocks (cb_frag_buf (cq_buf (co_cq q))) !! co_addr q = None;
}.

Definition own_cq (q : cqobj) : gmap nat Z :=
  {[co_addr q := sizeof_cq]} ∪ buf_blocks (cb_frag_buf (cq_buf (co_cq q))).

Lemma fill_cqc_eqn r c entries sz eqn : field_of (fill_cqc dev r c entries sz eqn) "c_eqn" = Some eqn.
Proof. unfold fill_cqc. by fields. Qed.

Lemma runs_create_cq r st x m D (Q : Z + cqobj -> drv cqt -> Prop) :
  0 <= log_max_cq_sz dev <= 23 -> honest_cq x -> owned cls m D st ->
  (forall e st' y, owned cls m D st' -> cqt_eq y x -> Q (inl e) (mkdrv st' y)) ->
  (forall q k st', fresh_cq r q k -> t_comp x (co_eqn q) !! co_cqn q = None -> t_async x !! co_cqn q = None ->
     own_cq q ##ₘ m -> slot_of (co_db q) ∉ D ->
     owned cls (own_cq q ∪ m) ({[slot_of (co_db q)]} ∪ D) st' ->
     Q (inr q) (mkdrv st' (cq_entered x (co_eqn q) (co_cqn q) (co_addr q)))) ->
  runs (mlx5_ib_create_cq o cls sizeof_cq dev ce r) (mkdrv st x) Q.
Proof.
  intros Hlog Hho Ho HN HS. unfold mlx5_ib_create_cq. rewrite Z.shiftl_1_l.
  destruct (Z.ltb_spec (cr_cqe r) 0); [by apply runs_fail, HN|].
  destruct (Z.ltb_spec (2 ^ log_max_cq_sz dev) (cr_cqe r)); [by apply runs_fail, HN|]. cbn [orb].
  destruct (negb _); [by apply runs_fail, HN|].
  assert (Hmax : 0 < 2 ^ log_max_cq_sz dev <= 2 ^ 23) by (split; [apply pow2_pos; lia|apply Z.pow_le_mono_r; lia]).
  destruct (roundup_pow_of_two_spec (cr_cqe r + 1) 24) as (k & Hk & -> & Hsize); [lia|lia|].
  assert (2 ^ k <= 2 ^ 24) by (apply Z.pow_le_mono_r; lia). rewrite (s32_small (2 ^ k)) by lia.
  destruct (Z.ltb_spec (2 ^ log_max_cq_sz dev) (2 ^ k)) as [|Hle]; [by apply runs_fail, HN|].
  assert (Hk23 : 0 <= k <= 23) by (split; [lia|]; apply (Z.pow_le_mono_r_iff 2); lia).
  apply runs_bind, (runs_kzalloc o cls x sizeof_cq st m D); [done|by intros; apply HN|]. intros addr st1 Hat Ho1.
  assert (Haddr : forall e st' y, owned cls ({[addr := sizeof_cq]} ∪ m) D st' -> cqt_eq y x ->
    runs (d_kfree addr) (mkdrv st' y) (fun _ s'' => Q (inl e) s'')).
  { intros e st' y Ho' Hy. apply (runs_kfree cls y addr sizeof_cq st' m D _ Ho' Hat). intros; by apply HN. }
  set (sz := if line_128 dev then 128 else 64).
  assert (Hsz : cqe_size_ok sz) by (unfold sz; destruct (line_128 dev); [by right|by left]).
  apply runs_cleanup, runs_bind. eapply runs_create_cq_kernel; [done|done|exact Ho1|by intros; apply Haddr|].
  intros c st2 Hc. cbv zeta. set (own := buf_blocks _). intros Hd Hat2 Hslot Ho2.
  pose proof Hat2 as [Hat3 Hat4]%lookup_union_None. pose proof Hd as [Hd1 Hd2]%map_disjoint_union_r.
  assert (Hfree : forall e y, cqt_eq y x ->
    runs (d_kfree (ck_at c) ;; destroy_cq_kernel (ck_cq c) (ck_db c)) (mkdrv st2 y)
      (fun _ s => runs (d_kfree addr) s (fun _ s'' => Q (inl e) s''))).
  { intros e y Hy. apply runs_bind, (runs_kfree cls y (ck_at c) (ck_inlen c) st2 _ _ _ Ho2 Hat2). intros st3 Ho3.
    eapply runs_destroy_cq_kernel; [apply Hc|exact Hd|exact Hslot|exact Ho3|]. intros; by apply Haddr. }
  apply runs_bind, runs_cleanup, runs_bind.
  destruct (mlx5_vector2eqn dev (cr_comp_vector r)) as [e|[eqn irqn]] eqn:Ev; [by apply runs_fail, Hfree|].
  apply runs_ret, runs_bind, runs_core_create_cq; [done|by intros; apply Hfree|]. rewrite fill_cqc_eqn.
  intros n. cbn [default fst]. intros Hn Hcomp Hasync. apply runs_ret, runs_bind.
  apply (runs_kfree cls _ (ck_at c) (ck_inlen c) st2 _ _ _ Ho2 Hat2). intros st3 Ho3. apply runs_ret.
  rewrite (union_swap _ {[addr := sizeof_cq]}), map_union_assoc in Ho3 by done.
  apply (HS (mkcqobj addr (ck_cq c) (ck_db c) eqn n (cr_flags r) 0) k st3); try done.
  - destruct Hc as [Hc1 Hc2 Hc3 Hc4]. split; simpl; try done; [lia|by eexists|by eexists| |by apply map_disjoint_singleton_r in Hd1].
    eexists. split; [exact Hn|]. unfold fill_cqc. split; fields; simpl; try done.
    + unfold ilog2. by rewrite Z.log2_pow2 by lia.
    + unfold sz. by destruct (line_128 dev).
  - apply map_disjoint_union_l. split; [by apply map_disjoint_singleton_l|done].
Qed.

(** ** Destroying *)

Definition cq_left (x : cqt) (eqn cqn : Z) : cqt :=
  mkcqt (upd (t_comp x) eqn (delete cqn (t_comp x eqn))) (delete cqn (t_async x)) (t_dev x ∖ {[cqn]}).

Lemma runs_destroy_cq q size st x m D (Q : Z + unit -> drv cqt -> Prop) :
  buf_ok (cb_frag_buf (cq_buf (co_cq q))) size -> buf_blocks (cb_frag_buf (cq_buf (co_cq q))) !! co_addr q = None ->
  co_usecnt q = 0 -> (forall n, qe_destroy ce n = 0) -> own_cq q ##ₘ m -> slot_of (co_db q) ∉ D ->
  owned cls (own_cq q ∪ m) ({[slot_of (co_db q)]} ∪ D) st ->
  (forall st', owned cls m D st' -> Q (inr tt) (mkdrv st' (cq_left x (co_eqn q) (co_cqn q)))) ->
  runs (ib_destroy_cq ce q) (mkdrv st x) Q.
Proof.
  intros Hb Hap Huse Hdes [Hd1 Hd2]%map_disjoint_union_l Hslot Ho HQ.
  unfold ib_destroy_cq. rewrite Huse. cbn [Z.eqb negb]. unfold mlx5_ib_destroy_cq. apply runs_bind.
  unfold runs at 1, ignore_err, mlx5_core_destroy_cq, destroy_cq_cmd. rewrite Hdes. cbn [Z.eqb].
  eexists _, _. split; [reflexivity|]. cbn beta iota. apply runs_bind. unfold own_cq in Ho.
  rewrite <- map_union_assoc, union_swap in Ho by (by apply map_disjoint_singleton_l).
  eapply runs_destroy_cq_kernel; [exact Hb| |exact Hslot|exact Ho|].
  { apply map_disjoint_union_r. split; [by apply map_disjoint_singleton_r|done]. }
  intros st' Ho'. eapply runs_kfree; [exact Ho'|by apply map_disjoint_singleton_l in Hd1|]. exact HQ.
Qed.

Lemma left_entered x e n a :
  t_comp x e !! n = None -> t_async x !! n = None -> n ∉ t_dev x -> cqt_eq (cq_left (cq_entered x e n a) e n) x.
Proof.
  intros Hc Ha Hd. split; simpl; [|by rewrite delete_insert_id|set_solver].
  intros e'. rewrite upd_eq, delete_insert_id by done. unfold upd. destruct (Z.eqb_spec e' e) as [->|]; [done|].
  by destruct (Z.eqb_spec e' e).
Qed.

(** ** The theorems *)

(** C12. Asked for a completion queue, mlx5_ib_create_cq always returns.  With an
    error nothing has changed: memory, doorbell records, the tables of the event
    queues and the device are as before.  With a queue, exactly its structure,
    ring and doorbell record are taken in addition; the ring has room for more
    than the entries asked for and holds no completion on any turn; the event
    queue of the requested vector and the asynchronous one lead to it; and the
    device was told its pages, its size and its doorbell record. *)
Theorem create_cq_all_or_nothing r st x m D :
  0 <= log_max_cq_sz dev <= 23 -> honest_cq x -> owned cls m D st ->
  exists res st' x', mlx5_ib_create_cq o cls sizeof_cq dev ce r (mkdrv st x) = Some (res, mkdrv st' x') /\
    match res with
    | inl _ => owned cls m D st' /\ cqt_eq x' x
    | inr q => exists k, fresh_cq r q k /\ own_cq q ##ₘ m /\ (slot_of (co_db q) ∉ D) /\
        owned cls (own_cq q ∪ m) ({[slot_of (co_db q)]} ∪ D) st' /\
        t_comp x (co_eqn q) !! co_cqn q = None /\ t_async x !! co_cqn q = None /\
        x' = cq_entered x (co_eqn q) (co_cqn q) (co_addr q)
    end.
Proof.
  intros Hlog Hho Ho.
  assert (H : runs (mlx5_ib_create_cq o cls sizeof_cq dev ce r) (mkdrv st x) (fun res s' =>
    match res with
    | inl _ => owned cls m D (d_mem s') /\ cqt_eq (d_rest s') x
    | inr q => exists k, fresh_cq r q k /\ own_cq q ##ₘ m /\ (slot_of (co_db q) ∉ D) /\
        owned cls (own_cq q ∪ m) ({[slot_of (co_db q)]} ∪ D) (d_mem s') /\
        t_comp x (co_eqn q) !! co_cqn q = None /\ t_async x !! co_cqn q = None /\
        d_rest s' = cq_entered x (co_eqn q) (co_cqn q) (co_addr q)
    end)).
  { apply (runs_create_cq r st x m D); auto. intros q k st' ? ? ? ? ? ?. exists k. by repeat (split; [done|]). }
  destruct H as (res & [st' x'] & E & H). by exists res, st', x'.
Qed.

(** Creating a completion queue and destroying it again leads back to where
    one was: no memory and no doorbell record is lost or freed twice, and both
    tables and the device are as they were, at whatever point the creation
    fails. *)
Theorem cq_round_trip r st x m D :
  0 <= log_max_cq_sz dev <= 23 -> honest_cq x -> owned cls m D st ->
  exists res st' x',
    (do! q := mlx5_ib_create_cq o cls sizeof_cq dev ce r in ib_destroy_cq ce q) (mkdrv st x)
    = Some (res, mkdrv st' x') /\ owned cls m D st' /\ cqt_eq x' x.
Proof.
  intros Hlog Hho Ho.
  assert (H : runs (do! q := mlx5_ib_create_cq o cls sizeof_cq dev ce r in ib_destroy_cq ce q) (mkdrv st x)
    (fun _ s' => owned cls m D (d_mem s') /\ cqt_eq (d_rest s') x)).
  { apply runs_bind, (runs_create_cq r st x m D); auto. intros q k st' Hf Hc Ha Hd Hslot Ho'.
    destruct (fc_buf _ _ _ Hf) as [size Hb]. destruct (fc_told _ _ _ Hf) as (i & Hi & _).
    eapply runs_destroy_cq; [exact Hb|by eapply fc_apart|by eapply fc_unused|by apply Hho|exact Hd|exact Hslot|exact Ho'|].
    intros st2 Ho2. split; [done|]. apply left_entered; [done|done|]. by eapply hq_fresh. }
  destruct H as (res & [st' x'] & E & H). by exists res, st', x'.
Qed.
End Life.

(** ** An example *)

Definition ex_cqdev : cq_dev := mkcqdev 22 false 3 [(9, 40); (10, 41)].
Definition ex_cqenv : cq_env := mkcqenv (fun _ => inr 17) (fun _ => 0) true true.
Definition ex_cqt : cqt := mkcqt (fun _ => ∅) ∅ ∅.
Lemma ex_cq_honest : honest_cq ex_cqenv ex_cqt.
Proof. split; [|done]. intros i n _. apply not_elem_of_empty. Qed.

Lemma create_cq_all_or_nothing_witness :
  exists q k s', mlx5_ib_create_cq plenty 64 400 ex_cqdev ex_cqenv (mkcqreq 100 1 0) (mkdrv idle_mem ex_cqt)
                 = Some (inr q, s') /\ empty_ring (co_cq q) k /\ 100 < 2 ^ k /\ co_eqn q = 10.
Proof.
  destruct (create_cq_all_or_nothing plenty 64 400 ex_cqdev ex_cqenv line_64 (mkcqreq 100 1 0) idle_mem ex_cqt ∅ ∅)
    as (res & st' & x' & E & H).
  - done.
  - exact ex_cq_honest.
  - exact idle_owned.
  - assert (Hr : match mlx5_ib_create_cq plenty 64 400 ex_cqdev ex_cqenv (mkcqreq 100 1 0) (mkdrv idle_mem ex_cqt) with
                 | Some (inr q, _) => true | _ => false end = true) by (by vm_compute).
    rewrite E in Hr. destruct res as [e|q]; [done|]. destruct H as (k & Hf & _). exists q, k, (mkdrv st' x').
    split; [exact E|]. split; [apply (fc_ring _ _ _ _ _ Hf)|]. split; [apply (fc_size _ _ _ _ _ Hf)|].
    destruct (fc_eq _ _ _ _ _ Hf) as [irqn Hi]. vm_compute in Hi. by injection Hi as -> _.
Defined.

Lemma cq_round_trip_witness :
  exists res st' x',
    (do! q := mlx5_ib_create_cq plenty 64 400 ex_cqdev ex_cqenv (mkcqreq 100 1 0) in ib_destroy_cq ex_cqenv q)
      (mkdrv idle_mem ex_cqt) = Some (res, mkdrv st' x') /\ owned 64 ∅ ∅ st' /\ cqt_eq x' ex_cqt.
Proof.
  apply (cq_round_trip plenty 64 400 ex_cqdev ex_cqenv line_64 (mkcqreq 100 1 0) idle_mem ex_cqt ∅ ∅).
  - done.
  - exact ex_cq_honest.
  - exact idle_owned.
Defined.
