(* ===== verification/SrqCreate.v ===== *)
(** * SrqCreate: making and destroying shared receive queues (hw/mlx5/srq.c and
    srq_cmd.c, core/verbs.c)

    ib_create_srq and ib_destroy_srq for callers in the kernel, down to the
    commands for the device.  The context of an NVMe-oF target queue is a
    parameter. *)

From stdpp Require Import strings.
From S2P Require Import Prelude ErrState FragBuf Strides KHeap FragAlloc DbAlloc DrvState Mailbox QpTypes SqSize WqeSeg SqRing PostSend RecvQueue Srq.

Open Scope es_scope.

Definition MLX5_SRQ_FLAG_ERR : Z := 1.
Definition MLX5_SRQ_FLAG_WQ_SIG : Z := 2.
Definition MLX5_SRQ_FLAG_RNDV : Z := 4.
Definition MLX5_SRQ_FLAG_STRIDING_RECV_WQ : Z := 16.
Definition MLX5_WQ_TYPE_LINKED_LIST_STRIDING_RQ : Z := 2.
Definition MLX5_RMPC_STATE_RDY : Z := 1.
Definition MLX5_XRQC_TOPOLOGY_TAG_MATCHING : Z := 1.
Definition MLX5_XRQC_OFFLOAD_RNDV : Z := 1.
Definition sizeof_create_srq_in : Z := 272.
Definition sizeof_create_xrc_srq_in : Z := 272.
Definition sizeof_create_rmp_in : Z := 272.
Definition sizeof_create_rmp_out : Z := 16.
Definition sizeof_create_xrq_in : Z := 336.

Inductive ib_srq_type := IB_SRQT_BASIC | IB_SRQT_XRC | IB_SRQT_TM | IB_EXP_SRQT_TAG_MATCHING | IB_EXP_SRQT_NVMF.
#[global] Instance ib_srq_type_eq_dec : EqDecision ib_srq_type.
Proof. solve_decision. Defined.

Definition ib_srq_has_cq (t : ib_srq_type) : bool :=
  match t with IB_SRQT_BASIC => false | _ => true end.

(** struct ib_srq_init_attr and the protection domain *)
Record srq_req := mksrqreq {
  sr_max_wr : Z;
  sr_max_sge : Z;
  sr_type : ib_srq_type;
  sr_cq : option Z;
  sr_xrcd : option Z;
  sr_max_num_tags : Z;
  sr_pd : Z;
}.

(** struct mlx5_srq_attr *)
Record mlx5_srq_attr := mksa {
  sa_type : ib_srq_type;
  sa_flags : Z;
  sa_log_size : Z;
  sa_wqe_shift : Z;
  sa_log_page_size : Z;
  sa_xrcd : Z;
  sa_page_offset : Z;
  sa_cqn : Z;
  sa_pd : Z;
  sa_lwm : Z;
  sa_user_index : Z;
  sa_db_record : Z;
  sa_pas : list (list Z);
  sa_tm_log_list_size : Z;
  sa_uid : Z;
  sa_log_wqe_num_of_strides : Z;
  sa_log_wqe_stride_size : Z;
}.

(** ** The contexts *)

(** In 32-bit arithmetic; [1 << n] of an int. *)
Definition get_pas_size (i : mlx5_srq_attr) : Z :=
  let log_page_size := u32 (sa_log_page_size i + 12) in
  let po_quanta := u32 (1 <<. u32 (log_page_size - 6)) in
  let rq_sz := u32 (1 <<. u32 (sa_log_size i + 4 + sa_wqe_shift i)) in
  let page_size := u32 (1 <<. log_page_size) in
  let rq_sz_po := u32 (rq_sz + sa_page_offset i * po_quanta) in
  let rq_num_pas := u32 (rq_sz_po + page_size - 1) / page_size in
  rq_num_pas * 8.

Definition set_wq (i : mlx5_srq_attr) (wq : mailbox) : mailbox :=
  let wq := MLX5_SET "wq_signature" (if test (sa_flags i) MLX5_SRQ_FLAG_WQ_SIG then 1 else 0) wq in
  let wq := MLX5_SET "log_wq_pg_sz" (sa_log_page_size i) wq in
  let wq := MLX5_SET "log_wq_stride" (u32 (sa_wqe_shift i + 4)) wq in
  let wq := MLX5_SET "log_wq_sz" (sa_log_size i) wq in
  let wq := MLX5_SET "page_offset" (sa_page_offset i) wq in
  let wq := MLX5_SET "lwm" (sa_lwm i) wq in
  let wq := MLX5_SET "pd" (sa_pd i) wq in
  let wq := MLX5_SET "dbr_addr" (sa_db_record i) wq in
  if test (sa_flags i) MLX5_SRQ_FLAG_STRIDING_RECV_WQ then
    let n := sa_log_wqe_num_of_strides i - 9 in
    let twos := if n <? 0 then u32 (u32 (Z.lnot (Z.abs n)) + 1) .& 15 else u8 n in
    MLX5_SET "log_wqe_stride_size" (sa_log_wqe_stride_size i - 6)
      (MLX5_SET "log_wqe_num_of_strides" twos
         (MLX5_SET "wq_type" MLX5_WQ_TYPE_LINKED_LIST_STRIDING_RQ wq))
  else wq.

Definition set_srqc (i : mlx5_srq_attr) (c : mailbox) : mailbox :=
  let c := MLX5_SET "wq_signature" (if test (sa_flags i) MLX5_SRQ_FLAG_WQ_SIG then 1 else 0) c in
  let c := MLX5_SET "log_page_size" (sa_log_page_size i) c in
  let c := MLX5_SET "log_rq_stride" (sa_wqe_shift i) c in
  let c := MLX5_SET "log_srq_size" (sa_log_size i) c in
  let c := MLX5_SET "page_offset" (sa_page_offset i) c in
  let c := MLX5_SET "lwm" (sa_lwm i) c in
  let c := MLX5_SET "pd" (sa_pd i) c in
  let c := MLX5_SET "dbr_addr" (sa_db_record i) c in
  let c := MLX5_SET "xrcd" (sa_xrcd i) c in
  MLX5_SET "cqn" (sa_cqn i) c.

(** memcpy(pas, in->pas, size); reading past the list is undefined. *)
Definition copy_pas (pas : list (list Z)) (size : Z) : option (list (list Z)) :=
  if size <=? 8 * Z.of_nat (length pas) then Some (take (Z.to_nat (size / 8)) pas) else None.

(** ** The commands *)

Inductive srq_res := MLX5_RES_SRQ | MLX5_RES_XSRQ | MLX5_RES_XRQ.
Inductive srq_op := MLX5_CMD_OP_CREATE_SRQ | MLX5_CMD_OP_CREATE_XRC_SRQ | MLX5_CMD_OP_CREATE_RMP | MLX5_CMD_OP_CREATE_XRQ.

Record srqt := mksrqt {
  s_array : gmap Z nat;                 (* srq_table.array *)
  s_dev : gset Z;
  s_pd_use : Z -> Z;
  s_cq_use : Z -> Z;
  s_xrcd_use : Z -> Z;
}.
Definition with_array (t : srqt) (g : gmap Z nat) : srqt := mksrqt g (s_dev t) (s_pd_use t) (s_cq_use t) (s_xrcd_use t).
Definition with_sdev (t : srqt) (d : gset Z) : srqt := mksrqt (s_array t) d (s_pd_use t) (s_cq_use t) (s_xrcd_use t).

Record srq_dev := mksrqdev {
  log_max_srq_sz : Z;
  log_tag_matching_list_sz : Z;
  sd_cqe_v1 : bool;
  sd_issi : bool;
  sd_x0 : Z;
  sd_c0 : Z;
}.

(** Contents of fresh memory; the device: commands that create and destroy,
    results of arming and of querying; and what xa_store returns. *)
Record srq_env := mksrqenv {
  sv_junk : nat -> Z -> Z;
  sv_create : srq_op -> mailbox -> Z + Z;
  sv_destroy : Z -> Z;
  sv_store : Z;
}.

Section Create.
Context (o : oracle) (cls : Z) (sizeof_srq : Z) (dev : srq_dev) (se : srq_env).
Context (nvmf_attrs : srq_req -> Z) (create_nvmf : mlx5_srq_attr -> es (drv srqt) Z).

Definition exec (op : srq_op) (c : mailbox) : es (drv srqt) Z :=
  match sv_create se op c with
  | inl e => es_fail e
  | inr n => on_rest (es_mod (fun t => with_sdev t ({[n]} ∪ s_dev t))) ;; es_ret n
  end.

Definition create_srq_cmd (i : mlx5_srq_attr) : es (drv srqt) Z :=
  let pas_size := get_pas_size i in
  do! at_ := d_kzalloc o (s32 (sizeof_create_srq_in + pas_size)) in
  es_finally (
    do! pas := es_lift (copy_pas (sa_pas i) pas_size) in
    exec MLX5_CMD_OP_CREATE_SRQ (set_srqc i (MLX5_SET "uid" (sa_uid i) (mkmb ∅ pas))))
  (d_kfree at_).

Definition create_xrc_srq_cmd (i : mlx5_srq_attr) : es (drv srqt) Z :=
  let pas_size := get_pas_size i in
  do! at_ := d_kzalloc o (s32 (sizeof_create_xrc_srq_in + pas_size)) in
  es_finally (
    do! pas := es_lift (copy_pas (sa_pas i) pas_size) in
    exec MLX5_CMD_OP_CREATE_XRC_SRQ
      (MLX5_SET "user_index" (sa_user_index i) (set_srqc i (MLX5_SET "uid" (sa_uid i) (mkmb ∅ pas)))))
  (d_kfree at_).

Definition create_rmp_cmd (i : mlx5_srq_attr) : es (drv srqt) Z :=
  let pas_size := get_pas_size i in
  do! l := d_kvmalloc_all o [s32 (sizeof_create_rmp_in + pas_size); sizeof_create_rmp_out] in
  es_finally (
    if forallb (fun b => if b is Some _ then true else false) l then
      do! pas := es_lift (copy_pas (sa_pas i) pas_size) in
      exec MLX5_CMD_OP_CREATE_RMP
        (set_wq i (MLX5_SET "uid" (sa_uid i) (MLX5_SET "state" MLX5_RMPC_STATE_RDY (mkmb ∅ pas))))
    else es_fail (- ENOMEM))
  (d_kvfree_all l).

(** Of a queue for tag matching. *)
Definition create_xrq_cmd (i : mlx5_srq_attr) : es (drv srqt) Z :=
  match sa_type i with
  | IB_EXP_SRQT_NVMF => create_nvmf i
  | IB_EXP_SRQT_TAG_MATCHING | IB_SRQT_TM =>
      let pas_size := get_pas_size i in
      do! at_ := d_kzalloc o (s32 (sizeof_create_xrq_in + pas_size)) in
      es_finally (
        do! pas := es_lift (copy_pas (sa_pas i) pas_size) in
        let x := set_wq i (mkmb ∅ pas) in
        let x := MLX5_SET "topology" MLX5_XRQC_TOPOLOGY_TAG_MATCHING x in
        let x := set_if (test (sa_flags i) MLX5_SRQ_FLAG_RNDV) "offload" MLX5_XRQC_OFFLOAD_RNDV x in
        let x := MLX5_SET "log_matching_list_sz" (sa_tm_log_list_size i) x in
        let x := MLX5_SET "cqn" (sa_cqn i) (MLX5_SET "user_index" (sa_user_index i) x) in
        exec MLX5_CMD_OP_CREATE_XRQ (MLX5_SET "uid" (sa_uid i) x))
      (d_kfree at_)
  | _ => es_fail (- EINVAL)
  end.

Definition create_srq_split (res : srq_res) (i : mlx5_srq_attr) : es (drv srqt) Z :=
  if negb (sd_issi dev) then create_srq_cmd i
  else match res with
       | MLX5_RES_XSRQ => create_xrc_srq_cmd i
       | MLX5_RES_XRQ => create_xrq_cmd i
       | MLX5_RES_SRQ => create_rmp_cmd i
       end.

(** The command that fits the type; the device knows the queue by its number. *)
Definition destroy_srq_split (n : Z) : es (drv srqt) unit :=
  if sv_destroy se n =? 0 then on_rest (es_mod (fun t => with_sdev t (s_dev t ∖ {[n]})))
  else es_fail (sv_destroy se n).

Definition res_of (t : ib_srq_type) : srq_res :=
  match t with IB_SRQT_XRC => MLX5_RES_XSRQ | IB_SRQT_BASIC => MLX5_RES_SRQ | _ => MLX5_RES_XRQ end.

Definition mlx5_cmd_create_srq (addr : nat) (i : mlx5_srq_attr) : es (drv srqt) Z :=
  do! n := create_srq_split (res_of (sa_type i)) i in
  es_cleanup (
    if sv_store se =? 0 then on_rest (es_mod (fun t => with_array t (<[n := addr]> (s_array t)))) ;; es_ret n
    else es_fail (sv_store se))
  (destroy_srq_split n).

(** Waiting for other users of the queue is left out. *)
Definition mlx5_cmd_destroy_srq (addr : nat) (n : Z) : es (drv srqt) unit := fun s =>
  let tmp := s_array (d_rest s) !! n in
  let s := mkdrv (d_mem s) (with_array (d_rest s) (delete n (s_array (d_rest s)))) in
  if bool_decide (tmp = Some addr)
  then '(_, s) ← destroy_srq_split n s; Some (inr tt, s)
  else Some (inr tt, s).

(** ** The queue *)

Definition with_wrid (q : mlx5_ib_srq) (w : Z -> Z) : mlx5_ib_srq :=
  {| srq_max := srq_max q; srq_max_gs := srq_max_gs q; srq_max_avail_gather := srq_max_avail_gather q;
     srq_fbc := srq_fbc q; srq_wrid := w; srq_head := srq_head q; srq_tail := srq_tail q;
     srq_wqe_ctr := srq_wqe_ctr q; srq_db := srq_db q |}.

(** What a kernel queue owns, and the page list for the command. *)
Record srq_kernel := mksk {
  sk_srq : mlx5_ib_srq;
  sk_mem : frag_mem;
  sk_buf : mlx5_frag_buf;
  sk_db : mlx5_db;
  sk_wrid : nat;
  sk_pas_at : nat;
  sk_pas : list (list Z);
}.

Definition create_srq_kernel (max max_gs gather shift buf_size : Z) : es (drv srqt) srq_kernel :=
  do! db := d_db_alloc o cls in
  es_cleanup (
    do! buf := d_frag_buf_alloc o buf_size in
    es_cleanup (
      do! q := es_lift (init_srq 0 max max_gs gather shift (fun _ => 0) (be32 0) (mkfrag_mem (fb_size buf) (fun _ => 0))) in
      do! pas_at := d_kzalloc o (8 * fb_npages buf) in
      es_cleanup (
        do! pas := es_lift (mlx5_fill_page_frag_array buf) in
        do! w := d_kzalloc o (8 * max) in
        es_ret (mksk (with_wrid q.1 (sv_junk se w)) q.2 buf db w pas_at pas))
      (d_kfree pas_at))
    (d_frag_buf_free buf))
  (d_db_free db).

Definition destroy_srq_kernel (k : srq_kernel) : es (drv srqt) unit :=
  d_kfree (sk_wrid k) ;; d_frag_buf_free (sk_buf k) ;; d_db_free (sk_db k).

(** The sizes: entries, scatter entries a WQE has room for, logarithm of its
    size, and bytes of the buffer. *)
Definition srq_sizes (r : srq_req) : Z + (Z * Z * Z * Z) :=
  let max := s32 (roundup_pow_of_two (u32 (sr_max_wr r + 1))) in
  let desc := u64 (16 + sr_max_sge r * 16) in
  if (desc =? 0) || (desc <? sr_max_sge r) then inl (- EINVAL)
  else
  let desc := Z.max 32 (roundup_pow_of_two desc) in
  if desc <? 16 then inl (- EINVAL)
  else
  let buf_size := u64 (max * desc) in
  if buf_size <? desc then inl (- EINVAL)
  else inr (max, (desc - 16) / 16, ilog2 desc, buf_size).

(** ilog2 of a variable is fls - 1. *)
Definition tm_log_size (tags : Z) : Z := if tags =? 0 then 0 else ilog2 tags + 1.

(** The attributes for the command. *)
Definition srq_attrs (r : srq_req) (k : srq_kernel) (max shift flags tm xrcd cqn : Z) : mlx5_srq_attr :=
  mksa (sr_type r) flags (ilog2 max) (u32 (shift - 4)) (u32 (fb_page_shift (sk_buf k) - 12)) xrcd 0 cqn (sr_pd r) 0
    (if sd_cqe_v1 dev && negb (bool_decide (sr_type r = IB_SRQT_BASIC)) then MLX5_IB_DEFAULT_UIDX else 0)
    (db_dma (sk_db k)) (sk_pas k) tm 0 0 0.

(** The buffer size is an int from here on.  On the way to the command an error
    leaves the page list behind. *)
Definition mlx5_ib_create_srq (r : srq_req) (addr : nat) : es (drv srqt) (srq_kernel * Z) :=
  if u32 (1 <<. log_max_srq_sz dev) <=? sr_max_wr r then es_fail (- EINVAL)
  else
  do! x := es_sum (srq_sizes r) in
  let '(max, gather, shift, buf_size) := x in
  do! k := create_srq_kernel max (sr_max_sge r) gather shift (s32 buf_size) in
  es_cleanup (
    do! xrcd := (match sr_type r with IB_SRQT_XRC => es_lift (sr_xrcd r) | _ => es_ret (sd_x0 dev) end) in
    (when bool_decide (sr_type r = IB_EXP_SRQT_NVMF) then!
       if nvmf_attrs r =? 0 then es_ret tt else es_fail (nvmf_attrs r)) ;;
    let is_tm := bool_decide (sr_type r = IB_SRQT_TM) in
    let tm := if is_tm then tm_log_size (sr_max_num_tags r) else 0 in
    if is_tm && (log_tag_matching_list_sz dev <? tm) then es_fail (- EINVAL)
    else
    do! cqn := (if ib_srq_has_cq (sr_type r) then es_lift (sr_cq r) else es_ret (sd_c0 dev)) in
    let i := srq_attrs r k max shift (if is_tm then MLX5_SRQ_FLAG_RNDV else 0) tm xrcd cqn in
    do! n := es_finally (mlx5_cmd_create_srq addr i) (d_kfree (sk_pas_at k)) in
    es_ret (k, n))
  (destroy_srq_kernel k).

Definition mlx5_ib_destroy_srq (addr : nat) (n : Z) (k : srq_kernel) : es (drv srqt) unit :=
  mlx5_cmd_destroy_srq addr n ;; destroy_srq_kernel k.

(** ** The verbs layer *)

Record srqobj := mksrqobj {
  so_addr : nat;
  so_req : srq_req;                     (* type, protection domain, CQ and XRC domain *)
  so_k : srq_kernel;
  so_srqn : Z;
  so_usecnt : Z;
}.

Definition use_one (i : Z) (d : Z) (f : Z -> Z) : Z -> Z := upd f i (f i + d).

Definition count_srq_uses (r : srq_req) (d : Z) (t : srqt) : srqt :=
  let cq := if ib_srq_has_cq (sr_type r) then sr_cq r else None in
  let xr := if bool_decide (sr_type r = IB_SRQT_XRC) then sr_xrcd r else None in
  mksrqt (s_array t) (s_dev t) (use_one (sr_pd r) d (s_pd_use t))
    (if cq is Some c then use_one c d (s_cq_use t) else s_cq_use t)
    (if xr is Some x then use_one x d (s_xrcd_use t) else s_xrcd_use t).

Definition ib_create_srq (r : srq_req) : es (drv srqt) srqobj :=
  do! addr := d_kzalloc o sizeof_srq in
  on_rest (es_mod (count_srq_uses r 1)) ;;
  do! x := es_cleanup (mlx5_ib_create_srq r addr) (on_rest (es_mod (count_srq_uses r (-1))) ;; d_kfree addr) in
  es_ret (mksrqobj addr r x.1 x.2 0).

Definition ib_destroy_srq (q : srqobj) : es (drv srqt) unit :=
  if negb (so_usecnt q =? 0) then es_fail (- EBUSY)
  else
  mlx5_ib_destroy_srq (so_addr q) (so_srqn q) (so_k q) ;;
  on_rest (es_mod (count_srq_uses (so_req q) (-1))) ;;
  d_kfree (so_addr q).
End Create.
