(* ===== verification/SrqLife.v ===== *)
(** * SrqLife: a shared receive queue from its creation to its destruction

    Creating a shared receive queue either leaves no trace or gives one whose
    WQEs are all on the free list; destroying it gives everything back.  One
    error path is an exception: it loses the page list. *)

From stdpp Require Import strings.
From S2P Require Import Prelude ErrState FragBuf Strides KHeap FragAlloc DbAlloc DrvState Mailbox QpTypes SqSize WqeSeg SqRing PostSend RecvQueue Srq SrqCreate.

Open Scope es_scope.

(** ** Sizes *)

(** A request the checks of the verbs layer let through: a WQE fits a page. *)
Record srq_request (r : srq_req) : Prop := {
  rq_wr : 0 <= sr_max_wr r;
  rq_sge : 0 <= sr_max_sge r <= 255;
  rq_cq : ib_srq_has_cq (sr_type r) = true -> is_Some (sr_cq r);
  rq_xrcd : sr_type r = IB_SRQT_XRC -> is_Some (sr_xrcd r);
  rq_nvmf : sr_type r <> IB_EXP_SRQT_NVMF;
}.

(** 2^k WQEs of 2^j bytes. *)
Record srq_sized (r : srq_req) (k j : Z) : Prop := {
  zs_k : 0 <= k <= 15;
  zs_j : 5 <= j <= 12;
  zs_wr : sr_max_wr r < 2 ^ k;
  zs_sge : 16 + 16 * sr_max_sge r <= 2 ^ j;
}.

Lemma srq_sizes_ok r log :
  srq_request r -> 0 <= log <= 15 -> sr_max_wr r < 2 ^ log ->
  exists k j, srq_sized r k j /\ srq_sizes r = inr (2 ^ k, (2 ^ j - 16) / 16, j, 2 ^ k * 2 ^ j).
Proof.
  intros [Hwr Hsge _ _ _] Hlog Hmax. assert (2 ^ log <= 2 ^ 15) by (apply Z.pow_le_mono_r; lia).
  destruct (roundup_pow_of_two_spec (sr_max_wr r + 1) log) as (k & Hk & Ek & Hk2); [lia|lia|].
  destruct (roundup_pow_of_two_spec (16 + sr_max_sge r * 16) 12) as (j & Hj & Ej & Hj2); [lia|lia|].
  assert (Hdesc : exists j', 5 <= j' <= 12 /\ Z.max 32 (2 ^ j) = 2 ^ j' /\ 16 + sr_max_sge r * 16 <= 2 ^ j').
  { destruct (decide (5 <= j)).
    - exists j. assert (2 ^ 5 <= 2 ^ j) by (apply Z.pow_le_mono_r; lia). lia.
    - exists 5. assert (2 ^ j <= 2 ^ 4) by (apply Z.pow_le_mono_r; lia). lia. }
  destruct Hdesc as (j' & Hj' & Emax & Hd).
  assert (0 < 2 ^ k <= 2 ^ 15) by (split; [apply pow2_pos; lia|apply Z.pow_le_mono_r; lia]).
  assert (2 ^ 5 <= 2 ^ j' <= 2 ^ 12) by (split; apply Z.pow_le_mono_r; lia).
  exists k, j'. split; [split; lia|]. unfold srq_sizes.
  rewrite (u32_small (_ + 1)), Ek, (s32_small (2 ^ k)), (u64_small (16 + _)), Ej by lia.
  destruct (Z.eqb_spec (16 + sr_max_sge r * 16) 0); [lia|]. destruct (Z.ltb_spec (16 + sr_max_sge r * 16) (sr_max_sge r)); [lia|].
  cbn [orb]. rewrite Emax. destruct (Z.ltb_spec (2 ^ j') 16); [lia|]. rewrite u64_small by nia.
  destruct (Z.ltb_spec (2 ^ k * 2 ^ j') (2 ^ j')); [nia|]. unfold ilog2. by rewrite Z.log2_pow2 by lia.
Qed.

(** The command copies the page list, all of it and nothing else. *)
Lemma pas_size_ok i k j :
  sa_log_page_size i = 0 -> sa_page_offset i = 0 -> sa_log_size i = k -> sa_wqe_shift i = j - 4 ->
  0 <= k <= 15 -> 5 <= j <= 12 -> get_pas_size i = 8 * DIV_ROUND_UP (2 ^ k * 2 ^ j) PAGE_SIZE.
Proof.
  intros Hp Ho Hk Hj Hkr Hjr. unfold get_pas_size. rewrite Hp, Ho, Hk, Hj.
  assert (0 < 2 ^ (k + j) <= 2 ^ 27) by (split; [apply pow2_pos; lia|apply Z.pow_le_mono_r; lia]).
  replace (k + 4 + (j - 4)) with (k + j) by lia. rewrite (u32_small (k + j)), !Z.shiftl_1_l by lia.
  rewrite Z.pow_add_r in * by lia. change (u32 (0 + 12)) with 12. change (u32 (2 ^ 12)) with 4096.
  rewrite Z.mul_0_l, Z.add_0_r. repeat rewrite (u32_small (2 ^ k * 2 ^ j)) by lia. rewrite u32_small by lia.
  unfold DIV_ROUND_UP, PAGE_SIZE. lia.
Qed.

Section Life.
Context (o : oracle) (cls : Z) (sizeof_srq : Z) (dev : srq_dev) (se : srq_env) (Hcls : 8 <= cls <= PAGE_SIZE).
Context (nvmf_attrs : srq_req -> Z) (create_nvmf : mlx5_srq_attr -> es (drv srqt) Z).
Implicit Types (m : gmap nat Z) (D : gset (nat * nat)).

(** ** The queue *)

Lemma srq_inv_wrid q mem l w : srq_inv q mem l [] -> srq_inv (with_wrid q w) mem l [].
Proof. intros [H1 H2 H3 H4 H5]. by split. Qed.

(** What create_srq_kernel made. *)
Record kernel_srq (k j : Z) (c : srq_kernel) : Prop := {
  ks_inv : srq_inv (sk_srq c) (sk_mem c) (seqZ 0 (2 ^ k - 1)) [];
  ks_buf : buf_ok (sk_buf c) (2 ^ k * 2 ^ j);
  ks_pas : sk_pas c = page_list (sk_buf c);
  ks_apart : buf_blocks (sk_buf c) !! sk_wrid c = None;
}.
Definition kernel_blocks (k : Z) (c : srq_kernel) : gmap nat Z := {[sk_wrid c := 8 * 2 ^ k]} ∪ buf_blocks (sk_buf c).

Lemma init_new_srq r k j buf :
  srq_request r -> srq_sized r k j -> buf_ok buf (2 ^ k * 2 ^ j) ->
  exists q mem, init_srq 0 (2 ^ k) (sr_max_sge r) ((2 ^ j - 16) / 16) j (fun _ => 0) (be32 0)
                  (mkfrag_mem (fb_size buf) (fun _ => 0)) = Some (q, mem) /\
    srq_inv q mem (seqZ 0 (2 ^ k - 1)) [].
Proof.
  intros [_ Hsge _ _ _] [Hk Hj Hwr Hs] Hb.
  assert (0 < 2 ^ k <= 2 ^ 15) by (split; [apply pow2_pos; lia|apply Z.pow_le_mono_r; lia]).
  assert (2 ^ 5 <= 2 ^ j <= 2 ^ 12) by (split; apply Z.pow_le_mono_r; lia).
  assert (Hdiv : 16 * ((2 ^ j - 16) / 16) = 2 ^ j - 16).
  { replace (2 ^ j) with (2 ^ (j - 4) * 16)
      by (change 16 with (2 ^ 4) at 1; rewrite <- Z.pow_add_r by lia; f_equal; lia).
    replace (2 ^ (j - 4) * 16 - 16) with ((2 ^ (j - 4) - 1) * 16) by lia. rewrite Z.div_mul; lia. }
  destruct (init_srq_ok 0 (2 ^ k) (sr_max_sge r) ((2 ^ j - 16) / 16) j (fun _ => 0) (be32 0)
              (mkfrag_mem (fb_size buf) (fun _ => 0))) as (q & mem & E & Hi & _); [lia|by exists k; lia|lia|lia| |by exists q, mem].
  destruct (init_srq_fbc 0 (2 ^ k) j) as [_ He]; [lia|by exists k; lia|].
  unfold fits. rewrite He. split; [lia|]. split; [done|]. unfold slot, stride, fbc_base. simpl. rewrite (bo_size _ _ Hb). lia.
Qed.

Lemma runs_create_srq_kernel r k j st x m D (Q : Z + srq_kernel -> drv srqt -> Prop) :
  srq_request r -> srq_sized r k j -> owned cls m D st ->
  (forall st', owned cls m D st' -> Q (inl (- ENOMEM)) (mkdrv st' x)) ->
  (forall c st', kernel_srq k j c -> kernel_blocks k c ##ₘ m -> (kernel_blocks k c ∪ m) !! sk_pas_at c = None ->
     slot_of (sk_db c) ∉ D ->
     owned cls ({[sk_pas_at c := 8 * fb_npages (sk_buf c)]} ∪ (kernel_blocks k c ∪ m)) ({[slot_of (sk_db c)]} ∪ D) st' ->
     Q (inr c) (mkdrv st' x)) ->
  runs (create_srq_kernel o cls se (2 ^ k) (sr_max_sge r) ((2 ^ j - 16) / 16) j (s32 (2 ^ k * 2 ^ j))) (mkdrv st x) Q.
Proof.
  intros Hr Hz Ho HN HS. pose proof Hz as [Hk Hj _ _].
  assert (Hsz : 0 < 2 ^ k * 2 ^ j <= 2 ^ 27).
  { rewrite <- Z.pow_add_r by lia. split; [apply pow2_pos; lia|apply Z.pow_le_mono_r; lia]. }
  unfold create_srq_kernel. rewrite s32_small by lia.
  apply runs_bind, (runs_db_alloc o cls x st m D _ Hcls Ho); [done|].
  intros db st1 Hslot Ho1. apply runs_cleanup, runs_bind.
  assert (Hdb : forall st', owned cls m ({[slot_of db]} ∪ D) st' ->
    runs (d_db_free db) (mkdrv st' x) (fun _ s'' => Q (inl (- ENOMEM)) s'')).
  { intros st' Ho'. by apply (runs_db_free cls x db st' m D _ Ho' Hslot). }
  eapply runs_frag_buf_alloc; [lia|exact Ho1|by intros; apply Hdb|].
  intros buf st2 Hb Hd Ho2. apply runs_cleanup, runs_bind.
  destruct (init_new_srq r k j buf Hr Hz Hb) as (q & mem & -> & Hi). apply runs_lift, runs_bind.
  assert (Hbuf : forall st', owned cls (buf_blocks buf ∪ m) ({[slot_of db]} ∪ D) st' ->
    runs (d_frag_buf_free buf) (mkdrv st' x) (fun _ s => runs (d_db_free db) s (fun _ s'' => Q (inl (- ENOMEM)) s''))).
  { intros st' Ho'. eapply (runs_frag_buf_free cls x buf); [exact Hb|exact Ho'|done|exact Hdb]. }
  eapply runs_kzalloc; [exact Ho2|by intros; apply Hbuf|]. intros pa st3 Hpa Ho3.
  rewrite (fill_pages _ _ Hb). apply runs_cleanup, runs_bind, runs_lift, runs_bind.
  eapply runs_kzalloc; [exact Ho3| |].
  { intros st4 Ho4. eapply runs_kfree; [exact Ho4|exact Hpa|exact Hbuf]. }
  intros w st4 [Hw1 [Hw2 Hw3]%lookup_union_None]%lookup_union_None Ho4. apply lookup_singleton_None in Hw1.
  apply lookup_union_None in Hpa as [Hpa1 Hpa2].
  rewrite (union_swap {[w := 8 * 2 ^ k]}) in Ho4 by (apply map_disjoint_singleton_l; by apply lookup_singleton_None).
  rewrite map_union_assoc in Ho4.
  apply runs_ret, HS; unfold kernel_blocks; simpl.
  - split; simpl; [by apply srq_inv_wrid|done|done|done].
  - apply map_disjoint_union_l. split; [by apply map_disjoint_singleton_l|done].
  - rewrite !lookup_union_None, lookup_singleton_None. auto.
  - done.
  - by rewrite <- map_union_assoc in Ho4 |- *.
Qed.

Lemma runs_destroy_srq_kernel k size c st x m D (Q : Z + unit -> drv srqt -> Prop) :
  buf_ok (sk_buf c) size -> buf_blocks (sk_buf c) !! sk_wrid c = None -> kernel_blocks k c ##ₘ m -> slot_of (sk_db c) ∉ D ->
  owned cls (kernel_blocks k c ∪ m) ({[slot_of (sk_db c)]} ∪ D) st ->
  (forall st', owned cls m D st' -> Q (inr tt) (mkdrv st' x)) ->
  runs (destroy_srq_kernel c) (mkdrv st x) Q.
Proof.
  intros Hb Hap [Hd1%map_disjoint_singleton_l Hd2]%map_disjoint_union_l Hslot Ho HQ.
  unfold kernel_blocks in Ho. rewrite <- map_union_assoc in Ho.
  apply runs_bind. eapply runs_kfree; [exact Ho|by apply lookup_union_None|]. intros st1 Ho1.
  apply runs_bind. eapply (runs_frag_buf_free cls x (sk_buf c)); [exact Hb|exact Ho1|done|]. intros st2 Ho2.
  by eapply (runs_db_free cls x (sk_db c)); [exact Ho2| |].
Qed.

(** ** The commands *)

(** What the device is told of the queue. *)
Record told_srq (i : mlx5_srq_attr) (op : srq_op) (c : mailbox) : Prop := {
  ts_pas : mb_pas c = sa_pas i;
  ts_dbr : field_of c "dbr_addr" = Some (sa_db_record i);
  ts_pd : field_of c "pd" = Some (sa_pd i);
  ts_size : match op with
            | MLX5_CMD_OP_CREATE_SRQ | MLX5_CMD_OP_CREATE_XRC_SRQ =>
                field_of c "log_srq_size" = Some (sa_log_size i) /\ field_of c "log_rq_stride" = Some (sa_wqe_shift i)
            | MLX5_CMD_OP_CREATE_RMP | MLX5_CMD_OP_CREATE_XRQ =>
                field_of c "log_wq_sz" = Some (sa_log_size i) /\
                field_of c "log_wq_stride" = Some (u32 (sa_wqe_shift i + 4))
            end;
}.

Definition joined (x : srqt) (n : Z) : srqt := with_sdev x ({[n]} ∪ s_dev x).

Section Command.
Context (i : mlx5_srq_attr) (x : srqt) (m : gmap nat Z) (D : gset (nat * nat)) (Q : Z + Z -> drv srqt -> Prop).
Context (Hpas : get_pas_size i = 8 * Z.of_nat (length (sa_pas i))).
Context (HN : forall e st', owned cls m D st' -> Q (inl e) (mkdrv st' x)).
Context (HS : forall op c n st', sv_create se op c = inr n -> told_srq i op c -> owned cls m D st' ->
                Q (inr n) (mkdrv st' (joined x n))).

Lemma copy_all : copy_pas (sa_pas i) (get_pas_size i) = Some (sa_pas i).
Proof.
  unfold copy_pas. rewrite Hpas, Z.leb_refl. f_equal. rewrite Z.mul_comm, Z.div_mul by done.
  by rewrite Nat2Z.id, firstn_all.
Qed.

(** Fill, run, free. *)
Lemma runs_exec op (f : list (list Z) -> mailbox) l bl st :
  told_srq i op (f (sa_pas i)) -> NoDup (omap id l) -> (forall b, b ∈ omap id l <-> is_Some (bl !! b)) -> bl ##ₘ m ->
  owned cls (bl ∪ m) D st ->
  runs (es_finally (do! pas := es_lift (copy_pas (sa_pas i) (get_pas_size i)) in exec se op (f pas)) (d_kvfree_all l))
    (mkdrv st x) Q.
Proof.
  intros Ht Hl Hb Hd Ho. apply runs_finally, runs_bind. rewrite copy_all. apply runs_lift. unfold exec.
  destruct (sv_create se op (f (sa_pas i))) as [e|n] eqn:E; [apply runs_fail|apply runs_bind, runs_on_rest, runs_mod, runs_ret];
    (eapply runs_kvfree_all; [exact Ho|exact Hd|exact Hl|exact Hb|]); intros st' Ho'; [by apply HN|by eapply HS].
Qed.

Lemma runs_exec_one op f size st :
  told_srq i op (f (sa_pas i)) -> owned cls m D st ->
  runs (do! at_ := d_kzalloc o size in
        es_finally (do! pas := es_lift (copy_pas (sa_pas i) (get_pas_size i)) in exec se op (f pas)) (d_kfree at_))
    (mkdrv st x) Q.
Proof.
  intros Ht Ho. apply runs_bind. eapply runs_kzalloc; [exact Ho|by intros; apply HN|]. intros b st' Hb Ho'.
  eapply (runs_exec op f [Some b] {[b := size]}); [done|apply NoDup_singleton| |by apply map_disjoint_singleton_l|done].
  intros c. simpl. rewrite list_elem_of_singleton, lookup_singleton_is_Some. naive_solver.
Qed.

Lemma set_wq_told op c :
  mb_pas c = sa_pas i -> match op with MLX5_CMD_OP_CREATE_RMP | MLX5_CMD_OP_CREATE_XRQ => True | _ => False end ->
  told_srq i op (set_wq i c).
Proof.
  intros Hc Hop. unfold set_wq. destruct (test _ MLX5_SRQ_FLAG_STRIDING_RECV_WQ); split; fields; try done;
    destruct op; done || (split; by fields).
Qed.

Lemma set_srqc_told op c :
  mb_pas c = sa_pas i -> match op with MLX5_CMD_OP_CREATE_SRQ | MLX5_CMD_OP_CREATE_XRC_SRQ => True | _ => False end ->
  told_srq i op (set_srqc i c).
Proof. intros Hc Hop. unfold set_srqc. split; fields; try done; destruct op; done || (split; by fields). Qed.

(** Fields the description does not speak of. *)
Lemma told_set op f v c :
  told_srq i op c -> f ∉ ["dbr_addr"; "pd"; "log_srq_size"; "log_rq_stride"; "log_wq_sz"; "log_wq_stride"] ->
  told_srq i op (MLX5_SET f v c).
Proof.
  intros [H1 H2 H3 H4] Hf. repeat (apply not_elem_of_cons in Hf as [? Hf]).
  by split; rewrite ?pas_set, ?field_set_ne by done.
Qed.

Lemma runs_create_split st :
  sa_type i <> IB_EXP_SRQT_NVMF -> owned cls m D st ->
  runs (create_srq_split o dev se create_nvmf (res_of (sa_type i)) i) (mkdrv st x) Q.
Proof.
  intros Hty Ho. unfold create_srq_split. destruct (sd_issi dev); cbn [negb].
  2: { eapply (runs_exec_one _ (fun pas => set_srqc i (MLX5_SET "uid" (sa_uid i) (mkmb ∅ pas)))); [|done].
       by apply set_srqc_told. }
  assert (Htm : sa_type i = IB_SRQT_TM \/ sa_type i = IB_EXP_SRQT_TAG_MATCHING ->
    runs (create_xrq_cmd o se create_nvmf i) (mkdrv st x) Q).
  { intros Ht. unfold create_xrq_cmd.
    assert (Hone : forall b, told_srq i MLX5_CMD_OP_CREATE_XRQ
      (MLX5_SET "uid" (sa_uid i) (MLX5_SET "cqn" (sa_cqn i) (MLX5_SET "user_index" (sa_user_index i)
        (MLX5_SET "log_matching_list_sz" (sa_tm_log_list_size i) (set_if b "offload" MLX5_XRQC_OFFLOAD_RNDV
          (MLX5_SET "topology" MLX5_XRQC_TOPOLOGY_TAG_MATCHING (set_wq i (mkmb ∅ (sa_pas i)))))))))).
    { intros b. repeat (apply told_set; [|set_solver]). destruct b; cbn [set_if]; repeat (apply told_set; [|set_solver]);
        by apply set_wq_told. }
    destruct Ht as [-> | ->]; apply (runs_exec_one _ (fun pas => MLX5_SET "uid" (sa_uid i) (MLX5_SET "cqn" (sa_cqn i)
      (MLX5_SET "user_index" (sa_user_index i) (MLX5_SET "log_matching_list_sz" (sa_tm_log_list_size i)
        (set_if (test (sa_flags i) MLX5_SRQ_FLAG_RNDV) "offload" MLX5_XRQC_OFFLOAD_RNDV
          (MLX5_SET "topology" MLX5_XRQC_TOPOLOGY_TAG_MATCHING (set_wq i (mkmb ∅ pas)))))))) ); auto. }
  destruct (sa_type i) eqn:Et; cbn [res_of]; try (apply Htm; auto); try done.
  - apply runs_bind. eapply runs_kvmalloc_all; [exact Ho|]. intros l st1 Hlen Hnd Hd Ho1.
    destruct (forallb _ l) eqn:Eall.
    + eapply (runs_exec _ (fun pas => set_wq i (MLX5_SET "uid" (sa_uid i) (MLX5_SET "state" MLX5_RMPC_STATE_RDY (mkmb ∅ pas)))));
        [by apply set_wq_told|done| |exact Hd|exact Ho1]. intros b. by apply blocks_of_all_dom.
    + apply runs_finally, runs_fail. eapply runs_kvfree_all; [exact Ho1|exact Hd|done| |by intros; apply HN].
      intros b. by apply blocks_of_all_dom.
  - eapply (runs_exec_one _ (fun pas => MLX5_SET "user_index" (sa_user_index i) (set_srqc i (MLX5_SET "uid" (sa_uid i) (mkmb ∅ pas)))));
      [|done]. apply told_set; [by apply set_srqc_told|set_solver].
Qed.
End Command.

(** ** Creating *)

Record honest_srq (x : srqt) : Prop := {
  hs_fresh : forall op c n, sv_create se op c = inr n -> n ∉ s_dev x;
  hs_destroy : forall n, sv_destroy se n = 0;
}.

Definition srq_entered (x : srqt) (n : Z) (addr : nat) : srqt := with_array (joined x n) (<[n := addr]> (s_array x)).

Lemma runs_cmd_create i addr st x m D (Q : Z + Z -> drv srqt -> Prop) :
  honest_srq x -> sa_type i <> IB_EXP_SRQT_NVMF -> get_pas_size i = 8 * Z.of_nat (length (sa_pas i)) -> owned cls m D st ->
  (forall e st', owned cls m D st' -> Q (inl e) (mkdrv st' x)) ->
  (forall op c n st', sv_create se op c = inr n -> told_srq i op c -> owned cls m D st' ->
     Q (inr n) (mkdrv st' (srq_entered x n addr))) ->
  runs (mlx5_cmd_create_srq o dev se create_nvmf addr i) (mkdrv st x) Q.
Proof.
  intros [Hf Hd] Hty Hpas Ho HN HS. apply runs_bind, (runs_create_split i x m D); [done|done| |done|done].
  intros op c n st' E Ht Ho'. apply runs_cleanup. destruct (Z.eqb_spec (sv_store se) 0).
  - apply runs_bind, runs_on_rest, runs_mod, runs_ret. by eapply HS.
  - apply runs_fail. unfold destroy_srq_split. rewrite Hd. apply runs_on_rest, runs_mod.
    replace (with_sdev (joined x n) _) with x; [by apply HN|]. specialize (Hf _ _ _ E).
    destruct x; unfold with_sdev, joined; simpl in *. f_equal. set_solver.
Qed.

(** The tags asked for do not exceed the device's list. *)
Definition tags_ok (r : srq_req) : Prop :=
  sr_type r = IB_SRQT_TM -> tm_log_size (sr_max_num_tags r) <= log_tag_matching_list_sz dev.

(** What the device is told of the queue that was asked for. *)
Definition announced (r : srq_req) (k j : Z) (c : srq_kernel) (n : Z) : Prop :=
  exists i op mb, sv_create se op mb = inr n /\ told_srq i op mb /\ sa_pas i = page_list (sk_buf c) /\
    sa_db_record i = db_dma (sk_db c) /\ sa_pd i = sr_pd r /\ sa_log_size i = k /\ sa_wqe_shift i = j - 4.

Lemma attrs_pas r k j c flags tm xrcd cqn :
  srq_sized r k j -> kernel_srq k j c ->
  let i := srq_attrs dev r c (2 ^ k) j flags tm xrcd cqn in
  get_pas_size i = 8 * Z.of_nat (length (sa_pas i)).
Proof.
  intros [Hk Hj _ _] [_ Hb Hp _] i. assert (Hlog : sa_log_size i = k) by (unfold i; simpl; apply Z.log2_pow2; lia).
  assert (Hsh : sa_wqe_shift i = j - 4) by (unfold i; simpl; apply u32_small; lia).
  assert (Hpg : sa_log_page_size i = 0) by (unfold i; simpl; by rewrite (bo_shift _ _ Hb)).
  rewrite (pas_size_ok i k j); try done. unfold i. simpl. rewrite Hp. unfold page_list.
  rewrite length_fmap, (bo_length _ _ Hb), <- (bo_pages _ _ Hb), Z2Nat.id; [done|].
  rewrite (bo_pages _ _ Hb). unfold DIV_ROUND_UP, PAGE_SIZE.
  pose proof (pow2_pos k). pose proof (pow2_pos j). apply Z.div_pos; nia.
Qed.

Lemma runs_mlx5_create_srq r addr st x m D (Q : Z + (srq_kernel * Z) -> drv srqt -> Prop) :
  0 <= log_max_srq_sz dev <= 15 -> honest_srq x -> srq_request r -> tags_ok r -> owned cls m D st ->
  (forall e st', owned cls m D st' -> Q (inl e) (mkdrv st' x)) ->
  (forall c n k j st', srq_sized r k j -> kernel_srq k j c -> announced r k j c n ->
     kernel_blocks k c ##ₘ m -> slot_of (sk_db c) ∉ D ->
     owned cls (kernel_blocks k c ∪ m) ({[slot_of (sk_db c)]} ∪ D) st' ->
     Q (inr (c, n)) (mkdrv st' (srq_entered x n addr))) ->
  runs (mlx5_ib_create_srq o cls dev se nvmf_attrs create_nvmf r addr) (mkdrv st x) Q.
Proof.
  intros Hlog Hho Hr Htags Ho HN HS. unfold mlx5_ib_create_srq. rewrite Z.shiftl_1_l.
  assert (2 ^ log_max_srq_sz dev <= 2 ^ 15) by (apply Z.pow_le_mono_r; lia). pose proof (pow2_pos (log_max_srq_sz dev)).
  rewrite u32_small by lia. destruct (Z.leb_spec (2 ^ log_max_srq_sz dev) (sr_max_wr r)); [by apply runs_fail, HN|].
  destruct (srq_sizes_ok r _ Hr Hlog) as (k & j & Hz & ->); [done|]. apply runs_bind, runs_ret, runs_bind.
  eapply runs_create_srq_kernel; [done|done|exact Ho|by intros; apply HN|]. intros c st1 Hc Hd Hpa Hslot Ho1.
  apply runs_cleanup, runs_bind.
  assert (Hx : exists n, (match sr_type r with IB_SRQT_XRC => es_lift (sr_xrcd r) | _ => es_ret (sd_x0 dev) end)
                         = @es_ret (drv srqt) Z n).
  { destruct (sr_type r) eqn:E; try by eexists. destruct (rq_xrcd _ Hr E) as [n ->]. by exists n. }
  destruct Hx as [xrcd ->]. apply runs_ret, runs_bind.
  rewrite (bool_decide_eq_false_2 (sr_type r = IB_EXP_SRQT_NVMF)) by apply Hr. apply runs_ret.
  assert (Htm : (bool_decide (sr_type r = IB_SRQT_TM) && (log_tag_matching_list_sz dev <?
     (if bool_decide (sr_type r = IB_SRQT_TM) then tm_log_size (sr_max_num_tags r) else 0))) = false).
  { destruct (bool_decide_reflect (sr_type r = IB_SRQT_TM)) as [E|]; [|done]. specialize (Htags E).
    destruct (Z.ltb_spec (log_tag_matching_list_sz dev) (tm_log_size (sr_max_num_tags r))); [lia|done]. }
  rewrite Htm. apply runs_bind.
  assert (Hq : exists n, (if ib_srq_has_cq (sr_type r) then es_lift (sr_cq r) else es_ret (sd_c0 dev)) = @es_ret (drv srqt) Z n).
  { destruct (ib_srq_has_cq _) eqn:E; [|by eexists]. destruct (rq_cq _ Hr E) as [n ->]. by exists n. }
  destruct Hq as [cqn ->]. apply runs_ret, runs_bind, runs_finally. set (i := srq_attrs _ _ _ _ _ _ _ _ _).
  eapply runs_cmd_create; [done|apply Hr|by apply attrs_pas|exact Ho1| |].
  - intros e st2 Ho2. eapply runs_kfree; [exact Ho2|exact Hpa|]. intros st3 Ho3.
    eapply runs_destroy_srq_kernel; [apply Hc|apply Hc|exact Hd|exact Hslot|exact Ho3|]. intros; by apply HN.
  - intros op mb n st2 E Ht Ho2. eapply runs_kfree; [exact Ho2|exact Hpa|]. intros st3 Ho3. apply runs_ret.
    apply (HS c n k j); try done. exists i, op, mb. destruct Hz as [Hk Hj _ _]. split_and!; try done.
    + apply Hc.
    + apply Z.log2_pow2. lia.
    + apply u32_small. lia.
Qed.

(** Two states of the tables that cannot be told apart. *)
Record srqt_eq (x y : srqt) : Prop := {
  se_array : s_array x = s_array y;
  se_dev : s_dev x = s_dev y;
  se_pd : forall p, s_pd_use x p = s_pd_use y p;
  se_cq : forall c, s_cq_use x c = s_cq_use y c;
  se_xrcd : forall d, s_xrcd_use x d = s_xrcd_use y d;
}.

Lemma use_one_back i (f : Z -> Z) c : use_one i (-1) (use_one i 1 f) c = f c.
Proof. unfold use_one, upd. rewrite Z.eqb_refl. destruct (Z.eqb_spec c i) as [->|]; lia. Qed.

Lemma count_back r x y :
  s_array y = s_array x -> s_dev y = s_dev x ->
  s_pd_use y = s_pd_use (count_srq_uses r 1 x) -> s_cq_use y = s_cq_use (count_srq_uses r 1 x) ->
  s_xrcd_use y = s_xrcd_use (count_srq_uses r 1 x) -> srqt_eq (count_srq_uses r (-1) y) x.
Proof.
  intros H1 H2 H3 H4 H5. split; simpl; [done|done|intros p; rewrite H3; apply use_one_back|..]; intros p.
  - rewrite H4. simpl. destruct (if ib_srq_has_cq _ then _ else _); [apply use_one_back|done].
  - rewrite H5. simpl. destruct (if bool_decide _ then _ else _); [apply use_one_back|done].
Qed.

(** A new queue of 2^k WQEs. *)
Record fresh_srq (r : srq_req) (q : srqobj) (k : Z) : Prop := {
  fs_req : so_req q = r;
  fs_room : sr_max_wr r <= 2 ^ k - 1;
  fs_queue : exists j, kernel_srq k j (so_k q) /\ announced r k j (so_k q) (so_srqn q);
  fs_apart : kernel_blocks k (so_k q) !! so_addr q = None;
  fs_unused : so_usecnt q = 0;
}.
Definition own_srq (k : Z) (q : srqobj) : gmap nat Z := {[so_addr q := sizeof_srq]} ∪ kernel_blocks k (so_k q).

Lemma runs_ib_create_srq r st x m D (Q : Z + srqobj -> drv srqt -> Prop) :
  0 <= log_max_srq_sz dev <= 15 -> honest_srq x -> srq_request r -> tags_ok r -> owned cls m D st ->
  (forall e st' y, owned cls m D st' -> srqt_eq y x -> Q (inl e) (mkdrv st' y)) ->
  (forall q k st', fresh_srq r q k -> own_srq k q ##ₘ m -> slot_of (sk_db (so_k q)) ∉ D ->
     owned cls (own_srq k q ∪ m) ({[slot_of (sk_db (so_k q))]} ∪ D) st' ->
     Q (inr q) (mkdrv st' (srq_entered (count_srq_uses r 1 x) (so_srqn q) (so_addr q)))) ->
  runs (ib_create_srq o cls sizeof_srq dev se nvmf_attrs create_nvmf r) (mkdrv st x) Q.
Proof.
  intros Hlog Hho Hr Htags Ho HN HS. apply runs_bind. eapply runs_kzalloc; [exact Ho|by intros; apply HN|].
  intros addr st1 Hat Ho1. apply runs_bind, runs_on_rest, runs_mod, runs_bind, runs_cleanup.
  eapply runs_mlx5_create_srq; [done|by destruct Hho; split|done|done|exact Ho1| |].
  - intros e st2 Ho2. apply runs_bind, runs_on_rest, runs_mod. eapply runs_kfree; [exact Ho2|exact Hat|].
    intros st3 Ho3. by apply HN, count_back.
  - intros c n k j st2 Hz Hc Ha [Hd1 Hd2]%map_disjoint_union_r Hslot Ho2. apply runs_ret.
    rewrite (union_swap _ {[addr := sizeof_srq]}), map_union_assoc in Ho2 by done.
    apply (HS (mksrqobj addr r c n 0) k st2); try done.
    + split; simpl; try done; [pose proof (zs_wr _ _ _ Hz); lia|by exists j|by apply map_disjoint_singleton_r in Hd1].
    + apply map_disjoint_union_l. split; [by apply map_disjoint_singleton_l|done].
Qed.

(** ** Destroying *)

Definition srq_left (q : srqobj) (x : srqt) : srqt :=
  count_srq_uses (so_req q) (-1)
    (with_sdev (with_array x (delete (so_srqn q) (s_array x))) (s_dev x ∖ {[so_srqn q]})).

Lemma runs_ib_destroy_srq q k size st x m D (Q : Z + unit -> drv srqt -> Prop) :
  buf_ok (sk_buf (so_k q)) size -> buf_blocks (sk_buf (so_k q)) !! sk_wrid (so_k q) = None ->
  kernel_blocks k (so_k q) !! so_addr q = None -> so_usecnt q = 0 -> (forall n, sv_destroy se n = 0) ->
  s_array x !! so_srqn q = Some (so_addr q) ->
  own_srq k q ##ₘ m -> slot_of (sk_db (so_k q)) ∉ D ->
  owned cls (own_srq k q ∪ m) ({[slot_of (sk_db (so_k q))]} ∪ D) st ->
  (forall st', owned cls m D st' -> Q (inr tt) (mkdrv st' (srq_left q x))) ->
  runs (ib_destroy_srq se q) (mkdrv st x) Q.
Proof.
  intros Hb Hw Hap Huse Hdes Harr [Hd1%map_disjoint_singleton_l Hd2]%map_disjoint_union_l Hslot Ho HQ.
  unfold ib_destroy_srq. rewrite Huse. cbn [Z.eqb negb]. apply runs_bind, runs_bind.
  unfold runs at 1, mlx5_cmd_destroy_srq. cbn [d_rest d_mem]. rewrite Harr, bool_decide_eq_true_2 by done.
  unfold destroy_srq_split. rewrite Hdes. cbn [Z.eqb]. eexists _, _. split; [reflexivity|]. cbn beta iota.
  unfold own_srq in Ho. rewrite <- map_union_assoc, union_swap in Ho by (by apply map_disjoint_singleton_l).
  eapply runs_destroy_srq_kernel; [exact Hb|exact Hw| |exact Hslot|exact Ho|].
  { apply map_disjoint_union_r. split; [by apply map_disjoint_singleton_r|done]. }
  intros st1 Ho1. apply runs_bind, runs_on_rest, runs_mod. eapply runs_kfree; [exact Ho1|exact Hd1|exact HQ].
Qed.

(** ** The theorems *)

(** C13. Asked for a shared receive queue of a type other than NVMe over Fabrics,
    and for tag matching with no more tags than the device has (a request over
    that limit loses the queue's memory), ib_create_srq always returns.  With an
    error nothing has changed: memory, doorbell records, the table of queues, the
    device and the reference counts are as before.  With a queue, exactly its
    structure, buffer, identifiers and doorbell record are taken in addition; all
    its WQEs but one are on the free list, at least as many as asked for; its
    number leads to it; and the device was told exactly its pages, its size and
    its doorbell record.  Assumed also: log_max_srq_sz <= 15, at most 255 entries
    a request, cache lines of 8 to 4096 bytes, the completion queue and XRC domain
    its type needs are given, and the device hands out unused numbers and obeys
    the command to destroy. *)
Theorem create_srq_all_or_nothing r st x m D :
  0 <= log_max_srq_sz dev <= 15 -> honest_srq x -> srq_request r -> tags_ok r -> owned cls m D st ->
  exists res st' x', ib_create_srq o cls sizeof_srq dev se nvmf_attrs create_nvmf r (mkdrv st x)
                     = Some (res, mkdrv st' x') /\
    match res with
    | inl _ => owned cls m D st' /\ srqt_eq x' x
    | inr q => exists k, fresh_srq r q k /\ own_srq k q ##ₘ m /\ (slot_of (sk_db (so_k q)) ∉ D) /\
        owned cls (own_srq k q ∪ m) ({[slot_of (sk_db (so_k q))]} ∪ D) st' /\
        x' = srq_entered (count_srq_uses r 1 x) (so_srqn q) (so_addr q)
    end.
Proof.
  intros Hlog Hho Hr Ht Ho.
  assert (H : runs (ib_create_srq o cls sizeof_srq dev se nvmf_attrs create_nvmf r) (mkdrv st x) (fun res s' =>
    match res with
    | inl _ => owned cls m D (d_mem s') /\ srqt_eq (d_rest s') x
    | inr q => exists k, fresh_srq r q k /\ own_srq k q ##ₘ m /\ (slot_of (sk_db (so_k q)) ∉ D) /\
        owned cls (own_srq k q ∪ m) ({[slot_of (sk_db (so_k q))]} ∪ D) (d_mem s') /\
        d_rest s' = srq_entered (count_srq_uses r 1 x) (so_srqn q) (so_addr q)
    end)).
  { apply (runs_ib_create_srq r st x m D); auto. intros q k st' ? ? ? ?. exists k. by repeat (split; [done|]). }
  destruct H as (res & [st' x'] & E & H). by exists res, st', x'.
Qed.

(** Creating a shared receive queue and destroying it again leads back to
    where one was: no memory and no doorbell record is lost or freed twice, and
    the table, the device and the reference counts are as they were, at whatever
    point the creation fails. *)
Theorem srq_round_trip r st x m D :
  0 <= log_max_srq_sz dev <= 15 -> honest_srq x -> srq_request r -> tags_ok r -> owned cls m D st ->
  (forall n, n ∉ s_dev x -> s_array x !! n = None) ->
  exists res st' x',
    (do! q := ib_create_srq o cls sizeof_srq dev se nvmf_attrs create_nvmf r in ib_destroy_srq se q) (mkdrv st x)
    = Some (res, mkdrv st' x') /\ owned cls m D st' /\ srqt_eq x' x.
Proof.
  intros Hlog Hho Hr Ht Ho Harr.
  assert (H : runs (do! q := ib_create_srq o cls sizeof_srq dev se nvmf_attrs create_nvmf r in ib_destroy_srq se q)
    (mkdrv st x) (fun _ s' => owned cls m D (d_mem s') /\ srqt_eq (d_rest s') x)).
  { apply runs_bind, (runs_ib_create_srq r st x m D); auto. intros q k st' [Hq _ (j & Hk & Ha) Hap Hu] Hd Hslot Ho'.
    destruct Ha as (i & op & mb & Hn & _). apply (hs_fresh _ Hho) in Hn.
    eapply runs_ib_destroy_srq; [apply Hk|apply Hk|exact Hap|exact Hu|apply Hho|apply lookup_insert_eq|exact Hd|exact Hslot|exact Ho'|].
    intros st2 Ho2. split; [done|]. unfold srq_left. rewrite Hq. apply count_back; try done; simpl.
    - rewrite delete_insert_id; [done|]. by apply Harr.
    - set_solver. }
  destruct H as (res & [st' x'] & E & H). by exists res, st', x'.
Qed.

(** A queue for tag matching with more tags than the device has room for is
    refused with -EINVAL, but the page list made for the command is lost: it is
    still allocated and nobody knows of it. *)
Theorem tag_limit_leaks r st x m D :
  0 <= log_max_srq_sz dev <= 15 -> srq_request r -> sr_max_wr r < 2 ^ log_max_srq_sz dev -> sr_type r = IB_SRQT_TM ->
  log_tag_matching_list_sz dev < tm_log_size (sr_max_num_tags r) -> owned cls m D st ->
  exists e st' x', ib_create_srq o cls sizeof_srq dev se nvmf_attrs create_nvmf r (mkdrv st x)
                   = Some (inl e, mkdrv st' x') /\
    (e = - ENOMEM /\ owned cls m D st' \/
     e = - EINVAL /\ exists b size, m !! b = None /\ owned cls ({[b := size]} ∪ m) D st').
Proof.
  intros Hlog Hr Hmax Hty Htags Ho.
  assert (H : runs (ib_create_srq o cls sizeof_srq dev se nvmf_attrs create_nvmf r) (mkdrv st x) (fun res s' =>
    exists e, res = inl e /\ (e = - ENOMEM /\ owned cls m D (d_mem s') \/
      e = - EINVAL /\ exists b size, m !! b = None /\ owned cls ({[b := size]} ∪ m) D (d_mem s')))).
  { apply runs_bind. eapply runs_kzalloc; [exact Ho|by intros; eexists; split; [done|left]|].
    intros addr st1 Hat Ho1. apply runs_bind, runs_on_rest, runs_mod, runs_bind, runs_cleanup.
    unfold mlx5_ib_create_srq. rewrite Z.shiftl_1_l.
    assert (2 ^ log_max_srq_sz dev <= 2 ^ 15) by (apply Z.pow_le_mono_r; lia). pose proof (pow2_pos (log_max_srq_sz dev)).
    rewrite u32_small by lia. destruct (Z.leb_spec (2 ^ log_max_srq_sz dev) (sr_max_wr r)); [lia|].
    destruct (srq_sizes_ok r _ Hr Hlog Hmax) as (k & j & Hz & ->). apply runs_bind, runs_ret, runs_bind.
    eapply runs_create_srq_kernel; [done|done|exact Ho1| |].
    { intros st2 Ho2. apply runs_bind, runs_on_rest, runs_mod. eapply runs_kfree; [exact Ho2|exact Hat|].
      intros st3 Ho3. eexists. split; [done|]. by left. }
    intros c st2 Hc Hd [Hpa1 Hpa2]%lookup_union_None Hslot Ho2. apply runs_cleanup.
    rewrite Hty. apply runs_bind, runs_ret, runs_bind, runs_ret. rewrite bool_decide_eq_true_2 by done. cbn [andb].
    destruct (Z.ltb_spec (log_tag_matching_list_sz dev) (tm_log_size (sr_max_num_tags r))); [|lia]. apply runs_fail.
    rewrite union_swap in Ho2 by (by apply map_disjoint_singleton_l).
    eapply runs_destroy_srq_kernel; [apply Hc|apply Hc| |exact Hslot|exact Ho2|].
    { apply map_disjoint_union_r. split; [by apply map_disjoint_singleton_r|done]. }
    intros st3 Ho3. apply runs_bind, runs_on_rest, runs_mod. apply lookup_union_None in Hpa2 as [Hpa2 Hpa3].
    apply lookup_singleton_None in Hpa2.
    rewrite union_swap in Ho3 by (apply map_disjoint_singleton_l; by apply lookup_singleton_None).
    eapply runs_kfree; [exact Ho3| |].
    { apply lookup_union_None. split; [by apply lookup_singleton_None|done]. }
    intros st4 Ho4. eexists. split; [done|]. right. split; [done|]. by eexists _, _. }
  destruct H as (res & [st' x'] & E & e & -> & H). by exists e, st', x'.
Qed.
End Life.

(** ** An example *)

Definition ex_srqdev : srq_dev := mksrqdev 15 4 true true 5 2.
Definition ex_srqenv : srq_env := mksrqenv (fun _ _ => 0) (fun _ _ => inr 33) (fun _ => 0) 0.
Definition ex_srqt : srqt := mksrqt ∅ ∅ (fun _ => 0) (fun _ => 0) (fun _ => 0).
Definition ex_srqreq (t : ib_srq_type) : srq_req := mksrqreq 100 3 t (Some 1) (Some 4) 64 1.
Definition no_nvmf : srq_req -> Z := fun _ => - EINVAL.
Definition no_nvmf_cmd : mlx5_srq_attr -> es (drv srqt) Z := fun _ => es_fail (- EINVAL).

Lemma ex_srq_honest : honest_srq ex_srqenv ex_srqt.
Proof. split; [|done]. intros op c n _. apply not_elem_of_empty. Qed.
Lemma ex_srq_request t : t <> IB_EXP_SRQT_NVMF -> srq_request (ex_srqreq t).
Proof. intros H. split; simpl; try done; by eexists. Qed.

Lemma create_srq_all_or_nothing_witness :
  exists q k s', ib_create_srq plenty 64 300 ex_srqdev ex_srqenv no_nvmf no_nvmf_cmd (ex_srqreq IB_SRQT_BASIC)
                   (mkdrv idle_mem ex_srqt) = Some (inr q, s') /\ fresh_srq ex_srqenv (ex_srqreq IB_SRQT_BASIC) q k.
Proof.
  destruct (create_srq_all_or_nothing plenty 64 300 ex_srqdev ex_srqenv line_64 no_nvmf no_nvmf_cmd
    (ex_srqreq IB_SRQT_BASIC) idle_mem ex_srqt ∅ ∅) as (res & st' & x' & E & H).
  - done.
  - exact ex_srq_honest.
  - by apply ex_srq_request.
  - done.
  - exact idle_owned.
  - assert (Hr : match ib_create_srq plenty 64 300 ex_srqdev ex_srqenv no_nvmf no_nvmf_cmd (ex_srqreq IB_SRQT_BASIC)
                         (mkdrv idle_mem ex_srqt) with Some (inr q, _) => true | _ => false end = true) by (by vm_compute).
    rewrite E in Hr. destruct res as [e|q]; [done|]. destruct H as (k & Hf & _). exists q, k, (mkdrv st' x').
    split; [exact E|exact Hf].
Defined.

Lemma srq_round_trip_witness :
  exists res st' x',
    (do! q := ib_create_srq plenty 64 300 ex_srqdev ex_srqenv no_nvmf no_nvmf_cmd (ex_srqreq IB_SRQT_XRC) in
     ib_destroy_srq ex_srqenv q) (mkdrv idle_mem ex_srqt) = Some (res, mkdrv st' x') /\
    owned 64 ∅ ∅ st' /\ srqt_eq x' ex_srqt.
Proof.
  apply (srq_round_trip plenty 64 300 ex_srqdev ex_srqenv line_64 no_nvmf no_nvmf_cmd (ex_srqreq IB_SRQT_XRC)
    idle_mem ex_srqt ∅ ∅).
  - done.
  - exact ex_srq_honest.
  - by apply ex_srq_request.
  - done.
  - exact idle_owned.
  - done.
Defined.

Lemma tag_limit_leaks_witness :
  exists st' x' b size, ib_create_srq plenty 64 300 ex_srqdev ex_srqenv no_nvmf no_nvmf_cmd (ex_srqreq IB_SRQT_TM)
                          (mkdrv idle_mem ex_srqt) = Some (inl (- EINVAL), mkdrv st' x') /\
    owned 64 ({[b := size]} ∪ ∅) ∅ st'.
Proof.
  destruct (tag_limit_leaks plenty 64 300 ex_srqdev ex_srqenv line_64 no_nvmf no_nvmf_cmd (ex_srqreq IB_SRQT_TM)
    idle_mem ex_srqt ∅ ∅) as (e & st' & x' & E & H).
  - done.
  - by apply ex_srq_request.
  - done.
  - done.
  - done.
  - exact idle_owned.
  - assert (Hr : match ib_create_srq plenty 64 300 ex_srqdev ex_srqenv no_nvmf no_nvmf_cmd (ex_srqreq IB_SRQT_TM)
                         (mkdrv idle_mem ex_srqt) with Some (inl e, _) => e =? - EINVAL | _ => false end = true) by (by vm_compute).
    rewrite E in Hr. apply Z.eqb_eq in Hr as ->. destruct H as [[Heq _]|[_ (b & size & _ & Ho)]]; [discriminate Heq|].
    exists st', x', b, size. split; [exact E|exact Ho].
Defined.
