(* ===== verification/SrqQuery.v ===== *)
(** * SrqQuery: the limit of a shared receive queue (hw/mlx5/srq.c, srq_cmd.c)

    ib_modify_srq arms the limit of a queue and ib_query_srq reads it back; for
    each kind of queue there is a command of its own.  The device is what it
    answers to the command that arms, and to a query after the commands it has
    taken. *)

From stdpp Require Import strings.
From S2P Require Import Prelude ErrState FragBuf Strides KHeap FragAlloc DbAlloc DrvState Mailbox QpTypes SqSize WqeSeg SqRing PostSend RecvQueue Srq SrqCreate.

Open Scope es_scope.

Definition IB_SRQ_MAX_WR : Z := 1.
Definition IB_SRQ_LIMIT : Z := 2.
Definition MLX5_CMD_OP_QUERY_SRQ : Z := 1794.
Definition MLX5_CMD_OP_ARM_RQ : Z := 1795.
Definition MLX5_CMD_OP_QUERY_XRC_SRQ : Z := 1799.
Definition MLX5_CMD_OP_ARM_XRC_SRQ : Z := 1800.
Definition MLX5_CMD_OP_QUERY_XRQ : Z := 1817.
Definition MLX5_CMD_OP_MODIFY_RMP : Z := 2317.
Definition MLX5_CMD_OP_QUERY_RMP : Z := 2319.
Definition MLX5_ARM_RQ_IN_OP_MOD_SRQ : Z := 1.
Definition MLX5_ARM_RQ_IN_OP_MOD_XRQ : Z := 2.
Definition MLX5_ARM_XRC_SRQ_IN_OP_MOD_XRC_SRQ : Z := 1.
Definition MLX5_SRQC_STATE_GOOD : Z := 0.
Definition MLX5_XRC_SRQC_STATE_GOOD : Z := 0.
Definition MLX5_XRQC_STATE_GOOD : Z := 0.

Definition MLX5_GET (i : mailbox) (f : string) : Z := default 0 (field_of i f).

(** What a query fills in of struct mlx5_srq_attr. *)
Record srq_out := mkout {
  ou_flags : Z;
  ou_log_page_size : Z;
  ou_wqe_shift : Z;
  ou_log_size : Z;
  ou_page_offset : Z;
  ou_lwm : Z;
  ou_pd : Z;
  ou_db_record : Z;
  ou_tm : Z * Z * Z;                    (* tm_next_tag, tm_hw_phase_cnt, tm_sw_phase_cnt *)
  ou_nvmf_cnt : Z;                      (* nvmf.cmd_unknown_namespace_cnt *)
}.
Definition zero_out : srq_out := mkout 0 0 0 0 0 0 0 0 (0, 0, 0) 0.

(** The signature clears flags instead of setting one. *)
Definition get_wq (wq : mailbox) (i : srq_out) : srq_out :=
  mkout (if MLX5_GET wq "wq_signature" =? 0 then ou_flags i else ou_flags i .& MLX5_SRQ_FLAG_WQ_SIG)
    (MLX5_GET wq "log_wq_pg_sz") (u32 (MLX5_GET wq "log_wq_stride" - 4)) (MLX5_GET wq "log_wq_sz")
    (MLX5_GET wq "page_offset") (MLX5_GET wq "lwm") (MLX5_GET wq "pd") (MLX5_GET wq "dbr_addr") (ou_tm i) (ou_nvmf_cnt i).
Definition get_srqc (c : mailbox) (i : srq_out) : srq_out :=
  mkout (if MLX5_GET c "wq_signature" =? 0 then ou_flags i else ou_flags i .& MLX5_SRQ_FLAG_WQ_SIG)
    (MLX5_GET c "log_page_size") (MLX5_GET c "log_rq_stride") (MLX5_GET c "log_srq_size")
    (MLX5_GET c "page_offset") (MLX5_GET c "lwm") (MLX5_GET c "pd") (MLX5_GET c "dbr_addr") (ou_tm i) (ou_nvmf_cnt i).
Definition flag_err (b : bool) (i : srq_out) : srq_out :=
  mkout (if b then ou_flags i .| MLX5_SRQ_FLAG_ERR else ou_flags i) (ou_log_page_size i) (ou_wqe_shift i) (ou_log_size i)
    (ou_page_offset i) (ou_lwm i) (ou_pd i) (ou_db_record i) (ou_tm i) (ou_nvmf_cnt i).

(** A shared receive queue, as the handlers see it. *)
Record srq_handle := mkshandle {
  sq_srqn : Z;
  sq_uid : Z;
  sq_res : srq_res;
  sq_max : Z;
  sq_max_gs : Z;
  sq_nvmf : bool;                       (* srq_type == IB_EXP_SRQT_NVMF *)
}.

Section Query.
Context (o : oracle) (issi nvmf_cap : bool).
Context (sizeof : string -> Z).         (* bytes of the mailboxes *)
Context (exec_arm : mailbox -> Z) (exec_query : list mailbox -> mailbox -> Z + mailbox).

(** The state besides memory: the commands the device has taken. *)
Definition arm (c : mailbox) : es (drv (list mailbox)) unit :=
  if exec_arm c =? 0 then on_rest (es_mod (fun l => l ++ [c])) else es_fail (exec_arm c).
Definition ask (c : mailbox) : es (drv (list mailbox)) mailbox :=
  do! s := es_get in es_sum (exec_query (d_rest s) c).

(** kvzalloc of some mailboxes around a call *)
Definition with_mailboxes {A} (names : list string) (m : es (drv (list mailbox)) A) : es (drv (list mailbox)) A :=
  do! l := d_kvmalloc_all o (sizeof <$> names) in
  es_finally (if forallb (fun b => if b is Some _ then true else false) l then m else es_fail (- ENOMEM))
  (d_kvfree_all l).

(** ** Arming *)

Definition arm_srq_cmd (q : srq_handle) (lwm : Z) : es (drv (list mailbox)) unit :=
  let c := MLX5_SET "opcode" MLX5_CMD_OP_ARM_RQ (mkmb ∅ []) in
  let c := MLX5_SET "op_mod" MLX5_ARM_RQ_IN_OP_MOD_SRQ c in
  let c := MLX5_SET "srq_number" (sq_srqn q) c in
  arm (MLX5_SET "uid" (sq_uid q) (MLX5_SET "lwm" lwm c)).

Definition arm_xrc_srq_cmd (q : srq_handle) (lwm : Z) : es (drv (list mailbox)) unit :=
  let c := MLX5_SET "opcode" MLX5_CMD_OP_ARM_XRC_SRQ (mkmb ∅ []) in
  let c := MLX5_SET "op_mod" MLX5_ARM_XRC_SRQ_IN_OP_MOD_XRC_SRQ c in
  let c := MLX5_SET "xrc_srqn" (sq_srqn q) c in
  arm (MLX5_SET "uid" (sq_uid q) (MLX5_SET "lwm" lwm c)).

Definition arm_xrq_cmd (q : srq_handle) (lwm : Z) : es (drv (list mailbox)) unit :=
  let c := MLX5_SET "opcode" MLX5_CMD_OP_ARM_RQ (mkmb ∅ []) in
  let c := MLX5_SET "op_mod" MLX5_ARM_RQ_IN_OP_MOD_XRQ c in
  let c := MLX5_SET "srq_number" (sq_srqn q) c in
  arm (MLX5_SET "uid" (sq_uid q) (MLX5_SET "lwm" lwm c)).

Definition arm_rmp_cmd (q : srq_handle) (lwm : Z) : es (drv (list mailbox)) unit :=
  with_mailboxes ["modify_rmp_in"; "modify_rmp_out"]%string (
    let c := MLX5_SET "rmp_state" MLX5_RMPC_STATE_RDY (mkmb ∅ []) in
    let c := MLX5_SET "uid" (sq_uid q) (MLX5_SET "rmpn" (sq_srqn q) c) in
    let c := MLX5_SET "bitmask_lwm" 1 (MLX5_SET "lwm" lwm c) in
    arm (MLX5_SET "opcode" MLX5_CMD_OP_MODIFY_RMP (MLX5_SET "state" MLX5_RMPC_STATE_RDY c))).

Definition mlx5_cmd_arm_srq (q : srq_handle) (lwm : Z) : es (drv (list mailbox)) unit :=
  if negb issi then arm_srq_cmd q lwm
  else match sq_res q with
       | MLX5_RES_XSRQ => arm_xrc_srq_cmd q lwm
       | MLX5_RES_XRQ => arm_xrq_cmd q lwm
       | MLX5_RES_SRQ => arm_rmp_cmd q lwm
       end.

(** ib_modify_srq for a caller in the kernel; the limit becomes a u16. *)
Definition mlx5_ib_modify_srq (q : srq_handle) (srq_limit attr_mask : Z) : es (drv (list mailbox)) unit :=
  if test attr_mask IB_SRQ_MAX_WR then es_fail (- EINVAL)
  else if test attr_mask IB_SRQ_LIMIT then
    if u32 (sq_max q) <=? srq_limit then es_fail (- EINVAL) else mlx5_cmd_arm_srq q (u16 srq_limit)
  else es_ret tt.

(** ** Querying *)

Definition query_srq_cmd (q : srq_handle) (out : srq_out) : es (drv (list mailbox)) srq_out :=
  with_mailboxes ["query_srq_out"]%string (
    do! c := ask (MLX5_SET "srqn" (sq_srqn q) (MLX5_SET "opcode" MLX5_CMD_OP_QUERY_SRQ (mkmb ∅ []))) in
    es_ret (flag_err (negb (MLX5_GET c "state" =? MLX5_SRQC_STATE_GOOD)) (get_srqc c out))).

Definition query_xrc_srq_cmd (q : srq_handle) (out : srq_out) : es (drv (list mailbox)) srq_out :=
  with_mailboxes ["query_xrc_srq_out"]%string (
    do! c := ask (MLX5_SET "xrc_srqn" (sq_srqn q) (MLX5_SET "opcode" MLX5_CMD_OP_QUERY_XRC_SRQ (mkmb ∅ []))) in
    es_ret (flag_err (negb (MLX5_GET c "state" =? MLX5_XRC_SRQC_STATE_GOOD)) (get_srqc c out))).

Definition query_rmp_cmd (q : srq_handle) (out : srq_out) : es (drv (list mailbox)) srq_out :=
  with_mailboxes ["query_rmp_out"; "query_rmp_in"]%string (
    do! c := ask (MLX5_SET "rmpn" (sq_srqn q) (MLX5_SET "opcode" MLX5_CMD_OP_QUERY_RMP (mkmb ∅ []))) in
    es_ret (flag_err (negb (MLX5_GET c "state" =? MLX5_RMPC_STATE_RDY)) (get_wq c out))).

Definition query_xrq_cmd (q : srq_handle) (out : srq_out) : es (drv (list mailbox)) srq_out :=
  with_mailboxes ["query_xrq_out"]%string (
    do! c := ask (MLX5_SET "xrqn" (sq_srqn q) (MLX5_SET "opcode" MLX5_CMD_OP_QUERY_XRQ (mkmb ∅ []))) in
    let i := flag_err (negb (MLX5_GET c "state" =? MLX5_XRQC_STATE_GOOD)) (get_wq c out) in
    es_ret (mkout (ou_flags i) (ou_log_page_size i) (ou_wqe_shift i) (ou_log_size i) (ou_page_offset i) (ou_lwm i)
              (ou_pd i) (ou_db_record i)
              (MLX5_GET c "append_next_index", MLX5_GET c "hw_phase_cnt", MLX5_GET c "sw_phase_cnt")
              (if nvmf_cap then MLX5_GET c "cmd_unknown_namespace_cnt" else ou_nvmf_cnt i))).

Definition mlx5_cmd_query_srq (q : srq_handle) (out : srq_out) : es (drv (list mailbox)) srq_out :=
  if negb issi then query_srq_cmd q out
  else match sq_res q with
       | MLX5_RES_XSRQ => query_xrc_srq_cmd q out
       | MLX5_RES_XRQ => query_xrq_cmd q out
       | MLX5_RES_SRQ => query_rmp_cmd q out
       end.

(** struct ib_srq_attr *)
Record ib_srq_attr := mksattr { sat_max_wr : Z; sat_max_sge : Z; sat_srq_limit : Z; sat_nvmf_cnt : option Z }.

Definition mlx5_ib_query_srq (q : srq_handle) : es (drv (list mailbox)) ib_srq_attr :=
  do! at_ := d_kzalloc o (sizeof "mlx5_srq_attr") in
  do! out := es_finally (mlx5_cmd_query_srq q zero_out) (d_kfree at_) in
  es_ret (mksattr (u32 (sq_max q - 1)) (u32 (sq_max_gs q)) (ou_lwm out)
            (if sq_nvmf q then Some (ou_nvmf_cnt out) else None)).
End Query.

(** ** The limit *)

(** Command [c] arms queue [n] with [v]; query [q] is about queue [n]. *)
Definition arms (c : mailbox) (n v : Z) : Prop :=
  field_of c "lwm" = Some v /\
  ((field_of c "opcode" = Some MLX5_CMD_OP_ARM_RQ /\ field_of c "srq_number" = Some n) \/
   (field_of c "opcode" = Some MLX5_CMD_OP_ARM_XRC_SRQ /\ field_of c "xrc_srqn" = Some n) \/
   (field_of c "opcode" = Some MLX5_CMD_OP_MODIFY_RMP /\ field_of c "rmpn" = Some n)).
Definition asks (q : mailbox) (n : Z) : Prop :=
  (field_of q "opcode" = Some MLX5_CMD_OP_QUERY_SRQ /\ field_of q "srqn" = Some n) \/
  (field_of q "opcode" = Some MLX5_CMD_OP_QUERY_XRC_SRQ /\ field_of q "xrc_srqn" = Some n) \/
  (field_of q "opcode" = Some MLX5_CMD_OP_QUERY_RMP /\ field_of q "rmpn" = Some n) \/
  (field_of q "opcode" = Some MLX5_CMD_OP_QUERY_XRQ /\ field_of q "xrqn" = Some n).

Section Limit.
Context (o : oracle) (cls : Z) (issi nvmf_cap : bool) (sizeof : string -> Z).
Context (exec_arm : mailbox -> Z) (exec_query : list mailbox -> mailbox -> Z + mailbox).
Implicit Types (m : gmap nat Z) (D : gset (nat * nat)) (x : list mailbox).

(** A device that takes the commands and reports the last limit it was told. *)
Record keeps_limit : Prop := {
  kl_arm : forall c, exec_arm c = 0;
  kl_query : forall x c n v q, arms c n v -> asks q n ->
    exists ctx, exec_query (x ++ [c]) q = inr ctx /\ field_of ctx "lwm" = Some v;
}.

Lemma runs_with_mailboxes {A} names (c : es (drv (list mailbox)) A) st x m D (Q : Z + A -> drv (list mailbox) -> Prop) :
  owned cls m D st -> (forall st', owned cls m D st' -> Q (inl (- ENOMEM)) (mkdrv st' x)) ->
  (forall st', runs c (mkdrv st' x) (fun r s' => d_mem s' = st' /\
     forall st'', owned cls m D st'' -> Q r (mkdrv st'' (d_rest s')))) ->
  runs (with_mailboxes o sizeof names c) (mkdrv st x) Q.
Proof.
  intros Ho HN HS. apply runs_bind. eapply runs_kvmalloc_all; [exact Ho|]. intros l st1 Hlen Hnd Hd Ho1.
  apply runs_finally. destruct (forallb _ l).
  - eapply runs_mono; [apply HS|]. intros r [st2 y] [E HQ]. cbn [d_mem d_rest] in E, HQ. subst st2.
    eapply runs_kvfree_all; [exact Ho1|exact Hd|done|intros b; by apply blocks_of_all_dom|].
    intros st3 Ho3. specialize (HQ _ Ho3). by destruct r.
  - apply runs_fail. eapply runs_kvfree_all; [exact Ho1|exact Hd|done|intros b; by apply blocks_of_all_dom|].
    intros; by apply HN.
Qed.

Lemma runs_arm q lwm st x m D (Q : Z + unit -> drv (list mailbox) -> Prop) :
  keeps_limit -> owned cls m D st -> (forall st', owned cls m D st' -> Q (inl (- ENOMEM)) (mkdrv st' x)) ->
  (forall c st', owned cls m D st' -> arms c (sq_srqn q) lwm -> Q (inr tt) (mkdrv st' (x ++ [c]))) ->
  runs (mlx5_cmd_arm_srq o issi sizeof exec_arm q lwm) (mkdrv st x) Q.
Proof.
  intros [Ha _] Ho HN HS. unfold mlx5_cmd_arm_srq, arm_srq_cmd, arm_xrc_srq_cmd, arm_xrq_cmd, arm_rmp_cmd, arm.
  destruct issi; cbn [negb]; [destruct (sq_res q)|];
    [apply (runs_with_mailboxes _ _ _ _ m D); [done|done|]; intros st'|..]; rewrite Ha; cbn [Z.eqb];
    apply runs_on_rest, runs_mod; [split; [done|]; intros st'' Ho''; cbn [d_rest]|..];
    (apply HS; [done|]); (split; [by fields|]); [right; right|right; left|left|left]; by fields.
Qed.

(** A query after command [c]. *)
Lemma runs_query q v c out st x m D (Q : Z + srq_out -> drv (list mailbox) -> Prop) :
  keeps_limit -> arms c (sq_srqn q) v -> owned cls m D st ->
  (forall st', owned cls m D st' -> Q (inl (- ENOMEM)) (mkdrv st' (x ++ [c]))) ->
  (forall r st', owned cls m D st' -> ou_lwm r = v -> Q (inr r) (mkdrv st' (x ++ [c]))) ->
  runs (mlx5_cmd_query_srq o issi nvmf_cap sizeof exec_query q out) (mkdrv st (x ++ [c])) Q.
Proof.
  intros [_ Hq] Hc Ho HN HS. unfold mlx5_cmd_query_srq, query_srq_cmd, query_xrc_srq_cmd, query_xrq_cmd, query_rmp_cmd.
  assert (Hask : forall p (f : mailbox -> srq_out) names, asks p (sq_srqn q) -> (forall ctx, ou_lwm (f ctx) = MLX5_GET ctx "lwm") ->
    runs (with_mailboxes o sizeof names (do! ctx := ask exec_query p in es_ret (f ctx))) (mkdrv st (x ++ [c])) Q).
  { intros p f names Hp Hf. apply (runs_with_mailboxes _ _ _ _ m D); [done|done|]. intros st'.
    destruct (Hq x c _ _ p Hc Hp) as (ctx & E & Hv). apply runs_bind, runs_bind, runs_get. cbn [d_rest]. rewrite E.
    apply runs_ret, runs_ret. split; [done|]. intros st'' Ho''. apply HS; [done|]. by rewrite Hf; unfold MLX5_GET; rewrite Hv. }
  destruct issi; cbn [negb]; [destruct (sq_res q)|]; apply Hask; try (by intros);
    [right; right; left|right; left|right; right; right|left]; by fields.
Qed.

(** C14. The limit of a shared receive queue comes back: arming a limit below the
    size of the queue and querying it, for any kind of queue, either runs out of
    memory or yields the low 16 bits of the limit - the limit itself for queues
    of up to 2^16 entries - together with the number of requests the queue takes
    and its scatter entries; no memory is lost on any path. *)
Theorem srq_limit_roundtrip q limit st x m D :
  keeps_limit -> 0 <= limit < sq_max q -> sq_max q <= 2 ^ 31 -> 0 <= sq_max_gs q < 2 ^ 32 -> owned cls m D st ->
  exists res st' x',
    (mlx5_ib_modify_srq o issi sizeof exec_arm q limit IB_SRQ_LIMIT ;;
     mlx5_ib_query_srq o issi nvmf_cap sizeof exec_query q) (mkdrv st x) = Some (res, mkdrv st' x') /\
    owned cls m D st' /\
    match res with
    | inl e => e = - ENOMEM
    | inr a => sat_srq_limit a = limit mod 2 ^ 16 /\ (sq_max q <= 2 ^ 16 -> sat_srq_limit a = limit) /\
               sat_max_wr a = sq_max q - 1 /\ sat_max_sge a = sq_max_gs q
    end.
Proof.
  intros Hk Hl Hmax Hgs Ho.
  assert (H : runs (mlx5_ib_modify_srq o issi sizeof exec_arm q limit IB_SRQ_LIMIT ;;
     mlx5_ib_query_srq o issi nvmf_cap sizeof exec_query q) (mkdrv st x) (fun res s' => owned cls m D (d_mem s') /\
    match res with
    | inl e => e = - ENOMEM
    | inr a => sat_srq_limit a = limit mod 2 ^ 16 /\ (sq_max q <= 2 ^ 16 -> sat_srq_limit a = limit) /\
               sat_max_wr a = sq_max q - 1 /\ sat_max_sge a = sq_max_gs q
    end)).
  { apply runs_bind. unfold mlx5_ib_modify_srq. test_consts. cbv match. rewrite u32_small by lia.
    destruct (Z.leb_spec (sq_max q) limit); [lia|]. eapply runs_arm; [done|exact Ho|done|].
    intros c st1 Ho1 Hc. apply runs_bind. eapply runs_kzalloc; [exact Ho1|done|]. intros b st2 Hb Ho2.
    apply runs_bind, runs_finally. eapply runs_query; [done|exact Hc|exact Ho2|..].
    - intros st3 Ho3. by eapply runs_kfree; [exact Ho3|done|].
    - intros r st3 Ho3 Hr. eapply runs_kfree; [exact Ho3|done|]. intros st4 Ho4. apply runs_ret. split; [done|]. simpl.
      rewrite Hr, !u32_small by lia. unfold u16. split; [done|]. split; [|done]. intros H16. apply Z.mod_small. lia. }
  destruct H as (res & [st' x'] & E & H). by exists res, st', x'.
Qed.
End Limit.

(** ** An example *)

(** A device with one queue. *)
Definition ex_ctx (x : list mailbox) : mailbox := MLX5_SET "lwm" (MLX5_GET (default (mkmb ∅ []) (last x)) "lwm") (mkmb ∅ []).
Lemma ex_keeps_limit : keeps_limit (fun _ => 0) (fun x _ => inr (ex_ctx x)).
Proof.
  split; [done|]. intros x c n v q [Hv _] _. eexists. split; [done|]. unfold ex_ctx. rewrite last_snoc, field_set_eq.
  unfold MLX5_GET. simpl. by rewrite Hv.
Qed.

Lemma srq_limit_roundtrip_witness :
  exists res st' x',
    (mlx5_ib_modify_srq plenty true (fun _ => 64) (fun _ => 0) (mkshandle 3 0 MLX5_RES_SRQ 1024 2 false) 100 IB_SRQ_LIMIT ;;
     mlx5_ib_query_srq plenty true false (fun _ => 64) (fun x _ => inr (ex_ctx x)) (mkshandle 3 0 MLX5_RES_SRQ 1024 2 false))
      (mkdrv idle_mem []) = Some (inr res, mkdrv st' x') /\ sat_srq_limit res = 100 /\ sat_max_wr res = 1023.
Proof.
  destruct (srq_limit_roundtrip plenty 64 true false (fun _ => 64) (fun _ => 0) (fun x _ => inr (ex_ctx x))
    (mkshandle 3 0 MLX5_RES_SRQ 1024 2 false) 100 idle_mem [] ∅ ∅) as (res & st' & x' & E & _ & H).
  - exact ex_keeps_limit.
  - done.
  - done.
  - done.
  - exact idle_owned.
  - assert (Hr : match (mlx5_ib_modify_srq plenty true (fun _ => 64) (fun _ => 0) (mkshandle 3 0 MLX5_RES_SRQ 1024 2 false) 100 IB_SRQ_LIMIT ;;
      mlx5_ib_query_srq plenty true false (fun _ => 64) (fun x _ => inr (ex_ctx x)) (mkshandle 3 0 MLX5_RES_SRQ 1024 2 false))
      (mkdrv idle_mem []) with Some (inr _, _) => true | _ => false end = true) by (by vm_compute).
    rewrite E in Hr. destruct res as [e|a]; [discriminate Hr|]. destruct H as (_ & H1 & H2 & _).
    exists a, st', x'. split; [exact E|]. split; [by apply H1|exact H2].
Defined.
