(* ===== verification/RcBringUp.v ===== *)
(** * RcBringUp: connecting a queue pair (core/verbs.c, core/cm.c; KRdmaKit qp/rc.rs)

    How KRCore takes a reliable connection from RESET to RTS: [RC::bring_to_rtr]
    and [RC::bring_to_rts] ask the connection manager for the attributes of the
    next state, change some, and call [ib_modify_qp], which checks the addresses
    and hands over to mlx5_ib_modify_qp.  Automatic counters (off unless an
    administrator turns them on) are left out, and udata is NULL as for all
    kernel callers. *)

From S2P Require Import Prelude ErrState FragBuf Strides KHeap FragAlloc QpTypes SqRing RecvQueue Srq Cqe CqRing QpState QpContext QpModify QpExample QpModifyThm QpQuery.

Open Scope es_scope.

(** ** ib_modify_qp *)

(** struct ib_gid_attr, as an address refers to it *)
Record gid_attr := mkga { ga_index : Z; ga_port : Z; ga_type : Z }.

(** What the core knows of the device. *)
Record verbs_dev := mkvd {
  vd_ports : Z * Z;                    (* rdma_start_port, rdma_end_port *)
  vd_grh_required : Z -> bool;
  vd_ib : Z -> bool;                   (* rdma_protocol_ib *)
  vd_roce : Z -> bool;
  vd_gid : Z -> Z -> Z + gid_attr;     (* rdma_get_gid_attr: port, index *)
  vd_security : ib_qp_attr -> Z -> Z;  (* the checks of ib_security_modify_qp *)
}.

(** The queue pair of the driver and of the core. *)
Record vst := mkvst { v_m : mst; v_port : Z }.

Definition on_m {A} (m : es mst A) : es vst A := fun s =>
  '(r, m') ← m (v_m s); Some (r, mkvst m' (v_port s)).

Definition rdma_is_port_valid (vd : verbs_dev) (port : Z) : bool :=
  (fst (vd_ports vd) <=? port) && (port <=? snd (vd_ports vd)).

Definition rdma_check_ah_attr (vd : verbs_dev) (ah : rdma_ah_attr) (sgid : option gid_attr) : Z :=
  if negb (rdma_is_port_valid vd (ah_port_num ah)) then - EINVAL
  else if (vd_grh_required vd (ah_port_num ah) || is_roce (ah_type ah)) && negb (test (ah_flags ah) IB_AH_GRH)
  then - EINVAL
  else match sgid with
       | Some g => if negb (ga_index g =? ah_sgid_index ah) || negb (ga_port g =? ah_port_num ah)
                   then - EINVAL else 0
       | None => 0
       end.

Definition with_gid_type (ah : rdma_ah_attr) (t : Z) : rdma_ah_attr :=
  {| ah_type := ah_type ah; ah_sl := ah_sl ah; ah_static_rate := ah_static_rate ah;
     ah_port_num := ah_port_num ah; ah_flags := ah_flags ah; ah_dgid := ah_dgid ah;
     ah_flow_label := ah_flow_label ah; ah_sgid_index := ah_sgid_index ah; ah_hop_limit := ah_hop_limit ah;
     ah_traffic_class := ah_traffic_class ah; ah_gid_type := t; ah_dlid := ah_dlid ah;
     ah_src_path_bits := ah_src_path_bits ah; ah_udp_sport := ah_udp_sport ah; ah_dmac := ah_dmac ah |}.

(** The address with the type of its source GID filled in. *)
Definition rdma_fill_sgid_attr (vd : verbs_dev) (ah : rdma_ah_attr) (sgid : option gid_attr)
    : Z + rdma_ah_attr :=
  let ret := rdma_check_ah_attr vd ah sgid in
  if negb (ret =? 0) then inl ret
  else if negb (test (ah_flags ah) IB_AH_GRH) then inr ah
  else match sgid with
       | Some g => inr (with_gid_type ah (ga_type g))
       | None => match vd_gid vd (ah_port_num ah) (ah_sgid_index ah) with
                 | inl e => inl e
                 | inr g => inr (with_gid_type ah (ga_type g))
                 end
       end.

Definition with_ah (a : ib_qp_attr) (ah : rdma_ah_attr) : ib_qp_attr :=
  {| qp_state := qp_state a; cur_qp_state := cur_qp_state a; path_mtu := path_mtu a;
     path_mig_state := path_mig_state a; qkey := qkey a; rq_psn := rq_psn a; sq_psn := sq_psn a;
     dest_qp_num := dest_qp_num a; qp_access_flags := qp_access_flags a; ah_attr := ah;
     alt_ah_attr := alt_ah_attr a; pkey_index := pkey_index a; alt_pkey_index := alt_pkey_index a;
     max_rd_atomic := max_rd_atomic a; max_dest_rd_atomic := max_dest_rd_atomic a;
     min_rnr_timer := min_rnr_timer a; port_num := port_num a; timeout := timeout a; retry_cnt := retry_cnt a;
     rnr_retry := rnr_retry a; alt_port_num := alt_port_num a; alt_timeout := alt_timeout a;
     dct_key := dct_key a; offload_type := offload_type a; rmpn_xrqn := rmpn_xrqn a |}.

Definition with_alt_ah (a : ib_qp_attr) (ah : rdma_ah_attr) : ib_qp_attr :=
  {| qp_state := qp_state a; cur_qp_state := cur_qp_state a; path_mtu := path_mtu a;
     path_mig_state := path_mig_state a; qkey := qkey a; rq_psn := rq_psn a; sq_psn := sq_psn a;
     dest_qp_num := dest_qp_num a; qp_access_flags := qp_access_flags a; ah_attr := ah_attr a;
     alt_ah_attr := ah; pkey_index := pkey_index a; alt_pkey_index := alt_pkey_index a;
     max_rd_atomic := max_rd_atomic a; max_dest_rd_atomic := max_dest_rd_atomic a;
     min_rnr_timer := min_rnr_timer a; port_num := port_num a; timeout := timeout a; retry_cnt := retry_cnt a;
     rnr_retry := rnr_retry a; alt_port_num := alt_port_num a; alt_timeout := alt_timeout a;
     dct_key := dct_key a; offload_type := offload_type a; rmpn_xrqn := rmpn_xrqn a |}.

(** The packet sequence numbers have 24 bits. *)
Definition trim_psn (a : ib_qp_attr) (mask : Z) : ib_qp_attr :=
  {| qp_state := qp_state a; cur_qp_state := cur_qp_state a; path_mtu := path_mtu a;
     path_mig_state := path_mig_state a; qkey := qkey a;
     rq_psn := if test mask IB_QP_RQ_PSN && test (rq_psn a) (Z.lnot 16777215) then rq_psn a .& 16777215 else rq_psn a;
     sq_psn := if test mask IB_QP_SQ_PSN && test (sq_psn a) (Z.lnot 16777215) then sq_psn a .& 16777215 else sq_psn a;
     dest_qp_num := dest_qp_num a; qp_access_flags := qp_access_flags a; ah_attr := ah_attr a;
     alt_ah_attr := alt_ah_attr a; pkey_index := pkey_index a; alt_pkey_index := alt_pkey_index a;
     max_rd_atomic := max_rd_atomic a; max_dest_rd_atomic := max_dest_rd_atomic a;
     min_rnr_timer := min_rnr_timer a; port_num := port_num a; timeout := timeout a; retry_cnt := retry_cnt a;
     rnr_retry := rnr_retry a; alt_port_num := alt_port_num a; alt_timeout := alt_timeout a;
     dct_key := dct_key a; offload_type := offload_type a; rmpn_xrqn := rmpn_xrqn a |}.

Section Verbs.
Context (vd : verbs_dev) (dev : mlx5_dev).
Context (raw : Z -> ib_qp_attr -> Z -> es mst unit) (gsi dct : ib_qp_attr -> Z -> es mst unit).

(** _ib_modify_qp for a caller in the kernel; [sgid] and [alt_sgid] are the
    sgid_attr of the two addresses.  EINVAL is positive in one place. *)
Definition ib_modify_qp (e : env) (attr : ib_qp_attr) (sgid alt_sgid : option gid_attr) (mask : Z)
    : es vst unit :=
  do! s := es_get in
  let port := if test mask IB_QP_PORT then port_num attr else v_port s in
  do! attr := (if test mask IB_QP_AV
               then es_sum (match rdma_fill_sgid_attr vd (ah_attr attr) sgid with
                            | inl e => inl e
                            | inr ah => inr (with_ah attr ah)
                            end)
               else es_ret attr) in
  do! attr := (if test mask IB_QP_ALT_PATH
               then es_sum (match rdma_fill_sgid_attr vd (alt_ah_attr attr) alt_sgid with
                            | inl e => inl e
                            | inr ah =>
                                if negb (vd_ib vd (ah_port_num (alt_ah_attr attr)) && vd_ib vd port)
                                then inl EINVAL
                                else inr (with_alt_ah attr ah)
                            end)
               else es_ret attr) in
  let attr := if vd_ib vd port || vd_roce vd port then trim_psn attr mask else attr in
  let ret := vd_security vd attr mask in
  if negb (ret =? 0) then es_fail ret
  else
  on_m (mlx5_ib_modify_qp dev raw gsi dct e None attr mask) ;;
  when test mask IB_QP_PORT then! es_mod (fun s => mkvst (v_m s) (port_num attr)).

(** ** The state of the queue pair *)

(** What the device's context of the queue pair is after the commands it saw,
    or the error of the query. *)
Context (answer : list (qp_cmd * Z) -> Z + mlx5_qp_context).

Definition set_state (s : mst) (st : ib_qp_state) : mst :=
  let d := k_dyn (m_qp s) in
  with_m_qp s (with_k_dyn (m_qp s)
    (mkdyn st (k_port d) (k_atomic_rd_en d) (k_resp_depth d) (k_alt_port d) (k_srq d)
       (k_counter_pending d) (k_ah d))).

(** mlx5_ib_query_qp of a queue pair with a context of its own: the state comes
    from the device and is noted. *)
Definition query_state : es mst ib_qp_state :=
  do! s := es_get in
  if k_rwq_ind_tbl (k_fix (m_qp s)) then es_fail (- ENOSYS)
  else
  do! c := es_sum (answer (m_cmds s)) in
  do! st := es_lift (qr_state (query_qp_attr dev (k_type (k_fix (m_qp s))) c)) in
  es_mod (fun s => set_state s st) ;; es_ret st.

(** [get_status().unwrap()] *)
Definition get_status : es vst ib_qp_state := fun s =>
  '(r, s') ← on_m query_state s;
  match r with inr st => Some (inr st, s') | inl _ => None end.
End Verbs.

(** ** The connection manager *)

Inductive ib_cm_state :=
| IB_CM_IDLE | IB_CM_LISTEN | IB_CM_REQ_SENT | IB_CM_REQ_RCVD | IB_CM_MRA_REQ_SENT | IB_CM_MRA_REQ_RCVD
| IB_CM_REP_SENT | IB_CM_REP_RCVD | IB_CM_MRA_REP_SENT | IB_CM_MRA_REP_RCVD | IB_CM_ESTABLISHED
| IB_CM_DREQ_SENT | IB_CM_DREQ_RCVD | IB_CM_TIMEWAIT | IB_CM_SIDR_REQ_SENT | IB_CM_SIDR_REQ_RCVD.

(** struct cm_av *)
Record cm_av := mkav {
  av_ah : rdma_ah_attr; av_sgid : option gid_attr; av_port_num : Z; av_pkey_index : Z; av_timeout : Z }.

Record cm_id_private := mkcm {
  cm_state : ib_cm_state;
  cm_lap_uninit : bool;                (* lap_state == IB_CM_LAP_UNINIT *)
  cm_qp_type : ib_qp_type;
  cm_av_ : cm_av;
  cm_alt_av : cm_av;
  cm_path_mtu : Z;
  cm_remote_qpn : Z;
  cm_rq_psn : Z;
  cm_sq_psn : Z;
  cm_responder_resources : Z;
  cm_initiator_depth : Z;
  cm_retry_count : Z;
  cm_rnr_retry_count : Z;
}.

Definition cm_init_qp_init_attr (c : cm_id_private) (a : ib_qp_attr) : Z + ib_qp_attr * Z :=
  match cm_state c with
  | IB_CM_REQ_SENT | IB_CM_MRA_REQ_RCVD | IB_CM_REQ_RCVD | IB_CM_MRA_REQ_SENT | IB_CM_REP_RCVD
  | IB_CM_MRA_REP_SENT | IB_CM_REP_SENT | IB_CM_MRA_REP_RCVD | IB_CM_ESTABLISHED =>
      inr (
        {| qp_state := qp_state a; cur_qp_state := cur_qp_state a; path_mtu := path_mtu a;
           path_mig_state := path_mig_state a; qkey := qkey a; rq_psn := rq_psn a; sq_psn := sq_psn a;
           dest_qp_num := dest_qp_num a;
           qp_access_flags := if cm_responder_resources c =? 0 then IB_ACCESS_REMOTE_WRITE else IB_ACCESS_REMOTE_WRITE .| (IB_ACCESS_REMOTE_READ .| IB_ACCESS_REMOTE_ATOMIC);
           ah_attr := ah_attr a; alt_ah_attr := alt_ah_attr a; pkey_index := av_pkey_index (cm_av_ c);
           alt_pkey_index := alt_pkey_index a; max_rd_atomic := max_rd_atomic a;
           max_dest_rd_atomic := max_dest_rd_atomic a; min_rnr_timer := min_rnr_timer a;
           port_num := av_port_num (cm_av_ c); timeout := timeout a; retry_cnt := retry_cnt a;
           rnr_retry := rnr_retry a; alt_port_num := alt_port_num a; alt_timeout := alt_timeout a;
           dct_key := dct_key a; offload_type := offload_type a; rmpn_xrqn := rmpn_xrqn a |}, IB_QP_STATE .| IB_QP_ACCESS_FLAGS .| IB_QP_PKEY_INDEX .| IB_QP_PORT)
  | _ => inl (- EINVAL)
  end.

Definition cm_init_qp_rtr_attr (c : cm_id_private) (a : ib_qp_attr) : Z + ib_qp_attr * Z :=
  match cm_state c with
  | IB_CM_REQ_RCVD | IB_CM_MRA_REQ_SENT | IB_CM_REP_RCVD | IB_CM_MRA_REP_SENT | IB_CM_REP_SENT
  | IB_CM_MRA_REP_RCVD | IB_CM_ESTABLISHED =>
      let resp := qpt_eqb (cm_qp_type c) IB_QPT_RC || qpt_eqb (cm_qp_type c) IB_QPT_XRC_TGT in
      let alt := negb (rdma_ah_get_dlid (av_ah (cm_alt_av c)) =? 0) in
      inr (
        {| qp_state := qp_state a; cur_qp_state := cur_qp_state a; path_mtu := cm_path_mtu c;
           path_mig_state := path_mig_state a; qkey := qkey a; rq_psn := cm_rq_psn c; sq_psn := sq_psn a;
           dest_qp_num := cm_remote_qpn c; qp_access_flags := qp_access_flags a; ah_attr := av_ah (cm_av_ c);
           alt_ah_attr := if alt then av_ah (cm_alt_av c) else alt_ah_attr a; pkey_index := pkey_index a;
           alt_pkey_index := if alt then av_pkey_index (cm_alt_av c) else alt_pkey_index a;
           max_rd_atomic := max_rd_atomic a;
           max_dest_rd_atomic := if resp then cm_responder_resources c else max_dest_rd_atomic a;
           min_rnr_timer := if resp then 0 else min_rnr_timer a; port_num := port_num a; timeout := timeout a;
           retry_cnt := retry_cnt a; rnr_retry := rnr_retry a;
           alt_port_num := if alt then av_port_num (cm_alt_av c) else alt_port_num a;
           alt_timeout := if alt then av_timeout (cm_alt_av c) else alt_timeout a; dct_key := dct_key a;
           offload_type := offload_type a; rmpn_xrqn := rmpn_xrqn a |},
        IB_QP_STATE .| IB_QP_AV .| IB_QP_PATH_MTU .| IB_QP_DEST_QPN .| IB_QP_RQ_PSN
        .| (if resp then IB_QP_MAX_DEST_RD_ATOMIC .| IB_QP_MIN_RNR_TIMER else 0)
        .| (if alt then IB_QP_ALT_PATH else 0))
  | _ => inl (- EINVAL)
  end.

Definition cm_init_qp_rts_attr (c : cm_id_private) (a : ib_qp_attr) : Z + ib_qp_attr * Z :=
  match cm_state c with
  | IB_CM_REQ_RCVD | IB_CM_MRA_REQ_SENT | IB_CM_REP_RCVD | IB_CM_MRA_REP_SENT | IB_CM_REP_SENT
  | IB_CM_MRA_REP_RCVD | IB_CM_ESTABLISHED =>
      if cm_lap_uninit c then
        let req := match cm_qp_type c with IB_QPT_RC | IB_QPT_XRC_INI => true | _ => false end in
        let timed := req || qpt_eqb (cm_qp_type c) IB_QPT_XRC_TGT in
        let alt := negb (rdma_ah_get_dlid (av_ah (cm_alt_av c)) =? 0) in
        inr (
          {| qp_state := qp_state a; cur_qp_state := cur_qp_state a; path_mtu := path_mtu a;
             path_mig_state := if alt then IB_MIG_REARM else path_mig_state a; qkey := qkey a;
             rq_psn := rq_psn a; sq_psn := cm_sq_psn c; dest_qp_num := dest_qp_num a;
             qp_access_flags := qp_access_flags a; ah_attr := ah_attr a; alt_ah_attr := alt_ah_attr a;
             pkey_index := pkey_index a; alt_pkey_index := alt_pkey_index a;
             max_rd_atomic := if req then cm_initiator_depth c else max_rd_atomic a;
             max_dest_rd_atomic := max_dest_rd_atomic a; min_rnr_timer := min_rnr_timer a;
             port_num := port_num a; timeout := if timed then av_timeout (cm_av_ c) else timeout a;
             retry_cnt := if req then cm_retry_count c else retry_cnt a;
             rnr_retry := if req then cm_rnr_retry_count c else rnr_retry a; alt_port_num := alt_port_num a;
             alt_timeout := alt_timeout a; dct_key := dct_key a; offload_type := offload_type a;
             rmpn_xrqn := rmpn_xrqn a |},
          IB_QP_STATE .| IB_QP_SQ_PSN
          .| (if req then IB_QP_RETRY_CNT .| IB_QP_RNR_RETRY .| IB_QP_MAX_QP_RD_ATOMIC else 0)
          .| (if timed then IB_QP_TIMEOUT else 0)
          .| (if alt then IB_QP_PATH_MIG_STATE else 0))
      else
        inr (
          {| qp_state := qp_state a; cur_qp_state := cur_qp_state a; path_mtu := path_mtu a;
             path_mig_state := IB_MIG_REARM; qkey := qkey a; rq_psn := rq_psn a; sq_psn := sq_psn a;
             dest_qp_num := dest_qp_num a; qp_access_flags := qp_access_flags a; ah_attr := ah_attr a;
             alt_ah_attr := av_ah (cm_alt_av c); pkey_index := pkey_index a;
             alt_pkey_index := av_pkey_index (cm_alt_av c); max_rd_atomic := max_rd_atomic a;
             max_dest_rd_atomic := max_dest_rd_atomic a; min_rnr_timer := min_rnr_timer a;
             port_num := port_num a; timeout := timeout a; retry_cnt := retry_cnt a; rnr_retry := rnr_retry a;
             alt_port_num := av_port_num (cm_alt_av c); alt_timeout := av_timeout (cm_alt_av c);
             dct_key := dct_key a; offload_type := offload_type a; rmpn_xrqn := rmpn_xrqn a |}, IB_QP_ALT_PATH .| IB_QP_PATH_MIG_STATE)
  | _ => inl (- EINVAL)
  end.

Definition ib_cm_init_qp_attr (c : cm_id_private) (a : ib_qp_attr) : Z + ib_qp_attr * Z :=
  match qp_state a with
  | IB_QPS_INIT => cm_init_qp_init_attr c a
  | IB_QPS_RTR => cm_init_qp_rtr_attr c a
  | IB_QPS_RTS => cm_init_qp_rts_attr c a
  | _ => inl (- EINVAL)
  end.

(** ** KRCore *)

Definition MAX_RD_ATOMIC : Z := 16.

(** [Default::default()] and a state *)
Definition attr_to (st : ib_qp_state) : ib_qp_attr :=
  mkqattr st IB_QPS_RESET 0 IB_MIG_MIGRATED 0 0 0 0 0 zero_ah zero_ah 0 0 0 0 0 0 0 0 0 0 0 0 0 0.

(** [attr.qp_access_flags |= LOCAL_WRITE | REMOTE_ATOMIC | REMOTE_READ | REMOTE_WRITE] *)
Definition all_access (a : ib_qp_attr) : ib_qp_attr :=
  {| qp_state := qp_state a; cur_qp_state := cur_qp_state a; path_mtu := path_mtu a;
     path_mig_state := path_mig_state a; qkey := qkey a; rq_psn := rq_psn a; sq_psn := sq_psn a;
     dest_qp_num := dest_qp_num a;
     qp_access_flags := qp_access_flags a .| (IB_ACCESS_LOCAL_WRITE .| IB_ACCESS_REMOTE_ATOMIC .| IB_ACCESS_REMOTE_READ .| IB_ACCESS_REMOTE_WRITE);
     ah_attr := ah_attr a; alt_ah_attr := alt_ah_attr a; pkey_index := pkey_index a;
     alt_pkey_index := alt_pkey_index a; max_rd_atomic := max_rd_atomic a;
     max_dest_rd_atomic := max_dest_rd_atomic a; min_rnr_timer := min_rnr_timer a; port_num := port_num a;
     timeout := timeout a; retry_cnt := retry_cnt a; rnr_retry := rnr_retry a; alt_port_num := alt_port_num a;
     alt_timeout := alt_timeout a; dct_key := dct_key a; offload_type := offload_type a;
     rmpn_xrqn := rmpn_xrqn a |}.

(** [attr.rq_psn = qp_num; attr.max_dest_rd_atomic = MAX_RD_ATOMIC] *)
Definition own_psn (a : ib_qp_attr) (qp_num : Z) : ib_qp_attr :=
  {| qp_state := qp_state a; cur_qp_state := cur_qp_state a; path_mtu := path_mtu a;
     path_mig_state := path_mig_state a; qkey := qkey a; rq_psn := qp_num; sq_psn := sq_psn a;
     dest_qp_num := dest_qp_num a; qp_access_flags := qp_access_flags a; ah_attr := ah_attr a;
     alt_ah_attr := alt_ah_attr a; pkey_index := pkey_index a; alt_pkey_index := alt_pkey_index a;
     max_rd_atomic := max_rd_atomic a; max_dest_rd_atomic := u8 MAX_RD_ATOMIC;
     min_rnr_timer := min_rnr_timer a; port_num := port_num a; timeout := timeout a; retry_cnt := retry_cnt a;
     rnr_retry := rnr_retry a; alt_port_num := alt_port_num a; alt_timeout := alt_timeout a;
     dct_key := dct_key a; offload_type := offload_type a; rmpn_xrqn := rmpn_xrqn a |}.

Section RC.
Context (vd : verbs_dev) (dev : mlx5_dev).
Context (raw : Z -> ib_qp_attr -> Z -> es mst unit) (gsi dct : ib_qp_attr -> Z -> es mst unit).
Context (answer : list (qp_cmd * Z) -> Z + mlx5_qp_context) (e : env).

Definition rc_modify (c : cm_id_private) (attr : ib_qp_attr) (mask : Z) : es vst unit :=
  ib_modify_qp vd dev raw gsi dct e attr (av_sgid (cm_av_ c)) (av_sgid (cm_alt_av c)) mask.

(** The second get_status runs when the first did not say RESET. *)
Definition bring_to_init (c : cm_id_private) : es vst unit :=
  do! st := get_status dev answer in
  do! go := (if qps_eqb st IB_QPS_RESET then es_ret true
             else do! st := get_status dev answer in es_ret (qps_eqb st IB_QPS_ERR)) in
  if go : bool then
    do! am := es_sum (ib_cm_init_qp_attr c (attr_to IB_QPS_INIT)) in
    rc_modify c (all_access am.1) (am.2 .| IB_QP_ACCESS_FLAGS)
  else es_ret tt.

Definition bring_to_rtr (c : cm_id_private) : es vst unit :=
  bring_to_init c ;;
  do! st := get_status dev answer in
  if qps_eqb st IB_QPS_INIT then
    do! am := es_sum (ib_cm_init_qp_attr c (attr_to IB_QPS_RTR)) in
    do! s := es_get in
    rc_modify c (own_psn am.1 (k_num (k_fix (m_qp (v_m s)))))
      (am.2 .| (IB_QP_RQ_PSN .| IB_QP_MAX_DEST_RD_ATOMIC))
  else es_ret tt.

Definition bring_to_rts (c : cm_id_private) : es vst unit :=
  do! st := get_status dev answer in
  if qps_eqb st IB_QPS_RTR then
    do! am := es_sum (ib_cm_init_qp_attr c (attr_to IB_QPS_RTS)) in
    rc_modify c am.1 am.2
  else es_ret tt.

Definition bring_to_err : es vst unit :=
  ib_modify_qp vd dev raw gsi dct e (attr_to IB_QPS_ERR) None None IB_QP_STATE.
Definition bring_to_reset : es vst unit :=
  ib_modify_qp vd dev raw gsi dct e (attr_to IB_QPS_RESET) None None IB_QP_STATE.
End RC.

(** ** Calls that succeed *)

(** Only the remembered address and the port for the next queue pair change
    while a context is built. *)
Definition nearly (s s' : mst) : Prop :=
  exists x t, s' = with_m_tx (with_m_qp s (with_k_ah (m_qp s) x)) t.

Lemma with_k_ah_none q : with_k_ah q None = q.
Proof. by destruct q as [f [] sq rq db]. Qed.

Lemma nearly_refl s : nearly s s.
Proof. exists None, (m_tx s). rewrite with_k_ah_none. by destruct s. Qed.

Lemma nearly_trans s1 s2 s3 : nearly s1 s2 -> nearly s2 s3 -> nearly s1 s3.
Proof.
  intros (x1 & t1 & ->) (x2 & t2 & ->).
  exists (if x2 is Some _ then x2 else x1), t2. destruct s1 as [[f [] sq rq db] cqs srqs tx cmds]. by destruct x2.
Qed.

Lemma nearly_keeps s s' : nearly s s' -> m_cmds s' = m_cmds s /\ k_fix (m_qp s') = k_fix (m_qp s) /\
  k_state (k_dyn (m_qp s')) = k_state (k_dyn (m_qp s)) /\
  k_counter_pending (k_dyn (m_qp s')) = k_counter_pending (k_dyn (m_qp s)).
Proof. by intros (x & t & ->). Qed.

Section Total.
Context (dev : mlx5_dev).

(** What makes the context of a transition without alternate path fit. *)
Record context_fine (f : qp_fix) (d : qp_dyn) (attr : ib_qp_attr) (mask : Z) : Prop := {
  cf_mtu : exists m, mtu_field dev f attr mask = inr m;
  cf_av : test mask IB_QP_AV = true -> path_accepted dev (ah_attr attr) (the_port d attr mask);
  cf_raw : k_type f <> IB_QPT_RAW_PACKET;
  cf_alt : test mask IB_QP_ALT_PATH = false;
  cf_atomic : enable_atomic_resp dev = true /\ 0 <= get_atomic_mode dev (k_type f);
  cf_ooo : exists o, ooo_bit dev (k_type f) mask = Some o;
}.

Lemma access_flags_total t depth en attr mask :
  0 <= get_atomic_mode dev t -> exists acc, to_mlx5_access_flags dev t depth en attr mask = inr acc.
Proof.
  intros H. unfold to_mlx5_access_flags. destruct (Z.ltb_spec (get_atomic_mode dev t) 0); [lia|].
  destruct (test _ IB_ACCESS_REMOTE_ATOMIC); eexists; reflexivity.
Qed.

Lemma set_path_total f q ah p port mask attr alt s :
  pa_type q = k_type f -> k_type f <> IB_QPT_RAW_PACKET -> path_accepted dev ah port ->
  exists p' s', set_path dev q ah p port mask attr alt s = Some (inr p', s') /\ nearly s s'.
Proof.
  intros Hq Hr (Hg & Hroce & Hrate). unfold set_path, mlx5_set_path. rewrite Hq.
  unfold qpt_eqb. rewrite (bool_decide_eq_false_2 (k_type f = _)) by done. cbn [andb].
  destruct (Z.ltb_spec (ib_rate_to_mlx5 dev (ah_static_rate ah)) 0); [lia|].
  destruct (test (ah_flags ah) IB_AH_GRH).
  - specialize (Hg eq_refl). destruct (Z.leb_spec (gid_table_len dev (port - 1)) (ah_sgid_index ah)); [lia|].
    cbn [negb andb]. rewrite andb_false_r. eexists _, _. split; [reflexivity|].
    eexists _, (m_tx s). by destruct s.
  - destruct (is_roce (ah_type ah)); [by specialize (Hroce eq_refl)|]. eexists _, _. split; [reflexivity|].
    eexists _, (m_tx s). by destruct s.
Qed.

Lemma context_total f d n q attr mask cur new st s :
  pa_type q = k_type f -> context_fine f d attr mask ->
  exists ctx s1, modify_context dev f d n q attr mask cur new st s = Some (inr ctx, s1) /\ nearly s s1.
Proof.
  intros Hq [[mtu Hmtu] Hav Hraw Halt [Hat1 Hat2] [o Ho]]. unfold modify_context.
  assert (Htx : exists tx t, (if qps_eqb cur IB_QPS_RESET && qps_eqb new IB_QPS_INIT
      && takes_tx_affinity (k_type f) (k_flags f) && lag dev then get_tx_affinity else es_ret 0) s
      = Some (inr tx, with_m_tx s t)).
  { destruct (_ && _ && _ && _); [eexists _, _; reflexivity|]. exists 0, (m_tx s). by destruct s. }
  destruct Htx as (tx & t & Htx). rewrite (es_bind_ok _ _ _ _ _ Htx).
  assert (N1 : nearly s (with_m_tx s t)). { exists None, t. by rewrite with_k_ah_none; destruct s. }
  rewrite Hmtu. change (es_sum (inr mtu)) with (@es_ret mst Z mtu). rewrite es_ret_ok. fold (the_port d attr mask).
  assert (Hp : exists p s2, (if test mask IB_QP_AV
      then set_path dev q (ah_attr attr) (pri_path_start f d attr mask) (the_port d attr mask) mask attr false
      else es_ret (pri_path_start f d attr mask)) (with_m_tx s t) = Some (inr p, s2) /\ nearly (with_m_tx s t) s2).
  { destruct (test mask IB_QP_AV); [by apply (set_path_total f); auto|].
    eexists _, _. split; [reflexivity|apply nearly_refl]. }
  destruct Hp as (p & s2 & Hp & N2). rewrite (es_bind_ok _ _ _ _ _ Hp), Halt, es_ret_ok, Hat1, andb_false_r.
  assert (Ha : exists acc, (if test mask (IB_QP_ACCESS_FLAGS .| IB_QP_MAX_DEST_RD_ATOMIC)
      then es_sum (to_mlx5_access_flags dev (k_type f) (k_resp_depth d) (k_atomic_rd_en d) attr mask)
      else es_ret 0) s2 = Some (inr acc, s2)).
  { destruct (test mask (IB_QP_ACCESS_FLAGS .| IB_QP_MAX_DEST_RD_ATOMIC)); [|eexists; reflexivity].
    destruct (access_flags_total (k_type f) (k_resp_depth d) (k_atomic_rd_en d) attr mask Hat2) as [acc ->].
    eexists; reflexivity. }
  destruct Ha as [acc Ha]. rewrite (es_bind_ok _ _ _ _ _ Ha), Ho. destruct (get_cqs _ _ _) as [a b].
  eexists _, s2. split; [reflexivity|]. exact (nearly_trans _ _ _ N1 N2).
Qed.
End Total.

(** The steps on the way to RTS and their commands. *)
Inductive bring_step : ib_qp_state -> ib_qp_state -> Z -> Prop :=
| bring_init : bring_step IB_QPS_RESET IB_QPS_INIT MLX5_CMD_OP_RST2INIT_QP
| bring_rtr : bring_step IB_QPS_INIT IB_QPS_RTR MLX5_CMD_OP_INIT2RTR_QP
| bring_rts : bring_step IB_QPS_RTR IB_QPS_RTS MLX5_CMD_OP_RTR2RTS_QP.

(** There is memory for a call and the device takes the command. *)
Definition grants (e : env) (op : Z) : Prop :=
  e_ctx e = true /\ forall b, e_mbox e (mkcmd op (Some b)) = true /\ e_exec e (mkcmd op (Some b)) = 0.

Definition final_mask (dev : mlx5_dev) (f : qp_fix) (new : ib_qp_state) (mask : Z) : Z :=
  if k_kernel f && qps_eqb new IB_QPS_RTR && ooo_enabled dev && is_ooo_supported dev (k_type f)
  then mask .| IB_EXP_QP_OOO_RW_DATA_PLACEMENT else mask.
Definition final_attr (dev : mlx5_dev) (attr : ib_qp_attr) (mask : Z) : ib_qp_attr :=
  if test mask IB_QP_AV then set_dc_ini_ah_fields dev attr else attr.

(** The queues, and what the queue pair refers to, are as they were. *)
Definition same_queues (s s' : mst) : Prop :=
  k_sq (m_qp s') = k_sq (m_qp s) /\ k_rq (m_qp s') = k_rq (m_qp s) /\ m_cqs s' = m_cqs s /\
  m_srqs s' = m_srqs s /\ k_srq (k_dyn (m_qp s')) = k_srq (k_dyn (m_qp s)).

Lemma same_queues_trans s1 s2 s3 : same_queues s1 s2 -> same_queues s2 s3 -> same_queues s1 s3.
Proof. intros (? & ? & ? & ? & ?) (? & ? & ? & ? & ?). unfold same_queues. split_and!; congruence. Qed.

(** What a successful step leaves. *)
Record stepped (s s' : mst) (op : Z) (attr : ib_qp_attr) (mask : Z) (new : ib_qp_state) : Prop := {
  sd_cmds : exists b, m_cmds s' = m_cmds s ++ [(mkcmd op (Some b), 0)];
  sd_fix : k_fix (m_qp s') = k_fix (m_qp s);
  sd_state : k_state (k_dyn (m_qp s')) = new;
  sd_port : k_port (k_dyn (m_qp s')) = if test mask IB_QP_PORT then port_num attr else k_port (k_dyn (m_qp s));
  sd_pending : k_counter_pending (k_dyn (m_qp s')) = k_counter_pending (k_dyn (m_qp s));
  sd_queues : same_queues s s';
}.

Section Takes.
Context (dev : mlx5_dev) (raw : Z -> ib_qp_attr -> Z -> es mst unit) (gsi dct : ib_qp_attr -> Z -> es mst unit).
Context (e : env) (attr : ib_qp_attr) (mask op : Z) (cur new : ib_qp_state).
Hypothesis Hstep : bring_step cur new op.
Hypothesis Hgrant : grants e op.

Lemma after_command_total a m s :
  k_counter_pending (k_dyn (m_qp s)) = false ->
  after_command dev e a m new s = Some (inr tt, with_m_qp s (record_attrs a m new (m_qp s))).
Proof.
  intros Hp. unfold after_command. rewrite es_mod_ok, es_get_ok.
  assert (Hn : qps_eqb new IB_QPS_RESET = false) by (by destruct Hstep). rewrite Hn. cbn [andb].
  rewrite es_ret_ok, es_get_ok. cbn [m_qp with_m_qp record_attrs with_k_dyn k_dyn k_counter_pending].
  by rewrite Hp, andb_false_r.
Qed.

Lemma core_modify_total optpar ctx s :
  mlx5_core_qp_modify e op optpar ctx s = Some (inr tt, with_m_cmd s (mkcmd op (Some (optpar, ctx))) 0).
Proof.
  unfold mlx5_core_qp_modify. assert (Hm : modify_qp_mbox op optpar ctx = Some (mkcmd op (Some (optpar, ctx)))).
  { unfold modify_qp_mbox. by destruct Hstep. }
  rewrite Hm. destruct (proj2 Hgrant (optpar, ctx)) as [-> ->]. done.
Qed.

Lemma modify_takes s :
  let f := k_fix (m_qp s) in
  let d := k_dyn (m_qp s) in
  let mask' := final_mask dev f new mask in
  plain f -> k_type f = IB_QPT_RC -> k_state d = cur -> qp_state attr = new -> k_counter_pending d = false ->
  test mask IB_QP_STATE = true -> test mask IB_QP_CUR_STATE = false ->
  test mask' IB_QP_OFFLOAD_TYPE = false -> test mask' IB_QP_RMPN_XRQN = false ->
  ib_modify_qp_is_ok cur new IB_QPT_RC mask = Some true -> values_ok dev d attr mask = true ->
  context_fine dev f d (final_attr dev attr mask') mask' ->
  exists s', mlx5_ib_modify_qp dev raw gsi dct e None attr mask s = Some (inr tt, s') /\
    stepped s s' op (final_attr dev attr mask') mask' new.
Proof.
  intros f d mask' (Hi & Hu & Hg & Hr & Hd) Ht Hc Hnew Hpend Hs Hcs Hoff Hrm Hok Hv Hfine.
  unfold mlx5_ib_modify_qp. rewrite es_get_ok. fold f d. rewrite Hi.
  change (es_sum (check_udata None)) with (@es_ret mst unit tt). rewrite es_ret_ok.
  unfold qpt_eqb at 1 2. rewrite !bool_decide_eq_false_2 by done.
  unfold new_state, cur_state. rewrite Hs, Hcs, Hc, Hnew. unfold transition_ok.
  assert (Hct : checked_type f = IB_QPT_RC) by (unfold checked_type; by rewrite Ht). rewrite Hu, Hct.
  change (ignored_ts_check IB_QPT_RC) with false. cbv match. rewrite Hok, es_lift_ok, Hv. cbn [negb].
  assert (Hne : qps_eqb cur new && qps_eqb cur IB_QPS_RESET = false) by (by destruct Hstep).
  rewrite Hne. fold (final_mask dev f new mask). fold mask'. fold (final_attr dev attr mask').
  unfold modify_qp_. rewrite es_get_ok. fold f d.
  assert (Hdt : device_type f = IB_QPT_RC) by (unfold device_type; by rewrite Ht). rewrite Hdt.
  change (to_mlx5_st IB_QPT_RC) with 0. change (0 <? 0) with false. rewrite (proj1 Hgrant). cbn [negb].
  destruct (context_total dev f d (wqe_cnt (k_rq (m_qp s)))
    (mkpathqp (k_type f) (k_num f) (negb (wqe_cnt (k_sq (m_qp s)) =? 0))) _ _ cur new 0 s eq_refl Hfine)
    as (ctx & s1 & Ectx & Hn). rewrite (es_bind_ok _ _ _ _ _ Ectx).
  assert (Hop : optab (to_mlx5_state cur) (to_mlx5_state new) = op /\ (op =? 0) = false) by (by destruct Hstep).
  destruct Hop as [-> ->].
  assert (Hom : exists om, opt_mask (to_mlx5_state cur) (to_mlx5_state new) 0 = Some om) by (eexists; reflexivity).
  destruct Hom as [om ->]. rewrite es_lift_ok, Hrm. unfold send_command. rewrite es_get_ok, Hoff, es_ret_ok.
  destruct (nearly_keeps _ _ Hn) as (Hcm & Hfx & Hst & Hpd). rewrite Hfx. fold f. rewrite Hu, orb_false_r.
  unfold qpt_eqb. rewrite bool_decide_eq_false_2 by done.
  rewrite (es_bind_ok _ _ _ _ _ (core_modify_total _ _ _)).
  rewrite after_command_total by (cbn [m_qp with_m_cmd]; by rewrite Hpd).
  eexists. split; [reflexivity|]. destruct Hn as (x & t & ->). split; cbn; try done. by eexists.
Qed.
End Takes.

(** ** From RESET to RTS *)

(** A query tells the state the commands led to. *)
Definition device_reports (answer : list (qp_cmd * Z) -> Z + mlx5_qp_context) : Prop :=
  forall cmds st, dev_run MLX5_QP_STATE_RST cmds = Some st ->
    exists c, answer cmds = inr c /\ flags c >>. 28 = state_code st.

(** Driver and device are both in [st]. *)
Record at_state (f : qp_fix) (s : vst) (st : ib_qp_state) : Prop := {
  as_fix : k_fix (m_qp (v_m s)) = f;
  as_state : k_state (k_dyn (m_qp (v_m s))) = st;
  as_dev : dev_run MLX5_QP_STATE_RST (m_cmds (v_m s)) = Some (to_mlx5_state st);
  as_pending : k_counter_pending (k_dyn (m_qp (v_m s))) = false;
}.

Lemma set_state_id s : set_state s (k_state (k_dyn (m_qp s))) = s.
Proof. by destruct s as [[f [] sq rq db] cqs srqs tx cmds]. Qed.

Lemma get_status_ok {B} dev answer f s st (k : ib_qp_state -> es vst B) :
  device_reports answer -> plain f -> at_state f s st ->
  es_bind (get_status dev answer) k s = k st s.
Proof.
  intros Hr (Hi & _) [Hf Hs Hd _]. apply es_bind_ok. unfold get_status, on_m, query_state.
  rewrite es_get_ok, Hf, Hi. destruct (Hr _ _ Hd) as (c & -> & Hc).
  change (es_sum (inr c)) with (@es_ret mst _ c). rewrite es_ret_ok. cbn [qr_state query_qp_attr]. rewrite Hc.
  assert (E : to_ib_qp_state (state_code (to_mlx5_state st)) = Some st) by (by destruct st).
  rewrite E, es_lift_ok, es_mod_ok. cbn. rewrite <- Hs, set_state_id. by destruct s.
Qed.

Lemma stepped_at f s s' op attr mask cur new :
  bring_step cur new op -> at_state f s cur -> stepped (v_m s) (v_m s') op attr mask new -> at_state f s' new.
Proof.
  intros Hb [Hf Hs Hd Hp] [[b Hc] Hf' Hs' _ Hp' _]. split; [by rewrite Hf'|done| |by rewrite Hp'].
  rewrite Hc, dev_run_app, Hd. by destruct Hb.
Qed.

Section BringUp.
Context (vd : verbs_dev) (dev : mlx5_dev).
Context (raw : Z -> ib_qp_attr -> Z -> es mst unit) (gsi dct : ib_qp_attr -> Z -> es mst unit).
Context (answer : list (qp_cmd * Z) -> Z + mlx5_qp_context) (e : env).

(** What the call hands to the driver. *)
Definition verbs_attr (s : vst) (attr : ib_qp_attr) (ah : rdma_ah_attr) (mask : Z) : ib_qp_attr :=
  let attr := if test mask IB_QP_AV then with_ah attr ah else attr in
  let port := if test mask IB_QP_PORT then port_num attr else v_port s in
  if vd_ib vd port || vd_roce vd port then trim_psn attr mask else attr.

Lemma ib_modify_takes f s attr sgid alt_sgid ah mask cur new op :
  let d := k_dyn (m_qp (v_m s)) in
  let mask' := final_mask dev f new mask in
  let attr' := verbs_attr s attr ah mask in
  bring_step cur new op -> grants e op -> at_state f s cur -> plain f -> k_type f = IB_QPT_RC ->
  (test mask IB_QP_AV = true -> rdma_fill_sgid_attr vd (ah_attr attr) sgid = inr ah) ->
  test mask IB_QP_ALT_PATH = false -> (forall a m, vd_security vd a m = 0) ->
  qp_state attr = new -> test mask IB_QP_STATE = true -> test mask IB_QP_CUR_STATE = false ->
  test mask' IB_QP_OFFLOAD_TYPE = false -> test mask' IB_QP_RMPN_XRQN = false ->
  ib_modify_qp_is_ok cur new IB_QPT_RC mask = Some true -> values_ok dev d attr' mask = true ->
  context_fine dev f d (final_attr dev attr' mask') mask' ->
  exists s', ib_modify_qp vd dev raw gsi dct e attr sgid alt_sgid mask s = Some (inr tt, s') /\
    at_state f s' new /\ stepped (v_m s) (v_m s') op (final_attr dev attr' mask') mask' new.
Proof.
  intros d mask' attr' Hb Hg Hat Hp Ht Hfill Halt Hsec Hnew Hs Hcs Hoff Hrm Hok Hv Hfine.
  assert (Hq : qp_state attr' = new).
  { unfold attr', verbs_attr. by destruct (_ || _), (test mask IB_QP_AV). }
  destruct Hat as [Hf Hst Hd Hpd] eqn:EH. clear EH.
  destruct (modify_takes dev raw gsi dct e attr' mask op cur new Hb Hg (v_m s)) as (m' & E & Hstep);
    [by rewrite ?Hf ..|]. rewrite Hf in Hstep. fold mask' in Hstep.
  assert (Hrun : ib_modify_qp vd dev raw gsi dct e attr sgid alt_sgid mask s
    = (on_m (mlx5_ib_modify_qp dev raw gsi dct e None attr' mask) ;;
       when test mask IB_QP_PORT then! es_mod (fun s => mkvst (v_m s) (port_num attr'))) s).
  { unfold ib_modify_qp. rewrite es_get_ok, Halt.
    assert (Hav : (if test mask IB_QP_AV
        then es_sum (match rdma_fill_sgid_attr vd (ah_attr attr) sgid with
                     | inl x => inl x | inr ah => inr (with_ah attr ah) end)
        else es_ret attr) s = Some (inr (if test mask IB_QP_AV then with_ah attr ah else attr), s)).
    { destruct (test mask IB_QP_AV); [|done]. by rewrite Hfill. }
    rewrite (es_bind_ok _ _ _ _ _ Hav), es_ret_ok. rewrite Hsec. cbn [negb Z.eqb].
    assert (Epn : port_num (if test mask IB_QP_AV then with_ah attr ah else attr) = port_num attr)
      by (by destruct (test mask IB_QP_AV)).
    unfold attr', verbs_attr. by rewrite Epn. }
  rewrite Hrun. assert (Hon : on_m (mlx5_ib_modify_qp dev raw gsi dct e None attr' mask) s
    = Some (inr tt, mkvst m' (v_port s))) by (unfold on_m; by rewrite E).
  rewrite (es_bind_ok _ _ _ _ _ Hon).
  destruct (test mask IB_QP_PORT); (eexists; split; [reflexivity|]); (split; [|exact Hstep]);
    by eapply (stepped_at f s _ op).
Qed.

(** A connection that can be made: the handshake got far enough and there is no
    alternate path; port, partition key, MTU and depths are in the ranges of the
    device, which has atomics; the address resolves. *)
Record connectable (c : cm_id_private) (ah : rdma_ah_attr) : Prop := {
  cn_state : cm_state c = IB_CM_REQ_RCVD \/ cm_state c = IB_CM_REP_RCVD \/ cm_state c = IB_CM_ESTABLISHED;
  cn_lap : cm_lap_uninit c = true;
  cn_type : cm_qp_type c = IB_QPT_RC;
  cn_no_alt : rdma_ah_get_dlid (av_ah (cm_alt_av c)) = 0;
  cn_port : 1 <= av_port_num (cm_av_ c) <= num_ports dev;
  cn_pkey : av_pkey_index (cm_av_ c) < pkey_table_len dev (av_port_num (cm_av_ c) - 1);
  cn_mtu : IB_MTU_256 <= cm_path_mtu c <= IB_MTU_4096;
  cn_depth : cm_initiator_depth c <= 1 <<. log_max_ra_res_qp dev;
  cn_resp : MAX_RD_ATOMIC <= 1 <<. log_max_ra_req_qp dev;
  cn_atomic : enable_atomic_resp dev = true /\ 0 <= get_atomic_mode dev IB_QPT_RC;
  cn_security : forall a m, vd_security vd a m = 0;
  cn_fill : rdma_fill_sgid_attr vd (av_ah (cm_av_ c)) (av_sgid (cm_av_ c)) = inr ah;
  cn_gid : test (ah_flags ah) IB_AH_GRH = true -> ah_sgid_index ah < gid_table_len dev (av_port_num (cm_av_ c) - 1);
}.

Lemma fill_grh ah sgid ah' :
  rdma_fill_sgid_attr vd ah sgid = inr ah' -> is_roce (ah_type ah') = true -> test (ah_flags ah') IB_AH_GRH = true.
Proof.
  unfold rdma_fill_sgid_attr, rdma_check_ah_attr.
  destruct (negb (rdma_is_port_valid vd (ah_port_num ah))); [done|].
  destruct (test (ah_flags ah) IB_AH_GRH) eqn:Eg.
  - rewrite andb_false_r. destruct sgid as [g|]; [destruct (_ || _); [done|]|].
    + by intros [= <-].
    + destruct (vd_gid _ _ _); [done|]. by intros [= <-].
  - rewrite andb_true_r. destruct (is_roce (ah_type ah)) eqn:Er; [by rewrite orb_true_r|].
    destruct (vd_grh_required _ _); [done|]. cbn [orb]. destruct sgid as [g|]; [destruct (_ || _); [done|]|];
      intros [= <-]; by rewrite Er.
Qed.

Lemma mtu_rc f attr mask :
  k_type f = IB_QPT_RC -> IB_MTU_256 <= path_mtu attr <= IB_MTU_4096 \/ test mask IB_QP_PATH_MTU = false ->
  exists m, mtu_field dev f attr mask = inr m.
Proof.
  intros Ht H. unfold mtu_field. rewrite Ht. cbn -[test Z.ltb u8 Z.lor Z.shiftl].
  destruct (test mask IB_QP_PATH_MTU); [|by eexists]. destruct H as [H|]; [|done].
  destruct (Z.ltb_spec (path_mtu attr) IB_MTU_256); [lia|].
  destruct (Z.ltb_spec IB_MTU_4096 (path_mtu attr)); [lia|]. by eexists.
Qed.

Lemma ooo_rc f new mask :
  test mask IB_EXP_QP_OOO_RW_DATA_PLACEMENT = false ->
  exists o, ooo_bit dev (k_type f) (final_mask dev f new mask) = Some o.
Proof.
  intros Hm. unfold final_mask. destruct (k_kernel f && _ && _); cbn [andb].
  - destruct (is_ooo_supported dev (k_type f)) eqn:Eo.
    + unfold ooo_bit. destruct (k_type f); rewrite ?Eo; destruct (test (mask .| _) _); by eexists.
    + unfold ooo_bit. rewrite Hm. by eexists.
  - unfold ooo_bit. rewrite Hm. by eexists.
Qed.

Context (c : cm_id_private) (ah : rdma_ah_attr) (f : qp_fix).
Hypothesis Hcn : connectable c ah.
Hypothesis Hplain : plain f.
Hypothesis Htype : k_type f = IB_QPT_RC.

(** One step: the attributes [attr] the caller ends up with are good for the
    driver. *)
Lemma step_takes s attr mask cur new op :
  let mask' := final_mask dev f new mask in
  bring_step cur new op -> grants e op -> at_state f s cur ->
  (test mask IB_QP_AV = true -> ah_attr attr = av_ah (cm_av_ c) /\ test mask IB_QP_PORT = false /\
     k_port (k_dyn (m_qp (v_m s))) = av_port_num (cm_av_ c)) ->
  IB_MTU_256 <= path_mtu attr <= IB_MTU_4096 \/ test mask' IB_QP_PATH_MTU = false ->
  test mask IB_QP_ALT_PATH = false -> test mask' IB_QP_ALT_PATH = false ->
  test mask IB_EXP_QP_OOO_RW_DATA_PLACEMENT = false ->
  test mask' IB_QP_AV = test mask IB_QP_AV -> test mask' IB_QP_PORT = test mask IB_QP_PORT ->
  qp_state attr = new -> test mask IB_QP_STATE = true -> test mask IB_QP_CUR_STATE = false ->
  test mask' IB_QP_OFFLOAD_TYPE = false -> test mask' IB_QP_RMPN_XRQN = false ->
  ib_modify_qp_is_ok cur new IB_QPT_RC mask = Some true ->
  values_ok dev (k_dyn (m_qp (v_m s))) attr mask = true ->
  exists s', rc_modify vd dev raw gsi dct e c attr mask s = Some (inr tt, s') /\ at_state f s' new /\
    k_port (k_dyn (m_qp (v_m s')))
      = (if test mask IB_QP_PORT then port_num attr else k_port (k_dyn (m_qp (v_m s)))) /\
    same_queues (v_m s) (v_m s') /\ exists b, m_cmds (v_m s') = m_cmds (v_m s) ++ [(mkcmd op (Some b), 0)].
Proof.
  intros mask' Hb Hg Hat Hav Hmtu Halt Halt' Hooo Eav Epo Hnew Hs Hcs Hoff Hrm Hok Hv. destruct Hcn.
  set (attr' := verbs_attr s attr ah mask).
  assert (Hkeep : values_ok dev (k_dyn (m_qp (v_m s))) attr' mask = values_ok dev (k_dyn (m_qp (v_m s))) attr mask /\
    path_mtu (final_attr dev attr' mask') = path_mtu attr /\ port_num (final_attr dev attr' mask') = port_num attr).
  { unfold final_attr, attr', verbs_attr. destruct (_ || _), (test mask IB_QP_AV), (test mask' IB_QP_AV); done. }
  destruct Hkeep as (Kv & Km & Kp).
  destruct (ib_modify_takes f s attr (av_sgid (cm_av_ c)) (av_sgid (cm_alt_av c)) ah mask
    cur new op) as (s' & E & Hat' & Hst); try done.
  - intros Ha. by destruct (Hav Ha) as [-> _].
  - fold attr'. by rewrite Kv.
  - fold mask' attr'. split.
    + apply mtu_rc; [done|]. by rewrite Km.
    + rewrite Eav. intros Ha. destruct (Hav Ha) as (Hah & Hpo & Hport).
      unfold the_port. rewrite Epo, Hpo, Hport. unfold final_attr. rewrite Eav, Ha.
      assert (Eah : ah_flags (ah_attr (set_dc_ini_ah_fields dev attr')) = ah_flags ah /\
        ah_sgid_index (ah_attr (set_dc_ini_ah_fields dev attr')) = ah_sgid_index ah /\
        ah_type (ah_attr (set_dc_ini_ah_fields dev attr')) = ah_type ah /\
        ah_static_rate (ah_attr (set_dc_ini_ah_fields dev attr')) = 0).
      { unfold attr', verbs_attr. rewrite Ha. by destruct (_ || _). }
      destruct Eah as (E1 & E2 & E3 & E4). unfold path_accepted. rewrite E1, E2, E3, E4.
      split; [done|]. split; [by eapply fill_grh|done].
    + by rewrite Htype.
    + done.
    + by rewrite Htype.
    + by apply ooo_rc.
  - exists s'. split; [exact E|]. split; [done|]. destruct Hst as [Hc _ _ Hp _ Hq]. split; [|done].
    fold mask' attr' in Hp. by rewrite Hp, Epo, Kp.
Qed.
Lemma final_mask_other new mask : new <> IB_QPS_RTR -> final_mask dev f new mask = mask.
Proof. intros H. unfold final_mask, qps_eqb. by rewrite bool_decide_eq_false_2, andb_false_r. Qed.

Definition init_mask : Z := IB_QP_STATE .| IB_QP_ACCESS_FLAGS .| IB_QP_PKEY_INDEX .| IB_QP_PORT.
Definition rtr_mask : Z :=
  IB_QP_STATE .| IB_QP_AV .| IB_QP_PATH_MTU .| IB_QP_DEST_QPN .| IB_QP_RQ_PSN
  .| (IB_QP_MAX_DEST_RD_ATOMIC .| IB_QP_MIN_RNR_TIMER) .| 0.
Definition rts_mask : Z :=
  IB_QP_STATE .| IB_QP_SQ_PSN .| (IB_QP_RETRY_CNT .| IB_QP_RNR_RETRY .| IB_QP_MAX_QP_RD_ATOMIC)
  .| IB_QP_TIMEOUT .| 0.

(** The attributes the connection manager gives. *)
Lemma cm_init_attr : exists a, ib_cm_init_qp_attr c (attr_to IB_QPS_INIT) = inr (a, init_mask) /\
  qp_state a = IB_QPS_INIT /\ pkey_index a = av_pkey_index (cm_av_ c) /\ port_num a = av_port_num (cm_av_ c).
Proof.
  destruct Hcn. unfold ib_cm_init_qp_attr, cm_init_qp_init_attr. cbn [qp_state attr_to].
  destruct cn_state0 as [-> | [-> | ->]]; eexists; done.
Qed.
Lemma cm_rtr_attr : exists a, ib_cm_init_qp_attr c (attr_to IB_QPS_RTR) = inr (a, rtr_mask) /\
  qp_state a = IB_QPS_RTR /\ path_mtu a = cm_path_mtu c /\ ah_attr a = av_ah (cm_av_ c).
Proof.
  destruct Hcn. unfold ib_cm_init_qp_attr, cm_init_qp_rtr_attr. cbn [qp_state attr_to].
  rewrite cn_type0, cn_no_alt0. destruct cn_state0 as [-> | [-> | ->]]; eexists; done.
Qed.
Lemma cm_rts_attr : exists a, ib_cm_init_qp_attr c (attr_to IB_QPS_RTS) = inr (a, rts_mask) /\
  qp_state a = IB_QPS_RTS /\ max_rd_atomic a = cm_initiator_depth c.
Proof.
  destruct Hcn. unfold ib_cm_init_qp_attr, cm_init_qp_rts_attr. cbn [qp_state attr_to].
  rewrite cn_lap0, cn_type0, cn_no_alt0. destruct cn_state0 as [-> | [-> | ->]]; eexists; done.
Qed.

(** One call took the queue pair to [new] by command [op]. *)
Definition took (s s' : vst) (op : Z) (new : ib_qp_state) : Prop :=
  at_state f s' new /\ same_queues (v_m s) (v_m s') /\ exists b, m_cmds (v_m s') = m_cmds (v_m s) ++ [(mkcmd op (Some b), 0)].

Lemma init_step s :
  device_reports answer -> grants e MLX5_CMD_OP_RST2INIT_QP -> at_state f s IB_QPS_RESET ->
  exists s', bring_to_init vd dev raw gsi dct answer e c s = Some (inr tt, s') /\
    took s s' MLX5_CMD_OP_RST2INIT_QP IB_QPS_INIT /\
    k_port (k_dyn (m_qp (v_m s'))) = av_port_num (cm_av_ c).
Proof.
  intros Hr Hg Hat. destruct cm_init_attr as (a & E & Es & Ek & Ep). destruct Hcn.
  unfold bring_to_init. rewrite (get_status_ok _ _ f _ _ _ Hr Hplain Hat).
  change (qps_eqb IB_QPS_RESET IB_QPS_RESET) with true. cbv match. rewrite es_ret_ok, E.
  change (es_sum (inr (a, init_mask))) with (@es_ret vst _ (a, init_mask)). rewrite es_ret_ok.
  destruct (step_takes s (all_access a) (init_mask .| IB_QP_ACCESS_FLAGS) IB_QPS_RESET IB_QPS_INIT
    MLX5_CMD_OP_RST2INIT_QP) as (s' & Em & Hat' & Hp & Hc); rewrite ?final_mask_other by done; try done.
  - constructor.
  - by right.
  - unfold values_ok. test_consts. cbn [port_num all_access pkey_index andb]. rewrite Ek, Ep.
    destruct (Z.eqb_spec (av_port_num (cm_av_ c)) 0); [lia|].
    destruct (Z.ltb_spec (num_ports dev) (av_port_num (cm_av_ c))); [lia|]. cbn [orb].
    destruct (Z.leb_spec (pkey_table_len dev (av_port_num (cm_av_ c) - 1)) (av_pkey_index (cm_av_ c))); [lia|done].
  - exists s'. split; [exact Em|]. split; [done|]. rewrite Hp. test_consts. cbv match. exact Ep.
Qed.

Lemma rtr_step s :
  device_reports answer -> grants e MLX5_CMD_OP_INIT2RTR_QP -> at_state f s IB_QPS_INIT ->
  k_port (k_dyn (m_qp (v_m s))) = av_port_num (cm_av_ c) ->
  exists s',
    (do! st := get_status dev answer in
     if qps_eqb st IB_QPS_INIT then
       do! am := es_sum (ib_cm_init_qp_attr c (attr_to IB_QPS_RTR)) in
       do! s := es_get in
       rc_modify vd dev raw gsi dct e c (own_psn am.1 (k_num (k_fix (m_qp (v_m s)))))
         (am.2 .| (IB_QP_RQ_PSN .| IB_QP_MAX_DEST_RD_ATOMIC))
     else es_ret tt) s = Some (inr tt, s') /\ took s s' MLX5_CMD_OP_INIT2RTR_QP IB_QPS_RTR.
Proof.
  intros Hr Hg Hat Hpt. destruct cm_rtr_attr as (a & E & Es & Em & Ea). destruct Hcn.
  rewrite (get_status_ok _ _ f _ _ _ Hr Hplain Hat). change (qps_eqb IB_QPS_INIT IB_QPS_INIT) with true. cbv match.
  rewrite E. change (es_sum (inr (a, rtr_mask))) with (@es_ret vst _ (a, rtr_mask)). rewrite es_ret_ok, es_get_ok.
  destruct (step_takes s (own_psn a (k_num (k_fix (m_qp (v_m s)))))
    (rtr_mask .| (IB_QP_RQ_PSN .| IB_QP_MAX_DEST_RD_ATOMIC)) IB_QPS_INIT IB_QPS_RTR
    MLX5_CMD_OP_INIT2RTR_QP) as (s' & Ec & Hat' & _ & Hc); try done;
    try (unfold final_mask; by destruct (k_kernel f && _ && _ && _)).
  - constructor.
  - left. cbn [path_mtu own_psn]. by rewrite Em.
  - unfold values_ok. test_consts. cbn [max_dest_rd_atomic own_psn andb].
    change (u8 MAX_RD_ATOMIC) with MAX_RD_ATOMIC.
    by destruct (Z.ltb_spec (1 <<. log_max_ra_req_qp dev) MAX_RD_ATOMIC); [lia|].
  - exists s'. split; [exact Ec|]. done.
Qed.

Lemma rts_step s :
  device_reports answer -> grants e MLX5_CMD_OP_RTR2RTS_QP -> at_state f s IB_QPS_RTR ->
  exists s', bring_to_rts vd dev raw gsi dct answer e c s = Some (inr tt, s') /\
    took s s' MLX5_CMD_OP_RTR2RTS_QP IB_QPS_RTS.
Proof.
  intros Hr Hg Hat. destruct cm_rts_attr as (a & E & Es & Ed). destruct Hcn.
  unfold bring_to_rts. rewrite (get_status_ok _ _ f _ _ _ Hr Hplain Hat).
  change (qps_eqb IB_QPS_RTR IB_QPS_RTR) with true. cbv match. rewrite E.
  change (es_sum (inr (a, rts_mask))) with (@es_ret vst _ (a, rts_mask)). rewrite es_ret_ok.
  destruct (step_takes s a rts_mask IB_QPS_RTR IB_QPS_RTS MLX5_CMD_OP_RTR2RTS_QP) as (s' & Em & Hat' & _ & Hc);
    rewrite ?final_mask_other by done; try done.
  - constructor.
  - by right.
  - unfold values_ok. test_consts. cbn [andb]. rewrite Ed.
    by destruct (Z.ltb_spec (1 <<. log_max_ra_res_qp dev) (cm_initiator_depth c)); [lia|].
  - exists s'. split; [exact Em|]. done.
Qed.
End BringUp.

Lemma bring_up_ok vd dev raw gsi dct answer e c ah f s :
  connectable vd dev c ah -> plain f -> k_type f = IB_QPT_RC -> device_reports answer ->
  grants e MLX5_CMD_OP_RST2INIT_QP -> grants e MLX5_CMD_OP_INIT2RTR_QP -> grants e MLX5_CMD_OP_RTR2RTS_QP ->
  at_state f s IB_QPS_RESET ->
  exists s', (bring_to_rtr vd dev raw gsi dct answer e c ;; bring_to_rts vd dev raw gsi dct answer e c) s
      = Some (inr tt, s') /\ at_state f s' IB_QPS_RTS /\ same_queues (v_m s) (v_m s') /\
    exists b1 b2 b3, m_cmds (v_m s') = m_cmds (v_m s)
      ++ [(mkcmd MLX5_CMD_OP_RST2INIT_QP (Some b1), 0); (mkcmd MLX5_CMD_OP_INIT2RTR_QP (Some b2), 0);
          (mkcmd MLX5_CMD_OP_RTR2RTS_QP (Some b3), 0)].
Proof.
  intros Hc Hp Ht Hr G1 G2 G3 Hat.
  destruct (init_step vd dev raw gsi dct answer e c ah f Hc Hp Ht s Hr G1 Hat) as (s1 & E1 & (A1 & Q1 & b1 & C1) & P1).
  destruct (rtr_step vd dev raw gsi dct answer e c ah f Hc Hp Ht s1 Hr G2 A1 P1) as (s2 & E2 & A2 & Q2 & b2 & C2).
  destruct (rts_step vd dev raw gsi dct answer e c ah f Hc Hp Ht s2 Hr G3 A2) as (s3 & E3 & A3 & Q3 & b3 & C3).
  exists s3. split; [|split; [done|split]].
  - rewrite (es_bind_ok _ _ _ tt s2); [exact E3|]. unfold bring_to_rtr. by rewrite (es_bind_ok _ _ _ _ _ E1).
  - by eapply same_queues_trans; [|eapply same_queues_trans].
  - exists b1, b2, b3. by rewrite C3, C2, C1, <- !app_assoc.
Qed.

(** C7. KRCore connects: for an ordinary RC queue pair in RESET and a handshake
    that got far enough, [bring_to_rtr] followed by [bring_to_rts] succeeds, sends
    exactly the three commands RST2INIT, INIT2RTR and RTR2RTS, leaves driver and
    device in RTS, and does not touch the queues.  Assumed of the environment
    ([grants]): the allocations succeed, the device takes these three commands
    and a query reports the state they led to.  Assumed of the handshake and the
    port ([connectable]): the CM identifier is in REQ_RCVD, REP_RCVD or
    ESTABLISHED, of type RC, without an alternate path; its port number, partition
    key index, GID index and path MTU are in range; its initiator depth is at most
    the device's, and the device takes a depth of 16 (MAX_RD_ATOMIC) and has
    atomics; the source GID resolves; and the security hook returns 0. *)
Theorem rc_bring_up vd dev raw gsi dct answer e c ah f s :
  connectable vd dev c ah -> plain f -> k_type f = IB_QPT_RC -> device_reports answer ->
  grants e MLX5_CMD_OP_RST2INIT_QP -> grants e MLX5_CMD_OP_INIT2RTR_QP -> grants e MLX5_CMD_OP_RTR2RTS_QP ->
  at_state f s IB_QPS_RESET ->
  exists s', (bring_to_rtr vd dev raw gsi dct answer e c ;; bring_to_rts vd dev raw gsi dct answer e c) s
      = Some (inr tt, s') /\ at_state f s' IB_QPS_RTS /\ same_queues (v_m s) (v_m s') /\
    exists b1 b2 b3, m_cmds (v_m s') = m_cmds (v_m s)
      ++ [(mkcmd MLX5_CMD_OP_RST2INIT_QP (Some b1), 0); (mkcmd MLX5_CMD_OP_INIT2RTR_QP (Some b2), 0);
          (mkcmd MLX5_CMD_OP_RTR2RTS_QP (Some b3), 0)].
Proof. apply bring_up_ok. Qed.

Lemma err_to_init_refused dev raw gsi dct e attr s :
  let f := k_fix (m_qp s) in
  plain f -> k_type f = IB_QPT_RC -> k_state (k_dyn (m_qp s)) = IB_QPS_ERR -> qp_state attr = IB_QPS_INIT ->
  mlx5_ib_modify_qp dev raw gsi dct e None attr (init_mask .| IB_QP_ACCESS_FLAGS) s = Some (inl (- EINVAL), s).
Proof.
  intros f (Hi & Hu & Hg & _ & Hd) Ht Hs Hq. unfold mlx5_ib_modify_qp. rewrite es_get_ok. fold f. rewrite Hi.
  change (es_sum (check_udata None)) with (@es_ret mst unit tt). rewrite es_ret_ok.
  unfold qpt_eqb at 1 2. rewrite !bool_decide_eq_false_2 by done.
  unfold new_state, cur_state. test_consts. cbv match. rewrite Hs, Hq. unfold transition_ok.
  assert (Hct : checked_type f = IB_QPT_RC) by (unfold checked_type; by rewrite Ht). by rewrite Hu, Hct.
Qed.

(** From ERR KRCore cannot connect again: [bring_to_init] has a case for
    ERR, but the move from ERR to INIT is not in the table of transitions, so
    [bring_to_rtr] always fails with -EINVAL, without any command to the device,
    and the queue pair stays in ERR. *)
Theorem rc_error_final vd dev raw gsi dct answer e c f s :
  plain f -> k_type f = IB_QPT_RC -> device_reports answer -> at_state f s IB_QPS_ERR ->
  (forall a m, vd_security vd a m = 0) ->
  bring_to_rtr vd dev raw gsi dct answer e c s = Some (inl (- EINVAL), s).
Proof.
  intros Hp Ht Hr Hat Hsec. unfold bring_to_rtr. apply es_bind_err. unfold bring_to_init.
  rewrite (get_status_ok _ _ f _ _ _ Hr Hp Hat). change (qps_eqb IB_QPS_ERR IB_QPS_RESET) with false. cbv match.
  assert (Hgo : (do! st := get_status dev answer in es_ret (qps_eqb st IB_QPS_ERR)) s = Some (inr true, s)).
  { by rewrite (get_status_ok _ _ f _ _ _ Hr Hp Hat). }
  rewrite (es_bind_ok _ _ _ _ _ Hgo).
  assert (Ha : ib_cm_init_qp_attr c (attr_to IB_QPS_INIT) = inl (- EINVAL) \/ exists a,
                 ib_cm_init_qp_attr c (attr_to IB_QPS_INIT) = inr (a, init_mask) /\ qp_state a = IB_QPS_INIT).
  { unfold ib_cm_init_qp_attr, cm_init_qp_init_attr. cbn [qp_state attr_to].
    destruct (cm_state c); first [by left|right; eexists; split; reflexivity]. }
  destruct Ha as [-> | (a & -> & Hq)]; [done|].
  change (es_sum (inr (a, init_mask))) with (@es_ret vst _ (a, init_mask)). rewrite es_ret_ok.
  unfold rc_modify, ib_modify_qp. cbn [fst snd]. rewrite es_get_ok. test_consts. cbv match.
  rewrite !es_ret_ok, Hsec. cbn [negb Z.eqb]. destruct Hat as [Hf Hs _ _].
  apply es_bind_err. unfold on_m. rewrite err_to_init_refused; [by destruct s|by rewrite Hf ..|done|].
  by destruct (_ || _).
Qed.

(** A device that answers queries with the state its commands led to, a core
    that knows one InfiniBand port, and a connection the peer has accepted. *)
Definition ex_answer (cmds : list (qp_cmd * Z)) : Z + mlx5_qp_context :=
  match dev_run MLX5_QP_STATE_RST cmds with
  | Some st => inr (mkctx (state_code st <<. 28) 0 0 0 0 0 zero_path zero_path 0 0 0 0 0 0 0 0 0 0 0)
  | None => inl (- EINVAL)
  end.
Definition ex_verbs : verbs_dev :=
  mkvd (1, 1) (fun _ => false) (fun _ => true) (fun _ => false) (fun p i => inr (mkga i p 0)) (fun _ _ => 0).
Definition ex_cm : cm_id_private :=
  mkcm IB_CM_REP_RCVD true IB_QPT_RC (mkav ib_far_peer None 1 0 14) (mkav zero_ah None 1 0 0) 4 9 100 200 1 1 7 6.

Lemma ex_answer_reports : device_reports ex_answer.
Proof. intros cmds st H. unfold ex_answer. rewrite H. eexists. split; [reflexivity|]. by destruct st. Qed.

Lemma ex_connectable : connectable ex_verbs ib_dev ex_cm ib_far_peer.
Proof. split; try (by vm_compute); [by right; left|done..]. Qed.

Lemma rc_bring_up_witness :
  exists s', (bring_to_rtr ex_verbs ib_dev no_raw no_other no_other ex_answer willing ex_cm ;;
              bring_to_rts ex_verbs ib_dev no_raw no_other no_other ex_answer willing ex_cm)
               (mkvst (qp_in rc_fix IB_QPS_RESET) 0) = Some (inr tt, s') /\ at_state rc_fix s' IB_QPS_RTS.
Proof.
  destruct (rc_bring_up ex_verbs ib_dev no_raw no_other no_other ex_answer willing ex_cm ib_far_peer rc_fix
    (mkvst (qp_in rc_fix IB_QPS_RESET) 0)) as (s' & E & A & _).
  - exact ex_connectable.
  - by vm_compute.
  - reflexivity.
  - exact ex_answer_reports.
  - by split.
  - by split.
  - by split.
  - by split.
  - exists s'. exact (conj E A).
Defined.

Lemma rc_error_final_witness :
  exists s, k_state (k_dyn (m_qp (v_m s))) = IB_QPS_ERR /\
    bring_to_rtr ex_verbs ib_dev no_raw no_other no_other ex_answer willing ex_cm s = Some (inl (- EINVAL), s).
Proof.
  pose (s := mkvst (with_m_cmd (qp_in rc_fix IB_QPS_ERR) (mkcmd MLX5_CMD_OP_2ERR_QP None) 0) 0).
  exists s. split; [done|].
  apply (rc_error_final ex_verbs ib_dev no_raw no_other no_other ex_answer willing ex_cm rc_fix s).
  - by vm_compute.
  - reflexivity.
  - exact ex_answer_reports.
  - by split.
  - done.
Defined.
