(* ===== verification/RcCreate.v ===== *)
(** * RcCreate: KRCore's reliable connections (KRdmaKit qp/mod.rs, qp/rc.rs)

    [RC::new_with_srq] makes a completion queue and a queue pair with the calls
    of the kernel, [RC::handle_reply] connects it when the peer has answered, and
    dropping the RC destroys both.  The calls return error pointers, which are
    not null; a [kptr] says which of the three a pointer is.  The identifier of
    the connection manager is made and destroyed outside of this model. *)

From stdpp Require Import strings.
From S2P Require Import Prelude ErrState FragBuf Strides KHeap FragAlloc DbAlloc DrvState Mailbox QpTypes SqSize WqeSeg SqRing PostSend RecvQueue Srq Cqe CqRing QpState QpContext QpModify QpQuery QpCreate CqCreate RcBringUp.

Open Scope es_scope.

(** ** Config *)

Record Config := mkconfig {
  cf_max_rd_atomic : Z;
  cf_max_send_wr_sz : Z;
  cf_max_recv_wr_sz : Z;
  cf_max_cqe : Z;
  cf_max_recv_cqe : Z;
  cf_max_send_sge : Z;
  cf_max_recv_sge : Z;
  cf_qkey : Z;
}.

(** The key is one random byte. *)
Definition config_default (qkey : Z) : Config := mkconfig MAX_RD_ATOMIC 2048 4096 2048 4096 16 1 qkey.

Definition set_max_rd_atomic (c : Config) (v : Z) : Config :=
  mkconfig v (cf_max_send_wr_sz c) (cf_max_recv_wr_sz c) (cf_max_cqe c) (cf_max_recv_cqe c) (cf_max_send_sge c)
    (cf_max_recv_sge c) (cf_qkey c).
Definition set_max_send_wr_sz (c : Config) (v : Z) : Config :=
  mkconfig (cf_max_rd_atomic c) (Z.min (cf_max_cqe c) v) (cf_max_recv_wr_sz c) (cf_max_cqe c) (cf_max_recv_cqe c)
    (cf_max_send_sge c) (cf_max_recv_sge c) (cf_qkey c).
Definition set_max_recv_wr_sz (c : Config) (v : Z) : Config :=
  mkconfig (cf_max_rd_atomic c) (cf_max_send_wr_sz c) (Z.min (cf_max_recv_cqe c) v) (cf_max_cqe c)
    (cf_max_recv_cqe c) (cf_max_send_sge c) (cf_max_recv_sge c) (cf_qkey c).
Definition set_max_send_sge (c : Config) (v : Z) : Config :=
  mkconfig (cf_max_rd_atomic c) (cf_max_send_wr_sz c) (cf_max_recv_wr_sz c) (cf_max_cqe c) (cf_max_recv_cqe c) v
    (cf_max_recv_sge c) (cf_qkey c).
Definition set_max_recv_sge (c : Config) (v : Z) : Config :=
  mkconfig (cf_max_rd_atomic c) (cf_max_send_wr_sz c) (cf_max_recv_wr_sz c) (cf_max_cqe c) (cf_max_recv_cqe c)
    (cf_max_send_sge c) v (cf_qkey c).
Definition set_max_cqe (c : Config) (v : Z) : Config :=
  mkconfig (cf_max_rd_atomic c) (cf_max_send_wr_sz c) (cf_max_recv_wr_sz c) (Z.max (cf_max_send_wr_sz c) v)
    (cf_max_recv_cqe c) (cf_max_send_sge c) (cf_max_recv_sge c) (cf_qkey c).
Definition set_max_recv_cqe (c : Config) (v : Z) : Config :=
  mkconfig (cf_max_rd_atomic c) (cf_max_send_wr_sz c) (cf_max_recv_wr_sz c) (cf_max_cqe c)
    (Z.max (cf_max_recv_wr_sz c) v) (cf_max_send_sge c) (cf_max_recv_sge c) (cf_qkey c).

(** What a program can make of a configuration without touching its fields. *)
Inductive config_built : Config -> Prop :=
| config_built_default q : config_built (config_default q)
| config_built_rd c v : config_built c -> config_built (set_max_rd_atomic c v)
| config_built_send c v : config_built c -> config_built (set_max_send_wr_sz c v)
| config_built_recv c v : config_built c -> config_built (set_max_recv_wr_sz c v)
| config_built_ssge c v : config_built c -> config_built (set_max_send_sge c v)
| config_built_rsge c v : config_built c -> config_built (set_max_recv_sge c v)
| config_built_cqe c v : config_built c -> config_built (set_max_cqe c v)
| config_built_rcqe c v : config_built c -> config_built (set_max_recv_cqe c v).

(** ** The calls of the kernel *)

(** Queue pairs and completion queues share the memory. *)
Record world := mkworld { w_q : qps; w_t : cqt }.

Definition on_qps {A} : es (drv qps) A -> es (drv world) A := on_part w_q (fun x w => mkworld x (w_t w)).
Definition on_cqt {A} : es (drv cqt) A -> es (drv world) A := on_part w_t (fun t w => mkworld (w_q w) t).

(** The ring of completion queue [n]; a new one is on no list and unused. *)
Definition put_cq (x : qps) (n : Z) (c : mlx5_ib_cq) : qps :=
  mkqps (upd (q_cqs x) n (Some c)) (q_srqs x) (q_tx x) (q_list x) (upd (q_send_list x) n [])
    (upd (q_recv_list x) n []) (q_tree x) (q_num x) (q_dev x) (q_pd_use x) (upd (q_cq_use x) n 0).
Definition forget_cq (x : qps) (n : Z) : qps :=
  mkqps (upd (q_cqs x) n None) (q_srqs x) (q_tx x) (q_list x) (q_send_list x) (q_recv_list x) (q_tree x) (q_num x)
    (q_dev x) (q_pd_use x) (q_cq_use x).

Inductive kptr (A : Type) := Null | ErrPtr (e : Z) | Obj (a : A).
Arguments Null {A}.
Arguments ErrPtr {A} e.
Arguments Obj {A} a.

(** A call that returns an object or ERR_PTR of the error. *)
Definition as_ptr {S A} (m : es S A) : es S (kptr A) := fun s =>
  '(r, s') ← m s; Some (inr (match r with inl e => ErrPtr e | inr a => Obj a end), s').
Definition is_null {A} (p : kptr A) : bool := match p with Null => true | _ => false end.
(** Reading through a pointer. *)
Definition deref {A} (p : kptr A) : option A := match p with Obj a => Some a | _ => None end.

Definition ignoring {S A} (m : es S A) : es S unit := fun s => '(_, s') ← m s; Some (inr tt, s').

Record RC := mkRC {
  rc_qp : kptr qobj;
  rc_cq : kptr cqobj;
  rc_recv_cq : option Z;
  rc_srq : option Z;
  rc_port : Z;                          (* port of the core's struct ib_qp *)
}.

Section RC.
Context (o : oracle) (cls sizeof_cq sizeof_qp : Z) (cdev : cq_dev) (cenv_ : cq_env) (qdev : create_dev) (qenv : cenv).
Context (gsi_create : create_req -> est qobj) (xrc_open : create_req -> qobj -> est qobj)
        (other : special -> qobj -> est unit).

(** __ib_create_cq *)
Definition create_ib_cq (cqe : Z) : es (drv world) cqobj :=
  do! q := on_cqt (mlx5_ib_create_cq o cls sizeof_cq cdev cenv_ (mkcqreq (s32 (u32 cqe)) 0 0)) in
  on_rest (es_mod (fun w => mkworld (put_cq (w_q w) (co_cqn q) (co_cq q)) (w_t w))) ;;
  es_ret q.

(** A queue made this way polls directly and has no array for completions, so
    there is nothing else for ib_free_cq to stop or free. *)
Definition ib_free_cq (q : cqobj) : es (drv world) unit :=
  do! s := es_get in
  let x := w_q (d_rest s) in
  if negb (q_cq_use x (co_cqn q) =? 0) then es_ret tt
  else
  do! ring := es_lift (q_cqs x (co_cqn q)) in
  ignoring (on_cqt (mlx5_ib_destroy_cq cenv_
    (mkcqobj (co_addr q) ring (co_db q) (co_eqn q) (co_cqn q) (co_flags q) 0))) ;;
  on_rest (es_mod (fun w => mkworld (forget_cq (w_q w) (co_cqn q)) (w_t w))).

Definition qp_attr (c : Config) (srq : option Z) : ib_qp_init_attr :=
  mkattr IB_QPT_RC 0 (if srq is Some _ then true else false)
    (mkcap (u32 (cf_max_send_wr_sz c)) (u32 (cf_max_recv_wr_sz c)) (u32 (cf_max_send_sge c))
       (u32 (cf_max_recv_sge c)) 64).
Definition qp_request (c : Config) (pd cq recv_cq : Z) (srq : option Z) (tm : bool) : create_req :=
  mkreq (qp_attr c srq) (Some pd) (Some cq) (Some recv_cq) srq tm None false 0 false 0 false.

Definition create_ib_qp (c : Config) (pd cq recv_cq : Z) (srq : option Z) (tm : bool) : es (drv world) qobj :=
  on_qps (ib_create_qp o cls sizeof_qp qdev qenv gsi_create xrc_open other (qp_request c pd cq recv_cq srq tm)).

(** ** RC *)

(** [Drop]: the number of the queue pair is read before anything else.  The
    receive queue is shared and stays. *)
Definition drop_rc (r : RC) : es (drv world) unit :=
  do! q := es_lift (deref (rc_qp r)) in
  ignoring (on_qps (ib_destroy_qp qenv other q)) ;;
  if is_null (rc_cq r) then es_ret tt else do! c := es_lift (deref (rc_cq r)) in ib_free_cq c.

(** [cm] says whether there is an identifier for the connection: the caller's,
    or a new one.  Both calls are checked for null only.  Making a queue pair for
    an error pointer reads the number of the queue through it. *)
Definition new_with_srq (c : Config) (pd : Z) (cm : bool) (srq : option Z) (tm : bool) (recv_cq : option Z)
    : es (drv world) (option RC) :=
  let empty := mkRC Null Null None None 0 in
  do! p := as_ptr (create_ib_cq (cf_max_cqe c)) in
  if is_null p then drop_rc empty ;; es_ret None
  else
  do! cq := es_lift (deref p) in
  let recv := default (co_cqn cq) recv_cq in
  do! q := as_ptr (create_ib_qp c pd (co_cqn cq) recv srq tm) in
  if is_null q || negb cm then drop_rc empty ;; es_ret None
  else es_ret (Some (mkRC q p (Some recv) srq 0)).

Definition rc_new (qkey pd : Z) (cm : bool) (recv_cq : option Z) : es (drv world) (option RC) :=
  new_with_srq (config_default qkey) pd cm None false recv_cq.

(** ** Connecting *)

(** A method of the RC: it works on the queue pair and on the queues of the
    driver. *)
Definition on_rc (r : RC) (m : es vst unit) : es (drv world) RC :=
  do! q := es_lift (deref (rc_qp r)) in
  fun s =>
  let x := w_q (d_rest s) in
  '(res, v) ← m (mkvst (mkmst (qo_q q) (q_cqs x) (q_srqs x) (q_tx x) (qo_cmds q)) (rc_port r));
  let y := v_m v in
  let q := mkqobj (qo_addr q) (m_qp y) (qo_res q) (qo_cap q) (qo_signal_bits q) (m_cmds y) (qo_usecnt q) in
  let x := mkqps (m_cqs y) (m_srqs y) (m_tx y) (q_list x) (q_send_list x) (q_recv_list x) (q_tree x) (q_num x)
             (q_dev x) (q_pd_use x) (q_cq_use x) in
  Some (match res with
        | inl e => inl e
        | inr _ => inr (mkRC (Obj q) (rc_cq r) (rc_recv_cq r) (rc_srq r) (v_port v))
        end, mkdrv (d_mem s) (mkworld x (w_t (d_rest s)))).

Context (vd : verbs_dev) (dev : mlx5_dev).
Context (raw : Z -> ib_qp_attr -> Z -> es mst unit) (gsi dct : ib_qp_attr -> Z -> es mst unit).
Context (answer : list (qp_cmd * Z) -> Z + mlx5_qp_context) (e : env).

(** What [handle_reply] does to the queue pair: errors are only printed. *)
Definition handle_reply (id : cm_id_private) : es vst unit := fun s =>
  '(r, s) ← bring_to_rtr vd dev raw gsi dct answer e id s;
  match r with
  | inl _ => Some (inr tt, s)
  | inr _ => '(_, s) ← bring_to_rts vd dev raw gsi dct answer e id s; Some (inr tt, s)
  end.
End RC.
