(* ===== verification/RcLife.v ===== *)
(** * RcLife: a connection of KRCore from its creation to its drop

    The calls of KRCore put together: making an RC, connecting it, and dropping
    it, on top of what the kernel's calls guarantee. *)

From stdpp Require Import strings.
From S2P Require Import Prelude ErrState FragBuf Strides KHeap FragAlloc DbAlloc DrvState Mailbox QpTypes SqSize WqeSeg SqRing PostSend RecvQueue Srq Cqe CqRing QpState QpContext QpModify QpExample QpModifyThm QpReset QpQuery QpCreate QpLife CqCreate CqLife RcBringUp RcCreate.

Open Scope es_scope.

(** The setters keep the send queue within the completion queue. *)
Lemma config_built_fits c : config_built c -> cf_max_send_wr_sz c <= cf_max_cqe c /\ cf_max_recv_wr_sz c <= cf_max_recv_cqe c.
Proof. induction 1; simpl in *; lia. Qed.

Lemma runs_as_ptr {S A} (m : es S A) s (Q : Z + kptr A -> S -> Prop) :
  runs m s (fun r s' => Q (inr (match r with inl e => ErrPtr e | inr a => Obj a end)) s') -> runs (as_ptr m) s Q.
Proof. intros (r & s' & E & H). unfold runs, as_ptr. rewrite E. by eexists _, _. Qed.

Lemma runs_ignoring {S A} (m : es S A) s (Q : Z + unit -> S -> Prop) :
  runs m s (fun _ s' => Q (inr tt) s') -> runs (ignoring m) s Q.
Proof. intros (r & s' & E & H). unfold runs, ignoring. rewrite E. by eexists _, _. Qed.

Section Life.
Context (o : oracle) (cls sizeof_cq sizeof_qp : Z) (cdev : cq_dev) (ce : cq_env) (qdev : create_dev) (qe : cenv).
Context (gsi_create : create_req -> est qobj) (xrc_open : create_req -> qobj -> est qobj)
        (other : special -> qobj -> est unit).
Context (Hcls : 8 <= cls <= PAGE_SIZE).
Implicit Types (m : gmap nat Z) (D : gset (nat * nat)).

(** Numbers without a queue are blank in the tables. *)
Definition blank (w : world) : Prop :=
  forall n, n ∉ t_dev (w_t w) ->
    q_cqs (w_q w) n = None /\ q_send_list (w_q w) n = [] /\ q_recv_list (w_q w) n = [] /\ q_cq_use (w_q w) n = 0.

Record world_ok (w : world) m : Prop := {
  wo_qps : honest qe (w_q w);
  wo_cqt : honest_cq ce (w_t w);
  wo_blank : blank w;
  wo_lists : live_lists (w_q w) m;
}.

(** Limits of the devices and sizes the driver can compute with. *)
Record config_ok (c : Config) : Prop := {
  co_limits : limits_ok qdev;
  co_log : 0 <= log_max_cq_sz cdev <= 23;
  co_security : ce_security qe = 0;
  co_sq : sq_request (qp_attr c None);
  co_rq : rq_request (cap (qp_attr c None));
  co_cqe : 0 <= cf_max_cqe c < 2 ^ 31;
}.

(** Two worlds that cannot be told apart. *)
Record same_world (w w' : world) : Prop := {
  sw_tables : same_tables (w_q w) (w_q w');
  sw_cqs : forall c, q_cqs (w_q w') c = q_cqs (w_q w) c;
  sw_cqt : cqt_eq (w_t w') (w_t w);
}.

(** ** The completion queue *)

Definition with_cq (w : world) (q : cqobj) : world :=
  mkworld (put_cq (w_q w) (co_cqn q) (co_cq q)) (cq_entered (w_t w) (co_eqn q) (co_cqn q) (co_addr q)).

Notation make_cq := (create_ib_cq o cls sizeof_cq cdev ce).

(** What making a completion queue comes to. *)
Definition cq_made (w : world) cqe m D (res : Z + cqobj) (s' : drv world) : Prop :=
  match res with
  | inl _ => owned cls m D (d_mem s') /\ w_q (d_rest s') = w_q w /\ cqt_eq (w_t (d_rest s')) (w_t w)
  | inr q =>
      (exists k, fresh_cq cdev ce (mkcqreq (s32 (u32 cqe)) 0 0) q k) /\
      (t_comp (w_t w) (co_eqn q) !! co_cqn q = None /\ t_async (w_t w) !! co_cqn q = None) /\
      own_cq sizeof_cq q ##ₘ m /\ (slot_of (co_db q) ∉ D) /\
      owned cls (own_cq sizeof_cq q ∪ m) ({[slot_of (co_db q)]} ∪ D) (d_mem s') /\ d_rest s' = with_cq w q
  end.

Lemma runs_make_cq cqe w st m D :
  0 <= log_max_cq_sz cdev <= 23 -> honest_cq ce (w_t w) -> owned cls m D st ->
  runs (make_cq cqe) (mkdrv st w) (cq_made w cqe m D).
Proof.
  intros Hlog Hho Ho. apply runs_bind, runs_on_part.
  eapply (runs_create_cq o cls sizeof_cq cdev ce Hcls _ st (w_t w) m D); auto; [by intros|].
  intros q k st' Hf Hc Ha Hd Hs Ho'. apply runs_bind, runs_on_rest, runs_mod, runs_ret.
  split; [by exists k|]. by repeat (split; [done|]).
Qed.

(** The queue with the ring it has by now. *)
Lemma runs_free_cq q ring size w st m D (Q : Z + unit -> drv world -> Prop) :
  q_cq_use (w_q w) (co_cqn q) = 0 -> q_cqs (w_q w) (co_cqn q) = Some ring ->
  cb_frag_buf (cq_buf ring) = cb_frag_buf (cq_buf (co_cq q)) ->
  buf_ok (cb_frag_buf (cq_buf (co_cq q))) size -> buf_blocks (cb_frag_buf (cq_buf (co_cq q))) !! co_addr q = None ->
  (forall n, qe_destroy ce n = 0) -> own_cq sizeof_cq q ##ₘ m -> slot_of (co_db q) ∉ D ->
  owned cls (own_cq sizeof_cq q ∪ m) ({[slot_of (co_db q)]} ∪ D) st ->
  (forall st', owned cls m D st' ->
     Q (inr tt) (mkdrv st' (mkworld (forget_cq (w_q w) (co_cqn q)) (cq_left (w_t w) (co_eqn q) (co_cqn q))))) ->
  runs (ib_free_cq ce q) (mkdrv st w) Q.
Proof.
  intros Hu Hr Hfb Hb Hap Hdes Hd Hs Ho HQ. unfold ib_free_cq. apply runs_bind, runs_get. cbn [d_rest]. rewrite Hu.
  cbn [Z.eqb negb]. rewrite Hr. apply runs_bind, runs_lift, runs_bind, runs_ignoring, runs_on_part.
  set (q' := mkcqobj _ _ _ _ _ _ _). change (mlx5_ib_destroy_cq ce q') with (ib_destroy_cq ce q').
  assert (Hown : own_cq sizeof_cq q' = own_cq sizeof_cq q) by (unfold own_cq; simpl; by rewrite Hfb).
  eapply (runs_destroy_cq cls sizeof_cq ce q' size st (w_t w) m D);
    rewrite ?Hown; simpl; rewrite ?Hfb; try done.
  intros st' Ho'. by apply runs_on_rest, runs_mod, HQ.
Qed.

(** ** The queue pair *)

Notation make_qp_ := (create_ib_qp o cls sizeof_qp qdev qe gsi_create xrc_open other).

Lemma request_fine c pd w q : config_ok c -> request_ok (w_q (with_cq w q)) (qp_request c pd (co_cqn q) (co_cqn q) None false).
Proof.
  intros [_ _ _ Hs Hr _]. split; try done.
  - left. by left.
  - split; intros i [= <-]; simpl; rewrite upd_eq; by eexists.
Qed.

(** What an RC consists of: a queue pair and its completion queue. *)
Record made (w : world) (c : Config) (pd : Z) (cq : cqobj) (q : qobj) (r : kernel_res) : Prop := {
  md_cq : exists k, fresh_cq cdev ce (mkcqreq (s32 (u32 (cf_max_cqe c))) 0 0) cq k;
  md_eq : t_comp (w_t w) (co_eqn cq) !! co_cqn cq = None /\ t_async (w_t w) !! co_cqn cq = None;
  md_qp : fresh qdev qe (qp_request c pd (co_cqn cq) (co_cqn cq) None false) q r;
  md_verbs : verbs_fields (qp_request c pd (co_cqn cq) (co_cqn cq) None false) q;
  md_tree : q_tree (w_q w) !! k_qpn (k_fix (qo_q q)) = None;
}.

(** And the memory it takes in addition to [m] and [D]. *)
Record takes (cq : cqobj) (q : qobj) (r : kernel_res) m D (st : db_priv) : Prop := {
  tk_cq : own_cq sizeof_cq cq ##ₘ m;
  tk_cdb : slot_of (co_db cq) ∉ D;
  tk_qp : own_blocks sizeof_qp q r ##ₘ own_cq sizeof_cq cq ∪ m;
  tk_qdb : slot_of (kr_db r) ∉ {[slot_of (co_db cq)]} ∪ D;
  tk_owned : owned cls (own_blocks sizeof_qp q r ∪ (own_cq sizeof_cq cq ∪ m))
               ({[slot_of (kr_db r)]} ∪ ({[slot_of (co_db cq)]} ∪ D)) st;
}.

Definition made_qps (w : world) (c : Config) (pd : Z) (cq : cqobj) (q : qobj) : qps :=
  let n := co_cqn cq in
  count_uses (Some pd) (Some n) (Some n) None 1 (listed (w_q (with_cq w cq)) (qp_request c pd n n None false) q).

Notation new_rc := (new_with_srq o cls sizeof_cq sizeof_qp cdev ce qdev qe gsi_create xrc_open other).

(** [new_with_srq] with an identifier for the connection, once there is a
    completion queue. *)
Lemma runs_new c pd cq w s m D (Q : Z + option RC -> drv world -> Prop) :
  config_ok c -> world_ok w m -> forall st, make_cq (cf_max_cqe c) (mkdrv st w) = Some (inr cq, s) ->
  cq_made w (cf_max_cqe c) m D (inr cq) s ->
  (forall e st', owned cls (own_cq sizeof_cq cq ∪ m) ({[slot_of (co_db cq)]} ∪ D) st' ->
     Q (inr (Some (mkRC (ErrPtr e) (Obj cq) (Some (co_cqn cq)) None 0))) (mkdrv st' (with_cq w cq))) ->
  (forall q r st', made w c pd cq q r -> takes cq q r m D st' ->
     Q (inr (Some (mkRC (Obj q) (Obj cq) (Some (co_cqn cq)) None 0)))
       (mkdrv st' (mkworld (made_qps w c pd cq q) (w_t (with_cq w cq))))) ->
  runs (new_rc c pd true None false None) (mkdrv st w) Q.
Proof.
  intros Hc [Hq Ht Hb Hl] st E (Hf & He & Hd & Hs & Ho & Hw) HE HS. unfold new_with_srq.
  destruct s as [st1 w1]. cbn [d_mem d_rest] in *. subst w1.
  apply runs_bind, runs_as_ptr. eexists _, _. split; [exact E|]. cbn [is_null deref].
  apply runs_bind, runs_lift, runs_bind, runs_as_ptr, runs_on_part. cbn [default].
  eapply (runs_ib_create o cls sizeof_qp qdev qe Hcls gsi_create xrc_open other _ st1 (w_q (with_cq w cq)) _ _);
    [apply Hc|by destruct Hq|by apply request_fine|apply Hc|exact Ho| |].
  - intros e st2 Ho2. apply runs_ret. by apply HE.
  - intros q r st2 Hfq Hv Htree Hd2 Hs2 Ho2. apply runs_ret. by apply (HS q r); split.
Qed.

(** ** Dropping *)

(** A state of the tables that differs in the queues of the driver only. *)
Definition moved_to (q : qobj) (x : qps) (q' : qobj) (y : mst) : Prop :=
  q' = mkqobj (qo_addr q) (m_qp y) (qo_res q) (qo_cap q) (qo_signal_bits q) (m_cmds y) (qo_usecnt q) /\
  k_fix (m_qp y) = k_fix (qo_q q) /\ same_queues (mst_of q x) y.

(** Destroying sees nothing of the move. *)
Lemma moved_destroyed q x q' y i j x' :
  moved_to q x q' y -> destroyed (with_m x y) q' i j None None x' -> destroyed x q i j None None x'.
Proof. intros (-> & Hf & _) [H1 H2 H3 H4 H5 H6 H7 H8 _]. simpl in *. rewrite Hf in *. by split. Qed.

Lemma moved_keeps q x q' y r :
  moved_to q x q' y -> keeps q r -> apart q r -> ordinary q ->
  keeps q' r /\ apart q' r /\ ordinary q' /\ own_blocks sizeof_qp q' r = own_blocks sizeof_qp q r.
Proof.
  intros (-> & Hf & Hs & Hr & _) [K1 K2 K3] Ha [O1 O2 O3 O4]. unfold apart, own_blocks in *. simpl in *. rewrite Hs, Hr.
  split; [split; simpl; rewrite ?Hf, ?Hs, ?Hr; done|]. split; [done|]. split; [|done]. split; simpl; rewrite ?Hf; done.
Qed.

(** The completion queue of a connection that has seen no completion. *)
Lemma moved_attached w c pd cq q r k q' y :
  let x := made_qps w c pd cq q in
  made w c pd cq q r -> fresh_cq cdev ce (mkcqreq (s32 (u32 (cf_max_cqe c))) 0 0) cq k -> moved_to q x q' y ->
  attached (with_m x y) q' (co_cqn cq) (co_cqn cq) (co_cq cq) (co_cq cq) k 0 k 0 None None.
Proof.
  intros x [_ _ _ [V1 V2 V3 V4 V5] _] Hf (-> & Hfx & _ & _ & Hc & _ & Hsrq).
  pose proof (empty_holds _ _ (fc_ring _ _ _ _ _ Hf)) as Hh.
  assert (Hcq : q_cqs (with_m x y) (co_cqn cq) = Some (co_cq cq)) by (simpl; rewrite Hc; simpl; by rewrite upd_eq).
  split; simpl; rewrite ?Hfx, ?Hsrq; simpl; try done. rewrite V1. by left.
Qed.

(** Without the queue pair the tables are those with the completion queue. *)
Lemma dropped_tables w c pd cq q r q' y x' m :
  let x := made_qps w c pd cq q in let n := co_cqn cq in
  world_ok w m -> made w c pd cq q r -> own_blocks sizeof_qp q r ##ₘ own_cq sizeof_cq cq ∪ m ->
  moved_to q x q' y -> destroyed (with_m x y) q' n n None None x' -> same_tables (put_cq (w_q w) n (co_cq cq)) x'.
Proof.
  intros x n [Hq Ht Hb Hl] [_ _ Hf Hv Htree] Hd Hmv Hdes. apply (moved_destroyed _ _ _ _ _ _ _ Hmv) in Hdes.
  destruct (fr_told _ _ _ _ _ Hf) as (i & Hi & _).
  apply (round_trip_tables cls qe Hcls gsi_create xrc_open _ (qp_request c pd n n None false) q n n x'
           (own_cq sizeof_cq cq ∪ m)); try done.
  - by destruct Hq.
  - by left.
  - by apply (ho_fresh _ _ Hq i).
  - intros a Ha. apply lookup_union_is_Some. right. apply Hl. simpl in Ha. destruct Ha as [Ha|[[c' Ha]|[c' Ha]]]; [by left|right..].
    + left. exists c'. revert Ha. unfold upd. destruct (c' =? n); [by intros ?%elem_of_nil|done].
    + right. exists c'. revert Ha. unfold upd. destruct (c' =? n); [by intros ?%elem_of_nil|done].
  - apply map_disjoint_union_l in Hd as [Hd _]. by apply map_disjoint_singleton_l in Hd.
Qed.

(** Nor does the completion queue leave anything. *)
Lemma forgotten_world w cq x' :
  let n := co_cqn cq in
  blank w -> n ∉ t_dev (w_t w) -> t_comp (w_t w) (co_eqn cq) !! n = None /\ t_async (w_t w) !! n = None ->
  same_tables (put_cq (w_q w) n (co_cq cq)) x' -> (forall c, c <> n -> q_cqs x' c = q_cqs (w_q w) c) ->
  same_world w (mkworld (forget_cq x' n) (cq_left (w_t (with_cq w cq)) (co_eqn cq) n)).
Proof.
  intros n Hb Hn [Hc Ha] [H1 H2 H3 H4 H5 H6 H7 H8] Hcq. destruct (Hb n Hn) as (B1 & B2 & B3 & B4).
  split; simpl.
  - split; simpl; try done; intros c; rewrite ?H5, ?H6, ?H8; simpl; unfold upd;
      destruct (Z.eqb_spec c n) as [->|]; congruence.
  - intros c. unfold upd. destruct (Z.eqb_spec c n) as [->|]; [done|by apply Hcq].
  - by apply (left_entered cls Hcls).
Qed.

Lemma runs_drop w c pd cq q r q' y port st m D (Q : Z + unit -> drv world -> Prop) :
  let x := made_qps w c pd cq q in
  world_ok w m -> made w c pd cq q r -> takes cq q r m D st -> moved_to q x q' y ->
  (forall st' w', owned cls m D st' -> same_world w w' -> Q (inr tt) (mkdrv st' w')) ->
  runs (drop_rc ce qe other (mkRC (Obj q') (Obj cq) (Some (co_cqn cq)) None port))
    (mkdrv st (mkworld (with_m x y) (w_t (with_cq w cq)))) Q.
Proof.
  intros x Hw Hm [T1 T2 T3 T4 T5] Hmv HQ. unfold drop_rc. cbn [rc_qp rc_cq deref is_null].
  apply runs_bind, runs_lift, runs_bind, runs_ignoring, runs_on_part. cbn [w_q w_t].
  destruct (md_cq _ _ _ _ _ _ Hm) as [k Hf]. pose proof (md_qp _ _ _ _ _ _ Hm) as Hq.
  destruct (moved_keeps _ _ _ _ r Hmv) as (K1 & K2 & K3 & K4); [apply Hq..|].
  rewrite <- K4 in T3, T5.
  eapply (runs_ib_destroy cls sizeof_qp qe other q' r _ (co_cqn cq) (co_cqn cq) (co_cq cq) (co_cq cq) k 0 k 0 None None);
    [exact K1|exact K3|by eapply moved_attached|apply Hw|exact K2|exact T3|exact T4|exact T5|].
  intros st1 x1 Ho1 Hdes Hcc. rewrite K4 in T3.
  pose proof (dropped_tables _ _ _ _ _ _ _ _ _ _ Hw Hm T3 Hmv Hdes) as Htab.
  destruct (cc_recv _ _ _ _ _ _ _ _ _ _ _ Hcc) as (ring & Hring & Hcl).
  destruct (fc_buf _ _ _ _ _ Hf) as [size Hb]. destruct (fc_told _ _ _ _ _ Hf) as (i & Hi & _).
  apply runs_bind, runs_lift. eapply (runs_free_cq cq ring size); cbn [w_q w_t]; try done.
  - rewrite (sm_cq _ _ Htab). simpl. by rewrite upd_eq.
  - apply (cl_frag _ _ _ _ _ Hcl).
  - apply (fc_apart _ _ _ _ _ Hf).
  - apply (wo_cqt _ _ Hw).
  - intros st2 Ho2. apply HQ; [done|]. apply forgotten_world; [apply Hw| |apply Hm|done|].
    + by eapply hq_fresh; [apply (wo_cqt _ _ Hw)|].
    + intros c' Hc'. rewrite (cc_rest _ _ _ _ _ _ _ _ _ _ _ Hcc) by done. destruct Hmv as (_ & _ & _ & _ & Hcs & _).
      simpl. rewrite Hcs. simpl. by rewrite upd_ne.
Qed.

(** ** The theorems *)

Section Connect.
Context (vd : verbs_dev) (dev : mlx5_dev).
Context (raw : Z -> ib_qp_attr -> Z -> es mst unit) (gsi dct : ib_qp_attr -> Z -> es mst unit).
Context (answer : list (qp_cmd * Z) -> Z + mlx5_qp_context) (e : env) (id : cm_id_private) (ah : rdma_ah_attr).

Definition reachable_peer : Prop :=
  connectable vd dev id ah /\ device_reports answer /\ grants e MLX5_CMD_OP_RST2INIT_QP /\
  grants e MLX5_CMD_OP_INIT2RTR_QP /\ grants e MLX5_CMD_OP_RTR2RTS_QP.

Notation reply := (handle_reply vd dev raw gsi dct answer e id).
Notation drop := (drop_rc ce qe other).

(** Driver and device have the queue pair in RTS. *)
Definition ready (q : qobj) : Prop :=
  k_state (k_dyn (qo_q q)) = IB_QPS_RTS /\ dev_run MLX5_QP_STATE_RST (qo_cmds q) = Some MLX5_QP_STATE_RTS.

Lemma reply_connects w c pd cq q r :
  let x := made_qps w c pd cq q in
  reachable_peer -> made w c pd cq q r ->
  exists v, reply (mkvst (mst_of q x) 0) = Some (inr tt, v) /\
    let q' := mkqobj (qo_addr q) (m_qp (v_m v)) (qo_res q) (qo_cap q) (qo_signal_bits q) (m_cmds (v_m v)) (qo_usecnt q) in
    moved_to q x q' (v_m v) /\ ready q'.
Proof.
  intros x (Hcn & Hr & G1 & G2 & G3) [_ _ [F1 F2 F3 F4 F5 F6 F7 F8 F9 F10] Hv _].
  assert (Ht : k_type (k_fix (qo_q q)) = IB_QPT_RC) by apply (vf_type _ _ Hv).
  destruct (bring_up_ok vd dev raw gsi dct answer e id ah (k_fix (qo_q q)) (mkvst (mst_of q x) 0))
    as (v & E & [A1 A2 A3 A4] & Hsq & _); auto.
  - destruct F8 as [O1 O2 O3 O4]. unfold plain, checked_type. rewrite Ht. by split_and!.
  - split; simpl; try done. by rewrite F9.
  - exists v. split; [|by split].
    unfold handle_reply. unfold es_bind in E. destruct (bring_to_rtr _ _ _ _ _ _ _ _ _) as [[[e1|[]] s1]|]; [done| |done].
    simpl in *. by rewrite E.
Qed.

(** C4. The life of a connection without a shared receive queue, one completion
    queue for both directions, for which a CM identifier could be made.  When a
    completion queue can be made, [new_with_srq] returns an RC.  If also the queue
    pair could be made, the completion queue is empty and has room for more than
    all send requests; the answer of a reachable peer brings driver and device to
    RTS; and dropping the RC gives back all memory and doorbell records and leaves
    tables, lists and counts as before.  Assumed: a configuration from the
    builder, sizes in range ([config_ok]: send queue at most 2^30 bytes, 1 to 512 receive entries, at most 2^16 receive requests, fewer
    than 2^31 completions, log_max_qp_sz <= 15, log_max_cq_sz <= 23, cache lines of
    8 to 4096 bytes); the security hook returns 0; the device hands out unused
    numbers, of which the tables hold nothing, and obeys commands to destroy; the
    handshake got far enough with values in range; the device takes the three
    commands and reports the states. *)
Theorem rc_life c pd w st m D :
  config_built c -> config_ok c -> world_ok w m -> owned cls m D st -> reachable_peer ->
  (exists err s', make_cq (cf_max_cqe c) (mkdrv st w) = Some (inl err, s') /\ owned cls m D (d_mem s')) \/
  exists rc cq k s1, new_rc c pd true None false None (mkdrv st w) = Some (inr (Some rc), s1) /\
    rc_cq rc = Obj cq /\ empty_ring (co_cq cq) k /\ cf_max_send_wr_sz c < 2 ^ k /\
    match rc_qp rc with
    | Null => False
    | ErrPtr _ => owned cls (own_cq sizeof_cq cq ∪ m) ({[slot_of (co_db cq)]} ∪ D) (d_mem s1)
    | Obj _ => exists rc' q' s2 s3, on_rc rc reply s1 = Some (inr rc', s2) /\ rc_qp rc' = Obj q' /\ ready q' /\
        drop rc' s2 = Some (inr tt, s3) /\ owned cls m D (d_mem s3) /\ same_world w (d_rest s3)
    end.
Proof.
  intros Hbuilt Hc Hw Ho Hpeer. destruct (config_built_fits _ Hbuilt) as [Hfit _].
  destruct (runs_make_cq (cf_max_cqe c) w st m D) as ([err|cq] & s & E & Hcq); [apply Hc|apply Hw|done|..].
  { left. exists err, s. split; [done|apply Hcq]. }
  right. pose proof Hcq as ([k Hf] & _). pose proof (fc_size _ _ _ _ _ Hf) as Hk. simpl in Hk.
  pose proof (co_cqe _ Hc) as Hmax. rewrite u32_small, s32_small in Hk by lia.
  assert (Hroom : empty_ring (co_cq cq) k /\ cf_max_send_wr_sz c < 2 ^ k) by (split; [apply (fc_ring _ _ _ _ _ Hf)|lia]).
  destruct (runs_new c pd cq w s m D (fun res s1 => exists rc, res = inr (Some rc) /\ rc_cq rc = Obj cq /\
    match rc_qp rc with
    | Null => False
    | ErrPtr _ => owned cls (own_cq sizeof_cq cq ∪ m) ({[slot_of (co_db cq)]} ∪ D) (d_mem s1)
    | Obj _ => exists rc' q' s2 s3, on_rc rc reply s1 = Some (inr rc', s2) /\ rc_qp rc' = Obj q' /\ ready q' /\
        drop rc' s2 = Some (inr tt, s3) /\ owned cls m D (d_mem s3) /\ same_world w (d_rest s3)
    end) Hc Hw st E Hcq) as (res & s1 & En & rc & -> & Hrc & H).
  - intros err st' Ho'. eexists. by repeat (split; [reflexivity|]).
  - intros q r st' Hm Htk. eexists. do 2 (split; [reflexivity|]). cbn [rc_qp].
    destruct (reply_connects _ _ _ _ _ _ Hpeer Hm) as (v & Ev & Hmv & Hready).
    set (q' := mkqobj _ _ _ _ _ _ _) in *.
    destruct (runs_drop w c pd cq q r q' (v_m v) (v_port v) st' m D
      (fun res s3 => res = inr tt /\ owned cls m D (d_mem s3) /\ same_world w (d_rest s3)) Hw Hm Htk Hmv)
      as (res & s3 & Ed & -> & H3 & H4); [by intros|].
    exists (mkRC (Obj q') (Obj cq) (Some (co_cqn cq)) None (v_port v)), q'. do 2 eexists. split; [|by repeat (split; [done|])].
    unfold on_rc, es_bind, es_lift. cbn [rc_qp deref mbind option_bind].
    change (mkvst _ _) with (mkvst (mst_of q (made_qps w c pd cq q)) 0). rewrite Ev. reflexivity.
  - exists rc, cq, k, s1. by destruct Hroom.
Qed.

(** Failures are not noticed: the calls return error pointers and KRCore
    looks for null.  When the device refuses the queue pair, [new_with_srq]
    nevertheless returns an RC, whose completion queue stays allocated, and
    dropping this RC is undefined, as it reads through the error pointer.
    Without an identifier for the connection the call itself is undefined: it
    drops an RC whose pointers are still null. *)
Theorem rc_new_hides_failure c pd w st m D :
  config_ok c -> world_ok w m -> owned cls m D st -> (forall i, exists err, ce_create qe i = inl err) ->
  (exists err s', make_cq (cf_max_cqe c) (mkdrv st w) = Some (inl err, s')) \/
  exists rc cq err s1, new_rc c pd true None false None (mkdrv st w) = Some (inr (Some rc), s1) /\
    rc_qp rc = ErrPtr err /\ owned cls (own_cq sizeof_cq cq ∪ m) ({[slot_of (co_db cq)]} ∪ D) (d_mem s1) /\
    drop rc s1 = None /\ new_rc c pd false None false None (mkdrv st w) = None.
Proof.
  intros Hc Hw Ho Hno.
  destruct (runs_make_cq (cf_max_cqe c) w st m D) as ([err|cq] & s & E & Hcq); [apply Hc|apply Hw|done|..].
  { left. by exists err, s. }
  right. assert (Hnull : new_rc c pd false None false None (mkdrv st w) = None).
  { unfold new_with_srq. rewrite (es_bind_ok _ _ _ (Obj cq) s) by (unfold as_ptr; by rewrite E). cbn [is_null deref].
    rewrite es_lift_ok. unfold es_bind, as_ptr. by destruct (create_ib_qp _ _ _ _ _ _ _ _ _ _ _ _ _ _ _) as [[[] ?]|]. }
  destruct (runs_new c pd cq w s m D (fun res s1 => exists rc err, res = inr (Some rc) /\ rc_qp rc = ErrPtr err /\
     owned cls (own_cq sizeof_cq cq ∪ m) ({[slot_of (co_db cq)]} ∪ D) (d_mem s1) /\ drop rc s1 = None)
     Hc Hw st E Hcq) as (res & s1 & En & rc & err & -> & H).
  - intros err st' Ho'. do 2 eexists. by repeat (split; [reflexivity|]).
  - intros q r st' Hm _. destruct (fr_told _ _ _ _ _ (md_qp _ _ _ _ _ _ Hm)) as (i & Hi & _).
    destruct (Hno i) as [err He]. by rewrite He in Hi.
  - exists rc, cq, err, s1. split; [done|]. destruct H as (H1 & H2 & H3). by repeat (split; [done|]).
Qed.
End Connect.
End Life.

(** ** An example *)

Definition ex_config : Config := set_max_cqe (set_max_send_wr_sz (config_default 7) 16) 16.
Definition ex_world : world :=
  mkworld (mkqps (fun _ => None) (fun _ => None) 0 [] (fun _ => []) (fun _ => []) ∅ 0 ∅ (fun _ => 0) (fun _ => 0)) ex_cqt.
Definition full_dev : cenv := mkcenv (fun _ _ => 0) (fun _ => inl (- ENOMEM)) (fun _ => 0) true willing 0.

Lemma ex_config_ok qe : ce_security qe = 0 -> config_ok ex_cqdev ex_cdev qe ex_config.
Proof. intros H. by split. Qed.
Lemma ex_world_ok qe : (forall n, ce_destroy qe n = 0) -> world_ok ex_cqenv qe ex_world ∅.
Proof.
  intros H. split.
  - split; [|done]. intros i n _. apply not_elem_of_empty.
  - exact ex_cq_honest.
  - by intros n _.
  - intros a [Ha|[[c Ha]|[c Ha]]]; by apply elem_of_nil in Ha.
Qed.

Notation ex_new qe :=
  (new_with_srq plenty 64 400 1024 ex_cqdev ex_cqenv ex_cdev qe no_gsi no_xrc no_special ex_config 1).
Notation ex_reply := (handle_reply ex_verbs ib_dev no_raw no_other no_other ex_answer willing ex_cm).

Lemma rc_life_witness :
  exists rc rc' q' s1 s2 s3,
    ex_new (ex_ce 0) true None false None (mkdrv idle_mem ex_world) = Some (inr (Some rc), s1) /\
    on_rc rc ex_reply s1 = Some (inr rc', s2) /\ rc_qp rc' = Obj q' /\ ready q' /\
    drop_rc ex_cqenv (ex_ce 0) no_special rc' s2 = Some (inr tt, s3) /\ owned 64 ∅ ∅ (d_mem s3) /\
    same_world ex_world (d_rest s3).
Proof.
  destruct (rc_life plenty 64 400 1024 ex_cqdev ex_cqenv ex_cdev (ex_ce 0) no_gsi no_xrc no_special line_64
    ex_verbs ib_dev no_raw no_other no_other ex_answer willing ex_cm ib_far_peer ex_config 1 ex_world idle_mem ∅ ∅)
    as [(err & s' & E & _)|(rc & cq & k & s1 & E & _ & _ & _ & H)].
  - apply config_built_cqe, config_built_send, config_built_default.
  - by apply ex_config_ok.
  - by apply ex_world_ok.
  - exact idle_owned.
  - split; [exact ex_connectable|]. split; [exact ex_answer_reports|]. by split; [|split].
  - assert (Hr : match create_ib_cq plenty 64 400 ex_cqdev ex_cqenv (cf_max_cqe ex_config) (mkdrv idle_mem ex_world) with
                 | Some (inl _, _) => false | _ => true end = true) by (by vm_compute).
    rewrite E in Hr. discriminate Hr.
  - assert (Hr : match ex_new (ex_ce 0) true None false None (mkdrv idle_mem ex_world) with
                 | Some (inr (Some rc), _) => match rc_qp rc with Obj _ => true | _ => false end
                 | _ => false end = true) by (by vm_compute).
    rewrite E in Hr. destruct (rc_qp rc) as [|err|q]; [discriminate Hr|discriminate Hr|].
    destruct H as (rc' & q' & s2 & s3 & H). exists rc, rc', q', s1, s2, s3. exact (conj E H).
Defined.

Lemma rc_new_hides_failure_witness :
  exists rc err s1, ex_new full_dev true None false None (mkdrv idle_mem ex_world) = Some (inr (Some rc), s1) /\
    rc_qp rc = ErrPtr err /\ drop_rc ex_cqenv full_dev no_special rc s1 = None /\
    ex_new full_dev false None false None (mkdrv idle_mem ex_world) = None.
Proof.
  destruct (rc_new_hides_failure plenty 64 400 1024 ex_cqdev ex_cqenv ex_cdev full_dev no_gsi no_xrc no_special line_64
    ex_config 1 ex_world idle_mem ∅ ∅) as [(err & s' & E)|(rc & cq & err & s1 & E & H1 & _ & H2)].
  - by apply ex_config_ok.
  - by apply ex_world_ok.
  - exact idle_owned.
  - intros i. by eexists.
  - assert (Hr : match create_ib_cq plenty 64 400 ex_cqdev ex_cqenv (cf_max_cqe ex_config) (mkdrv idle_mem ex_world) with
                 | Some (inl _, _) => false | _ => true end = true) by (by vm_compute).
    rewrite E in Hr. discriminate Hr.
  - exists rc, err, s1. exact (conj E (conj H1 H2)).
Defined.
