(* ===== verification/Packer.v ===== *)
(** * Packer: structures to and from the wire (core/packer.c)

    A table of fields says where each member of a structure goes in a message.
    [ib_pack] copies the members into the message, [ib_unpack] copies them back.
    A structure is its members by name, each the bytes it has in memory: two
    members never overlap, so what the offsets in the tables say is that they
    are different.  A message is bytes at addresses. *)

From stdpp Require Import strings.
From S2P Require Import Prelude.

Record ib_field := mkfield {
  field_name : string;
  struct_size_bytes : Z;           (* 0 for a reserved field *)
  offset_words : Z;
  offset_bits : Z;
  size_bits : Z;
}.

Definition cstruct : Type := string -> list Z.
Definition mem : Type := Z -> Z.

Definition wire_at (b : mem) (a : Z) (n : nat) : list Z := (fun i => b (a + Z.of_nat i)) <$> seq 0 n.
Definition put (b : mem) (a : Z) (bs : list Z) : mem := fun x =>
  if (a <=? x) && (x <? a + Z.of_nat (length bs)) then bs !!! Z.to_nat (x - a) else b x.

Definition value_read (size : Z) (bytes : list Z) : Z :=
  if (size =? 1) || (size =? 2) || (size =? 4) || (size =? 8) then be_val bytes else 0.

(** [*addr = ( *addr & ~mask) | (val & mask)] on the [n] bytes at [a], with the
    value and the mask shifted into place at the width of the word. *)
Definition insert_bits (n : nat) (buf : mem) (a shift size val : Z) : mem :=
  let width := 2 ^ (8 * Z.of_nat n) in
  let mask := ((2 ^ size - 1) <<. shift) mod width in
  let v := (val <<. shift) mod width in
  put buf a (be_bytes n ((be_val (wire_at buf a n) .& Z.lnot mask) .| (v .& mask))).

(** [None] is a negative shift or a copy that runs past the member. *)
Definition pack_field (f : ib_field) (st : cstruct) (buf : mem) (base : Z) : option mem :=
  let a := base + 4 * offset_words f in
  let val := if struct_size_bytes f =? 0 then 0 else value_read (struct_size_bytes f) (st (field_name f)) in
  if size_bits f <=? 32 then
    let shift := 32 - offset_bits f - size_bits f in
    if shift <? 0 then None else Some (insert_bits 4 buf a shift (size_bits f) val)
  else if size_bits f <=? 64 then
    let shift := 64 - offset_bits f - size_bits f in
    if shift <? 0 then None else Some (insert_bits 8 buf a shift (size_bits f) val)
  else
    let n := Z.to_nat (size_bits f / 8) in
    let a := a + offset_bits f / 8 in
    if struct_size_bytes f =? 0 then Some (put buf a (zeros n))
    else if size_bits f / 8 <=? struct_size_bytes f then Some (put buf a (take n (st (field_name f))))
    else None.

Fixpoint ib_pack (desc : list ib_field) (st : cstruct) (buf : mem) (base : Z) : option mem :=
  match desc with
  | [] => Some buf
  | f :: r => buf ← pack_field f st buf base; ib_pack r st buf base
  end.

Definition set_member (st : cstruct) (name : string) (bytes : list Z) : cstruct :=
  fun x => if String.eqb x name then bytes else st x.

(** A size without a case leaves the member alone. *)
Definition value_write (st : cstruct) (f : ib_field) (val : Z) : cstruct :=
  let size := struct_size_bytes f in
  if (size =? 1) || (size =? 2) || (size =? 4) || (size =? 8)
  then set_member st (field_name f) (be_bytes (Z.to_nat size) val) else st.

Definition extract_bits (n : nat) (buf : mem) (a shift size : Z) : Z :=
  let mask := ((2 ^ size - 1) <<. shift) mod 2 ^ (8 * Z.of_nat n) in
  (be_val (wire_at buf a n) .& mask) >>. shift.

(** The address of a word of eight bytes is [(__be64 * ) buf + offset_words]:
    the offset counts words of eight bytes here. *)
Definition unpack_field (f : ib_field) (buf : mem) (base : Z) (st : cstruct) : option cstruct :=
  if struct_size_bytes f =? 0 then Some st
  else if size_bits f <=? 32 then
    let shift := 32 - offset_bits f - size_bits f in
    if shift <? 0 then None
    else Some (value_write st f (extract_bits 4 buf (base + 4 * offset_words f) shift (size_bits f)))
  else if size_bits f <=? 64 then
    let shift := 64 - offset_bits f - size_bits f in
    if shift <? 0 then None
    else Some (value_write st f (extract_bits 8 buf (base + 8 * offset_words f) shift (size_bits f)))
  else
    let n := Z.to_nat (size_bits f / 8) in
    if size_bits f / 8 <=? struct_size_bytes f
    then Some (set_member st (field_name f)
                 (wire_at buf (base + 4 * offset_words f + offset_bits f / 8) n ++ drop n (st (field_name f))))
    else None.

Fixpoint ib_unpack (desc : list ib_field) (buf : mem) (base : Z) (st : cstruct) : option cstruct :=
  match desc with
  | [] => Some st
  | f :: r => st ← unpack_field f buf base st; ib_unpack r buf base st
  end.

(** ** The bits of a message *)

(** Bit [k] of a message, the first is the top bit of the first byte. *)
Definition bit (b : mem) (k : Z) : bool := Z.testbit (b (k / 8)) (7 - k mod 8).

Definition byte_mem (b : mem) : Prop := forall a, byte_ok (b a).

Lemma be_val_testbit bs j :
  bytes_ok bs -> 0 <= j < 8 * Z.of_nat (length bs) ->
  Z.testbit (be_val bs) (8 * Z.of_nat (length bs) - 1 - j) = Z.testbit (bs !!! Z.to_nat (j / 8)) (7 - j mod 8).
Proof.
  revert j. induction bs as [|x r IH]; intros j Hok Hj; [simpl in Hj; lia|].
  apply Forall_cons in Hok as [Hx Hr]. cbn [be_val length] in *. pose proof (be_val_range r Hr) as Hv.
  set (m := Z.of_nat (length r)) in *. rewrite Z.add_comm, <- lor_low_high by lia. rewrite Z.lor_spec.
  rewrite <- Z.shiftl_mul_pow2 by lia.
  replace (8 * Z.of_nat (S (length r)) - 1 - j) with (8 * m + 7 - j) by lia.
  destruct (Z.lt_ge_cases j 8).
  - rewrite (Z.div_small j 8), (Z.mod_small j 8) by lia. cbn [Z.to_nat lookup_total list_lookup_total].
    rewrite <- (Z.mod_small (be_val r) (2 ^ (8 * m))) by lia. rewrite Z.mod_pow2_bits_high by lia.
    rewrite Z.shiftl_spec by lia. cbn [orb]. f_equal. lia.
  - assert (Hd : j / 8 = (j - 8) / 8 + 1 /\ j mod 8 = (j - 8) mod 8).
    { replace j with ((j - 8) + 1 * 8) at 1 3 by lia. rewrite Z.div_add, Z_mod_plus_full by lia. lia. }
    destruct Hd as [-> ->]. rewrite Z2Nat.inj_add by (try apply Z.div_pos; lia).
    rewrite Nat.add_comm.
    change ((x :: r) !!! (Z.to_nat 1 + Z.to_nat ((j - 8) / 8))%nat) with (r !!! Z.to_nat ((j - 8) / 8)).
    rewrite <- IH by (done || lia). fold m. rewrite Z.shiftl_spec_low by lia. rewrite orb_false_r. f_equal. lia.
Qed.

Lemma length_wire_at b a n : length (wire_at b a n) = n.
Proof. unfold wire_at. by rewrite length_fmap, length_seq. Qed.

Lemma wire_at_ok b a n : byte_mem b -> bytes_ok (wire_at b a n).
Proof. intros H. unfold wire_at, bytes_ok. apply Forall_fmap, Forall_true. intros. apply H. Qed.

Lemma wire_at_lookup b a n i : (i < n)%nat -> wire_at b a n !!! i = b (a + Z.of_nat i).
Proof.
  intros Hi. unfold wire_at. apply list_lookup_total_correct. rewrite list_lookup_fmap, lookup_seq_lt by done. done.
Qed.

Lemma bit_wire_at b a n j :
  byte_mem b -> 0 <= j < 8 * Z.of_nat n ->
  Z.testbit (be_val (wire_at b a n)) (8 * Z.of_nat n - 1 - j) = bit b (8 * a + j).
Proof.
  intros Hb Hj. pose proof (be_val_testbit (wire_at b a n) j (wire_at_ok b a n Hb)) as H.
  rewrite length_wire_at in H. rewrite H by done.
  assert (0 <= j / 8 < Z.of_nat n) by (split; [apply Z.div_pos|apply Z.div_lt_upper_bound]; lia).
  rewrite wire_at_lookup by lia. unfold bit. rewrite Z2Nat.id by lia.
  replace (8 * a + j) with (j + a * 8) by lia. by rewrite Z.div_add, Z_mod_plus_full, Z.add_comm by lia.
Qed.

Lemma put_bytes b a bs : byte_mem b -> bytes_ok bs -> byte_mem (put b a bs).
Proof.
  intros Hb Hs x. unfold put. destruct ((a <=? x) && (x <? a + Z.of_nat (length bs))) eqn:E; [|apply Hb].
  zbool. apply (Forall_lookup_total_1 _ _ _ Hs). lia.
Qed.

(** What a [put] does to the bits. *)
Lemma bit_put b a bs k :
  bytes_ok bs -> 0 <= k ->
  bit (put b a bs) k = if (8 * a <=? k) && (k <? 8 * a + 8 * Z.of_nat (length bs))
                       then Z.testbit (be_val bs) (8 * Z.of_nat (length bs) - 1 - (k - 8 * a)) else bit b k.
Proof.
  intros Hs Hk. set (n := Z.of_nat (length bs)) in *. unfold bit, put.
  pose proof (Z.div_mod k 8). pose proof (Z.mod_pos_bound k 8).
  destruct ((8 * a <=? k) && (k <? 8 * a + 8 * n)) eqn:E; zbool.
  - replace ((a <=? k / 8) && (k / 8 <? a + Z.of_nat (length bs))) with true.
    2: { symmetry. apply andb_true_iff. split; [apply Z.leb_le|apply Z.ltb_lt]; fold n; lia. }
    unfold n. rewrite be_val_testbit by (done || (fold n; lia)).
    replace ((k - 8 * a) / 8) with (k / 8 - a) by (replace (k - 8 * a) with (k + (- a) * 8) by lia; rewrite Z.div_add by lia; lia).
    replace ((k - 8 * a) mod 8) with (k mod 8); [done|].
    replace (k - 8 * a) with (k + (- a) * 8) by lia. by rewrite Z_mod_plus_full.
  - destruct ((a <=? k / 8) && (k / 8 <? a + Z.of_nat (length bs))) eqn:E2; [|done]. exfalso. unfold n in E. zbool.
    apply andb_false_iff in E as [E|E]; zbool; lia.
Qed.

(** ** One field *)

(** The first bit of a field. *)
Definition pos (base : Z) (f : ib_field) : Z := 8 * base + 32 * offset_words f + offset_bits f.

(** The field is inside its word, or a whole number of bytes, and the member
    has room for it. *)
Definition field_ok (f : ib_field) : bool :=
  (0 <=? offset_words f) && (0 <=? offset_bits f) && (0 <? size_bits f) &&
  (if size_bits f <=? 32 then offset_bits f + size_bits f <=? 32
   else if size_bits f <=? 64 then offset_bits f + size_bits f <=? 64
   else (offset_bits f mod 8 =? 0) && (size_bits f mod 8 =? 0)) &&
  ((struct_size_bytes f =? 0) ||
   (if size_bits f <=? 64
    then ((struct_size_bytes f =? 1) || (struct_size_bytes f =? 2) || (struct_size_bytes f =? 4)
          || (struct_size_bytes f =? 8)) && (size_bits f <=? 8 * struct_size_bytes f)
    else 8 * struct_size_bytes f =? size_bits f)).

(** The field is not one whose address [ib_unpack] gets wrong. *)
Definition readable (f : ib_field) : bool :=
  (struct_size_bytes f =? 0) || (size_bits f <=? 32) || (64 <? size_bits f) || (offset_words f =? 0).

Definition field_value (f : ib_field) (st : cstruct) : Z :=
  if struct_size_bytes f =? 0 then 0 else be_val (st (field_name f)).

(** The member is as long as the table says and its value fits. *)
Definition member_ok (f : ib_field) (st : cstruct) : Prop :=
  struct_size_bytes f <> 0 ->
  Z.of_nat (length (st (field_name f))) = struct_size_bytes f /\ bytes_ok (st (field_name f)) /\
  be_val (st (field_name f)) < 2 ^ size_bits f.

Lemma mask_bit size shift w i :
  0 <= size -> 0 <= shift -> shift + size <= w -> 0 <= i < w ->
  Z.testbit (((2 ^ size - 1) <<. shift) mod 2 ^ w) i = (shift <=? i) && (i <? shift + size).
Proof.
  intros Hs Hsh Hw Hi. rewrite Z.mod_pow2_bits_low by lia. rewrite Z.shiftl_spec by lia.
  destruct (Z.leb_spec shift i); cbn [andb]; [|by apply Z.testbit_neg_r; lia].
  replace (2 ^ size - 1) with (Z.ones size) by (rewrite Z.ones_equiv; lia).
  rewrite Z.testbit_ones_nonneg by lia. destruct (Z.ltb_spec (i - shift) size), (Z.ltb_spec i (shift + size)); lia || done.
Qed.

(** The word after the insertion. *)
Lemma insert_bits_bit n buf a shift size val k :
  byte_mem buf -> 0 <= size -> 0 <= shift -> shift + size <= 8 * Z.of_nat n -> 0 <= k ->
  let p := 8 * a + 8 * Z.of_nat n - shift - size in
  bit (insert_bits n buf a shift size val) k
  = if (p <=? k) && (k <? p + size) then Z.testbit val (size - 1 - (k - p)) else bit buf k.
Proof.
  intros Hb Hs Hsh Hw Hk p. unfold insert_bits. rewrite bit_put by (by try apply be_bytes_ok).
  rewrite length_be_bytes, be_val_bytes.
  destruct ((8 * a <=? k) && (k <? 8 * a + 8 * Z.of_nat n)) eqn:E.
  - zbool. set (i := 8 * Z.of_nat n - 1 - (k - 8 * a)). rewrite Z.mod_pow2_bits_low by (unfold i; lia).
    rewrite Z.lor_spec, !Z.land_spec, Z.lnot_spec by (unfold i; lia). rewrite mask_bit by (unfold i; lia).
    rewrite Z.mod_pow2_bits_low, Z.shiftl_spec by (unfold i; lia).
    unfold i at 1. rewrite bit_wire_at by (done || lia). replace (8 * a + (k - 8 * a)) with k by lia.
    assert (Eq : (shift <=? i) && (i <? shift + size) = (p <=? k) && (k <? p + size)).
    { unfold i, p. destruct (Z.leb_spec shift (8 * Z.of_nat n - 1 - (k - 8 * a))),
        (Z.ltb_spec (8 * Z.of_nat n - 1 - (k - 8 * a)) (shift + size)),
        (Z.leb_spec (8 * a + 8 * Z.of_nat n - shift - size) k),
        (Z.ltb_spec k (8 * a + 8 * Z.of_nat n - shift - size + size)); lia || done. }
    rewrite Eq. destruct ((p <=? k) && (k <? p + size)); cbn [negb]; rewrite ?andb_false_r, ?andb_true_r, ?orb_false_r.
    + cbn [orb]. f_equal. unfold i, p. lia.
    + done.
  - replace ((p <=? k) && (k <? p + size)) with false; [done|]. symmetry. apply andb_false_iff.
    apply andb_false_iff in E as [E|E]; zbool; [left; apply Z.leb_gt|right; apply Z.ltb_ge]; unfold p; lia.
Qed.

Lemma insert_bits_bytes n buf a shift size val : byte_mem buf -> byte_mem (insert_bits n buf a shift size val).
Proof. intros H. apply put_bytes; [done|apply be_bytes_ok]. Qed.

Lemma extract_bits_spec n buf a shift size :
  byte_mem buf -> 0 <= size -> 0 <= shift -> shift + size <= 8 * Z.of_nat n ->
  let x := extract_bits n buf a shift size in
  0 <= x < 2 ^ size /\
  forall i, 0 <= i < size -> Z.testbit x i = bit buf (8 * a + 8 * Z.of_nat n - shift - 1 - i).
Proof.
  intros Hb Hs Hsh Hw x.
  assert (Hbit : forall i, 0 <= i -> Z.testbit x i = (i <? size) && bit buf (8 * a + 8 * Z.of_nat n - shift - 1 - i)).
  { intros i Hi. unfold x, extract_bits. rewrite Z.shiftr_spec, Z.land_spec by lia.
    destruct (Z.lt_ge_cases (i + shift) (8 * Z.of_nat n)) as [Hlt|Hge].
    - rewrite mask_bit by lia. replace ((shift <=? i + shift) && (i + shift <? shift + size)) with (i <? size).
      2: { destruct (Z.leb_spec shift (i + shift)); [|lia]. cbn [andb].
           destruct (Z.ltb_spec i size), (Z.ltb_spec (i + shift) (shift + size)); lia || done. }
      destruct (Z.ltb_spec i size); cbn [andb]; [|apply andb_false_r]. rewrite andb_true_r.
      replace (i + shift) with (8 * Z.of_nat n - 1 - (8 * Z.of_nat n - 1 - (i + shift))) by lia.
      rewrite bit_wire_at by (done || lia). f_equal. lia.
    - rewrite Z.mod_pow2_bits_high, andb_false_r by lia. destruct (Z.ltb_spec i size); [lia|done]. }
  split.
  - assert (Hx : x = x mod 2 ^ size).
    { apply Z.bits_inj'. intros i Hi. destruct (Z.lt_ge_cases i size).
      - by rewrite Z.mod_pow2_bits_low.
      - rewrite Z.mod_pow2_bits_high, Hbit by lia. destruct (Z.ltb_spec i size); [lia|done]. }
    rewrite Hx. apply Z.mod_pos_bound, pow2_pos. lia.
  - intros i Hi. rewrite Hbit by lia. destruct (Z.ltb_spec i size); [done|lia].
Qed.

(** [buf'] is [buf] with the bits [size] bits from [p] on set to [v]. *)
Definition bits_set (buf buf' : mem) (p size v : Z) : Prop :=
  forall k, 0 <= k ->
    bit buf' k = if (p <=? k) && (k <? p + size) then Z.testbit v (size - 1 - (k - p)) else bit buf k.

Lemma field_ok_facts f : field_ok f = true ->
  0 <= offset_words f /\ 0 <= offset_bits f /\ 0 < size_bits f /\
  (size_bits f <= 32 -> offset_bits f + size_bits f <= 32) /\
  (32 < size_bits f <= 64 -> offset_bits f + size_bits f <= 64) /\
  (64 < size_bits f -> offset_bits f mod 8 = 0 /\ size_bits f mod 8 = 0) /\
  (struct_size_bytes f <> 0 -> size_bits f <= 64 ->
     (struct_size_bytes f = 1 \/ struct_size_bytes f = 2 \/ struct_size_bytes f = 4 \/ struct_size_bytes f = 8) /\
     size_bits f <= 8 * struct_size_bytes f) /\
  (struct_size_bytes f <> 0 -> 64 < size_bits f -> 8 * struct_size_bytes f = size_bits f).
Proof.
  unfold field_ok. intros H. zbool.
  split; [done|]. split; [done|]. split; [done|].
  destruct (Z.leb_spec (size_bits f) 32), (Z.leb_spec (size_bits f) 64); try lia; zbool;
    (split; [intros; try lia|]); (split; [intros; try lia|]); (split; [intros; try lia|]); auto;
    (split; [|intros; try lia]); intros; try lia;
    apply orb_true_iff in H0 as [?|?]; zbool; try lia;
    repeat match goal with
    | H : (_ || _) = true |- _ => apply orb_true_iff in H as [?|?]
    end; zbool; lia.
Qed.

Lemma value_read_member f st :
  field_ok f = true -> size_bits f <= 64 ->
  (if struct_size_bytes f =? 0 then 0 else value_read (struct_size_bytes f) (st (field_name f))) = field_value f st.
Proof.
  intros Hf Hs. destruct (field_ok_facts f Hf) as (_ & _ & _ & _ & _ & _ & Hsz & _). unfold field_value, value_read.
  destruct (Z.eqb_spec (struct_size_bytes f) 0); [done|].
  destruct Hsz as [[-> | [-> | [-> | ->]]] _]; done.
Qed.

Lemma take_member f st :
  field_ok f = true -> member_ok f st -> struct_size_bytes f <> 0 -> 64 < size_bits f ->
  take (Z.to_nat (size_bits f / 8)) (st (field_name f)) = st (field_name f) /\
  size_bits f / 8 = struct_size_bytes f.
Proof.
  intros Hf Hm Hz Hs. destruct (field_ok_facts f Hf) as (_ & _ & _ & _ & _ & _ & _ & H8).
  destruct (Hm Hz) as (Hl & _). assert (E : size_bits f / 8 = struct_size_bytes f).
  { rewrite <- H8, Z.mul_comm, Z.div_mul by lia. done. }
  split; [|done]. apply take_ge. lia.
Qed.

Lemma be_val_zeros n : be_val (zeros n) = 0.
Proof. unfold zeros. induction n as [|n IH]; [done|]. cbn [replicate be_val]. rewrite IH. lia. Qed.
Lemma zeros_bytes n : bytes_ok (zeros n).
Proof. apply Forall_replicate. unfold byte_ok. lia. Qed.

Lemma pack_field_bits f st buf base :
  field_ok f = true -> member_ok f st -> byte_mem buf -> 0 <= base ->
  exists buf', pack_field f st buf base = Some buf' /\ byte_mem buf' /\
    bits_set buf buf' (pos base f) (size_bits f) (field_value f st).
Proof.
  intros Hf Hm Hb Hbase. destruct (field_ok_facts f Hf) as (Hw & Ho & Hs & H32 & H64 & Hbig & _).
  unfold pack_field. destruct (Z.leb_spec (size_bits f) 32) as [L1|L1];
    [|destruct (Z.leb_spec (size_bits f) 64) as [L2|L2]].
  - rewrite value_read_member by (done || lia). specialize (H32 L1).
    destruct (Z.ltb_spec (32 - offset_bits f - size_bits f) 0); [lia|].
    eexists. split; [reflexivity|]. split; [by apply insert_bits_bytes|].
    intros k Hk. rewrite insert_bits_bit by (done || lia). unfold pos.
    replace (8 * (base + 4 * offset_words f) + 8 * Z.of_nat 4 - (32 - offset_bits f - size_bits f) - size_bits f)
      with (8 * base + 32 * offset_words f + offset_bits f) by lia. done.
  - rewrite value_read_member by (done || lia). specialize (H64 ltac:(lia)).
    destruct (Z.ltb_spec (64 - offset_bits f - size_bits f) 0); [lia|].
    eexists. split; [reflexivity|]. split; [by apply insert_bits_bytes|].
    intros k Hk. rewrite insert_bits_bit by (done || lia). unfold pos.
    replace (8 * (base + 4 * offset_words f) + 8 * Z.of_nat 8 - (64 - offset_bits f - size_bits f) - size_bits f)
      with (8 * base + 32 * offset_words f + offset_bits f) by lia. done.
  - destruct (Hbig L2) as [B1 B2]. pose proof (Z.div_mod (offset_bits f) 8). pose proof (Z.div_mod (size_bits f) 8).
    assert (Hcopy : forall bs, bytes_ok bs -> 8 * Z.of_nat (length bs) = size_bits f ->
      byte_mem (put buf (base + 4 * offset_words f + offset_bits f / 8) bs) /\
      bits_set buf (put buf (base + 4 * offset_words f + offset_bits f / 8) bs) (pos base f) (size_bits f) (be_val bs)).
    { intros bs Hbs Hl. split; [by apply put_bytes|]. intros k Hk. rewrite bit_put by done. rewrite Hl.
      assert (E8 : 8 * (base + 4 * offset_words f + offset_bits f / 8) = pos base f) by (unfold pos; lia).
      by rewrite E8. }
    unfold field_value. destruct (Z.eqb_spec (struct_size_bytes f) 0) as [Hz|Hz].
    + eexists. split; [reflexivity|]. rewrite <- (be_val_zeros (Z.to_nat (size_bits f / 8))).
      apply Hcopy; [apply zeros_bytes|]. unfold zeros. rewrite length_replicate. lia.
    + destruct (take_member f st Hf Hm Hz L2) as [-> E]. rewrite E, Z.leb_refl.
      eexists. split; [reflexivity|]. destruct (Hm Hz) as (Hl & Hok & _). apply Hcopy; [done|lia].
Qed.

(** The bits of field [f] in the message are those of [v]. *)
Definition holds (buf : mem) (base : Z) (f : ib_field) (v : Z) : Prop :=
  forall i, 0 <= i < size_bits f -> bit buf (pos base f + i) = Z.testbit v (size_bits f - 1 - i).

Lemma set_member_eq st n bs : set_member st n bs n = bs.
Proof. unfold set_member. by rewrite String.eqb_refl. Qed.
Lemma set_member_ne st n bs x : x <> n -> set_member st n bs x = st x.
Proof. intros H. unfold set_member. by apply String.eqb_neq in H as ->. Qed.

Lemma same_value size x v :
  0 <= size -> 0 <= x < 2 ^ size -> 0 <= v < 2 ^ size ->
  (forall i, 0 <= i < size -> Z.testbit x i = Z.testbit v i) -> x = v.
Proof.
  intros Hs Hx Hv Hb. apply Z.bits_inj'. intros i Hi. destruct (Z.lt_ge_cases i size); [by apply Hb|].
  rewrite <- (Z.mod_small x (2 ^ size)), <- (Z.mod_small v (2 ^ size)) by done.
  by rewrite !Z.mod_pow2_bits_high by lia.
Qed.

Lemma member_value f st : member_ok f st -> struct_size_bytes f <> 0 ->
  0 <= field_value f st < 2 ^ size_bits f /\
  be_bytes (Z.to_nat (struct_size_bytes f)) (field_value f st) = st (field_name f).
Proof.
  intros Hm Hz. destruct (Hm Hz) as (Hl & Hok & Hv). unfold field_value.
  destruct (Z.eqb_spec (struct_size_bytes f) 0); [done|]. split; [split; [by apply be_val_range|done]|].
  rewrite <- Hl, Nat2Z.id. by apply be_bytes_val.
Qed.

(** A word read back, and bytes read back. *)
Lemma read_word f st buf base st0 n a shift :
  field_ok f = true -> struct_size_bytes f <> 0 -> byte_mem buf -> member_ok f st ->
  holds buf base f (field_value f st) -> size_bits f <= 64 -> 0 <= shift -> shift + size_bits f <= 8 * Z.of_nat n ->
  8 * a + 8 * Z.of_nat n - shift - size_bits f = pos base f ->
  value_write st0 f (extract_bits n buf a shift (size_bits f)) = set_member st0 (field_name f) (st (field_name f)).
Proof.
  intros Hf Hz Hb Hm Hh L Hsh Hw' Hp. destruct (field_ok_facts f Hf) as (_ & _ & Hs & _ & _ & _ & Hsz & _).
  destruct (member_value f st Hm Hz) as [Hv Hbytes].
  destruct (extract_bits_spec n buf a shift (size_bits f)) as [Hx Hbits]; [done|lia..|].
  rewrite (same_value (size_bits f) (extract_bits n buf a shift (size_bits f)) (field_value f st)); [|lia|done|done|].
  - unfold value_write. rewrite Hbytes. by destruct (Hsz Hz L) as [[-> | [-> | [-> | ->]]] _].
  - intros i Hi. rewrite Hbits by done.
    replace (8 * a + 8 * Z.of_nat n - shift - 1 - i) with (pos base f + (size_bits f - 1 - i)) by lia.
    rewrite Hh by lia. f_equal. lia.
Qed.

Lemma read_bytes f st buf base :
  field_ok f = true -> struct_size_bytes f <> 0 -> byte_mem buf -> member_ok f st ->
  holds buf base f (field_value f st) -> 64 < size_bits f ->
  wire_at buf (base + 4 * offset_words f + offset_bits f / 8) (Z.to_nat (struct_size_bytes f)) = st (field_name f).
Proof.
  intros Hf Hz Hb Hm Hh L. destruct (field_ok_facts f Hf) as (_ & _ & Hs & _ & _ & Hbig & _ & H8).
  destruct (Hbig L) as [B1 B2]. pose proof (Z.div_mod (offset_bits f) 8). specialize (H8 Hz L).
  destruct (member_value f st Hm Hz) as [Hv _]. destruct (Hm Hz) as (Hl & Hok & _).
  set (bs := wire_at _ _ _). assert (Hlb : length bs = length (st (field_name f))).
  { unfold bs. rewrite length_wire_at. lia. }
  rewrite <- (be_bytes_val bs), <- (be_bytes_val (st (field_name f))), Hlb by (done || by apply wire_at_ok). f_equal.
  unfold field_value in Hv, Hh. destruct (Z.eqb_spec (struct_size_bytes f) 0) as [|_]; [done|].
  apply (same_value (size_bits f)); [lia| |done|].
  - pose proof (be_val_range bs (wire_at_ok _ _ _ Hb)) as R. rewrite Hlb, Hl, H8 in R. done.
  - intros i Hi. unfold bs.
    replace i with (8 * Z.of_nat (Z.to_nat (struct_size_bytes f)) - 1 - (size_bits f - 1 - i)) at 1 by lia.
    rewrite bit_wire_at by (done || lia).
    replace (8 * (base + 4 * offset_words f + offset_bits f / 8) + (size_bits f - 1 - i))
      with (pos base f + (size_bits f - 1 - i)) by (unfold pos; lia).
    rewrite Hh by lia. f_equal. lia.
Qed.

(** Reading a field whose bits are those of a member gives the member. *)
Lemma unpack_field_member f st buf base st0 :
  field_ok f = true -> readable f = true -> struct_size_bytes f <> 0 -> byte_mem buf ->
  member_ok f st -> holds buf base f (field_value f st) ->
  Z.of_nat (length (st0 (field_name f))) = struct_size_bytes f ->
  unpack_field f buf base st0 = Some (set_member st0 (field_name f) (st (field_name f))).
Proof.
  intros Hf Hr Hz Hb Hm Hh Hl0. destruct (field_ok_facts f Hf) as (Hw & Ho & Hs & H32 & H64 & _).
  unfold unpack_field. destruct (Z.eqb_spec (struct_size_bytes f) 0); [done|].
  destruct (Z.leb_spec (size_bits f) 32) as [L1|L1]; [|destruct (Z.leb_spec (size_bits f) 64) as [L2|L2]].
  - specialize (H32 L1). destruct (Z.ltb_spec (32 - offset_bits f - size_bits f) 0); [lia|]. f_equal.
    apply (read_word f st buf base); auto; unfold pos; lia.
  - specialize (H64 ltac:(lia)). destruct (Z.ltb_spec (64 - offset_bits f - size_bits f) 0); [lia|]. f_equal.
    assert (offset_words f = 0).
    { unfold readable in Hr. repeat (apply orb_true_iff in Hr as [Hr|Hr]); zbool; lia. }
    apply (read_word f st buf base); auto; unfold pos; lia.
  - destruct (take_member f st Hf Hm Hz L2) as [_ E]. rewrite E, Z.leb_refl, drop_ge, app_nil_r by lia.
    by rewrite (read_bytes f st).
Qed.

(** ** Tables *)

Definition fields_apart (f g : ib_field) : bool :=
  (pos 0 f + size_bits f <=? pos 0 g) || (pos 0 g + size_bits g <=? pos 0 f).
Definition names_apart (f g : ib_field) : bool :=
  (struct_size_bytes f =? 0) || (struct_size_bytes g =? 0) || negb (String.eqb (field_name f) (field_name g)).

(** No two fields share a bit of the message or a member. *)
Fixpoint desc_ok (desc : list ib_field) : bool :=
  match desc with
  | [] => true
  | f :: r => field_ok f && forallb (fun g => fields_apart f g && names_apart f g) r && desc_ok r
  end.

Lemma bits_set_holds buf buf' base f v :
  0 <= pos base f -> bits_set buf buf' (pos base f) (size_bits f) v -> holds buf' base f v.
Proof.
  intros Hp H i Hi. rewrite H by lia. destruct (Z.leb_spec (pos base f) (pos base f + i)); [|lia].
  destruct (Z.ltb_spec (pos base f + i) (pos base f + size_bits f)); [|lia]. cbn [andb]. f_equal. lia.
Qed.

(** A bit that belongs to none of the fields. *)
Definition outside (base : Z) (desc : list ib_field) (k : Z) : Prop :=
  forall f, f ∈ desc -> k < pos base f \/ pos base f + size_bits f <= k.

Lemma apart_outside base f r i :
  forallb (fun g => fields_apart f g && names_apart f g) r = true -> 0 <= i < size_bits f ->
  outside base r (pos base f + i).
Proof.
  intros Ha Hi g Hg. rewrite forallb_forall in Ha. specialize (Ha g). rewrite <- list_elem_of_In in Ha.
  specialize (Ha Hg). zbool. unfold fields_apart in H. apply orb_true_iff in H as [H|H]; zbool; unfold pos in *; lia.
Qed.

Lemma pack_all desc st buf base :
  desc_ok desc = true -> (forall f, f ∈ desc -> member_ok f st) -> byte_mem buf -> 0 <= base ->
  exists buf', ib_pack desc st buf base = Some buf' /\ byte_mem buf' /\
    (forall f, f ∈ desc -> holds buf' base f (field_value f st)) /\
    (forall k, 0 <= k -> outside base desc k -> bit buf' k = bit buf k).
Proof.
  revert buf. induction desc as [|f r IH]; intros buf Hd Hm Hb Hbase.
  { exists buf. split; [done|]. split; [done|]. split; [|done]. by intros f Hf%elem_of_nil. }
  simpl in Hd. zbool. rename H into Hf, H0 into Hr, H1 into Ha.
  destruct (field_ok_facts f Hf) as (Hw & Ho & Hs & _).
  assert (Hpos : 0 <= pos base f) by (unfold pos; lia).
  destruct (pack_field_bits f st buf base) as (b1 & E1 & Hb1 & Hset); auto.
  { apply Hm, list_elem_of_here. }
  destruct (IH b1) as (b2 & E2 & Hb2 & Hh & Hout); auto.
  { intros g Hg. by apply Hm, list_elem_of_further. }
  exists b2. simpl. rewrite E1. simpl. split; [done|]. split; [done|]. split.
  - intros g [-> |Hg]%elem_of_cons; [|by apply Hh].
    intros i Hi. rewrite Hout by (lia || by apply apart_outside). by apply (bits_set_holds buf b1).
  - intros k Hk Ho'. rewrite Hout; [|done|intros g Hg; by apply Ho', list_elem_of_further].
    rewrite Hset by done. destruct (Ho' f (list_elem_of_here _ _)).
    + destruct (Z.leb_spec (pos base f) k); [lia|done].
    + destruct (Z.ltb_spec k (pos base f + size_bits f)); [lia|]. by rewrite andb_false_r.
Qed.

(** The structure to fill has members of the sizes of the table. *)
Definition shaped (desc : list ib_field) (st : cstruct) : Prop :=
  forall f, f ∈ desc -> struct_size_bytes f <> 0 ->
    Z.of_nat (length (st (field_name f))) = struct_size_bytes f.

(** [st'] has the members of [desc] from [st] and the others from [st0]. *)
Definition taken_from (desc : list ib_field) (st st0 st' : cstruct) : Prop :=
  (forall f, f ∈ desc -> struct_size_bytes f <> 0 -> st' (field_name f) = st (field_name f)) /\
  (forall x, (forall f, f ∈ desc -> struct_size_bytes f <> 0 -> x <> field_name f) -> st' x = st0 x).

Lemma unpack_all desc st buf base st0 :
  desc_ok desc = true -> forallb readable desc = true -> (forall f, f ∈ desc -> member_ok f st) -> byte_mem buf ->
  (forall f, f ∈ desc -> holds buf base f (field_value f st)) -> shaped desc st0 ->
  exists st', ib_unpack desc buf base st0 = Some st' /\ taken_from desc st st0 st'.
Proof.
  revert st0. induction desc as [|f r IH]; intros st0 Hd Hr Hm Hb Hh Hsh.
  { exists st0. split; [done|]. split; [|done]. by intros f Hf%elem_of_nil. }
  simpl in Hd, Hr. zbool. rename H1 into Hf, H2 into Hd, H3 into Ha, H into Hrf, H0 into Hrr.
  set (st1 := if struct_size_bytes f =? 0 then st0 else set_member st0 (field_name f) (st (field_name f))).
  assert (E1 : unpack_field f buf base st0 = Some st1).
  { unfold st1. destruct (Z.eqb_spec (struct_size_bytes f) 0) as [Hz|Hz].
    - unfold unpack_field. by rewrite Hz.
    - apply unpack_field_member; auto using list_elem_of_here. }
  assert (Hne : struct_size_bytes f <> 0 -> forall g, g ∈ r -> struct_size_bytes g <> 0 -> field_name f <> field_name g).
  { intros Hz g Hg Hzg. rewrite forallb_forall in Ha. specialize (Ha g). rewrite <- list_elem_of_In in Ha.
    specialize (Ha Hg). zbool. unfold names_apart in *. apply orb_true_iff in H0 as [H0|H0].
    - apply orb_true_iff in H0 as [H0|H0]; zbool; done.
    - zbool. by apply String.eqb_neq in H0. }
  destruct (IH st1) as (st' & E & Hin & Hout); auto using list_elem_of_further.
  { intros g Hg Hz. unfold st1. destruct (Z.eqb_spec (struct_size_bytes f) 0) as [|Hzf];
      [by apply Hsh; auto using list_elem_of_further|].
    rewrite set_member_ne by (intros e; by apply (Hne Hzf g)). apply Hsh; auto using list_elem_of_further. }
  exists st'. simpl. rewrite E1. simpl. split; [done|]. split.
  - intros g [-> |Hg]%elem_of_cons Hz; [|by apply Hin]. rewrite Hout by (by apply Hne). unfold st1.
    destruct (Z.eqb_spec (struct_size_bytes f) 0); [done|]. apply set_member_eq.
  - intros x Hx. rewrite Hout by (intros g Hg; apply Hx; by apply list_elem_of_further). unfold st1.
    destruct (Z.eqb_spec (struct_size_bytes f) 0); [done|]. apply set_member_ne. apply Hx; auto using list_elem_of_here.
Qed.

(** What goes in comes out. *)
Lemma pack_unpack desc st st0 buf base :
  desc_ok desc = true -> forallb readable desc = true -> (forall f, f ∈ desc -> member_ok f st) ->
  shaped desc st0 -> byte_mem buf -> 0 <= base ->
  exists buf' st', ib_pack desc st buf base = Some buf' /\ ib_unpack desc buf' base st0 = Some st' /\
    taken_from desc st st0 st'.
Proof.
  intros Hd Hr Hm Hsh Hb Hbase. destruct (pack_all desc st buf base) as (buf' & E & Hb' & Hh & _); auto.
  destruct (unpack_all desc st buf' base st0) as (st' & E' & H); auto. by exists buf', st'.
Qed.

(** Bytes below a message stay when something is packed behind them. *)
Definition keeps (buf buf' : mem) (lim : Z) : Prop := forall k, 0 <= k < 8 * lim -> bit buf' k = bit buf k.

(** The table describes at most [n] bytes. *)
Definition within (n : Z) (desc : list ib_field) : bool :=
  forallb (fun f => pos 0 f + size_bits f <=? 8 * n) desc.

Lemma holds_keeps desc n buf buf' base st :
  desc_ok desc = true -> within n desc = true -> 0 <= base -> keeps buf buf' (base + n) ->
  (forall f, f ∈ desc -> holds buf base f (field_value f st)) ->
  forall f, f ∈ desc -> holds buf' base f (field_value f st).
Proof.
  intros Hd Hw Hb Hk Hh f Hf i Hi. unfold within in Hw. rewrite forallb_forall in Hw.
  specialize (Hw f). rewrite <- list_elem_of_In in Hw. specialize (Hw Hf). zbool.
  assert (Hp : 0 <= pos 0 f).
  { clear -Hd Hf. induction desc as [|g r IH]; [by apply elem_of_nil in Hf|]. simpl in Hd. zbool.
    apply elem_of_cons in Hf as [-> |Hf]; [|by apply IH].
    destruct (field_ok_facts g H) as (? & ? & _). unfold pos. lia. }
  rewrite Hk; [by apply Hh|]. unfold pos in *. lia.
Qed.

(** Packing at [base] keeps what is in front. *)
Lemma outside_front desc base k : desc_ok desc = true -> k < 8 * base -> outside base desc k.
Proof.
  intros Hd Hk f Hf. left. induction desc as [|g r IH]; [by apply elem_of_nil in Hf|]. simpl in Hd. zbool.
  apply elem_of_cons in Hf as [-> |Hf]; [|by apply IH].
  destruct (field_ok_facts g H) as (? & ? & _). unfold pos. lia.
Qed.

Lemma pack_keeps desc st buf base :
  desc_ok desc = true -> (forall f, f ∈ desc -> member_ok f st) -> byte_mem buf -> 0 <= base ->
  exists buf', ib_pack desc st buf base = Some buf' /\ byte_mem buf' /\ keeps buf buf' base /\
    (forall f, f ∈ desc -> holds buf' base f (field_value f st)).
Proof.
  intros Hd Hm Hb Hbase. destruct (pack_all desc st buf base) as (buf' & E & Hb' & Hh & Ho); auto.
  exists buf'. split; [done|]. split; [done|]. split; [|done]. intros k Hk. apply Ho; [lia|].
  apply outside_front; [done|lia].
Qed.

(** ** A field of more than 32 bits *)

Lemma put_wire_at b a bs x n :
  a + Z.of_nat (length bs) <= x -> wire_at (put b a bs) x n = wire_at b x n.
Proof.
  intros H. unfold wire_at. apply list_fmap_ext. intros i y Hy. apply lookup_seq in Hy as [-> ?].
  unfold put. destruct (Z.ltb_spec (x + Z.of_nat (0 + i)) (a + Z.of_nat (length bs))); [lia|]. by rewrite andb_false_r.
Qed.

(** [ib_unpack] looks for a field of 33 to 64 bits at twice its offset: if
    the offset is two words or more, what it reads does not depend on the value
    [ib_pack] stored, so the value does not survive the way there and back. *)
Theorem unpack_loses_field f st1 st2 st0 buf base :
  field_ok f = true -> 32 < size_bits f <= 64 -> 2 <= offset_words f -> byte_mem buf -> 0 <= base ->
  member_ok f st1 -> member_ok f st2 ->
  exists b1 b2, ib_pack [f] st1 buf base = Some b1 /\ ib_pack [f] st2 buf base = Some b2 /\
    ib_unpack [f] b1 base st0 = ib_unpack [f] b2 base st0.
Proof.
  intros Hf Hs Ho Hb Hbase H1 H2. destruct (field_ok_facts f Hf) as (_ & _ & _ & _ & H64 & _). specialize (H64 Hs).
  unfold ib_pack, pack_field. destruct (Z.leb_spec (size_bits f) 32); [lia|].
  destruct (Z.leb_spec (size_bits f) 64); [|lia]. destruct (Z.ltb_spec (64 - offset_bits f - size_bits f) 0); [lia|].
  eexists _, _. split; [reflexivity|]. split; [reflexivity|]. unfold ib_unpack, unpack_field.
  destruct (struct_size_bytes f =? 0); [done|]. destruct (Z.leb_spec (size_bits f) 32); [lia|].
  destruct (Z.leb_spec (size_bits f) 64); [|lia]. destruct (Z.ltb_spec (64 - offset_bits f - size_bits f) 0); [lia|].
  unfold extract_bits, insert_bits. by rewrite !put_wire_at by (rewrite length_be_bytes; lia).
Qed.

Lemma unpack_loses_field_witness :
  let f := mkfield "guid" 8 2 0 64 in
  let st (v : Z) : cstruct := fun _ => be_bytes 8 v in
  let st0 : cstruct := fun _ => zeros 8 in
  exists b1 b2, ib_pack [f] (st 1) (fun _ => 0) 0 = Some b1 /\ ib_pack [f] (st 2) (fun _ => 0) 0 = Some b2 /\
    ib_unpack [f] b1 0 st0 = ib_unpack [f] b2 0 st0.
Proof.
  apply (unpack_loses_field (mkfield "guid" 8 2 0 64)); try (by vm_compute).
  - split; [done|]. split; [apply be_bytes_ok|done].
  - split; [done|]. split; [apply be_bytes_ok|done].
Defined.
