(* ===== verification/SaRecords.v ===== *)
(** * SaRecords: the records of the subnet administrator (core/sa_query.c)

    The tables by which path, multicast, service, class port and GUID records
    are packed into management datagrams.  The sizes of the members are those of
    the structures in ib_sa.h and ib_mad.h; a table uses one arm of the union in
    sa_path_rec only. *)

From stdpp Require Import strings.
From S2P Require Import Prelude Packer.

Definition RESERVED (words bits size : Z) : ib_field := mkfield "reserved" 0 words bits size.

Definition path_rec_table : list ib_field :=
  [mkfield "service_id" 8 0 0 64;
   mkfield "dgid" 16 2 0 128;
   mkfield "sgid" 16 6 0 128;
   mkfield "ib.dlid" 2 10 0 16;
   mkfield "ib.slid" 2 10 16 16;
   mkfield "ib.raw_traffic" 1 11 0 1;
   RESERVED 11 1 3;
   mkfield "flow_label" 4 11 4 20;
   mkfield "hop_limit" 1 11 24 8;
   mkfield "traffic_class" 1 12 0 8;
   mkfield "reversible" 1 12 8 1;
   mkfield "numb_path" 1 12 9 7;
   mkfield "pkey" 2 12 16 16;
   mkfield "qos_class" 2 13 0 12;
   mkfield "sl" 1 13 12 4;
   mkfield "mtu_selector" 1 13 16 2;
   mkfield "mtu" 1 13 18 6;
   mkfield "rate_selector" 1 13 24 2;
   mkfield "rate" 1 13 26 6;
   mkfield "packet_life_time_selector" 1 14 0 2;
   mkfield "packet_life_time" 1 14 2 6;
   mkfield "preference" 1 14 8 8;
   RESERVED 14 16 48].

Definition opa_path_rec_table : list ib_field :=
  [mkfield "service_id" 8 0 0 64;
   mkfield "dgid" 16 2 0 128;
   mkfield "sgid" 16 6 0 128;
   mkfield "opa.dlid" 4 10 0 32;
   mkfield "opa.slid" 4 11 0 32;
   mkfield "opa.raw_traffic" 1 12 0 1;
   RESERVED 12 1 3;
   mkfield "flow_label" 4 12 4 20;
   mkfield "hop_limit" 1 12 24 8;
   mkfield "traffic_class" 1 13 0 8;
   mkfield "reversible" 1 13 8 1;
   mkfield "numb_path" 1 13 9 7;
   mkfield "pkey" 2 13 16 16;
   mkfield "opa.l2_8B" 1 14 0 1;
   mkfield "opa.l2_10B" 1 14 1 1;
   mkfield "opa.l2_9B" 1 14 2 1;
   mkfield "opa.l2_16B" 1 14 3 1;
   RESERVED 14 4 2;
   mkfield "opa.qos_type" 1 14 6 2;
   mkfield "opa.qos_priority" 1 14 8 8;
   RESERVED 14 16 3;
   mkfield "sl" 1 14 19 5;
   RESERVED 14 24 8;
   mkfield "mtu_selector" 1 15 0 2;
   mkfield "mtu" 1 15 2 6;
   mkfield "rate_selector" 1 15 8 2;
   mkfield "rate" 1 15 10 6;
   mkfield "packet_life_time_selector" 1 15 16 2;
   mkfield "packet_life_time" 1 15 18 6;
   mkfield "preference" 1 15 24 8].

Definition mcmember_rec_table : list ib_field :=
  [mkfield "mgid" 16 0 0 128;
   mkfield "port_gid" 16 4 0 128;
   mkfield "qkey" 4 8 0 32;
   mkfield "mlid" 2 9 0 16;
   mkfield "mtu_selector" 1 9 16 2;
   mkfield "mtu" 1 9 18 6;
   mkfield "traffic_class" 1 9 24 8;
   mkfield "pkey" 2 10 0 16;
   mkfield "rate_selector" 1 10 16 2;
   mkfield "rate" 1 10 18 6;
   mkfield "packet_life_time_selector" 1 10 24 2;
   mkfield "packet_life_time" 1 10 26 6;
   mkfield "sl" 1 11 0 4;
   mkfield "flow_label" 4 11 4 20;
   mkfield "hop_limit" 1 11 24 8;
   mkfield "scope" 1 12 0 4;
   mkfield "join_state" 1 12 4 4;
   mkfield "proxy_join" 1 12 8 1;
   RESERVED 12 9 23].

Definition service_rec_table : list ib_field :=
  [mkfield "id" 8 0 0 64;
   mkfield "gid" 16 2 0 128;
   mkfield "pkey" 2 6 0 16;
   mkfield "lease" 4 7 0 32;
   mkfield "key" 16 8 0 128;
   mkfield "name" 64 12 0 512;
   mkfield "data8" 16 28 0 128;
   mkfield "data16" 16 32 0 128;
   mkfield "data32" 16 36 0 128;
   mkfield "data64" 16 40 0 128].

Definition ib_classport_info_rec_table : list ib_field :=
  [mkfield "base_version" 1 0 0 8;
   mkfield "class_version" 1 0 8 8;
   mkfield "capability_mask" 2 0 16 16;
   mkfield "cap_mask2_resp_time" 4 1 0 32;
   mkfield "redirect_gid" 16 2 0 128;
   mkfield "redirect_tcslfl" 4 6 0 32;
   mkfield "redirect_lid" 2 7 0 16;
   mkfield "redirect_pkey" 2 7 16 16;
   mkfield "redirect_qp" 4 8 0 32;
   mkfield "redirect_qkey" 4 9 0 32;
   mkfield "trap_gid" 16 10 0 128;
   mkfield "trap_tcslfl" 4 14 0 32;
   mkfield "trap_lid" 2 15 0 16;
   mkfield "trap_pkey" 2 15 16 16;
   mkfield "trap_hlqp" 4 16 0 32;
   mkfield "trap_qkey" 4 17 0 32].

Definition opa_classport_info_rec_table : list ib_field :=
  [mkfield "base_version" 1 0 0 8;
   mkfield "class_version" 1 0 8 8;
   mkfield "cap_mask" 2 0 16 16;
   mkfield "cap_mask2_resp_time" 4 1 0 32;
   mkfield "redirect_gid" 16 2 0 128;
   mkfield "redirect_tc_fl" 4 6 0 32;
   mkfield "redirect_lid" 4 7 0 32;
   mkfield "redirect_sl_qp" 4 8 0 32;
   mkfield "redirect_qkey" 4 9 0 32;
   mkfield "trap_gid" 16 10 0 128;
   mkfield "trap_tc_fl" 4 14 0 32;
   mkfield "trap_lid" 4 15 0 32;
   mkfield "trap_hl_qp" 4 16 0 32;
   mkfield "trap_qkey" 4 17 0 32;
   mkfield "trap_pkey" 2 18 0 16;
   mkfield "redirect_pkey" 2 18 16 16;
   mkfield "trap_sl_rsvd" 1 19 0 8;
   RESERVED 19 8 24].

Definition guidinfo_rec_table : list ib_field :=
  [mkfield "lid" 2 0 0 16;
   mkfield "block_num" 1 0 16 8;
   mkfield "res1" 1 0 24 8;
   mkfield "res2" 4 1 0 32;
   mkfield "guid_info_list" 64 2 0 512].

Definition sa_tables : list (list ib_field) :=
  [path_rec_table; opa_path_rec_table; mcmember_rec_table; service_rec_table; ib_classport_info_rec_table;
   opa_classport_info_rec_table; guidinfo_rec_table].

(** ib_sa_pack_path and ib_sa_unpack_path *)
Definition ib_sa_pack_path (rec : cstruct) (attribute : mem) : option mem :=
  ib_pack path_rec_table rec attribute 0.
Definition ib_sa_unpack_path (attribute : mem) (rec : cstruct) : option cstruct :=
  ib_unpack path_rec_table attribute 0 rec.

Lemma sa_tables_ok t : t ∈ sa_tables -> desc_ok t = true /\ forallb readable t = true.
Proof.
  intros Ht. unfold sa_tables in Ht.
  repeat (apply elem_of_cons in Ht as [-> |Ht]; [split; vm_compute; reflexivity|]). by apply elem_of_nil in Ht.
Qed.

(** u8 data[IB_MGMT_SA_DATA] of struct ib_sa_mad *)
Definition IB_MGMT_SA_DATA : Z := 200.

Lemma sa_tables_fit t f : t ∈ sa_tables -> f ∈ t -> pos 0 f + size_bits f <= 8 * IB_MGMT_SA_DATA.
Proof.
  intros Ht Hf. assert (Hw : within IB_MGMT_SA_DATA t = true).
  { unfold sa_tables in Ht. repeat (apply elem_of_cons in Ht as [-> |Ht]; [by vm_compute|]). by apply elem_of_nil in Ht. }
  unfold within in Hw. rewrite forallb_forall in Hw. specialize (Hw f). rewrite <- list_elem_of_In in Hw.
  specialize (Hw Hf). zbool. lia.
Qed.

(** C20. Every record of the subnet administrator survives the wire: with any of
    the seven tables, packing a record whose values fit and unpacking the
    datagram gives the same members, leaves other members alone, and nothing
    behind the 200 bytes of data of the datagram is written. *)
Theorem sa_record_roundtrip t rec rec0 buf :
  t ∈ sa_tables -> (forall f, f ∈ t -> member_ok f rec) -> shaped t rec0 -> byte_mem buf ->
  exists buf' rec', ib_pack t rec buf 0 = Some buf' /\ ib_unpack t buf' 0 rec0 = Some rec' /\
    taken_from t rec rec0 rec' /\ forall k, 8 * IB_MGMT_SA_DATA <= k -> bit buf' k = bit buf k.
Proof.
  intros Ht Hm Hsh Hb. destruct (sa_tables_ok t Ht) as [Hd Hr].
  destruct (pack_all t rec buf 0) as (buf' & E & Hb' & Hh & Ho); try done.
  destruct (unpack_all t rec buf' 0 rec0) as (rec' & E' & H); try done.
  exists buf', rec'. split; [done|]. split; [done|]. split; [done|].
  intros k Hk. apply Ho; [unfold IB_MGMT_SA_DATA in *; lia|].
  intros f Hf. right. pose proof (sa_tables_fit t f Ht Hf). lia.
Qed.

(** A path record with a service, two GIDs and some small fields. *)
Definition ex_path : cstruct := fun x =>
  if String.eqb x "service_id" then be_bytes 8 4660
  else if String.eqb x "dgid" then replicate 16 254
  else if String.eqb x "sgid" then replicate 16 128
  else if String.eqb x "flow_label" then be_bytes 4 703710
  else if String.eqb x "pkey" then be_bytes 2 65535
  else if String.eqb x "qos_class" then be_bytes 2 4095
  else if String.eqb x "ib.dlid" then be_bytes 2 49151
  else if String.eqb x "ib.slid" then be_bytes 2 1
  else if String.eqb x "mtu" then [4]
  else [1].
Definition zero_path_rec : cstruct := fun x => zeros (length (ex_path x)).

Definition member_okb (f : ib_field) (st : cstruct) : bool :=
  (struct_size_bytes f =? 0) ||
  ((Z.of_nat (length (st (field_name f))) =? struct_size_bytes f)
   && forallb (fun b => (0 <=? b) && (b <? 256)) (st (field_name f))
   && (be_val (st (field_name f)) <? 2 ^ size_bits f)).

Lemma member_okb_ok f st : member_okb f st = true -> member_ok f st.
Proof.
  unfold member_okb. intros H Hz. apply orb_true_iff in H as [H|H]; zbool; [done|]. split; [done|]. split; [|done].
  apply Forall_forall. intros b Hb. rewrite forallb_forall in H1. specialize (H1 b). rewrite <- list_elem_of_In in H1.
  specialize (H1 Hb). zbool. done.
Qed.

Lemma ex_path_ok : forall f, f ∈ path_rec_table -> member_ok f ex_path.
Proof.
  intros f Hf. apply member_okb_ok. revert f Hf. apply Forall_forall.
  assert (H : forallb (fun f => member_okb f ex_path) path_rec_table = true) by by vm_compute.
  by apply Forall_forall; intros f Hf; rewrite forallb_forall in H; apply H, list_elem_of_In.
Qed.

Lemma zero_path_shaped : shaped path_rec_table zero_path_rec.
Proof.
  intros f Hf Hz. unfold zero_path_rec, zeros. rewrite length_replicate. by destruct (ex_path_ok f Hf Hz).
Qed.

Lemma sa_record_roundtrip_witness :
  exists buf' rec', ib_sa_pack_path ex_path (fun _ => 0) = Some buf' /\
    ib_sa_unpack_path buf' zero_path_rec = Some rec' /\ rec' "dgid" = replicate 16 254 /\ rec' "mtu" = [4].
Proof.
  unfold ib_sa_pack_path, ib_sa_unpack_path.
  destruct (sa_record_roundtrip path_rec_table ex_path zero_path_rec (fun _ => 0))
    as (buf' & rec' & E1 & E2 & [H _] & _).
  - apply list_elem_of_here.
  - exact ex_path_ok.
  - exact zero_path_shaped.
  - intros a. unfold byte_ok. lia.
  - exists buf', rec'. split; [exact E1|]. split; [exact E2|]. split.
    + apply (H (mkfield "dgid" 16 2 0 128)); [|done]. by apply list_elem_of_lookup; exists 1%nat.
    + apply (H (mkfield "mtu" 1 13 18 6)); [|done]. by apply list_elem_of_lookup; exists 16%nat.
Defined.
