(* ===== verification/UdHeader.v ===== *)
(** * UdHeader: the headers of a datagram (core/ud_header.c)

    Building, packing and unpacking the headers of an unreliable datagram:
    local route, Ethernet, VLAN, global route, IPv4, UDP, base transport and
    datagram headers, and the immediate data. *)

From stdpp Require Import strings.
From S2P Require Import Prelude Packer SaRecords.

Definition lrh_table : list ib_field :=
  [mkfield "virtual_lane" 1 0 0 4;
   mkfield "link_version" 1 0 4 4;
   mkfield "service_level" 1 0 8 4;
   RESERVED 0 12 2;
   mkfield "link_next_header" 1 0 14 2;
   mkfield "destination_lid" 2 0 16 16;
   RESERVED 1 0 5;
   mkfield "packet_length" 2 1 5 11;
   mkfield "source_lid" 2 1 16 16].

Definition eth_table : list ib_field :=
  [mkfield "dmac_h" 4 0 0 32;
   mkfield "dmac_l" 2 1 0 16;
   mkfield "smac_h" 2 1 16 16;
   mkfield "smac_l" 4 2 0 32;
   mkfield "type" 2 3 0 16].

Definition vlan_table : list ib_field :=
  [mkfield "tag" 2 0 0 16;
   mkfield "type" 2 0 16 16].

Definition ip4_table : list ib_field :=
  [mkfield "ver" 1 0 0 4;
   mkfield "hdr_len" 1 0 4 4;
   mkfield "tos" 1 0 8 8;
   mkfield "tot_len" 2 0 16 16;
   mkfield "id" 2 1 0 16;
   mkfield "frag_off" 2 1 16 16;
   mkfield "ttl" 1 2 0 8;
   mkfield "protocol" 1 2 8 8;
   mkfield "check" 2 2 16 16;
   mkfield "saddr" 4 3 0 32;
   mkfield "daddr" 4 4 0 32].

Definition udp_table : list ib_field :=
  [mkfield "sport" 2 0 0 16;
   mkfield "dport" 2 0 16 16;
   mkfield "length" 2 1 0 16;
   mkfield "csum" 2 1 16 16].

Definition grh_table : list ib_field :=
  [mkfield "ip_version" 1 0 0 4;
   mkfield "traffic_class" 1 0 4 8;
   mkfield "flow_label" 4 0 12 20;
   mkfield "payload_length" 2 1 0 16;
   mkfield "next_header" 1 1 16 8;
   mkfield "hop_limit" 1 1 24 8;
   mkfield "source_gid" 16 2 0 128;
   mkfield "destination_gid" 16 6 0 128].

Definition bth_table : list ib_field :=
  [mkfield "opcode" 1 0 0 8;
   mkfield "solicited_event" 1 0 8 1;
   mkfield "mig_req" 1 0 9 1;
   mkfield "pad_count" 1 0 10 2;
   mkfield "transport_header_version" 1 0 12 4;
   mkfield "pkey" 2 0 16 16;
   RESERVED 1 0 8;
   mkfield "destination_qpn" 4 1 8 24;
   mkfield "ack_req" 1 2 0 1;
   RESERVED 2 1 7;
   mkfield "psn" 4 2 8 24].

Definition deth_table : list ib_field :=
  [mkfield "qkey" 4 0 0 32;
   RESERVED 1 0 8;
   mkfield "source_qpn" 4 1 8 24].

Definition IB_LRH_BYTES : Z := 8.
Definition IB_ETH_BYTES : Z := 14.
Definition IB_VLAN_BYTES : Z := 4.
Definition IB_GRH_BYTES : Z := 40.
Definition IB_IP4_BYTES : Z := 20.
Definition IB_UDP_BYTES : Z := 8.
Definition IB_BTH_BYTES : Z := 12.
Definition IB_DETH_BYTES : Z := 8.
Definition IB_LNH_IBA_LOCAL : Z := 2.
Definition IB_LNH_IBA_GLOBAL : Z := 3.
Definition IB_OPCODE_UD_SEND_ONLY : Z := 100.
Definition IB_OPCODE_UD_SEND_ONLY_WITH_IMMEDIATE : Z := 101.
Definition IPPROTO_UDP : Z := 17.
Definition ETH_P_8021Q : Z := 33024.

Record ib_ud_header := mkud {
  lrh_present : bool; lrh : cstruct;
  eth_present : bool; eth : cstruct;
  vlan_present : bool; vlan : cstruct;
  grh_present : bool; grh : cstruct;
  ipv4_present : bool; ip4 : cstruct;
  udp_present : bool; udp : cstruct;
  bth : cstruct;
  deth : cstruct;
  immediate_present : bool;
  immediate_data : list Z;
}.

(** A structure of zeros with the members of a table. *)
Fixpoint zero_struct (desc : list ib_field) : cstruct :=
  match desc with
  | [] => fun _ => []
  | f :: r => if struct_size_bytes f =? 0 then zero_struct r
              else set_member (zero_struct r) (field_name f) (zeros (Z.to_nat (struct_size_bytes f)))
  end.

(** [payload_bytes] is an int; the lengths are cut to 16 bits. *)
Definition ib_ud_header_init (payload_bytes : Z) (lrh_p eth_p vlan_p grh_p : bool) (ip_version : Z)
    (udp_p imm_p : bool) : Z + ib_ud_header :=
  let udp_bytes := if udp_p then IB_UDP_BYTES else 0 in
  let grh_p := grh_p && (ip_version =? 0) in
  if udp_p && negb (ip_version =? 4) && negb (ip_version =? 6) then inl (- EINVAL)
  else
    let zl := zero_struct lrh_table in
    let lrh :=
      if lrh_p then
        let packet_length :=
          u16 ((IB_LRH_BYTES + IB_BTH_BYTES + IB_DETH_BYTES + (if grh_p then IB_GRH_BYTES else 0)
                + payload_bytes + 4 + 3) ÷ 4) in
        set_member (set_member (set_member zl "link_version" [0])
                      "link_next_header" [if grh_p then IB_LNH_IBA_GLOBAL else IB_LNH_IBA_LOCAL])
          "packet_length" (be16 packet_length)
      else zl in
    let eth := if vlan_p then set_member (zero_struct eth_table) "type" (be16 ETH_P_8021Q)
               else zero_struct eth_table in
    let grh :=
      if (ip_version =? 6) || grh_p then
        set_member (set_member (set_member (zero_struct grh_table) "ip_version" [6])
          "payload_length"
          (be16 (u64 (udp_bytes + IB_BTH_BYTES + IB_DETH_BYTES + payload_bytes + 4 + 3) .& Z.lnot 3)))
          "next_header" [if udp_p then IPPROTO_UDP else 27]
      else zero_struct grh_table in
    let ip4 :=
      if ip_version =? 4 then
        set_member (set_member (set_member (set_member (zero_struct ip4_table) "ver" [4]) "hdr_len" [5])
          "tot_len" (be16 (u64 (IB_IP4_BYTES + udp_bytes + IB_BTH_BYTES + IB_DETH_BYTES + payload_bytes + 4))))
          "protocol" [IPPROTO_UDP]
      else zero_struct ip4_table in
    let udp :=
      if udp_p && negb (ip_version =? 0) then
        set_member (zero_struct udp_table) "length"
          (be16 (IB_UDP_BYTES + IB_BTH_BYTES + IB_DETH_BYTES + payload_bytes + 4))
      else zero_struct udp_table in
    let bth :=
      set_member (set_member (set_member (zero_struct bth_table) "opcode"
        [if imm_p then IB_OPCODE_UD_SEND_ONLY_WITH_IMMEDIATE else IB_OPCODE_UD_SEND_ONLY])
        "pad_count" [(4 - payload_bytes) .& 3]) "transport_header_version" [0] in
    inr (mkud lrh_p lrh eth_p eth vlan_p (zero_struct vlan_table) (grh_p || (ip_version =? 6)) grh
           (ip_version =? 4) ip4 udp_p udp bth (zero_struct deth_table) imm_p (zeros 4)).

(** One header if it is there, and the length so far. *)
Definition pack_part (present : bool) (desc : list ib_field) (st : cstruct) (size : Z) (bl : mem * Z)
    : option (mem * Z) :=
  if present then buf ← ib_pack desc st bl.1 bl.2; Some (buf, bl.2 + size) else Some bl.

(** The packed headers and their length; the buffer starts at address 0. *)
Definition ib_ud_header_pack (h : ib_ud_header) (buf : mem) : option (mem * Z) :=
  b ← pack_part (lrh_present h) lrh_table (lrh h) IB_LRH_BYTES (buf, 0);
  b ← pack_part (eth_present h) eth_table (eth h) IB_ETH_BYTES b;
  b ← pack_part (vlan_present h) vlan_table (vlan h) IB_VLAN_BYTES b;
  b ← pack_part (grh_present h) grh_table (grh h) IB_GRH_BYTES b;
  b ← pack_part (ipv4_present h) ip4_table (ip4 h) IB_IP4_BYTES b;
  b ← pack_part (udp_present h) udp_table (udp h) IB_UDP_BYTES b;
  b ← pack_part true bth_table (bth h) IB_BTH_BYTES b;
  b ← pack_part true deth_table (deth h) IB_DETH_BYTES b;
  Some (if immediate_present h then (put b.1 b.2 (immediate_data h), b.2 + 4) else b).

Definition byte_of (st : cstruct) (name : string) : Z := be_val (st name).

Definition with_lrh (h : ib_ud_header) (s : cstruct) : ib_ud_header :=
  mkud (lrh_present h) s (eth_present h) (eth h) (vlan_present h) (vlan h) (grh_present h) (grh h)
    (ipv4_present h) (ip4 h) (udp_present h) (udp h) (bth h) (deth h) (immediate_present h) (immediate_data h).
Definition with_grh (h : ib_ud_header) (p : bool) (s : cstruct) : ib_ud_header :=
  mkud (lrh_present h) (lrh h) (eth_present h) (eth h) (vlan_present h) (vlan h) p s
    (ipv4_present h) (ip4 h) (udp_present h) (udp h) (bth h) (deth h) (immediate_present h) (immediate_data h).
Definition with_bth (h : ib_ud_header) (s : cstruct) : ib_ud_header :=
  mkud (lrh_present h) (lrh h) (eth_present h) (eth h) (vlan_present h) (vlan h) (grh_present h) (grh h)
    (ipv4_present h) (ip4 h) (udp_present h) (udp h) s (deth h) (immediate_present h) (immediate_data h).
Definition with_imm_present (h : ib_ud_header) (p : bool) : ib_ud_header :=
  mkud (lrh_present h) (lrh h) (eth_present h) (eth h) (vlan_present h) (vlan h) (grh_present h) (grh h)
    (ipv4_present h) (ip4 h) (udp_present h) (udp h) (bth h) (deth h) p (immediate_data h).
Definition with_deth (h : ib_ud_header) (s : cstruct) : ib_ud_header :=
  mkud (lrh_present h) (lrh h) (eth_present h) (eth h) (vlan_present h) (vlan h) (grh_present h) (grh h)
    (ipv4_present h) (ip4 h) (udp_present h) (udp h) (bth h) s (immediate_present h) (immediate_data h).
Definition with_imm (h : ib_ud_header) (d : list Z) : ib_ud_header :=
  mkud (lrh_present h) (lrh h) (eth_present h) (eth h) (vlan_present h) (vlan h) (grh_present h) (grh h)
    (ipv4_present h) (ip4 h) (udp_present h) (udp h) (bth h) (deth h) (immediate_present h) d.

(** From the base transport header at [base] on. *)
Definition unpack_transport (buf : mem) (base : Z) (h : ib_ud_header) : option (Z * ib_ud_header) :=
  b ← ib_unpack bth_table buf base (bth h);
  let h := with_bth h b in
  let base := base + IB_BTH_BYTES in
  let opcode := byte_of b "opcode" in
  if negb (opcode =? IB_OPCODE_UD_SEND_ONLY) && negb (opcode =? IB_OPCODE_UD_SEND_ONLY_WITH_IMMEDIATE)
  then Some (- EINVAL, h)
  else
    let h := with_imm_present h (opcode =? IB_OPCODE_UD_SEND_ONLY_WITH_IMMEDIATE) in
    if negb (byte_of b "transport_header_version" =? 0) then Some (- EINVAL, h)
    else
      d ← ib_unpack deth_table buf base (deth h);
      let h := with_deth h d in
      Some (0, if immediate_present h then with_imm h (wire_at buf (base + IB_DETH_BYTES) 4) else h).

Definition ib_ud_header_unpack (buf : mem) (h : ib_ud_header) : option (Z * ib_ud_header) :=
  l ← ib_unpack lrh_table buf 0 (lrh h);
  let h := with_lrh h l in
  if negb (byte_of l "link_version" =? 0) then Some (- EINVAL, h)
  else if byte_of l "link_next_header" =? IB_LNH_IBA_LOCAL then
    unpack_transport buf IB_LRH_BYTES (with_grh h false (grh h))
  else if byte_of l "link_next_header" =? IB_LNH_IBA_GLOBAL then
    g ← ib_unpack grh_table buf IB_LRH_BYTES (grh h);
    let h := with_grh h true g in
    if negb (byte_of g "ip_version" =? 6) then Some (- EINVAL, h)
    else if negb (byte_of g "next_header" =? 27) then Some (- EINVAL, h)
    else unpack_transport buf (IB_LRH_BYTES + IB_GRH_BYTES) h
  else Some (- EINVAL, h).

(** ** The way there and back *)

Definition wire_ok (desc : list ib_field) (st : cstruct) : Prop := forall f, f ∈ desc -> member_ok f st.

(** An InfiniBand datagram the receiver takes. *)
Record accepted (h : ib_ud_header) : Prop := {
  ac_ib : lrh_present h = true /\ eth_present h = false /\ vlan_present h = false /\ ipv4_present h = false /\
          udp_present h = false;
  ac_lrh : wire_ok lrh_table (lrh h);
  ac_grh : grh_present h = true -> wire_ok grh_table (grh h) /\ byte_of (grh h) "ip_version" = 6 /\
           byte_of (grh h) "next_header" = 27;
  ac_bth : wire_ok bth_table (bth h);
  ac_deth : wire_ok deth_table (deth h);
  ac_link : byte_of (lrh h) "link_version" = 0;
  ac_next : byte_of (lrh h) "link_next_header" = if grh_present h then IB_LNH_IBA_GLOBAL else IB_LNH_IBA_LOCAL;
  ac_opcode : byte_of (bth h) "opcode"
              = if immediate_present h then IB_OPCODE_UD_SEND_ONLY_WITH_IMMEDIATE else IB_OPCODE_UD_SEND_ONLY;
  ac_version : byte_of (bth h) "transport_header_version" = 0;
  ac_imm : length (immediate_data h) = 4%nat /\ bytes_ok (immediate_data h);
}.

Lemma ud_tables_ok : forall t, t ∈ [lrh_table; grh_table; bth_table; deth_table] ->
  desc_ok t = true /\ forallb readable t = true.
Proof.
  intros t Ht. repeat (apply elem_of_cons in Ht as [-> |Ht]; [split; vm_compute; reflexivity|]).
  by apply elem_of_nil in Ht.
Qed.

Lemma put_keeps buf a bs : bytes_ok bs -> keeps buf (put buf a bs) a.
Proof.
  intros Hb k Hk. rewrite bit_put by (done || lia). destruct (Z.leb_spec (8 * a) k); [lia|done].
Qed.

Lemma wire_at_put b a bs : wire_at (put b a bs) a (length bs) = bs.
Proof.
  apply list_eq. intros i. unfold wire_at. rewrite list_lookup_fmap.
  destruct (decide (i < length bs)%nat) as [Hi|Hi].
  - rewrite lookup_seq_lt by done. cbn. unfold put. destruct (Z.leb_spec a (a + Z.of_nat i)); [|lia].
    destruct (Z.ltb_spec (a + Z.of_nat i) (a + Z.of_nat (length bs))); [|lia]. cbn [andb].
    replace (Z.to_nat (a + Z.of_nat i - a)) with i by lia. symmetry. by apply list_lookup_lookup_total_lt.
  - rewrite lookup_seq_ge by lia. cbn. symmetry. apply lookup_ge_None. lia.
Qed.

(** The buffer has table [t] of [st] at [base]. *)
Definition carries (t : list ib_field) (buf : mem) (base : Z) (st : cstruct) : Prop :=
  forall f, f ∈ t -> holds buf base f (field_value f st).

Lemma carries_keeps t n buf buf' base st :
  desc_ok t = true -> within n t = true -> 0 <= base -> keeps buf buf' (base + n) -> carries t buf base st ->
  carries t buf' base st.
Proof. intros Hd Hw Hb Hk Hc. exact (holds_keeps t n buf buf' base st Hd Hw Hb Hk Hc). Qed.

Lemma keeps_trans b1 b2 b3 l1 l2 : keeps b1 b2 l1 -> keeps b2 b3 l2 -> l1 <= l2 -> keeps b1 b3 l1.
Proof. intros H1 H2 Hl k Hk. rewrite H2 by lia. by apply H1. Qed.

(** Base transport and datagram headers and the immediate data, packed at
    [base]. *)
Lemma pack_tail h buf base :
  accepted h -> byte_mem buf -> 0 <= base ->
  exists buf', (b ← pack_part true bth_table (bth h) IB_BTH_BYTES (buf, base);
                b ← pack_part true deth_table (deth h) IB_DETH_BYTES b;
                Some (if immediate_present h then (put b.1 b.2 (immediate_data h), b.2 + 4) else b))
      = Some (buf', base + 20 + (if immediate_present h then 4 else 0)) /\
    byte_mem buf' /\ keeps buf buf' base /\ carries bth_table buf' base (bth h) /\
    carries deth_table buf' (base + 12) (deth h) /\
    (immediate_present h = true -> wire_at buf' (base + 20) 4 = immediate_data h).
Proof.
  intros H Hb Hbase. destruct H as [_ _ _ Hbth Hdeth _ _ _ _ [Hl Hi]].
  destruct (pack_keeps bth_table (bth h) buf base) as (b1 & E1 & Hb1 & K1 & C1); [by vm_compute|done..|].
  destruct (pack_keeps deth_table (deth h) b1 (base + IB_BTH_BYTES)) as (b2 & E2 & Hb2 & K2 & C2);
    [by vm_compute|done|done|unfold IB_BTH_BYTES; lia|].
  unfold pack_part. cbn [fst snd]. rewrite E1. cbn [mbind option_bind fst snd]. rewrite E2.
  cbn [mbind option_bind fst snd]. unfold IB_BTH_BYTES, IB_DETH_BYTES in *.
  set (b3 := if immediate_present h then put b2 (base + 12 + 8) (immediate_data h) else b2).
  assert (K3 : keeps b2 b3 (base + 20)).
  { unfold b3. destruct (immediate_present h); [|by intros k Hk]. replace (base + 12 + 8) with (base + 20) by lia.
    by apply put_keeps. }
  exists b3. split; [|split; [|split; [|split; [|split]]]].
  - unfold b3. destruct (immediate_present h); do 2 f_equal; lia.
  - unfold b3. destruct (immediate_present h); [by apply put_bytes|done].
  - eapply keeps_trans; [exact K1| |reflexivity]. eapply keeps_trans; [|exact K3|lia].
    intros k Hk. apply K2. lia.
  - apply (carries_keeps _ 12 b1); [by vm_compute..|done| |exact C1].
    eapply keeps_trans; [exact K2|exact K3|lia].
  - apply (carries_keeps _ 8 b2); [by vm_compute..|lia| |exact C2]. by replace (base + 12 + 8) with (base + 20) by lia.
  - intros Himm. unfold b3. rewrite Himm. replace (base + 12 + 8) with (base + 20) by lia. rewrite <- Hl.
    apply wire_at_put.
Qed.

Lemma taken_byte t st st0 st' i f :
  taken_from t st st0 st' -> t !! i = Some f -> struct_size_bytes f <> 0 ->
  byte_of st' (field_name f) = byte_of st (field_name f).
Proof. intros [H _] Hi Hz. unfold byte_of. f_equal. apply H; [|done]. by apply list_elem_of_lookup; exists i. Qed.

Lemma unpack_tail h h0 buf base :
  accepted h -> byte_mem buf -> carries bth_table buf base (bth h) -> carries deth_table buf (base + 12) (deth h) ->
  (immediate_present h = true -> wire_at buf (base + 20) 4 = immediate_data h) ->
  shaped bth_table (bth h0) -> shaped deth_table (deth h0) ->
  exists h', unpack_transport buf base h0 = Some (0, h') /\
    taken_from bth_table (bth h) (bth h0) (bth h') /\ taken_from deth_table (deth h) (deth h0) (deth h') /\
    immediate_present h' = immediate_present h /\
    (immediate_present h = true -> immediate_data h' = immediate_data h) /\
    lrh h' = lrh h0 /\ grh_present h' = grh_present h0 /\ grh h' = grh h0.
Proof.
  intros H Hb Cb Cd Ci Sb Sd. destruct H as [_ _ _ Hbth Hdeth _ _ Hop Hver _].
  destruct (unpack_all bth_table (bth h) buf base (bth h0)) as (b & E1 & T1); [by vm_compute..|done|done|done|done|].
  destruct (unpack_all deth_table (deth h) buf (base + 12) (deth h0)) as (d & E2 & T2);
    [by vm_compute..|done|done|done|done|].
  assert (Eop : byte_of b "opcode" = byte_of (bth h) "opcode").
  { by apply (taken_byte _ _ _ _ 0 (mkfield "opcode" 1 0 0 8) T1). }
  assert (Ev : byte_of b "transport_header_version" = byte_of (bth h) "transport_header_version").
  { by apply (taken_byte _ _ _ _ 4 (mkfield "transport_header_version" 1 0 12 4) T1). }
  unfold unpack_transport. rewrite E1. cbn [mbind option_bind]. rewrite Eop, Ev, Hop, Hver.
  replace (base + IB_BTH_BYTES) with (base + 12) by done. cbn [deth with_imm_present with_bth]. rewrite E2.
  replace (base + 12 + IB_DETH_BYTES) with (base + 20) by (unfold IB_DETH_BYTES; lia).
  destruct (immediate_present h); cbn; (eexists; split; [reflexivity|]); cbn; (split; [exact T1|]); (split; [exact T2|]).
  - split; [done|]. split; [by intros; apply Ci|]. done.
  - done.
Qed.

(** What the receiver has after unpacking. *)
Record received (h h0 h' : ib_ud_header) : Prop := {
  rc_lrh : taken_from lrh_table (lrh h) (lrh h0) (lrh h');
  rc_grh_present : grh_present h' = grh_present h;
  rc_grh : grh_present h = true -> taken_from grh_table (grh h) (grh h0) (grh h');
  rc_bth : taken_from bth_table (bth h) (bth h0) (bth h');
  rc_deth : taken_from deth_table (deth h) (deth h0) (deth h');
  rc_imm_present : immediate_present h' = immediate_present h;
  rc_imm : immediate_present h = true -> immediate_data h' = immediate_data h;
}.

(** Where the transport headers start. *)
Definition transport_base (h : ib_ud_header) : Z := 8 + (if grh_present h then 40 else 0).

(** The headers of [h] are in the buffer. *)
Record on_wire (h : ib_ud_header) (buf : mem) : Prop := {
  ow_bytes : byte_mem buf;
  ow_lrh : carries lrh_table buf 0 (lrh h);
  ow_grh : grh_present h = true -> carries grh_table buf 8 (grh h);
  ow_bth : carries bth_table buf (transport_base h) (bth h);
  ow_deth : carries deth_table buf (transport_base h + 12) (deth h);
  ow_imm : immediate_present h = true -> wire_at buf (transport_base h + 20) 4 = immediate_data h;
}.

Lemma ud_pack h buf :
  accepted h -> byte_mem buf ->
  exists buf', ib_ud_header_pack h buf
      = Some (buf', 28 + (if grh_present h then 40 else 0) + (if immediate_present h then 4 else 0)) /\ on_wire h buf'.
Proof.
  intros H Hb. pose proof H as [(Hp & He & Hv & H4 & Hu) Hlrh Hgrh _ _ _ _ _ _ _].
  destruct (pack_keeps lrh_table (lrh h) buf 0) as (b1 & E1 & Hb1 & _ & C1); [by vm_compute|done..|].
  assert (Hg : exists b2, pack_part (grh_present h) grh_table (grh h) IB_GRH_BYTES (b1, 8)
      = Some (b2, transport_base h) /\ byte_mem b2 /\ keeps b1 b2 8 /\
      (grh_present h = true -> carries grh_table b2 8 (grh h))).
  { unfold pack_part, transport_base. cbn [fst snd]. destruct (grh_present h); [|by exists b1].
    destruct (pack_keeps grh_table (grh h) b1 8) as (b2 & E2 & Hb2 & K2 & C2); [by vm_compute|by apply Hgrh|done|done|].
    exists b2. rewrite E2. by split. }
  destruct Hg as (b2 & E2 & Hb2 & K2 & C2).
  assert (Hbase : 8 <= transport_base h) by (unfold transport_base; destruct (grh_present h); lia).
  destruct (pack_tail h b2 (transport_base h) H Hb2 ltac:(lia)) as (b3 & E3 & Hb3 & K3 & Cb & Cd & Ci).
  exists b3. split.
  - unfold ib_ud_header_pack. rewrite Hp, He, Hv, H4, Hu.
    assert (E0 : pack_part true lrh_table (lrh h) IB_LRH_BYTES (buf, 0) = Some (b1, 8)) by (unfold pack_part; cbn [fst snd]; by rewrite E1).
    assert (Hno : forall d st n bl, pack_part false d st n bl = Some bl) by done.
    rewrite E0. cbn [mbind option_bind]. do 2 (rewrite Hno; cbn [mbind option_bind]).
    rewrite E2. cbn [mbind option_bind]. do 2 (rewrite Hno; cbn [mbind option_bind]).
    etransitivity; [exact E3|].
    do 2 f_equal. unfold transport_base. lia.
  - split; [done| | |done|done|done].
    + apply (carries_keeps _ 8 b1); [by vm_compute..|lia| |exact C1]. exact (keeps_trans _ _ _ _ _ K2 K3 Hbase).
    + intros Hg. apply (carries_keeps _ 40 b2); [by vm_compute..|lia| |by apply C2]. unfold transport_base in K3. by rewrite Hg in K3.
Qed.

Lemma ud_unpack h h0 buf :
  accepted h -> on_wire h buf ->
  shaped lrh_table (lrh h0) -> shaped grh_table (grh h0) -> shaped bth_table (bth h0) -> shaped deth_table (deth h0) ->
  exists h', ib_ud_header_unpack buf h0 = Some (0, h') /\ received h h0 h'.
Proof.
  intros H [Hb Cl Cg Cb Cd Ci] Sl Sg Sb Sd. pose proof H as [_ Hlrh Hgrh _ _ Hlv Hln _ _ _].
  destruct (unpack_all lrh_table (lrh h) buf 0 (lrh h0)) as (l & El & Tl); [by vm_compute..|done|done|done|done|].
  unfold ib_ud_header_unpack. rewrite El. cbn [mbind option_bind].
  assert (E1 : byte_of l "link_version" = byte_of (lrh h) "link_version")
    by by apply (taken_byte _ _ _ _ 1 (mkfield "link_version" 1 0 4 4) Tl).
  assert (E2 : byte_of l "link_next_header" = byte_of (lrh h) "link_next_header")
    by by apply (taken_byte _ _ _ _ 4 (mkfield "link_next_header" 1 0 14 2) Tl).
  rewrite E1, E2, Hlv, Hln. change (negb (0 =? 0)) with false. cbv match. unfold transport_base in *.
  destruct (grh_present h) eqn:Eg.
  - change (IB_LNH_IBA_GLOBAL =? IB_LNH_IBA_LOCAL) with false. change (IB_LNH_IBA_GLOBAL =? IB_LNH_IBA_GLOBAL) with true.
    cbv match. destruct (Hgrh eq_refl) as (Hw & H6 & H27).
    destruct (unpack_all grh_table (grh h) buf 8 (grh h0)) as (g & Egr & Tg); [by vm_compute..|done|done|by apply Cg|done|].
    cbn [grh with_lrh]. change IB_LRH_BYTES with 8. rewrite Egr. cbn [mbind option_bind].
    assert (E3 : byte_of g "ip_version" = 6)
      by (rewrite <- H6; by apply (taken_byte _ _ _ _ 0 (mkfield "ip_version" 1 0 0 4) Tg)).
    assert (E4 : byte_of g "next_header" = 27)
      by (rewrite <- H27; by apply (taken_byte _ _ _ _ 4 (mkfield "next_header" 1 1 16 8) Tg)).
    rewrite E3, E4. destruct (unpack_tail h (with_grh (with_lrh h0 l) true g) buf 48)
      as (h' & E & T1 & T2 & Hip & Hid & Hl' & Hgp & Hg'); try done.
    exists h'. split; [exact E|]. split; try done; [by rewrite Hl'|by rewrite Hgp, Eg|intros _; by rewrite Hg'].
  - change (IB_LNH_IBA_LOCAL =? IB_LNH_IBA_LOCAL) with true. cbv match.
    destruct (unpack_tail h (with_grh (with_lrh h0 l) false (grh h0)) buf 8)
      as (h' & E & T1 & T2 & Hip & Hid & Hl' & Hgp & Hg'); try done.
    exists h'. split; [exact E|]. split; try done; [by rewrite Hl'|by rewrite Hgp, Eg|by rewrite Eg].
Qed.

(** C21. The headers of an InfiniBand datagram survive the wire: packing them
    gives the length of the headers that are there, and unpacking finds the
    same headers, accepts them, and gives back every member, the presence of the
    global route header and the immediate data. *)
Theorem ud_header_roundtrip h h0 buf :
  accepted h -> byte_mem buf ->
  shaped lrh_table (lrh h0) -> shaped grh_table (grh h0) -> shaped bth_table (bth h0) -> shaped deth_table (deth h0) ->
  exists buf' h',
    ib_ud_header_pack h buf = Some (buf', 28 + (if grh_present h then 40 else 0) + (if immediate_present h then 4 else 0)) /\
    ib_ud_header_unpack buf' h0 = Some (0, h') /\ received h h0 h'.
Proof.
  intros H Hb Sl Sg Sb Sd. destruct (ud_pack h buf H Hb) as (buf' & E & Hw).
  destruct (ud_unpack h h0 buf' H Hw Sl Sg Sb Sd) as (h' & E' & Hr). by exists buf', h'.
Qed.

(** ** Headers as ib_ud_header_init makes them *)

Lemma member_small f st b :
  st (field_name f) = [b] -> struct_size_bytes f = 1 -> size_bits f <= 8 -> 0 <= b < 2 ^ size_bits f -> member_ok f st.
Proof.
  intros E Hz Hs Hb _. rewrite E, Hz. split; [done|]. assert (2 ^ size_bits f <= 2 ^ 8) by (apply Z.pow_le_mono_r; lia).
  split; [repeat constructor; unfold byte_ok; lia|]. cbn [be_val length]. rewrite Z.mul_1_r. lia.
Qed.

Lemma member_be16 f st v :
  st (field_name f) = be16 v -> struct_size_bytes f = 2 -> size_bits f <= 16 -> 0 <= v < 2 ^ size_bits f -> member_ok f st.
Proof.
  intros E Hz Hs Hv _. rewrite E, Hz. split; [done|]. split; [apply be_bytes_ok|].
  unfold be16. rewrite be_val_bytes. change (8 * Z.of_nat 2) with 16.
  assert (2 ^ size_bits f <= 2 ^ 16) by (apply Z.pow_le_mono_r; lia). rewrite Z.mod_small by lia. lia.
Qed.

Lemma member_be16' f st v :
  st (field_name f) = be16 v -> struct_size_bytes f = 2 -> size_bits f = 16 -> member_ok f st.
Proof.
  intros E Hz Hs _. rewrite E, Hz, Hs. split; [done|]. split; [apply be_bytes_ok|].
  unfold be16. rewrite be_val_bytes. by apply Z.mod_pos_bound.
Qed.

Lemma member_zeros f st n :
  st (field_name f) = zeros n -> Z.of_nat n = struct_size_bytes f -> 0 < size_bits f -> member_ok f st.
Proof.
  intros E Hn Hs _. rewrite E, be_val_zeros. unfold zeros at 1. rewrite length_replicate. split; [done|].
  split; [apply zeros_bytes|apply pow2_pos; lia].
Qed.

(** Each field of a table in turn. *)
Ltac each_field Hf := repeat (apply elem_of_cons in Hf as [-> |Hf]; [|]); [..|by apply elem_of_nil in Hf].

Ltac member_tac :=
  first [ by (intros Hz; exfalso; apply Hz; reflexivity)
        | by (eapply (member_zeros _ _ _); [reflexivity|reflexivity|reflexivity])
        | by (eapply member_small; [reflexivity|reflexivity|done|done]) ].

Lemma init_accepted payload g imm :
  0 <= payload <= 4096 ->
  exists h, ib_ud_header_init payload true false false g 0 false imm = inr h /\ accepted h /\
    grh_present h = g /\ immediate_present h = imm /\
    4 * be_val (lrh h "packet_length") = 28 + (if g then 40 else 0) + payload + byte_of (bth h) "pad_count" + 4.
Proof.
  intros Hp. set (len := IB_LRH_BYTES + IB_BTH_BYTES + IB_DETH_BYTES + (if g then IB_GRH_BYTES else 0) + payload + 4 + 3).
  assert (Hlen : 0 <= len < 2 ^ 13).
  { unfold len, IB_LRH_BYTES, IB_BTH_BYTES, IB_DETH_BYTES, IB_GRH_BYTES. destruct g; lia. }
  assert (Hq : len ÷ 4 = len / 4) by (apply Z.quot_div_nonneg; lia).
  assert (Hd : 0 <= len / 4 < 2 ^ 11) by (split; [apply Z.div_pos|apply Z.div_lt_upper_bound]; lia).
  assert (Hpad : 0 <= (4 - payload) .& 3 < 4).
  { change 3 with (2 ^ 2 - 1). rewrite land_mask by lia. by apply Z.mod_pos_bound. }
  unfold ib_ud_header_init. change (0 =? 0) with true. cbn [andb negb orb Z.eqb].
  rewrite !andb_true_r, !orb_false_r. fold len. rewrite Hq, u16_small by lia.
  eexists. split; [reflexivity|]. split; [|split; [done|split; [done|]]].
  - split; cbn [lrh_present eth_present vlan_present ipv4_present udp_present lrh grh bth deth grh_present
                immediate_present immediate_data].
    + done.
    + intros f Hf. unfold lrh_table in Hf. each_field Hf; try member_tac.
      * destruct g; member_tac.
      * eapply member_be16; [reflexivity|reflexivity|done|]. done.
    + intros ->. split; [|done]. intros f Hf. unfold grh_table in Hf. each_field Hf; try member_tac.
      eapply (member_be16' _ _ _); [reflexivity|done|done].
    + intros f Hf. unfold bth_table in Hf. each_field Hf; try member_tac.
      destruct imm; member_tac.
    + intros f Hf. unfold deth_table in Hf. each_field Hf; try member_tac.
    + done.
    + by destruct g.
    + by destruct imm.
    + done.
    + split; [done|apply zeros_bytes].
  - cbn [lrh bth].
    change (4 * be_val (be16 (len / 4)) = 28 + (if g then 40 else 0) + payload + (((4 - payload) .& 3) * 1 + 0) + 4).
    unfold be16. rewrite be_val_bytes, Z.mod_small by (change (8 * Z.of_nat 2) with 16; lia).
    change 3 with (2 ^ 2 - 1). rewrite land_mask by lia. change (2 ^ 2) with 4.
    pose proof (Z.div_mod len 4). pose proof (Z.mod_pos_bound len 4). pose proof (Z.div_mod (4 - payload) 4).
    pose proof (Z.mod_pos_bound (4 - payload) 4).
    unfold len, IB_LRH_BYTES, IB_BTH_BYTES, IB_DETH_BYTES, IB_GRH_BYTES in *. destruct g; lia.
Qed.

(** C37. What ib_ud_header_init makes of the parameters of an InfiniBand datagram
    is well formed: every member fits its field, and the receiver will accept
    the headers.  The packet length counts the headers, the payload with its
    padding and the CRC, but not the four bytes of immediate data that packing
    appends. *)
Theorem ud_init_accepted payload g imm :
  0 <= payload <= 4096 ->
  exists h, ib_ud_header_init payload true false false g 0 false imm = inr h /\ accepted h /\
    grh_present h = g /\ immediate_present h = imm /\
    4 * be_val (lrh h "packet_length") = 28 + (if g then 40 else 0) + payload + byte_of (bth h) "pad_count" + 4.
Proof. apply init_accepted. Qed.

Lemma ud_init_accepted_witness :
  exists h, ib_ud_header_init 33 true false false true 0 false true = inr h /\ accepted h /\
    4 * be_val (lrh h "packet_length") = 108.
Proof.
  destruct (ud_init_accepted 33 true true ltac:(lia)) as (h & E & Ha & _ & _ & Hl). exists h.
  split; [exact E|]. split; [exact Ha|]. injection E as <-. exact Hl.
Defined.

Definition zero_header : ib_ud_header :=
  mkud true (zero_struct lrh_table) false (zero_struct eth_table) false (zero_struct vlan_table)
    false (zero_struct grh_table) false (zero_struct ip4_table) false (zero_struct udp_table)
    (zero_struct bth_table) (zero_struct deth_table) false (zeros 4).

Lemma zero_struct_shaped t : t ∈ [lrh_table; grh_table; bth_table; deth_table] -> shaped t (zero_struct t).
Proof.
  intros Ht. repeat (apply elem_of_cons in Ht as [-> |Ht]; [intros f Hf; each_field Hf; done|]). by apply elem_of_nil in Ht.
Qed.

Lemma ud_header_roundtrip_witness :
  exists h buf' h', ib_ud_header_init 33 true false false true 0 false true = inr h /\
    ib_ud_header_pack h (fun _ => 0) = Some (buf', 72) /\
    ib_ud_header_unpack buf' zero_header = Some (0, h') /\ received h zero_header h'.
Proof.
  destruct (init_accepted 33 true true ltac:(lia)) as (h & E & Ha & Hg & Hi & _).
  destruct (ud_header_roundtrip h zero_header (fun _ => 0)) as (buf' & h' & Ep & Eu & Hr).
  - exact Ha.
  - intros a. unfold byte_ok. lia.
  - apply zero_struct_shaped. by apply list_elem_of_lookup; exists 0%nat.
  - apply zero_struct_shaped. by apply list_elem_of_lookup; exists 1%nat.
  - apply zero_struct_shaped. by apply list_elem_of_lookup; exists 2%nat.
  - apply zero_struct_shaped. by apply list_elem_of_lookup; exists 3%nat.
  - exists h, buf', h'. rewrite Hg, Hi in Ep. split; [exact E|]. split; [exact Ep|]. split; [exact Eu|exact Hr].
Defined.
