(* ===== verification/Smi.v ===== *)
(** * Smi: directed-route management packets (core/smi.c, core/mad.c)

    A subnet management packet that is routed by a list of ports.  On the way
    out each node checks the hop pointer, notes the port the packet came in by
    and forwards it by the next port of the list; the answer travels back by the
    noted ports. *)

From S2P Require Import Prelude.

Definition IB_SMP_MAX_PATH_HOPS : Z := 64.

(** What the functions use of struct ib_smp; the comparisons of the LIDs with
    IB_LID_PERMISSIVE are booleans, as in the code. *)
Record ib_smp := mksmp {
  hop_ptr : Z;
  hop_cnt : Z;
  initial_path : list Z;
  return_path : list Z;
  direction : bool;                    (* ib_get_smp_direction *)
  dr_dlid_is_permissive : bool;
  dr_slid_is_permissive : bool;
}.

Inductive smi_action := IB_SMI_DISCARD | IB_SMI_HANDLE.
Inductive smi_forward_action := IB_SMI_LOCAL | IB_SMI_SEND | IB_SMI_FORWARD.

Definition with_hop_ptr (s : ib_smp) (h : Z) : ib_smp :=
  mksmp h (hop_cnt s) (initial_path s) (return_path s) (direction s) (dr_dlid_is_permissive s)
    (dr_slid_is_permissive s).
Definition with_return (s : ib_smp) (i port : Z) : ib_smp :=
  mksmp (hop_ptr s) (hop_cnt s) (initial_path s) (<[Z.to_nat i := u8 port]> (return_path s)) (direction s)
    (dr_dlid_is_permissive s) (dr_slid_is_permissive s).

(** An array element; [None] is an access out of bounds. *)
Definition at_hop (l : list Z) (i : Z) : option Z := if i <? 0 then None else l !! Z.to_nat i.

Definition handle_if (b : bool) : smi_action := if b then IB_SMI_HANDLE else IB_SMI_DISCARD.

Definition smi_handle_dr_smp_send (s : ib_smp) (is_switch : bool) (port_num : Z) : option (smi_action * ib_smp) :=
  let h := hop_ptr s in
  let n := hop_cnt s in
  if IB_SMP_MAX_PATH_HOPS <=? n then Some (IB_SMI_DISCARD, s)
  else if negb (direction s) then
    if negb (n =? 0) && (h =? 0) then
      let h := u8 (h + 1) in
      p ← at_hop (initial_path s) h; Some (handle_if (p =? port_num), with_hop_ptr s h)
    else if negb (h =? 0) && (h <? n) then
      if negb is_switch then Some (IB_SMI_DISCARD, s)
      else let h := u8 (h + 1) in
           p ← at_hop (initial_path s) h; Some (handle_if (p =? port_num), with_hop_ptr s h)
    else if h =? n then
      Some (handle_if (is_switch || dr_dlid_is_permissive s), with_hop_ptr s (u8 (h + 1)))
    else Some (handle_if (h =? n + 1), s)
  else
    if negb (n =? 0) && (h =? n + 1) then
      let h := u8 (h - 1) in
      p ← at_hop (return_path s) h; Some (handle_if (p =? port_num), with_hop_ptr s h)
    else if (2 <=? h) && (h <=? n) then
      if negb is_switch then Some (IB_SMI_DISCARD, s)
      else let h := u8 (h - 1) in
           p ← at_hop (return_path s) h; Some (handle_if (p =? port_num), with_hop_ptr s h)
    else if h =? 1 then
      Some (handle_if (is_switch || dr_slid_is_permissive s), with_hop_ptr s (u8 (h - 1)))
    else Some (handle_if (h =? 0), s).

Definition smi_handle_dr_smp_recv (s : ib_smp) (is_switch : bool) (port_num phys_port_cnt : Z)
    : option (smi_action * ib_smp) :=
  let h := hop_ptr s in
  let n := hop_cnt s in
  if IB_SMP_MAX_PATH_HOPS <=? n then Some (IB_SMI_DISCARD, s)
  else if negb (direction s) then
    if negb (n =? 0) && (h =? 0) then Some (IB_SMI_DISCARD, s)
    else if negb (h =? 0) && (h <? n) then
      if negb is_switch then Some (IB_SMI_DISCARD, s)
      else _ ← at_hop (return_path s) h;
           p ← at_hop (initial_path s) (h + 1);
           Some (handle_if (p <=? phys_port_cnt), with_return s h port_num)
    else if h =? n then
      s' ← (if n =? 0 then Some s else _ ← at_hop (return_path s) h; Some (with_return s h port_num));
      Some (handle_if (is_switch || dr_dlid_is_permissive s), s')
    else Some (handle_if (h =? n + 1), s)
  else
    if negb (n =? 0) && (h =? n + 1) then
      let h := u8 (h - 1) in
      p ← at_hop (return_path s) h; Some (handle_if (p =? port_num), with_hop_ptr s h)
    else if (2 <=? h) && (h <=? n) then
      if negb is_switch then Some (IB_SMI_DISCARD, s)
      else p ← at_hop (return_path s) (h - 1); Some (handle_if (p <=? phys_port_cnt), s)
    else if h =? 1 then
      if dr_slid_is_permissive s then Some (IB_SMI_HANDLE, with_hop_ptr s (u8 (h - 1)))
      else Some (handle_if is_switch, s)
    else Some (handle_if (h =? 0), s).

Definition smi_check_forward_dr_smp (s : ib_smp) : smi_forward_action :=
  let h := hop_ptr s in
  let n := hop_cnt s in
  if negb (direction s) then
    if negb (h =? 0) && (h <? n) then IB_SMI_FORWARD
    else if h =? n then if dr_dlid_is_permissive s then IB_SMI_SEND else IB_SMI_LOCAL
    else if h =? n + 1 then IB_SMI_SEND
    else IB_SMI_LOCAL
  else
    if (2 <=? h) && (h <=? n) then IB_SMI_FORWARD
    else if h =? 1 then if negb (dr_slid_is_permissive s) then IB_SMI_SEND else IB_SMI_LOCAL
    else IB_SMI_LOCAL.

Definition smi_get_fwd_port (s : ib_smp) : option Z :=
  if negb (direction s) then at_hop (initial_path s) (hop_ptr s + 1)
  else at_hop (return_path s) (hop_ptr s - 1).

(** smi_check_local_smp and smi_check_local_returning_smp; [agent] is that the
    device has a process_mad. *)
Definition smi_check_local_smp (s : ib_smp) (agent : bool) : smi_action :=
  handle_if (agent && negb (direction s) && (hop_ptr s =? hop_cnt s + 1)).
Definition smi_check_local_returning_smp (s : ib_smp) (agent : bool) : smi_action :=
  handle_if (agent && direction s && (hop_ptr s =? 0)).

(** ** A node *)

(** A node of the network: switch or not, ports, and whether it has an agent. *)
Record node := mknode { n_switch : bool; n_ports : Z; n_agent : bool }.

Inductive received :=
| Dropped
| Given (s : ib_smp)                   (* up to the agent of the node *)
| Forwarded (port : Z) (s : ib_smp).   (* agent_send_response by [port] *)

(** handle_ib_smi: a packet that came in by [port_num]. *)
Definition handle_ib_smi (d : node) (port_num : Z) (s : ib_smp) : option received :=
  '(act, s) ← smi_handle_dr_smp_recv s (n_switch d) port_num (n_ports d);
  match act with
  | IB_SMI_DISCARD => Some Dropped
  | IB_SMI_HANDLE =>
      match smi_check_forward_dr_smp s with
      | IB_SMI_LOCAL => Some (Given s)
      | IB_SMI_SEND =>
          '(act, s) ← smi_handle_dr_smp_send s (n_switch d) port_num;
          match act with
          | IB_SMI_DISCARD => Some Dropped
          | IB_SMI_HANDLE =>
              match smi_check_local_smp s (n_agent d) with
              | IB_SMI_DISCARD => Some Dropped
              | IB_SMI_HANDLE => Some (Given s)
              end
          end
      | IB_SMI_FORWARD =>
          if n_switch d then p ← smi_get_fwd_port s; Some (Forwarded p s) else Some (Given s)
      end
  end.

Inductive outgoing :=
| Refused (err : Z)
| Local (s : ib_smp)                   (* for the node's own agent *)
| OnWire (s : ib_smp).

(** The first part of handle_outgoing_dr_smp: fix up a packet that leaves by
    [port_num]. *)
Definition handle_outgoing_dr_smp (d : node) (port_num : Z) (s : ib_smp) : option outgoing :=
  let routed := if direction s then dr_dlid_is_permissive s else dr_slid_is_permissive s in
  '(act, s) ← (if routed : bool then smi_handle_dr_smp_send s (n_switch d) port_num else Some (IB_SMI_HANDLE, s));
  match act with
  | IB_SMI_DISCARD => Some (Refused (- EINVAL))
  | IB_SMI_HANDLE =>
      match smi_check_local_smp s (n_agent d), smi_check_local_returning_smp s (n_agent d) with
      | IB_SMI_DISCARD, IB_SMI_DISCARD => Some (OnWire s)
      | _, _ => Some (Local s)
      end
  end.

(** A switch: in by [port_num], out by the port it chose. *)
Definition pass_switch (d : node) (port_num : Z) (s : ib_smp) : option ib_smp :=
  r ← handle_ib_smi d port_num s;
  match r with
  | Forwarded p s =>
      o ← handle_outgoing_dr_smp d p s;
      match o with OnWire s => Some s | _ => None end
  | _ => None
  end.

(** Through switches, each with the port the packet comes in by. *)
Fixpoint travel (hops : list (node * Z)) (s : ib_smp) : option ib_smp :=
  match hops with
  | [] => Some s
  | (d, port) :: r => s ← pass_switch d port s; travel r s
  end.

(** ** No access out of bounds *)

Definition smp_ok (s : ib_smp) : Prop :=
  0 <= hop_ptr s < 256 /\ 0 <= hop_cnt s < 256 /\ length (initial_path s) = 64%nat /\ length (return_path s) = 64%nat.

Lemma at_hop_some l i : length l = 64%nat -> 0 <= i < 64 -> exists p, at_hop l i = Some p.
Proof.
  intros Hl Hi. unfold at_hop. destruct (Z.ltb_spec i 0); [lia|]. apply lookup_lt_is_Some. lia.
Qed.

Lemma smp_ok_hop s h : smp_ok s -> 0 <= h < 256 -> smp_ok (with_hop_ptr s h).
Proof. by intros (? & ? & ? & ?) ?. Qed.
Lemma smp_ok_return s i p : smp_ok s -> smp_ok (with_return s i p).
Proof. intros (? & ? & ? & ?). split; [done|]. split; [done|]. split; [done|]. simpl. by rewrite length_insert. Qed.

Create HintDb smi.
#[local] Hint Resolve smp_ok_hop smp_ok_return u8_range : smi.

(** Every branch: the element read exists and the packet stays well formed. *)
Ltac smi_branch Hs :=
  repeat match goal with
  | |- context [if ?b then _ else _] => let E := fresh "E" in destruct b eqn:E
  end; zbool;
  repeat match goal with
  | H : (_ && _) = false |- _ => apply andb_false_iff in H; destruct H; zbool
  end;
  try match goal with
  | |- context [at_hop ?l ?i] =>
      let p := fresh "p" in let H := fresh "H" in
      destruct (at_hop_some l i) as [p H]; [apply Hs | try rewrite u8_small by lia; lia | rewrite H]
  end;
  try match goal with
  | |- context [at_hop ?l ?i] =>
      let p := fresh "p" in let H := fresh "H" in
      destruct (at_hop_some l i) as [p H]; [apply Hs | lia | rewrite H]
  end;
  eexists _, _; (split; [reflexivity|]); auto with smi.

Lemma send_total s sw port : smp_ok s -> exists act s', smi_handle_dr_smp_send s sw port = Some (act, s') /\ smp_ok s'.
Proof.
  intros Hs. pose proof Hs as (Hh & Hn & _). unfold smi_handle_dr_smp_send, IB_SMP_MAX_PATH_HOPS.
  smi_branch Hs.
Qed.

Lemma recv_total s sw port phys :
  smp_ok s -> exists act s', smi_handle_dr_smp_recv s sw port phys = Some (act, s') /\ smp_ok s'.
Proof.
  intros Hs. pose proof Hs as (Hh & Hn & _). unfold smi_handle_dr_smp_recv, IB_SMP_MAX_PATH_HOPS.
  smi_branch Hs.
Qed.

Lemma recv_short s sw port phys s' :
  smi_handle_dr_smp_recv s sw port phys = Some (IB_SMI_HANDLE, s') -> hop_cnt s' < 64.
Proof.
  unfold smi_handle_dr_smp_recv, IB_SMP_MAX_PATH_HOPS. destruct (Z.leb_spec 64 (hop_cnt s)); [done|].
  repeat (case_match; try done); intros Heq; repeat (simplify_option_eq; try done); lia.
Qed.

(** Whatever a packet contains, receiving and sending it never reads or
    writes outside the two paths, and leaves a packet with paths of 64 entries
    and a hop pointer of one byte. *)
Theorem smi_in_bounds d port s :
  smp_ok s ->
  (exists r, handle_ib_smi d port s = Some r /\
     match r with Given s' | Forwarded _ s' => smp_ok s' | Dropped => True end) /\
  (exists o, handle_outgoing_dr_smp d port s = Some o /\
     match o with Local s' | OnWire s' => smp_ok s' | Refused e => e = - EINVAL end).
Proof.
  intros Hs. split.
  - unfold handle_ib_smi. destruct (recv_total s (n_switch d) port (n_ports d) Hs) as (act & s1 & E & H1).
    pose proof (recv_short s (n_switch d) port (n_ports d) s1) as Hsh. rewrite E in Hsh |- *. cbn.
    destruct act; [by eexists|]. specialize (Hsh eq_refl).
    destruct (smi_check_forward_dr_smp s1) eqn:Ef.
    + by eexists.
    + destruct (send_total s1 (n_switch d) port H1) as (act & s2 & E2 & H2). rewrite E2. cbn.
      destruct act; [by eexists|]. destruct (smi_check_local_smp s2 (n_agent d)); by eexists.
    + destruct (n_switch d); [|by eexists]. destruct H1 as (Hh & Hn & Hi & Hr).
      assert (Hp : exists p, smi_get_fwd_port s1 = Some p).
      { revert Ef. unfold smi_check_forward_dr_smp, smi_get_fwd_port.
        destruct (negb (direction s1)); repeat case_match; try done; intros _; zbool;
          apply at_hop_some; (done || lia). }
      destruct Hp as [p ->]. by eexists.
  - unfold handle_outgoing_dr_smp.
    assert (H : exists act s1, (if (if direction s then dr_dlid_is_permissive s else dr_slid_is_permissive s) : bool
        then smi_handle_dr_smp_send s (n_switch d) port else Some (IB_SMI_HANDLE, s)) = Some (act, s1) /\ smp_ok s1).
    { match goal with |- context [if ?b then smi_handle_dr_smp_send _ _ _ else _] => destruct b end;
        [by apply send_total|by eexists _, _]. }
    destruct H as (act & s1 & -> & H1). cbn. destruct act; [by eexists|].
    destruct (smi_check_local_smp s1 (n_agent d)), (smi_check_local_returning_smp s1 (n_agent d)); by eexists.
Qed.

(** ** There and back *)

Ltac zdec :=
  repeat match goal with
  | |- context [?a =? ?b] => destruct (Z.eqb_spec a b); try lia
  | |- context [?a <? ?b] => destruct (Z.ltb_spec a b); try lia
  | |- context [?a <=? ?b] => destruct (Z.leb_spec a b); try lia
  end.

Section Hops.
Context (d : node) (q p : Z) (s : ib_smp).

(** An intermediate switch on the way out. *)
Lemma pass_out :
  n_switch d = true -> direction s = false -> dr_slid_is_permissive s = true ->
  1 <= hop_ptr s < hop_cnt s -> hop_cnt s < 64 -> length (return_path s) = 64%nat ->
  at_hop (initial_path s) (hop_ptr s + 1) = Some p -> p <= n_ports d ->
  pass_switch d q s = Some (with_hop_ptr (with_return s (hop_ptr s) q) (hop_ptr s + 1)).
Proof.
  intros Hd Hdir Hsl Hh Hn Hr Hp Hle. unfold pass_switch, handle_ib_smi, smi_handle_dr_smp_recv, IB_SMP_MAX_PATH_HOPS.
  rewrite Hd, Hdir. cbn [negb]. destruct (at_hop_some (return_path s) (hop_ptr s)) as [x Hx]; [done|lia|].
  zdec. cbn [negb andb]. rewrite Hx, Hp. cbn [mbind option_bind]. zdec. cbn [handle_if].
  unfold smi_check_forward_dr_smp, smi_get_fwd_port. cbn [hop_ptr hop_cnt direction with_return initial_path]. rewrite Hdir.
  cbn [negb]. zdec. cbn [andb negb]. rewrite Hp. cbn [mbind option_bind].
  unfold handle_outgoing_dr_smp, smi_handle_dr_smp_send, IB_SMP_MAX_PATH_HOPS.
  cbn [hop_ptr hop_cnt direction with_return initial_path dr_slid_is_permissive]. rewrite Hd, Hdir, Hsl. cbn [negb].
  zdec. cbn [negb andb]. rewrite u8_small, Hp by lia. cbn [mbind option_bind]. rewrite Z.eqb_refl. cbn [handle_if].
  unfold smi_check_local_smp, smi_check_local_returning_smp.
  cbn [hop_ptr hop_cnt direction with_hop_ptr with_return]. rewrite Hdir, andb_false_r. zdec. rewrite andb_false_r.
  reflexivity.
Qed.

(** An intermediate switch on the way back. *)
Lemma pass_back :
  n_switch d = true -> direction s = true -> dr_dlid_is_permissive s = true ->
  2 <= hop_ptr s <= hop_cnt s -> hop_cnt s < 64 ->
  at_hop (return_path s) (hop_ptr s - 1) = Some p -> p <= n_ports d ->
  pass_switch d q s = Some (with_hop_ptr s (hop_ptr s - 1)).
Proof.
  intros Hd Hdir Hdl Hh Hn Hp Hle. unfold pass_switch, handle_ib_smi, smi_handle_dr_smp_recv, IB_SMP_MAX_PATH_HOPS.
  rewrite Hd, Hdir. cbn [negb]. zdec. cbn [negb andb]. rewrite Hp. cbn [mbind option_bind]. zdec. cbn [handle_if].
  unfold smi_check_forward_dr_smp, smi_get_fwd_port. rewrite Hdir. cbn [negb]. zdec. cbn [andb negb]. rewrite Hp.
  cbn [mbind option_bind].
  unfold handle_outgoing_dr_smp, smi_handle_dr_smp_send, IB_SMP_MAX_PATH_HOPS. rewrite Hd, Hdir, Hdl. cbn [negb].
  zdec. cbn [negb andb]. rewrite u8_small, Hp by lia. cbn [mbind option_bind]. rewrite Z.eqb_refl. cbn [handle_if].
  unfold smi_check_local_smp, smi_check_local_returning_smp. cbn [hop_ptr hop_cnt direction with_hop_ptr].
  rewrite Hdir. cbn [negb]. zdec. rewrite !andb_false_r. reflexivity.
Qed.
End Hops.

(** The return path after the switches [qs], from hop [i] on. *)
Fixpoint noted (i : nat) (qs : list Z) (l : list Z) : list Z :=
  match qs with
  | [] => l
  | q :: r => noted (S i) r (<[i := u8 q]> l)
  end.

Lemma length_noted i qs l : length (noted i qs l) = length l.
Proof. revert i l. induction qs as [|q r IH]; intros; [done|]. simpl. by rewrite IH, length_insert. Qed.

Lemma noted_lookup i qs l j q :
  (i + length qs <= length l)%nat -> qs !! j = Some q -> noted i qs l !! (i + j)%nat = Some (u8 q).
Proof.
  assert (Hkeep : forall qs i l k, (k < i)%nat -> noted i qs l !! k = l !! k).
  { clear. induction qs as [|x r IH]; intros i l k Hk; [done|]. simpl. rewrite IH by lia. apply list_lookup_insert_ne. lia. }
  revert i l j. induction qs as [|x r IH]; intros i l j Hl Hj; [done|]. simpl in Hl. destruct j as [|j]; simpl in *.
  - injection Hj as ->. rewrite Nat.add_0_r, Hkeep by lia. apply list_lookup_insert_eq. lia.
  - replace (i + S j)%nat with (S i + j)%nat by lia. apply IH; [rewrite length_insert; lia|done].
Qed.

(** Each switch has the port the route takes next. *)
Definition routed (i : Z) (hops : list (node * Z)) (path : list Z) : Prop :=
  forall j d q, hops !! j = Some (d, q) -> n_switch d = true /\ 0 <= q <= n_ports d /\ q < 256 /\
    exists p, at_hop path (i + Z.of_nat j + 1) = Some p /\ p <= n_ports d.

Lemma travel_out hops s :
  direction s = false -> dr_slid_is_permissive s = true -> length (return_path s) = 64%nat ->
  1 <= hop_ptr s -> hop_ptr s + Z.of_nat (length hops) <= hop_cnt s -> hop_cnt s < 64 ->
  routed (hop_ptr s) hops (initial_path s) ->
  travel hops s = Some (mksmp (hop_ptr s + Z.of_nat (length hops)) (hop_cnt s) (initial_path s)
    (noted (Z.to_nat (hop_ptr s)) (snd <$> hops) (return_path s)) (direction s) (dr_dlid_is_permissive s)
    (dr_slid_is_permissive s)).
Proof.
  revert s. induction hops as [|[d q] r IH]; intros s Hd Hs Hr Hh Hlen Hn Hrt.
  - simpl. rewrite Z.add_0_r. by destruct s.
  - destruct (Hrt 0%nat d q eq_refl) as (Hsw & Hq & Hq2 & p & Hp & Hle). rewrite Z.add_0_r in Hp. cbn [length] in Hlen.
    simpl. rewrite (pass_out d q p) by (done || lia). cbn [mbind option_bind]. rewrite IH; cbn; try done; try lia.
    + f_equal. f_equal; [lia|]. replace (Z.to_nat (hop_ptr s + 1)) with (S (Z.to_nat (hop_ptr s))) by lia. done.
    + by rewrite length_insert.
    + intros j d' q' Hj. destruct (Hrt (S j) d' q' Hj) as (A & B & B' & p' & Hp' & C). split; [done|]. split; [done|].
      split; [done|]. exists p'. split; [|done]. rewrite <- Hp'. f_equal. lia.
Qed.

(** Back through the switches in the opposite order. *)
Lemma travel_back hops s :
  direction s = true -> dr_dlid_is_permissive s = true -> hop_ptr s = Z.of_nat (length hops) + 1 ->
  hop_ptr s <= hop_cnt s -> hop_cnt s < 64 ->
  (forall j d q, hops !! j = Some (d, q) -> n_switch d = true /\
     exists p, at_hop (return_path s) (Z.of_nat (length hops) - Z.of_nat j) = Some p /\ p <= n_ports d) ->
  travel hops s = Some (with_hop_ptr s 1).
Proof.
  revert s. induction hops as [|[d q] r IH]; intros s Hd Hs Hh Hle Hn Hrt.
  - simpl in *. rewrite Z.add_0_l in Hh. rewrite <- Hh. by destruct s.
  - destruct (Hrt 0%nat d q eq_refl) as (Hsw & p & Hp & Hpl). cbn [length] in *. simpl.
    rewrite (pass_back d q p); try done; try lia.
    2: { rewrite <- Hp. f_equal. lia. }
    cbn [mbind option_bind]. rewrite IH; cbn; try done; try lia.
    intros j d' q' Hj. destruct (Hrt (S j) d' q' Hj) as (A & p' & Hp' & C). split; [done|]. exists p'. split; [|done].
    rewrite <- Hp'. f_equal. lia.
Qed.

(** The agent of the target answers by the same packet with the direction
    turned. *)
Definition answer (s : ib_smp) : ib_smp :=
  mksmp (hop_ptr s) (hop_cnt s) (initial_path s) (return_path s) true (dr_dlid_is_permissive s)
    (dr_slid_is_permissive s).

Lemma start_out d port s :
  direction s = false -> dr_slid_is_permissive s = true -> hop_ptr s = 0 -> 1 <= hop_cnt s < 64 ->
  at_hop (initial_path s) 1 = Some port -> handle_outgoing_dr_smp d port s = Some (OnWire (with_hop_ptr s 1)).
Proof.
  intros Hdir Hsl Hh Hn Hp. unfold handle_outgoing_dr_smp, smi_handle_dr_smp_send, IB_SMP_MAX_PATH_HOPS.
  rewrite Hdir, Hsl, Hh. cbn [negb]. zdec. cbn [negb andb]. change (u8 (0 + 1)) with 1. rewrite Hp.
  cbn [mbind option_bind]. rewrite Z.eqb_refl. cbn [handle_if].
  unfold smi_check_local_smp, smi_check_local_returning_smp. cbn [hop_ptr hop_cnt direction with_hop_ptr].
  rewrite Hdir, andb_false_r. zdec. by rewrite andb_false_r.
Qed.

Lemma reach_target d port s :
  n_agent d = true -> direction s = false -> dr_dlid_is_permissive s = true -> length (return_path s) = 64%nat ->
  hop_ptr s = hop_cnt s -> 1 <= hop_cnt s < 64 ->
  handle_ib_smi d port s = Some (Given (with_hop_ptr (with_return s (hop_cnt s) port) (hop_cnt s + 1))).
Proof.
  intros Ha Hdir Hdl Hr Hh Hn. unfold handle_ib_smi, smi_handle_dr_smp_recv, IB_SMP_MAX_PATH_HOPS.
  destruct (at_hop_some (return_path s) (hop_cnt s)) as [x Hx]; [done|lia|].
  rewrite Hdir, Hh. cbn [negb]. zdec. cbn [negb andb]. rewrite Hx, Hdl, orb_true_r. cbn [mbind option_bind handle_if].
  unfold smi_check_forward_dr_smp. cbn [hop_ptr hop_cnt direction with_return dr_dlid_is_permissive]. rewrite Hdir, Hh, Hdl.
  cbn [negb]. zdec. cbn [negb andb]. unfold smi_handle_dr_smp_send, IB_SMP_MAX_PATH_HOPS.
  cbn [hop_ptr hop_cnt direction with_return dr_dlid_is_permissive]. rewrite Hdir, Hh, Hdl, orb_true_r. cbn [negb]. zdec.
  cbn [negb andb mbind option_bind handle_if]. rewrite u8_small by lia.
  unfold smi_check_local_smp. cbn [hop_ptr hop_cnt direction with_hop_ptr with_return]. by rewrite Ha, Hdir, Z.eqb_refl.
Qed.

Lemma start_back d port s :
  direction s = true -> dr_dlid_is_permissive s = true -> hop_ptr s = hop_cnt s + 1 -> 1 <= hop_cnt s < 64 ->
  at_hop (return_path s) (hop_cnt s) = Some port ->
  handle_outgoing_dr_smp d port s = Some (OnWire (with_hop_ptr s (hop_cnt s))).
Proof.
  intros Hdir Hdl Hh Hn Hp. unfold handle_outgoing_dr_smp, smi_handle_dr_smp_send, IB_SMP_MAX_PATH_HOPS.
  rewrite Hdir, Hdl, Hh. cbn [negb]. zdec. cbn [negb andb]. replace (hop_cnt s + 1 - 1) with (hop_cnt s) by lia.
  rewrite u8_small, Hp by lia. cbn [mbind option_bind]. rewrite Z.eqb_refl. cbn [handle_if].
  unfold smi_check_local_smp, smi_check_local_returning_smp. cbn [hop_ptr hop_cnt direction with_hop_ptr].
  rewrite Hdir. cbn [negb]. zdec. by rewrite !andb_false_r.
Qed.

Lemma reach_source d port s :
  direction s = true -> dr_slid_is_permissive s = true -> hop_ptr s = 1 -> 1 <= hop_cnt s < 64 ->
  handle_ib_smi d port s = Some (Given (with_hop_ptr s 0)).
Proof.
  intros Hdir Hsl Hh Hn. unfold handle_ib_smi, smi_handle_dr_smp_recv, IB_SMP_MAX_PATH_HOPS.
  rewrite Hdir, Hh, Hsl. cbn [negb]. zdec. cbn [negb andb]. change (2 <=? 1) with false. change (1 =? 1) with true.
  cbn [andb mbind option_bind]. change (u8 (1 - 1)) with 0.
  unfold smi_check_forward_dr_smp. cbn [hop_ptr hop_cnt direction with_hop_ptr]. by rewrite Hdir.
Qed.

(** The return path when the target has the request. *)
Lemma path_noted hops path l n tport :
  routed 1 hops path -> length l = 64%nat -> n = Z.of_nat (length hops) + 1 -> n < 64 -> 0 <= tport < 256 ->
  let rp := <[Z.to_nat n := u8 tport]> (noted 1 (snd <$> hops) l) in
  at_hop rp n = Some tport /\ forall j d q, hops !! j = Some (d, q) -> rp !! S j = Some q.
Proof.
  intros Hrt Hl Hn Hn2 Ht rp.
  assert (Hrp : length (noted 1 (snd <$> hops) l) = 64%nat) by (by rewrite length_noted). split.
  - unfold at_hop. destruct (Z.ltb_spec n 0); [lia|]. unfold rp. rewrite list_lookup_insert_eq by lia. by rewrite u8_small.
  - intros j d q Hj. assert (j < length hops)%nat by (by eapply lookup_lt_Some). unfold rp.
    rewrite list_lookup_insert_ne by lia. destruct (Hrt j d q Hj) as (_ & Hq & Hq2 & _).
    rewrite (noted_lookup 1 _ _ j q); [by rewrite u8_small by lia| |by rewrite list_lookup_fmap, Hj].
    rewrite length_fmap. lia.
Qed.

(** The switches in the opposite order. *)
Lemma reversed_hop (hops back : list (node * Z)) j d q :
  fst <$> back = reverse (fst <$> hops) -> back !! j = Some (d, q) ->
  (j < length hops)%nat /\ exists q', hops !! (length hops - S j)%nat = Some (d, q').
Proof.
  intros Hb Hj. assert (Hlb : length back = length hops).
  { rewrite <- (length_fmap fst back), Hb, length_reverse, length_fmap. done. }
  assert (Hl : (j < length hops)%nat) by (rewrite <- Hlb; by eapply lookup_lt_Some). split; [done|].
  assert (Hf : (fst <$> back) !! j = Some d) by (by rewrite list_lookup_fmap, Hj).
  rewrite Hb, reverse_lookup in Hf by (by rewrite length_fmap). rewrite length_fmap, list_lookup_fmap in Hf.
  destruct (hops !! (length hops - S j)%nat) as [[d' q']|]; [|done]. cbn in Hf. injection Hf as ->. by exists q'.
Qed.

(** C22. A directed-route request reaches its target and the answer comes home:
    along any route of at most 63 hops whose ports the switches have, the
    request passes all switches, is given to the agent of the target with every
    port it came in by noted, and the answer goes back through the same switches
    and is given to the source with the hop pointer at 0. *)
Theorem directed_route_round_trip src tgt port tport hops back s :
  let n := hop_cnt s in
  n = Z.of_nat (length hops) + 1 -> n < 64 -> hop_ptr s = 0 -> direction s = false ->
  dr_slid_is_permissive s = true -> dr_dlid_is_permissive s = true -> length (return_path s) = 64%nat ->
  at_hop (initial_path s) 1 = Some port -> routed 1 hops (initial_path s) ->
  n_agent tgt = true -> 0 <= tport < 256 -> fst <$> back = reverse (fst <$> hops) ->
  exists s1 s2 s3 s4 s5 s6,
    handle_outgoing_dr_smp src port s = Some (OnWire s1) /\ travel hops s1 = Some s2 /\
    handle_ib_smi tgt tport s2 = Some (Given s3) /\
    handle_outgoing_dr_smp tgt tport (answer s3) = Some (OnWire s4) /\ travel back s4 = Some s5 /\
    handle_ib_smi src port s5 = Some (Given s6) /\ hop_ptr s6 = 0 /\ initial_path s6 = initial_path s /\
    (forall j d q, hops !! j = Some (d, q) -> return_path s6 !! S j = Some q) /\
    at_hop (return_path s6) n = Some tport.
Proof.
  intros n Hlen Hn Hh Hdir Hsl Hdl Hr Hp Hrt Hag Htp Hback. fold n in Hlen.
  rewrite (start_out src port s) by (done || (fold n; lia)).
  set (s1 := with_hop_ptr s 1).
  pose proof (travel_out hops s1 Hdir Hsl Hr) as H2. cbn [hop_ptr hop_cnt s1 with_hop_ptr] in H2.
  specialize (H2 ltac:(lia) ltac:(fold n; lia) Hn Hrt). cbn [initial_path return_path] in H2.
  set (s2 := mksmp _ _ _ _ _ _ _) in H2.
  set (s3 := with_hop_ptr (with_return s2 n tport) (n + 1)).
  assert (E3 : handle_ib_smi tgt tport s2 = Some (Given s3)).
  { apply (reach_target tgt tport s2); try done; [by cbn; rewrite length_noted|cbn; fold n; lia|cbn; fold n; lia]. }
  destruct (path_noted hops (initial_path s) (return_path s) n tport) as [Et Eq]; try done.
  exists s1, s2, s3, (with_hop_ptr (answer s3) n), (with_hop_ptr (answer s3) 1), (with_hop_ptr (answer s3) 0).
  split; [done|]. split; [exact H2|]. split; [exact E3|].
  split. { apply (start_back tgt tport (answer s3)); try done; cbn; fold n; lia. }
  assert (Hlb : length back = length hops).
  { rewrite <- (length_fmap fst back), Hback, length_reverse, length_fmap. done. }
  split.
  { rewrite (travel_back back (with_hop_ptr (answer s3) n)); try done; cbn; fold n; try lia.
    intros j d q Hj. destruct (reversed_hop hops back j d q Hback Hj) as (Hj' & q' & Eh).
    destruct (Hrt _ _ _ Eh) as (Hs & Hq & _). split; [done|]. exists q'. split; [|lia].
    unfold at_hop. destruct (Z.ltb_spec (Z.of_nat (length back) - Z.of_nat j) 0); [lia|].
    replace (Z.to_nat (Z.of_nat (length back) - Z.of_nat j)) with (S (length hops - S j)) by lia. by apply (Eq _ d). }
  split. { apply (reach_source src port (with_hop_ptr (answer s3) 1)); try done; cbn; fold n; lia. }
  by split.
Qed.

Lemma smi_in_bounds_witness :
  exists r, handle_ib_smi (mknode true 8 true) 3 (mksmp 255 255 (zeros 64) (zeros 64) true true true) = Some r.
Proof.
  destruct (smi_in_bounds (mknode true 8 true) 3 (mksmp 255 255 (zeros 64) (zeros 64) true true true))
    as [(r & E & _) _].
  - by vm_compute.
  - exists r. exact E.
Defined.

(** From a host by port 1, through a switch from port 4 to port 7 and one from
    port 2 to port 5, to port 1 of another host. *)
Lemma directed_route_round_trip_witness :
  let s := mksmp 0 3 ([0; 1; 7; 5] ++ zeros 60) (zeros 64) false true true in
  let sw := mknode true 8 true in
  let host := mknode false 1 true in
  exists s1 s2 s5 s6, handle_outgoing_dr_smp host 1 s = Some (OnWire s1) /\
    travel [(sw, 4); (sw, 2)] s1 = Some s2 /\ handle_ib_smi host 1 s5 = Some (Given s6) /\
    hop_ptr s6 = 0 /\ return_path s6 !! 1%nat = Some 4 /\ return_path s6 !! 2%nat = Some 2 /\
    at_hop (return_path s6) 3 = Some 1.
Proof.
  intros s sw host.
  destruct (directed_route_round_trip host host 1 1 [(sw, 4); (sw, 2)] [(sw, 5); (sw, 7)] s)
    as (s1 & s2 & s3 & s4 & s5 & s6 & E1 & E2 & E3 & E4 & E5 & E6 & H0 & _ & Hr & Ht); try done.
  - intros j d q Hj. destruct j as [|[|]]; [| |done]; injection Hj as <- <-; (split; [done|]);
      (split; [done|]); (split; [done|]); eexists; (split; [reflexivity|done]).
  - exists s1, s2, s5, s6. split; [exact E1|]. split; [exact E2|]. split; [exact E6|]. split; [exact H0|].
    split; [exact (Hr 0%nat _ _ eq_refl)|]. split; [exact (Hr 1%nat _ _ eq_refl)|exact Ht].
Defined.
