(* ===== verification/RecvHelper.v ===== *)
(** * RecvHelper: the ring of receive buffers (rust-kernel-rdma/KRdmaKit/src/qp/recv_helper.rs)

    RecvHelper keeps one work request per receive buffer, linked into a ring.
    post_recvs cuts the ring behind the last request of a batch, hands the
    chain that starts at the cursor to the driver and closes the ring again;
    pop_recvs polls completions into an array of the same size.

    Rust's arithmetic is checked: an overflow panics, which is [None] here, as
    is an access out of bounds. *)

From S2P Require Import Prelude QpTypes WqeSeg RecvQueue Cqe CqPoll RecvTarget.

(** ** usize and u64 *)

Definition uadd (a b : Z) : option Z := if a + b <? 2 ^ 64 then Some (a + b) else None.
Definition usub (a b : Z) : option Z := if b <=? a then Some (a - b) else None.
Definition urem (a b : Z) : option Z := if b =? 0 then None else Some (a mod b).

Lemma uadd_ok a b : a + b < 2 ^ 64 -> uadd a b = Some (a + b).
Proof. intros. unfold uadd. by rewrite (proj2 (Z.ltb_lt _ _)). Qed.
Lemma usub_ok a b : b <= a -> usub a b = Some (a - b).
Proof. intros. unfold usub. by rewrite (proj2 (Z.leb_le _ _)). Qed.
Lemma urem_ok a b : b <> 0 -> urem a b = Some (a mod b).
Proof. intros. unfold urem. by rewrite (proj2 (Z.eqb_neq _ _)). Qed.

(** ** The structure *)

(** RecvHelper<N>: [rh_next] are the links of the requests, as indices; the
    arrays have N entries. *)
Record RecvHelper := mkrh {
  rh_wrs : list ib_recv_wr;
  rh_next : list (option nat);
  rh_wcs : list ib_wc;
  rh_cur : Z;
  rh_capacity : Z;
  rh_en_sz : Z;
}.

Definition with_next (h : RecvHelper) (n : list (option nat)) : RecvHelper :=
  mkrh (rh_wrs h) n (rh_wcs h) (rh_cur h) (rh_capacity h) (rh_en_sz h).
Definition with_cur_idx (h : RecvHelper) (c : Z) : RecvHelper :=
  mkrh (rh_wrs h) (rh_next h) (rh_wcs h) c (rh_capacity h) (rh_en_sz h).
Definition with_wcs (h : RecvHelper) (w : list ib_wc) : RecvHelper :=
  mkrh (rh_wrs h) (rh_next h) w (rh_cur h) (rh_capacity h) (rh_en_sz h).

Definition zero_wc : ib_wc := mkwc 0 0 0 0 0 0 (zeros 4) 0 0 0 0 0 0 0 0.

Section Create.
(** phys_to_virt of the kernel. *)
Context (pa_to_va : Z -> Z).

(** The loop of create from buffer [i] on, at address [base]. *)
Fixpoint fill_wrs (n : nat) (i capacity entry_size lkey base : Z)
    : option (list ib_recv_wr * list (option nat)) :=
  match n with
  | O => Some ([], [])
  | S n =>
      i1 ← uadd i 1;
      nx ← urem i1 capacity;
      base1 ← uadd base entry_size;
      '(wrs, nxs) ← fill_wrs n i1 capacity entry_size lkey base1;
      Some (mkrwr (pa_to_va base) [mksge base (u32 entry_size) lkey] 1 :: wrs,
            Some (Z.to_nat nx) :: nxs)
  end.

Definition rh_create (N : nat) (entry_size lkey base_addr : Z) : option RecvHelper :=
  '(wrs, nxs) ← fill_wrs N 0 (Z.of_nat N) entry_size lkey base_addr;
  Some (mkrh wrs nxs (replicate N zero_wc) 0 (Z.of_nat N) entry_size).
End Create.

Definition get_recv_wr_ptr (h : RecvHelper) (idx : Z) : option nat :=
  j ← urem idx (rh_capacity h);
  if (Z.to_nat j <? length (rh_wrs h))%nat then Some (Z.to_nat j) else None.

Definition freeze_at (h : RecvHelper) (i : Z) : option RecvHelper :=
  j ← get_recv_wr_ptr h i;
  Some (with_next h (<[j := None]> (rh_next h))).

Definition freeze_done_at (h : RecvHelper) (i : Z) : option RecvHelper :=
  j ← get_recv_wr_ptr h i;
  i1 ← uadd i 1;
  k ← get_recv_wr_ptr h i1;
  Some (with_next h (<[j := Some k]> (rh_next h))).

Definition header_ptr (h : RecvHelper) : option nat := get_recv_wr_ptr h (rh_cur h).

(** The requests the driver finds behind a pointer; a ring that is not cut has
    no end, and no list. *)
Fixpoint walk (fuel : nat) (h : RecvHelper) (p : option nat) : option (list ib_recv_wr) :=
  match p with
  | None => Some []
  | Some j =>
      match fuel with
      | O => None
      | S fuel =>
          wr ← rh_wrs h !! j;
          nx ← rh_next h !! j;
          r ← walk fuel h nx;
          Some (wr :: r)
      end
  end.

(** post_recvs to a queue pair or a shared receive queue: the error code (zero
    is Ok), the helper and the queue. *)
Definition post_recvs {T} `{RecvTarget T} (h : RecvHelper) (t : T) (buffer_sz : Z)
    : option (Z * RecvHelper * T) :=
  a ← uadd (rh_cur h) buffer_sz;
  b ← usub a 1;
  tail ← urem b (rh_capacity h);
  h ← freeze_at h tail;
  hd ← header_ptr h;
  wrs ← walk (length (rh_wrs h)) h (Some hd);
  '(e, _, t) ← post_recv_to t wrs;
  h ← freeze_done_at h tail;
  if negb (e =? 0) then Some (e, h, t)
  else
    c ← uadd tail 1;
    c ← urem c (rh_capacity h);
    Some (0, with_cur_idx h c, t).

(** ** Polling *)

(** ib_poll_cq: at most the given number of completions. *)
Class CqSource (T : Type) := poll_from : T -> nat -> option (list ib_wc * T).

(** The completion queue of the driver, into an array of zeroed entries. *)
Definition driver_poll (eth : bool) (find_pkey : Z -> Z -> option Z) (internal_error : bool)
    : CqSource world := fun w n =>
  mlx5_ib_poll_cq eth find_pkey internal_error w (replicate n zero_wc).

(** pop_recvs: the number of completions, which are stored from [wcs[offset % N]]
    on; the count is converted to a C int.  Storing past the array is undefined. *)
Definition pop_recvs {T} `{CqSource T} (h : RecvHelper) (cq : T) (recv_cnt offset : Z)
    : option (nat * RecvHelper * T) :=
  o ← urem offset (Z.of_nat (length (rh_wcs h)));
  '(l, cq) ← poll_from cq (Z.to_nat (s32 recv_cnt));
  if (Z.to_nat o + length l <=? length (rh_wcs h))%nat
  then Some (length l, with_wcs h (take (Z.to_nat o) (rh_wcs h) ++ l
                                   ++ drop (Z.to_nat o + length l) (rh_wcs h)), cq)
  else None.

(** ** The ring *)

(** The number of buffers. *)
Definition rh_len (h : RecvHelper) : nat := length (rh_wrs h).

Record ring_ok (h : RecvHelper) : Prop := {
  ro_capacity : rh_capacity h = Z.of_nat (rh_len h);
  ro_size : 0 < rh_capacity h < 2 ^ 63;
  ro_cur : 0 <= rh_cur h < rh_capacity h;
  ro_links : rh_next h = (fun i => Some ((i + 1) mod rh_len h)%nat) <$> seq 0 (rh_len h);
}.

(** The [n] requests from the cursor on, around the end of the array. *)
Definition segment (h : RecvHelper) (n : nat) : list ib_recv_wr :=
  take n (drop (Z.to_nat (rh_cur h)) (rh_wrs h ++ rh_wrs h)).

(** A batch of [b] buffers is as many as its remainder, between one and all. *)
Definition batch (h : RecvHelper) (b : Z) : nat := Z.to_nat ((b - 1) mod rh_capacity h + 1).

Lemma twice_lookup {A} (l : list A) i :
  (i < 2 * length l)%nat -> (l ++ l) !! i = l !! (i mod length l)%nat.
Proof.
  intros Hi. destruct (decide (i < length l)%nat).
  - by rewrite lookup_app_l, Nat.mod_small.
  - rewrite lookup_app_r by lia. f_equal. apply (Nat.mod_unique _ _ 1); lia.
Qed.

Section Ring.
Context (h : RecvHelper) (Hok : ring_ok h).

Lemma ring_ptr i : 0 <= i -> get_recv_wr_ptr h i = Some (Z.to_nat (i mod rh_capacity h)).
Proof.
  intros Hi. destruct Hok as [Hc Hs _ _]. unfold get_recv_wr_ptr, urem.
  destruct (Z.eqb_spec (rh_capacity h) 0); [lia|]. cbn [mbind option_bind].
  pose proof (Z.mod_pos_bound i (rh_capacity h) ltac:(lia)). unfold rh_len in Hc.
  destruct (Nat.ltb_spec (Z.to_nat (i mod rh_capacity h)) (length (rh_wrs h))); [done|lia].
Qed.

Lemma ring_ptr_nat i : get_recv_wr_ptr h (Z.of_nat i) = Some (i mod rh_len h)%nat.
Proof.
  rewrite ring_ptr by lia. destruct Hok as [Hc _ _ _].
  by rewrite Hc, <- Nat2Z.inj_mod, Nat2Z.id.
Qed.

Lemma ring_link i : (i < rh_len h)%nat -> rh_next h !! i = Some (Some ((i + 1) mod rh_len h)%nat).
Proof.
  intros Hi. rewrite (ro_links _ Hok), list_lookup_fmap, lookup_seq_lt by done. done.
Qed.

(** Walking the cut ring. *)
Lemma walk_segment n t c r : forall k fuel,
  (c < rh_len h)%nat -> (n <= rh_len h)%nat -> t = ((c + (n - 1)) mod rh_len h)%nat ->
  (k + S r = n)%nat -> (r < fuel)%nat ->
  walk fuel (with_next h (<[t := None]> (rh_next h))) (Some ((c + k) mod rh_len h)%nat)
  = Some (take (S r) (drop (c + k) (rh_wrs h ++ rh_wrs h))).
Proof.
  induction r as [|r IH]; intros k fuel Hc Hn Ht Hk Hf; (destruct fuel as [|fuel]; [lia|]); cbn [walk];
    assert (Hlt : ((c + k) mod rh_len h < rh_len h)%nat) by (apply Nat.mod_upper_bound; lia);
    destruct (lookup_lt_is_Some_2 (rh_wrs h) ((c + k) mod rh_len h)) as [wr Hwr]; auto;
    assert (Hd : (rh_wrs h ++ rh_wrs h) !! (c + k)%nat = Some wr)
      by (rewrite twice_lookup; [done|unfold rh_len in *; lia]);
    cbn [with_next rh_wrs rh_next]; rewrite Hwr; cbn [mbind option_bind]; rewrite (drop_S _ _ _ Hd).
  - assert (Ht' : t = ((c + k) mod rh_len h)%nat) by (rewrite Ht; f_equal; lia).
    rewrite <- Ht', list_lookup_insert_eq; [|rewrite (ro_links _ Hok), length_fmap, length_seq; lia].
    cbn [mbind option_bind]. by destruct fuel.
  - assert (Hne : t <> ((c + k) mod rh_len h)%nat).
    { intros E. rewrite E in Ht. apply (f_equal Z.of_nat) in Ht. rewrite !Nat2Z.inj_mod, !Nat2Z.inj_add in Ht.
      revert Ht. apply mod_apart; lia. }
    rewrite list_lookup_insert_ne, ring_link by done. cbn [mbind option_bind].
    specialize (IH (k + 1)%nat fuel Hc Hn Ht ltac:(lia) ltac:(lia)).
    rewrite Nat.Div0.add_mod_idemp_l, <- Nat.add_assoc, IH. cbn [mbind option_bind].
    by rewrite Nat.add_assoc, Nat.add_1_r.
Qed.
End Ring.

Section PostRecvs.
Context (h : RecvHelper) (Hok : ring_ok h) (b : Z) (Hb : 0 < rh_cur h + b < 2 ^ 64).

Lemma batch_range : (0 < batch h b <= rh_len h)%nat.
Proof.
  destruct Hok as [Hc Hs _ _]. unfold batch.
  pose proof (Z.mod_pos_bound (b - 1) (rh_capacity h) ltac:(lia)). lia.
Qed.

(** The tail computed by post_recvs is the last buffer of the batch. *)
Lemma batch_tail :
  Z.to_nat ((rh_cur h + b - 1) mod rh_capacity h)
  = ((Z.to_nat (rh_cur h) + (batch h b - 1)) mod rh_len h)%nat.
Proof.
  destruct Hok as [Hc Hs Hr _]. unfold batch.
  pose proof (Z.mod_pos_bound (b - 1) (rh_capacity h) ltac:(lia)).
  apply Nat2Z.inj. rewrite Nat2Z.inj_mod, Nat2Z.inj_add, <- Hc, Z2Nat.id
    by (apply Z.mod_pos_bound; lia). rewrite Nat2Z.inj_sub, !Z2Nat.id by lia.
  replace (rh_cur h + ((b - 1) mod rh_capacity h + 1 - Z.of_nat 1))
    with (rh_cur h + (b - 1) mod rh_capacity h) by lia.
  rewrite Zplus_mod_idemp_r. f_equal. lia.
Qed.

Lemma with_next_twice a c : with_next (with_next h a) c = with_next h c.
Proof. done. Qed.

(** Cutting the ring, walking it and closing it again. *)
Lemma ring_cut :
  let tail := (rh_cur h + b - 1) mod rh_capacity h in
  exists h1, freeze_at h tail = Some h1 /\ header_ptr h1 = Some (Z.to_nat (rh_cur h)) /\
    walk (length (rh_wrs h1)) h1 (Some (Z.to_nat (rh_cur h))) = Some (segment h (batch h b)) /\
    freeze_done_at h1 tail = Some h.
Proof.
  intros tail. pose proof batch_range as Hn. pose proof batch_tail as Ht. fold tail in Ht.
  pose proof Hok as [Hc Hs Hr Hl].
  assert (Htr : 0 <= tail < rh_capacity h) by (apply Z.mod_pos_bound; lia).
  assert (Htm : tail mod rh_capacity h = tail) by (by apply Z.mod_small).
  unfold freeze_at. rewrite (ring_ptr h Hok), Htm by lia. cbn [mbind option_bind].
  eexists. split; [done|]. split; [|split].
  - unfold header_ptr. change (get_recv_wr_ptr (with_next h _) ?i) with (get_recv_wr_ptr h i).
    cbn [with_next rh_cur]. by rewrite (ring_ptr h Hok), Z.mod_small by lia.
  - pose proof (walk_segment h Hok (batch h b) (Z.to_nat tail) (Z.to_nat (rh_cur h)) (batch h b - 1) 0
      (length (rh_wrs h)) ltac:(lia) ltac:(lia) Ht ltac:(lia) ltac:(unfold rh_len in *; lia)) as Hw.
    rewrite Nat.add_0_r, Nat.mod_small in Hw by lia.
    replace (S (batch h b - 1)) with (batch h b) in Hw by lia. exact Hw.
  - unfold freeze_done_at. change (get_recv_wr_ptr (with_next h _) ?i) with (get_recv_wr_ptr h i).
    rewrite (ring_ptr h Hok), Htm by lia. cbn [mbind option_bind]. rewrite uadd_ok by lia.
    cbn [mbind option_bind].
    change (get_recv_wr_ptr (with_next h _) ?i) with (get_recv_wr_ptr h i).
    replace (tail + 1) with (Z.of_nat (Z.to_nat tail + 1)) by lia. rewrite (ring_ptr_nat h Hok).
    cbn [mbind option_bind]. rewrite with_next_twice. cbn [with_next rh_next].
    rewrite list_insert_insert_eq, list_insert_id; [by destruct h|]. apply (ring_link h Hok). lia.
Qed.

Lemma post_recvs_eq {T} `{RecvTarget T} (t : T) :
  post_recvs h t b =
  ('(e, _, t') ← post_recv_to t (segment h (batch h b));
   Some (e, if e =? 0 then with_cur_idx h ((rh_cur h + Z.of_nat (batch h b)) mod rh_capacity h) else h, t')).
Proof.
  pose proof batch_range as Hn. pose proof Hok as [Hc Hs Hr Hl].
  destruct ring_cut as (h1 & E1 & E2 & E3 & E4).
  unfold post_recvs. rewrite uadd_ok by lia. cbn [mbind option_bind].
  rewrite usub_ok by lia. cbn [mbind option_bind]. rewrite urem_ok by lia. cbn [mbind option_bind].
  rewrite E1. cbn [mbind option_bind]. rewrite E2. cbn [mbind option_bind]. rewrite E3.
  cbn [mbind option_bind]. destruct (post_recv_to t _) as [[[e bad] t']|]; [|done]. cbn [mbind option_bind].
  rewrite E4. cbn [mbind option_bind]. destruct (Z.eqb_spec e 0) as [->|]; [|done]. cbn [negb].
  pose proof (Z.mod_pos_bound (rh_cur h + b - 1) (rh_capacity h) ltac:(lia)).
  rewrite uadd_ok by lia. cbn [mbind option_bind]. rewrite urem_ok by lia. cbn [mbind option_bind].
  do 3 f_equal. f_equal. unfold batch.
  rewrite Z2Nat.id by (pose proof (Z.mod_pos_bound (b - 1) (rh_capacity h)); lia).
  rewrite Zplus_mod_idemp_l. replace (rh_cur h + ((b - 1) mod rh_capacity h + 1))
    with (rh_cur h + 1 + (b - 1) mod rh_capacity h) by lia. rewrite Zplus_mod_idemp_r. f_equal. lia.
Qed.
End PostRecvs.

Lemma ring_ok_cur h c : ring_ok h -> 0 <= c < rh_capacity h -> ring_ok (with_cur_idx h c).
Proof. intros [Hc Hs _ Hl] Hr. by split. Qed.

Lemma ring_ok_moved h n : ring_ok h -> ring_ok (with_cur_idx h ((rh_cur h + n) mod rh_capacity h)).
Proof. intros Hok. apply ring_ok_cur; [done|]. destruct Hok as [_ Hs _ _]. apply Z.mod_pos_bound. lia. Qed.

Lemma length_segment h n : ring_ok h -> (n <= rh_len h)%nat -> length (segment h n) = n.
Proof.
  intros [Hc _ Hr _] Hn. unfold segment. rewrite length_take, length_drop, length_app.
  unfold rh_len in *. lia.
Qed.

Section Fresh.
Context (pa_to_va : Z -> Z).

Lemma fill_wrs_ok cap es lkey n : forall i base,
  0 < cap < 2 ^ 63 -> 0 <= i -> 0 <= es -> i + Z.of_nat n <= cap -> base + Z.of_nat n * es < 2 ^ 64 ->
  fill_wrs pa_to_va n i cap es lkey base
  = Some ((fun k => mkrwr (pa_to_va (base + Z.of_nat k * es))
                      [mksge (base + Z.of_nat k * es) (u32 es) lkey] 1) <$> seq 0 n,
          (fun k => Some (Z.to_nat ((i + Z.of_nat k + 1) mod cap))) <$> seq 0 n).
Proof.
  induction n as [|n IH]; intros i base Hc Hi Hes Hn Hb; [done|]. cbn [fill_wrs].
  rewrite (uadd_ok i 1), (uadd_ok base es) by lia. cbn [mbind option_bind].
  rewrite urem_ok by lia. cbn [mbind option_bind]. rewrite IH by lia. cbn [mbind option_bind].
  cbn [seq]. rewrite !fmap_cons, <- (fmap_S_seq 0 n), <- !list_fmap_compose, Z.mul_0_l, !Z.add_0_r.
  f_equal. f_equal; f_equal; apply list_fmap_ext; intros k x _; unfold compose.
  - by replace (base + es + Z.of_nat x * es) with (base + Z.of_nat (S x) * es) by lia.
  - do 3 f_equal. lia.
Qed.

(** A new helper is a ring over buffers that lie one after the other. *)
Lemma create_ok N es lkey base :
  (0 < N)%nat -> Z.of_nat N < 2 ^ 63 -> 0 <= es -> base + Z.of_nat N * es < 2 ^ 64 ->
  exists h, rh_create pa_to_va N es lkey base = Some h /\ ring_ok h /\ rh_cur h = 0 /\
    rh_wrs h = (fun k => mkrwr (pa_to_va (base + Z.of_nat k * es))
                           [mksge (base + Z.of_nat k * es) (u32 es) lkey] 1) <$> seq 0 N.
Proof.
  intros HN Hs Hes Hb. unfold rh_create. rewrite fill_wrs_ok by lia. cbn [mbind option_bind].
  eexists. split; [done|]. split; [|done].
  split; unfold rh_len; cbn [rh_capacity rh_wrs rh_cur rh_next]; rewrite ?length_fmap, ?length_seq; try lia.
  apply list_fmap_ext. intros k x Hx%lookup_seq. f_equal.
  rewrite Z.add_0_l. replace (Z.of_nat x + 1) with (Z.of_nat (x + 1)) by lia.
  by rewrite <- Nat2Z.inj_mod, Nat2Z.id.
Qed.
End Fresh.

(** post_recvs hands the driver a batch of consecutive buffers, whatever
    the driver makes of them: from the cursor on, around the end of the array,
    as many as the remainder of the request says, at least one and at most
    all.  It closes the ring it has cut, and moves the cursor behind the batch
    exactly when the driver reports success. *)
Theorem post_recvs_batch {T} `{RecvTarget T} h (t : T) b :
  ring_ok h -> 0 < rh_cur h + b < 2 ^ 64 ->
  let h' := with_cur_idx h ((rh_cur h + Z.of_nat (batch h b)) mod rh_capacity h) in
  post_recvs h t b =
  ('(e, _, t') ← post_recv_to t (segment h (batch h b)); Some (e, if e =? 0 then h' else h, t')) /\
  length (segment h (batch h b)) = batch h b /\ ring_ok h'.
Proof.
  intros Hok Hb. pose proof (batch_range h Hok b) as Hn. split; [by apply post_recvs_eq|].
  split; [apply length_segment; [done|lia]|by apply ring_ok_moved].
Qed.

(** Against a queue that keeps the receive contract, post_recvs posts the
    buffers of its batch for which the queue has room, in order and after those
    already there.  If that is all of them it succeeds; otherwise it reports
    -ENOMEM and leaves the cursor in front of the buffers it has just posted. *)
Theorem post_recvs_fills {T} `{RecvTargetSpec T} h (t : T) out b :
  ring_ok h -> 0 < rh_cur h + b < 2 ^ 64 -> rt_holds t out -> (length out <= rt_cap t)%nat ->
  Forall (rt_takes t) (rh_wrs h) ->
  let n := batch h b in
  let k := Nat.min n (rt_cap t - length out) in
  exists h' t', post_recvs h t b = Some (if decide (k = n) then 0 else - ENOMEM, h', t') /\
    rt_holds t' (out ++ segment h k) /\
    h' = if decide (k = n) then with_cur_idx h ((rh_cur h + Z.of_nat n) mod rh_capacity h) else h.
Proof.
  intros Hok Hb Hh Hcap Htk n k. pose proof (batch_range h Hok b) as Hn. fold n in Hn.
  rewrite post_recvs_eq by done. fold n.
  assert (Hlen : length (segment h n) = n) by (apply length_segment; [done|lia]).
  assert (Hk : length (segment h k) = k) by (apply length_segment; [done|lia]).
  assert (Hsplit : segment h n = segment h k ++ drop k (segment h n)).
  { rewrite <- (take_drop k (segment h n)) at 1. f_equal. unfold segment. rewrite take_take. f_equal. lia. }
  destruct (rt_post t out (segment h k) (drop k (segment h n))) as (t' & E & Hh' & _ & _); auto.
  - rewrite <- Hsplit. unfold segment. apply Forall_take, Forall_drop, Forall_app. done.
  - lia.
  - destruct (decide (k = n)) as [E|E]; [left|right; lia]. apply drop_ge. lia.
  - rewrite Hsplit, E. unfold full_stop. destruct (decide (k = n)) as [En|En].
    + rewrite drop_ge by lia. cbn [mbind option_bind]. eexists _, t'. by rewrite Z.eqb_refl.
    + destruct (drop k (segment h n)) as [|x r] eqn:Ed.
      { apply (f_equal length) in Ed. rewrite length_drop in Ed. simpl in Ed. lia. }
      cbn [mbind option_bind]. eexists _, t'. done.
Qed.

(** The helper of a control block: two buffers of two megabytes. *)
Definition ex_helper : RecvHelper :=
  default (mkrh [] [] [] 0 0 0) (rh_create (fun a => a + 2 ^ 40) 2 (2 ^ 21) 7 (2 ^ 22)).

Lemma ex_helper_ok : ring_ok ex_helper.
Proof. split; vm_compute; repeat split; done. Qed.

Lemma post_recvs_batch_witness :
  let h' := with_cur_idx ex_helper 0 in
  post_recvs ex_helper ex_target 512 =
  ('(e, _, t') ← post_recv_to ex_target (rh_wrs ex_helper);
   Some (e, if e =? 0 then h' else ex_helper, t')) /\
  length (segment ex_helper 2) = 2%nat /\ ring_ok h'.
Proof. apply (post_recvs_batch ex_helper ex_target 512 ex_helper_ok). vm_compute. split; done. Defined.

Lemma post_recvs_fills_witness :
  exists h' t', post_recvs ex_helper ex_target 512 = Some (0, h', t') /\
    qp_holds t' ([] ++ segment ex_helper 2) /\ h' = with_cur_idx ex_helper 0.
Proof.
  destruct (post_recvs_fills ex_helper ex_target [] 512 ex_helper_ok) as (h' & t' & E & Hh & Eh);
    [vm_compute; split; done|exact ex_target_holds|simpl; lia| |].
  - apply Forall_forall. intros wr Hwr. vm_compute in Hwr.
    repeat (apply elem_of_cons in Hwr as [->|Hwr]; [split; [vm_compute; done|by eexists]|]).
    by apply elem_of_nil in Hwr.
  - exists h', t'. rewrite decide_True in E by reflexivity. rewrite decide_True in Eh by reflexivity.
    split; [exact E|]. split; [exact Hh|exact Eh].
Defined.
