(* ===== verification/VirtualQueue.v ===== *)
(** * VirtualQueue: KRCore's virtual queues (KRdmaKit-syscall/src)

    A virtual queue is what a process opens to talk to a remote node.  The
    kernel module translates the requests of its push command to work requests
    on a physical queue pair of the driver (virtual_queue.rs, core.rs, and
    rc_op.rs and dc_op.rs of the kernel library), and its pop commands collect
    the completions of receive buffers.

    The default build of the module is modelled: a virtual queue is connected
    by a reliable connection (features KRdmaKit and virtual_queue).  Panics and
    accesses out of bounds are [None]; the push command, which may wait for
    completions without end, has outcomes of its own. *)

From stdpp Require Import gmap.
From S2P Require Import Prelude FragBuf QpTypes WqeSeg SqRing PostSend RecvQueue Cqe CqPoll RecvTarget RecvHelper.

(** ** Requests and replies (include/common.h) *)

Definition REPLY_ERR : Z := 0.
Definition REPLY_OK : Z := 1.
Definition REPLY_ALREADY_CONNECTED : Z := 3.
Definition REPLY_ALREADY_BIND : Z := 4.
Definition REPLY_ADDR_ERROR : Z := 5.
Definition REPLY_NIL : Z := 6.
Definition REPLY_NOT_CONNECTED : Z := 7.
Definition REPLY_NOT_BIND : Z := 8.

Record core_req_t := mkcreq {
  cr_addr : Z;
  cr_length : Z;
  cr_lkey : Z;
  cr_remote_addr : Z;
  cr_rkey : Z;
  cr_send_flags : Z;
  cr_vid : Z;
  cr_type : Z;
}.

(** op_code_table of lib.rs; another type panics. *)
Definition op_code_table (op : Z) : option Z :=
  if op =? 0 then Some IB_WR_RDMA_READ
  else if op =? 1 then Some IB_WR_RDMA_WRITE
  else if op =? 2 then Some IB_WR_SEND
  else if op =? 3 then Some IB_WR_SEND_WITH_IMM
  else if op =? 4 then Some IB_WR_RDMA_WRITE_WITH_IMM
  else None.

(** ** Memory regions and endpoints *)

Record TempMR := mktmr { tm_addr : Z; tm_capacity : Z; tm_rkey : Z }.
(** The address handle is its AV. *)
Record EndPoint := mkep { ep_dct_num : Z; ep_mr : TempMR; ep_av : list Z; ep_qpn : Z; ep_qkey : Z }.

Definition MAX_KMALLOC_SZ : Z := 1024 * 1024 * 4.
Definition MAX_SERVICE_NUM : Z := 25.
Definition DCT_ACCESS_KEY : Z := 73.

(** A physical queue pair with the buffer of its send queue. *)
Record phys_qp := mkpq { pq_qp : mlx5_ib_qp; pq_mem : frag_mem }.
Record RC := mkrc { rc_pq : phys_qp; rc_remote_mr : option TempMR }.

Section Push.
Context (dev : mlx5_ib_dev) (host : Z -> Z) (gsi : mlx5_ib_qp -> list ib_send_wr -> Z * option nat).
Context (mrs : Z -> mlx5_ib_mr).
(** phys_to_virt of the kernel. *)
Context (pa_to_va : Z -> Z).

(** RCOp::post_send and DCOp::post_send: one request per call of the driver. *)
Definition op_post_send (p : phys_qp) (wr : ib_send_wr) : option (Z * phys_qp) :=
  '(e, _, s) ← mlx5_ib_post_send dev host gsi (pq_qp p) (pq_mem p) mrs [wr];
  Some (e, mkpq (p_qp s) (p_mem s)).

(** RCOp::push_with_imm: the immediate is stored in host order. *)
Definition rc_op_wr (op local_ptr lkey sz remote_addr rkey imm_data send_flag : Z) : ib_send_wr :=
  mkwr 0 [mksge local_ptr (u32 sz) lkey] 1 op send_flag (rev (be32 imm_data)) (WrRdma remote_addr rkey).

(** DCOp::push. *)
Definition dc_op_wr (op local_ptr lkey sz remote_addr rkey : Z) (ep : EndPoint) (send_flag : Z)
    : ib_send_wr :=
  mkwr 0 [mksge local_ptr (u32 sz) lkey] 1 op send_flag (zeros 4)
    (WrDc remote_addr rkey (ep_av ep) DCT_ACCESS_KEY (ep_dct_num ep)).

(** Small writes are sent inline, from the virtual address. *)
Definition is_inline (op len : Z) : bool :=
  (len <? 64) && ((op =? IB_WR_RDMA_WRITE) || (op =? IB_WR_RDMA_WRITE_WITH_IMM)).
Definition push_laddr (op len pa : Z) : Z := if is_inline op len then pa_to_va pa else pa.
Definition push_flag (op len flags : Z) : Z :=
  let f := if is_inline op len then IB_SEND_INLINE else 0 in
  f .| (if flags =? 0 then f .| 0 else f .| IB_SEND_SIGNALED).

(** The work request of one entry of rc_push_impl, and of dc_push_impl. *)
Definition rc_wr (local_mr remote_mr : TempMR) (r : core_req_t) : option ib_send_wr :=
  pa ← uadd (tm_addr local_mr) (cr_addr r);
  raddr ← uadd (cr_remote_addr r) (tm_addr remote_mr);
  op ← op_code_table (cr_type r);
  Some (rc_op_wr op (push_laddr op (cr_length r) pa) (tm_rkey local_mr) (cr_length r) raddr
          (tm_rkey remote_mr) (cr_vid r) (push_flag op (cr_length r) (cr_send_flags r))).

Definition dc_wr (local_mr : TempMR) (ep : EndPoint) (r : core_req_t) : option ib_send_wr :=
  pa ← uadd (tm_addr local_mr) (cr_addr r);
  raddr ← uadd (cr_remote_addr r) (tm_addr (ep_mr ep));
  op ← op_code_table (cr_type r);
  Some (dc_op_wr op (push_laddr op (cr_length r) pa) (tm_rkey local_mr) (cr_length r) raddr
          (tm_rkey (ep_mr ep)) ep (push_flag op (cr_length r) (cr_send_flags r))).

(** The loop of both: stop at the first request the driver refuses. *)
Fixpoint push_reqs (mk : core_req_t -> option ib_send_wr) (reqs : list core_req_t) (p : phys_qp)
    : option (Z * phys_qp) :=
  match reqs with
  | [] => Some (REPLY_OK, p)
  | r :: rest =>
      wr ← mk r;
      '(e, p) ← op_post_send p wr;
      if negb (e =? 0) then Some (REPLY_ERR, p) else push_reqs mk rest p
  end.

(** ** The virtual queue *)

Record VQ := mkvq {
  virtual_queue : option RC;
  local_dc : option phys_qp;
  local_ud : option phys_qp;
  local_mr : option TempMR;
  remote_endpoint : option EndPoint;
  cached_client_endpoint : gmap Z EndPoint;
  bind_port : option Z;
  local_connect_port : option Z;
}.

Definition vq_set_rc (v : VQ) (r : option RC) : VQ :=
  mkvq r (local_dc v) (local_ud v) (local_mr v) (remote_endpoint v) (cached_client_endpoint v) (bind_port v)
    (local_connect_port v).
Definition vq_set_dc (v : VQ) (d : option phys_qp) : VQ :=
  mkvq (virtual_queue v) d (local_ud v) (local_mr v) (remote_endpoint v) (cached_client_endpoint v) (bind_port v)
    (local_connect_port v).
Definition vq_set_bind (v : VQ) (b : option Z) : VQ :=
  mkvq (virtual_queue v) (local_dc v) (local_ud v) (local_mr v) (remote_endpoint v) (cached_client_endpoint v) b
    (local_connect_port v).
Definition update_client_endpoint_cache (v : VQ) (vid : Z) (ep : EndPoint) : VQ :=
  mkvq (virtual_queue v) (local_dc v) (local_ud v) (local_mr v) (remote_endpoint v)
    (<[vid := ep]> (cached_client_endpoint v)) (bind_port v) (local_connect_port v).

(** open, with the memory region of LocalCache::default. *)
Definition vq_open (mr : TempMR) : VQ := mkvq None None None (Some mr) None ∅ None None.

Definition rc_push_impl (v : VQ) (reqs : list core_req_t) : option (Z * VQ) :=
  match virtual_queue v with
  | None => Some (REPLY_NIL, v)
  | Some rc =>
      lmr ← local_mr v;
      rmr ← rc_remote_mr rc;
      '(st, p) ← push_reqs (rc_wr lmr rmr) reqs (rc_pq rc);
      Some (st, vq_set_rc v (Some (mkrc p (rc_remote_mr rc))))
  end.

Definition dc_push_impl (v : VQ) (reqs : list core_req_t) : option (Z * VQ) :=
  lmr ← local_mr v;
  match local_dc v with
  | None => Some (REPLY_NIL, v)
  | Some dc =>
      ep ← remote_endpoint v;
      '(st, p) ← push_reqs (dc_wr lmr ep) reqs dc;
      Some (st, vq_set_dc v (Some p))
  end.

(** connect_impl: [path] is the result of explore_path and [qp] that of
    qp_connect; the control block of the port has the memory region [mr], the
    local key [lkey] and the DC and UD queue pairs [dc] and [ud]. *)
Definition connect_impl (v : VQ) (addr_ok : bool) (port : Z) (mr : TempMR) (lkey : Z)
    (dc ud : option phys_qp) (path : bool) (qp : option (option RC)) : Z * VQ :=
  if virtual_queue v is Some _ then (REPLY_ALREADY_CONNECTED, v)
  else if negb addr_ok then (REPLY_ADDR_ERROR, v)
  else
    let v1 := mkvq None (if local_dc v is Some _ then local_dc v else dc)
                (if local_dc v is Some _ then local_ud v else ud)
                (Some (mktmr (tm_addr mr) (u32 MAX_KMALLOC_SZ) lkey)) (remote_endpoint v)
                (cached_client_endpoint v) (bind_port v) (Some port) in
    if negb path then (REPLY_ERR, v1)
    else match qp with
    | Some rc => (REPLY_OK, vq_set_rc v1 rc)
    | None => (REPLY_ERR, v1)
    end.

(** The Binds command; the port is a C int. *)
Definition bind_cmd (v : VQ) (port : Z) : Z * VQ :=
  if bind_port v is Some _ then (REPLY_ALREADY_BIND, v)
  else if MAX_SERVICE_NUM <? u64 port then (REPLY_NIL, v)
  else (REPLY_OK, vq_set_bind v (Some (u64 port))).
End Push.

(** ** Receiving *)

Record user_wc_t := mkuwc { uw_op : Z; uw_status : Z; uw_imm_data : Z; uw_wr_id : Z }.

Definition user_wc (w : ib_wc) : user_wc_t :=
  mkuwc (wc_opcode w) (wc_status w) (be_val (rev (wc_ex w))) (wc_wr_id w).

(** handle_pop_ret: the completions copied to the user and the copies within
    the message buffers (destination, source, length), for the first [wc_len]
    entries of the array. *)
Definition handle_pop_ret (wcs : list ib_wc) (wc_len : nat) (payload_sz : Z)
    : option (list user_wc_t * list (Z * Z * Z)) :=
  if (wc_len <=? length wcs)%nat then
    copies ← mapM (fun w => d ← uadd (wc_wr_id w) payload_sz; Some (d, wc_wr_id w, payload_sz))
               (take wc_len wcs);
    Some (user_wc <$> take wc_len wcs, copies)
  else None.

Definition POP_CNT : Z := 2048.
Definition POP_RETRIES : Z := 50000.

Section Pop.
Context {T : Type} `{CqSource T}.

(** The result of a pop command: status, completions, copies. *)
Definition pop_reply : Type := Z * list user_wc_t * list (Z * Z * Z).

(** The loop of pop_msg_impl on a connected queue: [act] completions so far. *)
Fixpoint pop_msgs (fuel : nat) (retry : Z) (act : nat) (least payload_sz : Z) (h : RecvHelper) (cq : T)
    : option (pop_reply * RecvHelper * T) :=
  match fuel with
  | O => None
  | S fuel =>
      '(cnt, h, cq) ← pop_recvs h cq POP_CNT (Z.of_nat act);
      let act := (act + cnt)%nat in
      if (least <=? Z.of_nat act) || (POP_RETRIES <? retry) then
        '(l, copies) ← handle_pop_ret (rh_wcs h) act payload_sz;
        Some (REPLY_OK, l, copies, h, cq)
      else pop_msgs fuel (retry + 1) act least payload_sz h cq
  end.

(** pop_msg_impl.  A queue that is neither bound nor connected waits in vain;
    a bound one polls once. *)
Definition pop_msg_impl (v : VQ) (least payload_sz : Z) (h : RecvHelper) (cq : T)
    : option (pop_reply * RecvHelper * T) :=
  match bind_port v, local_connect_port v with
  | Some _, _ =>
      '(cnt, h, cq) ← pop_recvs h cq POP_CNT 0;
      '(l, copies) ← handle_pop_ret (rh_wcs h) cnt payload_sz;
      Some (REPLY_OK, l, copies, h, cq)
  | None, Some _ => pop_msgs (Z.to_nat (POP_RETRIES + 2)) 0 0 least payload_sz h cq
  | None, None => Some (REPLY_NIL, [], [], h, cq)
  end.

(** The UnBinds command empties the receive queue of the port. *)
Definition unbind_cmd (v : VQ) (port : Z) (h : RecvHelper) (cq : T)
    : option (Z * VQ * RecvHelper * T) :=
  match bind_port v with
  | Some p =>
      if p =? u64 port
      then '(_, h, cq) ← pop_recvs h cq POP_CNT 0; Some (REPLY_OK, vq_set_bind v None, h, cq)
      else Some (REPLY_NOT_BIND, v, h, cq)
  | None => Some (REPLY_NOT_BIND, v, h, cq)
  end.
End Pop.

(** push_recv_impl: [trc] is the reliable connection number 1 of the bound
    port, [qp] the physical queue pair of a connected queue. *)
Definition push_recv_impl {T} `{RecvTarget T} (v : VQ) (h : RecvHelper) (trc : option T) (qp : T)
    (push_cnt : Z) : option (Z * RecvHelper * option T) :=
  let post (t : T) :=
    '(e, h, t) ← post_recvs h t push_cnt;
    Some (if e =? 0 then REPLY_OK else REPLY_ERR, h, Some t) in
  match bind_port v, local_connect_port v with
  | Some _, _ => match trc with Some t => post t | None => Some (REPLY_NOT_CONNECTED, h, None) end
  | None, Some _ => post qp
  | None, None => Some (REPLY_NOT_CONNECTED, h, None)
  end.

(** ** The push command *)

(** How a call ends: it returns, it panics or is undefined, or it still waits for
    a completion. *)
Inductive outcome (A : Type) :=
| Ret (a : A)
| Panic
| Waits.
Arguments Ret {A} a.
Arguments Panic {A}.
Arguments Waits {A}.

#[export] Instance outcome_bind : MBind outcome := fun A B k m =>
  match m with Ret a => k a | Panic => Panic | Waits => Waits end.
Definition unwrap {A} (x : option A) : outcome A := match x with Some a => Ret a | None => Panic end.

Definition HOST_LEN : nat := 12.
Definition UD_HEADER_SZ : Z := 40.
Definition DEFAULT_BATCH_SZ : nat := 64.

Section Command.
Context {T Q : Type} `{RecvTarget T} `{CqSource Q}.
Context (dev : mlx5_ib_dev) (host : Z -> Z) (gsi : mlx5_ib_qp -> list ib_send_wr -> Z * option nat).
Context (mrs : Z -> mlx5_ib_mr) (pa_to_va : Z -> Z).
(** The endpoint a client has written to the message at an address, with its address handle. *)
Context (endpoint_at : Z -> option EndPoint).
(** The polls after which a call that waits for a completion is looked at. *)
Context (patience : nat).

(** wait_til_comp of RCOp and UDOp. *)
Fixpoint wait_til_comp (fuel : nat) (cq : Q) : outcome Q :=
  match fuel with
  | O => Waits
  | S fuel =>
      match poll_from cq 1 with
      | None => Panic
      | Some (l, cq) => if (length l =? 1)%nat then Ret cq else wait_til_comp fuel cq
      end
  end.

(** A queue pair of a control block: its send side, its receive queue and its
    completion queue. *)
Record chan := mkchan { ch_pq : phys_qp; ch_rq : T; ch_cq : Q }.

(** The control block of a bound port: the key of its context, the connections
    of its clients by number, the UD queue pair of DEFAULT_RPC_HINT and the
    receive buffers. *)
Record RCtrl := mkrctrl {
  ct_rkey : Z;
  registered_rcs : gmap Z chan;
  ct_ud : option chan;
  recv_buffer : option RecvHelper;
}.
Definition with_trc (c : RCtrl) (vid : Z) (ch : chan) : RCtrl :=
  mkrctrl (ct_rkey c) (<[vid := ch]> (registered_rcs c)) (ct_ud c) (recv_buffer c).
Definition with_ud (c : RCtrl) (ch : chan) : RCtrl :=
  mkrctrl (ct_rkey c) (registered_rcs c) (Some ch) (recv_buffer c).
Definition with_recv (c : RCtrl) (h : RecvHelper) : RCtrl :=
  mkrctrl (ct_rkey c) (registered_rcs c) (ct_ud c) (Some h).

(** UDOp::push. *)
Definition ud_op_wr (op local_ptr lkey : Z) (ep : EndPoint) (sz imm_data send_flag : Z) : ib_send_wr :=
  mkwr 0 [mksge local_ptr (u32 sz) lkey] 1 op send_flag (rev (be32 imm_data))
    (WrUd (ep_av ep) [] 0 0 (ep_qpn ep) (ep_qkey ep)).

Definition chan_post (ch : chan) (wr : ib_send_wr) : option (Z * chan) :=
  '(e, p) ← op_post_send dev host gsi mrs (ch_pq ch) wr;
  Some (e, mkchan p (ch_rq ch) (ch_cq ch)).

(** The arrays that count the requests of each client; the first is signalled. *)
Definition cnt (l : list Z) (vid : Z) : Z := nth (Z.to_nat vid) l 0.
Definition bump (l : list Z) (vid : Z) : list Z := <[Z.to_nat vid := cnt l vid + 1]> l.
Definition first_signaled (n : Z) : Z := if n =? 0 then IB_SEND_SIGNALED else 0.

Definition client_endpoint (v : VQ) (vid a : Z) : option (EndPoint * VQ) :=
  match cached_client_endpoint v !! vid with
  | Some ep => Some (ep, v)
  | None => ep ← endpoint_at a; Some (ep, update_client_endpoint_cache v vid ep)
  end.

(** The first loop of bind_server_push_impl: to a client without a connection
    the message is sent by UD, without payload. *)
Fixpoint bind_push_reqs (lmr : TempMR) (reqs : list core_req_t) (v : VQ) (c : RCtrl) (uds rcs : list Z)
    : option (Z * VQ * RCtrl * list Z * list Z) :=
  match reqs with
  | [] => Some (REPLY_OK, v, c, uds, rcs)
  | r :: rest =>
      let vid := cr_vid r mod Z.of_nat HOST_LEN in
      match registered_rcs c !! vid with
      | None =>
          a ← uadd (cr_remote_addr r) UD_HEADER_SZ;
          '(ep, v) ← client_endpoint v vid a;
          ud ← ct_ud c;
          op ← op_code_table (cr_type r);
          '(e, ud) ← chan_post ud
            (ud_op_wr op (tm_addr lmr) (tm_rkey lmr) ep 0 0 (first_signaled (cnt uds vid)));
          if negb (e =? 0) then Some (REPLY_ERR, v, with_ud c ud, bump uds vid, rcs)
          else bind_push_reqs lmr rest v (with_ud c ud) (bump uds vid) rcs
      | Some ch =>
          laddr ← uadd (tm_addr lmr) (cr_addr r);
          raddr ← uadd (cr_remote_addr r) (tm_addr lmr);
          op ← op_code_table (cr_type r);
          '(e, ch) ← chan_post ch
            (rc_op_wr op laddr (tm_rkey lmr) (cr_length r) raddr (ct_rkey c) vid (first_signaled (cnt rcs vid)));
          if negb (e =? 0) then Some (REPLY_ERR, v, with_trc c vid ch, uds, bump rcs vid)
          else bind_push_reqs lmr rest v (with_trc c vid ch) uds (bump rcs vid)
      end
  end.

(** ud_post_recv and trc_post_recv, and the wait for the signalled request. *)
Definition settle_chan (h : RecvHelper) (ch : chan) (n : Z) (pop : bool) : outcome (Z * RecvHelper * chan) :=
  '(e, h, t) ← unwrap (post_recvs h (ch_rq ch) n);
  let ch := mkchan (ch_pq ch) t (ch_cq ch) in
  if negb (e =? 0) then Ret (REPLY_ERR, h, ch)
  else if pop then
    cq ← wait_til_comp patience (ch_cq ch);
    Ret (REPLY_OK, h, mkchan (ch_pq ch) (ch_rq ch) cq)
  else Ret (REPLY_OK, h, ch).

Definition settle_ud (c : RCtrl) (n : Z) (pop : bool) : outcome (Z * RCtrl) :=
  if 0 <? n then
    ud ← unwrap (ct_ud c);
    h ← unwrap (recv_buffer c);
    '(st, h, ud) ← settle_chan h ud n pop;
    Ret (st, with_recv (with_ud c ud) h)
  else Ret (REPLY_OK, c).

Definition settle_trc (c : RCtrl) (vid n : Z) (pop : bool) : outcome (Z * RCtrl) :=
  if 0 <? n then
    ch ← unwrap (registered_rcs c !! vid);
    h ← unwrap (recv_buffer c);
    '(st, h, ch) ← settle_chan h ch n pop;
    Ret (st, with_recv (with_trc c vid ch) h)
  else Ret (REPLY_OK, c).

(** Its second loop, over the clients. *)
Fixpoint settle (vids : list nat) (pop : bool) (c : RCtrl) (uds rcs : list Z) : outcome (Z * RCtrl) :=
  match vids with
  | [] => Ret (REPLY_OK, c)
  | vid :: rest =>
      '(st, c) ← settle_ud c (cnt uds (Z.of_nat vid)) pop;
      if st =? REPLY_ERR then Ret (st, c)
      else
        '(st, c) ← settle_trc c (Z.of_nat vid) (cnt rcs (Z.of_nat vid)) pop;
        if st =? REPLY_ERR then Ret (st, c) else settle rest pop c uds rcs
  end.

Definition bind_server_push_impl (v : VQ) (c : RCtrl) (reqs : list core_req_t) (pop : bool)
    : outcome (Z * VQ * RCtrl) :=
  lmr ← unwrap (local_mr v);
  '(st, v, c, uds, rcs) ← unwrap (bind_push_reqs lmr reqs v c (replicate HOST_LEN 0) (replicate HOST_LEN 0));
  if st =? REPLY_OK then
    '(st, c) ← settle (seq 1 (HOST_LEN - 1)) pop c uds rcs;
    Ret (st, v, c)
  else Ret (st, v, c).

(** One batch: [c] is the control block of the bound port, if any. *)
Definition push_batch (v : VQ) (c : RCtrl) (pop : bool) (b : list core_req_t) : outcome (Z * VQ * RCtrl) :=
  match bind_port v with
  | Some _ => bind_server_push_impl v c b pop
  | None =>
      '(st, v) ← unwrap (if virtual_queue v is Some _ then rc_push_impl dev host gsi mrs pa_to_va v b
                         else dc_push_impl dev host gsi mrs pa_to_va v b);
      Ret (st, v, c)
  end.

(** The loop over the batches; the fuel is the number of requests. *)
Fixpoint push_batches (fuel : nat) (ret : Z) (v : VQ) (c : RCtrl) (pop : bool) (reqs : list core_req_t)
    : outcome (Z * VQ * RCtrl) :=
  match reqs with
  | [] => Ret (ret, v, c)
  | _ =>
      match fuel with
      | O => Panic
      | S fuel =>
          '(ret, v, c) ← push_batch v c pop (take DEFAULT_BATCH_SZ reqs);
          if ret =? REPLY_ERR then Ret (ret, v, c)
          else push_batches fuel ret v c pop (drop DEFAULT_BATCH_SZ reqs)
      end
  end.

(** What a connected queue uses: the receive buffers of its port, and the receive
    and completion queues of its connection and of the UD queue pair. *)
Record client := mkclient {
  cl_recv : option RecvHelper;
  cl_rc_rq : T;
  cl_rc_cq : Q;
  cl_ud_rq : T;
  cl_ud_cq : Q;
}.

(** push_recv_impl on a queue that is not bound. *)
Definition client_recvs (v : VQ) (cl : client) (n : Z) : outcome (Z * client) :=
  match local_connect_port v with
  | None => Ret (REPLY_NOT_CONNECTED, cl)
  | Some _ =>
      h ← unwrap (cl_recv cl);
      match virtual_queue v with
      | Some _ =>
          '(st, h, t) ← unwrap (push_recv_impl v h None (cl_rc_rq cl) n);
          Ret (st, mkclient (Some h) (default (cl_rc_rq cl) t) (cl_rc_cq cl) (cl_ud_rq cl) (cl_ud_cq cl))
      | None =>
          _ ← unwrap (local_ud v);
          '(st, h, t) ← unwrap (push_recv_impl v h None (cl_ud_rq cl) n);
          Ret (st, mkclient (Some h) (cl_rc_rq cl) (cl_rc_cq cl) (default (cl_ud_rq cl) t) (cl_ud_cq cl))
      end
  end.

(** Waiting for one completion of what was pushed. *)
Definition client_pop (v : VQ) (cl : client) : outcome client :=
  match virtual_queue v with
  | Some _ =>
      cq ← wait_til_comp patience (cl_rc_cq cl);
      Ret (mkclient (cl_recv cl) (cl_rc_rq cl) cq (cl_ud_rq cl) (cl_ud_cq cl))
  | None =>
      _ ← unwrap (local_ud v);
      cq ← wait_til_comp patience (cl_ud_cq cl);
      Ret (mkclient (cl_recv cl) (cl_rc_rq cl) (cl_rc_cq cl) (cl_ud_rq cl) cq)
  end.

Definition is_bind_mode (v : VQ) : bool := if bind_port v is Some _ then true else false.

(** The Push command: receive buffers first, then the batches, then a completion
    if one is asked for. *)
Definition vq_push (v : VQ) (c : RCtrl) (cl : client) (reqs : list core_req_t) (push_recv_cnt : Z) (pop_at_once : bool)
    : outcome (Z * VQ * RCtrl * client) :=
  '(ret, cl) ← (if negb (is_bind_mode v) && (0 <? push_recv_cnt) then client_recvs v cl push_recv_cnt
                else Ret (REPLY_OK, cl));
  '(ret, v, c) ← push_batches (length reqs) ret v c pop_at_once reqs;
  if negb (is_bind_mode v) && pop_at_once && (ret =? REPLY_OK) then
    cl ← client_pop v cl;
    Ret (ret, v, c, cl)
  else Ret (ret, v, c, cl).
End Command.
