(* ===== verification/VirtualQueueThm.v ===== *)
(** * VirtualQueueThm: a push becomes WQEs, a pop collects completions

    The push command of a connected virtual queue, down to the send ring of the
    driver: requests that fit are posted one by one, which leaves the queue as
    if they had been posted as one chain, and the split into batches does not
    show.  The pop command collects the completions of receive buffers, within
    the bounds of its array. *)

From S2P Require Import Prelude FragBuf QpTypes WqeSeg SqRing PostSend PostRing PostSendThm RecvQueue Srq Cqe CqRing CqResize CqPoll QpSystem RecvTarget RecvHelper VirtualQueue.

(** ** One request at a time *)

Section Steps.
Context (dev : mlx5_ib_dev) (host : Z -> Z) (gsi : mlx5_ib_qp -> list ib_send_wr -> Z * option nat).
Context (mrs : Z -> mlx5_ib_mr) (B : Z) (Hie : internal_error dev = false).

Lemma outs_of_static q q' post nf h l :
  (qpn q', wq_sig_en q', sq_signal_bits q') = (qpn q, wq_sig_en q, sq_signal_bits q) ->
  outs_of q' post nf h l = outs_of q post nf h l.
Proof.
  intros [= H1 H2 H3]. revert post nf h. induction l as [|[wr body] r IH]; intros; [done|].
  cbn [outs_of]. rewrite IH. unfold wqe_image, ctrl_bytes, fence_of, ctrl_flags; simpl. by rewrite H1, H2, H3.
Qed.

Lemma outs_of_u32 q post nf h l : outs_of q post nf (u32 h) l = outs_of q post nf h l.
Proof.
  assert (H : forall h h', u32 h' = u32 h -> outs_of q post nf h' l = outs_of q post nf h l).
  { revert post nf. induction l as [|[wr body] r IH]; intros post nf h0 h' E; [done|]. cbn [outs_of].
    rewrite E. f_equal. apply IH. rewrite <- (u32_add h'), E, u32_add. done. }
  apply H. unfold u32. apply Zmod_mod.
Qed.

Lemma push_reqs_steps mk l : forall s reqs,
  sys_ok B s -> Forall2 (fun r x => mk r = Some x.1) reqs l ->
  Forall (fun '(wr, body) => plain_wr dev host (y_qp s) wr body) l ->
  Forall (fun x => wqe_blocks x.2 <= B) l -> qp_type (y_qp s) <> IB_QPT_GSI ->
  Z.of_nat (length (y_out s)) + Z.of_nat (length l) <= max_post (qp_sq (y_qp s)) ->
  exists s', push_reqs dev host gsi mrs mk reqs (mkpq (y_qp s) (y_mem s))
             = Some (REPLY_OK, mkpq (y_qp s') (y_mem s')) /\
    rtc (step dev host gsi mrs B) s s' /\
    y_out s' = y_out s ++ outs_of (y_qp s) (cur_post (qp_sq (y_qp s))) (next_fence (y_qp s))
                            (head (qp_sq (y_qp s))) l /\ sys_ok B s'.
Proof.
  induction l as [|[wr body] l IH]; intros s reqs Hok Hmk Hpl Hbl Hty Hcap.
  { apply Forall2_nil_inv_r in Hmk as ->. exists s. split; [by destruct s|]. split; [done|].
    split; [by rewrite app_nil_r|done]. }
  apply Forall2_cons_inv_r in Hmk as (r & reqs' & Hr & Hmk & ->). cbn [length fst] in *.
  apply Forall_cons in Hpl as [Hp Hpl]. apply Forall_cons in Hbl as [Hb Hbl].
  assert (Hmay : may_post dev host B s [(wr, body)]).
  { split; [done|]. split; [by constructor|]. split; [by constructor|]. split; [done|]. simpl. lia. }
  destruct (sys_post dev host gsi mrs B s _ Hie Hok Hmay) as (st & E & Hacc). cbn [fmap list_fmap fst] in E.
  pose proof (step_posted dev host gsi mrs B s _ st Hmay E) as Hst.
  pose proof (step_ok dev host gsi mrs B _ _ Hie Hst Hok) as Hok'.
  match type of Hst with step _ _ _ _ _ _ ?x => set (s1 := x) in * end.
  pose proof (acc_static _ _ _ _ _ Hacc) as Hs. injection Hs as S1 S2 S3 S4 S5 S6 S7 S8.
  destruct (acc_same _ _ _ _ _ Hacc) as (_ & Hw & Hm & _).
  destruct (IH s1 reqs') as (s' & E' & Hrtc & Hout & Hok''); auto.
  - eapply Forall_impl; [exact Hpl|]. intros [wr' body']. apply plain_wr_static; done.
  - change (y_qp s1) with (p_qp st). by rewrite S1.
  - cbn [s1 y_out y_qp]. rewrite length_app, outs_length, Hm. simpl length. lia.
  - exists s'. cbn [push_reqs]. rewrite Hr. cbn [mbind option_bind]. unfold op_post_send. cbn [pq_qp pq_mem].
    rewrite E. cbn [mbind option_bind]. split; [exact E'|]. split; [by eapply rtc_l|]. split; [|done].
    rewrite Hout. cbn [s1 y_out y_qp]. rewrite <- app_assoc. f_equal. cbn [outs_of app]. f_equal.
    rewrite (acc_post _ _ _ _ _ Hacc), (acc_fence _ _ _ _ _ Hacc), (acc_head _ _ _ _ _ Hacc), outs_of_u32.
    rewrite (outs_of_static (y_qp s) (p_qp st)) by (by rewrite S3, S5, S6).
    cbn [length fmap list_fmap snd total_blocks foldr]. by rewrite Z.add_0_r.
Qed.
End Steps.

(** ** Requests on a reliable connection *)

Section Rc.
Context (dev : mlx5_ib_dev) (host : Z -> Z) (pa_to_va : Z -> Z) (lmr rmr : TempMR).

(** A request of a known type whose addresses do not wrap. *)
Definition req_ok (r : core_req_t) : Prop :=
  0 <= cr_length r < 2 ^ 32 /\ tm_addr lmr + cr_addr r < 2 ^ 64 /\
  cr_remote_addr r + tm_addr rmr < 2 ^ 64 /\ 0 <= cr_type r <= 4.

(** The operation of a request. *)
Definition req_op (r : core_req_t) : Z := default 0 (op_code_table (cr_type r)).

(** Its work request: the local address is an offset into the local region, the
    remote one into the region of the peer; the immediate is the identifier of
    the virtual queue. *)
Definition req_wr (r : core_req_t) : ib_send_wr :=
  let op := req_op r in
  rc_op_wr op (push_laddr pa_to_va op (cr_length r) (tm_addr lmr + cr_addr r)) (tm_rkey lmr) (cr_length r)
    (cr_remote_addr r + tm_addr rmr) (tm_rkey rmr) (cr_vid r)
    (push_flag op (cr_length r) (cr_send_flags r)).

(** The bytes of its WQE behind the control segment. *)
Definition req_body (r : core_req_t) : list Z :=
  (if rdma_op (req_wr r) then set_raddr_seg (cr_remote_addr r + tm_addr rmr) (tm_rkey rmr) else [])
  ++ payload_bytes host (req_wr r) (sg_list (req_wr r)).

Definition req_item (r : core_req_t) : ib_send_wr * list Z := (req_wr r, req_body r).

(** A reliable connection that takes such requests. *)
Definition rc_ready (q : mlx5_ib_qp) : Prop :=
  qp_type q = IB_QPT_RC /\ test (qp_flags q) MLX5_IB_QP_WC_TEST = false /\ 1 <= max_gs (qp_sq q) /\
  63 <= max_inline_data q < 2 ^ 31 /\ 2 <= wqe_cnt (qp_sq q).

Lemma op_code_cases t op : op_code_table t = Some op ->
  In op [IB_WR_RDMA_READ; IB_WR_RDMA_WRITE; IB_WR_SEND; IB_WR_SEND_WITH_IMM; IB_WR_RDMA_WRITE_WITH_IMM].
Proof. unfold op_code_table. repeat case_match; intros [= <-]; simpl; auto 10. Qed.

Lemma op_code_some t : 0 <= t <= 4 -> exists op, op_code_table t = Some op.
Proof.
  intros Ht. assert (t = 0 \/ t = 1 \/ t = 2 \/ t = 3 \/ t = 4) as [->|[->|[->|[->| ->]]]] by lia; by eexists.
Qed.

Lemma rc_wr_req r : req_ok r -> rc_wr pa_to_va lmr rmr r = Some (req_wr r).
Proof.
  intros (_ & H1 & H2 & H3). unfold rc_wr. rewrite uadd_ok by done. cbn [mbind option_bind].
  rewrite uadd_ok by done. cbn [mbind option_bind]. unfold req_wr, req_op.
  by destruct (op_code_some _ H3) as [op ->].
Qed.

(** The flags are those of an inline and of a signalled request. *)
Lemma push_flag_cases op len flags :
  push_flag op len flags =
  (if is_inline op len then IB_SEND_INLINE else 0) .| (if flags =? 0 then 0 else IB_SEND_SIGNALED).
Proof. unfold push_flag. by destruct (is_inline op len), (flags =? 0). Qed.

Lemma inline_flag op len flags :
  test (push_flag op len flags) IB_SEND_INLINE = is_inline op len /\
  test (push_flag op len flags) IB_SEND_SIG_PIPELINED = false.
Proof. rewrite push_flag_cases. by destruct (is_inline op len), (flags =? 0). Qed.

Lemma blen_inl_one sg : 0 <= sge_length sg -> blen (inl_bytes host [sg]) = sge_length sg.
Proof.
  intros. unfold inl_bytes. simpl. rewrite app_nil_r. unfold blen, host_bytes. rewrite length_bytes_at. lia.
Qed.

Lemma req_body_length r : req_ok r -> 0 <= blen (req_body r) <= 16 + 67.
Proof.
  intros (Hl & _). unfold req_body. rewrite blen_app.
  assert (Hr : 0 <= blen (if rdma_op (req_wr r)
                     then set_raddr_seg (cr_remote_addr r + tm_addr rmr) (tm_rkey rmr) else []) <= 16).
  { destruct (rdma_op (req_wr r)); unfold blen; [rewrite length_raddr|]; simpl; lia. }
  assert (Hp : 0 <= blen (payload_bytes host (req_wr r) (sg_list (req_wr r))) <= 67); [|lia].
  unfold payload_bytes. cbn [req_wr rc_op_wr send_flags num_sge sg_list].
  rewrite (proj1 (inline_flag _ _ _)). cbn [Z.eqb negb]. rewrite andb_true_r.
  rewrite (u32_small (cr_length r)) by lia. destruct (is_inline (req_op r) (cr_length r)) eqn:Ei.
  - apply andb_true_iff in Ei as [Ei%Z.ltb_lt _]. rewrite blen_app. change (blen (be32 _)) with 4.
    rewrite blen_inl_one by (simpl; lia). simpl. lia.
  - pose proof (blen_data_bytes [mksge (push_laddr pa_to_va (req_op r) (cr_length r) (tm_addr lmr + cr_addr r))
      (cr_length r) (tm_rkey lmr)]) as [_ Hd]. simpl length in Hd. lia.
Qed.

Lemma req_plain q r : req_ok r -> rc_ready q -> plain_wr dev host q (req_wr r) (req_body r).
Proof.
  intros Hr (Hty & Hwc & Hgs & Hin & Hcnt). pose proof (req_body_length r Hr) as Hlen.
  destruct Hr as (Hl & _ & _ & Ht).
  destruct (op_code_some _ Ht) as [op Hop]. pose proof (op_code_cases _ _ Hop) as Hc.
  assert (Eop : req_op r = op) by (unfold req_op; by rewrite Hop).
  pose proof (inline_flag (req_op r) (cr_length r) (cr_send_flags r)) as [Hinl Hpipe].
  exists (sg_list (req_wr r)).
  exists (if rdma_op (req_wr r) then set_raddr_seg (cr_remote_addr r + tm_addr rmr) (tm_rkey rmr) else []).
  split; [done|]. split.
  { unfold wire_op, is_op. cbn [req_wr rc_op_wr opcode]. rewrite Eop. simpl in Hc.
    destruct Hc as [<-|[<-|[<-|[<-|[<-|[]]]]]]; done. }
  split; [done|]. split; [done|]. split; [repeat constructor; simpl; rewrite u32_small; lia|]. split; [done|].
  split; [unfold transport_bytes; rewrite Hty; by destruct (rdma_op (req_wr r))|].
  split; [exact Hpipe|]. split; [done|]. split; [by rewrite Hty|]. split; [by rewrite Hty|].
  split; [|split; [unfold ring_bytes; lia|unfold wqe_ds; dlia]].
  cbn [req_wr rc_op_wr send_flags num_sge sg_list]. rewrite Hinl. intros [Hi%andb_true_iff _]%andb_true_iff.
  destruct Hi as [Hi%Z.ltb_lt _]. rewrite blen_inl_one; simpl; rewrite u32_small; lia.
Qed.

Lemma req_blocks r : req_ok r -> wqe_blocks (req_body r) <= 2.
Proof. intros Hr. pose proof (req_body_length r Hr). unfold wqe_blocks, blocks. dlia. Qed.
End Rc.

(** C19. Pushing requests to a virtual queue with a reliable connection posts
    them: when they are of known types, their addresses do not wrap and the
    send queue has room for them, the command replies ok, and the WQEs that
    become outstanding are exactly theirs, in order, behind those already
    there, as if they had been posted as one chain; each describes the bytes
    at its offset in the local region and names its offset in the peer's.  The
    queue pair gets there by accepted posts, so the queue stays consistent. *)
Theorem rc_push_posts dev host gsi mrs pa_to_va v rc lmr rmr s reqs :
  internal_error dev = false -> virtual_queue v = Some rc -> local_mr v = Some lmr ->
  rc_remote_mr rc = Some rmr -> rc_pq rc = mkpq (y_qp s) (y_mem s) ->
  sys_ok 2 s -> rc_ready (y_qp s) -> Forall (req_ok lmr rmr) reqs ->
  Z.of_nat (length (y_out s)) + Z.of_nat (length reqs) <= max_post (qp_sq (y_qp s)) ->
  exists s', rc_push_impl dev host gsi mrs pa_to_va v reqs
             = Some (REPLY_OK, vq_set_rc v (Some (mkrc (mkpq (y_qp s') (y_mem s')) (Some rmr)))) /\
    rtc (step dev host gsi mrs 2) s s' /\ sys_ok 2 s' /\
    y_out s' = y_out s ++ outs_of (y_qp s) (cur_post (qp_sq (y_qp s))) (next_fence (y_qp s))
                            (head (qp_sq (y_qp s))) (req_item host pa_to_va lmr rmr <$> reqs).
Proof.
  intros Hie Hv Hl Hr Hp Hok Hrdy Hreqs Hcap.
  destruct (push_reqs_steps dev host gsi mrs 2 Hie (rc_wr pa_to_va lmr rmr)
    (req_item host pa_to_va lmr rmr <$> reqs) s reqs) as (s' & E & Hrtc & Hout & Hok'); auto.
  - apply Forall2_fmap_r, Forall_Forall2_diag. eapply Forall_impl; [exact Hreqs|].
    intros r Hreq. by apply rc_wr_req.
  - apply Forall_fmap. eapply Forall_impl; [exact Hreqs|]. intros r Hreq. by apply req_plain.
  - apply Forall_fmap. eapply Forall_impl; [exact Hreqs|]. intros r Hreq. by apply req_blocks.
  - by rewrite (proj1 Hrdy).
  - by rewrite length_fmap.
  - exists s'. unfold rc_push_impl. rewrite Hv, Hl. cbn [mbind option_bind]. rewrite Hr, Hp.
    cbn [mbind option_bind]. rewrite E. done.
Qed.

(** ** Batches *)

Section Batches.
Context (dev : mlx5_ib_dev) (host : Z -> Z) (gsi : mlx5_ib_qp -> list ib_send_wr -> Z * option nat).
Context (mrs : Z -> mlx5_ib_mr) (pa_to_va : Z -> Z).

Lemma push_reqs_app mk a b p :
  push_reqs dev host gsi mrs mk (a ++ b) p =
  ('(st, p) ← push_reqs dev host gsi mrs mk a p;
   if st =? REPLY_ERR then Some (st, p) else push_reqs dev host gsi mrs mk b p).
Proof.
  revert p. induction a as [|r a IH]; intros p; [done|]. cbn [push_reqs app].
  destruct (mk r) as [wr|]; [|done]. cbn [mbind option_bind].
  destruct (op_post_send dev host gsi mrs p wr) as [[e p']|]; [|done]. cbn [mbind option_bind].
  destruct (negb (e =? 0)); [done|apply IH].
Qed.

Lemma push_reqs_status mk reqs p st p' :
  push_reqs dev host gsi mrs mk reqs p = Some (st, p') -> st = REPLY_OK \/ st = REPLY_ERR.
Proof.
  revert p. induction reqs as [|r a IH]; intros p; cbn [push_reqs]; [intros [= <- _]; by left|].
  destruct (mk r) as [wr|]; [|done]. cbn [mbind option_bind].
  destruct (op_post_send dev host gsi mrs p wr) as [[e p1]|]; [|done]. cbn [mbind option_bind].
  destruct (negb (e =? 0)); [intros [= <- _]; by right|apply IH].
Qed.

Lemma rc_push_app v a b :
  rc_push_impl dev host gsi mrs pa_to_va v (a ++ b) =
  ('(st, v) ← rc_push_impl dev host gsi mrs pa_to_va v a;
   if (st =? REPLY_ERR) || (st =? REPLY_NIL) then Some (st, v)
   else rc_push_impl dev host gsi mrs pa_to_va v b).
Proof.
  unfold rc_push_impl. destruct (virtual_queue v) as [rc|]; [|done].
  destruct (local_mr v) as [lmr|] eqn:El; [|done]. cbn [mbind option_bind].
  destruct (rc_remote_mr rc) as [rmr|] eqn:Er; [|done]. cbn [mbind option_bind].
  rewrite push_reqs_app.
  destruct (push_reqs dev host gsi mrs (rc_wr pa_to_va lmr rmr) a (rc_pq rc)) as [[st p]|] eqn:E; [|done].
  cbn [mbind option_bind]. destruct (push_reqs_status _ _ _ _ _ E) as [-> | ->]; [|done].
  cbn [Z.eqb REPLY_OK REPLY_ERR REPLY_NIL Pos.eqb orb vq_set_rc virtual_queue local_mr rc_remote_mr rc_pq].
  rewrite El. cbn [mbind option_bind].
  by destruct (push_reqs dev host gsi mrs (rc_wr pa_to_va lmr rmr) b p) as [[]|].
Qed.

(** A connected queue stays connected, and pushing nothing changes nothing. *)
Lemma rc_push_connected v reqs st v' :
  virtual_queue v <> None -> rc_push_impl dev host gsi mrs pa_to_va v reqs = Some (st, v') ->
  virtual_queue v' <> None /\ bind_port v' = bind_port v /\ (st = REPLY_OK \/ st = REPLY_ERR) /\
  rc_push_impl dev host gsi mrs pa_to_va v' [] = Some (REPLY_OK, v').
Proof.
  unfold rc_push_impl at 1. destruct (virtual_queue v) as [rc|]; [|done]. intros _.
  destruct (local_mr v) as [lmr|] eqn:El; [|done]. cbn [mbind option_bind].
  destruct (rc_remote_mr rc) as [rmr|]; [|done]. cbn [mbind option_bind].
  destruct (push_reqs _ _ _ _ _ reqs (rc_pq rc)) as [[st0 p]|] eqn:E; [|done]. cbn [mbind option_bind].
  intros [= <- <-]. split; [done|]. split; [done|]. split; [by eapply push_reqs_status|].
  unfold rc_push_impl. cbn [vq_set_rc virtual_queue local_mr rc_remote_mr rc_pq]. rewrite El. done.
Qed.

Context {T Q : Type} `{RecvTarget T} `{CqSource Q} (endpoint_at : Z -> option EndPoint) (patience : nat).
Notation batches := (push_batches dev host gsi mrs pa_to_va endpoint_at patience).
Notation rc_push := (rc_push_impl dev host gsi mrs pa_to_va).

Lemma push_batches_rc fuel : forall ret v c pop reqs,
  bind_port v = None -> virtual_queue v <> None -> reqs <> [] -> (length reqs <= fuel)%nat ->
  batches fuel ret v c pop reqs = ('(st, v) ← unwrap (rc_push v reqs); Ret (st, v, c)).
Proof.
  induction fuel as [|fuel IH]; intros ret v c pop reqs Hb Hv Hne Hf; [by destruct reqs; simpl in Hf; [|lia]|].
  destruct reqs as [|r reqs]; [done|]. cbn [push_batches]. set (l := r :: reqs) in *.
  assert (Hif : push_batch dev host gsi mrs pa_to_va endpoint_at patience v c pop (take DEFAULT_BATCH_SZ l)
                = ('(st, v) ← unwrap (rc_push v (take DEFAULT_BATCH_SZ l)); Ret (st, v, c)))
    by (unfold push_batch; rewrite Hb; by destruct (virtual_queue v)).
  rewrite Hif. pose proof (rc_push_app v (take DEFAULT_BATCH_SZ l) (drop DEFAULT_BATCH_SZ l)) as Ha.
  rewrite take_drop in Ha. rewrite Ha.
  destruct (rc_push v (take DEFAULT_BATCH_SZ l)) as [[st v']|] eqn:E; [|done].
  cbn [mbind option_bind outcome_bind unwrap]. destruct (rc_push_connected _ _ _ _ Hv E) as (Hv' & Hb' & Hst & Hnil).
  destruct Hst as [-> | ->]; [|done]. cbn [Z.eqb REPLY_OK REPLY_ERR REPLY_NIL Pos.eqb orb].
  destruct (drop DEFAULT_BATCH_SZ l) as [|x r'] eqn:Ed.
  - rewrite Hnil. by destruct fuel.
  - apply IH; [congruence|done|done|]. rewrite <- Ed, length_drop. unfold l, DEFAULT_BATCH_SZ in *. simpl length in *. lia.
Qed.

Lemma vq_push_ok v c cl reqs n pop :
  bind_port v = None -> virtual_queue v <> None -> reqs <> [] ->
  vq_push dev host gsi mrs pa_to_va endpoint_at patience v c cl reqs n pop =
  ('(_, cl) ← (if 0 <? n then client_recvs v cl n else Ret (REPLY_OK, cl));
   '(st, v) ← unwrap (rc_push v reqs);
   if pop && (st =? REPLY_OK) then cl ← client_pop patience v cl; Ret (st, v, c, cl) else Ret (st, v, c, cl)).
Proof.
  intros Hb Hv Hne. unfold vq_push. assert (Hm : is_bind_mode v = false) by (unfold is_bind_mode; by rewrite Hb).
  rewrite Hm. cbn [negb andb].
  destruct (if 0 <? n then client_recvs v cl n else Ret (REPLY_OK, cl)) as [[ret cl1]| |]; [|done..].
  cbn [mbind outcome_bind]. rewrite push_batches_rc by done.
  destruct (rc_push v reqs) as [[st v']|] eqn:E; [|done]. cbn [mbind outcome_bind unwrap].
  destruct (rc_push_connected _ _ _ _ Hv E) as (_ & Hb' & _). unfold is_bind_mode. rewrite Hb', Hb. done.
Qed.
End Batches.

(** C36. The Push command sends its requests in batches of 64, and that does not
    show: on a queue that is connected by RC and not bound to a port, and with at
    least one request, the command posts the receive buffers asked for, pushes all
    requests as one batch, whatever their number and also when one of them is
    refused, and then, if asked to and if the push went well, waits for one
    completion; the control block of a bound port is not touched.  The reply is
    that of the pushes: a failure to post the receive buffers is forgotten. *)
Theorem vq_push_flat {T Q} `{RecvTarget T} `{CqSource Q} dev host gsi mrs pa_to_va endpoint_at patience
    v (c : RCtrl (T := T) (Q := Q)) cl reqs n pop :
  bind_port v = None -> virtual_queue v <> None -> reqs <> [] ->
  vq_push dev host gsi mrs pa_to_va endpoint_at patience v c cl reqs n pop =
  ('(_, cl) ← (if 0 <? n then client_recvs v cl n else Ret (REPLY_OK, cl));
   '(st, v) ← unwrap (rc_push_impl dev host gsi mrs pa_to_va v reqs);
   if pop && (st =? REPLY_OK) then cl ← client_pop patience v cl; Ret (st, v, c, cl) else Ret (st, v, c, cl)).
Proof. apply vq_push_ok. Qed.

(** A virtual queue on the idle queue pair of QpSystem, and two requests: a
    signalled inline write and a send. *)
Definition ex_vq : VQ :=
  mkvq (Some (mkrc (mkpq (y_qp idle) (y_mem idle)) (Some (mktmr 65536 4096 9)))) None None
    (Some (mktmr 4096 4096 7)) None ∅ None (Some 1).
Definition ex_reqs : list core_req_t :=
  [mkcreq 64 40 0 128 0 1 5 1; mkcreq 0 0 0 0 0 0 5 2].

Lemma idle_rc_ready : rc_ready (y_qp idle).
Proof. split; [done|]. vm_compute. repeat split; done. Qed.

Lemma rc_push_posts_witness :
  exists s', rc_push_impl ex_dev ex_host no_gsi (fun _ => ex_mr) (fun a => a) ex_vq ex_reqs
             = Some (REPLY_OK, vq_set_rc ex_vq (Some (mkrc (mkpq (y_qp s') (y_mem s')) (Some (mktmr 65536 4096 9))))) /\
    rtc (step ex_dev ex_host no_gsi (fun _ => ex_mr) 2) idle s' /\ sys_ok 2 s' /\
    y_out s' = y_out idle ++ outs_of (y_qp idle) (cur_post (qp_sq (y_qp idle))) (next_fence (y_qp idle))
                 (head (qp_sq (y_qp idle)))
                 (req_item ex_host (fun a => a) (mktmr 4096 4096 7) (mktmr 65536 4096 9) <$> ex_reqs).
Proof.
  apply (rc_push_posts ex_dev ex_host no_gsi (fun _ => ex_mr) (fun a => a) ex_vq
    (mkrc (mkpq (y_qp idle) (y_mem idle)) (Some (mktmr 65536 4096 9))));
    try exact idle_ok; try exact idle_rc_ready; try done.
  repeat constructor; vm_compute; done.
Defined.

(** ** Popping messages *)

Section Pops.
Context {T : Type} `{CqSource T}.

(** What successive polls deliver. *)
Fixpoint polls (cq : T) (bs : list (list ib_wc)) (cq' : T) : Prop :=
  match bs with
  | [] => cq' = cq
  | b :: r => exists cq1, poll_from cq (Z.to_nat POP_CNT) = Some (b, cq1) /\ polls cq1 r cq'
  end.

Definition msg_copy (payload_sz : Z) (w : ib_wc) : Z * Z * Z :=
  (wc_wr_id w + payload_sz, wc_wr_id w, payload_sz).

Lemma handle_pop_ret_ok wcs l payload_sz :
  take (length l) wcs = l -> Forall (fun w => wc_wr_id w + payload_sz < 2 ^ 64) l ->
  handle_pop_ret wcs (length l) payload_sz = Some (user_wc <$> l, msg_copy payload_sz <$> l).
Proof.
  intros Hl Hf. unfold handle_pop_ret.
  assert ((length l <=? length wcs)%nat = true) as ->.
  { apply Nat.leb_le. apply (f_equal length) in Hl. rewrite length_take in Hl. lia. }
  rewrite Hl. assert (mapM (fun w => d ← uadd (wc_wr_id w) payload_sz; Some (d, wc_wr_id w, payload_sz)) l
    = Some (msg_copy payload_sz <$> l)) as ->; [|done].
  clear Hl. induction Hf as [|w l Hw _ IH]; [done|]. cbn [mapM fmap list_fmap].
  rewrite uadd_ok by done. cbn [mbind option_bind]. by rewrite IH.
Qed.

(** One poll that fits stores its completions behind the [act] already there. *)
Lemma pop_recvs_fits h cq act b cq1 l :
  poll_from cq (Z.to_nat POP_CNT) = Some (b, cq1) -> take act (rh_wcs h) = l -> length l = act ->
  (0 < length (rh_wcs h))%nat -> (act + length b <= length (rh_wcs h))%nat ->
  exists h', pop_recvs h cq POP_CNT (Z.of_nat act) = Some (length b, h', cq1) /\
    length (rh_wcs h') = length (rh_wcs h) /\ take (act + length b) (rh_wcs h') = l ++ b.
Proof.
  intros Hp Hl Ha Hn Hfit. unfold pop_recvs. rewrite urem_ok by lia. cbn [mbind option_bind].
  change (Z.to_nat (s32 POP_CNT)) with (Z.to_nat POP_CNT). rewrite Hp. cbn [mbind option_bind].
  destruct (decide (act = length (rh_wcs h))) as [E|E].
  - destruct b as [|x b]; [|simpl in Hfit; lia]. rewrite E, Z.mod_same by lia. simpl.
    eexists. split; [done|]. split; [done|]. simpl. rewrite Nat.add_0_r, app_nil_r, <- E. done.
  - rewrite Z.mod_small, Nat2Z.id by lia. rewrite (proj2 (Nat.leb_le _ _)) by lia.
    eexists. split; [done|]. cbn [with_wcs rh_wcs]. split.
    + rewrite !length_app, length_take, length_drop. lia.
    + rewrite Hl, app_assoc, take_app_length'; [done|]. rewrite length_app. lia.
Qed.

Lemma join_cons {A} (b : list A) bs : mjoin (b :: bs) = b ++ mjoin bs.
Proof. done. Qed.

Lemma pop_msgs_ok payload_sz least b cq' bs : forall fuel retry act h cq l,
  polls cq (bs ++ [b]) cq' -> take act (rh_wcs h) = l -> length l = act ->
  (0 < length (rh_wcs h))%nat ->
  (act + length (mjoin (bs ++ [b])) <= length (rh_wcs h))%nat ->
  (bs = [] \/ Z.of_nat (act + length (mjoin bs)) < least) ->
  retry + Z.of_nat (length bs) <= POP_RETRIES + 1 ->
  (least <= Z.of_nat (act + length (mjoin (bs ++ [b]))) \/ retry + Z.of_nat (length bs) = POP_RETRIES + 1) ->
  Forall (fun w => wc_wr_id w + payload_sz < 2 ^ 64) (l ++ mjoin (bs ++ [b])) ->
  (length bs < fuel)%nat ->
  exists h', pop_msgs fuel retry act least payload_sz h cq
    = Some (REPLY_OK, user_wc <$> (l ++ mjoin (bs ++ [b])), msg_copy payload_sz <$> (l ++ mjoin (bs ++ [b])), h', cq').
Proof.
  induction bs as [|b0 bs IH]; intros fuel retry act h cq l Hp Hl Ha Hn Hfit Hless Hret Hend Hf Hfu;
    (destruct fuel as [|fuel]; [simpl in Hfu; lia|]); cbn [pop_msgs].
  - destruct Hp as (cq1 & Hp & ->). rewrite app_nil_l, join_cons, app_nil_r in *.
    destruct (pop_recvs_fits h cq act b cq1 l) as (h' & -> & Hlen & Ht); auto. cbn [mbind option_bind].
    assert ((least <=? Z.of_nat (act + length b)) || (POP_RETRIES <? retry) = true) as ->.
    { apply orb_true_iff. rewrite Z.leb_le, Z.ltb_lt. simpl length in Hend. lia. }
    exists h'. rewrite <- Ha, <- length_app in Ht |- *.
    rewrite (handle_pop_ret_ok _ _ _ Ht Hf). done.
  - destruct Hp as (cq1 & Hp & Hps). rewrite <- ?app_comm_cons, ?join_cons, ?length_app in *.
    destruct Hless as [?|Hless]; [done|].
    destruct (pop_recvs_fits h cq act b0 cq1 l) as (h' & -> & Hlen & Ht); auto; [lia|]. cbn [mbind option_bind].
    assert ((least <=? Z.of_nat (act + length b0)) || (POP_RETRIES <? retry) = false) as ->.
    { apply orb_false_iff. rewrite Z.leb_gt, Z.ltb_ge. simpl length in Hret. lia. }
    cbn [length] in Hret, Hend, Hfu. rewrite app_assoc.
    apply IH; [done|done|rewrite length_app; lia|rewrite Hlen; lia|rewrite Hlen; lia|right; lia|lia| | |lia].
    + destruct Hend as [Hend|Hend]; [left|right]; lia.
    + by rewrite <- app_assoc.
Qed.
End Pops.

(** C27. A pop of messages on a connected queue polls until it has as many as
    asked for or has tried 50002 times, and returns what the polls delivered:
    the completions in their order, each once, and the payload of each copied
    behind itself, provided that the array of the receive helper has room for
    all of them. *)
Theorem pop_msgs_collects {T} `{CqSource T} v h (cq cq' : T) least payload_sz bs b :
  bind_port v = None -> local_connect_port v <> None -> polls cq (bs ++ [b]) cq' ->
  bs = [] \/ Z.of_nat (length (mjoin bs)) < least ->
  Z.of_nat (length bs) <= POP_RETRIES + 1 ->
  least <= Z.of_nat (length (mjoin (bs ++ [b]))) \/ Z.of_nat (length bs) = POP_RETRIES + 1 ->
  (0 < length (rh_wcs h))%nat -> (length (mjoin (bs ++ [b])) <= length (rh_wcs h))%nat ->
  Forall (fun w => wc_wr_id w + payload_sz < 2 ^ 64) (mjoin (bs ++ [b])) ->
  exists h', pop_msg_impl v least payload_sz h cq
    = Some (REPLY_OK, user_wc <$> mjoin (bs ++ [b]), msg_copy payload_sz <$> mjoin (bs ++ [b]), h', cq').
Proof.
  intros Hb Hc Hp Hless Hret Hend Hn Hfit Hf. unfold pop_msg_impl. rewrite Hb.
  destruct (local_connect_port v); [|done].
  apply (pop_msgs_ok payload_sz least b cq' bs _ 0 0 h cq []); auto; unfold POP_RETRIES in *; lia.
Qed.

(** The array of completions is no larger than the ring of receive
    buffers, while every poll asks for up to 2048 completions: as soon as more
    are waiting than the ring has buffers, the poll stores past the end of the
    array, on bound and on connected queues. *)
Theorem pop_msgs_overruns {T} `{CqSource T} v h (cq cq1 : T) least payload_sz b :
  bind_port v <> None \/ local_connect_port v <> None ->
  poll_from cq (Z.to_nat POP_CNT) = Some (b, cq1) -> (length (rh_wcs h) < length b)%nat ->
  pop_msg_impl v least payload_sz h cq = None.
Proof.
  intros Hv Hp Hb. assert (Hnone : pop_recvs h cq POP_CNT 0 = None).
  { unfold pop_recvs, urem. case_match; [done|]. cbn [mbind option_bind].
    change (Z.to_nat (s32 POP_CNT)) with (Z.to_nat POP_CNT). rewrite Hp. cbn [mbind option_bind].
    rewrite Z.mod_0_l by (apply Z.eqb_neq; done). by rewrite (proj2 (Nat.leb_gt _ _)) by (simpl; lia). }
  unfold pop_msg_impl. destruct (bind_port v); [by rewrite Hnone|].
  destruct (local_connect_port v); [|naive_solver].
  change (Z.to_nat (POP_RETRIES + 2)) with (S (Z.to_nat (POP_RETRIES + 1))).
  cbn [pop_msgs]. change (Z.of_nat 0) with 0. by rewrite Hnone.
Qed.

(** Completions that arrive in batches. *)
#[local] Instance batch_source : CqSource (list (list ib_wc)) := fun bs n =>
  Some (match bs with [] => ([], []) | b :: r => (take n b, r) end).

(** A receive queue that takes everything. *)
#[local] Instance unit_target : RecvTarget unit := fun t _ => Some (0, None, t).
Definition ex_ctrl : RCtrl (T := unit) (Q := list (list ib_wc)) := mkrctrl 0 ∅ None None.
Definition ex_client : client (T := unit) (Q := list (list ib_wc)) :=
  mkclient (Some ex_helper) tt [[]; [zero_wc]] tt [].

Lemma vq_push_flat_witness :
  exists v cl, vq_push ex_dev ex_host no_gsi (fun _ => ex_mr) (fun a => a) (fun _ => None) 5 ex_vq ex_ctrl ex_client ex_reqs 1 true
    = Ret (REPLY_OK, v, ex_ctrl, cl) /\ cl_rc_cq cl = [].
Proof.
  rewrite (vq_push_flat ex_dev ex_host no_gsi (fun _ => ex_mr) (fun a => a) (fun _ => None) 5 ex_vq ex_ctrl ex_client ex_reqs 1 true)
    by done.
  eexists _, _. split; vm_compute; reflexivity.
Defined.

Definition ex_msg (id : Z) : ib_wc := wc_set_id zero_wc id.

Definition ex_batches : list (list ib_wc) := [[]; [ex_msg 4096]].

Lemma pop_msgs_collects_witness :
  exists h', pop_msg_impl ex_vq 2 64 ex_helper (ex_batches ++ [[ex_msg 8192]])
    = Some (REPLY_OK, user_wc <$> mjoin (ex_batches ++ [[ex_msg 8192]]),
            msg_copy 64 <$> mjoin (ex_batches ++ [[ex_msg 8192]]), h', []).
Proof.
  apply (pop_msgs_collects ex_vq ex_helper (ex_batches ++ [[ex_msg 8192]]) [] 2 64 ex_batches [ex_msg 8192]).
  - reflexivity.
  - discriminate.
  - exists [[ex_msg 4096]; [ex_msg 8192]]. split; [reflexivity|].
    exists [[ex_msg 8192]]. split; [reflexivity|]. exists []. split; reflexivity.
  - right. reflexivity.
  - vm_compute. discriminate.
  - left. vm_compute. discriminate.
  - vm_compute; lia.
  - vm_compute; lia.
  - repeat constructor; vm_compute; done.
Defined.

Lemma pop_msgs_overruns_witness :
  pop_msg_impl ex_vq 1 0 ex_helper [[ex_msg 1; ex_msg 2; ex_msg 3]] = None.
Proof.
  apply (pop_msgs_overruns ex_vq ex_helper [[ex_msg 1; ex_msg 2; ex_msg 3]] [] 1 0 [ex_msg 1; ex_msg 2; ex_msg 3]);
    [by right|reflexivity|vm_compute; lia].
Defined.
