(* ===== verification/CmdMsg.v ===== *)
(** * CmdMsg: messages of the command interface (mlx5/core/cmd.c)

    A command's input and output are messages: 16 bytes in the descriptor and
    the rest in a chain of mailboxes, DMA blocks of 512 bytes of data with a
    trailer that links, numbers and signs them.  The DMA pool is outside the
    source: [pick] says which address it hands out, never one in use.  Theorems:
    allocation is all or nothing, what was copied into a message is what the
    device finds by following the links, and signed blocks verify. *)

From S2P Require Import Prelude ErrState KHeap FragAlloc DbAlloc DrvState.

Open Scope es_scope.

Definition MLX5_CMD_DATA_BLOCK_SIZE : Z := 512.

(** struct mlx5_cmd_prot_block; [next], [block_num] are held as numbers and
    stored big-endian. *)
Record mlx5_cmd_prot_block := mkblock {
  pb_data : list Z; pb_rsvd0 : list Z; pb_next : Z; pb_block_num : Z;
  pb_rsvd1 : Z; pb_token : Z; pb_ctrl_sig : Z; pb_sig : Z }.

Definition block_bytes (b : mlx5_cmd_prot_block) : list Z :=
  pb_data b ++ pb_rsvd0 b ++ be64 (pb_next b) ++ be32 (pb_block_num b) ++
  [pb_rsvd1 b; pb_token b; pb_ctrl_sig b; pb_sig b].

Definition zero_block : mlx5_cmd_prot_block := mkblock (zeros 512) (zeros 48) 0 0 0 0 0 0.

Definition set_data (d : list Z) (b : mlx5_cmd_prot_block) : mlx5_cmd_prot_block :=
  mkblock d (pb_rsvd0 b) (pb_next b) (pb_block_num b) (pb_rsvd1 b) (pb_token b) (pb_ctrl_sig b) (pb_sig b).
Definition set_token (t : Z) (b : mlx5_cmd_prot_block) : mlx5_cmd_prot_block :=
  mkblock (pb_data b) (pb_rsvd0 b) (pb_next b) (pb_block_num b) (pb_rsvd1 b) t (pb_ctrl_sig b) (pb_sig b).
Definition set_link (next num t : Z) (b : mlx5_cmd_prot_block) : mlx5_cmd_prot_block :=
  mkblock (pb_data b) (pb_rsvd0 b) next num (pb_rsvd1 b) t (pb_ctrl_sig b) (pb_sig b).
Definition set_sigs (c s : Z) (b : mlx5_cmd_prot_block) : mlx5_cmd_prot_block :=
  mkblock (pb_data b) (pb_rsvd0 b) (pb_next b) (pb_block_num b) (pb_rsvd1 b) (pb_token b) c s.

(** struct mlx5_cmd_layout, the descriptor of a command *)
Record mlx5_cmd_layout := mklay {
  lay_type : Z; lay_rsvd0 : list Z; lay_inlen : Z; lay_in_ptr : Z; lay_in : list Z;
  lay_out : list Z; lay_out_ptr : Z; lay_outlen : Z; lay_token : Z; lay_sig : Z;
  lay_rsvd1 : Z; lay_status_own : Z }.

Definition layout_bytes (l : mlx5_cmd_layout) : list Z :=
  [lay_type l] ++ lay_rsvd0 l ++ be32 (lay_inlen l) ++ be64 (lay_in_ptr l) ++ lay_in l ++
  lay_out l ++ be64 (lay_out_ptr l) ++ be32 (lay_outlen l) ++
  [lay_token l; lay_sig l; lay_rsvd1 l; lay_status_own l].

(** ** Signatures *)

Definition xor8_buf (buf : list Z) (offset len : nat) : Z := fold_left Z.lxor (take len (drop offset buf)) 0.
Definition inv8 (x : Z) : Z := u8 (Z.lnot x).

Definition verify_block_sig (b : mlx5_cmd_prot_block) : Z :=
  if negb (xor8_buf (block_bytes b) 512 63 =? 255) then - EINVAL
  else if negb (xor8_buf (block_bytes b) 0 576 =? 255) then - EINVAL else 0.

Definition calc_block_sig (b : mlx5_cmd_prot_block) : mlx5_cmd_prot_block :=
  let b := set_sigs (inv8 (xor8_buf (block_bytes b) 512 62)) (pb_sig b) b in
  set_sigs (pb_ctrl_sig b) (inv8 (xor8_buf (block_bytes b) 0 575)) b.

Definition set_lay_sig (s : Z) (l : mlx5_cmd_layout) : mlx5_cmd_layout :=
  mklay (lay_type l) (lay_rsvd0 l) (lay_inlen l) (lay_in_ptr l) (lay_in l) (lay_out l)
        (lay_out_ptr l) (lay_outlen l) (lay_token l) s (lay_rsvd1 l) (lay_status_own l).
Definition sign_layout (l : mlx5_cmd_layout) : mlx5_cmd_layout :=
  set_lay_sig (inv8 (xor8_buf (layout_bytes l) 0 64)) l.

(** ** The DMA pool *)

Record pool := mkpool { pl_next : nat; pl_blk : gmap Z mlx5_cmd_prot_block }.

Class DmaPool := {
  pick : nat -> gset Z -> option Z;
  pick_fresh n D a : pick n D = Some a -> a ∉ D /\ 0 < a < 2 ^ 64;
}.

Section Msg.
Context `{DmaPool} (o : oracle).

Definition dma_pool_zalloc : es pool (option Z) := fun p =>
  match pick (pl_next p) (dom (pl_blk p)) with
  | Some a => Some (inr (Some a), mkpool (S (pl_next p)) (<[a := zero_block]> (pl_blk p)))
  | None => Some (inr None, mkpool (S (pl_next p)) (pl_blk p))
  end.
Definition dma_pool_free (a : Z) : es pool unit := fun p =>
  _ ← pl_blk p !! a; Some (inr tt, mkpool (pl_next p) (delete a (pl_blk p))).
Definition on_block (a : Z) (f : mlx5_cmd_prot_block -> mlx5_cmd_prot_block) : es pool unit := fun p =>
  b ← pl_blk p !! a; Some (inr tt, mkpool (pl_next p) (<[a := f b]> (pl_blk p))).
Definition block_at (a : Z) : es pool mlx5_cmd_prot_block := fun p =>
  b ← pl_blk p !! a; Some (inr b, p).

(** struct mlx5_cmd_mailbox without its link: a chain is a list of them. *)
Record mlx5_cmd_mailbox := mkbox { box_obj : nat; box_dma : Z }.

(** struct mlx5_cmd_msg; [msg_parent] is the index of its cache. *)
Record mlx5_cmd_msg := mkmsg {
  msg_obj : nat; msg_parent : option nat; msg_len : Z; msg_first : list Z;
  msg_next : list mlx5_cmd_mailbox }.

Definition sizeof_mailbox : Z := 24.
Definition sizeof_msg : Z := 56.

Definition set_first (f : list Z) (m : mlx5_cmd_msg) : mlx5_cmd_msg :=
  mkmsg (msg_obj m) (msg_parent m) (msg_len m) f (msg_next m).
Definition set_len (n : Z) (m : mlx5_cmd_msg) : mlx5_cmd_msg :=
  mkmsg (msg_obj m) (msg_parent m) n (msg_first m) (msg_next m).
Definition set_parent (c : option nat) (m : mlx5_cmd_msg) : mlx5_cmd_msg :=
  mkmsg (msg_obj m) c (msg_len m) (msg_first m) (msg_next m).

Definition cmd_blocks (size : Z) : Z := DIV_ROUND_UP (size - Z.min 16 size) MLX5_CMD_DATA_BLOCK_SIZE.
Definition mlx5_calc_cmd_blocks (m : mlx5_cmd_msg) : Z := cmd_blocks (msg_len m).

Definition chain_dma (c : list mlx5_cmd_mailbox) : Z := match c with [] => 0 | b :: _ => box_dma b end.

Definition alloc_cmd_box : es (drv pool) mlx5_cmd_mailbox :=
  do! b := d_kzalloc o sizeof_mailbox in
  do! a := on_rest dma_pool_zalloc in
  match a with
  | Some a => es_ret (mkbox b a)
  | None => d_kfree b;; es_fail (- ENOMEM)
  end.

Definition free_cmd_box (b : mlx5_cmd_mailbox) : es (drv pool) unit :=
  on_rest (dma_pool_free (box_dma b));; d_kfree (box_obj b).

Fixpoint free_boxes (head : list mlx5_cmd_mailbox) : es (drv pool) unit :=
  match head with
  | [] => es_ret tt
  | b :: next => free_cmd_box b;; free_boxes next
  end.

(** The loop of mlx5_alloc_cmd_msg with [k] blocks to go: the chain is built
    from its end, so block [n - i - 1] is put in front. *)
Fixpoint alloc_blocks (token : Z) (k : nat) (head : list mlx5_cmd_mailbox)
  : es (drv pool) (list mlx5_cmd_mailbox) :=
  match k with
  | O => es_ret head
  | S k' =>
      do! tmp := es_cleanup alloc_cmd_box (free_boxes head) in
      on_rest (on_block (box_dma tmp) (set_link (chain_dma head) (Z.of_nat k') token));;
      alloc_blocks token k' (tmp :: head)
  end.

Definition mlx5_alloc_cmd_msg (size token : Z) : es (drv pool) mlx5_cmd_msg :=
  do! m := d_kzalloc o sizeof_msg in
  do! head := es_cleanup (alloc_blocks token (Z.to_nat (cmd_blocks size)) []) (d_kfree m) in
  es_ret (mkmsg m None size (zeros 16) head).

Definition mlx5_free_cmd_msg (m : mlx5_cmd_msg) : es (drv pool) unit :=
  free_boxes (msg_next m);; d_kfree (msg_obj m).

(** [memcpy(to, from, len)] *)
Definition memcpy (to from : list Z) (len : nat) : list Z := take len from ++ drop len to.

Fixpoint copy_to_chain (next : list mlx5_cmd_mailbox) (from : list Z) (token : Z) : es pool unit :=
  if (length from =? 0)%nat then es_ret tt
  else match next with
  | [] => es_fail (- ENOMEM)
  | b :: next =>
      let copy := Nat.min (length from) 512 in
      on_block (box_dma b) (fun blk => set_token token (set_data (memcpy (pb_data blk) from copy) blk));;
      copy_to_chain next (drop copy from) token
  end.

Definition mlx5_copy_to_msg (to : mlx5_cmd_msg) (from : list Z) (token : Z) : es pool mlx5_cmd_msg :=
  let copy := Nat.min (length from) 16 in
  let to := set_first (memcpy (msg_first to) from copy) to in
  copy_to_chain (msg_next to) (drop copy from) token;;
  es_ret to.

Fixpoint copy_from_chain (next : list mlx5_cmd_mailbox) (size : nat) : es pool (list Z) :=
  if (size =? 0)%nat then es_ret []
  else match next with
  | [] => es_fail (- ENOMEM)
  | b :: next =>
      let copy := Nat.min size 512 in
      do! blk := block_at (box_dma b) in
      do! r := copy_from_chain next (size - copy) in
      es_ret (take copy (pb_data blk) ++ r)
  end.

Definition mlx5_copy_from_msg (from : mlx5_cmd_msg) (size : nat) : es pool (list Z) :=
  let copy := Nat.min size 16 in
  do! r := copy_from_chain (msg_next from) (size - copy) in
  es_ret (take copy (msg_first from) ++ r).

Fixpoint sign_chain (n : nat) (next : list mlx5_cmd_mailbox) : es pool unit :=
  match n, next with
  | S n, b :: next => on_block (box_dma b) calc_block_sig;; sign_chain n next
  | _, _ => es_ret tt
  end.
Definition calc_chain_sig (m : mlx5_cmd_msg) : es pool unit :=
  sign_chain (Z.to_nat (mlx5_calc_cmd_blocks m)) (msg_next m).

Fixpoint verify_chain (n : nat) (next : list mlx5_cmd_mailbox) : es pool Z :=
  match n, next with
  | S n, b :: next =>
      do! blk := block_at (box_dma b) in
      let err := verify_block_sig blk in
      if negb (err =? 0) then es_ret err else verify_chain n next
  | _, _ => es_ret 0
  end.

(** verify_signature on the descriptor and the output message *)
Definition verify_signature (lay : mlx5_cmd_layout) (out : mlx5_cmd_msg) : es pool Z :=
  if negb (xor8_buf (layout_bytes lay) 0 64 =? 255) then es_ret (- EINVAL)
  else verify_chain (Z.to_nat (mlx5_calc_cmd_blocks out)) (msg_next out).
End Msg.

(** ** Signatures verify *)

Lemma inv8_xor x : byte_ok x -> Z.lxor x (inv8 x) = 255.
Proof.
  intros Hx. unfold byte_ok in Hx.
  assert (E : forallb (fun x => Z.lxor x (inv8 x) =? 255) (seqZ 0 256) = true) by (vm_compute; reflexivity).
  rewrite forallb_forall in E. apply Z.eqb_eq, E. apply list_elem_of_In, elem_of_seqZ. lia.
Qed.

Lemma lxor_byte x y : byte_ok x -> byte_ok y -> byte_ok (Z.lxor x y).
Proof.
  unfold byte_ok. intros Hx Hy. split; [apply Z.lxor_nonneg; lia|].
  destruct (Z.eq_dec (Z.lxor x y) 0) as [->|Hn]; [lia|].
  assert (0 < Z.lxor x y) by (pose proof (proj2 (Z.lxor_nonneg x y)); lia).
  apply Z.log2_lt_pow2 with (b := 8); [lia|]. eapply Z.le_lt_trans; [apply Z.log2_lxor; lia|].
  assert (forall z, 0 <= z < 256 -> Z.log2 z < 8).
  { intros z Hz. destruct (Z.eq_dec z 0) as [->|]; [done|]. apply Z.log2_lt_pow2; lia. }
  apply Z.max_lub_lt; auto.
Qed.

Definition xsum (l : list Z) : Z := fold_left Z.lxor l 0.

Lemma xsum_app l k : xsum (l ++ k) = Z.lxor (xsum l) (xsum k).
Proof.
  assert (G : forall k a, fold_left Z.lxor k a = Z.lxor a (xsum k)).
  { induction k0 as [|x k0 IH]; intros a; simpl; [by rewrite Z.lxor_0_r|].
    unfold xsum. simpl. rewrite IH, (IH (Z.lxor 0 x)), Z.lxor_0_l. apply Z.lxor_assoc. }
  unfold xsum at 1. by rewrite fold_left_app, G.
Qed.

Lemma xsum_ok l : bytes_ok l -> byte_ok (xsum l).
Proof.
  induction l as [|x l IH] using rev_ind; intros Hl; [by split|].
  apply Forall_app in Hl as [Hl Hx]. apply Forall_cons in Hx as [Hx _]. rewrite xsum_app.
  apply lxor_byte; [auto|]. unfold xsum. simpl. by rewrite Z.lxor_0_l.
Qed.

(** Appending the inverse of the sum makes the sum 0xff. *)
Lemma xsum_sign l : bytes_ok l -> xsum (l ++ [inv8 (xsum l)]) = 255.
Proof.
  intros Hl. rewrite xsum_app. unfold xsum at 2. simpl. rewrite Z.lxor_0_l.
  by apply inv8_xor, xsum_ok.
Qed.

Record block_wf (b : mlx5_cmd_prot_block) : Prop := {
  bw_len : length (pb_data b) = 512%nat;
  bw_data : bytes_ok (pb_data b);
  bw_rlen : length (pb_rsvd0 b) = 48%nat;
  bw_rsvd0 : bytes_ok (pb_rsvd0 b);
  bw_rsvd1 : byte_ok (pb_rsvd1 b);
  bw_token : byte_ok (pb_token b);
  bw_sigs : byte_ok (pb_ctrl_sig b) /\ byte_ok (pb_sig b) }.

(** The bytes before the signatures. *)
Definition trailer (b : mlx5_cmd_prot_block) : list Z :=
  pb_rsvd0 b ++ be64 (pb_next b) ++ be32 (pb_block_num b) ++ [pb_rsvd1 b; pb_token b].

Lemma block_bytes_split b : block_bytes b = pb_data b ++ trailer b ++ [pb_ctrl_sig b] ++ [pb_sig b].
Proof. unfold block_bytes, trailer. by rewrite <- !app_assoc. Qed.

Lemma length_trailer b : block_wf b -> length (trailer b) = 62%nat.
Proof. intros W. unfold trailer. rewrite !length_app, (bw_rlen _ W). reflexivity. Qed.

Lemma trailer_ok b : block_wf b -> bytes_ok (trailer b).
Proof.
  intros []. unfold trailer, be64, be32. apply Forall_app; split; [done|].
  apply Forall_app; split; [apply be_bytes_ok|]. apply Forall_app; split; [apply be_bytes_ok|].
  apply Forall_cons; split; [done|]. by apply Forall_singleton.
Qed.

Lemma xor_ctrl b k : block_wf b ->
  xor8_buf (block_bytes b) 512 (62 + k) = xsum (trailer b ++ take k ([pb_ctrl_sig b] ++ [pb_sig b])).
Proof.
  intros W. unfold xor8_buf. rewrite block_bytes_split, drop_app_length'; [|symmetry; apply (bw_len _ W)].
  rewrite take_app, (length_trailer b W), take_ge by (rewrite (length_trailer b W); lia).
  by replace (62 + k - 62)%nat with k by lia.
Qed.

Lemma xor_all b k : block_wf b -> (k <= 2)%nat ->
  xor8_buf (block_bytes b) 0 (574 + k) = xsum (pb_data b ++ trailer b ++ take k ([pb_ctrl_sig b] ++ [pb_sig b])).
Proof.
  intros W Hk. unfold xor8_buf. rewrite drop_0, block_bytes_split, app_assoc, take_app, length_app, (length_trailer b W), (bw_len _ W).
  rewrite take_ge by (rewrite length_app, (length_trailer b W), (bw_len _ W); lia).
  rewrite <- app_assoc. by replace (574 + k - (512 + 62))%nat with k by lia.
Qed.

Lemma calc_sig_wf b : block_wf b -> block_wf (calc_block_sig b).
Proof. intros []. split; simpl; auto. split; apply u8_range. Qed.

Lemma set_sigs_wf c s b : byte_ok c -> byte_ok s -> block_wf b -> block_wf (set_sigs c s b).
Proof. intros ? ? []. by split. Qed.

Lemma calc_sig_verifies b : block_wf b -> verify_block_sig (calc_block_sig b) = 0.
Proof.
  intros W. unfold verify_block_sig, calc_block_sig.
  set (c := inv8 (xor8_buf (block_bytes b) 512 62)). set (b1 := set_sigs c (pb_sig b) b). cbn zeta.
  assert (W1 : block_wf b1) by (apply set_sigs_wf; [apply u8_range|apply W|done]).
  set (s := inv8 (xor8_buf (block_bytes b1) 0 575)). change (pb_ctrl_sig b1) with c.
  set (b2 := set_sigs c s b1). assert (W2 : block_wf b2) by (apply set_sigs_wf; [apply u8_range|apply u8_range|done]).
  rewrite (xor_ctrl b2 1 W2 : xor8_buf (block_bytes b2) 512 63 = _).
  rewrite (xor_all b2 2 W2 ltac:(lia) : xor8_buf (block_bytes b2) 0 576 = _).
  change (trailer b2) with (trailer b). change (pb_data b2) with (pb_data b). simpl take.
  assert (Ec : c = inv8 (xsum (trailer b))).
  { unfold c. rewrite (xor_ctrl b 0 W : xor8_buf (block_bytes b) 512 62 = _). by rewrite app_nil_r. }
  assert (Es : s = inv8 (xsum (pb_data b ++ trailer b ++ [c]))).
  { unfold s. by rewrite (xor_all b1 1 W1 ltac:(lia) : xor8_buf (block_bytes b1) 0 575 = _). }
  change (pb_ctrl_sig b2) with c. change (pb_sig b2) with s.
  rewrite Ec at 1. rewrite xsum_sign by (by apply trailer_ok). simpl.
  replace (pb_data b ++ trailer b ++ [c; s]) with ((pb_data b ++ trailer b ++ [c]) ++ [s]) by (by rewrite <- !app_assoc).
  rewrite Es, xsum_sign; [done|]. apply Forall_app; split; [apply W|]. apply Forall_app; split; [by apply trailer_ok|].
  repeat constructor; apply u8_range.
Qed.

Record layout_wf (l : mlx5_cmd_layout) : Prop := {
  lw_type : byte_ok (lay_type l);
  lw_rsvd0 : length (lay_rsvd0 l) = 3%nat /\ bytes_ok (lay_rsvd0 l);
  lw_in : length (lay_in l) = 16%nat /\ bytes_ok (lay_in l);
  lw_out : length (lay_out l) = 16%nat /\ bytes_ok (lay_out l);
  lw_tail : bytes_ok [lay_token l; lay_sig l; lay_rsvd1 l; lay_status_own l] }.

(** The bytes of the descriptor before its signature. *)
Definition lay_head (l : mlx5_cmd_layout) : list Z :=
  [lay_type l] ++ lay_rsvd0 l ++ be32 (lay_inlen l) ++ be64 (lay_in_ptr l) ++ lay_in l ++
  lay_out l ++ be64 (lay_out_ptr l) ++ be32 (lay_outlen l) ++ [lay_token l].

Lemma layout_split l : layout_bytes l = lay_head l ++ [lay_sig l] ++ [lay_rsvd1 l; lay_status_own l].
Proof. unfold layout_bytes, lay_head. by rewrite <- !app_assoc. Qed.

Lemma lay_head_ok l : layout_wf l -> bytes_ok (lay_head l).
Proof.
  intros [Ht [_ Hr] [_ Hi] [_ Ho] Htl]. apply Forall_cons in Htl as [Htk _]. unfold lay_head, be32, be64.
  apply Forall_app; split; [by apply Forall_singleton|].
  repeat (apply Forall_app; split; [solve [done|apply be_bytes_ok]|]). by apply Forall_singleton.
Qed.

Lemma length_layout l : layout_wf l -> length (layout_bytes l) = 64%nat.
Proof. intros [_ [H1 _] [H2 _] [H3 _] _]. unfold layout_bytes. rewrite !length_app, H1, H2, H3. reflexivity. Qed.

Lemma xor_layout l : layout_wf l -> xor8_buf (layout_bytes l) 0 64 = xsum (layout_bytes l).
Proof. intros W. unfold xor8_buf. rewrite drop_0, take_ge; [done|]. rewrite length_layout; auto. Qed.

Lemma sign_layout_wf l : layout_wf l -> layout_wf (sign_layout l).
Proof.
  intros [? ? ? ? Ht]. split; auto. simpl. apply Forall_cons in Ht as [? Ht]. apply Forall_cons in Ht as [_ Ht].
  apply Forall_cons; split; [done|]. apply Forall_cons; split; [apply u8_range|done].
Qed.

(** The signature of a descriptor whose signature byte was clear. *)
Lemma sign_layout_verifies l : layout_wf l -> lay_sig l = 0 -> xor8_buf (layout_bytes (sign_layout l)) 0 64 = 255.
Proof.
  intros W H0. rewrite xor_layout by (by apply sign_layout_wf). unfold sign_layout. rewrite xor_layout by done.
  set (s := inv8 _). rewrite layout_split. change (lay_head (set_lay_sig s l)) with (lay_head l). 
  change (lay_sig (set_lay_sig s l)) with s. change (lay_rsvd1 (set_lay_sig s l)) with (lay_rsvd1 l).
  change (lay_status_own (set_lay_sig s l)) with (lay_status_own l).
  assert (Es : s = inv8 (xsum (lay_head l ++ [lay_rsvd1 l; lay_status_own l]))).
  { unfold s. rewrite layout_split, H0, !xsum_app. unfold xsum at 2. simpl. by rewrite Z.lxor_0_l. }
  rewrite <- (xsum_sign (lay_head l ++ [lay_rsvd1 l; lay_status_own l])), <- Es.
  - rewrite !xsum_app, Z.lxor_assoc. f_equal. apply Z.lxor_comm.
  - apply Forall_app; split; [by apply lay_head_ok|]. pose proof (lw_tail _ W) as Ht.
    apply Forall_cons in Ht as [_ Ht]. by apply Forall_cons in Ht as [_ Ht].
Qed.

(** ** Chains in memory *)

Notation blocks := (gmap Z mlx5_cmd_prot_block).
Notation dmas c := (box_dma <$> c).

(** The kernel memory of a chain of mailboxes over [m]. *)
Fixpoint chain_mem (c : list mlx5_cmd_mailbox) : gmap nat Z :=
  match c with [] => ∅ | b :: r => {[box_obj b := sizeof_mailbox]} ∪ chain_mem r end.
Fixpoint chain_fresh (m : gmap nat Z) (c : list mlx5_cmd_mailbox) : Prop :=
  match c with [] => True | b :: r => (chain_mem r ∪ m) !! box_obj b = None /\ chain_fresh m r end.

(** [blk'] is [blk] with the blocks of the chain [c], whatever they hold. *)
Record adds (blk : blocks) (c : list mlx5_cmd_mailbox) (blk' : blocks) : Prop := {
  ad_new : Forall (fun b => blk !! box_dma b = None /\ 0 < box_dma b < 2 ^ 64) c;
  ad_nodup : NoDup (dmas c);
  ad_old : forall a, a ∉ dmas c -> blk' !! a = blk !! a;
  ad_in : Forall (fun b => exists x, blk' !! box_dma b = Some x /\ block_wf x) c }.

(** The links and numbers of the chain, from block number [k]. *)
Fixpoint linked (blk : blocks) (k : Z) (c : list mlx5_cmd_mailbox) : Prop :=
  match c with
  | [] => True
  | b :: r => (exists x, blk !! box_dma b = Some x /\ pb_next x = chain_dma r /\ pb_block_num x = k) /\
              linked blk (k + 1) r
  end.

Lemma adds_nil blk : adds blk [] blk.
Proof. split; auto using NoDup_nil_2. Qed.

Lemma adds_cons blk c blk' a b x :
  adds blk c blk' -> blk' !! a = None -> 0 < a < 2 ^ 64 -> block_wf x ->
  adds blk (mkbox b a :: c) (<[a := x]> blk').
Proof.
  intros [Hn Hd Ho Hi] Ha Ha0 Hx.
  assert (Hac : a ∉ dmas c).
  { intros Hin. apply list_elem_of_fmap in Hin as (b' & -> & Hb'). rewrite Forall_forall in Hi.
    destruct (Hi _ Hb') as (y & Hy & _). congruence. }
  split.
  - apply Forall_cons; split; [|done]. simpl. by rewrite <- Ho.
  - simpl. by apply NoDup_cons.
  - intros a' Ha'. simpl in Ha'. apply not_elem_of_cons in Ha' as [? ?]. rewrite lookup_insert_ne by done. auto.
  - apply Forall_cons; split; [exists x; simpl; by rewrite lookup_insert_eq|].
    rewrite Forall_forall in *. intros b' Hb'. rewrite lookup_insert_ne; [auto|].
    intros ->. apply Hac, list_elem_of_fmap. eauto.
Qed.

Lemma adds_tail blk b c blk' :
  adds blk (b :: c) blk' -> is_Some (blk' !! box_dma b) /\ adds blk c (delete (box_dma b) blk').
Proof.
  intros [Hn Hd Ho Hi]. apply Forall_cons in Hn as [[Hb _] Hn]. apply Forall_cons in Hi as [(x & Hx & _) Hi].
  simpl in Hd. apply NoDup_cons in Hd as [Hbc Hd]. split; [eauto|]. split; [done|done| |].
  - intros a Ha. destruct (decide (a = box_dma b)) as [->|Hne]; [by rewrite lookup_delete_eq|].
    rewrite lookup_delete_ne by done. apply Ho. simpl. by apply not_elem_of_cons.
  - rewrite Forall_forall in *. intros b' Hb'. rewrite lookup_delete_ne; [auto|].
    intros E. apply Hbc. rewrite E. apply list_elem_of_fmap. eauto.
Qed.

Lemma adds_empty blk blk' : adds blk [] blk' -> blk' = blk.
Proof. intros A. apply map_eq. intros a. apply A. apply not_elem_of_nil. Qed.

(** Writing well-formed contents to a block of the chain. *)
Lemma adds_write blk c blk' a x :
  adds blk c blk' -> a ∈ dmas c -> block_wf x -> adds blk c (<[a := x]> blk').
Proof.
  intros [Hn Hd Ho Hi] Ha Hx. split; [done|done| |].
  - intros a' Ha'. rewrite lookup_insert_ne by congruence. auto.
  - rewrite Forall_forall in *. intros b Hb. destruct (decide (a = box_dma b)) as [->|Hne].
    + rewrite lookup_insert_eq. eauto.
    + rewrite lookup_insert_ne by done. auto.
Qed.

Lemma linked_frame blk blk' c : forall k,
  (forall b, b ∈ c -> blk' !! box_dma b = blk !! box_dma b) -> linked blk k c -> linked blk' k c.
Proof.
  induction c as [|b c IH]; [done|]. intros k Hf [H1 H2]. split.
  - rewrite Hf by left. done.
  - apply IH; [|done]. intros. apply Hf. by right.
Qed.

(** Writing contents that keep the link and the number. *)
Lemma linked_write blk c a x y : forall k,
  blk !! a = Some y -> pb_next x = pb_next y -> pb_block_num x = pb_block_num y ->
  linked blk k c -> linked (<[a := x]> blk) k c.
Proof.
  induction c as [|b c IH]; [done|]. intros k Hy Hn Hb [(z & Hz & Hzn & Hzb) H2]. split; [|by apply IH].
  destruct (decide (a = box_dma b)) as [->|Hne].
  - rewrite lookup_insert_eq. simplify_eq. exists x. by rewrite Hn, Hb.
  - rewrite lookup_insert_ne by done. eauto.
Qed.

Lemma zeros_ok n : bytes_ok (zeros n).
Proof. unfold zeros. apply Forall_replicate. by split. Qed.
Lemma length_zeros n : length (zeros n) = n.
Proof. apply length_replicate. Qed.

Lemma zero_block_wf : block_wf zero_block.
Proof. split; simpl pb_data; simpl pb_rsvd0; auto using zeros_ok, length_zeros; by repeat split. Qed.

(** ** Allocation *)

Section Alloc.
Context `{DmaPool} (o : oracle) (cls : Z).
Implicit Types (m : gmap nat Z) (D : gset (nat * nat)) (st : db_priv).

Lemma runs_alloc_cmd_box st p m D (Q : Z + mlx5_cmd_mailbox -> drv pool -> Prop) :
  owned cls m D st ->
  (forall st' n, owned cls m D st' -> Q (inl (- ENOMEM)) (mkdrv st' (mkpool n (pl_blk p)))) ->
  (forall st' n b a, owned cls ({[b := sizeof_mailbox]} ∪ m) D st' -> m !! b = None ->
     pl_blk p !! a = None -> 0 < a < 2 ^ 64 ->
     Q (inr (mkbox b a)) (mkdrv st' (mkpool n (<[a := zero_block]> (pl_blk p))))) ->
  runs (alloc_cmd_box o) (mkdrv st p) Q.
Proof.
  intros Ho HN HS. apply runs_bind, (runs_kzalloc o cls p sizeof_mailbox st m D); [done| |].
  { intros st' Ho'. destruct p. by apply HN. }
  intros b st' Hb Ho'. apply runs_bind, runs_on_rest. unfold runs, dma_pool_zalloc.
  destruct (pick _ _) as [a|] eqn:E; (eexists _, _; split; [done|]); simpl.
  - apply pick_fresh in E as [Hn Ha]. apply runs_ret, HS; auto. by apply not_elem_of_dom.
  - apply runs_bind, (runs_kfree cls _ b sizeof_mailbox st' m D); auto. intros st2 Ho2. by apply runs_fail, HN.
Qed.

Lemma runs_free_cmd_box b st p m D (Q : Z + unit -> drv pool -> Prop) :
  owned cls ({[box_obj b := sizeof_mailbox]} ∪ m) D st -> m !! box_obj b = None ->
  is_Some (pl_blk p !! box_dma b) ->
  (forall st', owned cls m D st' -> Q (inr tt) (mkdrv st' (mkpool (pl_next p) (delete (box_dma b) (pl_blk p))))) ->
  runs (free_cmd_box b) (mkdrv st p) Q.
Proof.
  intros Ho Hm [x Hx] HQ. apply runs_bind, runs_on_rest. unfold runs, dma_pool_free. rewrite Hx. simpl.
  eexists _, _. split; [done|]. simpl. by apply (runs_kfree cls _ _ sizeof_mailbox st m D).
Qed.

Lemma runs_free_boxes c blk : forall st p m D (Q : Z + unit -> drv pool -> Prop),
  owned cls (chain_mem c ∪ m) D st -> chain_fresh m c -> adds blk c (pl_blk p) ->
  (forall st', owned cls m D st' -> Q (inr tt) (mkdrv st' (mkpool (pl_next p) blk))) ->
  runs (free_boxes c) (mkdrv st p) Q.
Proof.
  induction c as [|b c IH]; intros st p m D Q Ho Hf Ha HQ; simpl.
  - apply adds_empty in Ha. destruct p as [n b]. simpl in Ha. subst b. apply runs_ret, HQ.
    simpl in Ho. by rewrite map_empty_union in Ho.
  - destruct Hf as [Hb Hf]. apply adds_tail in Ha as [Hs Ha]. apply runs_bind.
    apply (runs_free_cmd_box b st p (chain_mem c ∪ m) D); auto.
    { simpl in Ho. by rewrite <- map_union_assoc in Ho. }
    intros st' Ho'. by apply (IH st' _ m D).
Qed.

Lemma runs_on_block st (p : pool) a f x (Q : Z + unit -> drv pool -> Prop) :
  pl_blk p !! a = Some x ->
  Q (inr tt) (mkdrv st (mkpool (pl_next p) (<[a := f x]> (pl_blk p)))) ->
  runs (on_rest (on_block a f)) (mkdrv st p) Q.
Proof. intros Hx HQ. apply runs_on_rest. unfold runs, on_block. rewrite Hx. eexists _, _. by split. Qed.

(** The state of the allocation loop: the chain so far, linked, numbered from
    [k], all with the token. *)
Record chain_ok (blk : blocks) (tok k : Z) (c : list mlx5_cmd_mailbox) (blk' : blocks) : Prop := {
  co_adds : adds blk c blk';
  co_linked : linked blk' k c;
  co_token : Forall (fun b => exists x, blk' !! box_dma b = Some x /\ pb_token x = tok) c }.

Lemma chain_ok_cons blk tok k c blk' b a :
  byte_ok tok -> chain_ok blk tok (k + 1) c blk' -> blk' !! a = None -> 0 < a < 2 ^ 64 ->
  chain_ok blk tok k (mkbox b a :: c) (<[a := set_link (chain_dma c) k tok zero_block]> (<[a := zero_block]> blk')).
Proof.
  intros Ht [Ha Hl Hk] Hn Ha0. rewrite insert_insert_eq.
  assert (Hac : forall b', b' ∈ c -> a <> box_dma b').
  { intros b' Hb' ->. pose proof (ad_in _ _ _ Ha) as Hi. rewrite Forall_forall in Hi.
    destruct (Hi _ Hb') as (y & Hy & _). congruence. }
  split.
  - apply adds_cons; auto. destruct zero_block_wf. by split.
  - split; [exists (set_link (chain_dma c) k tok zero_block); simpl; by rewrite lookup_insert_eq|].
    apply (linked_frame blk'); [|done]. intros b' Hb'. by rewrite lookup_insert_ne by auto.
  - apply Forall_cons; split; [eexists; simpl; by rewrite lookup_insert_eq|].
    rewrite Forall_forall in *. intros b' Hb'. rewrite lookup_insert_ne by auto. auto.
Qed.

Lemma runs_alloc_blocks tok blk k : byte_ok tok -> forall c st p m D (Q : Z + list mlx5_cmd_mailbox -> drv pool -> Prop),
  owned cls (chain_mem c ∪ m) D st -> chain_fresh m c -> chain_ok blk tok (Z.of_nat k) c (pl_blk p) ->
  (forall st' n, owned cls m D st' -> Q (inl (- ENOMEM)) (mkdrv st' (mkpool n blk))) ->
  (forall st' p' c', owned cls (chain_mem c' ∪ m) D st' -> chain_fresh m c' -> chain_ok blk tok 0 c' (pl_blk p') ->
     length c' = (k + length c)%nat -> Q (inr c') (mkdrv st' p')) ->
  runs (alloc_blocks o tok k c) (mkdrv st p) Q.
Proof.
  intros Ht. induction k as [|k IH]; intros c st p m D Q Ho Hf Hc HN HS.
  { apply runs_ret. by apply HS. }
  apply runs_bind, runs_cleanup, (runs_alloc_cmd_box st p (chain_mem c ∪ m) D); [done| |].
  - intros st' n Ho'. apply (runs_free_boxes c blk st' _ m D); auto. apply Hc.
  - intros st' n b a Ho' Hb Ha Ha0. apply runs_bind.
    eapply runs_on_block; [simpl; apply lookup_insert_eq|].
    apply (IH _ _ _ m D); auto.
    + simpl. by rewrite <- map_union_assoc.
    + by split.
    + apply chain_ok_cons; auto. by replace (Z.of_nat k + 1) with (Z.of_nat (S k)) by lia.
    + intros st2 p2 c2 ? ? ? Hlen. apply HS; auto. simpl in Hlen. lia.
Qed.

(** The memory of a message. *)
Definition msg_mem (x : mlx5_cmd_msg) : gmap nat Z := chain_mem (msg_next x) ∪ {[msg_obj x := sizeof_msg]}.

Record msg_fresh (m : gmap nat Z) (x : mlx5_cmd_msg) : Prop := {
  mf_obj : m !! msg_obj x = None;
  mf_chain : chain_fresh ({[msg_obj x := sizeof_msg]} ∪ m) (msg_next x) }.

(** A message ready for [len] bytes whose blocks are those of the pool besides [blk]. *)
Record msg_ok (blk : blocks) (x : mlx5_cmd_msg) (blk' : blocks) : Prop := {
  mo_adds : adds blk (msg_next x) blk';
  mo_linked : linked blk' 0 (msg_next x);
  mo_first : length (msg_first x) = 16%nat /\ bytes_ok (msg_first x);
  mo_room : cmd_blocks (msg_len x) <= Z.of_nat (length (msg_next x)) }.

Lemma runs_free_cmd_msg x blk st p m D (Q : Z + unit -> drv pool -> Prop) :
  owned cls (msg_mem x ∪ m) D st -> msg_fresh m x -> adds blk (msg_next x) (pl_blk p) ->
  (forall st', owned cls m D st' -> Q (inr tt) (mkdrv st' (mkpool (pl_next p) blk))) ->
  runs (mlx5_free_cmd_msg x) (mkdrv st p) Q.
Proof.
  intros Ho [Hm Hc] Ha HQ. apply runs_bind. eapply runs_free_boxes; [|done|done|].
  { unfold msg_mem in Ho. by rewrite <- map_union_assoc in Ho. }
  intros st' Ho'. by apply (runs_kfree cls _ _ sizeof_msg st' m D).
Qed.

Lemma cmd_blocks_nonneg size : 0 <= size -> 0 <= cmd_blocks size.
Proof. intros Hs. unfold cmd_blocks, DIV_ROUND_UP, MLX5_CMD_DATA_BLOCK_SIZE. apply Z.div_pos; lia. Qed.

Lemma runs_alloc_cmd_msg size tok st p m D (Q : Z + mlx5_cmd_msg -> drv pool -> Prop) :
  0 <= size -> byte_ok tok -> owned cls m D st ->
  (forall st' n, owned cls m D st' -> Q (inl (- ENOMEM)) (mkdrv st' (mkpool n (pl_blk p)))) ->
  (forall st' p' x, owned cls (msg_mem x ∪ m) D st' -> msg_fresh m x -> msg_ok (pl_blk p) x (pl_blk p') ->
     Forall (fun b => exists y, pl_blk p' !! box_dma b = Some y /\ pb_token y = tok) (msg_next x) ->
     msg_len x = size -> msg_parent x = None -> Z.of_nat (length (msg_next x)) = cmd_blocks size ->
     msg_first x = zeros 16 -> Q (inr x) (mkdrv st' p')) ->
  runs (mlx5_alloc_cmd_msg o size tok) (mkdrv st p) Q.
Proof.
  intros Hs Ht Ho HN HS. pose proof (cmd_blocks_nonneg size Hs).
  apply runs_bind, (runs_kzalloc o cls p sizeof_msg st m D); [done| |].
  { intros st' Ho'. destruct p. by apply HN. }
  intros b st' Hb Ho'. apply runs_bind, runs_cleanup.
  apply (runs_alloc_blocks tok (pl_blk p) _ Ht [] st' p ({[b := sizeof_msg]} ∪ m) D); auto.
  - simpl. by rewrite map_empty_union.
  - done.
  - split; [apply adds_nil|done|by apply Forall_nil].
  - intros st2 n Ho2. apply (runs_kfree cls _ b sizeof_msg st2 m D); [done|done|]. intros st3 Ho3. by apply HN.
  - intros st2 p2 c Ho2 Hf Hc Hlen. simpl in Hlen. apply runs_ret, HS; simpl; auto; try lia.
    + unfold msg_mem. simpl. by rewrite <- map_union_assoc.
    + by split.
    + destruct Hc. split; simpl; auto; [split; [done|apply zeros_ok]|lia].
    + apply Hc.
Qed.
End Alloc.

(** ** Contents *)

(** Blocks that keep their place in the chain, and blocks that also keep what
    they say. *)
Definition link_eq (x y : mlx5_cmd_prot_block) : Prop :=
  pb_next y = pb_next x /\ pb_block_num y = pb_block_num x /\ (block_wf x -> block_wf y).
Definition payload_eq (x y : mlx5_cmd_prot_block) : Prop :=
  link_eq x y /\ pb_data y = pb_data x /\ pb_token y = pb_token x.

#[export] Instance link_eq_preorder : PreOrder link_eq.
Proof. split; [by intros x|]. intros x y z (?&?&?) (?&?&?). split_and!; [congruence|congruence|auto]. Qed.
#[export] Instance payload_eq_preorder : PreOrder payload_eq.
Proof. split; [by intros x|]. intros x y z (?&?&?) (?&?&?). split; [by transitivity y|]. split; congruence. Qed.

(** Only blocks of the chain are rewritten, each to one related by [R]. *)
Record rewrites (R : relation mlx5_cmd_prot_block) (blk : blocks) (c : list mlx5_cmd_mailbox) (blk' : blocks) : Prop := {
  rw_old : forall a, a ∉ dmas c -> blk' !! a = blk !! a;
  rw_in : forall a x, blk !! a = Some x -> exists y, blk' !! a = Some y /\ R x y }.

Section Rewrites.
Context (R : relation mlx5_cmd_prot_block) `{!PreOrder R}.

Lemma rewrites_refl blk c : rewrites R blk c blk.
Proof. split; [done|]. intros a x Hx. by exists x. Qed.

Lemma rewrites_step blk c blk1 blk' b x y :
  blk !! box_dma b = Some x -> R x y -> blk1 = <[box_dma b := y]> blk ->
  rewrites R blk1 c blk' -> rewrites R blk (b :: c) blk'.
Proof.
  intros Hx HR -> [Ho Hi]. split.
  - intros a Ha. simpl in Ha. apply not_elem_of_cons in Ha as [? ?]. rewrite Ho by done. by rewrite lookup_insert_ne by done.
  - intros a z Hz. destruct (decide (a = box_dma b)) as [->|Hne].
    + destruct (Hi (box_dma b) y) as (w & Hw & HRw); [apply lookup_insert_eq|]. exists w. split; [done|].
      simplify_eq. by transitivity y.
    + apply Hi. by rewrite lookup_insert_ne by done.
Qed.
End Rewrites.

Lemma rewrites_mono (R S : relation mlx5_cmd_prot_block) blk c blk' :
  (forall x y, R x y -> S x y) -> rewrites R blk c blk' -> rewrites S blk c blk'.
Proof. intros HRS [Ho Hi]. split; [done|]. intros a x Hx. destruct (Hi a x Hx) as (y & ? & ?). eauto. Qed.

Lemma adds_rewrites b0 c blk blk' : adds b0 c blk -> rewrites link_eq blk c blk' -> adds b0 c blk'.
Proof.
  intros [Hn Hd Ho Hi] [Ho' Hi']. split; [done|done| |].
  - intros a Ha. rewrite Ho' by done. auto.
  - rewrite Forall_forall in *. intros b Hb. destruct (Hi b Hb) as (x & Hx & W).
    destruct (Hi' _ _ Hx) as (y & Hy & _ & _ & HW). eauto.
Qed.

Lemma linked_rewrites c' c blk blk' : rewrites link_eq blk c' blk' -> forall k, linked blk k c -> linked blk' k c.
Proof.
  intros [_ Hi]. induction c as [|b c IH]; [done|]. intros k [(x & Hx & Hn & Hb) Hl]. split; [|by apply IH].
  destruct (Hi _ _ Hx) as (y & Hy & Hyn & Hyb & _). exists y. split; [done|]. split; congruence.
Qed.

(** ** What the device finds

    The message at a descriptor: the bytes there and, following the links from
    [ptr], those of as many blocks as the length says, all with the token and in
    sequence.  This is the protocol as the adapter's manual describes it. *)

Fixpoint gather (blk : blocks) (n : nat) (ptr : Z) : option (list mlx5_cmd_prot_block) :=
  match n with
  | O => Some []
  | S n => x ← blk !! ptr; r ← gather blk n (pb_next x); Some (x :: r)
  end.

Definition dma_message (blk : blocks) (first : list Z) (ptr : Z) (len : nat) (tok : Z) : option (list Z) :=
  xs ← gather blk (Z.to_nat (cmd_blocks (Z.of_nat len))) ptr;
  if forallb (fun x => pb_token x =? tok) xs && bool_decide (pb_block_num <$> xs = seqZ 0 (Z.of_nat (length xs)))
  then Some (take len (first ++ concat (pb_data <$> xs))) else None.

Lemma gather_linked blk n : forall c k,
  linked blk k c -> (n <= length c)%nat ->
  exists xs, gather blk n (chain_dma c) = Some xs /\ Forall2 (fun b x => blk !! box_dma b = Some x) (take n c) xs /\
    pb_block_num <$> xs = seqZ k (Z.of_nat n).
Proof.
  induction n as [|n IH]; intros c k Hl Hn; [exists []; by repeat split|].
  destruct c as [|b c]; [simpl in Hn; lia|]. destruct Hl as [(x & Hx & Hxn & Hxb) Hl].
  destruct (IH c (k + 1) Hl) as (xs & Hg & Hf & Hs); [simpl in Hn; lia|].
  exists (x :: xs). split; [|split].
  - simpl. rewrite Hx. simpl. rewrite Hxn, Hg. done.
  - simpl. by constructor.
  - rewrite fmap_cons, Hxb, Hs, Nat2Z.inj_succ. rewrite (seqZ_cons k) by lia. rewrite Z.pred_succ.
    by replace (Z.succ k) with (k + 1) by lia.
Qed.

(** Rewriting that keeps the payload does not change what the device finds. *)
Lemma gather_payload blk c blk' n : rewrites payload_eq blk c blk' -> forall ptr xs,
  gather blk n ptr = Some xs -> exists ys, gather blk' n ptr = Some ys /\ Forall2 payload_eq xs ys.
Proof.
  intros [_ Hi]. induction n as [|n IH]; intros ptr xs; simpl; [intros [= <-]; exists []; by split|].
  destruct (blk !! ptr) as [x|] eqn:Hx; [|done]. simpl. destruct (gather blk n (pb_next x)) as [r|] eqn:Hr; [|done].
  intros [= <-]. destruct (Hi _ _ Hx) as (y & Hy & HR). destruct (IH _ _ Hr) as (ys & Hys & HF).
  exists (y :: ys). rewrite Hy. simpl. pose proof HR as [(Hn & _) _]. rewrite Hn, Hys. split; [done|]. by constructor.
Qed.

Lemma fmap_payload {A} (f : mlx5_cmd_prot_block -> A) xs ys :
  (forall x y, payload_eq x y -> f y = f x) -> Forall2 payload_eq xs ys -> f <$> ys = f <$> xs.
Proof. intros Hf. induction 1; [done|]. rewrite !fmap_cons. f_equal; auto. Qed.

Lemma dma_message_payload blk c blk' first ptr len tok d :
  rewrites payload_eq blk c blk' -> dma_message blk first ptr len tok = Some d ->
  dma_message blk' first ptr len tok = Some d.
Proof.
  intros Hr. unfold dma_message. destruct (gather blk _ ptr) as [xs|] eqn:E; [|done].
  destruct (gather_payload _ _ _ _ Hr _ _ E) as (ys & -> & HF). simpl.
  assert (E1 : (fun x => pb_token x =? tok) <$> ys = (fun x => pb_token x =? tok) <$> xs).
  { apply fmap_payload; [|done]. intros x y (_ & _ & ->). done. }
  assert (E2 : pb_block_num <$> ys = pb_block_num <$> xs) by (apply fmap_payload; [by intros x y ((_ & ? & _) & _)|done]).
  assert (E3 : pb_data <$> ys = pb_data <$> xs) by (apply fmap_payload; [by intros x y (_ & ? & _)|done]).
  assert (E4 : forallb (fun x => pb_token x =? tok) ys = forallb (fun x => pb_token x =? tok) xs).
  { clear -E1. revert xs E1. induction ys as [|y ys IH]; intros [|x xs] [=]; [done|]. simpl. f_equal; auto. }
  by rewrite E2, E3, E4, (Forall2_length _ _ _ HF).
Qed.

(** ** Copying *)

Section Copy.
Context (tok : Z).

(** The chain holds [d]: each block its 512 bytes of it and the token. *)
Fixpoint holds (blk : blocks) (n : nat) (c : list mlx5_cmd_mailbox) (d : list Z) : Prop :=
  match n, c with
  | O, _ => d = []
  | S n, b :: r => (exists x, blk !! box_dma b = Some x /\ length (pb_data x) = 512%nat /\ pb_token x = tok /\
                      take (length d) (pb_data x) = take 512 d) /\ holds blk n r (drop 512 d)
  | S _, [] => False
  end.

Definition nblocks (n : nat) : nat := Z.to_nat (DIV_ROUND_UP (Z.of_nat n) MLX5_CMD_DATA_BLOCK_SIZE).

Lemma nblocks_0 : nblocks 0 = 0%nat.
Proof. reflexivity. Qed.
Lemma nblocks_S n : (0 < n)%nat -> nblocks n = S (nblocks (n - 512)).
Proof.
  intros Hn. unfold nblocks, DIV_ROUND_UP, MLX5_CMD_DATA_BLOCK_SIZE.
  destruct (Nat.le_gt_cases n 512).
  - replace (n - 512)%nat with 0%nat by lia. change (Z.to_nat ((Z.of_nat 0 + 512 - 1) / 512)) with 0%nat.
    assert ((Z.of_nat n + 512 - 1) / 512 = 1) by dlia. lia.
  - assert ((Z.of_nat n + 512 - 1) / 512 = 1 + (Z.of_nat (n - 512) + 512 - 1) / 512) by dlia.
    assert (0 <= (Z.of_nat (n - 512) + 512 - 1) / 512) by dlia. lia.
Qed.
Lemma cmd_blocks_nblocks len : Z.to_nat (cmd_blocks (Z.of_nat len)) = nblocks (len - 16).
Proof. unfold cmd_blocks, nblocks. do 2 f_equal. lia. Qed.

Lemma holds_frame blk blk' n : forall c d,
  (forall b, b ∈ c -> blk' !! box_dma b = blk !! box_dma b) -> holds blk n c d -> holds blk' n c d.
Proof.
  induction n as [|n IH]; [done|]. intros [|b c] d Hf; [done|]. intros [H1 H2]. split; [by rewrite Hf by left|].
  apply IH; [|done]. intros. apply Hf. by right.
Qed.

Lemma memcpy_length to from n : (n <= length to)%nat -> (n <= length from)%nat -> length (memcpy to from n) = length to.
Proof. intros. unfold memcpy. rewrite length_app, length_take, length_drop. lia. Qed.

Lemma memcpy_ok to from n : bytes_ok to -> bytes_ok from -> bytes_ok (memcpy to from n).
Proof. intros. apply Forall_app. split; [by apply Forall_take|by apply Forall_drop]. Qed.

Lemma memcpy_take to from n : (n <= length from)%nat -> take n (memcpy to from n) = take n from.
Proof. intros. unfold memcpy. rewrite take_app_length'; [done|]. rewrite length_take. lia. Qed.

(** The block copy_to_chain writes. *)
Lemma copied_block x from :
  byte_ok tok -> bytes_ok from -> block_wf x ->
  let y := set_token tok (set_data (memcpy (pb_data x) from (Nat.min (length from) 512)) x) in
  link_eq x y /\ length (pb_data y) = 512%nat /\ pb_token y = tok /\ take (length from) (pb_data y) = take 512 from.
Proof.
  intros Ht Hf W y. pose proof (bw_len _ W) as Hl. assert (length (pb_data y) = 512%nat) as Hly.
  { unfold y. simpl. rewrite memcpy_length; lia. }
  split_and!; auto.
  - split_and!; [done|done|]. intros _. destruct W. split; auto. by apply memcpy_ok.
  - unfold y. simpl. destruct (Nat.le_gt_cases (length from) 512).
    + rewrite Nat.min_l by lia. by rewrite memcpy_take, !take_ge by lia.
    + rewrite Nat.min_r by lia. rewrite (take_ge (memcpy _ _ _)) by (rewrite memcpy_length; lia).
      unfold memcpy. rewrite drop_ge by lia. apply app_nil_r.
Qed.

Lemma copy_to_chain_ok : byte_ok tok -> forall c from p,
  bytes_ok from -> NoDup (dmas c) -> Forall (fun b => exists x, pl_blk p !! box_dma b = Some x /\ block_wf x) c ->
  (nblocks (length from) <= length c)%nat ->
  exists blk', copy_to_chain c from tok p = Some (inr tt, mkpool (pl_next p) blk') /\
    rewrites link_eq (pl_blk p) c blk' /\ holds blk' (nblocks (length from)) c from.
Proof.
  intros Ht. induction c as [|b c IH]; intros from p Hb Hnd Hc Hroom; destruct from as [|z from'].
  - exists (pl_blk p). destruct p. split; [done|]. split; [apply (rewrites_refl _)|done].
  - rewrite nblocks_S in Hroom by (simpl; lia). simpl in Hroom. lia.
  - exists (pl_blk p). destruct p. split; [done|]. split; [apply (rewrites_refl _)|done].
  - set (from := z :: from') in *. assert (Hpos : (0 < length from)%nat) by (simpl; lia).
    rewrite nblocks_S in Hroom |- * by done. change (length (b :: c)) with (S (length c)) in Hroom. apply Forall_cons in Hc as [(x & Hx & W) Hc].
    simpl in Hnd. apply NoDup_cons in Hnd as [Hbc Hnd].
    destruct (copied_block x from Ht Hb W) as (HR & Hyl & Hyt & Hyd).
    set (y := set_token tok _) in *.
    assert (Hdr : drop (Nat.min (length from) 512) from = drop 512 from).
    { destruct (Nat.le_gt_cases (length from) 512); [|by rewrite Nat.min_r by lia]. by rewrite !drop_ge by lia. }
    destruct (IH (drop 512 from) (mkpool (pl_next p) (<[box_dma b := y]> (pl_blk p)))) as (blk' & E & Hrw & Hh).
    + by apply Forall_drop.
    + done.
    + rewrite Forall_forall in *. intros b' Hb'. simpl. rewrite lookup_insert_ne; [auto|].
      intros E. apply Hbc. rewrite E. apply list_elem_of_fmap. eauto.
    + rewrite length_drop. lia.
    + exists blk'. split; [|split].
      * change (es_bind (on_block (box_dma b) (fun blk => set_token tok
                  (set_data (memcpy (pb_data blk) from (Nat.min (length from) 512)) blk)))
                (fun _ => copy_to_chain c (drop (Nat.min (length from) 512) from) tok) p =
                Some (inr tt, mkpool (pl_next p) blk')). rewrite Hdr.
        rewrite (es_bind_ok _ _ _ tt (mkpool (pl_next p) (<[box_dma b := y]> (pl_blk p)))); [exact E|].
        unfold on_block. by rewrite Hx.
      * by apply (rewrites_step link_eq _ _ (<[box_dma b := y]> (pl_blk p)) _ _ x y).
      * rewrite length_drop in Hh. split; [|exact Hh]. exists y. split_and!; auto.
        rewrite (rw_old _ _ _ _ Hrw) by done. apply lookup_insert_eq.
Qed.

(** A chain that holds [d] is found by the device. *)
Lemma holds_data blk xs : forall c d,
  holds blk (nblocks (length d)) c d ->
  Forall2 (fun b x => blk !! box_dma b = Some x) (take (nblocks (length d)) c) xs ->
  take (length d) (concat (pb_data <$> xs)) = d /\ forallb (fun x => pb_token x =? tok) xs = true.
Proof.
  induction xs as [|x xs IH]; intros c d Hh Hf.
  - destruct d as [|z d]; [done|]. rewrite nblocks_S in Hh, Hf by (simpl; lia). destruct c; [done|]. inversion Hf.
  - destruct d as [|z d']; [inversion Hf|]. set (d := z :: d') in *.
    assert (Hpos : (0 < length d)%nat) by (simpl; lia). rewrite nblocks_S in Hh, Hf by done.
    destruct c as [|b c]; [done|]. destruct Hh as [(y & Hy & Hyl & Hyt & Hyd) Hh]. rewrite firstn_cons in Hf.
    apply Forall2_cons in Hf as [Hx Hf]. assert (x = y) as -> by congruence.
    rewrite <- (length_drop d 512) in Hh, Hf. destruct (IH c (drop 512 d) Hh Hf) as [H1 H2].
    split; [|simpl; by rewrite Hyt, Z.eqb_refl].
    rewrite fmap_cons. change (concat (pb_data y :: (pb_data <$> xs))) with (pb_data y ++ concat (pb_data <$> xs)).
    rewrite take_app, Hyd, Hyl. rewrite length_drop in H1. rewrite H1. apply take_drop.
Qed.

Lemma copy_to_msg_ok p b0 x from :
  byte_ok tok -> bytes_ok from -> msg_ok b0 x (pl_blk p) -> msg_len x = Z.of_nat (length from) ->
  exists blk', mlx5_copy_to_msg x from tok p =
      Some (inr (set_first (memcpy (msg_first x) from (Nat.min (length from) 16)) x), mkpool (pl_next p) blk') /\
    rewrites link_eq (pl_blk p) (msg_next x) blk' /\
    msg_ok b0 (set_first (memcpy (msg_first x) from (Nat.min (length from) 16)) x) blk' /\
    dma_message blk' (memcpy (msg_first x) from (Nat.min (length from) 16)) (chain_dma (msg_next x)) (length from) tok = Some from.
Proof.
  intros Ht Hb [Ha Hl [Hf Hfo] Hr] Hlen. set (copy := Nat.min (length from) 16). set (rest := drop copy from).
  assert (Hrl : length rest = (length from - 16)%nat) by (unfold rest; rewrite length_drop; lia).
  assert (Hroom : (nblocks (length rest) <= length (msg_next x))%nat).
  { rewrite Hrl, <- cmd_blocks_nblocks, <- Hlen. lia. }
  destruct (copy_to_chain_ok Ht (msg_next x) rest p) as (blk' & E & Hrw & Hh);
    [by apply Forall_drop|apply Ha|apply Ha|done|].
  exists blk'. assert (Hl' : linked blk' 0 (msg_next x)) by (by eapply linked_rewrites). split_and!.
  - unfold mlx5_copy_to_msg. cbn zeta. fold copy. simpl msg_next. fold rest. by rewrite (es_bind_ok _ _ _ _ _ E).
  - done.
  - split; simpl; auto; [by eapply adds_rewrites|]. split; [rewrite memcpy_length; lia|by apply memcpy_ok].
  - unfold dma_message. rewrite cmd_blocks_nblocks, <- Hrl.
    destruct (gather_linked blk' _ _ _ Hl' Hroom) as (xs & -> & HF & Hs). simpl.
    destruct (holds_data blk' xs _ _ Hh HF) as [Hd Htk]. rewrite Htk, Hs, bool_decide_eq_true_2.
    + simpl. f_equal. destruct (Nat.le_gt_cases (length from) 16) as [Hs16|Hb16].
      * assert (rest = []) as Hnil by (apply length_zero_iff_nil; lia).
        unfold copy. rewrite Nat.min_l by lia. rewrite take_app_le by (rewrite memcpy_length; lia).
        rewrite memcpy_take by lia. by rewrite take_ge by lia.
      * unfold copy in *. rewrite Nat.min_r in * by lia.
        rewrite take_app, memcpy_length, Hf by lia. rewrite take_ge by (rewrite memcpy_length; lia).
        unfold memcpy. rewrite drop_ge, app_nil_r by lia. rewrite <- Hrl, Hd.
        unfold rest. rewrite Nat.min_r by lia. apply take_drop.
    + do 2 f_equal. apply Forall2_length in HF. rewrite <- HF, length_take. lia.
Qed.
End Copy.

Lemma copy_from_chain_ok p xs : forall c size,
  (nblocks size <= length c)%nat -> Forall2 (fun b x => pl_blk p !! box_dma b = Some x) (take (nblocks size) c) xs ->
  Forall (fun x => length (pb_data x) = 512%nat) xs ->
  copy_from_chain c size p = Some (inr (take size (concat (pb_data <$> xs))), p).
Proof.
  induction xs as [|x xs IH]; intros c size Hr HF Hl; destruct size as [|size'].
  - by destruct c.
  - exfalso. rewrite nblocks_S in Hr, HF by lia. destruct c; [simpl in Hr; lia|inversion HF].
  - by destruct c.
  - remember (S size') as size eqn:Es. rewrite nblocks_S in Hr, HF by lia. destruct c as [|b c]; [simpl in Hr; lia|].
    rewrite firstn_cons in HF. apply Forall2_cons in HF as [Hx HF]. apply Forall_cons in Hl as [Hlx Hl].
    assert (Hn : (size - Nat.min size 512 = size - 512)%nat) by lia.
    cbn [copy_from_chain]. destruct (Nat.eqb_spec size 0); [lia|].
    rewrite (es_bind_ok _ _ _ x p) by (unfold block_at; by rewrite Hx). rewrite Hn.
    rewrite (es_bind_ok _ _ _ _ p (IH c (size - 512)%nat ltac:(simpl in Hr; lia) HF Hl)).
    unfold es_ret. do 3 f_equal. rewrite fmap_cons.
    change (concat (pb_data x :: (pb_data <$> xs))) with (pb_data x ++ concat (pb_data <$> xs)).
    rewrite take_app, Hlx. f_equal. destruct (Nat.le_gt_cases size 512).
    + by rewrite Nat.min_l by lia.
    + by rewrite Nat.min_r, !take_ge by lia.
Qed.

Lemma adds_lengths b0 c blk n xs :
  adds b0 c blk -> Forall2 (fun b x => blk !! box_dma b = Some x) (take n c) xs ->
  Forall (fun x => length (pb_data x) = 512%nat) xs.
Proof.
  intros A HF. assert (Hi : Forall (fun b => exists x, blk !! box_dma b = Some x /\ block_wf x) (take n c))
    by (apply Forall_take, A). clear A. induction HF as [|b x l xs Hx HF IH]; [done|].
  apply Forall_cons in Hi as [(y & Hy & W) Hi]. apply Forall_cons; split; [|auto].
  assert (x = y) as -> by congruence. apply W.
Qed.

(** The driver reads what the device finds. *)
Lemma copy_from_msg_ok p b0 x len tok d :
  msg_ok b0 x (pl_blk p) -> msg_len x = Z.of_nat len ->
  dma_message (pl_blk p) (msg_first x) (chain_dma (msg_next x)) len tok = Some d ->
  mlx5_copy_from_msg x len p = Some (inr d, p).
Proof.
  intros [Ha Hl [Hf _] Hr] Hlen Hd. assert (Hroom : (nblocks (len - 16) <= length (msg_next x))%nat).
  { rewrite <- cmd_blocks_nblocks, <- Hlen. lia. }
  unfold dma_message in Hd. rewrite cmd_blocks_nblocks in Hd.
  destruct (gather_linked (pl_blk p) _ _ _ Hl Hroom) as (xs & E & HF & _). rewrite E in Hd. simpl in Hd.
  destruct (_ && _); [|done]. injection Hd as <-. unfold mlx5_copy_from_msg.
  assert (En : (len - Nat.min len 16 = len - 16)%nat) by lia. rewrite En.
  rewrite (es_bind_ok _ _ _ _ p (copy_from_chain_ok p xs _ _ Hroom HF (adds_lengths _ _ _ _ _ Ha HF))).
  unfold es_ret. do 3 f_equal. rewrite take_app, Hf. f_equal. destruct (Nat.le_gt_cases len 16).
  - by rewrite Nat.min_l by lia.
  - by rewrite Nat.min_r, !take_ge by lia.
Qed.

(** ** Signing a chain *)

Lemma calc_sig_payload x : payload_eq x (calc_block_sig x).
Proof. split_and!; try done. split_and!; [done|done|apply calc_sig_wf]. Qed.

Lemma sign_chain_ok n : forall c p,
  NoDup (dmas c) -> Forall (fun b => exists x, pl_blk p !! box_dma b = Some x /\ block_wf x) c ->
  exists blk', sign_chain n c p = Some (inr tt, mkpool (pl_next p) blk') /\
    rewrites payload_eq (pl_blk p) c blk' /\
    Forall (fun b => exists x, blk' !! box_dma b = Some x /\ verify_block_sig x = 0) (take n c).
Proof.
  induction n as [|n IH]; intros c p Hnd Hc.
  { exists (pl_blk p). destruct p. split_and!; [by destruct c|apply (rewrites_refl _)|by apply Forall_nil]. }
  destruct c as [|b c].
  { exists (pl_blk p). destruct p. split_and!; [done|apply (rewrites_refl _)|by apply Forall_nil]. }
  apply Forall_cons in Hc as [(x & Hx & W) Hc]. rewrite fmap_cons in Hnd. apply NoDup_cons in Hnd as [Hbc Hnd].
  destruct (IH c (mkpool (pl_next p) (<[box_dma b := calc_block_sig x]> (pl_blk p)))) as (blk' & E & Hrw & Hv).
  - done.
  - rewrite Forall_forall in *. intros b' Hb'. simpl. rewrite lookup_insert_ne; [auto|].
    intros Eb. apply Hbc. rewrite Eb. apply list_elem_of_fmap. eauto.
  - exists blk'. split_and!.
    + simpl. rewrite (es_bind_ok _ _ _ tt (mkpool (pl_next p) (<[box_dma b := calc_block_sig x]> (pl_blk p)))); [exact E|].
      unfold on_block. by rewrite Hx.
    + by apply (rewrites_step payload_eq _ _ (<[box_dma b := calc_block_sig x]> (pl_blk p)) _ _ x (calc_block_sig x)); [|apply calc_sig_payload| |].
    + rewrite firstn_cons. apply Forall_cons; split; [|done]. exists (calc_block_sig x).
      split; [|by apply calc_sig_verifies]. rewrite (rw_old _ _ _ _ Hrw) by done. apply lookup_insert_eq.
Qed.

Lemma verify_chain_ok n : forall c p,
  Forall (fun b => exists x, pl_blk p !! box_dma b = Some x /\ verify_block_sig x = 0) (take n c) ->
  verify_chain n c p = Some (inr 0, p).
Proof.
  induction n as [|n IH]; intros [|b c] p Hv; try done. rewrite firstn_cons in Hv.
  apply Forall_cons in Hv as [(x & Hx & E) Hv]. simpl.
  rewrite (es_bind_ok _ _ _ x p) by (unfold block_at; by rewrite Hx). rewrite E. simpl. auto.
Qed.

(** A pool for the examples: the n-th request gets the n-th kilobyte. *)
Definition demo_pool : DmaPool.
Proof.
  refine {| pick n D := let a := 1024 * (Z.of_nat n + 1) in
              if bool_decide (a ∈ D) then None else if a <? 2 ^ 64 then Some a else None |}.
  intros n D a. cbn zeta. case_bool_decide as Hd; [done|]. destruct (Z.ltb_spec (1024 * (Z.of_nat n + 1)) (2 ^ 64)); [|done].
  intros [= <-]. split; [done|]. lia.
Defined.
