(* ===== verification/CmdExec.v ===== *)
(** * CmdExec: executing a command (mlx5/core/cmd.c)

    The command interface of the device: work entries, the slots of the command
    queue, the caches of input messages, the work handler that writes the
    descriptor and rings the doorbell, the completion handler, and the calls
    built on them, [mlx5_cmd_exec] and its polling and asynchronous variants.
    The firmware is a parameter: what it does to the descriptor and the DMA
    blocks once the doorbell rings, or that it does not answer in time.  A wait
    that nobody would end ([down] on a semaphore at 0) has no result, like
    undefined behaviour. *)

From S2P Require Import Prelude ErrState KHeap FragAlloc DbAlloc DrvState CmdMsg.

Open Scope es_scope.

Definition ENOMSG : Z := 42.
Definition EBADR : Z := 53.
Definition ETIMEDOUT : Z := 110.
Definition ECANCELED : Z := 125.

Definition MLX5_DRIVER_STATUS_ABORTED : Z := 254.
Definition MLX5_DRIVER_SYND : Z := 3135045854.
Definition MLX5_CMD_OP_MANAGE_PAGES : Z := 264.
Definition MLX5_PCI_CMD_XPORT : Z := 7.
Definition CMD_OWNER_HW : Z := 1.
Definition MLX5_NUM_COMMAND_CACHES : nat := 5.

(** ** Status codes *)

Definition cmd_status_to_err (status : Z) : Z :=
  match status with
  | 0 => 0                (* OK *)
  | 1 => - EIO            (* INT_ERR *)
  | 2 => - EINVAL         (* BAD_OP_ERR *)
  | 3 => - EINVAL         (* BAD_PARAM_ERR *)
  | 4 => - EIO            (* BAD_SYS_STATE_ERR *)
  | 5 => - EINVAL         (* BAD_RES_ERR *)
  | 6 => - EBUSY          (* RES_BUSY *)
  | 8 => - ENOMEM         (* LIM_ERR *)
  | 9 => - EINVAL         (* BAD_RES_STATE_ERR *)
  | 10 => - EINVAL        (* IX_ERR *)
  | 15 => - EAGAIN        (* NO_RES_ERR *)
  | 16 => - EINVAL        (* BAD_QP_STATE_ERR *)
  | 48 => - EINVAL        (* BAD_PKT_ERR *)
  | 64 => - EINVAL        (* BAD_SIZE_OUTS_CQES_ERR *)
  | 80 => - EIO           (* BAD_INP_LEN_ERR *)
  | 81 => - EIO           (* BAD_OUTP_LEN_ERR *)
  | _ => - EIO
  end.

(** Delivery status, of the descriptor's [status_own]. *)
Definition status_to_err (status : Z) : Z :=
  match status with
  | 0 | 254 => 0          (* OK, MLX5_DRIVER_STATUS_ABORTED *)
  | 1 | 2 => - EBADR      (* SIGNAT_ERR, TOK_ERR *)
  | 3 | 4 | 5 => - EFAULT (* BAD_BLK_NUM_ERR, OUT_PTR_ALIGN_ERR, IN_PTR_ALIGN_ERR *)
  | 7 | 8 | 16 | 9 => - ENOMSG (* IN_LENGTH_ERR, OUT_LENGTH_ERR, CMD_DESCR_ERR, RES_FLD_NOT_CLR_ERR *)
  | 6 => - EIO            (* FW_ERR *)
  | _ => - EINVAL
  end.

(** struct mlx5_ifc_mbox_in_bits, struct mlx5_ifc_mbox_out_bits *)
Definition mbox_in_opcode (m : list Z) : Z := be_val (take 2 m).
Definition mbox_out_status (m : list Z) : Z := nth 0 m 0.
Definition set_mbox_out (status synd : Z) (m : list Z) : option (list Z) :=
  if (length m <? 8)%nat then None
  else Some ([u8 status] ++ take 3 (drop 1 m) ++ be32 synd ++ drop 8 m).

Definition mlx5_cmd_check (out : list Z) : Z :=
  let status := mbox_out_status out in
  if status =? 0 then 0 else cmd_status_to_err status.

(** The opcodes mlx5_internal_err_ret_value answers with success, in the order
    of its switch (TEARDOWN_HCA .. ACCESS_REG), and those it refuses
    (QUERY_HCA_CAP .. SYNC_STEERING). *)
Definition internal_err_done : list Z := [
  259; 261; 264; 514; 770; 1025; 1281; 1813; 1537; 1793; 1798; 1816; 1809; 1906; 1923; 1927; 2049;
  2051; 2055; 2063; 2071; 2088; 2091; 2115; 2117; 2306; 2310; 2314; 2318; 2324; 2328; 2353; 2356;
  2360; 2362; 1825; 1828; 1287; 1290; 1877; 2364; 2358; 2351; 2366; 2369; 2403; 2563; 518; 516;
  2434; 1856; 276; 2073; 2080; 2081; 1893; 2053].

Definition internal_err_aborted : list Z := [
  256; 257; 258; 260; 263; 265; 266; 267; 270; 271; 512; 513; 515; 769; 771; 772; 1024; 1026; 1027;
  1280; 1282; 1283; 1284; 1285; 1286; 1291; 1292; 1294; 1536; 1792; 1794; 1795; 1797; 1799; 1800;
  1815; 1817; 1818; 1808; 1810; 1811; 1812; 1872; 1873; 1874; 1875; 1876; 1888; 1889; 1890; 1891;
  1892; 1903; 1904; 1905; 1907; 1908; 1909; 1920; 1921; 1922; 1924; 1925; 1926; 2048; 2050; 2052;
  2054; 2058; 1293; 2059; 2060; 2061; 2062; 2070; 2082; 2083; 2084; 2085; 2086; 2087; 2089; 2090;
  2112; 2113; 2114; 2116; 2304; 2305; 2307; 2308; 2309; 2311; 2312; 2313; 2315; 2316; 2317; 2319;
  2322; 2323; 2325; 2326; 2327; 2329; 1824; 1826; 1827; 1832; 2352; 2354; 2355; 2357; 2359; 2361;
  2363; 2365; 2368; 2400; 2401; 2402; 2404; 2560; 2561; 2562; 2564; 2566; 2568; 2570; 517; 273;
  275; 2816].

(** The result with [*synd] and [*status]. *)
Definition mlx5_internal_err_ret_value (op : Z) : Z * Z * Z :=
  if bool_decide (op ∈ internal_err_done) then (0, 0, 0)
  else if bool_decide (op ∈ internal_err_aborted) then (- EIO, MLX5_DRIVER_SYND, MLX5_DRIVER_STATUS_ABORTED)
  else (- EINVAL, 0, 0).

(** ** State *)

(** struct mlx5_cmd_work_ent.  [ent_uout] is the caller's output buffer, the
    callback is the context it is called with, [ent_handled] and [ent_done] are
    the completions. *)
Record work_ent := mkent {
  ent_pending : bool; ent_in : mlx5_cmd_msg; ent_out : mlx5_cmd_msg; ent_uout : list Z;
  ent_callback : option nat; ent_idx : nat; ent_handled : bool; ent_done : bool;
  ent_ret : Z; ent_page_queue : bool; ent_status : Z; ent_token : Z; ent_op : Z; ent_polling : bool }.

Definition sizeof_ent : Z := 304.

Definition ent_set_pending (b : bool) (e : work_ent) : work_ent :=
  mkent b (ent_in e) (ent_out e) (ent_uout e) (ent_callback e) (ent_idx e) (ent_handled e) (ent_done e)
        (ent_ret e) (ent_page_queue e) (ent_status e) (ent_token e) (ent_op e) (ent_polling e).
Definition ent_set_out (m : mlx5_cmd_msg) (u : list Z) (e : work_ent) : work_ent :=
  mkent (ent_pending e) (ent_in e) m u (ent_callback e) (ent_idx e) (ent_handled e) (ent_done e)
        (ent_ret e) (ent_page_queue e) (ent_status e) (ent_token e) (ent_op e) (ent_polling e).
Definition ent_set_comp (h d : bool) (e : work_ent) : work_ent :=
  mkent (ent_pending e) (ent_in e) (ent_out e) (ent_uout e) (ent_callback e) (ent_idx e) h d
        (ent_ret e) (ent_page_queue e) (ent_status e) (ent_token e) (ent_op e) (ent_polling e).
Definition ent_set_ret (r st : Z) (e : work_ent) : work_ent :=
  mkent (ent_pending e) (ent_in e) (ent_out e) (ent_uout e) (ent_callback e) (ent_idx e) (ent_handled e) (ent_done e)
        r (ent_page_queue e) st (ent_token e) (ent_op e) (ent_polling e).
Definition ent_set_slot (i : nat) (op : Z) (e : work_ent) : work_ent :=
  mkent (ent_pending e) (ent_in e) (ent_out e) (ent_uout e) (ent_callback e) i (ent_handled e) (ent_done e)
        (ent_ret e) (ent_page_queue e) (ent_status e) (ent_token e) op (ent_polling e).

(** The slots of the command queue: free bits, semaphores, the entry of each
    slot, the live entries, the descriptors. *)
Record slots := mkslots {
  s_bitmask : Z; s_sem : Z; s_pages_sem : Z; s_ent_arr : gmap nat nat; s_ents : gmap nat work_ent;
  s_lay : gmap nat mlx5_cmd_layout }.

Definition set_bitmask (b : Z) (s : slots) : slots :=
  mkslots b (s_sem s) (s_pages_sem s) (s_ent_arr s) (s_ents s) (s_lay s).
Definition set_sems (a p : Z) (s : slots) : slots := mkslots (s_bitmask s) a p (s_ent_arr s) (s_ents s) (s_lay s).
Definition set_arr (i e : nat) (s : slots) : slots :=
  mkslots (s_bitmask s) (s_sem s) (s_pages_sem s) (<[i := e]> (s_ent_arr s)) (s_ents s) (s_lay s).
Definition set_ents (m : gmap nat work_ent) (s : slots) : slots :=
  mkslots (s_bitmask s) (s_sem s) (s_pages_sem s) (s_ent_arr s) m (s_lay s).
Definition set_lay (i : nat) (l : mlx5_cmd_layout) (s : slots) : slots :=
  mkslots (s_bitmask s) (s_sem s) (s_pages_sem s) (s_ent_arr s) (s_ents s) (<[i := l]> (s_lay s)).

(** struct cmd_msg_cache *)
Record cmd_msg_cache := mkch {
  ch_head : list mlx5_cmd_msg; ch_max_inbox_size : Z; ch_num_ent : Z; ch_miss : Z;
  ch_total_commands : Z; ch_free : Z }.

(** What mlx5_cmd_init and the state of the device fix during a call.
    [g_wq_busy] says that the worker is held up by other commands for longer
    than a caller waits. *)
Record cmd_cfg := mkcfg {
  g_log_sz : nat; g_checksum_disabled : bool; g_polling : bool; g_allowed_opcode : Z;
  g_offline : bool; g_internal_error : bool; g_wq_busy : bool }.

Definition nslots (g : cmd_cfg) : nat := 2 ^ g_log_sz g.
Definition max_reg_cmds (g : cmd_cfg) : nat := nslots g - 1.

(** struct mlx5_cmd; [c_called] are the calls of callbacks: context, status and
    the output buffer at that time. *)
Record mlx5_cmd (F : Type) := mkcmd {
  c_pool : pool; c_slots : slots; c_caches : list cmd_msg_cache; c_token : Z; c_real_miss : Z;
  c_called : list (nat * Z * list Z); c_fw : F }.
Arguments mkcmd {F}. Arguments c_pool {F}. Arguments c_slots {F}. Arguments c_caches {F}.
Arguments c_token {F}. Arguments c_real_miss {F}. Arguments c_called {F}. Arguments c_fw {F}.

(** What the firmware does with a descriptor handed to it; [None]: no answer. *)
Class Firmware (F : Type) := {
  fw_exec : F -> mlx5_cmd_layout -> gmap Z mlx5_cmd_prot_block ->
            option (F * mlx5_cmd_layout * gmap Z mlx5_cmd_prot_block) }.

Inductive mlx5_comp_t := COMP_EVENT | COMP_FORCED | COMP_POLLING.

Definition is_forced (c : mlx5_comp_t) : bool := match c with COMP_FORCED => true | _ => false end.
Definition is_event (c : mlx5_comp_t) : bool := match c with COMP_EVENT => true | _ => false end.
Definition is_polling (c : mlx5_comp_t) : bool := match c with COMP_POLLING => true | _ => false end.

Section Exec.
Context {F : Type} `{!DmaPool} `{!Firmware F} (o : oracle) (g : cmd_cfg).
Notation C := (mlx5_cmd F).
Notation cs := (es (drv C)).

Definition set_pool (p : pool) (c : C) : C :=
  mkcmd p (c_slots c) (c_caches c) (c_token c) (c_real_miss c) (c_called c) (c_fw c).
Definition set_slots (s : slots) (c : C) : C :=
  mkcmd (c_pool c) s (c_caches c) (c_token c) (c_real_miss c) (c_called c) (c_fw c).
Definition set_caches (l : list cmd_msg_cache) (c : C) : C :=
  mkcmd (c_pool c) (c_slots c) l (c_token c) (c_real_miss c) (c_called c) (c_fw c).
Definition set_tok (t : Z) (c : C) : C :=
  mkcmd (c_pool c) (c_slots c) (c_caches c) t (c_real_miss c) (c_called c) (c_fw c).
Definition set_miss (n : Z) (c : C) : C :=
  mkcmd (c_pool c) (c_slots c) (c_caches c) (c_token c) n (c_called c) (c_fw c).
Definition add_called (x : nat * Z * list Z) (c : C) : C :=
  mkcmd (c_pool c) (c_slots c) (c_caches c) (c_token c) (c_real_miss c) (c_called c ++ [x]) (c_fw c).
Definition set_fw (f : F) (c : C) : C :=
  mkcmd (c_pool c) (c_slots c) (c_caches c) (c_token c) (c_real_miss c) (c_called c) f.

Definition getc : cs C := on_rest es_get.
Definition modc (f : C -> C) : cs unit := on_rest (es_mod f).
Definition mods (f : slots -> slots) : cs unit := modc (fun c => set_slots (f (c_slots c)) c).
Definition on_pool {A} (m : es (drv pool) A) : cs A := on_part c_pool set_pool m.
(** The result of a call whose error the caller looks at. *)
Definition es_try {S A} (m : es S A) : es S (Z + A) := fun s => '(r, s') ← m s; Some (inr r, s').

Definition get_ent (e : nat) : cs work_ent := do! c := getc in es_lift (s_ents (c_slots c) !! e).
Definition mod_ent (e : nat) (f : work_ent -> work_ent) : cs unit :=
  do! x := get_ent e in mods (fun s => set_ents (<[e := f x]> (s_ents s)) s).

(** ** Slots, tokens, semaphores *)

Definition find_first_bit (mask : Z) (n : nat) : nat :=
  default n (List.find (fun i => Z.testbit mask (Z.of_nat i)) (seq 0 n)).

Definition alloc_ent : cs Z :=
  do! c := getc in
  let ret := find_first_bit (s_bitmask (c_slots c)) (max_reg_cmds g) in
  (when (ret <? max_reg_cmds g)%nat then! mods (fun s => set_bitmask (Z.clearbit (s_bitmask s) (Z.of_nat ret)) s));;
  es_ret (if (ret <? max_reg_cmds g)%nat then Z.of_nat ret else - ENOMEM).

Definition free_ent (idx : nat) : cs unit :=
  mods (fun s => set_bitmask (Z.setbit (s_bitmask s) (Z.of_nat idx)) s).

Definition alloc_token : cs Z :=
  do! c := getc in
  let t := u8 (c_token c + 1) in
  let t := if t =? 0 then u8 (t + 1) else t in
  modc (set_tok t);; es_ret t.

Definition down (pages : bool) : cs unit :=
  do! c := getc in
  let s := c_slots c in
  if pages then (if s_pages_sem s <=? 0 then es_undef else mods (set_sems (s_sem s) (s_pages_sem s - 1)))
  else if s_sem s <=? 0 then es_undef else mods (set_sems (s_sem s - 1) (s_pages_sem s)).
Definition up (pages : bool) : cs unit :=
  mods (fun s => if pages then set_sems (s_sem s) (s_pages_sem s + 1) s else set_sems (s_sem s + 1) (s_pages_sem s) s).

Definition opcode_allowed (op : Z) : bool := (g_allowed_opcode g =? 0) || (g_allowed_opcode g =? op).
Definition device_down : bool := g_offline g || g_internal_error g.

(** ** Entries and messages *)

Definition alloc_cmd (inb outb : mlx5_cmd_msg) (uout : list Z) (cbk : option nat) (page_queue : bool)
    (token : Z) (polling : bool) : cs nat :=
  do! e := d_kzalloc o sizeof_ent in
  mods (fun s => set_ents (<[e := mkent false inb outb uout cbk 0 false false 0 page_queue 0 token 0 polling]> (s_ents s)) s);;
  es_ret e.

Definition free_cmd (e : nat) : cs unit :=
  do! _ := get_ent e in
  mods (fun s => set_ents (delete e (s_ents s)) s);; d_kfree e.

Definition on_cache (i : nat) (f : cmd_msg_cache -> cmd_msg_cache) : cs unit :=
  do! c := getc in do! ch := es_lift (c_caches c !! i) in modc (set_caches (<[i := f ch]> (c_caches c))).

Definition free_msg (m : mlx5_cmd_msg) : cs unit :=
  match msg_parent m with
  | Some i => on_cache i (fun ch => mkch (ch_head ch ++ [m]) (ch_max_inbox_size ch) (ch_num_ent ch) (ch_miss ch)
                                         (ch_total_commands ch) (ch_free ch + 1))
  | None => on_pool (mlx5_free_cmd_msg m)
  end.

(** The search of alloc_msg through the caches from [i] on, with what has been
    accounted already. *)
Fixpoint cache_lookup (in_size : Z) (total miss : bool) (l : list cmd_msg_cache)
  : list cmd_msg_cache * option mlx5_cmd_msg :=
  match l with
  | [] => ([], None)
  | ch :: r =>
      if ch_max_inbox_size ch <? in_size
      then let '(r, m) := cache_lookup in_size total miss r in (ch :: r, m)
      else
        let tc := if total then ch_total_commands ch else ch_total_commands ch + 1 in
        match ch_head ch with
        | [] => let ms := if miss then ch_miss ch else ch_miss ch + 1 in
                let '(r, m) := cache_lookup in_size true true r in
                (mkch [] (ch_max_inbox_size ch) (ch_num_ent ch) ms tc (ch_free ch) :: r, m)
        | m :: h => (mkch h (ch_max_inbox_size ch) (ch_num_ent ch) (ch_miss ch) tc (ch_free ch - 1) :: r,
                     Some (set_len in_size m))
        end
  end.

Definition alloc_msg (in_size : Z) : cs mlx5_cmd_msg :=
  do! c := getc in
  let '(l, m) := if in_size <=? 16 then (c_caches c, None) else cache_lookup in_size false false (c_caches c) in
  modc (set_caches l);;
  match m with
  | Some m => es_ret m
  | None => (when 16 <? in_size then! modc (set_miss (c_real_miss c + 1)));;
            on_pool (mlx5_alloc_cmd_msg o in_size 0)
  end.

(** ** Completion *)

(** The part of mlx5_cmd_comp_handler that reads the result of the command;
    [trig] is the bit MLX5_TRIGGERED_CMD_COMP of the vector. *)
Definition read_result (trig : bool) (e : nat) : cs unit :=
  do! ent := get_ent e in
  do! c := getc in
  do! lay := es_lift (s_lay (c_slots c) !! ent_idx ent) in
  (when negb device_down then! mod_ent e (ent_set_out (set_first (lay_out lay) (ent_out ent)) (ent_uout ent)));;
  when ent_ret ent =? 0 then!
    do! ret := (if g_checksum_disabled g then es_ret 0 else on_pool (on_rest (verify_signature lay (ent_out ent)))) in
    mod_ent e (ent_set_ret ret (if trig then MLX5_DRIVER_STATUS_ABORTED else lay_status_own lay >>. 1)).

Definition complete_callback (forced : bool) (e ctx : nat) : cs unit :=
  do! ent := get_ent e in
  do! r := (if ent_ret ent =? 0
            then es_try (on_pool (on_rest (mlx5_copy_from_msg (ent_out ent) (length (ent_uout ent)))))
            else es_ret (inl (ent_ret ent))) in
  let uout := match r with inr d => d | inl _ => ent_uout ent end in
  let err := match r with inr d => mlx5_cmd_check d | inl err => err end in
  on_pool (mlx5_free_cmd_msg (ent_out ent));;
  free_msg (ent_in ent);;
  let err := if err =? 0 then ent_status ent else err in
  (when negb forced then! free_cmd e);;
  modc (add_called (ctx, err, uout)).

Definition complete_waiter (e : nat) : cs unit :=
  do! ent := get_ent e in
  (when ent_ret ent =? 0 then!
    do! r := es_try (on_pool (on_rest (mlx5_copy_from_msg (ent_out ent) (length (ent_uout ent))))) in
    match r with inr d => mod_ent e (ent_set_out (ent_out ent) d) | inl _ => es_ret tt end);;
  on_pool (mlx5_free_cmd_msg (ent_out ent));;
  mod_ent e (ent_set_comp (ent_handled ent) true).

(** The body of the loop of mlx5_cmd_comp_handler, for the bit [i]. *)
Definition comp_one (trig : bool) (ct : mlx5_comp_t) (i : nat) : cs unit :=
  do! c := getc in
  do! e := es_lift (s_ent_arr (c_slots c) !! i) in
  do! ent := get_ent e in
  mod_ent e (ent_set_pending false);;
  (when negb (ent_pending ent) && is_event ct && negb (ent_polling ent) then!
    (free_ent (ent_idx ent);; free_cmd e));;
  if negb (ent_pending ent) && negb (is_polling ct) then es_ret tt
  else if ent_pending ent && ent_polling ent && is_event ct then es_ret tt
  else
    read_result trig e;;
    (when negb (is_forced ct) then! free_ent (ent_idx ent));;
    match ent_callback ent with
    | Some ctx => complete_callback (is_forced ct) e ctx
    | None => complete_waiter e
    end;;
    up (ent_page_queue ent).

Fixpoint comp_loop (trig : bool) (ct : mlx5_comp_t) (vec : Z) (l : list nat) : cs unit :=
  match l with
  | [] => es_ret tt
  | i :: r => (when Z.testbit vec (Z.of_nat i) then! comp_one trig ct i);; comp_loop trig ct vec r
  end.

Definition mlx5_cmd_comp_handler (vec : Z) (ct : mlx5_comp_t) : cs unit :=
  comp_loop (Z.testbit vec 32) ct (vec .& 4294967295) (seq 0 (nslots g)).

(** Complete every command whose slot is not free, when the device has failed;
    bit 32 marks the vector. *)
Definition mlx5_cmd_trigger_completions : cs unit :=
  do! c := getc in
  let vector := Z.lnot (s_bitmask (c_slots c)) .& ((1 <<. Z.of_nat (nslots g)) - 1) in
  if vector =? 0 then es_ret tt
  else mlx5_cmd_comp_handler (vector .| (1 <<. 32)) COMP_FORCED.

(** ** Issuing *)

(** The descriptor cmd_work_handler writes, before it is signed. *)
Definition descriptor (inb outb : mlx5_cmd_msg) (token : Z) : mlx5_cmd_layout :=
  mklay MLX5_PCI_CMD_XPORT (zeros 3) (msg_len inb) (chain_dma (msg_next inb)) (msg_first inb) (zeros 16)
        (chain_dma (msg_next outb)) (msg_len outb) token 0 0 CMD_OWNER_HW.

Definition set_signature (idx : nat) (inb outb : mlx5_cmd_msg) (csum : bool) : cs unit :=
  do! c := getc in
  do! lay := es_lift (s_lay (c_slots c) !! idx) in
  mods (set_lay idx (sign_layout lay));;
  when csum then! (on_pool (on_rest (calc_chain_sig inb));; on_pool (on_rest (calc_chain_sig outb))).

(** The slot of an entry: a free one, or the one reserved for page commands. *)
Definition take_slot (page_queue : bool) : cs Z :=
  if page_queue
  then mods (fun s => set_bitmask (Z.clearbit (s_bitmask s) (Z.of_nat (max_reg_cmds g))) s);; es_ret (Z.of_nat (max_reg_cmds g))
  else alloc_ent.

(** No slot although the semaphore let the command in. *)
Definition refuse_work (e : nat) : cs unit :=
  do! ent := get_ent e in
  match ent_callback ent with
  | Some ctx => modc (add_called (ctx, - EAGAIN, ent_uout ent));;
                on_pool (mlx5_free_cmd_msg (ent_out ent));; free_msg (ent_in ent);; free_cmd e
  | None => mod_ent e (ent_set_ret (- EAGAIN) (ent_status ent));;
            on_pool (mlx5_free_cmd_msg (ent_out ent));; mod_ent e (ent_set_comp (ent_handled ent) true)
  end;;
  up (ent_page_queue ent).

(** cmd_work_handler up to the point where the command is pending in its slot:
    the slot, or [None] when there was none. *)
Definition work_start (e : nat) : cs (option nat) :=
  do! ent := get_ent e in
  (when bool_decide (ent_callback ent = None) then! mod_ent e (ent_set_comp true (ent_done ent)));;
  down (ent_page_queue ent);;
  do! idx := take_slot (ent_page_queue ent) in
  if idx <? 0 then refuse_work e;; es_ret None
  else
    let idx := Z.to_nat idx in
    mods (set_arr idx e);;
    mods (set_lay idx (descriptor (ent_in ent) (ent_out ent) (ent_token ent)));;
    mod_ent e (ent_set_slot idx (mbox_in_opcode (msg_first (ent_in ent))));;
    set_signature idx (ent_in ent) (ent_out ent) (negb (g_checksum_disabled g));;
    mod_ent e (ent_set_pending true);;
    es_ret (Some idx).

(** The firmware's turn on the descriptor of slot [idx]. *)
Definition fw_run (idx : nat) : cs bool :=
  do! c := getc in
  do! lay := es_lift (s_lay (c_slots c) !! idx) in
  match fw_exec (c_fw c) lay (pl_blk (c_pool c)) with
  | None => es_ret false
  | Some (f, l, b) =>
      modc (fun c => set_fw f (set_pool (mkpool (pl_next (c_pool c)) b) (set_slots (set_lay idx l (c_slots c)) c)));;
      es_ret true
  end.

Definition slot_bit (idx : nat) : Z := 1 <<. Z.of_nat idx.

(** The command is not sent: the device is down or the opcode not allowed. The
    status and the syndrome go to the first eight bytes of ent->out itself, the
    list link of a message that is on no list: nothing reads them. *)
Definition skip_work (e : nat) : cs unit :=
  do! ent := get_ent e in
  let '(ret, _, _) := mlx5_internal_err_ret_value (mbox_in_opcode (msg_first (ent_in ent))) in
  mod_ent e (ent_set_ret ret (ent_status ent));;
  mlx5_cmd_comp_handler (slot_bit (ent_idx ent)) COMP_FORCED;;
  do! ent := get_ent e in
  free_ent (ent_idx ent);;
  when bool_decide (ent_callback ent <> None) then! free_cmd e.

(** poll_timeout and the completion after it *)
Definition poll_work (e idx : nat) : cs unit :=
  do! answered := fw_run idx in
  do! ent := get_ent e in
  mod_ent e (ent_set_ret (if answered then 0 else - ETIMEDOUT) (ent_status ent));;
  mlx5_cmd_comp_handler (slot_bit idx) (if answered then COMP_POLLING else COMP_FORCED).

Definition cmd_work_handler (e : nat) : cs unit :=
  do! idx := work_start e in
  match idx with
  | None => es_ret tt
  | Some idx =>
      do! ent := get_ent e in
      if device_down || negb (opcode_allowed (ent_op ent)) then skip_work e
      else when g_polling g || ent_polling ent then! poll_work e idx
  end.

(** A wait that timed out, mlx5_cmd_eq_recover finding nothing; the same for an
    asynchronous command whose timer ran out. *)
Definition wait_func_handle_exec_timeout (e : nat) : cs unit :=
  do! ent := get_ent e in
  mod_ent e (ent_set_ret (- ETIMEDOUT) (ent_status ent));;
  mlx5_cmd_comp_handler (slot_bit (ent_idx ent)) COMP_FORCED.
Definition cb_timeout_handler (e : nat) : cs unit :=
  do! ent := get_ent e in
  mod_ent e (ent_set_ret (- ETIMEDOUT) (ent_status ent));;
  mlx5_cmd_comp_handler (slot_bit (ent_idx ent)) COMP_FORCED.

(** Waiting for the completion of a command sent in event mode: the event
    comes, or the wait times out. *)
Definition wait_event (e : nat) : cs unit :=
  do! ent := get_ent e in
  do! answered := fw_run (ent_idx ent) in
  if answered then mlx5_cmd_comp_handler (slot_bit (ent_idx ent)) COMP_EVENT
  else wait_func_handle_exec_timeout e.

Definition wait_func (e : nat) : cs Z :=
  do! ent := get_ent e in
  (if negb (ent_handled ent) then mod_ent e (ent_set_ret (- ECANCELED) (ent_status ent))
   else when negb (ent_done ent) then! wait_event e);;
  do! ent := get_ent e in es_ret (ent_ret ent).

(** The result: error, delivery status and the caller's output buffer. *)
Definition mlx5_cmd_invoke (inb outb : mlx5_cmd_msg) (uout : list Z) (cbk : option nat) (page_queue : bool)
    (token : Z) (force_polling : bool) : cs (Z * Z * list Z) :=
  if bool_decide (cbk <> None) && page_queue then es_ret (- EINVAL, 0, uout)
  else
    do! r := es_try (alloc_cmd inb outb uout cbk page_queue token force_polling) in
    match r with
    | inl err => es_ret (err, 0, uout)
    | inr e =>
        (when page_queue || negb (g_wq_busy g) then! cmd_work_handler e);;
        match cbk with
        | Some _ => es_ret (0, 0, uout)
        | None =>
            do! err := wait_func e in
            do! ent := get_ent e in
            if err =? - ETIMEDOUT then es_ret (err, 0, ent_uout ent)
            else if err =? - ECANCELED then free_cmd e;; es_ret (err, 0, ent_uout ent)
            else free_cmd e;; es_ret (err, ent_status ent, ent_uout ent)
        end
    end.

Definition is_manage_pages (inp : list Z) : bool := mbox_in_opcode inp =? MLX5_CMD_OP_MANAGE_PAGES.

(** The error and the output buffer afterwards. *)
Definition cmd_exec (inp out : list Z) (cbk : option nat) (force_polling : bool) : cs (Z * list Z) :=
  let opcode := mbox_in_opcode inp in
  if device_down || negb (opcode_allowed opcode) then
    let '(err, synd, status) := mlx5_internal_err_ret_value opcode in
    do! out := es_lift (set_mbox_out status synd out) in es_ret (err, out)
  else
    do! r := es_try (alloc_msg (Z.of_nat (length inp))) in
    match r with
    | inl err => es_ret (err, out)
    | inr inb =>
        let fail (inb : mlx5_cmd_msg) (err : Z) :=
          (when bool_decide (cbk = None) then! free_msg inb);; es_ret (err, out) in
        do! token := alloc_token in
        do! r := es_try (on_pool (on_rest (mlx5_copy_to_msg inb inp token))) in
        match r with
        | inl err => fail inb err
        | inr inb =>
            do! r := es_try (on_pool (mlx5_alloc_cmd_msg o (Z.of_nat (length out)) token)) in
            match r with
            | inl err => fail inb err
            | inr outb =>
                do! (err, status, uout) :=
                  mlx5_cmd_invoke inb outb out cbk (is_manage_pages inp) token force_polling in
                let err := if negb (err =? 0) then err
                           else if negb (status =? 0) then status_to_err status else 0 in
                (when bool_decide (cbk = None) then! free_msg inb);;
                es_ret (err, uout)
            end
        end
    end.

Definition checked (r : Z * list Z) : Z * list Z :=
  let '(err, out) := r in (if negb (err =? 0) then err else mlx5_cmd_check out, out).

Definition mlx5_cmd_exec (inp out : list Z) : cs (Z * list Z) :=
  do! r := cmd_exec inp out None false in es_ret (checked r).
Definition mlx5_cmd_exec_polling (inp out : list Z) : cs (Z * list Z) :=
  do! r := cmd_exec inp out None true in es_ret (checked r).
End Exec.
