(* ===== verification/CmdFw.v ===== *)
(** * CmdFw: what the driver relies on of the firmware

    The class [FirmwareOk]: handed a well-formed, signed descriptor whose input
    message can be read, the firmware answers into the output message, or not in
    time; it touches nothing else.  [fw_of] is a firmware that does so for any
    function from commands to replies. *)

From S2P Require Import Prelude ErrState KHeap FragAlloc DbAlloc DrvState CmdMsg CmdExec.

Open Scope es_scope.
Notation blocks := (gmap Z mlx5_cmd_prot_block).

(** ** Messages beside one another *)

Lemma adds_sub b c blk : adds b c blk -> b ⊆ blk.
Proof.
  intros [Hn _ Ho _]. apply map_subseteq_spec. intros a x Hx. rewrite Ho; [done|].
  intros Ha. apply list_elem_of_fmap in Ha as (y & -> & Hy). rewrite Forall_forall in Hn.
  destruct (Hn y Hy) as [? _]. congruence.
Qed.

Lemma gather_sub b blk n : b ⊆ blk -> forall ptr xs, gather b n ptr = Some xs -> gather blk n ptr = Some xs.
Proof.
  intros Hs. induction n as [|n IH]; intros ptr xs; [done|]. simpl. destruct (b !! ptr) as [x|] eqn:E; [|done].
  rewrite (lookup_weaken _ _ _ _ E Hs). simpl. destruct (gather b n (pb_next x)) as [r|] eqn:Er; [|done].
  by rewrite (IH _ _ Er).
Qed.

Lemma dma_message_sub b blk first ptr len tok d :
  b ⊆ blk -> dma_message b first ptr len tok = Some d -> dma_message blk first ptr len tok = Some d.
Proof.
  intros Hs. unfold dma_message. destruct (gather b _ ptr) as [xs|] eqn:E; [|done].
  by rewrite (gather_sub _ _ _ Hs _ _ E).
Qed.

Lemma linked_sub b blk c : b ⊆ blk -> forall k, linked b k c -> linked blk k c.
Proof.
  intros Hs. induction c as [|y c IH]; [done|]. intros k [(x & Hx & ? & ?) Hl]. split; [|by apply IH].
  exists x. by rewrite (lookup_weaken _ _ _ _ Hx Hs).
Qed.

(** The pool without the blocks of a chain. *)
Definition without (c : list mlx5_cmd_mailbox) (blk : blocks) : blocks :=
  filter (fun ax => ax.1 ∉ (box_dma <$> c)) blk.

Lemma without_lookup c blk a : a ∉ (box_dma <$> c) -> without c blk !! a = blk !! a.
Proof.
  intros Ha. unfold without. destruct (blk !! a) as [x|] eqn:E.
  - by apply map_lookup_filter_Some.
  - apply map_lookup_filter_None. by left.
Qed.
Lemma without_in c blk a : a ∈ (box_dma <$> c) -> without c blk !! a = None.
Proof. intros Ha. apply map_lookup_filter_None. right. intros x _ H. by apply H. Qed.

(** Rewriting blocks of another chain leaves the chain [c] on top of the
    rewritten rest. *)
Lemma adds_under R b c blk c' blk' :
  (forall x y, R x y -> link_eq x y) -> adds b c blk -> rewrites R blk c' blk' ->
  (forall a, a ∈ (box_dma <$> c') -> a ∉ (box_dma <$> c)) ->
  exists b', adds b' c blk' /\ rewrites R b c' b'.
Proof.
  intros HR [Hn Hd Ho Hi] [Ho' Hi'] Hdis. exists (without c blk'). split.
  - split; [|done| |].
    + rewrite Forall_forall in *. intros y Hy. split; [|by apply Hn]. apply without_in, list_elem_of_fmap. eauto.
    + intros a Ha. by rewrite without_lookup.
    + rewrite Forall_forall in *. intros y Hy. destruct (Hi y Hy) as (x & Hx & W).
      destruct (Hi' _ _ Hx) as (z & Hz & Hxz). exists z. split; [done|]. apply (HR x z Hxz). done.
  - split.
    + intros a Ha. destruct (decide (a ∈ (box_dma <$> c))) as [Hac|Hac].
      * rewrite without_in by done. apply list_elem_of_fmap in Hac as (y & -> & Hy). rewrite Forall_forall in Hn.
        by destruct (Hn y Hy) as [-> _].
      * rewrite without_lookup, Ho', Ho by done. done.
    + intros a x Hx. assert (Hac : a ∉ (box_dma <$> c)).
      { intros Hac. apply list_elem_of_fmap in Hac as (y & -> & Hy). rewrite Forall_forall in Hn.
        destruct (Hn y Hy) as [? _]. congruence. }
      rewrite without_lookup by done. apply Hi'. by rewrite Ho.
Qed.

(** ** The contract *)

(** The blocks of a message verify. *)
Definition signed_chain (blk : blocks) (n : Z) (ptr : Z) : Prop :=
  exists xs, gather blk (Z.to_nat n) ptr = Some xs /\ Forall (fun x => verify_block_sig x = 0) xs.

(** The answer [r] to the descriptor [l] whose output goes to the chain [c]. *)
Record answers (csum : bool) (l : mlx5_cmd_layout) (c : list mlx5_cmd_mailbox) (blk : blocks)
    (l' : mlx5_cmd_layout) (blk' : blocks) (r : list Z) : Prop := {
  an_blocks : rewrites link_eq blk c blk';
  an_layout : layout_wf l';
  an_status : lay_status_own l' = 0;
  an_reply : dma_message blk' (lay_out l') (chain_dma c) (Z.to_nat (lay_outlen l)) (lay_token l) = Some r;
  an_signed : csum = true -> xor8_buf (layout_bytes l') 0 64 = 255 /\
    Forall (fun b => exists x, blk' !! box_dma b = Some x /\ verify_block_sig x = 0) c }.

Class FirmwareOk (F : Type) `{!Firmware F} (csum : bool) := {
  fw_answer : F -> list Z -> nat -> option (F * list Z);
  fw_does f l b c blk d :
    layout_wf l -> xor8_buf (layout_bytes l) 0 64 = 255 -> lay_type l = MLX5_PCI_CMD_XPORT ->
    lay_status_own l = CMD_OWNER_HW ->
    dma_message blk (lay_in l) (lay_in_ptr l) (Z.to_nat (lay_inlen l)) (lay_token l) = Some d ->
    (csum = true -> signed_chain blk (cmd_blocks (lay_inlen l)) (lay_in_ptr l) /\
                    signed_chain blk (cmd_blocks (lay_outlen l)) (lay_out_ptr l)) ->
    chain_ok b (lay_token l) 0 c blk -> Z.of_nat (length c) = cmd_blocks (lay_outlen l) ->
    chain_dma c = lay_out_ptr l -> 0 <= lay_outlen l ->
    match fw_answer f d (Z.to_nat (lay_outlen l)) with
    | None => fw_exec f l blk = None
    | Some (f', r) => exists l' blk', fw_exec f l blk = Some (f', l', blk') /\ answers csum l c blk l' blk' r
    end }.

(** ** A firmware for any function from commands to replies *)

Section FwOf.
Context {F : Type} (answer : F -> list Z -> nat -> option (F * list Z)).

(** The mailboxes from [ptr] on. *)
Fixpoint follow (blk : blocks) (n : nat) (ptr : Z) : option (list mlx5_cmd_mailbox) :=
  match n with
  | O => Some []
  | S n => x ← blk !! ptr; r ← follow blk n (pb_next x); Some (mkbox 0 ptr :: r)
  end.

Definition fit (n : nat) (r : list Z) : list Z := take n ((u8 <$> r) ++ zeros n).

Definition set_reply (out : list Z) (l : mlx5_cmd_layout) : mlx5_cmd_layout :=
  sign_layout (mklay (lay_type l) (lay_rsvd0 l) (lay_inlen l) (lay_in_ptr l) (lay_in l) out
                     (lay_out_ptr l) (lay_outlen l) (lay_token l) 0 (lay_rsvd1 l) 0).

Definition fw_of_exec (f : F) (l : mlx5_cmd_layout) (blk : blocks) : option (F * mlx5_cmd_layout * blocks) :=
  let n := Z.to_nat (lay_outlen l) in
  d ← dma_message blk (lay_in l) (lay_in_ptr l) (Z.to_nat (lay_inlen l)) (lay_token l);
  '(f', r) ← answer f d n;
  c ← follow blk (Z.to_nat (cmd_blocks (lay_outlen l))) (lay_out_ptr l);
  '(x, p) ← mlx5_copy_to_msg (mkmsg 0 None (lay_outlen l) (zeros 16) c) (fit n r) (lay_token l) (mkpool 0 blk);
  match x with
  | inl _ => None
  | inr x => '(_, p) ← calc_chain_sig x p; Some (f', set_reply (msg_first x) l, pl_blk p)
  end.

Definition fw_of_answer (f : F) (d : list Z) (n : nat) : option (F * list Z) :=
  '(f', r) ← answer f d n; Some (f', fit n r).

#[export] Instance fw_of : Firmware F := {| fw_exec := fw_of_exec |}.

Lemma fit_length n r : length (fit n r) = n.
Proof. unfold fit. rewrite length_take, length_app, length_zeros. lia. Qed.
Lemma fit_ok n r : bytes_ok (fit n r).
Proof.
  apply Forall_take, Forall_app. split.
  - apply Forall_fmap, Forall_true. intros x. apply u8_range.
  - apply zeros_ok.
Qed.

Definition anon (c : list mlx5_cmd_mailbox) : list mlx5_cmd_mailbox := (fun b => mkbox 0 (box_dma b)) <$> c.

Lemma anon_dmas c : box_dma <$> anon c = box_dma <$> c.
Proof. unfold anon. by rewrite <- list_fmap_compose. Qed.

Lemma follow_linked blk c : forall k, linked blk k c -> follow blk (length c) (chain_dma c) = Some (anon c).
Proof.
  induction c as [|b c IH]; intros k; [done|]. intros [(x & Hx & Hn & _) Hl]. simpl. rewrite Hx. simpl.
  by rewrite Hn, (IH _ Hl).
Qed.

Lemma Forall_dmas (P : Z -> Prop) c c' :
  box_dma <$> c' = box_dma <$> c -> Forall (fun b => P (box_dma b)) c -> Forall (fun b => P (box_dma b)) c'.
Proof. intros E. rewrite <- !(Forall_fmap box_dma P). by rewrite E. Qed.

Lemma adds_dmas b c c' blk : box_dma <$> c' = box_dma <$> c -> adds b c blk -> adds b c' blk.
Proof.
  intros E [Hn Hd Ho Hi]. split.
  - by apply (Forall_dmas (fun a => b !! a = None /\ 0 < a < 2 ^ 64) c).
  - by rewrite E.
  - by rewrite E.
  - by apply (Forall_dmas (fun a => exists x, blk !! a = Some x /\ block_wf x) c).
Qed.

Lemma chain_dma_anon c : chain_dma (anon c) = chain_dma c.
Proof. by destruct c. Qed.

Lemma linked_anon blk c : forall k, linked blk k c -> linked blk k (anon c).
Proof.
  induction c as [|b c IH]; [done|]. intros k [(x & Hx & Hn & Hk) Hl]. split; [|by apply IH].
  exists x. split; [done|]. split; [|done]. rewrite Hn. symmetry. apply chain_dma_anon.
Qed.

Lemma rewrites_dmas R blk c c' blk' : box_dma <$> c' = box_dma <$> c -> rewrites R blk c blk' -> rewrites R blk c' blk'.
Proof. intros E [Ho Hi]. split; [by rewrite E|done]. Qed.

Lemma set_reply_ok out l : layout_wf l -> length out = 16%nat -> bytes_ok out ->
  layout_wf (set_reply out l) /\ xor8_buf (layout_bytes (set_reply out l)) 0 64 = 255.
Proof.
  intros [Ht Hr Hi _ Hl] Hlen Hok. unfold set_reply. set (l1 := mklay _ _ _ _ _ out _ _ _ _ _ _).
  assert (W : layout_wf l1).
  { split; simpl; auto. apply Forall_cons in Hl as [? Hl]. apply Forall_cons in Hl as [_ Hl].
    apply Forall_cons in Hl as [? _]. assert (byte_ok 0) by (by split). unfold bytes_ok. by rewrite !Forall_cons. }
  split; [by apply sign_layout_wf|by apply sign_layout_verifies].
Qed.

#[export] Instance fw_of_ok csum : FirmwareOk F csum.
Proof.
  refine {| fw_answer := fw_of_answer |}.
  intros f l b c blk d W _ _ _ Hin _ [Ha Hl Ht] Hlen Hptr Hn. simpl. unfold fw_of_answer, fw_of_exec.
  set (n := Z.to_nat (lay_outlen l)) in *. rewrite Hin. simpl. destruct (answer f d n) as [[f' r]|] eqn:Ea; [|done].
  simpl. assert (Hc : Z.to_nat (cmd_blocks (lay_outlen l)) = length c) by lia.
  rewrite Hc, <- Hptr, (follow_linked _ _ _ Hl). simpl.
  assert (Htok : byte_ok (lay_token l)) by (pose proof (lw_tail _ W) as Hw; by apply Forall_cons in Hw as [? _]).
  set (x := mkmsg 0 None (lay_outlen l) (zeros 16) (anon c)).
  assert (Hx : msg_ok b x blk).
  { split; simpl; [by apply (adds_dmas b c); [apply anon_dmas|]|by apply linked_anon|split; [done|apply zeros_ok]|].
    unfold anon. rewrite length_fmap. lia. }
  destruct (copy_to_msg_ok (lay_token l) (mkpool 0 blk) b x (fit n r) Htok (fit_ok _ _) Hx) as (blk1 & E & Hrw & Hx1 & Hm).
  { rewrite fit_length. simpl. lia. }
  rewrite E. simpl. rewrite fit_length in Hm |- *. fold x in Hm |- *. set (x1 := set_first (memcpy (zeros 16) (fit n r) (Nat.min n 16)) x) in *.
  destruct (sign_chain_ok (Z.to_nat (mlx5_calc_cmd_blocks x1)) (anon c) (mkpool 0 blk1)) as (blk2 & E2 & Hrw2 & Hv).
  { apply (mo_adds _ _ _ Hx1). } { apply (mo_adds _ _ _ Hx1). }
  assert (E3 : calc_chain_sig x1 (mkpool 0 blk1) = Some (inr tt, mkpool 0 blk2)) by exact E2.
  rewrite E3. simpl. eexists _, _. split; [done|].
  assert (Hf : length (msg_first x1) = 16%nat /\ bytes_ok (msg_first x1)).
  { simpl. split; [rewrite memcpy_length; [done|simpl; lia|rewrite fit_length; lia]|].
    apply memcpy_ok; [apply zeros_ok|apply fit_ok]. }
  destruct (set_reply_ok (msg_first x1) l W) as [Wl Hxor]; [apply Hf|apply Hf|].
  split; [|exact Wl|done| |].
  - apply (rewrites_dmas _ _ (anon c)); [symmetry; apply anon_dmas|]. destruct Hrw as [Ho1 Hi1], Hrw2 as [Ho2 Hi2]. split.
    + intros a Hac. rewrite Ho2 by done. by apply Ho1.
    + intros a y Hy. destruct (Hi1 a y Hy) as (y1 & Hy1 & R1). destruct (Hi2 a y1 Hy1) as (y2 & Hy2 & [R2 _]).
      exists y2. split; [done|]. by transitivity y1.
  - rewrite <- (chain_dma_anon c). eapply dma_message_payload; [exact Hrw2|]. exact Hm.
  - intros _. split; [exact Hxor|].
    apply (Forall_dmas (fun a => exists y, blk2 !! a = Some y /\ verify_block_sig y = 0) (anon c)); [symmetry; apply anon_dmas|].
    rewrite take_ge in Hv; [exact Hv|]. unfold mlx5_calc_cmd_blocks, anon. rewrite length_fmap. simpl. lia.
Defined.
End FwOf.
