(* ===== verification/CmdLife.v ===== *)
(** * CmdLife: what a command returns

    Executing a command from an idle interface, for every mode: the caller gets
    the firmware's reply and the status it carries, every message, entry and
    slot is given back; what a timeout costs; what is lost when a step fails. *)

From S2P Require Import Prelude ErrState KHeap FragAlloc DbAlloc DrvState CmdMsg CmdExec CmdFw.

Open Scope es_scope.

(** ** Signing the two messages of a command *)

Lemma signed_gather blk c n : linked blk 0 c -> (Z.to_nat n <= length c)%nat ->
  Forall (fun b => exists x, blk !! box_dma b = Some x /\ verify_block_sig x = 0) (take (Z.to_nat n) c) ->
  signed_chain blk n (chain_dma c).
Proof.
  intros Hl Hn Hv. destruct (gather_linked blk _ c 0 Hl Hn) as (xs & Hg & HF & _). exists xs. split; [done|].
  clear Hg Hn. induction HF as [|b x c' xs Hx HF IH]; [done|]. apply Forall_cons in Hv as [(y & Hy & Hvy) Hv].
  apply Forall_cons; split; [congruence|auto].
Qed.

(** Blocks under an output chain are not its blocks. *)
Lemma under_disjoint b c_in bin c_out blk a :
  adds b c_in bin -> adds bin c_out blk -> a ∈ (box_dma <$> c_in) -> a ∉ (box_dma <$> c_out).
Proof.
  intros Hi Ho Ha Hao. apply list_elem_of_fmap in Ha as (x & -> & Hx). apply list_elem_of_fmap in Hao as (y & E & Hy).
  pose proof (ad_in _ _ _ Hi) as H1. pose proof (ad_new _ _ _ Ho) as H2. rewrite Forall_forall in H1, H2.
  destruct (H1 x Hx) as (z & Hz & _). destruct (H2 y Hy) as [? _]. congruence.
Qed.

Lemma token_rewrites R blk c' blk' tok c :
  (forall x y, R x y -> pb_token y = pb_token x) -> rewrites R blk c' blk' ->
  Forall (fun b => exists x, blk !! box_dma b = Some x /\ pb_token x = tok) c ->
  Forall (fun b => exists x, blk' !! box_dma b = Some x /\ pb_token x = tok) c.
Proof.
  intros HR [_ Hi] H. eapply Forall_impl; [exact H|]. intros b (x & Hx & <-).
  destruct (Hi _ _ Hx) as (y & Hy & Hxy). exists y. eauto.
Qed.

Lemma sign_both b tok inb outb bin p len inp :
  msg_ok b inb bin -> msg_len inb = Z.of_nat len ->
  dma_message bin (msg_first inb) (chain_dma (msg_next inb)) len tok = Some inp ->
  chain_ok bin tok 0 (msg_next outb) (pl_blk p) -> Z.of_nat (length (msg_next outb)) = cmd_blocks (msg_len outb) ->
  exists p1 p2 bin', calc_chain_sig inb p = Some (inr tt, p1) /\ calc_chain_sig outb p1 = Some (inr tt, p2) /\
    pl_next p2 = pl_next p /\ msg_ok b inb bin' /\ chain_ok bin' tok 0 (msg_next outb) (pl_blk p2) /\
    dma_message (pl_blk p2) (msg_first inb) (chain_dma (msg_next inb)) len tok = Some inp /\
    signed_chain (pl_blk p2) (cmd_blocks (msg_len inb)) (chain_dma (msg_next inb)) /\
    signed_chain (pl_blk p2) (cmd_blocks (msg_len outb)) (chain_dma (msg_next outb)).
Proof.
  intros Hin Hlen Hm [Ha Hl Ht] Hol. pose proof (adds_sub _ _ _ Ha) as Hsub. pose proof Hin as [Hia Hil Hif Hir].
  destruct (sign_chain_ok (Z.to_nat (mlx5_calc_cmd_blocks inb)) (msg_next inb) p) as (blk1 & E1 & R1 & V1).
  { apply Hia. }
  { eapply Forall_impl; [exact (ad_in _ _ _ Hia)|]. intros y (x & Hx & W). exists x. split; [by eapply lookup_weaken|done]. }
  destruct (adds_under payload_eq bin (msg_next outb) (pl_blk p) (msg_next inb) blk1) as (bin' & Ha1 & Rb);
    [by intros x y [? _]|done|done|intros a; by eapply under_disjoint|].
  assert (Hl1 : linked blk1 0 (msg_next outb)).
  { eapply linked_rewrites; [|exact Hl]. eapply rewrites_mono; [|exact R1]. by intros x y [? _]. }
  assert (Hi1 : linked blk1 0 (msg_next inb)).
  { eapply linked_rewrites; [|by eapply linked_sub]. eapply rewrites_mono; [|exact R1]. by intros x y [? _]. }
  destruct (sign_chain_ok (Z.to_nat (mlx5_calc_cmd_blocks outb)) (msg_next outb) (mkpool (pl_next p) blk1)) as (blk2 & E2 & R2 & V2).
  { apply Ha1. } { apply Ha1. }
  assert (R2' : rewrites link_eq blk1 (msg_next outb) blk2) by (eapply rewrites_mono; [|exact R2]; by intros x y [? _]).
  assert (Hb' : msg_ok b inb bin').
  { assert (Rb' : rewrites link_eq bin (msg_next inb) bin') by (eapply rewrites_mono; [|exact Rb]; by intros x y [? _]).
    split; auto; [by eapply adds_rewrites|by eapply linked_rewrites]. }
  assert (Hpt : forall x y, payload_eq x y -> pb_token y = pb_token x) by (by intros x y (_ & _ & ?)).
  exists (mkpool (pl_next p) blk1), (mkpool (pl_next p) blk2), bin'. split_and!; auto.
  - split; simpl; [by eapply adds_rewrites|by eapply linked_rewrites|].
    eapply token_rewrites; [exact Hpt|exact R2|]. by eapply token_rewrites; [exact Hpt|exact R1|].
  - eapply dma_message_payload; [exact R2|]. eapply dma_message_payload; [exact R1|]. by eapply dma_message_sub.
  - apply signed_gather; [by eapply linked_rewrites|unfold mlx5_calc_cmd_blocks in *; lia|].
    rewrite Forall_forall in V1 |- *. intros y Hy. destruct (V1 y Hy) as (x & Hx & Hvx). exists x. split; [|done].
    apply elem_of_take in Hy as (i & Hi & _). apply list_elem_of_lookup_2 in Hi. rewrite (rw_old _ _ _ _ R2); [done|].
    eapply under_disjoint; [exact (mo_adds _ _ _ Hb')|exact Ha1|]. apply list_elem_of_fmap. eauto.
  - apply signed_gather; [by eapply linked_rewrites|unfold mlx5_calc_cmd_blocks in *; lia|done].
Qed.

(** ** Rules of the operations *)

(** Compute the fields of an explicit state. *)
Ltac fields :=
  cbv beta delta [set_pool set_slots set_caches set_tok set_miss add_called set_fw set_bitmask set_sems set_arr
    set_ents set_lay] in *;
  cbn [c_pool c_slots c_caches c_token c_real_miss c_called c_fw s_bitmask s_sem s_pages_sem s_ent_arr s_ents s_lay] in *.

Section Rules.
Context {F : Type} `{HP : !DmaPool} `{HF : !Firmware F} (o : oracle) (g : cmd_cfg).
Notation C := (mlx5_cmd F).
Implicit Types (st : db_priv) (c : C).

Lemma runs_try {S A} (m : es S A) s (Q : Z + (Z + A) -> S -> Prop) :
  runs m s (fun r s' => Q (inr r) s') -> runs (es_try m) s Q.
Proof. intros (r & s' & E & H). unfold runs, es_try. rewrite E. by eexists _, _. Qed.

Lemma runs_bind_inv {S A B} (m : es S A) (k : A -> es S B) s (Q : Z + B -> S -> Prop) :
  runs (es_bind m k) s Q ->
  runs m s (fun r s' => match r with inr a => runs (k a) s' Q | inl e => Q (inl e) s' end).
Proof.
  intros (r & s' & E & HQ). unfold es_bind in E. destruct (m s) as [[[e|a] s1]|] eqn:Em; [| |done].
  - injection E as <- <-. exists (inl e), s1. by split.
  - exists (inr a), s1. split; [done|]. by exists r, s'.
Qed.

Lemma runs_lift_some {S A} (oa : option A) a s (Q : Z + A -> S -> Prop) :
  oa = Some a -> Q (inr a) s -> runs (es_lift oa) s Q.
Proof. intros ->. apply runs_lift. Qed.

Lemma runs_getc st c (Q : Z + C -> drv C -> Prop) : Q (inr c) (mkdrv st c) -> runs getc (mkdrv st c) Q.
Proof. intros H. by eexists _, _. Qed.

Lemma runs_modc f st c (Q : Z + unit -> drv C -> Prop) : Q (inr tt) (mkdrv st (f c)) -> runs (modc f) (mkdrv st c) Q.
Proof. intros H. by eexists _, _. Qed.

Lemma runs_mods f st c (Q : Z + unit -> drv C -> Prop) :
  Q (inr tt) (mkdrv st (set_slots (f (c_slots c)) c)) -> runs (mods f) (mkdrv st c) Q.
Proof. intros H. by eexists _, _. Qed.

Lemma runs_get_ent e x st c (Q : Z + work_ent -> drv C -> Prop) :
  s_ents (c_slots c) !! e = Some x -> Q (inr x) (mkdrv st c) -> runs (get_ent e) (mkdrv st c) Q.
Proof. intros Hx H. apply runs_bind, runs_getc. rewrite Hx. by apply runs_lift. Qed.

Definition put_ent (e : nat) (x : work_ent) (c : C) : C :=
  set_slots (set_ents (<[e := x]> (s_ents (c_slots c))) (c_slots c)) c.

Lemma runs_mod_ent e f x st c (Q : Z + unit -> drv C -> Prop) :
  s_ents (c_slots c) !! e = Some x -> Q (inr tt) (mkdrv st (put_ent e (f x) c)) ->
  runs (mod_ent e f) (mkdrv st c) Q.
Proof. intros Hx H. apply runs_bind. eapply runs_get_ent; [done|]. by apply runs_mods. Qed.

Lemma runs_on_pool {A} (m : es (drv pool) A) st c (Q : Z + A -> drv C -> Prop) :
  runs m (mkdrv st (c_pool c)) (fun r s' => Q r (mkdrv (d_mem s') (set_pool (d_rest s') c))) ->
  runs (on_pool m) (mkdrv st c) Q.
Proof. apply runs_on_part. Qed.

(** A computation on the pool that is known to return. *)
Lemma runs_pool_eq {A} (m : es pool A) r p' st c (Q : Z + A -> drv C -> Prop) :
  m (c_pool c) = Some (r, p') -> Q r (mkdrv st (set_pool p' c)) -> runs (on_pool (on_rest m)) (mkdrv st c) Q.
Proof. intros E H. apply runs_on_pool, runs_on_rest. by exists r, p'. Qed.

Lemma put_ent_lookup e x c : s_ents (c_slots (put_ent e x c)) !! e = Some x.
Proof. apply lookup_insert_eq. Qed.

Lemma put_ent_twice e x y c : put_ent e y (put_ent e x c) = put_ent e y c.
Proof. unfold put_ent, set_slots, set_ents. simpl. by rewrite insert_insert_eq. Qed.

Lemma put_ent_id e x c : s_ents (c_slots c) !! e = Some x -> put_ent e x c = c.
Proof.
  intros Hx. unfold put_ent. destruct c as [p [] ? ? ? ? ?]. unfold set_slots, set_ents. simpl in *. by rewrite insert_id.
Qed.

Lemma set_pool_id c : set_pool (c_pool c) c = c.
Proof. by destruct c. Qed.

(** ** The loop of the completion handler on one bit *)

Lemma comp_loop_skip trig ct i l : forall (d : drv C),
  i ∉ l -> comp_loop g trig ct (slot_bit i) l d = Some (inr tt, d).
Proof.
  induction l as [|j l IH]; intros d Hi; [done|]. apply not_elem_of_cons in Hi as [Hij Hl].
  simpl. unfold slot_bit at 1. rewrite Z.shiftl_1_l, Z.pow2_bits_false by lia. unfold es_bind. simpl. by apply IH.
Qed.

Lemma comp_loop_one trig ct i l : forall (d : drv C),
  NoDup l -> i ∈ l -> comp_loop g trig ct (slot_bit i) l d = comp_one g trig ct i d.
Proof.
  induction l as [|j l IH]; intros d Hnd Hi; [by apply elem_of_nil in Hi|]. apply NoDup_cons in Hnd as [Hj Hnd].
  simpl. destruct (decide (j = i)) as [->|Hne].
  - unfold slot_bit at 1. rewrite Z.shiftl_1_l, Z.pow2_bits_true by lia. unfold es_bind.
    destruct (comp_one g trig ct i d) as [[[?|[]] d']|]; [done| |done]. simpl. by apply comp_loop_skip.
  - unfold slot_bit at 1. rewrite Z.shiftl_1_l, Z.pow2_bits_false by lia. unfold es_bind. simpl.
    apply IH; [done|]. apply elem_of_cons in Hi as [->|]; done.
Qed.

Lemma comp_handler_one ct i (d : drv C) : (i < nslots g)%nat -> (g_log_sz g <= 5)%nat ->
  mlx5_cmd_comp_handler g (slot_bit i) ct d = comp_one g false ct i d.
Proof.
  intros Hi Hg. assert (nslots g <= 32)%nat by (unfold nslots; change 32%nat with (2 ^ 5)%nat; by apply Nat.pow_le_mono_r).
  unfold mlx5_cmd_comp_handler. replace (slot_bit i .& 4294967295) with (slot_bit i).
  - unfold slot_bit at 1. rewrite Z.shiftl_1_l, Z.pow2_bits_false by lia.
    apply comp_loop_one; [apply NoDup_seq|]. apply elem_of_seq. lia.
  - unfold slot_bit. rewrite Z.shiftl_1_l. change 4294967295 with (2 ^ 32 - 1). rewrite land_mask by lia.
    symmetry. apply Z.mod_small. split; [lia|]. apply Z.pow_lt_mono_r; lia.
Qed.

(** ** Completing an entry *)

(** The entry after its result was read from the descriptor. *)
Definition result_ent (trig : bool) (lay : mlx5_cmd_layout) (ret : Z) (x : work_ent) : work_ent :=
  let x := if device_down g then x else ent_set_out (set_first (lay_out lay) (ent_out x)) (ent_uout x) x in
  if ent_ret x =? 0 then ent_set_ret ret (if trig then MLX5_DRIVER_STATUS_ABORTED else lay_status_own lay >>. 1) x else x.

Lemma runs_read_result trig e x lay ret st c (Q : Z + unit -> drv C -> Prop) :
  s_ents (c_slots c) !! e = Some x -> s_lay (c_slots c) !! ent_idx x = Some lay ->
  (ent_ret x = 0 ->
   if g_checksum_disabled g then ret = 0 else verify_signature lay (ent_out x) (c_pool c) = Some (inr ret, c_pool c)) ->
  Q (inr tt) (mkdrv st (put_ent e (result_ent trig lay ret x) c)) ->
  runs (read_result g trig e) (mkdrv st c) Q.
Proof.
  intros Hx Hl Hv HQ. apply runs_bind. eapply runs_get_ent; [done|]. apply runs_bind, runs_getc.
  rewrite Hl. apply runs_bind, runs_lift, runs_bind.
  assert (Hput : forall y, runs (when ent_ret x =? 0 then!
      do! r := (if g_checksum_disabled g then es_ret 0 else on_pool (on_rest (verify_signature lay (ent_out x)))) in
      mod_ent e (ent_set_ret r (if trig then MLX5_DRIVER_STATUS_ABORTED else lay_status_own lay >>. 1)))
    (mkdrv st (put_ent e y c)) (fun r s' => s' = mkdrv st (put_ent e (if ent_ret x =? 0 then ent_set_ret ret
       (if trig then MLX5_DRIVER_STATUS_ABORTED else lay_status_own lay >>. 1) y else y) c) /\ r = inr tt)).
  { intros y. destruct (Z.eqb_spec (ent_ret x) 0) as [E0|]; [|by apply runs_ret]. specialize (Hv E0). apply runs_bind.
    destruct (g_checksum_disabled g); [subst ret; apply runs_ret|eapply runs_pool_eq; [exact Hv|]].
    - eapply runs_mod_ent; [apply put_ent_lookup|]. by rewrite put_ent_twice.
    - rewrite (set_pool_id (put_ent e y c) : set_pool (c_pool c) (put_ent e y c) = _).
      eapply runs_mod_ent; [apply put_ent_lookup|]. by rewrite put_ent_twice. }
  unfold result_ent in HQ. destruct (device_down g); simpl.
  - apply runs_ret. pose proof (Hput x) as Hp. rewrite (put_ent_id e x c Hx) in Hp.
    eapply runs_mono; [exact Hp|]. by intros r s' [-> ->].
  - eapply runs_mod_ent; [done|]. eapply runs_mono; [apply Hput|]. by intros r s' [-> ->].
Qed.

Definition done_ent (uout : list Z) (x : work_ent) : work_ent :=
  ent_set_comp (ent_handled x) true (ent_set_out (ent_out x) uout x).

(** What the output buffer holds once the entry [x] is complete. *)
Definition gives (p : pool) (x : work_ent) (uout : list Z) : Prop :=
  if ent_ret x =? 0 then mlx5_copy_from_msg (ent_out x) (length (ent_uout x)) p = Some (inr uout, p)
  else uout = ent_uout x.

Context (cls : Z).
Implicit Types (m : gmap nat Z) (D : gset (nat * nat)) (b : blocks).

(** Output messages are owned by their entry. *)
Definition owns (x : mlx5_cmd_msg) b m D (d : drv pool) : Prop :=
  owned cls (msg_mem x ∪ m) D (d_mem d) /\ msg_fresh m x /\ adds b (msg_next x) (pl_blk (d_rest d)).

Lemma runs_free_owned x b m D st c (Q : Z + unit -> drv C -> Prop) :
  owns x b m D (mkdrv st (c_pool c)) ->
  (forall st', owned cls m D st' -> Q (inr tt) (mkdrv st' (set_pool (mkpool (pl_next (c_pool c)) b) c))) ->
  runs (on_pool (mlx5_free_cmd_msg x)) (mkdrv st c) Q.
Proof.
  intros (Ho & Hf & Ha) HQ. apply runs_on_pool. eapply runs_free_cmd_msg; eauto.
Qed.

Lemma runs_complete_waiter e x uout b m D st c (Q : Z + unit -> drv C -> Prop) :
  s_ents (c_slots c) !! e = Some x -> gives (c_pool c) x uout -> owns (ent_out x) b m D (mkdrv st (c_pool c)) ->
  (forall st', owned cls m D st' ->
     Q (inr tt) (mkdrv st' (put_ent e (done_ent uout x) (set_pool (mkpool (pl_next (c_pool c)) b) c)))) ->
  runs (complete_waiter e) (mkdrv st c) Q.
Proof.
  intros Hx Hg Ho HQ. apply runs_bind. eapply runs_get_ent; [done|]. apply runs_bind.
  assert (Hgo : forall y, ent_set_out (ent_out x) uout x = y ->
    runs (on_pool (mlx5_free_cmd_msg (ent_out x));; mod_ent e (ent_set_comp (ent_handled x) true))
      (mkdrv st (put_ent e y c)) Q).
  { intros y <-. apply runs_bind. eapply (runs_free_owned _ b m D); [done|]. intros st' Ho'.
    eapply runs_mod_ent; [simpl; apply lookup_insert_eq|]. pose proof (HQ st' Ho') as H.
    unfold put_ent, set_slots, set_ents, set_pool in *. simpl in *. by rewrite insert_insert_eq. }
  unfold gives in Hg. destruct (ent_ret x =? 0).
  - apply runs_bind, runs_try. eapply runs_pool_eq; [exact Hg|]. rewrite set_pool_id.
    eapply runs_mod_ent; [done|]. by apply Hgo.
  - apply runs_ret. subst uout. rewrite <- (put_ent_id e x c Hx) at 1. apply Hgo. by destruct x.
Qed.

(** The slots once the entry is complete: the bit is set by a real completion,
    the semaphore in any case. *)
Definition release (ct : mlx5_comp_t) (x : work_ent) (s : slots) : slots :=
  let s := if is_forced ct then s else set_bitmask (Z.setbit (s_bitmask s) (Z.of_nat (ent_idx x))) s in
  if ent_page_queue x then set_sems (s_sem s) (s_pages_sem s + 1) s else set_sems (s_sem s + 1) (s_pages_sem s) s.

(** The whole of comp_one for an entry somebody waits for. *)
Lemma runs_comp_waiter ct e x lay ret uout b m D st c (Q : Z + unit -> drv C -> Prop) :
  let y := result_ent false lay ret (ent_set_pending false x) in
  s_ent_arr (c_slots c) !! ent_idx x = Some e -> s_ents (c_slots c) !! e = Some x -> ent_pending x = true ->
  ent_callback x = None -> ent_polling x && is_event ct = false ->
  s_lay (c_slots c) !! ent_idx x = Some lay ->
  (ent_ret x = 0 ->
   if g_checksum_disabled g then ret = 0 else verify_signature lay (ent_out x) (c_pool c) = Some (inr ret, c_pool c)) ->
  gives (c_pool c) y uout -> owns (ent_out x) b m D (mkdrv st (c_pool c)) ->
  (forall st', owned cls m D st' ->
     Q (inr tt) (mkdrv st' (mkcmd (mkpool (pl_next (c_pool c)) b)
                                  (release ct x (set_ents (<[e := done_ent uout y]> (s_ents (c_slots c))) (c_slots c)))
                                  (c_caches c) (c_token c) (c_real_miss c) (c_called c) (c_fw c)))) ->
  runs (comp_one g false ct (ent_idx x)) (mkdrv st c) Q.
Proof.
  intros y Harr Hx Hp Hcb Hpe Hl Hv Hg Ho HQ. apply runs_bind, runs_getc. rewrite Harr. apply runs_bind, runs_lift, runs_bind.
  eapply runs_get_ent; [done|]. apply runs_bind. eapply runs_mod_ent; [done|]. rewrite Hp. simpl.
  apply runs_bind, runs_ret. rewrite Hpe. apply runs_bind.
  eapply (runs_read_result false e (ent_set_pending false x) lay ret); [apply put_ent_lookup|done|done|].
  rewrite put_ent_twice. fold y. apply runs_bind.
  assert (Eo : msg_next (ent_out y) = msg_next (ent_out x) /\ msg_obj (ent_out y) = msg_obj (ent_out x)).
  { unfold y, result_ent. destruct (device_down g); simpl; by destruct (ent_ret x =? 0). }
  assert (Hoy : forall f, owns (ent_out y) b m D (mkdrv st (c_pool (set_slots f c)))).
  { intros f. destruct Ho as (Ho & [Hf1 Hf2] & Ha), Eo as [E1 E2]. unfold owns, msg_mem. simpl in *.
    rewrite E1, E2. split; [exact Ho|]. split; [split; congruence|done]. }
  assert (Hfree : runs (when negb (is_forced ct) then! free_ent (ent_idx x)) (mkdrv st (put_ent e y c))
    (fun r s' => r = inr tt /\ s' = mkdrv st (set_slots (set_ents (<[e := y]> (s_ents (c_slots c)))
       (if is_forced ct then c_slots c else set_bitmask (Z.setbit (s_bitmask (c_slots c)) (Z.of_nat (ent_idx x))) (c_slots c))) c))).
  { destruct (is_forced ct); simpl; [by apply runs_ret|by apply runs_mods]. }
  eapply runs_mono; [exact Hfree|]. intros r s' [-> ->]. rewrite Hcb. apply runs_bind.
  eapply (runs_complete_waiter e y uout b m D); [simpl; apply lookup_insert_eq|done|apply Hoy|].
  intros st' Ho'. apply runs_mods. pose proof (HQ st' Ho') as H. unfold release in H.
  unfold put_ent, set_slots, set_pool. simpl in *. rewrite insert_insert_eq.
  destruct (is_forced ct), (ent_page_queue x); exact H.
Qed.

(** ** Starting an entry *)

Definition slot_for (pq : bool) (s : slots) : option nat :=
  if pq then Some (max_reg_cmds g)
  else let i := find_first_bit (s_bitmask s) (max_reg_cmds g) in if (i <? max_reg_cmds g)%nat then Some i else None.

Definition sem_of (pq : bool) (s : slots) : Z := if pq then s_pages_sem s else s_sem s.
Definition add_sem (pq : bool) (n : Z) (s : slots) : slots :=
  if pq then set_sems (s_sem s) (s_pages_sem s + n) s else set_sems (s_sem s + n) (s_pages_sem s) s.

Definition started_ent (idx : nat) (x : work_ent) : work_ent :=
  mkent true (ent_in x) (ent_out x) (ent_uout x) (ent_callback x) idx
        (bool_decide (ent_callback x = None) || ent_handled x) (ent_done x)
        (ent_ret x) (ent_page_queue x) (ent_status x) (ent_token x)
        (mbox_in_opcode (msg_first (ent_in x))) (ent_polling x).

Definition started (e idx : nat) (x : work_ent) (s : slots) : slots :=
  let s := add_sem (ent_page_queue x) (-1) s in
  mkslots (Z.clearbit (s_bitmask s) (Z.of_nat idx)) (s_sem s) (s_pages_sem s) (<[idx := e]> (s_ent_arr s))
          (<[e := started_ent idx x]> (s_ents s))
          (<[idx := sign_layout (descriptor (ent_in x) (ent_out x) (ent_token x))]> (s_lay s)).

(** The blocks after set_signature. *)
Definition signed (inb outb : mlx5_cmd_msg) (p p' : pool) : Prop :=
  if g_checksum_disabled g then p' = p
  else exists p1, calc_chain_sig inb p = Some (inr tt, p1) /\ calc_chain_sig outb p1 = Some (inr tt, p').

Lemma runs_down pq st c (Q : Z + unit -> drv C -> Prop) :
  0 < sem_of pq (c_slots c) -> Q (inr tt) (mkdrv st (set_slots (add_sem pq (-1) (c_slots c)) c)) ->
  runs (down pq) (mkdrv st c) Q.
Proof.
  intros Hs HQ. apply runs_bind, runs_getc. unfold sem_of in Hs. unfold add_sem in HQ. cbn zeta. destruct pq.
  - destruct (Z.leb_spec (s_pages_sem (c_slots c)) 0); [lia|]. by apply runs_mods.
  - destruct (Z.leb_spec (s_sem (c_slots c)) 0); [lia|]. by apply runs_mods.
Qed.

Lemma runs_take_slot pq idx st c (Q : Z + Z -> drv C -> Prop) :
  slot_for pq (c_slots c) = Some idx ->
  Q (inr (Z.of_nat idx)) (mkdrv st (set_slots (set_bitmask (Z.clearbit (s_bitmask (c_slots c)) (Z.of_nat idx)) (c_slots c)) c)) ->
  runs (take_slot g pq) (mkdrv st c) Q.
Proof.
  unfold slot_for, take_slot. destruct pq.
  - intros [= <-] HQ. apply runs_bind, runs_mods. by apply runs_ret.
  - unfold alloc_ent. intros Hi HQ. apply runs_bind, runs_getc. set (i := find_first_bit _ _) in *. cbn zeta.
    destruct (i <? max_reg_cmds g)%nat; [|done]. injection Hi as <-. apply runs_bind, runs_mods. by apply runs_ret.
Qed.

Lemma runs_work_start e x idx p' st c (Q : Z + option nat -> drv C -> Prop) :
  s_ents (c_slots c) !! e = Some x -> 0 < sem_of (ent_page_queue x) (c_slots c) ->
  slot_for (ent_page_queue x) (c_slots c) = Some idx -> signed (ent_in x) (ent_out x) (c_pool c) p' ->
  Q (inr (Some idx)) (mkdrv st (set_pool p' (set_slots (started e idx x (c_slots c)) c))) ->
  runs (work_start g e) (mkdrv st c) Q.
Proof.
  intros Hx Hs Hi Hg HQ. apply runs_bind. eapply runs_get_ent; [done|]. apply runs_bind.
  set (x1 := if bool_decide (ent_callback x = None) then ent_set_comp true (ent_done x) x else x).
  assert (H1 : runs (when bool_decide (ent_callback x = None) then! mod_ent e (ent_set_comp true (ent_done x)))
                 (mkdrv st c) (fun r s' => r = inr tt /\ s' = mkdrv st (put_ent e x1 c))).
  { unfold x1. destruct (bool_decide _); [by eapply runs_mod_ent|]. apply runs_ret. by rewrite put_ent_id. }
  eapply runs_mono; [exact H1|]. intros r s' [-> ->]. clear H1. apply runs_bind, runs_down; [done|].
  destruct c as [p s ch tk ms cl fw]. unfold put_ent, started in *. fields.
  apply runs_bind. eapply (runs_take_slot _ idx); [unfold add_sem; by destruct (ent_page_queue x)|].
  destruct (Z.ltb_spec (Z.of_nat idx) 0); [lia|]. rewrite Nat2Z.id.
  assert (Ea : add_sem (ent_page_queue x) (-1) (set_ents (<[e := x1]> (s_ents s)) s) =
               set_ents (<[e := x1]> (s_ents s)) (add_sem (ent_page_queue x) (-1) s))
    by (unfold add_sem; by destruct (ent_page_queue x)).
  fields. rewrite Ea. assert (Ee : s_ents (add_sem (ent_page_queue x) (-1) s) = s_ents s)
    by (unfold add_sem; by destruct (ent_page_queue x)).
  rewrite Ee in HQ. destruct (add_sem (ent_page_queue x) (-1) s) as [bm sm ps arr ents lays]. fields.
  apply runs_bind, runs_mods. fields. apply runs_bind, runs_mods. fields. apply runs_bind.
  eapply runs_mod_ent; [apply lookup_insert_eq|]. unfold put_ent. fields. rewrite insert_insert_eq.
  set (x2 := ent_set_slot idx (mbox_in_opcode (msg_first (ent_in x))) x1).
  assert (E2 : ent_set_pending true x2 = started_ent idx x)
    by (unfold x2, x1, started_ent; by destruct (bool_decide (ent_callback x = None))).
  apply runs_bind. unfold set_signature. apply runs_bind, runs_getc, runs_bind.
  eapply runs_lift_some; [apply lookup_insert_eq|]. apply runs_bind, runs_mods. fields.  rewrite insert_insert_eq.
  assert (Hlast : runs (mod_ent e (ent_set_pending true);; es_ret (Some idx))
    (mkdrv st (mkcmd p' (mkslots (Z.clearbit bm (Z.of_nat idx)) sm ps (<[idx := e]> arr) (<[e := x2]> (s_ents s))
       (<[idx := sign_layout (descriptor (ent_in x) (ent_out x) (ent_token x))]> lays)) ch tk ms cl fw)) Q).
  { apply runs_bind. eapply runs_mod_ent; [apply lookup_insert_eq|]. unfold put_ent. fields.
    rewrite insert_insert_eq, E2. by apply runs_ret. }
  unfold signed in Hg. destruct (g_checksum_disabled g); simpl negb; cbv iota.
  - subst p'. by apply runs_ret.
  - destruct Hg as (p1 & Es1 & Es2). apply runs_bind. eapply runs_pool_eq; [exact Es1|]. fields.
    eapply runs_pool_eq; [exact Es2|]. fields. exact Hlast.
Qed.

(** ** A command in its slot *)

Context {HK : FirmwareOk F (negb (g_checksum_disabled g))}.

Lemma descriptor_wf inb outb tok b blk : msg_ok b inb blk -> byte_ok tok -> layout_wf (descriptor inb outb tok).
Proof.
  intros Hm Ht. assert (Hz : byte_ok 0) by (by split). split; simpl.
  - by split.
  - split; [done|apply zeros_ok].
  - apply Hm.
  - split; [done|apply zeros_ok].
  - unfold bytes_ok. rewrite !Forall_cons. split_and!; [done|done|done|by split|done].
Qed.

(** The entry [x] of slot [idx] waits for the firmware, its input message holds
    [inp], its output message is empty and owned by the entry.  [b] and [bin]
    are the blocks besides both messages and besides the output. *)
Record flight (e idx : nat) (x : work_ent) (b bin : blocks) (inp : list Z) m D st c : Prop := {
  fl_slot : (idx < nslots g)%nat;
  fl_arr : s_ent_arr (c_slots c) !! idx = Some e;
  fl_ent : s_ents (c_slots c) !! e = Some x;
  fl_pend : ent_pending x = true /\ ent_idx x = idx /\ ent_ret x = 0;
  fl_lay : s_lay (c_slots c) !! idx = Some (sign_layout (descriptor (ent_in x) (ent_out x) (ent_token x)));
  fl_tok : byte_ok (ent_token x);
  fl_in : msg_ok b (ent_in x) bin;
  fl_inp : dma_message (pl_blk (c_pool c)) (msg_first (ent_in x)) (chain_dma (msg_next (ent_in x)))
             (Z.to_nat (msg_len (ent_in x))) (ent_token x) = Some inp;
  fl_out : chain_ok bin (ent_token x) 0 (msg_next (ent_out x)) (pl_blk (c_pool c));
  fl_room : Z.of_nat (length (msg_next (ent_out x))) = cmd_blocks (msg_len (ent_out x)) /\
            msg_len (ent_out x) = Z.of_nat (length (ent_uout x));
  fl_own : owned cls (msg_mem (ent_out x) ∪ m) D st /\ msg_fresh m (ent_out x);
  fl_sig : g_checksum_disabled g = false ->
    signed_chain (pl_blk (c_pool c)) (cmd_blocks (msg_len (ent_in x))) (chain_dma (msg_next (ent_in x))) /\
    signed_chain (pl_blk (c_pool c)) (cmd_blocks (msg_len (ent_out x))) (chain_dma (msg_next (ent_out x))) }.

(** The state when the firmware has written its answer. *)
Definition written (idx : nat) (f : F) (lay : mlx5_cmd_layout) (blk : blocks) (c : C) : C :=
  mkcmd (mkpool (pl_next (c_pool c)) blk) (set_lay idx lay (c_slots c)) (c_caches c) (c_token c) (c_real_miss c)
        (c_called c) f.

Lemma runs_fw_run e idx x b bin inp m D st c (Q : Z + bool -> drv C -> Prop) :
  flight e idx x b bin inp m D st c ->
  match fw_answer (c_fw c) inp (length (ent_uout x)) with
  | None => Q (inr false) (mkdrv st c)
  | Some (f, r) => forall lay blk,
      answers (negb (g_checksum_disabled g)) (sign_layout (descriptor (ent_in x) (ent_out x) (ent_token x)))
        (msg_next (ent_out x)) (pl_blk (c_pool c)) lay blk r ->
      Q (inr true) (mkdrv st (written idx f lay blk c))
  end -> runs (fw_run idx) (mkdrv st c) Q.
Proof.
  intros H HQ. apply runs_bind, runs_getc, runs_bind. eapply runs_lift_some; [apply H|].
  pose proof (descriptor_wf _ (ent_out x) _ _ _ (fl_in _ _ _ _ _ _ _ _ _ _ H) (fl_tok _ _ _ _ _ _ _ _ _ _ H)) as W.
  pose proof (fl_room _ _ _ _ _ _ _ _ _ _ H) as [Hr Hu].
  pose proof (fw_does (c_fw c) _ bin (msg_next (ent_out x)) (pl_blk (c_pool c)) inp (sign_layout_wf _ W)
                (sign_layout_verifies _ W eq_refl) eq_refl eq_refl (fl_inp _ _ _ _ _ _ _ _ _ _ H)) as Hd.
  simpl lay_outlen in Hd. rewrite Hu, Nat2Z.id in Hd.
  assert (Hs : negb (g_checksum_disabled g) = true ->
    signed_chain (pl_blk (c_pool c)) (cmd_blocks (msg_len (ent_in x))) (chain_dma (msg_next (ent_in x))) /\
    signed_chain (pl_blk (c_pool c)) (cmd_blocks (Z.of_nat (length (ent_uout x)))) (chain_dma (msg_next (ent_out x)))).
  { intros E%negb_true_iff. rewrite <- Hu. by apply H. }
  rewrite Hu in Hr. specialize (Hd Hs (fl_out _ _ _ _ _ _ _ _ _ _ H) Hr eq_refl ltac:(lia)).
  destruct (fw_answer (c_fw c) inp (length (ent_uout x))) as [[f r]|].
  - destruct Hd as (lay & blk & E & Ha). rewrite E. apply runs_bind, runs_modc, runs_ret. by apply HQ.
  - rewrite Hd. by apply runs_ret.
Qed.

Definition replied (lay : mlx5_cmd_layout) (r : list Z) (x : work_ent) : work_ent :=
  mkent false (ent_in x) (set_first (lay_out lay) (ent_out x)) r (ent_callback x) (ent_idx x) (ent_handled x) true
        0 (ent_page_queue x) 0 (ent_token x) (ent_op x) (ent_polling x).

(** The answer as the completion handler finds it. *)
Lemma answer_read e idx x b bin inp m D st c lay blk r f :
  flight e idx x b bin inp m D st c ->
  answers (negb (g_checksum_disabled g)) (sign_layout (descriptor (ent_in x) (ent_out x) (ent_token x)))
    (msg_next (ent_out x)) (pl_blk (c_pool c)) lay blk r ->
  owns (ent_out x) bin m D (mkdrv st (c_pool (written idx f lay blk c))) /\
  mlx5_copy_from_msg (set_first (lay_out lay) (ent_out x)) (length (ent_uout x)) (c_pool (written idx f lay blk c)) =
    Some (inr r, c_pool (written idx f lay blk c)) /\
  (if g_checksum_disabled g then True
   else verify_signature lay (ent_out x) (c_pool (written idx f lay blk c)) = Some (inr 0, c_pool (written idx f lay blk c))).
Proof.
  intros H [Hb Hw Hs Hr Hv]. pose proof (fl_out _ _ _ _ _ _ _ _ _ _ H) as [Ha Hl _].
  pose proof (fl_room _ _ _ _ _ _ _ _ _ _ H) as [Hn Hu]. pose proof (fl_own _ _ _ _ _ _ _ _ _ _ H) as [Ho Hf].
  assert (Ha' : adds bin (msg_next (ent_out x)) blk) by (by eapply adds_rewrites).
  simpl in Hr. rewrite Hu, Nat2Z.id in Hr. split_and!.
  - by split_and!.
  - eapply (copy_from_msg_ok _ bin (set_first (lay_out lay) (ent_out x))); [|exact Hu|exact Hr].
    split; simpl; [done|by eapply linked_rewrites|apply Hw|lia].
  - destruct (g_checksum_disabled g); [done|]. destruct (Hv eq_refl) as [Hx Hc].
    unfold verify_signature. rewrite Hx. simpl. apply verify_chain_ok. apply Forall_take, Hc.
Qed.

Lemma runs_comp_answered ct e idx x b bin inp m D st c f lay blk r (Q : Z + unit -> drv C -> Prop) :
  flight e idx x b bin inp m D st c ->
  answers (negb (g_checksum_disabled g)) (sign_layout (descriptor (ent_in x) (ent_out x) (ent_token x)))
    (msg_next (ent_out x)) (pl_blk (c_pool c)) lay blk r ->
  device_down g = false -> ent_callback x = None -> ent_polling x && is_event ct = false ->
  (forall st', owned cls m D st' -> Q (inr tt) (mkdrv st'
     (mkcmd (mkpool (pl_next (c_pool c)) bin)
        (release ct x (set_ents (<[e := replied lay r x]> (s_ents (c_slots c))) (set_lay idx lay (c_slots c))))
        (c_caches c) (c_token c) (c_real_miss c) (c_called c) f))) ->
  runs (comp_one g false ct idx) (mkdrv st (written idx f lay blk c)) Q.
Proof.
  intros H Ha Hup Hcb Hpe HQ. destruct (answer_read _ _ _ _ _ _ _ _ _ _ _ _ _ f H Ha) as (Ho & Hc & Hv).
  pose proof (fl_pend _ _ _ _ _ _ _ _ _ _ H) as (Hp & Hi & Hr0). rewrite <- Hi at 1.
  assert (Ey : result_ent false lay 0 (ent_set_pending false x) =
               ent_set_ret 0 0 (ent_set_out (set_first (lay_out lay) (ent_out x)) (ent_uout x) (ent_set_pending false x))).
  { unfold result_ent. rewrite Hup. simpl. by rewrite Hr0, (an_status _ _ _ _ _ _ _ Ha). }
  apply (runs_comp_waiter ct e x lay 0 r bin m D); auto.
  - simpl. rewrite Hi. apply H.
  - apply H.
  - simpl. rewrite Hi. apply lookup_insert_eq.
  - intros _. by destruct (g_checksum_disabled g).
  - rewrite Ey. exact Hc.
  - intros st' Ho'. rewrite Ey. exact (HQ st' Ho').
Qed.

(** The entry after a timeout: nothing was read into the output buffer. *)
Definition timed_out (y x : work_ent) : Prop :=
  ent_ret y = - ETIMEDOUT /\ ent_uout y = ent_uout x /\ ent_done y = true /\ ent_pending y = false /\
  ent_idx y = ent_idx x /\ ent_callback y = ent_callback x /\ ent_handled y = ent_handled x.

Lemma runs_comp_timeout e idx x b bin inp m D st c (Q : Z + unit -> drv C -> Prop) :
  flight e idx x b bin inp m D st c -> ent_callback x = None ->
  (forall st' y, owned cls m D st' -> timed_out y x ->
     Q (inr tt) (mkdrv st' (mkcmd (mkpool (pl_next (c_pool c)) bin)
        (release COMP_FORCED x (set_ents (<[e := y]> (s_ents (c_slots c))) (c_slots c)))
        (c_caches c) (c_token c) (c_real_miss c) (c_called c) (c_fw c)))) ->
  runs (comp_one g false COMP_FORCED idx) (mkdrv st (put_ent e (ent_set_ret (- ETIMEDOUT) (ent_status x) x) c)) Q.
Proof.
  intros H Hcb HQ. pose proof (fl_pend _ _ _ _ _ _ _ _ _ _ H) as (Hp & Hi & Hr0).
  pose proof (fl_out _ _ _ _ _ _ _ _ _ _ H) as [Ha _ _]. pose proof (fl_own _ _ _ _ _ _ _ _ _ _ H) as [Ho Hf].
  set (x1 := ent_set_ret (- ETIMEDOUT) (ent_status x) x). rewrite <- Hi at 1.
  set (lay := sign_layout (descriptor (ent_in x) (ent_out x) (ent_token x))).
  apply (runs_comp_waiter COMP_FORCED e x1 lay 0 (ent_uout x) bin m D); auto.
  - simpl. rewrite Hi. apply H.
  - apply put_ent_lookup.
  - by rewrite andb_false_r.
  - simpl. rewrite Hi. apply H.
  - by intros E%Z.eqb_eq.
  - unfold gives, result_ent. by destruct (device_down g).
  - by split_and!.
  - intros st' Ho'. unfold put_ent. fields. rewrite insert_insert_eq. apply (HQ st' _ Ho').
    unfold done_ent, result_ent, timed_out. by destruct (device_down g).
Qed.

(** ** The slots before and after *)

(** Nothing is in use that was not before. *)
Record settled (s s' : slots) : Prop := {
  sd_ents : s_ents s' = s_ents s;
  sd_sems : s_sem s' = s_sem s /\ s_pages_sem s' = s_pages_sem s;
  sd_bits : forall i, (i < max_reg_cmds g)%nat -> Z.testbit (s_bitmask s') (Z.of_nat i) = Z.testbit (s_bitmask s) (Z.of_nat i) }.

(** The entry [e] keeps its memory and the slot [idx]. *)
Record lost (idx e : nat) (uout : list Z) (s s' : slots) : Prop := {
  lo_ents : exists y, s_ents s' = <[e := y]> (s_ents s) /\ ent_ret y = - ETIMEDOUT /\ ent_pending y = false /\ ent_idx y = idx;
  lo_arr : s_ent_arr s' = <[idx := e]> (s_ent_arr s);
  lo_sems : s_sem s' = s_sem s /\ s_pages_sem s' = s_pages_sem s;
  lo_bits : s_bitmask s' = Z.clearbit (s_bitmask s) (Z.of_nat idx) }.

Lemma slot_for_spec pq s idx : slot_for pq s = Some idx -> (idx < nslots g)%nat /\
  (Z.testbit (s_bitmask s) (Z.of_nat idx) = true \/ idx = max_reg_cmds g).
Proof.
  assert (Hn : (0 < nslots g)%nat) by (unfold nslots; apply Nat.neq_0_lt_0, Nat.pow_nonzero; lia).
  unfold slot_for. destruct pq; [intros [= <-]; unfold max_reg_cmds; split; [lia|by right]|].
  unfold find_first_bit. destruct (List.find _ _) as [i|] eqn:E; simpl.
  - destruct (Nat.ltb_spec i (max_reg_cmds g)); [|done]. intros [= <-]. apply List.find_some in E as [_ E].
    unfold max_reg_cmds in *. split; [lia|by left].
  - destruct (Nat.ltb_spec (max_reg_cmds g) (max_reg_cmds g)); [lia|done].
Qed.

Lemma set_clear_bit a i j : 0 <= i -> 0 <= j -> (Z.testbit a i = true \/ j <> i) ->
  Z.testbit (Z.setbit (Z.clearbit a i) i) j = Z.testbit a j.
Proof.
  intros Hi Hj H. destruct (Z.eq_dec i j) as [->|Hne].
  - rewrite Z.setbit_eq by done. destruct H as [->|]; done.
  - rewrite Z.setbit_neq, Z.clearbit_neq by done. done.
Qed.

Lemma settled_after ct e idx x lay r s :
  is_forced ct = false -> slot_for (ent_page_queue x) s = Some idx -> s_ents s !! e = None ->
  let s0 := started e idx x (set_ents (<[e := x]> (s_ents s)) s) in
  let s1 := release ct (started_ent idx x) (set_ents (<[e := replied lay r (started_ent idx x)]> (s_ents s0)) (set_lay idx lay s0)) in
  settled s (set_ents (delete e (s_ents s1)) s1).
Proof.
  intros Hf Hs He s0 s1. destruct (slot_for_spec _ _ _ Hs) as [Hi Hb].
  unfold s1, s0, release, started, add_sem. rewrite Hf. simpl.
  destruct (ent_page_queue x); simpl; split; simpl.
  1, 4: by rewrite !insert_insert_eq, delete_insert_id.
  1, 3: split; lia.
  all: intros i Hm; apply set_clear_bit; [lia|lia|]; destruct Hb as [Hb|Hb]; [by left|right; lia].
Qed.

Lemma lost_after e idx x y s :
  slot_for (ent_page_queue x) s = Some idx -> timed_out y (started_ent idx x) ->
  let s0 := started e idx x (set_ents (<[e := x]> (s_ents s)) s) in
  lost idx e (ent_uout x) s (release COMP_FORCED (started_ent idx x) (set_ents (<[e := y]> (s_ents s0)) s0)).
Proof.
  intros Hs (Hr & Hu & Hd & Hp & Hi & _) s0. unfold s0, release, started, add_sem. simpl.
  destruct (ent_page_queue x); simpl; split; simpl; try done.
  1, 3: exists y; by rewrite !insert_insert_eq.
  all: split; lia.
Qed.

(** ** Memory of entries and messages side by side *)

Lemma chain_fresh_insert (e : nat) (z : Z) (c : list mlx5_cmd_mailbox) : forall m,
  chain_fresh m c -> chain_mem c !! e = None -> chain_fresh ({[e := z]} ∪ m) c.
Proof.
  induction c as [|b c IH]; intros m; [done|]. intros [Hb Hc] He. simpl in He.
  apply lookup_union_None in He as [He1 He2]. apply lookup_singleton_None in He1.
  apply lookup_union_None in Hb as [Hb1 Hb2]. split; [|by apply IH].
  apply lookup_union_None. split; [done|]. apply lookup_union_None. split; [|done]. by apply lookup_singleton_None.
Qed.

Lemma entry_beside (e : nat) (z : Z) x m :
  msg_fresh m x -> (msg_mem x ∪ m) !! e = None ->
  msg_fresh ({[e := z]} ∪ m) x /\ {[e := z]} ∪ (msg_mem x ∪ m) = msg_mem x ∪ ({[e := z]} ∪ m) /\ m !! e = None.
Proof.
  intros [Hm Hc] He. apply lookup_union_None in He as [He Hme]. unfold msg_mem in He.
  apply lookup_union_None in He as [He1 He2]. apply lookup_singleton_None in He2. split_and!; [split| |done].
  - apply lookup_union_None. split; [|done]. by apply lookup_singleton_None.
  - rewrite union_swap; [by apply chain_fresh_insert|]. by apply map_disjoint_singleton_l, lookup_singleton_None.
  - apply union_swap, map_disjoint_singleton_l. unfold msg_mem. apply lookup_union_None. split; [done|].
    by apply lookup_singleton_None.
Qed.

(** ** From the doorbell to the end of the wait *)

(** What cmd_work_handler does after the descriptor is written. *)
Definition issue (e idx : nat) : es (drv C) unit :=
  do! ent := get_ent e in
  if device_down g || negb (opcode_allowed g (ent_op ent)) then skip_work g e
  else when g_polling g || ent_polling ent then! poll_work g e idx.

Definition completed (ct : mlx5_comp_t) (e idx : nat) (x : work_ent) (bin : blocks) (f : F) (lay : mlx5_cmd_layout)
    (r : list Z) (c : C) : C :=
  mkcmd (mkpool (pl_next (c_pool c)) bin)
        (release ct x (set_ents (<[e := replied lay r x]> (s_ents (c_slots c))) (set_lay idx lay (c_slots c))))
        (c_caches c) (c_token c) (c_real_miss c) (c_called c) f.
Definition abandoned (e : nat) (x y : work_ent) (bin : blocks) (c : C) : C :=
  mkcmd (mkpool (pl_next (c_pool c)) bin) (release COMP_FORCED x (set_ents (<[e := y]> (s_ents (c_slots c))) (c_slots c)))
        (c_caches c) (c_token c) (c_real_miss c) (c_called c) (c_fw c).

Lemma release_ents ct x s : s_ents (release ct x s) = s_ents s.
Proof. unfold release. by destruct (is_forced ct), (ent_page_queue x). Qed.

Context (Hlog : (g_log_sz g <= 5)%nat) (Hup : device_down g = false).

Lemma runs_comp_handler ct i (d : drv C) (Q : Z + unit -> drv C -> Prop) :
  (i < nslots g)%nat -> runs (comp_one g false ct i) d Q -> runs (mlx5_cmd_comp_handler g (slot_bit i) ct) d Q.
Proof. intros Hi (r & d' & E & H). exists r, d'. by rewrite comp_handler_one. Qed.

Lemma ent_ret_id x : ent_ret x = 0 -> ent_set_ret 0 (ent_status x) x = x.
Proof. destruct x. simpl. by intros ->. Qed.

Lemma runs_issue_wait e idx x b bin inp m D st c (Q : Z + Z -> drv C -> Prop) :
  flight e idx x b bin inp m D st c -> opcode_allowed g (ent_op x) = true -> ent_callback x = None ->
  ent_handled x = true -> ent_done x = false ->
  match fw_answer (c_fw c) inp (length (ent_uout x)) with
  | Some (f, r) => forall ct lay st', is_forced ct = false -> owned cls m D st' ->
      Q (inr 0) (mkdrv st' (completed ct e idx x bin f lay r c))
  | None => forall y st', timed_out y x -> owned cls m D st' ->
      Q (inr (- ETIMEDOUT)) (mkdrv st' (abandoned e x y bin c))
  end ->
  runs (issue e idx;; wait_func g e) (mkdrv st c) Q.
Proof.
  intros H Hop Hcb Hh Hd HQ. pose proof (fl_pend _ _ _ _ _ _ _ _ _ _ H) as (_ & Hi & Hr0).
  pose proof (fl_slot _ _ _ _ _ _ _ _ _ _ H) as Hsl. pose proof (fl_ent _ _ _ _ _ _ _ _ _ _ H) as Hx.
  apply runs_bind, runs_bind. eapply runs_get_ent; [done|]. rewrite Hup, Hop. simpl.
  destruct (g_polling g || ent_polling x) eqn:Hpol.
  - apply runs_bind. eapply runs_fw_run; [done|]. destruct (fw_answer _ _ _) as [[f r]|].
    + intros lay blk Ha. apply runs_bind. eapply runs_get_ent; [exact Hx|]. apply runs_bind.
      eapply runs_mod_ent; [exact Hx|]. rewrite ent_ret_id, put_ent_id by done. apply runs_comp_handler; [done|].
      eapply runs_comp_answered; [done|done|done|done|by rewrite andb_false_r|]. intros st' Ho'.
      apply runs_bind. eapply runs_get_ent; [simpl; rewrite release_ents; apply lookup_insert_eq|]. simpl. rewrite Hh. simpl.
      apply runs_bind, runs_ret, runs_bind. eapply runs_get_ent; [simpl; rewrite release_ents; apply lookup_insert_eq|].
      apply runs_ret. by apply (HQ COMP_POLLING).
    + apply runs_bind. eapply runs_get_ent; [exact Hx|]. apply runs_bind. eapply runs_mod_ent; [exact Hx|].
      apply runs_comp_handler; [done|]. eapply runs_comp_timeout; [done|done|]. intros st' y Ho' Hy.
      pose proof Hy as (Hyr & _ & Hyd & _ & _ & _ & Hyh).
      apply runs_bind. eapply runs_get_ent; [simpl; rewrite release_ents; apply lookup_insert_eq|]. rewrite Hyd, Hyh, Hh.
      apply runs_bind, runs_ret, runs_bind. eapply runs_get_ent; [simpl; rewrite release_ents; apply lookup_insert_eq|].
      apply runs_ret. rewrite Hyr. by apply HQ.
  - apply runs_ret, runs_bind. eapply runs_get_ent; [done|]. rewrite Hh, Hd. simpl. apply orb_false_iff in Hpol as [_ Hpx].
    apply runs_bind, runs_bind. eapply runs_get_ent; [done|]. apply runs_bind. rewrite Hi. eapply runs_fw_run; [done|].
    destruct (fw_answer _ _ _) as [[f r]|].
    + intros lay blk Ha. apply runs_comp_handler; [done|].
      eapply runs_comp_answered; [done|done|done|done|by rewrite Hpx|]. intros st' Ho'.
      apply runs_bind. eapply runs_get_ent; [simpl; rewrite release_ents; apply lookup_insert_eq|].
      apply runs_ret. by apply (HQ COMP_EVENT).
    + apply runs_bind. eapply runs_get_ent; [exact Hx|]. apply runs_bind. eapply runs_mod_ent; [exact Hx|]. rewrite Hi.
      apply runs_comp_handler; [done|]. eapply runs_comp_timeout; [done|done|]. intros st' y Ho' Hy.
      apply runs_bind. eapply runs_get_ent; [simpl; rewrite release_ents; apply lookup_insert_eq|].
      apply runs_ret. pose proof Hy as (-> & _). by apply HQ.
Qed.

(** ** mlx5_cmd_invoke *)

Lemma cmd_work_handler_eq e (d : drv C) :
  cmd_work_handler g e d = es_bind (work_start g e) (fun i => match i with None => es_ret tt | Some i => issue e i end) d.
Proof. done. Qed.

(** The messages of a command about to be issued. *)
Record loaded (inb outb : mlx5_cmd_msg) (uout : list Z) (tok : Z) (b bin : blocks) (inp : list Z) m D st (p : pool) : Prop := {
  ld_tok : byte_ok tok;
  ld_in : msg_ok b inb bin;
  ld_len : msg_len inb = Z.of_nat (length inp);
  ld_inp : dma_message bin (msg_first inb) (chain_dma (msg_next inb)) (length inp) tok = Some inp;
  ld_out : chain_ok bin tok 0 (msg_next outb) (pl_blk p);
  ld_room : Z.of_nat (length (msg_next outb)) = cmd_blocks (msg_len outb) /\ msg_len outb = Z.of_nat (length uout);
  ld_own : owned cls (msg_mem outb ∪ m) D st /\ msg_fresh m outb }.

Definition sync_ent (inb outb : mlx5_cmd_msg) (uout : list Z) (pq : bool) (tok : Z) (pol : bool) : work_ent :=
  mkent false inb outb uout None 0 false false 0 pq 0 tok 0 pol.

(** The entry is in its slot once work_start has run. *)
Lemma loaded_flight e idx inb outb uout tok b bin inp m D st pq pol c :
  loaded inb outb uout tok b bin inp m D st (c_pool c) -> slot_for pq (c_slots c) = Some idx ->
  exists p' bin', signed inb outb (c_pool c) p' /\ pl_next p' = pl_next (c_pool c) /\
    flight e idx (started_ent idx (sync_ent inb outb uout pq tok pol)) b bin' inp m D st
      (set_pool p' (set_slots (started e idx (sync_ent inb outb uout pq tok pol) (c_slots c)) c)).
Proof.
  intros [Ht Hin Hlen Hinp Hout Hroom Hown] Hsl. destruct (slot_for_spec _ _ _ Hsl) as [Hi _].
  destruct (sign_both b tok inb outb bin (c_pool c) (length inp) inp Hin Hlen Hinp Hout)
    as (p1 & p2 & bin' & E1 & E2 & Hn & Hin' & Hout' & Hinp' & Hs1 & Hs2); [apply Hroom|].
  assert (Hg : exists p' bin', signed inb outb (c_pool c) p' /\ pl_next p' = pl_next (c_pool c) /\ msg_ok b inb bin' /\
    chain_ok bin' tok 0 (msg_next outb) (pl_blk p') /\
    dma_message (pl_blk p') (msg_first inb) (chain_dma (msg_next inb)) (length inp) tok = Some inp /\
    (g_checksum_disabled g = false -> signed_chain (pl_blk p') (cmd_blocks (msg_len inb)) (chain_dma (msg_next inb)) /\
       signed_chain (pl_blk p') (cmd_blocks (msg_len outb)) (chain_dma (msg_next outb)))).
  { unfold signed. destruct (g_checksum_disabled g).
    - exists (c_pool c), bin. split_and!; auto; [|done].
      eapply dma_message_sub; [|exact Hinp]. apply (adds_sub _ _ _ (co_adds _ _ _ _ _ Hout)).
    - exists p2, bin'. split_and!; eauto. }
  destruct Hg as (p' & bin2 & Hsg & Hn2 & Hi2 & Ho2 & Hm2 & Hv2). exists p', bin2. split_and!; auto.
  unfold started, add_sem. split; simpl; auto; try (by rewrite ?Hlen, ?Nat2Z.id).
  all: destruct pq; apply lookup_insert_eq.
Qed.

Lemma runs_invoke inb outb uout pq tok pol b bin inp m D st c idx (Q : Z + Z * Z * list Z -> drv C -> Prop) :
  loaded inb outb uout tok b bin inp m D st (c_pool c) ->
  opcode_allowed g (mbox_in_opcode (msg_first inb)) = true -> g_wq_busy g = false ->
  0 < sem_of pq (c_slots c) -> slot_for pq (c_slots c) = Some idx ->
  (forall e, is_Some (s_ents (c_slots c) !! e) -> is_Some (m !! e)) ->
  (forall st', owned cls (msg_mem outb ∪ m) D st' -> Q (inr (- ENOMEM, 0, uout)) (mkdrv st' c)) ->
  match fw_answer (c_fw c) inp (length uout) with
  | Some (f, r) => forall st' bin' s', owned cls m D st' -> msg_ok b inb bin' -> settled (c_slots c) s' ->
      Q (inr (0, 0, r)) (mkdrv st' (mkcmd (mkpool (pl_next (c_pool c)) bin') s' (c_caches c) (c_token c) (c_real_miss c) (c_called c) f))
  | None => forall st' bin' s' e, owned cls ({[e := sizeof_ent]} ∪ m) D st' -> m !! e = None -> msg_ok b inb bin' ->
      lost idx e uout (c_slots c) s' ->
      Q (inr (- ETIMEDOUT, 0, uout)) (mkdrv st' (mkcmd (mkpool (pl_next (c_pool c)) bin') s' (c_caches c) (c_token c)
                                                       (c_real_miss c) (c_called c) (c_fw c)))
  end ->
  runs (mlx5_cmd_invoke o g inb outb uout None pq tok pol) (mkdrv st c) Q.
Proof.
  intros Hld Hop Hwq Hsem Hsl Hents HN HQ. unfold mlx5_cmd_invoke. simpl bool_decide. apply runs_bind, runs_try, runs_bind.
  apply (runs_kzalloc o cls c sizeof_ent st (msg_mem outb ∪ m) D); [apply Hld|intros; by apply runs_ret, HN|].
  intros e st1 He Ho1. destruct (entry_beside e sizeof_ent outb m) as (Hf1 & Em & Hme); [apply Hld|done|].
  assert (Hne : s_ents (c_slots c) !! e = None) by (apply eq_None_not_Some; intros [y Hy]%Hents; congruence).
  apply runs_bind, runs_mods, runs_ret. set (x := sync_ent inb outb uout pq tok pol).
  set (c1 := set_slots _ c). apply runs_bind. rewrite Hwq, orb_true_r.
  assert (Hld1 : loaded inb outb uout tok b bin inp ({[e := sizeof_ent]} ∪ m) D st1 (c_pool c1)).
  { destruct Hld. split; auto. split; [by rewrite <- Em|done]. }
  destruct (loaded_flight e idx _ _ _ _ _ _ _ _ _ _ pq pol c1 Hld1 Hsl) as (p' & bin' & Hsg & Hpn & Hfl).
  set (c2 := set_pool p' (set_slots (started e idx x (c_slots c1)) c1)) in *.
  assert (Hmain : runs (work_start g e) (mkdrv st1 c1) (fun r s' => r = inr (Some idx) /\ s' = mkdrv st1 c2)).
  { apply (runs_work_start e x idx p'); [simpl; apply lookup_insert_eq|done|done|done|done]. }
  assert (Hrest : runs (issue e idx;; wait_func g e) (mkdrv st1 c2) (fun r s' =>
    runs (do! err := es_sum r in do! ent := get_ent e in
          if err =? - ETIMEDOUT then es_ret (err, 0, ent_uout ent)
          else if err =? - ECANCELED then free_cmd e;; es_ret (err, 0, ent_uout ent)
          else free_cmd e;; es_ret (err, ent_status ent, ent_uout ent)) s' Q)).
  { eapply runs_issue_wait; [exact Hfl|done|done|done|done|].
    change (c_fw c2) with (c_fw c). fold x. change (length (ent_uout (started_ent idx x))) with (length uout).
    destruct (fw_answer (c_fw c) inp (length uout)) as [[f r]|].
    - intros ct lay st2 Hct Ho2. apply runs_bind, runs_ret, runs_bind.
      eapply runs_get_ent; [simpl; rewrite release_ents; apply lookup_insert_eq|]. simpl.
      apply runs_bind, runs_bind. eapply runs_get_ent; [simpl; rewrite release_ents; apply lookup_insert_eq|].
      apply runs_bind, runs_mods. apply (runs_kfree cls _ e sizeof_ent st2 m D); [done|done|]. intros st3 Ho3.
      apply runs_ret. unfold completed. rewrite (Hpn : pl_next (c_pool c2) = _). apply HQ; [done|apply Hfl|].
      exact (settled_after ct e idx x lay r (c_slots c) Hct Hsl Hne).
    - intros y st2 Hy Ho2. apply runs_bind, runs_ret, runs_bind.
      eapply runs_get_ent; [simpl; rewrite release_ents; apply lookup_insert_eq|]. simpl. apply runs_ret.
      pose proof Hy as (_ & -> & _). unfold abandoned. rewrite (Hpn : pl_next (c_pool c2) = _). apply (HQ st2 bin' _ e); [done|done|apply Hfl|].
      exact (lost_after e idx x y (c_slots c) Hsl Hy). }
  apply runs_bind. eapply runs_mono; [exact Hmain|]. intros r s' [-> ->].
  apply runs_bind_inv in Hrest. eapply runs_mono; [exact Hrest|]. intros [err|[]] s'; simpl; intros Hk.
  - apply runs_bind_inv in Hk. destruct Hk as (r & s2 & [= <- <-] & Hk). exact Hk.
  - apply runs_bind. eapply runs_mono; [exact Hk|]. intros [err|err] s2 Hk2; apply runs_bind_inv in Hk2;
      destruct Hk2 as (r & s3 & [= <- <-] & Hk2); exact Hk2.
Qed.

(** ** No slot *)

Lemma runs_take_none st c (Q : Z + Z -> drv C -> Prop) :
  slot_for false (c_slots c) = None -> Q (inr (- ENOMEM)) (mkdrv st c) -> runs (take_slot g false) (mkdrv st c) Q.
Proof.
  unfold slot_for, take_slot, alloc_ent. intros Hi HQ. apply runs_bind, runs_getc. set (i := find_first_bit _ _) in *.
  cbn zeta in *. destruct (i <? max_reg_cmds g)%nat; [done|]. apply runs_bind, runs_ret. by apply runs_ret.
Qed.

Lemma runs_invoke_full inb outb uout tok pol b m D st c (Q : Z + Z * Z * list Z -> drv C -> Prop) :
  owns outb b m D (mkdrv st (c_pool c)) -> g_wq_busy g = false -> 0 < s_sem (c_slots c) -> slot_for false (c_slots c) = None ->
  (forall e, is_Some (s_ents (c_slots c) !! e) -> is_Some (m !! e)) ->
  (forall st', owned cls (msg_mem outb ∪ m) D st' -> Q (inr (- ENOMEM, 0, uout)) (mkdrv st' c)) ->
  (forall st', owned cls m D st' -> Q (inr (- EAGAIN, 0, uout)) (mkdrv st' (set_pool (mkpool (pl_next (c_pool c)) b) c))) ->
  runs (mlx5_cmd_invoke o g inb outb uout None false tok pol) (mkdrv st c) Q.
Proof.
  intros Hown Hwq Hsem Hsl Hents HN HQ. unfold mlx5_cmd_invoke. simpl bool_decide. apply runs_bind, runs_try, runs_bind.
  pose proof Hown as (Ho & Hf & Ha).
  apply (runs_kzalloc o cls c sizeof_ent st (msg_mem outb ∪ m) D); [done|intros; by apply runs_ret, HN|].
  intros e st1 He Ho1. destruct (entry_beside e sizeof_ent outb m Hf He) as (Hf1 & Em & Hme).
  assert (Hne : s_ents (c_slots c) !! e = None) by (apply eq_None_not_Some; intros [y Hy]%Hents; congruence).
  apply runs_bind, runs_mods, runs_ret. set (x := sync_ent inb outb uout false tok pol).
  destruct c as [p s ch tk ms cl fw]. fields. apply runs_bind. rewrite Hwq. simpl orb. apply runs_bind.
  unfold work_start. apply runs_bind. eapply runs_get_ent; [apply lookup_insert_eq|]. simpl bool_decide. apply runs_bind.
  eapply runs_mod_ent; [apply lookup_insert_eq|]. unfold put_ent. fields. rewrite insert_insert_eq.
  apply runs_bind, runs_down; [done|]. unfold add_sem. simpl. fields. apply runs_bind. apply runs_take_none; [exact Hsl|].
  apply runs_bind. unfold refuse_work. apply runs_bind. eapply runs_get_ent; [apply lookup_insert_eq|].
  apply runs_bind, runs_bind. eapply runs_mod_ent; [apply lookup_insert_eq|]. unfold put_ent. fields. rewrite insert_insert_eq.
  apply runs_bind. eapply (runs_free_owned outb b ({[e := sizeof_ent]} ∪ m) D); [split_and!; [by rewrite <- Em|done|done]|].
  intros st2 Ho2. fields. eapply runs_mod_ent; [apply lookup_insert_eq|]. unfold put_ent. fields. rewrite insert_insert_eq.
  apply runs_mods. simpl. fields. apply runs_ret, runs_ret. apply runs_bind, runs_bind.
  eapply runs_get_ent; [apply lookup_insert_eq|]. apply runs_bind, runs_ret, runs_bind.
  eapply runs_get_ent; [apply lookup_insert_eq|]. apply runs_ret. apply runs_bind.
  eapply runs_get_ent; [apply lookup_insert_eq|]. simpl. apply runs_bind, runs_bind.
  eapply runs_get_ent; [apply lookup_insert_eq|]. apply runs_bind, runs_mods. fields.
  apply (runs_kfree cls _ e sizeof_ent st2 m D); [done|done|]. intros st3 Ho3. apply runs_ret.
  rewrite delete_insert_eq, delete_id by done. pose proof (HQ st3 Ho3) as H. destruct s as [bm sm ps arr ents lay]. fields.
  by replace (sm + -1 + 1) with sm in * by lia.
Qed.

(** ** A worker that does not come to the command in time *)

Lemma runs_invoke_canceled inb outb uout tok pol m D st c (Q : Z + Z * Z * list Z -> drv C -> Prop) :
  owned cls m D st -> g_wq_busy g = true ->
  (forall e, is_Some (s_ents (c_slots c) !! e) -> is_Some (m !! e)) ->
  (forall st', owned cls m D st' -> Q (inr (- ENOMEM, 0, uout)) (mkdrv st' c)) ->
  (forall st', owned cls m D st' -> Q (inr (- ECANCELED, 0, uout)) (mkdrv st' c)) ->
  runs (mlx5_cmd_invoke o g inb outb uout None false tok pol) (mkdrv st c) Q.
Proof.
  intros Ho Hwq Hents HN HQ. unfold mlx5_cmd_invoke. simpl bool_decide. apply runs_bind, runs_try, runs_bind.
  apply (runs_kzalloc o cls c sizeof_ent st m D); [done|intros; by apply runs_ret, HN|].
  intros e st1 He Ho1. assert (Hne : s_ents (c_slots c) !! e = None) by (apply eq_None_not_Some; intros [y Hy]%Hents; congruence).
  apply runs_bind, runs_mods, runs_ret. destruct c as [p s ch tk ms cl fw]. fields. rewrite Hwq. apply runs_bind, runs_ret.
  apply runs_bind, runs_bind. eapply runs_get_ent; [apply lookup_insert_eq|]. apply runs_bind.
  eapply runs_mod_ent; [apply lookup_insert_eq|]. unfold put_ent. fields. rewrite insert_insert_eq. apply runs_bind.
  eapply runs_get_ent; [apply lookup_insert_eq|]. apply runs_ret, runs_bind. eapply runs_get_ent; [apply lookup_insert_eq|].
  simpl. apply runs_bind, runs_bind. eapply runs_get_ent; [apply lookup_insert_eq|]. apply runs_bind, runs_mods. fields.
  apply (runs_kfree cls _ e sizeof_ent st1 m D); [done|done|]. intros st3 Ho3. apply runs_ret.
  rewrite delete_insert_eq, delete_id by done. destruct s. by apply HQ.
Qed.
End Rules.
