(* ===== verification/CmdCache.v ===== *)
(** * CmdCache: the caches of input messages (mlx5/core/cmd.c)

    Input messages are kept in five caches by size.  The messages in the caches
    are described as a stack over the rest of the memory, whose order does not
    matter; taking a message out and giving it back, filling the caches at
    start-up and emptying them keep that description. *)

From S2P Require Import Prelude ErrState KHeap FragAlloc DbAlloc DrvState CmdMsg CmdExec CmdFw CmdLife.

Open Scope es_scope.

(** ** Several messages in memory *)

Record msg_base (b : blocks) (x : mlx5_cmd_msg) (blk : blocks) : Prop := {
  mb_adds : adds b (msg_next x) blk;
  mb_linked : linked blk 0 (msg_next x);
  mb_first : length (msg_first x) = 16%nat /\ bytes_ok (msg_first x) }.

Lemma msg_ok_base b x blk : msg_ok b x blk -> msg_base b x blk.
Proof. intros []. by split. Qed.
Lemma msg_base_ok b x blk : msg_base b x blk -> cmd_blocks (msg_len x) <= Z.of_nat (length (msg_next x)) -> msg_ok b x blk.
Proof. intros []. by split. Qed.

Fixpoint msgs_mem (L : list mlx5_cmd_msg) : gmap nat Z :=
  match L with [] => ∅ | x :: r => msg_mem x ∪ msgs_mem r end.
Fixpoint msgs_fresh (m : gmap nat Z) (L : list mlx5_cmd_msg) : Prop :=
  match L with [] => True | x :: r => msg_fresh (msgs_mem r ∪ m) x /\ msgs_fresh m r end.
Fixpoint stacked (b : blocks) (L : list mlx5_cmd_msg) (blk : blocks) : Prop :=
  match L with [] => blk = b | x :: r => exists b1, stacked b r b1 /\ msg_base b1 x blk end.

Lemma msg_fresh_disj m x : msg_fresh m x <-> msg_mem x ##ₘ m /\ chain_fresh {[msg_obj x := sizeof_msg]} (msg_next x).
Proof.
  assert (G : forall (c : list mlx5_cmd_mailbox) (k m : gmap nat Z),
    chain_fresh (k ∪ m) c <-> chain_mem c ##ₘ m /\ chain_fresh k c).
  { induction c as [|b c IH]; intros k m'; simpl.
    - split; [intros _; split; [apply map_disjoint_empty_l|done]|done].
    - rewrite IH, !map_disjoint_union_l, map_disjoint_singleton_l, !lookup_union_None. naive_solver. }
  unfold msg_mem. rewrite map_disjoint_union_l, map_disjoint_singleton_l. split.
  - intros [Hm Hc]. apply G in Hc as [? ?]. done.
  - intros [[? ?] ?]. split; [done|]. by apply G.
Qed.

Lemma adds_swap b c1 b1 c2 blk :
  adds b c1 b1 -> adds b1 c2 blk -> exists b2, adds b c2 b2 /\ adds b2 c1 blk.
Proof.
  intros A1 A2. exists (without c1 blk).
  assert (Hd : forall a, a ∈ (box_dma <$> c1) -> a ∉ (box_dma <$> c2)) by (intros a; by eapply under_disjoint).
  pose proof A1 as [Hn1 Hd1 Ho1 Hi1]. pose proof A2 as [Hn2 Hd2 Ho2 Hi2]. rewrite Forall_forall in Hn1, Hn2, Hi1, Hi2.
  assert (Hin : forall x (l : list mlx5_cmd_mailbox), x ∈ l -> box_dma x ∈ (box_dma <$> l)) by (intros; apply list_elem_of_fmap; eauto).
  split; split; rewrite ?Forall_forall; auto.
  - intros x Hx. split; [|by apply Hn2]. destruct (Hn2 x Hx) as [Hx1 _]. rewrite <- Ho1; [done|].
    intros Hx2. by apply (Hd _ Hx2), Hin.
  - intros a Ha. destruct (decide (a ∈ (box_dma <$> c1))) as [Ha1|Ha1].
    + rewrite without_in by done. apply list_elem_of_fmap in Ha1 as (y & -> & Hy). by destruct (Hn1 y Hy) as [-> _].
    + by rewrite without_lookup, Ho2, Ho1.
  - intros x Hx. rewrite without_lookup; [by apply Hi2|]. intros Hx1. by apply (Hd _ Hx1), Hin.
  - intros x Hx. split; [by apply without_in, Hin|]. by apply Hn1.
  - intros a Ha. by rewrite without_lookup.
  - intros x Hx. destruct (Hi1 x Hx) as (y & Hy & W). exists y. split; [|done]. rewrite Ho2; [done|]. by apply Hd, Hin.
Qed.

Lemma linked_back b c c' blk k : linked blk k c -> adds b c' blk -> (forall x, x ∈ c -> box_dma x ∉ (box_dma <$> c')) -> linked b k c.
Proof. intros Hl A Hd. apply (linked_frame blk); [|done]. intros x Hx. symmetry. apply A. auto. Qed.

Lemma msg_base_swap b x b1 y blk :
  msg_base b x b1 -> msg_base b1 y blk -> exists b2, msg_base b y b2 /\ msg_base b2 x blk.
Proof.
  intros [A1 L1 F1] [A2 L2 F2]. destruct (adds_swap _ _ _ _ _ A1 A2) as (b2 & B1 & B2). exists b2.
  assert (Hin : forall z (l : list mlx5_cmd_mailbox), z ∈ l -> box_dma z ∈ (box_dma <$> l)) by (intros; apply list_elem_of_fmap; eauto).
  split; split; auto.
  - apply (linked_back b2 _ (msg_next x) blk); auto. intros z Hz Hz2. by eapply under_disjoint; [exact A1|exact A2|exact Hz2|apply Hin].
  - eapply linked_sub; [|exact L1]. by eapply adds_sub.
Qed.

Lemma stacked_swap b x y L blk : stacked b (x :: y :: L) blk -> stacked b (y :: x :: L) blk.
Proof.
  intros (b2 & (b1 & Hs & Hy) & Hx). destruct (msg_base_swap _ _ _ _ _ Hy Hx) as (b3 & ? & ?).
  exists b3. split; [|done]. by exists b1.
Qed.

Lemma msgs_mem_perm m L L' : L ≡ₚ L' -> msgs_fresh m L -> msgs_fresh m L' /\ msgs_mem L' = msgs_mem L.
Proof.
  induction 1 as [|x L L' _ IH|x y L|L1 L2 L3 _ IH1 _ IH2]; simpl.
  - done.
  - intros [Hx Hf]. destruct (IH Hf) as [Hf' E]. by rewrite E.
  - rewrite !msg_fresh_disj, !map_disjoint_union_r. intros ([[[Hyx HyL] Hym] ?] & [[HxL Hxm] ?] & Hf).
    split; [|by apply union_swap]. by split_and!.
  - intros Hf. destruct (IH1 Hf) as [Hf' E]. destruct (IH2 Hf') as [Hf'' E']. split; [done|congruence].
Qed.

Lemma stacked_perm b L L' : L ≡ₚ L' -> forall blk, stacked b L blk -> stacked b L' blk.
Proof.
  induction 1 as [|x L L' _ IH|x y L|L1 L2 L3 _ IH1 _ IH2]; intros blk; simpl; auto.
  - intros (b1 & Hs & Hx). eauto.
  - apply stacked_swap.
Qed.

Section Stack.
Context (cls : Z).

(** The messages [L] are in memory besides [m] and besides the blocks [b]. *)
Record stack (b : blocks) (L : list mlx5_cmd_msg) (m : gmap nat Z) (D : gset (nat * nat)) (d : drv pool) : Prop := {
  sk_own : owned cls (msgs_mem L ∪ m) D (d_mem d);
  sk_fresh : msgs_fresh m L;
  sk_blk : stacked b L (pl_blk (d_rest d)) }.

Lemma stack_perm b L L' m D d : L ≡ₚ L' -> stack b L m D d -> stack b L' m D d.
Proof.
  intros HP [Ho Hf Hb]. destruct (msgs_mem_perm m L L' HP Hf) as [Hf' E].
  split; [by rewrite E|done|by eapply stacked_perm].
Qed.

(** One message out of the stack. *)
Lemma stack_take b x L m D d : stack b (x :: L) m D d ->
  exists b1, stacked b L b1 /\ msgs_fresh m L /\ msg_base b1 x (pl_blk (d_rest d)) /\
    msg_fresh (msgs_mem L ∪ m) x /\ owned cls (msg_mem x ∪ (msgs_mem L ∪ m)) D (d_mem d).
Proof.
  intros [Ho [Hx Hf] (b1 & Hs & Hb)]. exists b1. split_and!; auto. simpl in Ho. by rewrite <- map_union_assoc in Ho.
Qed.

Lemma stack_put b x L m D d b1 :
  stacked b L b1 -> msgs_fresh m L -> msg_base b1 x (pl_blk (d_rest d)) -> msg_fresh (msgs_mem L ∪ m) x ->
  owned cls (msg_mem x ∪ (msgs_mem L ∪ m)) D (d_mem d) -> stack b (x :: L) m D d.
Proof. intros Hs Hf Hb Hx Ho. split; [simpl; by rewrite <- map_union_assoc|done|by exists b1]. Qed.
End Stack.

(** ** Taking from the caches and giving back *)

Notation heads l := (ch_head <$> l).
Notation maxs l := (ch_max_inbox_size <$> l).

Definition cached (l : list cmd_msg_cache) : list mlx5_cmd_msg := concat (heads l).

(** Each message knows its cache and has the blocks the cache promises. *)
Definition cache_ok (l : list cmd_msg_cache) : Prop :=
  forall i h mx x, heads l !! i = Some h -> maxs l !! i = Some mx -> x ∈ h ->
    msg_parent x = Some i /\ cmd_blocks mx <= Z.of_nat (length (msg_next x)).

Lemma concat_take {A} (hs : list (list A)) i x h :
  hs !! i = Some (x :: h) -> concat hs ≡ₚ x :: concat (<[i := h]> hs).
Proof.
  revert i. induction hs as [|k hs IH]; intros [|i] Hi; simpl in *; [done|done|by injection Hi as ->|].
  rewrite (IH i Hi). symmetry. apply Permutation_middle.
Qed.

Lemma concat_put {A} (hs : list (list A)) i x h :
  hs !! i = Some h -> concat (<[i := h ++ [x]]> hs) ≡ₚ x :: concat hs.
Proof.
  revert i. induction hs as [|k hs IH]; intros [|i] Hi; simpl in *; [done|done| |].
  - injection Hi as ->. rewrite <- app_assoc. symmetry. apply Permutation_middle.
  - rewrite (IH i Hi). symmetry. apply Permutation_middle.
Qed.

Lemma cache_lookup_spec size : forall l tot miss l' r,
  cache_lookup size tot miss l = (l', r) -> maxs l' = maxs l /\
  match r with
  | None => heads l' = heads l
  | Some y => exists i x h mx, heads l !! i = Some (x :: h) /\ maxs l !! i = Some mx /\ size <= mx /\
                y = set_len size x /\ heads l' = <[i := h]> (heads l)
  end.
Proof.
  induction l as [|ch l IH]; intros tot miss l' r; cbn [cache_lookup]; [by intros [= <- <-]|].
  destruct (Z.ltb_spec (ch_max_inbox_size ch) size) as [Hlt|Hge].
  - destruct (cache_lookup size tot miss l) as [l1 r1] eqn:E. intros [= <- <-]. apply IH in E as [Hm Hr].
    rewrite !fmap_cons, Hm. split; [done|]. destruct r1 as [y|]; [|by rewrite Hr].
    destruct Hr as (i & x & h & mx & ? & ? & ? & ? & ->). by exists (S i), x, h, mx.
  - destruct (ch_head ch) as [|m h] eqn:Eh.
    + destruct (cache_lookup size true true l) as [l1 r1] eqn:E. intros [= <- <-]. apply IH in E as [Hm Hr].
      rewrite !fmap_cons, Hm. split; [done|]. destruct r1 as [y|]; [|by rewrite Hr, Eh].
      destruct Hr as (i & x & h & mx & ? & ? & ? & ? & ->). exists (S i), x, h, mx. by rewrite Eh.
    + intros [= <- <-]. split; [done|]. exists 0%nat, m, h, (ch_max_inbox_size ch). rewrite !fmap_cons, Eh. by split_and!.
Qed.

Lemma cmd_blocks_mono a b : a <= b -> cmd_blocks a <= cmd_blocks b.
Proof. intros H. unfold cmd_blocks, DIV_ROUND_UP, MLX5_CMD_DATA_BLOCK_SIZE. apply Z.div_le_mono; lia. Qed.

Lemma cache_ok_take l l' i x h mx :
  cache_ok l -> heads l !! i = Some (x :: h) -> maxs l !! i = Some mx -> maxs l' = maxs l -> heads l' = <[i := h]> (heads l) ->
  cache_ok l' /\ msg_parent x = Some i /\ cmd_blocks mx <= Z.of_nat (length (msg_next x)).
Proof.
  intros Hc Hi Hmx Hm Hh. split; [|apply (Hc i (x :: h) mx x Hi Hmx), list_elem_of_here].
  intros j k my y. rewrite Hh, Hm. destruct (decide (i = j)) as [->|Hne].
  - rewrite list_lookup_insert_eq by (by eapply lookup_lt_Some). intros [= <-] Hmy Hy.
    apply (Hc j (x :: h) my y Hi Hmy). by apply list_elem_of_further.
  - rewrite list_lookup_insert_ne by done. apply Hc.
Qed.

Lemma cache_ok_put l l' i x h mx :
  cache_ok l -> heads l !! i = Some h -> maxs l !! i = Some mx -> maxs l' = maxs l -> heads l' = <[i := h ++ [x]]> (heads l) ->
  msg_parent x = Some i -> cmd_blocks mx <= Z.of_nat (length (msg_next x)) -> cache_ok l'.
Proof.
  intros Hc Hi Hmx Hm Hh Hp Hr j k my y. rewrite Hh, Hm. destruct (decide (i = j)) as [->|Hne].
  - rewrite list_lookup_insert_eq by (by eapply lookup_lt_Some). intros [= <-] Hmy Hy.
    apply elem_of_app in Hy as [Hy|Hy%list_elem_of_singleton]; [by apply (Hc j h my y)|]. subst y. by simplify_eq.
  - rewrite list_lookup_insert_ne by done. apply Hc.
Qed.

Section CacheRules.
Context {F : Type} `{HP : !DmaPool} (o : oracle) (cls : Z).
Notation C := (mlx5_cmd F).
Implicit Types (m : gmap nat Z) (D : gset (nat * nat)) (st : db_priv) (c : C).

(** A message taken for a command: the caches [l] without it, and where it goes
    back to. *)
Definition borrowed (l : list cmd_msg_cache) (x : mlx5_cmd_msg) : Prop :=
  match msg_parent x with
  | None => True
  | Some i => exists h mx, heads l !! i = Some h /\ maxs l !! i = Some mx /\ cmd_blocks mx <= Z.of_nat (length (msg_next x))
  end.

Lemma runs_alloc_msg b size st c m D (Q : Z + mlx5_cmd_msg -> drv C -> Prop) :
  0 <= size -> stack cls b (cached (c_caches c)) m D (mkdrv st (c_pool c)) -> cache_ok (c_caches c) ->
  (forall st' n l miss, stack cls b (cached l) m D (mkdrv st' (mkpool n (pl_blk (c_pool c)))) -> cache_ok l ->
     Q (inl (- ENOMEM)) (mkdrv st' (mkcmd (mkpool n (pl_blk (c_pool c))) (c_slots c) l (c_token c) miss (c_called c) (c_fw c)))) ->
  (forall st' p' l miss x, stack cls b (x :: cached l) m D (mkdrv st' p') -> cache_ok l -> borrowed l x ->
     msg_len x = size -> cmd_blocks size <= Z.of_nat (length (msg_next x)) ->
     Q (inr x) (mkdrv st' (mkcmd p' (c_slots c) l (c_token c) miss (c_called c) (c_fw c)))) ->
  runs (alloc_msg o size) (mkdrv st c) Q.
Proof.
  intros Hs Hk Hc HN HS. apply runs_bind, runs_getc.
  set (lr := if size <=? 16 then (c_caches c, None) else cache_lookup size false false (c_caches c)).
  destruct lr as [l r] eqn:El. apply runs_bind, runs_modc.
  assert (Hspec : maxs l = maxs (c_caches c) /\ match r with
    | None => heads l = heads (c_caches c)
    | Some y => exists i x h mx, heads (c_caches c) !! i = Some (x :: h) /\ maxs (c_caches c) !! i = Some mx /\ size <= mx /\
                y = set_len size x /\ heads l = <[i := h]> (heads (c_caches c))
    end).
  { unfold lr in El. destruct (size <=? 16); [by injection El as <- <-|]. by eapply cache_lookup_spec. }
  destruct Hspec as [Hm Hr]. destruct r as [y|].
  - destruct Hr as (i & x & h & mx & Hi & Hmx & Hle & -> & Hh). apply runs_ret.
    destruct (cache_ok_take _ _ _ _ _ _ Hc Hi Hmx Hm Hh) as (Hc' & Hpar & Hroom).
    pose proof (cmd_blocks_mono _ _ Hle). apply HS; auto; [| |simpl; lia].
    + unfold cached in *. rewrite Hh. pose proof (stack_perm _ _ _ _ _ _ _ (concat_take _ _ _ _ Hi) Hk) as [Ho [Hx Hf] (b1 & Hb & [? ? ?])].
      split; [done|by destruct Hx|]. by exists b1.
    + unfold borrowed. simpl. rewrite Hpar. exists h, mx. rewrite Hh, Hm.
      split_and!; auto. apply list_lookup_insert_eq. by eapply lookup_lt_Some.
  - apply runs_bind.
    assert (Hmiss : runs (when 16 <? size then! modc (set_miss (c_real_miss c + 1))) (mkdrv st (set_caches l c))
      (fun r s' => r = inr tt /\ exists n, s' = mkdrv st (mkcmd (c_pool c) (c_slots c) l (c_token c) n (c_called c) (c_fw c)))).
    { destruct (16 <? size); [apply runs_modc; eauto|apply runs_ret; eauto]. }
    eapply runs_mono; [exact Hmiss|]. intros r s' [-> [miss ->]].
    assert (Hc' : cache_ok l) by (intros j k my y; rewrite Hr, Hm; apply Hc).
    assert (Ecl : cached l = cached (c_caches c)) by (unfold cached; by rewrite Hr). destruct Hk as [Ho Hf Hb].
    apply runs_on_pool, (runs_alloc_cmd_msg o cls size 0 st (c_pool c) (msgs_mem (cached (c_caches c)) ∪ m) D); auto; [by split| |].
    + intros st' n Ho'. apply (HN st' n l miss); [|done]. rewrite Ecl. by split.
    + intros st' p' x Ho' Hx Hok _ Hlen Hpar Hn Hfi. apply (HS st' p' l miss x); auto; [|by unfold borrowed; rewrite Hpar|simpl in *; lia].
      rewrite Ecl. eapply stack_put; eauto. by apply msg_ok_base.
Qed.

Lemma runs_free_msg b x st c m D (Q : Z + unit -> drv C -> Prop) :
  stack cls b (x :: cached (c_caches c)) m D (mkdrv st (c_pool c)) -> cache_ok (c_caches c) -> borrowed (c_caches c) x ->
  (forall st' p' l, stack cls b (cached l) m D (mkdrv st' p') -> cache_ok l ->
     Q (inr tt) (mkdrv st' (mkcmd p' (c_slots c) l (c_token c) (c_real_miss c) (c_called c) (c_fw c)))) ->
  runs (free_msg x) (mkdrv st c) Q.
Proof.
  intros Hk Hc Hb HQ. unfold free_msg, borrowed in *. destruct (msg_parent x) as [i|] eqn:Hp.
  - destruct Hb as (h & mx & Hi & Hmx & Hr). apply runs_bind, runs_getc, runs_bind.
    rewrite list_lookup_fmap in Hi. rewrite list_lookup_fmap in Hmx. destruct (c_caches c !! i) as [ch|] eqn:Ech; [|done].
    simpl in Hi, Hmx. injection Hi as Hi. injection Hmx as Hmx. apply runs_lift, runs_modc.
    set (ch' := mkch (ch_head ch ++ [x]) _ _ _ _ _). set (l := <[i := ch']> (c_caches c)).
    assert (Hh : heads l = <[i := h ++ [x]]> (heads (c_caches c))) by (unfold l; rewrite list_fmap_insert; simpl; by rewrite Hi).
    assert (Hm : maxs l = maxs (c_caches c)).
    { unfold l. rewrite list_fmap_insert. simpl. apply list_insert_id. rewrite list_lookup_fmap, Ech. done. }
    assert (Hhi : heads (c_caches c) !! i = Some h) by (rewrite list_lookup_fmap, Ech; simpl; by rewrite Hi).
    assert (Hmi : maxs (c_caches c) !! i = Some mx) by (rewrite list_lookup_fmap, Ech; simpl; by rewrite Hmx).
    apply (HQ st (c_pool c) l); [|by eapply cache_ok_put].
    unfold cached in *. rewrite Hh. eapply stack_perm; [|exact Hk]. symmetry. by apply concat_put.
  - apply stack_take in Hk as (b1 & Hs & Hf & Hx & Hfx & Ho).
    eapply (runs_free_owned (F := F) cls x b1 (msgs_mem (cached (c_caches c)) ∪ m) D); [split_and!; [done|done|apply Hx]|].
    intros st' Ho'. by apply HQ.
Qed.
End CacheRules.

(** ** Filling and emptying the caches *)

Definition cmd_cache_num_ent : list nat := [512; 32; 16; 8; 2]%nat.
Definition cmd_cache_ent_size : list Z :=
  [16 + MLX5_CMD_DATA_BLOCK_SIZE; 16 + MLX5_CMD_DATA_BLOCK_SIZE * 2; 16 + MLX5_CMD_DATA_BLOCK_SIZE * 16;
   16 + MLX5_CMD_DATA_BLOCK_SIZE * 256; 16 + MLX5_CMD_DATA_BLOCK_SIZE * 512].

Section Fill.
Context {F : Type} `{HP : !DmaPool} (o : oracle).
Notation C := (mlx5_cmd F).

(** The inner loop of create_msg_cache for the cache [k]: it ends early when an
    allocation fails. *)
Fixpoint fill_cache (k : nat) (size : Z) (n : nat) : es (drv pool) (list mlx5_cmd_msg) :=
  match n with
  | O => es_ret []
  | S n =>
      do! r := es_try (mlx5_alloc_cmd_msg o size 0) in
      match r with
      | inl _ => es_ret []
      | inr m => do! l := fill_cache k size n in es_ret (set_parent (Some k) m :: l)
      end
  end.

Fixpoint fill_caches (k : nat) (specs : list (nat * Z)) : es (drv pool) (list cmd_msg_cache) :=
  match specs with
  | [] => es_ret []
  | (n, size) :: r =>
      do! h := fill_cache k size n in
      do! l := fill_caches (S k) r in
      es_ret (mkch h size (Z.of_nat n) 0 0 (Z.of_nat (length h)) :: l)
  end.

(** The caches of create_msg_cache and destroy_msg_cache; their last calls, to
    cmd_sysfs_init and cmd_sysfs_cleanup, follow in CmdInit (make_msg_cache,
    drop_msg_cache). *)
Definition create_msg_cache : es (drv C) unit :=
  do! l := on_pool (fill_caches 0 (combine cmd_cache_num_ent cmd_cache_ent_size)) in
  modc (set_caches l).

Fixpoint free_all (l : list mlx5_cmd_msg) : es (drv pool) unit :=
  match l with [] => es_ret tt | m :: r => mlx5_free_cmd_msg m;; free_all r end.

Definition destroy_msg_cache : es (drv C) unit :=
  do! c := getc in
  on_pool (free_all (cached (c_caches c)));;
  modc (set_caches ((fun ch => mkch [] (ch_max_inbox_size ch) (ch_num_ent ch) (ch_miss ch) (ch_total_commands ch)
                                    (ch_free ch - Z.of_nat (length (ch_head ch)))) <$> c_caches c)).

Context (cls : Z).

Lemma stack_parent b x k L m D d : stack cls b (x :: L) m D d -> stack cls b (set_parent k x :: L) m D d.
Proof. intros [Ho [[? ?] Hf] (b1 & Hs & [? ? ?])]. split; [done|by split_and!|]. by exists b1. Qed.

(** The stack grows by the new messages, on top of [L]. *)
Lemma runs_fill_cache b k size n : 0 <= size -> forall L st p m D (Q : Z + list mlx5_cmd_msg -> drv pool -> Prop),
  stack cls b L m D (mkdrv st p) ->
  (forall st' p' h, stack cls b (h ++ L) m D (mkdrv st' p') -> (length h <= n)%nat ->
     Forall (fun x => msg_parent x = Some k /\ cmd_blocks size <= Z.of_nat (length (msg_next x))) h -> Q (inr h) (mkdrv st' p')) ->
  runs (fill_cache k size n) (mkdrv st p) Q.
Proof.
  intros Hs. induction n as [|n IH]; intros L st p m D Q Hk HQ; simpl.
  { apply runs_ret, HQ; [done|done|by apply Forall_nil]. }
  apply runs_bind, runs_try. destruct Hk as [Ho Hf Hb].
  apply (runs_alloc_cmd_msg o cls size 0 st p (msgs_mem L ∪ m) D); auto; [by split| |].
  - intros st' i Ho'. apply runs_ret, HQ; [by split|simpl; lia|by apply Forall_nil].
  - intros st' p' x Ho' Hx Hok _ Hlen Hpar Hn _. apply runs_bind.
    assert (Hk' : stack cls b (set_parent (Some k) x :: L) m D (mkdrv st' p')).
    { apply stack_parent. eapply stack_put; eauto. by apply msg_ok_base. }
    apply (IH _ _ _ _ _ _ Hk'). intros st2 p2 h Hk2 Hh Hall. apply runs_ret, HQ; [|simpl; lia|].
    + eapply stack_perm; [|exact Hk2]. symmetry. apply (Permutation_middle h L).
    + apply Forall_cons. simpl. split; [split; [done|lia]|done].
Qed.

Lemma runs_fill_caches b : forall specs k L st p m D (Q : Z + list cmd_msg_cache -> drv pool -> Prop),
  Forall (fun s => 0 <= s.2) specs -> stack cls b L m D (mkdrv st p) ->
  (forall st' p' l, stack cls b (cached l ++ L) m D (mkdrv st' p') -> maxs l = specs.*2 ->
     Forall (fun ch => ch_free ch = Z.of_nat (length (ch_head ch))) l ->
     (forall i h mx x, heads l !! i = Some h -> maxs l !! i = Some mx -> x ∈ h ->
        msg_parent x = Some (k + i)%nat /\ cmd_blocks mx <= Z.of_nat (length (msg_next x))) ->
     Q (inr l) (mkdrv st' p')) ->
  runs (fill_caches k specs) (mkdrv st p) Q.
Proof.
  induction specs as [|[n size] specs IH]; intros k L st p m D Q Hs Hk HQ; simpl.
  { apply runs_ret, HQ; [done|done|by apply Forall_nil|done]. }
  apply Forall_cons in Hs as [Hsz Hs]. apply runs_bind. eapply runs_fill_cache; [done|exact Hk|].
  intros st1 p1 h Hk1 _ Hall. apply runs_bind. eapply IH; [done|exact Hk1|]. intros st2 p2 l Hk2 Hm Hfr Hl. apply runs_ret, HQ.
  - unfold cached in *. rewrite fmap_cons. simpl. eapply stack_perm; [|exact Hk2].
    rewrite app_assoc. apply Permutation_app_tail, Permutation_app_comm.
  - rewrite !fmap_cons. simpl. by rewrite Hm.
  - by apply Forall_cons.
  - intros [|i] h' mx x; rewrite !fmap_cons; simpl.
    + intros [= <-] [= <-] Hx. rewrite Nat.add_0_r. rewrite Forall_forall in Hall. by apply Hall.
    + intros Hh Hmx Hx. destruct (Hl _ _ _ _ Hh Hmx Hx) as [-> ?]. split; [f_equal; lia|done].
Qed.

Lemma runs_free_all b L : forall st p m D (Q : Z + unit -> drv pool -> Prop),
  stack cls b L m D (mkdrv st p) ->
  (forall st' n, owned cls m D st' -> Q (inr tt) (mkdrv st' (mkpool n b))) -> runs (free_all L) (mkdrv st p) Q.
Proof.
  induction L as [|x L IH]; intros st p m D Q Hk HQ; simpl.
  - destruct Hk as [Ho _ Hb]. simpl in *. destruct p as [n blk]. simpl in Hb. subst blk.
    apply runs_ret, HQ. by rewrite map_empty_union in Ho.
  - apply stack_take in Hk as (b1 & Hs & Hf & Hx & Hfx & Ho). apply runs_bind.
    eapply runs_free_cmd_msg; [exact Ho|done|apply Hx|]. intros st' Ho'. eapply IH; [|exact HQ]. by split.
Qed.

Lemma runs_create_msg_cache b st c m D (Q : Z + unit -> drv C -> Prop) :
  owned cls m D st -> pl_blk (c_pool c) = b ->
  (forall st' p' l, stack cls b (cached l) m D (mkdrv st' p') -> cache_ok l -> maxs l = cmd_cache_ent_size ->
     Forall (fun ch => ch_free ch = Z.of_nat (length (ch_head ch))) l -> Q (inr tt) (mkdrv st' (set_caches l (set_pool p' c)))) ->
  runs create_msg_cache (mkdrv st c) Q.
Proof.
  intros Ho Hb HQ. apply runs_bind, runs_on_pool. eapply (runs_fill_caches b _ 0 [] st (c_pool c) m D).
  { by repeat constructor. }
  { split; simpl; [by rewrite map_empty_union|done|done]. }
  intros st1 p1 l Hk Hm Hfr Hl. apply runs_modc. rewrite app_nil_r in Hk. by apply HQ.
Qed.

Lemma runs_destroy_msg_cache b st c m D (Q : Z + unit -> drv C -> Prop) :
  stack cls b (cached (c_caches c)) m D (mkdrv st (c_pool c)) ->
  (forall st' n l, owned cls m D st' -> cached l = [] ->
     (Forall (fun ch => ch_free ch = Z.of_nat (length (ch_head ch))) (c_caches c) -> Forall (fun ch => ch_free ch = 0) l) ->
     Q (inr tt) (mkdrv st' (set_caches l (set_pool (mkpool n b) c)))) ->
  runs destroy_msg_cache (mkdrv st c) Q.
Proof.
  intros Hk HQ. apply runs_bind, runs_getc, runs_bind, runs_on_pool. eapply runs_free_all; [exact Hk|].
  intros st2 n Ho2. apply runs_modc. apply HQ; [done| |].
  - unfold cached. rewrite <- list_fmap_compose. generalize (c_caches c). clear. intros l. induction l; simpl; auto.
  - intros Hfr. apply Forall_fmap. eapply Forall_impl; [exact Hfr|]. intros ch E. simpl. rewrite E. apply Z.sub_diag.
Qed.

(** C34. Filling the message caches at start-up, however many of the allocations
    fail, gives caches whose messages know their cache, have the blocks it
    promises and are counted; emptying them then gives back every message,
    mailbox and DMA block. *)
Theorem msg_caches_round_trip (b : blocks) (m : gmap nat Z) (D : gset (nat * nat)) (st : db_priv) (c : C) :
  owned cls m D st -> pl_blk (c_pool c) = b ->
  runs create_msg_cache (mkdrv st c) (fun r d =>
    r = inr tt /\ stack cls b (cached (c_caches (d_rest d))) m D (mkdrv (d_mem d) (c_pool (d_rest d))) /\
    cache_ok (c_caches (d_rest d)) /\ maxs (c_caches (d_rest d)) = cmd_cache_ent_size /\
    Forall (fun ch => ch_free ch = Z.of_nat (length (ch_head ch))) (c_caches (d_rest d)) /\
    runs destroy_msg_cache d (fun r d' =>
      r = inr tt /\ owned cls m D (d_mem d') /\ pl_blk (c_pool (d_rest d')) = b /\ cached (c_caches (d_rest d')) = [] /\
      Forall (fun ch => ch_free ch = 0) (c_caches (d_rest d')))).
Proof.
  intros Ho Hb. apply (runs_create_msg_cache b _ _ m D); [done|done|]. intros st1 p1 l Hk Hc Hm Hfr. split_and!; auto.
  eapply runs_destroy_msg_cache; [exact Hk|]. intros st2 n l2 Ho2 He Hf. split_and!; auto.
Qed.
End Fill.

Lemma msg_caches_round_trip_witness :
  let c := mkcmd (mkpool 0 ∅) (mkslots 7 3 1 ∅ ∅ ∅) [] 0 0 [] tt in
  runs (create_msg_cache (HP := demo_pool) plenty) (mkdrv idle_mem c) (fun r d => r = inr tt /\
    runs destroy_msg_cache d (fun r d' => r = inr tt /\ owned 64 ∅ ∅ (d_mem d') /\ cached (c_caches (d_rest d')) = [])).
Proof.
  intros c. eapply runs_mono; [apply (msg_caches_round_trip (HP := demo_pool) plenty 64 ∅ ∅ ∅ idle_mem c idle_owned eq_refl)|].
  intros r d (Hr & _ & _ & _ & _ & Hd). split; [exact Hr|]. eapply runs_mono; [exact Hd|].
  intros r' d' (? & ? & _ & ? & _). auto.
Defined.
