(* ===== verification/CmdCall.v ===== *)
(** * CmdCall: what mlx5_cmd_exec promises

    From an interface in which nothing is lost: the caller gets the firmware's
    reply and the error its status stands for, and nothing is lost; what a
    firmware that does not answer costs, and where a failing call loses a
    message. *)

From S2P Require Import Prelude ErrState KHeap FragAlloc DbAlloc DrvState CmdMsg CmdExec CmdFw CmdLife CmdCache.

Open Scope es_scope.

Lemma stacked_rebase b y L : forall blk, stacked b (L ++ [y]) blk -> exists b', msg_base b y b' /\ stacked b' L blk.
Proof.
  induction L as [|x L IH]; intros blk; simpl.
  - intros (b1 & -> & Hy). eauto.
  - intros (b1 & Hs & Hx). destruct (IH b1 Hs) as (b' & ? & ?). eauto.
Qed.

Lemma msgs_rebase m y L : msgs_fresh m (L ++ [y]) ->
  msg_fresh m y /\ msgs_fresh (msg_mem y ∪ m) L /\ msgs_mem (L ++ [y]) = msgs_mem L ∪ msg_mem y.
Proof.
  induction L as [|x L IH]; simpl.
  - rewrite map_empty_union. intros [Hy _]. split_and!; auto. by rewrite map_union_empty, map_empty_union.
  - intros [Hx Hf]. destruct (IH Hf) as (Hy & HL & E). rewrite E in *. split_and!; auto.
    + by rewrite map_union_assoc.
    + apply map_union_assoc.
Qed.

(** A message at the bottom of the stack counts as other memory. *)
Lemma stack_rebase cls b y L m D d : stack cls b (y :: L) m D d ->
  exists b', msg_base b y b' /\ msg_fresh m y /\ stack cls b' L (msg_mem y ∪ m) D d.
Proof.
  intros H. assert (HP : y :: L ≡ₚ L ++ [y]) by (by rewrite Permutation_app_comm).
  apply (stack_perm cls b _ _ m D d HP) in H as [Ho Hf Hb].
  destruct (msgs_rebase _ _ _ Hf) as (Hy & HL & E). destruct (stacked_rebase _ _ _ _ Hb) as (b' & Hb1 & Hb2).
  exists b'. split_and!; auto. split; auto. by rewrite map_union_assoc, <- E.
Qed.

Lemma msgs_beside (e : nat) (z : Z) (L : list mlx5_cmd_msg) m :
  msgs_fresh m L -> (msgs_mem L ∪ m) !! e = None ->
  msgs_fresh ({[e := z]} ∪ m) L /\ {[e := z]} ∪ (msgs_mem L ∪ m) = msgs_mem L ∪ ({[e := z]} ∪ m) /\ m !! e = None.
Proof.
  induction L as [|x L IH]; simpl.
  - rewrite !map_empty_union. by intros _ H.
  - intros [Hx Hf] He. rewrite <- !map_union_assoc in He |- *. destruct (entry_beside e z x _ Hx He) as (Hx' & E & He').
    destruct (IH Hf He') as (Hf' & E' & Hm). rewrite E' in E, Hx'. split_and!; auto. by rewrite E, map_union_assoc.
Qed.

(** The converse: an allocation below the messages can be freed first. *)
Lemma msgs_top (L : list mlx5_cmd_msg) (e : nat) (z : Z) m :
  msgs_fresh ({[e := z]} ∪ m) L -> m !! e = None ->
  msgs_fresh m L /\ msgs_mem L ∪ ({[e := z]} ∪ m) = {[e := z]} ∪ (msgs_mem L ∪ m) /\ (msgs_mem L ∪ m) !! e = None.
Proof.
  induction L as [|x L IH]; simpl.
  - rewrite !map_empty_union. by intros _ H.
  - intros [Hx Hf] He. destruct (IH Hf He) as (Hf' & E & Hn). rewrite E in Hx.
    apply msg_fresh_disj in Hx as [Hd Hc]. apply map_disjoint_union_r in Hd as [Hd1 Hd2]. split_and!.
    + by apply msg_fresh_disj.
    + done.
    + rewrite <- !map_union_assoc, E. by apply union_swap.
    + rewrite <- map_union_assoc. apply lookup_union_None. split; [|done]. by apply map_disjoint_singleton_r in Hd1.
Qed.

Section Call.
Context {F : Type} `{HP : !DmaPool} `{HF : !Firmware F} (o : oracle) (g : cmd_cfg) (cls : Z).
Context {HK : FirmwareOk F (negb (g_checksum_disabled g))}.
Notation C := (mlx5_cmd F).
Implicit Types (m : gmap nat Z) (D : gset (nat * nat)) (st : db_priv) (c : C).

(** Everything the interface holds besides [m] and the blocks [b] is in its
    caches; the entries that are not finished are in [m]. *)
Record cmd_inv (b : blocks) m D (d : drv C) : Prop := {
  ci_stack : stack cls b (cached (c_caches (d_rest d))) m D (mkdrv (d_mem d) (c_pool (d_rest d)));
  ci_cache : cache_ok (c_caches (d_rest d));
  ci_ents : forall e, is_Some (s_ents (c_slots (d_rest d)) !! e) -> is_Some (m !! e) }.

(** The message [x] is neither in use nor in a cache. *)
Definition lost_msg (b : blocks) m D (x : mlx5_cmd_msg) (d : drv C) : Prop :=
  exists b', msg_base b x b' /\ msg_fresh m x /\ cmd_inv b' (msg_mem x ∪ m) D d.

Lemma cmd_inv_lost b m D x d :
  stack cls b (x :: cached (c_caches (d_rest d))) m D (mkdrv (d_mem d) (c_pool (d_rest d))) ->
  cache_ok (c_caches (d_rest d)) -> (forall e, is_Some (s_ents (c_slots (d_rest d)) !! e) -> is_Some (m !! e)) ->
  lost_msg b m D x d.
Proof.
  intros Hk Hc He. destruct (stack_rebase _ _ _ _ _ _ _ Hk) as (b' & Hb & Hf & Hk'). exists b'. split_and!; auto.
  split; auto. intros e Hs. apply lookup_union_is_Some. right. auto.
Qed.

Lemma runs_alloc_token st c (Q : Z + Z -> drv C -> Prop) :
  (forall t, byte_ok t -> t <> 0 -> Q (inr t) (mkdrv st (set_tok t c))) -> runs alloc_token (mkdrv st c) Q.
Proof.
  intros HQ. apply runs_bind, runs_getc, runs_bind, runs_modc, runs_ret. simpl.
  destruct (Z.eqb_spec (u8 (c_token c + 1)) 0) as [E|E]; apply HQ; try apply u8_range; [by rewrite E|done].
Qed.

Lemma mbox_first (first inp : list Z) : length first = 16%nat -> (2 <= length inp)%nat ->
  mbox_in_opcode (memcpy first inp (Nat.min (length inp) 16)) = mbox_in_opcode inp.
Proof.
  intros Hf Hi. unfold mbox_in_opcode, memcpy. f_equal. rewrite take_app_le by (rewrite length_take; lia).
  rewrite take_take. f_equal. lia.
Qed.

(** The outcomes of a call that reaches mlx5_cmd_invoke. *)
Section Exec.
Context (inp out : list Z) (pol : bool) (b : blocks) (m : gmap nat Z) (D : gset (nat * nat)).
Context (Hlog : (g_log_sz g <= 5)%nat) (Hup : device_down g = false) (Hbytes : bytes_ok inp) (Hlen : (2 <= length inp)%nat)
        (Hop : opcode_allowed g (mbox_in_opcode inp) = true).

(** The messages are loaded: what is left of a call is mlx5_cmd_invoke and
    giving the input message back. *)
Lemma runs_exec_load st c (Q : Z + Z * list Z -> drv C -> Prop) :
  cmd_inv b m D (mkdrv st c) ->
  (forall d, cmd_inv b m D d -> c_slots (d_rest d) = c_slots c -> c_fw (d_rest d) = c_fw c ->
     Q (inr (- ENOMEM, out)) d) ->
  (forall st' p' l tok miss inb outb b1 bin,
     let m1 := msg_mem inb ∪ (msgs_mem (cached l) ∪ m) in
     loaded cls inb outb out tok b1 bin inp m1 D st' p' -> mbox_in_opcode (msg_first inb) = mbox_in_opcode inp ->
     cache_ok l -> borrowed l inb -> stacked b (cached l) b1 -> msgs_fresh m (cached l) -> msg_fresh (msgs_mem (cached l) ∪ m) inb ->
     msg_ok bin outb (pl_blk p') ->
     runs (do! (err, status, uout) := mlx5_cmd_invoke o g inb outb out None (is_manage_pages inp) tok pol in
           let err := if negb (err =? 0) then err else if negb (status =? 0) then status_to_err status else 0 in
           free_msg inb;; es_ret (err, uout))
       (mkdrv st' (mkcmd p' (c_slots c) l tok miss (c_called c) (c_fw c))) Q) ->
  runs (cmd_exec o g inp out None pol) (mkdrv st c) Q.
Proof.
  intros [Hk Hc He] HN HG. simpl in *. unfold cmd_exec. rewrite Hup, Hop. cbn [orb negb]. apply runs_bind, runs_try.
  apply (runs_alloc_msg o cls b _ st c m D); [lia|done|done| |].
  { intros st' n l miss Hk' Hc'. apply runs_ret, HN; [split; done|done|done]. }
  intros st1 p1 l miss x Hk1 Hc1 Hb1 Hxl Hroom. apply runs_bind, runs_alloc_token. intros tok Ht _.
  apply runs_bind, runs_try. destruct (stack_take _ _ _ _ _ _ _ Hk1) as (b1 & Hs & Hf & Hx & Hfx & Ho).
  assert (Hxok : msg_ok b1 x (pl_blk p1)) by (apply msg_base_ok; [done|by rewrite Hxl]).
  destruct (copy_to_msg_ok tok p1 b1 x inp Ht Hbytes Hxok Hxl) as (blk1 & E & Hrw & Hok1 & Hm).
  eapply runs_pool_eq; [exact E|]. set (inb := set_first _ x) in *. apply runs_bind, runs_try, runs_on_pool.
  set (m1 := msg_mem inb ∪ (msgs_mem (cached l) ∪ m)).
  apply (runs_alloc_cmd_msg o cls (Z.of_nat (length out)) tok st1 (mkpool (pl_next p1) blk1) m1 D); [lia|done|done| |].
  - intros st2 n Ho2. apply runs_bind.
    eapply (runs_free_msg cls b inb); [|exact Hc1|exact Hb1|].
    { simpl. eapply stack_put; [exact Hs|done|by apply msg_ok_base|by destruct Hfx|done]. }
    intros st3 p3 l3 Hk3 Hc3. apply runs_ret, HN; [by split|done|done].
  - intros st2 p2 outb Ho2 Hfo Hoo Hto Hol Hop2 Hon _. pose proof (mo_first _ _ _ (Hxok)) as [Hf16 _].
    apply (HG st2 p2 l tok miss inb outb b1 blk1); auto.
    + destruct Hoo. split; auto; [by split|by rewrite Hol].
    + by apply mbox_first.
    + by destruct Hfx.
Qed.

(** The output message counts as other memory when nobody frees it. *)
Lemma loaded_lost inb outb uout tok l b1 bin inp' st1 p1 m2 D2 st2 :
  loaded cls inb outb uout tok b1 bin inp' (msg_mem inb ∪ (msgs_mem (cached l) ∪ m2)) D2 st1 p1 ->
  stacked b (cached l) b1 -> msgs_fresh m2 (cached l) -> msg_fresh (msgs_mem (cached l) ∪ m2) inb ->
  msg_ok bin outb (pl_blk p1) -> owned cls (msg_mem outb ∪ (msg_mem inb ∪ (msgs_mem (cached l) ∪ m2))) D2 st2 ->
  exists b', msg_base b outb b' /\ msg_fresh m2 outb /\ stack cls b' (inb :: cached l) (msg_mem outb ∪ m2) D2 (mkdrv st2 p1).
Proof.
  intros Hld Hst Hfr Hfi Hout Ho2. apply stack_rebase.
  eapply (stack_put cls b outb (inb :: cached l) m2 D2 _ bin); simpl; auto.
  - exists b1. split; [done|]. apply msg_ok_base, Hld.
  - by apply msg_ok_base.
  - rewrite <- map_union_assoc. apply Hld.
  - by rewrite <- map_union_assoc.
Qed.

Context (Hwq : g_wq_busy g = false).
Notation pq := (is_manage_pages inp).

(** The outcome of a call that finds a free slot: no memory, with nothing or
    the output message lost; the reply; or a timeout that keeps the slot [idx]
    and the entry [e]. *)
Definition outcome (idx : nat) c (res : Z * list Z) (d : drv C) : Prop :=
  (res = (- ENOMEM, out) /\ c_slots (d_rest d) = c_slots c /\ c_fw (d_rest d) = c_fw c /\
     (cmd_inv b m D d \/ exists x, lost_msg b m D x d)) \/
  match fw_answer (c_fw c) inp (length out) with
  | Some (f, r) => res = (0, r) /\ cmd_inv b m D d /\ settled g (c_slots c) (c_slots (d_rest d)) /\ c_fw (d_rest d) = f
  | None => res = (- ETIMEDOUT, out) /\ c_fw (d_rest d) = c_fw c /\
      exists e, m !! e = None /\ cmd_inv b ({[e := sizeof_ent]} ∪ m) D d /\ lost idx e out (c_slots c) (c_slots (d_rest d))
  end.

Lemma runs_cmd_exec idx st c :
  cmd_inv b m D (mkdrv st c) -> 0 < sem_of pq (c_slots c) -> slot_for g pq (c_slots c) = Some idx ->
  runs (cmd_exec o g inp out None pol) (mkdrv st c) (fun r d => exists res, r = inr res /\ outcome idx c res d).
Proof.
  intros Hi Hsem Hsl. apply runs_exec_load; [done| |].
  { intros d Hd Hs Hf. exists (- ENOMEM, out). split; [done|]. left. by auto. }
  intros st1 p1 l tok miss inb outb b1 bin m1 Hld Hopc Hc Hb Hst Hfr Hfi Hout. apply runs_bind.
  assert (Hents : forall e, is_Some (s_ents (c_slots c) !! e) -> is_Some (m !! e)) by apply Hi.
  assert (Hm1 : forall e, is_Some (m !! e) -> is_Some (m1 !! e)).
  { intros e He. apply lookup_union_is_Some. right. apply lookup_union_is_Some. by right. }
  apply (runs_invoke o g cls Hlog Hup inb outb out pq tok pol b1 bin inp m1 D st1 _ idx); auto.
  { by rewrite Hopc. }
  - intros st2 Ho2. apply runs_bind.
    edestruct loaded_lost as (b' & Hb1 & Hb2 & Hk'); [exact Hld|exact Hst|exact Hfr|exact Hfi|exact Hout|exact Ho2|].
    eapply runs_free_msg; [exact Hk'|done|done|].
    intros st3 p3 l3 Hk3 Hc3. apply runs_ret. exists (- ENOMEM, out). split; [done|]. left. split_and!; auto.
    right. exists outb, b'. split_and!; auto. split; auto. simpl. intros e He.
    apply lookup_union_is_Some. right. auto.
  - unfold outcome. simpl. destruct (fw_answer (c_fw c) inp (length out)) as [[f r]|].
    + intros st2 bin' s' Ho2 Hin' Hset. apply runs_bind. eapply (runs_free_msg cls b inb); [|exact Hc|exact Hb|].
      { eapply stack_put; [exact Hst|done|by apply msg_ok_base|done|done]. }
      intros st3 p3 l3 Hk3 Hc3. apply runs_ret. exists (0, r). split; [done|]. right. split_and!; auto.
      split; auto. simpl. intros e. rewrite (sd_ents _ _ _ Hset). auto.
    + intros st2 bin' s' e Ho2 He Hin' Hlost. apply runs_bind.
      destruct (entry_beside e sizeof_ent inb (msgs_mem (cached l) ∪ m) Hfi He) as (Hfe & Ee & He2).
      destruct (msgs_beside e sizeof_ent (cached l) m Hfr He2) as (Hfl & El & He3).
      eapply (runs_free_msg cls b inb _ _ ({[e := sizeof_ent]} ∪ m) D); [|exact Hc|exact Hb|].
      { rewrite El in Ee, Hfe. unfold m1 in Ho2. rewrite Ee in Ho2. eapply stack_put; [exact Hst|exact Hfl|by apply msg_ok_base|exact Hfe|exact Ho2]. }
      intros st3 p3 l3 Hk3 Hc3. apply runs_ret. exists (- ETIMEDOUT, out). split; [done|]. right. split_and!; auto.
      exists e. split_and!; auto. split; auto. simpl. destruct (lo_ents _ _ _ _ _ Hlost) as (y & -> & _).
      intros e'. rewrite !lookup_insert_is_Some, lookup_union_is_Some, lookup_singleton_is_Some. naive_solver.
Qed.

(** ** Calls without a slot *)

Lemma runs_cmd_exec_full st c :
  cmd_inv b m D (mkdrv st c) -> pq = false -> 0 < s_sem (c_slots c) -> slot_for g false (c_slots c) = None ->
  runs (cmd_exec o g inp out None pol) (mkdrv st c) (fun r d =>
    c_slots (d_rest d) = c_slots c /\ c_fw (d_rest d) = c_fw c /\
    ((r = inr (- EAGAIN, out) /\ cmd_inv b m D d) \/
     (r = inr (- ENOMEM, out) /\ (cmd_inv b m D d \/ exists x, lost_msg b m D x d)))).
Proof.
  intros Hi Hpq Hsem Hsl. apply runs_exec_load; [done| |].
  { intros d Hd Hs Hf. split_and!; [done|done|]. right. by auto. }
  intros st1 p1 l tok miss inb outb b1 bin m1 Hld Hopc Hc Hb Hst Hfr Hfi Hout. apply runs_bind.
  assert (Hents : forall e, is_Some (s_ents (c_slots c) !! e) -> is_Some (m !! e)) by apply Hi.
  rewrite Hpq. apply (runs_invoke_full o g cls Hlog inb outb out tok pol bin m1 D); auto.
  - destruct (ld_own _ _ _ _ _ _ _ _ _ _ _ _ Hld). split_and!; auto. apply Hout.
  - intros e He. apply lookup_union_is_Some. right. apply lookup_union_is_Some. by right; auto.
  - intros st2 Ho2. apply runs_bind.
    edestruct loaded_lost as (b' & Hb1 & Hb2 & Hk'); [exact Hld|exact Hst|exact Hfr|exact Hfi|exact Hout|exact Ho2|].
    eapply runs_free_msg; [exact Hk'|done|done|].
    intros st3 p3 l3 Hk3 Hc3. apply runs_ret. split_and!; auto. right. split; [done|]. right. exists outb, b'.
    split_and!; auto. split; auto. simpl. intros e He. apply lookup_union_is_Some. right. auto.
  - intros st2 Ho2. apply runs_bind. eapply (runs_free_msg cls b inb); [|exact Hc|exact Hb|].
    { eapply stack_put; [exact Hst|done|apply msg_ok_base, Hld|done|done]. }
    intros st3 p3 l3 Hk3 Hc3. apply runs_ret. split_and!; auto. left. split; [done|]. by split.
Qed.
End Exec.

(** ** The calls of the driver *)

Definition exec_call (polling : bool) (inp out : list Z) : es (drv C) (Z * list Z) :=
  if polling then mlx5_cmd_exec_polling o g inp out else mlx5_cmd_exec o g inp out.

(** C30. A command the firmware answers: in polling and in event mode, from any
    state of the interface in which a slot is free, mlx5_cmd_exec returns the
    firmware's reply in the output buffer and the error its status stands for;
    every message is freed or back in its cache and the slots, semaphores and
    entries are as before.  The alternative is an allocation that failed, which
    costs at most the output message. *)
Theorem cmd_exec_replies (inp out r : list Z) (polling : bool) (f : F) (b : blocks) m D st c (idx : nat) :
  (g_log_sz g <= 5)%nat -> device_down g = false -> g_wq_busy g = false ->
  opcode_allowed g (mbox_in_opcode inp) = true -> bytes_ok inp -> (2 <= length inp)%nat ->
  cmd_inv b m D (mkdrv st c) -> 0 < sem_of (is_manage_pages inp) (c_slots c) ->
  slot_for g (is_manage_pages inp) (c_slots c) = Some idx ->
  fw_answer (c_fw c) inp (length out) = Some (f, r) ->
  runs (exec_call polling inp out) (mkdrv st c) (fun res d =>
    (res = inr (mlx5_cmd_check r, r) /\ cmd_inv b m D d /\ settled g (c_slots c) (c_slots (d_rest d)) /\ c_fw (d_rest d) = f) \/
    (res = inr (- ENOMEM, out) /\ c_slots (d_rest d) = c_slots c /\ c_fw (d_rest d) = c_fw c /\
       (cmd_inv b m D d \/ exists x, lost_msg b m D x d))).
Proof.
  intros Hlog Hup Hwq Hop Hb Hl Hi Hsem Hsl Hfw.
  assert (H : runs (do! r := cmd_exec o g inp out None polling in es_ret (checked r)) (mkdrv st c) (fun res d =>
    (res = inr (mlx5_cmd_check r, r) /\ cmd_inv b m D d /\ settled g (c_slots c) (c_slots (d_rest d)) /\ c_fw (d_rest d) = f) \/
    (res = inr (- ENOMEM, out) /\ c_slots (d_rest d) = c_slots c /\ c_fw (d_rest d) = c_fw c /\
       (cmd_inv b m D d \/ exists x, lost_msg b m D x d)))).
  { apply runs_bind. eapply runs_mono; [eapply (runs_cmd_exec inp out polling b m D Hlog Hup Hb Hl Hop Hwq idx); eauto|].
    intros res d (x & -> & [(-> & ? & ? & ?)|Ho]); apply runs_ret; [by right|]. rewrite Hfw in Ho.
    destruct Ho as (-> & ? & ? & ?). by left. }
  by destruct polling.
Qed.

(** ** A firmware that does not answer *)

Definition free_slots (s : slots) : nat :=
  length (filter (fun i => Z.testbit (s_bitmask s) (Z.of_nat i) = true) (seq 0 (max_reg_cmds g))).

Lemma slot_for_free s : slot_for g false s = None <-> free_slots s = 0%nat.
Proof.
  unfold slot_for, find_first_bit, free_slots. destruct (List.find _ _) as [i|] eqn:E; simpl.
  - apply List.find_some in E as [Hi Hb]. apply list_elem_of_In, elem_of_seq in Hi.
    destruct (Nat.ltb_spec i (max_reg_cmds g)); [|lia]. split; [done|]. intros H0%length_zero_iff_nil.
    assert (i ∈ filter (fun i => Z.testbit (s_bitmask s) (Z.of_nat i) = true) (seq 0 (max_reg_cmds g))) as Hin.
    { apply list_elem_of_filter. split; [done|]. apply elem_of_seq. lia. }
    rewrite H0 in Hin. by apply elem_of_nil in Hin.
  - destruct (Nat.ltb_spec (max_reg_cmds g) (max_reg_cmds g)); [lia|]. split; [intros _|done].
    apply length_zero_iff_nil. apply elem_of_nil_inv. intros i Hi. apply list_elem_of_filter in Hi as [Hb Hi].
    apply list_elem_of_In in Hi. apply (List.find_none _ _ E) in Hi. congruence.
Qed.

Lemma filter_clear (mask : Z) (l : list nat) (i : nat) : NoDup l -> i ∈ l -> Z.testbit mask (Z.of_nat i) = true ->
  length (filter (fun j => Z.testbit mask (Z.of_nat j) = true) l) =
  S (length (filter (fun j => Z.testbit (Z.clearbit mask (Z.of_nat i)) (Z.of_nat j) = true) l)).
Proof.
  assert (Hsame : forall l : list nat, i ∉ l -> filter (fun j => Z.testbit (Z.clearbit mask (Z.of_nat i)) (Z.of_nat j) = true) l =
                                     filter (fun j => Z.testbit mask (Z.of_nat j) = true) l).
  { induction l0 as [|j l0 IH]; [done|]. intros [Hj Hl]%not_elem_of_cons. rewrite !filter_cons, IH by done.
    by rewrite Z.clearbit_neq by lia. }
  induction l as [|j l IH]; intros Hnd Hi Hb; [by apply elem_of_nil in Hi|]. apply NoDup_cons in Hnd as [Hj Hnd].
  rewrite !filter_cons. destruct (decide (j = i)) as [->|Hne].
  - rewrite Z.clearbit_eq, decide_True, decide_False by done. simpl. by rewrite Hsame.
  - rewrite Z.clearbit_neq by lia. apply elem_of_cons in Hi as [->|Hi]; [done|].
    destruct (decide _); simpl; rewrite (IH Hnd Hi Hb); done.
Qed.

Lemma lost_slots idx e uout s s' :
  slot_for g false s = Some idx -> lost idx e uout s s' -> free_slots s = S (free_slots s').
Proof.
  intros Hs Hl. destruct (slot_for_spec g _ _ _ Hs) as [_ [Hb|Hb]].
  - unfold free_slots. rewrite (lo_bits _ _ _ _ _ Hl). apply filter_clear; [apply NoDup_seq| |done].
    unfold slot_for in Hs. destruct (Nat.ltb_spec (find_first_bit (s_bitmask s) (max_reg_cmds g)) (max_reg_cmds g)); [|done].
    injection Hs as <-. apply elem_of_seq. lia.
  - unfold slot_for in Hs. destruct (Nat.ltb_spec (find_first_bit (s_bitmask s) (max_reg_cmds g)) (max_reg_cmds g)); [|done].
    injection Hs as E. lia.
Qed.

Fixpoint calls (n : nat) (inp out : list Z) (polling : bool) : es (drv C) (list Z) :=
  match n with
  | O => es_ret []
  | S n => do! r := exec_call polling inp out in do! l := calls n inp out polling in es_ret (r.1 :: l)
  end.

(** One call of a silent firmware: no memory, no slot, or a timeout that costs
    a slot. *)
Lemma call_silent (inp out : list Z) (polling : bool) (b : blocks) m D st c :
  (g_log_sz g <= 5)%nat -> device_down g = false -> g_wq_busy g = false ->
  opcode_allowed g (mbox_in_opcode inp) = true -> bytes_ok inp -> (2 <= length inp)%nat -> is_manage_pages inp = false ->
  cmd_inv b m D (mkdrv st c) -> 0 < s_sem (c_slots c) -> fw_answer (c_fw c) inp (length out) = None ->
  runs (exec_call polling inp out) (mkdrv st c) (fun r d => exists e b' m' D', r = inr (e, out) /\
     cmd_inv b' m' D' d /\ s_sem (c_slots (d_rest d)) = s_sem (c_slots c) /\ c_fw (d_rest d) = c_fw c /\
     (e = - ENOMEM \/
      (e = - EAGAIN /\ free_slots (c_slots c) = 0%nat /\ c_slots (d_rest d) = c_slots c) \/
      (e = - ETIMEDOUT /\ free_slots (c_slots c) = S (free_slots (c_slots (d_rest d)))))).
Proof.
  intros Hlog Hup Hwq Hop Hb Hl Hpq Hi Hsem Hfw.
  assert (Hchk : forall e (d : drv C) (Q : Z + Z * list Z -> drv C -> Prop), e <> 0 -> Q (inr (e, out)) d ->
    runs (es_ret (checked (e, out))) d Q).
  { intros e d Q He HQ. apply runs_ret. unfold checked. by destruct (Z.eqb_spec e 0). }
  assert (He : exec_call polling inp out = es_bind (cmd_exec o g inp out None polling) (fun r => es_ret (checked r)))
    by (by destruct polling).
  rewrite He. apply runs_bind. destruct (slot_for g false (c_slots c)) as [idx|] eqn:Hsl.
  - eapply runs_mono; [eapply (runs_cmd_exec inp out polling b m D Hlog Hup Hb Hl Hop Hwq idx); rewrite ?Hpq; eauto|].
    intros r d (res & -> & [(-> & Hs & Hf & [Hin|(x & b' & _ & _ & Hin)])|Ho]).
    + apply Hchk; [done|]. exists (- ENOMEM), b, m, D. rewrite Hs. by split_and!; auto.
    + apply Hchk; [done|]. exists (- ENOMEM), b', (msg_mem x ∪ m), D. rewrite Hs. by split_and!; auto.
    + rewrite Hfw in Ho. destruct Ho as (-> & Hf & e & Hm & Hin & Hlo). apply Hchk; [done|].
      exists (- ETIMEDOUT), b, ({[e := sizeof_ent]} ∪ m), D. destruct (lo_sems _ _ _ _ _ Hlo).
      split_and!; auto. right. right. split; [done|]. by eapply lost_slots.
  - eapply runs_mono; [eapply (runs_cmd_exec_full inp out polling b m D Hlog Hup Hb Hl Hop Hwq); eauto|].
    apply slot_for_free in Hsl.
    intros r d (Hs & Hf & [(-> & Hin)|(-> & [Hin|(x & b' & _ & _ & Hin)])]); (apply Hchk; [done|]).
    + exists (- EAGAIN), b, m, D. rewrite Hs. split_and!; auto.
    + exists (- ENOMEM), b, m, D. rewrite Hs. by split_and!; auto.
    + exists (- ENOMEM), b', (msg_mem x ∪ m), D. rewrite Hs. by split_and!; auto.
Qed.

(** C38. A firmware that stops answering: each command that times out keeps its
    slot for good, so after as many timeouts as there were free slots every
    further command is refused with -EAGAIN, although the semaphore that counts
    the slots still lets it in.  (Unless an allocation fails first.) *)
Theorem silent_firmware_exhausts_slots (inp out : list Z) (polling : bool) (n : nat) :
  (g_log_sz g <= 5)%nat -> device_down g = false -> g_wq_busy g = false ->
  opcode_allowed g (mbox_in_opcode inp) = true -> bytes_ok inp -> (2 <= length inp)%nat -> is_manage_pages inp = false ->
  forall (b : blocks) m D st c,
  cmd_inv b m D (mkdrv st c) -> 0 < s_sem (c_slots c) -> fw_answer (c_fw c) inp (length out) = None ->
  runs (calls n inp out polling) (mkdrv st c) (fun r _ => exists l, r = inr l /\
    (- ENOMEM ∈ l \/ l = take n (replicate (free_slots (c_slots c)) (- ETIMEDOUT) ++ replicate n (- EAGAIN)))).
Proof.
  intros Hlog Hup Hwq Hop Hb Hl Hpq. induction n as [|n IH]; intros b m D st c Hi Hsem Hfw.
  { apply runs_ret. exists []. auto. }
  simpl. apply runs_bind. eapply runs_mono; [eapply (call_silent inp out polling b m D); eauto|].
  intros r [st' c'] (e & b' & m' & D' & -> & Hin & Hsm & Hf & Hcase). simpl in *. apply runs_bind.
  eapply runs_mono; [apply (IH b' m' D'); [done|by rewrite Hsm|by rewrite Hf]|].
  intros r d (l & -> & Hl2). apply runs_ret. exists (e :: l). split; [done|].
  destruct Hcase as [->|Hcase]; [left; apply list_elem_of_here|].
  destruct Hl2 as [Hl2| ->]; [left; by apply list_elem_of_further|]. right.
  destruct Hcase as [(-> & H0 & ->)|(-> & ->)]; simpl.
  - by rewrite H0.
  - f_equal. rewrite !take_app. f_equal. rewrite !length_replicate.
    change (- EAGAIN :: replicate n (- EAGAIN)) with (replicate (S n) (- EAGAIN)). rewrite !take_replicate. f_equal. lia.
Qed.

(** ** Where a failing call loses a message *)

(** C40. A command that the worker does not start within the time a caller waits
    is canceled: the call returns -ECANCELED and its output message is neither
    freed nor kept for reuse. *)
Theorem canceled_call_loses_output (inp out : list Z) (polling : bool) (b : blocks) m D st c :
  (g_log_sz g <= 5)%nat -> device_down g = false -> g_wq_busy g = true ->
  opcode_allowed g (mbox_in_opcode inp) = true -> bytes_ok inp -> (2 <= length inp)%nat -> is_manage_pages inp = false ->
  cmd_inv b m D (mkdrv st c) ->
  runs (exec_call polling inp out) (mkdrv st c) (fun res d =>
    c_slots (d_rest d) = c_slots c /\ c_fw (d_rest d) = c_fw c /\
    ((res = inr (- ECANCELED, out) /\ exists x, lost_msg b m D x d) \/
     (res = inr (- ENOMEM, out) /\ (cmd_inv b m D d \/ exists x, lost_msg b m D x d)))).
Proof.
  intros Hlog Hup Hwq Hop Hb Hl Hpq Hi.
  assert (He : exec_call polling inp out = es_bind (cmd_exec o g inp out None polling) (fun r => es_ret (checked r)))
    by (by destruct polling).
  rewrite He. apply runs_bind, (runs_exec_load inp out polling b m D Hlog Hup Hb Hl Hop); [done| |].
  { intros d Hd Hs Hf. apply runs_ret. split_and!; auto. }
  intros st1 p1 l tok miss inb outb b1 bin m1 Hld Hopc Hc Hbo Hst Hfr Hfi Hout. apply runs_bind.
  assert (Hents : forall e, is_Some (s_ents (c_slots c) !! e) -> is_Some (m !! e)) by apply Hi.
  assert (Hend : forall st2 e, owned cls (msg_mem outb ∪ m1) D st2 -> e <> 0 ->
    runs (free_msg inb;; es_ret (e, out)) (mkdrv st2 (mkcmd p1 (c_slots c) l tok miss (c_called c) (c_fw c)))
      (fun r d => r = inr (e, out) /\ c_slots (d_rest d) = c_slots c /\ c_fw (d_rest d) = c_fw c /\ exists x, lost_msg b m D x d)).
  { intros st2 e Ho2 He2. edestruct loaded_lost as (b' & Hb1 & Hb2 & Hk'); [exact Hld|exact Hst|exact Hfr|exact Hfi|exact Hout|exact Ho2|].
    apply runs_bind. eapply runs_free_msg; [exact Hk'|done|done|]. intros st3 p3 l3 Hk3 Hc3. apply runs_ret.
    split_and!; auto. exists outb, b'. split_and!; auto. split; auto. simpl. intros e' He'.
    apply lookup_union_is_Some. right. auto. }
  rewrite Hpq. apply (runs_invoke_canceled o g cls inb outb out tok polling (msg_mem outb ∪ m1) D); auto.
  - apply Hld.
  - intros e He'. do 2 (apply lookup_union_is_Some; right). apply lookup_union_is_Some. by right; auto.
  - intros st2 Ho2. simpl. eapply runs_mono; [apply (Hend st2 (- ENOMEM)); done|].
    intros r d (-> & ? & ? & ?). apply runs_ret. split_and!; auto.
  - intros st2 Ho2. simpl. eapply runs_mono; [apply (Hend st2 (- ECANCELED)); done|].
    intros r d (-> & ? & ? & ?). apply runs_ret. split_and!; auto.
Qed.
End Call.

(** ** Examples: a command queue of four slots, caches empty *)

#[local] Existing Instance demo_pool.

(** A reply of status 0 that repeats the command; no reply. *)
Definition echo (f : nat) (d : list Z) (n : nat) : option (nat * list Z) := Some (S f, zeros 8 ++ d).
Definition mute (f : nat) (d : list Z) (n : nat) : option (nat * list Z) := None.

Definition cfg0 (busy : bool) : cmd_cfg := mkcfg 2 true false 0 false false busy.
Definition cmd0 : mlx5_cmd nat :=
  mkcmd (mkpool 0 ∅) (mkslots 7 3 1 ∅ ∅ ∅) ((fun s => mkch [] s 0 0 0 0) <$> cmd_cache_ent_size) 0 0 [] 0%nat.

(** CREATE_QP and 30 more bytes *)
Definition inp0 : list Z := [5; 0] ++ zeros 30.

Lemma cmd0_inv : cmd_inv 64 ∅ ∅ ∅ (mkdrv idle_mem cmd0).
Proof.
  split; simpl.
  - split; simpl; [by rewrite map_empty_union; apply idle_owned|done|done].
  - intros i h mx x Hh _ Hx. do 5 (destruct i as [|i]; [injection Hh as <-; by apply elem_of_nil in Hx|]). done.
  - intros e [x Hx]. done.
Qed.

Lemma inp0_ok : bytes_ok inp0.
Proof. apply Forall_app. split; [by repeat constructor|apply zeros_ok]. Qed.

Lemma cmd_exec_replies_witness :
  runs (exec_call (HF := fw_of echo) plenty (cfg0 false) false inp0 (zeros 48)) (mkdrv idle_mem cmd0) (fun res d =>
    (res = inr (0, fit 48 (zeros 8 ++ inp0)) /\ cmd_inv 64 ∅ ∅ ∅ d /\
       settled (cfg0 false) (c_slots cmd0) (c_slots (d_rest d)) /\ c_fw (d_rest d) = 1%nat) \/
    (res = inr (- ENOMEM, zeros 48) /\ c_slots (d_rest d) = c_slots cmd0 /\ c_fw (d_rest d) = c_fw cmd0 /\
       (cmd_inv 64 ∅ ∅ ∅ d \/ exists x, lost_msg 64 ∅ ∅ ∅ x d))).
Proof.
  apply (cmd_exec_replies (HF := fw_of echo) (HK := fw_of_ok echo _) plenty (cfg0 false) 64 inp0 (zeros 48)
           (fit 48 (zeros 8 ++ inp0)) false 1%nat ∅ ∅ ∅ idle_mem cmd0 0%nat);
    try reflexivity; try (simpl; lia); [apply inp0_ok|apply cmd0_inv].
Defined.

(** The same call run. *)
Example exec_echoes :
  (fun x => (x.1, free_slots (cfg0 false) (c_slots (d_rest x.2)), size (pl_blk (c_pool (d_rest x.2))),
             size (h_live (pgdir_heap (d_mem x.2)))))
    <$> exec_call (HF := fw_of echo) plenty (cfg0 false) false inp0 (zeros 48) (mkdrv idle_mem cmd0) =
  Some (inr (0, zeros 8 ++ inp0 ++ zeros 8), 3%nat, 0%nat, 0%nat).
Proof. vm_compute. reflexivity. Qed.

Lemma silent_firmware_exhausts_slots_witness :
  runs (calls (HF := fw_of mute) plenty (cfg0 false) 5 inp0 (zeros 48) true) (mkdrv idle_mem cmd0) (fun r _ =>
    exists l, r = inr l /\
      (- ENOMEM ∈ l \/ l = take 5 (replicate (free_slots (cfg0 false) (c_slots cmd0)) (- ETIMEDOUT) ++ replicate 5 (- EAGAIN)))).
Proof.
  apply (silent_firmware_exhausts_slots (HF := fw_of mute) (HK := fw_of_ok mute _) plenty (cfg0 false) 64 inp0 (zeros 48) true 5)
    with (b := ∅) (m := ∅) (D := ∅); try reflexivity; try (simpl; lia); [apply inp0_ok|apply cmd0_inv].
Defined.

(** Five polled commands of a firmware that does not answer, run. *)
Example five_silent_calls :
  fst <$> calls (HF := fw_of mute) plenty (cfg0 false) 5 inp0 (zeros 48) true (mkdrv idle_mem cmd0) =
  Some (inr [- ETIMEDOUT; - ETIMEDOUT; - ETIMEDOUT; - EAGAIN; - EAGAIN]).
Proof. vm_compute. reflexivity. Qed.

Lemma canceled_call_loses_output_witness :
  runs (exec_call (HF := fw_of echo) plenty (cfg0 true) false inp0 (zeros 48)) (mkdrv idle_mem cmd0) (fun res d =>
    c_slots (d_rest d) = c_slots cmd0 /\ c_fw (d_rest d) = c_fw cmd0 /\
    ((res = inr (- ECANCELED, zeros 48) /\ exists x, lost_msg 64 ∅ ∅ ∅ x d) \/
     (res = inr (- ENOMEM, zeros 48) /\ (cmd_inv 64 ∅ ∅ ∅ d \/ exists x, lost_msg 64 ∅ ∅ ∅ x d)))).
Proof.
  apply (canceled_call_loses_output (HF := fw_of echo) plenty (cfg0 true) 64 inp0 (zeros 48) false ∅ ∅ ∅ idle_mem cmd0);
    try reflexivity; try (simpl; lia); [apply inp0_ok|apply cmd0_inv].
Defined.

(** An asynchronous call whose output message cannot be allocated fails, and
    nobody frees its input message: no command is in flight, no callback was
    called, and the message and its mailbox stay allocated. *)
Theorem async_failure_loses_input :
  (fun x => (x.1, c_called (d_rest x.2), size (s_ents (c_slots (d_rest x.2))), size (pl_blk (c_pool (d_rest x.2))),
             size (h_live (pgdir_heap (d_mem x.2)))))
    <$> cmd_exec (Firmware0 := fw_of echo) (fun n => if (n <? 2)%nat then plenty n else None) (cfg0 false) inp0 (zeros 48) (Some 7%nat) false
          (mkdrv idle_mem cmd0) =
  Some (inr (- ENOMEM, zeros 48), [], 0%nat, 1%nat, 2%nat).
Proof. vm_compute. reflexivity. Qed.
