(* ===== verification/CmdRace.v ===== *)
(** * CmdRace: commands in flight at the same time

    The worker, the event handler, the callers that wait and their timeouts run
    concurrently.  Their steps are the functions of CmdExec; this file is about
    the slots.  [sinv] says who owns which slot, and every step keeps it as long
    as a timeout acts on the command that timed out; [timeout_completes_another]
    is what the code does when it does not. *)

From S2P Require Import Prelude ErrState KHeap FragAlloc DbAlloc DrvState CmdMsg CmdExec CmdFw CmdLife CmdCache CmdCall.

Open Scope es_scope.

(** ** Steps that do not fail

    Whatever they return is a result, not an error. *)

Definition nofail {S A} (m : es S A) : Prop := forall s r s', m s = Some (r, s') -> exists a, r = inr a.

Section NoFail.
Context {S : Type}.
Lemma nofail_ret {A} (a : A) : nofail (S := S) (es_ret a).
Proof. intros s r s' [= <- _]. eauto. Qed.
Lemma nofail_get : nofail (S := S) es_get.
Proof. intros s r s' [= <- _]. eauto. Qed.
Lemma nofail_mod f : nofail (S := S) (es_mod f).
Proof. intros s r s' [= <- _]. eauto. Qed.
Lemma nofail_lift {A} (x : option A) : nofail (S := S) (es_lift x).
Proof. intros s r s'. unfold es_lift. destruct x; [|done]. intros [= <- _]. eauto. Qed.
Lemma nofail_try {A} (m : es S A) : nofail (es_try m).
Proof. intros s r s'. unfold es_try. destruct (m s) as [[r1 s1]|]; [|done]. intros [= <- _]. eauto. Qed.
Lemma nofail_bind {A B} (m : es S A) (k : A -> es S B) : nofail m -> (forall a, nofail (k a)) -> nofail (es_bind m k).
Proof.
  intros Hm Hk s r s'. unfold es_bind. destruct (m s) as [[r1 s1]|] eqn:E; [|done]. destruct (Hm _ _ _ E) as [a ->]. apply Hk.
Qed.
Lemma nofail_on_rest {A} (m : es S A) : nofail m -> nofail (on_rest m).
Proof. intros Hm s r s'. unfold on_rest. destruct (m _) as [[r1 s1]|] eqn:E; [|done]. intros [= <- _]. by eapply Hm. Qed.
Lemma nofail_on_part {R A} (get : R -> S) put (m : es (drv S) A) : nofail m -> nofail (on_part get put m).
Proof. intros Hm s r s'. unfold on_part. destruct (m _) as [[r1 s1]|] eqn:E; [|done]. intros [= <- _]. by eapply Hm. Qed.
Lemma nofail_on_heap {A} (f : heap -> option (A * heap)) : nofail (on_heap (R := S) f).
Proof. intros s r s'. unfold on_heap. destruct (f _) as [[a h]|]; [|done]. intros [= <- _]. eauto. Qed.
End NoFail.

Create HintDb nofail.
#[export] Hint Resolve nofail_ret nofail_get nofail_mod nofail_lift nofail_try nofail_bind nofail_on_rest nofail_on_part
  nofail_on_heap : nofail.

Lemma nofail_on_block a f : nofail (on_block a f).
Proof. intros s r s'. unfold on_block. destruct (_ !! _); [|done]. intros [= <- _]. eauto. Qed.
Lemma nofail_dma_free a : nofail (dma_pool_free a).
Proof. intros s r s'. unfold dma_pool_free. destruct (_ !! _); [|done]. intros [= <- _]. eauto. Qed.
Lemma nofail_kfree {R} b : nofail (d_kfree (R := R) b).
Proof. apply nofail_on_heap. Qed.
#[export] Hint Resolve nofail_on_block nofail_dma_free nofail_kfree : nofail.

Lemma nofail_free_cmd_msg m : nofail (mlx5_free_cmd_msg m).
Proof.
  assert (H : forall c, nofail (free_boxes c)).
  { induction c as [|b c IH]; simpl; [apply nofail_ret|]. unfold free_cmd_box. auto 6 with nofail. }
  unfold mlx5_free_cmd_msg. auto with nofail.
Qed.
Lemma nofail_chain_sig m : nofail (calc_chain_sig m).
Proof.
  unfold calc_chain_sig. generalize (Z.to_nat (mlx5_calc_cmd_blocks m)) (msg_next m).
  induction n as [|n IH]; intros [|b c]; simpl; auto with nofail.
Qed.
#[export] Hint Resolve nofail_free_cmd_msg nofail_chain_sig : nofail.

(** ** What the steps do to the slots *)

Section Frame.
Context {F : Type} `{HP : !DmaPool} `{HF : !Firmware F} (o : oracle) (g : cmd_cfg).
Notation C := (mlx5_cmd F).

Notation sl d := (c_slots (d_rest d)).

(** The computation leaves the slots alone. *)
Definition frames {A} (m : es (drv C) A) : Prop := forall d r d', m d = Some (r, d') -> sl d' = sl d.

Lemma frames_ret {A} (a : A) : frames (es_ret a).
Proof. by intros d r d' [= <- <-]. Qed.
Lemma frames_lift {A} (x : option A) : frames (es_lift x).
Proof. intros d r d'. unfold es_lift. destruct x; [|done]. by intros [= <- <-]. Qed.
Lemma frames_bind {A B} (m : es (drv C) A) (k : A -> es (drv C) B) : frames m -> (forall a, frames (k a)) -> frames (es_bind m k).
Proof.
  intros Hm Hk d r d'. unfold es_bind. destruct (m d) as [[[e|a] d1]|] eqn:E; [| |done]; simpl.
  - intros [= <- <-]. by eapply Hm.
  - intros Ek. rewrite (Hk a _ _ _ Ek). by eapply Hm.
Qed.
Lemma frames_try {A} (m : es (drv C) A) : frames m -> frames (es_try m).
Proof. intros Hm d r d'. unfold es_try. destruct (m d) as [[r1 d1]|] eqn:E; [|done]. intros [= <- <-]. by eapply Hm. Qed.
Lemma frames_on_pool {A} (m : es (drv pool) A) : frames (on_pool m).
Proof. intros d r d'. unfold on_pool, on_part. destruct (m _) as [[r1 d1]|]; [|done]. by intros [= <- <-]. Qed.
Lemma frames_on_heap {A} (f : heap -> option (A * heap)) : frames (on_heap f).
Proof. intros d r d'. unfold on_heap. destruct (f _) as [[a h]|]; [|done]. by intros [= <- <-]. Qed.
Lemma frames_getc : frames getc.
Proof. by intros d r d' [= <- <-]. Qed.
Lemma frames_modc f : (forall c, c_slots (f c) = c_slots c) -> frames (modc f).
Proof. intros Hf d r d' [= <- <-]. apply Hf. Qed.

Lemma frames_kfree b : frames (d_kfree b).
Proof. apply frames_on_heap. Qed.
Lemma frames_free_msg m : frames (free_msg m).
Proof.
  unfold free_msg, on_cache. destruct (msg_parent m); [|apply frames_on_pool].
  apply frames_bind; [apply frames_getc|]. intros c. apply frames_bind; [apply frames_lift|]. intros ch. by apply frames_modc.
Qed.

Lemma nofail_getc : nofail (S := drv C) getc.
Proof. apply nofail_on_rest, nofail_get. Qed.
Lemma nofail_modc f : nofail (S := drv C) (modc f).
Proof. apply nofail_on_rest, nofail_mod. Qed.
Lemma nofail_on_pool {A} (m : es (drv pool) A) : nofail m -> nofail (S := drv C) (on_pool m).
Proof. apply nofail_on_part. Qed.
Lemma nofail_free_msg m : nofail (S := drv C) (free_msg m).
Proof.
  unfold free_msg, on_cache. destruct (msg_parent m); [|apply nofail_on_pool; auto with nofail].
  apply nofail_bind; [apply nofail_getc|]. intros c. apply nofail_bind; [apply nofail_lift|]. intros ch. apply nofail_modc.
Qed.
Hint Resolve nofail_getc nofail_modc nofail_on_pool nofail_free_msg : nofail.
Ltac ok := by auto with nofail.

(** ** Rules: what holds if the step returns *)

Implicit Types (d : drv C).

Lemma post_frames {A} (m : es (drv C) A) d (Q : Z + A -> drv C -> Prop) :
  frames m -> nofail m -> (forall a d', sl d' = sl d -> Q (inr a) d') -> post m d Q.
Proof. intros Hm Hn HQ r d' E. destruct (Hn _ _ _ E) as [a ->]. apply HQ. by eapply Hm. Qed.
Lemma post_getc d (Q : Z + C -> drv C -> Prop) : Q (inr (d_rest d)) d -> post getc d Q.
Proof. destruct d. intros HQ r d' [= <- <-]. done. Qed.
Lemma post_mods f d (Q : Z + unit -> drv C -> Prop) :
  (forall d', sl d' = f (sl d) -> Q (inr tt) d') -> post (mods f) d Q.
Proof. intros HQ r d' [= <- <-]. by apply HQ. Qed.
Lemma post_get_ent e d (Q : Z + work_ent -> drv C -> Prop) :
  (forall x, s_ents (sl d) !! e = Some x -> Q (inr x) d) -> post (get_ent e) d Q.
Proof. intros HQ. apply post_bind, post_getc, post_lift. apply HQ. Qed.
Lemma post_mod_ent e f d (Q : Z + unit -> drv C -> Prop) :
  (forall x d', s_ents (sl d) !! e = Some x -> sl d' = set_ents (<[e := f x]> (s_ents (sl d))) (sl d) -> Q (inr tt) d') ->
  post (mod_ent e f) d Q.
Proof. intros HQ. apply post_bind, post_get_ent. intros x Hx. apply post_mods. intros d' E. by eapply HQ. Qed.

(** The slots with the entry [e] changed, respectively removed. *)
Definition with_ent (e : nat) (x : work_ent) (s : slots) : slots := set_ents (<[e := x]> (s_ents s)) s.
Definition no_ent (e : nat) (s : slots) : slots := set_ents (delete e (s_ents s)) s.

Lemma with_ent_twice e x y s : with_ent e y (with_ent e x s) = with_ent e y s.
Proof. unfold with_ent, set_ents. simpl. by rewrite insert_insert_eq. Qed.
Lemma no_with_ent e x s : no_ent e (with_ent e x s) = no_ent e s.
Proof. unfold with_ent, no_ent, set_ents. simpl. by rewrite delete_insert_eq. Qed.
Lemma with_ent_lookup e x s : s_ents (with_ent e x s) !! e = Some x.
Proof. apply lookup_insert_eq. Qed.

Lemma post_free_cmd e d (Q : Z + unit -> drv C -> Prop) :
  (forall d', sl d' = no_ent e (sl d) -> Q (inr tt) d') -> post (free_cmd e) d Q.
Proof.
  intros HQ. apply post_bind, post_get_ent. intros x _. apply post_bind, post_mods. intros d1 E1.
  apply post_frames; [apply frames_kfree|ok|]. intros [] d' E2. apply HQ. by rewrite E2, E1.
Qed.

(** What reading the result and completing can do to an entry. *)
Record follows (x y : work_ent) : Prop := {
  fo_pend : ent_pending y = ent_pending x;
  fo_idx : ent_idx y = ent_idx x;
  fo_cb : ent_callback y = ent_callback x;
  fo_flags : ent_page_queue y = ent_page_queue x /\ ent_polling y = ent_polling x /\ ent_handled y = ent_handled x;
  fo_done : ent_done y = ent_done x \/ ent_done y = true;
  fo_ret : ent_ret y = ent_ret x \/ (ent_ret x = 0 /\ ent_ret y = - EINVAL) }.

#[local] Instance follows_refl : Reflexive follows.
Proof. split; auto. Qed.
#[local] Instance follows_trans : Transitive follows.
Proof.
  intros x y z [A1 A2 A3 (A4 & A5 & A6) A7 A8] [B1 B2 B3 (B4 & B5 & B6) B7 B8]. split; try congruence.
  - split_and!; congruence.
  - destruct A7, B7; [left|right|right|right]; congruence.
  - destruct A8 as [A8|[A8 A9]], B8 as [B8|[B8 B9]]; [left; congruence|right; split; congruence|right; split; congruence|].
    rewrite A9 in B8. done.
Qed.

Lemma verify_range lay outb p r p' : verify_signature lay outb p = Some (r, p') -> r = inr 0 \/ r = inr (- EINVAL).
Proof.
  assert (Hv : forall b, verify_block_sig b = 0 \/ verify_block_sig b = - EINVAL).
  { intros b. unfold verify_block_sig. destruct (negb _); [by right|]. destruct (negb _); [by right|by left]. }
  assert (Hc : forall n c p r p', verify_chain n c p = Some (r, p') -> r = inr 0 \/ r = inr (- EINVAL)).
  { induction n as [|n IH]; intros [|b c] q rr q'; simpl; [by intros [= <- <-]; left..|].
    unfold es_bind, block_at. destruct (pl_blk q !! box_dma b) as [blk|]; [|done]. simpl.
    destruct (Hv blk) as [->| ->]; simpl; [apply IH|]. intros [= <- <-]. by right. }
  unfold verify_signature. destruct (negb _); [intros [= <- <-]; by right|apply Hc].
Qed.

Lemma read_ret lay outb d r d' :
  (if g_checksum_disabled g then es_ret 0 else on_pool (on_rest (verify_signature lay outb))) d = Some (r, d') ->
  sl d' = sl d /\ (r = inr 0 \/ r = inr (- EINVAL)).
Proof.
  destruct (g_checksum_disabled g); [intros [= <- <-]; auto|]. intros E. split; [by eapply frames_on_pool|].
  unfold on_pool, on_part, on_rest in E. simpl in E. destruct (verify_signature _ _ _) as [[r1 p1]|] eqn:Ev; [|done].
  simpl in E. injection E as <- _. by eapply verify_range.
Qed.

Lemma post_read_result trig e d (Q : Z + unit -> drv C -> Prop) :
  (forall x y d', s_ents (sl d) !! e = Some x -> follows x y -> sl d' = with_ent e y (sl d) -> Q (inr tt) d') ->
  post (read_result g trig e) d Q.
Proof.
  intros HQ. apply post_bind, post_get_ent. intros x Hx. apply post_bind, post_getc, post_bind, post_lift. intros lay _.
  apply post_bind.
  assert (H1 : post (when negb (device_down g) then! mod_ent e (ent_set_out (set_first (lay_out lay) (ent_out x)) (ent_uout x))) d
    (fun r d' => r = inr tt /\ exists y, follows x y /\ ent_ret y = ent_ret x /\ sl d' = with_ent e y (sl d))).
  { destruct (device_down g); simpl.
    - apply post_ret. split; [done|]. exists x. split_and!; try done. unfold with_ent. destruct (sl d). unfold set_ents. simpl in *. by rewrite insert_id.
    - apply post_mod_ent. intros x' d' Hx' E. simplify_eq. split; [done|].
      exists (ent_set_out (set_first (lay_out lay) (ent_out x)) (ent_uout x) x). split_and!; [split; auto|done|done]. }
  eapply post_mono; [exact H1|]. intros r d1 (-> & y & Hy & Hyr & E1).
  destruct (Z.eqb_spec (ent_ret x) 0) as [H0|H0].
  - apply post_bind. intros r d2 Er. apply read_ret in Er as [E2 Er].
    destruct r as [err|ret]; [by destruct Er|]. apply post_mod_ent. intros x2 d3 Hx2 E3.
    assert (x2 = y) as ->. { rewrite E2, E1, with_ent_lookup in Hx2. congruence. }
    eapply (HQ x (ent_set_ret ret _ y)); [done| |].
    + destruct Hy. split; auto. simpl. destruct Er as [[= ->]|[= ->]]; [left; lia|by right].
    + rewrite E3, E2, E1. apply with_ent_twice.
  - apply post_ret. by eapply (HQ x y).
Qed.

Lemma post_complete_waiter e d (Q : Z + unit -> drv C -> Prop) :
  (forall x y d', s_ents (sl d) !! e = Some x -> follows x y -> ent_done y = true -> sl d' = with_ent e y (sl d) -> Q (inr tt) d') ->
  post (complete_waiter e) d Q.
Proof.
  intros HQ. apply post_bind, post_get_ent. intros x Hx. apply post_bind.
  assert (H1 : post (when ent_ret x =? 0 then!
    do! r := es_try (on_pool (on_rest (mlx5_copy_from_msg (ent_out x) (length (ent_uout x))))) in
    match r with inr u => mod_ent e (ent_set_out (ent_out x) u) | inl _ => es_ret tt end) d
    (fun r d' => r = inr tt /\ exists y, follows x y /\ sl d' = with_ent e y (sl d))).
  { assert (Hid : sl d = with_ent e x (sl d)) by (unfold with_ent; destruct (sl d); unfold set_ents; simpl in *; by rewrite insert_id).
    destruct (ent_ret x =? 0); [|apply post_ret; split; [done|]; by exists x].
    apply post_bind, post_frames; [apply frames_try, frames_on_pool|ok|]. intros [er|u] d1 E1.
    - apply post_ret. split; [done|]. exists x. by rewrite E1.
    - apply post_mod_ent. intros x' d2 Hx' E2. rewrite E1 in Hx', E2. simplify_eq. split; [done|].
      exists (ent_set_out (ent_out x) u x). split; [split; by auto|done]. }
  eapply post_mono; [exact H1|]. intros r d1 (-> & y & Hy & E1).
  apply post_bind, post_frames; [apply frames_on_pool|ok|]. intros [] d2 E2.
  apply post_mod_ent. intros x2 d3 Hx2 E3. rewrite E2, E1, with_ent_lookup in Hx2. injection Hx2 as <-.
  apply (HQ x (ent_set_comp (ent_handled x) true y)); [done| |done|].
  - destruct Hy as [A1 A2 A3 (A4 & A5 & A6) A7 A8]. split; auto.
  - rewrite E3, E2, E1. apply with_ent_twice.
Qed.

Lemma post_complete_callback (forced : bool) e ctx d (Q : Z + unit -> drv C -> Prop) :
  (forall d', sl d' = (if forced then sl d else no_ent e (sl d)) -> Q (inr tt) d') ->
  post (complete_callback forced e ctx) d Q.
Proof.
  intros HQ. apply post_bind, post_get_ent. intros x Hx.
  apply post_bind, post_frames; [destruct (ent_ret x =? 0); [apply frames_try, frames_on_pool|apply frames_ret]|destruct (ent_ret x =? 0); ok|].
  intros r d1 E1. cbn zeta. apply post_bind, post_frames; [apply frames_on_pool|ok|].
  intros [] d2 E2. apply post_bind, post_frames; [apply frames_free_msg|ok|].
  intros [] d3 E3. apply post_bind. destruct forced; simpl.
  - apply post_ret, post_frames; [by apply frames_modc|ok|]. intros [] d4 E4. apply HQ. congruence.
  - apply post_free_cmd. intros d4 E4. apply post_frames; [by apply frames_modc|ok|].
    intros [] d5 E5. apply HQ. rewrite E5, E4. congruence.
Qed.

(** ** One bit of the completion handler *)

Definition bits (ct : mlx5_comp_t) (i : nat) (s : slots) : slots :=
  if is_forced ct then s else set_bitmask (Z.setbit (s_bitmask s) (Z.of_nat i)) s.

Inductive comp_effect (ct : mlx5_comp_t) (e : nat) (x : work_ent) (s : slots) : slots -> Prop :=
| ce_late : ent_pending x = false -> ct = COMP_EVENT -> ent_polling x = false ->
    comp_effect ct e x s (no_ent e (bits ct (ent_idx x) s))
| ce_ignored : (ent_pending x = false /\ (ct = COMP_FORCED \/ (ct = COMP_EVENT /\ ent_polling x = true))) \/
               (ent_pending x = true /\ ent_polling x = true /\ ct = COMP_EVENT) ->
    comp_effect ct e x s (with_ent e (ent_set_pending false x) s)
| ce_waiter y : ent_callback x = None -> (ent_pending x = true \/ ct = COMP_POLLING) ->
    follows (ent_set_pending false x) y -> ent_done y = true ->
    comp_effect ct e x s (add_sem (ent_page_queue x) 1 (with_ent e y (bits ct (ent_idx x) s)))
| ce_callback y ctx : ent_callback x = Some ctx -> (ent_pending x = true \/ ct = COMP_POLLING) ->
    follows (ent_set_pending false x) y ->
    comp_effect ct e x s (add_sem (ent_page_queue x) 1
      (if is_forced ct then with_ent e y (bits ct (ent_idx x) s) else no_ent e (bits ct (ent_idx x) s))).

(** The part of comp_one that completes the entry. *)
Lemma post_complete trig ct e x d (s : slots) (Q : Z + unit -> drv C -> Prop) :
  sl d = with_ent e (ent_set_pending false x) s -> (ent_pending x = true \/ ct = COMP_POLLING) ->
  (forall d', comp_effect ct e x s (sl d') -> Q (inr tt) d') ->
  post (read_result g trig e;;
    (when negb (is_forced ct) then! free_ent (ent_idx x));;
    match ent_callback x with
    | Some ctx => complete_callback (is_forced ct) e ctx
    | None => complete_waiter e
    end;;
    up (ent_page_queue x)) d Q.
Proof.
  intros E0 Hp HQ. apply post_bind, post_read_result. intros x0 y d1 Hx0 Hy E1.
  rewrite E0, with_ent_lookup in Hx0. injection Hx0 as <-. rewrite E0, with_ent_twice in E1. apply post_bind.
  assert (Hb : post (when negb (is_forced ct) then! free_ent (ent_idx x)) d1
    (fun r d' => r = inr tt /\ sl d' = with_ent e y (bits ct (ent_idx x) s))).
  { unfold bits. destruct (is_forced ct); simpl; [by apply post_ret|]. apply post_mods. intros d' ->. by rewrite E1. }
  eapply post_mono; [exact Hb|]. intros r d2 [-> E2]. apply post_bind. destruct (ent_callback x) as [ctx|] eqn:Hcb.
  - apply post_complete_callback. intros d3 E3. apply post_mods. intros d4 E4. apply HQ.
    replace (sl d4) with (add_sem (ent_page_queue x) 1
      (if is_forced ct then with_ent e y (bits ct (ent_idx x) s) else no_ent e (bits ct (ent_idx x) s))).
    { by eapply ce_callback. }
    rewrite E4, E3, E2, no_with_ent. unfold add_sem. by destruct (ent_page_queue x).
  - apply post_complete_waiter. intros x2 z d3 Hx2 Hz Hd E3.
    rewrite E2, with_ent_lookup in Hx2. injection Hx2 as <-. rewrite E2, with_ent_twice in E3.
    apply post_mods. intros d4 E4. apply HQ.
    replace (sl d4) with (add_sem (ent_page_queue x) 1 (with_ent e z (bits ct (ent_idx x) s))).
    { apply ce_waiter; auto. by transitivity y. }
    rewrite E4, E3. unfold add_sem. by destruct (ent_page_queue x).
Qed.

Lemma post_comp_one trig ct i d (Q : Z + unit -> drv C -> Prop) :
  (forall e x d', s_ent_arr (sl d) !! i = Some e -> s_ents (sl d) !! e = Some x -> comp_effect ct e x (sl d) (sl d') -> Q (inr tt) d') ->
  post (comp_one g trig ct i) d Q.
Proof.
  intros HQ. apply post_bind, post_getc, post_bind, post_lift. intros e He. apply post_bind, post_get_ent. intros x Hx.
  apply post_bind, post_mod_ent. intros x' d1 Hx' E1. simplify_eq. fold (with_ent e (ent_set_pending false x) (sl d)) in E1.
  specialize (HQ e x). apply post_bind. destruct (ent_pending x) eqn:Hp; cbn [negb andb].
  - apply post_ret. destruct (ent_polling x && is_event ct) eqn:Hpe.
    + apply andb_true_iff in Hpe as [Hpo Hct]. apply post_ret, HQ; [done|done|]. rewrite E1. destruct ct; try done.
      apply ce_ignored. auto.
    + eapply post_complete; [exact E1|by left|]. intros d' Hd'. by apply HQ.
  - destruct (is_event ct && negb (ent_polling x)) eqn:Hev.
    + apply andb_true_iff in Hev as [Hct Hpo%negb_true_iff]. destruct ct; try done.
      apply post_bind, post_mods. intros d2 E2. apply post_free_cmd. intros d3 E3.
      apply post_ret, HQ; [done|done|]. rewrite E3, E2, E1.
      replace (no_ent e _) with (no_ent e (bits COMP_EVENT (ent_idx x) (sl d))); [by apply ce_late|].
      unfold no_ent, bits, with_ent, set_ents, set_bitmask. simpl. by rewrite delete_insert_eq.
    + apply post_ret. destruct ct; cbn [is_polling negb].
      * apply post_ret, HQ; [done|done|]. rewrite E1. apply ce_ignored. left. split; [done|]. right.
        split; [done|]. by destruct (ent_polling x).
      * apply post_ret, HQ; [done|done|]. rewrite E1. apply ce_ignored. auto.
      * eapply post_complete; [exact E1|by right|]. intros d' Hd'. by apply HQ.
Qed.

(** ** Starting a command *)

Inductive start_effect (e : nat) (x : work_ent) (s : slots) : option nat -> slots -> Prop :=
| se_started idx : 0 < sem_of (ent_page_queue x) s -> slot_for g (ent_page_queue x) s = Some idx ->
    start_effect e x s (Some idx) (started e idx x s)
| se_waiter y : slot_for g (ent_page_queue x) s = None -> ent_callback x = None -> ent_callback y = None ->
    ent_pending y = ent_pending x -> ent_polling y = ent_polling x -> ent_done y = true -> ent_ret y = - EAGAIN ->
    start_effect e x s None (with_ent e y s)
| se_callback : slot_for g (ent_page_queue x) s = None -> ent_callback x <> None ->
    start_effect e x s None (no_ent e s).

Lemma post_take_slot pq d (Q : Z + Z -> drv C -> Prop) :
  (forall idx d', slot_for g pq (sl d) = Some idx ->
     sl d' = set_bitmask (Z.clearbit (s_bitmask (sl d)) (Z.of_nat idx)) (sl d) -> Q (inr (Z.of_nat idx)) d') ->
  (slot_for g pq (sl d) = None -> Q (inr (- ENOMEM)) d) -> post (take_slot g pq) d Q.
Proof.
  intros HS HN. unfold take_slot, slot_for in *. destruct pq.
  - apply post_bind, post_mods. intros d' E. apply post_ret. by apply HS.
  - unfold alloc_ent. apply post_bind, post_getc. set (i := find_first_bit _ _) in *. cbn zeta in *. apply post_bind.
    destruct (i <? max_reg_cmds g)%nat.
    + apply post_mods. intros d' E. apply post_ret. by apply HS.
    + apply post_ret, post_ret. by apply HN.
Qed.

Lemma post_down pq d (Q : Z + unit -> drv C -> Prop) :
  (forall d', 0 < sem_of pq (sl d) -> sl d' = add_sem pq (-1) (sl d) -> Q (inr tt) d') -> post (down pq) d Q.
Proof.
  intros HQ. apply post_bind, post_getc. cbn zeta. unfold sem_of, add_sem in HQ. destruct pq.
  - destruct (Z.leb_spec (s_pages_sem (sl d)) 0); [apply post_undef|]. apply post_mods. intros d' E. apply HQ; [lia|].
    by rewrite E.
  - destruct (Z.leb_spec (s_sem (sl d)) 0); [apply post_undef|]. apply post_mods. intros d' E. apply HQ; [lia|]. by rewrite E.
Qed.

Lemma slot_for_sem pq pq' n s : slot_for g pq (add_sem pq' n s) = slot_for g pq s.
Proof. unfold slot_for, add_sem. by destruct pq, pq'. Qed.

Lemma add_sem_back pq s : add_sem pq 1 (add_sem pq (-1) s) = s.
Proof. unfold add_sem, set_sems. destruct pq, s; simpl; f_equal; lia. Qed.
Lemma add_sem_with pq n e x s : add_sem pq n (with_ent e x s) = with_ent e x (add_sem pq n s).
Proof. unfold add_sem, with_ent. by destruct pq. Qed.
Lemma add_sem_no pq n e s : add_sem pq n (no_ent e s) = no_ent e (add_sem pq n s).
Proof. unfold add_sem, no_ent. by destruct pq. Qed.

Lemma post_refuse e d x s (Q : Z + unit -> drv C -> Prop) :
  s_ents (sl d) !! e = Some x -> sl d = with_ent e x (add_sem (ent_page_queue x) (-1) s) ->
  (forall y d', ent_callback x = None -> ent_callback y = None -> ent_pending y = ent_pending x -> ent_polling y = ent_polling x -> ent_done y = true ->
     ent_ret y = - EAGAIN -> sl d' = with_ent e y s -> Q (inr tt) d') ->
  (forall d', ent_callback x <> None -> sl d' = no_ent e s -> Q (inr tt) d') ->
  post (refuse_work e) d Q.
Proof.
  intros Hx E0 HW HC. apply post_bind, post_get_ent. intros x' Hx'. simplify_eq. apply post_bind.
  destruct (ent_callback x) as [ctx|] eqn:Hcb.
  - apply post_bind, post_frames; [by apply frames_modc|ok|]. intros [] d1 E1.
    apply post_bind, post_frames; [apply frames_on_pool|ok|]. intros [] d2 E2.
    apply post_bind, post_frames; [apply frames_free_msg|ok|]. intros [] d3 E3.
    apply post_free_cmd. intros d4 E4. apply post_mods. intros d5 E5. apply HC; [done|].
    rewrite E5, E4, E3, E2, E1, E0, no_with_ent. fold (add_sem (ent_page_queue x) 1 (no_ent e (add_sem (ent_page_queue x) (-1) s))).
    by rewrite add_sem_no, add_sem_back.
  - apply post_bind, post_mod_ent. intros x' d1 Hx1 E1. simplify_eq. fold (with_ent e (ent_set_ret (- EAGAIN) (ent_status x) x) (sl d)) in E1.
    apply post_bind, post_frames; [apply frames_on_pool|ok|]. intros [] d2 E2.
    apply post_mod_ent. intros x2 d3 Hx2 E3. rewrite E2, E1, with_ent_lookup in Hx2. injection Hx2 as <-.
    apply post_mods. intros d4 E4.
    apply (HW (ent_set_comp (ent_handled x) true (ent_set_ret (- EAGAIN) (ent_status x) x))); try done.
    rewrite E4, E3, E2. fold (with_ent e (ent_set_comp (ent_handled x) true (ent_set_ret (- EAGAIN) (ent_status x) x)) (sl d1)).
    rewrite E1, E0, !with_ent_twice. fold (add_sem (ent_page_queue x) 1 (with_ent e (ent_set_comp (ent_handled x) true
      (ent_set_ret (- EAGAIN) (ent_status x) x)) (add_sem (ent_page_queue x) (-1) s))).
    by rewrite add_sem_with, add_sem_back.
Qed.

Lemma frames_sign inb outb : frames (es_bind (on_pool (on_rest (calc_chain_sig inb))) (fun _ => on_pool (on_rest (calc_chain_sig outb)))).
Proof. apply frames_bind; [apply frames_on_pool|]. intros _. apply frames_on_pool. Qed.

Lemma post_set_signature idx inb outb csum d (Q : Z + unit -> drv C -> Prop) :
  (forall lay d', s_lay (sl d) !! idx = Some lay -> sl d' = set_lay idx (sign_layout lay) (sl d) -> Q (inr tt) d') ->
  post (set_signature idx inb outb csum) d Q.
Proof.
  intros HQ. apply post_bind, post_getc, post_bind, post_lift. intros lay Hl. apply post_bind, post_mods. intros d1 E1.
  apply post_frames; [destruct csum; [apply frames_sign|apply frames_ret]|destruct csum; ok|].
  intros [] d2 E2. eapply HQ; [exact Hl|congruence].
Qed.

Lemma post_work_start e d (Q : Z + option nat -> drv C -> Prop) :
  (forall x i d', s_ents (sl d) !! e = Some x -> start_effect e x (sl d) i (sl d') -> Q (inr i) d') ->
  post (work_start g e) d Q.
Proof.
  intros HQ. apply post_bind, post_get_ent. intros x Hx. apply post_bind.
  set (x1 := if bool_decide (ent_callback x = None) then ent_set_comp true (ent_done x) x else x).
  assert (H1 : post (when bool_decide (ent_callback x = None) then! mod_ent e (ent_set_comp true (ent_done x))) d
                 (fun r d' => r = inr tt /\ sl d' = with_ent e x1 (sl d))).
  { unfold x1. destruct (bool_decide _).
    - apply post_mod_ent. intros x' d' Hx' E. by simplify_eq.
    - apply post_ret. split; [done|]. unfold with_ent. destruct (sl d). unfold set_ents. simpl in *. by rewrite insert_id. }
  eapply post_mono; [exact H1|]. intros r d1 [-> E1]. clear H1. apply post_bind, post_down. intros d2 Hsem E2.
  assert (Epq : ent_page_queue x1 = ent_page_queue x) by (unfold x1; by destruct (bool_decide _)).
  assert (Ecb : ent_callback x1 = ent_callback x) by (unfold x1; by destruct (bool_decide _)).
  assert (Hsem' : 0 < sem_of (ent_page_queue x) (sl d)) by (rewrite E1 in Hsem; unfold sem_of in *; by destruct (ent_page_queue x)).
  rewrite E1, add_sem_with in E2. apply post_bind, post_take_slot.
  - intros idx d3 Hsl E3. destruct (Z.ltb_spec (Z.of_nat idx) 0); [lia|]. rewrite Nat2Z.id.
    assert (Hsl' : slot_for g (ent_page_queue x) (sl d) = Some idx).
    { rewrite E2 in Hsl. rewrite <- (slot_for_sem _ (ent_page_queue x) (-1)). exact Hsl. }
    apply post_bind, post_mods. intros d4 E4. apply post_bind, post_mods. intros d5 E5.
    apply post_bind, post_mod_ent. intros x5 d6 Hx5 E6.
    assert (x5 = x1) as ->. { rewrite E5, E4, E3, E2 in Hx5. simpl in Hx5. rewrite lookup_insert_eq in Hx5. congruence. }
    apply post_bind, post_set_signature. intros lay d7 Hlay E7.
    apply post_bind, post_mod_ent. intros x7 d8 Hx7 E8. rewrite E7, E6 in Hx7. simpl in Hx7. rewrite lookup_insert_eq in Hx7.
    injection Hx7 as <-. apply post_ret. apply (HQ x); [done|].
    replace (sl d8) with (started e idx x (sl d)); [by apply se_started|].
    rewrite E6, E5 in Hlay. simpl in Hlay. rewrite lookup_insert_eq in Hlay. injection Hlay as <-.
    rewrite E8, E7, E6, E5, E4, E3, E2. unfold started, with_ent, set_ents, set_lay, set_arr, set_bitmask. simpl.
    rewrite !insert_insert_eq. f_equal; f_equal.
    unfold x1, started_ent. by destruct (bool_decide (ent_callback x = None)).
  - intros Hsl. simpl. apply post_bind.
    assert (Hsl' : slot_for g (ent_page_queue x) (sl d) = None).
    { rewrite E2 in Hsl. rewrite <- (slot_for_sem _ (ent_page_queue x) (-1)). exact Hsl. }
    apply (post_refuse e d2 x1 (sl d)).
    + rewrite E2. apply with_ent_lookup.
    + by rewrite Epq.
    + intros y d3 Hcb Hcy Hp Hpo Hd Hr E3. apply post_ret, (HQ x); [done|]. rewrite E3. apply se_waiter; auto.
      * congruence.
      * rewrite Hp. unfold x1. by destruct (bool_decide _).
      * rewrite Hpo. unfold x1. by destruct (bool_decide _).
    + intros d3 Hcb E3. apply post_ret, (HQ x); [done|]. rewrite E3. apply se_callback; [done|congruence].
Qed.
End Frame.

(** ** Commands as a transition system *)

(** The command of [x] is with the device or about to be completed; a polled one
    is so until the poll ends, whatever events say. *)
Definition inflight (x : work_ent) : bool :=
  ent_pending x || (ent_polling x && ent_handled x && negb (ent_done x)).
(** The slot of [x] is not to be used by another command. *)
Definition holder (x : work_ent) : bool := inflight x || (ent_ret x =? - ETIMEDOUT).
(** Queued and not started. *)
Definition queued (x : work_ent) : Prop :=
  ent_pending x = false /\ ent_done x = false /\ ent_handled x = false /\ ent_ret x = 0.

Definition timed (x : work_ent) : work_ent := ent_set_ret (- ETIMEDOUT) (ent_status x) x.

Section Machine.
Context (g : cmd_cfg).

Inductive step (s : slots) : slots -> Prop :=
| step_queue e x : s_ents s !! e = None -> queued x ->
    (ent_callback x <> None -> ent_page_queue x = false /\ ent_polling x = false) -> step s (with_ent e x s)
| step_start e x i s' : s_ents s !! e = Some x -> queued x -> start_effect g e x s i s' -> step s s'
| step_event e x s' : s_ents s !! e = Some x -> holder x = true -> comp_effect COMP_EVENT e x s s' -> step s s'
| step_poll e x s' : s_ents s !! e = Some x -> inflight x = true -> comp_effect COMP_POLLING e x s s' -> step s s'
| step_timeout e x s' : s_ents s !! e = Some x -> ent_pending x = true -> ent_page_queue x = false ->
    comp_effect COMP_FORCED e (timed x) (with_ent e (timed x) s) s' -> step s s'
| step_wake e x : s_ents s !! e = Some x -> ent_done x = true -> ent_ret x <> - ETIMEDOUT -> step s (no_ent e s)
| step_cancel e x : s_ents s !! e = Some x -> queued x -> step s (no_ent e s).

Definition count (P : work_ent -> bool) (m : gmap nat work_ent) : nat := size (filter (fun ex => P ex.2 = true) m).
Definition b2n (b : bool) : nat := if b then 1 else 0.

Lemma count_delete P m e x : m !! e = Some x -> count P m = (count P (delete e m) + b2n (P x))%nat.
Proof.
  intros Hx. unfold count. rewrite map_filter_delete. destruct (P x) eqn:E; simpl.
  - rewrite map_size_delete. assert (H : filter (fun ex : nat * work_ent => P ex.2 = true) m !! e = Some x) by (by apply map_lookup_filter_Some).
    rewrite H. assert (size (filter (fun ex : nat * work_ent => P ex.2 = true) m) <> 0%nat); [|lia].
    intros H0%map_size_empty_inv. by rewrite H0 in H.
  - rewrite delete_id; [lia|]. apply map_lookup_filter_None. right. intros y Hy. simpl. congruence.
Qed.
Lemma count_new P m e y : m !! e = None -> count P (<[e := y]> m) = (count P m + b2n (P y))%nat.
Proof. intros Hx. rewrite (count_delete P _ e y) by apply lookup_insert_eq. by rewrite delete_insert_id. Qed.
Lemma count_update P m e x y : m !! e = Some x -> (count P (<[e := y]> m) + b2n (P x) = count P m + b2n (P y))%nat.
Proof.
  intros Hx. rewrite (count_delete P m e x Hx), (count_delete P (<[e := y]> m) e y) by apply lookup_insert_eq.
  rewrite delete_insert_eq. lia.
Qed.

Definition fly (pq : bool) (x : work_ent) : bool := inflight x && Bool.eqb (ent_page_queue x) pq.

Record ent_ok (x : work_ent) : Prop := {
  eo_ret : inflight x = true -> ent_ret x = 0;
  eo_done : ent_done x = true -> ent_pending x = false;
  eo_handled : ent_pending x = true -> ent_callback x = None -> ent_handled x = true;
  eo_cb : ent_callback x <> None -> ent_page_queue x = false /\ ent_polling x = false;
  eo_pages : ent_page_queue x = true -> ent_ret x <> - ETIMEDOUT }.

(** Who owns which slot. *)
Record sinv (s : slots) : Prop := {
  si_ent : forall e x, s_ents s !! e = Some x -> ent_ok x;
  si_own : forall e x, s_ents s !! e = Some x -> holder x = true ->
    (ent_idx x < nslots g)%nat /\ s_ent_arr s !! ent_idx x = Some e /\ Z.testbit (s_bitmask s) (Z.of_nat (ent_idx x)) = false /\
    (ent_page_queue x = true <-> ent_idx x = max_reg_cmds g);
  si_clear : forall i, (i < max_reg_cmds g)%nat -> Z.testbit (s_bitmask s) (Z.of_nat i) = false ->
    exists e x, s_ents s !! e = Some x /\ holder x = true /\ ent_idx x = i;
  si_sem : s_sem s + Z.of_nat (count (fly false) (s_ents s)) = Z.of_nat (max_reg_cmds g);
  si_pages : s_pages_sem s + Z.of_nat (count (fly true) (s_ents s)) = 1 }.

Definition put (e : nat) (y : option work_ent) (m : gmap nat work_ent) : gmap nat work_ent :=
  match y with Some y => <[e := y]> m | None => delete e m end.
Definition on_opt (P : work_ent -> bool) (y : option work_ent) : bool := match y with Some y => P y | None => false end.

Lemma count_put P m e x y : m !! e = Some x -> (count P (put e y m) + b2n (P x) = count P m + b2n (on_opt P y))%nat.
Proof. intros Hx. destruct y as [y|]; simpl; [by apply count_update|]. rewrite (count_delete P m e x Hx). lia. Qed.

Lemma put_lookup e y m e' z : put e y m !! e' = Some z -> (e' = e /\ y = Some z) \/ (e' <> e /\ m !! e' = Some z).
Proof.
  destruct y as [y|]; simpl.
  - rewrite lookup_insert_Some. naive_solver.
  - rewrite lookup_delete_Some. naive_solver.
Qed.
Lemma put_other e y m e' : e' <> e -> put e y m !! e' = m !! e'.
Proof. intros Hne. destruct y; simpl; [by rewrite lookup_insert_ne|by rewrite lookup_delete_ne]. Qed.
Lemma put_same e y m : put e y m !! e = y.
Proof. destruct y; simpl; [apply lookup_insert_eq|apply lookup_delete_eq]. Qed.

(** Two holders are never in one slot. *)
Lemma holders_apart s e x e' x' : sinv s -> s_ents s !! e = Some x -> s_ents s !! e' = Some x' ->
  holder x = true -> holder x' = true -> ent_idx x = ent_idx x' -> e = e'.
Proof.
  intros Hs Hx Hx' Hh Hh' Hi. destruct (si_own _ Hs _ _ Hx Hh) as (_ & H1 & _). destruct (si_own _ Hs _ _ Hx' Hh') as (_ & H2 & _).
  congruence.
Qed.

(** One entry changes: it stays in its slot, or the slot is freed with it. *)
Record changes (e : nat) (x : work_ent) (y : option work_ent) (s s' : slots) : Prop := {
  cg_ents : s_ents s' = put e y (s_ents s);
  cg_arr : s_ent_arr s' = s_ent_arr s;
  cg_ok : forall z, y = Some z -> ent_ok z /\ (holder z = true -> holder x = true /\ ent_idx z = ent_idx x /\ ent_page_queue z = ent_page_queue x);
  cg_bits : (s_bitmask s' = s_bitmask s /\ holder x = on_opt holder y) \/
            (s_bitmask s' = Z.setbit (s_bitmask s) (Z.of_nat (ent_idx x)) /\ holder x = true /\ on_opt holder y = false);
  cg_sem : s_sem s' + Z.of_nat (b2n (on_opt (fly false) y)) = s_sem s + Z.of_nat (b2n (fly false x));
  cg_pages : s_pages_sem s' + Z.of_nat (b2n (on_opt (fly true) y)) = s_pages_sem s + Z.of_nat (b2n (fly true x)) }.

Lemma sinv_changes e x y s s' : sinv s -> s_ents s !! e = Some x -> changes e x y s s' -> sinv s'.
Proof.
  intros Hs Hx [He Ha Hok Hb Hsm Hpg]. split.
  - intros e' z. rewrite He. intros [[_ ->]|[_ Hz]]%put_lookup; [by apply Hok|by apply (si_ent _ Hs e')].
  - intros e' z. rewrite He, Ha. intros Hz Hhz. apply put_lookup in Hz as [[-> ->]|[Hne Hz]].
    + destruct (Hok z eq_refl) as [_ Hh]. destruct (Hh Hhz) as (Hhx & Hi & Hq). rewrite Hi, Hq.
      destruct (si_own _ Hs _ _ Hx Hhx) as (? & ? & ? & ?). destruct Hb as [[-> _]|(_ & _ & Hn)]; [done|]. simpl in Hn. congruence.
    + destruct (si_own _ Hs _ _ Hz Hhz) as (? & ? & ? & ?). split_and!; auto. destruct Hb as [[-> _]|(-> & Hhx & _)]; [done|].
      rewrite Z.setbit_neq; [done|lia|]. intros E%Nat2Z.inj. apply Hne. symmetry. by eapply holders_apart.
  - intros i Hi Hc. destruct (decide (holder x = true /\ ent_idx x = i)) as [[Hhx Hix]|Hn].
    + destruct Hb as [[_ Hy]|(Hm & _ & _)].
      * rewrite Hhx in Hy. destruct y as [y|]; [|done]. simpl in Hy. destruct (Hok y eq_refl) as [_ Hh].
        exists e, y. rewrite He. split_and!; [apply lookup_insert_eq|done|]. destruct (Hh (eq_sym Hy)) as (_ & ? & _). congruence.
      * rewrite Hm, <- Hix, Z.setbit_eq in Hc by lia. done.
    + assert (Hc' : Z.testbit (s_bitmask s) (Z.of_nat i) = false).
      { destruct Hb as [[<- _]|(Hm & Hhx & _)]; [done|]. rewrite Hm, Z.setbit_neq in Hc; [done|lia|]. intros E%Nat2Z.inj. by apply Hn. }
      destruct (si_clear _ Hs i Hi Hc') as (e' & z & Hz & Hhz & Hiz). exists e', z. rewrite He, put_other; [done|].
      intros ->. apply Hn. simplify_eq. done.
  - rewrite He. pose proof (si_sem _ Hs). pose proof (count_put (fly false) _ e x y Hx). lia.
  - rewrite He. pose proof (si_pages _ Hs). pose proof (count_put (fly true) _ e x y Hx). lia.
Qed.

(** The facts a completed entry inherits. *)
Lemma follows_facts x y : ent_ok x -> follows (ent_set_pending false x) y ->
  ent_pending y = false /\ ent_idx y = ent_idx x /\ ent_callback y = ent_callback x /\ ent_page_queue y = ent_page_queue x /\
  ent_polling y = ent_polling x /\ (ent_ret y = ent_ret x \/ (ent_ret x = 0 /\ ent_ret y = - EINVAL)).
Proof. intros Hx [A1 A2 A3 (A4 & A5 & A6) A7 A8]. simpl in *. by split_and!. Qed.

Lemma done_not_inflight y : ent_pending y = false -> (ent_done y = true \/ ent_polling y = false) -> inflight y = false.
Proof. intros H1 H2. unfold inflight. rewrite H1. destruct H2 as [->| ->]; simpl; [apply andb_false_r|done]. Qed.

Lemma not_timed_out r : r =? - ETIMEDOUT = false <-> r <> - ETIMEDOUT.
Proof. apply Z.eqb_neq. Qed.

(** A completion that frees the slot. *)
Lemma complete_changes e x s y s' :
  ent_ok x -> inflight x = true ->
  (forall z, y = Some z -> ent_ok z /\ holder z = false) ->
  s' = add_sem (ent_page_queue x) 1 (set_ents (put e y (s_ents s)) (set_bitmask (Z.setbit (s_bitmask s) (Z.of_nat (ent_idx x))) s)) ->
  changes e x y s s'.
Proof.
  intros Hok Hfl Hy ->. assert (Hn : on_opt holder y = false) by (destruct y as [y|]; [by apply Hy|done]).
  assert (Hf : forall pq, on_opt (fly pq) y = false).
  { intros pq. destruct y as [y|]; [|done]. simpl in *. unfold holder in Hn. apply orb_false_iff in Hn as [Hi _].
    unfold fly. by rewrite Hi. }
  split.
  - unfold add_sem. by destruct (ent_page_queue x).
  - unfold add_sem. by destruct (ent_page_queue x).
  - intros z Hz. destruct (Hy z Hz) as [? Hh]. split; [done|]. congruence.
  - right. split_and!; [unfold add_sem; by destruct (ent_page_queue x)| |done]. unfold holder. by rewrite Hfl.
  - rewrite Hf. unfold add_sem, fly. rewrite Hfl. destruct (ent_page_queue x); simpl; lia.
  - rewrite Hf. unfold add_sem, fly. rewrite Hfl. destruct (ent_page_queue x); simpl; lia.
Qed.

(** The entry is updated in place and the slots otherwise untouched. *)
Lemma update_changes e x y s :
  ent_ok y -> inflight y = inflight x -> holder y = holder x -> ent_idx y = ent_idx x -> ent_page_queue y = ent_page_queue x ->
  changes e x (Some y) s (with_ent e y s).
Proof.
  intros Hok Hi Hh Hx Hq. split; simpl; auto.
  - intros z [= <-]. split; [done|]. intros Hz. split_and!; auto. congruence.
  - unfold fly. by rewrite Hi, Hq.
  - unfold fly. by rewrite Hi, Hq.
Qed.

Lemma done_ok x y : ent_ok x -> inflight x = true -> follows (ent_set_pending false x) y -> ent_done y = true ->
  ent_ok y /\ holder y = false.
Proof.
  intros Hok Hfl Hf Hd. destruct (follows_facts x y Hok Hf) as (Hp & Hi & Hc & Hq & Hpo & Hr).
  assert (Hny : inflight y = false) by (apply done_not_inflight; auto).
  assert (Hry : ent_ret y <> - ETIMEDOUT) by (pose proof (eo_ret _ Hok Hfl); unfold ETIMEDOUT, EINVAL in *; lia).
  split; [split|unfold holder; rewrite Hny; by apply not_timed_out]; try congruence. rewrite Hc, Hq, Hpo. apply Hok.
Qed.

Lemma real_changes ct e x s s' : ent_ok x -> is_forced ct = false -> inflight x = true ->
  comp_effect ct e x s s' -> exists y, changes e x y s s'.
Proof.
  intros Hok Hf Hfl Hc. destruct Hc as [Hp Hct Hpo|Hig|y Hcb Hp Hfo Hd|y ctx Hcb Hp Hfo].
  - exfalso. unfold inflight in Hfl. by rewrite Hp, Hpo in Hfl.
  - assert (Hin : inflight (ent_set_pending false x) = true /\ ent_polling x = true).
    { destruct Hig as [[Hp [->|[-> Hpo]]]|(Hp & Hpo & _)]; [done| |].
      - unfold inflight in *. rewrite Hp in Hfl. split; [|done]. exact Hfl.
      - split; [|done]. assert (ent_callback x = None) as Hcb.
        { destruct (ent_callback x) eqn:E; [|done]. destruct (eo_cb _ Hok) as [_ ?]; [by rewrite E|congruence]. }
        unfold inflight. simpl. rewrite Hpo, (eo_handled _ Hok Hp Hcb). simpl. destruct (ent_done x) eqn:Ed; [|done].
        rewrite (eo_done _ Hok Ed) in Hp. done. }
    destruct Hin as [Hin Hpo]. exists (Some (ent_set_pending false x)). apply update_changes; auto.
    + destruct Hok. split; simpl; auto; try done.
    + congruence.
    + unfold holder. rewrite Hin, Hfl. done.
  - exists (Some y). apply complete_changes; auto.
    + intros z [= <-]. by eapply done_ok.
    + unfold bits. by rewrite Hf.
  - exists None. apply complete_changes; auto; [done|]. unfold bits. by rewrite Hf.
Qed.

Lemma late_changes e x s s' : ent_ok x -> inflight x = false -> holder x = true ->
  comp_effect COMP_EVENT e x s s' -> exists y, changes e x y s s'.
Proof.
  intros Hok Hfl Hh Hc. assert (Hp : ent_pending x = false) by (unfold inflight in Hfl; by destruct (ent_pending x)).
  destruct Hc as [_ _ Hpo|Hig|y Hcb [Hp'|] Hfo Hd|y ctx Hcb [Hp'|] Hfo]; try congruence.
  - exists None. split; simpl; auto; try done.
    + unfold fly. by rewrite Hfl.
    + unfold fly. by rewrite Hfl.
  - exists (Some (ent_set_pending false x)).
    assert (E : ent_set_pending false x = x) by (destruct x; simpl in *; by rewrite Hp). rewrite E. by apply update_changes.
Qed.

Lemma timeout_changes e x s s' : ent_ok x -> ent_pending x = true -> ent_page_queue x = false ->
  comp_effect COMP_FORCED e (timed x) (with_ent e (timed x) s) s' -> exists y, changes e x y s s'.
Proof.
  intros Hok Hp Hq Hc. assert (Hfl : inflight x = true) by (unfold inflight; by rewrite Hp).
  assert (Hgen : forall y, follows (ent_set_pending false (timed x)) y -> (ent_done y = true \/ ent_callback x <> None) ->
    changes e x (Some y) s (add_sem (ent_page_queue x) 1 (with_ent e y (with_ent e (timed x) s)))).
  { intros y [A1 A2 A3 (A4 & A5 & A6) A7 A8] Hd. simpl in *. assert (Hr : ent_ret y = - ETIMEDOUT) by (by destruct A8 as [?|[? _]]).
    assert (Hny : inflight y = false).
    { apply done_not_inflight; [done|]. destruct Hd as [?|Hd]; [by left|]. right. rewrite A5. by apply (eo_cb _ Hok). }
    rewrite with_ent_twice. rewrite Hq. split; simpl; auto.
    - intros z [= <-]. split; [|intros _; split_and!; [unfold holder; by rewrite Hfl|done|done]].
      split; try congruence. rewrite A3, A4, A5. apply Hok.
    - left. split; [done|]. unfold holder. by rewrite Hfl, Hr, orb_true_r.
    - unfold fly. rewrite Hny, Hfl, Hq. simpl. lia.
    - unfold fly. rewrite Hny, Hq, andb_false_r. simpl. lia. }
  inversion Hc as [Hp' Hct|Hig|y Hcb Hpe Hfo Hd|y ctx Hcb Hpe Hfo]; subst; simpl in *; try congruence.
  - destruct Hig as [[? _]|(_ & _ & ?)]; congruence.
  - exists (Some y). apply Hgen; auto.
  - exists (Some y). apply Hgen; auto. right. congruence.
Qed.

Lemma queued_facts x : queued x -> inflight x = false /\ holder x = false.
Proof.
  intros (Hp & Hd & Hh & Hr). assert (Hi : inflight x = false) by (unfold inflight; by rewrite Hp, Hh, andb_false_r).
  split; [done|]. unfold holder. by rewrite Hi, Hr.
Qed.

Lemma sinv_queue e x s : sinv s -> s_ents s !! e = None -> queued x ->
  (ent_callback x <> None -> ent_page_queue x = false /\ ent_polling x = false) -> sinv (with_ent e x s).
Proof.
  intros Hs Hn Hq Hcb. destruct (queued_facts x Hq) as [Hi Hh]. destruct Hq as (Hp & Hd & Hha & Hr). split; simpl.
  - intros e' z. rewrite lookup_insert_Some. intros [[_ <-]|[_ Hz]]; [|by apply (si_ent _ Hs e')]. split; try congruence; [done|].
    rewrite Hr. done.
  - intros e' z. rewrite lookup_insert_Some. intros [[_ <-]|[_ Hz]] Hhz; [congruence|]. by apply (si_own _ Hs).
  - intros i Hlt Hc. destruct (si_clear _ Hs i Hlt Hc) as (e' & z & Hz & ?). exists e', z. rewrite lookup_insert_ne; [done|congruence].
  - rewrite count_new by done. unfold fly at 2. rewrite Hi. pose proof (si_sem _ Hs). simpl. lia.
  - rewrite count_new by done. unfold fly at 2. rewrite Hi. pose proof (si_pages _ Hs). simpl. lia.
Qed.

Lemma drop_changes e x s : holder x = false -> changes e x None s (no_ent e s).
Proof.
  intros Hh. assert (Hi : inflight x = false) by (unfold holder in Hh; by apply orb_false_iff in Hh as [? _]).
  split; simpl; auto; try done; unfold fly; by rewrite Hi.
Qed.

(** The slot a command gets is nobody's. *)
Lemma slot_unowned pq s idx : sinv s -> 0 < sem_of pq s -> slot_for g pq s = Some idx ->
  (idx < nslots g)%nat /\ (pq = true <-> idx = max_reg_cmds g) /\
  forall e x, s_ents s !! e = Some x -> holder x = true -> ent_idx x <> idx.
Proof.
  intros Hs Hsem Hsl. destruct (slot_for_spec g _ _ _ Hsl) as [Hi _]. split; [done|]. unfold slot_for in Hsl. destruct pq.
  - injection Hsl as <-. split; [done|]. intros e x Hx Hh E. destruct (si_own _ Hs _ _ Hx Hh) as (_ & _ & _ & Hpq).
    apply Hpq in E. pose proof (eo_pages _ (si_ent _ Hs _ _ Hx) E) as Hr%not_timed_out. unfold holder in Hh.
    rewrite Hr, orb_false_r in Hh. pose proof (si_pages _ Hs). pose proof (count_delete (fly true) _ _ _ Hx) as Hc.
    unfold fly at 3 in Hc. rewrite Hh, E in Hc. simpl in Hc, Hsem. lia.
  - set (i := find_first_bit _ _) in *. destruct (Nat.ltb_spec i (max_reg_cmds g)); [|done]. injection Hsl as <-.
    split; [split; [done|lia]|]. intros e x Hx Hh E. destruct (si_own _ Hs _ _ Hx Hh) as (_ & _ & Hb & _). rewrite E in Hb.
    unfold i, find_first_bit in *. destruct (List.find _ _) as [j|] eqn:Ef; simpl in *; [|lia].
    apply List.find_some in Ef as [_ Ef]. congruence.
Qed.

Lemma sinv_started e x s idx : sinv s -> s_ents s !! e = Some x -> queued x ->
  0 < sem_of (ent_page_queue x) s -> slot_for g (ent_page_queue x) s = Some idx -> sinv (started e idx x s).
Proof.
  intros Hs Hx Hq Hsem Hsl. destruct (slot_unowned _ _ _ Hs Hsem Hsl) as (Hi & Hpq & Hun).
  destruct (queued_facts x Hq) as [Hfl Hh]. destruct Hq as (Hp & Hd & Hha & Hr). pose proof (si_ent _ Hs _ _ Hx) as Hok.
  assert (Hse : inflight (started_ent idx x) = true) by done.
  assert (Ee : s_ents (started e idx x s) = <[e := started_ent idx x]> (s_ents s)) by (unfold started, add_sem; by destruct (ent_page_queue x)).
  assert (Ea : s_ent_arr (started e idx x s) = <[idx := e]> (s_ent_arr s)) by (unfold started, add_sem; by destruct (ent_page_queue x)).
  assert (Eb : s_bitmask (started e idx x s) = Z.clearbit (s_bitmask s) (Z.of_nat idx)) by (unfold started, add_sem; by destruct (ent_page_queue x)).
  split.
  - intros e' z. rewrite Ee, lookup_insert_Some. intros [[_ <-]|[_ Hz]]; [|by apply (si_ent _ Hs e')].
    split; simpl; auto; try congruence; [by intros _ ->|by apply Hok|by rewrite Hr].
  - intros e' z. rewrite Ee, Ea, Eb, lookup_insert_Some. intros [[<- <-]|[Hne Hz]] Hhz; simpl.
    + rewrite lookup_insert_eq, Z.clearbit_eq. by split_and!.
    + destruct (si_own _ Hs _ _ Hz Hhz) as (? & ? & ? & ?). pose proof (Hun _ _ Hz Hhz) as Hn. split_and!; auto.
      * by rewrite lookup_insert_ne by done.
      * rewrite Z.clearbit_neq by lia. done.
  - intros i Hlt. rewrite Eb, Ee. destruct (decide (i = idx)) as [->|Hne].
    + intros _. exists e, (started_ent idx x). rewrite lookup_insert_eq. by split_and!.
    + rewrite Z.clearbit_neq by lia. intros Hc. destruct (si_clear _ Hs i Hlt Hc) as (e' & z & Hz & Hhz & ?). exists e', z.
      rewrite lookup_insert_ne; [done|]. intros ->. simplify_eq. congruence.
  - rewrite Ee. pose proof (si_sem _ Hs). pose proof (count_update (fly false) _ e x (started_ent idx x) Hx) as Hc.
    unfold fly at 2 4 in Hc. rewrite Hfl, Hse in Hc. unfold started, add_sem. simpl in Hc. destruct (ent_page_queue x); simpl in *; lia.
  - rewrite Ee. pose proof (si_pages _ Hs). pose proof (count_update (fly true) _ e x (started_ent idx x) Hx) as Hc.
    unfold fly at 2 4 in Hc. rewrite Hfl, Hse in Hc. unfold started, add_sem. simpl in Hc. destruct (ent_page_queue x); simpl in *; lia.
Qed.

Lemma sinv_step s s' : sinv s -> step s s' -> sinv s'.
Proof.
  intros Hs Hst. destruct Hst as [e x Hn Hq Hcb|e x i s' Hx Hq Hse|e x s' Hx Hh Hc|e x s' Hx Hfl Hc|e x s' Hx Hp Hpq Hc|e x Hx Hd Hr|e x Hx Hq].
  - by apply sinv_queue.
  - destruct Hse as [idx Hsem Hsl|y Hsl Hcb Hcy Hp Hpo Hd Hr|Hsl Hcb].
    + by apply sinv_started.
    + destruct (queued_facts x Hq) as [Hfx Hhx]. destruct Hq as (Hpx & _). pose proof (si_ent _ Hs _ _ Hx) as Hok.
      assert (Hny : inflight y = false) by (apply done_not_inflight; [congruence|by left]).
      assert (Hhy : holder y = false) by (unfold holder; by rewrite Hny, Hr).
      eapply (sinv_changes e x (Some y)); [done|done|]. split; simpl; auto.
      * intros z [= <-]. split; [|congruence]. split; try congruence. by rewrite Hr.
      * left. split; [done|congruence].
      * unfold fly. by rewrite Hny, Hfx.
      * unfold fly. by rewrite Hny, Hfx.
    + eapply sinv_changes; [done|done|]. apply drop_changes. by apply queued_facts.
  - pose proof (si_ent _ Hs _ _ Hx) as Hok. destruct (inflight x) eqn:Hfl.
    + destruct (real_changes COMP_EVENT e x s s' Hok eq_refl Hfl Hc) as [y Hy]. by eapply sinv_changes.
    + destruct (late_changes e x s s' Hok Hfl Hh Hc) as [y Hy]. by eapply sinv_changes.
  - destruct (real_changes COMP_POLLING e x s s' (si_ent _ Hs _ _ Hx) eq_refl Hfl Hc) as [y Hy]. by eapply sinv_changes.
  - destruct (timeout_changes e x s s' (si_ent _ Hs _ _ Hx) Hp Hpq Hc) as [y Hy]. by eapply sinv_changes.
  - eapply sinv_changes; [done|done|]. apply drop_changes. pose proof (si_ent _ Hs _ _ Hx) as Hok.
    unfold holder. rewrite (done_not_inflight x (eo_done _ Hok Hd)) by auto. by apply not_timed_out.
  - eapply sinv_changes; [done|done|]. apply drop_changes. by apply queued_facts.
Qed.

(** ** What holds of every reachable state *)

Definition idle_slots : slots := mkslots (2 ^ Z.of_nat (max_reg_cmds g) - 1) (Z.of_nat (max_reg_cmds g)) 1 ∅ ∅ ∅.

Lemma idle_sinv : sinv idle_slots.
Proof.
  split; simpl; try done.
  - intros i Hi Hb. replace (2 ^ Z.of_nat (max_reg_cmds g) - 1) with (Z.ones (Z.of_nat (max_reg_cmds g))) in Hb
      by (rewrite Z.ones_equiv; lia). by rewrite Z.ones_spec_low in Hb by lia.
  - unfold count. rewrite map_filter_empty, map_size_empty. lia.
Qed.

Lemma reachable_sinv s : rtc step idle_slots s -> sinv s.
Proof.
  intros H. assert (G : forall a, sinv a -> rtc step a s -> sinv s); [|exact (G _ idle_sinv H)].
  clear. intros a Ha H. induction H as [|a b c Hab _ IH]; [done|]. apply IH. by eapply sinv_step.
Qed.

(** C31. Commands issued, started, completed by events, polled, given up before
    the worker has begun with them, and regular commands timed out once they are
    with the device, in any order: a command that is in flight or has timed out is
    the one its slot points to, its slot is not free and no other such command is
    in it; each of the two semaphores is down by exactly the number of its
    commands in flight.  Each handler is one step.  Two timeouts are not among the
    steps, since the property fails after them: that of a command whose worker
    still waits for a slot, and that of a page command; nor are commands that skip
    the device and the completions triggered when it has failed. *)
Theorem commands_keep_apart s :
  rtc step idle_slots s ->
  (forall e x, s_ents s !! e = Some x -> holder x = true ->
     (ent_idx x < nslots g)%nat /\ s_ent_arr s !! ent_idx x = Some e /\ Z.testbit (s_bitmask s) (Z.of_nat (ent_idx x)) = false) /\
  (forall e x e' x', s_ents s !! e = Some x -> s_ents s !! e' = Some x' -> holder x = true -> holder x' = true ->
     ent_idx x = ent_idx x' -> e = e') /\
  s_sem s + Z.of_nat (count (fly false) (s_ents s)) = Z.of_nat (max_reg_cmds g) /\
  s_pages_sem s + Z.of_nat (count (fly true) (s_ents s)) = 1.
Proof.
  intros Hs%reachable_sinv. split_and!; [|intros; by eapply holders_apart|apply Hs|apply Hs].
  intros e x Hx Hh. destruct (si_own _ Hs _ _ Hx Hh) as (? & ? & ? & _). by split_and!.
Qed.

(** C33. As long as no command has timed out, a command that the semaphore lets in
    finds a free slot: the -EAGAIN branch of cmd_work_handler is not taken. *)
Theorem admitted_finds_slot s :
  rtc step idle_slots s -> (forall e x, s_ents s !! e = Some x -> ent_ret x <> - ETIMEDOUT) -> 0 < s_sem s ->
  exists idx, slot_for g false s = Some idx.
Proof.
  intros Hs%reachable_sinv Hnt Hsem. destruct (slot_for g false s) as [idx|] eqn:Hsl; [eauto|exfalso].
  assert (Hall : forall i, (i < max_reg_cmds g)%nat -> exists e x, s_ents s !! e = Some x /\ fly false x = true /\ ent_idx x = i).
  { intros i Hi. destruct (si_clear _ Hs i Hi) as (e & x & Hx & Hh & Hix).
    - unfold slot_for, find_first_bit in Hsl. destruct (List.find _ _) as [j|] eqn:Ef; simpl in Hsl.
      + apply List.find_some in Ef as [Hj%list_elem_of_In%elem_of_seq _]. destruct (Nat.ltb_spec j (max_reg_cmds g)); [done|lia].
      + assert (Hin : List.In i (seq 0 (max_reg_cmds g))) by (apply list_elem_of_In, elem_of_seq; lia).
        exact (List.find_none _ _ Ef i Hin).
    - exists e, x. split_and!; auto. destruct (si_own _ Hs _ _ Hx Hh) as (_ & _ & _ & Hpq).
      assert (ent_page_queue x = false) as Hq by (destruct (ent_page_queue x); [|done]; rewrite (proj1 Hpq eq_refl) in Hix; lia).
      unfold holder in Hh. rewrite (proj2 (not_timed_out _) (Hnt _ _ Hx)), orb_false_r in Hh. unfold fly. by rewrite Hh, Hq. }
  set (fl := filter (fun ex : nat * work_ent => fly false ex.2 = true) (s_ents s)).
  assert (Hle : (length (seq 0 (max_reg_cmds g)) <= length ((fun ex => ent_idx ex.2) <$> map_to_list fl))%nat).
  { apply NoDup_incl_length; [apply NoDup_ListNoDup, NoDup_seq|]. intros i Hi%list_elem_of_In%elem_of_seq.
    destruct (Hall i) as (e & x & Hx & Hf & Hix); [lia|]. apply list_elem_of_In, list_elem_of_fmap. exists (e, x).
    split; [done|]. apply elem_of_map_to_list, map_lookup_filter_Some. done. }
  rewrite length_seq, length_fmap, length_map_to_list in Hle. pose proof (si_sem _ Hs) as Hc. unfold count in Hc. fold fl in Hc. lia.
Qed.
End Machine.

(** ** The handlers are steps *)

Section Refine.
Context {F : Type} (g : cmd_cfg).
Notation C := (mlx5_cmd F).
Notation sl d := (c_slots (d_rest d)).

Definition is_step {A} (d : drv C) (r : Z + A) (d' : drv C) : Prop := (exists a, r = inr a) /\ step g (sl d) (sl d').

(** [m] does a step whenever it returns, and it returns if [ok]. *)
Definition steps {A} (m : es (drv C) A) (d : drv C) (ok : Prop) : Prop := post m d (is_step d) /\ (ok -> m d <> None).

(** What completing [x] relies on besides the slots: somebody waits for it, its
    descriptor is there, and its output message is memory of its own that has
    room for the answer. *)
Record ready (cls : Z) (x : work_ent) (d : drv C) : Prop := {
  rd_waiter : ent_callback x = None;
  rd_csum : g_checksum_disabled g = true;
  rd_lay : is_Some (s_lay (sl d) !! ent_idx x);
  rd_room : Z.of_nat (length (ent_uout x)) <= 16 + 512 * Z.of_nat (length (msg_next (ent_out x)));
  rd_owns : exists b m D, owns cls (ent_out x) b m D (mkdrv (d_mem d) (c_pool (d_rest d))) }.

Lemma copy_chain_total p c : forall n, Forall (fun b => is_Some (pl_blk p !! box_dma b)) c -> (n <= 512 * length c)%nat ->
  exists u, copy_from_chain c n p = Some (inr u, p).
Proof.
  induction c as [|b c IH]; intros n Hc Hn; simpl in *; destruct (Nat.eqb_spec n 0) as [->|]; [by eexists|lia|by eexists|].
  apply Forall_cons in Hc as [[x Hx] Hc]. destruct (IH (n - Nat.min n 512)%nat Hc ltac:(lia)) as [u Hu].
  unfold es_bind, block_at. rewrite Hx. simpl. rewrite Hu. by eexists.
Qed.

(** The answer in the descriptor and the blocks can be copied out. *)
Lemma ready_gives cls x d lay : ready cls x d ->
  exists r u, u = take (Nat.min (length (ent_uout x)) 16) (msg_first (ent_out (result_ent g false lay 0 (ent_set_pending false x)))) ++ r /\
    (length (ent_uout x) = 0%nat -> r = []) /\
    (ent_ret x = 0 -> gives (c_pool (d_rest d)) (result_ent g false lay 0 (ent_set_pending false x)) u).
Proof.
  intros [_ _ _ Hroom (b & m & D & Ho)]. set (y := result_ent g false lay 0 (ent_set_pending false x)).
  assert (E : msg_next (ent_out y) = msg_next (ent_out x) /\ ent_uout y = ent_uout x /\ (ent_ret x = 0 -> ent_ret y = 0))
    by (unfold y, result_ent; simpl; destruct (device_down g); simpl; by destruct (Z.eqb_spec (ent_ret x) 0)).
  destruct E as (E1 & E2 & E3).
  destruct (copy_chain_total (c_pool (d_rest d)) (msg_next (ent_out x)) (length (ent_uout x) - Nat.min (length (ent_uout x)) 16)) as [r Hr].
  - eapply Forall_impl; [exact (ad_in _ _ _ (proj2 (proj2 Ho)))|]. intros bx (z & Hz & _). by eexists.
  - lia.
  - exists r. eexists. split; [reflexivity|]. split.
    + intros E. rewrite E in Hr. destruct (msg_next (ent_out x)); by injection Hr as <-.
    + intros H0. unfold gives. rewrite (E3 H0). unfold mlx5_copy_from_msg, es_bind. cbn [Z.eqb]. by rewrite E1, E2, Hr.
Qed.

Lemma comp_returns cls ct x e d :
  (ent_idx x < nslots g)%nat -> (g_log_sz g <= 5)%nat -> s_ent_arr (sl d) !! ent_idx x = Some e ->
  s_ents (sl d) !! e = Some x -> ent_pending x = true -> ent_polling x && is_event ct = false -> ready cls x d ->
  mlx5_cmd_comp_handler g (slot_bit (ent_idx x)) ct d <> None.
Proof.
  intros Hi Hg Ha Hx Hp Hpe Hrd. rewrite comp_handler_one by done. pose proof Hrd as [Hcb Hcs [lay Hl] Hroom (b & m & D & Ho)].
  destruct (ready_gives cls x d lay Hrd) as (r & u & _ & _ & Hu).
  set (y := result_ent g false lay 0 (ent_set_pending false x)) in *.
  assert (Hgv : exists u, gives (c_pool (d_rest d)) y u).
  { destruct (Z.eqb_spec (ent_ret x) 0) as [H0|H0]; [by eauto|]. exists (ent_uout y). unfold gives.
    assert (Hy : ent_ret y = ent_ret x).
    { unfold y, result_ent. simpl. destruct (device_down g); simpl; by destruct (Z.eqb_spec (ent_ret x) 0). }
    rewrite Hy. by destruct (Z.eqb_spec (ent_ret x) 0). }
  clear u Hu. destruct Hgv as [u Hu]. destruct d as [st c].
  assert (H : runs (comp_one g false ct (ent_idx x)) (mkdrv st c) (fun _ _ => True)).
  { eapply (runs_comp_waiter g cls ct e x lay 0 u b m D); eauto. intros _. by rewrite Hcs. }
  destruct H as (r' & s' & E & _). rewrite E. done.
Qed.

Lemma post_comp_handler ct i d (Q : Z + unit -> drv C -> Prop) :
  (i < nslots g)%nat -> (g_log_sz g <= 5)%nat -> post (comp_one g false ct i) d Q -> post (mlx5_cmd_comp_handler g (slot_bit i) ct) d Q.
Proof. intros Hi Hg H r d'. rewrite comp_handler_one by done. apply H. Qed.

Section Reachable.
Context (d : drv C) (e : nat) (x : work_ent) (Hg : (g_log_sz g <= 5)%nat) (Hs : sinv g (sl d)) (Hx : s_ents (sl d) !! e = Some x).

Lemma start_is_step : queued x -> post (work_start g e) d (is_step d).
Proof. intros Hq. apply post_work_start. intros x' i d' Hx' He. simplify_eq. split; [eauto|]. by eapply step_start. Qed.
Lemma event_is_step : holder x = true -> post (mlx5_cmd_comp_handler g (slot_bit (ent_idx x)) COMP_EVENT) d (is_step d).
Proof.
  intros Hh. destruct (si_own _ _ Hs _ _ Hx Hh) as (Hi & Ha & _). apply post_comp_handler; [done|done|].
  apply post_comp_one. intros e' x' d' He' Hx' Hc. simplify_eq. split; [eauto|]. by eapply step_event.
Qed.
Lemma inflight_holder : inflight x = true -> holder x = true.
Proof. intros Hf. unfold holder. by rewrite Hf. Qed.
Lemma poll_is_step : inflight x = true -> post (mlx5_cmd_comp_handler g (slot_bit (ent_idx x)) COMP_POLLING) d (is_step d).
Proof.
  intros Hf. destruct (si_own _ _ Hs _ _ Hx (inflight_holder Hf)) as (Hi & Ha & _). apply post_comp_handler; [done|done|].
  apply post_comp_one. intros e' x' d' He' Hx' Hc. simplify_eq. split; [eauto|]. by eapply step_poll.
Qed.
Lemma pending_inflight : ent_pending x = true -> inflight x = true.
Proof. intros Hp. unfold inflight. by rewrite Hp. Qed.
Lemma timeout_is_step :
  ent_pending x = true -> ent_page_queue x = false -> post (wait_func_handle_exec_timeout g e) d (is_step d).
Proof.
  intros Hp Hq. destruct (si_own _ _ Hs _ _ Hx (inflight_holder (pending_inflight Hp))) as (Hi & Ha & _).
  apply post_bind, post_get_ent. intros x' Hx'. simplify_eq.
  apply post_bind, post_mod_ent. intros x' d1 Hx' E1. simplify_eq. apply post_comp_handler; [done|done|].
  apply post_comp_one. intros e' x' d' He' Hx'' Hc. rewrite E1 in He', Hx'', Hc. simpl in He', Hx''.
  assert (e' = e) as -> by congruence. rewrite lookup_insert_eq in Hx''. injection Hx'' as <-. split; [eauto|]. by eapply step_timeout.
Qed.
Lemma timeout_returns cls : ent_pending x = true -> ready cls x d -> wait_func_handle_exec_timeout g e d <> None.
Proof.
  intros Hp Hr. destruct (si_own _ _ Hs _ _ Hx (inflight_holder (pending_inflight Hp))) as (Hi & Ha & _).
  pose proof (comp_returns cls COMP_FORCED (timed x) e (mkdrv (d_mem d) (put_ent e (timed x) (d_rest d))) Hi Hg Ha) as H.
  specialize (H (put_ent_lookup _ _ _) Hp (andb_false_r _)). destruct d as [st c].
  assert (E : wait_func_handle_exec_timeout g e (mkdrv st c) =
              mlx5_cmd_comp_handler g (slot_bit (ent_idx x)) COMP_FORCED (mkdrv st (put_ent e (timed x) c))).
  { unfold wait_func_handle_exec_timeout, get_ent, mod_ent, get_ent, getc, mods, modc, on_rest, es_get, es_mod, es_lift, es_bind.
    simpl in *. rewrite Hx. simpl. by rewrite Hx. }
  rewrite E. apply H. destruct Hr as [A1 A2 A3 A4 A5]. by split.
Qed.
End Reachable.

(** C32. The transition system is that of the code.  In a reachable state, the work
    handler on a queued command, the completion event of a command that holds a
    slot, the end of a poll, and the timeout of a pending regular command do one
    step each and report no error; and they return: the work handler when the
    semaphore and a slot are free, the others when the entry and its output
    message are as the issuer of the command left them. *)
Theorem handlers_are_steps (cls : Z) (d : drv C) (e : nat) (x : work_ent) :
  (g_log_sz g <= 5)%nat -> rtc (step g) (idle_slots g) (sl d) -> s_ents (sl d) !! e = Some x ->
  (queued x -> steps (work_start g e) d
     (g_checksum_disabled g = true /\ 0 < sem_of (ent_page_queue x) (sl d) /\ is_Some (slot_for g (ent_page_queue x) (sl d)))) /\
  (holder x = true -> steps (mlx5_cmd_comp_handler g (slot_bit (ent_idx x)) COMP_EVENT) d
     (ent_pending x = true /\ ent_polling x = false /\ ready cls x d)) /\
  (inflight x = true -> steps (mlx5_cmd_comp_handler g (slot_bit (ent_idx x)) COMP_POLLING) d
     (ent_pending x = true /\ ready cls x d)) /\
  (ent_pending x = true -> ent_page_queue x = false -> steps (wait_func_handle_exec_timeout g e) d (ready cls x d)).
Proof.
  intros Hg Hs%reachable_sinv Hx. assert (Hif : forall z, inflight z = true -> holder z = true) by (intros z Hz; unfold holder; by rewrite Hz).
  split_and!.
  - intros Hq. split; [by eapply start_is_step|]. intros (Hc & Hsem & idx & Hsl). destruct d as [st c].
    assert (H : runs (work_start g e) (mkdrv st c) (fun _ _ => True)); [|by destruct H as (r & s' & E & _); rewrite E].
    eapply (runs_work_start g e x idx (c_pool c)); eauto. unfold signed. by rewrite Hc.
  - intros Hh. split; [by eapply event_is_step|]. intros (Hp & Hpo & Hr). destruct (si_own _ _ Hs _ _ Hx Hh) as (Hi & Ha & _).
    eapply comp_returns; eauto. by rewrite Hpo.
  - intros Hf. split; [by eapply poll_is_step|]. intros (Hp & Hr). destruct (si_own _ _ Hs _ _ Hx (Hif _ Hf)) as (Hi & Ha & _).
    eapply comp_returns; eauto. by rewrite andb_false_r.
  - intros Hp Hq. split; [by eapply timeout_is_step|]. intros Hr.
    assert (Hf : inflight x = true) by (unfold inflight; by rewrite Hp). destruct (si_own _ _ Hs _ _ Hx (Hif _ Hf)) as (Hi & Ha & _).
    eapply timeout_returns; eauto.
Qed.
(** Completing by force the command in slot 0 that the device has not answered. *)
Lemma forced_unanswered cls d e x lay :
  (0 < g_log_sz g <= 5)%nat -> device_down g = false -> s_ent_arr (sl d) !! 0%nat = Some e -> s_ents (sl d) !! e = Some x ->
  ent_pending x = true -> ent_idx x = 0%nat -> ent_ret x = 0 -> ready cls x d ->
  s_lay (sl d) !! 0%nat = Some lay -> lay_status_own lay = CMD_OWNER_HW -> lay_out lay = zeros 16 ->
  exists d' u y, mlx5_cmd_comp_handler g (slot_bit 0) COMP_FORCED d = Some (inr tt, d') /\ mbox_out_status u = 0 /\
    ent_done y = true /\ ent_ret y = 0 /\ ent_status y = 0 /\ ent_uout y = u /\
    s_ents (sl d') = <[e := y]> (s_ents (sl d)) /\ s_lay (sl d') = s_lay (sl d) /\ s_bitmask (sl d') = s_bitmask (sl d) /\
    c_fw (d_rest d') = c_fw (d_rest d) /\
    Forall (fun b => pl_blk (c_pool (d_rest d')) !! box_dma b = None) (msg_next (ent_out x)).
Proof.
  intros [Hg0 Hg] Hdn Ha Hx Hp Hi Hr0 Hrd Hl Hown Hout. pose proof Hrd as [Hcb Hcs _ _ (b & m & D & Ho)].
  assert (Hn : (0 < nslots g)%nat) by (unfold nslots; pose proof (Nat.pow_nonzero 2 (g_log_sz g)); lia).
  rewrite comp_handler_one by done. destruct (ready_gives cls x d lay Hrd) as (r & u & Eu & Hr & Hu). specialize (Hu Hr0).
  set (y := result_ent g false lay 0 (ent_set_pending false x)) in *.
  assert (Ey : msg_first (ent_out y) = zeros 16 /\ ent_ret y = 0 /\ ent_status y = 0)
    by (unfold y, result_ent; rewrite Hdn; simpl; rewrite Hr0; simpl; by rewrite Hout, Hown).
  destruct Ey as (Ef & Er & Es). rewrite Ef in Eu.
  assert (Hst : mbox_out_status u = 0).
  { rewrite Eu. destruct (length (ent_uout x)) as [|n]; [by rewrite Hr|done]. }
  destruct d as [st c]. simpl in *.
  assert (H : runs (comp_one g false COMP_FORCED (ent_idx x)) (mkdrv st c) (fun r d' => r = inr tt /\
    sl d' = release COMP_FORCED x (set_ents (<[e := done_ent u y]> (s_ents (c_slots c))) (c_slots c)) /\
    c_fw (d_rest d') = c_fw c /\ pl_blk (c_pool (d_rest d')) = b)).
  { eapply (runs_comp_waiter g cls COMP_FORCED e x lay 0 u b m D); rewrite ?Hi; eauto; [by rewrite andb_false_r|]. intros _. by rewrite Hcs. }
  rewrite Hi in H. destruct H as (res & d' & E & -> & Esl & Efw & Eb). exists d', u, (done_ent u y).
  rewrite Esl, Eb. unfold release. split_and!; auto; try (by destruct (ent_page_queue x)).
  eapply Forall_impl; [exact (ad_new _ _ _ (proj2 (proj2 Ho)))|]. by intros ? [? _].
Qed.

(** C39. A caller that gives up before its command has a slot completes the
    command in slot 0 instead of its own, since the index of its entry is still
    0.  In every reachable state with a queued command whose worker has announced
    itself and waits for the semaphore, and with a command of another caller
    pending in slot 0 that the device has not answered, when the caller of the
    first times out: the other caller is woken and told that its command
    succeeded, although the firmware has executed nothing since; the blocks of its
    output message are freed while the descriptor, still owned by the device,
    points to them; its slot stays taken; and the command that timed out is not
    completed.  Stated for a device that is up, without checksums, at most 32
    slots, and for a command with a waiting caller whose entry and message are as
    the issuer left them ([ready]). *)
Theorem timeout_completes_another (cls : Z) (s : slots) (d : drv C) e x e0 x0 lay :
  (0 < g_log_sz g <= 5)%nat -> device_down g = false -> rtc (step g) (idle_slots g) s ->
  s_ents s !! e = Some x -> queued x -> ent_idx x = 0%nat -> sl d = with_ent e (ent_set_comp true false x) s ->
  s_ents s !! e0 = Some x0 -> ent_pending x0 = true -> ent_idx x0 = 0%nat -> ready cls x0 d ->
  s_lay (sl d) !! 0%nat = Some lay -> lay_status_own lay = CMD_OWNER_HW -> lay_out lay = zeros 16 ->
  lay_out_ptr lay = chain_dma (msg_next (ent_out x0)) ->
  exists d' y z, wait_func_handle_exec_timeout g e d = Some (inr tt, d') /\
    s_ents (sl d') !! e0 = Some y /\ ent_done y = true /\ ent_ret y = 0 /\ ent_status y = 0 /\
    (checked (0, ent_uout y)).1 = 0 /\ c_fw (d_rest d') = c_fw (d_rest d) /\
    s_lay (sl d') !! 0%nat = Some lay /\
    Forall (fun b => pl_blk (c_pool (d_rest d)) !! box_dma b <> None /\ pl_blk (c_pool (d_rest d')) !! box_dma b = None)
      (msg_next (ent_out x0)) /\
    Z.testbit (s_bitmask (sl d')) 0 = false /\
    s_ents (sl d') !! e = Some z /\ ent_ret z = - ETIMEDOUT /\ ent_done z = false.
Proof.
  intros Hg Hdn Hs%reachable_sinv Hx (Hp & Hd & _) Hi Esl Hx0 Hp0 Hi0 Hrd Hl Hown Hout Hptr.
  assert (Hne : e <> e0) by (intros ->; congruence). set (xw := ent_set_comp true false x) in *.
  assert (Hf0 : inflight x0 = true) by (unfold inflight; by rewrite Hp0).
  assert (Hh0 : holder x0 = true) by (unfold holder; by rewrite Hf0).
  pose proof (eo_ret _ (si_ent _ _ Hs _ _ Hx0) Hf0) as Hr0. destruct (si_own _ _ Hs _ _ Hx0 Hh0) as (_ & Ha & Hb & _).
  rewrite Hi0 in Ha, Hb. destruct d as [st c]. simpl in Esl, Hl. set (d1 := mkdrv st (put_ent e (timed xw) c)).
  destruct (forced_unanswered cls d1 e0 x0 lay) as (d' & u & y & E & Hst & Hdn' & Hry & Hsy & Huy & Ees & Ela & Ebm & Efw & Hfr); try done.
  { simpl. by rewrite Esl. }
  { simpl. rewrite lookup_insert_ne, Esl by done. simpl. by rewrite lookup_insert_ne. }
  { by destruct Hrd; split. }
  simpl in Ees, Ela, Ebm. rewrite Esl in Ees, Ela, Ebm. simpl in Ees, Ela, Ebm. rewrite insert_insert_eq in Ees.
  exists d', y, (timed xw). split_and!; auto.
  - unfold wait_func_handle_exec_timeout, get_ent, mod_ent, get_ent, getc, mods, modc, on_rest, es_get, es_mod, es_lift, es_bind.
    simpl in *. assert (Hw : s_ents (c_slots c) !! e = Some xw) by (rewrite Esl; apply with_ent_lookup).
    rewrite Hw. simpl. rewrite Hw. simpl. rewrite Hi. exact E.
  - rewrite Ees. apply lookup_insert_eq.
  - unfold checked, mlx5_cmd_check. simpl. by rewrite Huy, Hst.
  - rewrite Ela. by rewrite Esl in Hl.
  - pose proof Hrd as [_ _ _ _ (b & m & D & Ho)]. rewrite Forall_forall in *. intros bx Hbx. split; [|by apply Hfr].
    pose proof (ad_in _ _ _ (proj2 (proj2 Ho))) as Hin. rewrite Forall_forall in Hin. destruct (Hin bx Hbx) as (z & Hz & _).
    simpl in *. congruence.
  - rewrite Ebm. exact Hb.
  - rewrite Ees. rewrite lookup_insert_ne by done. apply lookup_insert_eq.
Qed.
End Refine.

(** ** Examples and witnesses *)

Definition ent0 : work_ent := mkent false (mkmsg 0 None 16 (zeros 16) []) (mkmsg 0 None 16 (zeros 16) []) (zeros 16)
  None 0 false false 0 false 0 1 0 false.

(** Two commands queued and started. *)
Definition two_started : slots :=
  started 6 1 ent0 (with_ent 6 ent0 (started 5 0 ent0 (with_ent 5 ent0 (idle_slots (cfg0 false))))).

Lemma two_started_reachable : rtc (step (cfg0 false)) (idle_slots (cfg0 false)) two_started.
Proof.
  eapply rtc_l; [apply (step_queue _ _ 5 ent0); [done|done|done]|].
  eapply rtc_l; [eapply (step_start _ _ 5 ent0); [done|done|apply se_started; done]|].
  eapply rtc_l; [apply (step_queue _ _ 6 ent0); [done|done|done]|].
  eapply rtc_l; [eapply (step_start _ _ 6 ent0); [done|done|apply se_started; done]|].
  apply rtc_refl.
Qed.

Lemma commands_keep_apart_witness :
  s_ent_arr two_started !! 1%nat = Some 6%nat /\ s_sem two_started + Z.of_nat (count (fly false) (s_ents two_started)) = 3.
Proof.
  destruct (commands_keep_apart (cfg0 false) two_started two_started_reachable) as (H1 & _ & H3 & _).
  split; [|exact H3]. exact (proj1 (proj2 (H1 6%nat (started_ent 1 ent0) eq_refl eq_refl))).
Defined.

Lemma two_started_in_time : map_Forall (fun _ x => ent_ret x <> - ETIMEDOUT) (s_ents two_started).
Proof. apply (bool_decide_unpack _). vm_compute. exact I. Qed.

Lemma admitted_finds_slot_witness : exists idx, slot_for (cfg0 false) false two_started = Some idx.
Proof.
  apply (admitted_finds_slot (cfg0 false) two_started two_started_reachable); [exact two_started_in_time|done].
Defined.

(** The interface in the state [two_started]. *)
Definition cmd_two : mlx5_cmd nat := mkcmd (mkpool 0 ∅) two_started [] 0 0 [] 0%nat.

(** The memory with the output message of [ent0]. *)
Definition one_msg : db_priv :=
  match d_kzalloc plenty sizeof_msg (mkdrv idle_mem tt) with Some (_, d) => d_mem d | None => idle_mem end.
Lemma one_msg_owned : owned 64 (msg_mem (ent_out ent0) ∪ ∅) ∅ one_msg.
Proof.
  assert (H : runs (d_kzalloc plenty sizeof_msg) (mkdrv idle_mem tt) 
    (fun r d => match r with inr b => owned 64 ({[b := sizeof_msg]} ∪ ∅) ∅ (d_mem d) | inl _ => True end)).
  { apply (runs_kzalloc plenty 64 tt sizeof_msg idle_mem ∅ ∅); [exact idle_owned|done|]. intros b st' _ Ho. exact Ho. }
  destruct H as (r & d & E & Ho). vm_compute in E. injection E as <- <-. exact Ho.
Qed.

Lemma two_ready : ready (cfg0 false) 64 (started_ent 1 ent0) (mkdrv one_msg cmd_two).
Proof.
  split; [reflexivity|reflexivity|by eexists|done|]. exists ∅, ∅, ∅. split_and!; [exact one_msg_owned|by split|apply adds_nil].
Qed.

Lemma handlers_are_steps_witness :
  steps (cfg0 false) (mlx5_cmd_comp_handler (cfg0 false) (slot_bit 1) COMP_EVENT) (mkdrv one_msg cmd_two) True.
Proof.
  destruct (handlers_are_steps (cfg0 false) 64 (mkdrv one_msg cmd_two) 6 (started_ent 1 ent0)) as (_ & H & _);
    [simpl; lia|exact two_started_reachable|reflexivity|].
  destruct (H eq_refl) as [Hp Hr]. split; [exact Hp|]. intros _. apply Hr. split_and!; [reflexivity|reflexivity|exact two_ready].
Defined.

(** ** Where one command completes another

    [load] is what a caller has done when its command is queued: the part of
    cmd_exec and mlx5_cmd_invoke before queue_work. *)

#[local] Existing Instance demo_pool.

Section Cross.
Context (g : cmd_cfg).
Notation C := (mlx5_cmd nat).
Notation cs := (es (drv C)).

Definition load (inp out : list Z) : cs nat :=
  do! inb := alloc_msg plenty (Z.of_nat (length inp)) in
  do! token := alloc_token in
  do! inb := on_pool (on_rest (mlx5_copy_to_msg inb inp token)) in
  do! outb := on_pool (mlx5_alloc_cmd_msg plenty (Z.of_nat (length out)) token) in
  alloc_cmd plenty inb outb out None (is_manage_pages inp) token false.

(** What the caller of [e] is told when it wakes up, as the end of cmd_exec and
    mlx5_cmd_exec compute it, and whether it was woken. *)
Definition told (e : nat) : cs (Z * bool) :=
  do! ent := get_ent e in
  let err := if negb (ent_ret ent =? 0) then ent_ret ent
             else if negb (ent_status ent =? 0) then status_to_err (ent_status ent) else 0 in
  es_ret ((checked (err, ent_uout ent)).1, ent_done ent).

(** A queue with one slot.  The first command has it; the worker has announced
    the second and waits for the semaphore; the caller of the second gives up. *)
Definition unstarted_timeout : cs (Z * bool) :=
  do! e1 := load inp0 (255 :: zeros 47) in
  do! _ := work_start g e1 in
  do! e2 := load inp0 (255 :: zeros 47) in
  mod_ent e2 (ent_set_comp true false);;
  wait_func_handle_exec_timeout g e2;;
  told e1.

(** Two page commands, the first of which times out; then the device completes
    the first. *)
Definition pages0 : list Z := [1; 8] ++ zeros 14.
Definition pages_timeout : cs (Z * bool) :=
  do! e1 := load pages0 (255 :: zeros 15) in
  do! _ := work_start g e1 in
  wait_func_handle_exec_timeout g e1;;
  do! e2 := load pages0 (255 :: zeros 15) in
  do! _ := work_start g e2 in
  mlx5_cmd_comp_handler g (slot_bit (max_reg_cmds g)) COMP_EVENT;;
  told e2.
End Cross.

(** An instance with one slot, from the calls of two callers on. *)
Example unstarted_timeout_run :
  (fun x => (x.1, c_fw (d_rest x.2))) <$> unstarted_timeout (mkcfg 1 true false 0 false false false)
     (mkdrv idle_mem (mkcmd (mkpool 0 ∅) (idle_slots (mkcfg 1 true false 0 false false false)) (c_caches cmd0) 0 0 [] 0%nat)) =
  Some (inr (0, true), 0%nat).
Proof. vm_compute. reflexivity. Qed.

(** A message of 48 bytes, which has one block, and the memory with it. *)
Definition boxed : mlx5_cmd_msg * drv pool :=
  match mlx5_alloc_cmd_msg plenty 48 1 (mkdrv idle_mem (mkpool 0 ∅)) with
  | Some (inr x, d) => (x, d)
  | _ => (mkmsg 0 None 0 [] [], mkdrv idle_mem (mkpool 0 ∅))
  end.
Lemma boxed_owned : exists b, owns 64 boxed.1 b ∅ ∅ boxed.2 /\ length (msg_next boxed.1) = 1%nat.
Proof.
  assert (H : runs (mlx5_alloc_cmd_msg plenty 48 1) (mkdrv idle_mem (mkpool 0 ∅)) (fun r d =>
    match r with inr x => exists b, owns 64 x b ∅ ∅ d /\ length (msg_next x) = 1%nat | inl _ => True end)).
  { apply (runs_alloc_cmd_msg plenty 64 48 1 idle_mem (mkpool 0 ∅) ∅ ∅); [done|done|exact idle_owned|done|].
    intros st' p' x Ho Hf [Ha _ _] _ _ _ Hl _. exists ∅. split; [by split_and!|]. change (cmd_blocks 48) with 1 in Hl. lia. }
  destruct H as (r & d & E & H). unfold boxed. rewrite E. destruct r as [err|x]; [|exact H].
  exfalso. vm_compute in E. discriminate.
Qed.

Definition ent1 : work_ent := mkent false (mkmsg 0 None 16 (zeros 16) []) boxed.1 (255 :: zeros 47)
  None 0 false false 0 false 0 1 0 false.
(** The first command has slot 0; the second is queued. *)
Definition one_waiting : slots := with_ent 6 ent1 (started 5 0 ent1 (with_ent 5 ent1 (idle_slots (cfg0 false)))).
Lemma one_waiting_reachable : rtc (step (cfg0 false)) (idle_slots (cfg0 false)) one_waiting.
Proof.
  eapply rtc_l; [apply (step_queue _ _ 5 ent1); [done|done|done]|].
  eapply rtc_l; [eapply (step_start _ _ 5 ent1); [done|done|apply se_started; done]|].
  eapply rtc_l; [apply (step_queue _ _ 6 ent1); [done|done|done]|].
  apply rtc_refl.
Qed.

Lemma timeout_completes_another_witness :
  let d := mkdrv (d_mem boxed.2) (mkcmd (d_rest boxed.2) (with_ent 6 (ent_set_comp true false ent1) one_waiting) [] 0 0 [] 0%nat) in
  exists d' y, wait_func_handle_exec_timeout (cfg0 false) 6 d = Some (inr tt, d') /\
    s_ents (c_slots (d_rest d')) !! 5%nat = Some y /\ ent_done y = true /\ ent_ret y = 0 /\ c_fw (d_rest d') = 0%nat.
Proof.
  intros d. destruct (timeout_completes_another (cfg0 false) 64 one_waiting d 6 ent1 5 (started_ent 0 ent1)
    (sign_layout (descriptor (ent_in ent1) (ent_out ent1) (ent_token ent1))))
    as (d' & y & z & E & Hy & Hd & Hr & _ & _ & Hf & _).
  - simpl; lia.
  - done.
  - exact one_waiting_reachable.
  - reflexivity.
  - done.
  - done.
  - reflexivity.
  - reflexivity.
  - done.
  - done.
  - destruct boxed_owned as (b & Ho & Hl). split; [done|done|by eexists| |].
    + change (ent_out (started_ent 0 ent1)) with boxed.1. rewrite Hl. done.
    + exists b, ∅, ∅. exact Ho.
  - reflexivity.
  - done.
  - done.
  - done.
  - exists d', y. split_and!; [exact E|exact Hy|exact Hd|exact Hr|exact Hf].
Defined.

(** The slot of page commands is taken without looking whether a command that
    timed out still has it: the late completion of the first command completes
    the second, which the firmware has not executed, as a success. *)
Theorem pages_timeout_completes_next :
  (fun x => (x.1, c_fw (d_rest x.2))) <$> pages_timeout (cfg0 false)
     (mkdrv idle_mem (mkcmd (mkpool 0 ∅) (idle_slots (cfg0 false)) (c_caches cmd0) 0 0 [] 0%nat)) =
  Some (inr (0, true), 0%nat).
Proof. vm_compute. reflexivity. Qed.

(** ** Flushing after a failure *)

(** A command in flight when the device fails and mlx5_cmd_flush triggers the
    completions, before or after a page command has gone through. *)
Definition one_command (pages : bool) : es (drv (mlx5_cmd nat)) (Z * bool) :=
  let g := cfg0 false in
  (when pages then!
    (do! e := load pages0 (255 :: zeros 15) in
     do! _ := work_start g e in
     mlx5_cmd_comp_handler g (slot_bit (max_reg_cmds g)) COMP_EVENT;;
     free_cmd e));;
  do! e := load inp0 (255 :: zeros 47) in
  do! _ := work_start g e in
  mlx5_cmd_trigger_completions (mkcfg 2 true false 0 false true false);;
  told e.

(** A command in flight when the device fails: its caller is told that it
    succeeded, since the status that stands for an abort is mapped to no error
    and the output it is checked against is zero.  And before the first page
    command the driver crashes there: the bit of the page slot is clear from the
    start, so its entry, which is NULL, is followed. *)
Theorem aborted_command_succeeds :
  let d := mkdrv idle_mem (mkcmd (mkpool 0 ∅) (idle_slots (cfg0 false)) (c_caches cmd0) 0 0 [] 0%nat) in
  (fun x => (x.1, c_fw (d_rest x.2))) <$> one_command true d = Some (inr (0, true), 0%nat) /\ one_command false d = None.
Proof. vm_compute. done. Qed.
