(* ===== verification/CmdInit.v ===== *)
(** * CmdInit: setting up and removing the command interface (mlx5/core/cmd.c)

    mlx5_cmd_init makes the DMA pool, the page of descriptors, the message caches
    with their sysfs objects, the work queue and the debugfs files, or leaves
    nothing; what it makes satisfies what the theorems about commands assume;
    mlx5_cmd_cleanup gives it back.  When sysfs fails half-way, the clean-up puts
    objects a second time. *)

From stdpp Require Import strings.
From S2P Require Import Prelude ErrState KHeap FragAlloc DbAlloc DrvState CmdMsg CmdExec CmdFw CmdLife CmdCache CmdCall CmdRace.

Open Scope es_scope.

Definition CMD_IF_REV : Z := 5.
Definition MLX5_MAX_COMMANDS : Z := 32.
Definition MLX5_ADAPTER_PAGE_SHIFT : Z := 12.
Definition MLX5_ADAPTER_PAGE_SIZE : Z := 4096.

(** The registers mlx5_cmd_init reads. *)
Record mlx5_init_seg := mkiseg { is_cmdif_rev_fw_sub : Z; is_cmdq_addr_l_sz : Z }.

(** What mlx5_cmd_init leaves in struct mlx5_cmd besides the state of CmdExec:
    pool, page of descriptors with its allocated size, the address written to
    the device, work queue, configuration. *)
Record cmd_if := mkif { if_pool : nat; if_page : nat; if_size : Z; if_dma : Z; if_wq : nat; if_cfg : cmd_cfg }.

(** The kobject of a message cache: whether ch->dev is set, its reference count,
    and whether it is in sysfs, where it holds a reference to its parent. *)
Record ch_kobj := mkkobj { ck_dev : bool; ck_refs : Z; ck_added : bool }.

(** A pointer into debugfs: NULL, to what is there, to what has been removed. *)
Inductive dentry := NoDentry | Dentry | Removed.

(** The command interface with what its set-up makes in sysfs and debugfs: cmd->ko
    and the count of the object it points to, the caches' objects, the file
    real_miss, the directory cmd with its files, and priv.cmdif_debugfs. *)
Record cmd_dev (F : Type) := mkcdev {
  x_cmd : mlx5_cmd F;
  x_ko : option nat;
  x_kref : Z;
  x_ch : list ch_kobj;
  x_file : bool;
  x_dbg : option (list string);
  x_cmdif : dentry;
}.
Arguments mkcdev {F}.
Arguments x_cmd {F}.
Arguments x_ko {F}.
Arguments x_kref {F}.
Arguments x_ch {F}.
Arguments x_file {F}.
Arguments x_dbg {F}.
Arguments x_cmdif {F}.

(** How the kernel answers: kobject_create_and_add, device_create_file,
    kobject_init_and_add, and debugfs (its root, the directory and the files of
    the interface, the directory of the statistics with all that is in it). *)
Record sys_env := mksys {
  ko_ok : bool;
  file_ok : bool;
  add_ok : nat -> bool;
  dbg_root : bool;
  dbg_dir : bool;
  dbg_file : string -> bool;
  dbg_stats : bool;
}.

Definition dbg_files : list string := ["in"; "out"; "out_len"; "status"; "run"]%string.

Section Init.
Context {F : Type} `{HP : !DmaPool} (o : oracle).
(** Kernel objects: the virtual address of an allocation, the sizes of a DMA pool,
    of a work queue and of a kobject. *)
Context (vaddr : nat -> Z) (sizeof_pool sizeof_wq sizeof_ko : Z) (sys : sys_env).
Notation C := (mlx5_cmd F).
Notation X := (cmd_dev F).
Notation cs := (es (drv X)).

Definition set_cmd (c : C) (x : X) : X := mkcdev c (x_ko x) (x_kref x) (x_ch x) (x_file x) (x_dbg x) (x_cmdif x).
Definition set_ko (k : option nat) (n : Z) (x : X) : X := mkcdev (x_cmd x) k n (x_ch x) (x_file x) (x_dbg x) (x_cmdif x).
Definition set_ch (i : nat) (k : ch_kobj) (x : X) : X :=
  mkcdev (x_cmd x) (x_ko x) (x_kref x) (<[i := k]> (x_ch x)) (x_file x) (x_dbg x) (x_cmdif x).
Definition set_file (b : bool) (x : X) : X := mkcdev (x_cmd x) (x_ko x) (x_kref x) (x_ch x) b (x_dbg x) (x_cmdif x).
Definition set_dbg (d : option (list string)) (x : X) : X :=
  mkcdev (x_cmd x) (x_ko x) (x_kref x) (x_ch x) (x_file x) d (x_cmdif x).
Definition set_cmdif (d : dentry) (x : X) : X := mkcdev (x_cmd x) (x_ko x) (x_kref x) (x_ch x) (x_file x) (x_dbg x) d.

Definition on_cmd {A} (m : es (drv C) A) : cs A := on_part x_cmd set_cmd m.
Definition getx : cs X := on_rest es_get.
Definition modx (f : X -> X) : cs unit := on_rest (es_mod f).

Definition d_dma_alloc (size : Z) : cs (option (nat * Z)) := on_heap (fun h => Some (dma_alloc o size h)).
Definition d_dma_free (size : Z) (b : nat) : cs unit := on_heap (fun h => h ← dma_free size b h; Some (tt, h)).

Definition alloc_cmd_page : cs (nat * Z * Z) :=
  do! r := d_dma_alloc MLX5_ADAPTER_PAGE_SIZE in
  match r with
  | None => es_fail (- ENOMEM)
  | Some (b, dma) =>
      if vaddr b .& (MLX5_ADAPTER_PAGE_SIZE - 1) =? 0 then es_ret (b, MLX5_ADAPTER_PAGE_SIZE, dma)
      else
        d_dma_free MLX5_ADAPTER_PAGE_SIZE b;;
        do! r := d_dma_alloc (2 * MLX5_ADAPTER_PAGE_SIZE - 1) in
        match r with
        | None => es_fail (- ENOMEM)
        | Some (b, dma) => es_ret (b, 2 * MLX5_ADAPTER_PAGE_SIZE - 1, ALIGN dma MLX5_ADAPTER_PAGE_SIZE)
        end
  end.
Definition free_cmd_page (b : nat) (size : Z) : cs unit := d_dma_free size b.

(** A pool must be empty when it is destroyed. *)
Definition dma_pool_destroy (pool : nat) : cs unit :=
  do! x := getx in if decide (pl_blk (c_pool (x_cmd x)) = ∅) then d_kfree pool else es_undef.

Definition create_workqueue : cs nat := d_kzalloc o sizeof_wq.
Definition destroy_workqueue (wq : nat) : cs unit := d_kfree wq.

(** ** sysfs *)

(** kobject_put of cmd->ko: the last reference frees it; there is none to drop
    afterwards. *)
Definition put_ko : cs unit :=
  do! x := getx in
  match x_ko x with
  | None => es_ret tt
  | Some b =>
      if 1 <? x_kref x then modx (set_ko (Some b) (x_kref x - 1))
      else if x_kref x =? 1 then (d_kfree b;; modx (set_ko (Some b) 0))
      else es_undef
  end.

(** kobject_put of a cache's object, which is part of struct mlx5_cmd. *)
Definition put_ch (i : nat) : cs unit :=
  do! x := getx in
  do! k := es_lift (x_ch x !! i) in
  if 1 <? ck_refs k then modx (set_ch i (mkkobj (ck_dev k) (ck_refs k - 1) (ck_added k)))
  else if ck_refs k =? 1 then
    (modx (set_ch i (mkkobj (ck_dev k) 0 false));; when ck_added k then! put_ko)
  else es_undef.

Fixpoint put_chs (l : list nat) : cs unit :=
  match l with [] => es_ret tt | i :: r => put_ch i;; put_chs r end.

(** kobject_init_and_add; the reference of an object that could not be added is
    still there. *)
Definition add_ch (i : nat) : cs bool :=
  do! x := getx in
  do! k := es_lift (x_ch x !! i) in
  modx (set_ch i (mkkobj (ck_dev k) 1 (add_ok sys i)));;
  (when add_ok sys i then! modx (fun x => set_ko (x_ko x) (x_kref x + 1) x));;
  es_ret (add_ok sys i).

(** The loop of cmd_sysfs_init, and its label err_put with what follows. *)
Fixpoint add_chs (l : list nat) : cs unit :=
  match l with
  | [] => es_ret tt
  | i :: r =>
      do! ok := add_ch i in
      if ok then
        do! x := getx in
        do! k := es_lift (x_ch x !! i) in
        modx (set_ch i (mkkobj true (ck_refs k) (ck_added k)));;
        add_chs r
      else
        modx (set_file false);;
        put_chs (rev (seq 0 (S i)));;
        put_ko
  end.

(** Its error code is not looked at. *)
Definition cmd_sysfs_init : cs unit :=
  do! r := es_try (d_kzalloc o sizeof_ko) in
  match r with
  | inl _ => modx (set_ko None 0)
  | inr b =>
      if negb (ko_ok sys) then (d_kfree b;; modx (set_ko None 0))
      else
        modx (set_ko (Some b) 1);;
        if negb (file_ok sys) then put_ko
        else
          modx (set_file true);;
          add_chs (seq 0 MLX5_NUM_COMMAND_CACHES)
  end.

Fixpoint put_devs (l : list nat) : cs unit :=
  match l with
  | [] => es_ret tt
  | i :: r =>
      do! x := getx in
      do! k := es_lift (x_ch x !! i) in
      (when ck_dev k then! put_ch i);;
      put_devs r
  end.

Definition cmd_sysfs_cleanup : cs unit :=
  modx (set_file false);;
  put_devs (rev (seq 0 MLX5_NUM_COMMAND_CACHES));;
  do! x := getx in
  when bool_decide (is_Some (x_ko x)) then! (put_ko;; modx (fun x => set_ko None 0 x)).

(** ** debugfs *)

(** mlx5_cmdif_debugfs_init and mlx5_cmdif_debugfs_cleanup of debugfs.c.  The
    first makes a directory with one for each command in it and, when one of them
    fails, removes all and sets the pointer to NULL; its result is not looked at.
    The second leaves the pointer as it is. *)
Definition mlx5_cmdif_debugfs_init : cs unit :=
  when dbg_root sys then! modx (set_cmdif (if dbg_stats sys then Dentry else NoDentry)).
Definition mlx5_cmdif_debugfs_cleanup : cs unit :=
  do! x := getx in
  match x_cmdif x with
  | NoDentry => es_ret tt
  | Dentry => modx (set_cmdif Removed)
  | Removed => es_undef
  end.

Definition clean_debug_files : cs unit :=
  when dbg_root sys then! (mlx5_cmdif_debugfs_cleanup;; modx (set_dbg None)).

Fixpoint make_dbg_files (l : list string) : cs unit :=
  match l with
  | [] => es_ret tt
  | f :: r =>
      if dbg_file sys f then
        (modx (fun x => set_dbg ((fun l => l ++ [f]) <$> x_dbg x) x);; make_dbg_files r)
      else es_fail (- ENOMEM)
  end.

Definition create_debugfs_files : cs unit :=
  if negb (dbg_root sys) then es_ret tt
  else if negb (dbg_dir sys) then es_fail (- ENOMEM)
  else
    modx (set_dbg (Some []));;
    es_cleanup (make_dbg_files dbg_files) clean_debug_files;;
    mlx5_cmdif_debugfs_init.

(** ** The interface *)

Definition init_cfg (log_sz : Z) : cmd_cfg := mkcfg (Z.to_nat log_sz) true true 0 false false false.

(** create_msg_cache and destroy_msg_cache to the end, sysfs included. *)
Definition make_msg_cache : cs unit := on_cmd (create_msg_cache o);; cmd_sysfs_init.
Definition drop_msg_cache : cs unit := on_cmd destroy_msg_cache;; cmd_sysfs_cleanup.

(** From the message caches on. *)
Definition init_caches : cs nat :=
  make_msg_cache;;
  es_cleanup
    (do! wq := create_workqueue in
     es_cleanup create_debugfs_files (destroy_workqueue wq);;
     es_ret wq)
    drop_msg_cache.

Definition init_queue (seg : mlx5_init_seg) (dma : Z) : cs (nat * cmd_cfg) :=
  let cmd_l := is_cmdq_addr_l_sz seg .& 255 in
  let log_sz := (cmd_l >>. 4) .& 15 in
  let log_stride := cmd_l .& 15 in
  if MLX5_MAX_COMMANDS <? (1 <<. log_sz) then es_fail (- EINVAL)
  else if MLX5_ADAPTER_PAGE_SHIFT <? log_sz + log_stride then es_fail (- EINVAL)
  else
    let g := init_cfg log_sz in
    on_cmd (mods (fun s => set_bitmask ((1 <<. Z.of_nat (max_reg_cmds g)) - 1) s));;
    if CMD_IF_REV <? u16 (is_cmdif_rev_fw_sub seg >>. 16) then es_fail (- EOPNOTSUPP)
    else
      on_cmd (mods (fun s => set_sems (Z.of_nat (max_reg_cmds g)) 1 s));;
      if test (u32 dma) 4095 then es_fail (- ENOMEM)
      else do! wq := init_caches in es_ret (wq, g).

(** memset of struct mlx5_cmd. *)
Definition zeroed (x : X) : X :=
  mkcdev (mkcmd (c_pool (x_cmd x)) (mkslots 0 0 0 ∅ ∅ ∅) [] 0 0 (c_called (x_cmd x)) (c_fw (x_cmd x))) None 0
    (replicate MLX5_NUM_COMMAND_CACHES (mkkobj false 0 false)) (x_file x) None (x_cmdif x).

Definition mlx5_cmd_init (seg : mlx5_init_seg) : cs cmd_if :=
  modx zeroed;;
  if negb (u16 (is_cmdif_rev_fw_sub seg >>. 16) =? CMD_IF_REV) then es_fail (- EINVAL)
  else
    do! pool := d_kzalloc o sizeof_pool in
    es_cleanup
      (do! (page, size, dma) := alloc_cmd_page in
       do! (wq, g) := es_cleanup (init_queue seg dma) (free_cmd_page page size) in
       es_ret (mkif pool page size dma wq g))
      (dma_pool_destroy pool).

Definition mlx5_cmd_cleanup (i : cmd_if) : cs unit :=
  clean_debug_files;;
  destroy_workqueue (if_wq i);;
  drop_msg_cache;;
  free_cmd_page (if_page i) (if_size i);;
  dma_pool_destroy (if_pool i).

(** ** Rules *)

Context (cls : Z).
Implicit Types (m : gmap nat Z) (D : gset (nat * nat)) (st : db_priv) (c : C) (x : X).

Lemma runs_getx st x (Q : Z + X -> drv X -> Prop) : Q (inr x) (mkdrv st x) -> runs getx (mkdrv st x) Q.
Proof. intros H. by apply runs_on_rest, runs_get. Qed.
Lemma runs_modx f st x (Q : Z + unit -> drv X -> Prop) : Q (inr tt) (mkdrv st (f x)) -> runs (modx f) (mkdrv st x) Q.
Proof. intros H. by apply runs_on_rest, runs_mod. Qed.
Lemma runs_on_cmd {A} (k : es (drv C) A) st x (Q : Z + A -> drv X -> Prop) :
  runs k (mkdrv st (x_cmd x)) (fun r s' => Q r (mkdrv (d_mem s') (set_cmd (d_rest s') x))) -> runs (on_cmd k) (mkdrv st x) Q.
Proof. apply runs_on_part. Qed.

Lemma runs_dma_alloc size st x m D (Q : Z + option (nat * Z) -> drv X -> Prop) :
  owned cls m D st -> (forall st', owned cls m D st' -> Q (inr None) (mkdrv st' x)) ->
  (forall b t st', m !! b = None -> o b = Some t -> owned cls ({[b := size]} ∪ m) D st' -> Q (inr (Some (b, t))) (mkdrv st' x)) ->
  runs (d_dma_alloc size) (mkdrv st x) Q.
Proof.
  intros Ho HN HS. unfold runs, d_dma_alloc, on_heap. simpl. pose proof Ho as [(_ & _ & _ & _ & Hw) _].
  destruct (dma_alloc o size _) as [[[b t]|] h'] eqn:E; (eexists _, _; split; [done|]).
  - apply dma_alloc_own in E as (Hw' & Hl & Hn & Hb); [|done].
    destruct (owned_grow cls m D st {[b := size]} h') as [Ho' Hd]; auto.
    + by apply map_disjoint_singleton_l.
    + apply HS; [|done|done]. by apply map_disjoint_singleton_l in Hd.
  - apply dma_alloc_none in E as [Hw' Hl]; [|done]. apply HN. by apply owned_same.
Qed.

Lemma runs_dma_free size b st x m D (Q : Z + unit -> drv X -> Prop) :
  owned cls ({[b := size]} ∪ m) D st -> m !! b = None ->
  (forall st', owned cls m D st' -> Q (inr tt) (mkdrv st' x)) -> runs (d_dma_free size b) (mkdrv st x) Q.
Proof.
  intros Ho Hm HQ. destruct (owned_shrink cls m D st {[b := size]} (dma_free size b) Ho) as (h' & E & Ho').
  - by apply map_disjoint_singleton_l.
  - intros h rest Hw Hl Hd. apply dma_free_own; [done|done|]. by apply map_disjoint_singleton_l in Hd.
  - unfold runs, d_dma_free, on_heap. simpl. rewrite E. eexists _, _. split; [done|]. by apply HQ.
Qed.

Lemma runs_alloc_cmd_page st x m D (Q : Z + nat * Z * Z -> drv X -> Prop) :
  owned cls m D st -> (forall st', owned cls m D st' -> Q (inl (- ENOMEM)) (mkdrv st' x)) ->
  (forall b size dma st', m !! b = None -> owned cls ({[b := size]} ∪ m) D st' -> MLX5_ADAPTER_PAGE_SIZE <= size ->
     Q (inr (b, size, dma)) (mkdrv st' x)) ->
  runs alloc_cmd_page (mkdrv st x) Q.
Proof.
  intros Ho HN HS. apply runs_bind, (runs_dma_alloc _ st x m D); [done|intros; by apply runs_fail, HN|].
  intros b t st1 Hb _ Ho1. destruct (_ =? 0); [by apply runs_ret, HS|]. apply runs_bind.
  apply (runs_dma_free _ b st1 x m D); [done|done|]. intros st2 Ho2.
  apply runs_bind, (runs_dma_alloc _ st2 x m D); [done|intros; by apply runs_fail, HN|].
  intros b2 t2 st3 Hb2 _ Ho3. by apply runs_ret, HS.
Qed.

Lemma runs_pool_destroy pool st x m D (Q : Z + unit -> drv X -> Prop) :
  owned cls ({[pool := sizeof_pool]} ∪ m) D st -> m !! pool = None -> pl_blk (c_pool (x_cmd x)) = ∅ ->
  (forall st', owned cls m D st' -> Q (inr tt) (mkdrv st' x)) -> runs (dma_pool_destroy pool) (mkdrv st x) Q.
Proof.
  intros Ho Hm Hb HQ. apply runs_bind, runs_getx. rewrite decide_True by done. by apply (runs_kfree cls _ pool sizeof_pool st m D).
Qed.

(** ** sysfs, when it works *)

(** The device file and the objects of the caches can be made. *)
Definition sys_fine : Prop := file_ok sys = true /\ forall i, (i < MLX5_NUM_COMMAND_CACHES)%nat -> add_ok sys i = true.

Definition no_kobjs : list ch_kobj := replicate MLX5_NUM_COMMAND_CACHES (mkkobj false 0 false).
Definition all_kobjs : list ch_kobj := replicate MLX5_NUM_COMMAND_CACHES (mkkobj true 1 true).

(** Nothing in sysfs, respectively everything, or nothing because there is no memory for the directory. *)
Definition sys_none x : Prop := x_ko x = None /\ x_kref x = 0 /\ x_ch x = no_kobjs /\ x_file x = false.
Definition sys_up x : Prop :=
  sys_none x \/ exists b, x_ko x = Some b /\ x_kref x = 6 /\ x_ch x = all_kobjs /\ x_file x = true.
(** What sysfs takes of the memory. *)
Definition ko_mem (k : option nat) : gmap nat Z := match k with Some b => {[b := sizeof_ko]} | None => ∅ end.

Lemma add_all c b d t st : sys_fine ->
  add_chs (seq 0 MLX5_NUM_COMMAND_CACHES) (mkdrv st (mkcdev c (Some b) 1 no_kobjs true d t))
  = Some (inr tt, mkdrv st (mkcdev c (Some b) 6 all_kobjs true d t)).
Proof.
  intros [_ Ha]. cbn [seq MLX5_NUM_COMMAND_CACHES add_chs].
  unfold add_ch, getx, modx, es_bind, on_rest, es_get, es_mod, es_lift, es_ret. rewrite !Ha by (unfold MLX5_NUM_COMMAND_CACHES; lia).
  reflexivity.
Qed.

Lemma runs_sysfs_init st x m D (Q : Z + unit -> drv X -> Prop) :
  sys_fine -> sys_none x -> owned cls m D st ->
  (forall st' x', sys_up x' -> x_cmd x' = x_cmd x -> x_dbg x' = x_dbg x -> x_cmdif x' = x_cmdif x ->
     ko_mem (x_ko x') ##ₘ m -> owned cls (ko_mem (x_ko x') ∪ m) D st' -> Q (inr tt) (mkdrv st' x')) ->
  runs cmd_sysfs_init (mkdrv st x) Q.
Proof.
  intros Hsys (E1 & E2 & E3 & E4) Ho HQ. pose proof (proj1 Hsys) as Hfile. apply runs_bind, runs_try.
  assert (Hnone : forall st', owned cls m D st' -> Q (inr tt) (mkdrv st' (set_ko None 0 x))).
  { intros st' Ho'. apply HQ; try done; simpl; [by left|apply map_disjoint_empty_l|by rewrite map_empty_union]. }
  apply (runs_kzalloc o cls x sizeof_ko st m D); [done|intros; by apply runs_modx, Hnone|].
  intros b st1 Hb Ho1. destruct (ko_ok sys); cbn [negb].
  - apply runs_bind, runs_modx. rewrite Hfile. cbn [negb]. apply runs_bind, runs_modx. destruct x as [c k n l f d t]. simpl in *. subst.
    eexists _, _. split; [by apply add_all|]. apply HQ; simpl; auto.
    + right. by exists b.
    + by apply map_disjoint_singleton_l.
  - apply runs_bind, (runs_kfree cls _ b sizeof_ko st1 m D); [done|done|]. intros st2 Ho2. by apply runs_modx, Hnone.
Qed.

Lemma put_all c b d t st :
  put_devs (rev (seq 0 MLX5_NUM_COMMAND_CACHES)) (mkdrv st (mkcdev c (Some b) 6 all_kobjs false d t))
  = Some (inr tt, mkdrv st (mkcdev c (Some b) 1 (replicate MLX5_NUM_COMMAND_CACHES (mkkobj true 0 false)) false d t)).
Proof. reflexivity. Qed.
Lemma put_none c k n d t st :
  put_devs (rev (seq 0 MLX5_NUM_COMMAND_CACHES)) (mkdrv st (mkcdev c k n no_kobjs false d t))
  = Some (inr tt, mkdrv st (mkcdev c k n no_kobjs false d t)).
Proof. reflexivity. Qed.

Lemma runs_sysfs_cleanup st x m D (Q : Z + unit -> drv X -> Prop) :
  sys_up x -> ko_mem (x_ko x) ##ₘ m -> owned cls (ko_mem (x_ko x) ∪ m) D st ->
  (forall st' x', x_ko x' = None -> x_file x' = false -> x_cmd x' = x_cmd x -> x_dbg x' = x_dbg x -> x_cmdif x' = x_cmdif x ->
     owned cls m D st' -> Q (inr tt) (mkdrv st' x')) ->
  runs cmd_sysfs_cleanup (mkdrv st x) Q.
Proof.
  intros Hup Hd Ho HQ. apply runs_bind, runs_modx, runs_bind. destruct x as [c k n l f d t]. unfold set_file.
  cbn [x_cmd x_ko x_kref x_ch x_dbg x_cmdif] in *.
  destruct Hup as [(E1 & E2 & E3 & E4)|(b & E1 & E2 & E3 & E4)]; cbn [x_ko x_kref x_ch x_file] in *; subst k n l f; cbn [ko_mem] in *.
  - rewrite map_empty_union in Ho. unfold runs at 1. rewrite put_none. eexists _, _. split; [reflexivity|].
    apply runs_bind, runs_getx, runs_ret. by apply HQ.
  - apply map_disjoint_singleton_l in Hd. unfold runs at 1. rewrite put_all. eexists _, _. split; [reflexivity|].
    apply runs_bind, runs_getx. cbn [x_ko]. rewrite bool_decide_eq_true_2 by done. apply runs_bind, runs_bind, runs_getx.
    cbn [x_ko x_kref Z.ltb Z.compare Pos.compare Pos.compare_cont Z.eqb Pos.eqb].
    apply runs_bind, (runs_kfree cls _ b sizeof_ko st m D); [done|done|]. intros st' Ho'. apply runs_modx, runs_modx. by apply HQ.
Qed.

(** ** debugfs *)

(** The files are there, or debugfs is not, or nothing is. *)
Definition dbg_up x : Prop :=
  x_dbg x = (if dbg_root sys then Some dbg_files else None) /\ x_cmdif x <> Removed /\ (dbg_root sys = false -> x_cmdif x = NoDentry).

Lemma runs_make_dbg l st x (Q : Z + unit -> drv X -> Prop) :
  forall l0, x_dbg x = Some l0 ->
  (forall l1, Q (inl (- ENOMEM)) (mkdrv st (set_dbg (Some l1) x))) -> Q (inr tt) (mkdrv st (set_dbg (Some (l0 ++ l)) x)) ->
  runs (make_dbg_files l) (mkdrv st x) Q.
Proof.
  revert x Q. induction l as [|f l IH]; intros x Q l0 E HN HS; simpl.
  - apply runs_ret. rewrite app_nil_r in HS. destruct x. simpl in *. by rewrite <- E in HS.
  - destruct (dbg_file sys f).
    + apply runs_bind, runs_modx. rewrite E. simpl. apply (IH _ _ (l0 ++ [f])); [done|exact HN|]. by rewrite <- app_assoc.
    + apply runs_fail. specialize (HN l0). destruct x. simpl in *. by rewrite <- E in HN.
Qed.

Lemma runs_create_debugfs st x (Q : Z + unit -> drv X -> Prop) :
  x_dbg x = None -> x_cmdif x = NoDentry -> Q (inl (- ENOMEM)) (mkdrv st x) ->
  (forall d t, dbg_up (set_cmdif t (set_dbg d x)) -> Q (inr tt) (mkdrv st (set_cmdif t (set_dbg d x)))) ->
  runs create_debugfs_files (mkdrv st x) Q.
Proof.
  intros Ed Et HN HS. unfold create_debugfs_files. destruct (dbg_root sys) eqn:Hr; cbn [negb].
  - destruct (dbg_dir sys); cbn [negb]; [|by apply runs_fail]. apply runs_bind, runs_modx, runs_bind, runs_cleanup.
    apply (runs_make_dbg _ _ _ _ []); [done| |].
    + intros l1. unfold clean_debug_files. rewrite Hr. apply runs_bind, runs_bind, runs_getx. simpl. rewrite Et.
      apply runs_ret, runs_modx. destruct x. simpl in *. by subst.
    + unfold mlx5_cmdif_debugfs_init. rewrite Hr. apply runs_modx. specialize (HS (Some dbg_files) (if dbg_stats sys then Dentry else NoDentry)).
      apply HS. unfold dbg_up. rewrite Hr. simpl. by destruct (dbg_stats sys).
  - apply runs_ret. specialize (HS None NoDentry). destruct x. simpl in *. subst. apply HS. unfold dbg_up. by rewrite Hr.
Qed.

Lemma runs_clean_debug st x (Q : Z + unit -> drv X -> Prop) :
  dbg_up x -> (forall t, t <> Dentry -> Q (inr tt) (mkdrv st (set_cmdif t (set_dbg None x)))) ->
  runs clean_debug_files (mkdrv st x) Q.
Proof.
  intros (Ed & Et & Er) HQ. unfold clean_debug_files. destruct (dbg_root sys) eqn:Hr.
  - apply runs_bind, runs_bind, runs_getx. destruct x as [c k n l f d t]. simpl in *. destruct t; [|by apply runs_modx, runs_modx, (HQ Removed)|done].
    by apply runs_ret, runs_modx, (HQ NoDentry).
  - apply runs_ret. specialize (HQ NoDentry). destruct x. simpl in *. rewrite Er, Ed by done. by apply HQ.
Qed.

(** ** From the caches on *)

(** The caches, their sysfs objects, the work queue and the debugfs files over the memory [m]. *)
Record caches_ready m D (wq : nat) (d : drv X) : Prop := {
  cr_wq : (ko_mem (x_ko (d_rest d)) ∪ m) !! wq = None;
  cr_ko : ko_mem (x_ko (d_rest d)) ##ₘ m;
  cr_ok : cache_ok (c_caches (x_cmd (d_rest d)));
  cr_stack : stack cls ∅ (cached (c_caches (x_cmd (d_rest d)))) ({[wq := sizeof_wq]} ∪ (ko_mem (x_ko (d_rest d)) ∪ m)) D
    (mkdrv (d_mem d) (c_pool (x_cmd (d_rest d))));
  cr_sys : sys_up (d_rest d);
  cr_dbg : dbg_up (d_rest d);
}.

(** Nothing of the interface is left. *)
Definition if_none x : Prop :=
  pl_blk (c_pool (x_cmd x)) = ∅ /\ x_ko x = None /\ x_file x = false /\ x_dbg x = None /\ x_cmdif x <> Dentry.

(** A block of sysfs besides the messages of the caches. *)
Lemma ko_beside k L m : msgs_fresh m L -> ko_mem k ##ₘ msgs_mem L ∪ m ->
  msgs_fresh (ko_mem k ∪ m) L /\ ko_mem k ∪ (msgs_mem L ∪ m) = msgs_mem L ∪ (ko_mem k ∪ m) /\ ko_mem k ##ₘ m.
Proof.
  destruct k as [b|]; simpl; [|intros Hf _; rewrite ?map_empty_union in *; by split_and!; [..|apply map_disjoint_empty_l]].
  intros Hf Hd%map_disjoint_singleton_l. destruct (msgs_beside b sizeof_ko L m Hf Hd) as (? & ? & ?).
  split_and!; [done|done|by apply map_disjoint_singleton_l].
Qed.

(** The caches and sysfs are emptied. *)
Lemma runs_drop_cache st x m D (Q : Z + unit -> drv X -> Prop) :
  stack cls ∅ (cached (c_caches (x_cmd x))) (ko_mem (x_ko x) ∪ m) D (mkdrv st (c_pool (x_cmd x))) -> ko_mem (x_ko x) ##ₘ m -> sys_up x ->
  (forall st' x', owned cls m D st' -> pl_blk (c_pool (x_cmd x')) = ∅ -> x_ko x' = None -> x_file x' = false ->
     x_dbg x' = x_dbg x -> x_cmdif x' = x_cmdif x -> Q (inr tt) (mkdrv st' x')) ->
  runs drop_msg_cache (mkdrv st x) Q.
Proof.
  intros Hst Hd Hup HQ. apply runs_bind, runs_on_cmd. eapply (runs_destroy_msg_cache cls ∅); [exact Hst|].
  intros st1 n l Ho1 _ _. eapply (runs_sysfs_cleanup st1 _ m D); [exact Hup|exact Hd|exact Ho1|].
  intros st2 x' Hk Hf Hc Hdb Ht Ho2. apply HQ; auto. rewrite Hc. done.
Qed.

Lemma runs_init_caches st x m D (Q : Z + nat -> drv X -> Prop) :
  sys_fine -> owned cls m D st -> pl_blk (c_pool (x_cmd x)) = ∅ -> sys_none x -> x_dbg x = None -> x_cmdif x = NoDentry ->
  (forall st' x', owned cls m D st' -> if_none x' -> Q (inl (- ENOMEM)) (mkdrv st' x')) ->
  (forall wq d, caches_ready m D wq d -> c_slots (x_cmd (d_rest d)) = c_slots (x_cmd x) -> Q (inr wq) d) ->
  runs init_caches (mkdrv st x) Q.
Proof.
  intros Hsys Ho Hb Hnone Hdb Ht HN HS. apply runs_bind, runs_bind, runs_on_cmd.
  apply (runs_create_msg_cache o cls ∅ st _ m D); [done|done|]. intros st1 p1 l Hk Hc _ _. pose proof Hk as [Ho1 Hf1 Hb1].
  apply (runs_sysfs_init st1 _ (msgs_mem (cached l) ∪ m) D); [done|exact Hnone|exact Ho1|]. simpl. intros st2 x2 Hup Ec Ed Et Hd2 Ho2.
  destruct (ko_beside _ _ _ Hf1 Hd2) as (Hf2 & E2 & Hdm). rewrite E2 in Ho2. apply runs_cleanup, runs_bind.
  assert (Hst : forall st', owned cls (msgs_mem (cached l) ∪ (ko_mem (x_ko x2) ∪ m)) D st' ->
    stack cls ∅ (cached (c_caches (x_cmd x2))) (ko_mem (x_ko x2) ∪ m) D (mkdrv st' (c_pool (x_cmd x2)))) by (intros; by rewrite Ec).
  assert (Hundo : forall st', owned cls (msgs_mem (cached l) ∪ (ko_mem (x_ko x2) ∪ m)) D st' ->
    runs drop_msg_cache (mkdrv st' x2) (fun _ s'' => Q (inl (- ENOMEM)) s'')).
  { intros st' Ho'. apply (runs_drop_cache st' x2 m D); auto. intros st3 x3 Ho3 Hp3 Hk3 Hfi3 Hd3 Ht3. apply HN; [done|].
    split_and!; auto; [congruence|]. rewrite Ht3, Et, Ht. done. }
  apply (runs_kzalloc o cls _ sizeof_wq st2 (msgs_mem (cached l) ∪ (ko_mem (x_ko x2) ∪ m)) D); [exact Ho2|exact Hundo|]. intros wq st3 Hwq Ho3.
  apply runs_bind, runs_cleanup, runs_create_debugfs; [congruence|congruence| |].
  - apply (runs_kfree cls _ wq sizeof_wq st3 (msgs_mem (cached l) ∪ (ko_mem (x_ko x2) ∪ m)) D); [exact Ho3|done|]. exact Hundo.
  - intros d t Hup'. apply runs_ret. destruct (msgs_beside wq sizeof_wq (cached l) _ Hf2 Hwq) as (Hf & E & Hm).
    apply HS; [|simpl; by rewrite Ec]. split; simpl; rewrite ?Ec; auto. split; [|done|done]. simpl. by rewrite <- E.
Qed.

Lemma runs_init_queue seg dma st x m D (Q : Z + nat * cmd_cfg -> drv X -> Prop) :
  sys_fine -> owned cls m D st -> pl_blk (c_pool (x_cmd x)) = ∅ -> c_slots (x_cmd x) = mkslots 0 0 0 ∅ ∅ ∅ ->
  sys_none x -> x_dbg x = None -> x_cmdif x = NoDentry ->
  (forall e st' x', owned cls m D st' -> if_none x' -> Q (inl e) (mkdrv st' x')) ->
  (forall wq log_sz d, caches_ready m D wq d -> 0 <= log_sz <= 5 -> dma mod 4096 = 0 ->
     c_slots (x_cmd (d_rest d)) = idle_slots (init_cfg log_sz) -> Q (inr (wq, init_cfg log_sz)) d) ->
  runs (init_queue seg dma) (mkdrv st x) Q.
Proof.
  intros Hsys Ho Hb Hs Hnone Hdb Hcm HN HS. unfold init_queue. cbn zeta. set (log_sz := (_ >>. 4) .& 15).
  assert (HN' : forall e f, Q (inl e) (mkdrv st (set_cmd (set_slots f (x_cmd x)) x))).
  { intros e f. destruct Hnone as (? & _ & _ & ?). apply HN; [done|]. split_and!; simpl; auto. by rewrite Hcm. }
  assert (HN0 : forall e, Q (inl e) (mkdrv st x)).
  { intros e. specialize (HN' e (c_slots (x_cmd x))). destruct x as [[] ? ? ? ? ? ?]. exact HN'. }
  assert (Hl : 0 <= log_sz) by (apply Z.land_nonneg; by right).
  destruct (Z.ltb_spec MLX5_MAX_COMMANDS (1 <<. log_sz)) as [|Hmax]; [by apply runs_fail|].
  destruct (_ <? _); [by apply runs_fail|]. apply runs_bind, runs_on_cmd, runs_mods.
  destruct (_ <? _); [by apply runs_fail, HN'|]. apply runs_bind, runs_on_cmd, runs_mods.
  destruct (test (u32 dma) 4095) eqn:Ht; [by apply runs_fail, HN'|].
  assert (Hl5 : log_sz <= 5).
  { rewrite Z.shiftl_1_l in Hmax. unfold MLX5_MAX_COMMANDS in Hmax. apply (Z.pow_le_mono_r_iff 2); lia. }
  assert (Hd : dma mod 4096 = 0).
  { unfold test in Ht. apply negb_false_iff, Z.eqb_eq in Ht. change 4095 with (2 ^ 12 - 1) in Ht.
    rewrite land_mask, u32_mod in Ht by lia. exact Ht. }
  apply runs_bind, (runs_init_caches st _ m D); [done|done|done|done|done|done|intros; by apply HN|].
  intros wq d Hc Hcs. apply runs_ret, HS; auto. rewrite Hcs. simpl. rewrite Hs. unfold idle_slots, set_sems, set_bitmask. simpl.
  by rewrite Z.shiftl_1_l.
Qed.

(** What there is besides the caches once the interface is set up. *)
Definition if_mem (i : cmd_if) (k : option nat) m : gmap nat Z :=
  {[if_wq i := sizeof_wq]} ∪ (ko_mem k ∪ ({[if_page i := if_size i]} ∪ ({[if_pool i := sizeof_pool]} ∪ m))).

Lemma runs_cleanup_all i m D (d : drv X) (Q : Z + unit -> drv X -> Prop) :
  caches_ready ({[if_page i := if_size i]} ∪ ({[if_pool i := sizeof_pool]} ∪ m)) D (if_wq i) d ->
  m !! if_pool i = None -> ({[if_pool i := sizeof_pool]} ∪ m) !! if_page i = None ->
  (forall st' x', owned cls m D st' -> if_none x' -> Q (inr tt) (mkdrv st' x')) ->
  runs (mlx5_cmd_cleanup i) d Q.
Proof.
  intros [Hwq Hko Hc Hk Hup Hdb] Hpool Hpage HQ. destruct d as [st x]. simpl in *. set (m2 := {[if_page i := if_size i]} ∪ _) in *.
  apply runs_bind, runs_clean_debug; [done|]. intros t Ht. destruct Hk as [Ho Hf Hb]. simpl in *.
  destruct (msgs_top _ (if_wq i) sizeof_wq _ Hf Hwq) as (Hf2 & E & Hn). rewrite E in Ho.
  apply runs_bind, (runs_kfree cls _ (if_wq i) sizeof_wq st _ D _ Ho Hn). intros st1 Ho1. apply runs_bind.
  apply (runs_drop_cache st1 _ m2 D); [by split|done|exact Hup|]. intros st2 x2 Ho2 Hp2 Hk2 Hf3 Hd2 Ht2.
  apply runs_bind, (runs_dma_free (if_size i) (if_page i) st2 _ ({[if_pool i := sizeof_pool]} ∪ m) D); [done|done|].
  intros st3 Ho3. apply (runs_pool_destroy (if_pool i) st3 _ m D); [done|done|done|]. intros st4 Ho4. apply HQ; [done|].
  split_and!; auto. simpl in Ht2. by rewrite Ht2.
Qed.

(** C35. Setting up the command interface, whatever the device reports, whichever
    allocations fail and whether or not debugfs works: on an error nothing is left,
    neither memory nor anything in sysfs or debugfs; otherwise the descriptors are
    aligned, the queue has at most 32 slots, those of regular commands all free,
    the caches hold messages of their sizes, as many as memory allowed - the state
    the theorems about commands start from - and cleaning up gives everything back.
    Assumed: the memory is accounted for, no interface is set up before (its DMA
    pool is empty, there is no file real_miss and no statistics directory), and
    sysfs takes the file real_miss and the objects of the caches once it has
    made their directory; if it does not, the objects are put twice. *)
Theorem cmd_init_all_or_nothing seg m D st x :
  sys_fine -> owned cls m D st -> pl_blk (c_pool (x_cmd x)) = ∅ -> x_file x = false -> x_cmdif x = NoDentry ->
  runs (mlx5_cmd_init seg) (mkdrv st x) (fun r d =>
    match r with
    | inl _ => owned cls m D (d_mem d) /\ if_none (d_rest d)
    | inr i => cmd_inv cls ∅ (if_mem i (x_ko (d_rest d)) m) D (mkdrv (d_mem d) (x_cmd (d_rest d))) /\
        (g_log_sz (if_cfg i) <= 5)%nat /\ device_down (if_cfg i) = false /\
        c_slots (x_cmd (d_rest d)) = idle_slots (if_cfg i) /\ if_dma i mod 4096 = 0 /\
        runs (mlx5_cmd_cleanup i) d (fun r d' => r = inr tt /\ owned cls m D (d_mem d') /\ if_none (d_rest d'))
    end).
Proof.
  intros Hsys Ho Hb Hfile Hcm. apply runs_bind, runs_modx.
  assert (Hz : if_none (zeroed x)) by (split_and!; simpl; auto; by rewrite Hcm).
  destruct (negb _); [by apply runs_fail|].
  apply runs_bind, (runs_kzalloc o cls _ sizeof_pool st m D); [done|done|]. intros pool st1 Hpool Ho1. apply runs_cleanup.
  assert (Hundo : forall e st' x', owned cls ({[pool := sizeof_pool]} ∪ m) D st' -> if_none x' ->
    runs (dma_pool_destroy pool) (mkdrv st' x') (fun _ d => match (inl e : Z + cmd_if) with
      | inl _ => owned cls m D (d_mem d) /\ if_none (d_rest d) | inr _ => False end)).
  { intros e st' x' Ho' Hn. by apply (runs_pool_destroy pool st' x' m D); [| |apply Hn|]. }
  apply runs_bind, (runs_alloc_cmd_page st1 _ ({[pool := sizeof_pool]} ∪ m) D); [done|intros; by apply (Hundo 0)|].
  intros page size dma st2 Hpage Ho2 _. apply runs_bind, runs_cleanup.
  apply (runs_init_queue seg dma st2 _ ({[page := size]} ∪ ({[pool := sizeof_pool]} ∪ m)) D); try done.
  - intros e st3 x3 Ho3 Hb3. apply (runs_dma_free size page st3 x3 ({[pool := sizeof_pool]} ∪ m) D); [done|done|].
    intros st4 Ho4. by apply (Hundo 0).
  - intros wq log_sz d Hc Hl Hd Hs. apply runs_ret. pose proof Hc as [_ _ Hco Hst _ _]. split_and!; auto.
    + split; [exact Hst|done|]. simpl. rewrite Hs. simpl. intros e [y Hy]. done.
    + simpl. lia.
    + apply (runs_cleanup_all (mkif pool page size dma wq (init_cfg log_sz)) m D); [done|done|done|]. by auto.
Qed.
End Init.

(** sysfs that works. *)
Definition sys0 : sys_env := mksys true true (fun _ => true) true true (fun _ => true) true.
Definition fresh_dev : cmd_dev unit :=
  mkcdev (mkcmd (mkpool 0 ∅) (mkslots 0 0 0 ∅ ∅ ∅) [] 0 0 [] tt) None 0 [] false None NoDentry.

(** A device with four slots of 64 bytes. *)
Lemma cmd_init_all_or_nothing_witness :
  runs (mlx5_cmd_init (HP := demo_pool) plenty (fun b => 4096 * Z.of_nat b) 128 512 64 sys0 (mkiseg 327680 38)) (mkdrv idle_mem fresh_dev)
    (fun r d => match r with
     | inl _ => owned 64 ∅ ∅ (d_mem d) /\ if_none (d_rest d)
     | inr i => cmd_inv 64 ∅ (if_mem 128 512 64 i (x_ko (d_rest d)) ∅) ∅ (mkdrv (d_mem d) (x_cmd (d_rest d))) /\
                c_slots (x_cmd (d_rest d)) = idle_slots (if_cfg i)
     end).
Proof.
  eapply runs_mono;
    [apply (cmd_init_all_or_nothing (HP := demo_pool) plenty (fun b => 4096 * Z.of_nat b) 128 512 64 sys0 64 (mkiseg 327680 38)
              ∅ ∅ idle_mem fresh_dev (conj eq_refl (fun _ _ => eq_refl)) idle_owned eq_refl eq_refl eq_refl)|].
  intros [e|i] d; [done|]. intros (? & _ & _ & ? & _). done.
Defined.

(** ** When sysfs does not take the device file

    cmd_sysfs_init gives up the directory but leaves cmd->ko as it is, and nobody
    looks at its result: the interface works, but removing it puts the object a
    second time, which by then has been freed. *)
Theorem sysfs_failure_puts_twice {F} (o : oracle) (sizeof_ko : Z) (sys : sys_env) (cls : Z) m D st (x : cmd_dev F) :
  owned cls m D st -> ko_ok sys = true -> file_ok sys = false -> sys_none x ->
  runs (cmd_sysfs_init o sizeof_ko sys) (mkdrv st x) (fun _ d =>
    x_ko (d_rest d) = None \/ cmd_sysfs_cleanup d = None).
Proof.
  intros Ho Hk Hf (E1 & E2 & E3 & E4). apply runs_bind, runs_try.
  apply (runs_kzalloc o cls x sizeof_ko st m D); [done|intros; apply runs_modx; by left|].
  intros b st1 Hb Ho1. rewrite Hk. cbn [negb]. apply runs_bind, runs_modx. rewrite Hf. cbn [negb].
  apply runs_bind, runs_getx. cbn [x_ko x_kref set_ko Z.ltb Z.compare Pos.compare Pos.compare_cont Z.eqb Pos.eqb].
  apply runs_bind, (runs_kfree cls _ b sizeof_ko st1 m D); [done|done|]. intros st2 Ho2. apply runs_modx. right.
  destruct x as [c k n l f d t]. simpl in *. subst. reflexivity.
Qed.
